(* ===== verification/_CoqProject ===== *)
-Q . S2P
Prelude.v
TpmTypes.v
Memory.v
Struct.v
Clock.v
Cbc.v
Aes.v
AesProof.v
Camellia.v
NVMem.v
NVReserved.v
NvList.v
NvRam.v
NvIndex.v
NvEntity.v
NvDefine.v
NvFlush.v
NvCap.v
NvProps.v
NvCmd.v
NvCmdProof.v
NvCmdOps.v
NvCmdRefine.v
NvCmdCount.v
NvCmdProps.v
Kdf.v
Session.v
Time.v
TimeProof.v
TimeRun.v
TimeTyping.v
TimeProps.v
SessionSpec.v
SessionRefine.v
SessionRun.v
SessionProps.v
Pcr.v
PcrProof.v
PcrSave.v
PcrLog.v
PcrProps.v
MemProps.v
WireTypes.v
Unmarshal.v
Marshal.v
WireCodec.v
WireWf.v
WireCodecs.v
WireEmitters.v
WireTable.v
ObjectName.v
WireProps.v
CTypes.v
CommandIO.v
DispatchArrays.v
DispatchData.v
DispatchWf.v
Dispatch.v
DispatchProof.v
DispatchRun.v
DispatchProps.v
CommandAttributes.v
CommandProps.v
TpmState.v
Hierarchy.v
ObjectStore.v
Entity.v
Sym.v
CryptProps.v
SessionAuth.v
SessionParse.v
AuthFrame.v
AuthProof.v
SessionResponse.v
ExecCommand.v
Demo.v
AuthProps.v
Ftpm.v
FtpmProps.v
