(* ===== verification/Prelude.v ===== *)
(** * RfTPM: a verification library for the RISC-V firmware TPM

    ** The program

    RfTPM runs the TPM 2.0 reference code (src/ftpm-opensbi/src, headers in
    src/ftpm-opensbi/include/ftpm) in machine mode, as an extension of the
    OpenSBI firmware: a command arrives by an environment call, is executed to
    completion, and its response is copied back.  There is one thread of
    execution.  What makes the code hard is persistence (an encrypted image of
    non-volatile memory on an SD card, with lists kept in its octets), the
    bookkeeping of sessions with truncated identifiers, limits that are to hold
    over power cycles, and octets from outside that are parsed by table-driven
    code.  The parts and how they interact:

    - the entry of the firmware (ftpm.c, mprv.h, mprv.S) copies the octets of a
      command from the caller and those of the response back;
    - ExecCommand.c drives a command: it updates the time (Time.c, Clock.c,
      DA.c), parses the header, the handles (CommandDispatcher.c) and the sessions
      (SessionProcess.c over Session.c, Entity.c, Hierarchy.c, Object.c), lets the
      dispatcher unmarshal the parameters, run the action and marshal what it
      returns, builds the sessions of the response, and commits NV memory;
    - Marshal.c, Unmarshal.c and the tables of CommandDispatchData.h and
      CommandAttributeData.h describe the octets;
    - NVCommands.c works on the entities of NVDynamic.c, two linked lists in the
      octets of NV memory and of RAM; NVReserved.c checks the bounds of every
      access; NVMem.c keeps the image and its file, encrypted by AES in CBC mode
      (src/cryptomini/aes);
    - PCR.c keeps the platform configuration registers;
    - CryptHash.c, CryptSym.c and CryptUtil.c give HMAC, key derivation and the
      symmetric modes, over AES and Camellia (src/cryptomini).

    ** The model

    A C function on global state is a function [S → option (A * S)] (the monad
    [M] below): [None] stands for an execution to which C gives no result (an
    access outside an object, a division by zero, a failing [assert]).  The port
    is built with [NO_LONGJMP]: a failing [pAssert] sets failure mode and
    execution goes on, and that is how it is modelled.  Integers are [Z] with
    the wrap-around of their width written out; memory is a list of octets.  A
    structure that is copied to NV is the list of its octets, and the theorems
    hold for every layout of its members; the structures of the interface are
    records, with the layout of the C ABI in CTypes.v.

    - Foundations.  Prelude.v: the monad, machine integers, octet memories,
      tactics, hints.  TpmTypes.v: constants of the profile, and the interface
      [HashLib].  Memory.v: Memory.c, Bits.c.  Struct.v: structures as octets.
    - Ciphers.  Cbc.v: aes_cbc.c over the interface [BlockCipher].  Aes.v: tables,
      key schedules and block functions of aes_core.c; AesProof.v: decryption
      undoes encryption, and the instance [nv_cipher].  Camellia.v: camellia.c and
      cmll_misc.c, with the same result.  Sym.v: the modes of CryptSym.c and the
      parameter encryption of CryptUtil.c.  Kdf.v: HMAC, KDFa, KDFe, MGF1, XOR.
    - NV memory.  NVMem.v ([PlatNv]), NVReserved.v ([NvState]); NVDynamic.c in
      NvList.v (the list in NV memory, [NvRep]), NvRam.v (orderly RAM, [RamRep]),
      NvIndex.v, NvEntity.v (the invariant [NvInv]), NvDefine.v, NvFlush.v,
      NvCap.v.  NVCommands.c and NV_spt.c in NvCmd.v; NvCmdProof.v sees the octets
      as a map of indices, NvCmdOps.v gives the commands as steps on the map
      ([NvOp], [nv_step]), NvCmdRefine.v the refinement, NvCmdCount.v histories.
    - Sessions.  Session.v: Session.c ([SessState]).  SessionSpec.v: the
      specification ([ASess]: a handle is free, loaded, or saved under its full
      identifier) and the representation [Rep].  SessionRefine.v: each operation
      refines its specification.  SessionRun.v: executions as a step relation.
    - Time.  Clock.v: Clock.c and the system clock of intercept.c.  Time.v: Time.c,
      DA.c, the authorization of an object as the dictionary attack logic sees it,
      the clock and DA commands, [_TPM_Init], TPM2_Startup and TPM2_Shutdown
      ([TimeState]).  TimeProof.v, TimeRun.v (histories with restarts), TimeTyping.v
      (totality).
    - Registers.  Pcr.v: PCR.c, PlatformPCR.c and the PCR commands; PcrProof.v,
      PcrSave.v, PcrLog.v.
    - Octets.  WireTypes.v, Unmarshal.v, Marshal.v: TpmTypes.h, Unmarshal.c,
      Marshal.c.  WireCodec.v: the contracts [Parser], [Emitter] and [Codec];
      WireWf.v, WireCodecs.v, WireEmitters.v: an instance for each function;
      WireTable.v: the functions as lists.  ObjectName.v: names of objects.
    - Dispatch.  CTypes.v, CommandIO.v: layout and the structures of the actions.
      DispatchArrays.v, DispatchData.v: the tables.  Dispatch.v: CommandDispatcher.c,
      IoBuffers.c.  DispatchWf.v, DispatchProof.v, DispatchRun.v: a run follows the
      plan of the command.  CommandAttributes.v: CommandCodeAttributes.c.
    - Authorization and execution.  TpmState.v: the state of the TPM, put together
      from the states above.  Hierarchy.v, ObjectStore.v, Entity.v: Hierarchy.c,
      Object.c, Entity.c.  SessionAuth.v, SessionParse.v, SessionResponse.v:
      SessionProcess.c.  AuthFrame.v, AuthProof.v: what the checks leave alone and
      what one that succeeds says.  ExecCommand.v: ExecCommand.c, Response.c,
      TpmFail.c.  Ftpm.v: the entry of the firmware.  Demo.v: a TPM to run it on.
    - The properties, each with a witness on a concrete input: NvProps.v,
      NvCmdProps.v, SessionProps.v, TimeProps.v, PcrProps.v, MemProps.v, WireProps.v,
      DispatchProps.v, CommandProps.v, CryptProps.v, AuthProps.v, FtpmProps.v.

    What is an argument of the model, because it belongs to code that is not
    modelled: the hash functions ([HashLib], of which only the size of a digest is
    known), the random numbers ([CryptEnv]), what a session needs to know of an
    entity ([SessionEnv], in Session.v alone; the authorization uses Entity.v),
    the members of an object ([ObjectImage]), the layouts ([Layout], [NvLayout],
    [TimeLayout], [FtpmLayout]), the pages the caller may access ([UserAccess]),
    the actions of the commands (of the dispatcher and of [ExecuteCommand]), and
    the startup functions of other parts (of TPM2_Startup).

    ** What the theorems show

    - NV memory (NvProps): defining an index keeps the list well formed, appends
      exactly the new entry, and reports each error without a change; hierarchy
      flush, deletion, eviction, the global lock and startup act on exactly the
      entries they should; the minimum of objects and counters the TPM promises can
      be defined; the image that was committed is the image that is loaded after
      the file was closed and power came back.
    - NV commands (NvCmdProps): each command is a step on a map of indices or
      changes nothing; counters never repeat a value, even when they are deleted and
      defined again; a write lock holds; what was written is read; every branch
      of TPM2_NV_DefineSpace.
    - Sessions (SessionProps): in every reachable state no assertion has failed and
      tracking values are unique; each operation does what the specification with
      unbounded identifiers does, on every branch; a context that was loaded or
      flushed is never accepted again; at the maximum gap the oldest context can
      be recycled.
    - Time (TimeProps): failed authorizations of loaded objects are bounded by the
      time that passes, over restarts; how long a lockout lasts; what a resume
      restores; the operations return and keep the invariant.
    - Registers (PcrProps): a static register is the log of what was measured;
      save and restore; which locality resets which register; bank allocation.
    - Octets (WireProps): unmarshaling keeps to its input and its targets;
      marshaling and unmarshaling are inverse to each other; the name of an object
      determines its public area up to a collision of the hash.
    - Dispatch (DispatchProps, CommandProps): exactly the handles and parameters of
      the octets reach the action, a malformed one is reported with its code and
      number; descriptors, structures and attribute tables agree; the searches end
      and find the command.
    - Ciphers (MemProps, CryptProps): AES and the modes over AES and Camellia are
      inverted by decryption; HMAC is that of RFC 2104.
    - Authorization (AuthProps): no action runs unless every handle that needs it is
      authorized, by the secret or the policy of its entity.
    - Entry (FtpmProps): a command is executed on the octets of the caller, and
      nothing of the caller's memory but the response and the context changes.
    - Where the code does not do what it or its comments say, a theorem states what
      it does: among others nv_full_memory_fails, nv_flush_orderly_counter,
      session_counter_rollover, system_clock_goes_back, clock_wrap_ends_lockout,
      ftpm_overflow and ftpm_stale_command.

    ** Bounds and fuel

    Loops over NV memory take fuel [nv_fuel], more than the number of entries that
    fit (an entry has at least 12 octets of 32768), loops over the orderly RAM
    [ram_fuel]; the binary search over the commands takes more than the entries it has,
    the copies of the entry the number of octets, the rounds of Camellia their
    number: lemmas show that each loop ends before, so that no result depends on it.
    Counts of 64 bits that would have to be exhausted (context identifiers over a
    history, TPM time) are bounded by hypotheses that the comments name; the
    exhausted context counter is a branch of the theorem on saving.

    ** What is not modelled

    TPM2_NV_Certify and the event sequences _TPM_Hash_Start, _Data and _End, which
    work on objects; ObjectLoad, ObjectCreateHMACSequence and ObjectContextLoad;
    the actions of the commands other than those on NV, registers, time, the
    dictionary attack logic, startup and shutdown, so that policy commands and
    context management appear only as the functions of Session.c they call;
    manufacture and ftpm_init; asymmetric cryptography; the hash and big number
    code of src/cryptomini, and FatFs, which are third-party; OpenSBI itself, the
    Linux driver and the TSS client. *)

From Stdlib Require Export ZArith Lia.
From stdpp Require Export base list numbers option.

Local Open Scope Z_scope.

(** ** Notation scope of the development *)

Declare Scope tpm_scope.
Delimit Scope tpm_scope with tpm.

(** ** The effect monad

    A C function that touches global state is a function
    [S → option (A * S)].  [None] is an execution to which C (or the
    platform) gives no result: an access outside an object, a failing
    [assert] of the C library, or a scan that does not end.  A [pAssert]
    that fails is NOT [None]: this port defines [NO_LONGJMP]
    (include/ftpm/GpMacros.h, line 146), so [pAssert] records failure mode
    and execution continues with the next statement. *)

Definition M (S A : Type) : Type := S → option (A * S).

Definition ret {S A} (a : A) : M S A := λ s, Some (a, s).
Definition bind {S A B} (m : M S A) (k : A → M S B) : M S B :=
  λ s, match m s with Some (a, s') => k a s' | None => None end.

Notation "'let!' x ':=' m 'in' k" := (bind m (fun x => k))
  (at level 10, x name, m at level 100, k at level 200,
   format "'[v' 'let!'  x  ':='  m  'in' '/' k ']'") : tpm_scope.
Notation "'let!' ' p ':=' m 'in' k" := (bind m (fun p => k))
  (at level 10, p strict pattern, m at level 100, k at level 200,
   format "'[v' 'let!'  ' p  ':='  m  'in' '/' k ']'") : tpm_scope.
Notation "m ;; k" := (bind m (fun _ => k))
  (at level 100, k at level 200, right associativity) : tpm_scope.
Open Scope tpm_scope.

(** No defined result. *)
Definition undef {S A} : M S A := λ _, None.
(** Read a part of the state. *)
Definition gets {S A} (f : S → A) : M S A := λ s, Some (f s, s).
(** Update the state. *)
Definition modify {S} (f : S → S) : M S unit := λ s, Some (tt, f s).
(** Lift an optional value. *)
Definition of_option {S A} (o : option A) : M S A :=
  λ s, match o with Some a => Some (a, s) | None => None end.

(** The state of a component that can put the TPM in failure mode. *)
Class FailState (S : Type) := { set_failure : S → S }.

(** [pAssert(c)]: [if(!(c)) FAIL(FATAL_ERROR_PARAMETER);], and [FAIL] returns. *)
Definition pAssert {S} `{FailState S} (c : bool) : M S unit :=
  if c then ret tt else modify set_failure.

(** A loop over the elements of a list. *)
Fixpoint for_each {S A} (l : list A) (body : A → M S unit) : M S unit :=
  match l with
  | [] => ret tt
  | x :: l => bind (body x) (λ _, for_each l body)
  end.

Lemma bind_Some {S A B} (m : M S A) (k : A → M S B) s a s' :
  m s = Some (a, s') → bind m k s = k a s'.
Proof. intros H. unfold bind. by rewrite H. Qed.

Lemma bind_inv {S A B} (m : M S A) (k : A → M S B) s r :
  bind m k s = Some r → ∃ a s', m s = Some (a, s') ∧ k a s' = Some r.
Proof.
  unfold bind. destruct (m s) as [[a s']|] eqn:E; [|done].
  intros H. eauto.
Qed.

Lemma pAssert_true {S} `{FailState S} (c : bool) (s : S) :
  c = true → pAssert c s = Some (tt, s).
Proof. by intros ->. Qed.

(** Unfold the monad's combinators without touching the operations. *)
Ltac munfold :=
  unfold bind, ret, gets, modify, undef, of_option in *;
  cbn beta iota in *.

(** One statement of a monadic block: rewrite with what it computes. *)
Tactic Notation "mstep" uconstr(H) := erewrite bind_Some by (apply H; eauto).

(** ** Boolean conditions of the source, as propositions *)

Ltac zbool :=
  repeat match goal with
  | H : context [(_ && _) = true] |- _ => rewrite andb_true_iff in H
  | H : context [(_ && _) = false] |- _ => rewrite andb_false_iff in H
  | H : context [(_ || _) = true] |- _ => rewrite orb_true_iff in H
  | H : context [(_ || _) = false] |- _ => rewrite orb_false_iff in H
  | H : context [negb _ = true] |- _ => rewrite negb_true_iff in H
  | H : context [negb _ = false] |- _ => rewrite negb_false_iff in H
  | H : context [(_ =? _) = true] |- _ => rewrite Z.eqb_eq in H
  | H : context [(_ =? _) = false] |- _ => rewrite Z.eqb_neq in H
  | H : context [(_ <? _) = true] |- _ => rewrite Z.ltb_lt in H
  | H : context [(_ <? _) = false] |- _ => rewrite Z.ltb_ge in H
  | H : context [(_ <=? _) = true] |- _ => rewrite Z.leb_le in H
  | H : context [(_ <=? _) = false] |- _ => rewrite Z.leb_gt in H
  | |- context [(_ && _) = true] => rewrite andb_true_iff
  | |- context [(_ && _) = false] => rewrite andb_false_iff
  | |- context [(_ || _) = true] => rewrite orb_true_iff
  | |- context [(_ || _) = false] => rewrite orb_false_iff
  | |- context [negb _ = true] => rewrite negb_true_iff
  | |- context [negb _ = false] => rewrite negb_false_iff
  | |- context [(_ =? _) = true] => rewrite Z.eqb_eq
  | |- context [(_ =? _) = false] => rewrite Z.eqb_neq
  | |- context [(_ <? _) = true] => rewrite Z.ltb_lt
  | |- context [(_ <? _) = false] => rewrite Z.ltb_ge
  | |- context [(_ <=? _) = true] => rewrite Z.leb_le
  | |- context [(_ <=? _) = false] => rewrite Z.leb_gt
  end.

(** Split on the first integer comparison of the goal, as a proposition. *)
Ltac zcase :=
  match goal with
  | |- context [?a =? ?b] => destruct (Z.eqb_spec a b)
  | |- context [?a <? ?b] => destruct (Z.ltb_spec a b)
  | |- context [?a <=? ?b] => destruct (Z.leb_spec a b)
  end.

(** ** Machine integers *)

Definition wrap (w v : Z) : Z := v mod 2 ^ w.
Abbreviation u8 := (wrap 8).
Abbreviation u16 := (wrap 16).
Abbreviation u32 := (wrap 32).
Abbreviation u64 := (wrap 64).

Lemma wrap_small w v : 0 ≤ v < 2 ^ w → wrap w v = v.
Proof. apply Z.mod_small. Qed.

Lemma wrap_range w v : 0 ≤ w → 0 ≤ wrap w v < 2 ^ w.
Proof. intros. apply Z.mod_pos_bound, Z.pow_pos_nonneg; lia. Qed.

(** Truncation commutes with the bitwise operations. *)
Lemma wrap_testbit w v i : 0 ≤ w → 0 ≤ i → Z.testbit (wrap w v) i = (i <? w) && Z.testbit v i.
Proof. intros. unfold wrap. by rewrite Z.testbit_mod_pow2. Qed.

Lemma wrap_lor w x y : 0 ≤ w → wrap w (Z.lor x y) = Z.lor (wrap w x) (wrap w y).
Proof.
  intros Hw. apply Z.bits_inj'. intros i Hi. rewrite Z.lor_spec, !wrap_testbit, Z.lor_spec by done.
  apply andb_orb_distrib_r.
Qed.

Lemma wrap_lxor w x y : 0 ≤ w → wrap w (Z.lxor x y) = Z.lxor (wrap w x) (wrap w y).
Proof.
  intros Hw. apply Z.bits_inj'. intros i Hi. rewrite Z.lxor_spec, !wrap_testbit, Z.lxor_spec by done.
  by destruct (i <? w).
Qed.

Lemma wrap_land w x y : 0 ≤ w → wrap w (Z.land x y) = Z.land (wrap w x) y.
Proof.
  intros Hw. apply Z.bits_inj'. intros i Hi. rewrite Z.land_spec, !wrap_testbit, Z.land_spec by done.
  by rewrite andb_assoc.
Qed.

Lemma u32_small v : 0 ≤ v < 4294967296 → u32 v = v.
Proof. apply (wrap_small 32). Qed.

(** ** Byte memories

    A C object of bytes is a list of integers; offsets and sizes are [Z] as
    the C code computes them. *)

Abbreviation bytes := (list Z).

Definition blen (m : bytes) : Z := Z.of_nat (length m).
Definition bread (m : bytes) (off n : Z) : bytes :=
  take (Z.to_nat n) (drop (Z.to_nat off) m).
Definition bwrite (m : bytes) (off : Z) (d : bytes) : bytes :=
  take (Z.to_nat off) m ++ d ++ drop (Z.to_nat off + length d) m.
(** [off, off+n) lies inside the object. *)
Definition inb (m : bytes) (off n : Z) : bool :=
  (0 <=? off) && (0 <=? n) && (off + n <=? blen m).
Definition bfill (v n : Z) : bytes := replicate (Z.to_nat n) v.

Lemma blen_nonneg m : 0 ≤ blen m.
Proof. unfold blen; lia. Qed.

Lemma blen_app m1 m2 : blen (m1 ++ m2) = blen m1 + blen m2.
Proof. unfold blen. rewrite length_app. lia. Qed.

Lemma blen_bfill v n : 0 ≤ n → blen (bfill v n) = n.
Proof. intros. unfold blen, bfill. rewrite length_replicate. lia. Qed.

Lemma blen_bread m off n :
  0 ≤ off → 0 ≤ n → off + n ≤ blen m → blen (bread m off n) = n.
Proof.
  unfold blen, bread. intros. rewrite length_take, length_drop. lia.
Qed.

Lemma blen_bwrite m off d :
  0 ≤ off → off + blen d ≤ blen m → blen (bwrite m off d) = blen m.
Proof.
  unfold blen, bwrite. intros.
  rewrite !length_app, length_take, length_drop. lia.
Qed.

Lemma inb_true m off n :
  inb m off n = true ↔ 0 ≤ off ∧ 0 ≤ n ∧ off + n ≤ blen m.
Proof. unfold inb. zbool. tauto. Qed.

Lemma bread_0 m off : bread m off 0 = [].
Proof. done. Qed.

Lemma bread_all m n : n = blen m → bread m 0 n = m.
Proof. intros ->. unfold bread, blen. rewrite Nat2Z.id. apply take_ge. simpl; lia. Qed.

(** Reading inside the region that was just written. *)
Lemma bread_bwrite_in m off d o n :
  0 ≤ off → off + blen d ≤ blen m →
  off ≤ o → 0 ≤ n → o + n ≤ off + blen d →
  bread (bwrite m off d) o n = bread d (o - off) n.
Proof.
  unfold bread, bwrite, blen. intros.
  rewrite drop_app_ge by (rewrite length_take; lia).
  rewrite length_take.
  replace (Z.to_nat o - _)%nat with (Z.to_nat (o - off)) by lia.
  rewrite drop_app_le by lia. rewrite take_app_le; [done|].
  rewrite length_drop. lia.
Qed.

Lemma bread_bwrite_same m off d n :
  0 ≤ off → off + blen d ≤ blen m → n = blen d →
  bread (bwrite m off d) off n = d.
Proof.
  intros ?? ->. pose proof (blen_nonneg d).
  rewrite bread_bwrite_in by lia. rewrite Z.sub_diag. by apply bread_all.
Qed.

(** Reading before or after the region written. *)
Lemma bread_bwrite_before m off d o n :
  0 ≤ o → 0 ≤ n → o + n ≤ off → off + blen d ≤ blen m →
  bread (bwrite m off d) o n = bread m o n.
Proof.
  unfold bread, bwrite, blen. intros.
  rewrite drop_app_le by (rewrite length_take; lia).
  rewrite take_app_le by (rewrite length_drop, length_take; lia).
  rewrite skipn_firstn_comm, take_take. f_equal. lia.
Qed.

Lemma bread_bwrite_after m off d o n :
  0 ≤ off → off + blen d ≤ o → off + blen d ≤ blen m →
  bread (bwrite m off d) o n = bread m o n.
Proof.
  unfold bread, bwrite, blen. intros.
  rewrite drop_app_ge by (rewrite length_take; lia).
  rewrite drop_app_ge by (rewrite length_take; lia).
  rewrite drop_drop, length_take. do 2 f_equal. lia.
Qed.

Lemma bwrite_nil m o : bwrite m o [] = m.
Proof. unfold bwrite. cbn [length app]. rewrite Nat.add_0_r. apply take_drop. Qed.

Lemma bread_bread m o n o' n' :
  0 ≤ o → 0 ≤ o' → 0 ≤ n' → o' + n' ≤ n →
  bread (bread m o n) o' n' = bread m (o + o') n'.
Proof.
  unfold bread. intros.
  rewrite skipn_firstn_comm, take_take, drop_drop. f_equal; [lia|]. f_equal. lia.
Qed.

Lemma bread_split m o n1 n2 :
  0 ≤ o → 0 ≤ n1 → 0 ≤ n2 →
  bread m o (n1 + n2) = bread m o n1 ++ bread m (o + n1) n2.
Proof.
  unfold bread. intros.
  replace (Z.to_nat (o + n1)) with (Z.to_nat o + Z.to_nat n1)%nat by lia.
  rewrite <- drop_drop.
  replace (Z.to_nat (n1 + n2)) with (Z.to_nat n1 + Z.to_nat n2)%nat by lia.
  by rewrite take_take_drop.
Qed.

Lemma bread_app_l m1 m2 o n :
  0 ≤ o → 0 ≤ n → o + n ≤ blen m1 → bread (m1 ++ m2) o n = bread m1 o n.
Proof.
  unfold bread, blen. intros.
  rewrite drop_app_le by lia. apply take_app_le. rewrite length_drop. lia.
Qed.

Lemma bread_app_r m1 m2 o n :
  blen m1 ≤ o → bread (m1 ++ m2) o n = bread m2 (o - blen m1) n.
Proof.
  unfold bread, blen. intros.
  rewrite drop_app_ge by lia. do 2 f_equal. lia.
Qed.

(** Two adjacent writes are one write of the concatenation. *)
Lemma bwrite_bwrite_adjacent m o d1 d2 :
  0 ≤ o → o + blen d1 + blen d2 ≤ blen m →
  bwrite (bwrite m o d1) (o + blen d1) d2 = bwrite m o (d1 ++ d2).
Proof.
  unfold bwrite, blen. intros.
  assert (Ht : Z.to_nat (o + Z.of_nat (length d1)) = (Z.to_nat o + length d1)%nat) by lia.
  rewrite Ht, take_app_ge by (rewrite length_take; lia). rewrite length_take.
  rewrite drop_app_ge by (rewrite length_take; lia). rewrite length_take.
  rewrite <- !app_assoc. f_equal.
  rewrite take_app_le by lia. rewrite (take_ge d1) by lia. f_equal.
  rewrite drop_app_ge by lia. rewrite drop_drop, length_app. do 2 f_equal. lia.
Qed.

Lemma bwrite_bwrite_adjacent_eq m o d1 d2 n :
  n = blen d1 → 0 ≤ o → o + blen d1 + blen d2 ≤ blen m →
  bwrite (bwrite m o d1) (o + n) d2 = bwrite m o (d1 ++ d2).
Proof. intros ->. apply bwrite_bwrite_adjacent. Qed.

(** The second half of a region written first. *)
Lemma bwrite_bwrite_prefix m o d1 d2 :
  0 ≤ o → o + blen d1 + blen d2 ≤ blen m →
  bwrite (bwrite m (o + blen d1) d2) o d1 = bwrite m o (d1 ++ d2).
Proof.
  unfold bwrite, blen. intros.
  assert (Ht : Z.to_nat (o + Z.of_nat (length d1)) = (Z.to_nat o + length d1)%nat) by lia.
  rewrite Ht, take_app_le by (rewrite length_take; lia).
  rewrite take_take, Nat.min_l by lia. f_equal. rewrite <- app_assoc. f_equal.
  rewrite drop_app_ge by (rewrite length_take; lia). rewrite length_take, Nat.min_l by lia.
  by rewrite Nat.sub_diag, length_app, Nat.add_assoc.
Qed.

(** A write inside the middle part of a concatenation. *)
Lemma bwrite_app_mid a e b o d :
  0 ≤ o → o + blen d ≤ blen e →
  bwrite (a ++ e ++ b) (blen a + o) d = a ++ bwrite e o d ++ b.
Proof.
  unfold bwrite, blen. intros.
  replace (Z.to_nat (Z.of_nat (length a) + o)) with (length a + Z.to_nat o)%nat by lia.
  rewrite take_app_add, <- Nat.add_assoc, drop_app_add.
  rewrite take_app_le, drop_app_le by lia. by rewrite <- !app_assoc.
Qed.

(** A write inside a region just written. *)
Lemma bwrite_bwrite_in m o d k e :
  0 ≤ o → o + blen d ≤ blen m → 0 ≤ k → k + blen e ≤ blen d →
  bwrite (bwrite m o d) (o + k) e = bwrite m o (bwrite d k e).
Proof.
  intros Ho Hd Hk He. pose proof (blen_nonneg d).
  assert (Ht : blen (take (Z.to_nat o) m) = o)
    by (unfold blen in *; rewrite length_take; lia).
  assert (Hl : length (bwrite d k e) = length d)
    by (pose proof (blen_bwrite d k e Hk He); unfold blen in *; lia).
  replace (o + k) with (blen (take (Z.to_nat o) m) + k) by lia.
  change (bwrite m o d) with (take (Z.to_nat o) m ++ d ++ drop (Z.to_nat o + length d) m).
  rewrite bwrite_app_mid by done. rewrite <- Hl at 1. done.
Qed.

(** A read that covers the region written. *)
Lemma bread_bwrite_cover m A n o d :
  0 ≤ A → 0 ≤ o → o + blen d ≤ n → A + n ≤ blen m →
  bread (bwrite m (A + o) d) A n = bwrite (bread m A n) o d.
Proof.
  intros. pose proof (blen_nonneg d).
  replace n with (o + (blen d + (n - o - blen d))) at 1 by lia.
  rewrite !bread_split by lia.
  rewrite bread_bwrite_before by lia. rewrite bread_bwrite_same by lia.
  rewrite bread_bwrite_after by lia.
  unfold bwrite, bread, blen in *.
  rewrite take_take, skipn_firstn_comm, !drop_drop. f_equal; [f_equal; lia|].
  f_equal. f_equal; [lia|]. f_equal. lia.
Qed.

(** ** Little-endian images of integers (the RV64 target is little-endian) *)

Fixpoint le_bytes (n : nat) (v : Z) : bytes :=
  match n with
  | O => []
  | S n => v mod 256 :: le_bytes n (v / 256)
  end.

Fixpoint le_val (l : bytes) : Z :=
  match l with
  | [] => 0
  | b :: l => b + 256 * le_val l
  end.

Lemma length_le_bytes n v : length (le_bytes n v) = n.
Proof. revert v; induction n; intros; simpl; auto. Qed.

Lemma blen_le_bytes n v : blen (le_bytes n v) = Z.of_nat n.
Proof. unfold blen. by rewrite length_le_bytes. Qed.

Lemma le_val_bytes n v : 0 ≤ v < 256 ^ Z.of_nat n → le_val (le_bytes n v) = v.
Proof.
  revert v. induction n as [|n IH]; intros v Hv; cbn [le_bytes le_val].
  - simpl in Hv. lia.
  - rewrite IH; [pose proof (Z.div_mod v 256); lia|].
    rewrite Nat2Z.inj_succ, Z.pow_succ_r in Hv by lia.
    split; [apply Z.div_pos; lia|]. apply Z.div_lt_upper_bound; lia.
Qed.

Definition is_byte (b : Z) : Prop := 0 ≤ b < 256.

Lemma le_bytes_byte n v : Forall is_byte (le_bytes n v).
Proof.
  revert v. induction n as [|n IH]; intros v; constructor; [|apply IH].
  unfold is_byte. apply Z.mod_pos_bound. lia.
Qed.

Lemma le_val_range l : Forall is_byte l → 0 ≤ le_val l < 256 ^ blen l.
Proof.
  unfold blen. induction 1 as [|b l Hb _ IH]; [simpl; lia|].
  cbn [le_val length]. rewrite Nat2Z.inj_succ, Z.pow_succ_r by lia.
  unfold is_byte in Hb. lia.
Qed.

Lemma le_bytes_val l : Forall is_byte l → le_bytes (length l) (le_val l) = l.
Proof.
  induction 1 as [|b l Hb _ IH]; [done|]. cbn [le_val length le_bytes].
  unfold is_byte in Hb. f_equal.
  - rewrite (Z.mul_comm 256), Z.mod_add, Z.mod_small by lia. done.
  - rewrite (Z.mul_comm 256), Z.div_add, Z.div_small, Z.add_0_l by lia. done.
Qed.

(** Bytes stay bytes when memory is read or written. *)
(** A concrete list of octets. *)
Lemma all_octets l : forallb (λ x, (0 <=? x) && (x <? 256)) l = true → Forall is_byte l.
Proof.
  intros E. apply list.Forall_forall. intros x Hx. apply list_elem_of_In in Hx.
  eapply forallb_forall in E; [|exact Hx]. unfold is_byte. zbool. lia.
Qed.

Lemma bread_byte m o n : Forall is_byte m → Forall is_byte (bread m o n).
Proof. intros. by apply Forall_take, Forall_drop. Qed.

Lemma bwrite_byte m o d :
  Forall is_byte m → Forall is_byte d → Forall is_byte (bwrite m o d).
Proof.
  intros. unfold bwrite. rewrite !Forall_app.
  repeat split; auto using Forall_take, Forall_drop.
Qed.

Lemma le_val_bread m o n :
  Forall is_byte m → 0 ≤ n → 0 ≤ le_val (bread m o n) < 256 ^ n.
Proof.
  intros Hm Hn. pose proof (le_val_range _ (bread_byte m o n Hm)) as [H1 H2].
  split; [done|]. eapply Z.lt_le_trans; [exact H2|]. apply Z.pow_le_mono_r; [lia|].
  unfold blen, bread. rewrite length_take. lia.
Qed.

(** Membership in a mapped list ([map] of the Standard Library). *)
Lemma elem_map {A B} (f : A → B) x l : x ∈ l → f x ∈ map f l.
Proof. rewrite !list_elem_of_In. apply in_map. Qed.

Lemma elem_map_inv {A B} (f : A → B) y l : y ∈ map f l → ∃ x, y = f x ∧ x ∈ l.
Proof.
  rewrite list_elem_of_In, in_map_iff. intros (x & <- & Hx).
  exists x. by rewrite list_elem_of_In.
Qed.

Lemma elem_filter {A} (p : A → bool) x l : x ∈ List.filter p l ↔ x ∈ l ∧ p x = true.
Proof. rewrite !list_elem_of_In. apply filter_In. Qed.

(** ** The development's hint database

    [tpm] holds the size and range facts about byte memories that the
    components' proofs use as side conditions. *)

Create HintDb tpm.
Create Rewrite HintDb tpm.
#[export] Hint Resolve blen_nonneg le_bytes_byte bread_byte bwrite_byte : tpm.
#[export] Hint Rewrite blen_app blen_le_bytes : tpm.
#[export] Hint Rewrite blen_bfill using lia : tpm.

(** Arithmetic on sizes: expose every [blen] as a nonnegative integer. *)
Ltac blia :=
  autorewrite with tpm in *;
  repeat match goal with
  | |- context [blen ?m] =>
      lazymatch goal with
      | _ : 0 ≤ blen m |- _ => fail
      | _ => pose proof (blen_nonneg m)
      end
  | _ : context [blen ?m] |- _ =>
      lazymatch goal with
      | _ : 0 ≤ blen m |- _ => fail
      | _ => pose proof (blen_nonneg m)
      end
  end; lia.
