(* ===== verification/TpmTypes.v ===== *)
(** * Constants and scalar types of the TPM profile

    The constants of include/ftpm/TpmTypes.h, TpmProfile_Misc.h, Global.h and
    NV.h that the modelled components use, with the values of this build. *)

From S2P Require Import Prelude.
Local Open Scope Z_scope.

(** ** Response codes (TpmTypes.h, lines 342-478) *)

Definition TPM_RC_SUCCESS : Z := 0.
Definition RC_VER1 : Z := 0x100.
Definition RC_FMT1 : Z := 0x080.
Definition RC_WARN : Z := 0x900.
Definition TPM_RC_FAILURE : Z := RC_VER1 + 0x001.
Definition TPM_RC_TOO_MANY_CONTEXTS : Z := RC_VER1 + 0x02E.
Definition TPM_RC_NV_RANGE : Z := RC_VER1 + 0x046.
Definition TPM_RC_NV_SIZE : Z := RC_VER1 + 0x047.
Definition TPM_RC_NV_LOCKED : Z := RC_VER1 + 0x048.
Definition TPM_RC_NV_AUTHORIZATION : Z := RC_VER1 + 0x049.
Definition TPM_RC_NV_UNINITIALIZED : Z := RC_VER1 + 0x04A.
Definition TPM_RC_NV_SPACE : Z := RC_VER1 + 0x04B.
Definition TPM_RC_NV_DEFINED : Z := RC_VER1 + 0x04C.
Definition TPM_RC_ATTRIBUTES : Z := RC_FMT1 + 0x002.
Definition TPM_RC_HIERARCHY : Z := RC_FMT1 + 0x005.
Definition TPM_RC_HANDLE : Z := RC_FMT1 + 0x00B.
Definition TPM_RC_CONTEXT_GAP : Z := RC_WARN + 0x001.
Definition TPM_RC_SESSION_MEMORY : Z := RC_WARN + 0x003.
Definition TPM_RC_SESSION_HANDLES : Z := RC_WARN + 0x005.
Definition TPM_RC_NV_RATE : Z := RC_WARN + 0x020.
Definition TPM_RC_NV_UNAVAILABLE : Z := RC_WARN + 0x023.

(** ** Handle types and ranges (TpmTypes.h, lines 702-798) *)

Definition TPM_HT_PCR : Z := 0x00.
Definition TPM_HT_NV_INDEX : Z := 0x01.
Definition TPM_HT_EXTERNAL_NV : Z := 0x11.
Definition TPM_HT_PERMANENT_NV : Z := 0x12.
Definition TPM_HT_HMAC_SESSION : Z := 0x02.
Definition TPM_HT_LOADED_SESSION : Z := 0x02.
Definition TPM_HT_POLICY_SESSION : Z := 0x03.
Definition TPM_HT_SAVED_SESSION : Z := 0x03.
Definition TPM_HT_PERMANENT : Z := 0x40.
Definition TPM_HT_TRANSIENT : Z := 0x80.
Definition TPM_HT_PERSISTENT : Z := 0x81.

Definition HR_HANDLE_MASK : Z := 0x00FFFFFF.
Definition HR_RANGE_MASK : Z := 0xFF000000.
Definition HR_SHIFT : Z := 24.
Definition HMAC_SESSION_FIRST : Z := Z.shiftl TPM_HT_HMAC_SESSION HR_SHIFT.
Definition POLICY_SESSION_FIRST : Z := Z.shiftl TPM_HT_POLICY_SESSION HR_SHIFT.
Definition PERSISTENT_FIRST : Z := Z.shiftl TPM_HT_PERSISTENT HR_SHIFT.
Definition PERSISTENT_LAST : Z := PERSISTENT_FIRST + 0x00FFFFFF.
Definition PLATFORM_PERSISTENT : Z := PERSISTENT_FIRST + 0x00800000.
Definition NV_INDEX_FIRST : Z := Z.shiftl TPM_HT_NV_INDEX HR_SHIFT.

(** Permanent handles (TpmTypes.h, lines 716-745). *)
Definition TPM_RH_FIRST : Z := 0x40000000.
Definition TPM_RH_OWNER : Z := 0x40000001.
Definition TPM_RH_NULL : Z := 0x40000007.
Definition TPM_RH_UNASSIGNED : Z := 0x40000008.
Definition TPM_RS_PW : Z := 0x40000009.
Definition TPM_RH_LOCKOUT : Z := 0x4000000A.
Definition TPM_RH_ENDORSEMENT : Z := 0x4000000B.
Definition TPM_RH_PLATFORM : Z := 0x4000000C.
Definition TPM_RH_PLATFORM_NV : Z := 0x4000000D.
Definition TPM_RH_FW_NULL : Z := 0x40000143.
Definition TPM_RH_LAST : Z := 0x4004FFFF.

(** ** Profile (TpmProfile_Misc.h, lines 74-128) *)

Definition MAX_ACTIVE_SESSIONS : Z := 64.
Definition MAX_LOADED_SESSIONS : Z := 3.
Definition MIN_EVICT_OBJECTS : Z := 7.
Definition MAX_NV_INDEX_SIZE : Z := 2048.
Definition MAX_NV_BUFFER_SIZE : Z := 1024.
Definition NV_MEMORY_SIZE : Z := 32768.
Definition MIN_COUNTER_INDICES : Z := 8.
Definition ORDERLY_BITS : Z := 8.
Definition RAM_INDEX_SPACE : Z := 512.
(** [MAX_CAP_HANDLES] (Capabilities.h, lines 65-67). *)
Definition MAX_CAP_HANDLES : Z := (1024 - 4 - 4) / 4.
(** [MAX_ORDERLY_COUNT] (TpmCalculatedAttributes.h, line 76). *)
Definition MAX_ORDERLY_COUNT : Z := Z.shiftl 1 ORDERLY_BITS - 1.

(** ** Hash algorithms (TpmTypes.h, lines 86-105; TpmProfile_Common.h, lines 179-191) *)

Definition TPM_ALG_SHA1 : Z := 0x0004.
Definition TPM_ALG_SHA256 : Z := 0x000B.
Definition TPM_ALG_SHA384 : Z := 0x000C.
Definition TPM_ALG_SHA512 : Z := 0x000D.
Definition TPM_ALG_NULL : Z := 0x0010.

(** [sizeof(TPMU_HA)], [sizeof(TPMT_HA)] and [sizeof(TPMU_NAME)]: the largest
    digest, with the two octets of its algorithm, and rounded up to the
    alignment of a handle (TpmTypes.h, lines 1391-1496). *)
Definition sizeof_TPMU_HA : Z := 64.
Definition sizeof_TPMT_HA : Z := 66.
Definition sizeof_TPMU_NAME : Z := 68.

(** ** Session types (TpmTypes.h, lines 555-559) *)

Definition TPM_SE_HMAC : Z := 0x00.
Definition TPM_SE_POLICY : Z := 0x01.
Definition TPM_SE_TRIAL : Z := 0x03.

(** ** Startup types (Global.h, lines 458-463) *)

Inductive STARTUP_TYPE := SU_RESET | SU_RESTART | SU_RESUME.

#[global] Instance STARTUP_TYPE_eq_dec : EqDecision STARTUP_TYPE.
Proof. solve_decision. Defined.

Definition SU_NONE_VALUE : Z := 0xFFFF.
Definition SU_DA_USED_VALUE : Z := SU_NONE_VALUE - 1.
(** [IS_ORDERLY(value)] (NV.h). *)
Definition IS_ORDERLY (value : Z) : bool := value <? SU_DA_USED_VALUE.

(** ** Startup types and more response codes (TpmTypes.h) *)

Definition UT_NV : Z := 1.
Definition UT_ORDERLY : Z := UT_NV + 2.
Definition TPM_SU_CLEAR : Z := 0x0000.
Definition TPM_SU_STATE : Z := 0x0001.
Definition TPM_RC_1 : Z := 0x100.
Definition TPM_RC_P : Z := 0x040.
Definition TPM_RCS_VALUE : Z := RC_FMT1 + 0x004.
Definition TPM_RCS_TYPE : Z := RC_FMT1 + 0x00A.
Definition TPM_RC_LOCALITY : Z := RC_WARN + 0x007.
Definition TPM_RC_2 : Z := 0x200.
Definition TPM_RC_3 : Z := 0x300.
Definition TPM_RC_H : Z := 0x000.
Definition TPM_RC_VALUE : Z := RC_FMT1 + 0x004.
Definition TPM_RC_SIZE : Z := RC_FMT1 + 0x015.
Definition TPM_RC_PCR : Z := RC_VER1 + 0x027.

(** ** Hash descriptors

    [CryptHashGetDigestSize] (CryptHash.c, lines 108-121 and 172-177): the
    descriptor of an implemented hash, or the null descriptor. *)
Definition CryptHashGetDigestSize (hashAlg : Z) : Z :=
  if hashAlg =? TPM_ALG_SHA1 then 20
  else if hashAlg =? TPM_ALG_SHA256 then 32
  else if hashAlg =? TPM_ALG_SHA384 then 48
  else if hashAlg =? TPM_ALG_SHA512 then 64
  else 0.

Lemma digest_size_range alg : 0 ≤ CryptHashGetDigestSize alg ≤ 64.
Proof. unfold CryptHashGetDigestSize. repeat case_match; lia. Qed.

(** [CryptHashGetAlgByIndex] (CryptHash.c): the implemented hashes in the order
    of [HashDefArray]. *)
Definition HASH_COUNT : Z := 4.
Definition hash_algs : list Z := [TPM_ALG_SHA1; TPM_ALG_SHA256; TPM_ALG_SHA384; TPM_ALG_SHA512].
Definition CryptHashGetAlgByIndex (index : Z) : Z :=
  if HASH_COUNT <=? index then TPM_ALG_NULL
  else List.nth (Z.to_nat index) hash_algs TPM_ALG_NULL.

(** ** Handles: src/Handle.c, [HandleGetType()] *)

Definition HandleGetType (handle : Z) : Z :=
  Z.shiftr (Z.land handle HR_RANGE_MASK) HR_SHIFT.

(** ** NV index attributes (TpmTypes.h, lines 2397-2423) *)

Definition TPMA_NV_PPWRITE : Z := Z.shiftl 1 0.
Definition TPMA_NV_OWNERWRITE : Z := Z.shiftl 1 1.
Definition TPMA_NV_AUTHWRITE : Z := Z.shiftl 1 2.
Definition TPMA_NV_POLICYWRITE : Z := Z.shiftl 1 3.
Definition TPMA_NV_PPREAD : Z := Z.shiftl 1 16.
Definition TPMA_NV_OWNERREAD : Z := Z.shiftl 1 17.
Definition TPMA_NV_AUTHREAD : Z := Z.shiftl 1 18.
Definition TPMA_NV_POLICYREAD : Z := Z.shiftl 1 19.
Definition TPMA_NV_NO_DA : Z := Z.shiftl 1 25.
Definition TPMA_NV_TPM_NT_SHIFT : Z := 4.
Definition TPMA_NV_TPM_NT : Z := Z.shiftl 0xf 4.
Definition TPMA_NV_POLICY_DELETE : Z := Z.shiftl 1 10.
Definition TPMA_NV_WRITELOCKED : Z := Z.shiftl 1 11.
Definition TPMA_NV_WRITEALL : Z := Z.shiftl 1 12.
Definition TPMA_NV_WRITEDEFINE : Z := Z.shiftl 1 13.
Definition TPMA_NV_WRITE_STCLEAR : Z := Z.shiftl 1 14.
Definition TPMA_NV_GLOBALLOCK : Z := Z.shiftl 1 15.
Definition TPMA_NV_ORDERLY : Z := Z.shiftl 1 26.
Definition TPMA_NV_CLEAR_STCLEAR : Z := Z.shiftl 1 27.
Definition TPMA_NV_READLOCKED : Z := Z.shiftl 1 28.
Definition TPMA_NV_WRITTEN : Z := Z.shiftl 1 29.
Definition TPMA_NV_PLATFORMCREATE : Z := Z.shiftl 1 30.
Definition TPMA_NV_READ_STCLEAR : Z := Z.shiftl 1 31.

Definition TPM_NT_ORDINARY : Z := 0.
Definition TPM_NT_COUNTER : Z := 1.
Definition TPM_NT_BITS : Z := 2.
Definition TPM_NT_EXTEND : Z := 4.
Definition TPM_NT_PIN_FAIL : Z := 8.
Definition TPM_NT_PIN_PASS : Z := 9.

(** [IS_ATTRIBUTE], [SET_ATTRIBUTE], [CLEAR_ATTRIBUTE] and [GET_ATTRIBUTE] in
    their bit-mask form (GpMacros.h, lines 465-468). *)
Definition IS_ATTRIBUTE (a b : Z) : bool := negb (Z.land a b =? 0).
Definition SET_ATTRIBUTE (a b : Z) : Z := Z.lor a b.
Definition CLEAR_ATTRIBUTE (a b : Z) : Z := Z.ldiff a b.
(** [GET_TPM_NT] and the index kinds (NV.h, lines 68-102). *)
Definition GET_TPM_NT (a : Z) : Z :=
  Z.shiftr (Z.land a TPMA_NV_TPM_NT) TPMA_NV_TPM_NT_SHIFT.
Definition IsNvOrdinaryIndex (a : Z) : bool := GET_TPM_NT a =? TPM_NT_ORDINARY.
Definition IsNvCounterIndex (a : Z) : bool := GET_TPM_NT a =? TPM_NT_COUNTER.
Definition IsNvBitsIndex (a : Z) : bool := GET_TPM_NT a =? TPM_NT_BITS.
Definition IsNvExtendIndex (a : Z) : bool := GET_TPM_NT a =? TPM_NT_EXTEND.

(** ** The hash functions of the crypto library

    A hash of a sequence of octets is a digest of the algorithm's size. *)
Class HashLib := {
  Hash : Z → bytes → bytes;
  Hash_size alg d : blen (Hash alg d) = CryptHashGetDigestSize alg;
  Hash_byte alg d : Forall is_byte (Hash alg d);
}.
