(* ===== verification/Memory.v ===== *)
(** * Memory and bit arrays (src/Memory.c, src/Bits.c)

    The octet-level helpers every component uses: guarded copies between
    sized buffers ([TPM2B]), comparison without early exit, canonical
    (big-endian) integers, and bit arrays.  A buffer is the list of its octets;
    the routines are written for any state that can enter failure mode. *)

From S2P Require Import Prelude.
Local Open Scope Z_scope.

(** ** Copies and comparison (Memory.c, lines 79-111, 171-179) *)

(** [MemoryCopy] inside one object: [memmove], or nothing when the addresses
    are equal. *)
Definition MemoryCopy (m : bytes) (dest src sSize : Z) : bytes :=
  if dest =? src then m else bwrite m dest (bread m src sSize).

(** The loop of [MemoryEqual]: differences are accumulated with [|=] over all
    the octets. *)
Fixpoint MemoryEqual_loop (b1 b2 : bytes) (size : nat) (equal : Z) {struct size} : option Z :=
  match size with
  | O => Some equal
  | S size =>
      match b1, b2 with
      | x :: b1, y :: b2 => MemoryEqual_loop b1 b2 size (u8 (Z.lor equal (Z.lxor x y)))
      | _, _ => None
      end
  end.

Definition MemoryEqual (b1 b2 : bytes) (size : Z) : option bool :=
  e ← MemoryEqual_loop b1 b2 (Z.to_nat size) 0; Some (e =? 0).

Definition MemorySet (m : bytes) (dest value size : Z) : bytes :=
  bwrite m dest (bfill (u8 value) size).

(** ** Sized buffers (Memory.c, lines 112-170, 180-192) *)

Record TPM2B := mkTPM2B { size2B : Z; buffer2B : bytes }.

Section tpm2b.
Context {S : Type} `{FailState S}.

(** Write octets into the buffer of a 2B; the buffer is as long as the caller
    says, and writing past it has no defined result. *)
Definition buffer_write (b : bytes) (off : Z) (d : bytes) : M S bytes :=
  if inb b off (blen d) then ret (bwrite b off d) else undef.
Definition buffer_read (b : bytes) (off n : Z) : M S bytes :=
  if inb b off n then ret (bread b off n) else undef.

Definition MemoryCopy2B (dest : TPM2B) (source : option TPM2B) (dSize : Z) : M S (Z * TPM2B) :=
  match source with
  | None => ret (0, mkTPM2B 0 (buffer2B dest))
  | Some source =>
      pAssert (size2B source <=? dSize) ;;
      let! d := buffer_read (buffer2B source) 0 (size2B source) in
      let! b := buffer_write (buffer2B dest) 0 d in
      ret (size2B source, mkTPM2B (size2B source) b)
  end.

Definition MemoryConcat2B (aInOut bIn : TPM2B) (aMaxSize : Z) : M S TPM2B :=
  pAssert (size2B bIn <=? u32 (aMaxSize - size2B aInOut)) ;;
  let! d := buffer_read (buffer2B bIn) 0 (size2B bIn) in
  let! b := buffer_write (buffer2B aInOut) (size2B aInOut) d in
  ret (mkTPM2B (u16 (size2B aInOut + size2B bIn)) b).

Definition MemoryEqual2B (aIn bIn : TPM2B) : M S bool :=
  if negb (size2B aIn =? size2B bIn) then ret false
  else of_option (MemoryEqual (buffer2B aIn) (buffer2B bIn) (size2B aIn)).

Definition MemoryPad2B (b : TPM2B) (newSize : Z) : M S TPM2B :=
  let! buf := buffer_write (buffer2B b) (size2B b) (bfill 0 (newSize - size2B b)) in
  if newSize <? size2B b then undef       (* the length of the memset wraps *)
  else ret (mkTPM2B newSize buf).

(** ** Bit arrays (Bits.c, lines 76-118) *)

Definition TestBit (bitNum : Z) (bArray : bytes) (bytesInArray : Z) : M S bool :=
  pAssert (Z.shiftr bitNum 3 <? bytesInArray) ;;
  let! b := of_option (bArray !! Z.to_nat (Z.shiftr bitNum 3)) in
  ret (negb (Z.land b (Z.shiftl 1 (Z.land bitNum 7)) =? 0)).

Definition SetBit (bitNum : Z) (bArray : bytes) (bytesInArray : Z) : M S bytes :=
  pAssert (Z.shiftr bitNum 3 <? bytesInArray) ;;
  let i := Z.to_nat (Z.shiftr bitNum 3) in
  let! b := of_option (bArray !! i) in
  ret (<[i := u8 (Z.lor b (Z.shiftl 1 (Z.land bitNum 7)))]> bArray).

Definition ClearBit (bitNum : Z) (bArray : bytes) (bytesInArray : Z) : M S bytes :=
  pAssert (Z.shiftr bitNum 3 <? bytesInArray) ;;
  let i := Z.to_nat (Z.shiftr bitNum 3) in
  let! b := of_option (bArray !! i) in
  ret (<[i := u8 (Z.land b (Z.lnot (Z.shiftl 1 (Z.land bitNum 7))))]> bArray).
End tpm2b.

(** [MemoryRemoveTrailingZeros] (Object_spt.c). *)
Fixpoint trim_zeros (size : nat) (buffer : bytes) : nat :=
  match size with
  | O => O
  | S n => if List.nth n buffer 0 =? 0 then trim_zeros n buffer else size
  end.
Definition MemoryRemoveTrailingZeros (auth : TPM2B) : TPM2B :=
  mkTPM2B (Z.of_nat (trim_zeros (Z.to_nat (size2B auth)) (buffer2B auth))) (buffer2B auth).

(** ** Canonical integers (Memory.c, lines 193-283) *)

Definition Uint16ToByteArray (i : Z) : bytes :=
  [u8 (Z.shiftr i 8); u8 i].
Definition Uint32ToByteArray (i : Z) : bytes :=
  [u8 (Z.shiftr i 24); u8 (Z.shiftr i 16); u8 (Z.shiftr i 8); u8 i].
Definition Uint64ToByteArray (i : Z) : bytes :=
  [u8 (Z.shiftr i 56); u8 (Z.shiftr i 48); u8 (Z.shiftr i 40); u8 (Z.shiftr i 32);
   u8 (Z.shiftr i 24); u8 (Z.shiftr i 16); u8 (Z.shiftr i 8); u8 i].

(** Octet [k] of an array the caller guarantees to be long enough. *)
Definition byte_at (a : bytes) (k : nat) : Z := default 0 (a !! k).

Definition ByteArrayToUint8 (a : bytes) : Z := byte_at a 0.
Definition ByteArrayToUint16 (a : bytes) : Z :=
  u16 (Z.shiftl (byte_at a 0) 8 + byte_at a 1).
Definition ByteArrayToUint32 (a : bytes) : Z :=
  u32 (u32 (Z.shiftl (u32 (Z.shiftl (u32 (Z.shiftl (byte_at a 0) 8) + byte_at a 1) 8)
                       + byte_at a 2) 8) + byte_at a 3).
Definition ByteArrayToUint64 (a : bytes) : Z :=
  u64 (u64 (Z.shiftl (ByteArrayToUint32 a) 32) + ByteArrayToUint32 (drop 4 a)).

(** ** Comparison is equality *)

Lemma trim_zeros_le n b : (trim_zeros n b ≤ n)%nat.
Proof. induction n as [|n IH]; cbn; [done|]. destruct (_ =? 0); lia. Qed.

Lemma lxor_byte_range x y : is_byte x → is_byte y → 0 ≤ Z.lxor x y < 256.
Proof.
  unfold is_byte. intros Hx Hy. rewrite <- (wrap_small 8 x), <- (wrap_small 8 y) by (change (2 ^ 8) with 256; lia).
  rewrite <- wrap_lxor by lia. apply (wrap_range 8); lia.
Qed.

Lemma lor_byte_range x y : 0 ≤ x < 256 → 0 ≤ y < 256 → 0 ≤ Z.lor x y < 256.
Proof.
  intros Hx Hy. rewrite <- (wrap_small 8 x), <- (wrap_small 8 y) by (change (2 ^ 8) with 256; lia).
  rewrite <- wrap_lor by lia. apply (wrap_range 8); lia.
Qed.

Lemma MemoryEqual_loop_spec n b1 b2 e :
  Forall is_byte b1 → Forall is_byte b2 → (n ≤ length b1)%nat → (n ≤ length b2)%nat →
  0 ≤ e < 256 →
  ∃ e', MemoryEqual_loop b1 b2 n e = Some e' ∧ (e' = 0 ↔ e = 0 ∧ take n b1 = take n b2).
Proof.
  revert b1 b2 e. induction n as [|n IH]; intros b1 b2 e H1 H2 L1 L2 He.
  - exists e. split; [done|]. rewrite !take_0. tauto.
  - destruct H1 as [|x b1 Hx H1]; [simpl in L1; lia|].
    destruct H2 as [|y b2 Hy H2]; [simpl in L2; lia|].
    simpl in L1, L2. cbn [MemoryEqual_loop].
    pose proof (lxor_byte_range x y Hx Hy) as Hxy.
    pose proof (lor_byte_range _ _ He Hxy) as Hl.
    rewrite (wrap_small 8) by (change (2 ^ 8) with 256; done).
    destruct (IH b1 b2 (Z.lor e (Z.lxor x y)) H1 H2) as (e' & -> & He'); [lia..|].
    exists e'. split; [done|]. rewrite He'. rewrite Z.lor_eq_0_iff, Z.lxor_eq_0_iff. cbn [take].
    split; [intros [[-> ->] ->]; done|]. intros [-> [= -> ->]]. done.
Qed.

(** [MemoryEqual] compares without early exit and still decides equality. *)
Lemma MemoryEqual_ok b1 b2 size :
  Forall is_byte b1 → Forall is_byte b2 → 0 ≤ size ≤ blen b1 → size ≤ blen b2 →
  MemoryEqual b1 b2 size = Some (bool_decide (bread b1 0 size = bread b2 0 size)).
Proof.
  intros H1 H2 L1 L2. unfold MemoryEqual.
  destruct (MemoryEqual_loop_spec (Z.to_nat size) b1 b2 0 H1 H2) as (e & -> & He);
    [unfold blen in *; lia..|].
  cbn. f_equal. apply Bool.eq_iff_eq_true. rewrite bool_decide_eq_true, Z.eqb_eq, He.
  unfold bread. cbn. tauto.
Qed.

(** ** Canonical integers: the value and the octets determine each other *)

Lemma be32_val a :
  Forall is_byte a → (4 ≤ length a)%nat →
  ByteArrayToUint32 a = le_val (rev (take 4 a)).
Proof.
  intros Ha Hl. destruct Ha as [|a0 ? H0 Ha]; [simpl in Hl; lia|].
  destruct Ha as [|a1 ? H1 Ha]; [simpl in Hl; lia|].
  destruct Ha as [|a2 ? H2 Ha]; [simpl in Hl; lia|].
  destruct Ha as [|a3 ? H3 Ha]; [simpl in Hl; lia|].
  unfold is_byte in *. unfold ByteArrayToUint32, byte_at.
  cbn -[Z.add Z.mul wrap Z.shiftl]. rewrite take_0. cbn -[Z.add Z.mul wrap Z.shiftl].
  rewrite !Z.shiftl_mul_pow2 by lia. change (2 ^ 8) with 256.
  rewrite (u32_small (a0 * 256)) by lia.
  rewrite (u32_small ((a0 * 256 + a1) * 256)) by lia.
  rewrite (u32_small (((a0 * 256 + a1) * 256 + a2) * 256)) by lia.
  rewrite u32_small; lia.
Qed.

Lemma be64_val a :
  Forall is_byte a → (8 ≤ length a)%nat →
  ByteArrayToUint64 a = le_val (rev (take 8 a)).
Proof.
  intros Ha Hl. unfold ByteArrayToUint64.
  rewrite (be32_val a) by (done || lia).
  rewrite (be32_val (drop 4 a)) by (rewrite ?length_drop; auto using Forall_drop || lia).
  do 8 (destruct Ha as [|? ? ? Ha]; [simpl in Hl; lia|]).
  unfold is_byte in *. cbn -[Z.add Z.mul wrap Z.shiftl].
  rewrite !take_0. cbn -[Z.add Z.mul wrap Z.shiftl].
  rewrite Z.shiftl_mul_pow2 by lia. change (2 ^ 32) with 4294967296.
  assert (U : ∀ v, 0 ≤ v < 18446744073709551616 → u64 v = v) by (intros; by apply wrap_small).
  rewrite (U (_ * _)) by lia. rewrite U; lia.
Qed.

Lemma shiftr_div256 v k : 0 ≤ k → Z.shiftr v (8 + k) = Z.shiftr (v / 256) k.
Proof.
  intros. rewrite Z.add_comm, Z.add_comm, <- Z.shiftr_shiftr by lia.
  f_equal. by rewrite Z.shiftr_div_pow2.
Qed.

Lemma be32_bytes i : Uint32ToByteArray i = rev (le_bytes 4 i).
Proof.
  unfold Uint32ToByteArray. cbn -[Z.modulo Z.div wrap Z.shiftr].
  rewrite !Z.shiftr_div_pow2 by lia. rewrite !Zdiv.Zdiv_Zdiv by lia. done.
Qed.

Lemma be64_bytes i : Uint64ToByteArray i = rev (le_bytes 8 i).
Proof.
  unfold Uint64ToByteArray. cbn -[Z.modulo Z.div wrap Z.shiftr].
  rewrite !Z.shiftr_div_pow2 by lia. rewrite !Zdiv.Zdiv_Zdiv by lia. done.
Qed.

Lemma Uint64_roundtrip i :
  0 ≤ i < 2 ^ 64 → ByteArrayToUint64 (Uint64ToByteArray i) = i.
Proof.
  intros Hi. rewrite be64_bytes.
  rewrite be64_val by (rewrite ?length_rev, ?length_le_bytes; try lia;
                       apply Forall_rev, le_bytes_byte).
  rewrite take_ge by (rewrite length_rev, length_le_bytes; lia).
  rewrite rev_involutive. apply le_val_bytes. change (256 ^ Z.of_nat 8) with (2 ^ 64). done.
Qed.

Lemma Uint64_roundtrip_bytes a :
  Forall is_byte a → length a = 8%nat → Uint64ToByteArray (ByteArrayToUint64 a) = a.
Proof.
  intros Ha Hl. rewrite be64_bytes, be64_val by (done || lia).
  rewrite take_ge by lia. rewrite <- (rev_involutive a) at 2. f_equal.
  rewrite <- Hl at 1. rewrite <- (length_rev a). apply le_bytes_val.
  by apply Forall_rev.
Qed.

Lemma ByteArrayToUint64_range a : 0 ≤ ByteArrayToUint64 a < 2 ^ 64.
Proof. apply wrap_range. lia. Qed.

(** ** Sized buffers: contents *)

Definition contents (b : TPM2B) : bytes := bread (buffer2B b) 0 (size2B b).
Definition wf2B (b : TPM2B) : Prop :=
  0 ≤ size2B b ≤ blen (buffer2B b) ∧ blen (buffer2B b) < 65536 ∧ Forall is_byte (buffer2B b).

Section tpm2b_lemmas.
Context {S : Type} `{FailState S}.

Lemma MemoryCopy2B_ok (s : S) dest source :
  wf2B dest → wf2B source → size2B source ≤ blen (buffer2B dest) →
  ∃ d, MemoryCopy2B dest (Some source) (blen (buffer2B dest)) s = Some ((size2B source, d), s) ∧
    contents d = contents source ∧ blen (buffer2B d) = blen (buffer2B dest) ∧ wf2B d.
Proof.
  intros (Hd & Hd' & Bd) (Hs & Hs' & Bs) Hle. unfold MemoryCopy2B.
  erewrite bind_Some by (apply pAssert_true; zbool; lia).
  unfold buffer_read. rewrite (proj2 (inb_true _ _ _)) by lia. unfold bind at 1, ret at 1.
  assert (L : blen (bread (buffer2B source) 0 (size2B source)) = size2B source)
    by (apply blen_bread; lia).
  unfold buffer_write. rewrite (proj2 (inb_true _ _ _)) by lia. unfold bind, ret.
  eexists. split; [done|]. unfold contents, wf2B. cbn [size2B buffer2B].
  rewrite blen_bwrite by lia. split; [apply bread_bwrite_same; lia|].
  repeat split; try lia. auto using bwrite_byte, bread_byte.
Qed.

Lemma MemoryConcat2B_ok (s : S) a b :
  wf2B a → wf2B b → size2B a + size2B b ≤ blen (buffer2B a) →
  ∃ a', MemoryConcat2B a b (blen (buffer2B a)) s = Some (a', s) ∧
    contents a' = contents a ++ contents b ∧
    blen (buffer2B a') = blen (buffer2B a) ∧ wf2B a'.
Proof.
  intros (Ha & Ha' & Ba) (Hb & Hb' & Bb) Hle. unfold MemoryConcat2B.
  erewrite bind_Some by (apply pAssert_true; zbool; rewrite u32_small; lia).
  unfold buffer_read. rewrite (proj2 (inb_true _ _ _)) by lia. unfold bind at 1, ret at 1.
  assert (L : blen (bread (buffer2B b) 0 (size2B b)) = size2B b) by (apply blen_bread; lia).
  unfold buffer_write. rewrite (proj2 (inb_true _ _ _)) by lia. unfold bind, ret.
  rewrite (wrap_small 16) by lia.
  eexists. split; [done|]. unfold contents, wf2B. cbn [size2B buffer2B].
  rewrite blen_bwrite by lia. rewrite bread_split by lia.
  rewrite bread_bwrite_before by lia. rewrite Z.add_0_l, bread_bwrite_same by lia.
  repeat split; try lia. auto using bwrite_byte, bread_byte.
Qed.

Lemma MemoryEqual2B_ok (s : S) a b :
  wf2B a → wf2B b →
  MemoryEqual2B a b s = Some (bool_decide (contents a = contents b), s).
Proof.
  intros (Ha & Ha' & Ba) (Hb & Hb' & Bb). unfold MemoryEqual2B, contents.
  destruct (Z.eqb_spec (size2B a) (size2B b)) as [E|E]; cbn [negb].
  - rewrite MemoryEqual_ok by (done || lia). unfold of_option. by rewrite E.
  - unfold ret. do 2 f_equal. symmetry. apply bool_decide_eq_false. intros Hc.
    apply (f_equal blen) in Hc. rewrite !blen_bread in Hc by lia. done.
Qed.

Lemma MemoryPad2B_ok (s : S) b n :
  wf2B b → size2B b ≤ n ≤ blen (buffer2B b) →
  ∃ b', MemoryPad2B b n s = Some (b', s) ∧ size2B b' = n ∧
    contents b' = contents b ++ bfill 0 (n - size2B b).
Proof.
  intros (Hb & Hb' & Bb) Hn. unfold MemoryPad2B, buffer_write.
  assert (L : blen (bfill 0 (n - size2B b)) = n - size2B b) by (apply blen_bfill; lia).
  rewrite (proj2 (inb_true _ _ _)) by lia. unfold bind, ret.
  rewrite (proj2 (Z.ltb_ge _ _)) by lia. eexists. split; [done|]. split; [done|].
  unfold contents. cbn [size2B buffer2B].
  set (z := bfill 0 _) in *.
  transitivity (bread (bwrite (buffer2B b) (size2B b) z) 0 (size2B b + blen z));
    [f_equal; lia|].
  rewrite bread_split by lia. rewrite bread_bwrite_before by lia.
  by rewrite Z.add_0_l, bread_bwrite_same by lia.
Qed.

(** ** Bit arrays: a set of bit numbers *)

Definition bit_of (a : bytes) (i : Z) : bool :=
  match a !! Z.to_nat (i / 8) with Some b => Z.testbit b (i mod 8) | None => false end.

Lemma bit_index a i :
  0 ≤ i < 8 * blen a → ∃ b, a !! Z.to_nat (i / 8) = Some b.
Proof.
  intros Hi. apply lookup_lt_is_Some_2. unfold blen in Hi.
  assert (i / 8 < Z.of_nat (length a)) by (apply Z.div_lt_upper_bound; lia).
  pose proof (Z.div_pos i 8). lia.
Qed.

Lemma bit_num i : Z.shiftr i 3 = i / 8 ∧ Z.land i 7 = i mod 8.
Proof.
  split; [by rewrite Z.shiftr_div_pow2|]. change 7 with (Z.ones 3). by rewrite Z.land_ones.
Qed.

Lemma land_bit b k : 0 ≤ k → negb (Z.land b (Z.shiftl 1 k) =? 0) = Z.testbit b k.
Proof.
  intros Hk. apply Bool.eq_iff_eq_true. rewrite negb_true_iff, Z.eqb_neq. split.
  - intros Hne. destruct (Z.testbit b k) eqn:E; [done|]. exfalso. apply Hne.
    apply Z.bits_inj'. intros i Hi. rewrite Z.land_spec, Z.bits_0, Z.shiftl_spec by lia.
    destruct (Z.eq_dec i k) as [->|]; [by rewrite E|].
    destruct (Z.ltb_spec i k); [by rewrite (Z.testbit_neg_r 1), andb_false_r by lia|].
    rewrite (Z.bits_above_log2 1) by (change (Z.log2 1) with 0; lia). apply andb_false_r.
  - intros E Hz. apply (f_equal (λ z, Z.testbit z k)) in Hz.
    rewrite Z.land_spec, Z.shiftl_spec, Z.sub_diag, E, Z.bits_0 in Hz by lia. done.
Qed.

Lemma TestBit_ok (s : S) i a :
  0 ≤ i < 8 * blen a → TestBit i a (blen a) s = Some (bit_of a i, s).
Proof.
  intros Hi. destruct (bit_index a i Hi) as [b Hb]. destruct (bit_num i) as [E1 E2].
  unfold TestBit, bit_of. rewrite E1, E2, Hb.
  erewrite bind_Some by (apply pAssert_true; zbool; apply Z.div_lt_upper_bound; lia).
  unfold bind, of_option, ret. rewrite land_bit; [done|]. apply Z.mod_pos_bound; lia.
Qed.

(** How an update of one octet shows in the bits. *)
Lemma bit_of_insert a i j b b' f :
  0 ≤ i < 8 * blen a → 0 ≤ j → a !! Z.to_nat (i / 8) = Some b →
  (∀ k, 0 ≤ k < 8 → Z.testbit b' k = if k =? i mod 8 then f else Z.testbit b k) →
  bit_of (<[Z.to_nat (i / 8) := b']> a) j = if j =? i then f else bit_of a j.
Proof.
  intros Hi Hj Hb Hf. unfold bit_of.
  pose proof (Z.div_mod i 8). pose proof (Z.div_mod j 8).
  pose proof (Z.mod_pos_bound i 8). pose proof (Z.mod_pos_bound j 8).
  destruct (Z.eq_dec (j / 8) (i / 8)) as [E|E].
  - rewrite E, list_lookup_insert, Hb
      by (apply lookup_lt_is_Some; eauto).
    rewrite decide_True by (split; [done|]; apply lookup_lt_is_Some; eauto).
    rewrite Hf by lia.
    destruct (Z.eqb_spec (j mod 8) (i mod 8)), (Z.eqb_spec j i); (done || subst; lia).
  - rewrite list_lookup_insert_ne by (pose proof (Z.div_pos i 8); pose proof (Z.div_pos j 8); lia).
    rewrite (proj2 (Z.eqb_neq _ _)); [done|]. by intros ->.
Qed.

Lemma testbit_shiftl_1 k i : 0 ≤ k → 0 ≤ i → Z.testbit (Z.shiftl 1 k) i = (i =? k).
Proof.
  intros. rewrite Z.shiftl_spec by done. destruct (Z.eqb_spec i k) as [->|].
  - by rewrite Z.sub_diag.
  - destruct (Z.ltb_spec i k); [by rewrite (Z.testbit_neg_r 1) by lia|].
    apply (Z.bits_above_log2 1); [lia|]. change (Z.log2 1) with 0. lia.
Qed.

Lemma SetBit_ok (s : S) i a :
  0 ≤ i < 8 * blen a →
  ∃ a', SetBit i a (blen a) s = Some (a', s) ∧ blen a' = blen a ∧
    ∀ j, 0 ≤ j → bit_of a' j = (j =? i) || bit_of a j.
Proof.
  intros Hi. destruct (bit_index a i Hi) as [b Hb]. destruct (bit_num i) as [E1 E2].
  unfold SetBit. rewrite E1, E2, Hb.
  erewrite bind_Some by (apply pAssert_true; zbool; apply Z.div_lt_upper_bound; lia).
  unfold bind, of_option, ret. eexists. split; [done|].
  split; [unfold blen; by rewrite length_insert|].
  intros j Hj. rewrite (bit_of_insert a i j b _ true); [by destruct (j =? i)|done..|].
  intros k Hk. pose proof (Z.mod_pos_bound i 8).
  rewrite wrap_testbit, Z.lor_spec, testbit_shiftl_1 by lia.
  rewrite (proj2 (Z.ltb_lt _ _)) by lia. destruct (k =? i mod 8); [apply orb_true_r|apply orb_false_r].
Qed.

Lemma ClearBit_ok (s : S) i a :
  0 ≤ i < 8 * blen a →
  ∃ a', ClearBit i a (blen a) s = Some (a', s) ∧ blen a' = blen a ∧
    ∀ j, 0 ≤ j → bit_of a' j = negb (j =? i) && bit_of a j.
Proof.
  intros Hi. destruct (bit_index a i Hi) as [b Hb]. destruct (bit_num i) as [E1 E2].
  unfold ClearBit. rewrite E1, E2, Hb.
  erewrite bind_Some by (apply pAssert_true; zbool; apply Z.div_lt_upper_bound; lia).
  unfold bind, of_option, ret. eexists. split; [done|].
  split; [unfold blen; by rewrite length_insert|].
  intros j Hj. rewrite (bit_of_insert a i j b _ false); [by destruct (j =? i)|done..|].
  intros k Hk. pose proof (Z.mod_pos_bound i 8).
  rewrite wrap_testbit, Z.land_spec, Z.lnot_spec, testbit_shiftl_1 by lia.
  rewrite (proj2 (Z.ltb_lt _ _)) by lia. destruct (k =? i mod 8); [apply andb_false_r|apply andb_true_r].
Qed.
End tpm2b_lemmas.
