(* ===== verification/Struct.v ===== *)
(** * C structures as memory images

    A structure the firmware copies to and from NV memory is modelled by its
    image: a list of octets of the structure's size.  Where the members lie is
    decided by the compiler, so it is a parameter, [Layout]: an offset and a
    size for each member, inside the structure and disjoint.  Scalar members are
    little-endian, as on the RV64 target. *)

From S2P Require Import Prelude.
Local Open Scope Z_scope.

Class Layout (F : Type) := {
  foff : F → Z;
  fsize : F → Z;
  struct_size : Z;
  field_in f : 0 ≤ foff f ∧ 0 < fsize f ∧ foff f + fsize f ≤ struct_size;
  field_disjoint f g :
    f ≠ g → foff f + fsize f ≤ foff g ∨ foff g + fsize g ≤ foff f;
}.

(** [le_bytes] truncates to its width. *)
Lemma le_val_bytes_wrap n v : le_val (le_bytes n v) = wrap (8 * Z.of_nat n) v.
Proof.
  unfold wrap. revert v. induction n as [|n IH]; intros v; cbn [le_bytes le_val].
  - by rewrite Z.mod_1_r.
  - rewrite IH. replace (8 * Z.of_nat (S n)) with (8 + 8 * Z.of_nat n) by lia.
    rewrite Z.pow_add_r by lia. change (2 ^ 8) with 256.
    rewrite Z.rem_mul_r by lia. lia.
Qed.

Section struct.
Context {F : Type} `{!Layout F}.
Implicit Types (f g : F) (m d : bytes) (v : Z).

(** The image has the structure's size. *)
Definition swf m : Prop := blen m = struct_size.

(** The octets of a member, and its value when it is a scalar. *)
Definition fbytes f m : bytes := bread m (foff f) (fsize f).
Definition fget f m : Z := le_val (fbytes f m).

(** Assignment of octets and of a scalar to a member. *)
Definition fput f d m : bytes := bwrite m (foff f) d.
Definition fset f v m : bytes := fput f (le_bytes (Z.to_nat (fsize f)) v) m.

Lemma blen_fset_arg f v : blen (le_bytes (Z.to_nat (fsize f)) v) = fsize f.
Proof. rewrite blen_le_bytes. pose proof (field_in f). lia. Qed.

Lemma blen_fbytes f m : swf m → blen (fbytes f m) = fsize f.
Proof. unfold swf. intros Hm. pose proof (field_in f). apply blen_bread; lia. Qed.

Lemma swf_fput f d m : swf m → blen d = fsize f → swf (fput f d m).
Proof.
  unfold swf. intros Hm Hd. pose proof (field_in f). unfold fput.
  rewrite blen_bwrite by lia. done.
Qed.

Lemma swf_fset f v m : swf m → swf (fset f v m).
Proof. intros Hm. apply swf_fput; [done|apply blen_fset_arg]. Qed.

Lemma fbytes_fput f d m : swf m → blen d = fsize f → fbytes f (fput f d m) = d.
Proof.
  unfold swf. intros Hm Hd. pose proof (field_in f). apply bread_bwrite_same; lia.
Qed.

Lemma fbytes_fput_ne f g d m :
  swf m → blen d = fsize g → f ≠ g → fbytes f (fput g d m) = fbytes f m.
Proof.
  unfold swf. intros Hm Hd Hne. pose proof (field_in f). pose proof (field_in g).
  destruct (field_disjoint f g Hne).
  - apply bread_bwrite_before; lia.
  - apply bread_bwrite_after; lia.
Qed.

Lemma fget_fset f v m : swf m → fget f (fset f v m) = wrap (8 * fsize f) v.
Proof.
  intros Hm. unfold fget, fset. rewrite fbytes_fput by (done || apply blen_fset_arg).
  rewrite le_val_bytes_wrap. pose proof (field_in f). do 2 f_equal. lia.
Qed.

Lemma fbytes_fset f v m :
  swf m → fbytes f (fset f v m) = le_bytes (Z.to_nat (fsize f)) v.
Proof. intros Hm. by apply fbytes_fput; [|apply blen_fset_arg]. Qed.

Lemma fbytes_fset_ne f g v m : swf m → f ≠ g → fbytes f (fset g v m) = fbytes f m.
Proof. intros. apply fbytes_fput_ne; [done|apply blen_fset_arg|done]. Qed.

Lemma fget_fset_ne f g v m : swf m → f ≠ g → fget f (fset g v m) = fget f m.
Proof. intros. unfold fget. by rewrite fbytes_fset_ne. Qed.

Lemma fget_range f m : Forall is_byte m → 0 ≤ fget f m < 256 ^ fsize f.
Proof. intros. pose proof (field_in f). apply le_val_bread; [done|lia]. Qed.

Lemma fset_byte f v m : Forall is_byte m → Forall is_byte (fset f v m).
Proof. intros. apply bwrite_byte; [done|apply le_bytes_byte]. Qed.

(** A member with the octets of another image has its value. *)
Lemma fget_ext f m m' : fbytes f m = fbytes f m' → fget f m = fget f m'.
Proof. unfold fget. by intros ->. Qed.
End struct.

Create Rewrite HintDb fields.
#[export] Hint Resolve swf_fset fset_byte : tpm.
#[export] Hint Rewrite @fget_fset using (eauto 12 with tpm) : fields.
#[export] Hint Rewrite @fget_fset_ne using (first [discriminate | solve [eauto 12 with tpm]]) : fields.

(** Read back members of an image after assignments to it. *)
Ltac fields := autorewrite with fields.
