(* ===== verification/Clock.v ===== *)
(** * The platform clock (src/Clock.c, and the clock of src/intercept.c)

    [PlatClock] holds the clock variables of include/ftpm/PlatformData.h, all
    64-bit but the rate (32 bits).  The only input is the cycle counter, which
    [intercept_clock_gettime] reads; it is an argument of [plat__TimerRead].
    [timer_read] is the body of that function after the reading, so that the
    theorems can speak about any sequence of readings. *)

From S2P Require Import Prelude.
Local Open Scope Z_scope.

Definition CLOCK_NOMINAL : Z := 30000.
Definition CLOCK_ADJUST_COARSE : Z := 300.
Definition CLOCK_ADJUST_MEDIUM : Z := 30.
Definition CLOCK_ADJUST_FINE : Z := 1.
Definition CLOCK_ADJUST_LIMIT : Z := 5000.

Record PlatClock := mkClock {
  s_realTimePrevious : Z;
  s_lastSystemTime : Z;
  s_lastReportedTime : Z;
  s_tpmTime : Z;
  s_timerReset : bool;
  s_timerStopped : bool;
  s_adjustRate : Z;
}.

Definition set_timerReset (b : bool) (c : PlatClock) : PlatClock :=
  mkClock (s_realTimePrevious c) (s_lastSystemTime c) (s_lastReportedTime c) (s_tpmTime c)
    b (s_timerStopped c) (s_adjustRate c).
Definition set_timerStopped (b : bool) (c : PlatClock) : PlatClock :=
  mkClock (s_realTimePrevious c) (s_lastSystemTime c) (s_lastReportedTime c) (s_tpmTime c)
    (s_timerReset c) b (s_adjustRate c).
Definition set_adjustRate (r : Z) (c : PlatClock) : PlatClock :=
  mkClock (s_realTimePrevious c) (s_lastSystemTime c) (s_lastReportedTime c) (s_tpmTime c)
    (s_timerReset c) (s_timerStopped c) r.
Definition set_system (last reported : Z) (c : PlatClock) : PlatClock :=
  mkClock (s_realTimePrevious c) last reported (s_tpmTime c)
    (s_timerReset c) (s_timerStopped c) (s_adjustRate c).
Definition set_tpmTime (previous tpm : Z) (c : PlatClock) : PlatClock :=
  mkClock previous (s_lastSystemTime c) (s_lastReportedTime c) tpm
    (s_timerReset c) (s_timerStopped c) (s_adjustRate c).

(** ** Reset and flags *)

Definition plat__TimerReset : M PlatClock unit :=
  modify (λ c, mkClock (s_realTimePrevious c) 0 (s_lastReportedTime c) 0 true true CLOCK_NOMINAL).
Definition plat__TimerRestart : M PlatClock unit := modify (set_timerStopped true).
Definition plat__TimerWasReset : M PlatClock bool :=
  let! retVal := gets s_timerReset in modify (set_timerReset false) ;; ret retVal.
Definition plat__TimerWasStopped : M PlatClock bool :=
  let! retVal := gets s_timerStopped in modify (set_timerStopped false) ;; ret retVal.

(** ** The system clock *)

(** [tv_sec] and [tv_nsec] are the halves of the 64-bit cycle counter. *)
Definition intercept_clock_gettime (cycles : Z) : Z * Z :=
  (u32 (Z.shiftr cycles 32), u32 cycles).

Definition plat__RealTime (cycles : Z) : Z :=
  let '(tv_sec, tv_nsec) := intercept_clock_gettime cycles in
  u64 (u64 (tv_sec * 1000) + tv_nsec / 1000000).

(** ** Reading the tick timer *)

(** The synthesis of a long-lived system time: first use, system time that goes
    backwards, accumulation. *)
Definition system_update (timeNow : Z) (c : PlatClock) : PlatClock :=
  let c := if s_lastSystemTime c =? 0
           then set_tpmTime 0 (s_tpmTime c) (set_system timeNow 0 c) else c in
  let last := if timeNow <? s_lastReportedTime c then timeNow else s_lastSystemTime c in
  set_system timeNow (u64 (s_lastReportedTime c + timeNow - last)) c.

(** The conversion to TPM time at the adjusted rate; [None] when the divisor is
    zero, which it is before the first [_plat__TimerReset]. *)
Definition tpm_update (c : PlatClock) : option PlatClock :=
  let timeNow := s_lastReportedTime c in
  if timeNow <=? s_realTimePrevious c then Some c
  else if s_adjustRate c =? 0 then None
  else
    let timeDiff := u64 (timeNow - s_realTimePrevious c) in
    let adjusted := u64 (timeDiff * CLOCK_NOMINAL) / s_adjustRate c in
    let readjusted := u64 (adjusted * s_adjustRate c) / CLOCK_NOMINAL in
    Some (set_tpmTime (u64 (s_realTimePrevious c + readjusted)) (u64 (s_tpmTime c + adjusted)) c).

Definition timer_read (timeNow : Z) : M PlatClock Z := λ c,
  match tpm_update (system_update timeNow c) with
  | Some c' => Some (s_tpmTime c', c')
  | None => None
  end.

Definition plat__TimerRead (cycles : Z) : M PlatClock Z := timer_read (plat__RealTime cycles).

(** ** Rate adjustment *)

Inductive ClockAdjustStep :=
  | PLAT_TPM_CLOCK_ADJUST_COARSE_SLOWER
  | PLAT_TPM_CLOCK_ADJUST_COARSE_FASTER
  | PLAT_TPM_CLOCK_ADJUST_MEDIUM_SLOWER
  | PLAT_TPM_CLOCK_ADJUST_MEDIUM_FASTER
  | PLAT_TPM_CLOCK_ADJUST_FINE_SLOWER
  | PLAT_TPM_CLOCK_ADJUST_FINE_FASTER.

Definition plat__ClockRateAdjust (adjust : ClockAdjustStep) : M PlatClock unit :=
  let! rate := gets s_adjustRate in
  let rate := u32 match adjust with
    | PLAT_TPM_CLOCK_ADJUST_COARSE_SLOWER => rate + CLOCK_ADJUST_COARSE
    | PLAT_TPM_CLOCK_ADJUST_MEDIUM_SLOWER => rate + CLOCK_ADJUST_MEDIUM
    | PLAT_TPM_CLOCK_ADJUST_FINE_SLOWER => rate + CLOCK_ADJUST_FINE
    | PLAT_TPM_CLOCK_ADJUST_FINE_FASTER => rate - CLOCK_ADJUST_FINE
    | PLAT_TPM_CLOCK_ADJUST_MEDIUM_FASTER => rate - CLOCK_ADJUST_MEDIUM
    | PLAT_TPM_CLOCK_ADJUST_COARSE_FASTER => rate - CLOCK_ADJUST_COARSE
    end in
  let rate := if CLOCK_NOMINAL + CLOCK_ADJUST_LIMIT <? rate
              then CLOCK_NOMINAL + CLOCK_ADJUST_LIMIT else rate in
  let rate := if rate <? CLOCK_NOMINAL - CLOCK_ADJUST_LIMIT
              then CLOCK_NOMINAL - CLOCK_ADJUST_LIMIT else rate in
  modify (set_adjustRate rate).

(** ** The invariant of a running clock

    Ranges, the rate within its limits, and the part of the reported time that
    has not been converted yet. *)

Definition rate_ok (c : PlatClock) : Prop :=
  CLOCK_NOMINAL - CLOCK_ADJUST_LIMIT ≤ s_adjustRate c ≤ CLOCK_NOMINAL + CLOCK_ADJUST_LIMIT.

Definition clock_range (c : PlatClock) : Prop :=
  0 ≤ s_realTimePrevious c < 2 ^ 64 ∧ 0 ≤ s_lastReportedTime c < 2 ^ 64 ∧
  0 ≤ s_lastSystemTime c < 2 ^ 64 ∧ 0 ≤ s_tpmTime c < 2 ^ 63 ∧ rate_ok c.

Lemma adjust_rate_ok a c :
  rate_ok c → ∃ c', plat__ClockRateAdjust a c = Some (tt, c') ∧ rate_ok c' ∧
    c' = set_adjustRate (s_adjustRate c') c.
Proof.
  intros Hr. unfold plat__ClockRateAdjust. munfold. eexists. split; [reflexivity|].
  split; [|done]. unfold rate_ok. cbn [s_adjustRate set_adjustRate].
  repeat case_match; zbool; unfold CLOCK_NOMINAL, CLOCK_ADJUST_LIMIT in *; lia.
Qed.

Lemma system_update_range now c :
  clock_range c → 0 ≤ now < 2 ^ 64 →
  clock_range (system_update now c) ∧ s_tpmTime (system_update now c) = s_tpmTime c ∧
  s_adjustRate (system_update now c) = s_adjustRate c ∧
  s_timerReset (system_update now c) = s_timerReset c ∧
  s_timerStopped (system_update now c) = s_timerStopped c.
Proof.
  intros (Hp & Hl & Hs & Ht & Hr) Hn. unfold system_update, clock_range, rate_ok in *.
  pose proof (λ v, wrap_range 64 v ltac:(lia)) as Hw.
  destruct (Z.eqb_spec (s_lastSystemTime c) 0); cbn; split_and!; try done; try lia; apply Hw.
Qed.

(** TPM time does not go backwards, whatever the system clock reads, and a
    reading advances it by less than 2^50 milliseconds. *)
Lemma timer_read_forward now c :
  clock_range c → s_tpmTime c < 2 ^ 62 → 0 ≤ now < 2 ^ 64 →
  ∃ t c', timer_read now c = Some (t, c') ∧ s_tpmTime c ≤ t < s_tpmTime c + 2 ^ 50 ∧
    t = s_tpmTime c' ∧ clock_range c' ∧ s_adjustRate c' = s_adjustRate c ∧
    s_timerReset c' = s_timerReset c ∧ s_timerStopped c' = s_timerStopped c.
Proof.
  intros Hc Ht62 Hn. unfold timer_read, tpm_update.
  destruct (system_update_range now c Hc Hn) as (Hc1 & E1 & E2 & E3 & E4).
  set (c1 := system_update now c) in *.
  destruct (Z.leb_spec (s_lastReportedTime c1) (s_realTimePrevious c1)).
  { exists (s_tpmTime c1), c1. rewrite E1. split_and!; lia || done. }
  destruct Hc1 as (Hp & Hl & Hs & Ht & Hr). unfold rate_ok in Hr.
  unfold CLOCK_NOMINAL, CLOCK_ADJUST_LIMIT in *.
  destruct (Z.eqb_spec (s_adjustRate c1) 0); [lia|].
  eexists _, _. split; [done|]. cbn [s_tpmTime s_adjustRate set_tpmTime s_timerReset s_timerStopped].
  pose proof (wrap_range 64
    (u64 (s_lastReportedTime c1 - s_realTimePrevious c1) * 30000) ltac:(lia)) as Hx.
  set (a := u64 (_ * 30000) / s_adjustRate c1) in *.
  assert (0 ≤ a < 2 ^ 50).
  { unfold a. split; [apply Z.div_pos; lia|]. apply Z.div_lt_upper_bound; [lia|]. nia. }
  rewrite (wrap_small 64 (s_tpmTime c1 + a)) by lia.
  pose proof (λ v, wrap_range 64 v ltac:(lia)) as Hw.
  unfold clock_range, rate_ok, CLOCK_NOMINAL, CLOCK_ADJUST_LIMIT.
  cbn [s_tpmTime s_adjustRate set_tpmTime s_realTimePrevious s_lastReportedTime s_lastSystemTime].
  split_and!; try done; try lia; apply Hw.
Qed.

Lemma RealTime_range cycles : 0 ≤ plat__RealTime cycles < 2 ^ 64.
Proof. unfold plat__RealTime, intercept_clock_gettime. apply (wrap_range 64). lia. Qed.

(** ** Exactness

    [synced first c]: the clock has been read, the system time was [first] at
    the first reading, and at most two milliseconds of the time reported since
    wait for conversion. *)

Definition synced (first : Z) (c : PlatClock) : Prop :=
  0 < first ≤ s_lastSystemTime c ∧ s_lastSystemTime c < 2 ^ 48 ∧
  s_lastReportedTime c = s_lastSystemTime c - first ∧
  0 ≤ s_realTimePrevious c ≤ s_lastReportedTime c ∧
  s_lastReportedTime c - s_realTimePrevious c ≤ 2 ∧
  0 ≤ s_tpmTime c < 2 ^ 63 ∧ rate_ok c.

(** The conversion loses at most two milliseconds, which stay to be converted. *)
Lemma readjust_bounds d r :
  0 ≤ d < 2 ^ 48 → 25000 ≤ r ≤ 35000 →
  let a := u64 (d * 30000) / r in
  let b := u64 (a * r) / 30000 in
  0 ≤ a ≤ 2 * d ∧ a * r ≤ d * 30000 < a * r + r ∧ d - 2 ≤ b ≤ d ∧ 0 ≤ b.
Proof.
  intros Hd Hr. cbv zeta. rewrite (wrap_small 64 (d * 30000)) by lia.
  pose proof (Z.div_mod (d * 30000) r ltac:(lia)). pose proof (Z.mod_pos_bound (d * 30000) r ltac:(lia)).
  set (a := d * 30000 / r) in *. assert (0 ≤ a) by (apply Z.div_pos; lia).
  rewrite (wrap_small 64 (a * r)) by nia.
  pose proof (Z.div_mod (a * r) 30000 ltac:(lia)). pose proof (Z.mod_pos_bound (a * r) 30000 ltac:(lia)).
  set (b := a * r / 30000) in *. assert (0 ≤ b) by (apply Z.div_pos; nia).
  split; [nia|]. split; nia.
Qed.

Lemma system_update_synced first now c :
  synced first c → s_lastSystemTime c ≤ now < 2 ^ 48 →
  system_update now c = set_system now (now - first) c.
Proof.
  intros (Hf & Hs & Hl & _) Hn. unfold system_update.
  destruct (Z.eqb_spec (s_lastSystemTime c) 0); [lia|].
  destruct (Z.ltb_spec now (s_lastReportedTime c)); [lia|].
  rewrite Hl, wrap_small by lia. f_equal. lia.
Qed.

(** A reading of a system clock that did not go backwards advances TPM time by
    what the rate makes of the time that was not converted yet. *)
Lemma timer_read_synced first now c :
  synced first c → s_lastSystemTime c ≤ now < 2 ^ 48 → s_tpmTime c + 2 ^ 50 < 2 ^ 63 →
  ∃ t c', timer_read now c = Some (t, c') ∧ synced first c' ∧ t = s_tpmTime c' ∧
    s_lastSystemTime c' = now ∧ s_adjustRate c' = s_adjustRate c ∧
    s_timerReset c' = s_timerReset c ∧ s_timerStopped c' = s_timerStopped c ∧
    t = s_tpmTime c + (now - first - s_realTimePrevious c) * CLOCK_NOMINAL / s_adjustRate c.
Proof.
  intros Hsync Hn Htpm. pose proof Hsync as (Hf & Hs & Hl & Hp & Hrem & Ht & Hr).
  unfold timer_read. rewrite (system_update_synced first) by done. unfold tpm_update.
  cbn [s_lastReportedTime set_system s_realTimePrevious s_adjustRate s_tpmTime].
  unfold rate_ok, CLOCK_NOMINAL, CLOCK_ADJUST_LIMIT in *.
  destruct (Z.leb_spec (now - first) (s_realTimePrevious c)).
  { eexists _, _. split; [done|]. replace (now - first - s_realTimePrevious c) with 0 by lia.
    unfold synced, rate_ok, CLOCK_NOMINAL, CLOCK_ADJUST_LIMIT. cbn. rewrite Z.div_0_l by lia.
    split_and!; lia || done. }
  destruct (Z.eqb_spec (s_adjustRate c) 0); [lia|].
  set (d := now - first - s_realTimePrevious c).
  rewrite (wrap_small 64 d) by (unfold d; lia).
  pose proof (readjust_bounds d (s_adjustRate c) ltac:(unfold d; lia) ltac:(lia)) as (Ha & Hb & Hb2 & Hb3).
  cbv zeta in *. rewrite (wrap_small 64 (d * 30000)) in * by (unfold d; lia).
  set (a := d * 30000 / s_adjustRate c) in *. set (b := u64 (a * s_adjustRate c) / 30000) in *.
  assert (d < 2 ^ 48) by (unfold d; lia).
  rewrite (wrap_small 64 (s_tpmTime c + a)) by lia.
  rewrite (wrap_small 64 (s_realTimePrevious c + b)) by (unfold d in *; lia).
  eexists _, _. split; [done|]. unfold synced, rate_ok, CLOCK_NOMINAL, CLOCK_ADJUST_LIMIT. cbn.
  split_and!; unfold d in *; lia || done.
Qed.

(** The first reading after a reset. *)
Lemma timer_read_first now c c1 :
  plat__TimerReset c = Some (tt, c1) → 0 < now < 2 ^ 48 →
  ∃ c', timer_read now c1 = Some (0, c') ∧ synced now c' ∧ s_tpmTime c' = 0 ∧
    s_lastSystemTime c' = now ∧ s_adjustRate c' = CLOCK_NOMINAL ∧
    s_realTimePrevious c' = 0 ∧ s_timerReset c' = true ∧ s_timerStopped c' = true.
Proof.
  unfold plat__TimerReset, modify. intros [= <-] Hn. unfold timer_read, tpm_update, system_update.
  cbn [s_lastSystemTime s_lastReportedTime set_system set_tpmTime Z.eqb].
  destruct (Z.ltb_spec now 0); [lia|]. replace (0 + now - now) with 0 by lia.
  change (u64 0) with 0. cbn. eexists. split; [done|].
  unfold synced, rate_ok, CLOCK_NOMINAL, CLOCK_ADJUST_LIMIT. cbn. split_and!; lia || done.
Qed.

(** ** Sequences of readings *)

Fixpoint timer_reads (nows : list Z) (c : PlatClock) : option PlatClock :=
  match nows with
  | [] => Some c
  | now :: nows => match timer_read now c with Some (_, c') => timer_reads nows c' | None => None end
  end.

(** Successive readings of a system clock that does not go backwards. *)
Fixpoint ascending (from : Z) (nows : list Z) : Prop :=
  match nows with [] => True | now :: nows => from ≤ now ∧ ascending now nows end.

(** At the nominal rate TPM time is the system time since the first reading. *)
Definition exact (first : Z) (c : PlatClock) : Prop :=
  synced first c ∧ s_adjustRate c = CLOCK_NOMINAL ∧
  s_tpmTime c = s_lastReportedTime c ∧ s_realTimePrevious c = s_lastReportedTime c.

Lemma timer_read_exact first now c :
  exact first c → s_lastSystemTime c ≤ now < 2 ^ 48 →
  ∃ c', timer_read now c = Some (now - first, c') ∧ exact first c' ∧ s_lastSystemTime c' = now.
Proof.
  intros (Hs & Hr & Ht & Hp) Hn. pose proof Hs as (Hf & Hb & Hl & Hlt & _).
  destruct (timer_read_synced first now c) as (t & c' & E & S' & Et & El & Er & _ & _ & Ev);
    [done..|lia|].
  pose proof S' as (_ & _ & Hl' & Hp' & Hrem & _).
  rewrite Hr in Ev. unfold CLOCK_NOMINAL in *. rewrite Z.div_mul in Ev by lia.
  exists c'. replace (now - first) with t by lia. split; [done|]. split; [|done].
  assert (s_realTimePrevious c' = s_lastReportedTime c').
  { revert E. unfold timer_read. rewrite (system_update_synced first) by done.
    unfold tpm_update. cbn. rewrite Hr.
    destruct (Z.leb_spec (now - first) (s_realTimePrevious c)).
    { intros E. injection E as _ <-. cbn. lia. }
    unfold CLOCK_NOMINAL. cbn [Z.eqb].
    rewrite (wrap_small 64 (now - first - _)) by lia.
    set (d := now - first - s_realTimePrevious c).
    rewrite !(wrap_small 64 (d * 30000)), !Z.div_mul, !(wrap_small 64 (d * 30000)), !Z.div_mul
      by (unfold d; lia).
    intros E. injection E as _ <-. cbn. unfold d. rewrite wrap_small by lia. lia. }
  split_and!; [done|by rewrite Er|lia|done].
Qed.

Lemma last_cons_default (x d : Z) l : List.last (x :: l) d = List.last l x.
Proof.
  revert x d. induction l as [|y l IH]; intros x d; [done|].
  change (List.last (y :: l) d = List.last (y :: l) x). by rewrite !IH.
Qed.

Lemma timer_reads_exact first nows c :
  exact first c → ascending (s_lastSystemTime c) nows →
  Forall (λ now, now < 2 ^ 48) nows →
  ∃ c', timer_reads nows c = Some c' ∧ exact first c'
    ∧ s_tpmTime c' = List.last nows (s_lastSystemTime c) - first.
Proof.
  revert c. induction nows as [|now nows IH]; intros c He Ha Hall; cbn [timer_reads].
  { exists c. split; [done|]. split; [done|]. cbn. destruct He as ((_ & _ & ? & _) & _ & ? & _). lia. }
  destruct Ha as [H1 H2]. inversion Hall; subst.
  destruct (timer_read_exact first now c He) as (c1 & -> & He1 & El); [lia|].
  rewrite <- El in H2. destruct (IH c1 He1 H2) as (c' & -> & He' & Et); [done|].
  exists c'. split; [done|]. split; [done|]. by rewrite Et, El, last_cons_default.
Qed.
