(* ===== verification/Cbc.v ===== *)
(** * CBC mode of the NV image cipher (cryptomini/aes/aes_cbc.c)

    The AES block functions are reached through an interface, [BlockCipher]:
    a pair of maps on 16-byte blocks of which the second inverts the first.
    The chaining loops are modelled statement by statement. *)

From S2P Require Import Prelude.
Local Open Scope Z_scope.

(** ** What CBC needs of the block functions [AES_encrypt]/[AES_decrypt] *)

Definition is_block (b : bytes) : Prop := length b = 16%nat ∧ Forall is_byte b.

Class BlockCipher := {
  block_enc : bytes → bytes;
  block_dec : bytes → bytes;
  block_enc_block b : is_block b → is_block (block_enc b);
  block_dec_enc b : is_block b → block_dec (block_enc b) = b;
}.

Section cbc.
Context `{BlockCipher}.

Definition xor_bytes (a b : bytes) : bytes := zip_with Z.lxor a b.

(** [CRYPTO_cbc128_encrypt]: [inp] are the [len] input bytes; the result is the
    output written and the final contents of [ivec].  One unit of fuel per turn
    of the [while]; [length inp] units are enough since each turn but the last
    consumes 16 bytes. *)
Fixpoint cbc128_encrypt_loop (fuel : nat) (inp iv : bytes) : bytes * bytes :=
  match fuel with
  | O => ([], iv)
  | S fuel =>
      let n := (length inp `min` 16)%nat in
      let out := block_enc (xor_bytes (take n inp) (take n iv) ++ drop n iv) in
      if (length inp <=? 16)%nat then (out, out)
      else let '(rest, iv') := cbc128_encrypt_loop fuel (drop 16 inp) out in
           (out ++ rest, iv')
  end.

Definition CRYPTO_cbc128_encrypt (inp ivec : bytes) : bytes * bytes :=
  if (length inp =? 0)%nat then ([], ivec)
  else cbc128_encrypt_loop (length inp) inp ivec.

(** [CRYPTO_cbc128_decrypt]: the block function reads 16 bytes at [in], so [inp]
    is what the input object holds from [in] on and [len] the count to process;
    [None] when the last block would be read past the object. *)
Fixpoint cbc128_decrypt_loop (fuel : nat) (inp : bytes) (len : nat) (ivec : bytes)
    : option (bytes * bytes) :=
  match fuel with
  | O => Some ([], ivec)
  | S fuel =>
      if (length inp <? 16)%nat then None
      else
        let tmp := block_dec (take 16 inp) in
        let n := (len `min` 16)%nat in
        let out := xor_bytes (take n tmp) (take n ivec) in
        if (len <=? 16)%nat then Some (out, take 16 inp)
        else '(rest, iv') ← cbc128_decrypt_loop fuel (drop 16 inp) (len - 16) (take 16 inp);
             Some (out ++ rest, iv')
  end.

Definition CRYPTO_cbc128_decrypt (inp : bytes) (len : nat) (ivec : bytes)
    : option (bytes * bytes) :=
  if (len =? 0)%nat then Some ([], ivec)
  else cbc128_decrypt_loop len inp len ivec.

(** ** Round trip *)

Lemma xor_bytes_length a b :
  length a = length b → length (xor_bytes a b) = length b.
Proof. intros. unfold xor_bytes. rewrite length_zip_with. lia. Qed.

Lemma xor_bytes_cancel a b :
  length a = length b → xor_bytes (xor_bytes a b) b = a.
Proof.
  revert b. induction a as [|x a IH]; intros [|y b] Hl; simpl in *; try done.
  injection Hl as Hl. unfold xor_bytes in *. simpl. rewrite IH by done. f_equal.
  by rewrite Z.lxor_assoc, Z.lxor_nilpotent, Z.lxor_0_r.
Qed.

Lemma lxor_byte x y : is_byte x → is_byte y → is_byte (Z.lxor x y).
Proof.
  unfold is_byte. intros Hx Hy.
  assert (0 ≤ Z.lxor x y) by (apply Z.lxor_nonneg; lia). split; [done|].
  destruct (Z.eq_dec (Z.lxor x y) 0) as [->|Hn]; [lia|].
  apply Z.log2_lt_cancel. change (Z.log2 256) with 8.
  eapply Z.le_lt_trans; [apply Z.log2_lxor; lia|].
  assert (Hb : ∀ z, 0 ≤ z < 256 → Z.log2 z < 8).
  { intros z Hz. destruct (Z.eq_dec z 0) as [->|]; [done|].
    apply Z.log2_lt_pow2; simpl; lia. }
  pose proof (Hb x Hx). pose proof (Hb y Hy). lia.
Qed.

Lemma xor_bytes_byte a b :
  Forall is_byte a → Forall is_byte b → Forall is_byte (xor_bytes a b).
Proof.
  intros Fa. revert b. unfold xor_bytes.
  induction Fa as [|x a Hx _ IH]; intros [|y b] Fb; simpl; constructor.
  - inversion Fb; subst. by apply lxor_byte.
  - inversion Fb; subst. by apply IH.
Qed.

Lemma xor_block a b : is_block a → is_block b → is_block (xor_bytes a b).
Proof.
  intros [La Fa] [Lb Fb]. split; [rewrite xor_bytes_length; lia|].
  by apply xor_bytes_byte.
Qed.

Lemma cbc128_loops_inverse fuel inp iv k :
  length inp = (16 * S k)%nat → (S k ≤ fuel)%nat →
  Forall is_byte inp → is_block iv →
  let c := fst (cbc128_encrypt_loop fuel inp iv) in
  length c = length inp ∧
  ∃ iv', cbc128_decrypt_loop fuel c (length inp) iv = Some (inp, iv').
Proof.
  revert inp iv k. induction fuel as [|fuel IH]; intros inp iv k Hl Hf Fi Hiv; [lia|].
  cbn [cbc128_encrypt_loop].
  replace (length inp `min` 16)%nat with 16%nat by lia.
  destruct Hiv as [Liv Fiv].
  rewrite (take_ge iv), (drop_ge iv), app_nil_r by lia.
  set (p := take 16 inp).
  assert (Hp : is_block p).
  { split; [unfold p; rewrite length_take; lia|]. by apply Forall_take. }
  assert (Hx : is_block (xor_bytes p iv)) by (apply xor_block; done).
  pose proof (block_enc_block _ Hx) as He. set (e := block_enc (xor_bytes p iv)) in *.
  assert (Hd : xor_bytes (take 16 (block_dec e)) (take 16 iv) = p).
  { unfold e. rewrite block_dec_enc by done. destruct Hx as [Lx _], Hp as [Lp _].
    rewrite !take_ge by lia. apply xor_bytes_cancel. lia. }
  destruct (Nat.leb_spec (length inp) 16) as [Hs|Hs]; cbn [fst].
  - cbn [cbc128_decrypt_loop]. destruct He as [Le _].
    rewrite (proj2 (Nat.ltb_ge _ _)) by lia.
    rewrite (take_ge e) by lia.
    replace (length inp `min` 16)%nat with 16%nat by lia.
    rewrite (proj2 (Nat.leb_le _ _)) by lia.
    split; [lia|]. rewrite Hd. unfold p. rewrite take_ge by lia. eauto.
  - destruct k as [|k]; [lia|].
    destruct (IH (drop 16 inp) e k) as [Lc [iv' Hdec]];
      [rewrite length_drop; lia | lia | by apply Forall_drop | done |].
    destruct (cbc128_encrypt_loop fuel (drop 16 inp) e) as [rest iv2] eqn:E.
    cbn [fst] in *. destruct He as [Le _].
    split; [rewrite length_app, Lc, length_drop; lia|].
    cbn [cbc128_decrypt_loop]. rewrite (proj2 (Nat.ltb_ge _ _)) by (rewrite length_app; lia).
    rewrite take_app_length', drop_app_length' by done.
    replace (length inp `min` 16)%nat with 16%nat by lia.
    rewrite (proj2 (Nat.leb_gt _ _)) by lia.
    rewrite length_drop in Hdec. rewrite Hdec. cbn.
    rewrite Hd. unfold p. rewrite take_drop. eauto.
Qed.

(** Decrypting what was encrypted gives the input back, for a whole number of
    blocks (the NV image is 2048 blocks). *)
Lemma cbc128_roundtrip inp iv :
  (length inp `mod` 16 = 0)%nat → Forall is_byte inp → is_block iv →
  let c := fst (CRYPTO_cbc128_encrypt inp iv) in
  length c = length inp ∧
  fst <$> CRYPTO_cbc128_decrypt c (length inp) iv = Some inp.
Proof.
  intros Hm Fi Hiv. unfold CRYPTO_cbc128_encrypt, CRYPTO_cbc128_decrypt.
  destruct (Nat.eqb_spec (length inp) 0) as [Hz|Hz].
  - destruct inp; [|done]. done.
  - pose proof (Nat.div_mod_eq (length inp) 16).
    destruct (length inp `div` 16)%nat as [|k] eqn:E; [lia|].
    destruct (cbc128_loops_inverse (length inp) inp iv k) as [Lc [iv' Hd]];
      [lia | lia | done | done |].
    split; [done|]. by rewrite Hd.
Qed.
End cbc.
