(* ===== verification/AesProof.v ===== *)
(** * AES decryption undoes AES encryption

    The tables are checked entry by entry; the rest is the argument for the
    equivalent inverse cipher: the inverse MixColumn transform is linear, takes
    each entry of the encryption tables to the substituted octet in its place,
    and has been applied to the round keys in between.  The result is an
    instance of [BlockCipher]. *)

From stdpp Require Import sets.
From S2P Require Import Prelude Memory Cbc Aes.
Local Open Scope Z_scope.

(** ** Octets of a word *)

Definition word (w : Z) : Prop := 0 ≤ w < 4294967296.

(** The word with octets [a], [b], [c], [d]. *)
Definition pack (a b c d : Z) : Z := Z.shiftl a 24 ^^ Z.shiftl b 16 ^^ Z.shiftl c 8 ^^ d.

Lemma lxor_low x y k : 0 ≤ k → 0 ≤ y < 2 ^ k → Z.shiftl x k ^^ y = x * 2 ^ k + y.
Proof.
  intros Hk Hy. rewrite <- Z.add_nocarry_lxor; [by rewrite Z.shiftl_mul_pow2|].
  apply Z.bits_inj'. intros i Hi. rewrite Z.land_spec, Z.bits_0.
  destruct (Z.ltb_spec i k).
  - by rewrite Z.shiftl_spec_low.
  - rewrite <- (Z.mod_small y (2 ^ k)) by done. rewrite Z.mod_pow2_bits_high by lia.
    apply andb_false_r.
Qed.

Lemma pack_add a b c d :
  is_byte b → is_byte c → is_byte d →
  pack a b c d = a * 16777216 + b * 65536 + c * 256 + d.
Proof.
  unfold is_byte, pack. intros Hb Hc Hd.
  replace (Z.shiftl a 24) with (Z.shiftl (Z.shiftl a 8) 16) by (by rewrite Z.shiftl_shiftl).
  rewrite <- Z.shiftl_lxor. rewrite (lxor_low a b 8) by (change (2 ^ 8) with 256; lia).
  replace (Z.shiftl (a * 2 ^ 8 + b) 16) with (Z.shiftl (Z.shiftl (a * 2 ^ 8 + b) 8) 8)
    by (by rewrite Z.shiftl_shiftl).
  rewrite <- Z.shiftl_lxor. rewrite (lxor_low _ c 8) by (change (2 ^ 8) with 256; lia).
  rewrite (lxor_low _ d 8) by (change (2 ^ 8) with 256; lia). change (2 ^ 8) with 256. lia.
Qed.

Lemma land_ff x : Z.land x 0xff = x mod 256.
Proof. change 0xff with (Z.ones 8). by rewrite Z.land_ones. Qed.

Lemma octets_arith w :
  B0 w = w / 16777216 ∧ B1 w = (w / 65536) mod 256 ∧ B2 w = (w / 256) mod 256 ∧ B3 w = w mod 256.
Proof.
  unfold B0, B1, B2, B3. rewrite !land_ff, !Z.shiftr_div_pow2 by lia. done.
Qed.

Lemma octets_byte w : word w → is_byte (B0 w) ∧ is_byte (B1 w) ∧ is_byte (B2 w) ∧ is_byte (B3 w).
Proof.
  intros Hw. destruct (octets_arith w) as (-> & -> & -> & ->). unfold word, is_byte in *.
  pose proof (Z.mod_pos_bound (w / 65536) 256). pose proof (Z.mod_pos_bound (w / 256) 256).
  pose proof (Z.mod_pos_bound w 256).
  split; [|lia]. split; [apply Z.div_pos; lia|]. apply Z.div_lt_upper_bound; lia.
Qed.

Lemma octets_pack a b c d :
  is_byte a → is_byte b → is_byte c → is_byte d →
  B0 (pack a b c d) = a ∧ B1 (pack a b c d) = b ∧ B2 (pack a b c d) = c ∧ B3 (pack a b c d) = d.
Proof.
  intros Ha Hb Hc Hd. rewrite pack_add by done.
  destruct (octets_arith (a * 16777216 + b * 65536 + c * 256 + d)) as (-> & -> & -> & ->).
  unfold is_byte in *.
  split_and!; [symmetry; apply (Z.div_unique _ _ _ (b * 65536 + c * 256 + d)); lia| | |].
  - replace ((a * 16777216 + b * 65536 + c * 256 + d) / 65536) with (a * 256 + b)
      by (apply (Z.div_unique _ _ _ (c * 256 + d)); lia).
    symmetry; apply (Z.mod_unique _ _ a); lia.
  - replace ((a * 16777216 + b * 65536 + c * 256 + d) / 256) with (a * 65536 + b * 256 + c)
      by (apply (Z.div_unique _ _ _ d); lia).
    symmetry; apply (Z.mod_unique _ _ (a * 256 + b)); lia.
  - symmetry; apply (Z.mod_unique _ _ (a * 65536 + b * 256 + c)); lia.
Qed.

Lemma pack_octets w : word w → pack (B0 w) (B1 w) (B2 w) (B3 w) = w.
Proof.
  intros Hw. destruct (octets_byte w Hw) as (_ & H1 & H2 & H3).
  rewrite pack_add by done. destruct (octets_arith w) as (-> & -> & -> & ->).
  pose proof (Z.div_mod w 256 ltac:(lia)). pose proof (Z.div_mod (w / 256) 256 ltac:(lia)).
  pose proof (Z.div_mod (w / 65536) 256 ltac:(lia)).
  rewrite !Z.div_div in * by lia. change (256 * 256) with 65536 in *.
  change (65536 * 256) with 16777216 in *. lia.
Qed.

Lemma octets_lxor x y :
  B0 (x ^^ y) = B0 x ^^ B0 y ∧ B1 (x ^^ y) = B1 x ^^ B1 y ∧
  B2 (x ^^ y) = B2 x ^^ B2 y ∧ B3 (x ^^ y) = B3 x ^^ B3 y.
Proof.
  assert (Hl : ∀ a b, Z.land (a ^^ b) 255 = Z.land a 255 ^^ Z.land b 255).
  { intros. apply Z.bits_inj'. intros i _. rewrite !Z.land_spec, !Z.lxor_spec, !Z.land_spec.
    by destruct (Z.testbit a i), (Z.testbit b i), (Z.testbit 255 i). }
  unfold B0, B1, B2, B3. rewrite !Z.shiftr_lxor, !Hl. done.
Qed.

Lemma word_lxor x y : word x → word y → word (x ^^ y).
Proof.
  unfold word. intros Hx Hy. rewrite <- (u32_small x), <- (u32_small y) by done.
  rewrite <- wrap_lxor by lia. apply (wrap_range 32). lia.
Qed.

Lemma word_land x m : word m → word (Z.land x m).
Proof.
  unfold word. intros Hm. rewrite <- (u32_small m) by done. rewrite Z.land_comm.
  rewrite <- wrap_land by lia. apply (wrap_range 32). lia.
Qed.

Lemma word_pack a b c d :
  is_byte a → is_byte b → is_byte c → is_byte d → word (pack a b c d).
Proof. intros. rewrite pack_add by done. unfold word, is_byte in *. lia. Qed.

(** ** The tables, entry by entry *)

Definition octets : list Z := map Z.of_nat (seq 0 256).

Lemma octets_all (p : Z → bool) x : forallb p octets = true → is_byte x → p x = true.
Proof.
  intros Hp Hx. rewrite forallb_forall in Hp. apply Hp. unfold octets.
  apply in_map_iff. exists (Z.to_nat x). unfold is_byte in Hx. split; [lia|].
  apply in_seq. lia.
Qed.

(** The S-box, as the low octet of [Te1]. *)
Definition sbox (x : Z) : Z := Z.land (tab Te1 x) 0xff.

Lemma sbox_byte x : is_byte (sbox x).
Proof. unfold sbox, is_byte. rewrite land_ff. apply Z.mod_pos_bound. lia. Qed.

Lemma Td4_sbox x : is_byte x → tab Td4 (sbox x) = x.
Proof.
  intros Hx. apply Z.eqb_eq. apply (octets_all (λ x, tab Td4 (sbox x) =? x)); [|done].
  vm_compute. reflexivity.
Qed.

Lemma mask_sbox x :
  is_byte x →
  Z.land (tab Te2 x) 0xff000000 = Z.shiftl (sbox x) 24 ∧
  Z.land (tab Te3 x) 0x00ff0000 = Z.shiftl (sbox x) 16 ∧
  Z.land (tab Te0 x) 0x0000ff00 = Z.shiftl (sbox x) 8.
Proof.
  intros Hx.
  assert (Hc : (Z.land (tab Te2 x) 0xff000000 =? Z.shiftl (sbox x) 24)
    && (Z.land (tab Te3 x) 0x00ff0000 =? Z.shiftl (sbox x) 16)
    && (Z.land (tab Te0 x) 0x0000ff00 =? Z.shiftl (sbox x) 8) = true).
  { apply (octets_all (λ x, (Z.land (tab Te2 x) 0xff000000 =? Z.shiftl (sbox x) 24)
      && (Z.land (tab Te3 x) 0x00ff0000 =? Z.shiftl (sbox x) 16)
      && (Z.land (tab Te0 x) 0x0000ff00 =? Z.shiftl (sbox x) 8))); [|done].
    vm_compute. reflexivity. }
  zbool. tauto.
Qed.

Lemma table_words x :
  is_byte x → word (tab Te0 x) ∧ word (tab Te1 x) ∧ word (tab Te2 x) ∧ word (tab Te3 x).
Proof.
  intros Hx. set (ok := λ w, (0 <=? w) && (w <? 4294967296)).
  assert (Hc : ok (tab Te0 x) && ok (tab Te1 x) && ok (tab Te2 x) && ok (tab Te3 x) = true).
  { apply (octets_all (λ x, ok (tab Te0 x) && ok (tab Te1 x) && ok (tab Te2 x) && ok (tab Te3 x)));
      [|done]. vm_compute. reflexivity. }
  unfold ok, word in *. zbool. lia.
Qed.

(** ** The inverse MixColumn transform is linear *)

(** The linear map on octets with the values [f] on the single bits. *)
Fixpoint by_bits (n : nat) (f : Z → Z) (x : Z) : Z :=
  match n with
  | O => 0
  | S n => by_bits n f x ^^ (if Z.testbit x (Z.of_nat n) then f (2 ^ Z.of_nat n) else 0)
  end.

Lemma by_bits_lxor n f x y : by_bits n f (x ^^ y) = by_bits n f x ^^ by_bits n f y.
Proof.
  induction n as [|n IH]; [done|]. cbn [by_bits]. rewrite IH, Z.lxor_spec.
  set (a := by_bits n f x). set (b := by_bits n f y). set (c := f _).
  destruct (Z.testbit x _), (Z.testbit y _); cbn [xorb];
    apply Z.bits_inj'; intros i _; rewrite ?Z.lxor_spec, ?Z.bits_0;
    by destruct (Z.testbit a i), (Z.testbit b i), (Z.testbit c i).
Qed.

Definition D0 (x : Z) : Z := tab Td0 (sbox x).
Definition D1 (x : Z) : Z := tab Td1 (sbox x).
Definition D2 (x : Z) : Z := tab Td2 (sbox x).
Definition D3 (x : Z) : Z := tab Td3 (sbox x).

Lemma D_by_bits x :
  is_byte x → D0 x = by_bits 8 D0 x ∧ D1 x = by_bits 8 D1 x ∧ D2 x = by_bits 8 D2 x ∧
    D3 x = by_bits 8 D3 x.
Proof.
  intros Hx.
  assert (Hc : (D0 x =? by_bits 8 D0 x) && (D1 x =? by_bits 8 D1 x)
    && (D2 x =? by_bits 8 D2 x) && (D3 x =? by_bits 8 D3 x) = true).
  { apply (octets_all (λ x, (D0 x =? by_bits 8 D0 x) && (D1 x =? by_bits 8 D1 x)
      && (D2 x =? by_bits 8 D2 x) && (D3 x =? by_bits 8 D3 x))); [|done].
    vm_compute. reflexivity. }
  zbool. tauto.
Qed.

Lemma D_lxor x y :
  is_byte x → is_byte y →
  D0 (x ^^ y) = D0 x ^^ D0 y ∧ D1 (x ^^ y) = D1 x ^^ D1 y ∧
  D2 (x ^^ y) = D2 x ^^ D2 y ∧ D3 (x ^^ y) = D3 x ^^ D3 y.
Proof.
  intros Hx Hy. pose proof (lxor_byte x y Hx Hy) as Hxy.
  destruct (D_by_bits _ Hxy) as (-> & -> & -> & ->).
  rewrite !by_bits_lxor. destruct (D_by_bits _ Hx) as (<- & <- & <- & <-).
  destruct (D_by_bits _ Hy) as (<- & <- & <- & <-). done.
Qed.

Lemma inv_mix_D w : inv_mix w = D0 (B0 w) ^^ D1 (B1 w) ^^ D2 (B2 w) ^^ D3 (B3 w).
Proof. done. Qed.

Lemma inv_mix_lxor x y : word x → word y → inv_mix (x ^^ y) = inv_mix x ^^ inv_mix y.
Proof.
  intros Hx Hy. rewrite !inv_mix_D. destruct (octets_lxor x y) as (-> & -> & -> & ->).
  destruct (octets_byte x Hx) as (X0 & X1 & X2 & X3), (octets_byte y Hy) as (Y0 & Y1 & Y2 & Y3).
  destruct (D_lxor _ _ X0 Y0) as (-> & _), (D_lxor _ _ X1 Y1) as (_ & -> & _),
    (D_lxor _ _ X2 Y2) as (_ & _ & -> & _), (D_lxor _ _ X3 Y3) as (_ & _ & _ & ->).
  set (a := D0 _). set (b := D0 _). set (c := D1 _). set (d := D1 _).
  set (e := D2 _). set (f := D2 _). set (g := D3 _). set (h := D3 _).
  apply Z.bits_inj'. intros i _. rewrite !Z.lxor_spec.
  destruct (Z.testbit a i), (Z.testbit b i), (Z.testbit c i), (Z.testbit d i),
    (Z.testbit e i), (Z.testbit f i), (Z.testbit g i), (Z.testbit h i); reflexivity.
Qed.

(** It takes the entries of the encryption tables to the substituted octet. *)
Lemma inv_mix_Te x :
  is_byte x →
  inv_mix (tab Te0 x) = Z.shiftl (sbox x) 24 ∧ inv_mix (tab Te1 x) = Z.shiftl (sbox x) 16 ∧
  inv_mix (tab Te2 x) = Z.shiftl (sbox x) 8 ∧ inv_mix (tab Te3 x) = sbox x.
Proof.
  intros Hx.
  assert (Hc : (inv_mix (tab Te0 x) =? Z.shiftl (sbox x) 24)
    && (inv_mix (tab Te1 x) =? Z.shiftl (sbox x) 16)
    && (inv_mix (tab Te2 x) =? Z.shiftl (sbox x) 8) && (inv_mix (tab Te3 x) =? sbox x) = true).
  { apply (octets_all (λ x, (inv_mix (tab Te0 x) =? Z.shiftl (sbox x) 24)
      && (inv_mix (tab Te1 x) =? Z.shiftl (sbox x) 16)
      && (inv_mix (tab Te2 x) =? Z.shiftl (sbox x) 8) && (inv_mix (tab Te3 x) =? sbox x)));
      [|done]. vm_compute. reflexivity. }
  zbool. tauto.
Qed.

(** ** One round and its inverse *)

Definition st_ok (s : st4) : Prop :=
  let 'St s0 s1 s2 s3 := s in word s0 ∧ word s1 ∧ word s2 ∧ word s3.

(** SubBytes and ShiftRows. *)
Definition sub_shift_word (a b c d : Z) : Z :=
  pack (sbox (B0 a)) (sbox (B1 b)) (sbox (B2 c)) (sbox (B3 d)).
Definition sub_shift (s : st4) : st4 :=
  let 'St s0 s1 s2 s3 := s in
  St (sub_shift_word s0 s1 s2 s3) (sub_shift_word s1 s2 s3 s0)
     (sub_shift_word s2 s3 s0 s1) (sub_shift_word s3 s0 s1 s2).

Lemma lxor_cancel x y : x ^^ y ^^ y = x.
Proof. by rewrite Z.lxor_assoc, Z.lxor_nilpotent, Z.lxor_0_r. Qed.

Lemma sub_shift_word_octets a b c d :
  B0 (sub_shift_word a b c d) = sbox (B0 a) ∧ B1 (sub_shift_word a b c d) = sbox (B1 b) ∧
  B2 (sub_shift_word a b c d) = sbox (B2 c) ∧ B3 (sub_shift_word a b c d) = sbox (B3 d).
Proof. apply octets_pack; apply sbox_byte. Qed.

Lemma sub_shift_word_word a b c d : word (sub_shift_word a b c d).
Proof. apply word_pack; apply sbox_byte. Qed.

Section word_facts.
Context (a b c d k : Z) (Ha : word a) (Hb : word b) (Hc : word c) (Hd : word d) (Hk : word k).

Lemma enc_word_word : word (enc_word a b c d k).
Proof.
  destruct (octets_byte a Ha) as (A0 & _), (octets_byte b Hb) as (_ & A1 & _),
    (octets_byte c Hc) as (_ & _ & A2 & _), (octets_byte d Hd) as (_ & _ & _ & A3).
  unfold enc_word. repeat apply word_lxor; try done; by apply table_words.
Qed.

Lemma inv_mix_enc_word : inv_mix (enc_word a b c d k) = sub_shift_word a b c d ^^ inv_mix k.
Proof.
  destruct (octets_byte a Ha) as (A0 & _), (octets_byte b Hb) as (_ & A1 & _),
    (octets_byte c Hc) as (_ & _ & A2 & _), (octets_byte d Hd) as (_ & _ & _ & A3).
  destruct (table_words _ A0) as (W0 & _), (table_words _ A1) as (_ & W1 & _),
    (table_words _ A2) as (_ & _ & W2 & _), (table_words _ A3) as (_ & _ & _ & W3).
  unfold enc_word. rewrite !inv_mix_lxor by (repeat apply word_lxor; done).
  destruct (inv_mix_Te _ A0) as (-> & _), (inv_mix_Te _ A1) as (_ & -> & _),
    (inv_mix_Te _ A2) as (_ & _ & -> & _), (inv_mix_Te _ A3) as (_ & _ & _ & ->). done.
Qed.

Lemma enc_last_word_eq : enc_last_word a b c d k = sub_shift_word a b c d ^^ k.
Proof.
  destruct (octets_byte a Ha) as (A0 & _), (octets_byte b Hb) as (_ & A1 & _),
    (octets_byte c Hc) as (_ & _ & A2 & _), (octets_byte d Hd) as (_ & _ & _ & A3).
  unfold enc_last_word. destruct (mask_sbox _ A0) as (-> & _), (mask_sbox _ A1) as (_ & -> & _),
    (mask_sbox _ A2) as (_ & _ & ->). done.
Qed.
End word_facts.

(** The words of a substituted and shifted state that one word of the inverse
    round reads are the four octets of the same word. *)
Lemma dec_word_sub_shift t0 t1 t2 t3 k :
  dec_word (sub_shift_word t0 t1 t2 t3) (sub_shift_word t3 t0 t1 t2)
    (sub_shift_word t2 t3 t0 t1) (sub_shift_word t1 t2 t3 t0) k = inv_mix t0 ^^ k.
Proof.
  unfold dec_word. destruct (sub_shift_word_octets t0 t1 t2 t3) as (-> & _),
    (sub_shift_word_octets t3 t0 t1 t2) as (_ & -> & _),
    (sub_shift_word_octets t2 t3 t0 t1) as (_ & _ & -> & _),
    (sub_shift_word_octets t1 t2 t3 t0) as (_ & _ & _ & ->). done.
Qed.

Lemma dec_last_word_sub_shift t0 t1 t2 t3 k :
  word t0 →
  dec_last_word (sub_shift_word t0 t1 t2 t3) (sub_shift_word t3 t0 t1 t2)
    (sub_shift_word t2 t3 t0 t1) (sub_shift_word t1 t2 t3 t0) k = t0 ^^ k.
Proof.
  intros Ht. unfold dec_last_word. destruct (sub_shift_word_octets t0 t1 t2 t3) as (-> & _),
    (sub_shift_word_octets t3 t0 t1 t2) as (_ & -> & _),
    (sub_shift_word_octets t2 t3 t0 t1) as (_ & _ & -> & _),
    (sub_shift_word_octets t1 t2 t3 t0) as (_ & _ & _ & ->).
  destruct (octets_byte t0 Ht) as (A0 & A1 & A2 & A3). rewrite !Td4_sbox by done.
  fold (pack (B0 t0) (B1 t0) (B2 t0) (B3 t0)). by rewrite pack_octets.
Qed.

(** ** Schedules *)

Definition words (rk : list Z) : Prop := Forall word rk.

Lemma words_nth rk o : words rk → word (nth o rk 0).
Proof.
  intros Hw. destruct (decide (o < length rk)%nat) as [Ho|Ho].
  - apply list.Forall_forall with (1 := Hw). apply list_elem_of_In, nth_In. done.
  - rewrite nth_overflow by lia. done.
Qed.

Lemma enc_round_ok rk o s : words rk → st_ok s → st_ok (enc_round rk o s).
Proof.
  destruct s as [s0 s1 s2 s3]. intros Hw (H0 & H1 & H2 & H3). cbn.
  split_and!; apply enc_word_word; auto using words_nth.
Qed.

(** The inverse round, with the transformed key of the round. *)
Lemma dec_round_inverts rk dk oe od s :
  words rk → st_ok s →
  (∀ i, (i < 4)%nat → nth (od + i) dk 0 = inv_mix (nth (oe + i) rk 0)) →
  dec_round dk od (sub_shift (enc_round rk oe s)) = sub_shift s.
Proof.
  destruct s as [s0 s1 s2 s3]. intros Hw (H0 & H1 & H2 & H3) Hk.
  cbn [sub_shift enc_round dec_round]. rewrite !dec_word_sub_shift.
  rewrite !inv_mix_enc_word by auto using words_nth.
  pose proof (Hk 0%nat ltac:(lia)) as K0. rewrite !Nat.add_0_r in K0. rewrite K0.
  rewrite !Hk by lia. by rewrite !lxor_cancel.
Qed.

(** The states before each round. *)
Fixpoint st_at (round : list Z → nat → st4 → st4) (rk : list Z) (s : st4) (j : nat) : st4 :=
  match j with O => s | S j' => round rk (4 * j)%nat (st_at round rk s j') end.

Lemma aes_loop_ok round rk s0 r j :
  aes_loop round rk (S r) (4 * j) (st_at round rk s0 j)
  = (st_at round rk s0 (j + 2 * r + 1), (4 * (j + 2 * r + 2))%nat).
Proof.
  revert j. induction r as [|r IH]; intros j.
  - cbn [aes_loop]. replace (j + 2 * 0 + 1)%nat with (S j) by lia. cbn [st_at].
    f_equal; [f_equal|]; lia.
  - change (aes_loop round rk (S (S r)) (4 * j) (st_at round rk s0 j))
      with (aes_loop round rk (S r) (4 * j + 8)
        (round rk (4 * j + 8)%nat (round rk (4 * j + 4)%nat (st_at round rk s0 j)))).
    replace (4 * j + 8)%nat with (4 * S (S j))%nat by lia.
    replace (4 * j + 4)%nat with (4 * S j)%nat by lia.
    fold (st_at round rk s0 (S j)). fold (st_at round rk s0 (S (S j))).
    rewrite IH. f_equal; [f_equal|]; lia.
Qed.

Lemma st_at_ok rk s j : words rk → st_ok s → st_ok (st_at enc_round rk s j).
Proof. intros Hw Hs. induction j as [|j IH]; [done|]. cbn [st_at]. by apply enc_round_ok. Qed.

(** The decryption schedule: the round keys in reverse order, all but the
    first and the last transformed. *)
Definition inverse_schedule (n : nat) (rk dk : list Z) : Prop :=
  (∀ i, (i < 4)%nat → nth i dk 0 = nth (4 * n + i) rk 0) ∧
  (∀ i, (i < 4)%nat → nth (4 * n + i) dk 0 = nth i rk 0) ∧
  (∀ j i, (0 < j < n)%nat → (i < 4)%nat →
     nth (4 * j + i) dk 0 = inv_mix (nth (4 * (n - j) + i) rk 0)).

(** Decryption passes through the substituted states in reverse. *)
Lemma dec_states n rk dk s j :
  words rk → st_ok s → inverse_schedule n rk dk → (j < n)%nat →
  st_at dec_round dk (sub_shift (st_at enc_round rk s (n - 1))) j
  = sub_shift (st_at enc_round rk s (n - 1 - j)).
Proof.
  intros Hw Hs (_ & _ & Hk) Hj. induction j as [|j IH]; [by rewrite Nat.sub_0_r|].
  cbn [st_at]. rewrite IH by lia.
  replace (n - 1 - j)%nat with (S (n - 1 - S j)) by lia. cbn [st_at].
  apply dec_round_inverts; [done|by apply st_at_ok|]. intros i Hi.
  rewrite Hk by lia. do 2 f_equal. lia.
Qed.

(** ** Blocks *)

Lemma PUTU32_octets w : word w → PUTU32 w = [B0 w; B1 w; B2 w; B3 w].
Proof.
  intros Hw. destruct (octets_byte w Hw) as (H0 & _). unfold PUTU32, wrap. change (2 ^ 8) with 256.
  unfold B0, B1, B2, B3 in *. rewrite !land_ff. unfold is_byte in H0.
  rewrite (Z.mod_small (Z.shiftr w 24)) by done. done.
Qed.

Lemma GETU32_word p o :
  Forall is_byte p → word (GETU32 p o).
Proof.
  intros Hp. assert (Hb : ∀ i, is_byte (byte_at p i)).
  { intros i. unfold byte_at. destruct (p !! i) as [x|] eqn:E; cbn; [|by unfold is_byte].
    by eapply Forall_lookup_1. }
  change (GETU32 p o) with (pack (byte_at p o) (byte_at p (o + 1)) (byte_at p (o + 2)) (byte_at p (o + 3))).
  by apply word_pack.
Qed.

Lemma store_load s : st_ok s → 
  ∀ rk, load_block (store_block s) rk =
    let 'St s0 s1 s2 s3 := s in
    St (s0 ^^ nth 0 rk 0) (s1 ^^ nth 1 rk 0) (s2 ^^ nth 2 rk 0) (s3 ^^ nth 3 rk 0).
Proof.
  destruct s as [s0 s1 s2 s3]. intros (H0 & H1 & H2 & H3) rk. unfold load_block, store_block.
  rewrite !PUTU32_octets by done.
  assert (G : ∀ w, word w → pack (B0 w) (B1 w) (B2 w) (B3 w) = w) by (intros; by apply pack_octets).
  f_equal; f_equal; unfold GETU32; cbn; by apply G.
Qed.

Lemma octet_words x y z w :
  is_byte x → is_byte y → is_byte z → is_byte w → PUTU32 (pack x y z w) = [x; y; z; w].
Proof.
  intros Hx Hy Hz Hw. rewrite PUTU32_octets by (by apply word_pack).
  by destruct (octets_pack x y z w) as (-> & -> & -> & ->).
Qed.

Lemma block_words b :
  is_block b → store_block (St (GETU32 b 0) (GETU32 b 4) (GETU32 b 8) (GETU32 b 12)) = b.
Proof.
  intros [Hl Hb]. rewrite list.Forall_forall in Hb.
  do 16 (destruct b as [|? b]; [discriminate|]). destruct b; [|discriminate].
  unfold store_block.
  change (GETU32 _ 0) with (pack z z0 z1 z2). change (GETU32 _ 4) with (pack z3 z4 z5 z6).
  change (GETU32 _ 8) with (pack z7 z8 z9 z10). change (GETU32 _ 12) with (pack z11 z12 z13 z14).
  rewrite !octet_words by (apply Hb; set_solver). done.
Qed.

(** ** Decryption undoes encryption *)

Lemma load_block_ok inp rk : Forall is_byte inp → words rk → st_ok (load_block inp rk).
Proof. intros Hi Hw. cbn. split_and!; apply word_lxor; auto using GETU32_word, words_nth. Qed.

Lemma rounds_shift m : Z.to_nat (Z.shiftr (Z.of_nat (2 * m)) 1) = m.
Proof.
  rewrite Z.shiftr_div_pow2 by lia. change (2 ^ 1) with 2.
  replace (Z.of_nat (2 * m)) with (Z.of_nat m * 2) by lia. rewrite Z.div_mul by lia. lia.
Qed.

(** The last round of encryption, and the first key addition of decryption. *)
Lemma last_round n rk dk t :
  words rk → st_ok t → inverse_schedule n rk dk →
  st_ok (enc_last rk (4 * n) t) ∧ load_block (store_block (enc_last rk (4 * n) t)) dk = sub_shift t.
Proof.
  destruct t as [t0 t1 t2 t3]. intros Hw (H0 & H1 & H2 & H3) (Hk & _).
  assert (Hok : st_ok (enc_last rk (4 * n) (St t0 t1 t2 t3))).
  { cbn [enc_last st_ok]. rewrite !enc_last_word_eq by auto using words_nth.
    split_and!; apply word_lxor; auto using words_nth, sub_shift_word_word. }
  split; [done|]. rewrite (store_load _ Hok). cbn [enc_last sub_shift].
  rewrite !enc_last_word_eq by auto using words_nth. rewrite !Hk by lia.
  rewrite !Nat.add_0_r, !lxor_cancel. done.
Qed.

Lemma first_round n rk dk s inp :
  words rk → is_block inp → inverse_schedule n rk dk → s = load_block inp rk →
  dec_last dk (4 * n) (sub_shift s) = St (GETU32 inp 0) (GETU32 inp 4) (GETU32 inp 8) (GETU32 inp 12).
Proof.
  intros Hw [_ Hb] (_ & Hk & _) ->. pose proof (load_block_ok inp rk Hb Hw) as Hok.
  unfold load_block in *. destruct Hok as (H0 & H1 & H2 & H3). cbn [sub_shift dec_last].
  rewrite !dec_last_word_sub_shift by done.
  pose proof (Hk 0%nat ltac:(lia)) as K0. rewrite Nat.add_0_r in K0. rewrite K0.
  rewrite !Hk by lia. by rewrite !lxor_cancel.
Qed.

Lemma decrypt_encrypt m rk dk inp :
  words rk → is_block inp → inverse_schedule (2 * S m) rk dk →
  AES_decrypt (AES_encrypt inp (mkKey rk (Z.of_nat (2 * S m)))) (mkKey dk (Z.of_nat (2 * S m))) = inp.
Proof.
  intros Hw Hi Hinv. unfold AES_decrypt, AES_encrypt. cbn [rd_key rounds].
  rewrite rounds_shift. set (s := load_block inp rk).
  assert (Hs : st_ok s) by (by apply load_block_ok; [apply Hi|]).
  pose proof (aes_loop_ok enc_round rk s m 0) as He. cbn [st_at] in He. rewrite Nat.mul_0_r in He.
  rewrite He. replace (0 + 2 * m + 1)%nat with (2 * S m - 1)%nat by lia.
  replace (4 * (0 + 2 * m + 2))%nat with (4 * (2 * S m))%nat by lia.
  destruct (last_round (2 * S m) rk dk _ Hw (st_at_ok rk s (2 * S m - 1) Hw Hs) Hinv) as [_ ->].
  pose proof (aes_loop_ok dec_round dk (sub_shift (st_at enc_round rk s (2 * S m - 1))) m 0) as Hd.
  cbn [st_at] in Hd. rewrite Nat.mul_0_r in Hd. rewrite Hd.
  replace (0 + 2 * m + 1)%nat with (2 * S m - 1)%nat by lia.
  replace (4 * (0 + 2 * m + 2))%nat with (4 * (2 * S m))%nat by lia.
  rewrite (dec_states (2 * S m)) by (done || lia). rewrite Nat.sub_diag. cbn [st_at].
  rewrite (first_round (2 * S m) rk dk s inp) by done. by apply block_words.
Qed.

Lemma enc_last_block rk o s : st_ok (enc_last rk o s) → is_block (store_block (enc_last rk o s)).
Proof.
  intros Hok. destruct (enc_last rk o s) as [s0 s1 s2 s3]. destruct Hok as (H0 & H1 & H2 & H3).
  unfold store_block. rewrite !PUTU32_octets by done. split; [done|].
  destruct (octets_byte _ H0) as (? & ? & ? & ?), (octets_byte _ H1) as (? & ? & ? & ?),
    (octets_byte _ H2) as (? & ? & ? & ?), (octets_byte _ H3) as (? & ? & ? & ?).
  cbn [app]. repeat (apply Forall_cons_2; [done|]). apply Forall_nil_2.
Qed.

Lemma encrypt_block m rk dk inp :
  words rk → is_block inp → inverse_schedule (2 * S m) rk dk →
  is_block (AES_encrypt inp (mkKey rk (Z.of_nat (2 * S m)))).
Proof.
  intros Hw Hi Hinv. unfold AES_encrypt. cbn [rd_key rounds]. rewrite rounds_shift.
  set (s := load_block inp rk).
  assert (Hs : st_ok s) by (by apply load_block_ok; [apply Hi|]).
  pose proof (aes_loop_ok enc_round rk s m 0) as He. cbn [st_at] in He. rewrite Nat.mul_0_r in He.
  rewrite He. apply enc_last_block.
  replace (4 * (0 + 2 * m + 2))%nat with (4 * (2 * S m))%nat by lia.
  by eapply last_round; [|apply st_at_ok|].
Qed.

(** ** The schedules *)

(** The array of round keys as the cipher needs it. *)
Definition sched_ok (rk : list Z) : Prop := length rk = 60%nat ∧ words rk.

#[local] Opaque inv_mix.

(** The swaps and transforms are run on an array of sixty unknown words. *)
Ltac open_schedule rk :=
  do 60 (destruct rk as [|? rk]; [discriminate|]); destruct rk; [|discriminate];
  match goal with
  | |- inverse_schedule _ _ ?d => let d' := eval lazy -[inv_mix] in d in change d with d'
  end.
Ltac below4 i := do 4 (destruct i as [|i]; [reflexivity|]); lia.

Lemma invert_key_inverse m rk :
  length rk = 60%nat → (5 ≤ m ≤ 7)%nat →
  inverse_schedule (2 * m) rk (rd_key (invert_key (mkKey rk (Z.of_nat (2 * m))))).
Proof.
  intros Hl Hm. assert (m = 5 ∨ m = 6 ∨ m = 7)%nat as [ -> | [ -> | -> ] ] by lia;
    open_schedule rk; (split_and!; [intros i Hi; below4 i|intros i Hi; below4 i|]);
    intros j i Hj Hi; (destruct j as [|j]; [lia|]);
    do 13 (destruct j as [|j]; [lia || below4 i|]); lia.
Qed.

Lemma sched_insert rk i x : sched_ok rk → word x → sched_ok (<[i := x]> rk).
Proof. intros [Hl Hw] Hx. split; [by rewrite length_insert|by apply Forall_insert]. Qed.

Lemma sched_nth rk o : sched_ok rk → word (nth o rk 0).
Proof. intros [_ Hw]. by apply words_nth. Qed.

Lemma sched_chain rk o j a b : sched_ok rk → sched_ok (chain rk o j a b).
Proof. intros. apply sched_insert; [done|]. apply word_lxor; by apply sched_nth. Qed.

Lemma word_rcon i : word (nth i rcon 0).
Proof. unfold word. do 10 (destruct i as [|i]; [cbn; lia|]); destruct i; cbn; lia. Qed.

Lemma word_sub_rot w : word (sub_rot w).
Proof. unfold sub_rot. repeat apply word_lxor; apply word_land; unfold word; lia. Qed.

Lemma word_sub_word w : word (sub_word w).
Proof. unfold sub_word. repeat apply word_lxor; apply word_land; unfold word; lia. Qed.

(** One more word of a schedule, as the three loops compute them. *)
Ltac sched_step :=
  repeat match goal with
  | |- sched_ok (chain _ _ _ _ _) => apply sched_chain
  | |- sched_ok (<[_ := _]> _) => apply sched_insert
  | |- sched_ok _ => assumption
  | |- word (sub_rot _) => apply word_sub_rot
  | |- word (sub_word _) => apply word_sub_word
  | |- word (nth _ rcon 0) => apply word_rcon
  | |- word (nth _ _ 0) => apply sched_nth
  | |- word (_ ^^ _) => apply word_lxor
  end.

Lemma sched_expand128 n i o rk : sched_ok rk → sched_ok (expand128 n i o rk).
Proof.
  revert i o rk. induction n as [|n IH]; intros i o rk Hrk; cbn [expand128]; [done|].
  apply IH. sched_step.
Qed.

Lemma sched_expand192 n i o rk : sched_ok rk → sched_ok (expand192 n i o rk).
Proof.
  revert i o rk. induction n as [|n IH]; intros i o rk Hrk; cbn [expand192]; [done|].
  case_match; [|apply IH]; sched_step.
Qed.

Lemma sched_expand256 n i o rk : sched_ok rk → sched_ok (expand256 n i o rk).
Proof.
  revert i o rk. induction n as [|n IH]; intros i o rk Hrk; cbn [expand256]; [done|].
  case_match; [|apply IH]; sched_step.
Qed.

Lemma sched_key_words userKey n a rk :
  Forall is_byte userKey → sched_ok rk → sched_ok (key_words userKey n a rk).
Proof.
  intros Hu. revert a rk. induction n as [|n IH]; intros a rk Hrk; cbn [key_words]; [done|].
  apply IH, sched_insert; auto using GETU32_word.
Qed.

Definition key_bits (bits : Z) : Prop := bits = 128 ∨ bits = 192 ∨ bits = 256.

Lemma set_encrypt_key_ok userKey bits key :
  key_bits bits → Forall is_byte userKey → sched_ok (rd_key key) →
  ∃ m rk, (5 ≤ m ≤ 7)%nat ∧ sched_ok rk ∧
    set_encrypt_key userKey bits key = (0, mkKey rk (Z.of_nat (2 * m))).
Proof.
  intros Hbits Hu Hk. unfold set_encrypt_key. destruct Hbits as [ -> | [ -> | -> ] ]; cbn [Z.eqb Pos.eqb negb andb].
  - exists 5%nat. eexists. split; [lia|].
    split; [|reflexivity]. apply sched_expand128. by apply sched_key_words.
  - exists 6%nat. eexists. split; [lia|].
    split; [|reflexivity]. apply sched_expand192. by repeat apply sched_key_words.
  - exists 7%nat. eexists. split; [lia|].
    split; [|reflexivity]. apply sched_expand256. by repeat apply sched_key_words.
Qed.

(** The schedules of a key, and what they do to a block. *)
Definition enc_key (userKey : bytes) (bits : Z) (key : AES_KEY) : AES_KEY :=
  (set_encrypt_key userKey bits key).2.
Definition dec_key (userKey : bytes) (bits : Z) (key : AES_KEY) : AES_KEY :=
  invert_key (enc_key userKey bits key).

Lemma schedules userKey bits key :
  key_bits bits → Forall is_byte userKey → sched_ok (rd_key key) →
  AES_set_encrypt_key (Some userKey) bits (Some key) = (0, Some (enc_key userKey bits key)) ∧
  AES_set_decrypt_key (Some userKey) bits (Some key) = (0, Some (dec_key userKey bits key)) ∧
  ∀ inp, is_block inp →
    is_block (AES_encrypt inp (enc_key userKey bits key)) ∧
    AES_decrypt (AES_encrypt inp (enc_key userKey bits key)) (dec_key userKey bits key) = inp.
Proof.
  intros Hbits Hu Hk.
  destruct (set_encrypt_key_ok userKey bits key Hbits Hu Hk) as (m & rk & Hm & [Hl Hw] & E).
  unfold AES_set_decrypt_key, AES_set_encrypt_key, dec_key, enc_key. rewrite E. cbn [snd].
  split_and!; [done..|]. intros inp Hi.
  pose proof (invert_key_inverse m rk Hl Hm) as Hinv.
  destruct m as [|m]; [lia|].
  split; [by eapply encrypt_block|].
  change (invert_key (mkKey rk (Z.of_nat (2 * S m)))) with
    (mkKey (rd_key (invert_key (mkKey rk (Z.of_nat (2 * S m))))) (Z.of_nat (2 * S m))).
  by apply decrypt_encrypt.
Qed.

(** ** The keys of the NV image *)

(** The octets of the string [nv_key] that a 128-bit key uses; [nv_enc_key] and
    [nv_dec_key] are zero before [ftpm_init] expands it. *)
Definition nv_key : bytes :=
  [0x66; 0x62; 0x63; 0x63; 0x61; 0x35; 0x65; 0x62; 0x66; 0x63; 0x33; 0x38; 0x36; 0x35; 0x38; 0x65].
Definition zero_key : AES_KEY := mkKey (replicate 60 0) 0.
Definition nv_enc_key : AES_KEY := enc_key nv_key 128 zero_key.
Definition nv_dec_key : AES_KEY := dec_key nv_key 128 zero_key.

Lemma zero_key_ok : sched_ok (rd_key zero_key).
Proof. split; [done|]. apply Forall_replicate. unfold word. lia. Qed.

Lemma nv_key_octets : Forall is_byte nv_key.
Proof. unfold nv_key, is_byte. repeat apply Forall_cons_2; [lia..|apply Forall_nil_2]. Qed.

Lemma nv_schedules inp :
  is_block inp →
  is_block (AES_encrypt inp nv_enc_key) ∧ AES_decrypt (AES_encrypt inp nv_enc_key) nv_dec_key = inp.
Proof.
  apply (schedules nv_key 128 zero_key); [by left|apply nv_key_octets|apply zero_key_ok].
Qed.

(** The block functions [_plat__NVEnable] and [_plat__NvCommit] hand to CBC. *)
#[refine] Definition nv_cipher : BlockCipher := {|
  block_enc := λ b, AES_encrypt b nv_enc_key;
  block_dec := λ b, AES_decrypt b nv_dec_key;
|}.
Proof.
  - intros b Hb. by apply nv_schedules.
  - intros b Hb. by apply nv_schedules.
Defined.
