(* ===== verification/NVMem.v ===== *)
(** * Platform NV memory (src/NVMem.c, and the file calls of src/intercept.c)

    [PlatNv] is the state NVMem.c keeps: the RAM image [s_NV] every TPM access
    goes to, the cipher-text buffer, the availability and error flags, and the
    file [NVChip] on the SD card.  [FILE_BACKED_NV] is the build switch of
    include/ftpm/PlatformData.h (NO on the generic platform, YES on vivado):
    theorems hold for both unless they say otherwise.

    The file system (FatFs) is not part of the sources; the model states what its
    documentation says of the calls used.  The file is modelled by its contents
    as later calls see them ([None]: it does not exist).  What [f_write] was
    given is certain to be on the card only after [f_close] or [f_sync], and
    intercept.c does not call the latter, from [fflush] or elsewhere
    ([f_sync] is commented out): [sd_synced] says that the card holds the
    contents.  A card whose accesses fail is [sd_ok = false]: then [f_open],
    [f_read] and [f_write] report an error.  [assert] of the C library is active in this
    file (assert.h is included before TpmBuildSwitches.h defines [NDEBUG]), so
    an assertion that fails has no result. *)

From Stdlib Require Import String.
From S2P Require Import Prelude TpmTypes Cbc.
Local Open Scope Z_scope.

Record PlatNv := mkPlatNv {
  s_NV : bytes;
  s_NV_ENC : bytes;
  s_NvIsAvailable : bool;
  s_NV_unrecoverable : Z;
  s_NV_recoverable : Z;
  s_NvFile : bool;             (* s_NvFile != NULL *)
  s_NeedsManufacture : bool;
  NVChip : option bytes;       (* the file "NVChip" *)
  sd_ok : bool;
  sd_synced : bool;            (* the card holds [NVChip] *)
}.

(** ** Field updates *)

Definition set_s_NV (m : bytes) (p : PlatNv) : PlatNv :=
  mkPlatNv m (s_NV_ENC p) (s_NvIsAvailable p) (s_NV_unrecoverable p)
    (s_NV_recoverable p) (s_NvFile p) (s_NeedsManufacture p) (NVChip p) (sd_ok p) (sd_synced p).
Definition set_s_NV_ENC (m : bytes) (p : PlatNv) : PlatNv :=
  mkPlatNv (s_NV p) m (s_NvIsAvailable p) (s_NV_unrecoverable p)
    (s_NV_recoverable p) (s_NvFile p) (s_NeedsManufacture p) (NVChip p) (sd_ok p) (sd_synced p).
Definition set_s_NvIsAvailable (b : bool) (p : PlatNv) : PlatNv :=
  mkPlatNv (s_NV p) (s_NV_ENC p) b (s_NV_unrecoverable p)
    (s_NV_recoverable p) (s_NvFile p) (s_NeedsManufacture p) (NVChip p) (sd_ok p) (sd_synced p).
Definition set_nv_errors (u r : Z) (p : PlatNv) : PlatNv :=
  mkPlatNv (s_NV p) (s_NV_ENC p) (s_NvIsAvailable p) u r (s_NvFile p)
    (s_NeedsManufacture p) (NVChip p) (sd_ok p) (sd_synced p).
Definition set_s_NvFile (b : bool) (p : PlatNv) : PlatNv :=
  mkPlatNv (s_NV p) (s_NV_ENC p) (s_NvIsAvailable p) (s_NV_unrecoverable p)
    (s_NV_recoverable p) b (s_NeedsManufacture p) (NVChip p) (sd_ok p) (sd_synced p).
Definition set_s_NeedsManufacture (b : bool) (p : PlatNv) : PlatNv :=
  mkPlatNv (s_NV p) (s_NV_ENC p) (s_NvIsAvailable p) (s_NV_unrecoverable p)
    (s_NV_recoverable p) (s_NvFile p) b (NVChip p) (sd_ok p) (sd_synced p).
(** The file written: the card may hold the old contents, the new or a part. *)
Definition set_NVChip (c : option bytes) (p : PlatNv) : PlatNv :=
  mkPlatNv (s_NV p) (s_NV_ENC p) (s_NvIsAvailable p) (s_NV_unrecoverable p)
    (s_NV_recoverable p) (s_NvFile p) (s_NeedsManufacture p) c (sd_ok p) false.
(** [f_close], whose result is not looked at. *)
Definition f_close (p : PlatNv) : PlatNv :=
  mkPlatNv (s_NV p) (s_NV_ENC p) (s_NvIsAvailable p) (s_NV_unrecoverable p)
    (s_NV_recoverable p) (s_NvFile p) (s_NeedsManufacture p) (NVChip p) (sd_ok p) (sd_ok p || sd_synced p).

(** The platform image holds [NV_MEMORY_SIZE] bytes. *)
Definition nv_image_ok (p : PlatNv) : Prop :=
  blen (s_NV p) = NV_MEMORY_SIZE ∧ Forall is_byte (s_NV p).

(** [assert(c)] of the C library. *)
Definition c_assert {S} (c : bool) : M S unit := if c then ret tt else undef.

(** ** Access to the RAM image (lines 364-456)

    Offsets and sizes are [unsigned int]: their sum wraps at 2^32. *)

Definition nv_in_range (startOffset size : Z) : bool :=
  u32 (startOffset + size) <=? NV_MEMORY_SIZE.

Definition plat__NvMemoryRead (startOffset size : Z) : M PlatNv (bool * bytes) :=
  c_assert (nv_in_range startOffset size) ;;
  if nv_in_range startOffset size then
    let! m := gets s_NV in
    if inb m startOffset size then ret (true, bread m startOffset size) else undef
  else ret (false, []).

Definition NV_HAS_CHANGED : Z := 1.
Definition NV_IS_SAME : Z := 0.
Definition NV_INVALID_LOCATION : Z := -1.

Definition plat__NvGetChangedStatus (startOffset size : Z) (data : bytes) : M PlatNv Z :=
  c_assert (nv_in_range startOffset size) ;;
  if nv_in_range startOffset size then
    let! m := gets s_NV in
    if inb m startOffset size && inb data 0 size
    then ret (if decide (bread m startOffset size = bread data 0 size)
               then NV_IS_SAME else NV_HAS_CHANGED)
    else undef
  else ret NV_INVALID_LOCATION.

Definition plat__NvMemoryWrite (startOffset size : Z) (data : bytes) : M PlatNv bool :=
  c_assert (nv_in_range startOffset size) ;;
  if nv_in_range startOffset size then
    let! m := gets s_NV in
    if inb m startOffset size && inb data 0 size
    then modify (set_s_NV (bwrite m startOffset (bread data 0 size))) ;; ret true
    else undef
  else ret false.

Definition plat__NvMemoryClear (startOffset size : Z) : M PlatNv bool :=
  c_assert (nv_in_range startOffset size) ;;
  if nv_in_range startOffset size then
    let! m := gets s_NV in
    if inb m startOffset size
    then modify (set_s_NV (bwrite m startOffset (bfill 0xff size))) ;; ret true
    else undef
  else ret false.

Definition plat__NvMemoryMove (sourceOffset destOffset size : Z) : M PlatNv bool :=
  c_assert (nv_in_range sourceOffset size) ;;
  c_assert (nv_in_range destOffset size) ;;
  if nv_in_range sourceOffset size && nv_in_range destOffset size then
    let! m := gets s_NV in
    if inb m sourceOffset size && inb m destOffset size
    then modify (set_s_NV (bwrite m destOffset (bread m sourceOffset size))) ;; ret true
    else undef
  else ret false.

(** ** Availability (lines 340-362, 478-513) *)

Definition NV_READY : Z := 0.
Definition NV_WRITEFAILURE : Z := 1.
Definition NV_RATE_LIMIT : Z := 2.

Definition plat__SetNvAvail : M PlatNv unit := modify (set_s_NvIsAvailable true).
Definition plat__ClearNvAvail : M PlatNv unit := modify (set_s_NvIsAvailable false).
Definition plat__NvErrors (recoverable unrecoverable : Z) : M PlatNv unit :=
  modify (set_nv_errors unrecoverable recoverable).
Definition plat__TearDown : M PlatNv unit := ret tt.

Section platform.
Context `{BlockCipher} (FILE_BACKED_NV : bool).

Definition plat__GetNvReadyState : M PlatNv Z :=
  let! avail := gets s_NvIsAvailable in
  if negb avail then ret NV_WRITEFAILURE
  else if FILE_BACKED_NV then
    let! open := gets s_NvFile in ret (if open then 0 else 1)
  else ret NV_READY.

Definition plat__NVNeedsManufacture : M PlatNv bool :=
  if FILE_BACKED_NV then gets s_NeedsManufacture else ret false.

(** ** The file and its encryption (lines 112-196; ftpm.c, lines 150-162)

    [nv_iv]: the first 16 characters of the literal in ftpm.c, line 36. *)

Definition nv_iv : bytes :=
  [54; 50; 51; 101; 55; 97; 97; 57; 97; 50; 97; 97; 57; 50; 97; 56].

Definition aes_cbc_encrypt_decrypt (input : bytes) (encrypt : bool) : option bytes :=
  if encrypt then Some (fst (CRYPTO_cbc128_encrypt input nv_iv))
  else fst <$> CRYPTO_cbc128_decrypt input (List.length input) nv_iv.

(** [intercept_fopen] with [FA_READ|FA_WRITE] (file must exist) or
    [FA_CREATE_ALWAYS] (file is created or truncated); any other mode leaves
    [s_NvFile] as it was. *)
Definition NvFileOpen (mode : string) : M PlatNv Z :=
  (if String.eqb mode "r+b" then
     let! ok := gets sd_ok in let! c := gets NVChip in
     modify (set_s_NvFile (ok && match c with Some _ => true | None => false end))
   else if String.eqb mode "w+b" then
     let! ok := gets sd_ok in
     (if ok then modify (set_NVChip (Some [])) else ret tt) ;;
     modify (set_s_NvFile ok)
   else ret tt) ;;
  let! open := gets s_NvFile in
  ret (if open then 0 else -1).

Definition NvFileCommit : M PlatNv bool :=
  let! open := gets s_NvFile in
  if negb open then ret true
  else
    let! m := gets s_NV in
    let! enc := of_option (aes_cbc_encrypt_decrypt m true) in
    modify (set_s_NV_ENC enc) ;;
    let! ok := gets sd_ok in let! c := gets NVChip in
    (if ok : bool
     then modify (set_NVChip (Some (enc ++ drop (List.length enc) (default [] c))))
     else ret tt) ;;
    c_assert ok ;;
    ret ok.

Definition NvFileSize : M PlatNv Z :=
  let! open := gets s_NvFile in
  c_assert open ;;
  let! c := gets NVChip in
  ret (blen (default [] c)).

Definition plat__NvCommit : M PlatNv Z :=
  if FILE_BACKED_NV then let! ok := NvFileCommit in ret (if ok then 0 else 1)
  else ret 0.

(** ** Enable and disable (lines 205-338) *)

Definition NV_ENABLE_SUCCESS : Z := 0.
Definition NV_ENABLE_FAILED : Z := -1.

Definition nv_enable_tail : M PlatNv Z :=
  let! u := gets s_NV_unrecoverable in
  if negb (u =? 0) then ret NV_ENABLE_FAILED
  else modify (set_s_NvIsAvailable true) ;; gets s_NV_recoverable.

Definition nv_load_file : M PlatNv unit :=
  let! r := NvFileOpen "r+b" in
  if 0 <=? r then
    let! fileSize := NvFileSize in
    if NV_MEMORY_SIZE =? fileSize then
      let! ok := gets sd_ok in let! c := gets NVChip in let! old := gets s_NV_ENC in
      let enc := if ok then default [] c else old in
      modify (set_s_NV_ENC enc) ;;
      modify (set_s_NeedsManufacture (negb ok)) ;;
      let! dec := of_option (aes_cbc_encrypt_decrypt enc false) in
      modify (set_s_NV dec)
    else NvFileCommit ;; modify (set_s_NeedsManufacture true)
  else
    let! r := NvFileOpen "w+b" in
    if 0 <=? r then NvFileCommit ;; modify (set_s_NeedsManufacture true)
    else ret tt.

Definition plat__NVEnable : M PlatNv Z :=
  modify (set_nv_errors 0 0) ;;
  let! open := gets s_NvFile in
  if FILE_BACKED_NV && open then ret NV_ENABLE_SUCCESS
  else
    (if FILE_BACKED_NV then
       plat__NvMemoryClear 0 NV_MEMORY_SIZE ;;
       nv_load_file ;;
       let! open := gets s_NvFile in
       c_assert open
     else ret tt) ;;
    nv_enable_tail.

Definition plat__NVDisable (delete : bool) : M PlatNv unit :=
  (if FILE_BACKED_NV then
     let! open := gets s_NvFile in
     (if open then
        modify f_close ;;
        (if delete then
           let! r := NvFileOpen "w" in
           if 0 <=? r then modify f_close else ret tt
         else ret tt)
      else ret tt) ;;
     modify (set_s_NvFile false)
   else ret tt) ;;
  modify (set_s_NvIsAvailable false).
End platform.
#[global] Arguments aes_cbc_encrypt_decrypt : simpl never.

(** ** In-range accesses *)

Lemma nv_in_range_true o n :
  0 ≤ o → 0 ≤ n → o + n ≤ NV_MEMORY_SIZE → nv_in_range o n = true.
Proof.
  unfold nv_in_range, NV_MEMORY_SIZE. intros.
  rewrite u32_small by lia. zbool. lia.
Qed.

Ltac plat_access :=
  intros; unfold c_assert; rewrite ?nv_in_range_true by lia; munfold; cbn [negb andb];
  repeat rewrite (proj2 (inb_true _ _ _)) by (repeat split; lia); cbn [andb].

Lemma plat_read_ok p o n :
  blen (s_NV p) = NV_MEMORY_SIZE → 0 ≤ o → 0 ≤ n → o + n ≤ NV_MEMORY_SIZE →
  plat__NvMemoryRead o n p = Some ((true, bread (s_NV p) o n), p).
Proof. unfold plat__NvMemoryRead. plat_access. done. Qed.

Lemma plat_write_ok p o n d :
  blen (s_NV p) = NV_MEMORY_SIZE → 0 ≤ o → 0 ≤ n → o + n ≤ NV_MEMORY_SIZE → n ≤ blen d →
  plat__NvMemoryWrite o n d p = Some (true, set_s_NV (bwrite (s_NV p) o (bread d 0 n)) p).
Proof. unfold plat__NvMemoryWrite. plat_access. done. Qed.

Lemma plat_clear_ok p o n :
  blen (s_NV p) = NV_MEMORY_SIZE → 0 ≤ o → 0 ≤ n → o + n ≤ NV_MEMORY_SIZE →
  plat__NvMemoryClear o n p = Some (true, set_s_NV (bwrite (s_NV p) o (bfill 0xff n)) p).
Proof. unfold plat__NvMemoryClear. plat_access. done. Qed.

Lemma plat_move_ok p so dst n :
  blen (s_NV p) = NV_MEMORY_SIZE → 0 ≤ so → 0 ≤ dst → 0 ≤ n →
  so + n ≤ NV_MEMORY_SIZE → dst + n ≤ NV_MEMORY_SIZE →
  plat__NvMemoryMove so dst n p =
    Some (true, set_s_NV (bwrite (s_NV p) dst (bread (s_NV p) so n)) p).
Proof. unfold plat__NvMemoryMove. plat_access. done. Qed.

Lemma plat_changed_ok p o n d :
  blen (s_NV p) = NV_MEMORY_SIZE → 0 ≤ o → 0 ≤ n → o + n ≤ NV_MEMORY_SIZE → n ≤ blen d →
  plat__NvGetChangedStatus o n d p =
    Some ((if decide (bread (s_NV p) o n = bread d 0 n)
           then NV_IS_SAME else NV_HAS_CHANGED), p).
Proof. unfold plat__NvGetChangedStatus. plat_access. done. Qed.

(** ** Power cycle of the file-backed build *)

Section power.
Context `{BlockCipher}.

Lemma nv_iv_block : is_block nv_iv.
Proof. split; [done|]. unfold nv_iv, is_byte. repeat constructor; lia. Qed.

Lemma nv_image_blocks (m : bytes) :
  blen m = NV_MEMORY_SIZE → (List.length m `mod` 16 = 0)%nat.
Proof.
  unfold blen, NV_MEMORY_SIZE. intros.
  replace (List.length m) with (Z.to_nat 32768) by lia. by vm_compute.
Qed.

(** Encrypting the image and decrypting the cipher text gives the image back. *)
Lemma aes_image_roundtrip m :
  blen m = NV_MEMORY_SIZE → Forall is_byte m →
  ∃ enc, aes_cbc_encrypt_decrypt m true = Some enc ∧ blen enc = NV_MEMORY_SIZE ∧
         aes_cbc_encrypt_decrypt enc false = Some m.
Proof.
  intros Hm Fm. eexists. split; [reflexivity|].
  destruct (cbc128_roundtrip m nv_iv) as [Hl Hd];
    [by apply nv_image_blocks | done | apply nv_iv_block |].
  unfold aes_cbc_encrypt_decrypt, blen in *. rewrite Hl. split; [lia|done].
Qed.

(** The file decrypts to the image [m]. *)
Definition file_holds (p : PlatNv) (m : bytes) : Prop :=
  ∃ enc, NVChip p = Some enc ∧ blen enc = NV_MEMORY_SIZE ∧ aes_cbc_encrypt_decrypt enc false = Some m.

(** A file that a commit does not leave longer than the image. *)
Definition file_fits (p : PlatNv) : Prop :=
  NVChip p = None ∨ ∃ c, NVChip p = Some c ∧ blen c ≤ NV_MEMORY_SIZE.

Lemma holds_fits p m : file_holds p m → file_fits p.
Proof. intros (enc & E & Hl & _). right. exists enc. split; [done|lia]. Qed.

Lemma commit_eq p :
  s_NvFile p = true → sd_ok p = true → ∃ enc, aes_cbc_encrypt_decrypt (s_NV p) true = Some enc ∧
  plat__NvCommit true p
  = Some (0, set_NVChip (Some (enc ++ drop (List.length enc) (default [] (NVChip p)))) (set_s_NV_ENC enc p)).
Proof.
  intros Hopen Hsd. eexists. split; [reflexivity|].
  unfold plat__NvCommit, NvFileCommit. munfold. rewrite Hopen. cbn.
  unfold aes_cbc_encrypt_decrypt. cbn. rewrite Hsd. done.
Qed.

(** What a commit that returns leaves: the file holds the image, though the card
    need not. *)
Lemma commit_ok p :
  nv_image_ok p → s_NvFile p = true → sd_ok p = true → file_fits p →
  ∃ p1, plat__NvCommit true p = Some (0, p1) ∧ file_holds p1 (s_NV p) ∧ s_NV p1 = s_NV p ∧
    s_NvFile p1 = true ∧ sd_ok p1 = true ∧ sd_synced p1 = false.
Proof.
  intros [Hlen Hbyte] Hopen Hsd Hchip.
  destruct (aes_image_roundtrip _ Hlen Hbyte) as (enc & He & Hel & Hd).
  destruct (commit_eq p Hopen Hsd) as (enc' & He' & ->). rewrite He in He'. injection He' as <-.
  eexists. split; [reflexivity|]. split; [|done]. exists enc. split; [|done]. cbn. f_equal.
  rewrite drop_ge, app_nil_r; [done|].
  destruct Hchip as [->|(c & -> & Hc)]; cbn; [lia|]. unfold blen in *. lia.
Qed.

(** [_plat__NVEnable] on a file that is not open loads the image it holds. *)
Lemma enable_ok p m :
  file_holds p m → sd_ok p = true → s_NvFile p = false → blen (s_NV p) = NV_MEMORY_SIZE →
  ∃ p', plat__NVEnable true p = Some (0, p') ∧ s_NV p' = m ∧ s_NvFile p' = true ∧ NVChip p' = NVChip p ∧
    s_NvIsAvailable p' = true ∧ s_NeedsManufacture p' = false ∧ sd_ok p' = true.
Proof.
  intros (enc & Hc & Hel & Hd) Hsd Hf Hl. unfold plat__NVEnable. munfold. cbn. rewrite Hf. cbn.
  rewrite plat_clear_ok by (cbn; unfold NV_MEMORY_SIZE in *; lia).
  unfold nv_load_file, NvFileOpen, NvFileSize. munfold. cbn.
  rewrite Hsd, Hc. cbn -[blen]. rewrite Hc. cbn -[blen]. rewrite Hel.
  cbn. rewrite Hsd, Hc. cbn. rewrite Hd. cbn. eauto 12.
Qed.

(** On a card that does not work it does not return. *)
Lemma enable_card p r p' :
  s_NvFile p = false → blen (s_NV p) = NV_MEMORY_SIZE → plat__NVEnable true p = Some (r, p') → sd_ok p = true.
Proof.
  intros Hf Hl. unfold plat__NVEnable. munfold. cbn. rewrite Hf. cbn.
  rewrite plat_clear_ok by (cbn; unfold NV_MEMORY_SIZE in *; lia).
  unfold nv_load_file, NvFileOpen. munfold. cbn.
  destruct (sd_ok p) eqn:E; [done|]. cbn. rewrite E. cbn. done.
Qed.

(** [_plat__NVDisable] without deletion closes the file. *)
Lemma disable_ok p :
  s_NvFile p = true → sd_ok p = true →
  ∃ p', plat__NVDisable true false p = Some (tt, p') ∧ NVChip p' = NVChip p ∧ s_NV p' = s_NV p ∧
    s_NvFile p' = false ∧ sd_ok p' = true ∧ sd_synced p' = true.
Proof.
  intros Hf Hsd. unfold plat__NVDisable. munfold. rewrite Hf. cbn. eexists. split; [reflexivity|].
  cbn. by rewrite Hsd.
Qed.

(** Power goes off and comes back: nothing is certain but what the card holds. *)
Record power_off (p p' : PlatNv) : Prop := {
  po_file : s_NvFile p' = false;
  po_image : blen (s_NV p') = NV_MEMORY_SIZE;
  po_card : sd_synced p = true → NVChip p' = NVChip p;
}.
End power.
