(* ===== verification/NVReserved.v ===== *)
(** * NV state of the TPM and access to it (src/NVReserved.c)

    [NvState] gathers the globals the NV subsystem reads and writes
    (include/ftpm/Global.h): the platform image, the end of the dynamic area,
    the RAM copy of orderly index data, the max counter, the index cache, and
    the per-command flags.

    The sizes of the reserved structures are decided by the compiler, so they
    are parameters, [NvLayout], with the constraints the code relies on; every
    theorem holds for every such layout.  [rv64_layout] is one. *)

From S2P Require Import Prelude TpmTypes Cbc NVMem.
Local Open Scope Z_scope.

(** ** Layout of NV memory (Global.h, lines 1104-1110) *)

Class NvLayout := {
  sizeof_PERSISTENT_DATA : Z;
  sizeof_STATE_RESET_DATA : Z;
  sizeof_STATE_CLEAR_DATA : Z;
  sizeof_ORDERLY_DATA : Z;
  sizeof_OBJECT : Z;
  offsetof_OBJECT_evictHandle : Z;
  layout_persistent : 0 < sizeof_PERSISTENT_DATA;
  layout_reset : 0 < sizeof_STATE_RESET_DATA;
  layout_clear : 0 < sizeof_STATE_CLEAR_DATA;
  layout_orderly : 0 < sizeof_ORDERLY_DATA;
  layout_evictHandle :
    4 ≤ offsetof_OBJECT_evictHandle ∧ offsetof_OBJECT_evictHandle + 4 ≤ sizeof_OBJECT;
  layout_object : sizeof_OBJECT < NV_MEMORY_SIZE;
  layout_fits :
    sizeof_PERSISTENT_DATA + sizeof_STATE_RESET_DATA + sizeof_STATE_CLEAR_DATA
    + sizeof_ORDERLY_DATA + RAM_INDEX_SPACE + 12 < NV_MEMORY_SIZE;
}.

Section layout.
Context `{NvLayout}.
Definition NV_PERSISTENT_DATA : Z := 0.
Definition NV_STATE_RESET_DATA : Z := NV_PERSISTENT_DATA + sizeof_PERSISTENT_DATA.
Definition NV_STATE_CLEAR_DATA : Z := NV_STATE_RESET_DATA + sizeof_STATE_RESET_DATA.
Definition NV_ORDERLY_DATA : Z := NV_STATE_CLEAR_DATA + sizeof_STATE_CLEAR_DATA.
Definition NV_INDEX_RAM_DATA : Z := NV_ORDERLY_DATA + sizeof_ORDERLY_DATA.
Definition NV_USER_DYNAMIC : Z := NV_INDEX_RAM_DATA + RAM_INDEX_SPACE.

Lemma NV_INDEX_RAM_DATA_pos : 0 < NV_INDEX_RAM_DATA.
Proof.
  unfold NV_INDEX_RAM_DATA, NV_ORDERLY_DATA, NV_STATE_CLEAR_DATA,
    NV_STATE_RESET_DATA, NV_PERSISTENT_DATA.
  pose proof layout_persistent; pose proof layout_reset;
  pose proof layout_clear; pose proof layout_orderly. lia.
Qed.

Lemma NV_USER_DYNAMIC_bounds : 512 < NV_USER_DYNAMIC ∧ NV_USER_DYNAMIC + 12 < NV_MEMORY_SIZE.
Proof.
  pose proof NV_INDEX_RAM_DATA_pos. pose proof layout_fits.
  unfold NV_USER_DYNAMIC, NV_INDEX_RAM_DATA, NV_ORDERLY_DATA, NV_STATE_CLEAR_DATA,
    NV_STATE_RESET_DATA, NV_PERSISTENT_DATA, RAM_INDEX_SPACE in *. lia.
Qed.
End layout.

(** A layout with the magnitudes of the RV64 build. *)
#[export] Instance rv64_layout : NvLayout.
Proof.
  refine {| sizeof_PERSISTENT_DATA := 1400; sizeof_STATE_RESET_DATA := 400;
    sizeof_STATE_CLEAR_DATA := 1600; sizeof_ORDERLY_DATA := 128;
    sizeof_OBJECT := 1900; offsetof_OBJECT_evictHandle := 1752 |};
  unfold NV_MEMORY_SIZE, RAM_INDEX_SPACE; try split; lia.
Defined.

(** ** State *)

Record NvState := mkNvState {
  plat : PlatNv;
  s_evictNvEnd : Z;
  s_indexOrderlyRam : bytes;
  s_maxCounter : Z;
  s_cachedNvIndex : bytes;         (* the image of an NV_INDEX *)
  s_cachedNvRef : Z;
  s_cachedNvRamRef : option Z;     (* offset in s_indexOrderlyRam; None = NULL *)
  g_NvStatus : Z;
  g_updateNV : Z;
  g_clearOrderly : bool;
  g_inFailureMode : bool;
  gc_shEnable : bool;
  gc_phEnableNV : bool;
  g_prevOrderlyState : Z;
}.

Definition set_plat (x : PlatNv) (s : NvState) : NvState :=
  mkNvState x (s_evictNvEnd s) (s_indexOrderlyRam s) (s_maxCounter s)
    (s_cachedNvIndex s) (s_cachedNvRef s) (s_cachedNvRamRef s) (g_NvStatus s)
    (g_updateNV s) (g_clearOrderly s) (g_inFailureMode s) (gc_shEnable s)
    (gc_phEnableNV s) (g_prevOrderlyState s).
Definition set_evictNvEnd (x : Z) (s : NvState) : NvState :=
  mkNvState (plat s) x (s_indexOrderlyRam s) (s_maxCounter s)
    (s_cachedNvIndex s) (s_cachedNvRef s) (s_cachedNvRamRef s) (g_NvStatus s)
    (g_updateNV s) (g_clearOrderly s) (g_inFailureMode s) (gc_shEnable s)
    (gc_phEnableNV s) (g_prevOrderlyState s).
Definition set_orderlyRam (x : bytes) (s : NvState) : NvState :=
  mkNvState (plat s) (s_evictNvEnd s) x (s_maxCounter s)
    (s_cachedNvIndex s) (s_cachedNvRef s) (s_cachedNvRamRef s) (g_NvStatus s)
    (g_updateNV s) (g_clearOrderly s) (g_inFailureMode s) (gc_shEnable s)
    (gc_phEnableNV s) (g_prevOrderlyState s).
Definition set_maxCounter (x : Z) (s : NvState) : NvState :=
  mkNvState (plat s) (s_evictNvEnd s) (s_indexOrderlyRam s) x
    (s_cachedNvIndex s) (s_cachedNvRef s) (s_cachedNvRamRef s) (g_NvStatus s)
    (g_updateNV s) (g_clearOrderly s) (g_inFailureMode s) (gc_shEnable s)
    (gc_phEnableNV s) (g_prevOrderlyState s).
Definition set_cache (idx : bytes) (ref : Z) (ram : option Z) (s : NvState) : NvState :=
  mkNvState (plat s) (s_evictNvEnd s) (s_indexOrderlyRam s) (s_maxCounter s)
    idx ref ram (g_NvStatus s)
    (g_updateNV s) (g_clearOrderly s) (g_inFailureMode s) (gc_shEnable s)
    (gc_phEnableNV s) (g_prevOrderlyState s).
Definition set_NvStatus (x : Z) (s : NvState) : NvState :=
  mkNvState (plat s) (s_evictNvEnd s) (s_indexOrderlyRam s) (s_maxCounter s)
    (s_cachedNvIndex s) (s_cachedNvRef s) (s_cachedNvRamRef s) x
    (g_updateNV s) (g_clearOrderly s) (g_inFailureMode s) (gc_shEnable s)
    (gc_phEnableNV s) (g_prevOrderlyState s).
Definition set_updateNV (x : Z) (s : NvState) : NvState :=
  mkNvState (plat s) (s_evictNvEnd s) (s_indexOrderlyRam s) (s_maxCounter s)
    (s_cachedNvIndex s) (s_cachedNvRef s) (s_cachedNvRamRef s) (g_NvStatus s)
    x (g_clearOrderly s) (g_inFailureMode s) (gc_shEnable s)
    (gc_phEnableNV s) (g_prevOrderlyState s).
Definition set_clearOrderly (x : bool) (s : NvState) : NvState :=
  mkNvState (plat s) (s_evictNvEnd s) (s_indexOrderlyRam s) (s_maxCounter s)
    (s_cachedNvIndex s) (s_cachedNvRef s) (s_cachedNvRamRef s) (g_NvStatus s)
    (g_updateNV s) x (g_inFailureMode s) (gc_shEnable s)
    (gc_phEnableNV s) (g_prevOrderlyState s).
Definition set_inFailureMode (x : bool) (s : NvState) : NvState :=
  mkNvState (plat s) (s_evictNvEnd s) (s_indexOrderlyRam s) (s_maxCounter s)
    (s_cachedNvIndex s) (s_cachedNvRef s) (s_cachedNvRamRef s) (g_NvStatus s)
    (g_updateNV s) (g_clearOrderly s) x (gc_shEnable s)
    (gc_phEnableNV s) (g_prevOrderlyState s).

#[global] Instance NvState_fail : FailState NvState :=
  {| set_failure := set_inFailureMode true |}.

(** A platform call made by the TPM library. *)
Definition on_plat {A} (m : M PlatNv A) : M NvState A :=
  λ s, match m (plat s) with
       | Some (a, p) => Some (a, set_plat p s)
       | None => None
       end.

Definition nvmem (s : NvState) : bytes := s_NV (plat s).
(** The state with another NV image. *)
Definition with_nvmem (m : bytes) (s : NvState) : NvState :=
  set_plat (set_s_NV m (plat s)) s.

(** [SET_NV_UPDATE(type)] with [UT_NV] = 1, [UT_ORDERLY] = 3. *)
Definition SET_NV_UPDATE (t : Z) : M NvState unit :=
  modify (λ s, set_updateNV (Z.lor (g_updateNV s) t) s).

(** ** The functions of NVReserved.c *)

Definition NvInitStatic : M NvState unit := modify (set_evictNvEnd NV_MEMORY_SIZE).

Definition NvRead (nvOffset size : Z) : M NvState bytes :=
  pAssert (u32 (nvOffset + size) <? NV_MEMORY_SIZE) ;;
  let! '(_, d) := on_plat (plat__NvMemoryRead nvOffset size) in
  ret d.

Definition NvWrite (nvOffset size : Z) (inBuffer : bytes) : M NvState bool :=
  if u32 (nvOffset + size) <=? NV_MEMORY_SIZE then
    SET_NV_UPDATE UT_NV ;;
    on_plat (plat__NvMemoryWrite nvOffset size inBuffer)
  else ret false.

Section reserved.
Context `{BlockCipher} (FILE_BACKED_NV : bool).

Definition NvCheckState : M NvState unit :=
  let! func_return := on_plat (plat__GetNvReadyState FILE_BACKED_NV) in
  if func_return =? NV_READY then modify (set_NvStatus TPM_RC_SUCCESS)
  else if func_return =? NV_WRITEFAILURE then modify (set_NvStatus TPM_RC_NV_UNAVAILABLE)
  else modify (set_NvStatus TPM_RC_NV_RATE).

Definition NvCommit : M NvState bool :=
  let! r := on_plat (plat__NvCommit FILE_BACKED_NV) in ret (r =? 0).

Definition NvPowerOn (g_powerWasLost : bool) : M NvState bool :=
  if g_powerWasLost then
    let! nvError := on_plat (plat__NVEnable FILE_BACKED_NV) in
    (if nvError <? 0 then modify set_failure else ret tt) ;;
    NvInitStatic ;;
    ret (nvError =? 0)
  else ret true.
End reserved.

(** ** Access lemmas *)

Definition nv_ok (s : NvState) : Prop := blen (nvmem s) = NV_MEMORY_SIZE.

Lemma NvRead_ok s o n :
  nv_ok s → 0 ≤ o → 0 ≤ n → o + n < NV_MEMORY_SIZE →
  NvRead o n s = Some (bread (nvmem s) o n, s).
Proof.
  intros Hok Ho Hn Hlt. unfold NvRead.
  rewrite (bind_Some _ _ _ tt s); cycle 1.
  { apply pAssert_true. unfold NV_MEMORY_SIZE in *. rewrite u32_small by lia. zbool. lia. }
  unfold on_plat, bind, ret. rewrite plat_read_ok by (done || lia).
  by destruct s.
Qed.

(** At the very end of NV memory the read succeeds but [pAssert] puts the TPM
    in failure mode: the test is [<] where the platform's is [<=]. *)
Lemma NvRead_last s o n :
  nv_ok s → 0 ≤ o → 0 ≤ n → o + n = NV_MEMORY_SIZE →
  NvRead o n s = Some (bread (nvmem s) o n, set_inFailureMode true s).
Proof.
  intros Hok Ho Hn Heq. unfold NvRead, pAssert.
  replace (u32 (o + n) <? NV_MEMORY_SIZE) with false; cycle 1.
  { unfold NV_MEMORY_SIZE in *. rewrite u32_small by lia. symmetry. zbool. lia. }
  unfold on_plat, bind, ret, modify. cbn [plat set_failure NvState_fail set_inFailureMode].
  rewrite plat_read_ok by (done || lia). by destruct s.
Qed.

(** The state after a write of [d] at [o]: the image changes there, and a
    commit is due at the end of the command. *)
Definition nv_put (o : Z) (d : bytes) (s : NvState) : NvState :=
  with_nvmem (bwrite (nvmem s) o d) (set_updateNV (Z.lor (g_updateNV s) UT_NV) s).

Lemma NvWrite_ok s o n d :
  nv_ok s → 0 ≤ o → n = blen d → o + n ≤ NV_MEMORY_SIZE →
  NvWrite o n d s = Some (true, nv_put o d s).
Proof.
  intros Hok Ho -> Hle. pose proof (blen_nonneg d). unfold NvWrite.
  unfold NV_MEMORY_SIZE in *.
  rewrite u32_small by lia. rewrite (proj2 (Z.leb_le _ _)) by lia.
  unfold SET_NV_UPDATE, modify, bind, on_plat. cbn [plat set_updateNV].
  rewrite plat_write_ok by (unfold NV_MEMORY_SIZE; done || lia).
  rewrite bread_all by done. done.
Qed.

Lemma nv_put_ok o d s :
  nv_ok s → 0 ≤ o → o + blen d ≤ NV_MEMORY_SIZE → nv_ok (nv_put o d s).
Proof. unfold nv_ok. intros Hs ??. cbn. rewrite blen_bwrite; [done|done|]. fold (nvmem s). lia. Qed.

(** Two states that differ at most in the NV image, with a commit due. *)
Definition nv_written (s s' : NvState) : Prop :=
  s' = with_nvmem (nvmem s') (set_updateNV (Z.lor (g_updateNV s) UT_NV) s).

Lemma nv_written_put o d s : nv_written s (nv_put o d s).
Proof. done. Qed.

Lemma nv_written_step s s' o d : nv_written s s' → nv_written s (nv_put o d s').
Proof.
  unfold nv_written, nv_put. intros ->. cbn.
  by rewrite <- Z.lor_assoc, Z.lor_diag.
Qed.

Lemma nv_written_mem s s' m : nv_written s s' → nv_written s (with_nvmem m s').
Proof. unfold nv_written. by intros ->. Qed.

(** What a write to NV leaves alone. *)
Lemma nv_written_frame s s' :
  nv_written s s' →
  s_evictNvEnd s' = s_evictNvEnd s ∧ s_indexOrderlyRam s' = s_indexOrderlyRam s ∧
  s_maxCounter s' = s_maxCounter s ∧ g_NvStatus s' = g_NvStatus s ∧
  g_inFailureMode s' = g_inFailureMode s ∧ s_cachedNvIndex s' = s_cachedNvIndex s ∧
  s_cachedNvRef s' = s_cachedNvRef s ∧ s_cachedNvRamRef s' = s_cachedNvRamRef s.
Proof. unfold nv_written. intros ->. done. Qed.
