(* ===== verification/NvList.v ===== *)
(** * The dynamic NV area: a linked list in NV memory (src/NVDynamic.c)

    [NvNext] .. [NvDelete], [NvFindHandle] and the max-counter functions, on
    the byte image of NV memory, and the refinement: the area at
    [NV_USER_DYNAMIC] is the serialisation of a list of entries followed by the
    end marker, and each operation acts on that list. *)

From S2P Require Import Prelude TpmTypes Cbc NVMem NVReserved.
Local Open Scope Z_scope.

Definition NV_REF_INIT : Z := 0xFFFFFFFF.
Definition sizeof_UINT32 : Z := 4.
Definition sizeof_NV_ENTRY_HEADER : Z := 8.
Definition sizeof_NV_LIST_TERMINATOR : Z := 12.

(** Fuel of the scans: every entry takes at least 8 octets of NV memory, so a
    well-formed list has fewer entries than NV memory has octets. *)
Definition nv_fuel : nat := Z.to_nat NV_MEMORY_SIZE.

Section nv_list.
Context `{NvLayout}.

(** ** The iterators (lines 115-196) *)

(** [NvNext]: the result is the address returned, the new [*iter], and the new
    [*handle] (unchanged at the end of the list). *)
Definition NvNext (iter handle : Z) : M NvState (Z * Z * Z) :=
  let iter := if iter =? NV_REF_INIT then NV_USER_DYNAMIC else iter in
  let currentAddr := u32 (iter + sizeof_UINT32) in
  let! header := NvRead iter sizeof_NV_ENTRY_HEADER in
  let size := le_val (bread header 0 4) in
  if size =? 0 then ret (0, iter, handle)
  else ret (currentAddr, u32 (iter + size), le_val (bread header 4 4)).

Fixpoint NvNextByType_loop (fuel : nat) (iter nvHandle type : Z) : M NvState (Z * Z * Z) :=
  match fuel with
  | O => undef
  | S fuel =>
      let! '(addr, iter, nvHandle) := NvNext iter nvHandle in
      if addr =? 0 then ret (addr, iter, nvHandle)
      else if HandleGetType nvHandle =? type then ret (addr, iter, nvHandle)
      else NvNextByType_loop fuel iter nvHandle type
  end.

Definition NvNextByType (iter type : Z) : M NvState (Z * Z * Z) :=
  NvNextByType_loop nv_fuel iter 0 type.
Definition NvNextIndex (iter : Z) : M NvState (Z * Z * Z) := NvNextByType iter TPM_HT_NV_INDEX.
Definition NvNextEvict (iter : Z) : M NvState (Z * Z * Z) := NvNextByType iter TPM_HT_PERSISTENT.

(** The idiom [while((currentAddr = next(&handle, &iter)) != 0) body] of the
    scans: [body] gets the address and the handle of each entity, and the
    locals the loop assigns are [acc]; [stop] is a [return] or [break] after the
    body. *)
Fixpoint nv_while {A} (stop : A → bool) (fuel : nat) (next : Z → M NvState (Z * Z * Z))
    (body : Z → Z → A → M NvState A) (iter : Z) (acc : A) : M NvState A :=
  match fuel with
  | O => undef
  | S fuel =>
      let! '(currentAddr, iter, handle) := next iter in
      if currentAddr =? 0 then ret acc
      else
        let! acc := body currentAddr handle acc in
        if stop acc then ret acc else nv_while stop fuel next body iter acc
  end.

(** A loop without early exit. *)
Definition no_stop {A} (_ : A) : bool := false.

Fixpoint NvGetEnd_loop (fuel : nat) (iter : Z) : M NvState Z :=
  match fuel with
  | O => undef
  | S fuel =>
      let! '(currentAddr, iter, _) := NvNext iter 0 in
      if currentAddr =? 0 then ret iter else NvGetEnd_loop fuel iter
  end.

Definition NvGetEnd : M NvState Z := NvGetEnd_loop nv_fuel NV_REF_INIT.

Definition NvGetFreeBytes : M NvState Z :=
  let! e := NvGetEnd in
  let! n := gets s_evictNvEnd in
  ret (u32 (n - e)).

Fixpoint NvFindHandle_loop (fuel : nat) (handle iter nextHandle : Z) : M NvState Z :=
  match fuel with
  | O => undef
  | S fuel =>
      let! '(addr, iter, nextHandle) := NvNext iter nextHandle in
      if addr =? 0 then ret addr
      else if nextHandle =? handle then ret addr
      else NvFindHandle_loop fuel handle iter nextHandle
  end.

(** [NvFindHandle] (lines 1777-1794). *)
Definition NvFindHandle (handle : Z) : M NvState Z :=
  NvFindHandle_loop nv_fuel handle NV_REF_INIT 0.

Definition NvIndexIsDefined (nvHandle : Z) : M NvState bool :=
  let! a := NvFindHandle nvHandle in ret (negb (a =? 0)).

(** ** Max counter (lines 1811-1858) *)

Definition NvReadMaxCount : M NvState Z := gets s_maxCounter.
Definition NvUpdateMaxCount (count : Z) : M NvState unit :=
  modify (λ s, if s_maxCounter s <? count then set_maxCounter count s else s).
Definition NvSetMaxCount (value : Z) : M NvState unit := modify (set_maxCounter value).
Definition NvGetMaxCount : M NvState Z :=
  let! iter := NvGetEnd_loop nv_fuel NV_REF_INIT in
  let! b := NvRead (u32 (iter + sizeof_UINT32)) 8 in
  ret (le_val b).

(** ** Adding and deleting entries (lines 267-393) *)

Definition NvWriteNvListEnd (e : Z) : M NvState Z :=
  let! maxCount := NvReadMaxCount in
  let listEndMarker := le_bytes 4 0 ++ le_bytes 8 maxCount in
  let! n := gets s_evictNvEnd in
  pAssert (e + sizeof_NV_LIST_TERMINATOR <=? n) ;;
  NvWrite e sizeof_NV_LIST_TERMINATOR listEndMarker ;;
  ret (u32 (e + sizeof_NV_LIST_TERMINATOR)).

(** [RETURN_IF_NV_IS_NOT_AVAILABLE] in front of the rest of a function. *)
Definition return_if_nv_is_not_available (k : M NvState Z) : M NvState Z :=
  let! st := gets g_NvStatus in
  if st =? TPM_RC_SUCCESS then k else ret st.

Definition NvAdd (totalSize bufferSize handle : Z) (entity : bytes) : M NvState Z :=
  return_if_nv_is_not_available (
  let! newAddr := NvGetEnd in
  let nextAddr := u32 (newAddr + sizeof_UINT32) in
  let! nextAddr :=
    (if handle =? TPM_RH_UNASSIGNED then ret nextAddr
     else NvWrite nextAddr 4 (le_bytes 4 handle) ;; ret (u32 (nextAddr + 4))) in
  NvWrite nextAddr bufferSize entity ;;
  let nextAddr := u32 (nextAddr + totalSize) in
  let totalSize := u32 (nextAddr - newAddr) in
  NvWrite newAddr 4 (le_bytes 4 totalSize) ;;
  NvWriteNvListEnd nextAddr ;;
  ret TPM_RC_SUCCESS).

Definition NvDelete (entityRef : Z) : M NvState Z :=
  let entryRef := u32 (entityRef - sizeof_UINT32) in
  let! endRef := NvGetEnd in
  return_if_nv_is_not_available (
  let! b := NvRead entryRef 4 in
  let entrySize := le_val b in
  let nextAddr := u32 (entryRef + entrySize) in
  (if nextAddr <? endRef then
     pAssert (entryRef <? nextAddr) ;;
     on_plat (plat__NvMemoryMove nextAddr entryRef (u32 (endRef - nextAddr))) ;;
     ret tt
   else ret tt) ;;
  let endRef := u32 (endRef - entrySize) in
  let! endRef := NvWriteNvListEnd endRef in
  on_plat (plat__NvMemoryClear endRef entrySize) ;;
  ret TPM_RC_SUCCESS).

(** ** The abstract list and its image

    An entry is the payload of a list element: the octets after its size
    field, of which the first four are the handle. *)

Definition entry_handle (e : bytes) : Z := le_val (bread e 0 4).
Definition entry_ok (e : bytes) : Prop := 4 ≤ blen e ∧ Forall is_byte e.

Definition nv_encode1 (e : bytes) : bytes := le_bytes 4 (4 + blen e) ++ e.
Definition nv_encode (es : list bytes) : bytes := concat (map nv_encode1 es).
Definition nv_marker (c : Z) : bytes := le_bytes 4 0 ++ le_bytes 8 c.
Definition nv_size (es : list bytes) : Z := blen (nv_encode es).
Definition nv_end (es : list bytes) : Z := NV_USER_DYNAMIC + nv_size es.

(** The state's NV memory represents entries [es] and marker value [c]. *)
Record NvRep (s : NvState) (es : list bytes) (c : Z) : Prop := {
  rep_len : nv_ok s;
  rep_byte : Forall is_byte (nvmem s);
  rep_evictEnd : s_evictNvEnd s = NV_MEMORY_SIZE;
  rep_fit : nv_end es + 12 ≤ NV_MEMORY_SIZE;
  rep_entries : Forall entry_ok es;
  rep_image : bread (nvmem s) NV_USER_DYNAMIC (nv_size es + 12) = nv_encode es ++ nv_marker c;
}.

Lemma nv_size_nil : nv_size [] = 0.
Proof. done. Qed.

Lemma nv_size_cons e es : nv_size (e :: es) = 4 + blen e + nv_size es.
Proof.
  unfold nv_size, nv_encode. cbn [map concat]. unfold nv_encode1. blia.
Qed.

Lemma nv_encode_app es1 es2 : nv_encode (es1 ++ es2) = nv_encode es1 ++ nv_encode es2.
Proof. unfold nv_encode. by rewrite map_app, concat_app. Qed.

Lemma nv_size_app es1 es2 : nv_size (es1 ++ es2) = nv_size es1 + nv_size es2.
Proof. unfold nv_size. rewrite nv_encode_app. apply blen_app. Qed.

Lemma nv_size_nonneg es : 0 ≤ nv_size es.
Proof. apply blen_nonneg. Qed.

Lemma nv_size_length es : Forall entry_ok es → 8 * Z.of_nat (length es) ≤ nv_size es.
Proof.
  induction 1 as [|e es [He _] _ IH]; [done|].
  rewrite nv_size_cons. cbn [length]. lia.
Qed.

Lemma blen_nv_marker c : blen (nv_marker c) = 12.
Proof. unfold nv_marker. by rewrite blen_app, !blen_le_bytes. Qed.

Lemma nv_end_bounds s es c :
  NvRep s es c → 512 < nv_end es ∧ nv_end es + 12 ≤ NV_MEMORY_SIZE ∧ 0 ≤ nv_size es ∧
  512 < NV_USER_DYNAMIC ∧ nv_end es = NV_USER_DYNAMIC + nv_size es.
Proof.
  intros Hr. pose proof NV_USER_DYNAMIC_bounds. pose proof (rep_fit _ _ _ Hr).
  pose proof (nv_size_nonneg es). unfold nv_end in *. lia.
Qed.

Lemma nv_fuel_enough s es c : NvRep s es c → (length es < nv_fuel)%nat.
Proof.
  intros Hr. pose proof (nv_end_bounds _ _ _ Hr).
  pose proof (nv_size_length es (rep_entries _ _ _ Hr)).
  unfold nv_fuel, NV_MEMORY_SIZE in *. lia.
Qed.

#[global] Opaque nv_fuel.

(** Reading the dynamic area is reading the serialised list. *)
Lemma rep_read s es c o n :
  NvRep s es c → 0 ≤ o → 0 ≤ n → o + n ≤ nv_size es + 12 →
  bread (nvmem s) (NV_USER_DYNAMIC + o) n = bread (nv_encode es ++ nv_marker c) o n.
Proof.
  intros Hr Ho Hn Hle. pose proof NV_USER_DYNAMIC_bounds.
  rewrite <- (rep_image _ _ _ Hr), bread_bread by lia. done.
Qed.

(** The header of the element that follows [es1]. *)
Lemma rep_header s es1 e es2 c :
  NvRep s (es1 ++ e :: es2) c →
  bread (nvmem s) (nv_end es1) 8 = le_bytes 4 (4 + blen e) ++ bread e 0 4.
Proof.
  intros Hr. pose proof (rep_entries _ _ _ Hr) as He.
  apply Forall_app in He as [_ He]. apply Forall_cons_1 in He as [[He _] _].
  pose proof (nv_size_nonneg es1). pose proof (nv_size_nonneg es2).
  unfold nv_end. rewrite (rep_read _ _ _ _ _ Hr)
    by (rewrite ?nv_size_app, ?nv_size_cons; lia).
  rewrite nv_encode_app, <- app_assoc, bread_app_r by (unfold nv_size; lia).
  unfold nv_size. rewrite Z.sub_diag.
  unfold nv_encode at 1. cbn [map concat]. unfold nv_encode1.
  rewrite <- !app_assoc. rewrite (bread_split _ 0 4 4) by lia.
  rewrite bread_app_l, bread_all by (rewrite ?blen_le_bytes; lia).
  rewrite bread_app_r by (rewrite blen_le_bytes; lia). rewrite blen_le_bytes.
  rewrite bread_app_l by lia. done.
Qed.

Lemma rep_marker s es c :
  NvRep s es c → bread (nvmem s) (nv_end es) 12 = nv_marker c.
Proof.
  intros Hr. pose proof (nv_size_nonneg es).
  unfold nv_end. rewrite (rep_read _ _ _ _ _ Hr) by lia.
  rewrite bread_app_r by (unfold nv_size; lia). unfold nv_size. rewrite Z.sub_diag.
  by apply bread_all.
Qed.

(** The payload of the element that follows [es1]. *)
Lemma rep_payload s es1 e es2 c :
  NvRep s (es1 ++ e :: es2) c →
  bread (nvmem s) (nv_end es1 + 4) (blen e) = e.
Proof.
  intros Hr. pose proof (nv_size_nonneg es1). pose proof (nv_size_nonneg es2).
  pose proof (blen_nonneg e).
  unfold nv_end. rewrite <- Z.add_assoc. rewrite (rep_read _ _ _ _ _ Hr)
    by (rewrite ?nv_size_app, ?nv_size_cons; lia).
  rewrite nv_encode_app, <- app_assoc, bread_app_r by (unfold nv_size; lia).
  replace (nv_size es1 + 4 - blen (nv_encode es1)) with 4 by (unfold nv_size; lia).
  unfold nv_encode at 1. cbn [map concat]. unfold nv_encode1.
  rewrite <- !app_assoc.
  rewrite bread_app_r by (rewrite blen_le_bytes; lia). rewrite blen_le_bytes.
  rewrite bread_app_l, bread_all by lia. done.
Qed.

(** ** Changing the contents of one entry *)

Lemma nv_encode_cons e es : nv_encode (e :: es) = le_bytes 4 (4 + blen e) ++ e ++ nv_encode es.
Proof. unfold nv_encode. cbn [map concat]. unfold nv_encode1. by rewrite <- app_assoc. Qed.

(** Writing inside the payload of one element of a serialised list. *)
Lemma nv_encode_update es1 e es2 o d (rest : bytes) :
  0 ≤ o → o + blen d ≤ blen e →
  bwrite (nv_encode (es1 ++ e :: es2) ++ rest) (nv_size es1 + 4 + o) d =
  nv_encode (es1 ++ bwrite e o d :: es2) ++ rest.
Proof.
  intros Ho Hd. rewrite !nv_encode_app, !nv_encode_cons, <- !app_assoc.
  rewrite blen_bwrite by done.
  set (pre := nv_encode es1 ++ le_bytes 4 (4 + blen e)).
  rewrite !(app_assoc (nv_encode es1)). fold pre.
  replace (nv_size es1 + 4 + o) with (blen pre + o)
    by (unfold pre, nv_size; rewrite blen_app, blen_le_bytes; lia).
  by apply bwrite_app_mid.
Qed.

Lemma nv_size_update es1 e es2 o d :
  0 ≤ o → o + blen d ≤ blen e → nv_size (es1 ++ bwrite e o d :: es2) = nv_size (es1 ++ e :: es2).
Proof. intros. by rewrite !nv_size_app, !nv_size_cons, blen_bwrite. Qed.

Lemma rep_update s s' es1 e es2 c o d :
  NvRep s (es1 ++ e :: es2) c → 0 ≤ o → o + blen d ≤ blen e → Forall is_byte d →
  s_evictNvEnd s' = s_evictNvEnd s →
  nvmem s' = bwrite (nvmem s) (nv_end es1 + 4 + o) d →
  NvRep s' (es1 ++ bwrite e o d :: es2) c.
Proof.
  intros Hr Ho Hd Hb He Hm. pose proof (nv_end_bounds _ _ _ Hr) as Hbd.
  pose proof (nv_size_nonneg es1). pose proof (nv_size_nonneg es2). pose proof (blen_nonneg d).
  pose proof (rep_len _ _ _ Hr) as Hl. unfold nv_ok in Hl.
  assert (Hsz : nv_size (es1 ++ e :: es2) = nv_size es1 + (4 + blen e + nv_size es2))
    by (rewrite nv_size_app, nv_size_cons; lia).
  constructor.
  - unfold nv_ok. rewrite Hm, blen_bwrite; [done| |]; unfold nv_end in *; lia.
  - rewrite Hm. apply bwrite_byte; [apply (rep_byte _ _ _ Hr)|done].
  - rewrite He. apply (rep_evictEnd _ _ _ Hr).
  - unfold nv_end in *. rewrite nv_size_update by done. lia.
  - pose proof (rep_entries _ _ _ Hr) as Hen. apply Forall_app in Hen as [F1 F2].
    apply Forall_cons_1 in F2 as [[F4 F5] F2]. apply Forall_app. split; [done|].
    constructor; [|done]. split; [rewrite blen_bwrite; lia|]. by apply bwrite_byte.
  - rewrite nv_size_update by done. rewrite Hm. unfold nv_end in *.
    replace (NV_USER_DYNAMIC + nv_size es1 + 4 + o)
      with (NV_USER_DYNAMIC + (nv_size es1 + 4 + o)) by lia.
    rewrite bread_bwrite_cover by lia. rewrite (rep_image _ _ _ Hr).
    by apply nv_encode_update.
Qed.

(** ** One step of the iterator *)

Lemma nv_end_app es1 e : nv_end (es1 ++ [e]) = nv_end es1 + 4 + blen e.
Proof. unfold nv_end. rewrite nv_size_app, nv_size_cons, nv_size_nil. lia. Qed.

Lemma nv_end_not_init s es1 es2 c :
  NvRep s (es1 ++ es2) c →
  (if nv_end es1 =? NV_REF_INIT then NV_USER_DYNAMIC else nv_end es1) = nv_end es1 ∧
  512 < nv_end es1 ∧ nv_end es1 + nv_size es2 + 12 ≤ NV_MEMORY_SIZE.
Proof.
  intros Hr. pose proof (nv_end_bounds _ _ _ Hr) as Hb.
  rewrite nv_size_app in Hb. pose proof (nv_size_nonneg es2).
  pose proof (nv_size_nonneg es1).
  unfold nv_end in *. rewrite nv_size_app in *. unfold NV_REF_INIT, NV_MEMORY_SIZE in *.
  rewrite (proj2 (Z.eqb_neq _ _)) by lia. lia.
Qed.

Lemma NvNext_entry s es1 e es2 c h :
  NvRep s (es1 ++ e :: es2) c →
  NvNext (nv_end es1) h s =
    Some ((nv_end es1 + 4, nv_end (es1 ++ [e]), entry_handle e), s).
Proof.
  intros Hr. destruct (nv_end_not_init _ _ _ _ Hr) as (E & Hlo & Hhi).
  pose proof (rep_entries _ _ _ Hr) as He.
  apply Forall_app in He as [_ He]. apply Forall_cons_1 in He as [[He _] _].
  rewrite nv_size_cons in Hhi. pose proof (nv_size_nonneg es2).
  unfold NvNext. rewrite E. cbv zeta.
  erewrite bind_Some by (apply NvRead_ok;
    [apply (rep_len _ _ _ Hr) | lia | done | unfold sizeof_NV_ENTRY_HEADER; lia]).
  unfold sizeof_NV_ENTRY_HEADER. rewrite (rep_header _ _ _ _ _ Hr).
  rewrite bread_app_l, bread_all by (rewrite ?blen_le_bytes; lia).
  rewrite le_val_bytes by (unfold NV_MEMORY_SIZE in *; simpl; lia).
  rewrite (proj2 (Z.eqb_neq _ _)) by lia.
  rewrite bread_app_r by (rewrite blen_le_bytes; lia). rewrite blen_le_bytes.
  rewrite bread_bread by lia. unfold ret, sizeof_UINT32.
  unfold NV_MEMORY_SIZE in *.
  rewrite !u32_small by lia. rewrite nv_end_app, Z.add_assoc. done.
Qed.

Lemma NvNext_last s es c h :
  NvRep s es c → NvNext (nv_end es) h s = Some ((0, nv_end es, h), s).
Proof.
  intros Hr. assert (Hr' := Hr). rewrite <- (app_nil_r es) in Hr'.
  destruct (nv_end_not_init _ _ _ _ Hr') as (E & Hlo & Hhi).
  rewrite nv_size_nil in Hhi. unfold NvNext. rewrite E. cbv zeta.
  erewrite bind_Some by (apply NvRead_ok;
    [apply (rep_len _ _ _ Hr) | lia | done | unfold sizeof_NV_ENTRY_HEADER; lia]).
  unfold sizeof_NV_ENTRY_HEADER. rewrite bread_bread by lia.
  replace (bread (nvmem s) (nv_end es + 0) 4)
    with (bread (bread (nvmem s) (nv_end es) 12) 0 4) by (rewrite bread_bread by lia; done).
  rewrite (rep_marker _ _ _ Hr). unfold nv_marker.
  rewrite bread_app_l, bread_all by (rewrite ?blen_le_bytes; lia).
  rewrite le_val_bytes by (simpl; lia). done.
Qed.

(** [NV_REF_INIT] stands for the first element. *)
Lemma NvNext_init h s : NvNext NV_REF_INIT h s = NvNext (nv_end []) h s.
Proof.
  pose proof NV_USER_DYNAMIC_bounds as [? Hb]. unfold NvNext.
  replace (nv_end []) with NV_USER_DYNAMIC by (unfold nv_end; rewrite nv_size_nil; lia).
  rewrite Z.eqb_refl, (proj2 (Z.eqb_neq _ _)); [done|].
  unfold NV_REF_INIT, NV_MEMORY_SIZE in *. lia.
Qed.

(** ** Scans over the list *)

Lemma NvGetEnd_loop_spec fuel s es1 es2 c :
  NvRep s (es1 ++ es2) c → (length es2 < fuel)%nat →
  NvGetEnd_loop fuel (nv_end es1) s = Some (nv_end (es1 ++ es2), s).
Proof.
  revert es1 es2. induction fuel as [|fuel IH]; intros es1 es2 Hr Hf; [lia|].
  cbn [NvGetEnd_loop]. destruct es2 as [|e es2].
  - rewrite app_nil_r in *. by rewrite (bind_Some _ _ _ _ _ (NvNext_last _ _ _ _ Hr)).
  - rewrite (bind_Some _ _ _ _ _ (NvNext_entry _ _ _ _ _ _ Hr)).
    destruct (nv_end_not_init _ _ _ _ Hr) as (_ & ? & _).
    rewrite (proj2 (Z.eqb_neq _ _)) by lia.
    rewrite cons_middle, app_assoc in Hr. rewrite (IH _ _ Hr) by (simpl in Hf; lia).
    by rewrite <- app_assoc.
Qed.

Lemma NvGetEnd_loop_init fuel s :
  NvGetEnd_loop fuel NV_REF_INIT s = NvGetEnd_loop fuel (nv_end []) s.
Proof. destruct fuel; [done|]. cbn [NvGetEnd_loop]. unfold bind. by rewrite NvNext_init. Qed.

Lemma NvGetEnd_ok s es c : NvRep s es c → NvGetEnd s = Some (nv_end es, s).
Proof.
  intros Hr. unfold NvGetEnd. rewrite NvGetEnd_loop_init.
  apply (NvGetEnd_loop_spec _ _ [] es c Hr). by eapply nv_fuel_enough.
Qed.

Lemma NvGetFreeBytes_ok s es c :
  NvRep s es c → NvGetFreeBytes s = Some (NV_MEMORY_SIZE - nv_end es, s).
Proof.
  intros Hr. pose proof (nv_end_bounds _ _ _ Hr). unfold NvGetFreeBytes.
  rewrite (bind_Some _ _ _ _ _ (NvGetEnd_ok _ _ _ Hr)).
  unfold bind, gets, ret. rewrite (rep_evictEnd _ _ _ Hr).
  rewrite u32_small; [done|]. unfold NV_MEMORY_SIZE in *. lia.
Qed.

(** [NvFindHandle] returns the first entry with the handle, or 0. *)
Lemma NvFindHandle_loop_spec fuel h s es1 es2 c h0 :
  NvRep s (es1 ++ es2) c → (length es2 < fuel)%nat →
  (Forall (λ e, entry_handle e ≠ h) es2 →
     NvFindHandle_loop fuel h (nv_end es1) h0 s = Some (0, s)) ∧
  (∀ pre e post, es2 = pre ++ e :: post → Forall (λ e, entry_handle e ≠ h) pre →
     entry_handle e = h →
     NvFindHandle_loop fuel h (nv_end es1) h0 s = Some (nv_end (es1 ++ pre) + 4, s)).
Proof.
  revert es1 es2 h0. induction fuel as [|fuel IH]; intros es1 es2 h0 Hr Hf; [lia|].
  cbn [NvFindHandle_loop]. destruct es2 as [|e0 es2].
  - rewrite app_nil_r in *. rewrite (bind_Some _ _ _ _ _ (NvNext_last _ _ _ _ Hr)).
    split; [done|]. intros [|??]; done.
  - rewrite (bind_Some _ _ _ _ _ (NvNext_entry _ _ _ _ _ _ Hr)).
    destruct (nv_end_not_init _ _ _ _ Hr) as (_ & ? & _).
    rewrite (proj2 (Z.eqb_neq _ 0)) by lia.
    rewrite cons_middle, app_assoc in Hr.
    destruct (IH _ _ (entry_handle e0) Hr) as [IH1 IH2]; [simpl in Hf; lia|].
    split.
    + intros [Hne Hall]%Forall_cons_1. rewrite (proj2 (Z.eqb_neq _ _)) by done. auto.
    + intros [|e1 pre] e post [= -> ->] Hpre He.
      * rewrite (proj2 (Z.eqb_eq _ _)) by done. by rewrite app_nil_r.
      * apply Forall_cons_1 in Hpre as [Hne Hpre].
        rewrite (proj2 (Z.eqb_neq _ _)) by done.
        rewrite (IH2 pre e post) by done. by rewrite <- app_assoc.
Qed.

Lemma NvFindHandle_loop_init fuel h h0 s :
  NvFindHandle_loop fuel h NV_REF_INIT h0 s = NvFindHandle_loop fuel h (nv_end []) h0 s.
Proof. destruct fuel; [done|]. cbn [NvFindHandle_loop]. unfold bind. by rewrite NvNext_init. Qed.

Lemma NvFindHandle_none s es c h :
  NvRep s es c → Forall (λ e, entry_handle e ≠ h) es → NvFindHandle h s = Some (0, s).
Proof.
  intros Hr Hall. unfold NvFindHandle. rewrite NvFindHandle_loop_init.
  apply (NvFindHandle_loop_spec _ _ _ [] es c _ Hr); [by eapply nv_fuel_enough | done].
Qed.

Lemma NvFindHandle_some s pre e post c :
  NvRep s (pre ++ e :: post) c → Forall (λ e', entry_handle e' ≠ entry_handle e) pre →
  NvFindHandle (entry_handle e) s = Some (nv_end pre + 4, s).
Proof.
  intros Hr Hpre. unfold NvFindHandle. rewrite NvFindHandle_loop_init.
  eapply (NvFindHandle_loop_spec _ _ _ [] _ c _ Hr);
    [by eapply nv_fuel_enough | done | done | done].
Qed.

(** [NvNextByType] returns the next entry of the type, or 0. *)
Lemma NvNextByType_loop_spec fuel t s es1 es2 c h0 :
  NvRep s (es1 ++ es2) c → (length es2 < fuel)%nat →
  (Forall (λ e, HandleGetType (entry_handle e) ≠ t) es2 →
     ∃ h, NvNextByType_loop fuel (nv_end es1) h0 t s = Some ((0, nv_end (es1 ++ es2), h), s)) ∧
  (∀ pre e post, es2 = pre ++ e :: post →
     Forall (λ e, HandleGetType (entry_handle e) ≠ t) pre → HandleGetType (entry_handle e) = t →
     NvNextByType_loop fuel (nv_end es1) h0 t s =
       Some ((nv_end (es1 ++ pre) + 4, nv_end (es1 ++ pre ++ [e]), entry_handle e), s)).
Proof.
  revert es1 es2 h0. induction fuel as [|fuel IH]; intros es1 es2 h0 Hr Hf; [lia|].
  cbn [NvNextByType_loop]. destruct es2 as [|e0 es2].
  - rewrite app_nil_r in *. rewrite (bind_Some _ _ _ _ _ (NvNext_last _ _ _ _ Hr)).
    split; [by eexists|]. intros [|??]; done.
  - rewrite (bind_Some _ _ _ _ _ (NvNext_entry _ _ _ _ _ _ Hr)).
    destruct (nv_end_not_init _ _ _ _ Hr) as (_ & ? & _).
    rewrite (proj2 (Z.eqb_neq _ 0)) by lia.
    rewrite cons_middle, app_assoc in Hr.
    destruct (IH _ _ (entry_handle e0) Hr) as [IH1 IH2]; [simpl in Hf; lia|].
    split.
    + intros [Hne Hall]%Forall_cons_1. rewrite (proj2 (Z.eqb_neq _ _)) by done.
      destruct (IH1 Hall) as [h' ->]. rewrite <- app_assoc. by eexists.
    + intros [|e1 pre] e post [= -> ->] Hpre He.
      * rewrite (proj2 (Z.eqb_eq _ _)) by done. by rewrite !app_nil_r.
      * apply Forall_cons_1 in Hpre as [Hne Hpre].
        rewrite (proj2 (Z.eqb_neq _ _)) by done.
        rewrite (IH2 pre e post) by done. by rewrite <- !app_assoc.
Qed.

(** ** The end marker *)

Definition is_type (t : Z) (e : bytes) : bool := HandleGetType (entry_handle e) =? t.

(** One step of [NvNextByType]: the next entity of the type, or the end. *)
Lemma NvNextByType_step t s es1 es2 c :
  NvRep s (es1 ++ es2) c →
  (List.filter (is_type t) es2 = [] ∧
     ∃ h, NvNextByType (nv_end es1) t s = Some ((0, nv_end (es1 ++ es2), h), s)) ∨
  (∃ pre e post, es2 = pre ++ e :: post ∧ List.filter (is_type t) pre = [] ∧
     is_type t e = true ∧
     NvNextByType (nv_end es1) t s =
       Some ((nv_end (es1 ++ pre) + 4, nv_end (es1 ++ pre ++ [e]), entry_handle e), s)).
Proof.
  intros Hr. unfold NvNextByType.
  destruct (NvNextByType_loop_spec nv_fuel t s es1 es2 c 0 Hr) as [H1 H2].
  { pose proof (nv_fuel_enough _ _ _ Hr) as Hf. rewrite length_app in Hf. lia. }
  assert (Hsplit : List.filter (is_type t) es2 = [] ∨
    ∃ pre e post, es2 = pre ++ e :: post ∧ List.filter (is_type t) pre = [] ∧ is_type t e = true).
  { clear. induction es2 as [|e es2 IH]; [by left|]. cbn [List.filter].
    destruct (is_type t e) eqn:E; [right; by exists [], e, es2|].
    destruct IH as [IH|(pre & e' & post & -> & Hp & He)]; [by left|].
    right. exists (e :: pre), e', post. cbn [List.filter]. by rewrite E. }
  assert (Hnone : ∀ l, List.filter (is_type t) l = [] →
    Forall (λ e, HandleGetType (entry_handle e) ≠ t) l).
  { clear. induction l as [|e l IH]; [constructor|]. cbn [List.filter].
    destruct (is_type t e) eqn:E; [done|]. intros. constructor; [|auto].
    unfold is_type in E. zbool. done. }
  destruct Hsplit as [Hn|(pre & e & post & -> & Hp & He)].
  - left. split; [done|]. apply H1. by apply Hnone.
  - right. exists pre, e, post. split; [done|]. split; [done|]. split; [done|].
    apply (H2 pre e post); [done| by apply Hnone|]. unfold is_type in He. by zbool.
Qed.

Lemma NvNextByType_init t s c es :
  NvRep s es c → NvNextByType NV_REF_INIT t s = NvNextByType (nv_end []) t s.
Proof.
  intros Hr. unfold NvNextByType. pose proof (nv_fuel_enough _ _ _ Hr).
  destruct nv_fuel; [lia|]. cbn [NvNextByType_loop]. unfold bind. by rewrite NvNext_init.
Qed.

(** A scan whose body may rewrite the entity it is at, in place: the entities
    of the type are mapped by [g] and the accumulator folded with [f]. *)
Lemma nv_while_spec {A} t (stop : A → bool) (body : Z → Z → A → M NvState A)
    (P : NvState → Prop) (Q : bytes → Prop) (g : bytes → bytes) (f : A → bytes → A) c :
  (∀ s es1 e es2 acc, P s → NvRep s (es1 ++ e :: es2) c → is_type t e = true → Q e →
     stop acc = false →
     ∃ s', body (nv_end es1 + 4) (entry_handle e) acc s = Some (f acc e, s') ∧
       stop (f acc e) = false ∧ P s' ∧
       NvRep s' (es1 ++ g e :: es2) c ∧ blen (g e) = blen e) →
  ∀ fuel s es1 es2 acc,
  P s → NvRep s (es1 ++ es2) c → Forall Q (List.filter (is_type t) es2) →
  (length es2 < fuel)%nat → stop acc = false →
  ∃ s', nv_while stop fuel (λ i, NvNextByType i t) body (nv_end es1) acc s =
      Some (fold_left f (List.filter (is_type t) es2) acc, s') ∧ P s' ∧
    NvRep s' (es1 ++ map (λ e, if is_type t e then g e else e) es2) c.
Proof.
  intros Hbody fuel. induction fuel as [|fuel IH]; intros s es1 es2 acc HP Hr HQ Hf Hst; [lia|].
  cbn [nv_while].
  destruct (NvNextByType_step t s es1 es2 c Hr)
    as [[Hn [h Hs]]|(pre & e & post & -> & Hp & He & Hs)].
  - rewrite (bind_Some _ _ _ _ _ Hs). rewrite Hn. eexists. split; [done|]. split; [done|].
    rewrite (map_ext_in _ id), map_id; [done|]. intros e Hin.
    destruct (is_type t e) eqn:E; [|done]. exfalso.
    assert (In e (List.filter (is_type t) es2)) as Hx by (apply filter_In; done).
    rewrite Hn in Hx. done.
  - rewrite (bind_Some _ _ _ _ _ Hs).
    rewrite app_assoc in Hr. destruct (nv_end_not_init _ _ _ _ Hr) as (_ & Hlo & _).
    rewrite (proj2 (Z.eqb_neq _ 0)) by lia.
    rewrite List.filter_app in HQ. cbn [List.filter] in HQ. rewrite He, Hp in HQ.
    apply Forall_cons_1 in HQ as [HQe HQ].
    destruct (Hbody s (es1 ++ pre) e post acc HP Hr He HQe Hst) as (s1 & Hb & Hns & HP1 & Hr1 & Hl).
    rewrite (bind_Some _ _ _ _ _ Hb), Hns.
    assert (Hend : nv_end (es1 ++ pre ++ [e]) = nv_end ((es1 ++ pre) ++ [g e]))
      by (rewrite app_assoc, !nv_end_app, Hl; done).
    rewrite Hend. rewrite cons_middle, app_assoc in Hr1.
    destruct (IH s1 _ post (f acc e) HP1 Hr1 HQ) as (s' & Hs' & HP' & Hr').
    { rewrite length_app in Hf. cbn [length] in Hf. lia. }
    { exact Hns. }
    exists s'. rewrite Hs'. rewrite List.filter_app. cbn [List.filter]. rewrite He, Hp.
    split; [done|]. split; [done|].
    rewrite map_app. cbn [map]. rewrite He.
    rewrite <- !app_assoc in Hr'. cbn [app] in Hr'.
    rewrite (map_ext_in _ id pre), map_id; [done|]. intros x Hin.
    destruct (is_type t x) eqn:E; [|done]. exfalso.
    assert (In x (List.filter (is_type t) pre)) as Hx by (apply filter_In; done).
    rewrite Hp in Hx. done.
Qed.

Lemma nv_while_init {A} t stop fuel (body : Z → Z → A → M NvState A) acc s es c :
  NvRep s es c →
  nv_while stop fuel (λ i, NvNextByType i t) body NV_REF_INIT acc s =
  nv_while stop fuel (λ i, NvNextByType i t) body (nv_end []) acc s.
Proof.
  intros Hr. destruct fuel; [done|]. cbn [nv_while]. unfold bind.
  by rewrite (NvNextByType_init _ _ _ _ Hr).
Qed.

(** A scan of the whole list that only reads. *)
Lemma nv_while_read {A} t (body : Z → Z → A → M NvState A) (Q : bytes → Prop)
    (f : A → bytes → A) s es c acc :
  (∀ es1 e es2 acc, es = es1 ++ e :: es2 → is_type t e = true → Q e →
     body (nv_end es1 + 4) (entry_handle e) acc s = Some (f acc e, s)) →
  NvRep s es c → Forall Q (List.filter (is_type t) es) →
  nv_while no_stop nv_fuel (λ i, NvNextByType i t) body NV_REF_INIT acc s =
    Some (fold_left f (List.filter (is_type t) es) acc, s).
Proof.
  intros Hbody Hr HQ.
  assert (Hf := nv_fuel_enough _ _ _ Hr). revert Hf.
  assert (Hgen : ∀ fuel es1 es2 acc, es = es1 ++ es2 →
    Forall Q (List.filter (is_type t) es2) → (length es2 < fuel)%nat →
    nv_while no_stop fuel (λ i, NvNextByType i t) body (nv_end es1) acc s =
      Some (fold_left f (List.filter (is_type t) es2) acc, s)).
  { induction fuel as [|fuel IH]; intros es1 es2 a Hes HQ2 Hf; [lia|]. cbn [nv_while].
    rewrite Hes in Hr. destruct (NvNextByType_step t s es1 es2 c Hr)
      as [[Hn [h Hs]]|(pre & e & post & -> & Hp & He & Hs)].
    - rewrite (bind_Some _ _ _ _ _ Hs), Hn. done.
    - rewrite (bind_Some _ _ _ _ _ Hs).
      rewrite app_assoc in Hr. destruct (nv_end_not_init _ _ _ _ Hr) as (_ & Hlo & _).
      rewrite (proj2 (Z.eqb_neq _ 0)) by lia.
      rewrite List.filter_app in *. cbn [List.filter] in *. rewrite He, Hp in *.
      apply Forall_cons_1 in HQ2 as [HQe HQ2].
      rewrite (bind_Some _ _ _ _ _ (Hbody (es1 ++ pre) e post a
        ltac:(by rewrite <- app_assoc) He HQe)). cbn [no_stop].
      apply IH; [|done|].
      + rewrite Hes, <- !app_assoc. done.
      + rewrite length_app in Hf. cbn [length] in Hf. lia. }
  intros Hf. rewrite (nv_while_init _ _ _ _ _ _ _ _ Hr). by apply Hgen.
Qed.


Lemma NvGetMaxCount_ok s es c :
  NvRep s es c → 0 ≤ c < 2 ^ 64 → nv_end es + 12 < NV_MEMORY_SIZE →
  NvGetMaxCount s = Some (c, s).
Proof.
  intros Hr Hc Hlt. pose proof (nv_end_bounds _ _ _ Hr). unfold NvGetMaxCount.
  fold NvGetEnd. rewrite (bind_Some _ _ _ _ _ (NvGetEnd_ok _ _ _ Hr)).
  unfold sizeof_UINT32, NV_MEMORY_SIZE in *. rewrite u32_small by lia.
  erewrite bind_Some by (apply NvRead_ok;
    [apply (rep_len _ _ _ Hr) | lia | lia | unfold NV_MEMORY_SIZE; lia]).
  replace (bread (nvmem s) (nv_end es + 4) 8)
    with (bread (bread (nvmem s) (nv_end es) 12) 4 8) by (rewrite bread_bread by lia; done).
  rewrite (rep_marker _ _ _ Hr). unfold nv_marker.
  rewrite bread_app_r by (rewrite blen_le_bytes; lia). rewrite blen_le_bytes.
  rewrite bread_all by (rewrite blen_le_bytes; lia).
  rewrite le_val_bytes by (simpl; lia). done.
Qed.

Lemma NvWriteNvListEnd_ok s e :
  nv_ok s → s_evictNvEnd s = NV_MEMORY_SIZE → 0 ≤ e → e + 12 ≤ NV_MEMORY_SIZE →
  NvWriteNvListEnd e s = Some (e + 12, nv_put e (nv_marker (s_maxCounter s)) s).
Proof.
  intros Hok He H0 Hle. unfold NvWriteNvListEnd, NvReadMaxCount, sizeof_NV_LIST_TERMINATOR.
  unfold bind at 1 2, gets. rewrite He.
  erewrite bind_Some by (apply pAssert_true; zbool; lia).
  fold (nv_marker (s_maxCounter s)).
  erewrite bind_Some by (apply NvWrite_ok; rewrite ?blen_nv_marker; done || lia).
  unfold ret. rewrite u32_small; [done|]. unfold NV_MEMORY_SIZE in *. lia.
Qed.

(** ** Adding an entry *)

Lemma rep_extend s s' es c c' e :
  NvRep s es c → nv_ok s' → Forall is_byte (nvmem s') →
  s_evictNvEnd s' = NV_MEMORY_SIZE → entry_ok e →
  nv_end es + 4 + blen e + 12 ≤ NV_MEMORY_SIZE →
  bread (nvmem s') NV_USER_DYNAMIC (nv_size es) = bread (nvmem s) NV_USER_DYNAMIC (nv_size es) →
  bread (nvmem s') (nv_end es) 4 = le_bytes 4 (4 + blen e) →
  bread (nvmem s') (nv_end es + 4) (blen e) = e →
  bread (nvmem s') (nv_end es + 4 + blen e) 12 = nv_marker c' →
  NvRep s' (es ++ [e]) c'.
Proof.
  intros Hr Hok Hby He [He4 Heb] Hfit H1 H2 H3 H4.
  pose proof (nv_end_bounds _ _ _ Hr) as Hb. constructor; [done|done|done| | |].
  - rewrite nv_end_app. lia.
  - apply Forall_app. split; [apply (rep_entries _ _ _ Hr)|]. by repeat constructor.
  - rewrite nv_size_app, nv_size_cons, nv_size_nil.
    replace (nv_size es + (4 + blen e + 0) + 12)
      with (nv_size es + (4 + (blen e + 12))) by lia.
    rewrite bread_split by lia. fold (nv_end es).
    rewrite bread_split by lia. rewrite bread_split by lia.
    rewrite H1, H2, H3, H4. rewrite nv_encode_app, <- app_assoc. f_equal.
    + rewrite <- (Z.add_0_r NV_USER_DYNAMIC), (rep_read _ _ _ _ _ Hr) by lia.
      rewrite bread_app_l, bread_all by (unfold nv_size in *; lia). done.
    + unfold nv_encode, nv_encode1. cbn [map concat]. by rewrite app_nil_r, <- app_assoc.
Qed.

(** The four writes of [NvAdd], as one memory update. *)
Definition nv_add_mem (m : bytes) (a : Z) (hdr entity : bytes) (totalSize c : Z) : bytes :=
  bwrite (bwrite (bwrite (bwrite m (a + 4) hdr) (a + 4 + blen hdr) entity)
            a (le_bytes 4 (4 + blen hdr + totalSize)))
    (a + 4 + blen hdr + totalSize) (nv_marker c).

Section add_mem.
Context (m : bytes) (a : Z) (hdr entity : bytes) (totalSize c : Z).
Context (Hm : blen m = NV_MEMORY_SIZE) (Ha : 0 ≤ a) (Ht : blen entity ≤ totalSize)
  (Hfit : a + 4 + blen hdr + totalSize + 12 ≤ NV_MEMORY_SIZE).

Ltac sizes :=
  repeat (rewrite blen_bwrite || rewrite blen_le_bytes || rewrite blen_nv_marker);
  pose proof (blen_nonneg hdr); pose proof (blen_nonneg entity); lia.

Lemma nv_add_mem_len : blen (nv_add_mem m a hdr entity totalSize c) = NV_MEMORY_SIZE.
Proof. unfold nv_add_mem. sizes. Qed.

Lemma nv_add_mem_before o n :
  0 ≤ o → 0 ≤ n → o + n ≤ a → bread (nv_add_mem m a hdr entity totalSize c) o n = bread m o n.
Proof. intros. unfold nv_add_mem. rewrite !bread_bwrite_before by sizes. done. Qed.

Lemma nv_add_mem_size :
  bread (nv_add_mem m a hdr entity totalSize c) a 4 = le_bytes 4 (4 + blen hdr + totalSize).
Proof.
  unfold nv_add_mem. rewrite bread_bwrite_before by sizes.
  rewrite bread_bwrite_same; sizes || done.
Qed.

Lemma nv_add_mem_entity :
  bread (nv_add_mem m a hdr entity totalSize c) (a + 4) (blen hdr + blen entity) = hdr ++ entity.
Proof.
  unfold nv_add_mem. rewrite bread_bwrite_before by sizes.
  rewrite bread_bwrite_after by sizes. rewrite bread_split by sizes.
  rewrite bread_bwrite_before by sizes. rewrite !bread_bwrite_same; sizes || done.
Qed.

Lemma nv_add_mem_marker :
  bread (nv_add_mem m a hdr entity totalSize c) (a + 4 + blen hdr + totalSize) 12 = nv_marker c.
Proof. unfold nv_add_mem. rewrite bread_bwrite_same; sizes || done. Qed.

Lemma nv_add_mem_byte :
  Forall is_byte m → Forall is_byte hdr → Forall is_byte entity →
  Forall is_byte (nv_add_mem m a hdr entity totalSize c).
Proof.
  intros. unfold nv_add_mem, nv_marker.
  repeat apply bwrite_byte; auto using le_bytes_byte.
  apply Forall_app; auto using le_bytes_byte.
Qed.
End add_mem.

(** [NvAdd] performs exactly these writes. *)
Lemma NvAdd_run s es c totalSize bufferSize handle entity :
  NvRep s es c → g_NvStatus s = TPM_RC_SUCCESS →
  let hdr := if handle =? TPM_RH_UNASSIGNED then [] else le_bytes 4 handle in
  blen entity = bufferSize → bufferSize ≤ totalSize →
  nv_end es + 4 + blen hdr + totalSize + 12 ≤ NV_MEMORY_SIZE →
  NvAdd totalSize bufferSize handle entity s =
    Some (TPM_RC_SUCCESS,
          with_nvmem (nv_add_mem (nvmem s) (nv_end es) hdr entity totalSize (s_maxCounter s))
            (set_updateNV (Z.lor (g_updateNV s) UT_NV) s)).
Proof.
  intros Hr Hst hdr Hbs Hts Hfit.
  pose proof (nv_end_bounds _ _ _ Hr) as Hb. pose proof (rep_len _ _ _ Hr) as Hok.
  pose proof (blen_nonneg hdr). pose proof (blen_nonneg entity).
  assert (U : ∀ x, 0 ≤ x ≤ NV_MEMORY_SIZE → u32 x = x)
    by (intros; apply u32_small; unfold NV_MEMORY_SIZE in *; lia).
  unfold NvAdd, return_if_nv_is_not_available. unfold bind at 1, gets. rewrite Hst.
  change (TPM_RC_SUCCESS =? TPM_RC_SUCCESS) with true. cbv iota.
  rewrite (bind_Some _ _ _ _ _ (NvGetEnd_ok _ _ _ Hr)). cbv zeta. unfold sizeof_UINT32.
  rewrite (U (nv_end es + 4)) by lia.
  rewrite (bind_Some _ _ s (nv_end es + 4 + blen hdr)
    (if handle =? TPM_RH_UNASSIGNED then s else nv_put (nv_end es + 4) hdr s)); cycle 1.
  { unfold hdr in *. destruct (handle =? TPM_RH_UNASSIGNED); [by rewrite Z.add_0_r|].
    rewrite blen_le_bytes in *.
    erewrite bind_Some by (apply NvWrite_ok; rewrite ?blen_le_bytes; done || lia).
    unfold ret. by rewrite U by lia. }
  set (s1 := if handle =? TPM_RH_UNASSIGNED then s else nv_put (nv_end es + 4) hdr s).
  assert (Hs1 : nvmem s1 = bwrite (nvmem s) (nv_end es + 4) hdr ∧
                nv_ok s1 ∧ s_evictNvEnd s1 = NV_MEMORY_SIZE).
  { unfold s1, hdr in *. rewrite <- (rep_evictEnd _ _ _ Hr).
    destruct (handle =? TPM_RH_UNASSIGNED); [by rewrite bwrite_nil|].
    split; [done|]. split; [|done]. apply nv_put_ok; done || lia. }
  destruct Hs1 as (Hm1 & Hok1 & He1).
  erewrite bind_Some by (apply NvWrite_ok; done || lia).
  rewrite (U (nv_end es + 4 + blen hdr + totalSize)) by lia.
  replace (nv_end es + 4 + blen hdr + totalSize - nv_end es)
    with (4 + blen hdr + totalSize) by lia.
  rewrite (U (4 + blen hdr + totalSize)) by lia.
  assert (Hok2 : nv_ok (nv_put (nv_end es + 4 + blen hdr) entity s1))
    by (apply nv_put_ok; done || lia).
  erewrite bind_Some by (apply NvWrite_ok; rewrite ?blen_le_bytes; done || lia).
  erewrite bind_Some by (apply NvWriteNvListEnd_ok;
    [apply nv_put_ok; rewrite ?blen_le_bytes; done || lia | done | lia | lia]).
  unfold ret, nv_put, nv_add_mem. f_equal. f_equal. cbn. rewrite Hm1.
  unfold s1 in *. destruct (handle =? TPM_RH_UNASSIGNED); cbn;
    rewrite <- !Z.lor_assoc, !Z.lor_diag; done.
Qed.

(** [NvAdd] appends one entry: the optional handle, then [entity], then the
    octets already in NV up to [totalSize]; the end marker behind it carries
    the current max counter. *)
Lemma NvAdd_ok s es c totalSize bufferSize handle entity :
  NvRep s es c → g_NvStatus s = TPM_RC_SUCCESS →
  let hdr := if handle =? TPM_RH_UNASSIGNED then [] else le_bytes 4 handle in
  blen entity = bufferSize → bufferSize ≤ totalSize → Forall is_byte entity →
  4 ≤ blen hdr + bufferSize →
  nv_end es + 4 + blen hdr + totalSize + 12 ≤ NV_MEMORY_SIZE →
  ∃ e s', NvAdd totalSize bufferSize handle entity s = Some (TPM_RC_SUCCESS, s') ∧
    nv_written s s' ∧ NvRep s' (es ++ [e]) (s_maxCounter s) ∧
    blen e = blen hdr + totalSize ∧ bread e 0 (blen hdr + bufferSize) = hdr ++ entity ∧
    bread (nvmem s') 0 NV_USER_DYNAMIC = bread (nvmem s) 0 NV_USER_DYNAMIC.
Proof.
  intros Hr Hst hdr Hbs Hts Hby H4 Hfit.
  pose proof (nv_end_bounds _ _ _ Hr) as Hb. pose proof (rep_len _ _ _ Hr) as Hok.
  pose proof (blen_nonneg hdr). pose proof (blen_nonneg entity).
  pose proof (NvAdd_run _ _ _ totalSize bufferSize handle entity Hr Hst Hbs Hts Hfit) as Hrun.
  fold hdr in Hrun. subst bufferSize.
  pose proof (nv_add_mem_len (nvmem s) (nv_end es) hdr entity totalSize (s_maxCounter s)
    Hok ltac:(lia) Hts Hfit) as Lm.
  pose proof (nv_add_mem_before (nvmem s) (nv_end es) hdr entity totalSize (s_maxCounter s)
    Hok ltac:(lia) Hts Hfit) as Mb.
  pose proof (nv_add_mem_size (nvmem s) (nv_end es) hdr entity totalSize (s_maxCounter s)
    Hok ltac:(lia) Hts Hfit) as Ms.
  pose proof (nv_add_mem_entity (nvmem s) (nv_end es) hdr entity totalSize (s_maxCounter s)
    Hok ltac:(lia) Hts Hfit) as Me.
  pose proof (nv_add_mem_marker (nvmem s) (nv_end es) hdr entity totalSize (s_maxCounter s)
    Hok ltac:(lia) Hts Hfit) as Mm.
  assert (Fm : Forall is_byte
    (nv_add_mem (nvmem s) (nv_end es) hdr entity totalSize (s_maxCounter s))).
  { apply nv_add_mem_byte; [apply (rep_byte _ _ _ Hr)| |done].
    unfold hdr. case_match; auto using le_bytes_byte. }
  set (m' := nv_add_mem _ _ _ _ _ _) in *.
  exists (bread m' (nv_end es + 4) (blen hdr + totalSize)).
  eexists. split; [exact Hrun|]. split; [done|].
  assert (Le : blen (bread m' (nv_end es + 4) (blen hdr + totalSize)) = blen hdr + totalSize)
    by (apply blen_bread; lia).
  split; [|split; [done|split]].
  - eapply rep_extend; [exact Hr | done | done | by apply (rep_evictEnd _ _ _ Hr) | | | | | |];
      rewrite ?Le; try lia; cbn [nvmem with_nvmem plat set_plat s_NV set_s_NV].
    + split; [lia|]. by apply bread_byte.
    + apply Mb; lia.
    + rewrite Ms. f_equal. lia.
    + done.
    + rewrite <- Mm. f_equal. lia.
  - rewrite bread_bread by lia. rewrite Z.add_0_r. done.
  - apply Mb; lia.
Qed.

(** ** Deleting an entry *)

(** The memory after [NvDelete] of the entry [e] that follows [es1]: what
    followed it moves up, the marker moves with it, the octets freed behind the
    marker are erased. *)
Definition nv_delete_mem (m : bytes) (a n tail c : Z) : bytes :=
  let m1 := if 0 <? tail then bwrite m a (bread m (a + n) tail) else m in
  bwrite (bwrite m1 (a + tail) (nv_marker c)) (a + tail + 12) (bfill 0xff n).

Section delete_mem.
Context (m : bytes) (a n tail c : Z).
Context (Hm : blen m = NV_MEMORY_SIZE) (Ha : 0 ≤ a) (Hn : 0 ≤ n) (Ht : 0 ≤ tail)
  (Hfit : a + n + tail + 12 ≤ NV_MEMORY_SIZE).

Ltac sizes :=
  repeat first [ rewrite blen_bwrite | rewrite blen_nv_marker | rewrite blen_bread
               | rewrite blen_bfill ]; lia.

Let m1 := if 0 <? tail then bwrite m a (bread m (a + n) tail) else m.

Lemma nv_delete_m1_len : blen m1 = NV_MEMORY_SIZE.
Proof using All. unfold m1. case_match; [|done]. sizes. Qed.

Lemma nv_delete_mem_len : blen (nv_delete_mem m a n tail c) = NV_MEMORY_SIZE.
Proof using All. unfold nv_delete_mem. fold m1. pose proof nv_delete_m1_len. sizes. Qed.

Lemma nv_delete_mem_before o k :
  0 ≤ o → 0 ≤ k → o + k ≤ a → bread (nv_delete_mem m a n tail c) o k = bread m o k.
Proof using All.
  intros. unfold nv_delete_mem. fold m1. pose proof nv_delete_m1_len.
  rewrite !bread_bwrite_before by sizes. unfold m1.
  case_match; [|done]. rewrite bread_bwrite_before by sizes. done.
Qed.

Lemma nv_delete_mem_tail :
  bread (nv_delete_mem m a n tail c) a tail = bread m (a + n) tail.
Proof using All.
  unfold nv_delete_mem. fold m1. pose proof nv_delete_m1_len.
  rewrite !bread_bwrite_before by sizes. unfold m1.
  destruct (Z.ltb_spec 0 tail).
  - rewrite bread_bwrite_same; [done | lia | sizes | sizes].
  - replace tail with 0 by lia. done.
Qed.

Lemma nv_delete_mem_marker :
  bread (nv_delete_mem m a n tail c) (a + tail) 12 = nv_marker c.
Proof using All.
  unfold nv_delete_mem. fold m1. pose proof nv_delete_m1_len.
  rewrite bread_bwrite_before by sizes.
  rewrite bread_bwrite_same; [done | lia | sizes | sizes].
Qed.

Lemma nv_delete_mem_byte : Forall is_byte m → Forall is_byte (nv_delete_mem m a n tail c).
Proof using All.
  intros. unfold nv_delete_mem, nv_marker, bfill.
  repeat apply bwrite_byte.
  - case_match; auto using bwrite_byte, bread_byte.
  - apply Forall_app; auto using le_bytes_byte.
  - apply Forall_replicate. unfold is_byte; lia.
Qed.
End delete_mem.

Lemma NvDelete_run s es1 e es2 c :
  NvRep s (es1 ++ e :: es2) c → g_NvStatus s = TPM_RC_SUCCESS →
  NvDelete (nv_end es1 + 4) s =
    Some (TPM_RC_SUCCESS,
          with_nvmem (nv_delete_mem (nvmem s) (nv_end es1) (4 + blen e) (nv_size es2) (s_maxCounter s))
            (set_updateNV (Z.lor (g_updateNV s) UT_NV) s)).
Proof.
  intros Hr Hst. pose proof (rep_len _ _ _ Hr) as Hok.
  destruct (nv_end_not_init _ _ _ _ Hr) as (_ & Hlo & Hhi).
  rewrite nv_size_cons in Hhi. pose proof (nv_size_nonneg es2). pose proof (blen_nonneg e).
  assert (U : ∀ x, 0 ≤ x ≤ NV_MEMORY_SIZE → u32 x = x)
    by (intros; apply u32_small; unfold NV_MEMORY_SIZE in *; lia).
  unfold NvDelete, sizeof_UINT32.
  replace (nv_end es1 + 4 - 4) with (nv_end es1) by lia. rewrite (U (nv_end es1)) by lia.
  rewrite (bind_Some _ _ _ _ _ (NvGetEnd_ok _ _ _ Hr)).
  unfold return_if_nv_is_not_available. unfold bind at 1, gets. rewrite Hst.
  change (TPM_RC_SUCCESS =? TPM_RC_SUCCESS) with true. cbv iota.
  erewrite bind_Some by (apply NvRead_ok; [done | lia | lia | lia]).
  replace (bread (nvmem s) (nv_end es1) 4)
    with (bread (bread (nvmem s) (nv_end es1) 8) 0 4)
    by (rewrite bread_bread by lia; by rewrite Z.add_0_r).
  rewrite (rep_header _ _ _ _ _ Hr). rewrite bread_app_l, bread_all by (rewrite ?blen_le_bytes; lia).
  rewrite le_val_bytes by (unfold NV_MEMORY_SIZE in *; simpl; lia). cbv zeta.
  rewrite (U (nv_end es1 + (4 + blen e))) by lia.
  assert (Hend : nv_end (es1 ++ e :: es2) = nv_end es1 + (4 + blen e) + nv_size es2)
    by (unfold nv_end; rewrite nv_size_app, nv_size_cons; lia).
  rewrite Hend.
  set (a := nv_end es1) in *. set (n := 4 + blen e) in *. set (tail := nv_size es2) in *.
  set (m1 := if 0 <? tail then bwrite (nvmem s) a (bread (nvmem s) (a + n) tail) else nvmem s).
  assert (Lm1 : blen m1 = NV_MEMORY_SIZE)
    by (apply nv_delete_m1_len with (c := 0); done || lia).
  rewrite (bind_Some _ _ s tt (with_nvmem m1 s)); cycle 1.
  { replace (a + n <? a + n + tail) with (0 <? tail)
      by (destruct (Z.ltb_spec 0 tail), (Z.ltb_spec (a + n) (a + n + tail)); done || lia).
    unfold m1. destruct (Z.ltb_spec 0 tail); [|by destruct s as [[]]].
    erewrite bind_Some by (apply pAssert_true; zbool; lia).
    replace (a + n + tail - (a + n)) with tail by lia. rewrite (U tail) by lia.
    unfold bind, on_plat. rewrite plat_move_ok by (done || lia). done. }
  rewrite (U (a + n + tail - n)) by lia.
  erewrite bind_Some by (apply NvWriteNvListEnd_ok;
    [done | by apply (rep_evictEnd _ _ _ Hr) | lia | lia]).
  unfold bind, on_plat. rewrite plat_clear_ok; cycle 1.
  { apply nv_put_ok; [exact Lm1 | lia | rewrite blen_nv_marker; lia]. }
  { lia. } { lia. } { lia. }
  unfold ret. unfold nv_delete_mem. fold m1.
  replace (a + n + tail - n) with (a + tail) by lia. done.
Qed.

(** [NvDelete] removes exactly the entry it is given; the entries before and
    after it keep their contents, and the end marker gets the current max
    counter. *)
Lemma NvDelete_ok s es1 e es2 c :
  NvRep s (es1 ++ e :: es2) c → g_NvStatus s = TPM_RC_SUCCESS →
  ∃ s', NvDelete (nv_end es1 + 4) s = Some (TPM_RC_SUCCESS, s') ∧ nv_written s s' ∧
    NvRep s' (es1 ++ es2) (s_maxCounter s) ∧
    bread (nvmem s') 0 NV_USER_DYNAMIC = bread (nvmem s) 0 NV_USER_DYNAMIC.
Proof.
  intros Hr Hst. pose proof (NvDelete_run _ _ _ _ _ Hr Hst) as Hrun.
  destruct (nv_end_not_init _ _ _ _ Hr) as (_ & Hlo & Hhi). rewrite nv_size_cons in Hhi.
  pose proof (nv_size_nonneg es1). pose proof (nv_size_nonneg es2). pose proof (blen_nonneg e).
  pose proof NV_USER_DYNAMIC_bounds. pose proof (rep_len _ _ _ Hr) as Hok.
  pose proof (nv_delete_mem_before (nvmem s) (nv_end es1) (4 + blen e) (nv_size es2)
    (s_maxCounter s) Hok ltac:(lia) ltac:(lia) ltac:(lia) ltac:(lia)) as Mb.
  pose proof (nv_delete_mem_tail (nvmem s) (nv_end es1) (4 + blen e) (nv_size es2)
    (s_maxCounter s) Hok ltac:(lia) ltac:(lia) ltac:(lia) ltac:(lia)) as Mt.
  pose proof (nv_delete_mem_marker (nvmem s) (nv_end es1) (4 + blen e) (nv_size es2)
    (s_maxCounter s) Hok ltac:(lia) ltac:(lia) ltac:(lia) ltac:(lia)) as Mm.
  pose proof (nv_delete_mem_len (nvmem s) (nv_end es1) (4 + blen e) (nv_size es2)
    (s_maxCounter s) Hok ltac:(lia) ltac:(lia) ltac:(lia) ltac:(lia)) as Ml.
  pose proof (nv_delete_mem_byte (nvmem s) (nv_end es1) (4 + blen e) (nv_size es2)
    (s_maxCounter s) Hok ltac:(lia) ltac:(lia) ltac:(lia) ltac:(lia) (rep_byte _ _ _ Hr)) as Mby.
  set (m' := nv_delete_mem _ _ _ _ _) in *.
  pose proof (rep_entries _ _ _ Hr) as He. apply Forall_app in He as [He1 He2].
  apply Forall_cons_1 in He2 as [_ He2].
  eexists. split; [exact Hrun|]. split; [done|]. split; [|apply Mb; unfold nv_end; lia].
  constructor; cbn [nvmem with_nvmem plat set_plat s_NV set_s_NV s_evictNvEnd set_updateNV];
    [done | done | by apply (rep_evictEnd _ _ _ Hr) | | by apply Forall_app |].
  { unfold nv_end in *. rewrite nv_size_app. lia. }
  rewrite nv_size_app, nv_encode_app, <- app_assoc.
  rewrite <- Z.add_assoc, bread_split by lia. rewrite bread_split by lia.
  fold (nv_end es1). rewrite Mt, Mm. f_equal; [|f_equal].
  - rewrite Mb by (unfold nv_end; lia).
    rewrite <- (Z.add_0_r NV_USER_DYNAMIC), (rep_read _ _ _ _ _ Hr)
      by (rewrite ?nv_size_app, ?nv_size_cons; lia).
    rewrite nv_encode_app, <- app_assoc.
    rewrite bread_app_l, bread_all by (unfold nv_size in *; lia). done.
  - unfold nv_end. rewrite <- Z.add_assoc, (rep_read _ _ _ _ _ Hr)
      by (rewrite ?nv_size_app, ?nv_size_cons; lia).
    rewrite cons_middle, !nv_encode_app, <- !app_assoc.
    rewrite bread_app_r by (unfold nv_size; lia).
    assert (L1 : blen (nv_encode [e]) = 4 + blen e).
    { change (nv_size [e] = 4 + blen e). rewrite nv_size_cons, nv_size_nil. lia. }
    rewrite bread_app_r by (unfold nv_size in *; lia).
    replace (nv_size es1 + (4 + blen e) - blen (nv_encode es1) - blen (nv_encode [e]))
      with 0 by (unfold nv_size; lia).
    rewrite bread_app_l, bread_all by (unfold nv_size in *; lia). done.
Qed.
End nv_list.
