(* ===== verification/NvRam.v ===== *)
(** * Orderly index data in RAM (src/NVDynamic.c, lines 395-555)

    The orderly indices' attributes and data live in [s_indexOrderlyRam], a
    list like the one in NV memory but without an end marker when the last
    element leaves no room for another header.  The refinement is the same:
    the array starts with the serialisation of the list of entries. *)

From S2P Require Import Prelude TpmTypes Cbc NVMem NVReserved NvList.
Local Open Scope Z_scope.

(** ** The images of [TPMS_NV_PUBLIC] and [NV_INDEX]

    The structures are handled by the C code as octets (NvRead, NvWrite,
    MemoryCopy with offsetof), and so they are here.  Offsets for the RV64 ABI
    with the 64-octet digest union of this profile: nvIndex 0, nameAlg 4,
    attributes 8, authPolicy 12 (66 octets), dataSize 78; NV_INDEX adds
    authValue at 80 (66 octets) and two octets of padding. *)

Definition sizeof_TPMS_NV_PUBLIC : Z := 80.
Definition sizeof_TPM2B_AUTH : Z := 66.
Definition sizeof_NV_INDEX : Z := 148.
Definition offsetof_attributes : Z := 8.
Definition offsetof_dataSize : Z := 78.
Definition offsetof_authValue : Z := 80.

Definition pub_nvIndex (p : bytes) : Z := le_val (bread p 0 4).
Definition pub_attributes (p : bytes) : Z := le_val (bread p offsetof_attributes 4).
Definition pub_dataSize (p : bytes) : Z := le_val (bread p offsetof_dataSize 2).
Definition set_pub_nvIndex (h : Z) (p : bytes) : bytes := bwrite p 0 (le_bytes 4 h).
Definition set_pub_attributes (a : Z) (p : bytes) : bytes :=
  bwrite p offsetof_attributes (le_bytes 4 a).

(** ** Iterating *)

Definition sizeof_NV_RAM_HEADER : Z := 12.
Definition ram_offsetof_attributes : Z := 8.
Definition RAM_ORDERLY_END : Z := RAM_INDEX_SPACE.

(** [MemoryCopy] out of and into the array, defined when inside it. *)
Definition ram_read (off n : Z) : M NvState bytes :=
  let! m := gets s_indexOrderlyRam in
  if inb m off n then ret (bread m off n) else undef.
Definition ram_write (off : Z) (d : bytes) : M NvState unit :=
  let! m := gets s_indexOrderlyRam in
  if inb m off (blen d) then modify (set_orderlyRam (bwrite m off d)) else undef.
Definition ram_move (src dst n : Z) : M NvState unit :=
  let! d := ram_read src n in ram_write dst d.

(** References are offsets; [None] is the NULL pointer (NV_RAM_REF_INIT). *)
Definition NvRamNext (iter : option Z) (handle : Z) : M NvState (option Z * Z * Z) :=
  let currentAddr := default 0 iter in
  if RAM_ORDERLY_END <? currentAddr + sizeof_NV_RAM_HEADER
  then ret (None, currentAddr, handle)
  else
    let! header := ram_read currentAddr sizeof_NV_RAM_HEADER in
    let size := le_val (bread header 0 4) in
    if size =? 0 then ret (None, currentAddr, handle)
    else ret (Some currentAddr, currentAddr + size, le_val (bread header 4 4)).

(** Fuel: every element has at least 12 octets. *)
Definition ram_fuel : nat := Z.to_nat RAM_INDEX_SPACE.

Fixpoint NvRamGetEnd_loop (fuel : nat) (iter : option Z) : M NvState Z :=
  match fuel with
  | O => undef
  | S fuel =>
      let! '(cur, iter, _) := NvRamNext iter 0 in
      match cur with
      | None => ret iter
      | Some _ => NvRamGetEnd_loop fuel (Some iter)
      end
  end.

Definition NvRamGetEnd : M NvState Z := NvRamGetEnd_loop ram_fuel None.

Definition NvRamTestSpaceIndex (size : Z) : M NvState bool :=
  let! e := NvRamGetEnd in
  let remaining := u32 (RAM_ORDERLY_END - e) in
  let needed := u32 (sizeof_NV_RAM_HEADER + size) in
  ret (needed <=? remaining).

Fixpoint NvRamGetIndex_loop (fuel : nat) (handle : Z) (iter : option Z) (found : Z)
    : M NvState (option Z) :=
  match fuel with
  | O => undef
  | S fuel =>
      let! '(cur, iter, found) := NvRamNext iter found in
      match cur with
      | None => ret None
      | Some a => if handle =? found then ret (Some a)
                  else NvRamGetIndex_loop fuel handle (Some iter) found
      end
  end.

Definition NvRamGetIndex (handle : Z) : M NvState (option Z) :=
  NvRamGetIndex_loop ram_fuel handle None 0.

Definition NvUpdateIndexOrderlyData `{NvLayout} : M NvState unit :=
  let! m := gets s_indexOrderlyRam in
  NvWrite NV_INDEX_RAM_DATA RAM_INDEX_SPACE m ;; ret tt.

(** ** Manufacturing (src/NVReserved.c, lines 188-210; SIMULATION is NO) *)

Definition NvManufacture `{NvLayout} : M NvState unit :=
  NvInitStatic ;;
  modify (λ s, set_orderlyRam (bwrite (s_indexOrderlyRam s) 0 (bfill 0 RAM_INDEX_SPACE)) s) ;;
  NvUpdateIndexOrderlyData ;;
  NvSetMaxCount 0 ;;
  NvWriteNvListEnd NV_USER_DYNAMIC ;;
  ret tt.

(** ** Adding and deleting *)

Definition NvAddRAM (index : bytes) : M NvState unit :=
  let! e := NvRamGetEnd in
  let size := sizeof_NV_RAM_HEADER + pub_dataSize index in
  let header := le_bytes 4 size ++ le_bytes 4 (pub_nvIndex index)
                ++ le_bytes 4 (pub_attributes index) in
  pAssert ((0 <=? e) && (e + size - 1 <? RAM_ORDERLY_END)) ;;
  ram_write e header ;;
  ram_write (e + sizeof_NV_RAM_HEADER) (bfill 0 (pub_dataSize index)) ;;
  let e := e + size in
  (if e + sizeof_UINT32 <? RAM_ORDERLY_END then ram_write e (bfill 0 4) else ret tt) ;;
  SET_NV_UPDATE UT_ORDERLY.

Definition NvDeleteRAM (handle : Z) : M NvState unit :=
  let! lastUsed := NvRamGetEnd in
  let! node := NvRamGetIndex handle in
  match node with
  | None => undef                     (* pAssert fails, then NULL is read *)
  | Some nodeAddress =>
      let! b := ram_read nodeAddress 4 in
      let size := le_val b in
      let nextNode := nodeAddress + size in
      ram_move nextNode nodeAddress (lastUsed - nextNode) ;;
      ram_write (lastUsed - size) (bfill 0 size) ;;
      SET_NV_UPDATE UT_ORDERLY
  end.

(** ** The abstract list *)

Definition ram_entry_ok (r : bytes) : Prop := 8 ≤ blen r ∧ Forall is_byte r.

Record RamRep (m : bytes) (rs : list bytes) : Prop := {
  ram_len : blen m = RAM_INDEX_SPACE;
  ram_byte : Forall is_byte m;
  ram_fit : nv_size rs ≤ RAM_INDEX_SPACE;
  ram_entries : Forall ram_entry_ok rs;
  ram_image : bread m 0 (nv_size rs) = nv_encode rs;
  ram_stop : RAM_INDEX_SPACE < nv_size rs + 12 ∨ bread m (nv_size rs) 4 = [0; 0; 0; 0];
}.

Abbreviation orderly s := (s_indexOrderlyRam s).

Lemma ram_size_length rs : Forall ram_entry_ok rs → 12 * Z.of_nat (length rs) ≤ nv_size rs.
Proof.
  induction 1 as [|e es [He _] _ IH]; [done|].
  rewrite nv_size_cons. cbn [length]. lia.
Qed.

Lemma ram_fuel_enough m rs : RamRep m rs → (length rs < ram_fuel)%nat.
Proof.
  intros Hr. pose proof (ram_size_length rs (ram_entries _ _ Hr)).
  pose proof (ram_fit _ _ Hr). unfold ram_fuel, RAM_INDEX_SPACE in *. lia.
Qed.

#[global] Opaque ram_fuel.

Lemma ram_read_ok s o n :
  0 ≤ o → 0 ≤ n → o + n ≤ blen (orderly s) →
  ram_read o n s = Some (bread (orderly s) o n, s).
Proof.
  intros. unfold ram_read, bind, gets.
  rewrite (proj2 (inb_true _ _ _)) by lia. done.
Qed.

Lemma ram_write_ok s o d :
  0 ≤ o → o + blen d ≤ blen (orderly s) →
  ram_write o d s = Some (tt, set_orderlyRam (bwrite (orderly s) o d) s).
Proof.
  intros. pose proof (blen_nonneg d). unfold ram_write, bind, gets.
  rewrite (proj2 (inb_true _ _ _)) by lia. done.
Qed.

(** The element after [rs1]. *)
Lemma ram_elem m rs1 r rs2 :
  RamRep m (rs1 ++ r :: rs2) →
  bread m (nv_size rs1) (4 + blen r) = nv_encode1 r ∧
  nv_size rs1 + 4 + blen r + nv_size rs2 ≤ RAM_INDEX_SPACE ∧ 8 ≤ blen r.
Proof.
  intros Hr. pose proof (ram_entries _ _ Hr) as He.
  apply Forall_app in He as [_ He]. apply Forall_cons_1 in He as [[He _] _].
  pose proof (ram_fit _ _ Hr) as Hf. rewrite nv_size_app, nv_size_cons in Hf.
  pose proof (nv_size_nonneg rs1). pose proof (nv_size_nonneg rs2).
  split; [|lia].
  replace (bread m (nv_size rs1) (4 + blen r))
    with (bread (bread m 0 (nv_size (rs1 ++ r :: rs2))) (nv_size rs1) (4 + blen r))
    by (rewrite bread_bread by (rewrite ?nv_size_app, ?nv_size_cons; lia); done).
  rewrite (ram_image _ _ Hr), nv_encode_app, bread_app_r by (unfold nv_size; lia).
  unfold nv_size. rewrite Z.sub_diag. unfold nv_encode. cbn [map concat].
  assert (L : blen (nv_encode1 r) = 4 + blen r)
    by (unfold nv_encode1; rewrite blen_app, blen_le_bytes; lia).
  rewrite bread_app_l by lia. by apply bread_all.
Qed.

Lemma NvRamNext_entry s rs1 r rs2 h :
  RamRep (orderly s) (rs1 ++ r :: rs2) →
  NvRamNext (Some (nv_size rs1)) h s =
    Some ((Some (nv_size rs1), nv_size (rs1 ++ [r]), entry_handle r), s).
Proof.
  intros Hr. destruct (ram_elem _ _ _ _ Hr) as (He & Hf & H8).
  pose proof (nv_size_nonneg rs1). pose proof (nv_size_nonneg rs2).
  unfold NvRamNext, RAM_ORDERLY_END, sizeof_NV_RAM_HEADER. cbn [from_option id].
  unfold id.
  rewrite (proj2 (Z.ltb_ge _ _)) by lia.
  erewrite bind_Some by (apply ram_read_ok; rewrite ?(ram_len _ _ Hr); lia).
  rewrite !bread_bread by lia.
  assert (H1 : bread (orderly s) (nv_size rs1 + 0) 4 = le_bytes 4 (4 + blen r)).
  { replace (bread (orderly s) (nv_size rs1 + 0) 4)
      with (bread (bread (orderly s) (nv_size rs1) (4 + blen r)) 0 4)
      by (rewrite bread_bread by lia; done).
    rewrite He. unfold nv_encode1.
    rewrite bread_app_l, bread_all by (rewrite ?blen_le_bytes; lia). done. }
  assert (H2 : bread (orderly s) (nv_size rs1 + 4) 4 = bread r 0 4).
  { replace (bread (orderly s) (nv_size rs1 + 4) 4)
      with (bread (bread (orderly s) (nv_size rs1) (4 + blen r)) 4 4)
      by (rewrite bread_bread by lia; done).
    rewrite He. unfold nv_encode1.
    rewrite bread_app_r by (rewrite ?blen_le_bytes; lia). by rewrite blen_le_bytes. }
  rewrite H1, H2. unfold RAM_INDEX_SPACE in *. rewrite le_val_bytes by (simpl; lia).
  rewrite (proj2 (Z.eqb_neq _ _)) by lia.
  rewrite nv_size_app, nv_size_cons, nv_size_nil. unfold ret, entry_handle.
  do 4 f_equal. lia.
Qed.

Lemma NvRamNext_last s rs h :
  RamRep (orderly s) rs →
  NvRamNext (Some (nv_size rs)) h s = Some ((None, nv_size rs, h), s).
Proof.
  intros Hr. pose proof (nv_size_nonneg rs). unfold NvRamNext.
  cbn [from_option]. unfold id, RAM_ORDERLY_END, sizeof_NV_RAM_HEADER.
  destruct (Z.ltb_spec RAM_INDEX_SPACE (nv_size rs + 12)) as [|Hlt]; [done|].
  destruct (ram_stop _ _ Hr) as [|Hz]; [lia|].
  erewrite bind_Some by (apply ram_read_ok; rewrite ?(ram_len _ _ Hr); lia).
  rewrite bread_bread by lia. rewrite Z.add_0_r, Hz. done.
Qed.

Lemma NvRamNext_init h s : NvRamNext None h s = NvRamNext (Some (nv_size [])) h s.
Proof. done. Qed.

(** ** Scans *)

Lemma NvRamGetEnd_loop_spec fuel s rs1 rs2 :
  RamRep (orderly s) (rs1 ++ rs2) → (length rs2 < fuel)%nat →
  NvRamGetEnd_loop fuel (Some (nv_size rs1)) s = Some (nv_size (rs1 ++ rs2), s).
Proof.
  revert rs1 rs2. induction fuel as [|fuel IH]; intros rs1 rs2 Hr Hf; [lia|].
  cbn [NvRamGetEnd_loop]. destruct rs2 as [|r rs2].
  - rewrite app_nil_r in *. by rewrite (bind_Some _ _ _ _ _ (NvRamNext_last _ _ _ Hr)).
  - rewrite (bind_Some _ _ _ _ _ (NvRamNext_entry _ _ _ _ _ Hr)).
    rewrite cons_middle, app_assoc in Hr. rewrite (IH _ _ Hr) by (simpl in Hf; lia).
    by rewrite <- app_assoc.
Qed.

Lemma NvRamGetEnd_ok s rs :
  RamRep (orderly s) rs → NvRamGetEnd s = Some (nv_size rs, s).
Proof.
  intros Hr. unfold NvRamGetEnd.
  transitivity (NvRamGetEnd_loop ram_fuel (Some (nv_size [])) s).
  { pose proof (ram_fuel_enough _ _ Hr). by destruct ram_fuel. }
  apply (NvRamGetEnd_loop_spec _ _ [] rs Hr). by eapply ram_fuel_enough.
Qed.

Lemma NvRamTestSpaceIndex_ok s rs size :
  RamRep (orderly s) rs → 0 ≤ size < 65536 →
  NvRamTestSpaceIndex size s = Some (nv_size rs + 12 + size <=? RAM_INDEX_SPACE, s).
Proof.
  intros Hr Hs. pose proof (ram_fit _ _ Hr). pose proof (nv_size_nonneg rs).
  unfold NvRamTestSpaceIndex. rewrite (bind_Some _ _ _ _ _ (NvRamGetEnd_ok _ _ Hr)).
  unfold ret, RAM_ORDERLY_END, sizeof_NV_RAM_HEADER, RAM_INDEX_SPACE in *.
  rewrite !u32_small by lia. do 2 f_equal.
  apply Bool.eq_iff_eq_true. zbool. lia.
Qed.

Lemma NvRamGetIndex_loop_some fuel s h rs1 r rs2 rs0 f :
  RamRep (orderly s) (rs0 ++ rs1 ++ r :: rs2) → (length rs1 < fuel)%nat →
  Forall (λ r, entry_handle r ≠ h) rs1 → entry_handle r = h →
  NvRamGetIndex_loop fuel h (Some (nv_size rs0)) f s = Some (Some (nv_size (rs0 ++ rs1)), s).
Proof.
  revert rs0 rs1 f. induction fuel as [|fuel IH]; intros rs0 rs1 f Hr Hf Hne He; [lia|].
  cbn [NvRamGetIndex_loop]. destruct rs1 as [|r1 rs1].
  - cbn [app] in Hr. rewrite (bind_Some _ _ _ _ _ (NvRamNext_entry _ _ _ _ _ Hr)).
    rewrite He, Z.eqb_refl, app_nil_r. done.
  - apply Forall_cons_1 in Hne as [H1 Hne]. cbn [app] in Hr.
    rewrite (bind_Some _ _ _ _ _ (NvRamNext_entry _ _ _ _ _ Hr)).
    rewrite (proj2 (Z.eqb_neq _ _)) by congruence.
    rewrite cons_middle, app_assoc in Hr.
    rewrite (IH _ _ _ Hr) by (done || simpl in Hf; lia). by rewrite <- app_assoc.
Qed.

Lemma NvRamGetIndex_loop_none fuel s h rs0 rs1 f :
  RamRep (orderly s) (rs0 ++ rs1) → (length rs1 < fuel)%nat →
  Forall (λ r, entry_handle r ≠ h) rs1 →
  NvRamGetIndex_loop fuel h (Some (nv_size rs0)) f s = Some (None, s).
Proof.
  revert rs0 rs1 f. induction fuel as [|fuel IH]; intros rs0 rs1 f Hr Hf Hne; [lia|].
  cbn [NvRamGetIndex_loop]. destruct rs1 as [|r1 rs1].
  - rewrite app_nil_r in Hr. by rewrite (bind_Some _ _ _ _ _ (NvRamNext_last _ _ _ Hr)).
  - apply Forall_cons_1 in Hne as [H1 Hne].
    rewrite (bind_Some _ _ _ _ _ (NvRamNext_entry _ _ _ _ _ Hr)).
    rewrite (proj2 (Z.eqb_neq _ _)) by congruence.
    rewrite cons_middle, app_assoc in Hr.
    rewrite (IH _ _ _ Hr) by (done || simpl in Hf; lia). done.
Qed.

(** The first element with the handle is found, at its offset. *)
Lemma NvRamGetIndex_some s h rs1 r rs2 :
  RamRep (orderly s) (rs1 ++ r :: rs2) →
  Forall (λ r, entry_handle r ≠ h) rs1 → entry_handle r = h →
  NvRamGetIndex h s = Some (Some (nv_size rs1), s).
Proof.
  intros Hr Hne He. unfold NvRamGetIndex. pose proof (ram_fuel_enough _ _ Hr) as Hf.
  rewrite length_app in Hf. cbn [length] in Hf.
  transitivity (NvRamGetIndex_loop ram_fuel h (Some (nv_size [])) 0 s);
    [by destruct ram_fuel|].
  apply (NvRamGetIndex_loop_some _ _ _ rs1 r rs2 []); done || lia.
Qed.

Lemma NvRamGetIndex_none s h rs :
  RamRep (orderly s) rs → Forall (λ r, entry_handle r ≠ h) rs →
  NvRamGetIndex h s = Some (None, s).
Proof.
  intros Hr Hne. unfold NvRamGetIndex. pose proof (ram_fuel_enough _ _ Hr) as Hf.
  transitivity (NvRamGetIndex_loop ram_fuel h (Some (nv_size [])) 0 s);
    [by destruct ram_fuel|].
  by apply (NvRamGetIndex_loop_none _ _ _ [] rs).
Qed.

(** ** Adding *)

(** The element [NvAddRAM] appends for a public area. *)
Definition ram_new (index : bytes) : bytes :=
  le_bytes 4 (pub_nvIndex index) ++ le_bytes 4 (pub_attributes index)
  ++ bfill 0 (pub_dataSize index).

Lemma blen_ram_new index : 0 ≤ pub_dataSize index → blen (ram_new index) = 8 + pub_dataSize index.
Proof. intros. unfold ram_new. rewrite !blen_app, !blen_le_bytes, blen_bfill by lia. lia. Qed.

Lemma ram_new_ok index : 0 ≤ pub_dataSize index → ram_entry_ok (ram_new index).
Proof.
  intros. split; [rewrite blen_ram_new; lia|]. unfold ram_new, bfill.
  rewrite !Forall_app. repeat split; auto using le_bytes_byte.
  apply Forall_replicate. unfold is_byte; lia.
Qed.

(** Appending the image of an element, with the end marker where it fits. *)
Lemma ram_extend m m' rs r :
  RamRep m rs → blen m' = RAM_INDEX_SPACE → Forall is_byte m' → ram_entry_ok r →
  nv_size rs + 4 + blen r ≤ RAM_INDEX_SPACE →
  bread m' 0 (nv_size rs) = bread m 0 (nv_size rs) →
  bread m' (nv_size rs) (4 + blen r) = nv_encode1 r →
  (RAM_INDEX_SPACE < nv_size rs + 4 + blen r + 12 ∨
   bread m' (nv_size rs + (4 + blen r)) 4 = [0; 0; 0; 0]) →
  RamRep m' (rs ++ [r]).
Proof.
  intros Hr Hl Hb Hok Hfit H1 H2 H3. pose proof (nv_size_nonneg rs). destruct Hok as [H8 Hby].
  assert (Hs : nv_size (rs ++ [r]) = nv_size rs + (4 + blen r))
    by (rewrite nv_size_app, nv_size_cons, nv_size_nil; lia).
  constructor; rewrite ?Hs; [done | done | lia | | |].
  - apply Forall_app; split; [apply (ram_entries _ _ Hr)|]. by constructor.
  - rewrite bread_split by lia. rewrite Z.add_0_l, H1, H2, (ram_image _ _ Hr).
    rewrite nv_encode_app. f_equal. unfold nv_encode. cbn [map concat]. by rewrite app_nil_r.
  - destruct H3; [left; lia | by right].
Qed.

Definition ram_add_mem (m : bytes) (e : Z) (index : bytes) : bytes :=
  let m1 := bwrite m e (nv_encode1 (ram_new index)) in
  let e := e + 12 + pub_dataSize index in
  if e + 4 <? RAM_INDEX_SPACE then bwrite m1 e (bfill 0 4) else m1.

Lemma nv_encode1_ram_new index :
  0 ≤ pub_dataSize index →
  nv_encode1 (ram_new index) =
    (le_bytes 4 (12 + pub_dataSize index) ++ le_bytes 4 (pub_nvIndex index)
     ++ le_bytes 4 (pub_attributes index)) ++ bfill 0 (pub_dataSize index).
Proof.
  intros. unfold nv_encode1. rewrite blen_ram_new by done. unfold ram_new.
  rewrite <- !app_assoc. do 2 f_equal. lia.
Qed.

Lemma NvAddRAM_run s rs index :
  RamRep (orderly s) rs → 0 ≤ pub_dataSize index →
  nv_size rs + 12 + pub_dataSize index ≤ RAM_INDEX_SPACE →
  NvAddRAM index s =
    Some (tt, set_updateNV (Z.lor (g_updateNV s) UT_ORDERLY)
                (set_orderlyRam (ram_add_mem (orderly s) (nv_size rs) index) s)).
Proof.
  intros Hr Hd Hfit. pose proof (nv_size_nonneg rs). pose proof (ram_len _ _ Hr) as Hl.
  unfold NvAddRAM. rewrite (bind_Some _ _ _ _ _ (NvRamGetEnd_ok _ _ Hr)).
  unfold sizeof_NV_RAM_HEADER, RAM_ORDERLY_END, sizeof_UINT32.
  erewrite bind_Some by (apply pAssert_true; zbool; lia).
  set (hdr := le_bytes 4 _ ++ _).
  assert (Lh : blen hdr = 12) by (unfold hdr; rewrite !blen_app, !blen_le_bytes; lia).
  erewrite bind_Some by (apply ram_write_ok; lia).
  erewrite bind_Some; cycle 1.
  { apply ram_write_ok; [lia|]. rewrite blen_bfill by lia.
    cbn [s_indexOrderlyRam set_orderlyRam]. rewrite blen_bwrite; lia. }
  cbn [s_indexOrderlyRam set_orderlyRam].
  rewrite (bwrite_bwrite_adjacent_eq _ _ hdr _ 12) by (rewrite ?blen_bfill; lia).
  unfold hdr. rewrite <- nv_encode1_ram_new by lia.
  unfold ram_add_mem. rewrite !Z.add_assoc.
  assert (Ln : blen (nv_encode1 (ram_new index)) = 12 + pub_dataSize index)
    by (unfold nv_encode1; rewrite blen_app, blen_le_bytes, blen_ram_new by lia; lia).
  cbv zeta.
  destruct (Z.ltb_spec (nv_size rs + 12 + pub_dataSize index + 4) RAM_INDEX_SPACE);
    [|reflexivity].
  erewrite bind_Some; cycle 1.
  { apply ram_write_ok; cbn [s_indexOrderlyRam set_orderlyRam]; [lia|].
    rewrite blen_bwrite, blen_bfill by lia. lia. }
  reflexivity.
Qed.

Lemma NvAddRAM_ok s rs index :
  RamRep (orderly s) rs → 0 ≤ pub_dataSize index →
  nv_size rs + 12 + pub_dataSize index ≤ RAM_INDEX_SPACE →
  ∃ m', NvAddRAM index s = Some (tt, set_updateNV (Z.lor (g_updateNV s) UT_ORDERLY)
                                      (set_orderlyRam m' s)) ∧
    RamRep m' (rs ++ [ram_new index]).
Proof.
  intros Hr Hd Hfit. eexists. split; [by apply (NvAddRAM_run _ rs)|].
  pose proof (nv_size_nonneg rs). pose proof (ram_len _ _ Hr) as Hl.
  pose proof (blen_ram_new index Hd) as Lr.
  assert (Ln : blen (nv_encode1 (ram_new index)) = 12 + pub_dataSize index)
    by (unfold nv_encode1; rewrite blen_app, blen_le_bytes; lia).
  pose proof (ram_new_ok index Hd) as Hok.
  assert (Hbn : Forall is_byte (nv_encode1 (ram_new index)))
    by (apply Forall_app; split; [apply le_bytes_byte | apply Hok]).
  assert (Hz : Forall is_byte (bfill 0 4)) by (repeat constructor; done).
  unfold ram_add_mem. set (m1 := bwrite _ _ (nv_encode1 _)).
  assert (L1 : blen m1 = RAM_INDEX_SPACE) by (unfold m1; rewrite blen_bwrite; lia).
  assert (B1 : Forall is_byte m1) by (apply bwrite_byte; [apply (ram_byte _ _ Hr) | done]).
  assert (R0 : bread m1 0 (nv_size rs) = bread (orderly s) 0 (nv_size rs))
    by (apply bread_bwrite_before; lia).
  assert (R1 : bread m1 (nv_size rs) (4 + blen (ram_new index)) = nv_encode1 (ram_new index))
    by (apply bread_bwrite_same; lia).
  assert (L4 : blen (bfill 0 4) = 4) by done.
  destruct (Z.ltb_spec (nv_size rs + 12 + pub_dataSize index + 4) RAM_INDEX_SPACE).
  - apply (ram_extend (orderly s)); try done; try lia.
    + rewrite blen_bwrite; lia.
    + by apply bwrite_byte.
    + rewrite bread_bwrite_before; (done || lia).
    + rewrite bread_bwrite_before; (done || lia).
    + right. rewrite (bread_bwrite_in _ _ _ _ 4) by lia.
      replace (_ - _) with 0 by lia. done.
  - apply (ram_extend (orderly s)); try done; lia.
Qed.

(** ** Deleting *)

(** The array after the element at [a] of [n] octets, followed by [tail] octets
    of list, is removed: the tail moves up and the space freed is zeroed. *)
Definition ram_delete_mem (m : bytes) (a n tail : Z) : bytes :=
  bwrite (bwrite m a (bread m (a + n) tail)) (a + tail) (bfill 0 n).

Lemma NvDeleteRAM_run s h rs1 r rs2 :
  RamRep (orderly s) (rs1 ++ r :: rs2) →
  Forall (λ r, entry_handle r ≠ h) rs1 → entry_handle r = h →
  NvDeleteRAM h s =
    Some (tt, set_updateNV (Z.lor (g_updateNV s) UT_ORDERLY)
      (set_orderlyRam (ram_delete_mem (orderly s) (nv_size rs1) (4 + blen r) (nv_size rs2)) s)).
Proof.
  intros Hr Hne Hh. destruct (ram_elem _ _ _ _ Hr) as (He & Hf & H8).
  pose proof (nv_size_nonneg rs1). pose proof (nv_size_nonneg rs2).
  pose proof (ram_len _ _ Hr) as Hl. unfold NvDeleteRAM.
  rewrite (bind_Some _ _ _ _ _ (NvRamGetEnd_ok _ _ Hr)).
  rewrite (bind_Some _ _ _ _ _ (NvRamGetIndex_some _ _ _ _ _ Hr Hne Hh)).
  erewrite bind_Some by (apply ram_read_ok; lia).
  replace (bread (orderly s) (nv_size rs1) 4)
    with (bread (bread (orderly s) (nv_size rs1) (4 + blen r)) 0 4)
    by (rewrite bread_bread, Z.add_0_r by lia; done).
  rewrite He. unfold nv_encode1.
  rewrite bread_app_l, bread_all by (rewrite ?blen_le_bytes; lia).
  unfold RAM_INDEX_SPACE in *. rewrite le_val_bytes by (simpl; lia).
  rewrite nv_size_app, nv_size_cons.
  replace (nv_size rs1 + (4 + blen r + nv_size rs2) - (nv_size rs1 + (4 + blen r)))
    with (nv_size rs2) by lia.
  replace (nv_size rs1 + (4 + blen r + nv_size rs2) - (4 + blen r))
    with (nv_size rs1 + nv_size rs2) by lia.
  unfold ram_move. erewrite bind_Some; cycle 1.
  { erewrite bind_Some by (apply ram_read_ok; lia).
    apply ram_write_ok; rewrite ?blen_bread; lia. }
  erewrite bind_Some; cycle 1.
  { apply ram_write_ok; cbn [s_indexOrderlyRam set_orderlyRam]; [lia|].
    rewrite blen_bwrite, blen_bfill; rewrite ?blen_bread; lia. }
  reflexivity.
Qed.

(** [NvDeleteRAM] removes the element of the handle and keeps the others. *)
Lemma NvDeleteRAM_ok s h rs1 r rs2 :
  RamRep (orderly s) (rs1 ++ r :: rs2) →
  Forall (λ r, entry_handle r ≠ h) rs1 → entry_handle r = h →
  ∃ m', NvDeleteRAM h s = Some (tt, set_updateNV (Z.lor (g_updateNV s) UT_ORDERLY)
                                     (set_orderlyRam m' s)) ∧
    RamRep m' (rs1 ++ rs2).
Proof.
  intros Hr Hne Hh. eexists. split; [by eapply NvDeleteRAM_run|].
  destruct (ram_elem _ _ _ _ Hr) as (He & Hf & H8).
  pose proof (nv_size_nonneg rs1). pose proof (nv_size_nonneg rs2).
  pose proof (ram_len _ _ Hr) as Hl. pose proof (ram_byte _ _ Hr) as Hb.
  unfold ram_delete_mem. set (t := bread (orderly s) _ _).
  assert (Lt : blen t = nv_size rs2) by (apply blen_bread; lia).
  set (m1 := bwrite (orderly s) _ t).
  assert (L1 : blen m1 = RAM_INDEX_SPACE) by (unfold m1; rewrite blen_bwrite; lia).
  assert (Lz : blen (bfill 0 (4 + blen r)) = 4 + blen r) by (apply blen_bfill; lia).
  pose proof (ram_entries _ _ Hr) as Hen. apply Forall_app in Hen as [Hen1 Hen2].
  apply Forall_cons_1 in Hen2 as [_ Hen2].
  pose proof (ram_image _ _ Hr) as Hi. rewrite nv_size_app, nv_size_cons in Hi.
  constructor; rewrite ?nv_size_app.
  - rewrite blen_bwrite; lia.
  - repeat apply bwrite_byte; [done | by apply bread_byte | by apply Forall_replicate].
  - lia.
  - by apply Forall_app.
  - rewrite bread_split by lia. rewrite !bread_bwrite_before by lia.
    unfold m1. rewrite bread_bwrite_before, bread_bwrite_same by lia.
    rewrite nv_encode_app. f_equal.
    + rewrite nv_encode_app in Hi.
      replace (bread (orderly s) 0 (nv_size rs1))
        with (bread (bread (orderly s) 0 (nv_size rs1 + (4 + blen r + nv_size rs2))) 0 (nv_size rs1))
        by (rewrite bread_bread by lia; done).
      rewrite Hi, bread_app_l, bread_all by (unfold nv_size; blia). done.
    + unfold t.
      replace (bread (orderly s) (nv_size rs1 + (4 + blen r)) (nv_size rs2))
        with (bread (bread (orderly s) 0 (nv_size rs1 + (4 + blen r + nv_size rs2)))
                (nv_size rs1 + (4 + blen r)) (nv_size rs2))
        by (rewrite bread_bread by lia; done).
      rewrite Hi, cons_middle, app_assoc, nv_encode_app.
      assert (L : blen (nv_encode (rs1 ++ [r])) = nv_size rs1 + (4 + blen r)).
      { change (nv_size (rs1 ++ [r]) = nv_size rs1 + (4 + blen r)).
        rewrite nv_size_app, nv_size_cons, nv_size_nil. lia. }
      rewrite bread_app_r by lia. rewrite L, Z.sub_diag. by apply bread_all.
  - right. rewrite (bread_bwrite_in _ _ _ _ 4) by lia. rewrite Z.sub_diag.
    replace (bfill 0 (4 + blen r)) with (bfill 0 4 ++ bfill 0 (blen r));
      [|unfold bfill; rewrite <- replicate_add; f_equal; lia].
    rewrite bread_app_l by (rewrite ?blen_bfill; lia). done.
Qed.

(** ** Changing the contents of one element *)

Lemma ram_update m rs1 r rs2 o d :
  RamRep m (rs1 ++ r :: rs2) → 0 ≤ o → o + blen d ≤ blen r → Forall is_byte d →
  RamRep (bwrite m (nv_size rs1 + 4 + o) d) (rs1 ++ bwrite r o d :: rs2).
Proof.
  intros Hr Ho Hd Hb. destruct (ram_elem _ _ _ _ Hr) as (He & Hf & H8).
  pose proof (nv_size_nonneg rs1). pose proof (nv_size_nonneg rs2). pose proof (blen_nonneg d).
  pose proof (ram_len _ _ Hr) as Hl.
  assert (Hsz : nv_size (rs1 ++ r :: rs2) = nv_size rs1 + (4 + blen r + nv_size rs2))
    by (rewrite nv_size_app, nv_size_cons; lia).
  constructor; rewrite ?nv_size_update by done.
  - rewrite blen_bwrite; lia.
  - apply bwrite_byte; [apply (ram_byte _ _ Hr)|done].
  - lia.
  - pose proof (ram_entries _ _ Hr) as Hen. apply Forall_app in Hen as [F1 F2].
    apply Forall_cons_1 in F2 as [[F4 F5] F2]. apply Forall_app. split; [done|].
    constructor; [|done]. split; [rewrite blen_bwrite; lia|]. by apply bwrite_byte.
  - replace (nv_size rs1 + 4 + o) with (0 + (nv_size rs1 + 4 + o)) by lia.
    rewrite bread_bwrite_cover by lia. rewrite (ram_image _ _ Hr).
    rewrite <- (app_nil_r (nv_encode (rs1 ++ r :: rs2))), <- (app_nil_r (nv_encode (_ ++ bwrite r o d :: _))).
    by apply nv_encode_update.
  - destruct (ram_stop _ _ Hr) as [|Hz]; [by left|].
    destruct (Z.ltb_spec RAM_INDEX_SPACE (nv_size (rs1 ++ r :: rs2) + 12)); [by left|right].
    rewrite bread_bwrite_after by lia. done.
Qed.
