(* ===== verification/NvIndex.v ===== *)
(** * NV indices and persistent objects (src/NVDynamic.c)

    The operations on single entities: reading and caching an index, reading
    and writing its data and attributes in NV memory or in the orderly RAM,
    defining and deleting indices and persistent objects, and the space test
    that keeps room for the minimum number of persistent objects and counters.

    A pointer to an [NV_INDEX] in the C code is either the index cache, which
    [NvGetIndexInfo] fills and returns, or a local copy; the first is the field
    [s_cachedNvIndex] of the state and the second an argument. *)

From S2P Require Import Prelude TpmTypes Cbc NVMem NVReserved NvList NvRam Memory.
Local Open Scope Z_scope.

Section nv_index.
Context `{NvLayout}.

(** ** Reading (lines 573-660) *)

Definition NvReadNvIndexInfo (ref : Z) : M NvState bytes := NvRead ref sizeof_NV_INDEX.

Definition NvReadObject (ref : Z) : M NvState bytes := NvRead (u32 (ref + 4)) sizeof_OBJECT.

(** With [object = None] no object is asked for; otherwise the object found
    replaces it. *)
Definition NvFindEvict (nvHandle : Z) (object : option bytes) : M NvState (Z * option bytes) :=
  let! found := NvFindHandle nvHandle in
  match object with
  | Some _ =>
      if negb (found =? 0) then let! o := NvReadObject found in ret (found, Some o)
      else ret (found, object)
  | None => ret (found, None)
  end.

Definition NvConditionallyWrite (entryAddr size : Z) (data : bytes) : M NvState Z :=
  let! isDifferent := on_plat (plat__NvGetChangedStatus entryAddr size data) in
  if isDifferent =? NV_INVALID_LOCATION then ret TPM_RC_FAILURE
  else if isDifferent =? NV_HAS_CHANGED then
    let! st := gets g_NvStatus in
    (if st =? TPM_RC_SUCCESS then (NvWrite entryAddr size data ;; ret tt) else ret tt) ;;
    gets g_NvStatus
  else if isDifferent =? NV_IS_SAME then ret TPM_RC_SUCCESS
  else undef.            (* FAIL_RC, then the end of a function with a result *)

Definition NvReadNvIndexAttributes (locator : Z) : M NvState Z :=
  let! b := NvRead (u32 (locator + offsetof_attributes)) 4 in ret (le_val b).

(** A NULL reference ([None]) is dereferenced by the copy. *)
Definition NvReadRamIndexAttributes (ref : option Z) : M NvState Z :=
  match ref with
  | None => undef
  | Some r => let! b := ram_read (r + ram_offsetof_attributes) 4 in ret (le_val b)
  end.

Definition NvWriteNvIndexAttributes (locator attributes : Z) : M NvState Z :=
  NvConditionallyWrite (u32 (locator + offsetof_attributes)) 4 (le_bytes 4 attributes).

Definition NvWriteRamIndexAttributes (ref : option Z) (attributes : Z) : M NvState unit :=
  match ref with
  | None => undef
  | Some r => ram_write (r + ram_offsetof_attributes) (le_bytes 4 attributes)
  end.

(** ** Handle ranges (lines 715-740) *)

Definition NvIsPlatformPersistentHandle (handle : Z) : bool :=
  (PLATFORM_PERSISTENT <=? handle) && (handle <=? PERSISTENT_LAST).
Definition NvIsOwnerPersistentHandle (handle : Z) : bool :=
  (PERSISTENT_FIRST <=? handle) && (handle <? PLATFORM_PERSISTENT).

(** ** The index cache (lines 829-838, 985-1023) *)

Definition NvIndexCacheInit : M NvState unit :=
  modify (λ s, set_cache (set_pub_nvIndex TPM_RH_UNASSIGNED (s_cachedNvIndex s))
                 NV_REF_INIT None s).

(** [NvGetIndexInfo]: [Some locator] when the index is found, and then
    [s_cachedNvIndex] is what the returned pointer designates. *)
Definition NvGetIndexInfo (nvHandle : Z) : M NvState (option Z) :=
  let! cached := gets s_cachedNvIndex in
  if pub_nvIndex cached =? nvHandle then
    let! ref := gets s_cachedNvRef in ret (Some ref)
  else
    let unassigned := set_pub_nvIndex TPM_RH_UNASSIGNED cached in
    let! ref := NvFindHandle nvHandle in
    modify (set_cache unassigned ref None) ;;
    if ref =? 0 then ret None
    else
      let! idx := NvReadNvIndexInfo ref in
      modify (set_cache idx ref None) ;;
      (if IS_ATTRIBUTE (pub_attributes idx) TPMA_NV_ORDERLY then
         let! ram := NvRamGetIndex nvHandle in
         modify (set_cache idx ref ram) ;;
         let! a := NvReadRamIndexAttributes ram in
         modify (set_cache (set_pub_attributes a idx) ref ram)
       else ret tt) ;;
      ret (Some ref).

(** [NvIndexIsAccessible] (lines 742-800). *)
Definition NvIndexIsAccessible (handle : Z) : M NvState Z :=
  let! nvIndex := NvGetIndexInfo handle in
  match nvIndex with
  | None => ret TPM_RC_HANDLE
  | Some _ =>
      let! idx := gets s_cachedNvIndex in
      let! shEnable := gets gc_shEnable in
      let! phEnableNV := gets gc_phEnableNV in
      if negb shEnable || negb phEnableNV then
        if negb (IS_ATTRIBUTE (pub_attributes idx) TPMA_NV_PLATFORMCREATE) then
          if negb shEnable then ret TPM_RC_HANDLE else ret TPM_RC_SUCCESS
        else if negb phEnableNV then ret TPM_RC_HANDLE
        else ret TPM_RC_SUCCESS
      else ret TPM_RC_SUCCESS
  end.

(** ** Persistent objects as octets (Global.h, lines 226-275) *)

Definition EVICT_BIT : Z := 16.
Definition object_attributes (o : bytes) : Z := le_val (bread o 0 4).
Definition set_object_attributes (a : Z) (o : bytes) : bytes := bwrite o 0 (le_bytes 4 a).
Definition object_evictHandle (o : bytes) : Z :=
  le_val (bread o offsetof_OBJECT_evictHandle 4).
Definition set_object_evictHandle (h : Z) (o : bytes) : bytes :=
  bwrite o offsetof_OBJECT_evictHandle (le_bytes 4 h).
Definition set_evict (o : bytes) : bytes :=
  set_object_attributes (Z.lor (object_attributes o) EVICT_BIT) o.
Definition clear_evict (o : bytes) : bytes :=
  set_object_attributes (Z.ldiff (object_attributes o) EVICT_BIT) o.

(** [NvGetEvictObject] (lines 802-827): the response code and the object. *)
Definition NvGetEvictObject (handle : Z) (object : bytes) : M NvState (Z * bytes) :=
  let! '(entityAddr, o) := NvFindEvict handle (Some object) in
  let object := set_evict (default object o) in
  if entityAddr =? 0 then ret (TPM_RC_HANDLE, object) else ret (TPM_RC_SUCCESS, object).

(** ** Index data (lines 840-949) *)

Definition NvGetIndexData (nvIndex : bytes) (locator offset size : Z) : M NvState bytes :=
  let nvAttributes := pub_attributes nvIndex in
  pAssert (IS_ATTRIBUTE nvAttributes TPMA_NV_WRITTEN) ;;
  if IS_ATTRIBUTE nvAttributes TPMA_NV_ORDERLY then
    let! ramAddr := NvRamGetIndex (pub_nvIndex nvIndex) in
    match ramAddr with
    | None => undef                    (* pAssert fails, then NULL is read *)
    | Some a =>
        let! b := ram_read a 4 in
        pAssert (size <=? u64 (le_val b - sizeof_NV_RAM_HEADER - offset)) ;;
        ram_read (a + sizeof_NV_RAM_HEADER + offset) size
    end
  else
    pAssert ((offset <=? pub_dataSize nvIndex) && (size <=? u32 (pub_dataSize nvIndex - offset))) ;;
    NvRead (u32 (locator + sizeof_NV_INDEX + offset)) size.

Definition NvGetUINT64Data (nvIndex : bytes) (locator : Z) : M NvState Z :=
  let! b := NvGetIndexData nvIndex locator 0 8 in ret (ByteArrayToUint64 b).

(** [NvHashIndexData] feeds the data to a digest in pieces of at most 64
    octets; [i] is an INT16. *)
Definition BUFFER_SIZE : Z := 64.
Definition s16 (v : Z) : Z := (v + 32768) mod 65536 - 32768.

Section hash_data.
Context {HASH_STATE : Type} (CryptDigestUpdate : HASH_STATE → bytes → HASH_STATE).

Fixpoint NvHashIndexData_loop (fuel : nat) (hs : HASH_STATE) (nvIndex : bytes)
    (locator offset i : Z) : M NvState HASH_STATE :=
  if 0 <? i then
    match fuel with
    | O => undef
    | S fuel =>
        let readSize := if i <? BUFFER_SIZE then i else BUFFER_SIZE in
        let! buffer := NvGetIndexData nvIndex locator offset readSize in
        NvHashIndexData_loop fuel (CryptDigestUpdate hs buffer) nvIndex locator
          (u32 (offset + readSize)) (s16 (i - readSize))
    end
  else ret hs.

Definition NvHashIndexData (hs : HASH_STATE) (nvIndex : bytes) (locator offset size : Z)
    : M NvState HASH_STATE :=
  if pub_dataSize nvIndex <? offset then ret hs
  else
    let size := if pub_dataSize nvIndex <? u32 (offset + size)
                then u16 (pub_dataSize nvIndex - u16 offset) else size in
    NvHashIndexData_loop 1024 hs nvIndex locator offset (s16 size).
End hash_data.

(** [NvWriteIndexAttributes] and [NvWriteIndexAuth] (lines 925-983).  The
    authValue is the image of a [TPM2B_AUTH]. *)
Definition NvWriteIndexAttributes (handle locator attributes : Z) : M NvState Z :=
  if IS_ATTRIBUTE attributes TPMA_NV_ORDERLY then
    let! ram := NvRamGetIndex handle in
    NvWriteRamIndexAttributes ram attributes ;;
    ret TPM_RC_SUCCESS
  else NvWriteNvIndexAttributes locator attributes.

Definition auth_size (authValue : bytes) : Z := le_val (bread authValue 0 2).

Definition NvWriteIndexAuth (locator : Z) (authValue : bytes) : M NvState Z :=
  let! ref := gets s_cachedNvRef in
  (if locator =? ref then
     pAssert (auth_size authValue <=? 64) ;;
     (if auth_size authValue <=? 64 then
        modify (λ s, set_cache
          (bwrite (s_cachedNvIndex s) offsetof_authValue (bread authValue 0 (2 + auth_size authValue)))
          (s_cachedNvRef s) (s_cachedNvRamRef s) s)
      else undef)
   else ret tt) ;;
  NvConditionallyWrite (u32 (locator + offsetof_authValue)) (2 + auth_size authValue) authValue.

(** [NvWriteIndexData] (lines 1025-1117); [nvIndex] is the cached index, as in
    every call of it.  The first part updates TPMA_NV_WRITTEN if necessary
    (lines 1061-1098). *)
Definition mark_index_written (nvIndex : bytes) (ref : Z) (ram : option Z) (size : Z)
    : M NvState Z :=
  let written := SET_ATTRIBUTE (pub_attributes nvIndex) TPMA_NV_WRITTEN in
  if IS_ATTRIBUTE (pub_attributes nvIndex) TPMA_NV_WRITTEN then ret TPM_RC_SUCCESS
  else
    modify (set_cache (set_pub_attributes written nvIndex) ref ram) ;;
    if negb (IS_ATTRIBUTE written TPMA_NV_ORDERLY) then
      let! result := NvWriteNvIndexAttributes ref written in
      if negb (result =? TPM_RC_SUCCESS) then ret result
      else
        (if IsNvOrdinaryIndex written && (size <? pub_dataSize nvIndex)
         then on_plat (plat__NvMemoryClear (u32 (ref + sizeof_NV_INDEX)) (pub_dataSize nvIndex)) ;;
              ret tt
         else ret tt) ;;
        ret result
    else
      NvWriteRamIndexAttributes ram written ;;
      (if IsNvCounterIndex written then SET_NV_UPDATE UT_ORDERLY
       else if IsNvOrdinaryIndex written
       then match ram with
            | Some a => ram_write (a + sizeof_NV_RAM_HEADER) (bfill 0 (pub_dataSize nvIndex))
            | None => undef
            end
       else ret tt) ;;
      ret TPM_RC_SUCCESS.

Definition NvWriteIndexData (offset size : Z) (data : bytes) : M NvState Z :=
  let! nvIndex := gets s_cachedNvIndex in
  let! ref := gets s_cachedNvRef in
  let! ram := gets s_cachedNvRamRef in
  pAssert ((offset <=? pub_dataSize nvIndex) && (size <=? u32 (pub_dataSize nvIndex - offset))) ;;
  let! result := mark_index_written nvIndex ref ram size in
  if negb (result =? TPM_RC_SUCCESS) then ret result
  else if IS_ATTRIBUTE (pub_attributes nvIndex) TPMA_NV_ORDERLY then
    match ram with
    | Some a =>
        ram_write (a + sizeof_NV_RAM_HEADER + offset) (bread data 0 size) ;;
        modify (set_clearOrderly true) ;;
        ret result
    | None => undef
    end
  else NvConditionallyWrite (u32 (ref + sizeof_NV_INDEX + offset)) size data.

Definition NvWriteUINT64Data (intValue : Z) : M NvState Z :=
  NvWriteIndexData 0 8 (Uint64ToByteArray intValue).

(** ** Counting entities (lines 1580-1605, 1632-1650) *)

Definition NvCapGetIndexNumber : M NvState Z :=
  nv_while no_stop nv_fuel NvNextIndex (λ _ _ num, ret (u32 (num + 1))) NV_REF_INIT 0.

Definition NvCapGetPersistentNumber : M NvState Z :=
  nv_while no_stop nv_fuel NvNextEvict (λ _ _ num, ret (u32 (num + 1))) NV_REF_INIT 0.

Definition NvCapGetCounterNumber : M NvState Z :=
  nv_while no_stop nv_fuel NvNextIndex
    (λ currentAddr _ num,
      let! attributes := NvReadNvIndexAttributes currentAddr in
      ret (if IsNvCounterIndex attributes then u32 (num + 1) else num))
    NV_REF_INIT 0.

(** ** Space (lines 211-265; NV.h, lines 107-112) *)

Definition NV_EVICT_OBJECT_SIZE : Z := 4 + 4 + sizeof_OBJECT.
Definition NV_INDEX_COUNTER_SIZE : Z := 4 + sizeof_NV_INDEX + 8.
Definition NV_RAM_INDEX_COUNTER_SIZE : Z := sizeof_NV_RAM_HEADER + 8.

Definition NvTestSpace (size : Z) (isIndex isCounter : bool) : M NvState bool :=
  let! remainBytes := NvGetFreeBytes in
  let reserved := sizeof_UINT32 + sizeof_NV_LIST_TERMINATOR in
  let! reserved :=
    (if isIndex then
       let! persistentNum := NvCapGetPersistentNumber in
       ret (if persistentNum <? MIN_EVICT_OBJECTS
            then u32 (reserved + (MIN_EVICT_OBJECTS - persistentNum) * NV_EVICT_OBJECT_SIZE)
            else reserved)
     else ret reserved) in
  let! reserved :=
    (if negb isIndex || negb isCounter then
       let! counterNum := NvCapGetCounterNumber in
       ret (if counterNum <? MIN_COUNTER_INDICES
            then u32 (reserved + (MIN_COUNTER_INDICES - counterNum) * NV_INDEX_COUNTER_SIZE)
            else reserved)
     else ret reserved) in
  ret ((reserved <? remainBytes) && (size <=? remainBytes)
       && (u32 (size + reserved) <=? remainBytes)).

(** ** Defining and deleting (lines 1152-1286) *)

(** [padding] is what the octets after [authValue] of the local [NV_INDEX] hold. *)
Definition NvDefineIndex (padding publicArea authValue : bytes) : M NvState Z :=
  let orderly := IS_ATTRIBUTE (pub_attributes publicArea) TPMA_NV_ORDERLY in
  let entrySize := if negb orderly then u16 (sizeof_NV_INDEX + pub_dataSize publicArea)
                   else sizeof_NV_INDEX in
  let! ok := NvTestSpace entrySize true (IsNvCounterIndex (pub_attributes publicArea)) in
  if negb ok then ret TPM_RC_NV_SPACE
  else
    let! ramok := (if orderly then NvRamTestSpaceIndex (pub_dataSize publicArea) else ret true) in
    if negb ramok then ret TPM_RC_NV_SPACE
    else
      let nvIndex := publicArea ++ authValue ++ padding in
      let! result := NvAdd entrySize sizeof_NV_INDEX TPM_RH_UNASSIGNED nvIndex in
      (if (result =? TPM_RC_SUCCESS) && orderly then NvAddRAM publicArea else ret tt) ;;
      ret result.

Definition NvAddEvictObject (evictHandle : Z) (object : bytes) : M NvState (Z * bytes) :=
  let temp := object_evictHandle object in
  let! ok := NvTestSpace (sizeof_OBJECT + 4) false false in
  if negb ok then ret (TPM_RC_NV_SPACE, object)
  else
    let object := set_object_evictHandle evictHandle (set_evict object) in
    let! result := NvAdd sizeof_OBJECT sizeof_OBJECT evictHandle object in
    ret (result, set_object_evictHandle temp (clear_evict object)).

Definition NvDeleteIndex (nvIndex : option bytes) (entityAddr : Z) : M NvState Z :=
  match nvIndex with
  | None => ret TPM_RC_SUCCESS
  | Some nvIndex =>
      (if IsNvCounterIndex (pub_attributes nvIndex)
          && IS_ATTRIBUTE (pub_attributes nvIndex) TPMA_NV_WRITTEN
       then let! v := NvGetUINT64Data nvIndex entityAddr in NvUpdateMaxCount v
       else ret tt) ;;
      let! result := NvDelete entityAddr in
      if negb (result =? TPM_RC_SUCCESS) then ret result
      else
        (if IS_ATTRIBUTE (pub_attributes nvIndex) TPMA_NV_ORDERLY
         then NvDeleteRAM (pub_nvIndex nvIndex) else ret tt) ;;
        NvIndexCacheInit ;;
        ret TPM_RC_SUCCESS
  end.

Definition NvDeleteEvict (handle : Z) : M NvState Z :=
  let! '(entityAddr, _) := NvFindEvict handle None in
  if negb (entityAddr =? 0) then NvDelete entityAddr else ret TPM_RC_SUCCESS.

(** ** What an operation on NV memory leaves alone *)

(** [s'] differs from [s] at most in the NV image and in [g_updateNV]. *)
Definition nv_only (s s' : NvState) : Prop :=
  s' = with_nvmem (nvmem s') (set_updateNV (g_updateNV s') s).

#[global] Instance nv_only_preorder : PreOrder nv_only.
Proof.
  split; [by intros [[]]|]. unfold nv_only.
  intros x y z Hxy Hyz. rewrite Hyz. rewrite Hxy. done.
Qed.

Lemma nv_written_only s s' : nv_written s s' → nv_only s s'.
Proof. unfold nv_written, nv_only. intros ->. done. Qed.

Lemma nv_only_mem s m : nv_only s (with_nvmem m s).
Proof. by destruct s as [[]]. Qed.

Lemma nv_only_frame s s' :
  nv_only s s' →
  s_evictNvEnd s' = s_evictNvEnd s ∧ s_indexOrderlyRam s' = s_indexOrderlyRam s ∧
  s_maxCounter s' = s_maxCounter s ∧ g_NvStatus s' = g_NvStatus s ∧
  g_inFailureMode s' = g_inFailureMode s ∧ s_cachedNvIndex s' = s_cachedNvIndex s ∧
  s_cachedNvRef s' = s_cachedNvRef s ∧ s_cachedNvRamRef s' = s_cachedNvRamRef s.
Proof. unfold nv_only. intros ->. done. Qed.

Lemma bwrite_same m o d :
  0 ≤ o → o + blen d ≤ blen m → bread m o (blen d) = d → bwrite m o d = m.
Proof.
  unfold bwrite, bread, blen. intros Ho Hl Hd. rewrite <- Hd at 1.
  rewrite Nat2Z.id. rewrite <- drop_drop, take_drop. apply take_drop.
Qed.

Lemma NvConditionallyWrite_ok s o d n :
  nv_ok s → g_NvStatus s = TPM_RC_SUCCESS → 0 ≤ o → n = blen d → o + n ≤ NV_MEMORY_SIZE →
  ∃ s', NvConditionallyWrite o n d s = Some (TPM_RC_SUCCESS, s') ∧
    nvmem s' = bwrite (nvmem s) o d ∧ nv_only s s'.
Proof.
  intros Hok Hst Ho -> Hle. pose proof (blen_nonneg d).
  unfold NvConditionallyWrite. unfold bind at 1, on_plat.
  rewrite plat_changed_ok; [|done..|lia]. rewrite (bread_all d) by done.
  replace (set_plat (plat s) s) with s by (by destruct s).
  fold (nvmem s). destruct (decide (bread (nvmem s) o (blen d) = d)) as [E|E].
  - exists s. split; [done|]. split; [|done]. symmetry. apply bwrite_same; [done| |done].
    rewrite Hok. done.
  - unfold bind, gets. change (NV_HAS_CHANGED =? NV_INVALID_LOCATION) with false. cbv beta iota.
    change (NV_HAS_CHANGED =? NV_HAS_CHANGED) with true. cbv beta iota.
    rewrite Hst. change (TPM_RC_SUCCESS =? TPM_RC_SUCCESS) with true. cbv beta iota.
    rewrite NvWrite_ok by done. unfold ret. eexists. split; [by rewrite <- Hst|].
    split; [done|]. apply nv_written_only, nv_written_put.
Qed.

(** When NV is not available nothing is written and the reason is returned,
    unless the value is already there. *)
Lemma NvConditionallyWrite_unavailable s o d n :
  nv_ok s → g_NvStatus s ≠ TPM_RC_SUCCESS → 0 ≤ o → n = blen d → o + n ≤ NV_MEMORY_SIZE →
  NvConditionallyWrite o n d s =
    Some ((if decide (bread (nvmem s) o n = d) then TPM_RC_SUCCESS else g_NvStatus s), s).
Proof.
  intros Hok Hst Ho -> Hle. unfold NvConditionallyWrite. unfold bind at 1, on_plat.
  pose proof (blen_nonneg d).
  rewrite plat_changed_ok; [|done..|lia]. rewrite (bread_all d) by done.
  replace (set_plat (plat s) s) with s by (by destruct s). fold (nvmem s).
  destruct (decide (bread (nvmem s) o (blen d) = d)) as [E|E]; [done|].
  unfold bind, gets. change (NV_HAS_CHANGED =? NV_INVALID_LOCATION) with false. cbv beta iota.
  change (NV_HAS_CHANGED =? NV_HAS_CHANGED) with true. cbv beta iota.
  rewrite (proj2 (Z.eqb_neq _ _)) by done. done.
Qed.
End nv_index.
