(* ===== verification/NvEntity.v ===== *)
(** * What the NV entity operations do to the set of entities

    The invariant [NvInv] ties the list in NV memory and the list in the
    orderly RAM together: every entity is an index or a persistent object of
    the right size, no handle occurs twice, and the RAM holds exactly the data
    areas of the orderly indices, in the same order.  The lemmas say what each
    operation of NVDynamic.c does under it. *)

From S2P Require Import Prelude TpmTypes Cbc NVMem NVReserved NvList NvRam Memory NvIndex.
Local Open Scope Z_scope.

Section nv_entity.
Context `{NvLayout}.

Definition is_index : bytes → bool := is_type TPM_HT_NV_INDEX.
Definition is_persistent : bytes → bool := is_type TPM_HT_PERSISTENT.
Definition entry_orderly (e : bytes) : bool :=
  IS_ATTRIBUTE (pub_attributes e) TPMA_NV_ORDERLY.
Definition orderly_index (e : bytes) : bool := is_index e && entry_orderly e.

Record entry_wf (e : bytes) : Prop := mk_entry_wf {
  entry_shape :
    if is_index e
    then blen e = sizeof_NV_INDEX + (if entry_orderly e then 0 else pub_dataSize e)
    else is_persistent e = true ∧ blen e = 4 + sizeof_OBJECT;
}.

(** The attributes that operations on a defined index change; the others are
    fixed when it is defined. *)
Definition NV_STATE_ATTRIBUTES : Z :=
  Z.lor TPMA_NV_WRITELOCKED (Z.lor TPMA_NV_READLOCKED TPMA_NV_WRITTEN).
Definition fixed_attributes (a : Z) : Z := Z.ldiff a NV_STATE_ATTRIBUTES.

(** The attributes in a RAM element. *)
Definition ram_attributes (r : bytes) : Z := le_val (bread r 4 4).

(** What the two lists have to agree on: handle, size of the data, and the
    attributes that do not change. *)
Definition ram_key (r : bytes) : Z * Z * Z :=
  (entry_handle r, blen r - 8, fixed_attributes (ram_attributes r)).
Definition index_key (e : bytes) : Z * Z * Z :=
  (entry_handle e, pub_dataSize e, fixed_attributes (pub_attributes e)).

Record NvInv (s : NvState) (es rs : list bytes) (c : Z) : Prop := {
  inv_rep : NvRep s es c;
  inv_ram : RamRep (orderly s) rs;
  inv_wf : Forall entry_wf es;
  inv_nodup : NoDup (map entry_handle es);
  inv_keys : map ram_key rs = map index_key (List.filter orderly_index es);
}.

(** ** Counting *)

Lemma fixed_land a m :
  Z.land NV_STATE_ATTRIBUTES m = 0 → Z.land (fixed_attributes a) m = Z.land a m.
Proof.
  intros Hm. unfold fixed_attributes. apply Z.bits_inj'. intros i Hi.
  apply (f_equal (λ z, Z.testbit z i)) in Hm. rewrite Z.land_spec, Z.bits_0 in Hm.
  rewrite !Z.land_spec, Z.ldiff_spec.
  destruct (Z.testbit m i); [|by rewrite !andb_false_r].
  rewrite andb_true_r in Hm. rewrite Hm. by rewrite !andb_true_r.
Qed.

(** Attributes that agree on the fixed part agree on every fixed attribute. *)
Lemma fixed_IS a b m :
  Z.land NV_STATE_ATTRIBUTES m = 0 → fixed_attributes a = fixed_attributes b →
  IS_ATTRIBUTE a m = IS_ATTRIBUTE b m.
Proof. intros Hm E. unfold IS_ATTRIBUTE. by rewrite <- (fixed_land a), E, fixed_land. Qed.

Lemma fixed_NT a b : fixed_attributes a = fixed_attributes b → GET_TPM_NT a = GET_TPM_NT b.
Proof. intros E. unfold GET_TPM_NT. by rewrite <- (fixed_land a), E, fixed_land. Qed.

Lemma pub_dataSize_range e : Forall is_byte e → 0 ≤ pub_dataSize e < 65536.
Proof.
  intros He. pose proof (le_val_bread e offsetof_dataSize 2 He) as Hb.
  change (256 ^ 2) with 65536 in Hb. apply Hb. lia.
Qed.

Lemma pub_attributes_range e : Forall is_byte e → 0 ≤ pub_attributes e < 4294967296.
Proof.
  intros He. pose proof (le_val_bread e offsetof_attributes 4 He) as Hb.
  change (256 ^ 4) with 4294967296 in Hb. apply Hb. lia.
Qed.

Lemma is_index_len e :
  entry_wf e → Forall is_byte e → is_index e = true → sizeof_NV_INDEX ≤ blen e.
Proof.
  intros [Hw] Hb E. rewrite E in Hw. pose proof (pub_dataSize_range e Hb).
  destruct (entry_orderly e); lia.
Qed.

(** The entity at a place of the list. *)
Lemma inv_entry s es1 e es2 rs c :
  NvInv s (es1 ++ e :: es2) rs c →
  entry_wf e ∧ 4 ≤ blen e ∧ Forall is_byte e ∧
  512 < nv_end es1 ∧ nv_end es1 + 4 + blen e + 12 ≤ NV_MEMORY_SIZE.
Proof.
  intros Hi. pose proof (inv_rep _ _ _ _ Hi) as Hr.
  pose proof (inv_wf _ _ _ _ Hi) as Hw. apply Forall_app in Hw as [_ Hw].
  apply Forall_cons_1 in Hw as [Hw _].
  pose proof (rep_entries _ _ _ Hr) as Hen. apply Forall_app in Hen as [_ Hen].
  apply Forall_cons_1 in Hen as [[H4 Hb] _].
  destruct (nv_end_not_init _ _ _ _ Hr) as (_ & Hlo & Hhi). rewrite nv_size_cons in Hhi.
  pose proof (nv_size_nonneg es2). split_and!; assumption || lia.
Qed.

(** Reading inside an entity. *)
Lemma NvRead_entry s es1 e es2 c o n :
  NvRep s (es1 ++ e :: es2) c → 0 ≤ o → 0 ≤ n → o + n ≤ blen e →
  NvRead (nv_end es1 + 4 + o) n s = Some (bread e o n, s).
Proof.
  intros Hr Ho Hn Hle. destruct (nv_end_not_init _ _ _ _ Hr) as (_ & Hlo & Hhi).
  rewrite nv_size_cons in Hhi. pose proof (nv_size_nonneg es2).
  rewrite NvRead_ok by (try apply (rep_len _ _ _ Hr); lia).
  rewrite <- (rep_payload _ _ _ _ _ Hr) at 1. rewrite bread_bread by lia. done.
Qed.

Lemma u32_nv x : 0 ≤ x ≤ NV_MEMORY_SIZE → u32 x = x.
Proof. intros. apply u32_small. unfold NV_MEMORY_SIZE in *. lia. Qed.

Lemma NvReadNvIndexAttributes_ok s es1 e es2 c :
  NvRep s (es1 ++ e :: es2) c → sizeof_NV_INDEX ≤ blen e →
  NvReadNvIndexAttributes (nv_end es1 + 4) s = Some (pub_attributes e, s).
Proof.
  intros Hr Hl. destruct (nv_end_not_init _ _ _ _ Hr) as (_ & Hlo & Hhi).
  rewrite nv_size_cons in Hhi. pose proof (nv_size_nonneg es2).
  unfold NvReadNvIndexAttributes, offsetof_attributes, sizeof_NV_INDEX in *.
  rewrite u32_nv by lia.
  erewrite bind_Some by (eapply NvRead_entry; [exact Hr | lia | lia | lia]). done.
Qed.

(** Counting with a 32-bit counter over a list that fits in NV memory. *)
Lemma fold_count (p : bytes → bool) l n :
  0 ≤ n → n + Z.of_nat (length l) ≤ NV_MEMORY_SIZE →
  fold_left (λ num e, if p e then u32 (num + 1) else num) l n =
    n + Z.of_nat (length (List.filter p l)).
Proof.
  revert n. induction l as [|e l IH]; intros n Hn Hl; cbn [fold_left List.filter length]; [lia|].
  cbn [length] in Hl. destruct (p e).
  - rewrite u32_nv by lia. rewrite IH by lia. cbn [length]. lia.
  - apply IH; lia.
Qed.

Lemma filter_length_le (p : bytes → bool) l : (length (List.filter p l) ≤ length l)%nat.
Proof. induction l as [|e l IH]; cbn; [done|]. destruct (p e); cbn; lia. Qed.

Lemma rep_count s es c : NvRep s es c → Z.of_nat (length es) < NV_MEMORY_SIZE.
Proof.
  intros Hr. pose proof (nv_size_length es (rep_entries _ _ _ Hr)).
  pose proof (nv_end_bounds _ _ _ Hr). lia.
Qed.

Definition count (p : bytes → bool) (es : list bytes) : Z :=
  Z.of_nat (length (List.filter p es)).

Lemma count_app p l1 l2 : count p (l1 ++ l2) = count p l1 + count p l2.
Proof. unfold count. rewrite List.filter_app, length_app. lia. Qed.

Lemma NvCapGetPersistentNumber_ok s es c :
  NvRep s es c → NvCapGetPersistentNumber s = Some (count is_persistent es, s).
Proof.
  intros Hr. unfold NvCapGetPersistentNumber, NvNextEvict.
  rewrite (nv_while_read TPM_HT_PERSISTENT _ (λ _, True) (λ num _, u32 (num + 1)) s es c);
    [|done|done|by apply Forall_true].
  do 2 f_equal. rewrite (fold_count (λ _, true) _ 0); [|lia|].
  - unfold count. fold is_persistent.
    assert (E : ∀ l : list bytes, List.filter (λ _, true) l = l)
      by (induction l as [|?? IHl]; cbn; congruence). by rewrite E.
  - pose proof (filter_length_le is_persistent es) as Hl.
    pose proof (rep_count _ _ _ Hr). unfold is_persistent in Hl. lia.
Qed.

Definition counter_index (e : bytes) : bool := is_index e && IsNvCounterIndex (pub_attributes e).

Lemma filter_filter (p q : bytes → bool) l :
  List.filter p (List.filter q l) = List.filter (λ e, q e && p e) l.
Proof.
  induction l as [|e l IH]; [done|]. cbn [List.filter].
  destruct (q e); cbn [List.filter andb]; [destruct (p e); by rewrite IH | done].
Qed.

Lemma NvCapGetCounterNumber_ok s es rs c :
  NvInv s es rs c → NvCapGetCounterNumber s = Some (count counter_index es, s).
Proof.
  intros Hi. pose proof (inv_rep _ _ _ _ Hi) as Hr.
  unfold NvCapGetCounterNumber, NvNextIndex.
  rewrite (nv_while_read TPM_HT_NV_INDEX _ (λ _, True)
    (λ num e, if IsNvCounterIndex (pub_attributes e) then u32 (num + 1) else num) s es c);
    [ | |done|by apply Forall_true].
  - do 2 f_equal. rewrite fold_count; [|lia|].
    + unfold count, counter_index. by rewrite filter_filter.
    + pose proof (filter_length_le is_index es) as Hl.
      pose proof (rep_count _ _ _ Hr). unfold is_index in Hl. lia.
  - intros es1 e es2 acc -> Ht _. destruct (inv_entry _ _ _ _ _ _ Hi) as (Hw & _ & Hb & _).
    rewrite (bind_Some _ _ _ _ _ (NvReadNvIndexAttributes_ok _ _ _ _ _ Hr
      (is_index_len _ Hw Hb Ht))). done.
Qed.

(** ** The space test keeps room for the promised minimum *)

(** Octets promised to persistent objects and counters not yet there. *)
Definition evict_reserve (es : list bytes) : Z :=
  Z.max 0 (MIN_EVICT_OBJECTS - count is_persistent es) * NV_EVICT_OBJECT_SIZE.
Definition counter_reserve (es : list bytes) : Z :=
  Z.max 0 (MIN_COUNTER_INDICES - count counter_index es) * NV_INDEX_COUNTER_SIZE.

Lemma count_nonneg p es : 0 ≤ count p es.
Proof. unfold count. lia. Qed.

Lemma evict_reserve_range es : 0 ≤ evict_reserve es < 7 * (NV_MEMORY_SIZE + 8).
Proof.
  unfold evict_reserve, NV_EVICT_OBJECT_SIZE, MIN_EVICT_OBJECTS.
  pose proof (count_nonneg is_persistent es). pose proof layout_object.
  pose proof layout_evictHandle. nia.
Qed.

Lemma counter_reserve_range es : 0 ≤ counter_reserve es ≤ 1280.
Proof.
  unfold counter_reserve, NV_INDEX_COUNTER_SIZE, MIN_COUNTER_INDICES, sizeof_NV_INDEX.
  pose proof (count_nonneg counter_index es). lia.
Qed.

Lemma NvTestSpace_ok s es rs c size isIndex isCounter :
  NvInv s es rs c → 0 ≤ size < 65536 →
  NvTestSpace size isIndex isCounter s =
    Some (size + 16 + (if isIndex then evict_reserve es else 0)
               + (if isIndex && isCounter then 0 else counter_reserve es)
             <=? NV_MEMORY_SIZE - nv_end es, s)
  ∨ NvTestSpace size isIndex isCounter s = Some (false, s) ∧
    NV_MEMORY_SIZE - nv_end es ≤ 16 + (if isIndex then evict_reserve es else 0)
               + (if isIndex && isCounter then 0 else counter_reserve es).
Proof.
  intros Hi Hs. pose proof (inv_rep _ _ _ _ Hi) as Hr. pose proof (nv_end_bounds _ _ _ Hr).
  pose proof (evict_reserve_range es) as He. pose proof (counter_reserve_range es) as Hc.
  unfold NvTestSpace. rewrite (bind_Some _ _ _ _ _ (NvGetFreeBytes_ok _ _ _ Hr)).
  set (r1 := 16 + (if isIndex then evict_reserve es else 0)).
  assert (Hr1 : 16 ≤ r1 < 16 + 7 * (NV_MEMORY_SIZE + 8)) by (unfold r1; destruct isIndex; lia).
  rewrite (bind_Some _ _ s r1 s); cycle 1.
  { unfold r1. destruct isIndex; [|done].
    rewrite (bind_Some _ _ _ _ _ (NvCapGetPersistentNumber_ok _ _ _ Hr)).
    unfold ret. do 2 f_equal. unfold evict_reserve in *.
    unfold sizeof_UINT32, sizeof_NV_LIST_TERMINATOR.
    destruct (Z.ltb_spec (count is_persistent es) MIN_EVICT_OBJECTS).
    - rewrite Z.max_r in * by lia. apply u32_small. unfold NV_MEMORY_SIZE in *. lia.
    - rewrite Z.max_l by lia. lia. }
  set (r2 := r1 + (if isIndex && isCounter then 0 else counter_reserve es)).
  rewrite (bind_Some _ _ s r2 s); cycle 1.
  { unfold r2. replace (negb isIndex || negb isCounter) with (negb (isIndex && isCounter))
      by (by destruct isIndex, isCounter).
    destruct (isIndex && isCounter); cbn [negb]; [unfold ret; do 2 f_equal; lia|].
    rewrite (bind_Some _ _ _ _ _ (NvCapGetCounterNumber_ok _ _ _ _ Hi)).
    unfold ret. do 2 f_equal. unfold counter_reserve in *.
    destruct (Z.ltb_spec (count counter_index es) MIN_COUNTER_INDICES).
    - rewrite Z.max_r in * by lia. apply u32_small. unfold NV_MEMORY_SIZE in *. lia.
    - rewrite Z.max_l by lia. lia. }
  assert (Hr2 : r1 ≤ r2 ≤ r1 + 1280) by (unfold r2; destruct (isIndex && isCounter); lia).
  unfold ret. rewrite u32_small by (unfold NV_MEMORY_SIZE in *; lia).
  destruct (Z.ltb_spec r2 (NV_MEMORY_SIZE - nv_end es)); cbn [andb].
  - left. do 2 f_equal. unfold r2, r1 in *.
    apply Bool.eq_iff_eq_true. zbool. lia.
  - right. split; [done|]. lia.
Qed.

(** ** Finding an entity and its RAM data *)

Lemma nodup_before es1 e es2 :
  NoDup (map entry_handle (es1 ++ e :: es2)) →
  Forall (λ e', entry_handle e' ≠ entry_handle e) es1 ∧
  Forall (λ e', entry_handle e' ≠ entry_handle e) es2.
Proof.
  rewrite map_app. cbn [map]. intros (_ & H1 & H2)%list.NoDup_app.
  apply list.NoDup_cons in H2 as [H2 _].
  split; apply list.Forall_forall; intros x Hx E.
  - apply (H1 (entry_handle x)); [by apply elem_map|]. rewrite E. by left.
  - apply H2. rewrite <- E. by apply elem_map.
Qed.

Lemma NvFindHandle_inv s es1 e es2 rs c :
  NvInv s (es1 ++ e :: es2) rs c →
  NvFindHandle (entry_handle e) s = Some (nv_end es1 + 4, s).
Proof.
  intros Hi. eapply NvFindHandle_some; [apply (inv_rep _ _ _ _ Hi)|].
  apply (nodup_before es1 e es2). apply (inv_nodup _ _ _ _ Hi).
Qed.

(** The RAM element of an orderly index. *)
Lemma inv_ram_split s es1 e es2 rs c :
  NvInv s (es1 ++ e :: es2) rs c → orderly_index e = true →
  ∃ rs1 r rs2, rs = rs1 ++ r :: rs2 ∧ entry_handle r = entry_handle e ∧
    blen r = 8 + pub_dataSize e ∧
    fixed_attributes (ram_attributes r) = fixed_attributes (pub_attributes e) ∧
    Forall (λ r', entry_handle r' ≠ entry_handle e) rs1 ∧
    map ram_key rs1 = map index_key (List.filter orderly_index es1) ∧
    map ram_key rs2 = map index_key (List.filter orderly_index es2).
Proof.
  intros Hi Ho. pose proof (inv_keys _ _ _ _ Hi) as Hk.
  rewrite List.filter_app in Hk. cbn [List.filter] in Hk. rewrite Ho, map_app in Hk.
  cbn [map] in Hk. apply map_eq_app in Hk as (rs1 & rs' & -> & K1 & K2).
  apply map_eq_cons in K2 as (r & rs2 & -> & Kr & K2).
  injection Kr as Kh Kl Ka. exists rs1, r, rs2. split_and!; try done; [lia|].
  pose proof (inv_nodup _ _ _ _ Hi) as Hn. apply nodup_before in Hn as [Hn _].
  apply list.Forall_forall. intros x Hx E.
  assert (Hin : ram_key x ∈ map ram_key rs1) by (by apply elem_map).
  rewrite K1 in Hin. apply elem_map_inv in Hin as (e' & [= E1 _ _] & He').
  apply elem_filter in He' as [He' _].
  rewrite list.Forall_forall in Hn. apply (Hn e' He'). congruence.
Qed.

(** A read of the payload of a RAM element. *)
Lemma ram_read_elem s rs1 r rs2 o n :
  RamRep (orderly s) (rs1 ++ r :: rs2) → 0 ≤ o → 0 ≤ n → o + n ≤ blen r →
  ram_read (nv_size rs1 + 4 + o) n s = Some (bread r o n, s).
Proof.
  intros Hr Ho Hn Hle. destruct (ram_elem _ _ _ _ Hr) as (He & Hf & H8).
  pose proof (nv_size_nonneg rs1). pose proof (nv_size_nonneg rs2).
  rewrite ram_read_ok by (rewrite ?(ram_len _ _ Hr); lia). do 2 f_equal.
  replace (nv_size rs1 + 4 + o) with (nv_size rs1 + (4 + o)) by lia.
  rewrite <- (bread_bread _ _ (4 + blen r)) by lia. rewrite He. unfold nv_encode1.
  rewrite bread_app_r by (rewrite blen_le_bytes; lia). rewrite blen_le_bytes.
  f_equal. lia.
Qed.

Lemma NvReadRamIndexAttributes_ok s rs1 r rs2 :
  RamRep (orderly s) (rs1 ++ r :: rs2) →
  NvReadRamIndexAttributes (Some (nv_size rs1)) s = Some (ram_attributes r, s).
Proof.
  intros Hr. destruct (ram_elem _ _ _ _ Hr) as (_ & _ & H8).
  unfold NvReadRamIndexAttributes, ram_offsetof_attributes.
  replace (nv_size rs1 + 8) with (nv_size rs1 + 4 + 4) by lia.
  erewrite bind_Some by (eapply ram_read_elem; [exact Hr|lia..]). done.
Qed.

(** ** The index cache *)

Lemma pub_of_view e : sizeof_NV_INDEX ≤ blen e →
  pub_nvIndex (bread e 0 148) = entry_handle e ∧
  pub_attributes (bread e 0 148) = pub_attributes e ∧
  pub_dataSize (bread e 0 148) = pub_dataSize e.
Proof.
  intros. unfold pub_nvIndex, pub_attributes, pub_dataSize, entry_handle,
    offsetof_attributes, offsetof_dataSize, sizeof_NV_INDEX in *.
  rewrite !bread_bread by lia. done.
Qed.

Lemma NvReadNvIndexInfo_ok s es1 e es2 c :
  NvRep s (es1 ++ e :: es2) c → sizeof_NV_INDEX ≤ blen e →
  NvReadNvIndexInfo (nv_end es1 + 4) s = Some (bread e 0 148, s).
Proof.
  intros Hr Hl. unfold NvReadNvIndexInfo, sizeof_NV_INDEX in *.
  rewrite <- (Z.add_0_r (nv_end es1 + 4)). eapply NvRead_entry; [exact Hr|lia..].
Qed.

(** What [NvGetIndexInfo] leaves in the cache: for an orderly index the
    attributes are those in RAM. *)
Definition index_view (e : bytes) (r : option bytes) : bytes :=
  match r with
  | None => bread e 0 148
  | Some r => set_pub_attributes (ram_attributes r) (bread e 0 148)
  end.

Lemma NvGetIndexInfo_normal s es1 e es2 rs c :
  NvInv s (es1 ++ e :: es2) rs c → is_index e = true → entry_orderly e = false →
  pub_nvIndex (s_cachedNvIndex s) ≠ entry_handle e →
  NvGetIndexInfo (entry_handle e) s =
    Some (Some (nv_end es1 + 4), set_cache (index_view e None) (nv_end es1 + 4) None s).
Proof.
  intros Hi Hx Ho Hc. destruct (inv_entry _ _ _ _ _ _ Hi) as (Hw & H4 & Hb & Hlo & Hhi).
  pose proof (is_index_len _ Hw Hb Hx) as Hl. pose proof (inv_rep _ _ _ _ Hi) as Hr.
  unfold NvGetIndexInfo. unfold bind at 1, gets. rewrite (proj2 (Z.eqb_neq _ _)) by done.
  rewrite (bind_Some _ _ _ _ _ (NvFindHandle_inv _ _ _ _ _ _ Hi)).
  unfold bind at 1, modify. rewrite (proj2 (Z.eqb_neq (nv_end es1 + 4) 0)) by lia.
  assert (Hr' : ∀ a b d, NvRep (set_cache a b d s) (es1 ++ e :: es2) c)
    by (intros; destruct Hr; constructor; done).
  rewrite (bind_Some _ _ _ _ _ (NvReadNvIndexInfo_ok _ _ _ _ _ (Hr' _ _ _) Hl)).
  destruct (pub_of_view e Hl) as (_ & Ea & _). rewrite Ea.
  unfold entry_orderly in Ho. unfold bind, modify. rewrite Ho. done.
Qed.

Lemma set_cache_twice a b d a' b' d' s :
  set_cache a b d (set_cache a' b' d' s) = set_cache a b d s.
Proof. done. Qed.

Lemma NvGetIndexInfo_orderly s es1 e es2 rs1 r rs2 c :
  NvInv s (es1 ++ e :: es2) (rs1 ++ r :: rs2) c → orderly_index e = true →
  entry_handle r = entry_handle e → Forall (λ r', entry_handle r' ≠ entry_handle e) rs1 →
  pub_nvIndex (s_cachedNvIndex s) ≠ entry_handle e →
  NvGetIndexInfo (entry_handle e) s =
    Some (Some (nv_end es1 + 4),
          set_cache (index_view e (Some r)) (nv_end es1 + 4) (Some (nv_size rs1)) s).
Proof.
  intros Hi Hx Eh Hn Hc. apply andb_true_iff in Hx as [Hx Ho].
  destruct (inv_entry _ _ _ _ _ _ Hi) as (Hw & H4 & Hb & Hlo & Hhi).
  pose proof (is_index_len _ Hw Hb Hx) as Hl. pose proof (inv_rep _ _ _ _ Hi) as Hr.
  pose proof (inv_ram _ _ _ _ Hi) as Hrr.
  unfold NvGetIndexInfo. unfold bind at 1, gets. rewrite (proj2 (Z.eqb_neq _ _)) by done.
  rewrite (bind_Some _ _ _ _ _ (NvFindHandle_inv _ _ _ _ _ _ Hi)).
  unfold bind at 1, modify. rewrite (proj2 (Z.eqb_neq (nv_end es1 + 4) 0)) by lia.
  assert (Hr' : ∀ a b d, NvRep (set_cache a b d s) (es1 ++ e :: es2) c)
    by (intros; destruct Hr; constructor; done).
  rewrite (bind_Some _ _ _ _ _ (NvReadNvIndexInfo_ok _ _ _ _ _ (Hr' _ _ _) Hl)).
  destruct (pub_of_view e Hl) as (_ & Ea & _). rewrite Ea.
  unfold entry_orderly in Ho. unfold bind at 1, modify. rewrite Ho.
  rewrite <- Eh in *. rewrite set_cache_twice. erewrite bind_Some; cycle 1.
  { rewrite (bind_Some _ _ _ _ _
      (NvRamGetIndex_some (set_cache _ _ _ _) _ rs1 r rs2 Hrr Hn eq_refl)).
    unfold bind at 1. rewrite set_cache_twice.
    rewrite (bind_Some _ _ _ _ _ (NvReadRamIndexAttributes_ok (set_cache _ _ _ _) rs1 r rs2 Hrr)).
    reflexivity. }
  done.
Qed.

(** A handle that is not defined is not found, and the cache stays empty. *)
Lemma NvGetIndexInfo_undefined s es rs c h :
  NvInv s es rs c → h ∉ map entry_handle es → pub_nvIndex (s_cachedNvIndex s) ≠ h →
  ∃ s', NvGetIndexInfo h s = Some (None, s') ∧ NvInv s' es rs c.
Proof.
  intros Hi Hh Hc. unfold NvGetIndexInfo. unfold bind at 1, gets.
  rewrite (proj2 (Z.eqb_neq _ _)) by done.
  rewrite (bind_Some _ _ _ _ _ (NvFindHandle_none _ _ _ h (inv_rep _ _ _ _ Hi)
    ltac:(apply list.Forall_forall; intros x Hx <-; apply Hh; by apply elem_map))).
  unfold bind, modify. eexists. split; [done|].
  destruct Hi as [[] [] ???]. constructor; [constructor|constructor|..]; done.
Qed.

(** ** Updating an entity in place *)

Lemma inv_update s s' es1 e e' es2 rs c :
  NvInv s (es1 ++ e :: es2) rs c → NvRep s' (es1 ++ e' :: es2) c →
  s_indexOrderlyRam s' = s_indexOrderlyRam s →
  blen e' = blen e → entry_handle e' = entry_handle e → pub_dataSize e' = pub_dataSize e →
  fixed_attributes (pub_attributes e') = fixed_attributes (pub_attributes e) →
  NvInv s' (es1 ++ e' :: es2) rs c.
Proof.
  intros Hi Hr Hm El Eh Ed Ef.
  assert (Eo : entry_orderly e' = entry_orderly e) by (by apply fixed_IS). pose proof (inv_wf _ _ _ _ Hi) as Hw.
  assert (Ei : is_index e' = is_index e) by (unfold is_index, is_type; by rewrite Eh).
  assert (Ep : is_persistent e' = is_persistent e)
    by (unfold is_persistent, is_type; by rewrite Eh).
  constructor; [done|rewrite Hm; apply (inv_ram _ _ _ _ Hi)|..].
  - apply Forall_app in Hw as [W1 W2]. apply Forall_cons_1 in W2 as [We W2].
    apply Forall_app. split; [done|]. constructor; [|done].
    destruct We as [We]. constructor. by rewrite Ei, Ep, Eo, El, Ed.
  - pose proof (inv_nodup _ _ _ _ Hi) as Hn. rewrite map_app in *. cbn [map] in *. by rewrite Eh.
  - rewrite (inv_keys _ _ _ _ Hi), !List.filter_app. cbn [List.filter].
    unfold orderly_index. rewrite Ei, Eo. destruct (is_index e && entry_orderly e); [|done].
    rewrite !map_app. cbn [map]. unfold index_key. by rewrite Eh, Ed, Ef.
Qed.

Lemma land_lor_other a b m : Z.land b m = 0 → Z.land (Z.lor a b) m = Z.land a m.
Proof. intros Hz. by rewrite Z.land_lor_distr_l, Hz, Z.lor_0_r. Qed.

Lemma SET_written_orderly a :
  IS_ATTRIBUTE (SET_ATTRIBUTE a TPMA_NV_WRITTEN) TPMA_NV_ORDERLY = IS_ATTRIBUTE a TPMA_NV_ORDERLY.
Proof. unfold IS_ATTRIBUTE, SET_ATTRIBUTE. by rewrite land_lor_other. Qed.

Lemma fixed_SET a b :
  Z.ldiff b NV_STATE_ATTRIBUTES = 0 → fixed_attributes (SET_ATTRIBUTE a b) = fixed_attributes a.
Proof.
  intros Hb. unfold fixed_attributes, SET_ATTRIBUTE.
  rewrite !Z.ldiff_land, Z.land_lor_distr_l, <- (Z.ldiff_land b), Hb. apply Z.lor_0_r.
Qed.

Lemma fixed_CLEAR a b :
  Z.ldiff b NV_STATE_ATTRIBUTES = 0 → fixed_attributes (CLEAR_ATTRIBUTE a b) = fixed_attributes a.
Proof.
  intros Hb. unfold fixed_attributes, CLEAR_ATTRIBUTE. apply Z.bits_inj'. intros i Hi.
  apply (f_equal (λ z, Z.testbit z i)) in Hb. rewrite Z.ldiff_spec, Z.bits_0 in Hb.
  rewrite !Z.ldiff_spec. destruct (Z.testbit b i); [|by rewrite andb_true_r].
  cbn [andb] in Hb. by rewrite Hb, !andb_false_r.
Qed.

Lemma SET_written_fixed a :
  fixed_attributes (SET_ATTRIBUTE a TPMA_NV_WRITTEN) = fixed_attributes a.
Proof. by apply fixed_SET. Qed.

Lemma SET_written_written a :
  IS_ATTRIBUTE (SET_ATTRIBUTE a TPMA_NV_WRITTEN) TPMA_NV_WRITTEN = true.
Proof.
  unfold IS_ATTRIBUTE, SET_ATTRIBUTE. rewrite Z.land_lor_distr_l, Z.land_diag.
  apply negb_true_iff, Z.eqb_neq. intros E. apply Z.lor_eq_0_iff in E as [_ E]. done.
Qed.

Lemma SET_written_NT a : GET_TPM_NT (SET_ATTRIBUTE a TPMA_NV_WRITTEN) = GET_TPM_NT a.
Proof. unfold GET_TPM_NT, SET_ATTRIBUTE. by rewrite land_lor_other. Qed.

Lemma lor_u32_range a b : 0 ≤ a < 4294967296 → 0 ≤ b < 4294967296 → 0 ≤ Z.lor a b < 4294967296.
Proof.
  intros Ha Hb. rewrite <- (u32_small a), <- (u32_small b) by done.
  rewrite <- wrap_lor by lia. apply (wrap_range 32). lia.
Qed.

Lemma SET_written_range a :
  0 ≤ a < 4294967296 → 0 ≤ SET_ATTRIBUTE a TPMA_NV_WRITTEN < 4294967296.
Proof. intros. apply lor_u32_range; [done|]. change TPMA_NV_WRITTEN with 536870912. lia. Qed.

Lemma SET_written_same a :
  IS_ATTRIBUTE a TPMA_NV_WRITTEN = true → SET_ATTRIBUTE a TPMA_NV_WRITTEN = a.
Proof.
  unfold IS_ATTRIBUTE, SET_ATTRIBUTE, TPMA_NV_WRITTEN. rewrite land_bit by lia. intros Hb.
  apply Z.bits_inj'. intros i Hi. rewrite Z.lor_spec, testbit_shiftl_1 by lia.
  destruct (Z.eqb_spec i 29) as [->|]; [by rewrite Hb | apply orb_false_r].
Qed.

(** Fields of the public area after a write at another offset. *)
Lemma pub_set_attributes e a :
  sizeof_NV_INDEX ≤ blen e → 0 ≤ a < 4294967296 →
  let e' := set_pub_attributes a e in
  blen e' = blen e ∧ entry_handle e' = entry_handle e ∧ pub_dataSize e' = pub_dataSize e ∧
  pub_attributes e' = a ∧ bread e' 0 148 = set_pub_attributes a (bread e 0 148).
Proof.
  intros Hl Ha. unfold sizeof_NV_INDEX in Hl.
  unfold set_pub_attributes, entry_handle, pub_dataSize, pub_attributes,
    offsetof_attributes, offsetof_dataSize. cbv zeta.
  rewrite blen_bwrite, bread_bwrite_before, bread_bwrite_after, bread_bwrite_same
    by (rewrite ?blen_le_bytes; lia).
  rewrite le_val_bytes by done. split_and!; try done.
  apply (bread_bwrite_cover e 0 148 8); rewrite ?blen_le_bytes; lia.
Qed.

Lemma pub_set_data e o d :
  148 ≤ o → o + blen d ≤ blen e →
  let e' := bwrite e o d in
  blen e' = blen e ∧ entry_handle e' = entry_handle e ∧ pub_dataSize e' = pub_dataSize e ∧
  pub_attributes e' = pub_attributes e ∧ bread e' 0 148 = bread e 0 148.
Proof.
  intros Ho Hl. pose proof (blen_nonneg d).
  unfold entry_handle, pub_dataSize, pub_attributes,
    offsetof_attributes, offsetof_dataSize. cbv zeta.
  rewrite blen_bwrite by lia. rewrite !bread_bwrite_before by lia. done.
Qed.

(** Conditional write inside an entity. *)
Lemma NvConditionallyWrite_entry s es1 e es2 rs c o d n :
  NvInv s (es1 ++ e :: es2) rs c → g_NvStatus s = TPM_RC_SUCCESS →
  0 ≤ o → n = blen d → o + n ≤ blen e → Forall is_byte d →
  ∃ s', NvConditionallyWrite (u32 (nv_end es1 + 4 + o)) n d s = Some (TPM_RC_SUCCESS, s') ∧
    NvRep s' (es1 ++ bwrite e o d :: es2) c ∧ nv_only s s'.
Proof.
  intros Hi Hst Ho -> Hle Hb. pose proof (inv_rep _ _ _ _ Hi) as Hr. pose proof (blen_nonneg d).
  destruct (inv_entry _ _ _ _ _ _ Hi) as (_ & _ & _ & Hlo & Hhi).
  rewrite u32_nv by lia.
  destruct (NvConditionallyWrite_ok s (nv_end es1 + 4 + o) d (blen d)) as (s' & Hs & Hm & Hf);
    [apply (rep_len _ _ _ Hr)|done|lia|done|lia|].
  exists s'. split; [done|]. split; [|done].
  apply nv_only_frame in Hf as (Hf & _). by eapply rep_update.
Qed.

(** ** Writing the data of an index in NV memory *)

Lemma inv_cache s es rs c a b d : NvInv s es rs c → NvInv (set_cache a b d s) es rs c.
Proof. intros [[] [] ???]. constructor; [constructor|constructor|..]; done. Qed.

Lemma inv_nv_only s s' es rs es' c :
  NvInv s es rs c → nv_only s s' → NvRep s' es' c → RamRep (orderly s') rs.
Proof. intros Hi Hf Hr. apply nv_only_frame in Hf as (_ & -> & _). apply (inv_ram _ _ _ _ Hi). Qed.

(** The entity after the first part of [NvWriteIndexData]: WRITTEN is set, and
    before a first partial write of an ordinary index its data is erased. *)
Definition mark_written (e : bytes) (size : Z) : bytes :=
  if IS_ATTRIBUTE (pub_attributes e) TPMA_NV_WRITTEN then e
  else
    let e1 := set_pub_attributes (SET_ATTRIBUTE (pub_attributes e) TPMA_NV_WRITTEN) e in
    if IsNvOrdinaryIndex (pub_attributes e) && (size <? pub_dataSize e)
    then bwrite e1 148 (bfill 0xff (pub_dataSize e)) else e1.

Lemma mark_written_fields e size :
  Forall is_byte e → blen e = sizeof_NV_INDEX + pub_dataSize e →
  let e' := mark_written e size in
  blen e' = blen e ∧ entry_handle e' = entry_handle e ∧ pub_dataSize e' = pub_dataSize e ∧
  pub_attributes e' = SET_ATTRIBUTE (pub_attributes e) TPMA_NV_WRITTEN ∧
  bread e' 0 148 = set_pub_attributes (SET_ATTRIBUTE (pub_attributes e) TPMA_NV_WRITTEN) (bread e 0 148).
Proof.
  intros Hb Hl. pose proof (pub_dataSize_range e Hb). unfold sizeof_NV_INDEX in Hl.
  pose proof (SET_written_range _ (pub_attributes_range e Hb)) as Hw.
  unfold mark_written. destruct (IS_ATTRIBUTE (pub_attributes e) TPMA_NV_WRITTEN) eqn:Ew.
  - rewrite (SET_written_same _ Ew). split_and!; try done.
    unfold set_pub_attributes. symmetry. apply bwrite_same; unfold offsetof_attributes;
      rewrite ?blen_le_bytes; [lia|rewrite blen_bread; lia|].
    rewrite bread_bread by lia. unfold pub_attributes, offsetof_attributes.
    change (Z.of_nat 4) with 4. change (0 + 8) with 8.
    replace 4%nat with (length (bread e 8 4)) at 1.
    + symmetry. apply le_bytes_val. by apply bread_byte.
    + apply Nat2Z.inj. fold (blen (bread e 8 4)). rewrite blen_bread; lia.
  - destruct (pub_set_attributes e _ ltac:(unfold sizeof_NV_INDEX; lia) Hw)
      as (P1 & P2 & P3 & P4 & P5).
    destruct (IsNvOrdinaryIndex _ && _); [|done].
    set (e1 := set_pub_attributes _ e) in *.
    destruct (pub_set_data e1 148 (bfill 0xff (pub_dataSize e))) as (Q1 & Q2 & Q3 & Q4 & Q5);
      [lia|rewrite blen_bfill; lia|]. cbv zeta.
    rewrite Q1, Q2, Q3, Q4, Q5. done.
Qed.

(** The first part of [NvWriteIndexData] on an index in NV memory. *)
Lemma mark_index_written_normal s es1 e es2 rs c ram size :
  NvInv s (es1 ++ e :: es2) rs c → is_index e = true → entry_orderly e = false →
  s_cachedNvIndex s = bread e 0 148 → s_cachedNvRef s = nv_end es1 + 4 →
  g_NvStatus s = TPM_RC_SUCCESS →
  let e' := mark_written e size in
  ∃ s', mark_index_written (bread e 0 148) (nv_end es1 + 4) ram size s =
      Some (TPM_RC_SUCCESS, s') ∧
    NvInv s' (es1 ++ e' :: es2) rs c ∧ s_cachedNvIndex s' = bread e' 0 148 ∧
    s_cachedNvRef s' = nv_end es1 + 4 ∧ g_NvStatus s' = TPM_RC_SUCCESS ∧
    g_inFailureMode s' = g_inFailureMode s ∧ s_maxCounter s' = s_maxCounter s.
Proof.
  intros Hi Hx Ho Hc Hcr Hst. cbv zeta.
  destruct (inv_entry _ _ _ _ _ _ Hi) as (Hw & H4 & Hb & Hlo & Hhi).
  pose proof (pub_dataSize_range e Hb) as Hds.
  assert (Hl : blen e = 148 + pub_dataSize e)
    by (destruct Hw as [Hw']; rewrite Hx, Ho in Hw'; exact Hw').
  destruct (pub_of_view e ltac:(unfold sizeof_NV_INDEX; lia)) as (_ & Va & Vd).
  pose proof (mark_written_fields e size Hb Hl) as (M1 & M2 & M3 & M4 & M5).
  assert (Hor : fixed_attributes (pub_attributes (mark_written e size))
                = fixed_attributes (pub_attributes e))
    by (by rewrite M4, SET_written_fixed).
  unfold mark_index_written. rewrite Va, Vd.
  destruct (IS_ATTRIBUTE (pub_attributes e) TPMA_NV_WRITTEN) eqn:Ew.
  { unfold mark_written. rewrite Ew. exists s. split_and!; assumption || reflexivity. }
  unfold bind at 1, modify. rewrite SET_written_orderly.
  pose proof Ho as Ho'. unfold entry_orderly in Ho'. rewrite Ho'. cbn [negb].
  set (w := SET_ATTRIBUTE _ _) in *. set (s0 := set_cache _ _ _ s).
  assert (Hw32 : 0 ≤ w < 4294967296)
    by (apply SET_written_range, pub_attributes_range; done).
  assert (Hi0 : NvInv s0 (es1 ++ e :: es2) rs c) by (by apply inv_cache).
  destruct (NvConditionallyWrite_entry s0 es1 e es2 rs c 8 (le_bytes 4 w) 4)
    as (s1 & Hs1 & Hr1 & Hf1); [done|done|lia|by rewrite blen_le_bytes|lia|apply le_bytes_byte|].
  unfold NvWriteNvIndexAttributes, offsetof_attributes.
  rewrite (bind_Some _ _ _ _ _ Hs1).
  change (negb (TPM_RC_SUCCESS =? TPM_RC_SUCCESS)) with false. cbv iota.
  destruct (nv_only_frame _ _ Hf1) as (F1 & F2 & F3 & F4 & F5 & F6 & F7 & _).
  unfold IsNvOrdinaryIndex. unfold w at 1. rewrite SET_written_NT.
  fold (IsNvOrdinaryIndex (pub_attributes e)).
  unfold mark_written in *. rewrite Ew in *. cbv zeta in *.
  destruct (IsNvOrdinaryIndex (pub_attributes e) && (size <? pub_dataSize e)).
  - pose proof (rep_len _ _ _ Hr1) as Hl1. unfold bind, on_plat, sizeof_NV_INDEX.
    rewrite u32_nv by lia. rewrite plat_clear_ok; [|exact Hl1|lia|lia|lia].
    unfold ret. eexists. split; [done|].
    assert (L1 : ∀ v, blen (set_pub_attributes v e) = blen e)
      by (intros; apply blen_bwrite; rewrite ?blen_le_bytes; unfold offsetof_attributes; lia).
    split; [|split_and!; [rewrite M5; exact F6 | exact F7 | exact (eq_trans F4 Hst) | exact F5 | exact F3]].
    eapply (inv_update s); [exact Hi| |exact F2|assumption..].
    eapply rep_update; [exact Hr1|lia| | |reflexivity|reflexivity].
    + rewrite blen_bfill, L1 by lia. lia.
    + apply Forall_replicate. unfold is_byte. lia.
  - unfold bind, ret. exists s1. split; [done|].
    split; [|split_and!; [rewrite M5; exact F6 | exact F7 | exact (eq_trans F4 Hst) | exact F5 | exact F3]].
    eapply (inv_update s); [exact Hi|exact Hr1|exact F2|assumption..].
Qed.

Lemma NvWriteIndexData_normal s es1 e es2 rs c offset data :
  NvInv s (es1 ++ e :: es2) rs c → is_index e = true → entry_orderly e = false →
  s_cachedNvIndex s = bread e 0 148 → s_cachedNvRef s = nv_end es1 + 4 →
  g_NvStatus s = TPM_RC_SUCCESS →
  0 ≤ offset → offset + blen data ≤ pub_dataSize e → Forall is_byte data →
  let e' := bwrite (mark_written e (blen data)) (148 + offset) data in
  ∃ s', NvWriteIndexData offset (blen data) data s = Some (TPM_RC_SUCCESS, s') ∧
    NvInv s' (es1 ++ e' :: es2) rs c ∧ s_cachedNvIndex s' = bread e' 0 148 ∧
    s_cachedNvRef s' = nv_end es1 + 4 ∧ g_NvStatus s' = TPM_RC_SUCCESS ∧
    g_inFailureMode s' = g_inFailureMode s ∧ s_maxCounter s' = s_maxCounter s.
Proof.
  intros Hi Hx Ho Hc Hcr Hst Hof Hle Hbd. cbv zeta.
  destruct (inv_entry _ _ _ _ _ _ Hi) as (Hw & H4 & Hb & Hlo & Hhi).
  pose proof (pub_dataSize_range e Hb) as Hds. pose proof (blen_nonneg data).
  assert (Hl : blen e = 148 + pub_dataSize e)
    by (destruct Hw as [Hw']; rewrite Hx, Ho in Hw'; exact Hw').
  destruct (pub_of_view e ltac:(unfold sizeof_NV_INDEX; lia)) as (_ & Va & Vd).
  destruct (mark_written_fields e (blen data) Hb Hl) as (M1 & M2 & M3 & M4 & M5).
  destruct (mark_index_written_normal s es1 e es2 rs c (s_cachedNvRamRef s) (blen data))
    as (s1 & Hs1 & Hi1 & C1 & C2 & C3 & C4 & C5); [done..|].
  set (e1 := mark_written e (blen data)) in *.
  unfold NvWriteIndexData. unfold bind at 1 2 3, gets. rewrite Hc, Hcr, Va, Vd.
  erewrite bind_Some by (apply pAssert_true; zbool; rewrite u32_small; lia).
  rewrite (bind_Some _ _ _ _ _ Hs1).
  change (negb (TPM_RC_SUCCESS =? TPM_RC_SUCCESS)) with false. cbv iota.
  unfold entry_orderly in Ho. rewrite Ho. unfold sizeof_NV_INDEX.
  replace (nv_end es1 + 4 + 148 + offset) with (nv_end es1 + 4 + (148 + offset)) by lia.
  destruct (NvConditionallyWrite_entry s1 es1 e1 es2 rs c (148 + offset) data (blen data))
    as (s2 & Hs2 & Hr2 & Hf2); [done|done|lia|done|lia|done|].
  exists s2. split; [done|].
  destruct (nv_only_frame _ _ Hf2) as (F1 & F2 & F3 & F4 & F5 & F6 & F7 & _).
  destruct (pub_set_data e1 (148 + offset) data) as (Q1 & Q2 & Q3 & Q4 & Q5); [lia|lia|].
  split; [|split_and!; congruence].
  eapply (inv_update s1); [exact Hi1|exact Hr2|exact F2|assumption..|].
  by rewrite Q4.
Qed.

(** ** Writing the data of an orderly index *)

Lemma bwrite_bwrite_same m o d d' :
  0 ≤ o → blen d = blen d' → o + blen d ≤ blen m → bwrite (bwrite m o d') o d = bwrite m o d.
Proof.
  unfold bwrite, blen. intros Ho El Hl.
  rewrite take_app_le by (rewrite length_take; lia). rewrite take_take, Nat.min_id.
  rewrite drop_app_ge by (rewrite length_take; lia). rewrite length_take.
  rewrite drop_app_ge by lia. rewrite drop_drop. do 3 f_equal. lia.
Qed.

Lemma view_fields e a :
  sizeof_NV_INDEX ≤ blen e → 0 ≤ a < 4294967296 →
  let v := set_pub_attributes a (bread e 0 148) in
  pub_nvIndex v = entry_handle e ∧ pub_attributes v = a ∧ pub_dataSize v = pub_dataSize e.
Proof.
  intros Hl Ha. destruct (pub_of_view e Hl) as (V1 & V2 & V3).
  destruct (pub_set_attributes (bread e 0 148) a) as (_ & P2 & P3 & P4 & _);
    [rewrite blen_bread; unfold sizeof_NV_INDEX in *; lia|done|].
  cbv zeta. rewrite P3, P4, V3. split_and!; try done. by rewrite <- V1.
Qed.

Lemma set_view_attributes e a b :
  sizeof_NV_INDEX ≤ blen e →
  set_pub_attributes a (set_pub_attributes b (bread e 0 148)) = set_pub_attributes a (bread e 0 148).
Proof.
  intros Hl. unfold set_pub_attributes, offsetof_attributes, sizeof_NV_INDEX in *.
  apply bwrite_bwrite_same; [lia|by rewrite !blen_le_bytes|].
  rewrite blen_le_bytes, blen_bread; lia.
Qed.

Lemma inv_update_ram s s' es rs1 r r' rs2 c :
  NvInv s es (rs1 ++ r :: rs2) c → NvRep s' es c → RamRep (orderly s') (rs1 ++ r' :: rs2) →
  ram_key r' = ram_key r → NvInv s' es (rs1 ++ r' :: rs2) c.
Proof.
  intros Hi Hr Hrr Hk. constructor; [done|done|apply (inv_wf _ _ _ _ Hi)|
    apply (inv_nodup _ _ _ _ Hi)|].
  rewrite <- (inv_keys _ _ _ _ Hi), !map_app. cbn [map]. by rewrite Hk.
Qed.

Definition set_ram_attributes (a : Z) (r : bytes) : bytes := bwrite r 4 (le_bytes 4 a).

Lemma ram_attributes_range r : Forall is_byte r → 0 ≤ ram_attributes r < 4294967296.
Proof.
  intros He. pose proof (le_val_bread r 4 4 He) as Hb.
  change (256 ^ 4) with 4294967296 in Hb. apply Hb. lia.
Qed.

Lemma ram_set_attributes r a :
  8 ≤ blen r → 0 ≤ a < 4294967296 →
  let r' := set_ram_attributes a r in
  blen r' = blen r ∧ entry_handle r' = entry_handle r ∧ ram_attributes r' = a.
Proof.
  intros Hl Ha. unfold set_ram_attributes, entry_handle, ram_attributes. cbv zeta.
  rewrite blen_bwrite, bread_bwrite_before, bread_bwrite_same
    by (rewrite ?blen_le_bytes; lia).
  by rewrite le_val_bytes.
Qed.

Lemma ram_set_data r o d :
  8 ≤ o → o + blen d ≤ blen r →
  let r' := bwrite r o d in
  blen r' = blen r ∧ entry_handle r' = entry_handle r ∧ ram_attributes r' = ram_attributes r.
Proof.
  intros Ho Hl. pose proof (blen_nonneg d). unfold entry_handle, ram_attributes. cbv zeta.
  rewrite blen_bwrite by lia. by rewrite !bread_bwrite_before by lia.
Qed.

(** The RAM element after the first part of [NvWriteIndexData]. *)
Definition ram_mark_written (r : bytes) (dataSize : Z) : bytes :=
  if IS_ATTRIBUTE (ram_attributes r) TPMA_NV_WRITTEN then r
  else
    let r1 := set_ram_attributes (SET_ATTRIBUTE (ram_attributes r) TPMA_NV_WRITTEN) r in
    if IsNvOrdinaryIndex (ram_attributes r)
    then bwrite r1 8 (bfill 0 dataSize) else r1.

Lemma ram_mark_written_fields r ds :
  Forall is_byte r → blen r = 8 + ds → 0 ≤ ds →
  let r' := ram_mark_written r ds in
  blen r' = blen r ∧ entry_handle r' = entry_handle r ∧
  ram_attributes r' = SET_ATTRIBUTE (ram_attributes r) TPMA_NV_WRITTEN ∧ ram_key r' = ram_key r.
Proof.
  intros Hb Hl Hd. cbv zeta.
  assert (Hcore : blen (ram_mark_written r ds) = blen r ∧
    entry_handle (ram_mark_written r ds) = entry_handle r ∧
    ram_attributes (ram_mark_written r ds) = SET_ATTRIBUTE (ram_attributes r) TPMA_NV_WRITTEN).
  { unfold ram_mark_written. destruct (IS_ATTRIBUTE (ram_attributes r) TPMA_NV_WRITTEN) eqn:Ew.
    { split_and!; try reflexivity. symmetry. by apply SET_written_same. }
    pose proof (SET_written_range _ (ram_attributes_range r Hb)) as Hw.
    destruct (ram_set_attributes r _ ltac:(lia) Hw) as (P1 & P2 & P3).
    destruct (IsNvOrdinaryIndex _); [|done].
    destruct (ram_set_data (set_ram_attributes (SET_ATTRIBUTE (ram_attributes r) TPMA_NV_WRITTEN) r)
      8 (bfill 0 ds)) as (Q1 & Q2 & Q3); [lia|rewrite blen_bfill; lia|].
    split_and!; congruence. }
  destruct Hcore as (C1 & C2 & C3). split_and!; try assumption.
  unfold ram_key. by rewrite C1, C2, C3, SET_written_fixed.
Qed.

(** [s'] differs from [s] at most in the RAM, the cache and the flags. *)
Lemma rep_ram_only s s' es c :
  NvRep s es c → nvmem s' = nvmem s → s_evictNvEnd s' = s_evictNvEnd s → NvRep s' es c.
Proof.
  intros [] Hm He. unfold nv_ok in *.
  constructor; rewrite ?He; try unfold nv_ok; rewrite ?Hm; assumption.
Qed.

Lemma ram_write_elem s rs1 r rs2 o d :
  RamRep (orderly s) (rs1 ++ r :: rs2) → 0 ≤ o → o + blen d ≤ blen r → Forall is_byte d →
  ∃ m, ram_write (nv_size rs1 + 4 + o) d s = Some (tt, set_orderlyRam m s) ∧
    RamRep m (rs1 ++ bwrite r o d :: rs2).
Proof.
  intros Hr Ho Hd Hb. destruct (ram_elem _ _ _ _ Hr) as (_ & Hf & H8).
  pose proof (nv_size_nonneg rs1). pose proof (nv_size_nonneg rs2). pose proof (blen_nonneg d).
  eexists. split; [apply ram_write_ok; rewrite ?(ram_len _ _ Hr); lia|].
  by apply ram_update.
Qed.

(** What the write to an orderly index leaves alone: the NV image, the cache
    reference, the failure flag. *)
Definition ram_only (s s' : NvState) : Prop :=
  plat s' = plat s ∧ s_evictNvEnd s' = s_evictNvEnd s ∧ s_maxCounter s' = s_maxCounter s ∧
  g_NvStatus s' = g_NvStatus s ∧ g_inFailureMode s' = g_inFailureMode s ∧
  s_cachedNvRef s' = s_cachedNvRef s ∧ s_cachedNvRamRef s' = s_cachedNvRamRef s.

Lemma mark_index_written_orderly s es rs1 r rs2 c idx size :
  NvInv s es (rs1 ++ r :: rs2) c → Forall is_byte r →
  pub_attributes idx = ram_attributes r → blen r = 8 + pub_dataSize idx → 0 ≤ pub_dataSize idx →
  IS_ATTRIBUTE (ram_attributes r) TPMA_NV_ORDERLY = true →
  s_cachedNvIndex s = idx → s_cachedNvRamRef s = Some (nv_size rs1) →
  let w := SET_ATTRIBUTE (ram_attributes r) TPMA_NV_WRITTEN in
  let r' := ram_mark_written r (pub_dataSize idx) in
  ∃ s', mark_index_written idx (s_cachedNvRef s) (Some (nv_size rs1)) size s =
      Some (TPM_RC_SUCCESS, s') ∧
    RamRep (orderly s') (rs1 ++ r' :: rs2) ∧ ram_only s s' ∧
    s_cachedNvIndex s' = (if IS_ATTRIBUTE (ram_attributes r) TPMA_NV_WRITTEN then idx
                          else set_pub_attributes w idx).
Proof.
  intros Hi Hb Ea Hl Hd Ho Hc Hcr. cbv zeta. pose proof (inv_ram _ _ _ _ Hi) as Hrr.
  unfold mark_index_written, ram_mark_written. rewrite Ea.
  destruct (IS_ATTRIBUTE (ram_attributes r) TPMA_NV_WRITTEN) eqn:Ew.
  { exists s. split; [reflexivity|]. split; [exact Hrr|]. split; [split_and!; reflexivity|done]. }
  unfold bind at 1, modify. rewrite SET_written_orderly, Ho. cbn [negb].
  set (w := SET_ATTRIBUTE _ _). set (s0 := set_cache _ _ _ s).
  unfold NvWriteRamIndexAttributes, ram_offsetof_attributes.
  replace (nv_size rs1 + 8) with (nv_size rs1 + 4 + 4) by lia.
  destruct (ram_write_elem s0 rs1 r rs2 4 (le_bytes 4 w)) as (m1 & W1 & R1);
    [exact Hrr|lia|rewrite blen_le_bytes; lia|apply le_bytes_byte|].
  rewrite (bind_Some _ _ _ _ _ W1). fold (set_ram_attributes w r) in R1.
  assert (L1 : blen (set_ram_attributes w r) = blen r)
    by (apply blen_bwrite; rewrite ?blen_le_bytes; lia).
  unfold IsNvOrdinaryIndex, IsNvCounterIndex. unfold w at 1 2. rewrite SET_written_NT.
  destruct (Z.eqb_spec (GET_TPM_NT (ram_attributes r)) TPM_NT_COUNTER) as [Ec|Ec].
  { rewrite Ec. change (TPM_NT_COUNTER =? TPM_NT_ORDINARY) with false. cbv iota.
    eexists. split; [reflexivity|]. split; [exact R1|]. split; [|reflexivity].
    split_and!; first [reflexivity | symmetry; exact Hcr]. }
  destruct (Z.eqb_spec (GET_TPM_NT (ram_attributes r)) TPM_NT_ORDINARY) as [En|En].
  - unfold sizeof_NV_RAM_HEADER. replace (nv_size rs1 + 12) with (nv_size rs1 + 4 + 8) by lia.
    destruct (ram_write_elem (set_orderlyRam m1 s0) rs1 (set_ram_attributes w r) rs2 8
      (bfill 0 (pub_dataSize idx))) as (m2 & W2 & R2);
      [exact R1|lia|rewrite blen_bfill; lia|apply Forall_replicate; done|].
    rewrite (bind_Some _ _ _ _ _ W2).
    eexists. split; [reflexivity|]. split; [exact R2|]. split; [|reflexivity].
    split_and!; first [reflexivity | symmetry; exact Hcr].
  - eexists. split; [reflexivity|]. split; [exact R1|]. split; [|reflexivity].
    split_and!; first [reflexivity | symmetry; exact Hcr].
Qed.

Lemma NvWriteIndexData_orderly s es1 e es2 rs1 r rs2 c offset data :
  NvInv s (es1 ++ e :: es2) (rs1 ++ r :: rs2) c → orderly_index e = true →
  ram_key r = index_key e →
  s_cachedNvIndex s = index_view e (Some r) → s_cachedNvRamRef s = Some (nv_size rs1) →
  0 ≤ offset → offset + blen data ≤ pub_dataSize e → Forall is_byte data →
  let r' := bwrite (ram_mark_written r (pub_dataSize e)) (8 + offset) data in
  ∃ s', NvWriteIndexData offset (blen data) data s = Some (TPM_RC_SUCCESS, s') ∧
    NvInv s' (es1 ++ e :: es2) (rs1 ++ r' :: rs2) c ∧ ram_key r' = index_key e ∧
    s_cachedNvIndex s' = index_view e (Some r') ∧ g_clearOrderly s' = true ∧ ram_only s s'.
Proof.
  intros Hi Hx Hk Hc Hcr Hof Hle Hbd. cbv zeta.
  apply andb_true_iff in Hx as [Hx Ho].
  destruct (inv_entry _ _ _ _ _ _ Hi) as (Hw & _ & Hb & _ & _).
  pose proof (is_index_len _ Hw Hb Hx) as Hel. pose proof (pub_dataSize_range e Hb) as Hds.
  pose proof (blen_nonneg data). injection Hk as Kh Kl Ka.
  pose proof (ram_entries _ _ (inv_ram _ _ _ _ Hi)) as Hre.
  apply Forall_app in Hre as [_ Hre]. apply Forall_cons_1 in Hre as [[H8 Hrb] _].
  pose proof (ram_attributes_range r Hrb) as Har.
  destruct (view_fields e (ram_attributes r) Hel Har) as (_ & V2 & V3).
  fold (index_view e (Some r)) in V2, V3.
  assert (Hor : IS_ATTRIBUTE (ram_attributes r) TPMA_NV_ORDERLY = true)
    by (rewrite (fixed_IS _ (pub_attributes e)); [exact Ho|done|done]).
  destruct (mark_index_written_orderly s (es1 ++ e :: es2) rs1 r rs2 c (index_view e (Some r))
    (blen data)) as (s1 & Hs1 & R1 & F1 & C1); try assumption; [lia|lia|].
  rewrite V3 in R1. destruct (ram_mark_written_fields r (pub_dataSize e) Hrb) as (M1 & M2 & M3 & M4);
    [lia|lia|]. set (r1 := ram_mark_written r (pub_dataSize e)) in *.
  unfold NvWriteIndexData. unfold bind at 1 2 3, gets. rewrite Hc, Hcr.
  erewrite bind_Some by (apply pAssert_true; zbool; rewrite V3, u32_small; lia).
  rewrite (bind_Some _ _ _ _ _ Hs1).
  change (negb (TPM_RC_SUCCESS =? TPM_RC_SUCCESS)) with false. cbv iota.
  rewrite V2, Hor, (bread_all data) by done. unfold sizeof_NV_RAM_HEADER.
  replace (nv_size rs1 + 12 + offset) with (nv_size rs1 + 4 + (8 + offset)) by lia.
  destruct (ram_write_elem s1 rs1 r1 rs2 (8 + offset) data) as (m2 & W2 & R2);
    [exact R1|lia|lia|done|].
  rewrite (bind_Some _ _ _ _ _ W2). unfold bind, modify, ret.
  destruct (ram_set_data r1 (8 + offset) data) as (D1 & D2 & D3); [lia|lia|].
  assert (Hk' : ram_key (bwrite r1 (8 + offset) data) = ram_key r)
    by (rewrite <- M4; unfold ram_key; by rewrite D1, D2, D3).
  destruct F1 as (G1 & G2 & G3 & G4 & G5 & G6 & G7).
  eexists. split; [reflexivity|]. split; [|split; [|split; [|split; [reflexivity|]]]].
  - eapply inv_update_ram; [exact Hi| |exact R2|exact Hk'].
    apply (rep_ram_only s); [apply (inv_rep _ _ _ _ Hi)| |exact G2].
    unfold nvmem. cbn [plat set_clearOrderly set_orderlyRam]. by rewrite G1.
  - rewrite Hk'. unfold ram_key, index_key. by rewrite Kh, Kl, Ka.
  - cbn [s_cachedNvIndex set_clearOrderly set_orderlyRam]. rewrite C1.
    unfold index_view. rewrite D3, M3.
    destruct (IS_ATTRIBUTE (ram_attributes r) TPMA_NV_WRITTEN) eqn:Ew.
    + by rewrite (SET_written_same _ Ew).
    + by rewrite set_view_attributes.
  - split_and!; assumption.
Qed.

(** ** Reading the data of an index *)

Lemma NvGetIndexData_normal s es1 e es2 rs c offset size :
  NvInv s (es1 ++ e :: es2) rs c → is_index e = true → entry_orderly e = false →
  IS_ATTRIBUTE (pub_attributes e) TPMA_NV_WRITTEN = true →
  0 ≤ offset → 0 ≤ size → offset + size ≤ pub_dataSize e →
  NvGetIndexData (bread e 0 148) (nv_end es1 + 4) offset size s =
    Some (bread e (148 + offset) size, s).
Proof.
  intros Hi Hx Ho Hwr Hof Hs Hle. destruct (inv_entry _ _ _ _ _ _ Hi) as (Hw & _ & Hb & Hlo & Hhi).
  pose proof (is_index_len _ Hw Hb Hx) as Hel. pose proof (pub_dataSize_range e Hb) as Hds.
  assert (Hl : blen e = 148 + pub_dataSize e)
    by (destruct Hw as [Hw']; rewrite Hx, Ho in Hw'; exact Hw').
  destruct (pub_of_view e Hel) as (_ & Va & Vd).
  unfold NvGetIndexData. rewrite Va, Vd, Hwr. unfold entry_orderly in Ho. rewrite Ho.
  erewrite bind_Some by (by apply pAssert_true).
  erewrite bind_Some by (apply pAssert_true; zbool; rewrite u32_small; lia).
  unfold sizeof_NV_INDEX. rewrite u32_nv by lia.
  replace (nv_end es1 + 4 + 148 + offset) with (nv_end es1 + 4 + (148 + offset)) by lia.
  eapply NvRead_entry; [apply (inv_rep _ _ _ _ Hi)|lia..].
Qed.

(** The data of a RAM element, for a descriptor that names it. *)
Lemma NvGetIndexData_ram s rs1 r rs2 idx locator offset size :
  RamRep (orderly s) (rs1 ++ r :: rs2) →
  pub_nvIndex idx = entry_handle r → Forall (λ r', entry_handle r' ≠ entry_handle r) rs1 →
  IS_ATTRIBUTE (pub_attributes idx) TPMA_NV_WRITTEN = true →
  IS_ATTRIBUTE (pub_attributes idx) TPMA_NV_ORDERLY = true →
  0 ≤ offset → 0 ≤ size → 8 + offset + size ≤ blen r →
  NvGetIndexData idx locator offset size s = Some (bread r (8 + offset) size, s).
Proof.
  intros Hrr V1 Hn Hwr Hor Hof Hs Hle. unfold NvGetIndexData. rewrite V1, Hwr, Hor.
  erewrite bind_Some by (by apply pAssert_true).
  rewrite (bind_Some _ _ _ _ _ (NvRamGetIndex_some _ _ _ _ _ Hrr Hn eq_refl)).
  destruct (ram_elem _ _ _ _ Hrr) as (He & Hf & _).
  pose proof (nv_size_nonneg rs1). pose proof (nv_size_nonneg rs2).
  erewrite bind_Some by (apply ram_read_ok; rewrite ?(ram_len _ _ Hrr); lia).
  replace (bread (orderly s) (nv_size rs1) 4)
    with (bread (bread (orderly s) (nv_size rs1) (4 + blen r)) 0 4)
    by (rewrite bread_bread, Z.add_0_r by lia; done).
  rewrite He. unfold nv_encode1.
  rewrite bread_app_l, bread_all by (rewrite ?blen_le_bytes; lia).
  unfold RAM_INDEX_SPACE in *. rewrite le_val_bytes by (simpl; lia).
  unfold sizeof_NV_RAM_HEADER.
  erewrite bind_Some by (apply pAssert_true; zbool; rewrite (wrap_small 64); lia).
  replace (nv_size rs1 + 12 + offset) with (nv_size rs1 + 4 + (8 + offset)) by lia.
  eapply ram_read_elem; [exact Hrr|lia..].
Qed.

Lemma NvGetIndexData_orderly s es1 e es2 rs1 r rs2 c locator offset size :
  NvInv s (es1 ++ e :: es2) (rs1 ++ r :: rs2) c → orderly_index e = true →
  ram_key r = index_key e → Forall (λ r', entry_handle r' ≠ entry_handle e) rs1 →
  IS_ATTRIBUTE (ram_attributes r) TPMA_NV_WRITTEN = true →
  0 ≤ offset → 0 ≤ size → offset + size ≤ pub_dataSize e →
  NvGetIndexData (index_view e (Some r)) locator offset size s =
    Some (bread r (8 + offset) size, s).
Proof.
  intros Hi Hx Hk Hn Hwr Hof Hs Hle. apply andb_true_iff in Hx as [Hx Ho].
  destruct (inv_entry _ _ _ _ _ _ Hi) as (Hw & _ & Hb & _ & _).
  pose proof (is_index_len _ Hw Hb Hx) as Hel.
  injection Hk as Kh Kl Ka. pose proof (inv_ram _ _ _ _ Hi) as Hrr.
  pose proof (ram_entries _ _ Hrr) as Hre.
  apply Forall_app in Hre as [_ Hre]. apply Forall_cons_1 in Hre as [[H8 Hrb] _].
  pose proof (ram_attributes_range r Hrb) as Har.
  destruct (view_fields e (ram_attributes r) Hel Har) as (V1 & V2 & V3).
  fold (index_view e (Some r)) in V1, V2, V3. rewrite <- Kh in *.
  eapply NvGetIndexData_ram; try eassumption; try lia.
  - by rewrite V2.
  - rewrite V2, (fixed_IS _ (pub_attributes e)); [exact Ho|done|done].
Qed.
End nv_entity.
