(* ===== verification/NvDefine.v ===== *)
(** * Creating and deleting NV entities

    What [NvDefineIndex], [NvAddEvictObject], [NvDeleteIndex] and
    [NvDeleteEvict] (src/NVDynamic.c, lines 1152-1286) do to the entities of an
    NV memory that satisfies [NvInv], on success and on every error. *)

From S2P Require Import Prelude TpmTypes Cbc NVMem NVReserved.
From S2P Require Import NvList NvRam Memory NvIndex NvEntity.
Local Open Scope Z_scope.

Section nv_define.
Context `{NvLayout}.

(** ** A new entity at the end of the list *)

Lemma inv_append s s' es rs e rs' c c' :
  NvInv s es rs c → NvRep s' (es ++ [e]) c' → RamRep (orderly s') (rs ++ rs') →
  entry_wf e → entry_handle e ∉ map entry_handle es →
  map ram_key rs' = map index_key (List.filter orderly_index [e]) →
  NvInv s' (es ++ [e]) (rs ++ rs') c'.
Proof.
  intros Hi Hr Hrr Hw Hh Hk. constructor; [exact Hr|exact Hrr|..].
  - apply Forall_app. split; [apply (inv_wf _ _ _ _ Hi)|]. constructor; [exact Hw|constructor].
  - rewrite map_app. cbn [map]. apply list.NoDup_app. split; [apply (inv_nodup _ _ _ _ Hi)|].
    split; [|apply list.NoDup_singleton].
    intros x Hx Hin. apply list_elem_of_singleton in Hin as ->. done.
  - rewrite List.filter_app, !map_app, Hk. by rewrite (inv_keys _ _ _ _ Hi).
Qed.

(** The public area handed to [NvDefineIndex], as octets. *)
Record wf_public (p : bytes) : Prop := {
  wfp_len : blen p = sizeof_TPMS_NV_PUBLIC;
  wfp_byte : Forall is_byte p;
  wfp_handle : HandleGetType (pub_nvIndex p) = TPM_HT_NV_INDEX;
  wfp_size : pub_dataSize p ≤ MAX_NV_INDEX_SIZE;
}.

Lemma index_not_unassigned h : HandleGetType h = TPM_HT_NV_INDEX → h ≠ TPM_RH_UNASSIGNED.
Proof. intros Ht ->. done. Qed.

(** The fields of an entity that starts with the image of a public area. *)
Lemma entry_of_public e p auth pad n :
  wf_public p → blen auth = sizeof_TPM2B_AUTH → blen pad = 2 →
  blen e = n → sizeof_NV_INDEX ≤ n → bread e 0 sizeof_NV_INDEX = p ++ auth ++ pad →
  entry_handle e = pub_nvIndex p ∧ pub_attributes e = pub_attributes p ∧
  pub_dataSize e = pub_dataSize p ∧ bread e offsetof_authValue sizeof_TPM2B_AUTH = auth.
Proof.
  intros Hp La Lp Hl Hn He. pose proof (wfp_len _ Hp) as Lq.
  unfold sizeof_NV_INDEX, sizeof_TPMS_NV_PUBLIC, sizeof_TPM2B_AUTH in *.
  assert (Hin : ∀ o k, 0 ≤ o → 0 ≤ k → o + k ≤ 80 → bread e o k = bread p o k).
  { intros o k ???. transitivity (bread (bread e 0 148) o k); [by rewrite bread_bread by lia|].
    rewrite He. apply bread_app_l; lia. }
  unfold entry_handle, pub_nvIndex, pub_attributes, pub_dataSize, offsetof_attributes,
    offsetof_dataSize, offsetof_authValue.
  rewrite !Hin by lia. split_and!; try reflexivity.
  transitivity (bread (bread e 0 148) 80 66); [by rewrite bread_bread by lia|].
  rewrite He, bread_app_r by lia. rewrite Lq, Z.sub_diag, bread_app_l by lia. by apply bread_all.
Qed.

Lemma ram_new_fields p :
  wf_public p →
  entry_handle (ram_new p) = pub_nvIndex p ∧ blen (ram_new p) = 8 + pub_dataSize p ∧
  ram_attributes (ram_new p) = pub_attributes p.
Proof.
  intros Hp. pose proof (wfp_byte _ Hp) as Hb. pose proof (pub_dataSize_range p Hb).
  pose proof (pub_attributes_range p Hb).
  assert (Hh : 0 ≤ pub_nvIndex p < 4294967296).
  { unfold pub_nvIndex. pose proof (le_val_bread p 0 4 Hb) as Hx.
    change (256 ^ 4) with 4294967296 in Hx. apply Hx. lia. }
  split_and!; [| by apply blen_ram_new; lia |].
  - unfold entry_handle, ram_new.
    rewrite bread_app_l, bread_all, le_val_bytes by (rewrite ?blen_le_bytes; try lia; done). done.
  - unfold ram_attributes, ram_new.
    rewrite bread_app_r by (rewrite blen_le_bytes; lia). rewrite blen_le_bytes.
    change (4 - Z.of_nat 4) with 0.
    rewrite bread_app_l, bread_all, le_val_bytes by (rewrite ?blen_le_bytes; try lia; done). done.
Qed.

(** ** [NvDefineIndex] *)

(** The entry's size without its forward pointer. *)
Definition define_size (p : bytes) : Z :=
  sizeof_NV_INDEX + (if IS_ATTRIBUTE (pub_attributes p) TPMA_NV_ORDERLY then 0 else pub_dataSize p).

(** Both space tests of [NvDefineIndex]. *)
Definition define_fits (es rs : list bytes) (p : bytes) : bool :=
  (16 + evict_reserve es
     + (if IsNvCounterIndex (pub_attributes p) then 0 else counter_reserve es)
     + define_size p <=? NV_MEMORY_SIZE - nv_end es)
  && (if IS_ATTRIBUTE (pub_attributes p) TPMA_NV_ORDERLY
      then nv_size rs + 12 + pub_dataSize p <=? RAM_INDEX_SPACE else true).

Lemma define_size_range p :
  wf_public p → 148 ≤ define_size p ≤ 148 + 2048 ∧
  (if negb (IS_ATTRIBUTE (pub_attributes p) TPMA_NV_ORDERLY)
   then u16 (sizeof_NV_INDEX + pub_dataSize p) else sizeof_NV_INDEX) = define_size p.
Proof.
  intros Hp. pose proof (pub_dataSize_range p (wfp_byte _ Hp)). pose proof (wfp_size _ Hp).
  unfold define_size, MAX_NV_INDEX_SIZE, sizeof_NV_INDEX in *.
  destruct (IS_ATTRIBUTE _ _); cbn [negb]; [lia|]. rewrite (wrap_small 16) by lia. lia.
Qed.

(** The tests of [NvDefineIndex] compute [define_fits]; when they fail nothing
    has changed. *)
Lemma NvDefineIndex_tests s es rs c pad p auth :
  NvInv s es rs c → wf_public p →
  NvDefineIndex pad p auth s =
    (if define_fits es rs p then
      (let! result := NvAdd (define_size p) sizeof_NV_INDEX TPM_RH_UNASSIGNED (p ++ auth ++ pad) in
       (if (result =? TPM_RC_SUCCESS) && IS_ATTRIBUTE (pub_attributes p) TPMA_NV_ORDERLY
        then NvAddRAM p else ret tt) ;; ret result) s
     else Some (TPM_RC_NV_SPACE, s)).
Proof.
  intros Hi Hp. destruct (define_size_range p Hp) as [Hd E].
  pose proof (pub_dataSize_range p (wfp_byte _ Hp)) as Hds.
  unfold NvDefineIndex. cbv zeta. rewrite E. unfold define_fits.
  set (r := if IsNvCounterIndex (pub_attributes p) then 0 else counter_reserve es).
  pose proof (NvTestSpace_ok s es rs c (define_size p) true
    (IsNvCounterIndex (pub_attributes p)) Hi ltac:(lia)) as Ht.
  cbn [andb] in Ht. cbv iota in Ht. fold r in Ht.
  destruct (Z.leb_spec (16 + evict_reserve es + r + define_size p) (NV_MEMORY_SIZE - nv_end es))
    as [Hle|Hgt]; cbn [andb].
  - assert (Ht' : NvTestSpace (define_size p) true (IsNvCounterIndex (pub_attributes p)) s
                  = Some (true, s)).
    { destruct Ht as [->|[_ Ht]]; [|lia]. do 2 f_equal. zbool. lia. }
    rewrite (bind_Some _ _ _ _ _ Ht'). cbn [negb]. cbv iota.
    destruct (IS_ATTRIBUTE (pub_attributes p) TPMA_NV_ORDERLY).
    + rewrite (bind_Some _ _ _ _ _ (NvRamTestSpaceIndex_ok _ _ _ (inv_ram _ _ _ _ Hi) Hds)).
      by destruct (_ <=? RAM_INDEX_SPACE).
    + unfold bind at 1, ret at 1. reflexivity.
  - assert (Ht' : NvTestSpace (define_size p) true (IsNvCounterIndex (pub_attributes p)) s
                  = Some (false, s)).
    { destruct Ht as [->|[-> _]]; [|done]. do 2 f_equal. zbool. lia. }
    rewrite (bind_Some _ _ _ _ _ Ht'). done.
Qed.

(** The new index: its info area is what was given, its data area is new. *)
Definition index_entry_of (p auth pad e : bytes) : Prop :=
  bread e 0 sizeof_NV_INDEX = p ++ auth ++ pad ∧ blen e = define_size p.

Lemma index_entry_fields p auth pad e :
  wf_public p → blen auth = sizeof_TPM2B_AUTH → blen pad = 2 → index_entry_of p auth pad e →
  entry_handle e = pub_nvIndex p ∧ pub_attributes e = pub_attributes p ∧
  pub_dataSize e = pub_dataSize p ∧ bread e offsetof_authValue sizeof_TPM2B_AUTH = auth ∧
  is_index e = true ∧ entry_wf e ∧
  entry_orderly e = IS_ATTRIBUTE (pub_attributes p) TPMA_NV_ORDERLY.
Proof.
  intros Hp La Lp [He Hl]. destruct (define_size_range p Hp) as [Hd _].
  destruct (entry_of_public e p auth pad _ Hp La Lp Hl ltac:(unfold sizeof_NV_INDEX; lia) He)
    as (F1 & F2 & F3 & F4).
  assert (Hx : is_index e = true).
  { unfold is_index, is_type. rewrite F1, (wfp_handle _ Hp). done. }
  split_and!; try assumption.
  - constructor. rewrite Hx. unfold entry_orderly. by rewrite F2, F3.
  - unfold entry_orderly. by rewrite F2.
Qed.

Definition ram_of_public (p : bytes) : list bytes :=
  if IS_ATTRIBUTE (pub_attributes p) TPMA_NV_ORDERLY then [ram_new p] else [].

Lemma NvDefineIndex_ok s es rs c pad p auth :
  NvInv s es rs c → wf_public p → blen auth = sizeof_TPM2B_AUTH → Forall is_byte auth →
  blen pad = 2 → Forall is_byte pad → g_NvStatus s = TPM_RC_SUCCESS →
  pub_nvIndex p ∉ map entry_handle es → define_fits es rs p = true →
  ∃ s' e, NvDefineIndex pad p auth s = Some (TPM_RC_SUCCESS, s') ∧
    NvInv s' (es ++ [e]) (rs ++ ram_of_public p) (s_maxCounter s) ∧
    index_entry_of p auth pad e ∧ s_maxCounter s' = s_maxCounter s ∧
    g_NvStatus s' = g_NvStatus s ∧ g_inFailureMode s' = g_inFailureMode s ∧ s_cachedNvIndex s' = s_cachedNvIndex s.
Proof.
  intros Hi Hp La Ba Lp Bp Hst Hh Hfit. rewrite (NvDefineIndex_tests _ _ _ _ _ _ _ Hi Hp), Hfit.
  pose proof (define_size_range p Hp) as [Hd _]. pose proof (wfp_len _ Hp) as Lq.
  pose proof (pub_dataSize_range p (wfp_byte _ Hp)) as Hds.
  apply andb_true_iff in Hfit as [Hnv Hram]. zbool.
  pose proof (evict_reserve_range es) as He. pose proof (counter_reserve_range es) as Hcr.
  assert (Hspace : nv_end es + 16 + define_size p ≤ NV_MEMORY_SIZE)
    by (destruct (IsNvCounterIndex _); lia).
  unfold sizeof_NV_INDEX, sizeof_TPMS_NV_PUBLIC, sizeof_TPM2B_AUTH in *.
  assert (Lall : blen (p ++ auth ++ pad) = 148) by (rewrite !blen_app; lia).
  destruct (NvAdd_ok s es c (define_size p) 148 TPM_RH_UNASSIGNED (p ++ auth ++ pad))
    as (e & s1 & Hadd & Hwr & Hr1 & Hle & Hbe & _).
  - apply (inv_rep _ _ _ _ Hi).
  - exact Hst.
  - exact Lall.
  - lia.
  - rewrite !Forall_app. split_and!; [apply (wfp_byte _ Hp)|assumption..].
  - rewrite Z.eqb_refl. change (blen []) with 0. lia.
  - rewrite Z.eqb_refl. change (blen []) with 0. lia.
  - rewrite Z.eqb_refl in Hle, Hbe. change (blen []) with 0 in Hle, Hbe. rewrite Z.add_0_l in Hle, Hbe.
    assert (Hent : index_entry_of p auth pad e) by (split; [exact Hbe|exact Hle]).
    destruct (index_entry_fields p auth pad e Hp La Lp Hent) as (F1 & F2 & F3 & _ & Hx & Hw & Ho).
    destruct (nv_written_frame _ _ Hwr) as (G1 & G2 & G3 & G4 & G5 & G6 & _).
    rewrite (bind_Some _ _ _ _ _ Hadd).
    change (TPM_RC_SUCCESS =? TPM_RC_SUCCESS) with true. cbn [andb].
    rewrite <- F1 in Hh. unfold ram_of_public, orderly_index in *.
    destruct (IS_ATTRIBUTE (pub_attributes p) TPMA_NV_ORDERLY) eqn:Eo.
    + zbool. assert (Hrr1 : RamRep (orderly s1) rs) by (rewrite G2; apply (inv_ram _ _ _ _ Hi)).
      destruct (NvAddRAM_ok s1 rs p Hrr1) as (m & Hram' & Hrr); [lia|lia|].
      rewrite (bind_Some _ _ _ _ _ Hram'). destruct (ram_new_fields p Hp) as (R1 & R2 & R3).
      eexists _, e. split; [reflexivity|]. split; [|split_and!; assumption].
      eapply inv_append; [exact Hi| |exact Hrr|exact Hw|exact Hh|].
      * apply (rep_ram_only s1); [exact Hr1|reflexivity|reflexivity].
      * cbn [List.filter]. unfold orderly_index. rewrite Hx, Ho. cbn [map andb].
        unfold ram_key, index_key. rewrite R1, R2, R3, F1, F2, F3. do 3 f_equal. lia.
    + eexists _, e. split; [reflexivity|]. split; [|split_and!; assumption].
      eapply inv_append; [exact Hi|exact Hr1| |exact Hw|exact Hh|].
      * rewrite G2, app_nil_r. apply (inv_ram _ _ _ _ Hi).
      * cbn [List.filter]. unfold orderly_index. by rewrite Hx, Ho.
Qed.

(** When NV is not available nothing is defined and the reason is returned. *)
Lemma NvDefineIndex_unavailable s es rs c pad p auth :
  NvInv s es rs c → wf_public p → g_NvStatus s ≠ TPM_RC_SUCCESS → define_fits es rs p = true →
  NvDefineIndex pad p auth s = Some (g_NvStatus s, s).
Proof.
  intros Hi Hp Hst Hfit. rewrite (NvDefineIndex_tests _ _ _ _ _ _ _ Hi Hp), Hfit.
  unfold NvAdd, return_if_nv_is_not_available, bind, gets.
  rewrite (proj2 (Z.eqb_neq _ _)) by done. unfold ret.
  rewrite (proj2 (Z.eqb_neq _ _)) by done. done.
Qed.

(** ** Persistent objects *)

(** The object as [NvAddEvictObject] stores it. *)
Definition stored_object (h : Z) (o : bytes) : bytes := set_object_evictHandle h (set_evict o).

Lemma set_evict_len o : 4 ≤ blen o → blen (set_evict o) = blen o.
Proof. intros. apply blen_bwrite; rewrite ?blen_le_bytes; lia. Qed.

Lemma stored_object_len h o :
  blen o = sizeof_OBJECT → blen (stored_object h o) = sizeof_OBJECT.
Proof.
  intros Hl. pose proof layout_evictHandle. unfold stored_object, set_object_evictHandle.
  pose proof (set_evict_len o ltac:(lia)). rewrite blen_bwrite; rewrite ?blen_le_bytes; lia.
Qed.

Lemma stored_object_byte h o : Forall is_byte o → Forall is_byte (stored_object h o).
Proof. intros. repeat apply bwrite_byte; auto using le_bytes_byte. Qed.

Definition evict_fits (es : list bytes) : bool :=
  16 + counter_reserve es + (sizeof_OBJECT + 4) <=? NV_MEMORY_SIZE - nv_end es.

Lemma NvAddEvictObject_tests s es rs c h o :
  NvInv s es rs c →
  NvAddEvictObject h o s =
    (if evict_fits es then
       (let! result := NvAdd sizeof_OBJECT sizeof_OBJECT h (stored_object h o) in
        ret (result, set_object_evictHandle (object_evictHandle o)
                       (clear_evict (stored_object h o)))) s
     else Some ((TPM_RC_NV_SPACE, o), s)).
Proof.
  intros Hi. pose proof layout_evictHandle. pose proof layout_object.
  unfold NvAddEvictObject. cbv zeta. unfold evict_fits.
  assert (Hsz : 0 ≤ sizeof_OBJECT + 4 < 65536) by (unfold NV_MEMORY_SIZE in *; lia).
  pose proof (NvTestSpace_ok s es rs c (sizeof_OBJECT + 4) false false Hi Hsz) as Ht.
  cbn [andb] in Ht. cbv iota in Ht.
  destruct (Z.leb_spec (16 + counter_reserve es + (sizeof_OBJECT + 4)) (NV_MEMORY_SIZE - nv_end es)).
  - assert (Ht' : NvTestSpace (sizeof_OBJECT + 4) false false s = Some (true, s)).
    { destruct Ht as [->|[_ Ht]]; [|lia]. do 2 f_equal. zbool. lia. }
    by rewrite (bind_Some _ _ _ _ _ Ht').
  - assert (Ht' : NvTestSpace (sizeof_OBJECT + 4) false false s = Some (false, s)).
    { destruct Ht as [->|[-> _]]; [|done]. do 2 f_equal. zbool. lia. }
    by rewrite (bind_Some _ _ _ _ _ Ht').
Qed.

Lemma NvAddEvictObject_ok s es rs c h o :
  NvInv s es rs c → g_NvStatus s = TPM_RC_SUCCESS → evict_fits es = true →
  HandleGetType h = TPM_HT_PERSISTENT → 0 ≤ h < 4294967296 → h ∉ map entry_handle es →
  blen o = sizeof_OBJECT → Forall is_byte o →
  ∃ s' o', NvAddEvictObject h o s = Some ((TPM_RC_SUCCESS, o'), s') ∧
    NvInv s' (es ++ [le_bytes 4 h ++ stored_object h o]) rs (s_maxCounter s) ∧
    g_NvStatus s' = g_NvStatus s ∧ g_inFailureMode s' = g_inFailureMode s.
Proof.
  intros Hi Hst Hfit Ht Hh Hn Hl Hb.
  rewrite (NvAddEvictObject_tests _ _ _ _ _ _ Hi), Hfit.
  pose proof layout_evictHandle. pose proof layout_object.
  pose proof (stored_object_len h o Hl) as Ls. unfold evict_fits in Hfit. zbool.
  pose proof (counter_reserve_range es).
  assert (Hu : (h =? TPM_RH_UNASSIGNED) = false).
  { apply Z.eqb_neq. by intros ->. }
  destruct (NvAdd_ok s es c sizeof_OBJECT sizeof_OBJECT h (stored_object h o))
    as (e & s1 & Hadd & Hwr & Hr1 & Hle & Hbe & _); rewrite ?Hu, ?blen_le_bytes; try lia.
  - apply (inv_rep _ _ _ _ Hi).
  - by apply stored_object_byte.
  - rewrite Hu, blen_le_bytes in Hle, Hbe. rewrite bread_all in Hbe by lia. subst e.
    destruct (nv_written_frame _ _ Hwr) as (G1 & G2 & G3 & G4 & G5 & G6 & _).
    rewrite (bind_Some _ _ _ _ _ Hadd). eexists s1, _. split; [reflexivity|].
    split; [|split; [exact G4|exact G5]].
    assert (Eh : entry_handle (le_bytes 4 h ++ stored_object h o) = h).
    { unfold entry_handle.
      rewrite bread_app_l, bread_all, le_val_bytes by (rewrite ?blen_le_bytes; try lia; done). done. }
    assert (Ex : is_index (le_bytes 4 h ++ stored_object h o) = false).
    { unfold is_index, is_type. rewrite Eh, Ht. done. }
    rewrite <- (app_nil_r rs). eapply inv_append; [exact Hi|exact Hr1| | | |].
    + rewrite G2, app_nil_r. apply (inv_ram _ _ _ _ Hi).
    + constructor. rewrite Ex. split; [|rewrite Hle; lia].
      unfold is_persistent, is_type. by rewrite Eh, Ht.
    + by rewrite Eh.
    + cbn [List.filter]. unfold orderly_index. by rewrite Ex.
Qed.

(** ** Reading a persistent object back *)

Lemma NvGetEvictObject_ok s es1 e es2 rs c o :
  NvInv s (es1 ++ e :: es2) rs c → is_persistent e = true → is_index e = false →
  NvGetEvictObject (entry_handle e) o s =
    Some ((TPM_RC_SUCCESS, set_evict (bread e 4 sizeof_OBJECT)), s).
Proof.
  intros Hi Hp Hx. destruct (inv_entry _ _ _ _ _ _ Hi) as ([Hw] & _ & _ & Hlo & Hhi).
  rewrite Hx in Hw. destruct Hw as [_ Hl]. pose proof layout_evictHandle.
  unfold NvGetEvictObject, NvFindEvict.
  erewrite bind_Some; cycle 1.
  { rewrite (bind_Some _ _ _ _ _ (NvFindHandle_inv _ _ _ _ _ _ Hi)).
    rewrite (proj2 (Z.eqb_neq (nv_end es1 + 4) 0)) by lia. cbn [negb].
    unfold NvReadObject. rewrite u32_nv by lia.
    erewrite bind_Some by (eapply NvRead_entry; [apply (inv_rep _ _ _ _ Hi)|lia..]).
    reflexivity. }
  cbn [from_option]. rewrite (proj2 (Z.eqb_neq (nv_end es1 + 4) 0)) by lia. done.
Qed.

Lemma NvGetEvictObject_missing s es rs c h o :
  NvInv s es rs c → h ∉ map entry_handle es →
  NvGetEvictObject h o s = Some ((TPM_RC_HANDLE, set_evict o), s).
Proof.
  intros Hi Hh. unfold NvGetEvictObject, NvFindEvict.
  erewrite bind_Some; cycle 1.
  { rewrite (bind_Some _ _ _ _ _ (NvFindHandle_none _ _ _ h (inv_rep _ _ _ _ Hi)
      ltac:(apply list.Forall_forall; intros x Hx <-; apply Hh; by apply elem_map))).
    reflexivity. }
  done.
Qed.

(** ** Deleting an index *)

Lemma inv_remove s s' es1 e es2 rs rs' c c' :
  NvInv s (es1 ++ e :: es2) rs c → NvRep s' (es1 ++ es2) c' → RamRep (orderly s') rs' →
  map ram_key rs' = map index_key (List.filter orderly_index (es1 ++ es2)) →
  NvInv s' (es1 ++ es2) rs' c'.
Proof.
  intros Hi Hr Hrr Hk. constructor; [exact Hr|exact Hrr| | |exact Hk].
  - pose proof (inv_wf _ _ _ _ Hi) as Hw. apply Forall_app in Hw as [W1 W2].
    apply Forall_cons_1 in W2 as [_ W2]. apply Forall_app. split; assumption.
  - pose proof (inv_nodup _ _ _ _ Hi) as Hn. rewrite map_app in *. cbn [map] in Hn.
    apply list.NoDup_app in Hn as (N1 & N2 & N3). apply list.NoDup_cons in N3 as [_ N3].
    apply list.NoDup_app. split_and!; try assumption.
    intros x Hx Hin. apply (N2 x Hx). by right.
Qed.

(** Setting the max counter keeps the representation. *)
Lemma rep_max s es c v : NvRep s es c → NvRep (set_maxCounter v s) es c.
Proof. intros []. by constructor. Qed.

(** What [s_maxCounter] is after an index with attributes [a] and data [d] is
    deleted. *)
Definition deleted_max (m a : Z) (d : bytes) : Z :=
  if IsNvCounterIndex a && IS_ATTRIBUTE a TPMA_NV_WRITTEN
  then Z.max m (ByteArrayToUint64 d) else m.

Lemma NvUpdateMaxCount_ok v s :
  NvUpdateMaxCount v s = Some (tt, set_maxCounter (Z.max (s_maxCounter s) v) s).
Proof.
  unfold NvUpdateMaxCount, modify. destruct (Z.ltb_spec (s_maxCounter s) v).
  - by rewrite Z.max_r by lia.
  - rewrite Z.max_l by lia. by destruct s.
Qed.

(** The first step of [NvDeleteIndex]: the value of a written counter goes into
    the max counter. *)
Lemma delete_update_max s idx addr d :
  (IsNvCounterIndex (pub_attributes idx) && IS_ATTRIBUTE (pub_attributes idx) TPMA_NV_WRITTEN = true →
   NvGetIndexData idx addr 0 8 s = Some (d, s)) →
  (if IsNvCounterIndex (pub_attributes idx) && IS_ATTRIBUTE (pub_attributes idx) TPMA_NV_WRITTEN
   then let! v := NvGetUINT64Data idx addr in NvUpdateMaxCount v else ret tt) s =
  Some (tt, set_maxCounter (deleted_max (s_maxCounter s) (pub_attributes idx) d) s).
Proof.
  intros Hd. unfold deleted_max. destruct (_ && _) eqn:E; [|by destruct s].
  unfold NvGetUINT64Data. erewrite bind_Some; cycle 1.
  { rewrite (bind_Some _ _ _ _ _ (Hd eq_refl)). reflexivity. }
  apply NvUpdateMaxCount_ok.
Qed.

Lemma NvDeleteIndex_normal s es1 e es2 rs c idx :
  NvInv s (es1 ++ e :: es2) rs c → is_index e = true → entry_orderly e = false →
  idx = bread e 0 148 → g_NvStatus s = TPM_RC_SUCCESS →
  (IsNvCounterIndex (pub_attributes e) = true → pub_dataSize e = 8) →
  let m := deleted_max (s_maxCounter s) (pub_attributes e) (bread e 148 8) in
  ∃ s', NvDeleteIndex (Some idx) (nv_end es1 + 4) s = Some (TPM_RC_SUCCESS, s') ∧
    NvInv s' (es1 ++ es2) rs m ∧ s_maxCounter s' = m ∧ g_NvStatus s' = TPM_RC_SUCCESS ∧
    g_inFailureMode s' = g_inFailureMode s ∧
    s_cachedNvIndex s' = set_pub_nvIndex TPM_RH_UNASSIGNED (s_cachedNvIndex s).
Proof.
  intros Hi Hx Ho -> Hst H8. cbv zeta.
  destruct (inv_entry _ _ _ _ _ _ Hi) as (Hw & _ & Hb & _ & _).
  pose proof (is_index_len _ Hw Hb Hx) as Hel. destruct (pub_of_view e Hel) as (_ & Va & _).
  unfold NvDeleteIndex. erewrite bind_Some; cycle 1.
  { apply (delete_update_max _ _ _ (bread e 148 8)). rewrite Va. intros [Hc Hwr]%andb_true_iff.
    apply (NvGetIndexData_normal s es1 e es2 rs c 0 8); try assumption; try lia.
    rewrite (H8 Hc). lia. }
  rewrite Va. set (m := deleted_max _ _ _). set (s1 := set_maxCounter m s).
  destruct (NvDelete_ok s1 es1 e es2 c) as (s2 & Hdel & Hwr & Hr & _);
    [by apply rep_max, (inv_rep _ _ _ _ Hi)|exact Hst|].
  rewrite (bind_Some _ _ _ _ _ Hdel).
  change (negb (TPM_RC_SUCCESS =? TPM_RC_SUCCESS)) with false. cbv iota.
  unfold entry_orderly in Ho. rewrite Ho. unfold bind, ret, NvIndexCacheInit, modify.
  destruct (nv_written_frame _ _ Hwr) as (G1 & G2 & G3 & G4 & G5 & G6 & _).
  eexists. split; [reflexivity|]. split; [|split_and!; try assumption].
  - eapply inv_remove; [exact Hi| | |].
    + apply (rep_ram_only s2); [exact Hr|reflexivity|reflexivity].
    + cbn [s_indexOrderlyRam set_cache]. rewrite G2. apply (inv_ram _ _ _ _ Hi).
    + rewrite (inv_keys _ _ _ _ Hi), !List.filter_app. cbn [List.filter].
      unfold orderly_index at 2. unfold entry_orderly. by rewrite Ho, andb_false_r.
  - exact (eq_trans G4 Hst).
  - exact (f_equal (set_pub_nvIndex TPM_RH_UNASSIGNED) G6).
Qed.

Lemma NvDeleteIndex_orderly s es1 e es2 rs1 r rs2 c idx :
  NvInv s (es1 ++ e :: es2) (rs1 ++ r :: rs2) c → orderly_index e = true →
  ram_key r = index_key e → Forall (λ r', entry_handle r' ≠ entry_handle r) rs1 →
  map ram_key rs1 = map index_key (List.filter orderly_index es1) →
  map ram_key rs2 = map index_key (List.filter orderly_index es2) →
  pub_nvIndex idx = entry_handle e →
  fixed_attributes (pub_attributes idx) = fixed_attributes (pub_attributes e) →
  g_NvStatus s = TPM_RC_SUCCESS →
  (IsNvCounterIndex (pub_attributes idx) = true → pub_dataSize e = 8) →
  let m := deleted_max (s_maxCounter s) (pub_attributes idx) (bread r 8 8) in
  ∃ s', NvDeleteIndex (Some idx) (nv_end es1 + 4) s = Some (TPM_RC_SUCCESS, s') ∧
    NvInv s' (es1 ++ es2) (rs1 ++ rs2) m ∧ s_maxCounter s' = m ∧
    g_NvStatus s' = TPM_RC_SUCCESS ∧ g_inFailureMode s' = g_inFailureMode s ∧
    s_cachedNvIndex s' = set_pub_nvIndex TPM_RH_UNASSIGNED (s_cachedNvIndex s).
Proof.
  intros Hi Hx Hk Hn K1 K2 Eh Ef Hst H8. cbv zeta.
  apply andb_true_iff in Hx as [Hx Ho]. injection Hk as Kh Kl Ka.
  pose proof (inv_ram _ _ _ _ Hi) as Hrr.
  assert (Hor : IS_ATTRIBUTE (pub_attributes idx) TPMA_NV_ORDERLY = true)
    by (rewrite (fixed_IS _ (pub_attributes e)); [exact Ho|done|done]).
  unfold NvDeleteIndex. erewrite bind_Some; cycle 1.
  { apply (delete_update_max _ _ _ (bread r 8 8)). intros [Hc Hwr]%andb_true_iff.
    rewrite (H8 Hc) in Kl.
    apply (NvGetIndexData_ram s rs1 r rs2); (assumption || lia || congruence). }
  set (m := deleted_max _ _ _). set (s1 := set_maxCounter m s).
  destruct (NvDelete_ok s1 es1 e es2 c) as (s2 & Hdel & Hwr & Hr & _);
    [by apply rep_max, (inv_rep _ _ _ _ Hi)|exact Hst|].
  rewrite (bind_Some _ _ _ _ _ Hdel).
  change (negb (TPM_RC_SUCCESS =? TPM_RC_SUCCESS)) with false. cbv iota.
  destruct (nv_written_frame _ _ Hwr) as (G1 & G2 & G3 & G4 & G5 & G6 & _).
  rewrite Hor. destruct (NvDeleteRAM_ok s2 (entry_handle r) rs1 r rs2) as (m3 & Hram & Hrr3);
    [rewrite G2; exact Hrr|exact Hn|reflexivity|].
  rewrite Eh, <- Kh, (bind_Some _ _ _ _ _ Hram). unfold bind, ret, NvIndexCacheInit, modify.
  eexists. split; [reflexivity|]. split; [|split_and!; try assumption].
  - eapply inv_remove; [exact Hi| |exact Hrr3|].
    + apply (rep_ram_only s2); [exact Hr|reflexivity|reflexivity].
    + by rewrite List.filter_app, !map_app, K1, K2.
  - exact (eq_trans G4 Hst).
  - exact (f_equal (set_pub_nvIndex TPM_RH_UNASSIGNED) G6).
Qed.

(** When NV is not available the index stays; the max counter may have been
    staged, which no reader of the index sees. *)
Lemma NvDelete_unavailable s es rs c addr :
  NvInv s es rs c → g_NvStatus s ≠ TPM_RC_SUCCESS →
  NvDelete addr s = Some (g_NvStatus s, s).
Proof.
  intros Hi Hst. unfold NvDelete. cbv zeta.
  rewrite (bind_Some _ _ _ _ _ (NvGetEnd_ok _ _ _ (inv_rep _ _ _ _ Hi))).
  unfold return_if_nv_is_not_available, bind, gets.
  by rewrite (proj2 (Z.eqb_neq _ _)) by done.
Qed.

(** ** Deleting a persistent object *)

Lemma NvDeleteEvict_ok s es1 e es2 rs c :
  NvInv s (es1 ++ e :: es2) rs c → is_index e = false → g_NvStatus s = TPM_RC_SUCCESS →
  ∃ s', NvDeleteEvict (entry_handle e) s = Some (TPM_RC_SUCCESS, s') ∧
    NvInv s' (es1 ++ es2) rs (s_maxCounter s) ∧ g_inFailureMode s' = g_inFailureMode s.
Proof.
  intros Hi Hx Hst. destruct (inv_entry _ _ _ _ _ _ Hi) as (_ & _ & _ & Hlo & _).
  unfold NvDeleteEvict, NvFindEvict. erewrite bind_Some; cycle 1.
  { rewrite (bind_Some _ _ _ _ _ (NvFindHandle_inv _ _ _ _ _ _ Hi)). reflexivity. }
  cbv beta iota. rewrite (proj2 (Z.eqb_neq (nv_end es1 + 4) 0)) by lia. cbn [negb].
  destruct (NvDelete_ok s es1 e es2 c (inv_rep _ _ _ _ Hi) Hst) as (s2 & Hdel & Hwr & Hr & _).
  destruct (nv_written_frame _ _ Hwr) as (G1 & G2 & G3 & G4 & G5 & G6 & _).
  exists s2. split; [exact Hdel|]. split; [|exact G5].
  eapply inv_remove; [exact Hi|exact Hr| |].
  - rewrite G2. apply (inv_ram _ _ _ _ Hi).
  - rewrite (inv_keys _ _ _ _ Hi), !List.filter_app. cbn [List.filter].
    unfold orderly_index at 2. by rewrite Hx.
Qed.

Lemma NvDeleteEvict_missing s es rs c h :
  NvInv s es rs c → h ∉ map entry_handle es → NvDeleteEvict h s = Some (TPM_RC_SUCCESS, s).
Proof.
  intros Hi Hh. unfold NvDeleteEvict, NvFindEvict. erewrite bind_Some; cycle 1.
  { rewrite (bind_Some _ _ _ _ _ (NvFindHandle_none _ _ _ h (inv_rep _ _ _ _ Hi)
      ltac:(apply list.Forall_forall; intros x Hx <-; apply Hh; by apply elem_map))).
    reflexivity. }
  done.
Qed.

(** ** A manufactured TPM has no entities *)

Lemma bwrite_all m d : blen d = blen m → bwrite m 0 d = d.
Proof.
  unfold bwrite, blen. intros E. cbn [Z.to_nat Nat.add]. rewrite take_0. cbn [app].
  rewrite drop_ge by lia. apply app_nil_r.
Qed.

Lemma NvManufacture_ok s :
  nv_ok s → Forall is_byte (nvmem s) → blen (orderly s) = RAM_INDEX_SPACE →
  ∃ s', NvManufacture s = Some (tt, s') ∧ NvInv s' [] [] 0 ∧ s_maxCounter s' = 0 ∧
    g_NvStatus s' = g_NvStatus s ∧ g_inFailureMode s' = g_inFailureMode s ∧
    s_cachedNvIndex s' = s_cachedNvIndex s ∧
    bread (nvmem s') NV_INDEX_RAM_DATA RAM_INDEX_SPACE = orderly s'.
Proof.
  intros Hok Hb Hram. pose proof NV_INDEX_RAM_DATA_pos. pose proof NV_USER_DYNAMIC_bounds as [_ Hub].
  set (z := bfill 0 RAM_INDEX_SPACE).
  assert (Lz : blen z = RAM_INDEX_SPACE) by (apply blen_bfill; unfold RAM_INDEX_SPACE; lia).
  unfold NV_USER_DYNAMIC in Hub.
  unfold NvManufacture, NvInitStatic. unfold bind at 1, modify. unfold bind at 1, modify.
  cbn [s_indexOrderlyRam set_evictNvEnd]. rewrite bwrite_all by (rewrite Hram; exact Lz). fold z.
  set (s1 := set_orderlyRam z (set_evictNvEnd NV_MEMORY_SIZE s)).
  unfold NvUpdateIndexOrderlyData. erewrite bind_Some; cycle 1.
  { unfold bind at 1, gets. cbn [s_indexOrderlyRam set_orderlyRam].
    erewrite bind_Some by (apply NvWrite_ok; [exact Hok|lia|symmetry; exact Lz|lia]). reflexivity. }
  unfold bind at 1, NvSetMaxCount, modify.
  set (s2 := set_maxCounter 0 _).
  assert (Hok2 : nv_ok s2) by (apply (nv_put_ok _ z s1); [exact Hok|lia|rewrite Lz; lia]).
  assert (Hb2 : Forall is_byte (nvmem s2))
    by (apply bwrite_byte; [exact Hb|by apply Forall_replicate]).
  assert (Hu0 : 0 ≤ NV_USER_DYNAMIC) by (pose proof NV_USER_DYNAMIC_bounds; lia).
  assert (Hu1 : NV_USER_DYNAMIC + 12 ≤ NV_MEMORY_SIZE) by (pose proof NV_USER_DYNAMIC_bounds; lia).
  erewrite bind_Some by (apply NvWriteNvListEnd_ok; [exact Hok2|reflexivity|exact Hu0|exact Hu1]).
  eexists. split; [reflexivity|]. change (s_maxCounter s2) with 0.
  assert (Lm : blen (nv_marker 0) = 12) by done.
  assert (Hl2 : blen (nvmem s2) = NV_MEMORY_SIZE) by exact Hok2.
  split; [|split_and!; try reflexivity].
  - constructor; [| |constructor|constructor|reflexivity].
    + constructor; [| |reflexivity| |constructor|].
      * apply nv_put_ok; [exact Hok2|exact Hu0|rewrite Lm; exact Hu1].
      * apply bwrite_byte; [exact Hb2|]. apply Forall_app; split; apply le_bytes_byte.
      * unfold nv_end. rewrite nv_size_nil. lia.
      * rewrite nv_size_nil. cbn [nv_encode map concat app]. apply bread_bwrite_same;
          [exact Hu0|rewrite Lm; change (s_NV _) with (nvmem s2); lia|by rewrite Lm].
    + constructor; [exact Lz|by apply Forall_replicate| |constructor|reflexivity|].
      * rewrite nv_size_nil. unfold RAM_INDEX_SPACE. lia.
      * right. reflexivity.
  - cbn [nvmem nv_put with_nvmem plat set_plat s_NV set_s_NV set_updateNV].
    rewrite bread_bwrite_before by (unfold NV_USER_DYNAMIC in *; rewrite ?Lm;
      change (s_NV _) with (nvmem s2); unfold RAM_INDEX_SPACE in *; lia).
    change (nvmem s2) with (bwrite (nvmem s) NV_INDEX_RAM_DATA z).
    change (orderly (nv_put NV_USER_DYNAMIC (nv_marker 0) s2)) with z.
    apply bread_bwrite_same; [lia| |by rewrite Lz].
    unfold nv_ok in Hok. rewrite Lz, Hok. unfold RAM_INDEX_SPACE in *. lia.
Qed.
End nv_define.
