(* ===== verification/NvFlush.v ===== *)
(** * Operations over all NV entities (src/NVDynamic.c)

    Flushing a hierarchy, the global write lock, and what TPM2_Startup does to
    the indices (lines 1288-1393, 1652-1750). *)

From S2P Require Import Prelude TpmTypes Cbc NVMem NVReserved NvList.
From S2P Require Import NvRam Memory NvIndex NvEntity NvDefine.
Local Open Scope Z_scope.

Section nv_flush.
Context `{NvLayout}.

(** ** [NvFlushHierarchy] *)

(** Bits of [OBJECT_ATTRIBUTES] (Global.h, lines 226-262). *)
Definition EPS_HIERARCHY_BIT : Z := 2.
Definition PPS_HIERARCHY_BIT : Z := 4.
Definition SPS_HIERARCHY_BIT : Z := 8.

Definition object_in_hierarchy (hierarchy attributes : Z) : bool :=
  ((hierarchy =? TPM_RH_PLATFORM) && IS_ATTRIBUTE attributes PPS_HIERARCHY_BIT)
  || ((hierarchy =? TPM_RH_OWNER) && IS_ATTRIBUTE attributes SPS_HIERARCHY_BIT)
  || ((hierarchy =? TPM_RH_ENDORSEMENT) && IS_ATTRIBUTE attributes EPS_HIERARCHY_BIT).

(** The scan from [iter] to the first entity that is deleted: [None] at the end
    of the list, [Some result] after a deletion. *)
Fixpoint flush_scan (fuel : nat) (hierarchy iter entityHandle : Z) : M NvState (option Z) :=
  match fuel with
  | O => undef
  | S fuel =>
      let! '(currentAddr, iter, entityHandle) := NvNext iter entityHandle in
      if currentAddr =? 0 then ret None
      else if HandleGetType entityHandle =? TPM_HT_NV_INDEX then
        if (hierarchy =? TPM_RH_ENDORSEMENT) || (hierarchy =? TPM_RH_PLATFORM)
        then flush_scan fuel hierarchy iter entityHandle
        else
          let! nvIndex := NvReadNvIndexInfo currentAddr in
          if negb (IS_ATTRIBUTE (pub_attributes nvIndex) TPMA_NV_PLATFORMCREATE)
          then let! result := NvDeleteIndex (Some nvIndex) currentAddr in ret (Some result)
          else flush_scan fuel hierarchy iter entityHandle
      else if HandleGetType entityHandle =? TPM_HT_PERSISTENT then
        let! b := NvRead (u32 (currentAddr + 4)) 4 in
        if object_in_hierarchy hierarchy (le_val b)
        then let! result := NvDelete currentAddr in ret (Some result)
        else flush_scan fuel hierarchy iter entityHandle
      else modify set_failure ;; flush_scan fuel hierarchy iter entityHandle
  end.

(** The loop starts again from the beginning after each deletion. *)
Fixpoint flush_loop (fuel : nat) (hierarchy : Z) : M NvState Z :=
  match fuel with
  | O => undef
  | S fuel =>
      let! r := flush_scan nv_fuel hierarchy NV_REF_INIT 0 in
      match r with
      | None => ret TPM_RC_SUCCESS
      | Some result =>
          if negb (result =? TPM_RC_SUCCESS) then ret result else flush_loop fuel hierarchy
      end
  end.

Definition NvFlushHierarchy (hierarchy : Z) : M NvState Z := flush_loop nv_fuel hierarchy.

(** ** [NvSetGlobalLock] *)

(** [while((currentRamAddr = NvRamNext(&ramIter, NULL)) != 0) body]. *)
Fixpoint ram_while (fuel : nat) (body : Z → M NvState unit) (iter : option Z) : M NvState unit :=
  match fuel with
  | O => undef
  | S fuel =>
      let! '(currentRamAddr, iter, _) := NvRamNext iter 0 in
      match currentRamAddr with
      | None => ret tt
      | Some a => body a ;; ram_while fuel body (Some iter)
      end
  end.

(** The loop returns at the first error. *)
Definition lock_index (currentAddr _h _result : Z) : M NvState Z :=
  let! attributes := NvReadNvIndexAttributes currentAddr in
  if negb (IS_ATTRIBUTE attributes TPMA_NV_ORDERLY) && IS_ATTRIBUTE attributes TPMA_NV_GLOBALLOCK
  then NvWriteNvIndexAttributes currentAddr (SET_ATTRIBUTE attributes TPMA_NV_WRITELOCKED)
  else ret TPM_RC_SUCCESS.

Definition lock_ram_index (currentRamAddr : Z) : M NvState unit :=
  let! attributes := NvReadRamIndexAttributes (Some currentRamAddr) in
  if IS_ATTRIBUTE attributes TPMA_NV_GLOBALLOCK
  then NvWriteRamIndexAttributes (Some currentRamAddr)
         (SET_ATTRIBUTE attributes TPMA_NV_WRITELOCKED)
  else ret tt.

Definition NvSetGlobalLock : M NvState Z :=
  let! result := nv_while (λ r, negb (r =? TPM_RC_SUCCESS)) nv_fuel NvNextIndex lock_index
                   NV_REF_INIT TPM_RC_SUCCESS in
  if negb (result =? TPM_RC_SUCCESS) then ret result
  else ram_while ram_fuel lock_ram_index None ;; ret result.

(** ** TPM2_Startup *)

Definition NvSetStartupAttributes (attributes : Z) (type : STARTUP_TYPE) : Z :=
  let attributes := CLEAR_ATTRIBUTE attributes TPMA_NV_READLOCKED in
  let attributes :=
    if negb (IsNvCounterIndex attributes)
       && (IS_ATTRIBUTE attributes TPMA_NV_CLEAR_STCLEAR
           || (IS_ATTRIBUTE attributes TPMA_NV_ORDERLY && bool_decide (type = SU_RESET)))
    then CLEAR_ATTRIBUTE attributes TPMA_NV_WRITTEN else attributes in
  if negb (IS_ATTRIBUTE attributes TPMA_NV_WRITTEN)
     || negb (IS_ATTRIBUTE attributes TPMA_NV_WRITEDEFINE)
  then CLEAR_ATTRIBUTE attributes TPMA_NV_WRITELOCKED else attributes.

Definition startup_index (type : STARTUP_TYPE) (currentAddr _h : Z) (_u : unit) : M NvState unit :=
  let! attributes := NvReadNvIndexAttributes currentAddr in
  if IS_ATTRIBUTE attributes TPMA_NV_ORDERLY then ret tt
  else NvWriteNvIndexAttributes currentAddr (NvSetStartupAttributes attributes type) ;; ret tt.

Definition startup_ram_index (type : STARTUP_TYPE) (currentRamAddr : Z) : M NvState unit :=
  let! attributes := NvReadRamIndexAttributes (Some currentRamAddr) in
  let attributes := NvSetStartupAttributes attributes type in
  NvWriteRamIndexAttributes (Some currentRamAddr) attributes ;;
  let! prev := gets g_prevOrderlyState in
  if IsNvCounterIndex attributes && (prev =? SU_NONE_VALUE) then
    let! b := ram_read (currentRamAddr + sizeof_NV_RAM_HEADER) 8 in
    let counter := Z.lor (ByteArrayToUint64 b) MAX_ORDERLY_COUNT in
    ram_write (currentRamAddr + sizeof_NV_RAM_HEADER) (Uint64ToByteArray counter)
  else ret tt.

Definition NvEntityStartup (type : STARTUP_TYPE) : M NvState bool :=
  let! m := NvRead NV_INDEX_RAM_DATA RAM_INDEX_SPACE in
  modify (set_orderlyRam m) ;;
  let! maxCount := NvGetMaxCount in
  NvSetMaxCount maxCount ;;
  if bool_decide (type = SU_RESUME) then ret true
  else
    nv_while no_stop nv_fuel NvNextIndex (startup_index type) NV_REF_INIT tt ;;
    ram_while ram_fuel (startup_ram_index type) None ;;
    ret true.

(** ** Flushing deletes exactly the entities of the hierarchy *)

Definition flushable (hierarchy : Z) (e : bytes) : bool :=
  if is_index e
  then negb ((hierarchy =? TPM_RH_ENDORSEMENT) || (hierarchy =? TPM_RH_PLATFORM))
       && negb (IS_ATTRIBUTE (pub_attributes e) TPMA_NV_PLATFORMCREATE)
  else object_in_hierarchy hierarchy (le_val (bread e 4 4)).

(** TPM2_NV_DefineSpace gives every counter eight octets of data. *)
Definition counters_ok (es : list bytes) : Prop :=
  Forall (λ e, counter_index e = true → pub_dataSize e = 8) es.

(** What the deletion of entity [e] leaves: the entities [es'], the RAM data of
    those, NV still available, no failure, and a max counter that has not gone
    back and that covers the value of [e] if it was a counter in NV memory. *)
Definition deleted (s s' : NvState) (e : bytes) (es' rs : list bytes) : Prop :=
  ∃ rs' c', NvInv s' es' rs' c' ∧ rs' `sublist_of` rs ∧ g_NvStatus s' = TPM_RC_SUCCESS ∧
    g_inFailureMode s' = g_inFailureMode s ∧ s_maxCounter s ≤ s_maxCounter s' ∧
    (is_index e = true → entry_orderly e = false →
     IsNvCounterIndex (pub_attributes e) && IS_ATTRIBUTE (pub_attributes e) TPMA_NV_WRITTEN = true →
     ByteArrayToUint64 (bread e 148 8) ≤ s_maxCounter s').

(** Deleting the entity that follows [es1], as [NvFlushHierarchy] does it. *)
Lemma delete_entity s es1 e es2 rs c :
  NvInv s (es1 ++ e :: es2) rs c → g_NvStatus s = TPM_RC_SUCCESS → counters_ok [e] →
  ∃ s', (if is_index e then NvDeleteIndex (Some (bread e 0 148)) (nv_end es1 + 4)
         else NvDelete (nv_end es1 + 4)) s = Some (TPM_RC_SUCCESS, s') ∧
    deleted s s' e (es1 ++ es2) rs.
Proof.
  intros Hi Hst Hc8. apply Forall_cons_1 in Hc8 as [Hc8 _].
  destruct (inv_entry _ _ _ _ _ _ Hi) as (Hw & _ & Hb & Hlo & Hhi).
  unfold counter_index in Hc8.
  destruct (is_index e) eqn:Hx; cbn [andb] in Hc8.
  - pose proof (is_index_len _ Hw Hb Hx) as Hel. destruct (pub_of_view e Hel) as (Vh & Va & Vd).
    assert (Hmono : ∀ m a d, m ≤ deleted_max m a d)
      by (intros; unfold deleted_max; case_match; lia).
    destruct (entry_orderly e) eqn:Ho.
    + assert (Hox : orderly_index e = true) by (unfold orderly_index; by rewrite Hx, Ho).
      destruct (inv_ram_split _ _ _ _ _ _ Hi Hox)
        as (rs1 & r & rs2 & -> & Eh & El & Ef & Hn & K1 & K2).
      destruct (NvDeleteIndex_orderly s es1 e es2 rs1 r rs2 c (bread e 0 148))
        as (s' & Hs' & Hi' & Hm & Hst' & Hf & _); try assumption.
      * unfold ram_key, index_key. rewrite Eh, El, Ef. do 2 f_equal. lia.
      * by rewrite Eh.
      * by rewrite Va.
      * by rewrite Va.
      * exists s'. split; [exact Hs'|]. eexists _, _. split; [exact Hi'|].
        split; [apply sublist_app; [done|by apply sublist_cons]|].
        split; [exact Hst'|]. split; [exact Hf|]. split; [rewrite Hm; apply Hmono|].
        intros _ Hno. congruence.
    + destruct (NvDeleteIndex_normal s es1 e es2 rs c (bread e 0 148))
        as (s' & Hs' & Hi' & Hm & Hst' & Hf & _); try assumption; [reflexivity|].
      exists s'. split; [exact Hs'|]. eexists _, _. split; [exact Hi'|]. split; [done|].
      split; [exact Hst'|]. split; [exact Hf|]. split; [rewrite Hm; apply Hmono|].
      intros _ _ Hcw. rewrite Hm. unfold deleted_max. rewrite Hcw. lia.
  - destruct (NvDelete_ok s es1 e es2 c (inv_rep _ _ _ _ Hi) Hst) as (s2 & Hdel & Hwr & Hr & _).
    destruct (nv_written_frame _ _ Hwr) as (G1 & G2 & G3 & G4 & G5 & G6 & _).
    exists s2. split; [exact Hdel|]. eexists rs, _. split.
    + eapply inv_remove; [exact Hi|exact Hr| |].
      * rewrite G2. apply (inv_ram _ _ _ _ Hi).
      * rewrite (inv_keys _ _ _ _ Hi), !List.filter_app. cbn [List.filter].
        unfold orderly_index at 2. by rewrite Hx.
    + split; [done|]. split; [congruence|]. split; [exact G5|]. split; [rewrite G3; lia|].
      intros Hxx. congruence.
Qed.

(** One pass: to the end, or to the first entity to delete. *)
Lemma flush_scan_spec hierarchy s rs c fuel es1 es2 h0 :
  NvInv s (es1 ++ es2) rs c → g_NvStatus s = TPM_RC_SUCCESS → counters_ok es2 →
  (length es2 < fuel)%nat →
  (List.filter (flushable hierarchy) es2 = [] ∧
     flush_scan fuel hierarchy (nv_end es1) h0 s = Some (None, s)) ∨
  (∃ pre e post s', es2 = pre ++ e :: post ∧ flushable hierarchy e = true ∧
     List.filter (flushable hierarchy) pre = [] ∧
     flush_scan fuel hierarchy (nv_end es1) h0 s = Some (Some TPM_RC_SUCCESS, s') ∧
     deleted s s' e (es1 ++ pre ++ post) rs).
Proof.
  revert es1 es2 h0. induction fuel as [|fuel IH]; intros es1 es2 h0 Hi Hst Hc8 Hf; [lia|].
  pose proof (inv_rep _ _ _ _ Hi) as Hr. cbn [flush_scan]. destruct es2 as [|e es2].
  { left. split; [done|]. rewrite app_nil_r in Hr.
    rewrite (bind_Some _ _ _ _ _ (NvNext_last _ _ _ _ Hr)). done. }
  rewrite (bind_Some _ _ _ _ _ (NvNext_entry _ _ _ _ _ _ Hr)).
  destruct (inv_entry _ _ _ _ _ _ Hi) as (Hw & _ & Hb & Hlo & Hhi).
  rewrite (proj2 (Z.eqb_neq (nv_end es1 + 4) 0)) by lia.
  pose proof (Forall_cons_1 _ _ _ Hc8) as [Hce Hc8'].
  destruct (delete_entity s es1 e es2 rs c Hi Hst) as (s' & Hdel & Hpost);
    [constructor; [exact Hce|constructor]|].
  (* the entity is kept: the pass goes on *)
  assert (Hkeep : flushable hierarchy e = false →
    ∀ k, (k = flush_scan fuel hierarchy (nv_end (es1 ++ [e])) (entry_handle e)) →
    (List.filter (flushable hierarchy) (e :: es2) = [] ∧ k s = Some (None, s)) ∨
    (∃ pre e0 post s', e :: es2 = pre ++ e0 :: post ∧ flushable hierarchy e0 = true ∧
     List.filter (flushable hierarchy) pre = [] ∧ k s = Some (Some TPM_RC_SUCCESS, s') ∧
     deleted s s' e0 (es1 ++ pre ++ post) rs)).
  { intros Hfl k ->. assert (Hi' := Hi). rewrite cons_middle, app_assoc in Hi'.
    destruct (IH (es1 ++ [e]) es2 (entry_handle e) Hi' Hst Hc8') as [[Hn Hs]|Hx];
      [simpl in Hf; lia| |].
    - left. cbn [List.filter]. rewrite Hfl. split; assumption.
    - right. destruct Hx as (pre & e0 & post & s0 & -> & Hf0 & Hp & Hs & Hd).
      exists (e :: pre), e0, post, s0. split; [done|]. split; [exact Hf0|].
      split; [cbn [List.filter]; by rewrite Hfl|]. split; [exact Hs|].
      rewrite <- app_assoc in Hd. exact Hd. }
  (* the entity is deleted: the pass ends *)
  assert (Hgone : flushable hierarchy e = true →
    ∀ k, k s = Some (Some TPM_RC_SUCCESS, s') →
    ∃ pre e0 post s', e :: es2 = pre ++ e0 :: post ∧ flushable hierarchy e0 = true ∧
     List.filter (flushable hierarchy) pre = [] ∧ k s = Some (Some TPM_RC_SUCCESS, s') ∧
     deleted s s' e0 (es1 ++ pre ++ post) rs).
  { intros Hfl k Hk. exists [], e, es2, s'. split; [reflexivity|].
    split; [exact Hfl|]. split; [reflexivity|]. split; [exact Hk|exact Hpost]. }
  pose proof (eq_refl : flushable hierarchy e = _) as Hfl. unfold flushable at 2 in Hfl.
  change (HandleGetType (entry_handle e) =? TPM_HT_NV_INDEX) with (is_index e).
  change (HandleGetType (entry_handle e) =? TPM_HT_PERSISTENT) with (is_persistent e).
  destruct (is_index e) eqn:Hx.
  - pose proof (is_index_len _ Hw Hb Hx) as Hel. destruct (pub_of_view e Hel) as (_ & Va & _).
    destruct ((hierarchy =? TPM_RH_ENDORSEMENT) || (hierarchy =? TPM_RH_PLATFORM)) eqn:Eh;
      cbn [negb andb] in Hfl; [exact (Hkeep Hfl _ eq_refl)|].
    rewrite (bind_Some _ _ _ _ _ (NvReadNvIndexInfo_ok _ _ _ _ _ Hr Hel)). rewrite Va.
    destruct (IS_ATTRIBUTE (pub_attributes e) TPMA_NV_PLATFORMCREATE); cbn [negb] in Hfl |- *;
      [exact (Hkeep Hfl _ eq_refl)|].
    right. apply (Hgone Hfl). by rewrite (bind_Some _ _ _ _ _ Hdel).
  - destruct Hw as [Hw]. rewrite Hx in Hw. destruct Hw as [Hp Hl]. rewrite Hp.
    pose proof layout_evictHandle. rewrite u32_nv by lia.
    erewrite bind_Some by (eapply NvRead_entry; [exact Hr|lia..]).
    destruct (object_in_hierarchy hierarchy (le_val (bread e 4 4)));
      [|exact (Hkeep Hfl _ eq_refl)].
    right. apply (Hgone Hfl). by rewrite (bind_Some _ _ _ _ _ Hdel).
Qed.

Lemma flush_scan_init fuel hierarchy s h :
  flush_scan fuel hierarchy NV_REF_INIT h s = flush_scan fuel hierarchy (nv_end []) h s.
Proof. destruct fuel; [done|]. cbn [flush_scan]. unfold bind. by rewrite NvNext_init. Qed.

Definition kept (hierarchy : Z) (e : bytes) : bool := negb (flushable hierarchy e).

Lemma filter_kept_all hierarchy l :
  List.filter (flushable hierarchy) l = [] → List.filter (kept hierarchy) l = l.
Proof.
  induction l as [|e l IH]; [done|]. cbn [List.filter]. unfold kept at 1.
  destruct (flushable hierarchy e); [done|]. cbn [negb]. intros. by rewrite IH.
Qed.

Lemma counters_ok_app l1 l2 : counters_ok (l1 ++ l2) ↔ counters_ok l1 ∧ counters_ok l2.
Proof. apply Forall_app. Qed.

Lemma flush_loop_spec hierarchy fuel s es rs c :
  NvInv s es rs c → g_NvStatus s = TPM_RC_SUCCESS → counters_ok es →
  (length (List.filter (flushable hierarchy) es) < fuel)%nat →
  ∃ s' rs' c', flush_loop fuel hierarchy s = Some (TPM_RC_SUCCESS, s') ∧
    NvInv s' (List.filter (kept hierarchy) es) rs' c' ∧ rs' `sublist_of` rs ∧
    g_NvStatus s' = TPM_RC_SUCCESS ∧ g_inFailureMode s' = g_inFailureMode s ∧
    s_maxCounter s ≤ s_maxCounter s' ∧
    (∀ e, e ∈ es → flushable hierarchy e = true → is_index e = true → entry_orderly e = false →
     IsNvCounterIndex (pub_attributes e) && IS_ATTRIBUTE (pub_attributes e) TPMA_NV_WRITTEN = true →
     ByteArrayToUint64 (bread e 148 8) ≤ s_maxCounter s').
Proof.
  revert s es rs c. induction fuel as [|fuel IH]; intros s es rs c Hi Hst Hc8 Hf; [lia|].
  cbn [flush_loop].
  destruct (flush_scan_spec hierarchy s rs c nv_fuel [] es 0 Hi Hst Hc8
    (nv_fuel_enough _ _ _ (inv_rep _ _ _ _ Hi)))
    as [[Hn Hs]|(pre & e & post & s1 & -> & Hfl & Hp & Hs & Hd)];
    rewrite <- flush_scan_init in Hs; rewrite (bind_Some _ _ _ _ _ Hs).
  - exists s, rs, c. rewrite (filter_kept_all _ _ Hn). split; [reflexivity|].
    split; [exact Hi|]. split; [done|]. split; [exact Hst|]. split; [reflexivity|].
    split; [lia|]. intros e He Hfl. exfalso.
    assert (Hin : e ∈ List.filter (flushable hierarchy) es) by (by apply elem_filter).
    rewrite Hn in Hin. by apply not_elem_of_nil in Hin.
  - change (negb (TPM_RC_SUCCESS =? TPM_RC_SUCCESS)) with false. cbv iota.
    destruct Hd as (rs1 & c1 & Hi1 & Hsub & Hst1 & Hfm & Hmax & Hval).
    apply counters_ok_app in Hc8 as [Hc1 Hc2].
    destruct (IH s1 (pre ++ post) rs1 c1 Hi1 Hst1)
      as (s2 & rs2 & c2 & Hs2 & Hi2 & Hsub2 & Hst2 & Hfm2 & Hmax2 & Hval2).
    { apply counters_ok_app. split; [exact Hc1|]. by apply Forall_cons_1 in Hc2 as [_ Hc2]. }
    { rewrite !List.filter_app, Hp in *. cbn [List.filter] in Hf. rewrite Hfl in Hf.
      cbn [length app] in *. lia. }
    exists s2, rs2, c2. split; [exact Hs2|]. split.
    { rewrite !List.filter_app in *. cbn [List.filter]. unfold kept at 2. by rewrite Hfl. }
    split; [by transitivity rs1|]. split; [exact Hst2|]. split; [congruence|]. split; [lia|].
    intros x Hx Hxf Hxi Hxo Hxw. apply elem_of_app in Hx as [Hx|Hx].
    + apply Hval2; try assumption. apply elem_of_app. by left.
    + apply elem_of_cons in Hx as [->|Hx]; [|apply Hval2; try assumption; apply elem_of_app; by right].
      specialize (Hval Hxi Hxo Hxw). lia.
Qed.

Lemma NvFlushHierarchy_ok hierarchy s es rs c :
  NvInv s es rs c → g_NvStatus s = TPM_RC_SUCCESS → counters_ok es →
  ∃ s' rs' c', NvFlushHierarchy hierarchy s = Some (TPM_RC_SUCCESS, s') ∧
    NvInv s' (List.filter (kept hierarchy) es) rs' c' ∧ rs' `sublist_of` rs ∧
    g_inFailureMode s' = g_inFailureMode s ∧ s_maxCounter s ≤ s_maxCounter s' ∧
    (∀ e, e ∈ es → flushable hierarchy e = true → is_index e = true → entry_orderly e = false →
     IsNvCounterIndex (pub_attributes e) && IS_ATTRIBUTE (pub_attributes e) TPMA_NV_WRITTEN = true →
     ByteArrayToUint64 (bread e 148 8) ≤ s_maxCounter s').
Proof.
  intros Hi Hst Hc8.
  destruct (flush_loop_spec hierarchy nv_fuel s es rs c Hi Hst Hc8)
    as (s' & rs' & c' & Hs & Hi' & Hsub & _ & Hfm & Hmax & Hval).
  { pose proof (filter_length_le (flushable hierarchy) es).
    pose proof (nv_fuel_enough _ _ _ (inv_rep _ _ _ _ Hi)). lia. }
  exists s', rs', c'. split_and!; assumption.
Qed.

(** ** Scans that change attributes in place *)

(** The RAM scan maps every element. *)
Lemma ram_while_spec (body : Z → M NvState unit) (P : NvState → Prop) (Q : bytes → Prop)
    (g : bytes → bytes) :
  (∀ s rs1 r rs2, P s → RamRep (orderly s) (rs1 ++ r :: rs2) → Q r →
     ∃ s', body (nv_size rs1) s = Some (tt, s') ∧ P s' ∧
       RamRep (orderly s') (rs1 ++ g r :: rs2) ∧ blen (g r) = blen r) →
  ∀ fuel s rs1 rs2, P s → RamRep (orderly s) (rs1 ++ rs2) → Forall Q rs2 →
  (length rs2 < fuel)%nat →
  ∃ s', ram_while fuel body (Some (nv_size rs1)) s = Some (tt, s') ∧ P s' ∧
    RamRep (orderly s') (rs1 ++ map g rs2).
Proof.
  intros Hbody fuel. induction fuel as [|fuel IH]; intros s rs1 rs2 HP Hr HQ Hf; [lia|].
  cbn [ram_while]. destruct rs2 as [|r rs2].
  - rewrite app_nil_r in Hr. rewrite (bind_Some _ _ _ _ _ (NvRamNext_last _ _ _ Hr)).
    exists s. cbn [map]. rewrite app_nil_r. split; [reflexivity|]. split; assumption.
  - rewrite (bind_Some _ _ _ _ _ (NvRamNext_entry _ _ _ _ _ Hr)).
    apply Forall_cons_1 in HQ as [HQr HQ].
    destruct (Hbody s rs1 r rs2 HP Hr HQr) as (s1 & Hb & HP1 & Hr1 & Hl).
    rewrite (bind_Some _ _ _ _ _ Hb).
    assert (He : nv_size (rs1 ++ [r]) = nv_size (rs1 ++ [g r]))
      by (rewrite !nv_size_app, !nv_size_cons, Hl; lia).
    rewrite He. rewrite cons_middle, app_assoc in Hr1.
    destruct (IH s1 _ rs2 HP1 Hr1 HQ) as (s2 & Hs2 & HP2 & Hr2); [simpl in Hf; lia|].
    exists s2. split; [exact Hs2|]. split; [exact HP2|]. cbn [map].
    by rewrite <- app_assoc in Hr2.
Qed.

Lemma ram_while_init fuel body s :
  ram_while fuel body None s = ram_while fuel body (Some (nv_size [])) s.
Proof. by destruct fuel. Qed.

(** Writing the attributes of an index in NV memory. *)
Lemma write_attributes_entry s es1 e es2 c a :
  NvRep s (es1 ++ e :: es2) c → g_NvStatus s = TPM_RC_SUCCESS → sizeof_NV_INDEX ≤ blen e →
  ∃ s', NvWriteNvIndexAttributes (nv_end es1 + 4) a s = Some (TPM_RC_SUCCESS, s') ∧
    NvRep s' (es1 ++ set_pub_attributes a e :: es2) c ∧ nv_only s s'.
Proof.
  intros Hr Hst Hl. unfold sizeof_NV_INDEX in Hl.
  destruct (nv_end_not_init _ _ _ _ Hr) as (_ & Hlo & Hhi). rewrite nv_size_cons in Hhi.
  pose proof (nv_size_nonneg es2).
  unfold NvWriteNvIndexAttributes, offsetof_attributes. rewrite u32_nv by lia.
  destruct (NvConditionallyWrite_ok s (nv_end es1 + 4 + 8) (le_bytes 4 a) 4)
    as (s' & Hs & Hm & Hf); [apply (rep_len _ _ _ Hr)|exact Hst|lia|by rewrite blen_le_bytes|lia|].
  exists s'. split; [exact Hs|]. split; [|exact Hf].
  destruct (nv_only_frame _ _ Hf) as (F1 & _).
  eapply rep_update; [exact Hr|unfold offsetof_attributes; lia|
    rewrite blen_le_bytes; unfold offsetof_attributes; lia|apply le_bytes_byte|exact F1|exact Hm].
Qed.

(** Writing the attributes of a RAM element. *)
Lemma write_attributes_ram s rs1 r rs2 a :
  RamRep (orderly s) (rs1 ++ r :: rs2) →
  ∃ m, NvWriteRamIndexAttributes (Some (nv_size rs1)) a s = Some (tt, set_orderlyRam m s) ∧
    RamRep m (rs1 ++ set_ram_attributes a r :: rs2).
Proof.
  intros Hr. destruct (ram_elem _ _ _ _ Hr) as (_ & _ & H8).
  unfold NvWriteRamIndexAttributes, ram_offsetof_attributes.
  replace (nv_size rs1 + 8) with (nv_size rs1 + 4 + 4) by lia.
  apply ram_write_elem; [exact Hr|lia|rewrite blen_le_bytes; lia|apply le_bytes_byte].
Qed.

(** The invariant after the attributes of all indices were changed within the
    attributes that may change. *)
Lemma inv_map_attributes s s' es rs c (fe fr : bytes → bytes) :
  NvInv s es rs c → NvRep s' (map (λ e, if is_index e then fe e else e) es) c →
  RamRep (orderly s') (map fr rs) →
  (∀ e, e ∈ es → is_index e = true → blen (fe e) = blen e ∧ entry_handle (fe e) = entry_handle e ∧
     pub_dataSize (fe e) = pub_dataSize e ∧
     fixed_attributes (pub_attributes (fe e)) = fixed_attributes (pub_attributes e)) →
  (∀ r, r ∈ rs → ram_key (fr r) = ram_key r) →
  NvInv s' (map (λ e, if is_index e then fe e else e) es) (map fr rs) c.
Proof.
  intros Hi Hr Hrr He Hfr. set (g := λ e, if is_index e then fe e else e) in *.
  assert (Hg : ∀ e, e ∈ es → entry_handle (g e) = entry_handle e ∧ index_key (g e) = index_key e ∧
    orderly_index (g e) = orderly_index e ∧ (entry_wf e → entry_wf (g e))).
  { intros e Hin. unfold g. destruct (is_index e) eqn:Hx; [|split_and!; [reflexivity..|exact id]].
    destruct (He e Hin Hx) as (E1 & E2 & E3 & E4).
    assert (Ei : is_index (fe e) = is_index e) by (unfold is_index, is_type; by rewrite E2).
    assert (Eo : entry_orderly (fe e) = entry_orderly e) by (by apply fixed_IS).
    split; [exact E2|]. split; [unfold index_key; by rewrite E2, E3, E4|].
    split; [unfold orderly_index; by rewrite Ei, Eo|].
    intros [Hw]. constructor. rewrite Ei, Hx, Eo, E1, E3. by rewrite Hx in Hw. }
  clearbody g. constructor; [exact Hr|exact Hrr|..].
  - pose proof (inv_wf _ _ _ _ Hi) as Hw. rewrite list.Forall_forall in Hw |- *.
    intros x (e & -> & Hin)%elem_map_inv. destruct (Hg e Hin) as (_ & _ & _ & Hgw). exact (Hgw (Hw e Hin)).
  - pose proof (inv_nodup _ _ _ _ Hi) as Hn. rewrite map_map.
    erewrite map_ext_in; [exact Hn|]. intros e Hin.
    apply list_elem_of_In in Hin. exact (proj1 (Hg e Hin)).
  - pose proof (inv_keys _ _ _ _ Hi) as Hk. rewrite map_map.
    rewrite (map_ext_in _ ram_key) by (intros r Hin; apply list_elem_of_In in Hin; exact (Hfr r Hin)).
    rewrite Hk. clear Hk Hi Hr Hrr He Hfr. induction es as [|e es IH]; [done|].
    cbn [map List.filter]. destruct (Hg e) as (_ & K1 & K2 & _); [by left|]. rewrite K2.
    assert (IH' := IH ltac:(intros x Hx; apply Hg; by right)).
    destruct (orderly_index e); [|exact IH']. cbn [map]. by rewrite K1, IH'.
Qed.

(** ** The global write lock *)

Definition lock_entry (e : bytes) : bytes :=
  if negb (entry_orderly e) && IS_ATTRIBUTE (pub_attributes e) TPMA_NV_GLOBALLOCK
  then set_pub_attributes (SET_ATTRIBUTE (pub_attributes e) TPMA_NV_WRITELOCKED) e else e.
Definition lock_ram (r : bytes) : bytes :=
  if IS_ATTRIBUTE (ram_attributes r) TPMA_NV_GLOBALLOCK
  then set_ram_attributes (SET_ATTRIBUTE (ram_attributes r) TPMA_NV_WRITELOCKED) r else r.

Lemma SET_writelocked_range a :
  0 ≤ a < 4294967296 → 0 ≤ SET_ATTRIBUTE a TPMA_NV_WRITELOCKED < 4294967296.
Proof. intros. apply lor_u32_range; [done|]. change TPMA_NV_WRITELOCKED with 2048. lia. Qed.

(** A change of the attributes within those that may change. *)
Lemma set_attributes_fixed e a :
  sizeof_NV_INDEX ≤ blen e → 0 ≤ a < 4294967296 →
  fixed_attributes a = fixed_attributes (pub_attributes e) →
  blen (set_pub_attributes a e) = blen e ∧
  entry_handle (set_pub_attributes a e) = entry_handle e ∧
  pub_dataSize (set_pub_attributes a e) = pub_dataSize e ∧
  fixed_attributes (pub_attributes (set_pub_attributes a e)) = fixed_attributes (pub_attributes e).
Proof.
  intros Hl Ha Hf. destruct (pub_set_attributes e a Hl Ha) as (P1 & P2 & P3 & P4 & _).
  rewrite P4. split_and!; assumption.
Qed.

Lemma set_ram_attributes_key r a :
  8 ≤ blen r → 0 ≤ a < 4294967296 →
  fixed_attributes a = fixed_attributes (ram_attributes r) →
  ram_key (set_ram_attributes a r) = ram_key r.
Proof.
  intros Hl Ha Hf. destruct (ram_set_attributes r a Hl Ha) as (P1 & P2 & P3).
  unfold ram_key. by rewrite P1, P2, P3, Hf.
Qed.

(** Facts about every entity and RAM element under the invariant. *)
Lemma inv_index_facts s es rs c e :
  NvInv s es rs c → e ∈ es → is_index e = true →
  sizeof_NV_INDEX ≤ blen e ∧ Forall is_byte e ∧ 0 ≤ pub_attributes e < 4294967296.
Proof.
  intros Hi Hin Hx. pose proof (inv_wf _ _ _ _ Hi) as Hw.
  pose proof (rep_entries _ _ _ (inv_rep _ _ _ _ Hi)) as He.
  rewrite list.Forall_forall in Hw, He. destruct (He e Hin) as [_ Hb].
  split; [|split; [exact Hb|by apply pub_attributes_range]].
  exact (is_index_len _ (Hw e Hin) Hb Hx).
Qed.

Lemma ram_facts m rs r :
  RamRep m rs → r ∈ rs → 8 ≤ blen r ∧ Forall is_byte r ∧ 0 ≤ ram_attributes r < 4294967296.
Proof.
  intros Hr Hin. pose proof (ram_entries _ _ Hr) as He. rewrite list.Forall_forall in He.
  destruct (He r Hin) as [H8 Hb]. split; [exact H8|]. split; [exact Hb|].
  by apply ram_attributes_range.
Qed.

Lemma lock_entry_fixed e :
  sizeof_NV_INDEX ≤ blen e → 0 ≤ pub_attributes e < 4294967296 →
  blen (lock_entry e) = blen e ∧ entry_handle (lock_entry e) = entry_handle e ∧
  pub_dataSize (lock_entry e) = pub_dataSize e ∧
  fixed_attributes (pub_attributes (lock_entry e)) = fixed_attributes (pub_attributes e).
Proof.
  intros Hl Ha. unfold lock_entry. case_match; [|split_and!; reflexivity].
  apply set_attributes_fixed; [exact Hl|by apply SET_writelocked_range|by apply fixed_SET].
Qed.

Lemma lock_ram_key r :
  8 ≤ blen r → 0 ≤ ram_attributes r < 4294967296 → ram_key (lock_ram r) = ram_key r.
Proof.
  intros Hl Ha. unfold lock_ram. case_match; [|reflexivity].
  apply set_ram_attributes_key; [exact Hl|by apply SET_writelocked_range|by apply fixed_SET].
Qed.

Lemma blen_of_key r r' : ram_key r = ram_key r' → blen r = blen r'.
Proof. intros [= _ E _]. lia. Qed.

(** What the loops rely on holds of every index. *)
Lemma index_facts_all s es rs c :
  NvInv s es rs c →
  Forall (λ e, sizeof_NV_INDEX ≤ blen e ∧ 0 ≤ pub_attributes e < 4294967296)
    (List.filter (is_type TPM_HT_NV_INDEX) es).
Proof.
  intros Hi. apply list.Forall_forall. intros e [Hin Hx]%elem_filter.
  destruct (inv_index_facts _ _ _ _ _ Hi Hin Hx) as (? & _ & ?). by split.
Qed.

(** The loop over the indices in NV memory. *)
(** The max counter and the cached index are as before. *)
Definition same_counter (s s' : NvState) : Prop :=
  s_maxCounter s' = s_maxCounter s ∧ s_cachedNvIndex s' = s_cachedNvIndex s.

Lemma same_counter_trans s1 s2 s3 : same_counter s1 s2 → same_counter s2 s3 → same_counter s1 s3.
Proof. unfold same_counter. intros [] []. split; congruence. Qed.

Lemma lock_indices_ok s es rs c :
  NvInv s es rs c → g_NvStatus s = TPM_RC_SUCCESS →
  ∃ s1, nv_while (λ r, negb (r =? TPM_RC_SUCCESS)) nv_fuel NvNextIndex lock_index NV_REF_INIT
      TPM_RC_SUCCESS s = Some (TPM_RC_SUCCESS, s1) ∧
    RamRep (orderly s1) rs ∧ g_inFailureMode s1 = g_inFailureMode s ∧ same_counter s s1 ∧
    NvRep s1 (map (λ e, if is_index e then lock_entry e else e) es) c.
Proof.
  intros Hi Hst. pose proof (inv_rep _ _ _ _ Hi) as Hr. pose proof (inv_ram _ _ _ _ Hi) as Hrr.
  set (P1 := λ s1, RamRep (orderly s1) rs ∧ g_NvStatus s1 = TPM_RC_SUCCESS ∧
                   g_inFailureMode s1 = g_inFailureMode s ∧ same_counter s s1).
  destruct (nv_while_spec TPM_HT_NV_INDEX (λ r, negb (r =? TPM_RC_SUCCESS)) lock_index P1
    (λ e, sizeof_NV_INDEX ≤ blen e ∧ 0 ≤ pub_attributes e < 4294967296) lock_entry
    (λ _ _, TPM_RC_SUCCESS) c) with (fuel := nv_fuel) (s := s) (es1 := [] : list bytes) (es2 := es)
    (acc := TPM_RC_SUCCESS) as (s1 & Hs1 & (Hrr1 & Hst1 & Hfm1 & Hsc1) & Hr1).
  { intros s1 es1 e es2 acc (Q1 & Q2 & Q3 & Q4 & Q5) Hr1 Hx [Hl Ha] _. unfold lock_index.
    rewrite (bind_Some _ _ _ _ _ (NvReadNvIndexAttributes_ok _ _ _ _ _ Hr1 Hl)).
    pose proof (lock_entry_fixed e Hl Ha) as (L1 & _).
    unfold lock_entry, entry_orderly in *. case_match.
    - destruct (write_attributes_entry s1 es1 e es2 c
        (SET_ATTRIBUTE (pub_attributes e) TPMA_NV_WRITELOCKED) Hr1 Q2 Hl) as (s2 & W & R & F).
      destruct (nv_only_frame _ _ F) as (_ & F2 & F3 & F4 & F5 & F6 & _).
      exists s2. split; [exact W|]. split; [reflexivity|]. split; [|split; [exact R|exact L1]].
      split_and!; [by rewrite F2|congruence..|split; congruence].
    - exists s1. split; [reflexivity|]. split; [reflexivity|].
      split; [split_and!; try assumption; by split|]. split; [exact Hr1|reflexivity]. }
  { split_and!; [exact Hrr|exact Hst|reflexivity|by split]. }
  { exact Hr. }
  { exact (index_facts_all _ _ _ _ Hi). }
  { by eapply nv_fuel_enough. }
  { reflexivity. }
  rewrite <- (nv_while_init _ _ _ _ _ _ _ _ Hr) in Hs1.
  assert (Hfold : ∀ l : list bytes, fold_left (λ (_ : Z) (_ : bytes), TPM_RC_SUCCESS) l TPM_RC_SUCCESS
    = TPM_RC_SUCCESS) by (induction l as [|?? IHl]; [done|exact IHl]).
  rewrite Hfold in Hs1. exists s1. split; [exact Hs1|]. split; [exact Hrr1|]. split; [exact Hfm1|split; [exact Hsc1|exact Hr1]].
Qed.

(** The loop over the orderly RAM. *)
Lemma lock_rams_ok s es rs c :
  NvRep s es c → RamRep (orderly s) rs →
  ∃ s2, ram_while ram_fuel lock_ram_index None s = Some (tt, s2) ∧
    NvRep s2 es c ∧ RamRep (orderly s2) (map lock_ram rs) ∧ g_inFailureMode s2 = g_inFailureMode s ∧
    same_counter s s2.
Proof.
  intros Hr Hrr. destruct (ram_while_spec lock_ram_index
    (λ s2, NvRep s2 es c ∧ g_inFailureMode s2 = g_inFailureMode s ∧ same_counter s s2)
    (λ r, 8 ≤ blen r ∧ 0 ≤ ram_attributes r < 4294967296) lock_ram)
    with (fuel := ram_fuel) (s := s) (rs1 := [] : list bytes) (rs2 := rs)
    as (s2 & Hs2 & (Hr2 & Hfm2 & Hsc2) & Hrr2).
  { intros s2 rs1 r rs2 (Q1 & Q2) Hr2 [Hl Ha]. unfold lock_ram_index.
    rewrite (bind_Some _ _ _ _ _ (NvReadRamIndexAttributes_ok _ _ _ _ Hr2)).
    pose proof (blen_of_key _ _ (lock_ram_key r Hl Ha)) as L1. unfold lock_ram in *. case_match.
    - destruct (write_attributes_ram s2 rs1 r rs2
        (SET_ATTRIBUTE (ram_attributes r) TPMA_NV_WRITELOCKED) Hr2) as (m & W & R).
      exists (set_orderlyRam m s2). split; [exact W|].
      split; [split; [apply (rep_ram_only s2); [exact Q1|reflexivity|reflexivity]|exact Q2]|].
      split; [exact R|exact L1].
    - exists s2. split; [reflexivity|]. split; [by split|]. split; [exact Hr2|reflexivity]. }
  { split_and!; [exact Hr|reflexivity|by split]. }
  { exact Hrr. }
  { apply list.Forall_forall. intros r Hin. destruct (ram_facts _ _ _ Hrr Hin) as (? & _ & ?).
    by split. }
  { by eapply ram_fuel_enough. }
  rewrite <- ram_while_init in Hs2. exists s2. split; [exact Hs2|]. split; [exact Hr2|].
  split_and!; [exact Hrr2|exact Hfm2|exact Hsc2].
Qed.

Lemma NvSetGlobalLock_ok s es rs c :
  NvInv s es rs c → g_NvStatus s = TPM_RC_SUCCESS →
  ∃ s', NvSetGlobalLock s = Some (TPM_RC_SUCCESS, s') ∧
    NvInv s' (map (λ e, if is_index e then lock_entry e else e) es) (map lock_ram rs) c ∧
    g_inFailureMode s' = g_inFailureMode s ∧ same_counter s s'.
Proof.
  intros Hi Hst. pose proof (inv_ram _ _ _ _ Hi) as Hrr. unfold NvSetGlobalLock.
  destruct (lock_indices_ok _ _ _ _ Hi Hst) as (s1 & Hs1 & Hrr1 & Hfm1 & Hsc1 & Hr1).
  rewrite (bind_Some _ _ _ _ _ Hs1).
  change (negb (TPM_RC_SUCCESS =? TPM_RC_SUCCESS)) with false. cbv iota.
  destruct (lock_rams_ok _ _ _ _ Hr1 Hrr1) as (s2 & Hs2 & Hr2 & Hrr2 & Hfm2 & Hsc2).
  rewrite (bind_Some _ _ _ _ _ Hs2). exists s2. split; [reflexivity|].
  split; [|split; [congruence|by eapply same_counter_trans]].
  eapply inv_map_attributes; [exact Hi|exact Hr2|exact Hrr2|..].
  - intros e Hin Hx. destruct (inv_index_facts _ _ _ _ _ Hi Hin Hx) as (? & _ & ?).
    by apply lock_entry_fixed.
  - intros r Hin. destruct (ram_facts _ _ _ Hrr Hin) as (? & _ & ?). by apply lock_ram_key.
Qed.

(** ** Startup *)

Lemma CLEAR_range a b : 0 ≤ a < 4294967296 → 0 ≤ CLEAR_ATTRIBUTE a b < 4294967296.
Proof.
  intros Ha. unfold CLEAR_ATTRIBUTE. rewrite <- (u32_small a), Z.ldiff_land by done.
  rewrite <- wrap_land by lia. apply (wrap_range 32). lia.
Qed.

Lemma NvSetStartupAttributes_fixed a type :
  fixed_attributes (NvSetStartupAttributes a type) = fixed_attributes a.
Proof.
  unfold NvSetStartupAttributes. repeat case_match; by rewrite ?fixed_CLEAR.
Qed.

Lemma NvSetStartupAttributes_range a type :
  0 ≤ a < 4294967296 → 0 ≤ NvSetStartupAttributes a type < 4294967296.
Proof. intros. unfold NvSetStartupAttributes. repeat case_match; repeat apply CLEAR_range; done. Qed.

Definition startup_entry (type : STARTUP_TYPE) (e : bytes) : bytes :=
  if entry_orderly e then e
  else set_pub_attributes (NvSetStartupAttributes (pub_attributes e) type) e.

(** The low bits of an orderly counter after an orderly or unorderly start. *)
Definition startup_counter (prev : Z) (d : bytes) : bytes :=
  if prev =? SU_NONE_VALUE
  then Uint64ToByteArray (Z.lor (ByteArrayToUint64 d) MAX_ORDERLY_COUNT) else d.

Definition startup_ram (type : STARTUP_TYPE) (prev : Z) (r : bytes) : bytes :=
  let a := NvSetStartupAttributes (ram_attributes r) type in
  let r1 := set_ram_attributes a r in
  if IsNvCounterIndex a && (prev =? SU_NONE_VALUE)
  then bwrite r1 8 (Uint64ToByteArray (Z.lor (ByteArrayToUint64 (bread r 8 8)) MAX_ORDERLY_COUNT))
  else r1.

Lemma startup_entry_fixed type e :
  sizeof_NV_INDEX ≤ blen e → 0 ≤ pub_attributes e < 4294967296 →
  blen (startup_entry type e) = blen e ∧ entry_handle (startup_entry type e) = entry_handle e ∧
  pub_dataSize (startup_entry type e) = pub_dataSize e ∧
  fixed_attributes (pub_attributes (startup_entry type e)) = fixed_attributes (pub_attributes e).
Proof.
  intros Hl Ha. unfold startup_entry. case_match; [split_and!; reflexivity|].
  apply set_attributes_fixed; [exact Hl|by apply NvSetStartupAttributes_range|].
  apply NvSetStartupAttributes_fixed.
Qed.

(** A RAM element of a counter holds at least the eight octets of its value. *)
Definition ram_counter_ok (r : bytes) : Prop :=
  IsNvCounterIndex (ram_attributes r) = true → 16 ≤ blen r.

Lemma startup_counter_size type r :
  ram_counter_ok r →
  IsNvCounterIndex (NvSetStartupAttributes (ram_attributes r) type) = true → 16 ≤ blen r.
Proof.
  intros Hc. unfold IsNvCounterIndex in *.
  rewrite (fixed_NT _ (ram_attributes r) (NvSetStartupAttributes_fixed _ type)). exact Hc.
Qed.

Lemma blen_Uint64 v : blen (Uint64ToByteArray v) = 8.
Proof. done. Qed.

Lemma Uint64_byte v : Forall is_byte (Uint64ToByteArray v).
Proof. rewrite be64_bytes. apply Forall_rev, le_bytes_byte. Qed.

Lemma startup_ram_key type prev r :
  8 ≤ blen r → 0 ≤ ram_attributes r < 4294967296 → ram_counter_ok r →
  ram_key (startup_ram type prev r) = ram_key r.
Proof.
  intros Hl Ha Hc. unfold startup_ram.
  set (a := NvSetStartupAttributes (ram_attributes r) type).
  pose proof (NvSetStartupAttributes_range _ type Ha) as Ra. fold a in Ra.
  destruct (ram_set_attributes r a Hl Ra) as (P1 & P2 & P3).
  assert (K : ram_key (set_ram_attributes a r) = ram_key r)
    by (apply set_ram_attributes_key; [exact Hl|exact Ra|apply NvSetStartupAttributes_fixed]).
  destruct (IsNvCounterIndex a && _) eqn:E; [|exact K].
  apply andb_true_iff in E as [E _]. pose proof (startup_counter_size type r Hc E).
  destruct (ram_set_data (set_ram_attributes a r) 8
    (Uint64ToByteArray (Z.lor (ByteArrayToUint64 (bread r 8 8)) MAX_ORDERLY_COUNT)))
    as (D1 & D2 & D3); [lia|rewrite blen_Uint64; lia|].
  rewrite <- K. unfold ram_key. by rewrite D1, D2, D3.
Qed.

Lemma startup_ram_index_ok type s rs1 r rs2 :
  RamRep (orderly s) (rs1 ++ r :: rs2) → ram_counter_ok r → 0 ≤ ram_attributes r < 4294967296 →
  ∃ m, startup_ram_index type (nv_size rs1) s = Some (tt, set_orderlyRam m s) ∧
    RamRep m (rs1 ++ startup_ram type (g_prevOrderlyState s) r :: rs2).
Proof.
  intros Hr Hc Ha. destruct (ram_elem _ _ _ _ Hr) as (_ & _ & H8).
  unfold startup_ram_index.
  rewrite (bind_Some _ _ _ _ _ (NvReadRamIndexAttributes_ok _ _ _ _ Hr)). cbv zeta.
  set (a := NvSetStartupAttributes (ram_attributes r) type).
  pose proof (NvSetStartupAttributes_range _ type Ha) as Ra. fold a in Ra.
  destruct (ram_set_attributes r a H8 Ra) as (P1 & _ & _).
  destruct (write_attributes_ram s rs1 r rs2 a Hr) as (m1 & W1 & R1).
  rewrite (bind_Some _ _ _ _ _ W1). unfold bind at 1, gets.
  cbn [g_prevOrderlyState set_orderlyRam]. unfold startup_ram. fold a.
  destruct (IsNvCounterIndex a && (g_prevOrderlyState s =? SU_NONE_VALUE)) eqn:E;
    [|exists m1; split; [reflexivity|exact R1]].
  apply andb_true_iff in E as [E _]. pose proof (startup_counter_size type r Hc E).
  unfold sizeof_NV_RAM_HEADER. replace (nv_size rs1 + 12) with (nv_size rs1 + 4 + 8) by lia.
  erewrite bind_Some by (eapply (ram_read_elem (set_orderlyRam m1 s)); [exact R1|lia..]).
  destruct (ram_write_elem (set_orderlyRam m1 s) rs1 (set_ram_attributes a r) rs2 8
    (Uint64ToByteArray (Z.lor (ByteArrayToUint64 (bread r 8 8)) MAX_ORDERLY_COUNT)))
    as (m2 & W2 & R2); [exact R1|lia|rewrite blen_Uint64; lia|apply Uint64_byte|].
  assert (Ed : bread (set_ram_attributes a r) 8 8 = bread r 8 8)
    by (apply bread_bwrite_after; rewrite ?blen_le_bytes; lia).
  rewrite Ed, W2. exists m2. split; [reflexivity|exact R2].
Qed.

(** The state from which the loops of [NvEntityStartup] run. *)
Definition restored (m : bytes) (c : Z) (s : NvState) : NvState :=
  set_maxCounter c (set_orderlyRam m s).

(** The loop over the indices in NV memory. *)
Lemma startup_indices_ok type s es rs c :
  NvInv s es rs c → g_NvStatus s = TPM_RC_SUCCESS →
  ∃ s1, nv_while no_stop nv_fuel NvNextIndex (startup_index type) NV_REF_INIT tt s = Some (tt, s1) ∧
    RamRep (orderly s1) rs ∧ g_inFailureMode s1 = g_inFailureMode s ∧
    s_maxCounter s1 = s_maxCounter s ∧ g_prevOrderlyState s1 = g_prevOrderlyState s ∧
    NvRep s1 (map (λ e, if is_index e then startup_entry type e else e) es) c.
Proof.
  intros Hi Hst. pose proof (inv_rep _ _ _ _ Hi) as Hr. pose proof (inv_ram _ _ _ _ Hi) as Hrr.
  set (P1 := λ s1, RamRep (orderly s1) rs ∧ g_NvStatus s1 = TPM_RC_SUCCESS ∧
                   g_inFailureMode s1 = g_inFailureMode s ∧ s_maxCounter s1 = s_maxCounter s ∧
                   g_prevOrderlyState s1 = g_prevOrderlyState s).
  destruct (nv_while_spec TPM_HT_NV_INDEX no_stop (startup_index type) P1
    (λ e, sizeof_NV_INDEX ≤ blen e ∧ 0 ≤ pub_attributes e < 4294967296) (startup_entry type)
    (λ _ _, tt) c) with (fuel := nv_fuel) (s := s) (es1 := [] : list bytes) (es2 := es)
    (acc := tt) as (s1 & Hs1 & (Hrr1 & Hst1 & Hfm1 & Hm1 & Hp1) & Hr1).
  { intros s1 es1 e es2 acc (Q1 & Q2 & Q3 & Q4 & Q5) Hr1 Hx [Hl Ha] _. unfold startup_index.
    rewrite (bind_Some _ _ _ _ _ (NvReadNvIndexAttributes_ok _ _ _ _ _ Hr1 Hl)).
    pose proof (startup_entry_fixed type e Hl Ha) as (L1 & _).
    unfold startup_entry, entry_orderly in *. case_match.
    - exists s1. split; [reflexivity|]. split; [reflexivity|].
      split; [split_and!; assumption|]. split; [exact Hr1|reflexivity].
    - destruct (write_attributes_entry s1 es1 e es2 c
        (NvSetStartupAttributes (pub_attributes e) type) Hr1 Q2 Hl) as (s2 & W & R & F).
      rewrite (bind_Some _ _ _ _ _ W).
      destruct (nv_only_frame _ _ F) as (_ & F2 & F3 & F4 & F5 & _).
      assert (F6 : g_prevOrderlyState s2 = g_prevOrderlyState s1)
        by (unfold nv_only in F; by rewrite F).
      exists s2. split; [reflexivity|]. split; [reflexivity|]. split; [|split; [exact R|exact L1]].
      split; [by rewrite F2|]. split_and!; congruence. }
  { split; [exact Hrr|]. split; [exact Hst|]. split_and!; reflexivity. }
  { exact Hr. }
  { exact (index_facts_all _ _ _ _ Hi). }
  { by eapply nv_fuel_enough. }
  { reflexivity. }
  rewrite <- (nv_while_init _ _ _ _ _ _ _ _ Hr) in Hs1.
  exists s1. replace tt with (fold_left (λ (_ : unit) (_ : bytes), tt)
    (List.filter (is_type TPM_HT_NV_INDEX) es) tt) at 2 by (by destruct (fold_left _ _ _)).
  split; [exact Hs1|]. split; [exact Hrr1|]. split_and!; assumption.
Qed.

(** The loop over the orderly RAM. *)
Lemma startup_rams_ok type s es rs c :
  NvRep s es c → RamRep (orderly s) rs → Forall ram_counter_ok rs →
  ∃ s2, ram_while ram_fuel (startup_ram_index type) None s = Some (tt, s2) ∧ NvRep s2 es c ∧
    RamRep (orderly s2) (map (startup_ram type (g_prevOrderlyState s)) rs) ∧
    g_inFailureMode s2 = g_inFailureMode s ∧ s_maxCounter s2 = s_maxCounter s.
Proof.
  intros Hr Hrr Hrc. destruct (ram_while_spec (startup_ram_index type)
    (λ s2, NvRep s2 es c ∧ g_inFailureMode s2 = g_inFailureMode s ∧
           s_maxCounter s2 = s_maxCounter s ∧ g_prevOrderlyState s2 = g_prevOrderlyState s)
    (λ r, 8 ≤ blen r ∧ 0 ≤ ram_attributes r < 4294967296 ∧ ram_counter_ok r)
    (startup_ram type (g_prevOrderlyState s)))
    with (fuel := ram_fuel) (s := s) (rs1 := [] : list bytes) (rs2 := rs)
    as (s2 & Hs2 & (Hr2 & Hfm2 & Hm2 & _) & Hrr2).
  { intros s2 rs1 r rs2 (Q1 & Q2 & Q3 & Q4) Hr2 (Hl & Ha & Hcr).
    destruct (startup_ram_index_ok type s2 rs1 r rs2 Hr2 Hcr Ha) as (m' & W & R).
    rewrite Q4 in R. exists (set_orderlyRam m' s2). split; [exact W|].
    split; [split_and!; [apply (rep_ram_only s2); [exact Q1|reflexivity|reflexivity]|
      exact Q2|exact Q3|exact Q4]|].
    split; [exact R|]. by apply blen_of_key, startup_ram_key. }
  { split; [exact Hr|]. split_and!; reflexivity. }
  { exact Hrr. }
  { rewrite list.Forall_forall in Hrc |- *. intros r Hin.
    destruct (ram_facts _ _ _ Hrr Hin) as (F1 & _ & F2).
    split; [exact F1|]. split; [exact F2|]. exact (Hrc r Hin). }
  { by eapply ram_fuel_enough. }
  rewrite <- ram_while_init in Hs2. exists s2. split; [exact Hs2|]. split; [exact Hr2|].
  split; [exact Hrr2|]. split; [exact Hfm2|exact Hm2].
Qed.

Lemma NvEntityStartup_ok type s es rs c :
  NvInv (restored (bread (nvmem s) NV_INDEX_RAM_DATA RAM_INDEX_SPACE) c s) es rs c →
  0 ≤ c < 2 ^ 64 → nv_end es + 12 < NV_MEMORY_SIZE → g_NvStatus s = TPM_RC_SUCCESS →
  Forall ram_counter_ok rs → type ≠ SU_RESUME →
  ∃ s', NvEntityStartup type s = Some (true, s') ∧ s_maxCounter s' = c ∧
    NvInv s' (map (λ e, if is_index e then startup_entry type e else e) es)
      (map (startup_ram type (g_prevOrderlyState s)) rs) c ∧
    g_inFailureMode s' = g_inFailureMode s.
Proof.
  intros Hi Hc Hlt Hst Hrc Hty. set (m := bread (nvmem s) NV_INDEX_RAM_DATA RAM_INDEX_SPACE) in *.
  set (s0 := restored m c s) in *.
  pose proof (inv_rep _ _ _ _ Hi) as Hr. pose proof (inv_ram _ _ _ _ Hi) as Hrr.
  assert (Hok : nv_ok s) by (exact (rep_len _ _ _ Hr)).
  pose proof NV_INDEX_RAM_DATA_pos. pose proof NV_USER_DYNAMIC_bounds as [_ Hub].
  unfold NV_USER_DYNAMIC in Hub. unfold NvEntityStartup.
  erewrite bind_Some by (apply NvRead_ok; [exact Hok|lia|unfold RAM_INDEX_SPACE; lia|lia]).
  fold m. unfold bind at 1, modify.
  assert (Hr' : NvRep (set_orderlyRam m s) es c)
    by (apply (rep_ram_only s0); [exact Hr|reflexivity|reflexivity]).
  rewrite (bind_Some _ _ _ _ _ (NvGetMaxCount_ok _ _ _ Hr' Hc Hlt)).
  unfold bind at 1, NvSetMaxCount, modify. fold (restored m c s). fold s0.
  rewrite bool_decide_false by exact Hty.
  destruct (startup_indices_ok type s0 es rs c Hi Hst) as (s1 & Hs1 & Hrr1 & Hfm1 & Hm1 & Hp1 & Hr1).
  rewrite (bind_Some _ _ _ _ _ Hs1).
  destruct (startup_rams_ok type s1 _ rs c Hr1 Hrr1 Hrc) as (s2 & Hs2 & Hr2 & Hrr2 & Hfm2 & Hm2).
  rewrite (bind_Some _ _ _ _ _ Hs2). rewrite Hp1 in Hrr2.
  exists s2. split; [reflexivity|]. split; [rewrite Hm2; exact Hm1|].
  split; [|rewrite Hfm2; exact Hfm1].
  eapply inv_map_attributes; [exact Hi|exact Hr2|exact Hrr2|..].
  - intros e Hin Hx. destruct (inv_index_facts _ _ _ _ _ Hi Hin Hx) as (? & _ & ?).
    by apply startup_entry_fixed.
  - intros r Hin. destruct (ram_facts _ _ _ Hrr Hin) as (? & _ & ?).
    rewrite list.Forall_forall in Hrc. apply startup_ram_key; auto.
Qed.
End nv_flush.
