(* ===== verification/NvCap.v ===== *)
(** * Reporting NV entities: TPM2_GetCapability (src/NVDynamic.c)

    [InsertSort] and the [NvCapGet*] functions (lines 1395-1650, 1751-1790):
    the handles returned are the smallest ones in order, and [more] says
    whether some were left out. *)

From Stdlib Require Import Permutation Sorted.
From S2P Require Import Prelude TpmTypes Cbc NVMem NVReserved.
From S2P Require Import NvList NvRam Memory NvIndex NvEntity.
Local Open Scope Z_scope.

(** [TPML_HANDLE] (TpmTypes.h): the array has [MAX_CAP_HANDLES] elements. *)
Record TPML_HANDLE := mkHandles { hl_count : nat; hl_handle : list Z }.

(** The loop that looks for the first larger handle; [count] if there is none. *)
Fixpoint find_slot (n i : nat) (arr : list Z) (entityHandle : Z) : nat :=
  match n with
  | O => i
  | S n => if entityHandle <? nth i arr 0 then i else find_slot n (S i) arr entityHandle
  end.

(** [for(j = count - 1; j > i; j--) handle[j] = handle[j - 1]], with
    [n = count - 1 - i]. *)
Fixpoint shift_up (n i : nat) (arr : list Z) : list Z :=
  match n with
  | O => arr
  | S n' => shift_up n' i (<[(i + n)%nat := nth (i + n')%nat arr 0]> arr)
  end.

Definition InsertSort (hl : TPML_HANDLE) (count : nat) (entityHandle : Z) : TPML_HANDLE :=
  match count with
  | O => hl
  | S _ =>
      let originalCount := hl_count hl in
      if (originalCount =? 0)%nat then mkHandles 1 (<[0%nat := entityHandle]> (hl_handle hl))
      else
        let newCount := if (originalCount <? count)%nat then S originalCount else originalCount in
        let i := find_slot originalCount 0 (hl_handle hl) entityHandle in
        let arr := if (i <? originalCount)%nat
                   then shift_up (newCount - 1 - i) i (hl_handle hl) else hl_handle hl in
        if (i <? originalCount)%nat || (originalCount <? newCount)%nat
        then mkHandles newCount (<[i := entityHandle]> arr)
        else mkHandles newCount arr
  end.

Section nv_cap.
Context `{NvLayout}.

(** The loop shared by [NvCapGetPersistent] and [NvCapGetIndex]. *)
Definition cap_step (handle : Z) (count : nat) (_addr entityHandle : Z)
    (acc : TPML_HANDLE * bool) : M NvState (TPML_HANDLE * bool) :=
  let '(hl, more) := acc in
  if entityHandle <? handle then ret (hl, more)
  else
    let more := if (hl_count hl =? count)%nat then true else more in
    ret (InsertSort hl count entityHandle, more).

Definition cap_count (count : Z) : nat :=
  Z.to_nat (if MAX_CAP_HANDLES <? count then MAX_CAP_HANDLES else count).

Definition NvCapGetPersistent (handle count : Z) (arr : list Z) : M NvState (TPML_HANDLE * bool) :=
  pAssert (HandleGetType handle =? TPM_HT_PERSISTENT) ;;
  nv_while no_stop nv_fuel NvNextEvict (cap_step handle (cap_count count)) NV_REF_INIT
    (mkHandles 0 arr, false).

Definition NvCapGetIndex (handle count : Z) (arr : list Z) : M NvState (TPML_HANDLE * bool) :=
  pAssert (HandleGetType handle =? TPM_HT_NV_INDEX) ;;
  nv_while no_stop nv_fuel NvNextIndex (cap_step handle (cap_count count)) NV_REF_INIT
    (mkHandles 0 arr, false).

Definition NvCapGetOnePersistent (handle : Z) : M NvState bool :=
  pAssert (HandleGetType handle =? TPM_HT_PERSISTENT) ;;
  nv_while id nv_fuel NvNextEvict (λ _ entityHandle _, ret (entityHandle =? handle))
    NV_REF_INIT false.

Definition NvCapGetOneIndex (handle : Z) : M NvState bool :=
  pAssert (HandleGetType handle =? TPM_HT_NV_INDEX) ;;
  nv_while id nv_fuel NvNextIndex (λ _ nvHandle _, ret (nvHandle =? handle))
    NV_REF_INIT false.

Definition NvCapGetPersistentAvail : M NvState Z :=
  let! counterNum := NvCapGetCounterNumber in
  let reserved := sizeof_NV_LIST_TERMINATOR in
  let! availNVSpace := NvGetFreeBytes in
  let availNVSpace :=
    if counterNum <? MIN_COUNTER_INDICES then
      let reserved := u32 (reserved + (MIN_COUNTER_INDICES - counterNum) * NV_INDEX_COUNTER_SIZE) in
      if availNVSpace <? reserved then 0 else availNVSpace - reserved
    else availNVSpace in
  ret (availNVSpace / NV_EVICT_OBJECT_SIZE).

Definition NvCapGetCounterAvail : M NvState Z :=
  let! persistentNum := NvCapGetPersistentNumber in
  let reserved := sizeof_NV_LIST_TERMINATOR in
  let! availNVSpace := NvGetFreeBytes in
  let availNVSpace :=
    if persistentNum <? MIN_EVICT_OBJECTS then
      let reserved := u32 (reserved + (MIN_EVICT_OBJECTS - persistentNum) * NV_EVICT_OBJECT_SIZE) in
      if availNVSpace <? reserved then 0 else availNVSpace - reserved
    else availNVSpace in
  let! e := NvRamGetEnd in
  let availRAMSpace := u32 (RAM_ORDERLY_END - e) in
  ret (if availRAMSpace / NV_RAM_INDEX_COUNTER_SIZE <? availNVSpace / NV_INDEX_COUNTER_SIZE
       then availRAMSpace / NV_RAM_INDEX_COUNTER_SIZE
       else availNVSpace / NV_INDEX_COUNTER_SIZE).
End nv_cap.

(** ** [InsertSort] is insertion into a sorted list, cut at [count] *)

Fixpoint ins (e : Z) (l : list Z) : list Z :=
  match l with
  | [] => [e]
  | x :: l' => if e <? x then e :: l else x :: ins e l'
  end.

Lemma ins_perm e l : ins e l ≡ₚ e :: l.
Proof.
  induction l as [|x l IH]; cbn; [done|]. destruct (e <? x); [done|].
  rewrite IH. apply Permutation_swap.
Qed.

Lemma ins_sorted e l : Sorted Z.le l → Sorted Z.le (ins e l).
Proof.
  induction 1 as [|x l Hl IH Hd]; cbn; [by repeat constructor|].
  destruct (Z.ltb_spec e x).
  - constructor; [by constructor|]. constructor. lia.
  - constructor; [exact IH|]. destruct Hd as [|y l Hxy]; cbn; [constructor; lia|].
    destruct (e <? y); constructor; lia.
Qed.

Lemma ins_take n e l : take n (ins e (take n l)) = take n (ins e l).
Proof.
  revert n. induction l as [|x l IH]; intros [|n]; cbn; try done.
  destruct (e <? x); cbn.
  - f_equal. destruct n as [|n]; [done|]. cbn. f_equal. rewrite take_take. f_equal. lia.
  - f_equal. apply IH.
Qed.

Lemma length_ins e l : length (ins e l) = S (length l).
Proof. by rewrite ins_perm. Qed.

Lemma nth_app_at (a b : list Z) x : nth (length a) (a ++ x :: b) 0 = x.
Proof. rewrite app_nth2 by lia. by rewrite Nat.sub_diag. Qed.

Lemma insert_app_at (a b : list Z) x y : <[length a := y]> (a ++ x :: b) = a ++ y :: b.
Proof. by rewrite insert_app_r_alt, Nat.sub_diag by lia. Qed.

(** The slot splits the list as [ins] does. *)
Lemma find_slot_spec l rest e a :
  ∃ a' b, l = a' ++ b ∧ find_slot (length l) (length a) (a ++ l ++ rest) e = length (a ++ a') ∧
    ins e l = a' ++ e :: b.
Proof.
  revert a. induction l as [|x l IH]; intros a; cbn [find_slot length].
  - exists [], []. by rewrite !app_nil_r.
  - cbn [app]. rewrite nth_app_at. cbn [ins]. destruct (e <? x).
    + exists [], (x :: l). by rewrite app_nil_r.
    + destruct (IH (a ++ [x])) as (a' & b & -> & Hf & Hi).
      replace (length (a ++ [x])) with (S (length a)) in Hf by (rewrite length_app; cbn; lia).
      rewrite <- (app_assoc a [x]) in Hf. cbn [app] in Hf.
      exists (x :: a'), b. split; [done|]. split; [|by rewrite Hi].
      rewrite Hf. rewrite !length_app. cbn [length]. lia.
Qed.

(** Shifting up by one frees the slot. *)
Lemma shift_up_spec m a x rest :
  ∃ h, shift_up (length m) (length a) (a ++ m ++ x :: rest) = a ++ h :: m ++ rest.
Proof.
  revert x rest. induction m as [|y m IH] using rev_ind; intros x rest.
  - by exists x.
  - rewrite length_app. cbn [length]. replace (length m + 1)%nat with (S (length m)) by lia.
    cbn [shift_up].
    replace (length a + S (length m))%nat with (length (a ++ m ++ [y]))
      by (rewrite !length_app; cbn; lia).
    replace (length a + length m)%nat with (length (a ++ m)) by (by rewrite length_app).
    replace (a ++ (m ++ [y]) ++ x :: rest) with ((a ++ m) ++ y :: x :: rest)
      by (by rewrite <- !app_assoc).
    rewrite nth_app_at.
    replace ((a ++ m) ++ y :: x :: rest) with ((a ++ m ++ [y]) ++ x :: rest)
      by (by rewrite <- !app_assoc).
    rewrite insert_app_at. rewrite <- !app_assoc. cbn [app].
    destruct (IH y (y :: rest)) as [h Hh]. exists h. rewrite Hh. done.
Qed.

(** The handles in the list. *)
Definition hl_list (hl : TPML_HANDLE) : list Z := take (hl_count hl) (hl_handle hl).
Definition hl_ok (hl : TPML_HANDLE) : Prop :=
  (hl_count hl ≤ length (hl_handle hl))%nat.

(** A larger handle follows: it and the ones after it move up, and the last
    one falls out if the list is full. *)
Lemma shift_insert_spec a b rest e oc nc cnt :
  (length a + length b = oc)%nat → (length a < oc)%nat →
  (nc = S oc ∧ oc < S cnt ∨ nc = oc ∧ oc = S cnt)%nat →
  (S cnt ≤ length (a ++ b ++ rest))%nat →
  let arr' := <[length a := e]> (shift_up (nc - 1 - length a) (length a) (a ++ b ++ rest)) in
  take nc arr' = take (S cnt) (a ++ e :: b) ∧ length arr' = length (a ++ b ++ rest).
Proof.
  intros Hlen Hin Hnc Hcap. rewrite !length_app in Hcap.
  assert (Hsplit : ∃ m x r, b ++ rest = m ++ x :: r ∧ length m = (nc - 1 - length a)%nat).
  { assert (Hlb : (nc - 1 - length a < length (b ++ rest))%nat) by (rewrite length_app; lia).
    destruct (lookup_lt_is_Some_2 _ _ Hlb) as [x Hx].
    apply list_elem_of_split_length in Hx as (m & r & E & Em). by exists m, x, r. }
  destruct Hsplit as (m & x & r & Eb & Em).
  assert (Hmb : take (length m) b = m).
  { rewrite <- (take_app_le b rest) by lia. rewrite Eb. apply take_app_length. }
  rewrite Eb, <- Em. destruct (shift_up_spec m a x r) as [h ->]. rewrite insert_app_at.
  split; [|rewrite !length_app; cbn [length]; rewrite !length_app; cbn [length]; lia].
  assert (Hlen2 : length (a ++ e :: m) = nc) by (rewrite length_app; cbn; lia).
  replace (a ++ e :: m ++ r) with ((a ++ e :: m) ++ r) by (by rewrite <- app_assoc).
  rewrite take_app_le, take_ge by lia.
  destruct Hnc as [[Hnc ?]|[Hnc ?]].
  - rewrite (take_ge (a ++ e :: b)) by (rewrite length_app; cbn; lia).
    replace m with b; [done|]. rewrite <- Hmb. symmetry. apply take_ge. lia.
  - rewrite take_app_ge by lia. f_equal.
    replace (S cnt - length a)%nat with (S (length m)) by lia. cbn [take]. by rewrite Hmb.
Qed.

Lemma InsertSort_spec hl count e :
  hl_ok hl → (hl_count hl ≤ count)%nat → (count ≤ length (hl_handle hl))%nat →
  let hl' := InsertSort hl count e in
  hl_list hl' = take count (ins e (hl_list hl)) ∧
  length (hl_handle hl') = length (hl_handle hl) ∧ hl_ok hl' ∧ (hl_count hl' ≤ count)%nat.
Proof.
  destruct hl as [oc arr]. unfold hl_ok, hl_list. cbn [hl_count hl_handle]. intros Hok Hle Hcap.
  unfold InsertSort. cbn [hl_count hl_handle]. destruct count as [|cnt].
  { replace oc with O by lia. cbn. split_and!; lia || done. }
  destruct (Nat.eqb_spec oc 0) as [->|Hne].
  { cbn [hl_list hl_count hl_handle]. destruct arr as [|x arr]; [cbn in Hcap; lia|].
    cbn. rewrite !take_0, take_nil. split_and!; done || lia. }
  set (l := take oc arr). set (rest := drop oc arr).
  assert (Harr : arr = l ++ rest) by (unfold l, rest; by rewrite take_drop).
  assert (Hll : length l = oc) by (unfold l; rewrite length_take; lia).
  destruct (find_slot_spec l rest e []) as (a & b & El & Hf & Hi). cbn [app length] in Hf.
  rewrite Hll, <- Harr in Hf. rewrite Hf, Hi.
  assert (Hlen : (length a + length b)%nat = oc) by (rewrite <- Hll, El, length_app; done).
  set (nc := if (oc <? S cnt)%nat then S oc else oc).
  assert (Hnc : (nc = S oc ∧ oc < S cnt ∨ nc = oc ∧ oc = S cnt)%nat).
  { unfold nc. destruct (Nat.ltb_spec oc (S cnt)); [left|right]; lia. }
  destruct (Nat.ltb_spec (length a) oc) as [Hin|Hend]; cbn [orb].
  - destruct (shift_insert_spec a b rest e oc nc cnt Hlen Hin Hnc) as [Ht Hl].
    { by rewrite app_assoc, <- El, <- Harr. }
    rewrite app_assoc, <- El, <- Harr in Ht, Hl. cbn [hl_count hl_handle].
    split_and!; [exact Ht|exact Hl|lia|lia].
  - (* the new handle is the largest *)
    assert (b = []) as -> by (apply nil_length_inv; lia). rewrite app_nil_r in El.
    destruct (Nat.ltb_spec oc nc) as [Hgrow|Hfull]; cbn [hl_count hl_handle].
    + destruct rest as [|y rest'] eqn:Er.
      { exfalso. rewrite app_nil_r in Harr. rewrite Harr, Hll in Hcap. lia. }
      rewrite Harr, El, insert_app_at.
      replace (a ++ e :: rest') with ((a ++ [e]) ++ rest') by (by rewrite <- app_assoc).
      rewrite take_app_le, !take_ge by (rewrite ?length_app; cbn; lia).
      split_and!; [done| |rewrite !length_app; cbn; lia|lia].
      rewrite !length_app. cbn. lia.
    + rewrite (take_app_le a) by lia. rewrite (take_ge a) by lia.
      split_and!; [unfold l in El; by replace nc with oc by lia|done|lia|lia].
Qed.

(** ** The capability loops *)

Section nv_cap_lemmas.
Context `{NvLayout}.

Definition cap_fold (handle : Z) (n : nat) (acc : TPML_HANDLE * bool) (e : bytes)
    : TPML_HANDLE * bool :=
  if entry_handle e <? handle then acc
  else (InsertSort acc.1 n (entry_handle e), if (hl_count acc.1 =? n)%nat then true else acc.2).

(** The handles from [handle] on, in increasing order. *)
Definition candidates (handle : Z) (es : list bytes) : list Z :=
  List.filter (λ h, handle <=? h) (map entry_handle es).
Definition sorted_handles (l : list Z) : list Z := fold_left (λ acc h, ins h acc) l [].

Lemma cap_fold_spec handle n es hl more done_ :
  hl_ok hl → (n ≤ length (hl_handle hl))%nat →
  hl_list hl = take n done_ → hl_count hl = min n (length done_) → more = (n <? length done_)%nat →
  let r := fold_left (cap_fold handle n) es (hl, more) in
  let all := fold_left (λ acc h, ins h acc) (candidates handle es) done_ in
  hl_list r.1 = take n all ∧ hl_count r.1 = min n (length all) ∧
  r.2 = (n <? length all)%nat.
Proof.
  revert hl more done_. induction es as [|e es IH]; intros hl more done_ Hok Hn Hl Hc Hm;
    [by cbn|].
  unfold candidates. cbn [map List.filter fold_left].
  assert (Ef : cap_fold handle n (hl, more) e =
    if entry_handle e <? handle then (hl, more)
    else (InsertSort hl n (entry_handle e), if (hl_count hl =? n)%nat then true else more))
    by done.
  rewrite Ef. clear Ef.
  destruct (Z.ltb_spec (entry_handle e) handle) as [Hlt|Hge].
  - rewrite (proj2 (Z.leb_gt _ _)) by done. by apply IH.
  - rewrite (proj2 (Z.leb_le _ _)) by done. cbn [fold_left].
    destruct (InsertSort_spec hl n (entry_handle e)) as (S1 & S2 & S3 & S4); [done|lia|done|].
    assert (Hl' : hl_list (InsertSort hl n (entry_handle e)) = take n (ins (entry_handle e) done_))
      by (rewrite S1, Hl; apply ins_take).
    apply IH; [done|lia|exact Hl'| |].
    + apply (f_equal length) in Hl'. unfold hl_list in Hl'. rewrite !length_take in Hl'.
      unfold hl_ok in S3. lia.
    + rewrite length_ins. destruct (Nat.eqb_spec (hl_count hl) n).
      * symmetry. apply Nat.ltb_lt. lia.
      * rewrite Hm. destruct (Nat.ltb_spec n (length done_)), (Nat.ltb_spec n (S (length done_))); lia || done.
Qed.

Lemma sorted_handles_spec l : Sorted Z.le (sorted_handles l) ∧ sorted_handles l ≡ₚ l.
Proof.
  unfold sorted_handles.
  assert (Hgen : ∀ acc, Sorted Z.le acc → Sorted Z.le (fold_left (λ acc h, ins h acc) l acc) ∧
    fold_left (λ acc h, ins h acc) l acc ≡ₚ acc ++ l).
  { induction l as [|h l IH]; intros acc Ha; cbn [fold_left]; [by rewrite app_nil_r|].
    destruct (IH (ins h acc) (ins_sorted _ _ Ha)) as [S P]. split; [exact S|].
    rewrite P, ins_perm. cbn. apply Permutation_middle. }
  apply (Hgen []). constructor.
Qed.

Lemma cap_loop t handle count arr s es c :
  NvRep s es c → length arr = Z.to_nat MAX_CAP_HANDLES → 0 ≤ count →
  ∃ hl more,
    nv_while no_stop nv_fuel (λ i, NvNextByType i t) (cap_step handle (cap_count count)) NV_REF_INIT
      (mkHandles 0 arr, false) s = Some ((hl, more), s) ∧
    let all := sorted_handles (candidates handle (List.filter (is_type t) es)) in
    hl_list hl = take (cap_count count) all ∧ more = (cap_count count <? length all)%nat.
Proof.
  intros Hr Harr Hcount.
  rewrite (nv_while_read t _ (λ _, True) (cap_fold handle (cap_count count)) s es c);
    [|intros es1 e es2 [hl more] _ _ _|done|by apply Forall_true].
  - destruct (fold_left _ _ _) as [hl more] eqn:E. exists hl, more. split; [done|].
    destruct (cap_fold_spec handle (cap_count count) (List.filter (is_type t) es)
      (mkHandles 0 arr) false []) as (F1 & _ & F3); try done.
    + unfold hl_ok. cbn. lia.
    + cbn [hl_handle]. rewrite Harr. unfold cap_count. case_match; zbool; lia.
    + unfold hl_list. cbn. by rewrite take_0, take_nil.
    + by rewrite Nat.min_0_r.
    + rewrite E in F1, F3. by split.
  - unfold cap_step, cap_fold. cbn [fst snd]. by destruct (entry_handle e <? handle).
Qed.

Lemma NvCapGetIndex_ok handle count arr s es c :
  NvRep s es c → length arr = Z.to_nat MAX_CAP_HANDLES → 0 ≤ count →
  HandleGetType handle = TPM_HT_NV_INDEX →
  ∃ hl more, NvCapGetIndex handle count arr s = Some ((hl, more), s) ∧
    let all := sorted_handles (candidates handle (List.filter is_index es)) in
    hl_list hl = take (cap_count count) all ∧ more = (cap_count count <? length all)%nat.
Proof.
  intros Hr Harr Hc Ht. unfold NvCapGetIndex.
  erewrite bind_Some by (apply pAssert_true; by apply Z.eqb_eq).
  by apply (cap_loop TPM_HT_NV_INDEX handle count arr s es c).
Qed.

Lemma NvCapGetPersistent_ok handle count arr s es c :
  NvRep s es c → length arr = Z.to_nat MAX_CAP_HANDLES → 0 ≤ count →
  HandleGetType handle = TPM_HT_PERSISTENT →
  ∃ hl more, NvCapGetPersistent handle count arr s = Some ((hl, more), s) ∧
    let all := sorted_handles (candidates handle (List.filter is_persistent es)) in
    hl_list hl = take (cap_count count) all ∧ more = (cap_count count <? length all)%nat.
Proof.
  intros Hr Harr Hc Ht. unfold NvCapGetPersistent.
  erewrite bind_Some by (apply pAssert_true; by apply Z.eqb_eq).
  by apply (cap_loop TPM_HT_PERSISTENT handle count arr s es c).
Qed.
End nv_cap_lemmas.
