(* ===== verification/NvProps.v ===== *)
(** * Properties of the NV subsystem

    The theorems about NVDynamic.c, NVReserved.c and NVMem.c, each with a
    witness on a small concrete TPM: a manufactured one, or one with a single
    index defined. *)

From Stdlib Require Import Permutation Sorted.
From S2P Require Import Prelude TpmTypes Cbc AesProof NVMem NVReserved NvList NvRam.
From S2P Require Import Memory NvIndex NvEntity NvDefine NvFlush NvCap.
Local Open Scope Z_scope.

(** ** Concrete states for the witnesses *)

Definition blank_plat : PlatNv :=
  mkPlatNv (bfill 0xff NV_MEMORY_SIZE) [] true 0 0 false true None true true.

(** Before manufacturing: erased NV memory, NV available, an empty cache. *)
Definition blank : NvState :=
  mkNvState blank_plat 0 (bfill 0 RAM_INDEX_SPACE) 0 (bfill 0 sizeof_NV_INDEX) 0 None
    TPM_RC_SUCCESS 0 false false true true SU_NONE_VALUE.

(** Public areas: handle, name algorithm, attributes, an empty policy, size. *)
Definition public_area (handle attributes dataSize : Z) : bytes :=
  le_bytes 4 handle ++ le_bytes 2 0x0b ++ [0; 0] ++ le_bytes 4 attributes
  ++ bfill 0 66 ++ le_bytes 2 dataSize.
Definition no_auth : bytes := bfill 0 sizeof_TPM2B_AUTH.
Definition pad2 : bytes := [0; 0].
Definition ordinary16 : bytes := public_area 0x01000001 0 16.
Definition counter8 : bytes := public_area 0x01000002 (Z.shiftl TPM_NT_COUNTER 4) 8.
Definition orderly16 : bytes := public_area 0x01000003 TPMA_NV_ORDERLY 16.

Lemma public_area_wf h a n :
  HandleGetType h = TPM_HT_NV_INDEX → 0 ≤ h < 4294967296 → 0 ≤ n ≤ MAX_NV_INDEX_SIZE →
  wf_public (public_area h a n).
Proof.
  intros Ht Hh Hn. unfold MAX_NV_INDEX_SIZE in Hn. constructor.
  - unfold public_area. rewrite !blen_app, !blen_le_bytes, blen_bfill by lia. done.
  - unfold public_area. rewrite !Forall_app. split_and!; try apply le_bytes_byte.
    + repeat constructor; unfold is_byte; lia.
    + apply Forall_replicate. unfold is_byte. lia.
  - unfold public_area, pub_nvIndex.
    rewrite bread_app_l, bread_all by (rewrite ?blen_le_bytes; lia).
    rewrite le_val_bytes by (simpl; lia). exact Ht.
  - assert (pub_dataSize (public_area h a n) = n) as ->; [|unfold MAX_NV_INDEX_SIZE; lia].
    unfold pub_dataSize, public_area, offsetof_dataSize.
    rewrite bread_app_r by (rewrite blen_le_bytes; lia).
    rewrite bread_app_r by (rewrite !blen_le_bytes; lia).
    rewrite bread_app_r by (rewrite !blen_le_bytes; try change (blen [0; 0]) with 2; lia).
    rewrite bread_app_r by (rewrite !blen_le_bytes; try change (blen [0; 0]) with 2; lia).
    rewrite bread_app_r by (rewrite !blen_le_bytes, blen_bfill by lia; try change (blen [0; 0]) with 2; lia).
    rewrite !blen_le_bytes, blen_bfill by lia. change (blen [0; 0]) with 2.
    rewrite bread_all by (rewrite blen_le_bytes; lia). apply le_val_bytes. simpl. lia.
Qed.

Lemma blank_manufactured :
  ∃ s, NvManufacture blank = Some (tt, s) ∧ NvInv s [] [] 0 ∧ s_maxCounter s = 0 ∧
    g_NvStatus s = TPM_RC_SUCCESS ∧ g_inFailureMode s = false ∧
    pub_nvIndex (s_cachedNvIndex s) = 0.
Proof.
  destruct (NvManufacture_ok blank) as (s & Hs & Hi & Hm & Hst & Hf & Hc & _).
  - vm_compute. reflexivity.
  - apply Forall_replicate. unfold is_byte. lia.
  - vm_compute. reflexivity.
  - exists s. split; [exact Hs|]. split; [exact Hi|]. split; [exact Hm|].
    rewrite Hst, Hf, Hc. split; [reflexivity|]. split; [reflexivity|]. vm_compute. reflexivity.
Qed.

Lemma no_auth_ok : blen no_auth = sizeof_TPM2B_AUTH ∧ Forall is_byte no_auth.
Proof. split; [done|]. apply Forall_replicate. unfold is_byte; lia. Qed.

Lemma pad2_ok : blen pad2 = 2 ∧ Forall is_byte pad2.
Proof. split; [done|]. repeat constructor; unfold is_byte; lia. Qed.

(** A manufactured TPM with one index. *)
Lemma one_index p :
  wf_public p → define_fits [] [] p = true →
  ∃ s e, NvInv s [e] (ram_of_public p) 0 ∧ index_entry_of p no_auth pad2 e ∧
    g_NvStatus s = TPM_RC_SUCCESS ∧ pub_nvIndex (s_cachedNvIndex s) = 0 ∧
    s_maxCounter s = 0.
Proof.
  intros Hp Hfit. destruct blank_manufactured as (s & _ & Hi & Hm & Hst & _ & Hc).
  destruct no_auth_ok as [La Ba]. destruct pad2_ok as [Lp Bp].
  destruct (NvDefineIndex_ok s [] [] 0 pad2 p no_auth Hi Hp La Ba Lp Bp Hst
    ltac:(apply not_elem_of_nil) Hfit) as (s' & e & Hs & Hi' & He & Hm' & Hst' & _ & Hc').
  rewrite Hm in Hi'. exists s', e. split; [exact Hi'|]. split; [exact He|].
  split; [by rewrite Hst'|]. split; [by rewrite Hc'|by rewrite Hm'].
Qed.

(** ** Defining an index *)

Section define.
Context `{NvLayout}.

(** C6. [NvDefineIndex] on an NV memory that satisfies the invariant, for an
    index that is not defined: with enough space it succeeds and the new index
    is the only change, at the end of the list (and, if orderly, of the RAM
    list), holding the public area and authValue given; the invariant holds
    again.  Without enough space it returns TPM_RC_NV_SPACE, and without NV the
    reason, and the state is unchanged. *)
Theorem nv_define_index s es rs c pad p auth :
  NvInv s es rs c → wf_public p → pub_nvIndex p ∉ map entry_handle es →
  blen auth = sizeof_TPM2B_AUTH → Forall is_byte auth → blen pad = 2 → Forall is_byte pad →
  (define_fits es rs p = true → g_NvStatus s = TPM_RC_SUCCESS →
   ∃ s' e, NvDefineIndex pad p auth s = Some (TPM_RC_SUCCESS, s') ∧
     NvInv s' (es ++ [e]) (rs ++ ram_of_public p) (s_maxCounter s) ∧
     bread e 0 sizeof_NV_INDEX = p ++ auth ++ pad ∧
     NvIndexIsDefined (pub_nvIndex p) s' = Some (true, s') ∧
     g_inFailureMode s' = g_inFailureMode s) ∧
  (define_fits es rs p = true → g_NvStatus s ≠ TPM_RC_SUCCESS →
   NvDefineIndex pad p auth s = Some (g_NvStatus s, s)) ∧
  (define_fits es rs p = false → NvDefineIndex pad p auth s = Some (TPM_RC_NV_SPACE, s)).
Proof.
  intros Hi Hp Hh La Ba Lp Bp. split; [|split].
  - intros Hfit Hst.
    destruct (NvDefineIndex_ok s es rs c pad p auth Hi Hp La Ba Lp Bp Hst Hh Hfit)
      as (s' & e & Hs & Hi' & He & _ & _ & Hf & _).
    destruct (index_entry_fields p auth pad e Hp La Lp He) as (Eh & _).
    exists s', e. split; [exact Hs|]. split; [exact Hi'|]. split; [apply He|]. split; [|exact Hf].
    unfold NvIndexIsDefined. rewrite <- Eh.
    rewrite (bind_Some _ _ _ _ _ (NvFindHandle_inv _ _ _ _ _ _ Hi')).
    destruct (inv_entry _ _ _ _ _ _ Hi') as (_ & _ & _ & Hlo & _).
    unfold ret. rewrite (proj2 (Z.eqb_neq _ 0)) by lia. done.
  - intros Hfit Hst. by eapply NvDefineIndex_unavailable.
  - intros Hfit. by rewrite (NvDefineIndex_tests _ _ _ _ _ _ _ Hi Hp), Hfit.
Qed.
End define.

(** Witness: a 16-octet ordinary index on a manufactured TPM. *)
Lemma nv_define_index_witness :
  ∃ s s' e, NvInv s [] [] 0 ∧ NvDefineIndex pad2 ordinary16 no_auth s = Some (TPM_RC_SUCCESS, s') ∧
    NvInv s' [e] [] 0.
Proof.
  destruct blank_manufactured as (s & _ & Hi & Hm & Hst & _ & _).
  destruct (nv_define_index s [] [] 0 pad2 ordinary16 no_auth Hi
    ltac:(apply public_area_wf; vm_compute; repeat split; congruence)
    ltac:(apply not_elem_of_nil) (proj1 no_auth_ok) (proj2 no_auth_ok)
    (proj1 pad2_ok) (proj2 pad2_ok)) as (Hok & _).
  destruct (Hok ltac:(vm_compute; reflexivity) Hst) as (s' & e & Hs & Hi' & _).
  exists s, s', e. split; [exact Hi|]. split; [exact Hs|]. rewrite Hm in Hi'. exact Hi'.
Defined.

(** ** Writing and reading index data *)

Section data.
Context `{NvLayout}.

(** Data written to an index in NV memory is what a later read returns.
    For a defined index that is not orderly and a range inside it, looking the
    index up and writing succeeds, sets TPMA_NV_WRITTEN, changes no other
    entity, and if the index had been written before no other octet of it; a
    later lookup and read of the range returns the data. *)
Theorem nv_write_read s es1 e es2 rs c offset data :
  NvInv s (es1 ++ e :: es2) rs c → is_index e = true → entry_orderly e = false →
  pub_nvIndex (s_cachedNvIndex s) ≠ entry_handle e → g_NvStatus s = TPM_RC_SUCCESS →
  0 ≤ offset → offset + blen data ≤ pub_dataSize e → Forall is_byte data →
  ∃ s' e' loc,
    (NvGetIndexInfo (entry_handle e) ;; NvWriteIndexData offset (blen data) data) s =
      Some (TPM_RC_SUCCESS, s') ∧
    NvInv s' (es1 ++ e' :: es2) rs c ∧
    IS_ATTRIBUTE (pub_attributes e') TPMA_NV_WRITTEN = true ∧
    (IS_ATTRIBUTE (pub_attributes e) TPMA_NV_WRITTEN = true →
     ∀ o n, 0 ≤ n → (0 ≤ o ∧ o + n ≤ 148 + offset) ∨ 148 + offset + blen data ≤ o →
       bread e' o n = bread e o n) ∧
    NvGetIndexInfo (entry_handle e) s' = Some (Some loc, s') ∧
    NvGetIndexData (s_cachedNvIndex s') loc offset (blen data) s' = Some (data, s').
Proof.
  intros Hi Hx Ho Hc Hst Hof Hle Hb.
  destruct (inv_entry _ _ _ _ _ _ Hi) as (Hw & _ & Hbe & _ & _).
  assert (Hl : blen e = 148 + pub_dataSize e)
    by (destruct Hw as [Hw']; rewrite Hx, Ho in Hw'; exact Hw').
  rewrite (bind_Some _ _ _ _ _ (NvGetIndexInfo_normal _ _ _ _ _ _ Hi Hx Ho Hc)).
  destruct (NvWriteIndexData_normal (set_cache (index_view e None) (nv_end es1 + 4) None s)
    es1 e es2 rs c offset data) as (s' & Hs & Hi' & C1 & C2 & _ & _);
    try assumption; try reflexivity; [by apply inv_cache|].
  pose proof (blen_nonneg data).
  destruct (mark_written_fields e (blen data) Hbe Hl) as (M1 & M2 & M3 & M4 & _).
  set (e1 := mark_written e (blen data)) in *.
  destruct (pub_set_data e1 (148 + offset) data) as (Q1 & Q2 & Q3 & Q4 & _); [lia|lia|].
  set (e' := bwrite e1 (148 + offset) data) in *.
  assert (Hx' : is_index e' = true) by (unfold is_index, is_type in *; by rewrite Q2, M2).
  assert (Ha' : pub_attributes e' = SET_ATTRIBUTE (pub_attributes e) TPMA_NV_WRITTEN) by congruence.
  assert (Hwr : IS_ATTRIBUTE (pub_attributes e') TPMA_NV_WRITTEN = true)
    by (rewrite Ha'; apply SET_written_written).
  exists s', e', (nv_end es1 + 4). split; [exact Hs|]. split; [exact Hi'|]. split; [exact Hwr|].
  split; [|split].
  - intros Hwr0 o n Hn Hrange. unfold e', e1, mark_written. rewrite Hwr0.
    destruct Hrange as [[Ho0 Ho1]|Ho1].
    + apply bread_bwrite_before; lia.
    + apply bread_bwrite_after; lia.
  - unfold NvGetIndexInfo, bind, gets, ret. cbv beta iota. rewrite C1.
    destruct (pub_of_view e' ltac:(unfold sizeof_NV_INDEX; lia)) as (V1 & _ & _).
    assert (Eh : pub_nvIndex (bread e' 0 148) = entry_handle e) by congruence.
    rewrite Eh, Z.eqb_refl, C2. reflexivity.
  - rewrite C1. rewrite (NvGetIndexData_normal s' es1 e' es2 rs c offset (blen data));
      try assumption; try lia.
    + do 2 f_equal. apply bread_bwrite_same; lia.
    + unfold entry_orderly in *. by rewrite Ha', SET_written_orderly.
Qed.

(** The same for an orderly index, whose data and attributes live in RAM:
    the write succeeds without touching the entity in NV memory (and without
    NV being available), marks the TPM as not orderly, and a later read returns
    the data. *)
Theorem nv_write_read_orderly s es1 e es2 rs c offset data :
  NvInv s (es1 ++ e :: es2) rs c → orderly_index e = true →
  pub_nvIndex (s_cachedNvIndex s) ≠ entry_handle e →
  0 ≤ offset → offset + blen data ≤ pub_dataSize e → Forall is_byte data →
  ∃ s' rs' loc,
    (NvGetIndexInfo (entry_handle e) ;; NvWriteIndexData offset (blen data) data) s =
      Some (TPM_RC_SUCCESS, s') ∧
    NvInv s' (es1 ++ e :: es2) rs' c ∧ nvmem s' = nvmem s ∧ g_clearOrderly s' = true ∧
    NvGetIndexInfo (entry_handle e) s' = Some (Some loc, s') ∧
    NvGetIndexData (s_cachedNvIndex s') loc offset (blen data) s' = Some (data, s').
Proof.
  intros Hi Hox Hc Hof Hle Hb.
  destruct (inv_ram_split _ _ _ _ _ _ Hi Hox)
    as (rs1 & r & rs2 & -> & Eh & El & Ef & Hn & K1 & K2).
  rewrite (bind_Some _ _ _ _ _ (NvGetIndexInfo_orderly _ _ _ _ _ _ _ _ Hi Hox Eh Hn Hc)).
  assert (Hk : ram_key r = index_key e)
    by (unfold ram_key, index_key; rewrite Eh, El, Ef; do 2 f_equal; lia).
  destruct (NvWriteIndexData_orderly
    (set_cache (index_view e (Some r)) (nv_end es1 + 4) (Some (nv_size rs1)) s)
    es1 e es2 rs1 r rs2 c offset data) as (s' & Hs & Hi' & Hk' & C1 & Hcl & Hro);
    try assumption; try reflexivity; [by apply inv_cache|].
  pose proof (blen_nonneg data).
  pose proof (ram_entries _ _ (inv_ram _ _ _ _ Hi)) as Hre.
  apply Forall_app in Hre as [_ Hre]. apply Forall_cons_1 in Hre as [[_ Hrb] _].
  destruct (ram_mark_written_fields r (pub_dataSize e) Hrb) as (M1 & M2 & M3 & _); [lia|lia|].
  set (r1 := ram_mark_written r (pub_dataSize e)) in *.
  destruct (ram_set_data r1 (8 + offset) data) as (D1 & D2 & D3); [lia|lia|].
  set (r' := bwrite r1 (8 + offset) data) in *.
  destruct Hro as (G1 & _ & _ & _ & _ & G6 & _).
  apply andb_true_iff in Hox as [Hx Ho].
  destruct (inv_entry _ _ _ _ _ _ Hi) as (Hw & _ & Hbe & _ & _).
  pose proof (is_index_len _ Hw Hbe Hx) as Hel.
  assert (Har : 0 ≤ ram_attributes r' < 4294967296).
  { rewrite D3, M3. apply SET_written_range, ram_attributes_range. exact Hrb. }
  destruct (view_fields e (ram_attributes r') Hel Har) as (V1 & _ & _).
  exists s', (rs1 ++ r' :: rs2), (nv_end es1 + 4). split; [exact Hs|]. split; [exact Hi'|].
  split; [unfold nvmem; by rewrite G1|]. split; [exact Hcl|]. split.
  - unfold NvGetIndexInfo, bind, gets, ret. cbv beta iota. rewrite C1.
    unfold index_view. rewrite V1, Z.eqb_refl, G6. reflexivity.
  - rewrite C1. rewrite (NvGetIndexData_orderly s' es1 e es2 rs1 r' rs2 c); try assumption; try lia.
    + do 2 f_equal. apply bread_bwrite_same; lia.
    + unfold orderly_index. by rewrite Hx, Ho.
    + rewrite D3, M3. apply SET_written_written.
Qed.
End data.

(** Facts about a freshly defined index, for the witnesses. *)
Lemma one_index_fields p :
  wf_public p → define_fits [] [] p = true →
  ∃ s e, NvInv s [e] (ram_of_public p) 0 ∧ entry_handle e = pub_nvIndex p ∧
    pub_attributes e = pub_attributes p ∧ pub_dataSize e = pub_dataSize p ∧ is_index e = true ∧
    entry_orderly e = IS_ATTRIBUTE (pub_attributes p) TPMA_NV_ORDERLY ∧
    g_NvStatus s = TPM_RC_SUCCESS ∧ pub_nvIndex (s_cachedNvIndex s) = 0 ∧ s_maxCounter s = 0.
Proof.
  intros Hp Hf. destruct (one_index p Hp Hf) as (s & e & Hi & He & Hst & Hc & Hm).
  destruct (index_entry_fields p no_auth pad2 e Hp (proj1 no_auth_ok) (proj1 pad2_ok) He)
    as (E1 & E2 & E3 & _ & E5 & _ & E7).
  exists s, e. split; [exact Hi|]. split_and!; assumption.
Qed.

Lemma ordinary16_wf : wf_public ordinary16.
Proof. apply public_area_wf; vm_compute; repeat split; congruence. Qed.
Lemma counter8_wf : wf_public counter8.
Proof. apply public_area_wf; vm_compute; repeat split; congruence. Qed.
Lemma orderly16_wf : wf_public orderly16.
Proof. apply public_area_wf; vm_compute; repeat split; congruence. Qed.

(** Witness: four octets at offset 2 of a fresh ordinary index. *)
Lemma nv_write_read_witness :
  ∃ s e s' loc, NvInv s [e] [] 0 ∧
    (NvGetIndexInfo (entry_handle e) ;; NvWriteIndexData 2 4 [1; 2; 3; 4]) s =
      Some (TPM_RC_SUCCESS, s') ∧
    NvGetIndexData (s_cachedNvIndex s') loc 2 4 s' = Some ([1; 2; 3; 4], s').
Proof.
  destruct (one_index_fields ordinary16 ordinary16_wf ltac:(vm_compute; reflexivity))
    as (s & e & Hi & Eh & _ & Ed & Hx & Ho & Hst & Hc & _).
  destruct (nv_write_read s [] e [] [] 0 2 [1; 2; 3; 4] Hi Hx Ho) as (s' & e' & loc & W).
  - rewrite Hc, Eh. vm_compute. congruence.
  - exact Hst.
  - lia.
  - rewrite Ed. vm_compute. congruence.
  - repeat constructor; unfold is_byte; lia.
  - destruct W as (W1 & _ & _ & _ & _ & W3). exists s, e, s', loc.
    split; [exact Hi|]. split; [exact W1|exact W3].
Defined.

(** Witness: the same on an orderly index. *)
Lemma nv_write_read_orderly_witness :
  ∃ s e s' loc, NvInv s [e] (ram_of_public orderly16) 0 ∧
    (NvGetIndexInfo (entry_handle e) ;; NvWriteIndexData 2 4 [1; 2; 3; 4]) s =
      Some (TPM_RC_SUCCESS, s') ∧
    NvGetIndexData (s_cachedNvIndex s') loc 2 4 s' = Some ([1; 2; 3; 4], s').
Proof.
  destruct (one_index_fields orderly16 orderly16_wf ltac:(vm_compute; reflexivity))
    as (s & e & Hi & Eh & _ & Ed & Hx & Ho & Hst & Hc & _).
  destruct (nv_write_read_orderly s [] e [] (ram_of_public orderly16) 0 2 [1; 2; 3; 4] Hi)
    as (s' & rs' & loc & W).
  - unfold orderly_index. rewrite Hx, Ho. vm_compute. reflexivity.
  - rewrite Hc, Eh. vm_compute. congruence.
  - lia.
  - rewrite Ed. vm_compute. congruence.
  - repeat constructor; unfold is_byte; lia.
  - destruct W as (W1 & _ & _ & _ & _ & W3). exists s, e, s', loc.
    split; [exact Hi|]. split; [exact W1|exact W3].
Defined.

(** ** Deleting an index *)

Section delete.
Context `{NvLayout}.

(** What deleting the index [e] achieves. *)
Definition index_gone s es1 e es2 rs : Prop :=
  ∃ s1 s' rs' loc data, NvGetIndexInfo (entry_handle e) s = Some (Some loc, s1) ∧
    NvDeleteIndex (Some (s_cachedNvIndex s1)) loc s1 = Some (TPM_RC_SUCCESS, s') ∧
    NvInv s' (es1 ++ es2) rs' (s_maxCounter s') ∧ rs' `sublist_of` rs ∧
    NvIndexIsDefined (entry_handle e) s' = Some (false, s') ∧
    s_maxCounter s ≤ s_maxCounter s' ∧
    (IsNvCounterIndex (pub_attributes (s_cachedNvIndex s1))
       && IS_ATTRIBUTE (pub_attributes (s_cachedNvIndex s1)) TPMA_NV_WRITTEN = true →
     NvGetIndexData (s_cachedNvIndex s1) loc 0 8 s1 = Some (data, s1) ∧
     ByteArrayToUint64 data ≤ s_maxCounter s').

Lemma handle_gone s es1 e es2 rs c s' rs' c' :
  NvInv s (es1 ++ e :: es2) rs c → NvInv s' (es1 ++ es2) rs' c' →
  NvIndexIsDefined (entry_handle e) s' = Some (false, s').
Proof.
  intros Hi Hi'. unfold NvIndexIsDefined.
  rewrite (bind_Some _ _ _ _ _ (NvFindHandle_none _ _ _ _ (inv_rep _ _ _ _ Hi')
    ltac:(apply Forall_app; exact (nodup_before _ _ _ (inv_nodup _ _ _ _ Hi))))). done.
Qed.

Lemma deleted_max_le m a d : m ≤ deleted_max m a d.
Proof. unfold deleted_max. case_match; lia. Qed.

Lemma delete_orderly_index s es1 e es2 rs c :
  NvInv s (es1 ++ e :: es2) rs c → is_index e = true → entry_orderly e = true →
  pub_nvIndex (s_cachedNvIndex s) ≠ entry_handle e → g_NvStatus s = TPM_RC_SUCCESS →
  (IsNvCounterIndex (pub_attributes e) = true → pub_dataSize e = 8) →
  index_gone s es1 e es2 rs.
Proof.
  intros Hi Hx Ho Hc Hst H8.
  destruct (inv_entry _ _ _ _ _ _ Hi) as (Hw & _ & Hbe & _ & _).
  pose proof (is_index_len _ Hw Hbe Hx) as Hel.
  assert (Hox : orderly_index e = true) by (unfold orderly_index; by rewrite Hx, Ho).
  destruct (inv_ram_split _ _ _ _ _ _ Hi Hox)
    as (rs1 & r & rs2 & -> & Eh & El & Ef & Hn & K1 & K2).
  assert (Hk : ram_key r = index_key e)
    by (unfold ram_key, index_key; rewrite Eh, El, Ef; do 2 f_equal; lia).
  pose proof (ram_entries _ _ (inv_ram _ _ _ _ Hi)) as Hre.
  apply Forall_app in Hre as [_ Hre]. apply Forall_cons_1 in Hre as [[_ Hrb] _].
  destruct (view_fields e (ram_attributes r) Hel (ram_attributes_range r Hrb)) as (V1 & V2 & V3).
  fold (index_view e (Some r)) in V1, V2, V3.
  pose proof (NvGetIndexInfo_orderly _ _ _ _ _ _ _ _ Hi Hox Eh Hn Hc) as Hg.
  set (s1 := set_cache _ _ _ s) in Hg.
  assert (Hi1 : NvInv s1 (es1 ++ e :: es2) (rs1 ++ r :: rs2) c) by (by apply inv_cache).
  assert (H8' : IsNvCounterIndex (pub_attributes (index_view e (Some r))) = true →
                pub_dataSize e = 8).
  { rewrite V2. intros Hcn. apply H8. unfold IsNvCounterIndex in *.
    by rewrite <- (fixed_NT _ _ Ef). }
  destruct (NvDeleteIndex_orderly s1 es1 e es2 rs1 r rs2 c (index_view e (Some r)))
    as (s' & Hs' & Hi' & Hm & _); try assumption; [by rewrite Eh|by rewrite V2|].
  exists s1, s', (rs1 ++ rs2), (nv_end es1 + 4), (bread r 8 8).
  split; [exact Hg|]. split; [exact Hs'|]. split; [by rewrite Hm|].
  split; [apply sublist_app; [done|by apply sublist_cons]|].
  split; [by eapply handle_gone|]. split; [rewrite Hm; apply deleted_max_le|].
  intros Hcw. change (s_cachedNvIndex s1) with (index_view e (Some r)) in *. split.
  - apply andb_true_iff in Hcw as [Hcn Hwr]. rewrite V2 in Hwr.
    apply (NvGetIndexData_orderly s1 es1 e es2 rs1 r rs2 c); try assumption; try lia.
    rewrite (H8' Hcn). lia.
  - rewrite Hm. unfold deleted_max. rewrite Hcw. lia.
Qed.

Lemma delete_normal_index s es1 e es2 rs c :
  NvInv s (es1 ++ e :: es2) rs c → is_index e = true → entry_orderly e = false →
  pub_nvIndex (s_cachedNvIndex s) ≠ entry_handle e → g_NvStatus s = TPM_RC_SUCCESS →
  (IsNvCounterIndex (pub_attributes e) = true → pub_dataSize e = 8) →
  index_gone s es1 e es2 rs.
Proof.
  intros Hi Hx Ho Hc Hst H8.
  destruct (inv_entry _ _ _ _ _ _ Hi) as (Hw & _ & Hbe & _ & _).
  pose proof (is_index_len _ Hw Hbe Hx) as Hel.
  pose proof (NvGetIndexInfo_normal _ _ _ _ _ _ Hi Hx Ho Hc) as Hg.
  set (s1 := set_cache _ _ _ s) in Hg.
  assert (Hi1 : NvInv s1 (es1 ++ e :: es2) rs c) by (by apply inv_cache).
  destruct (pub_of_view e Hel) as (_ & Va & _).
  destruct (NvDeleteIndex_normal s1 es1 e es2 rs c (bread e 0 148))
    as (s' & Hs' & Hi' & Hm & _); try assumption; try reflexivity.
  exists s1, s', rs, (nv_end es1 + 4), (bread e 148 8).
  split; [exact Hg|]. split; [exact Hs'|]. split; [by rewrite Hm|]. split; [done|].
  split; [by eapply handle_gone|]. split; [rewrite Hm; apply deleted_max_le|].
  intros Hcw. change (s_cachedNvIndex s1) with (bread e 0 148) in *. rewrite Va in Hcw. split.
  - apply andb_true_iff in Hcw as [Hcn Hwr].
    apply (NvGetIndexData_normal s1 es1 e es2 rs c 0 8); try assumption; try lia.
    rewrite (H8 Hcn). lia.
  - rewrite Hm. unfold deleted_max. rewrite Hcw. lia.
Qed.

(** [NvDeleteIndex] with the descriptor [NvGetIndexInfo] returns removes
    exactly that index, from NV memory and, if orderly, from RAM; the handle is
    no longer defined, the others are untouched.  If the index was a counter
    that had been written, the max counter kept in the end marker of the list
    is at least its last value, so a counter defined later cannot start below
    it; the max counter never decreases. *)
Theorem nv_delete_index s es1 e es2 rs c :
  NvInv s (es1 ++ e :: es2) rs c → is_index e = true →
  pub_nvIndex (s_cachedNvIndex s) ≠ entry_handle e → g_NvStatus s = TPM_RC_SUCCESS →
  (IsNvCounterIndex (pub_attributes e) = true → pub_dataSize e = 8) →
  ∃ s1 s' rs' loc data, NvGetIndexInfo (entry_handle e) s = Some (Some loc, s1) ∧
    NvDeleteIndex (Some (s_cachedNvIndex s1)) loc s1 = Some (TPM_RC_SUCCESS, s') ∧
    NvInv s' (es1 ++ es2) rs' (s_maxCounter s') ∧ rs' `sublist_of` rs ∧
    NvIndexIsDefined (entry_handle e) s' = Some (false, s') ∧
    s_maxCounter s ≤ s_maxCounter s' ∧
    (IsNvCounterIndex (pub_attributes (s_cachedNvIndex s1))
       && IS_ATTRIBUTE (pub_attributes (s_cachedNvIndex s1)) TPMA_NV_WRITTEN = true →
     NvGetIndexData (s_cachedNvIndex s1) loc 0 8 s1 = Some (data, s1) ∧
     ByteArrayToUint64 data ≤ s_maxCounter s').
Proof.
  intros Hi Hx Hc Hst H8. destruct (entry_orderly e) eqn:Ho.
  - exact (delete_orderly_index s es1 e es2 rs c Hi Hx Ho Hc Hst H8).
  - exact (delete_normal_index s es1 e es2 rs c Hi Hx Ho Hc Hst H8).
Qed.
End delete.

(** Witness: deleting the counter of a TPM with one counter. *)
Lemma nv_delete_index_witness :
  ∃ s e s' rs', NvInv s [e] [] 0 ∧ NvInv s' [] rs' (s_maxCounter s') ∧
    NvIndexIsDefined (entry_handle e) s' = Some (false, s').
Proof.
  destruct (one_index_fields counter8 counter8_wf ltac:(vm_compute; reflexivity))
    as (s & e & Hi & Eh & _ & Ed & Hx & Ho & Hst & Hc & _).
  destruct (nv_delete_index s [] e [] [] 0 Hi Hx) as (s1 & s' & rs' & loc & d & D).
  - rewrite Hc, Eh. vm_compute. congruence.
  - exact Hst.
  - intros _. rewrite Ed. vm_compute. reflexivity.
  - destruct D as (_ & _ & Hi' & _ & Hd & _). exists s, e, s', rs'.
    split; [exact Hi|]. split; [exact Hi'|exact Hd].
Defined.

(** ** Persistent objects *)

Section evict.
Context `{NvLayout}.

Lemma set_evict_stored h o :
  blen o = sizeof_OBJECT → Forall is_byte o → set_evict (stored_object h o) = stored_object h o.
Proof.
  intros Hl Hb. pose proof layout_evictHandle as [Ho1 Ho2].
  pose proof (stored_object_len h o Hl) as Ls.
  pose proof (stored_object_byte h o Hb) as Bs.
  assert (Hr : 0 ≤ object_attributes o < 4294967296).
  { unfold object_attributes. pose proof (le_val_bread o 0 4 Hb) as Hx.
    change (256 ^ 4) with 4294967296 in Hx. apply Hx. lia. }
  assert (Ha : bread (stored_object h o) 0 4 =
    le_bytes 4 (Z.lor (object_attributes o) EVICT_BIT)).
  { unfold stored_object, set_object_evictHandle.
    pose proof (set_evict_len o ltac:(lia)).
    rewrite bread_bwrite_before by (rewrite ?blen_le_bytes; lia).
    apply bread_bwrite_same; rewrite ?blen_le_bytes; lia. }
  unfold set_evict, set_object_attributes. apply bwrite_same; rewrite ?blen_le_bytes; [lia|lia|].
  change (Z.of_nat 4) with 4. unfold object_attributes at 1. rewrite Ha.
  rewrite le_val_bytes.
  - by rewrite <- Z.lor_assoc, Z.lor_diag.
  - change (256 ^ Z.of_nat 4) with 4294967296. apply lor_u32_range; [exact Hr|].
    unfold EVICT_BIT. lia.
Qed.

(** A persistent object that was added is what [NvGetEvictObject] returns:
    with space and NV available, [NvAddEvictObject] on a new persistent handle
    succeeds, adds exactly one entity, and reading the handle back gives the
    object with the evict attribute set and its evictHandle; after
    [NvDeleteEvict] the handle is gone and the entities are those of before. *)
Theorem nv_evict_roundtrip s es rs c h o o2 :
  NvInv s es rs c → g_NvStatus s = TPM_RC_SUCCESS → evict_fits es = true →
  HandleGetType h = TPM_HT_PERSISTENT → 0 ≤ h < 4294967296 → h ∉ map entry_handle es →
  blen o = sizeof_OBJECT → Forall is_byte o →
  ∃ s' o' e s'', NvAddEvictObject h o s = Some ((TPM_RC_SUCCESS, o'), s') ∧
    NvInv s' (es ++ [e]) rs (s_maxCounter s) ∧
    NvGetEvictObject h o2 s' = Some ((TPM_RC_SUCCESS, stored_object h o), s') ∧
    NvDeleteEvict h s' = Some (TPM_RC_SUCCESS, s'') ∧ NvInv s'' es rs (s_maxCounter s') ∧
    NvGetEvictObject h o2 s'' = Some ((TPM_RC_HANDLE, set_evict o2), s'').
Proof.
  intros Hi Hst Hfit Ht Hh Hn Hl Hb.
  destruct (NvAddEvictObject_ok s es rs c h o Hi Hst Hfit Ht Hh Hn Hl Hb)
    as (s' & o' & Hs & Hi' & Hst' & _).
  set (e := le_bytes 4 h ++ stored_object h o) in *.
  pose proof (stored_object_len h o Hl) as Ls.
  assert (Eh : entry_handle e = h).
  { unfold entry_handle, e.
    rewrite bread_app_l, bread_all by (rewrite ?blen_le_bytes; lia).
    apply le_val_bytes. exact Hh. }
  assert (Ex : is_index e = false) by (unfold is_index, is_type; by rewrite Eh, Ht).
  assert (Ep : is_persistent e = true) by (unfold is_persistent, is_type; by rewrite Eh, Ht).
  destruct (NvDeleteEvict_ok s' es e [] rs _ Hi' Ex) as (s'' & Hd & Hi'' & _);
    [by rewrite Hst'|].
  rewrite app_nil_r in Hi''. rewrite Eh in Hd.
  exists s', o', e, s''. split; [exact Hs|]. split; [exact Hi'|]. split; [|split; [exact Hd|]].
  - rewrite <- Eh at 1. rewrite (NvGetEvictObject_ok s' es e [] rs _ o2 Hi' Ep Ex).
    assert (Er : bread e 4 sizeof_OBJECT = stored_object h o).
    { unfold e. rewrite bread_app_r by (rewrite blen_le_bytes; lia). rewrite blen_le_bytes.
      by apply bread_all. }
    by rewrite Er, (set_evict_stored h o Hl Hb).
  - split; [exact Hi''|]. by eapply NvGetEvictObject_missing.
Qed.

(** Room is left for the promised minimum of persistent objects and counters. *)
Definition reserve_ok (es : list bytes) : Prop :=
  nv_end es + 12 + evict_reserve es + counter_reserve es ≤ NV_MEMORY_SIZE.

(** The room that is left after one more persistent object, and after one more
    index that passed the space tests. *)
Lemma reserve_evict es e :
  reserve_ok es → evict_fits es = true → is_persistent e = true → is_index e = false →
  blen e = 4 + sizeof_OBJECT → reserve_ok (es ++ [e]).
Proof.
  intros Hres Hfit He Hx Hl. pose proof (counter_reserve_range es) as Hcr.
  pose proof (evict_reserve_range es) as Her. pose proof layout_evictHandle as Hlay.
  pose proof (count_nonneg is_persistent es). pose proof (count_nonneg counter_index es).
  unfold evict_fits, reserve_ok, evict_reserve, counter_reserve,
    NV_EVICT_OBJECT_SIZE, NV_INDEX_COUNTER_SIZE, MIN_EVICT_OBJECTS, MIN_COUNTER_INDICES,
    sizeof_NV_INDEX in *.
  zbool. rewrite !count_app, nv_end_app, Hl.
  assert (Hce : count counter_index [e] = 0)
    by (unfold count, counter_index; cbn [List.filter]; rewrite Hx; done).
  assert (Hpe : count is_persistent [e] = 1)
    by (unfold count; cbn [List.filter]; rewrite He; done).
  rewrite Hce, Hpe. nia.
Qed.

Lemma reserve_index es rs p e :
  reserve_ok es → wf_public p → (IsNvCounterIndex (pub_attributes p) = true → pub_dataSize p = 8) →
  define_fits es rs p = true → is_index e = true → pub_attributes e = pub_attributes p →
  blen e = define_size p → reserve_ok (es ++ [e]).
Proof.
  intros Hres Hp Hc8 Hfit Hx Ha Hl. pose proof (counter_reserve_range es) as Hcr.
  pose proof (evict_reserve_range es) as Her. pose proof layout_evictHandle as Hlay.
  pose proof (count_nonneg is_persistent es). pose proof (count_nonneg counter_index es).
  unfold define_fits, reserve_ok, evict_reserve, counter_reserve,
    NV_EVICT_OBJECT_SIZE, NV_INDEX_COUNTER_SIZE, MIN_EVICT_OBJECTS, MIN_COUNTER_INDICES,
    sizeof_NV_INDEX in *.
  apply andb_true_iff in Hfit as [Hfit _]. zbool.
  assert (Hpe : count is_persistent [e] = 0).
  { unfold count, is_persistent, is_type. cbn [List.filter].
    unfold is_index, is_type in Hx. zbool. rewrite Hx. done. }
  assert (Hce : count counter_index [e] =
    if IsNvCounterIndex (pub_attributes p) then 1 else 0)
    by (unfold count, counter_index; cbn [List.filter]; rewrite Hx, Ha; by destruct (IsNvCounterIndex _)).
  rewrite !count_app, nv_end_app, Hl, Hpe, Hce. unfold define_size in *.
  pose proof (pub_dataSize_range p (wfp_byte _ Hp)). unfold sizeof_NV_INDEX in *.
  destruct (IsNvCounterIndex (pub_attributes p)).
  - specialize (Hc8 eq_refl). destruct (IS_ATTRIBUTE _ _); nia.
  - destruct (IS_ATTRIBUTE _ _); nia.
Qed.

(** With the promised room left, the space tests pass for the promised number. *)
Lemma reserve_fits es rs p :
  reserve_ok es →
  (count is_persistent es < MIN_EVICT_OBJECTS → evict_fits es = true) ∧
  (count counter_index es < MIN_COUNTER_INDICES → IsNvCounterIndex (pub_attributes p) = true →
   pub_dataSize p = 8 → IS_ATTRIBUTE (pub_attributes p) TPMA_NV_ORDERLY = false → define_fits es rs p = true).
Proof.
  intros Hres. pose proof (counter_reserve_range es) as Hcr.
  pose proof (evict_reserve_range es) as Her. pose proof layout_evictHandle as Hlay.
  pose proof (count_nonneg is_persistent es). pose proof (count_nonneg counter_index es).
  unfold evict_fits, define_fits, reserve_ok, evict_reserve, counter_reserve,
    NV_EVICT_OBJECT_SIZE, NV_INDEX_COUNTER_SIZE, MIN_EVICT_OBJECTS, MIN_COUNTER_INDICES,
    sizeof_NV_INDEX in *.
  split.
  - intros Hlt. zbool. nia.
  - intros Hlt Hc H8 Ho. rewrite Hc, Ho, andb_true_r. unfold define_size. rewrite Ho, H8.
    unfold sizeof_NV_INDEX. zbool. nia.
Qed.

(** A persistent handle that is free, with an object for it. *)
Definition new_object (es : list bytes) (h : Z) (o : bytes) : Prop :=
  HandleGetType h = TPM_HT_PERSISTENT ∧ 0 ≤ h < 4294967296 ∧ h ∉ map entry_handle es ∧
  blen o = sizeof_OBJECT ∧ Forall is_byte o.

(** A public area for a free handle, with an authValue; counters have eight octets. *)
Definition new_index (es : list bytes) (pad p auth : bytes) : Prop :=
  wf_public p ∧ pub_nvIndex p ∉ map entry_handle es ∧
  (IsNvCounterIndex (pub_attributes p) = true → pub_dataSize p = 8) ∧
  blen auth = sizeof_TPM2B_AUTH ∧ Forall is_byte auth ∧ blen pad = 2 ∧ Forall is_byte pad.

(** C38. The promise of a minimum number of persistent objects and counters,
    kept by [NvAddEvictObject] and [NvDefineIndex] through [NvTestSpace].  In a
    state where the room for those still missing from the minimum is left
    ([reserve_ok]), as it is after manufacturing, and with NV available: (1)
    [NvAddEvictObject] accepts an object whenever fewer than MIN_EVICT_OBJECTS
    exist; (2) [NvDefineIndex] accepts a counter in NV memory whenever fewer
    than MIN_COUNTER_INDICES exist; (3) and (4) after any object or index
    that one of them accepts, of whatever kind, the promised room is left. *)
Theorem nv_space_promise s es rs c :
  NvInv s es rs c → g_NvStatus s = TPM_RC_SUCCESS → reserve_ok es →
  (∀ h o, new_object es h o → count is_persistent es < MIN_EVICT_OBJECTS →
     ∃ s' o', NvAddEvictObject h o s = Some ((TPM_RC_SUCCESS, o'), s')) ∧
  (∀ pad p auth, new_index es pad p auth → count counter_index es < MIN_COUNTER_INDICES →
     IsNvCounterIndex (pub_attributes p) = true → IS_ATTRIBUTE (pub_attributes p) TPMA_NV_ORDERLY = false →
     ∃ s', NvDefineIndex pad p auth s = Some (TPM_RC_SUCCESS, s')) ∧
  (∀ h o o' s', new_object es h o → NvAddEvictObject h o s = Some ((TPM_RC_SUCCESS, o'), s') →
     ∃ e, NvInv s' (es ++ [e]) rs (s_maxCounter s) ∧ reserve_ok (es ++ [e])) ∧
  (∀ pad p auth s', new_index es pad p auth → NvDefineIndex pad p auth s = Some (TPM_RC_SUCCESS, s') →
     ∃ e, NvInv s' (es ++ [e]) (rs ++ ram_of_public p) (s_maxCounter s) ∧ reserve_ok (es ++ [e])).
Proof.
  intros Hi Hst Hres. split; [|split; [|split]].
  - intros h o (Ht & Hh & Hn & Hl & Hb) Hlt.
    destruct (NvAddEvictObject_ok s es rs c h o Hi Hst (proj1 (reserve_fits es rs [] Hres) Hlt) Ht Hh Hn Hl Hb)
      as (s' & o' & E & _). by exists s', o'.
  - intros pad p auth (Hp & Hn & H8 & La & Ba & Lp & Bp) Hlt Hc Ho.
    destruct (NvDefineIndex_ok s es rs c pad p auth Hi Hp La Ba Lp Bp Hst Hn
      (proj2 (reserve_fits es rs p Hres) Hlt Hc (H8 Hc) Ho)) as (s' & e & E & _). by exists s'.
  - intros h o o' s' (Ht & Hh & Hn & Hl & Hb) E. destruct (evict_fits es) eqn:Hfit; cycle 1.
    { rewrite (NvAddEvictObject_tests _ _ _ _ _ _ Hi), Hfit in E. discriminate. }
    destruct (NvAddEvictObject_ok s es rs c h o Hi Hst Hfit Ht Hh Hn Hl Hb) as (s1 & o1 & E1 & Hi1 & _).
    rewrite E1 in E. injection E as _ <-. eexists. split; [exact Hi1|].
    assert (Eh : entry_handle (le_bytes 4 h ++ stored_object h o) = h).
    { unfold entry_handle. rewrite bread_app_l, bread_all by (rewrite ?blen_le_bytes; lia).
      apply le_val_bytes. exact Hh. }
    apply reserve_evict; [done|done|unfold is_persistent, is_type; by rewrite Eh, Ht
                         |unfold is_index, is_type; by rewrite Eh, Ht|].
    rewrite blen_app, blen_le_bytes, (stored_object_len h o Hl). done.
  - intros pad p auth s' (Hp & Hn & H8 & La & Ba & Lp & Bp) E. destruct (define_fits es rs p) eqn:Hfit; cycle 1.
    { rewrite (NvDefineIndex_tests _ _ _ _ _ _ _ Hi Hp), Hfit in E. discriminate. }
    destruct (NvDefineIndex_ok s es rs c pad p auth Hi Hp La Ba Lp Bp Hst Hn Hfit) as (s1 & e & E1 & Hi1 & He & _).
    rewrite E1 in E. injection E as <-. exists e. split; [exact Hi1|].
    destruct (index_entry_fields p auth pad e Hp La Lp He) as (_ & Fa & _ & _ & Hx & _ & _).
    by apply (reserve_index es rs p); [..|apply He].
Qed.
End evict.

Definition demo_object : bytes := bfill 0 (@sizeof_OBJECT rv64_layout).

(** Witness: a persistent object on a manufactured TPM. *)
Lemma nv_evict_roundtrip_witness :
  ∃ s s' o', NvInv s [] [] 0 ∧
    NvAddEvictObject 0x81000001 demo_object s = Some ((TPM_RC_SUCCESS, o'), s') ∧
    NvGetEvictObject 0x81000001 demo_object s' =
      Some ((TPM_RC_SUCCESS, stored_object 0x81000001 demo_object), s').
Proof.
  destruct blank_manufactured as (s & _ & Hi & Hm & Hst & _ & _).
  destruct (nv_evict_roundtrip s [] [] 0 0x81000001 demo_object demo_object Hi Hst
    ltac:(vm_compute; reflexivity) ltac:(vm_compute; reflexivity)
    ltac:(vm_compute; split; congruence) ltac:(apply not_elem_of_nil)
    ltac:(vm_compute; reflexivity)
    ltac:(apply Forall_replicate; unfold is_byte; lia))
    as (s' & o' & e & s'' & A & _ & G & _).
  exists s, s', o'. split; [exact Hi|]. split; [exact A|exact G].
Defined.

(** Witness: the promise after manufacturing, for a first object and a counter. *)
Lemma nv_space_promise_witness :
  reserve_ok [] ∧ ∃ s s1 o1 s2, NvInv s [] [] 0 ∧
    NvAddEvictObject 0x81000001 demo_object s = Some ((TPM_RC_SUCCESS, o1), s1) ∧
    (∃ e, NvInv s1 [e] [] (s_maxCounter s) ∧ reserve_ok [e]) ∧
    NvDefineIndex pad2 counter8 no_auth s = Some (TPM_RC_SUCCESS, s2) ∧
    (∃ e, NvInv s2 [e] [] (s_maxCounter s) ∧ reserve_ok [e]).
Proof.
  assert (Hr : reserve_ok []) by (vm_compute; congruence).
  destruct blank_manufactured as (s & _ & Hi & _ & Hst & _ & _).
  destruct (nv_space_promise s [] [] 0 Hi Hst Hr) as (P1 & P2 & P3 & P4).
  assert (Ho : new_object [] 0x81000001 demo_object).
  { split; [vm_compute; reflexivity|]. split; [lia|]. split; [apply not_elem_of_nil|].
    split; [vm_compute; reflexivity|apply Forall_replicate; unfold is_byte; lia]. }
  assert (Hn : new_index [] pad2 counter8 no_auth).
  { destruct no_auth_ok, pad2_ok. split; [exact counter8_wf|]. split; [apply not_elem_of_nil|].
    split; [intros _; vm_compute; reflexivity|]. done. }
  destruct (P1 _ _ Ho ltac:(vm_compute; reflexivity)) as (s1 & o1 & E1).
  destruct (P2 _ _ _ Hn ltac:(vm_compute; reflexivity) ltac:(vm_compute; reflexivity) ltac:(vm_compute; reflexivity))
    as (s2 & E2).
  split; [exact Hr|]. exists s, s1, o1, s2. split; [exact Hi|]. split; [exact E1|].
  split; [exact (P3 _ _ _ _ Ho E1)|]. split; [exact E2|]. exact (P4 _ _ _ _ Hn E2).
Defined.

(** ** Operations over all entities *)

Section all_entities.
Context `{NvLayout}.

(** C22. [NvFlushHierarchy] terminates and deletes exactly the entities of the
    hierarchy: for the storage hierarchy the owner-created indices and the
    objects of that hierarchy, for the others the objects only.  What is kept
    keeps its contents, in NV memory and in RAM, and its order; the max counter
    does not decrease and covers every written counter in NV memory that was
    deleted. *)
Theorem nv_flush_hierarchy hierarchy s es rs c :
  NvInv s es rs c → g_NvStatus s = TPM_RC_SUCCESS → counters_ok es →
  ∃ s' rs' c', NvFlushHierarchy hierarchy s = Some (TPM_RC_SUCCESS, s') ∧
    NvInv s' (List.filter (λ e, negb (flushable hierarchy e)) es) rs' c' ∧
    rs' `sublist_of` rs ∧ s_maxCounter s ≤ s_maxCounter s' ∧
    (∀ e, e ∈ es → flushable hierarchy e = true → is_index e = true → entry_orderly e = false →
     IsNvCounterIndex (pub_attributes e) && IS_ATTRIBUTE (pub_attributes e) TPMA_NV_WRITTEN = true →
     ByteArrayToUint64 (bread e 148 8) ≤ s_maxCounter s').
Proof.
  intros Hi Hst Hc8. destruct (NvFlushHierarchy_ok hierarchy s es rs c Hi Hst Hc8)
    as (s' & rs' & c' & Hs & Hi' & Hsub & _ & Hm & Hv).
  exists s', rs', c'. split; [exact Hs|]. split; [exact Hi'|]. split_and!; assumption.
Qed.

(** The value of an orderly counter is lost when its hierarchy is flushed:
    [NvFlushHierarchy] hands [NvDeleteIndex] the descriptor in NV memory, whose
    TPMA_NV_WRITTEN is never set for an orderly index (the attributes are kept
    in RAM), so the value in RAM does not reach the max counter, although
    [NvDeleteIndex] says that it is updated whenever a counter is deleted. *)
Theorem nv_flush_orderly_counter s es1 e es2 rs1 r rs2 c :
  NvInv s (es1 ++ e :: es2) (rs1 ++ r :: rs2) c → orderly_index e = true →
  ram_key r = index_key e → Forall (λ r', entry_handle r' ≠ entry_handle r) rs1 →
  map ram_key rs1 = map index_key (List.filter orderly_index es1) →
  map ram_key rs2 = map index_key (List.filter orderly_index es2) →
  IS_ATTRIBUTE (pub_attributes e) TPMA_NV_WRITTEN = false →
  IsNvCounterIndex (pub_attributes e) = true → pub_dataSize e = 8 →
  g_NvStatus s = TPM_RC_SUCCESS →
  ∃ s', NvDeleteIndex (Some (bread e 0 sizeof_NV_INDEX)) (nv_end es1 + 4) s = Some (TPM_RC_SUCCESS, s') ∧
    s_maxCounter s' = s_maxCounter s.
Proof.
  intros Hi Hx Hk Hn K1 K2 Hw Hc H8 Hst.
  pose proof Hx as Hx'. apply andb_true_iff in Hx' as [Hxi Ho].
  destruct (inv_entry _ _ _ _ _ _ Hi) as (Hwf & _ & Hb & _ & _).
  destruct (pub_of_view e (is_index_len _ Hwf Hb Hxi)) as (V1 & V2 & _).
  destruct (NvDeleteIndex_orderly s es1 e es2 rs1 r rs2 c (bread e 0 148))
    as (s' & Hs & _ & Hm & _); try assumption; [by rewrite V2|intros; exact H8|].
  exists s'. split; [exact Hs|]. rewrite Hm. unfold deleted_max. by rewrite V2, Hw, andb_false_r.
Qed.

(** [NvSetGlobalLock] sets TPMA_NV_WRITELOCKED on every index with
    TPMA_NV_GLOBALLOCK, in NV memory or in RAM, and changes nothing else. *)
Theorem nv_global_lock s es rs c :
  NvInv s es rs c → g_NvStatus s = TPM_RC_SUCCESS →
  ∃ s', NvSetGlobalLock s = Some (TPM_RC_SUCCESS, s') ∧
    NvInv s' (map (λ e, if is_index e then lock_entry e else e) es) (map lock_ram rs) c ∧
    (∀ r, r ∈ rs → IS_ATTRIBUTE (ram_attributes r) TPMA_NV_GLOBALLOCK = true →
       ram_attributes (lock_ram r) = SET_ATTRIBUTE (ram_attributes r) TPMA_NV_WRITELOCKED) ∧
    (∀ e, e ∈ es → is_index e = true → entry_orderly e = false →
       IS_ATTRIBUTE (pub_attributes e) TPMA_NV_GLOBALLOCK = true →
       pub_attributes (lock_entry e) = SET_ATTRIBUTE (pub_attributes e) TPMA_NV_WRITELOCKED ∧
       ∀ o n, 12 ≤ o → bread (lock_entry e) o n = bread e o n).
Proof.
  intros Hi Hst. destruct (NvSetGlobalLock_ok s es rs c Hi Hst) as (s' & Hs & Hi' & _).
  exists s'. split; [exact Hs|]. split; [exact Hi'|]. split.
  - intros r Hr Hg. destruct (ram_facts _ _ _ (inv_ram _ _ _ _ Hi) Hr) as (Hl & _ & Ha).
    unfold lock_ram. rewrite Hg.
    by destruct (ram_set_attributes r _ Hl (SET_writelocked_range _ Ha)) as (_ & _ & ?).
  - intros e He Hx Ho Hg. destruct (inv_index_facts _ _ _ _ _ Hi He Hx) as (Hl & _ & Ha).
    unfold lock_entry. rewrite Ho, Hg. cbn [negb andb]. split.
    + by destruct (pub_set_attributes e _ Hl (SET_writelocked_range _ Ha)) as (_ & _ & _ & ? & _).
    + intros o n Hon. unfold set_pub_attributes, offsetof_attributes.
      apply bread_bwrite_after; rewrite ?blen_le_bytes; unfold sizeof_NV_INDEX in Hl; lia.
Qed.

(** TPM2_Startup that is not a resume: [NvEntityStartup] restores the
    orderly RAM from NV memory, sets the max counter to the value in the end
    marker, and gives every index the attributes [NvSetStartupAttributes]
    computes; the data of the indices is kept, except that an orderly counter
    gets its low bits set when the TPM was not shut down orderly. *)
Theorem nv_entity_startup type s es rs c :
  NvInv (restored (bread (nvmem s) NV_INDEX_RAM_DATA RAM_INDEX_SPACE) c s) es rs c →
  0 ≤ c < 2 ^ 64 → nv_end es + 12 < NV_MEMORY_SIZE → g_NvStatus s = TPM_RC_SUCCESS →
  Forall ram_counter_ok rs → type ≠ SU_RESUME →
  ∃ s', NvEntityStartup type s = Some (true, s') ∧ s_maxCounter s' = c ∧
    NvInv s' (map (λ e, if is_index e then startup_entry type e else e) es)
      (map (startup_ram type (g_prevOrderlyState s)) rs) c ∧
    g_inFailureMode s' = g_inFailureMode s.
Proof. apply NvEntityStartup_ok. Qed.

(** When the entities fill NV memory so that the end marker lies in its last
    octets, which the space test allows, reading the max counter at startup
    puts the TPM in failure mode: [NvRead] tests [<] where the last octet is at
    [NV_MEMORY_SIZE]. *)
Theorem nv_full_memory_fails s es c :
  NvRep s es c → nv_end es + 12 = NV_MEMORY_SIZE →
  ∃ v, NvGetMaxCount s = Some (v, set_inFailureMode true s).
Proof.
  intros Hr He. pose proof (nv_end_bounds _ _ _ Hr). unfold NvGetMaxCount.
  fold NvGetEnd. rewrite (bind_Some _ _ _ _ _ (NvGetEnd_ok _ _ _ Hr)).
  unfold sizeof_UINT32. rewrite u32_nv by lia.
  erewrite bind_Some by (apply NvRead_last; [apply (rep_len _ _ _ Hr)|lia|lia|lia]).
  eexists. reflexivity.
Qed.
End all_entities.

Lemma lor_ones_div w : Z.lor w (Z.ones 8) = 256 * (w / 256) + 255.
Proof.
  assert (Hd : Z.land (Z.ldiff w (Z.ones 8)) (Z.ones 8) = 0).
  { apply Z.bits_inj'. intros i Hi. rewrite Z.land_spec, Z.ldiff_spec, Z.bits_0.
    destruct (Z.testbit w i), (Z.testbit (Z.ones 8) i); done. }
  transitivity (Z.lor (Z.ldiff w (Z.ones 8)) (Z.ones 8)).
  - apply Z.bits_inj'. intros i Hi. rewrite !Z.lor_spec, Z.ldiff_spec.
    destruct (Z.testbit w i), (Z.testbit (Z.ones 8) i); done.
  - rewrite <- Z.lxor_lor by exact Hd. rewrite <- Z.add_nocarry_lxor by exact Hd.
    rewrite Z.ldiff_ones_r, Z.shiftl_mul_pow2, Z.shiftr_div_pow2 by lia.
    change (2 ^ 8) with 256. change (Z.ones 8) with 255. lia.
Qed.

(** An orderly counter never goes back across a restart that was not
    orderly: its value in NV memory is that of the last time its low bits
    were zero, or the last orderly save, so the value [v] it had in RAM differs
    from the saved one in the low bits only; after [NvEntityStartup] it is at
    least [v]. *)
Theorem nv_orderly_counter_monotone type r v :
  IsNvCounterIndex (ram_attributes r) = true → blen r = 16 → Forall is_byte r →
  v / 256 = ByteArrayToUint64 (bread r 8 8) / 256 →
  v ≤ ByteArrayToUint64 (bread (startup_ram type SU_NONE_VALUE r) 8 8).
Proof.
  intros Hc Hl Hb Hv. unfold startup_ram.
  set (a := NvSetStartupAttributes (ram_attributes r) type).
  assert (Ha : IsNvCounterIndex a = true).
  { unfold IsNvCounterIndex, a in *. by rewrite (fixed_NT _ _ (NvSetStartupAttributes_fixed _ type)). }
  rewrite Ha, Z.eqb_refl. cbn [andb].
  pose proof (NvSetStartupAttributes_range _ type (ram_attributes_range r Hb)) as Hr.
  destruct (ram_set_attributes r a ltac:(lia) Hr) as (P1 & _ & _).
  rewrite bread_bwrite_same by (rewrite ?blen_Uint64; lia).
  set (w := ByteArrayToUint64 (bread r 8 8)) in *.
  pose proof (ByteArrayToUint64_range (bread r 8 8)) as Hw. fold w in Hw.
  assert (Hlor : Z.lor w MAX_ORDERLY_COUNT = 256 * (w / 256) + 255).
  { change MAX_ORDERLY_COUNT with (Z.ones 8). apply lor_ones_div. }
  rewrite Uint64_roundtrip; rewrite Hlor.
  - pose proof (Z.div_mod v 256). pose proof (Z.mod_pos_bound v 256). lia.
  - pose proof (Z.div_pos w 256).
    assert (w / 256 < 2 ^ 56) by (apply Z.div_lt_upper_bound; lia). lia.
Qed.

(** ** Witnesses *)

(** Witness: TPM2_Clear of a TPM with one owner-created index. *)
Lemma nv_flush_hierarchy_witness :
  ∃ s e s' rs' c', NvInv s [e] [] 0 ∧
    NvFlushHierarchy TPM_RH_OWNER s = Some (TPM_RC_SUCCESS, s') ∧ NvInv s' [] rs' c'.
Proof.
  destruct (one_index_fields ordinary16 ordinary16_wf ltac:(vm_compute; reflexivity))
    as (s & e & Hi & Eh & Ea & Ed & Hx & Ho & Hst & Hc & _).
  destruct (nv_flush_hierarchy TPM_RH_OWNER s [e] [] 0 Hi Hst) as (s' & rs' & c' & Hs & Hi' & _).
  - constructor; [|constructor]. unfold counter_index. rewrite Hx, Ea. vm_compute. congruence.
  - exists s, e, s', rs', c'. split; [exact Hi|]. split; [exact Hs|].
    assert (Hfl : flushable TPM_RH_OWNER e = true).
    { unfold flushable. rewrite Hx, Ea. vm_compute. reflexivity. }
    cbn [List.filter] in Hi'. rewrite Hfl in Hi'. exact Hi'.
Defined.

Definition orderly_counter8 : bytes :=
  public_area 0x01000004 (Z.lor TPMA_NV_ORDERLY (Z.shiftl TPM_NT_COUNTER 4)) 8.
Lemma orderly_counter8_wf : wf_public orderly_counter8.
Proof. apply public_area_wf; vm_compute; repeat split; congruence. Qed.

(** Witness: an orderly counter on its own. *)
Lemma nv_flush_orderly_counter_witness :
  ∃ s e s', NvInv s [e] (ram_of_public orderly_counter8) 0 ∧
    NvDeleteIndex (Some (bread e 0 sizeof_NV_INDEX)) (nv_end [] + 4) s = Some (TPM_RC_SUCCESS, s') ∧
    s_maxCounter s' = s_maxCounter s.
Proof.
  destruct (one_index_fields orderly_counter8 orderly_counter8_wf ltac:(vm_compute; reflexivity))
    as (s & e & Hi & Eh & Ea & Ed & Hx & Ho & Hst & Hc & _).
  assert (Hox : orderly_index e = true)
    by (unfold orderly_index; rewrite Hx, Ho; vm_compute; reflexivity).
  pose proof (inv_keys _ _ _ _ Hi) as Hk. cbn [List.filter] in Hk. rewrite Hox in Hk.
  change (ram_of_public orderly_counter8) with [ram_new orderly_counter8] in Hk.
  assert (Hkey : ram_key (ram_new orderly_counter8) = index_key e)
    by (exact (f_equal (λ l, match l with x :: _ => x | [] => (0, 0, 0) end) Hk)).
  destruct (nv_flush_orderly_counter s [] e [] [] (ram_new orderly_counter8) [] 0 Hi Hox Hkey)
    as (s' & Hs & Hm).
  - constructor.
  - reflexivity.
  - reflexivity.
  - rewrite Ea. vm_compute. reflexivity.
  - rewrite Ea. vm_compute. reflexivity.
  - rewrite Ed. vm_compute. reflexivity.
  - exact Hst.
  - exists s, e, s'. split; [exact Hi|]. split; [exact Hs|exact Hm].
Defined.

Definition locked16 : bytes := public_area 0x01000005 TPMA_NV_GLOBALLOCK 16.
Lemma locked16_wf : wf_public locked16.
Proof. apply public_area_wf; vm_compute; repeat split; congruence. Qed.

(** Witness: one index with TPMA_NV_GLOBALLOCK. *)
Lemma nv_global_lock_witness :
  ∃ s e s', NvInv s [e] [] 0 ∧ NvSetGlobalLock s = Some (TPM_RC_SUCCESS, s') ∧
    pub_attributes (lock_entry e) = SET_ATTRIBUTE TPMA_NV_GLOBALLOCK TPMA_NV_WRITELOCKED.
Proof.
  destruct (one_index_fields locked16 locked16_wf ltac:(vm_compute; reflexivity))
    as (s & e & Hi & Eh & Ea & Ed & Hx & Ho & Hst & Hc & _).
  destruct (nv_global_lock s [e] [] 0 Hi Hst) as (s' & Hs & _ & _ & He).
  destruct (He e ltac:(by left) Hx ltac:(rewrite Ho; vm_compute; reflexivity)
    ltac:(rewrite Ea; vm_compute; reflexivity)) as [Hl _].
  exists s, e, s'. split; [exact Hi|]. split; [exact Hs|].
  rewrite Hl, Ea. vm_compute. reflexivity.
Defined.

(** Witness: TPM Reset of a manufactured TPM. *)
Lemma nv_entity_startup_witness :
  ∃ s s', NvInv s [] [] 0 ∧ NvEntityStartup SU_RESET s = Some (true, s') ∧ NvInv s' [] [] 0.
Proof.
  destruct (NvManufacture_ok blank) as (s & Hs & Hi & Hm & Hst & Hf & Hc & Hram);
    [vm_compute; reflexivity|apply Forall_replicate; unfold is_byte; lia|vm_compute; reflexivity|].
  destruct (nv_entity_startup SU_RESET s [] [] 0) as (s' & Hs' & _ & Hi' & _).
  - rewrite Hram. unfold restored. destruct Hi as [[] [] ???].
    constructor; [constructor|constructor|..]; assumption.
  - vm_compute. split; congruence.
  - vm_compute. reflexivity.
  - rewrite Hst. reflexivity.
  - constructor.
  - congruence.
  - exists s, s'. split; [exact Hi|]. split; [exact Hs'|exact Hi'].
Defined.

(** NV memory filled to the last octet by one entity. *)
Definition full_entry : bytes :=
  bfill 1 (NV_MEMORY_SIZE - 12 - 4 - @NV_USER_DYNAMIC rv64_layout).
Definition full_state : NvState :=
  with_nvmem (bfill 0 (@NV_USER_DYNAMIC rv64_layout) ++ nv_encode [full_entry] ++ nv_marker 0)
    (set_evictNvEnd NV_MEMORY_SIZE blank).

Lemma full_entry_len : blen full_entry = 28712.
Proof. unfold full_entry. rewrite blen_bfill; vm_compute; congruence. Qed.

Lemma full_state_rep : NvRep full_state [full_entry] 0.
Proof.
  pose proof full_entry_len as Le.
  assert (Ln : nv_size [full_entry] = 28716)
    by (rewrite nv_size_cons, nv_size_nil, Le; reflexivity).
  assert (Lu : blen (bfill 0 (@NV_USER_DYNAMIC rv64_layout)) = 4040)
    by (rewrite blen_bfill; vm_compute; congruence).
  assert (Hb : Forall is_byte full_entry) by (apply Forall_replicate; unfold is_byte; lia).
  constructor.
  - unfold nv_ok, full_state. cbn [nvmem with_nvmem plat set_plat s_NV set_s_NV].
    fold (nv_size [full_entry]). rewrite !blen_app, Lu, blen_nv_marker.
    fold (nv_size [full_entry]). rewrite Ln. reflexivity.
  - unfold full_state. cbn [nvmem with_nvmem plat set_plat s_NV set_s_NV].
    rewrite !Forall_app. split; [apply Forall_replicate; unfold is_byte; lia|]. split.
    + rewrite nv_encode_cons, !Forall_app. split; [apply le_bytes_byte|].
      split; [exact Hb|constructor].
    + unfold nv_marker. apply Forall_app. split; apply le_bytes_byte.
  - reflexivity.
  - unfold nv_end. rewrite Ln. vm_compute. congruence.
  - constructor; [|constructor]. split; [lia|exact Hb].
  - unfold full_state. cbn [nvmem with_nvmem plat set_plat s_NV set_s_NV].
    rewrite bread_app_r by (rewrite Lu; vm_compute; congruence).
    rewrite Lu. change (@NV_USER_DYNAMIC rv64_layout - 4040) with 0.
    apply bread_all. rewrite blen_app, blen_nv_marker. reflexivity.
Qed.

(** Witness: reading the max counter of [full_state]. *)
Lemma nv_full_memory_fails_witness :
  ∃ v, NvGetMaxCount full_state = Some (v, set_inFailureMode true full_state).
Proof.
  apply (nv_full_memory_fails full_state [full_entry] 0 full_state_rep).
  unfold nv_end. rewrite nv_size_cons, nv_size_nil, full_entry_len. vm_compute. reflexivity.
Defined.

(** Witness: a counter saved as 5 and used up to 200. *)
Lemma nv_orderly_counter_monotone_witness :
  200 ≤ ByteArrayToUint64 (bread (startup_ram SU_RESET SU_NONE_VALUE
    (le_bytes 4 0x01000004 ++ le_bytes 4 (Z.lor TPMA_NV_ORDERLY (Z.shiftl TPM_NT_COUNTER 4))
     ++ Uint64ToByteArray 5)) 8 8).
Proof.
  apply (nv_orderly_counter_monotone SU_RESET).
  - vm_compute. reflexivity.
  - vm_compute. reflexivity.
  - rewrite !Forall_app. split_and!; [apply le_bytes_byte..|apply Uint64_byte].
  - vm_compute. reflexivity.
Defined.

(** ** Capabilities *)

Section cap.
Context `{NvLayout}.

(** [NvCapGetIndex] returns, in increasing order and without repetition
    beyond what is defined, the smallest handles from the start handle on, as
    many as asked for (at most MAX_CAP_HANDLES), and reports that there are
    more exactly when some were left out; NV memory is not changed. *)
Theorem nv_cap_get_index handle count arr s es c :
  NvRep s es c → length arr = Z.to_nat MAX_CAP_HANDLES → 0 ≤ count →
  HandleGetType handle = TPM_HT_NV_INDEX →
  ∃ hl more all, NvCapGetIndex handle count arr s = Some ((hl, more), s) ∧
    Sorted Z.le all ∧
    all ≡ₚ List.filter (λ h, handle <=? h) (map entry_handle (List.filter is_index es)) ∧
    hl_list hl = take (cap_count count) all ∧ more = (cap_count count <? length all)%nat.
Proof.
  intros Hr Harr Hc Ht.
  destruct (NvCapGetIndex_ok handle count arr s es c Hr Harr Hc Ht) as (hl & more & Hs & Hl & Hm).
  destruct (sorted_handles_spec (candidates handle (List.filter is_index es))) as [Hso Hp].
  eexists hl, more, _. split; [exact Hs|]. split; [exact Hso|]. split; [exact Hp|].
  split; [exact Hl|exact Hm].
Qed.
End cap.

(** Witness: the handles of a TPM with one index. *)
Lemma nv_cap_get_index_witness :
  ∃ s e hl more, NvInv s [e] [] 0 ∧
    NvCapGetIndex 0x01000000 10 (replicate 254 0) s = Some ((hl, more), s).
Proof.
  destruct (one_index_fields ordinary16 ordinary16_wf ltac:(vm_compute; reflexivity))
    as (s & e & Hi & _).
  destruct (nv_cap_get_index 0x01000000 10 (replicate 254 0) s [e] 0 (inv_rep _ _ _ _ Hi))
    as (hl & more & all & Hs & _).
  - vm_compute. reflexivity.
  - lia.
  - vm_compute. reflexivity.
  - exists s, e, hl, more. split; [exact Hi|exact Hs].
Defined.

(** ** The file behind NV memory *)

Section platform.
Context `{BlockCipher}.


(** [_plat__NVDisable] with [delete] set leaves the NV file as it was: the
    mode "w" it opens the file with is not one [NvFileOpen] knows, so the file
    is neither truncated nor removed, although the comments at the call in
    ftpm_init and in NVMem.c say the file is deleted. *)
Theorem nv_disable_keeps_file p :
  ∃ p', plat__NVDisable true true p = Some (tt, p') ∧ NVChip p' = NVChip p ∧
    s_NvIsAvailable p' = false.
Proof.
  unfold plat__NVDisable, NvFileOpen. munfold. destruct p as [nv enc av u r [] nm chip sd]; cbn; eauto.
Qed.

(** Without an open file [_plat__NvCommit] writes nothing and still reports
    success, although the comment of [NvFileCommit] says that it returns failure. *)
Theorem nv_commit_without_file p :
  s_NvFile p = false → plat__NvCommit true p = Some (0, p).
Proof. intros Hf. unfold plat__NvCommit, NvFileCommit. munfold. by rewrite Hf. Qed.
End platform.

Definition open_plat : PlatNv :=
  mkPlatNv (bfill 7 NV_MEMORY_SIZE) [] true 0 0 true false None true true.


(** Witness: a platform whose file could not be opened. *)
Lemma nv_commit_without_file_witness :
  @plat__NvCommit nv_cipher true blank_plat = Some (0, blank_plat).
Proof. apply (@nv_commit_without_file nv_cipher blank_plat). reflexivity. Defined.
