(* ===== verification/NvCmd.v ===== *)
(** * The NV commands (src/NVCommands.c, src/NV_spt.c)

    The command actions over the operations of NVDynamic.c.  A public area is the
    image of a [TPMS_NV_PUBLIC], an authorization value the image of a
    [TPM2B_AUTH]; the index pointer of the C code is the index cache. *)

From S2P Require Import Prelude TpmTypes Memory Cbc NVMem NVReserved NvList NvRam NvIndex NvFlush.
Local Open Scope Z_scope.

Section nv_cmd.
Context `{NvLayout} `{HashLib}.

(** ** Fields of the images *)

Definition pub_nameAlg (p : bytes) : Z := le_val (bread p 4 2).
Definition pub_authPolicy_size (p : bytes) : Z := le_val (bread p 12 2).
Definition pub_authPolicy (p : bytes) : bytes := bread p 14 (pub_authPolicy_size p).

(** [MemoryRemoveTrailingZeros] on the image of a [TPM2B_AUTH]. *)
Definition trim_auth (auth : bytes) : bytes :=
  bwrite auth 0 (le_bytes 2 (Z.of_nat (trim_zeros (Z.to_nat (auth_size auth)) (bread auth 2 64)))).

(** ** Access checks (NV_spt.c) *)

Definition NvReadAccessChecks (authHandle nvHandle attributes : Z) : Z :=
  if IS_ATTRIBUTE attributes TPMA_NV_READLOCKED then TPM_RC_NV_LOCKED
  else
    let authorized :=
      if authHandle =? TPM_RH_OWNER then IS_ATTRIBUTE attributes TPMA_NV_OWNERREAD
      else if authHandle =? TPM_RH_PLATFORM then IS_ATTRIBUTE attributes TPMA_NV_PPREAD
      else authHandle =? nvHandle in
    if negb authorized then TPM_RC_NV_AUTHORIZATION
    else if negb (IS_ATTRIBUTE attributes TPMA_NV_WRITTEN) then TPM_RC_NV_UNINITIALIZED
    else TPM_RC_SUCCESS.

Definition NvWriteAccessChecks (authHandle nvHandle attributes : Z) : Z :=
  if IS_ATTRIBUTE attributes TPMA_NV_WRITELOCKED then TPM_RC_NV_LOCKED
  else
    let authorized :=
      if authHandle =? TPM_RH_OWNER then IS_ATTRIBUTE attributes TPMA_NV_OWNERWRITE
      else if authHandle =? TPM_RH_PLATFORM then IS_ATTRIBUTE attributes TPMA_NV_PPWRITE
      else authHandle =? nvHandle in
    if negb authorized then TPM_RC_NV_AUTHORIZATION else TPM_RC_SUCCESS.

(** ** Defining an index *)

(** The checks that precede the test for an index with the same handle; the
    three codes name the parameter at fault. *)
Definition define_space_checks (authHandle : Z) (phEnableNV : bool) (auth publicInfo : bytes)
    (blameAuthHandle blameAuth blamePublic : Z) : Z :=
  let attributes := pub_attributes publicInfo in
  let has := IS_ATTRIBUTE attributes in
  let nt := GET_TPM_NT attributes in
  let nameSize := CryptHashGetDigestSize (pub_nameAlg publicInfo) in
  let dataSize := pub_dataSize publicInfo in
  if negb (pub_authPolicy_size publicInfo =? 0) && negb (pub_authPolicy_size publicInfo =? nameSize)
  then TPM_RC_SIZE + blamePublic
  else if nameSize <? auth_size (trim_auth auth) then TPM_RC_SIZE + blameAuth
  else if (authHandle =? TPM_RH_PLATFORM) && negb phEnableNV then TPM_RC_HIERARCHY + blameAuthHandle
  else if negb ((nt =? TPM_NT_COUNTER) || (nt =? TPM_NT_BITS) || (nt =? TPM_NT_EXTEND)
                || (nt =? TPM_NT_PIN_PASS) || (nt =? TPM_NT_PIN_FAIL) || (nt =? TPM_NT_ORDINARY))
  then TPM_RC_ATTRIBUTES + blamePublic
  else if (if nt =? TPM_NT_ORDINARY then MAX_NV_INDEX_SIZE <? dataSize
           else if nt =? TPM_NT_EXTEND then negb (dataSize =? nameSize)
           else negb (dataSize =? 8))
  then TPM_RC_SIZE + blamePublic
  else if (if nt =? TPM_NT_COUNTER then has TPMA_NV_CLEAR_STCLEAR
           else if (nt =? TPM_NT_PIN_FAIL) && negb (has TPMA_NV_NO_DA) then true
           else if (nt =? TPM_NT_PIN_FAIL) || (nt =? TPM_NT_PIN_PASS)
           then has TPMA_NV_AUTHWRITE || has TPMA_NV_GLOBALLOCK || has TPMA_NV_WRITEDEFINE
           else false)
  then TPM_RC_ATTRIBUTES + blamePublic
  else if has TPMA_NV_WRITTEN || has TPMA_NV_WRITELOCKED || has TPMA_NV_READLOCKED
  then TPM_RC_ATTRIBUTES + blamePublic
  else if negb (has TPMA_NV_OWNERREAD) && negb (has TPMA_NV_PPREAD)
          && negb (has TPMA_NV_AUTHREAD) && negb (has TPMA_NV_POLICYREAD)
  then TPM_RC_ATTRIBUTES + blamePublic
  else if negb (has TPMA_NV_OWNERWRITE) && negb (has TPMA_NV_PPWRITE)
          && negb (has TPMA_NV_AUTHWRITE) && negb (has TPMA_NV_POLICYWRITE)
  then TPM_RC_ATTRIBUTES + blamePublic
  else if has TPMA_NV_CLEAR_STCLEAR && has TPMA_NV_WRITEDEFINE
  then TPM_RC_ATTRIBUTES + blamePublic
  else if (has TPMA_NV_PLATFORMCREATE && (authHandle =? TPM_RH_OWNER))
          || (negb (has TPMA_NV_PLATFORMCREATE) && (authHandle =? TPM_RH_PLATFORM))
  then TPM_RC_ATTRIBUTES + blameAuthHandle
  else if has TPMA_NV_POLICY_DELETE && negb (authHandle =? TPM_RH_PLATFORM)
  then TPM_RC_ATTRIBUTES + blamePublic
  else if (MAX_NV_BUFFER_SIZE <? dataSize) && has TPMA_NV_WRITEALL
  then TPM_RC_SIZE + blamePublic
  else TPM_RC_SUCCESS.

(** [NvDefineSpace]; [padding] is what [NvDefineIndex] finds after the
    authorization value. *)
Definition NvDefineSpace (padding : bytes) (authHandle : Z) (auth publicInfo : bytes)
    (blameAuthHandle blameAuth blamePublic : Z) : M NvState Z :=
  let! phEnableNV := gets gc_phEnableNV in
  let r := define_space_checks authHandle phEnableNV auth publicInfo
             blameAuthHandle blameAuth blamePublic in
  if negb (r =? TPM_RC_SUCCESS) then ret r
  else
    let! defined := NvIndexIsDefined (pub_nvIndex publicInfo) in
    if defined : bool then ret TPM_RC_NV_DEFINED
    else NvDefineIndex padding publicInfo (trim_auth auth).

(** The body of this command is a copy of [NvDefineSpace]. *)
Definition TPM2_NV_DefineSpace (padding : bytes) (authHandle : Z) (auth publicInfo : bytes)
    : M NvState Z :=
  NvDefineSpace padding authHandle auth publicInfo
    (TPM_RC_H + TPM_RC_1) (TPM_RC_P + TPM_RC_1) (TPM_RC_P + TPM_RC_2).

(** A [TPMT_NV_PUBLIC_2]: the legacy form, or the form with extended attributes. *)
Inductive TPMT_NV_PUBLIC_2 :=
  | NvIndexPublic (p : bytes)
  | PermanentPublic (p : bytes)
  | ExternalPublic (nvIndex nameAlg attributes : Z) (authPolicy : bytes) (dataSize : Z)
  | OtherPublic (handleType : Z).

(** [NvPublicFromNvPublic2]: [None] is TPM_RCS_HANDLE.  [stack] is what the
    structure to be filled held before: the external form does not assign the
    handle.  [authPolicy] is the image of a [TPM2B_DIGEST]. *)
Definition NvPublicFromNvPublic2 (stack : bytes) (nvPublic2 : TPMT_NV_PUBLIC_2) : option bytes :=
  match nvPublic2 with
  | NvIndexPublic p | PermanentPublic p => Some p
  | ExternalPublic _ nameAlg attributes authPolicy dataSize =>
      Some (bwrite (bwrite (bwrite (bwrite stack 8 (le_bytes 4 (u32 attributes)))
              12 authPolicy) 78 (le_bytes 2 dataSize)) 4 (le_bytes 2 nameAlg))
  | OtherPublic _ => None
  end.

(** [NvPublic2FromNvPublic] *)
Definition NvPublic2FromNvPublic (p : bytes) : option TPMT_NV_PUBLIC_2 :=
  let handleType := HandleGetType (pub_nvIndex p) in
  if handleType =? TPM_HT_NV_INDEX then Some (NvIndexPublic p)
  else if handleType =? TPM_HT_PERMANENT_NV then Some (PermanentPublic p)
  else if handleType =? TPM_HT_EXTERNAL_NV
  then Some (ExternalPublic (pub_nvIndex p) (pub_nameAlg p) (pub_attributes p) (bread p 12 66)
               (pub_dataSize p))
  else None.

(** [RcSafeAddToResult] (ResponseCodeProcessing.c) *)
Definition RcSafeAddToResult (responseCode modifier : Z) : Z :=
  if negb (Z.land responseCode RC_FMT1 =? 0) && (Z.land responseCode 0xf40 =? 0)
  then u32 (responseCode + modifier) else responseCode.

Definition TPM2_NV_DefineSpace2 (stack padding : bytes) (authHandle : Z) (auth : bytes)
    (publicInfo : TPMT_NV_PUBLIC_2) : M NvState Z :=
  let define legacyPublic :=
    NvDefineSpace padding authHandle auth legacyPublic
      (TPM_RC_H + TPM_RC_1) (TPM_RC_P + TPM_RC_1) (TPM_RC_P + TPM_RC_2) in
  let convert :=
    match NvPublicFromNvPublic2 stack publicInfo with
    | Some legacyPublic => define legacyPublic
    | None => ret (RcSafeAddToResult TPM_RC_HANDLE (TPM_RC_P + TPM_RC_2))
    end in
  match publicInfo with
  | NvIndexPublic _ => convert
  | ExternalPublic _ _ attributes _ _ =>
      if negb (Z.land attributes 0xffffffff00000000 =? 0)
      then ret (TPM_RC_ATTRIBUTES + (TPM_RC_P + TPM_RC_2)) else convert
  | _ => ret (TPM_RC_HANDLE + (TPM_RC_P + TPM_RC_2))
  end.

(** ** The Name of an index *)

(** [TPMU_NV_PUBLIC_2_Marshal] (Marshal.c), the octets hashed for the Name. *)
Definition TPM2B_DIGEST_Marshal (size : Z) (d : bytes) : bytes := Uint16ToByteArray size ++ d.

Definition TPMS_NV_PUBLIC_Marshal (p : bytes) : bytes :=
  Uint32ToByteArray (pub_nvIndex p) ++ Uint16ToByteArray (pub_nameAlg p)
  ++ Uint32ToByteArray (pub_attributes p)
  ++ TPM2B_DIGEST_Marshal (pub_authPolicy_size p) (pub_authPolicy p)
  ++ Uint16ToByteArray (pub_dataSize p).

Definition TPMU_NV_PUBLIC_2_Marshal (public2 : TPMT_NV_PUBLIC_2) : option bytes :=
  match public2 with
  | NvIndexPublic p | PermanentPublic p => Some (TPMS_NV_PUBLIC_Marshal p)
  | ExternalPublic nvIndex nameAlg attributes authPolicy dataSize =>
      Some (Uint32ToByteArray nvIndex ++ Uint16ToByteArray nameAlg ++ Uint64ToByteArray attributes
            ++ TPM2B_DIGEST_Marshal (le_val (bread authPolicy 0 2))
                 (bread authPolicy 2 (le_val (bread authPolicy 0 2)))
            ++ Uint16ToByteArray dataSize)
  | OtherPublic _ => None
  end.

Definition NvGetIndexName (nvIndex : bytes) : option bytes :=
  match NvPublic2FromNvPublic nvIndex with
  | Some public2 =>
      match TPMU_NV_PUBLIC_2_Marshal public2 with
      | Some m => Some (Uint16ToByteArray (pub_nameAlg nvIndex) ++ Hash (pub_nameAlg nvIndex) m)
      | None => None
      end
  | None => None
  end.

(** ** The commands *)

(** The index a command names is present, its handle has been checked: a NULL
    pointer is dereferenced otherwise. *)
Definition with_index {A} (nvIndex : Z) (k : Z → bytes → M NvState A) : M NvState A :=
  let! locator := NvGetIndexInfo nvIndex in
  match locator with
  | None => undef
  | Some locator => let! idx := gets s_cachedNvIndex in k locator idx
  end.

Definition TPM2_NV_UndefineSpace (authHandle nvIndex : Z) : M NvState Z :=
  with_index nvIndex (λ locator idx,
    if IS_ATTRIBUTE (pub_attributes idx) TPMA_NV_POLICY_DELETE
    then ret (TPM_RC_ATTRIBUTES + (TPM_RC_H + TPM_RC_2))
    else if (authHandle =? TPM_RH_OWNER) && IS_ATTRIBUTE (pub_attributes idx) TPMA_NV_PLATFORMCREATE
    then ret TPM_RC_NV_AUTHORIZATION
    else NvDeleteIndex (Some idx) locator).

(** With the handle whose association to sessions is removed. *)
Definition TPM2_NV_UndefineSpaceSpecial (nvIndex : Z) : M NvState (Z * option Z) :=
  with_index nvIndex (λ locator idx,
    if negb (IS_ATTRIBUTE (pub_attributes idx) TPMA_NV_POLICY_DELETE)
    then ret (TPM_RC_ATTRIBUTES + (TPM_RC_H + TPM_RC_1), None)
    else
      let! result := NvDeleteIndex (Some idx) locator in
      ret (result, if result =? TPM_RC_SUCCESS then Some nvIndex else None)).

Definition TPM2_NV_ReadPublic (nvIndex : Z) : M NvState (Z * bytes * bytes) :=
  with_index nvIndex (λ _ idx,
    let! name := of_option (NvGetIndexName idx) in
    ret (TPM_RC_SUCCESS, bread idx 0 sizeof_TPMS_NV_PUBLIC, name)).

(** The public area in its general form and the Name, or the error. *)
Definition TPM2_NV_ReadPublic2 (nvIndex : Z) : M NvState (Z * option (TPMT_NV_PUBLIC_2 * bytes)) :=
  with_index nvIndex (λ _ idx,
    match NvPublic2FromNvPublic (bread idx 0 sizeof_TPMS_NV_PUBLIC) with
    | None => ret (RcSafeAddToResult TPM_RC_HANDLE (TPM_RC_H + TPM_RC_1), None)
    | Some nvPublic2 =>
        let! name := of_option (NvGetIndexName idx) in
        ret (TPM_RC_SUCCESS, Some (nvPublic2, name))
    end).

(** [NvIsPinPassIndex] (NV_spt.c) *)
Definition NvIsPinPassIndex (index : Z) : M NvState bool :=
  if HandleGetType index =? TPM_HT_NV_INDEX
  then with_index index (λ _ idx, ret (GET_TPM_NT (pub_attributes idx) =? TPM_NT_PIN_PASS))
  else ret false.

Definition TPM2_NV_Write (authHandle nvIndex : Z) (data : bytes) (offset : Z) : M NvState Z :=
  with_index nvIndex (λ _ idx,
    let attributes := pub_attributes idx in
    let result := NvWriteAccessChecks authHandle nvIndex attributes in
    if negb (result =? TPM_RC_SUCCESS) then ret result
    else if IsNvCounterIndex attributes || IsNvBitsIndex attributes || IsNvExtendIndex attributes
    then ret TPM_RC_ATTRIBUTES
    else if pub_dataSize idx <? offset then ret (TPM_RC_VALUE + (TPM_RC_P + TPM_RC_2))
    else if pub_dataSize idx - offset <? blen data then ret TPM_RC_NV_RANGE
    else if IS_ATTRIBUTE attributes TPMA_NV_WRITEALL && (blen data <? pub_dataSize idx)
    then ret TPM_RC_NV_RANGE
    else NvWriteIndexData offset (blen data) data).

Definition TPM2_NV_Increment (authHandle nvIndex : Z) : M NvState Z :=
  with_index nvIndex (λ locator idx,
    let result := NvWriteAccessChecks authHandle nvIndex (pub_attributes idx) in
    if negb (result =? TPM_RC_SUCCESS) then ret result
    else if negb (IsNvCounterIndex (pub_attributes idx))
    then ret (TPM_RC_ATTRIBUTES + (TPM_RC_H + TPM_RC_2))
    else
      let! countValue :=
        (if negb (IS_ATTRIBUTE (pub_attributes idx) TPMA_NV_WRITTEN)
         then NvReadMaxCount else NvGetUINT64Data idx locator) in
      let countValue := u64 (countValue + 1) in
      let! result := NvWriteUINT64Data countValue in
      (if result =? TPM_RC_SUCCESS then
         if IS_ATTRIBUTE (pub_attributes idx) TPMA_NV_ORDERLY
            && (Z.land countValue MAX_ORDERLY_COUNT =? 0)
         then SET_NV_UPDATE UT_ORDERLY else ret tt
       else ret tt) ;;
      ret result).

Definition TPM2_NV_Extend (authHandle nvIndex : Z) (data : bytes) : M NvState Z :=
  with_index nvIndex (λ locator idx,
    let result := NvWriteAccessChecks authHandle nvIndex (pub_attributes idx) in
    if negb (result =? TPM_RC_SUCCESS) then ret result
    else if negb (IsNvExtendIndex (pub_attributes idx))
    then ret (TPM_RC_ATTRIBUTES + (TPM_RC_H + TPM_RC_2))
    else
      let size := CryptHashGetDigestSize (pub_nameAlg idx) in
      pAssert (size <=? 64) ;;
      let! oldDigest :=
        (if IS_ATTRIBUTE (pub_attributes idx) TPMA_NV_WRITTEN
         then NvGetIndexData idx locator 0 size else ret (bfill 0 size)) in
      let newDigest := Hash (pub_nameAlg idx) (oldDigest ++ data) in
      NvWriteIndexData 0 (blen newDigest) newDigest).

Definition TPM2_NV_SetBits (authHandle nvIndex bits : Z) : M NvState Z :=
  with_index nvIndex (λ locator idx,
    let result := NvWriteAccessChecks authHandle nvIndex (pub_attributes idx) in
    if negb (result =? TPM_RC_SUCCESS) then ret result
    else if negb (IsNvBitsIndex (pub_attributes idx))
    then ret (TPM_RC_ATTRIBUTES + (TPM_RC_H + TPM_RC_2))
    else
      let! oldValue :=
        (if negb (IS_ATTRIBUTE (pub_attributes idx) TPMA_NV_WRITTEN)
         then ret 0 else NvGetUINT64Data idx locator) in
      NvWriteUINT64Data (Z.lor oldValue bits)).

Definition TPM2_NV_WriteLock (authHandle nvIndex : Z) : M NvState Z :=
  with_index nvIndex (λ locator idx,
    let nvAttributes := pub_attributes idx in
    let result := NvWriteAccessChecks authHandle nvIndex nvAttributes in
    if negb (result =? TPM_RC_SUCCESS) then
      ret (if result =? TPM_RC_NV_AUTHORIZATION then result else TPM_RC_SUCCESS)
    else if negb (IS_ATTRIBUTE nvAttributes TPMA_NV_WRITEDEFINE)
            && negb (IS_ATTRIBUTE nvAttributes TPMA_NV_WRITE_STCLEAR)
    then ret (TPM_RC_ATTRIBUTES + (TPM_RC_H + TPM_RC_2))
    else NvWriteIndexAttributes (pub_nvIndex idx) locator
           (SET_ATTRIBUTE nvAttributes TPMA_NV_WRITELOCKED)).

Definition TPM2_NV_GlobalWriteLock : M NvState Z := NvSetGlobalLock.

Definition TPM2_NV_Read (authHandle nvIndex size offset : Z) : M NvState (Z * bytes) :=
  with_index nvIndex (λ locator idx,
    let result := NvReadAccessChecks authHandle nvIndex (pub_attributes idx) in
    if negb (result =? TPM_RC_SUCCESS) then ret (result, [])
    else if MAX_NV_BUFFER_SIZE <? size then ret (TPM_RC_VALUE + (TPM_RC_P + TPM_RC_1), [])
    else if pub_dataSize idx <? offset then ret (TPM_RC_VALUE + (TPM_RC_P + TPM_RC_2), [])
    else if pub_dataSize idx - offset <? size then ret (TPM_RC_NV_RANGE, [])
    else
      let! data := NvGetIndexData idx locator offset size in
      ret (TPM_RC_SUCCESS, data)).

Definition TPM2_NV_ReadLock (authHandle nvIndex : Z) : M NvState Z :=
  with_index nvIndex (λ locator idx,
    let nvAttributes := pub_attributes idx in
    let result := NvReadAccessChecks authHandle nvIndex nvAttributes in
    if result =? TPM_RC_NV_AUTHORIZATION then ret TPM_RC_NV_AUTHORIZATION
    else if result =? TPM_RC_NV_LOCKED then ret TPM_RC_SUCCESS
    else if negb (IS_ATTRIBUTE nvAttributes TPMA_NV_READ_STCLEAR)
    then ret (TPM_RC_ATTRIBUTES + (TPM_RC_H + TPM_RC_2))
    else NvWriteIndexAttributes (pub_nvIndex idx) locator
           (SET_ATTRIBUTE nvAttributes TPMA_NV_READLOCKED)).

Definition TPM2_NV_ChangeAuth (nvIndex : Z) (newAuth : bytes) : M NvState Z :=
  with_index nvIndex (λ locator idx,
    if CryptHashGetDigestSize (pub_nameAlg idx) <? auth_size (trim_auth newAuth)
    then ret (TPM_RC_SIZE + (TPM_RC_P + TPM_RC_1))
    else NvWriteIndexAuth locator (trim_auth newAuth)).
End nv_cmd.
