(* ===== verification/NvCmdProof.v ===== *)
(** * The NV indices as a map

    The entities in NV memory and the orderly data in RAM seen as one map from
    handles to indices: [index_of] gives the public area (with the attributes in
    effect) and the data of the index with a handle.  The lemmas say what the
    operations of NVDynamic.c do to the map, for indices in NV memory and for
    orderly indices at once, and whether NV is available or not. *)

From S2P Require Import Prelude TpmTypes Memory Cbc NVMem NVReserved NvList NvRam NvIndex NvEntity NvDefine NvFlush NvCmd.
Local Open Scope Z_scope.

Section map.
Context `{NvLayout}.
Implicit Types (s : NvState) (es rs : list bytes).

Record IndexVal := mkIdx { ix_pub : bytes; ix_data : bytes }.

Definition ix_attributes (x : IndexVal) : Z := pub_attributes (ix_pub x).
Definition ix_has (x : IndexVal) (a : Z) : bool := IS_ATTRIBUTE (ix_attributes x) a.

Definition index_val (e : bytes) (r : option bytes) : IndexVal :=
  mkIdx (index_view e r)
    (match r with None => bread e 148 (pub_dataSize e) | Some r => bread r 8 (pub_dataSize e) end).

Definition entry_is (h : Z) (e : bytes) : bool := entry_handle e =? h.

Definition index_of es rs (h : Z) : option IndexVal :=
  match List.find (entry_is h) es with
  | Some e =>
      if is_index e
      then Some (index_val e (if entry_orderly e then List.find (entry_is h) rs else None))
      else None
  | None => None
  end.

(** ** Searching *)

Lemma find_at (f : bytes → bool) l1 x l2 :
  Forall (λ y, f y = false) l1 → f x = true → List.find f (l1 ++ x :: l2) = Some x.
Proof. intros H1 Hx. induction H1 as [|y l1 Hy _ IH]; cbn; [by rewrite Hx|by rewrite Hy]. Qed.

Lemma find_other (f : bytes → bool) l1 x l2 :
  f x = false → List.find f (l1 ++ x :: l2) = List.find f (l1 ++ l2).
Proof. intros Hx. induction l1 as [|y l1 IH]; cbn; [by rewrite Hx|by rewrite IH]. Qed.

Lemma find_replace (f : bytes → bool) l1 x x' l2 :
  f x = false → f x' = false → List.find f (l1 ++ x :: l2) = List.find f (l1 ++ x' :: l2).
Proof. intros. by rewrite !find_other. Qed.

Lemma entry_is_not h l : Forall (λ e, entry_handle e ≠ h) l → Forall (λ e, entry_is h e = false) l.
Proof. apply Forall_impl. intros e He. by apply Z.eqb_neq. Qed.

Lemma entry_is_true h e : entry_is h e = true ↔ entry_handle e = h.
Proof. apply Z.eqb_eq. Qed.

(** ** Where an index is *)

Inductive ix_case es rs (h : Z) : IndexVal → Z → option Z → Prop :=
  | ix_normal es1 e es2 :
      es = es1 ++ e :: es2 → is_index e = true → entry_orderly e = false → entry_handle e = h →
      ix_case es rs h (index_val e None) (nv_end es1 + 4) None
  | ix_orderly es1 e es2 rs1 r rs2 :
      es = es1 ++ e :: es2 → rs = rs1 ++ r :: rs2 → orderly_index e = true → entry_handle e = h →
      ram_key r = index_key e → Forall (λ r', entry_handle r' ≠ h) rs1 →
      map ram_key rs1 = map index_key (List.filter orderly_index es1) →
      map ram_key rs2 = map index_key (List.filter orderly_index es2) →
      ix_case es rs h (index_val e (Some r)) (nv_end es1 + 4) (Some (nv_size rs1)).

Lemma ix_case_of s es rs c h x loc ram :
  NvInv s es rs c → ix_case es rs h x loc ram → index_of es rs h = Some x.
Proof.
  intros Hi Hc. pose proof (inv_nodup _ _ _ _ Hi) as Hn. destruct Hc as [es1 e es2 -> Hx Ho <-|
    es1 e es2 rs1 r rs2 -> -> Hx <- Hk Hr _ _]; unfold index_of.
  - destruct (nodup_before _ _ _ Hn) as [N1 _].
    rewrite (find_at _ es1 e es2 (entry_is_not _ _ N1)) by (by apply entry_is_true). by rewrite Hx, Ho.
  - destruct (nodup_before _ _ _ Hn) as [N1 _].
    rewrite (find_at _ es1 e es2 (entry_is_not _ _ N1)) by (by apply entry_is_true).
    apply andb_true_iff in Hx as [-> ->]. injection Hk as Kh _ _.
    by rewrite (find_at _ rs1 r rs2 (entry_is_not _ _ Hr)) by (by apply entry_is_true).
Qed.

Lemma find_split h es e :
  List.find (entry_is h) es = Some e → ∃ es1 es2, es = es1 ++ e :: es2 ∧ entry_handle e = h.
Proof.
  intros E. apply find_some in E as [Hin He%entry_is_true].
  apply in_split in Hin as (es1 & es2 & ->). by exists es1, es2.
Qed.

Lemma index_of_case s es rs c h x :
  NvInv s es rs c → index_of es rs h = Some x → ∃ loc ram, ix_case es rs h x loc ram.
Proof.
  intros Hi Hx. pose proof Hx as Hof. unfold index_of in Hx.
  destruct (List.find (entry_is h) es) as [e|] eqn:E; [|done].
  apply find_split in E as (es1 & es2 & -> & Eh).
  destruct (is_index e) eqn:Ex; [|done]. injection Hx as Hx.
  destruct (entry_orderly e) eqn:Eo.
  - assert (Hox : orderly_index e = true) by (unfold orderly_index; by rewrite Ex, Eo).
    destruct (inv_ram_split _ _ _ _ _ _ Hi Hox) as (rs1 & r & rs2 & -> & Rh & Rl & Ra & Rn & K1 & K2).
    assert (Hk : ram_key r = index_key e)
      by (unfold ram_key, index_key; rewrite Rh, Rl, Ra; do 2 f_equal; lia).
    assert (Hc : ix_case (es1 ++ e :: es2) (rs1 ++ r :: rs2) h (index_val e (Some r))
      (nv_end es1 + 4) (Some (nv_size rs1))) by (econstructor; try done; by rewrite <- Eh).
    pose proof (ix_case_of _ _ _ _ _ _ _ _ Hi Hc) as Hof'. rewrite Hof in Hof'. injection Hof' as ->.
    by eexists _, _.
  - subst x. eexists _, _. by econstructor.
Qed.

(** The facts about an index that hold in both cases. *)
Record ix_wf (h : Z) (x : IndexVal) : Prop := {
  ixw_len : blen (ix_pub x) = 148;
  ixw_handle : pub_nvIndex (ix_pub x) = h;
  ixw_size : 0 ≤ pub_dataSize (ix_pub x) < 65536;
  ixw_data : blen (ix_data x) = pub_dataSize (ix_pub x);
  ixw_attr : 0 ≤ ix_attributes x < 4294967296;
  ixw_byte : Forall is_byte (ix_data x);
  ixw_pub_byte : Forall is_byte (ix_pub x);
}.

Lemma normal_len s es1 e es2 rs c :
  NvInv s (es1 ++ e :: es2) rs c → is_index e = true → entry_orderly e = false →
  blen e = 148 + pub_dataSize e.
Proof.
  intros Hi Hx Ho. destruct (inv_entry _ _ _ _ _ _ Hi) as ([Hw] & _). by rewrite Hx, Ho in Hw.
Qed.

Lemma set_pub_attributes_byte a p : Forall is_byte p → Forall is_byte (set_pub_attributes a p).
Proof. intros. apply bwrite_byte; [done|apply le_bytes_byte]. Qed.

Lemma ix_case_wf s es rs c h x loc ram :
  NvInv s es rs c → ix_case es rs h x loc ram → ix_wf h x.
Proof.
  intros Hi Hc. destruct Hc as [es1 e es2 -> Hx Ho <-|es1 e es2 rs1 r rs2 -> -> Hx <- Hk Hr _ _].
  - destruct (inv_entry _ _ _ _ _ _ Hi) as (Hw & _ & Hb & _). pose proof (is_index_len _ Hw Hb Hx) as Hl.
    destruct (pub_of_view e Hl) as (V1 & V2 & V3). pose proof (pub_dataSize_range e Hb).
    pose proof (normal_len _ _ _ _ _ _ Hi Hx Ho). unfold sizeof_NV_INDEX in Hl.
    split; cbn [ix_pub ix_data index_val index_view]; unfold ix_attributes; cbn [ix_pub index_val index_view];
      rewrite ?V1, ?V2, ?V3; try done; [apply blen_bread; lia|apply blen_bread; lia| | |];
      [by apply pub_attributes_range|by apply bread_byte..].
  - pose proof Hx as Hx'. apply andb_true_iff in Hx' as [Hx1 Hx2].
    destruct (inv_entry _ _ _ _ _ _ Hi) as (Hw & _ & Hb & _). pose proof (is_index_len _ Hw Hb Hx1) as Hl.
    destruct (ram_facts _ _ r (inv_ram _ _ _ _ Hi)) as (Rl & Rb & Ra); [apply elem_of_app; right; left|].
    destruct (view_fields e (ram_attributes r) Hl Ra) as (V1 & V2 & V3).
    pose proof (pub_dataSize_range e Hb). injection Hk as Kh Kl Ka.
    unfold sizeof_NV_INDEX in Hl. assert (L : blen (bread e 0 148) = 148) by (apply blen_bread; lia).
    split; cbn [ix_pub ix_data index_val index_view]; unfold ix_attributes; cbn [ix_pub index_val index_view];
      rewrite ?V1, ?V2, ?V3; try done; [|apply blen_bread; lia|by apply bread_byte|].
    + unfold set_pub_attributes. rewrite blen_bwrite; rewrite ?blen_le_bytes; unfold offsetof_attributes; lia.
    + by apply set_pub_attributes_byte, bread_byte.
Qed.

(** ** The index in the cache *)

Record located s es rs (c h : Z) (x : IndexVal) (loc : Z) : Prop := {
  loc_inv : NvInv s es rs c;
  loc_case : ix_case es rs h x loc (s_cachedNvRamRef s);
  loc_cache : s_cachedNvIndex s = ix_pub x;
  loc_ref : s_cachedNvRef s = loc;
}.

Lemma located_wf s es rs c h x loc : located s es rs c h x loc → ix_wf h x.
Proof. intros [Hi Hc _ _]. by eapply ix_case_wf. Qed.

Lemma located_of s es rs c h x loc : located s es rs c h x loc → index_of es rs h = Some x.
Proof. intros [Hi Hc _ _]. by eapply ix_case_of. Qed.

(** What [NvGetIndexInfo] and the access checks leave alone. *)
Definition cache_only s s' : Prop :=
  s' = set_cache (s_cachedNvIndex s') (s_cachedNvRef s') (s_cachedNvRamRef s') s.

Lemma cache_only_set s a b d : cache_only s (set_cache a b d s).
Proof. done. Qed.

Lemma cache_only_trans s1 s2 s3 : cache_only s1 s2 → cache_only s2 s3 → cache_only s1 s3.
Proof. intros E1 E2. unfold cache_only in *. rewrite E2 at 1. rewrite E1. by destruct s1. Qed.

Lemma cache_only_inv s s' es rs c : cache_only s s' → NvInv s es rs c → NvInv s' es rs c.
Proof. intros -> Hi. by apply inv_cache. Qed.

Lemma get_info s es rs c h x :
  NvInv s es rs c → index_of es rs h = Some x → pub_nvIndex (s_cachedNvIndex s) ≠ h →
  ∃ loc s', NvGetIndexInfo h s = Some (Some loc, s') ∧ located s' es rs c h x loc ∧ cache_only s s'.
Proof.
  intros Hi Hx Hn. destruct (index_of_case _ _ _ _ _ _ Hi Hx) as (loc & ram & Hc).
  exists loc, (set_cache (ix_pub x) loc ram s). split; [|split; [|done]].
  - destruct Hc as [es1 e es2 -> Hxe Ho <-|es1 e es2 rs1 r rs2 -> -> Hxe <- Hk Hr K1 K2].
    + by apply (NvGetIndexInfo_normal s es1 e es2 rs c).
    + injection Hk as Kh _ _. by apply (NvGetIndexInfo_orderly s es1 e es2 rs1 r rs2 c).
  - split; try done. by apply inv_cache.
Qed.

Lemma index_of_absent es rs h :
  HandleGetType h = TPM_HT_NV_INDEX → index_of es rs h = None → Forall (λ e, entry_handle e ≠ h) es.
Proof.
  intros Ht Hx. unfold index_of in Hx. destruct (List.find (entry_is h) es) as [e|] eqn:E.
  - apply find_split in E as (es1 & es2 & -> & Eh). exfalso.
    assert (is_index e = true) as Hxe by (unfold is_index, is_type; by rewrite Eh, Ht). by rewrite Hxe in Hx.
  - apply list.Forall_forall. intros e He Eh. apply list_elem_of_In in He.
    pose proof (find_none _ _ E e He) as Hf. by apply Z.eqb_neq in Hf.
Qed.

Lemma get_info_none s es rs c h :
  NvInv s es rs c → HandleGetType h = TPM_HT_NV_INDEX → index_of es rs h = None →
  pub_nvIndex (s_cachedNvIndex s) ≠ h →
  ∃ s', NvGetIndexInfo h s = Some (None, s') ∧ cache_only s s' ∧
    s_cachedNvIndex s' = set_pub_nvIndex TPM_RH_UNASSIGNED (s_cachedNvIndex s).
Proof.
  intros Hi Ht Hx Hn. pose proof (index_of_absent _ _ _ Ht Hx) as Hh.
  unfold NvGetIndexInfo. unfold bind at 1, gets. rewrite (proj2 (Z.eqb_neq _ _)) by done.
  rewrite (bind_Some _ _ _ _ _ (NvFindHandle_none _ _ _ h (inv_rep _ _ _ _ Hi) Hh)).
  unfold bind, modify. eexists. split; [done|]. split; [apply cache_only_set|done].
Qed.

(** A second look at the same index is answered from the cache. *)
Lemma get_info_again s es rs c h x loc :
  located s es rs c h x loc → NvGetIndexInfo h s = Some (Some loc, s).
Proof.
  intros L. pose proof (located_wf _ _ _ _ _ _ _ L) as W. unfold NvGetIndexInfo, bind, gets.
  rewrite (loc_cache _ _ _ _ _ _ _ L), (ixw_handle _ _ W), Z.eqb_refl. unfold ret.
  by rewrite (loc_ref _ _ _ _ _ _ _ L).
Qed.

Lemma with_index_located {A} s es rs c h x loc (k : Z → bytes → M NvState A) :
  located s es rs c h x loc → with_index h k s = k loc (ix_pub x) s.
Proof.
  intros L. unfold with_index. rewrite (bind_Some _ _ _ _ _ (get_info_again _ _ _ _ _ _ _ L)).
  unfold bind, gets. by rewrite (loc_cache _ _ _ _ _ _ _ L).
Qed.

(** ** Reading *)

Lemma get_data s es rs c h x loc offset size :
  located s es rs c h x loc → ix_has x TPMA_NV_WRITTEN = true →
  0 ≤ offset → 0 ≤ size → offset + size ≤ pub_dataSize (ix_pub x) →
  NvGetIndexData (ix_pub x) loc offset size s = Some (bread (ix_data x) offset size, s).
Proof.
  intros [Hi Hc _ _] Hw Ho Hs Hle. destruct Hc as [es1 e es2 -> Hxe Hor <-|
    es1 e es2 rs1 r rs2 -> -> Hxe <- Hk Hr K1 K2]; cbn [ix_pub ix_data index_val] in *.
  - destruct (inv_entry _ _ _ _ _ _ Hi) as (Hwf & _ & Hb & _).
    destruct (pub_of_view e (is_index_len _ Hwf Hb Hxe)) as (V1 & V2 & V3).
    unfold ix_has, ix_attributes in Hw. cbn [ix_pub index_val index_view] in *. rewrite V2 in Hw. rewrite V3 in Hle.
    rewrite bread_bread by lia. by apply (NvGetIndexData_normal s es1 e es2 rs c).
  - pose proof Hxe as Hx'. apply andb_true_iff in Hx' as [Hx1 Hx2].
    destruct (inv_entry _ _ _ _ _ _ Hi) as (Hwf & _ & Hb & _).
    destruct (ram_facts _ _ r (inv_ram _ _ _ _ Hi)) as (Rl & Rb & Ra); [apply elem_of_app; right; left|].
    destruct (view_fields e (ram_attributes r) (is_index_len _ Hwf Hb Hx1) Ra) as (V1 & V2 & V3).
    unfold ix_has, ix_attributes in Hw. cbn [ix_pub index_val index_view] in *. rewrite V2 in Hw. rewrite V3 in Hle.
    rewrite bread_bread by lia. by apply (NvGetIndexData_orderly s es1 e es2 rs1 r rs2 c).
Qed.

(** ** Changing one index *)

Record updated s es rs (c h : Z) (x' : IndexVal) s' es' rs' : Prop := {
  upd_inv : NvInv s' es' rs' c;
  upd_of : index_of es' rs' h = Some x';
  upd_other h' : h' ≠ h → index_of es' rs' h' = index_of es rs h';
  upd_max : s_maxCounter s' = s_maxCounter s;
  upd_len : 4 ≤ blen (s_cachedNvIndex s');
}.

Lemma updated_entry s es1 e e' es2 rs c s' :
  NvInv s (es1 ++ e :: es2) rs c → NvInv s' (es1 ++ e' :: es2) rs c →
  is_index e = true → entry_orderly e = false → entry_handle e' = entry_handle e →
  entry_orderly e' = false → s_maxCounter s' = s_maxCounter s → 4 ≤ blen (s_cachedNvIndex s') →
  updated s (es1 ++ e :: es2) rs c (entry_handle e) (index_val e' None) s' (es1 ++ e' :: es2) rs.
Proof.
  intros Hi Hi' Hx Ho Hh Ho' Hm Hl. assert (is_index e' = true) by (unfold is_index, is_type in *; by rewrite Hh).
  split; try done.
  - eapply ix_case_of; [exact Hi'|]. by econstructor.
  - intros h' Hne. unfold index_of.
    by rewrite (find_replace (entry_is h') es1 e e' es2) by (apply Z.eqb_neq; congruence).
Qed.

Lemma ix_case_key es rs rs1 r r' rs2 h e es1 es2 :
  es = es1 ++ e :: es2 → rs = rs1 ++ r :: rs2 → orderly_index e = true → entry_handle e = h →
  ram_key r = index_key e → Forall (λ r', entry_handle r' ≠ h) rs1 →
  map ram_key rs1 = map index_key (List.filter orderly_index es1) →
  map ram_key rs2 = map index_key (List.filter orderly_index es2) → ram_key r' = ram_key r →
  ix_case es (rs1 ++ r' :: rs2) h (index_val e (Some r')) (nv_end es1 + 4) (Some (nv_size rs1)).
Proof. intros. econstructor; try done. congruence. Qed.

Lemma updated_ram s es1 e es2 rs1 r r' rs2 c s' :
  NvInv s (es1 ++ e :: es2) (rs1 ++ r :: rs2) c → NvInv s' (es1 ++ e :: es2) (rs1 ++ r' :: rs2) c →
  orderly_index e = true → ram_key r = index_key e → Forall (λ r', entry_handle r' ≠ entry_handle e) rs1 →
  map ram_key rs1 = map index_key (List.filter orderly_index es1) →
  map ram_key rs2 = map index_key (List.filter orderly_index es2) → ram_key r' = ram_key r →
  s_maxCounter s' = s_maxCounter s → 4 ≤ blen (s_cachedNvIndex s') →
  updated s (es1 ++ e :: es2) (rs1 ++ r :: rs2) c (entry_handle e) (index_val e (Some r'))
    s' (es1 ++ e :: es2) (rs1 ++ r' :: rs2).
Proof.
  intros Hi Hi' Hx Hk Hn K1 K2 Hk' Hm Hl. split; try done.
  - eapply ix_case_of; [exact Hi'|]. by eapply (ix_case_key _ _ rs1 r r' rs2).
  - intros h' Hne. unfold index_of. destruct (List.find (entry_is h') (es1 ++ e :: es2)) as [y|]; [|done].
    rewrite (find_replace (entry_is h') rs1 r r' rs2); [done|apply Z.eqb_neq..].
    + injection Hk as Kh _ _. congruence.
    + injection Hk as Kh _ _. injection Hk' as Kh' _ _. congruence.
Qed.

(** ** Writing data *)

(** The index after a write of [data] at [offset]: WRITTEN is set, and the data
    that was there stays around it if there was any. *)
Record ix_written (x : IndexVal) (offset : Z) (data : bytes) (x' : IndexVal) : Prop := {
  wr_pub : ix_pub x' = set_pub_attributes (SET_ATTRIBUTE (ix_attributes x) TPMA_NV_WRITTEN) (ix_pub x);
  wr_data : ∃ base, blen base = blen (ix_data x) ∧ ix_data x' = bwrite base offset data ∧
    (ix_has x TPMA_NV_WRITTEN = true → base = ix_data x);
}.

Lemma mark_written_data e n :
  IS_ATTRIBUTE (pub_attributes e) TPMA_NV_WRITTEN = true → mark_written e n = e.
Proof. intros Hw. unfold mark_written. by rewrite Hw. Qed.

Lemma write_normal s es1 e es2 rs c offset data :
  NvInv s (es1 ++ e :: es2) rs c → is_index e = true → entry_orderly e = false →
  s_cachedNvIndex s = bread e 0 148 → s_cachedNvRef s = nv_end es1 + 4 → g_NvStatus s = TPM_RC_SUCCESS →
  0 ≤ offset → offset + blen data ≤ pub_dataSize e → Forall is_byte data →
  ∃ s' es' x', NvWriteIndexData offset (blen data) data s = Some (TPM_RC_SUCCESS, s') ∧
    updated s (es1 ++ e :: es2) rs c (entry_handle e) x' s' es' rs ∧
    ix_written (index_val e None) offset data x'.
Proof.
  intros Hi Hx Ho Hc Hr Hst Hof Hle Hb. pose proof (normal_len _ _ _ _ _ _ Hi Hx Ho) as Hl.
  destruct (inv_entry _ _ _ _ _ _ Hi) as (Hwf & _ & Hbe & _). pose proof (blen_nonneg data).
  destruct (NvWriteIndexData_normal s es1 e es2 rs c offset data) as (s' & E & Hi' & C1 & C2 & _ & _ & Hm);
    try assumption.
  destruct (mark_written_fields e (blen data) Hbe Hl) as (M1 & M2 & M3 & M4 & M5).
  destruct (pub_set_data (mark_written e (blen data)) (148 + offset) data) as (Q1 & Q2 & Q3 & Q4 & Q5); [lia..|].
  set (e' := bwrite (mark_written e (blen data)) (148 + offset) data) in *.
  destruct (pub_of_view e ltac:(unfold sizeof_NV_INDEX; pose proof (pub_dataSize_range e Hbe); lia)) as (V1 & V2 & V3).
  exists s', (es1 ++ e' :: es2), (index_val e' None). split; [exact E|]. split.
  - apply updated_entry; try done; [by rewrite Q2|unfold entry_orderly in *|].
    + by rewrite Q4, M4, SET_written_orderly.
    + rewrite C1, blen_bread; pose proof (pub_dataSize_range e Hbe); lia.
  - split; cbn [ix_pub ix_data index_val index_view].
    + unfold ix_attributes. cbn [ix_pub index_val index_view]. by rewrite Q5, M5, V2.
    + exists (bread (mark_written e (blen data)) 148 (pub_dataSize e)).
      pose proof (pub_dataSize_range e Hbe). rewrite !blen_bread by lia. split; [done|]. split.
      * rewrite Q3, M3. unfold e'. apply bread_bwrite_cover; lia.
      * unfold ix_has, ix_attributes. cbn [ix_pub index_val index_view]. rewrite V2. intros Hw.
        by rewrite mark_written_data.
Qed.

Lemma write_orderly s es1 e es2 rs1 r rs2 c offset data :
  NvInv s (es1 ++ e :: es2) (rs1 ++ r :: rs2) c → orderly_index e = true → ram_key r = index_key e →
  Forall (λ r', entry_handle r' ≠ entry_handle e) rs1 →
  map ram_key rs1 = map index_key (List.filter orderly_index es1) →
  map ram_key rs2 = map index_key (List.filter orderly_index es2) →
  s_cachedNvIndex s = index_view e (Some r) → s_cachedNvRamRef s = Some (nv_size rs1) →
  0 ≤ offset → offset + blen data ≤ pub_dataSize e → Forall is_byte data →
  ∃ s' rs' x', NvWriteIndexData offset (blen data) data s = Some (TPM_RC_SUCCESS, s') ∧
    updated s (es1 ++ e :: es2) (rs1 ++ r :: rs2) c (entry_handle e) x' s' (es1 ++ e :: es2) rs' ∧
    ix_written (index_val e (Some r)) offset data x'.
Proof.
  intros Hi Hx Hk Hn K1 K2 Hc Hr Hof Hle Hb. pose proof Hx as Hx'. apply andb_true_iff in Hx' as [Hx1 Hx2].
  destruct (inv_entry _ _ _ _ _ _ Hi) as (Hwf & _ & Hbe & _). pose proof (is_index_len _ Hwf Hbe Hx1) as Hle148.
  destruct (ram_facts _ _ r (inv_ram _ _ _ _ Hi)) as (Rl & Rb & Ra); [apply elem_of_app; right; left|].
  pose proof (pub_dataSize_range e Hbe) as Hds. pose proof (blen_nonneg data).
  destruct (view_fields e (ram_attributes r) Hle148 Ra) as (V1 & V2 & V3).
  destruct (NvWriteIndexData_orderly s es1 e es2 rs1 r rs2 c offset data) as (s' & E & Hi' & Hk' & C1 & _ & O);
    try assumption.
  pose proof Hk as Hk0. injection Hk0 as Kh Kl Ka.
  destruct (ram_mark_written_fields r (pub_dataSize e) Rb ltac:(lia) ltac:(lia)) as (M1 & M2 & M3 & M4).
  destruct (ram_set_data (ram_mark_written r (pub_dataSize e)) (8 + offset) data) as (Q1 & Q2 & Q3); [lia..|].
  set (r' := bwrite (ram_mark_written r (pub_dataSize e)) (8 + offset) data) in *.
  destruct O as (_ & _ & Om & _). pose proof (SET_written_range _ Ra) as Rw.
  destruct (view_fields e (SET_ATTRIBUTE (ram_attributes r) TPMA_NV_WRITTEN) Hle148 Rw) as (W1 & W2 & W3).
  assert (Lv : ∀ a, blen (set_pub_attributes a (bread e 0 148)) = 148).
  { intros a. unfold set_pub_attributes, sizeof_NV_INDEX in *. assert (blen (bread e 0 148) = 148) by (apply blen_bread; lia).
    rewrite blen_bwrite; rewrite ?blen_le_bytes; unfold offsetof_attributes; lia. }
  exists s', (rs1 ++ r' :: rs2), (index_val e (Some r')). split; [exact E|]. split.
  - apply updated_ram; try done; [by rewrite Hk'|]. rewrite C1. cbn [index_view]. rewrite Lv. lia.
  - split; cbn [ix_pub ix_data index_val index_view].
    + unfold ix_attributes. cbn [ix_pub index_val index_view]. rewrite Q3, M3, V2.
      symmetry. by apply set_view_attributes.
    + exists (bread (ram_mark_written r (pub_dataSize e)) 8 (pub_dataSize e)).
      rewrite !blen_bread by lia. split; [done|]. split.
      * unfold r'. apply bread_bwrite_cover; lia.
      * unfold ix_has, ix_attributes. cbn [ix_pub index_val index_view]. rewrite V2. intros Hw.
        unfold ram_mark_written. by rewrite Hw.
Qed.

(** NV memory under an entity. *)
Lemma nvmem_entry s es1 e es2 rs c o n :
  NvInv s (es1 ++ e :: es2) rs c → 0 ≤ o → 0 ≤ n → o + n ≤ blen e →
  bread (nvmem s) (nv_end es1 + 4 + o) n = bread e o n.
Proof.
  intros Hi Ho Hn Hle. destruct (inv_entry _ _ _ _ _ _ Hi) as (_ & _ & _ & Hlo & _).
  transitivity (bread (bread (nvmem s) (nv_end es1 + 4) (blen e)) o n); [by rewrite bread_bread by lia|].
  by rewrite (rep_payload _ _ _ _ _ (inv_rep _ _ _ _ Hi)).
Qed.

(** When NV is not available a conditional write inside an entity succeeds only
    if there is nothing to write. *)
Lemma conditional_unavailable s es1 e es2 rs c o d n :
  NvInv s (es1 ++ e :: es2) rs c → g_NvStatus s ≠ TPM_RC_SUCCESS →
  0 ≤ o → n = blen d → o + n ≤ blen e →
  NvConditionallyWrite (u32 (nv_end es1 + 4 + o)) n d s =
    Some (if decide (bread e o n = d) then TPM_RC_SUCCESS else g_NvStatus s, s).
Proof.
  intros Hi Hst Ho -> Hle. destruct (inv_entry _ _ _ _ _ _ Hi) as (_ & _ & _ & Hlo & Hhi).
  pose proof (blen_nonneg d). rewrite u32_nv by lia.
  rewrite (NvConditionallyWrite_unavailable s (nv_end es1 + 4 + o) d (blen d)) by
    (try done; try lia; apply (rep_len _ _ _ (inv_rep _ _ _ _ Hi))).
  by rewrite (nvmem_entry s es1 e es2 rs c o (blen d)).
Qed.

Lemma attributes_differ e w :
  IS_ATTRIBUTE (pub_attributes e) TPMA_NV_WRITTEN = false → IS_ATTRIBUTE w TPMA_NV_WRITTEN = true →
  0 ≤ w < 4294967296 → bread e 8 4 ≠ le_bytes 4 w.
Proof.
  intros He Hw Hr E. unfold pub_attributes, offsetof_attributes in He. rewrite E in He.
  rewrite le_val_bytes in He by exact Hr. congruence.
Qed.

Lemma write_unavailable s es1 e es2 rs c offset data :
  NvInv s (es1 ++ e :: es2) rs c → is_index e = true → entry_orderly e = false →
  s_cachedNvIndex s = bread e 0 148 → s_cachedNvRef s = nv_end es1 + 4 → g_NvStatus s ≠ TPM_RC_SUCCESS →
  0 ≤ offset → offset + blen data ≤ pub_dataSize e →
  ∃ r s', NvWriteIndexData offset (blen data) data s = Some (r, s') ∧
    ((r = g_NvStatus s ∧ cache_only s s' ∧ 4 ≤ blen (s_cachedNvIndex s')) ∨
     (r = TPM_RC_SUCCESS ∧ s' = s ∧ IS_ATTRIBUTE (pub_attributes e) TPMA_NV_WRITTEN = true ∧
      bread e (148 + offset) (blen data) = data)).
Proof.
  intros Hi Hx Ho Hc Hr Hst Hof Hle. pose proof (normal_len _ _ _ _ _ _ Hi Hx Ho) as Hl.
  destruct (inv_entry _ _ _ _ _ _ Hi) as (Hwf & _ & Hbe & Hlo & Hhi). pose proof (blen_nonneg data).
  pose proof (pub_dataSize_range e Hbe) as Hds.
  destruct (pub_of_view e ltac:(unfold sizeof_NV_INDEX; lia)) as (V1 & V2 & V3).
  unfold NvWriteIndexData. unfold bind at 1 2 3, gets. rewrite Hc, Hr.
  erewrite bind_Some by (apply pAssert_true; rewrite V3; zbool; rewrite u32_small; lia).
  unfold mark_index_written. rewrite V2. unfold entry_orderly in Ho. rewrite SET_written_orderly.
  destruct (IS_ATTRIBUTE (pub_attributes e) TPMA_NV_WRITTEN) eqn:Hw.
  - erewrite bind_Some by reflexivity. rewrite Z.eqb_refl, Ho. cbn [negb]. unfold sizeof_NV_INDEX.
    replace (nv_end es1 + 4 + 148 + offset) with (nv_end es1 + 4 + (148 + offset)) by lia.
    rewrite (conditional_unavailable s es1 e es2 rs c (148 + offset) data (blen data)) by (try done; lia).
    eexists _, _. split; [reflexivity|]. destruct (decide _) as [E|E]; [by right|left].
    split_and!; [done|by destruct s|]. rewrite Hc, blen_bread; lia.
  - rewrite Ho. cbn [negb].
    pose proof (SET_written_range _ (pub_attributes_range e Hbe)) as Rw.
    set (w := SET_ATTRIBUTE (pub_attributes e) TPMA_NV_WRITTEN) in *.
    set (s0 := set_cache (set_pub_attributes w (bread e 0 148)) (nv_end es1 + 4) (s_cachedNvRamRef s) s).
    unfold bind, modify. cbn beta. fold s0. unfold NvWriteNvIndexAttributes, offsetof_attributes.
    rewrite (conditional_unavailable s0 es1 e es2 rs c 8 (le_bytes 4 w) 4) by
      (first [by apply inv_cache|done|by rewrite blen_le_bytes|lia]).
    rewrite decide_False by (apply attributes_differ; [done|apply SET_written_written|done]).
    change (g_NvStatus s0) with (g_NvStatus s). rewrite (proj2 (Z.eqb_neq (g_NvStatus s) TPM_RC_SUCCESS)) by done.
    cbn [negb]. unfold ret. rewrite (proj2 (Z.eqb_neq (g_NvStatus s) TPM_RC_SUCCESS)) by done. cbn [negb].
    eexists _, _. split; [reflexivity|]. left. split_and!; [done|apply cache_only_set|].
    cbn [s_cachedNvIndex set_cache s0]. assert (blen (bread e 0 148) = 148) by (apply blen_bread; lia).
    unfold set_pub_attributes. rewrite blen_bwrite; rewrite ?blen_le_bytes; unfold offsetof_attributes; lia.
Qed.

(** A refused operation: only the cache may have changed. *)
Record refused s s' : Prop := {
  ref_cache : cache_only s s';
  ref_len : 4 ≤ blen (s_cachedNvIndex s');
}.

Lemma written_pub_same h x :
  ix_wf h x → ix_has x TPMA_NV_WRITTEN = true →
  set_pub_attributes (SET_ATTRIBUTE (ix_attributes x) TPMA_NV_WRITTEN) (ix_pub x) = ix_pub x.
Proof.
  intros W Hw. unfold ix_has in Hw. rewrite (SET_written_same _ Hw). unfold set_pub_attributes.
  pose proof (ixw_len _ _ W). apply bwrite_same; unfold offsetof_attributes; rewrite ?blen_le_bytes; [lia..|].
  unfold ix_attributes, pub_attributes, offsetof_attributes. change (Z.of_nat 4) with 4.
  replace 4%nat with (length (bread (ix_pub x) 8 4)) at 1.
  - symmetry. apply le_bytes_val, bread_byte, (ixw_pub_byte _ _ W).
  - apply Nat2Z.inj. fold (blen (bread (ix_pub x) 8 4)). rewrite blen_bread; lia.
Qed.

Lemma write_data s es rs c h x loc offset data :
  located s es rs c h x loc → 0 ≤ offset → offset + blen data ≤ pub_dataSize (ix_pub x) → Forall is_byte data →
  ∃ r s', NvWriteIndexData offset (blen data) data s = Some (r, s') ∧
    ((r = TPM_RC_SUCCESS ∧ ∃ es' rs' x', updated s es rs c h x' s' es' rs' ∧ ix_written x offset data x') ∨
     (r = g_NvStatus s ∧ r ≠ TPM_RC_SUCCESS ∧ ix_has x TPMA_NV_ORDERLY = false ∧ refused s s')).
Proof.
  intros L Hof Hle Hb. pose proof (located_wf _ _ _ _ _ _ _ L) as W. pose proof (located_of _ _ _ _ _ _ _ L) as Hx.
  pose proof L as [Hi Hc Hca Hre]. remember (s_cachedNvRamRef s) as ram eqn:Hram.
  destruct Hc as [es1 e es2 -> Hxe Ho <-|es1 e es2 rs1 r rs2 -> -> Hxe <- Hk Hn K1 K2];
    destruct (inv_entry _ _ _ _ _ _ Hi) as (Hwf & _ & Hbe & _).
  - destruct (pub_of_view e (is_index_len _ Hwf Hbe Hxe)) as (V1 & V2 & V3).
    cbn [ix_pub index_val index_view] in Hle, Hca. rewrite V3 in Hle. pose proof (blen_nonneg data).
    pose proof (pub_dataSize_range e Hbe). pose proof (normal_len _ _ _ _ _ _ Hi Hxe Ho) as Hl.
    destruct (decide (g_NvStatus s = TPM_RC_SUCCESS)) as [Hst|Hst].
    + destruct (write_normal s es1 e es2 rs c offset data) as (s' & es' & x' & E & U & Wr); try done.
      exists TPM_RC_SUCCESS, s'. split; [done|]. left. split; [done|]. by exists es', rs, x'.
    + destruct (write_unavailable s es1 e es2 rs c offset data) as (r & s' & E & D); try done.
      exists r, s'. split; [done|]. destruct D as [(-> & Co & Cl)|(-> & -> & Hw & Hd)].
      * right. split_and!; [done..| |by split].
        unfold ix_has, ix_attributes. cbn [ix_pub index_val index_view]. by rewrite V2.
      * left. split; [done|]. eexists _, _, _. split.
        -- split; [exact Hi|exact Hx|done..|]. rewrite Hca, blen_bread; lia.
        -- split; [symmetry; eapply written_pub_same; [exact W|]|].
           { unfold ix_has, ix_attributes. cbn [ix_pub index_val index_view]. by rewrite V2. }
           exists (ix_data (index_val e None)). split; [done|]. split; [|done].
           symmetry. cbn [ix_data index_val]. apply bwrite_same; [lia|rewrite blen_bread; lia|].
           by rewrite bread_bread by lia.
  - apply andb_true_iff in Hxe as Hxe'. destruct Hxe' as [Hx1 Hx2].
    destruct (ram_facts _ _ r (inv_ram _ _ _ _ Hi)) as (Rl & Rb & Ra); [apply elem_of_app; right; left|].
    destruct (view_fields e (ram_attributes r) (is_index_len _ Hwf Hbe Hx1) Ra) as (V1 & V2 & V3).
    cbn [ix_pub index_val index_view] in Hle. rewrite V3 in Hle.
    destruct (write_orderly s es1 e es2 rs1 r rs2 c offset data) as (s' & rs' & x' & E & U & Wr); try done.
    exists TPM_RC_SUCCESS, s'. split; [done|]. left. split; [done|]. by exists (es1 ++ e :: es2), rs', x'.
Qed.
End map.
