(* ===== verification/NvCmdOps.v ===== *)
(** * What the NV operations do to the map of indices

    Attributes, authorization values, deletion, definition and the global lock,
    each with NV available or not; and the NV commands as steps on the map
    ([nv_step]), with [nv_exec] running one the way a command is run. *)

From S2P Require Import Prelude TpmTypes Memory Cbc NVMem NVReserved NvList NvRam NvIndex NvEntity NvDefine.
From S2P Require Import NvFlush NvCmd NvCmdProof.
Local Open Scope Z_scope.

Section ops.
Context `{NvLayout}.
Implicit Types (s : NvState) (es rs : list bytes).

(** ** Attributes *)

(** The attributes that the lock commands set. *)
Definition lock_bit (b : Z) : Prop := b = TPMA_NV_WRITELOCKED ∨ b = TPMA_NV_READLOCKED.

Lemma lock_bit_facts a b :
  lock_bit b → 0 ≤ a < 4294967296 →
  0 ≤ SET_ATTRIBUTE a b < 4294967296 ∧ fixed_attributes (SET_ATTRIBUTE a b) = fixed_attributes a ∧
  IS_ATTRIBUTE (SET_ATTRIBUTE a b) TPMA_NV_ORDERLY = IS_ATTRIBUTE a TPMA_NV_ORDERLY.
Proof.
  intros Hb Ha. split; [apply lor_u32_range; [done|]; destruct Hb as [->| ->]; vm_compute; split; done|].
  assert (Hf : fixed_attributes (SET_ATTRIBUTE a b) = fixed_attributes a)
    by (apply fixed_SET; destruct Hb as [->| ->]; done).
  split; [done|]. by apply fixed_IS.
Qed.

Lemma attributes_same x h a :
  ix_wf h x → bread (ix_pub x) 8 4 = le_bytes 4 a → set_pub_attributes a (ix_pub x) = ix_pub x.
Proof.
  intros W E. pose proof (ixw_len _ _ W). unfold set_pub_attributes, offsetof_attributes.
  apply bwrite_same; rewrite ?blen_le_bytes; [lia..|]. exact E.
Qed.

Lemma bread_set_attributes e a o n :
  sizeof_NV_INDEX ≤ blen e → 12 ≤ o → bread (set_pub_attributes a e) o n = bread e o n.
Proof.
  intros Hl Ho. unfold set_pub_attributes, offsetof_attributes, sizeof_NV_INDEX in *.
  apply bread_bwrite_after; rewrite ?blen_le_bytes; lia.
Qed.

Lemma write_attributes s es rs c h x loc b :
  located s es rs c h x loc → lock_bit b →
  let a := SET_ATTRIBUTE (ix_attributes x) b in
  ∃ r s', NvWriteIndexAttributes h loc a s = Some (r, s') ∧
    ((r = TPM_RC_SUCCESS ∧ ∃ es' rs',
       updated s es rs c h (mkIdx (set_pub_attributes a (ix_pub x)) (ix_data x)) s' es' rs') ∨
     (r = g_NvStatus s ∧ r ≠ TPM_RC_SUCCESS ∧ s' = s)).
Proof.
  intros L Hb a. pose proof (located_wf _ _ _ _ _ _ _ L) as W. pose proof (located_of _ _ _ _ _ _ _ L) as Hx.
  destruct (lock_bit_facts (ix_attributes x) b Hb (ixw_attr _ _ W)) as (Ra & Fa & Oa). fold a in Ra, Fa, Oa.
  pose proof (ixw_len _ _ W) as Lp.
  pose proof L as [Hi Hc Hca Hre]. unfold NvWriteIndexAttributes. rewrite Oa.
  remember (s_cachedNvRamRef s) as ram eqn:Hram.
  destruct Hc as [es1 e es2 -> Hxe Ho <-|es1 e es2 rs1 r rs2 -> -> Hxe <- Hk Hn K1 K2];
    destruct (inv_entry _ _ _ _ _ _ Hi) as (Hwf & _ & Hbe & _).
  - pose proof (is_index_len _ Hwf Hbe Hxe) as Hl. destruct (pub_of_view e Hl) as (V1 & V2 & V3).
    unfold ix_attributes in *. cbn [ix_pub ix_data index_val index_view] in *. rewrite V2 in *.
    unfold entry_orderly in Ho. rewrite Ho.
    destruct (decide (g_NvStatus s = TPM_RC_SUCCESS)) as [Hst|Hst].
    + destruct (write_attributes_entry s es1 e es2 c a (inv_rep _ _ _ _ Hi) Hst Hl) as (s' & E & Hr & Hf).
      destruct (nv_only_frame _ _ Hf) as (_ & F2 & F3 & F4 & _ & F6 & _).
      destruct (pub_set_attributes e a Hl Ra) as (P1 & P2 & P3 & P4 & P5).
      exists TPM_RC_SUCCESS, s'. split; [exact E|]. left. split; [done|]. eexists _, _.
      replace (mkIdx _ _) with (index_val (set_pub_attributes a e) None); [apply updated_entry; try done|].
      * eapply inv_update; [exact Hi|exact Hr|done..|]. by rewrite P4.
      * unfold entry_orderly. by rewrite P4, Oa.
      * rewrite F6, Hca. lia.
      * unfold index_val. cbn [index_view]. rewrite P3, P5. f_equal.
        apply bread_set_attributes; [done|lia].
    + unfold NvWriteNvIndexAttributes, offsetof_attributes.
      rewrite (conditional_unavailable s es1 e es2 rs c 8 (le_bytes 4 a) 4) by
        (first [done|by rewrite blen_le_bytes|unfold sizeof_NV_INDEX in Hl; lia]).
      eexists _, s. split; [reflexivity|]. destruct (decide _) as [E|E]; [left|by right].
      split; [done|]. exists (es1 ++ e :: es2), rs.
      assert (bread (bread e 0 148) 8 4 = le_bytes 4 a) as E'.
      { unfold sizeof_NV_INDEX in Hl. by rewrite bread_bread by lia. }
      pose proof (attributes_same _ _ _ W E') as S. cbn [ix_pub index_val index_view] in S. rewrite S.
      split; try done. rewrite Hca. lia.
  - apply andb_true_iff in Hxe as Hxe'. destruct Hxe' as [Hx1 Hx2].
    pose proof (is_index_len _ Hwf Hbe Hx1) as Hl. pose proof (inv_ram _ _ _ _ Hi) as Hrr.
    destruct (ram_facts _ _ r Hrr) as (Rl & Rb & Rra); [apply elem_of_app; right; left|].
    destruct (view_fields e (ram_attributes r) Hl Rra) as (V1 & V2 & V3).
    unfold ix_attributes in *. cbn [ix_pub ix_data index_val index_view] in *. rewrite V2 in *.
    injection Hk as Kh Kl Ka.
    assert (IS_ATTRIBUTE (ram_attributes r) TPMA_NV_ORDERLY = true) as ->
      by (rewrite (fixed_IS _ (pub_attributes e)); done).
    rewrite (bind_Some _ _ _ _ _ (NvRamGetIndex_some s (entry_handle e) rs1 r rs2 Hrr Hn Kh)).
    destruct (write_attributes_ram s rs1 r rs2 a Hrr) as (m & E & Hr').
    rewrite (bind_Some _ _ _ _ _ E). exists TPM_RC_SUCCESS, (set_orderlyRam m s). split; [done|].
    left. split; [done|]. destruct (ram_set_attributes r a Rl Ra) as (P1 & P2 & P3).
    assert (Hkk : ram_key (set_ram_attributes a r) = ram_key r) by (by apply set_ram_attributes_key).
    exists (es1 ++ e :: es2), (rs1 ++ set_ram_attributes a r :: rs2).
    replace (mkIdx _ _) with (index_val e (Some (set_ram_attributes a r))); [apply updated_ram; try done|].
    + eapply inv_update_ram; [exact Hi| |exact Hr'|done]. by eapply rep_ram_only; [apply (inv_rep _ _ _ _ Hi)| |].
    + unfold ram_key, index_key. rewrite Kh, Kl, Ka. done.
    + cbn. rewrite Hca. lia.
    + unfold index_val. cbn [index_view]. rewrite P3. f_equal; [by rewrite set_view_attributes|].
      unfold set_ram_attributes. apply bread_bwrite_after; rewrite ?blen_le_bytes; lia.
Qed.

(** ** The entity of an index *)

(** The info area of an entity is replaced, its data, in NV memory or in RAM, stays. *)
Lemma updated_info s es1 e e' es2 rs c s' ro :
  NvInv s (es1 ++ e :: es2) rs c → NvInv s' (es1 ++ e' :: es2) rs c → is_index e = true →
  entry_handle e' = entry_handle e → entry_orderly e' = entry_orderly e →
  ro = (if entry_orderly e then List.find (entry_is (entry_handle e)) rs else None) →
  s_maxCounter s' = s_maxCounter s → 4 ≤ blen (s_cachedNvIndex s') →
  updated s (es1 ++ e :: es2) rs c (entry_handle e) (index_val e' ro) s' (es1 ++ e' :: es2) rs.
Proof.
  intros Hi Hi' Hx Hh Ho -> Hm Hl. split; try done.
  - unfold index_of. destruct (nodup_before _ _ _ (inv_nodup _ _ _ _ Hi)) as [N1 _].
    rewrite (find_at _ es1 e' es2 (entry_is_not _ _ N1)) by (by apply entry_is_true).
    assert (is_index e' = true) as -> by (unfold is_index, is_type in *; by rewrite Hh). by rewrite Ho.
  - intros h' Hne. unfold index_of.
    by rewrite (find_replace (entry_is h') es1 e e' es2) by (apply Z.eqb_neq; congruence).
Qed.

(** The entity of an index that is in the cache. *)
Lemma located_entry s es rs c h x loc :
  located s es rs c h x loc →
  ∃ es1 e es2, es = es1 ++ e :: es2 ∧ is_index e = true ∧ entry_handle e = h ∧ loc = nv_end es1 + 4 ∧
    x = index_val e (if entry_orderly e then List.find (entry_is h) rs else None).
Proof.
  intros L. pose proof (located_of _ _ _ _ _ _ _ L) as Hof. destruct L as [Hi Hc _ _].
  assert (∃ es1 e es2, es = es1 ++ e :: es2 ∧ is_index e = true ∧ entry_handle e = h ∧ loc = nv_end es1 + 4)
    as (es1 & e & es2 & -> & Hx & <- & ->).
  { destruct Hc as [es1 e es2 -> Hx Ho Hh|es1 e es2 rs1 r rs2 -> -> Hx Hh Hk Hn K1 K2];
      [|apply andb_true_iff in Hx as [Hx _]]; by exists es1, e, es2. }
  exists es1, e, es2. split_and!; try done. unfold index_of in Hof.
  destruct (nodup_before _ _ _ (inv_nodup _ _ _ _ Hi)) as [N1 _].
  rewrite (find_at _ es1 e es2 (entry_is_not _ _ N1)) in Hof by (by apply entry_is_true).
  rewrite Hx in Hof. congruence.
Qed.

(** ** The authorization value *)

Lemma bwrite_left a b o d : 0 ≤ o → o + blen d ≤ blen a → bwrite (a ++ b) o d = bwrite a o d ++ b.
Proof. intros. exact (bwrite_app_mid [] a b o d ltac:(done) ltac:(done)). Qed.

Lemma bwrite_right a b o d :
  0 ≤ o → o + blen d ≤ blen b → bwrite (a ++ b) (blen a + o) d = a ++ bwrite b o d.
Proof. intros Ho Hd. pose proof (bwrite_app_mid a b [] o d Ho Hd) as E. by rewrite !app_nil_r in E. Qed.

Lemma bwrite_comm m o1 d1 o2 d2 :
  0 ≤ o1 → o1 + blen d1 ≤ o2 → o2 + blen d2 ≤ blen m →
  bwrite (bwrite m o1 d1) o2 d2 = bwrite (bwrite m o2 d2) o1 d1.
Proof.
  intros H1 H2 H3. pose proof (blen_nonneg d1). pose proof (blen_nonneg d2).
  rewrite <- (take_drop (Z.to_nat o2) m). set (a := take _ m). set (b := drop _ m).
  assert (La : blen a = o2) by (unfold a, blen in *; rewrite length_take; lia).
  assert (Lb : blen b = blen m - o2) by (unfold b, blen in *; rewrite length_drop; lia).
  replace o2 with (blen a + 0) by lia. rewrite (bwrite_left a b) by lia.
  rewrite (bwrite_right a b) by lia. rewrite (bwrite_left a) by lia.
  assert (blen (bwrite a o1 d1) = blen a) as <- by (apply blen_bwrite; lia).
  by rewrite bwrite_right by lia.
Qed.

Lemma conditional_prefix o n d s :
  0 ≤ n ≤ blen d → NvConditionallyWrite o n d s = NvConditionallyWrite o n (bread d 0 n) s.
Proof.
  intros Hn. unfold NvConditionallyWrite, NvWrite, plat__NvGetChangedStatus, plat__NvMemoryWrite.
  assert (L : blen (bread d 0 n) = n) by (apply blen_bread; lia).
  assert (inb (bread d 0 n) 0 n = inb d 0 n) as -> by (unfold inb; rewrite L; by rewrite !(proj2 (Z.leb_le _ _)) by lia).
  by rewrite (bread_bread d 0 n 0 n) by lia.
Qed.

(** An authorization value as its image. *)
Record wf_auth (auth : bytes) : Prop := {
  wfa_len : blen auth = sizeof_TPM2B_AUTH;
  wfa_byte : Forall is_byte auth;
  wfa_size : auth_size auth ≤ 64;
}.

Lemma auth_size_nonneg auth : Forall is_byte auth → 0 ≤ auth_size auth.
Proof. intros Hb. apply (le_val_bread auth 0 2 Hb). lia. Qed.

(** The fields of an entity whose authorization value is replaced. *)
Lemma set_auth_fields e d :
  148 ≤ blen e → blen d ≤ 66 →
  let e' := bwrite e 80 d in
  blen e' = blen e ∧ entry_handle e' = entry_handle e ∧ pub_dataSize e' = pub_dataSize e ∧
  pub_attributes e' = pub_attributes e ∧ ∀ o n, 148 ≤ o → bread e' o n = bread e o n.
Proof.
  intros He Hd. pose proof (blen_nonneg d).
  unfold entry_handle, pub_dataSize, pub_attributes, offsetof_attributes, offsetof_dataSize. cbv zeta.
  rewrite blen_bwrite by lia. rewrite !bread_bwrite_before by lia. split_and!; try done.
  intros o n Ho. apply bread_bwrite_after; lia.
Qed.

Lemma set_auth_val e ro d :
  148 ≤ blen e → blen d ≤ 66 →
  index_val (bwrite e 80 d) ro = mkIdx (bwrite (ix_pub (index_val e ro)) 80 d) (ix_data (index_val e ro)).
Proof.
  intros He Hd. pose proof (blen_nonneg d).
  destruct (set_auth_fields e d He Hd) as (_ & _ & F3 & _ & F5). unfold index_val. cbn [ix_pub ix_data].
  assert (E : bread (bwrite e 80 d) 0 148 = bwrite (bread e 0 148) 80 d)
    by (rewrite <- (bread_bwrite_cover e 0 148 80 d) by lia; done).
  rewrite F3. f_equal; [|destruct ro; [done|by apply F5]].
  destruct ro as [r|]; cbn [index_view]; [|exact E]. rewrite E. unfold set_pub_attributes, offsetof_attributes.
  assert (blen (bread e 0 148) = 148) by (apply blen_bread; lia).
  apply eq_sym, bwrite_comm; rewrite ?blen_le_bytes; lia.
Qed.

Lemma write_auth s es rs c h x loc auth :
  located s es rs c h x loc → wf_auth auth →
  let d := bread auth 0 (2 + auth_size auth) in
  ∃ r s', NvWriteIndexAuth loc auth s = Some (r, s') ∧
    ((r = TPM_RC_SUCCESS ∧ ∃ es',
       updated s es rs c h (mkIdx (bwrite (ix_pub x) 80 d) (ix_data x)) s' es' rs) ∨
     (r = g_NvStatus s ∧ r ≠ TPM_RC_SUCCESS ∧ refused s s')).
Proof.
  intros L [La Ba Sa] d. pose proof (located_wf _ _ _ _ _ _ _ L) as W. pose proof (ixw_len _ _ W) as Lx.
  destruct (located_entry _ _ _ _ _ _ _ L) as (es1 & e & es2 & -> & Hx & <- & -> & ->).
  set (ro := if entry_orderly e then _ else None) in *. destruct L as [Hi _ Hca Hre].
  pose proof (auth_size_nonneg auth Ba) as Na. unfold sizeof_TPM2B_AUTH in La.
  assert (Ld : blen d = 2 + auth_size auth) by (apply blen_bread; lia).
  destruct (inv_entry _ _ _ _ _ _ Hi) as (Hwf & _ & Hbe & _).
  pose proof (is_index_len _ Hwf Hbe Hx) as Hl. unfold sizeof_NV_INDEX in Hl.
  destruct (set_auth_fields e d Hl ltac:(lia)) as (F1 & F2 & F3 & F4 & F5).
  unfold NvWriteIndexAuth. unfold bind at 1, gets. rewrite Hre, Z.eqb_refl.
  rewrite (proj2 (Z.leb_le (auth_size auth) 64)) by done. erewrite bind_Some by reflexivity.
  rewrite Hca, Hre. fold d. unfold offsetof_authValue.
  set (s0 := set_cache (bwrite (ix_pub (index_val e ro)) 80 d) (nv_end es1 + 4) (s_cachedNvRamRef s) s).
  assert (Hi0 : NvInv s0 (es1 ++ e :: es2) rs c) by (by apply inv_cache).
  rewrite conditional_prefix by lia. fold d.
  assert (Lc : 4 ≤ blen (s_cachedNvIndex s0)) by (cbn [s_cachedNvIndex set_cache s0]; rewrite blen_bwrite; lia).
  destruct (decide (g_NvStatus s = TPM_RC_SUCCESS)) as [Hst|Hst].
  - destruct (NvConditionallyWrite_entry s0 es1 e es2 rs c 80 d (2 + auth_size auth))
      as (s' & E & Hr & Hf); try done; try lia; [by apply bread_byte|].
    destruct (nv_only_frame _ _ Hf) as (_ & G2 & G3 & G4 & _ & G6 & _).
    exists TPM_RC_SUCCESS, s'. split; [exact E|]. left. split; [done|]. exists (es1 ++ bwrite e 80 d :: es2).
    rewrite <- set_auth_val by lia. apply updated_info; try done.
    + eapply inv_update; [exact Hi0|exact Hr|done..|by rewrite F4].
    + unfold entry_orderly. by rewrite F4.
    + by rewrite G6.
  - rewrite (conditional_unavailable s0 es1 e es2 rs c 80 d) by (try done; lia).
    eexists _, s0. split; [reflexivity|]. destruct (decide _) as [E|E]; [left|right].
    + split; [done|]. exists (es1 ++ e :: es2). rewrite <- set_auth_val by lia.
      assert (bwrite e 80 d = e) as -> by (apply bwrite_same; [lia..|by rewrite Ld]).
      by apply updated_info.
    + split_and!; [done|done|]. split; [done|exact Lc].
Qed.

(** ** Deleting *)

Record removed s es rs (h : Z) (x : IndexVal) s' es' rs' : Prop := {
  rem_inv : NvInv s' es' rs' (s_maxCounter s');
  rem_of : index_of es' rs' h = None;
  rem_other h' : h' ≠ h → index_of es' rs' h' = index_of es rs h';
  rem_max : s_maxCounter s' = deleted_max (s_maxCounter s) (ix_attributes x) (ix_data x);
  rem_len : 4 ≤ blen (s_cachedNvIndex s');
}.

Lemma deleted_max_data m a d d' :
  (IsNvCounterIndex a = true → d = d') → deleted_max m a d = deleted_max m a d'.
Proof. intros E. unfold deleted_max. destruct (IsNvCounterIndex a); [by rewrite E|done]. Qed.

Lemma find_gone h l1 l2 :
  Forall (λ e, entry_handle e ≠ h) l1 → Forall (λ e, entry_handle e ≠ h) l2 →
  List.find (entry_is h) (l1 ++ l2) = None.
Proof.
  intros H1 H2. pose proof (entry_is_not h (l1 ++ l2) (proj2 (Forall_app _ _ _) (conj H1 H2))) as F.
  induction F as [|e l He _ IH]; [done|]. cbn. by rewrite He.
Qed.

Lemma index_of_drop es1 e es2 rs h' :
  entry_handle e ≠ h' → index_of (es1 ++ es2) rs h' = index_of (es1 ++ e :: es2) rs h'.
Proof. intros Hne. unfold index_of. by rewrite (find_other _ es1 e es2) by (by apply Z.eqb_neq). Qed.

Lemma inv_max s es rs c v : NvInv s es rs c → NvInv (set_maxCounter v s) es rs c.
Proof. intros [Hr ????]. constructor; [by apply rep_max|done..]. Qed.

Lemma delete_index s es rs c h x loc :
  located s es rs c h x loc → (IsNvCounterIndex (ix_attributes x) = true → pub_dataSize (ix_pub x) = 8) →
  ∃ r s', NvDeleteIndex (Some (ix_pub x)) loc s = Some (r, s') ∧
    ((r = TPM_RC_SUCCESS ∧ ∃ es' rs', removed s es rs h x s' es' rs') ∨
     (r = g_NvStatus s ∧ r ≠ TPM_RC_SUCCESS ∧
      s' = set_maxCounter (deleted_max (s_maxCounter s) (ix_attributes x) (ix_data x)) s)).
Proof.
  intros L H8. pose proof (located_wf _ _ _ _ _ _ _ L) as W. pose proof (ixw_len _ _ W) as Lx.
  pose proof (ixw_data _ _ W) as Ld.
  destruct (decide (g_NvStatus s = TPM_RC_SUCCESS)) as [Hst|Hst].
  - exists TPM_RC_SUCCESS. pose proof L as [Hi Hc Hca Hre]. rewrite <- Hca in Lx.
    assert (Lc : ∀ s', s_cachedNvIndex s' = set_pub_nvIndex TPM_RH_UNASSIGNED (s_cachedNvIndex s) →
      4 ≤ blen (s_cachedNvIndex s')).
    { intros s' ->. unfold set_pub_nvIndex. rewrite blen_bwrite; rewrite ?blen_le_bytes; lia. }
    clear L. remember (s_cachedNvRamRef s) as ram eqn:Hram.
    destruct Hc as [es1 e es2 -> Hxe Ho Hh|es1 e es2 rs1 r rs2 -> -> Hxe Hh Hk Hn K1 K2]; subst h;
      destruct (inv_entry _ _ _ _ _ _ Hi) as (Hwf & _ & Hbe & _);
      destruct (nodup_before _ _ _ (inv_nodup _ _ _ _ Hi)) as [N1 N2].
    + destruct (pub_of_view e (is_index_len _ Hwf Hbe Hxe)) as (V1 & V2 & V3).
      unfold ix_attributes in *. cbn [ix_pub ix_data index_val index_view] in *. rewrite V2, V3 in *.
      destruct (NvDeleteIndex_normal s es1 e es2 rs c (bread e 0 148)) as (s' & E & Hi' & Hm & _ & _ & Hcc);
        try done. exists s'. split; [exact E|]. left. split; [done|]. exists (es1 ++ es2), rs. split.
      * by rewrite Hm.
      * unfold index_of. by rewrite find_gone.
      * intros h' Hne. by apply index_of_drop.
      * rewrite Hm. unfold ix_attributes. cbn [ix_pub ix_data index_val index_view]. try fold idx. rewrite V2. apply deleted_max_data. intros Hcn. by rewrite (H8 Hcn).
      * by apply Lc.
    + apply andb_true_iff in Hxe as Hxe'. destruct Hxe' as [Hx1 Hx2].
      destruct (ram_facts _ _ r (inv_ram _ _ _ _ Hi)) as (Rl & Rb & Ra); [apply elem_of_app; right; left|].
      destruct (view_fields e (ram_attributes r) (is_index_len _ Hwf Hbe Hx1) Ra) as (V1 & V2 & V3).
      pose proof Hk as Hk'. injection Hk' as Kh Kl Ka.
      unfold ix_attributes in *. cbn [ix_pub ix_data index_val index_view] in *. rewrite V2, V3 in *.
      set (idx := set_pub_attributes (ram_attributes r) (bread e 0 148)) in *.
      destruct (NvDeleteIndex_orderly s es1 e es2 rs1 r rs2 c idx) as (s' & E & Hi' & Hm & _ & _ & Hcc);
        rewrite ?V2, ?Kh; try done.
      exists s'. split; [exact E|]. left. split; [done|]. exists (es1 ++ es2), (rs1 ++ rs2). split.
      * by rewrite Hm.
      * unfold index_of. by rewrite find_gone.
      * intros h' Hne. rewrite (index_of_drop es1 e es2) by done. unfold index_of.
        destruct (List.find _ (es1 ++ _)) as [y|]; [|done]. by rewrite (find_other _ rs1 r rs2) by (apply Z.eqb_neq; congruence).
      * rewrite Hm. unfold ix_attributes. cbn [ix_pub ix_data index_val index_view]. try fold idx. rewrite V2. apply deleted_max_data. intros Hcn. by rewrite (H8 Hcn).
      * by apply Lc.
  - eexists (g_NvStatus s), _. split; [|by right]. unfold NvDeleteIndex.
    rewrite (bind_Some _ _ _ _ _ (delete_update_max s (ix_pub x) loc (ix_data x)
      ltac:(intros [Hcn Hw]%andb_true_iff; rewrite (get_data s es rs c h x loc 0 8) by (try done; rewrite ?(H8 Hcn); lia);
            rewrite bread_all by (rewrite Ld; symmetry; exact (H8 Hcn)); done))).
    set (s0 := set_maxCounter _ s).
    rewrite (bind_Some _ _ _ _ _ (NvDelete_unavailable s0 es rs c loc (inv_max _ _ _ _ _ (loc_inv _ _ _ _ _ _ _ L)) Hst)).
    change (g_NvStatus s0) with (g_NvStatus s). by rewrite (proj2 (Z.eqb_neq (g_NvStatus s) TPM_RC_SUCCESS)) by done.
Qed.
End ops.

(** * Defining an index, and the global write lock, on the map of indices *)

Section define.
Context `{NvLayout}.
Implicit Types (s : NvState) (es rs : list bytes).

(** ** Defining *)

Record defined s es rs (p auth pad : bytes) s' es' rs' : Prop := {
  dfn_inv : NvInv s' es' rs' (s_maxCounter s);
  dfn_of : ∃ data, index_of es' rs' (pub_nvIndex p) = Some (mkIdx (p ++ auth ++ pad) data);
  dfn_other h' : h' ≠ pub_nvIndex p → index_of es' rs' h' = index_of es rs h';
  dfn_max : s_maxCounter s' = s_maxCounter s;
  dfn_cache : s_cachedNvIndex s' = s_cachedNvIndex s;
}.

Lemma ram_handles s es rs c r : NvInv s es rs c → r ∈ rs → entry_handle r ∈ map entry_handle es.
Proof.
  intros Hi Hr. assert (K : ram_key r ∈ map ram_key rs) by (by apply elem_map).
  rewrite (inv_keys _ _ _ _ Hi) in K. apply elem_map_inv in K as (e & Ek & [He _]%elem_filter).
  injection Ek as Eh _ _. rewrite Eh. by apply elem_map.
Qed.

Lemma own_attributes e :
  sizeof_NV_INDEX ≤ blen e → Forall is_byte e →
  set_pub_attributes (pub_attributes e) (bread e 0 148) = bread e 0 148.
Proof.
  intros Hl Hb. unfold set_pub_attributes, pub_attributes, offsetof_attributes, sizeof_NV_INDEX in *.
  assert (blen (bread e 0 148) = 148) by (apply blen_bread; lia).
  assert (L : length (bread e 8 4) = 4%nat) by (apply Nat2Z.inj; fold (blen (bread e 8 4)); rewrite blen_bread; lia).
  rewrite <- L, le_bytes_val by (by apply bread_byte).
  apply bwrite_same; [lia|rewrite blen_bread; lia|]. rewrite blen_bread by lia. by apply bread_bread; lia.
Qed.

Lemma index_of_snoc es rs e h :
  Forall (λ e', entry_handle e' ≠ h) es → is_index e = true → entry_handle e = h →
  index_of (es ++ [e]) rs h =
    Some (index_val e (if entry_orderly e then List.find (entry_is h) rs else None)).
Proof.
  intros Hn Hx Hh. unfold index_of.
  by rewrite (find_at _ es e [] (entry_is_not _ _ Hn)), Hx by (by apply entry_is_true).
Qed.

Lemma define_index s es rs c p auth pad :
  NvInv s es rs c → wf_public p → blen auth = sizeof_TPM2B_AUTH → Forall is_byte auth →
  blen pad = 2 → Forall is_byte pad → index_of es rs (pub_nvIndex p) = None →
  ∃ r s', NvDefineIndex pad p auth s = Some (r, s') ∧
    ((r = TPM_RC_SUCCESS ∧ g_NvStatus s = TPM_RC_SUCCESS ∧ define_fits es rs p = true ∧ ∃ es' rs', defined s es rs p auth pad s' es' rs') ∨
     (r ≠ TPM_RC_SUCCESS ∧ s' = s ∧ r = if define_fits es rs p then g_NvStatus s else TPM_RC_NV_SPACE)).
Proof.
  intros Hi Hp La Ba Lp Bp Hx. pose proof (index_of_absent _ _ _ (wfp_handle _ Hp) Hx) as Hn.
  destruct (define_fits es rs p) eqn:Hfit; cycle 1.
  { exists TPM_RC_NV_SPACE, s. rewrite (NvDefineIndex_tests _ _ _ _ _ _ _ Hi Hp), Hfit. by auto. }
  destruct (decide (g_NvStatus s = TPM_RC_SUCCESS)) as [Hst|Hst]; cycle 1.
  { exists (g_NvStatus s), s. rewrite (NvDefineIndex_unavailable _ _ _ _ _ _ _ Hi Hp Hst Hfit). by auto. }
  destruct (NvDefineIndex_ok s es rs c pad p auth) as (s' & e & E & Hi' & He & Hm & _ & _ & Hc); try done.
  { intros (x & Ex & Hin)%elem_map_inv. rewrite list.Forall_forall in Hn. by apply (Hn x). }
  exists TPM_RC_SUCCESS, s'. split; [exact E|]. left. split; [done|]. split; [done|]. split; [done|].
  destruct (index_entry_fields p auth pad e Hp La Lp He) as (F1 & F2 & F3 & F4 & F5 & F6 & F7).
  destruct (inv_entry s' es e [] _ _ Hi') as (_ & _ & Hbe & _).
  pose proof (is_index_len _ F6 Hbe F5) as Hl. destruct He as [He _]. unfold sizeof_NV_INDEX in He.
  assert (Hnr : Forall (λ r, entry_handle r ≠ pub_nvIndex p) rs).
  { apply list.Forall_forall. intros r Hr Eh. apply (ram_handles _ _ _ _ _ Hi) in Hr.
    apply elem_map_inv in Hr as (x & Ex & Hin). rewrite list.Forall_forall in Hn. apply (Hn x); congruence. }
  destruct (ram_new_fields p Hp) as (R1 & R2 & R3).
  exists (es ++ [e]), (rs ++ ram_of_public p). split; [done| |  |done|done].
  - exists (ix_data (index_val e (if entry_orderly e then Some (ram_new p) else None))).
    rewrite (index_of_snoc _ _ _ _ Hn F5 F1). f_equal. unfold ram_of_public. rewrite <- F7.
    destruct (entry_orderly e).
    + rewrite (find_at _ rs (ram_new p) [] (entry_is_not _ _ Hnr)) by (by apply entry_is_true).
      unfold index_val. cbn [ix_data index_view]. rewrite R3, <- F2. by rewrite own_attributes, He.
    + unfold index_val. cbn [ix_data index_view]. by rewrite He.
  - intros h' Hne. unfold index_of.
    rewrite (find_other (entry_is h') es e []), app_nil_r by (apply Z.eqb_neq; congruence).
    unfold ram_of_public. destruct (IS_ATTRIBUTE (pub_attributes p) TPMA_NV_ORDERLY); rewrite ?app_nil_r; [|done].
    by rewrite (find_other (entry_is h') rs (ram_new p) []), app_nil_r by (apply Z.eqb_neq; congruence).
Qed.

(** ** The global lock *)

Definition lock_ix (x : IndexVal) : IndexVal :=
  if ix_has x TPMA_NV_GLOBALLOCK
  then mkIdx (set_pub_attributes (SET_ATTRIBUTE (ix_attributes x) TPMA_NV_WRITELOCKED) (ix_pub x)) (ix_data x)
  else x.

Definition lock_all (e : bytes) : bytes := if is_index e then lock_entry e else e.

Lemma find_map (f : bytes → bytes) h l :
  Forall (λ e, entry_handle (f e) = entry_handle e) l →
  List.find (entry_is h) (map f l) = f <$> List.find (entry_is h) l.
Proof.
  intros Hf. induction Hf as [|e l He _ IH]; [done|]. cbn [map List.find]. unfold entry_is at 1 3.
  rewrite He. by destruct (_ =? h).
Qed.

Lemma lock_all_handle s es rs c : NvInv s es rs c → Forall (λ e, entry_handle (lock_all e) = entry_handle e) es.
Proof.
  intros Hi. apply list.Forall_forall. intros e He. unfold lock_all. destruct (is_index e) eqn:Hx; [|done].
  destruct (inv_index_facts _ _ _ _ _ Hi He Hx) as (Hl & _ & Ha). apply (lock_entry_fixed e Hl Ha).
Qed.

Lemma lock_ram_handle s es rs c : NvInv s es rs c → Forall (λ r, entry_handle (lock_ram r) = entry_handle r) rs.
Proof.
  intros Hi. apply list.Forall_forall. intros r Hr. destruct (ram_facts _ _ _ (inv_ram _ _ _ _ Hi) Hr) as (Hl & _ & Ha).
  pose proof (lock_ram_key r Hl Ha) as K. by injection K.
Qed.

Lemma lock_val_normal e :
  sizeof_NV_INDEX ≤ blen e → 0 ≤ pub_attributes e < 4294967296 → entry_orderly e = false →
  index_val (lock_entry e) None = lock_ix (index_val e None).
Proof.
  intros Hl Ha Ho. destruct (pub_of_view e Hl) as (V1 & V2 & V3). unfold lock_entry, lock_ix, ix_has, ix_attributes.
  rewrite Ho. cbn [negb andb ix_pub ix_data index_val index_view]. rewrite V2.
  destruct (IS_ATTRIBUTE _ TPMA_NV_GLOBALLOCK); [|done].
  destruct (pub_set_attributes e (SET_ATTRIBUTE (pub_attributes e) TPMA_NV_WRITELOCKED) Hl) as (P1 & P2 & P3 & P4 & P5);
    [by apply SET_writelocked_range|].
  unfold index_val. cbn [index_view]. rewrite P3, P5. f_equal. apply bread_set_attributes; [done|lia].
Qed.

Lemma lock_val_orderly e r :
  sizeof_NV_INDEX ≤ blen e → 8 ≤ blen r → 0 ≤ ram_attributes r < 4294967296 →
  index_val e (Some (lock_ram r)) = lock_ix (index_val e (Some r)).
Proof.
  intros Hl Hr Ha. destruct (view_fields e (ram_attributes r) Hl Ha) as (V1 & V2 & V3).
  unfold lock_ram, lock_ix, ix_has, ix_attributes. cbn [ix_pub ix_data index_val index_view]. rewrite V2.
  destruct (IS_ATTRIBUTE _ TPMA_NV_GLOBALLOCK); [|done].
  destruct (ram_set_attributes r (SET_ATTRIBUTE (ram_attributes r) TPMA_NV_WRITELOCKED) Hr) as (P1 & P2 & P3);
    [by apply SET_writelocked_range|].
  unfold index_val. cbn [index_view]. rewrite P3. f_equal; [by rewrite set_view_attributes|].
  unfold set_ram_attributes. apply bread_bwrite_after; rewrite ?blen_le_bytes; lia.
Qed.

Lemma index_of_lock s es rs c h :
  NvInv s es rs c → index_of (map lock_all es) (map lock_ram rs) h = lock_ix <$> index_of es rs h.
Proof.
  intros Hi. unfold index_of. rewrite (find_map lock_all) by (by eapply lock_all_handle).
  destruct (List.find (entry_is h) es) as [e|] eqn:E; [|done]. cbn [fmap option_fmap option_map].
  pose proof (find_some _ _ E) as [Hin%list_elem_of_In _]. apply find_split in E as (es1 & es2 & -> & Eh).
  unfold lock_all. destruct (is_index e) eqn:Hx; [|by rewrite Hx].
  destruct (inv_index_facts _ _ _ _ _ Hi Hin Hx) as (Hl & _ & Ha).
  destruct (lock_entry_fixed e Hl Ha) as (L1 & L2 & L3 & L4).
  assert (is_index (lock_entry e) = true) as -> by (unfold is_index, is_type in *; by rewrite L2).
  assert (entry_orderly (lock_entry e) = entry_orderly e) as -> by (by apply fixed_IS).
  destruct (entry_orderly e) eqn:Ho; cbn [fmap option_fmap option_map]; f_equal; [|by apply lock_val_normal].
  assert (Hox : orderly_index e = true) by (unfold orderly_index; by rewrite Hx, Ho).
  rewrite (find_map lock_ram) by (by eapply lock_ram_handle).
  destruct (inv_ram_split _ _ _ _ _ _ Hi Hox) as (rs1 & r & rs2 & -> & Rh & _ & _ & Rn & _).
  rewrite <- Eh, (find_at _ rs1 r rs2 (entry_is_not _ _ Rn)) by (by apply entry_is_true).
  destruct (ram_facts _ _ r (inv_ram _ _ _ _ Hi)) as (Rl & _ & Ra); [apply elem_of_app; right; left|].
  cbn [fmap option_fmap option_map]. unfold lock_entry. rewrite Ho. cbn [negb andb]. by apply lock_val_orderly.
Qed.

(** With NV unavailable the loop over NV memory stops at the first index to lock. *)
Lemma lock_index_unavailable s es1 e es2 rs c r0 :
  NvInv s (es1 ++ e :: es2) rs c → g_NvStatus s ≠ TPM_RC_SUCCESS → is_index e = true →
  ∃ r, lock_index (nv_end es1 + 4) (entry_handle e) r0 s = Some (r, s) ∧
    ((r = TPM_RC_SUCCESS ∧ lock_entry e = e) ∨ r = g_NvStatus s).
Proof.
  intros Hi Hst Hx. destruct (inv_entry _ _ _ _ _ _ Hi) as (Hwf & _ & Hbe & _).
  pose proof (is_index_len _ Hwf Hbe Hx) as Hl. unfold lock_index, lock_entry, entry_orderly.
  rewrite (bind_Some _ _ _ _ _ (NvReadNvIndexAttributes_ok _ _ _ _ _ (inv_rep _ _ _ _ Hi) Hl)).
  destruct (negb _ && _); [|exists TPM_RC_SUCCESS; by auto].
  unfold NvWriteNvIndexAttributes, offsetof_attributes. unfold sizeof_NV_INDEX in Hl.
  rewrite (conditional_unavailable s es1 e es2 rs c 8) by (first [done|by rewrite blen_le_bytes|lia]).
  eexists. split; [reflexivity|]. destruct (decide _) as [E|E]; [left|by right]. split; [done|].
  unfold set_pub_attributes, offsetof_attributes. apply bwrite_same; rewrite ?blen_le_bytes; [lia..|exact E].
Qed.

Lemma lock_indices_unavailable s es rs c :
  NvInv s es rs c → g_NvStatus s ≠ TPM_RC_SUCCESS →
  ∃ r, nv_while (λ r, negb (r =? TPM_RC_SUCCESS)) nv_fuel NvNextIndex lock_index NV_REF_INIT
      TPM_RC_SUCCESS s = Some (r, s) ∧
    ((r = TPM_RC_SUCCESS ∧ Forall (λ e, lock_all e = e) es) ∨ r = g_NvStatus s).
Proof.
  intros Hi Hst. unfold NvNextIndex. rewrite (nv_while_init _ _ _ _ _ _ _ _ (inv_rep _ _ _ _ Hi)).
  assert (Hgen : ∀ fuel es1 es2, es = es1 ++ es2 → (length es2 < fuel)%nat →
    ∃ r, nv_while (λ r, negb (r =? TPM_RC_SUCCESS)) fuel (λ i, NvNextByType i TPM_HT_NV_INDEX) lock_index
        (nv_end es1) TPM_RC_SUCCESS s = Some (r, s) ∧
      ((r = TPM_RC_SUCCESS ∧ Forall (λ e, lock_all e = e) es2) ∨ r = g_NvStatus s));
    [|by apply (Hgen nv_fuel [] es); [|eapply nv_fuel_enough, (inv_rep _ _ _ _ Hi)]].
  assert (Hno : ∀ l, List.filter (is_type TPM_HT_NV_INDEX) l = [] → Forall (λ e, lock_all e = e) l).
  { intros l Hl. apply list.Forall_forall. intros e He. unfold lock_all. destruct (is_index e) eqn:Hx; [|done].
    exfalso. assert (e ∈ List.filter (is_type TPM_HT_NV_INDEX) l) as F by (by apply elem_filter).
    rewrite Hl in F. by apply not_elem_of_nil in F. }
  induction fuel as [|fuel IH]; intros es1 es2 -> Hf; [lia|]. cbn [nv_while].
  destruct (NvNextByType_step TPM_HT_NV_INDEX s es1 es2 c (inv_rep _ _ _ _ Hi))
    as [[Hn [h Hs]]|(pre & e & post & -> & Hp & He & Hs)]; rewrite (bind_Some _ _ _ _ _ Hs).
  { exists TPM_RC_SUCCESS. split; [done|]. left. by auto. }
  assert (Hi' := Hi). rewrite app_assoc in Hi'.
  destruct (inv_entry _ _ _ _ _ _ Hi') as (_ & _ & _ & Hlo & _). rewrite (proj2 (Z.eqb_neq _ 0)) by lia.
  destruct (lock_index_unavailable s (es1 ++ pre) e post rs c TPM_RC_SUCCESS Hi' Hst He) as (r & Hb & Hr).
  rewrite (bind_Some _ _ _ _ _ Hb). destruct Hr as [[-> Hle]| ->].
  - change (negb (TPM_RC_SUCCESS =? TPM_RC_SUCCESS)) with false. cbv iota.
    destruct (IH (es1 ++ pre ++ [e]) post) as (r & E & D); [by rewrite <- !app_assoc|rewrite length_app in Hf; cbn [length] in Hf; lia|].
    exists r. split; [exact E|]. destruct D as [[-> D]|D]; [left|by right]. split; [done|].
    apply Forall_app. split; [by apply Hno|]. constructor; [|done]. unfold lock_all. by case_match.
  - rewrite (proj2 (Z.eqb_neq (g_NvStatus s) TPM_RC_SUCCESS)) by done. exists (g_NvStatus s). by auto.
Qed.

Lemma global_lock s es rs c :
  NvInv s es rs c → 4 ≤ blen (s_cachedNvIndex s) →
  ∃ r s', NvSetGlobalLock s = Some (r, s') ∧
    ((r = TPM_RC_SUCCESS ∧ NvInv s' (map lock_all es) (map lock_ram rs) c ∧ same_counter s s') ∨
     (r = g_NvStatus s ∧ r ≠ TPM_RC_SUCCESS ∧ s' = s)).
Proof.
  intros Hi Hc. destruct (decide (g_NvStatus s = TPM_RC_SUCCESS)) as [Hst|Hst].
  - destruct (NvSetGlobalLock_ok s es rs c Hi Hst) as (s' & E & Hi' & _ & Hsc).
    exists TPM_RC_SUCCESS, s'. split; [exact E|]. by left.
  - destruct (lock_indices_unavailable s es rs c Hi Hst) as (r & E & D). unfold NvSetGlobalLock.
    rewrite (bind_Some _ _ _ _ _ E). destruct D as [[-> D]| ->].
    + change (negb (TPM_RC_SUCCESS =? TPM_RC_SUCCESS)) with false. cbv iota.
      destruct (lock_rams_ok _ _ _ _ (inv_rep _ _ _ _ Hi) (inv_ram _ _ _ _ Hi)) as (s2 & Hs2 & Hr2 & Hrr2 & _ & Hsc2).
      rewrite (bind_Some _ _ _ _ _ Hs2). exists TPM_RC_SUCCESS, s2. split; [done|]. left. split; [done|]. split; [|done].
      assert (Hm : map lock_all es = es) by (clear -D; induction D as [|e l He _ IH]; cbn [map]; congruence).
      change lock_all with (λ e, if is_index e then lock_entry e else e).
      eapply inv_map_attributes; [exact Hi| |exact Hrr2|..].
      * fold lock_all. change (λ e, if is_index e then lock_entry e else e) with lock_all. by rewrite Hm.
      * intros e He Hx. destruct (inv_index_facts _ _ _ _ _ Hi He Hx) as (? & _ & ?). by apply lock_entry_fixed.
      * intros r Hr. destruct (ram_facts _ _ _ (inv_ram _ _ _ _ Hi) Hr) as (? & _ & ?). by apply lock_ram_key.
    + rewrite (proj2 (Z.eqb_neq (g_NvStatus s) TPM_RC_SUCCESS)) by done. exists (g_NvStatus s), s. by auto.
Qed.
End define.

(** * The NV commands as steps on a map of indices *)

Section step.
Context `{NvLayout} `{HashLib}.
Implicit Types (s : NvState) (es rs : list bytes).

Inductive NvOp :=
  | OpDefineSpace (authHandle : Z) (auth publicInfo padding : bytes)
  | OpUndefineSpace (authHandle nvIndex : Z)
  | OpUndefineSpaceSpecial (nvIndex : Z)
  | OpReadPublic (nvIndex : Z)
  | OpWrite (authHandle nvIndex : Z) (data : bytes) (offset : Z)
  | OpIncrement (authHandle nvIndex : Z)
  | OpExtend (authHandle nvIndex : Z) (data : bytes)
  | OpSetBits (authHandle nvIndex bits : Z)
  | OpWriteLock (authHandle nvIndex : Z)
  | OpGlobalWriteLock
  | OpRead (authHandle nvIndex size offset : Z)
  | OpReadLock (authHandle nvIndex : Z)
  | OpChangeAuth (nvIndex : Z) (newAuth : bytes)
  | OpDefineSpace2 (authHandle : Z) (auth : bytes) (publicInfo : TPMT_NV_PUBLIC_2) (stack padding : bytes)
  | OpReadPublic2 (nvIndex : Z).

(** The index in the handle area. *)
Definition op_index (op : NvOp) : option Z :=
  match op with
  | OpDefineSpace _ _ _ _ | OpDefineSpace2 _ _ _ _ _ | OpGlobalWriteLock => None
  | OpUndefineSpace _ h | OpUndefineSpaceSpecial h | OpReadPublic h | OpWrite _ h _ _
  | OpIncrement _ h | OpExtend _ h _ | OpSetBits _ h _ | OpWriteLock _ h | OpRead _ h _ _
  | OpReadLock _ h | OpChangeAuth h _ | OpReadPublic2 h => Some h
  end.

(** The response code and the response parameters. *)
Definition code_only (m : M NvState Z) : M NvState (Z * list bytes) := let! r := m in ret (r, []).

Definition op_action (op : NvOp) : M NvState (Z * list bytes) :=
  match op with
  | OpDefineSpace a auth p pad => code_only (TPM2_NV_DefineSpace pad a auth p)
  | OpUndefineSpace a h => code_only (TPM2_NV_UndefineSpace a h)
  | OpUndefineSpaceSpecial h => let! '(r, _) := TPM2_NV_UndefineSpaceSpecial h in ret (r, [])
  | OpReadPublic h => let! '(r, p, n) := TPM2_NV_ReadPublic h in ret (r, [p; n])
  | OpWrite a h d o => code_only (TPM2_NV_Write a h d o)
  | OpIncrement a h => code_only (TPM2_NV_Increment a h)
  | OpExtend a h d => code_only (TPM2_NV_Extend a h d)
  | OpSetBits a h b => code_only (TPM2_NV_SetBits a h b)
  | OpWriteLock a h => code_only (TPM2_NV_WriteLock a h)
  | OpGlobalWriteLock => code_only TPM2_NV_GlobalWriteLock
  | OpRead a h n o => let! '(r, d) := TPM2_NV_Read a h n o in ret (r, [d])
  | OpReadLock a h => code_only (TPM2_NV_ReadLock a h)
  | OpChangeAuth h v => code_only (TPM2_NV_ChangeAuth h v)
  | OpDefineSpace2 a auth p stack pad => code_only (TPM2_NV_DefineSpace2 stack pad a auth p)
  | OpReadPublic2 h =>
      let! '(r, o) := TPM2_NV_ReadPublic2 h in
      match o with
      | Some (p, name) => let! d := of_option (TPMU_NV_PUBLIC_2_Marshal p) in ret (r, [d; name])
      | None => ret (r, [])
      end
  end.

Definition nv_exec (status : Z) (op : NvOp) : M NvState (Z * list bytes) :=
  modify (set_NvStatus status) ;;
  NvIndexCacheInit ;;
  match op_index op with
  | None => op_action op
  | Some h =>
      let! r := NvIndexIsAccessible h in
      if negb (r =? TPM_RC_SUCCESS) then ret (r, []) else op_action op
  end.

(** What unmarshaling guarantees of the parameters.  Of the handles it accepts
    (NV, external NV, permanent NV) those of type NV; of the external form of a
    public area those with extended attributes, which are refused, since the
    conversion of the others leaves the handle unassigned. *)
Definition nv_handle (h : Z) : Prop := HandleGetType h = TPM_HT_NV_INDEX.

Definition op_ok (op : NvOp) : Prop :=
  match op with
  | OpDefineSpace _ auth p pad | OpDefineSpace2 _ auth (NvIndexPublic p) _ pad =>
      wf_auth auth ∧ blen p = sizeof_TPMS_NV_PUBLIC ∧ Forall is_byte p ∧ nv_handle (pub_nvIndex p) ∧
      blen pad = 2 ∧ Forall is_byte pad
  | OpWrite _ h d o => nv_handle h ∧ Forall is_byte d ∧ blen d ≤ MAX_NV_BUFFER_SIZE ∧ 0 ≤ o < 65536
  | OpExtend _ h d => nv_handle h ∧ Forall is_byte d
  | OpSetBits _ h b => nv_handle h ∧ 0 ≤ b < 2 ^ 64
  | OpRead _ h n o => nv_handle h ∧ 0 ≤ n < 65536 ∧ 0 ≤ o < 65536
  | OpChangeAuth h v => nv_handle h ∧ wf_auth v
  | OpUndefineSpace _ h | OpUndefineSpaceSpecial h | OpReadPublic h | OpIncrement _ h
  | OpWriteLock _ h | OpReadLock _ h | OpReadPublic2 h => nv_handle h
  | OpDefineSpace2 _ _ (ExternalPublic _ _ attributes _ _) _ _ => Z.land attributes 0xffffffff00000000 ≠ 0
  | OpDefineSpace2 _ _ (PermanentPublic _ | OtherPublic _) _ _ | OpGlobalWriteLock => True
  end.

(** ** Steps *)

Definition sets (I : Z → option IndexVal) (h : Z) (x : option IndexVal) (I' : Z → option IndexVal) : Prop :=
  I' h = x ∧ ∀ h', h' ≠ h → I' h' = I h'.

Definition same_map (I I' : Z → option IndexVal) : Prop := ∀ h, I' h = I h.

Definition ix_nt (x : IndexVal) : Z := GET_TPM_NT (ix_attributes x).
Definition ix_counter (x : IndexVal) : bool := IsNvCounterIndex (ix_attributes x).
Definition ix_count (x : IndexVal) : Z := ByteArrayToUint64 (ix_data x).

(** The index with another attribute set. *)
Definition ix_set (a : Z) (x : IndexVal) : IndexVal :=
  mkIdx (set_pub_attributes (SET_ATTRIBUTE (ix_attributes x) a) (ix_pub x)) (ix_data x).

(** The value that the next increment of counter [x] gives. *)
Definition next_count (max : Z) (x : IndexVal) : Z :=
  u64 ((if ix_has x TPMA_NV_WRITTEN then ix_count x else max) + 1).

Definition old_digest (x : IndexVal) : bytes :=
  if ix_has x TPMA_NV_WRITTEN then ix_data x else bfill 0 (CryptHashGetDigestSize (pub_nameAlg (ix_pub x))).

Definition old_bits (x : IndexVal) : Z := if ix_has x TPMA_NV_WRITTEN then ix_count x else 0.

(** The value of the authorization of [x] is replaced by [auth]. *)
Definition ix_auth (auth : bytes) (x : IndexVal) : IndexVal :=
  mkIdx (bwrite (ix_pub x) offsetof_authValue (bread auth 0 (2 + auth_size auth))) (ix_data x).

Definition may_write (a h : Z) (x : IndexVal) : Prop :=
  NvWriteAccessChecks a h (ix_attributes x) = TPM_RC_SUCCESS.
Definition may_read (a h : Z) (x : IndexVal) : Prop :=
  NvReadAccessChecks a h (ix_attributes x) = TPM_RC_SUCCESS.

Inductive nv_step (max : Z) (I : Z → option IndexVal) :
    NvOp → list bytes → Z → (Z → option IndexVal) → Prop :=
  | step_define a auth p pad ph data I' :
      I (pub_nvIndex p) = None →
      define_space_checks a ph auth p (TPM_RC_H + TPM_RC_1) (TPM_RC_P + TPM_RC_1) (TPM_RC_P + TPM_RC_2)
        = TPM_RC_SUCCESS →
      sets I (pub_nvIndex p) (Some (mkIdx (p ++ trim_auth auth ++ pad) data)) I' →
      nv_step max I (OpDefineSpace a auth p pad) [] max I'
  | step_undefine a h x I' :
      I h = Some x → ix_has x TPMA_NV_POLICY_DELETE = false →
      (a = TPM_RH_OWNER → ix_has x TPMA_NV_PLATFORMCREATE = false) → sets I h None I' →
      nv_step max I (OpUndefineSpace a h) [] (deleted_max max (ix_attributes x) (ix_data x)) I'
  | step_undefine_special h x I' :
      I h = Some x → ix_has x TPMA_NV_POLICY_DELETE = true → sets I h None I' →
      nv_step max I (OpUndefineSpaceSpecial h) [] (deleted_max max (ix_attributes x) (ix_data x)) I'
  | step_read_public h x name I' :
      I h = Some x → NvGetIndexName (ix_pub x) = Some name → same_map I I' →
      nv_step max I (OpReadPublic h) [bread (ix_pub x) 0 sizeof_TPMS_NV_PUBLIC; name] max I'
  | step_write a h d o x x' I' :
      I h = Some x → may_write a h x →
      IsNvCounterIndex (ix_attributes x) || IsNvBitsIndex (ix_attributes x) || IsNvExtendIndex (ix_attributes x) = false →
      o + blen d ≤ pub_dataSize (ix_pub x) →
      (ix_has x TPMA_NV_WRITEALL = true → blen d = pub_dataSize (ix_pub x)) →
      ix_written x o d x' → sets I h (Some x') I' →
      nv_step max I (OpWrite a h d o) [] max I'
  | step_increment a h x x' I' :
      I h = Some x → may_write a h x → ix_counter x = true →
      ix_written x 0 (Uint64ToByteArray (next_count max x)) x' → sets I h (Some x') I' →
      nv_step max I (OpIncrement a h) [] max I'
  | step_extend a h d x x' I' :
      I h = Some x → may_write a h x → IsNvExtendIndex (ix_attributes x) = true →
      ix_written x 0 (Hash (pub_nameAlg (ix_pub x)) (old_digest x ++ d)) x' → sets I h (Some x') I' →
      nv_step max I (OpExtend a h d) [] max I'
  | step_set_bits a h b x x' I' :
      I h = Some x → may_write a h x → IsNvBitsIndex (ix_attributes x) = true →
      ix_written x 0 (Uint64ToByteArray (Z.lor (old_bits x) b)) x' → sets I h (Some x') I' →
      nv_step max I (OpSetBits a h b) [] max I'
  | step_write_lock a h x I' :
      I h = Some x → may_write a h x →
      ix_has x TPMA_NV_WRITEDEFINE || ix_has x TPMA_NV_WRITE_STCLEAR = true →
      sets I h (Some (ix_set TPMA_NV_WRITELOCKED x)) I' →
      nv_step max I (OpWriteLock a h) [] max I'
  | step_write_locked a h x I' :
      I h = Some x → ix_has x TPMA_NV_WRITELOCKED = true → same_map I I' →
      nv_step max I (OpWriteLock a h) [] max I'
  | step_global_lock I' :
      (∀ h, I' h = lock_ix <$> I h) → nv_step max I OpGlobalWriteLock [] max I'
  | step_read a h n o x I' :
      I h = Some x → may_read a h x → n ≤ MAX_NV_BUFFER_SIZE → o + n ≤ pub_dataSize (ix_pub x) → same_map I I' →
      nv_step max I (OpRead a h n o) [bread (ix_data x) o n] max I'
  | step_read_lock a h x I' :
      I h = Some x → NvReadAccessChecks a h (ix_attributes x) ≠ TPM_RC_NV_AUTHORIZATION →
      ix_has x TPMA_NV_READLOCKED = false → ix_has x TPMA_NV_READ_STCLEAR = true →
      sets I h (Some (ix_set TPMA_NV_READLOCKED x)) I' →
      nv_step max I (OpReadLock a h) [] max I'
  | step_read_locked a h x I' :
      I h = Some x → ix_has x TPMA_NV_READLOCKED = true → same_map I I' →
      nv_step max I (OpReadLock a h) [] max I'
  | step_change_auth h v x I' :
      I h = Some x → auth_size (trim_auth v) ≤ CryptHashGetDigestSize (pub_nameAlg (ix_pub x)) →
      sets I h (Some (ix_auth (trim_auth v) x)) I' →
      nv_step max I (OpChangeAuth h v) [] max I'
  | step_define2 a auth p stack pad I' :
      nv_step max I (OpDefineSpace a auth p pad) [] max I' →
      nv_step max I (OpDefineSpace2 a auth (NvIndexPublic p) stack pad) [] max I'
  | step_read_public2 h x name I' :
      I h = Some x → NvGetIndexName (ix_pub x) = Some name → same_map I I' →
      nv_step max I (OpReadPublic2 h)
        [TPMS_NV_PUBLIC_Marshal (bread (ix_pub x) 0 sizeof_TPMS_NV_PUBLIC); name] max I'.

(** ** The invariant *)

(** What DefineSpace guarantees of an index. *)
Record ix_ok (x : IndexVal) : Prop := {
  ok_counter : ix_nt x = TPM_NT_COUNTER → pub_dataSize (ix_pub x) = 8;
  ok_bits : ix_nt x = TPM_NT_BITS → pub_dataSize (ix_pub x) = 8;
  ok_extend : ix_nt x = TPM_NT_EXTEND →
    pub_dataSize (ix_pub x) = CryptHashGetDigestSize (pub_nameAlg (ix_pub x));
}.

Record NvSys s es rs (c : Z) : Prop := {
  sys_inv : NvInv s es rs c;
  sys_ok h x : index_of es rs h = Some x → ix_ok x;
  sys_max : 0 ≤ s_maxCounter s < 2 ^ 64;
  sys_len : 4 ≤ blen (s_cachedNvIndex s);
}.

(** The max counter after a deletion that failed: it may cover an index of the map. *)
Definition staged (max : Z) (I : Z → option IndexVal) (max' : Z) : Prop :=
  max' = max ∨ ∃ h x, I h = Some x ∧ max' = deleted_max max (ix_attributes x) (ix_data x).

(** What a command does: on success a step, on an error the indices are as before. *)
Definition outcome s es rs (op : NvOp) (r : Z) (out : list bytes) s' : Prop :=
  ∃ es' rs' c', NvSys s' es' rs' c' ∧
    ((r = TPM_RC_SUCCESS ∧ nv_step (s_maxCounter s) (index_of es rs) op out (s_maxCounter s') (index_of es' rs')) ∨
     (r ≠ TPM_RC_SUCCESS ∧ same_map (index_of es rs) (index_of es' rs') ∧
      staged (s_maxCounter s) (index_of es rs) (s_maxCounter s'))).
End step.
