(* ===== verification/NvCmdRefine.v ===== *)
(** * Every NV command returns and is a step

    The commands on the index in the cache, one by one, then [nv_exec]. *)

From S2P Require Import Prelude TpmTypes Memory Cbc NVMem NVReserved NvList NvRam NvIndex NvEntity NvDefine NvFlush NvCmd NvCmdProof NvCmdOps.
Local Open Scope Z_scope.

Section refine.
Context `{NvLayout} `{HashLib}.
Implicit Types (s : NvState) (es rs : list bytes).

(** ** What stays fixed about an index *)

Definition ix_kind (x : IndexVal) : Z * Z * Z := (ix_nt x, pub_nameAlg (ix_pub x), pub_dataSize (ix_pub x)).

Lemma ix_ok_kind x x' : ix_kind x' = ix_kind x → ix_ok x → ix_ok x'.
Proof. intros [= E1 E2 E3] [O1 O2 O3]. split; rewrite ?E1, ?E2, ?E3; assumption. Qed.

Lemma kind_attributes x a d :
  blen (ix_pub x) = 148 → 0 ≤ a < 4294967296 → fixed_attributes a = fixed_attributes (ix_attributes x) →
  ix_kind (mkIdx (set_pub_attributes a (ix_pub x)) d) = ix_kind x.
Proof.
  intros L Ha Hf. unfold ix_kind, ix_nt, ix_attributes in *. cbn [ix_pub].
  destruct (pub_set_attributes (ix_pub x) a ltac:(unfold sizeof_NV_INDEX; lia) Ha) as (_ & _ & P3 & P4 & _).
  rewrite P3, P4, (fixed_NT _ _ Hf). do 2 f_equal.
  unfold pub_nameAlg, set_pub_attributes, offsetof_attributes. by rewrite bread_bwrite_before by (rewrite ?blen_le_bytes; lia).
Qed.

Lemma kind_auth x d v : blen (ix_pub x) = 148 → blen v ≤ 66 → ix_kind (mkIdx (bwrite (ix_pub x) 80 v) d) = ix_kind x.
Proof.
  intros L Hv. unfold ix_kind, ix_nt, ix_attributes. cbn [ix_pub].
  destruct (set_auth_fields (ix_pub x) v ltac:(lia) Hv) as (_ & _ & F3 & F4 & _). rewrite F3, F4.
  unfold pub_nameAlg. by rewrite bread_bwrite_before by (pose proof (blen_nonneg v); lia).
Qed.

Lemma kind_written h x o d x' : ix_wf h x → ix_written x o d x' → ix_kind x' = ix_kind x.
Proof.
  intros W [Wp _]. destruct x' as [p d']. cbn [ix_pub] in Wp. subst p. apply kind_attributes; [apply W| |].
  - apply SET_written_range, W.
  - apply SET_written_fixed.
Qed.

Lemma kind_lock h x b : ix_wf h x → lock_bit b → ix_kind (ix_set b x) = ix_kind x.
Proof.
  intros W Hb. destruct (lock_bit_facts (ix_attributes x) b Hb (ixw_attr _ _ W)) as (R & F & _).
  apply kind_attributes; [apply W|done..].
Qed.

(** ** The invariant after an operation *)

Lemma sys_cache s s' es rs c : NvSys s es rs c → cache_only s s' → 4 ≤ blen (s_cachedNvIndex s') → NvSys s' es rs c.
Proof.
  intros [Hi Ho Hm _] Hc Hl. split; try done; [by eapply cache_only_inv|]. by rewrite Hc.
Qed.

Lemma inv_updateNV s es rs c v : NvInv s es rs c → NvInv (set_updateNV v s) es rs c.
Proof. intros [[] ????]. constructor; [constructor|..]; done. Qed.

Lemma inv_NvStatus s es rs c v : NvInv s es rs c → NvInv (set_NvStatus v s) es rs c.
Proof. intros [[] ????]. constructor; [constructor|..]; done. Qed.

Lemma sys_updated s es rs c h x x' s' es' rs' :
  NvSys s es rs c → updated s es rs c h x' s' es' rs' → index_of es rs h = Some x → ix_kind x' = ix_kind x →
  NvSys s' es' rs' c.
Proof.
  intros [Hi Ho Hm _] U Hx Hk. split; [apply U| |by rewrite (upd_max _ _ _ _ _ _ _ _ _ U)|apply U].
  intros h' y Hy. destruct (decide (h' = h)) as [->|Hne].
  - rewrite (upd_of _ _ _ _ _ _ _ _ _ U) in Hy. injection Hy as <-. eapply ix_ok_kind; [exact Hk|by eapply Ho].
  - rewrite (upd_other _ _ _ _ _ _ _ _ _ U) in Hy by done. by eapply Ho.
Qed.

Lemma updated_sets s es rs c h x' s' es' rs' :
  updated s es rs c h x' s' es' rs' → sets (index_of es rs) h (Some x') (index_of es' rs').
Proof. intros U. split; apply U. Qed.

(** ** Outcomes *)

Lemma outcome_error s es rs c op r out s' :
  NvSys s es rs c → r ≠ TPM_RC_SUCCESS → refused s s' → outcome s es rs op r out s'.
Proof.
  intros Hs Hr [Hc Hl]. exists es, rs, c. split; [by eapply sys_cache|]. right.
  split; [done|]. split; [done|]. left. by rewrite Hc.
Qed.

Lemma refused_refl s es rs c : NvSys s es rs c → refused s s.
Proof. intros Hs. split; [by destruct s|apply Hs]. Qed.

Lemma outcome_ret s es rs c op r out :
  NvSys s es rs c → r ≠ TPM_RC_SUCCESS → outcome s es rs op r out s.
Proof. intros Hs Hr. eapply outcome_error; [done..|by eapply refused_refl]. Qed.

Lemma outcome_same s es rs c op out :
  NvSys s es rs c →
  (∀ I', same_map (index_of es rs) I' → nv_step (s_maxCounter s) (index_of es rs) op out (s_maxCounter s) I') →
  outcome s es rs op TPM_RC_SUCCESS out s.
Proof. intros Hs Hst. exists es, rs, c. split; [done|]. left. split; [done|]. by apply Hst. Qed.

Lemma outcome_updated s es rs c h x x' s' es' rs' op :
  NvSys s es rs c → index_of es rs h = Some x → updated s es rs c h x' s' es' rs' → ix_kind x' = ix_kind x →
  (∀ I', sets (index_of es rs) h (Some x') I' →
    nv_step (s_maxCounter s) (index_of es rs) op [] (s_maxCounter s) I') →
  outcome s es rs op TPM_RC_SUCCESS [] s'.
Proof.
  intros Hs Hx U Hk Hst. exists es', rs', c. split; [by eapply sys_updated|]. left. split; [done|].
  rewrite (upd_max _ _ _ _ _ _ _ _ _ U). apply Hst. by eapply updated_sets.
Qed.

Lemma outcome_updateNV s es rs op r out s' v :
  outcome s es rs op r out s' → outcome s es rs op r out (set_updateNV v s').
Proof.
  intros (es' & rs' & c' & Hs & D). exists es', rs', c'. split; [|exact D].
  destruct Hs as [Hi Ho Hm Hl]. split; try done. by apply inv_updateNV.
Qed.

(** ** Writing commands *)

Lemma write_outcome s es rs c h x loc op offset data :
  NvSys s es rs c → located s es rs c h x loc →
  0 ≤ offset → offset + blen data ≤ pub_dataSize (ix_pub x) → Forall is_byte data →
  (∀ x' I', ix_written x offset data x' → sets (index_of es rs) h (Some x') I' →
    nv_step (s_maxCounter s) (index_of es rs) op [] (s_maxCounter s) I') →
  ∃ r s', NvWriteIndexData offset (blen data) data s = Some (r, s') ∧ outcome s es rs op r [] s'.
Proof.
  intros Hs L Ho Hle Hb Hst. destruct (write_data s es rs c h x loc offset data L Ho Hle Hb) as (r & s' & E & D).
  exists r, s'. split; [exact E|]. destruct D as [(-> & es' & rs' & x' & U & Wr)|(-> & Hr & _ & R)].
  - eapply outcome_updated; [done|by eapply located_of|done| |intros; by eapply Hst].
    eapply kind_written; [by eapply located_wf|done].
  - by eapply outcome_error.
Qed.

Lemma code_only_ok s es rs op (m : M NvState Z) :
  (∃ r s', m s = Some (r, s') ∧ outcome s es rs op r [] s') →
  ∃ r out s', code_only m s = Some ((r, out), s') ∧ outcome s es rs op r out s'.
Proof.
  intros (r & s' & E & D). exists r, [], s'. split; [|done]. unfold code_only. by rewrite (bind_Some _ _ _ _ _ E).
Qed.

(** A branch of a command that returns an error. *)
Ltac refuse := eexists _, _; split; [reflexivity|eapply outcome_ret; [eassumption|done]].

(** ** The access checks *)

Lemma write_checks a h v :
  NvWriteAccessChecks a h v = TPM_RC_SUCCESS ∨ NvWriteAccessChecks a h v = TPM_RC_NV_LOCKED ∨
  NvWriteAccessChecks a h v = TPM_RC_NV_AUTHORIZATION.
Proof. unfold NvWriteAccessChecks. repeat case_match; auto. Qed.

Lemma write_checks_locked a h v :
  NvWriteAccessChecks a h v = TPM_RC_NV_LOCKED ↔ IS_ATTRIBUTE v TPMA_NV_WRITELOCKED = true.
Proof.
  unfold NvWriteAccessChecks. destruct (IS_ATTRIBUTE v TPMA_NV_WRITELOCKED); [done|].
  split; [|done]. repeat case_match; done.
Qed.

Lemma read_checks_locked a h v :
  NvReadAccessChecks a h v = TPM_RC_NV_LOCKED ↔ IS_ATTRIBUTE v TPMA_NV_READLOCKED = true.
Proof.
  unfold NvReadAccessChecks. destruct (IS_ATTRIBUTE v TPMA_NV_READLOCKED); [done|].
  split; [|done]. repeat case_match; done.
Qed.

Lemma read_checks_written a h v :
  NvReadAccessChecks a h v = TPM_RC_SUCCESS → IS_ATTRIBUTE v TPMA_NV_WRITTEN = true.
Proof.
  unfold NvReadAccessChecks. destruct (IS_ATTRIBUTE v TPMA_NV_READLOCKED); [done|].
  case_match; [done|]. by destruct (IS_ATTRIBUTE v TPMA_NV_WRITTEN).
Qed.

(** ** Commands on the index in the cache *)

Section cached.
Context s es rs c h x loc (Hs : NvSys s es rs c) (L : located s es rs c h x loc).

Lemma write_ok a d o :
  Forall is_byte d → 0 ≤ o →
  ∃ r s', TPM2_NV_Write a h d o s = Some (r, s') ∧ outcome s es rs (OpWrite a h d o) r [] s'.
Proof using Hs L.
  intros Hb Ho. pose proof (located_of _ _ _ _ _ _ _ L) as Hx. unfold TPM2_NV_Write.
  rewrite (with_index_located _ _ _ _ _ _ _ _ L). fold (ix_attributes x).
  destruct (Z.eqb_spec (NvWriteAccessChecks a h (ix_attributes x)) TPM_RC_SUCCESS) as [Ha|Ha]; cbn [negb]; [|refuse].
  destruct (IsNvCounterIndex _ || _ || _) eqn:Hk; [refuse|].
  destruct (Z.ltb_spec (pub_dataSize (ix_pub x)) o); [refuse|].
  destruct (Z.ltb_spec (pub_dataSize (ix_pub x) - o) (blen d)); [refuse|].
  destruct (IS_ATTRIBUTE (ix_attributes x) TPMA_NV_WRITEALL && _) eqn:Hwa; [refuse|].
  eapply write_outcome; try done; [lia|]. intros x' I' Wr St. eapply step_write; try done; [lia|].
  intros Hall. unfold ix_has in Hall. rewrite Hall in Hwa. cbn [andb] in Hwa. zbool. lia.
Qed.

Lemma get_count :
  pub_dataSize (ix_pub x) = 8 → ix_has x TPMA_NV_WRITTEN = true →
  NvGetUINT64Data (ix_pub x) loc s = Some (ix_count x, s).
Proof using L.
  intros H8 Hw. unfold NvGetUINT64Data. pose proof (ixw_data _ _ (located_wf _ _ _ _ _ _ _ L)).
  rewrite (bind_Some _ _ _ _ _ (get_data _ _ _ _ _ _ _ 0 8 L Hw ltac:(done) ltac:(done) ltac:(lia))).
  by rewrite bread_all by lia.
Qed.

Lemma increment_ok a :
  ∃ r s', TPM2_NV_Increment a h s = Some (r, s') ∧ outcome s es rs (OpIncrement a h) r [] s'.
Proof using Hs L.
  pose proof (located_of _ _ _ _ _ _ _ L) as Hx. unfold TPM2_NV_Increment.
  rewrite (with_index_located _ _ _ _ _ _ _ _ L). fold (ix_attributes x).
  destruct (Z.eqb_spec (NvWriteAccessChecks a h (ix_attributes x)) TPM_RC_SUCCESS) as [Ha|Ha]; cbn [negb]; [|refuse].
  destruct (IsNvCounterIndex (ix_attributes x)) eqn:Hk; cbn [negb]; [|refuse].
  pose proof (ok_counter _ (sys_ok _ _ _ _ Hs _ _ Hx) (proj1 (Z.eqb_eq _ _) Hk)) as H8.
  assert (E : (if negb (IS_ATTRIBUTE (ix_attributes x) TPMA_NV_WRITTEN) then NvReadMaxCount
               else NvGetUINT64Data (ix_pub x) loc) s =
    Some (if ix_has x TPMA_NV_WRITTEN then ix_count x else s_maxCounter s, s)).
  { fold (ix_has x TPMA_NV_WRITTEN). destruct (ix_has x TPMA_NV_WRITTEN) eqn:Hw; [by apply get_count|done]. }
  rewrite (bind_Some _ _ _ _ _ E). cbv zeta. fold (next_count (s_maxCounter s) x). unfold NvWriteUINT64Data.
  destruct (write_outcome s es rs c h x loc (OpIncrement a h) 0 (Uint64ToByteArray (next_count (s_maxCounter s) x)))
    as (r & s' & E' & D); try done; [rewrite blen_Uint64; lia|apply Uint64_byte| |].
  { intros x' I' Wr St. by eapply step_increment. }
  change (blen (Uint64ToByteArray _)) with 8 in E'. rewrite (bind_Some _ _ _ _ _ E').
  destruct (r =? TPM_RC_SUCCESS); [destruct (_ && _)|]; (eexists _, _; split; [reflexivity|]); try done.
  by apply outcome_updateNV.
Qed.

Lemma set_bits_ok a b :
  ∃ r s', TPM2_NV_SetBits a h b s = Some (r, s') ∧ outcome s es rs (OpSetBits a h b) r [] s'.
Proof using Hs L.
  pose proof (located_of _ _ _ _ _ _ _ L) as Hx. unfold TPM2_NV_SetBits.
  rewrite (with_index_located _ _ _ _ _ _ _ _ L). fold (ix_attributes x).
  destruct (Z.eqb_spec (NvWriteAccessChecks a h (ix_attributes x)) TPM_RC_SUCCESS) as [Ha|Ha]; cbn [negb]; [|refuse].
  destruct (IsNvBitsIndex (ix_attributes x)) eqn:Hk; cbn [negb]; [|refuse].
  pose proof (ok_bits _ (sys_ok _ _ _ _ Hs _ _ Hx) (proj1 (Z.eqb_eq _ _) Hk)) as H8.
  assert (E : (if negb (IS_ATTRIBUTE (ix_attributes x) TPMA_NV_WRITTEN) then ret 0
               else NvGetUINT64Data (ix_pub x) loc) s = Some (old_bits x, s)).
  { unfold old_bits. fold (ix_has x TPMA_NV_WRITTEN). destruct (ix_has x TPMA_NV_WRITTEN) eqn:Hw; [by apply get_count|done]. }
  rewrite (bind_Some _ _ _ _ _ E). unfold NvWriteUINT64Data.
  change 8 with (blen (Uint64ToByteArray (Z.lor (old_bits x) b))).
  eapply write_outcome; try done; [rewrite blen_Uint64; lia|apply Uint64_byte|].
  intros x' I' Wr St. by eapply step_set_bits.
Qed.

Lemma extend_ok a d :
  ∃ r s', TPM2_NV_Extend a h d s = Some (r, s') ∧ outcome s es rs (OpExtend a h d) r [] s'.
Proof using Hs L.
  pose proof (located_of _ _ _ _ _ _ _ L) as Hx. unfold TPM2_NV_Extend.
  rewrite (with_index_located _ _ _ _ _ _ _ _ L). fold (ix_attributes x).
  destruct (Z.eqb_spec (NvWriteAccessChecks a h (ix_attributes x)) TPM_RC_SUCCESS) as [Ha|Ha]; cbn [negb]; [|refuse].
  destruct (IsNvExtendIndex (ix_attributes x)) eqn:Hk; cbn [negb]; [|refuse].
  pose proof (ok_extend _ (sys_ok _ _ _ _ Hs _ _ Hx) (proj1 (Z.eqb_eq _ _) Hk)) as H8. cbv zeta.
  pose proof (digest_size_range (pub_nameAlg (ix_pub x))) as Rd.
  erewrite bind_Some by (apply pAssert_true; zbool; lia).
  assert (E : (if IS_ATTRIBUTE (ix_attributes x) TPMA_NV_WRITTEN
               then NvGetIndexData (ix_pub x) loc 0 (CryptHashGetDigestSize (pub_nameAlg (ix_pub x)))
               else ret (bfill 0 (CryptHashGetDigestSize (pub_nameAlg (ix_pub x))))) s = Some (old_digest x, s)).
  { unfold old_digest. fold (ix_has x TPMA_NV_WRITTEN). destruct (ix_has x TPMA_NV_WRITTEN) eqn:Hw; [|done].
    pose proof (ixw_data _ _ (located_wf _ _ _ _ _ _ _ L)).
    rewrite (get_data s es rs c h x loc) by (try done; lia). by rewrite bread_all by lia. }
  rewrite (bind_Some _ _ _ _ _ E).
  eapply write_outcome; try done; [rewrite Hash_size; lia|apply Hash_byte|].
  intros x' I' Wr St. by eapply step_extend.
Qed.

(** ** Locks and the authorization value *)

Lemma lock_outcome op b :
  lock_bit b →
  (∀ I', sets (index_of es rs) h (Some (ix_set b x)) I' →
    nv_step (s_maxCounter s) (index_of es rs) op [] (s_maxCounter s) I') →
  ∃ r s', NvWriteIndexAttributes (pub_nvIndex (ix_pub x)) loc (SET_ATTRIBUTE (ix_attributes x) b) s = Some (r, s') ∧
    outcome s es rs op r [] s'.
Proof using Hs L.
  intros Hb Hst. pose proof (located_wf _ _ _ _ _ _ _ L) as W. rewrite (ixw_handle _ _ W).
  destruct (write_attributes s es rs c h x loc b L Hb) as (r & s' & E & D). exists r, s'. split; [exact E|].
  destruct D as [(-> & es' & rs' & U)|(-> & Hr & ->)]; [|by eapply outcome_ret].
  eapply outcome_updated; [done|by eapply located_of|done|by eapply kind_lock|done].
Qed.

Lemma write_lock_ok a :
  ∃ r s', TPM2_NV_WriteLock a h s = Some (r, s') ∧ outcome s es rs (OpWriteLock a h) r [] s'.
Proof using Hs L.
  pose proof (located_of _ _ _ _ _ _ _ L) as Hx. unfold TPM2_NV_WriteLock.
  rewrite (with_index_located _ _ _ _ _ _ _ _ L). fold (ix_attributes x). cbv zeta.
  destruct (write_checks a h (ix_attributes x)) as [E|[E|E]]; rewrite E.
  - change (negb (TPM_RC_SUCCESS =? TPM_RC_SUCCESS)) with false. cbv iota.
    destruct (negb (IS_ATTRIBUTE (ix_attributes x) TPMA_NV_WRITEDEFINE) && _) eqn:Hd; [refuse|].
    apply lock_outcome; [by left|]. intros I' St. eapply step_write_lock; try done.
    unfold ix_has. destruct (IS_ATTRIBUTE _ TPMA_NV_WRITEDEFINE); [done|]. by apply negb_false_iff in Hd.
  - eexists _, _. split; [reflexivity|]. eapply outcome_same; [done|]. intros I' Sm.
    eapply step_write_locked; try done. by eapply write_checks_locked.
  - refuse.
Qed.

Lemma read_lock_ok a :
  ∃ r s', TPM2_NV_ReadLock a h s = Some (r, s') ∧ outcome s es rs (OpReadLock a h) r [] s'.
Proof using Hs L.
  pose proof (located_of _ _ _ _ _ _ _ L) as Hx. unfold TPM2_NV_ReadLock.
  rewrite (with_index_located _ _ _ _ _ _ _ _ L). fold (ix_attributes x). cbv zeta.
  pose proof (read_checks_locked a h (ix_attributes x)) as Hl.
  destruct (Z.eqb_spec (NvReadAccessChecks a h (ix_attributes x)) TPM_RC_NV_AUTHORIZATION) as [E|E]; [refuse|].
  destruct (Z.eqb_spec (NvReadAccessChecks a h (ix_attributes x)) TPM_RC_NV_LOCKED) as [E'|E'].
  - eexists _, _. split; [reflexivity|]. eapply outcome_same; [done|]. intros I' Sm.
    eapply step_read_locked; try done. by apply Hl.
  - destruct (IS_ATTRIBUTE (ix_attributes x) TPMA_NV_READ_STCLEAR) eqn:Hc; cbn [negb]; [|refuse].
    apply lock_outcome; [by right|]. intros I' St. eapply step_read_lock; try done.
    unfold ix_has. destruct (IS_ATTRIBUTE _ TPMA_NV_READLOCKED); [|done]. by destruct (E' (proj2 Hl eq_refl)).
Qed.

Lemma trim_auth_wf auth : wf_auth auth → wf_auth (trim_auth auth).
Proof using.
  intros [La Ba Sa]. unfold sizeof_TPM2B_AUTH in La. unfold trim_auth. set (n := trim_zeros _ _).
  assert (Hn : 0 ≤ Z.of_nat n ≤ 64).
  { pose proof (trim_zeros_le (Z.to_nat (auth_size auth)) (bread auth 2 64)) as T. fold n in T.
    pose proof (auth_size_nonneg auth Ba). lia. }
  split.
  - rewrite blen_bwrite; rewrite ?blen_le_bytes; unfold sizeof_TPM2B_AUTH; lia.
  - by apply bwrite_byte; [|apply le_bytes_byte].
  - unfold auth_size. replace 2 with (blen (le_bytes 2 (Z.of_nat n))) at 2 by (by rewrite blen_le_bytes).
    rewrite bread_bwrite_same by (rewrite ?blen_le_bytes; lia). rewrite le_val_bytes; [lia|].
    change (256 ^ Z.of_nat 2) with 65536. lia.
Qed.

Lemma change_auth_ok v :
  wf_auth v → ∃ r s', TPM2_NV_ChangeAuth h v s = Some (r, s') ∧ outcome s es rs (OpChangeAuth h v) r [] s'.
Proof using Hs L.
  intros Hv. pose proof (located_of _ _ _ _ _ _ _ L) as Hx. pose proof (located_wf _ _ _ _ _ _ _ L) as W.
  unfold TPM2_NV_ChangeAuth. rewrite (with_index_located _ _ _ _ _ _ _ _ L).
  destruct (Z.ltb_spec (CryptHashGetDigestSize (pub_nameAlg (ix_pub x))) (auth_size (trim_auth v))); [refuse|].
  pose proof (trim_auth_wf v Hv) as [Lv Bv Sv].
  destruct (write_auth s es rs c h x loc (trim_auth v) L ltac:(by split)) as (r & s' & E & D).
  exists r, s'. split; [exact E|]. destruct D as [(-> & es' & U)|(-> & Hr & R)]; [|by eapply outcome_error].
  eapply outcome_updated; [done..| |intros I' St; by eapply step_change_auth].
  apply kind_auth; [apply W|]. pose proof (auth_size_nonneg _ Bv). unfold sizeof_TPM2B_AUTH in Lv.
  rewrite blen_bread; lia.
Qed.

(** ** Reading *)

Lemma read_ok a n o :
  0 ≤ n → 0 ≤ o →
  ∃ r d s', TPM2_NV_Read a h n o s = Some ((r, d), s') ∧ outcome s es rs (OpRead a h n o) r [d] s'.
Proof using Hs L.
  intros Hn Ho. pose proof (located_of _ _ _ _ _ _ _ L) as Hx. unfold TPM2_NV_Read.
  rewrite (with_index_located _ _ _ _ _ _ _ _ L). fold (ix_attributes x). cbv zeta.
  destruct (Z.eqb_spec (NvReadAccessChecks a h (ix_attributes x)) TPM_RC_SUCCESS) as [Ha|Ha]; cbn [negb];
    [|eexists _, _, _; split; [reflexivity|by eapply outcome_ret]].
  destruct (Z.ltb_spec MAX_NV_BUFFER_SIZE n); [eexists _, _, _; split; [reflexivity|by eapply outcome_ret]|].
  destruct (Z.ltb_spec (pub_dataSize (ix_pub x)) o); [eexists _, _, _; split; [reflexivity|by eapply outcome_ret]|].
  destruct (Z.ltb_spec (pub_dataSize (ix_pub x) - o) n); [eexists _, _, _; split; [reflexivity|by eapply outcome_ret]|].
  rewrite (bind_Some _ _ _ _ _ (get_data _ _ _ _ _ _ _ o n L (read_checks_written _ _ _ Ha) Ho Hn ltac:(lia))).
  eexists _, _, _. split; [reflexivity|]. eapply outcome_same; [done|].
  intros I' Sm. eapply step_read; try done. lia.
Qed.

Lemma read_public_ok :
  nv_handle h →
  ∃ r p nm s', TPM2_NV_ReadPublic h s = Some ((r, p, nm), s') ∧ outcome s es rs (OpReadPublic h) r [p; nm] s'.
Proof using Hs L.
  intros Hh. pose proof (located_of _ _ _ _ _ _ _ L) as Hx. pose proof (located_wf _ _ _ _ _ _ _ L) as W.
  unfold TPM2_NV_ReadPublic. rewrite (with_index_located _ _ _ _ _ _ _ _ L).
  assert (∃ name, NvGetIndexName (ix_pub x) = Some name) as [name E].
  { unfold NvGetIndexName, NvPublic2FromNvPublic. rewrite (ixw_handle _ _ W). unfold nv_handle in Hh. rewrite Hh.
    change (TPM_HT_NV_INDEX =? TPM_HT_NV_INDEX) with true. by eexists. }
  rewrite E. erewrite bind_Some by reflexivity. eexists _, _, _, _. split; [reflexivity|].
  eapply outcome_same; [done|]. intros I' Sm. by eapply step_read_public.
Qed.

Lemma read_public2_ok :
  nv_handle h →
  ∃ r out s', op_action (OpReadPublic2 h) s = Some ((r, out), s') ∧ outcome s es rs (OpReadPublic2 h) r out s'.
Proof using Hs L.
  intros Hh. pose proof (located_of _ _ _ _ _ _ _ L) as Hx. pose proof (located_wf _ _ _ _ _ _ _ L) as W.
  unfold nv_handle in Hh.
  assert (pub_nvIndex (bread (ix_pub x) 0 sizeof_TPMS_NV_PUBLIC) = h) as Hb.
  { rewrite <- (ixw_handle _ _ W). unfold pub_nvIndex. by rewrite (bread_bread _ 0) by (unfold sizeof_TPMS_NV_PUBLIC; lia). }
  assert (∃ name, NvGetIndexName (ix_pub x) = Some name) as [name E].
  { unfold NvGetIndexName, NvPublic2FromNvPublic. rewrite (ixw_handle _ _ W), Hh.
    change (TPM_HT_NV_INDEX =? TPM_HT_NV_INDEX) with true. by eexists. }
  cbn [op_action]. unfold TPM2_NV_ReadPublic2.
  erewrite bind_Some; [|rewrite (with_index_located _ _ _ _ _ _ _ _ L); unfold NvPublic2FromNvPublic; rewrite Hb, Hh, E; reflexivity].
  eexists _, _, _. split; [reflexivity|]. eapply outcome_same; [done|]. intros I' Sm. by eapply step_read_public2.
Qed.

(** ** Deleting *)

Lemma deleted_max_range m a d : 0 ≤ m < 2 ^ 64 → m ≤ deleted_max m a d < 2 ^ 64.
Proof. intros Hm. unfold deleted_max. pose proof (ByteArrayToUint64_range d). case_match; lia. Qed.

Lemma delete_outcome op :
  (∀ I', sets (index_of es rs) h None I' → nv_step (s_maxCounter s) (index_of es rs) op []
    (deleted_max (s_maxCounter s) (ix_attributes x) (ix_data x)) I') →
  ∃ r s', NvDeleteIndex (Some (ix_pub x)) loc s = Some (r, s') ∧ outcome s es rs op r [] s'.
Proof using Hs L.
  intros Hst. pose proof (located_of _ _ _ _ _ _ _ L) as Hx.
  destruct (delete_index s es rs c h x loc L) as (r & s' & E & D).
  { intros Hk. apply (ok_counter _ (sys_ok _ _ _ _ Hs _ _ Hx) (proj1 (Z.eqb_eq _ _) Hk)). }
  exists r, s'. split; [exact E|].
  pose proof (deleted_max_range _ (ix_attributes x) (ix_data x) (sys_max _ _ _ _ Hs)) as Rm.
  pose proof (sys_max _ _ _ _ Hs). destruct D as [(-> & es' & rs' & R)|(-> & Hr & ->)].
  - exists es', rs', (s_maxCounter s'). destruct R as [R1 R2 R3 R4 R5]. split.
    + split; [done| |rewrite R4; lia|done]. intros h' y Hy.
      destruct (decide (h' = h)) as [->|Hne]; [congruence|]. rewrite R3 in Hy by done. by eapply (sys_ok _ _ _ _ Hs).
    + left. split; [done|]. rewrite R4. apply Hst. by split.
  - exists es, rs, c. destruct Hs as [Si So Sm Sl]. split.
    + split; [by apply inv_max|done|cbn; lia|done].
    + right. split; [done|]. split; [done|]. right. by exists h, x.
Qed.

Lemma undefine_ok a :
  ∃ r s', TPM2_NV_UndefineSpace a h s = Some (r, s') ∧ outcome s es rs (OpUndefineSpace a h) r [] s'.
Proof using Hs L.
  pose proof (located_of _ _ _ _ _ _ _ L) as Hx. unfold TPM2_NV_UndefineSpace.
  rewrite (with_index_located _ _ _ _ _ _ _ _ L). fold (ix_attributes x).
  destruct (IS_ATTRIBUTE (ix_attributes x) TPMA_NV_POLICY_DELETE) eqn:Hp; [refuse|].
  destruct ((a =? TPM_RH_OWNER) && _) eqn:Ho; [refuse|].
  apply delete_outcome. intros I' St. eapply step_undefine; try done.
  intros ->. by rewrite Z.eqb_refl in Ho.
Qed.

Lemma undefine_special_ok :
  ∃ r o s', TPM2_NV_UndefineSpaceSpecial h s = Some ((r, o), s') ∧
    outcome s es rs (OpUndefineSpaceSpecial h) r [] s'.
Proof using Hs L.
  pose proof (located_of _ _ _ _ _ _ _ L) as Hx. unfold TPM2_NV_UndefineSpaceSpecial.
  rewrite (with_index_located _ _ _ _ _ _ _ _ L). fold (ix_attributes x).
  destruct (IS_ATTRIBUTE (ix_attributes x) TPMA_NV_POLICY_DELETE) eqn:Hp; cbn [negb];
    [|eexists _, _, _; split; [reflexivity|by eapply outcome_ret]].
  destruct (delete_outcome (OpUndefineSpaceSpecial h)) as (r & s' & E & D).
  { intros I' St. by eapply step_undefine_special. }
  rewrite (bind_Some _ _ _ _ _ E). by eexists _, _, _.
Qed.
End cached.
End refine.
