(* ===== verification/NvCmdCount.v ===== *)
(** * Running NV commands: counters that never go back, locks that hold

    [nv_exec] and sequences of commands refine the steps on the map of indices;
    what any sequence preserves: the lowest value that an increment of a handle
    can still give, and write locks. *)

From S2P Require Import Prelude TpmTypes Memory Cbc NVMem NVReserved NvList NvRam NvIndex NvEntity NvDefine.
From S2P Require Import NvFlush NvCmd NvCmdProof NvCmdOps NvCmdRefine.
Local Open Scope Z_scope.

Section exec.
Context `{NvLayout} `{HashLib}.
Implicit Types (s : NvState) (es rs : list bytes).

(** ** What the checks of DefineSpace guarantee *)

Lemma if_error (b : bool) (e k : Z) :
  (if b then e else k) = TPM_RC_SUCCESS → e ≠ TPM_RC_SUCCESS → b = false ∧ k = TPM_RC_SUCCESS.
Proof. by destruct b. Qed.

Definition define_checks (a : Z) (ph : bool) (auth p : bytes) : Z :=
  define_space_checks a ph auth p (TPM_RC_H + TPM_RC_1) (TPM_RC_P + TPM_RC_1) (TPM_RC_P + TPM_RC_2).

Record checked (a : Z) (p : bytes) : Prop := {
  chk_size : pub_dataSize p ≤ MAX_NV_INDEX_SIZE;
  chk_eight : GET_TPM_NT (pub_attributes p) = TPM_NT_COUNTER ∨ GET_TPM_NT (pub_attributes p) = TPM_NT_BITS →
    pub_dataSize p = 8;
  chk_extend : GET_TPM_NT (pub_attributes p) = TPM_NT_EXTEND →
    pub_dataSize p = CryptHashGetDigestSize (pub_nameAlg p);
  chk_fresh : IS_ATTRIBUTE (pub_attributes p) TPMA_NV_WRITTEN = false ∧
    IS_ATTRIBUTE (pub_attributes p) TPMA_NV_WRITELOCKED = false ∧
    IS_ATTRIBUTE (pub_attributes p) TPMA_NV_READLOCKED = false;
  chk_owner : IS_ATTRIBUTE (pub_attributes p) TPMA_NV_PLATFORMCREATE = true → a ≠ TPM_RH_OWNER;
  chk_policy : IS_ATTRIBUTE (pub_attributes p) TPMA_NV_POLICY_DELETE = true → a = TPM_RH_PLATFORM;
}.

Lemma data_size_checks nt nameSize n :
  (if nt =? TPM_NT_ORDINARY then MAX_NV_INDEX_SIZE <? n
   else if nt =? TPM_NT_EXTEND then negb (n =? nameSize) else negb (n =? 8)) = false →
  0 ≤ nameSize ≤ 64 →
  n ≤ MAX_NV_INDEX_SIZE ∧ (nt = TPM_NT_COUNTER ∨ nt = TPM_NT_BITS → n = 8) ∧ (nt = TPM_NT_EXTEND → n = nameSize).
Proof.
  unfold MAX_NV_INDEX_SIZE. intros E Hn.
  destruct (Z.eqb_spec nt TPM_NT_ORDINARY) as [->|_]; zbool; [split; [lia|]; split; [by intros []|done]|].
  destruct (Z.eqb_spec nt TPM_NT_EXTEND) as [->|Hx]; apply negb_false_iff in E; zbool.
  - split; [lia|]. split; [by intros []|done].
  - split; [lia|]. split; [done|]. intros; congruence.
Qed.

Lemma define_checks_ok a ph auth p : define_checks a ph auth p = TPM_RC_SUCCESS → checked a p.
Proof.
  unfold define_checks, define_space_checks. cbv zeta. intros E.
  repeat match type of E with
  | (if _ then _ else _) = _ => let B := fresh "B" in apply if_error in E as [B E]; [|done]
  end.
  apply data_size_checks in B3 as (C1 & C2 & C3); [|apply digest_size_range].
  apply orb_false_iff in B5 as [[D1 D2]%orb_false_iff D3]. apply orb_false_iff in B9 as [F1 F2].
  split; try done.
  - intros Hp Ha. rewrite Hp, Ha, Z.eqb_refl in F1. done.
  - intros Hp. rewrite Hp in B10. cbn [andb] in B10. apply negb_false_iff in B10. by zbool.
Qed.

Lemma checked_ok a p auth pad data :
  blen p = 80 → checked a p → ix_ok (mkIdx (p ++ auth ++ pad) data).
Proof.
  intros Lp C. assert (F : ∀ o n, 0 ≤ o → 0 ≤ n → o + n ≤ 80 → bread (p ++ auth ++ pad) o n = bread p o n)
    by (intros; apply bread_app_l; lia).
  destruct C as [C1 C2 C3 C4 C5 C6]. unfold pub_dataSize, pub_attributes, pub_nameAlg, offsetof_attributes, offsetof_dataSize in *.
  split; unfold ix_nt, ix_attributes, pub_dataSize, pub_attributes, pub_nameAlg, offsetof_attributes, offsetof_dataSize;
    cbn [ix_pub]; rewrite !F by lia; intros E; [apply C2; by left|apply C2; by right|by apply C3].
Qed.

(** ** Defining and locking *)

Lemma is_defined s es rs c h :
  NvInv s es rs c → nv_handle h →
  NvIndexIsDefined h s = Some (match index_of es rs h with Some _ => true | None => false end, s).
Proof.
  intros Hi Hh. unfold NvIndexIsDefined. destruct (index_of es rs h) as [x|] eqn:Hx.
  - destruct (index_of_case _ _ _ _ _ _ Hi Hx) as (loc & ram & Hc).
    assert (∃ es1 e es2, es = es1 ++ e :: es2 ∧ entry_handle e = h) as (es1 & e & es2 & -> & <-).
    { destruct Hc as [es1 e es2 -> _ _ Eh|es1 e es2 rs1 r rs2 -> -> _ Eh _ _ _ _]; by exists es1, e, es2. }
    rewrite (bind_Some _ _ _ _ _ (NvFindHandle_inv _ _ _ _ _ _ Hi)).
    destruct (inv_entry _ _ _ _ _ _ Hi) as (_ & _ & _ & Hlo & _). by rewrite (proj2 (Z.eqb_neq (nv_end es1 + 4) 0)) by lia.
  - pose proof (index_of_absent _ _ _ Hh Hx) as Hn.
    by rewrite (bind_Some _ _ _ _ _ (NvFindHandle_none _ _ _ h (inv_rep _ _ _ _ Hi) Hn)).
Qed.

Lemma define_ok s es rs c a auth p pad :
  NvSys s es rs c → op_ok (OpDefineSpace a auth p pad) →
  ∃ r s', TPM2_NV_DefineSpace pad a auth p s = Some (r, s') ∧
    outcome s es rs (OpDefineSpace a auth p pad) r [] s'.
Proof.
  intros Hs (Ha & Lp & Bp & Hh & Lq & Bq). unfold TPM2_NV_DefineSpace, NvDefineSpace. unfold bind at 1, gets.
  cbv zeta. fold (define_checks a (gc_phEnableNV s) auth p).
  destruct (Z.eqb_spec (define_checks a (gc_phEnableNV s) auth p) TPM_RC_SUCCESS) as [E|E]; cbn [negb];
    [|eexists _, _; split; [reflexivity|by eapply outcome_ret]].
  pose proof (define_checks_ok _ _ _ _ E) as C.
  rewrite (bind_Some _ _ _ _ _ (is_defined _ _ _ _ _ (sys_inv _ _ _ _ Hs) Hh)).
  destruct (index_of es rs (pub_nvIndex p)) as [x|] eqn:Hx; [eexists _, _; split; [reflexivity|by eapply outcome_ret]|].
  destruct (trim_auth_wf auth Ha) as [Lt Bt _].
  destruct (define_index s es rs c p (trim_auth auth) pad) as (r & s' & E' & D); try done; [apply Hs| |].
  { split; try done. apply C. }
  exists r, s'. split; [exact E'|]. destruct D as [(-> & _ & _ & es' & rs' & [D1 [data D2] D3 D4 D5])|(Hr & -> & _)];
    [|by eapply outcome_ret].
  exists es', rs', (s_maxCounter s). pose proof Hs as [Si So Sm Sl]. split.
  - split; [done| |by rewrite D4|by rewrite D5]. intros h y Hy.
    destruct (decide (h = pub_nvIndex p)) as [->|Hne]; [|rewrite D3 in Hy by done; by eapply So].
    replace y with (mkIdx (p ++ trim_auth auth ++ pad) data) by congruence. by eapply checked_ok.
  - left. split; [done|]. rewrite D4. eapply step_define; [done|exact E|]. split; [exact D2|exact D3].
Qed.

Lemma lock_ix_ok h x : ix_wf h x → ix_ok x → ix_ok (lock_ix x).
Proof.
  intros W Ho. unfold lock_ix. destruct (ix_has x TPMA_NV_GLOBALLOCK); [|done].
  eapply ix_ok_kind; [|exact Ho]. apply (kind_lock h x TPMA_NV_WRITELOCKED W). by left.
Qed.

Lemma global_lock_ok s es rs c :
  NvSys s es rs c →
  ∃ r s', TPM2_NV_GlobalWriteLock s = Some (r, s') ∧ outcome s es rs OpGlobalWriteLock r [] s'.
Proof.
  intros Hs. destruct (global_lock s es rs c) as (r & s' & E & D); [apply Hs..|]. exists r, s'. split; [exact E|].
  destruct D as [(-> & Hi & Hm & Hc)|(-> & Hr & ->)]; [|by eapply outcome_ret].
  exists (map lock_all es), (map lock_ram rs), c. pose proof Hs as [Si So Sm Sl]. split.
  - split; [done| |by rewrite Hm|by rewrite Hc]. intros h y Hy. rewrite (index_of_lock _ _ _ _ _ Si) in Hy.
    destruct (index_of es rs h) as [x|] eqn:Hx; [|done]. injection Hy as <-.
    destruct (index_of_case _ _ _ _ _ _ Si Hx) as (loc & ram & Hcs). eapply lock_ix_ok; [by eapply ix_case_wf|by eapply So].
  - left. split; [done|]. rewrite Hm. apply step_global_lock. intros h. by apply (index_of_lock s es rs c).
Qed.

(** The form with a handle type is the one without, or is refused. *)
Lemma define2_ok s es rs c a auth p stack pad :
  NvSys s es rs c → op_ok (OpDefineSpace2 a auth p stack pad) →
  ∃ r s', TPM2_NV_DefineSpace2 stack pad a auth p s = Some (r, s') ∧
    outcome s es rs (OpDefineSpace2 a auth p stack pad) r [] s'.
Proof.
  intros Hs Ok. destruct p as [p|p|i n at_ pol d|t]; cbn [op_ok] in Ok.
  - destruct (define_ok s es rs c a auth p pad Hs Ok) as (r & s' & E & es' & rs' & c' & Hs' & D).
    exists r, s'. split; [exact E|]. exists es', rs', c'. split; [done|].
    destruct D as [[-> St]|D]; [left; split; [done|]|by right].
    assert (s_maxCounter s' = s_maxCounter s) as Em by (by inversion St). rewrite Em in *. by apply step_define2.
  - eexists _, _. split; [reflexivity|by eapply outcome_ret].
  - unfold TPM2_NV_DefineSpace2. rewrite (proj2 (Z.eqb_neq _ 0) Ok). eexists _, _. split; [reflexivity|by eapply outcome_ret].
  - eexists _, _. split; [reflexivity|by eapply outcome_ret].
Qed.

(** ** Looking up the index *)

Definition cache_empty s : Prop := pub_nvIndex (s_cachedNvIndex s) = TPM_RH_UNASSIGNED.

Lemma set_unassigned b : 4 ≤ blen b → pub_nvIndex (set_pub_nvIndex TPM_RH_UNASSIGNED b) = TPM_RH_UNASSIGNED ∧
  blen (set_pub_nvIndex TPM_RH_UNASSIGNED b) = blen b.
Proof.
  intros Hb. unfold pub_nvIndex, set_pub_nvIndex. split; [|rewrite blen_bwrite; rewrite ?blen_le_bytes; lia].
  replace 4 with (blen (le_bytes 4 TPM_RH_UNASSIGNED)) by (by rewrite blen_le_bytes).
  by rewrite bread_bwrite_same by (rewrite ?blen_le_bytes; lia).
Qed.

(** The cache is empty, or it holds an index of the map. *)
Lemma accessible s es rs c h :
  NvSys s es rs c → nv_handle h → cache_empty s →
  ∃ r s', NvIndexIsAccessible h s = Some (r, s') ∧ NvSys s' es rs c ∧ cache_only s s' ∧
    ((r = TPM_RC_SUCCESS ∧ ∃ x loc, located s' es rs c h x loc) ∨ r = TPM_RC_HANDLE).
Proof.
  intros Hs Hh He. pose proof Hs as [Si So Sm Sl]. unfold NvIndexIsAccessible.
  assert (Hn : pub_nvIndex (s_cachedNvIndex s) ≠ h) by (rewrite He; intros <-; done).
  destruct (index_of es rs h) as [x|] eqn:Hx.
  - destruct (get_info s es rs c h x Si Hx Hn) as (loc & s' & E & L & Hc). rewrite (bind_Some _ _ _ _ _ E).
    pose proof (located_wf _ _ _ _ _ _ _ L) as W.
    assert (Hs' : NvSys s' es rs c).
    { eapply sys_cache; [done..|]. rewrite (loc_cache _ _ _ _ _ _ _ L), (ixw_len _ _ W). lia. }
    unfold bind, gets, ret. repeat case_match; eexists _, _; (split; [reflexivity|split; [done|split; [done|]]]);
      first [by right|left; split; [done|by exists x, loc]].
  - destruct (get_info_none s es rs c h Si Hh Hx Hn) as (s' & E & Hc & Hb). rewrite (bind_Some _ _ _ _ _ E).
    exists TPM_RC_HANDLE, s'. split; [done|]. split; [|by auto]. eapply sys_cache; [done..|].
    rewrite Hb. destruct (set_unassigned _ Sl) as [_ ->]. lia.
Qed.

(** ** One command *)

Lemma action_ok s es rs c op :
  NvSys s es rs c → op_ok op → (∀ h, op_index op = Some h → ∃ x loc, located s es rs c h x loc) →
  ∃ r out s', op_action op s = Some ((r, out), s') ∧ outcome s es rs op r out s'.
Proof.
  intros Hs Hok Hl.
  destruct op as [a auth p pad|a h|h|h|a h d o|a h|a h d|a h b|a h| |a h n o|a h|h v|a auth p st pad|h];
    cbn [op_action op_index] in *; try (destruct (Hl h eq_refl) as (x & loc & L)).
  - by apply code_only_ok, (define_ok s es rs c).
  - by eapply code_only_ok, undefine_ok.
  - edestruct undefine_special_ok as (r & o & s' & E & D); [done..|]. rewrite (bind_Some _ _ _ _ _ E). by eexists _, _, _.
  - edestruct read_public_ok as (r & p & nm & s' & E & D); [done..|]. rewrite (bind_Some _ _ _ _ _ E). by eexists _, _, _.
  - destruct Hok as (_ & Hb & _ & Ho). eapply code_only_ok, write_ok; [done..|lia].
  - by eapply code_only_ok, increment_ok.
  - by eapply code_only_ok, extend_ok.
  - by eapply code_only_ok, set_bits_ok.
  - by eapply code_only_ok, write_lock_ok.
  - by eapply code_only_ok, global_lock_ok.
  - destruct Hok as (_ & Hn & Ho).
    edestruct read_ok as (r & d & s' & E & D); [done|done|apply Hn|apply Ho|]. rewrite (bind_Some _ _ _ _ _ E). by eexists _, _, _.
  - by eapply code_only_ok, read_lock_ok.
  - destruct Hok as [_ Hv]. by eapply code_only_ok, change_auth_ok.
  - by apply code_only_ok, (define2_ok s es rs c).
  - by eapply read_public2_ok.
Qed.

Lemma op_handle op h : op_ok op → op_index op = Some h → nv_handle h.
Proof. destruct op; cbn; intros Hok [=<-]; try done; by destruct Hok. Qed.

Lemma outcome_cache s0 s es rs op r out s' :
  s_maxCounter s = s_maxCounter s0 → outcome s es rs op r out s' → outcome s0 es rs op r out s'.
Proof. unfold outcome. by intros ->. Qed.

Lemma exec_ok s es rs c status op :
  NvSys s es rs c → op_ok op →
  ∃ r out s', nv_exec status op s = Some ((r, out), s') ∧ outcome s es rs op r out s'.
Proof.
  intros Hs Hok. pose proof Hs as [Si So Sm Sl]. unfold nv_exec. unfold bind at 1, modify.
  unfold bind at 1, NvIndexCacheInit, modify. set (s1 := set_cache _ _ _ _).
  destruct (set_unassigned _ Sl) as [U1 U2].
  assert (Hs1 : NvSys s1 es rs c).
  { split; [by apply inv_cache, inv_NvStatus|done|done|]. unfold s1. cbn [s_cachedNvIndex set_cache set_NvStatus]. by rewrite U2. }
  destruct (op_index op) as [h|] eqn:Ei.
  - destruct (accessible s1 es rs c h Hs1) as (r & s2 & E & Hs2 & Hc & D); [by eapply op_handle|exact U1|].
    rewrite (bind_Some _ _ _ _ _ E). assert (Em : s_maxCounter s2 = s_maxCounter s) by (by rewrite Hc).
    destruct D as [[-> (x & loc & L)]| ->].
    + change (negb (TPM_RC_SUCCESS =? TPM_RC_SUCCESS)) with false. cbv iota.
      destruct (action_ok s2 es rs c op Hs2 Hok) as (r & out & s' & E' & D'); [rewrite Ei; intros h' [=<-]; by eauto|].
      exists r, out, s'. split; [exact E'|]. by eapply outcome_cache.
    + eexists _, _, _. split; [reflexivity|]. eapply outcome_cache; [done|]. by eapply outcome_ret.
  - destruct (action_ok s1 es rs c op Hs1 Hok) as (r & out & s' & E' & D'); [by rewrite Ei|].
    exists r, out, s'. split; [exact E'|]. by eapply outcome_cache.
Qed.

(** ** Sequences of commands *)

(** Each command with the state of NV when it arrives. *)
Fixpoint nv_run (ops : list (Z * NvOp)) : M NvState (list (Z * list bytes)) :=
  match ops with
  | [] => ret []
  | (status, op) :: ops => let! r := nv_exec status op in let! rs := nv_run ops in ret (r :: rs)
  end.

Lemma nv_run_ok ops s es rs c :
  NvSys s es rs c → Forall (λ p, op_ok p.2) ops →
  ∃ rr s' es' rs' c', nv_run ops s = Some (rr, s') ∧ length rr = length ops ∧ NvSys s' es' rs' c'.
Proof.
  revert s es rs c. induction ops as [|[st op] ops IH]; intros s es rs c Hs Hok; cbn [nv_run].
  - by eexists [], s, es, rs, c.
  - apply Forall_cons_1 in Hok as [Ho Hok]. destruct (exec_ok s es rs c st op Hs Ho) as (r & out & s1 & E & D).
    destruct D as (es1 & rs1 & c1 & Hs1 & _). rewrite (bind_Some _ _ _ _ _ E).
    destruct (IH s1 es1 rs1 c1 Hs1 Hok) as (rr & s' & es' & rs' & c' & E' & Hl & Hs').
    rewrite (bind_Some _ _ _ _ _ E'). eexists _, s', es', rs', c'. split; [reflexivity|]. split; [cbn; lia|done].
Qed.
End exec.

(** * Counters that never go back, locks that hold *)

Section count.
Context `{NvLayout} `{HashLib}.
Implicit Types (s : NvState) (es rs : list bytes) (I : Z → option IndexVal).

(** The indices of the map are well formed. *)
Definition map_ok I : Prop := ∀ h x, I h = Some x → ix_wf h x ∧ ix_ok x.

Lemma sys_map s es rs c : NvSys s es rs c → map_ok (index_of es rs).
Proof.
  intros [Si So _ _] h x Hx. split; [|by eapply So].
  destruct (index_of_case _ _ _ _ _ _ Si Hx) as (loc & ram & Hc). by eapply ix_case_wf.
Qed.

(** ** Attributes after a change *)

Lemma has_written h x o d x' b :
  ix_wf h x → ix_written x o d x' → Z.land TPMA_NV_WRITTEN b = 0 → ix_has x' b = ix_has x b.
Proof.
  intros W [Wp _] Hb. pose proof (ixw_len _ _ W). unfold ix_has, ix_attributes. rewrite Wp.
  destruct (pub_set_attributes (ix_pub x) (SET_ATTRIBUTE (ix_attributes x) TPMA_NV_WRITTEN)) as (_ & _ & _ & -> & _);
    [unfold sizeof_NV_INDEX; lia|apply SET_written_range, W|].
  unfold IS_ATTRIBUTE, SET_ATTRIBUTE. by rewrite land_lor_other.
Qed.

Lemma written_has h x o d x' : ix_wf h x → ix_written x o d x' → ix_has x' TPMA_NV_WRITTEN = true.
Proof.
  intros W [Wp _]. pose proof (ixw_len _ _ W). unfold ix_has, ix_attributes. rewrite Wp.
  destruct (pub_set_attributes (ix_pub x) (SET_ATTRIBUTE (ix_attributes x) TPMA_NV_WRITTEN)) as (_ & _ & _ & -> & _);
    [unfold sizeof_NV_INDEX; lia|apply SET_written_range, W|]. apply SET_written_written.
Qed.

Lemma has_set h x a b : ix_wf h x → lock_bit a → Z.land a b = 0 → ix_has (ix_set a x) b = ix_has x b.
Proof.
  intros W Ha Hb. pose proof (ixw_len _ _ W). unfold ix_has, ix_attributes, ix_set. cbn [ix_pub].
  destruct (lock_bit_facts (ix_attributes x) a Ha (ixw_attr _ _ W)) as (R & _ & _).
  destruct (pub_set_attributes (ix_pub x) (SET_ATTRIBUTE (ix_attributes x) a)) as (_ & _ & _ & -> & _);
    [unfold sizeof_NV_INDEX; lia|done|]. unfold IS_ATTRIBUTE, SET_ATTRIBUTE. by rewrite land_lor_other.
Qed.

Lemma has_auth h x v b : ix_wf h x → wf_auth v → ix_has (ix_auth v x) b = ix_has x b.
Proof.
  intros W [Lv Bv Sv]. pose proof (ixw_len _ _ W). unfold ix_has, ix_attributes, ix_auth, offsetof_authValue. cbn [ix_pub].
  pose proof (auth_size_nonneg v Bv). unfold sizeof_TPM2B_AUTH in Lv.
  destruct (set_auth_fields (ix_pub x) (bread v 0 (2 + auth_size v))) as (_ & _ & _ & -> & _); [lia| |done].
  rewrite blen_bread; lia.
Qed.

Lemma counter_kind x x' : ix_kind x' = ix_kind x → ix_counter x' = ix_counter x.
Proof. intros [= E _ _]. unfold ix_counter, IsNvCounterIndex. fold (ix_nt x') (ix_nt x). by rewrite E. Qed.

(** ** The floor of a handle *)

Definition ix_floor (max : Z) (x : IndexVal) : Z :=
  if ix_counter x && ix_has x TPMA_NV_WRITTEN then ix_count x else max.

(** No increment of handle [h] gives a value that is not above this. *)
Definition floor (max : Z) I (h : Z) : Z := from_option (ix_floor max) max (I h).

Lemma ix_floor_mono max max' x : max ≤ max' → ix_floor max x ≤ ix_floor max' x.
Proof. unfold ix_floor. case_match; lia. Qed.

Lemma floor_mono max max' I h : max ≤ max' → floor max I h ≤ floor max' I h.
Proof. intros. unfold floor. destruct (I h); cbn; [by apply ix_floor_mono|done]. Qed.

Lemma floor_same max I I' h : same_map I I' → floor max I' h = floor max I h.
Proof. intros E. unfold floor. by rewrite E. Qed.

(** [x'] counts as [x] does. *)
Definition counts_same (x x' : IndexVal) : Prop := ∀ max, ix_floor max x' = ix_floor max x.

Lemma counts_same_of x x' :
  ix_kind x' = ix_kind x → ix_has x' TPMA_NV_WRITTEN = ix_has x TPMA_NV_WRITTEN → ix_data x' = ix_data x →
  counts_same x x'.
Proof. intros E1 E2 E3 max. unfold ix_floor, ix_count. by rewrite (counter_kind _ _ E1), E2, E3. Qed.

Lemma counts_same_other h x o d x' : ix_wf h x → ix_written x o d x' → ix_counter x = false → counts_same x x'.
Proof.
  intros W Wr Hc max. unfold ix_floor. by rewrite (counter_kind _ _ (kind_written _ _ _ _ _ W Wr)), Hc.
Qed.

Lemma counts_same_lock h x b : ix_wf h x → lock_bit b → counts_same x (ix_set b x).
Proof.
  intros W Hb. apply counts_same_of; [by eapply kind_lock| |done].
  eapply has_set; [done..|]. by destruct Hb as [->| ->].
Qed.

Lemma floor_sets max I I' h x x' h' :
  I h = Some x → sets I h (Some x') I' → counts_same x x' → floor max I' h' = floor max I h'.
Proof.
  intros Hx [S1 S2] C. unfold floor. destruct (decide (h' = h)) as [->|Hne]; [|by rewrite S2].
  rewrite S1, Hx. cbn. by rewrite C.
Qed.

(** The new value of an incremented counter. *)
Lemma increment_count max h x x' :
  ix_wf h x → ix_ok x → ix_counter x = true → 0 ≤ ix_floor max x < 2 ^ 64 - 1 →
  ix_written x 0 (Uint64ToByteArray (next_count max x)) x' →
  ix_floor max x' = ix_floor max x + 1 ∧ ix_count x' = ix_floor max x + 1 ∧
  ix_counter x' = true ∧ ix_has x' TPMA_NV_WRITTEN = true.
Proof.
  intros W Ho Hc Hr Wr. pose proof (kind_written _ _ _ _ _ W Wr) as K. pose proof (written_has _ _ _ _ _ W Wr) as Hw.
  pose proof (counter_kind _ _ K) as Hc'. rewrite Hc in Hc'.
  assert (Hf : next_count max x = ix_floor max x + 1).
  { unfold next_count, ix_floor in *. rewrite Hc in *. cbn [andb] in *. apply (wrap_small 64). lia. }
  assert (Hv : ix_count x' = ix_floor max x + 1).
  { unfold ix_count. destruct Wr as [_ (base & Lb & -> & _)].
    rewrite (ixw_data _ _ W), (ok_counter _ Ho (proj1 (Z.eqb_eq _ _) Hc)) in Lb.
    rewrite bwrite_all by (by rewrite Lb). rewrite Hf. by rewrite Uint64_roundtrip by lia. }
  split; [|done]. unfold ix_floor at 1. by rewrite Hc', Hw.
Qed.

Lemma define_floor max a p auth pad data :
  blen p = 80 → checked a p → ix_floor max (mkIdx (p ++ auth ++ pad) data) = max.
Proof.
  intros Lp C. destruct (chk_fresh _ _ C) as (Hw & _ & _). unfold ix_floor, ix_has, ix_attributes. cbn [ix_pub].
  unfold pub_attributes, offsetof_attributes in *. rewrite bread_app_l, Hw by lia. by rewrite andb_false_r.
Qed.

Lemma lock_counts h x : ix_wf h x → counts_same x (lock_ix x).
Proof.
  intros W. unfold lock_ix. destruct (ix_has x TPMA_NV_GLOBALLOCK); [|done].
  apply (counts_same_lock h x TPMA_NV_WRITELOCKED W). by left.
Qed.

Lemma auth_counts h x v : ix_wf h x → wf_auth v → counts_same x (ix_auth v x).
Proof.
  intros W V. apply counts_same_of; [|by eapply has_auth|done]. pose proof V as [Lv Bv Sv].
  unfold ix_auth, offsetof_authValue. apply kind_auth; [apply W|]. pose proof (auth_size_nonneg v Bv).
  unfold sizeof_TPM2B_AUTH in Lv. rewrite blen_bread; lia.
Qed.

Lemma not_counter v nt : GET_TPM_NT v = nt → nt ≠ TPM_NT_COUNTER → IsNvCounterIndex v = false.
Proof. intros <- Hne. by apply Z.eqb_neq. Qed.

(** The commands that neither count nor delete leave every floor as it is. *)
Definition op_moves (op : NvOp) : option Z :=
  match op with
  | OpUndefineSpace _ h | OpUndefineSpaceSpecial h | OpIncrement _ h => Some h
  | _ => None
  end.

Lemma step_floor_same max I op out max' I' :
  nv_step max I op out max' I' → op_ok op → map_ok I → op_moves op = None →
  max' = max ∧ ∀ h, floor max I' h = floor max I h.
Proof.
  intros St Ok Hm Hn. induction St as
    [a auth p pad ph data I' Hx Hc S|a h x I' Hx _ _ S|h x I' Hx _ S|h x nm I' Hx _ S|a h d o x x' I' Hx _ Hk _ _ Wr S|
     a h x x' I' Hx _ Hk Wr S|a h d x x' I' Hx _ Hk Wr S|a h b x x' I' Hx _ Hk Wr S|a h x I' Hx _ _ S|a h x I' Hx _ S|
     I' S|a h n o x I' Hx _ _ _ S|a h x I' Hx _ _ _ S|a h x I' Hx _ S|h v x I' Hx _ S|
     a auth p st pad I' _ IH|h x nm I' Hx _ S]; try done;
    try (by apply IH); (split; [done|]); intros h'; try (by apply floor_same); try (destruct (Hm _ _ Hx) as [W _]).
  - destruct S as [S1 S2]. unfold floor. destruct (decide (h' = pub_nvIndex p)) as [->|Hne]; [|by rewrite S2].
    rewrite S1, Hx. cbn [from_option]. destruct Ok as (_ & Lp & _). by eapply define_floor, define_checks_ok.
  - eapply floor_sets; [done..|]. eapply counts_same_other; [done..|].
    by apply orb_false_iff in Hk as [[Hk _]%orb_false_iff _].
  - eapply floor_sets; [done..|]. eapply counts_same_other; [done..|]. by eapply not_counter; [apply Z.eqb_eq, Hk|].
  - eapply floor_sets; [done..|]. eapply counts_same_other; [done..|]. by eapply not_counter; [apply Z.eqb_eq, Hk|].
  - eapply floor_sets; [done..|]. eapply counts_same_lock; [done|]. by left.
  - unfold floor. rewrite S. destruct (I h') as [y|] eqn:Hy; [|done]. cbn.
    destruct (Hm _ _ Hy) as [W _]. by apply (lock_counts h' y).
  - eapply floor_sets; [done..|]. eapply counts_same_lock; [done|]. by right.
  - eapply floor_sets; [done..|]. eapply auth_counts; [done|]. destruct Ok as [_ Hv]. by apply trim_auth_wf.
Qed.

Lemma floor_nonneg max I h : 0 ≤ max → 0 ≤ floor max I h.
Proof.
  intros Hm. unfold floor. destruct (I h) as [x|]; [|done]. cbn. unfold ix_floor, ix_count.
  pose proof (ByteArrayToUint64_range (ix_data x)). case_match; lia.
Qed.

(** An increment raises the floor of its handle by one and leaves the others. *)
Lemma step_increment_floor max I a h out max' I' :
  nv_step max I (OpIncrement a h) out max' I' → map_ok I → 0 ≤ max → floor max I h < 2 ^ 64 - 1 →
  max' = max ∧ floor max I' h = floor max I h + 1 ∧ (∀ h', h' ≠ h → floor max I' h' = floor max I h') ∧
  ∃ x, I' h = Some x ∧ ix_counter x = true ∧ ix_has x TPMA_NV_WRITTEN = true ∧ ix_count x = floor max I h + 1.
Proof.
  intros St Hm Hp Hf. pose proof (floor_nonneg max I h Hp) as Hn.
  inversion St as [| | | | |? ? x x' ? Hx _ Hk Wr [S1 S2]| | | | | | | | | | |]; subst.
  destruct (Hm _ _ Hx) as [W Ho]. unfold floor in *. rewrite Hx in *. cbn [from_option] in *.
  destruct (increment_count max' h x x' W Ho Hk ltac:(lia) Wr) as (F1 & F2 & F3 & F4).
  rewrite S1. cbn [from_option]. split; [done|]. split; [done|]. split; [intros h' Hne; by rewrite S2|by exists x'].
Qed.

Lemma undefine_floor max I h x I' b :
  0 ≤ max → max ≤ b → (∀ h, floor max I h ≤ b) → I h = Some x → sets I h None I' →
  let max' := deleted_max max (ix_attributes x) (ix_data x) in
  max ≤ max' ≤ b ∧ ∀ h', floor max I h' ≤ floor max' I' h' ≤ b.
Proof.
  intros Hp Hb Hf Hx [S1 S2] max'. assert (E : ix_floor max x ≤ max' ∧ max ≤ max' ≤ b).
  { pose proof (Hf h) as Hh. unfold floor in Hh. rewrite Hx in Hh. cbn [from_option] in Hh.
    unfold max', deleted_max, ix_floor, ix_counter, ix_has, ix_count in *. destruct (_ && _); lia. }
  split; [lia|]. intros h'. pose proof (Hf h') as Hh'. unfold floor in *.
  destruct (decide (h' = h)) as [->|Hne]; [rewrite S1, Hx in *; cbn [from_option] in *; lia|].
  rewrite S2 by done. destruct (I h') as [y|]; cbn [from_option] in *; [|lia].
  unfold ix_floor in *. case_match; lia.
Qed.

Lemma step_floor max I op out max' I' b :
  nv_step max I op out max' I' → op_ok op → map_ok I → 0 ≤ max → max ≤ b → (∀ h, floor max I h ≤ b) →
  b < 2 ^ 64 - 1 → max ≤ max' ≤ b ∧ ∀ h, floor max I h ≤ floor max' I' h ≤ b + 1.
Proof.
  intros St Ok Hm Hp Hb Hf Hlt. destruct (op_moves op) as [h|] eqn:Em.
  - assert (Hu : (∃ x, I h = Some x ∧ sets I h None I' ∧ max' = deleted_max max (ix_attributes x) (ix_data x)) ∨
      ∃ a, op = OpIncrement a h).
    { destruct op; cbn in Em; try done; injection Em as ->; [left|left|right; by eexists]; inversion St; by eauto. }
    destruct Hu as [(x & Hx & S & ->)|[a ->]].
    + destruct (undefine_floor max I h x I' b Hp Hb Hf Hx S) as [M F]. split; [done|]. intros h'. specialize (F h'). lia.
    + destruct (step_increment_floor _ _ _ _ _ _ _ St Hm Hp ltac:(specialize (Hf h); lia)) as (-> & F1 & F2 & _).
      split; [lia|]. intros h'. specialize (Hf h'). destruct (decide (h' = h)) as [->|Hne]; [lia|]. rewrite F2 by done. lia.
  - destruct (step_floor_same _ _ _ _ _ _ St Ok Hm Em) as [-> F]. split; [lia|]. intros h'. rewrite F. specialize (Hf h'). lia.
Qed.

Lemma staged_floor max I max' b :
  staged max I max' → 0 ≤ max → max ≤ b → (∀ h, floor max I h ≤ b) →
  max ≤ max' ≤ b ∧ ∀ h, floor max I h ≤ floor max' I h ≤ b.
Proof.
  intros St Hp Hb Hf. assert (M : max ≤ max' ≤ b).
  { destruct St as [->|(h & x & Hx & ->)]; [lia|]. specialize (Hf h). unfold floor in Hf. rewrite Hx in Hf.
    cbn [from_option] in Hf. unfold deleted_max, ix_floor, ix_counter, ix_has, ix_count in *. destruct (_ && _); lia. }
  split; [done|]. intros h. split; [apply floor_mono; lia|]. specialize (Hf h). unfold floor in *.
  destruct (I h) as [x|]; cbn [from_option] in *; [|lia]. unfold ix_floor in *. case_match; lia.
Qed.

(** ** Along a sequence of commands *)

(** The floors of a state, all at most [b]. *)
Record bounded s es rs (b : Z) : Prop := {
  bnd_max : s_maxCounter s ≤ b;
  bnd_floor h : floor (s_maxCounter s) (index_of es rs) h ≤ b;
}.

Definition floor_of s es rs (h : Z) : Z := floor (s_maxCounter s) (index_of es rs) h.

Lemma exec_floor s es rs c status op r out s' b :
  NvSys s es rs c → op_ok op → bounded s es rs b → b < 2 ^ 64 - 1 →
  nv_exec status op s = Some ((r, out), s') →
  ∃ es' rs' c', NvSys s' es' rs' c' ∧ bounded s' es' rs' (b + 1) ∧
    (∀ h, floor_of s es rs h ≤ floor_of s' es' rs' h) ∧
    (r = TPM_RC_SUCCESS → nv_step (s_maxCounter s) (index_of es rs) op out (s_maxCounter s') (index_of es' rs')).
Proof.
  intros Hs Ok [Bm Bf] Hlt E. destruct (exec_ok s es rs c status op Hs Ok) as (r0 & out0 & s0 & E0 & D).
  rewrite E in E0. injection E0 as <- <- <-. destruct D as (es' & rs' & c' & Hs' & D). exists es', rs', c'.
  pose proof (sys_max _ _ _ _ Hs) as [Hp _]. split; [done|].
  destruct D as [[-> St]|(Hr & Sm & Sg)].
  - destruct (step_floor _ _ _ _ _ _ b St Ok (sys_map _ _ _ _ Hs) Hp Bm Bf Hlt) as [M F].
    split; [split; [lia|intros h; by apply F]|]. split; [intros h; by apply F|done].
  - destruct (staged_floor _ _ _ b Sg Hp Bm Bf) as [M F]. unfold floor_of.
    split; [|split; [|done]]; [split; [lia|]|]; intros h; specialize (F h); rewrite (floor_same _ _ _ h Sm); lia.
Qed.

Lemma run_floor ops : ∀ s es rs c rr s' b,
  NvSys s es rs c → Forall (λ p, op_ok p.2) ops → bounded s es rs b → b + Z.of_nat (length ops) < 2 ^ 64 - 1 →
  nv_run ops s = Some (rr, s') →
  ∃ es' rs' c', NvSys s' es' rs' c' ∧ bounded s' es' rs' (b + Z.of_nat (length ops)) ∧
    ∀ h, floor_of s es rs h ≤ floor_of s' es' rs' h.
Proof.
  induction ops as [|[st op] ops IH]; intros s es rs c rr s' b Hs Ok Hb Hlt E; cbn [nv_run length] in *.
  - injection E as <- <-. exists es, rs, c. split; [done|]. split; [by replace (b + Z.of_nat 0) with b by lia|done].
  - apply Forall_cons_1 in Ok as [Ho Ok]. unfold bind at 1 in E. destruct (nv_exec st op s) as [[[r out] s1]|] eqn:E1; [|done].
    destruct (exec_floor s es rs c st op r out s1 b Hs Ho Hb ltac:(lia) E1) as (es1 & rs1 & c1 & Hs1 & Hb1 & F1 & _).
    unfold bind in E. destruct (nv_run ops s1) as [[rr1 s2]|] eqn:E2; [|done]. injection E as <- <-.
    destruct (IH s1 es1 rs1 c1 rr1 s2 (b + 1) Hs1 Ok Hb1 ltac:(lia) E2) as (es2 & rs2 & c2 & Hs2 & Hb2 & F2).
    exists es2, rs2, c2. split; [done|]. split.
    + by replace (b + Z.of_nat (S (length ops))) with (b + 1 + Z.of_nat (length ops)) by lia.
    + intros h. specialize (F1 h). specialize (F2 h). lia.
Qed.

(** The value of a counter, as a command that looks the index up reads it. *)
Definition read_counter (h : Z) : M NvState Z :=
  NvIndexCacheInit ;; with_index h (λ locator idx, NvGetUINT64Data idx locator).

Lemma read_counter_ok s es rs c h x :
  NvSys s es rs c → nv_handle h → index_of es rs h = Some x → ix_counter x = true → ix_has x TPMA_NV_WRITTEN = true →
  ∃ s', read_counter h s = Some (ix_count x, s').
Proof.
  intros [Si So Sm Sl] Hh Hx Hc Hw. unfold read_counter. unfold bind at 1, NvIndexCacheInit, modify.
  destruct (set_unassigned _ Sl) as [U1 U2]. set (s1 := set_cache _ _ _ s).
  destruct (get_info s1 es rs c h x) as (loc & s' & E & L & _); [by apply inv_cache|done| |].
  { unfold s1. cbn [s_cachedNvIndex set_cache]. rewrite U1. by intros <-. }
  unfold with_index. rewrite (bind_Some _ _ _ _ _ E). unfold bind at 1, gets. rewrite (loc_cache _ _ _ _ _ _ _ L).
  exists s'. eapply get_count; [done| |done]. apply (ok_counter _ (So _ _ Hx)). by apply Z.eqb_eq.
Qed.

(** ** Indices that keep their data *)

Definition op_deletes (op : NvOp) (h : Z) : bool :=
  match op with OpUndefineSpace _ h' | OpUndefineSpaceSpecial h' => h' =? h | _ => false end.

Definition op_writes (op : NvOp) (h : Z) : bool :=
  match op with
  | OpWrite _ h' _ _ | OpIncrement _ h' | OpExtend _ h' _ | OpSetBits _ h' _ => h' =? h
  | _ => false
  end.

(** The data of [x] is that of [x'], and no write lock was lost. *)
Record keeps (x x' : IndexVal) : Prop := {
  kp_data : ix_data x' = ix_data x;
  kp_size : pub_dataSize (ix_pub x') = pub_dataSize (ix_pub x);
  kp_written : ix_has x' TPMA_NV_WRITTEN = ix_has x TPMA_NV_WRITTEN;
  kp_locked : ix_has x TPMA_NV_WRITELOCKED = true → ix_has x' TPMA_NV_WRITELOCKED = true;
}.

Lemma ix_keeps_refl x : keeps x x.
Proof. by split. Qed.

Lemma ix_keeps_trans x y z : keeps x y → keeps y z → keeps x z.
Proof. intros [] []. split; [congruence..|auto]. Qed.

Lemma set_has h x b : ix_wf h x → lock_bit b → ix_has (ix_set b x) b = true.
Proof.
  intros W Hb. pose proof (ixw_len _ _ W). unfold ix_has, ix_attributes, ix_set. cbn [ix_pub].
  destruct (lock_bit_facts (ix_attributes x) b Hb (ixw_attr _ _ W)) as (R & _ & _).
  destruct (pub_set_attributes (ix_pub x) (SET_ATTRIBUTE (ix_attributes x) b)) as (_ & _ & _ & -> & _);
    [unfold sizeof_NV_INDEX; lia|done|].
  unfold IS_ATTRIBUTE, SET_ATTRIBUTE. rewrite Z.land_lor_distr_l, Z.land_diag.
  destruct (Z.eqb_spec (Z.lor (Z.land (ix_attributes x) b) b) 0) as [E|]; [|done].
  apply Z.lor_eq_0_iff in E as [_ E]. by destruct Hb as [->| ->].
Qed.

Lemma keeps_lock h x b : ix_wf h x → lock_bit b → keeps x (ix_set b x).
Proof.
  intros W Hb. pose proof (kind_lock _ _ _ W Hb) as [= _ _ K]. split; [done|done|..].
  - eapply has_set; [done..|]. by destruct Hb as [->| ->].
  - intros Hl. destruct Hb as [->| ->]; [eapply set_has; [done|by left]|].
    erewrite has_set; [done|done|by right|done].
Qed.

Lemma keeps_auth h x v : ix_wf h x → wf_auth v → keeps x (ix_auth v x).
Proof.
  intros W V. split; [done| |by eapply has_auth|intros; by erewrite has_auth].
  unfold ix_auth, offsetof_authValue. cbn [ix_pub]. destruct V as [Lv Bv Sv]. pose proof (ixw_len _ _ W).
  pose proof (auth_size_nonneg v Bv). unfold sizeof_TPM2B_AUTH in Lv.
  destruct (set_auth_fields (ix_pub x) (bread v 0 (2 + auth_size v))) as (_ & _ & -> & _); [lia| |done].
  rewrite blen_bread; lia.
Qed.

Lemma keeps_sets I I' h k x y y' :
  I h = Some x → I k = Some y → sets I k (Some y') I' → keeps y y' → ∃ x', I' h = Some x' ∧ keeps x x'.
Proof.
  intros Hx Hy [S1 S2] K. destruct (decide (h = k)) as [->|Hne].
  - exists y'. split; [done|]. by replace x with y by congruence.
  - exists x. rewrite S2 by done. split; [done|apply ix_keeps_refl].
Qed.

(** The index of another command is as before. *)
Lemma keeps_other I I' h k x o :
  I h = Some x → sets I k o I' → k ≠ h → ∃ x', I' h = Some x' ∧ keeps x x'.
Proof. intros Hx [_ S2] Hne. exists x. rewrite S2 by done. split; [done|apply ix_keeps_refl]. Qed.

Lemma locked_may_write a h x : ix_has x TPMA_NV_WRITELOCKED = true → ¬ may_write a h x.
Proof. unfold may_write. intros Hl%(write_checks_locked a h) E. by rewrite Hl in E. Qed.

Lemma step_keeps max I op out max' I' h x :
  nv_step max I op out max' I' → op_ok op → map_ok I → I h = Some x → op_deletes op h = false →
  (op_writes op h = true → ix_has x TPMA_NV_WRITELOCKED = true) → ∃ x', I' h = Some x' ∧ keeps x x'.
Proof.
  intros St Ok Hm Hx Hd Hw.
  assert (Hsame : ∀ I', same_map I I' → ∃ x', I' h = Some x' ∧ keeps x x').
  { intros J Sm. exists x. rewrite Sm. split; [done|apply ix_keeps_refl]. }
  assert (Hwr : ∀ a k y d, I k = Some y → may_write a k y → op_writes op h = (k =? h) →
    sets I k d I' → ∃ x', I' h = Some x' ∧ keeps x x').
  { intros a k y d Hy Hmw Eo S. destruct (Z.eqb_spec k h) as [->|Hne]; [|by eapply keeps_other].
    exfalso. eapply locked_may_write; [apply Hw, Eo|]. by replace x with y by congruence. }
  induction St as
    [a auth p pad ph data I' Hy Hc S|a k y I' Hy _ _ S|k y I' Hy _ S|k y nm I' Hy _ S|a k d o y y' I' Hy Hmw _ _ _ Wr S|
     a k y y' I' Hy Hmw Hk Wr S|a k d y y' I' Hy Hmw Hk Wr S|a k b y y' I' Hy Hmw Hk Wr S|a k y I' Hy _ _ S|a k y I' Hy _ S|
     I' S|a k n o y I' Hy _ _ _ S|a k y I' Hy _ _ _ S|a k y I' Hy _ S|k v y I' Hy _ S|
     a auth p st pad I' _ IH|k y nm I' Hy _ S]; cbn [op_deletes] in Hd;
    try (by apply Hsame); try (by apply IH); try exact (Hwr a k y _ Hy Hmw eq_refl S); try (destruct (Hm _ _ Hy) as [W _]).
  - eapply keeps_other; [done..|congruence].
  - eapply keeps_other; [done..|]. by apply Z.eqb_neq.
  - eapply keeps_other; [done..|]. by apply Z.eqb_neq.
  - apply (keeps_sets I I' h k x y _ Hx Hy S). eapply keeps_lock; [done|by left].
  - exists (lock_ix x). rewrite S, Hx. split; [done|]. destruct (Hm _ _ Hx) as [W _]. unfold lock_ix.
    destruct (ix_has x TPMA_NV_GLOBALLOCK); [|apply ix_keeps_refl]. apply (keeps_lock h x TPMA_NV_WRITELOCKED W). by left.
  - apply (keeps_sets I I' h k x y _ Hx Hy S). eapply keeps_lock; [done|by right].
  - apply (keeps_sets I I' h k x y _ Hx Hy S). eapply keeps_auth; [done|]. destruct Ok as [_ Hv]. by apply trim_auth_wf.
Qed.

(** Commands that leave the data of [h] alone: none deletes it, and they write it
    only if it is locked. *)
Definition leaves (h : Z) (locked : bool) (op : NvOp) : Prop :=
  op_ok op ∧ op_deletes op h = false ∧ (op_writes op h = true → locked = true).

Lemma exec_keeps s es rs c status op r out s' h x :
  NvSys s es rs c → index_of es rs h = Some x → leaves h (ix_has x TPMA_NV_WRITELOCKED) op →
  nv_exec status op s = Some ((r, out), s') →
  ∃ es' rs' c' x', NvSys s' es' rs' c' ∧ index_of es' rs' h = Some x' ∧ keeps x x'.
Proof.
  intros Hs Hx (Ok & Hd & Hw) E. destruct (exec_ok s es rs c status op Hs Ok) as (r0 & out0 & s0 & E0 & D).
  rewrite E in E0. injection E0 as <- <- <-. destruct D as (es' & rs' & c' & Hs' & D).
  destruct D as [[_ St]|(_ & Sm & _)].
  - destruct (step_keeps _ _ _ _ _ _ h x St Ok (sys_map _ _ _ _ Hs) Hx Hd Hw) as (x' & Hx' & K).
    by exists es', rs', c', x'.
  - exists es', rs', c', x. rewrite Sm. split; [done|]. split; [done|apply ix_keeps_refl].
Qed.

Lemma run_keeps ops : ∀ s es rs c rr s' h x,
  NvSys s es rs c → index_of es rs h = Some x → Forall (λ p, leaves h (ix_has x TPMA_NV_WRITELOCKED) p.2) ops →
  nv_run ops s = Some (rr, s') →
  ∃ es' rs' c' x', NvSys s' es' rs' c' ∧ index_of es' rs' h = Some x' ∧ keeps x x'.
Proof.
  induction ops as [|[st op] ops IH]; intros s es rs c rr s' h x Hs Hx Hl E; cbn [nv_run] in E.
  - injection E as <- <-. exists es, rs, c, x. split; [done|]. split; [done|apply ix_keeps_refl].
  - apply Forall_cons_1 in Hl as [Ho Hl]. unfold bind at 1 in E. destruct (nv_exec st op s) as [[[r out] s1]|] eqn:E1; [|done].
    destruct (exec_keeps s es rs c st op r out s1 h x Hs Hx Ho E1) as (es1 & rs1 & c1 & x1 & Hs1 & Hx1 & K1).
    unfold bind in E. destruct (nv_run ops s1) as [[rr1 s2]|] eqn:E2; [|done]. injection E as <- <-.
    destruct (IH s1 es1 rs1 c1 rr1 s2 h x1 Hs1 Hx1) as (es2 & rs2 & c2 & x2 & Hs2 & Hx2 & K2); [|done|].
    + revert Hl. apply Forall_impl. intros p (P1 & P2 & P3). split; [done|]. split; [done|].
      intros Hw. by apply (kp_locked _ _ K1), P3.
    + exists es2, rs2, c2, x2. split; [done|]. split; [done|by eapply ix_keeps_trans].
Qed.

(** The data of an index that has been written, as a command reads it. *)
Definition index_data (h : Z) : M NvState (option bytes) :=
  NvIndexCacheInit ;;
  with_index h (λ locator idx,
    if IS_ATTRIBUTE (pub_attributes idx) TPMA_NV_WRITTEN
    then let! d := NvGetIndexData idx locator 0 (pub_dataSize idx) in ret (Some d) else ret None).

Lemma index_data_ok s es rs c h x :
  NvSys s es rs c → nv_handle h → index_of es rs h = Some x →
  ∃ s', index_data h s = Some (if ix_has x TPMA_NV_WRITTEN then Some (ix_data x) else None, s').
Proof.
  intros [Si So Sm Sl] Hh Hx. unfold index_data. unfold bind at 1, NvIndexCacheInit, modify.
  destruct (set_unassigned _ Sl) as [U1 U2]. set (s1 := set_cache _ _ _ s).
  destruct (get_info s1 es rs c h x) as (loc & s' & E & L & _); [by apply inv_cache|done| |].
  { unfold s1. cbn [s_cachedNvIndex set_cache]. rewrite U1. by intros <-. }
  pose proof (located_wf _ _ _ _ _ _ _ L) as W. pose proof (ixw_size _ _ W). pose proof (ixw_data _ _ W).
  unfold with_index. rewrite (bind_Some _ _ _ _ _ E). unfold bind at 1, gets. rewrite (loc_cache _ _ _ _ _ _ _ L).
  exists s'. fold (ix_attributes x). fold (ix_has x TPMA_NV_WRITTEN). destruct (ix_has x TPMA_NV_WRITTEN) eqn:Hw; [|done].
  rewrite (bind_Some _ _ _ _ _ (get_data _ _ _ _ _ _ _ 0 (pub_dataSize (ix_pub x)) L Hw ltac:(done) ltac:(lia) ltac:(lia))).
  by rewrite bread_all by done.
Qed.

(** A write to a locked index. *)
Lemma locked_action s es rs c h x loc op :
  located s es rs c h x loc → ix_has x TPMA_NV_WRITELOCKED = true → op_writes op h = true →
  op_action op s = Some ((TPM_RC_NV_LOCKED, []), s).
Proof.
  intros L Hl Hw. assert (E : ∀ a, NvWriteAccessChecks a h (pub_attributes (ix_pub x)) = TPM_RC_NV_LOCKED)
    by (intros a; by apply write_checks_locked).
  destruct op; cbn [op_writes] in Hw; try done; apply Z.eqb_eq in Hw; subst; cbn [op_action]; unfold code_only, bind at 1;
    unfold TPM2_NV_Write, TPM2_NV_Increment, TPM2_NV_Extend, TPM2_NV_SetBits;
    rewrite (with_index_located _ _ _ _ _ _ _ _ L), E; done.
Qed.

Lemma op_writes_index op h : op_writes op h = true → op_index op = Some h.
Proof. destruct op; cbn; try done; by intros <-%Z.eqb_eq. Qed.

Lemma exec_locked s es rs c status op h x :
  NvSys s es rs c → nv_handle h → index_of es rs h = Some x → ix_has x TPMA_NV_WRITELOCKED = true →
  op_writes op h = true →
  ∃ r s', nv_exec status op s = Some ((r, []), s') ∧ (r = TPM_RC_NV_LOCKED ∨ r = TPM_RC_HANDLE).
Proof.
  intros Hs Hh Hx Hl Hw. pose proof Hs as [Si So Sm Sl]. unfold nv_exec. unfold bind at 1, modify.
  unfold bind at 1, NvIndexCacheInit, modify. set (s1 := set_cache _ _ _ _).
  destruct (set_unassigned _ Sl) as [U1 U2].
  assert (Hs1 : NvSys s1 es rs c).
  { split; [by apply inv_cache, inv_NvStatus|done|done|]. unfold s1. cbn [s_cachedNvIndex set_cache set_NvStatus]. by rewrite U2. }
  rewrite (op_writes_index _ _ Hw).
  destruct (accessible s1 es rs c h Hs1 Hh U1) as (r & s2 & E & Hs2 & Hc & D). rewrite (bind_Some _ _ _ _ _ E).
  destruct D as [[-> (y & loc & L)]| ->]; [|eexists _, _; split; [reflexivity|by right]].
  change (negb (TPM_RC_SUCCESS =? TPM_RC_SUCCESS)) with false. cbv iota.
  assert (y = x) as -> by (pose proof (located_of _ _ _ _ _ _ _ L); congruence).
  rewrite (locked_action _ _ _ _ _ _ _ _ L Hl Hw). eexists _, _. split; [reflexivity|by left].
Qed.
End count.
