(* ===== verification/NvCmdProps.v ===== *)
(** * Properties of the NV commands

    The theorems about NVCommands.c and NV_spt.c, with witnesses that run the
    commands on a manufactured TPM. *)

From S2P Require Import Prelude TpmTypes Memory Cbc AesProof NVMem NVReserved NvList NvRam NvIndex NvEntity NvDefine NvFlush.
From S2P Require Import NvProps NvCmd NvCmdProof NvCmdOps NvCmdRefine NvCmdCount.
Local Open Scope Z_scope.

Section props.
Context `{NvLayout} `{HashLib}.
Implicit Types (s : NvState) (es rs : list bytes).

(** C3. The NV commands refine steps on a map of indices.  The commands are
    TPM2_NV_DefineSpace and _DefineSpace2, _UndefineSpace and _UndefineSpaceSpecial,
    _ReadPublic and _ReadPublic2, _Write, _Increment, _Extend, _SetBits, _WriteLock,
    _GlobalWriteLock, _Read, _ReadLock and _ChangeAuth, with parameters as
    unmarshaling gives them, restricted to indices with handles of type
    TPM_HT_NV_INDEX (the external and permanent handles that unmarshaling also lets
    through are left out) and, in _DefineSpace2, to public areas that are not of the
    external form without extended attributes (whose conversion leaves the handle
    unassigned, NV_spt.c line 319); TPM2_NV_Certify is not among them.  From a
    state whose NV memory, orderly RAM and index cache satisfy the invariant, such a
    command returns, whether NV is available or not.  If the response code is
    TPM_RC_SUCCESS the command was the step that [nv_step] allows on the map from
    handles to public areas and data: the access and type checks passed, the index
    named is the only one changed, and it is changed as the command says; the
    response is the one of the step.  Otherwise the map is unchanged.  The invariant
    holds again. *)
Theorem nv_command_refines s es rs c status op :
  NvSys s es rs c → op_ok op →
  ∃ r out s' es' rs' c', nv_exec status op s = Some ((r, out), s') ∧ NvSys s' es' rs' c' ∧
    (r = TPM_RC_SUCCESS →
     nv_step (s_maxCounter s) (index_of es rs) op out (s_maxCounter s') (index_of es' rs')) ∧
    (r ≠ TPM_RC_SUCCESS → ∀ h, index_of es' rs' h = index_of es rs h).
Proof.
  intros Hs Ok. destruct (exec_ok s es rs c status op Hs Ok) as (r & out & s' & E & es' & rs' & c' & Hs' & D).
  exists r, out, s', es', rs', c'. split; [exact E|]. split; [exact Hs'|].
  destruct D as [[-> St]|(Hr & Sm & _)]; split; done.
Qed.

(** C1. NV counters never repeat.  Whatever NV commands are executed between two
    increments of the same handle (writes, locks, commands that fail because NV is
    not available, deleting the counter and defining it again with the same
    handle), the value after the second increment is above the value after the
    first, as long as no counter can have reached 2^64 - 1. *)
Theorem nv_counter_never_repeats s es rs c b h st1 a1 o1 s1 ops rr s2 st2 a2 o2 s3 v1 v2 t1 t2 :
  NvSys s es rs c → bounded s es rs b → b + Z.of_nat (length ops) + 2 < 2 ^ 64 →
  nv_handle h → Forall (λ p, op_ok p.2) ops →
  nv_exec st1 (OpIncrement a1 h) s = Some ((TPM_RC_SUCCESS, o1), s1) →
  nv_run ops s1 = Some (rr, s2) →
  nv_exec st2 (OpIncrement a2 h) s2 = Some ((TPM_RC_SUCCESS, o2), s3) →
  read_counter h s1 = Some (v1, t1) → read_counter h s3 = Some (v2, t2) → v1 < v2.
Proof.
  intros Hs Hb Hlt Hh Ok E1 Er E2 R1 R2.
  destruct (exec_floor s es rs c st1 (OpIncrement a1 h) _ o1 s1 b Hs Hh Hb ltac:(lia) E1)
    as (es1 & rs1 & c1 & Hs1 & Hb1 & _ & St1). specialize (St1 eq_refl).
  destruct (run_floor ops s1 es1 rs1 c1 rr s2 (b + 1) Hs1 Ok Hb1 ltac:(lia) Er) as (es2 & rs2 & c2 & Hs2 & Hb2 & F).
  destruct (exec_floor s2 es2 rs2 c2 st2 (OpIncrement a2 h) _ o2 s3 (b + 1 + Z.of_nat (length ops)) Hs2 Hh Hb2 ltac:(lia) E2)
    as (es3 & rs3 & c3 & Hs3 & _ & _ & St3). specialize (St3 eq_refl).
  pose proof (sys_max _ _ _ _ Hs). pose proof (sys_max _ _ _ _ Hs2).
  pose proof (bnd_floor _ _ _ _ Hb h). pose proof (bnd_floor _ _ _ _ Hb2 h). specialize (F h). unfold floor_of in F.
  destruct (step_increment_floor _ _ _ _ _ _ _ St1 (sys_map _ _ _ _ Hs) ltac:(lia) ltac:(lia))
    as (M1 & F1 & _ & x1 & X1 & C1 & W1 & V1).
  destruct (step_increment_floor _ _ _ _ _ _ _ St3 (sys_map _ _ _ _ Hs2) ltac:(lia) ltac:(lia))
    as (M3 & F3 & _ & x3 & X3 & C3 & W3 & V3).
  destruct (read_counter_ok _ _ _ _ _ _ Hs1 Hh X1 C1 W1) as (t1' & Q1).
  destruct (read_counter_ok _ _ _ _ _ _ Hs3 Hh X3 C3 W3) as (t3' & Q3).
  rewrite Q1 in R1. rewrite Q3 in R2. injection R1 as <- _. injection R2 as <- _. rewrite M1 in F. lia.
Qed.

(** C13. A write lock holds.  After TPM2_NV_WriteLock of an index succeeds, and any
    further NV commands that do not delete the index, a write, increment, extend
    or bit-set of it returns TPM_RC_NV_LOCKED (or TPM_RC_HANDLE if its hierarchy is
    disabled), and the data of the index is what it was when it was locked. *)
Theorem nv_write_lock_holds s es rs c h st a o s1 ops st' w :
  NvSys s es rs c → nv_handle h →
  nv_exec st (OpWriteLock a h) s = Some ((TPM_RC_SUCCESS, o), s1) →
  Forall (λ p, op_ok p.2 ∧ op_deletes p.2 h = false) ops → op_ok w → op_writes w h = true →
  ∃ rr s2 r s3, nv_run ops s1 = Some (rr, s2) ∧ nv_exec st' w s2 = Some ((r, []), s3) ∧
    (r = TPM_RC_NV_LOCKED ∨ r = TPM_RC_HANDLE) ∧ fst <$> index_data h s3 = fst <$> index_data h s1.
Proof.
  intros Hs Hh E Hops Hw Hwh. destruct (exec_ok s es rs c st (OpWriteLock a h) Hs Hh) as (r0 & o0 & s0 & E0 & D).
  rewrite E in E0. injection E0 as <- <- <-. destruct D as (es1 & rs1 & c1 & Hs1 & [[_ St]|(Hr & _)]); [|done].
  assert (∃ x, index_of es1 rs1 h = Some x ∧ ix_has x TPMA_NV_WRITELOCKED = true) as (x & Hx & Hl).
  { inversion St as [| | | | | | | |? ? y ? Hy _ _ [S1 _]|? ? y ? Hy Hly Sm| | | | | | |]; subst.
    - exists (ix_set TPMA_NV_WRITELOCKED y). split; [done|]. eapply set_has; [|by left].
      by eapply (sys_map _ _ _ _ Hs).
    - exists y. by rewrite Sm. }
  assert (Hlv : Forall (λ p, leaves h (ix_has x TPMA_NV_WRITELOCKED) p.2) ops).
  { revert Hops. apply Forall_impl. intros p [P1 P2]. by split. }
  destruct (nv_run_ok ops s1 es1 rs1 c1 Hs1) as (rr & s2 & _ & _ & _ & Er & _);
    [revert Hops; apply Forall_impl; by intros p []|].
  destruct (run_keeps ops s1 es1 rs1 c1 rr s2 h x Hs1 Hx Hlv Er) as (es2 & rs2 & c2 & x2 & Hs2 & Hx2 & K2).
  pose proof (kp_locked _ _ K2 Hl) as Hl2.
  destruct (exec_locked s2 es2 rs2 c2 st' w h x2 Hs2 Hh Hx2 Hl2 Hwh) as (r & s3 & E3 & Hr).
  exists rr, s2, r, s3. split; [done|]. split; [done|]. split; [done|].
  destruct (exec_keeps s2 es2 rs2 c2 st' w r [] s3 h x2 Hs2 Hx2) as (es3 & rs3 & c3 & x3 & Hs3 & Hx3 & K3); [|done|].
  { split; [done|]. split; [|done]. by destruct w. }
  destruct (index_data_ok _ _ _ _ _ _ Hs1 Hh Hx) as (t1 & ->).
  destruct (index_data_ok _ _ _ _ _ _ Hs3 Hh Hx3) as (t3 & ->).
  cbn. by rewrite (kp_written _ _ K3), (kp_written _ _ K2), (kp_data _ _ K3), (kp_data _ _ K2).
Qed.

(** C15. What was written is read.  After TPM2_NV_Write of octets at an offset of an
    index succeeds, and any further NV commands that neither write nor delete that
    index, TPM2_NV_Read of the same range returns those octets if it succeeds. *)
Theorem nv_write_then_read s es rs c h st a d off o s1 ops rr s2 st' a' out s3 :
  NvSys s es rs c → op_ok (OpWrite a h d off) →
  nv_exec st (OpWrite a h d off) s = Some ((TPM_RC_SUCCESS, o), s1) →
  Forall (λ p, op_ok p.2 ∧ op_deletes p.2 h = false ∧ op_writes p.2 h = false) ops →
  nv_run ops s1 = Some (rr, s2) →
  nv_exec st' (OpRead a' h (blen d) off) s2 = Some ((TPM_RC_SUCCESS, out), s3) → out = [d].
Proof.
  intros Hs Ok E Hops Er E3. destruct (exec_ok s es rs c st _ Hs Ok) as (r0 & o0 & s0 & E0 & D).
  rewrite E in E0. injection E0 as <- <- <-. destruct D as (es1 & rs1 & c1 & Hs1 & [[_ St]|(Hr & _)]); [|done].
  destruct Ok as (Hh & Hd & Hbd & Ho). unfold MAX_NV_BUFFER_SIZE in Hbd. pose proof (blen_nonneg d).
  inversion St as [| | | |? ? ? ? x x' ? Hx _ _ Hle _ Wr [S1 _]| | | | | | | | | | | |]; subst.
  destruct (run_keeps ops s1 es1 rs1 c1 rr s2 h x' Hs1 S1) as (es2 & rs2 & c2 & x2 & Hs2 & Hx2 & K2); [|done|].
  { revert Hops. apply Forall_impl. intros p (P1 & P2 & P3). split; [done|]. split; [done|congruence]. }
  destruct (exec_ok s2 es2 rs2 c2 st' (OpRead a' h (blen d) off) Hs2) as (r4 & o4 & s4 & E4 & D4); [by split_and!; try lia|].
  rewrite E3 in E4. injection E4 as <- <- <-. destruct D4 as (es4 & rs4 & c4 & _ & [[_ St4]|(Hr & _)]); [|done].
  inversion St4 as [| | | | | | | | | | |? ? ? ? y ? Hy _ _ Hle2 _| | | | |]; subst.
  assert (y = x2) as -> by congruence. destruct Wr as [_ (base & Lb & Dx & _)]. rewrite (kp_data _ _ K2), Dx.
  pose proof (ixw_data _ _ (proj1 (sys_map _ _ _ _ Hs _ _ Hx))). by rewrite bread_bwrite_same by lia.
Qed.

(** C32. What TPM2_NV_DefineSpace returns, on every branch: the code of the first
    failed check on its parameters; TPM_RC_NV_DEFINED if an index with the handle
    exists; TPM_RC_NV_SPACE if the index does not fit in NV memory or in the orderly
    RAM beside the space reserved for objects and counters; otherwise the status of
    NV, which is success if NV is available.  Nothing changes unless it succeeds,
    and then a counter or bit field has eight octets, an extend index the size of
    its digest, no index more than MAX_NV_INDEX_SIZE, none starts out written or
    locked, and only the platform creates platform indices or indices that need a
    policy to be deleted. *)
Theorem nv_define_space s es rs c a auth p pad :
  NvSys s es rs c → op_ok (OpDefineSpace a auth p pad) →
  let checks := define_space_checks a (gc_phEnableNV s) auth p
    (TPM_RC_H + TPM_RC_1) (TPM_RC_P + TPM_RC_1) (TPM_RC_P + TPM_RC_2) in
  ∃ r s', TPM2_NV_DefineSpace pad a auth p s = Some (r, s') ∧
    r = (if negb (checks =? TPM_RC_SUCCESS) then checks
         else if index_of es rs (pub_nvIndex p) is Some _ then TPM_RC_NV_DEFINED
         else if define_fits es rs p then g_NvStatus s else TPM_RC_NV_SPACE) ∧
    (r ≠ TPM_RC_SUCCESS → s' = s) ∧ (r = TPM_RC_SUCCESS → checked a p).
Proof.
  intros Hs (Ha & Lp & Bp & Hh & Lq & Bq). cbv zeta. fold (define_checks a (gc_phEnableNV s) auth p).
  unfold TPM2_NV_DefineSpace, NvDefineSpace. unfold bind at 1, gets. cbv zeta. fold (define_checks a (gc_phEnableNV s) auth p).
  destruct (Z.eqb_spec (define_checks a (gc_phEnableNV s) auth p) TPM_RC_SUCCESS) as [E|E]; cbn [negb];
    [|by eexists _, _; split_and!].
  pose proof (define_checks_ok _ _ _ _ E) as C.
  rewrite (bind_Some _ _ _ _ _ (is_defined _ _ _ _ _ (sys_inv _ _ _ _ Hs) Hh)).
  destruct (index_of es rs (pub_nvIndex p)) as [x|] eqn:Hx; [by eexists _, _; split_and!|].
  destruct (trim_auth_wf auth Ha) as [Lt Bt _].
  destruct (define_index s es rs c p (trim_auth auth) pad) as (r & s' & E' & D); try done; [apply Hs| |].
  { split; try done. apply C. }
  exists r, s'. split; [exact E'|]. destruct D as [(-> & -> & -> & _)|(Hr & -> & ->)]; by split_and!.
Qed.
End props.

(** ** Witnesses *)

(** A checksum in place of the hash algorithms. *)
#[local] Instance sum_hash : HashLib.
Proof.
  refine {| Hash alg d := bfill (fold_left Z.add d 1 mod 256) (CryptHashGetDigestSize alg) |}.
  - intros alg d. apply blen_bfill, digest_size_range.
  - intros alg d. apply Forall_replicate. apply Z.mod_pos_bound. lia.
Defined.

Definition w_h : Z := 0x01000002.
Definition w_attr : Z := Z.lor TPMA_NV_OWNERWRITE (Z.lor TPMA_NV_OWNERREAD TPMA_NV_WRITE_STCLEAR).
Definition w_counter : bytes := public_area w_h (Z.lor w_attr (Z.shiftl TPM_NT_COUNTER 4)) 8.
Definition w_ordinary : bytes := public_area w_h w_attr 16.
Definition w_define (p : bytes) : NvOp := OpDefineSpace TPM_RH_OWNER no_auth p pad2.
Definition w_inc : NvOp := OpIncrement TPM_RH_OWNER w_h.
Definition w_write : NvOp := OpWrite TPM_RH_OWNER w_h [5; 6; 7] 4.
Definition w_undefine : NvOp := OpUndefineSpace TPM_RH_OWNER w_h.
Definition ok (op : NvOp) : Z * NvOp := (TPM_RC_SUCCESS, op).

(** The state a computation ends in, and its response code. *)
Definition end_of {A} (o : option (A * NvState)) : NvState := match o with Some (_, s) => s | None => blank end.
Definition code_is {A} (r : Z) (o : option (Z * A * NvState)) : bool :=
  match o with Some (r', _, _) => r' =? r | None => false end.
Definition returns {A} (o : option A) : bool := match o with Some _ => true | None => false end.

Lemma code_is_some {A} r (o : option (Z * A * NvState)) :
  code_is r o = true → ∃ out, o = Some ((r, out), end_of o).
Proof. destruct o as [[[r' out] s]|]; [|done]. cbn. intros ->%Z.eqb_eq. by exists out. Qed.

Lemma code_is_eq {A} r (o : option (Z * A * NvState)) r' out s :
  code_is r o = true → o = Some ((r', out), s) → r' = r.
Proof. intros E ->. by apply Z.eqb_eq. Qed.

Lemma returns_some {A} (o : option (A * NvState)) : returns o = true → ∃ a, o = Some (a, end_of o).
Proof. destruct o as [[a s]|]; [|done]. by exists a. Qed.

(** Success with an empty response. *)
Definition silent (o : option (Z * list bytes * NvState)) : bool :=
  match o with Some (r, [], _) => r =? TPM_RC_SUCCESS | _ => false end.

Lemma silent_some o : silent o = true → ∃ s, o = Some ((TPM_RC_SUCCESS, []), s).
Proof. destruct o as [[[r [|]] s]|]; try done. cbn. intros ->%Z.eqb_eq. by exists s. Qed.

Definition w0 : NvState := end_of (NvManufacture blank).
Definition w_after (ops : list (Z * NvOp)) : NvState := end_of (nv_run ops w0).

Lemma w0_sys : NvSys w0 [] [] 0 ∧ bounded w0 [] [] 0.
Proof.
  destruct (NvManufacture_ok blank) as (s & Hs & Hi & Hm & _ & _ & Hc & _);
    [by vm_compute|apply Forall_replicate; unfold is_byte; lia|by vm_compute|].
  unfold w0. rewrite Hs. cbn [end_of]. split; split.
  - exact Hi.
  - intros h x [=].
  - rewrite Hm. lia.
  - rewrite Hc. by vm_compute.
  - rewrite Hm. lia.
  - intros h. unfold floor. cbn [index_of List.find from_option]. rewrite Hm. lia.
Qed.

Lemma w_auth_ok : wf_auth no_auth.
Proof. destruct no_auth_ok as [La Ba]. split; [done..|]. by vm_compute. Qed.

Lemma w_define_ok n a : 0 ≤ n ≤ MAX_NV_INDEX_SIZE → op_ok (w_define (public_area w_h a n)).
Proof.
  intros Hn. destruct (public_area_wf w_h a n) as [P1 P2 P3 _]; [done|by vm_compute|done|]. destruct pad2_ok.
  split; [apply w_auth_ok|done].
Qed.

Lemma w_write_ok : op_ok w_write.
Proof. split; [done|]. split; [repeat constructor; unfold is_byte; lia|]. by vm_compute. Qed.

#[local] Hint Extern 1 (op_ok (w_define _)) => (apply w_define_ok; by vm_compute) : core.
#[local] Hint Resolve w_write_ok : core.

Local Ltac ops_ok :=
  repeat first [apply List.Forall_nil|apply List.Forall_cons; [cbn [snd ok]; first [reflexivity|solve [auto]]|]].

(** Any run from the manufactured TPM. *)
Lemma w_after_sys ops :
  Forall (λ p, op_ok p.2) ops → Z.of_nat (length ops) < 2 ^ 64 - 1 →
  ∃ es rs c, NvSys (w_after ops) es rs c ∧ bounded (w_after ops) es rs (Z.of_nat (length ops)).
Proof.
  intros Ok Hl. destruct w0_sys as [Hs Hb]. destruct (nv_run_ok ops w0 [] [] 0 Hs Ok) as (rr & s' & _ & _ & _ & E & _).
  destruct (run_floor ops w0 [] [] 0 rr s' 0 Hs Ok Hb ltac:(lia) E) as (es & rs & c & Hs' & Hb' & _).
  exists es, rs, c. unfold w_after. by rewrite E.
Qed.

(** Witness: defining a counter on a manufactured TPM. *)
Lemma nv_command_refines_witness :
  NvSys w0 [] [] 0 ∧ ∃ r out s' es' rs' c', nv_exec TPM_RC_SUCCESS (w_define w_counter) w0 = Some ((r, out), s') ∧
    NvSys s' es' rs' c' ∧
    nv_step 0 (index_of [] []) (w_define w_counter) out (s_maxCounter s') (index_of es' rs').
Proof.
  destruct w0_sys as [Hs _]. split; [exact Hs|].
  destruct (nv_command_refines w0 [] [] 0 TPM_RC_SUCCESS (w_define w_counter) Hs ltac:(auto))
    as (r & out & s' & es' & rs' & c' & E & Hs' & St & _).
  exists r, out, s', es', rs', c'. split; [exact E|]. split; [exact Hs'|].
  assert (s_maxCounter w0 = 0) as Hm by (by vm_compute). rewrite <- Hm. apply St.
  refine (code_is_eq _ _ _ _ _ _ E). by vm_compute.
Defined.

(** Witness: a counter is incremented, deleted, defined again and incremented. *)
Definition w_between : list (Z * NvOp) := [ok w_undefine; ok (w_define w_counter)].
Definition w_s : NvState := w_after [ok (w_define w_counter)].
Definition w_s1 : NvState := end_of (nv_exec TPM_RC_SUCCESS w_inc w_s).
Definition w_s2 : NvState := end_of (nv_run w_between w_s1).
Definition w_s3 : NvState := end_of (nv_exec TPM_RC_SUCCESS w_inc w_s2).

Lemma w_between_ok : Forall (λ p, op_ok p.2) w_between.
Proof. unfold w_between. ops_ok. Qed.

Lemma nv_counter_never_repeats_witness :
  ∃ v1 v2, fst <$> read_counter w_h w_s1 = Some v1 ∧ fst <$> read_counter w_h w_s3 = Some v2 ∧ v1 < v2.
Proof.
  destruct (w_after_sys [ok (w_define w_counter)] ltac:(ops_ok) ltac:(by vm_compute))
    as (es & rs & c & Hs & Hb).
  destruct (code_is_some TPM_RC_SUCCESS (nv_exec TPM_RC_SUCCESS w_inc w_s)) as [o1 E1]; [by vm_compute|].
  destruct (returns_some (nv_run w_between w_s1)) as [rr Er]; [by vm_compute|].
  destruct (code_is_some TPM_RC_SUCCESS (nv_exec TPM_RC_SUCCESS w_inc w_s2)) as [o2 E2]; [by vm_compute|].
  destruct (returns_some (read_counter w_h w_s1)) as [v1 R1]; [by vm_compute|].
  destruct (returns_some (read_counter w_h w_s3)) as [v2 R2]; [by vm_compute|].
  exists v1, v2. rewrite R1, R2. split; [done|]. split; [done|].
  apply (nv_counter_never_repeats w_s es rs c 1 w_h TPM_RC_SUCCESS TPM_RH_OWNER o1 w_s1 w_between rr w_s2 TPM_RC_SUCCESS
    TPM_RH_OWNER o2 w_s3 v1 v2 (end_of (read_counter w_h w_s1)) (end_of (read_counter w_h w_s3))).
  - exact Hs.
  - exact Hb.
  - by vm_compute.
  - reflexivity.
  - exact w_between_ok.
  - exact E1.
  - exact Er.
  - exact E2.
  - exact R1.
  - exact R2.
Defined.

(** Witness: a counter is locked, another index is defined, the counter is incremented. *)
Definition w_other : list (Z * NvOp) := [ok (w_define (public_area 0x01000007 w_attr 4))].
Definition w_t : NvState := w_after [ok (w_define w_counter); ok w_inc].

Lemma w_other_ok : Forall (λ p, op_ok p.2 ∧ op_deletes p.2 w_h = false) w_other.
Proof.
  constructor; [|constructor]. split; [|done]. destruct (public_area_wf 0x01000007 w_attr 4) as [P1 P2 P3 _];
    [done|by vm_compute|by vm_compute|]. destruct pad2_ok. split; [apply w_auth_ok|done].
Qed.

Lemma nv_write_lock_holds_witness :
  ∃ s1 rr s2 r s3, nv_exec TPM_RC_SUCCESS (OpWriteLock TPM_RH_OWNER w_h) w_t = Some ((TPM_RC_SUCCESS, []), s1) ∧
    nv_run w_other s1 = Some (rr, s2) ∧ nv_exec TPM_RC_SUCCESS w_inc s2 = Some ((r, []), s3) ∧
    (r = TPM_RC_NV_LOCKED ∨ r = TPM_RC_HANDLE) ∧ fst <$> index_data w_h s3 = fst <$> index_data w_h s1.
Proof.
  destruct (w_after_sys [ok (w_define w_counter); ok w_inc] ltac:(ops_ok) ltac:(by vm_compute))
    as (es & rs & c & Hs & _).
  destruct (silent_some (nv_exec TPM_RC_SUCCESS (OpWriteLock TPM_RH_OWNER w_h) w_t)) as [s1 E]; [by vm_compute|].
  destruct (nv_write_lock_holds w_t es rs c w_h TPM_RC_SUCCESS TPM_RH_OWNER [] s1 w_other TPM_RC_SUCCESS w_inc
    Hs ltac:(done) E w_other_ok ltac:(done) ltac:(done)) as (rr & s2 & r & s3 & P).
  exists s1, rr, s2, r, s3. split; [exact E|exact P].
Defined.

Lemma w_other_leaves :
  Forall (λ p, op_ok p.2 ∧ op_deletes p.2 w_h = false ∧ op_writes p.2 w_h = false) w_other.
Proof. pose proof w_other_ok as F. apply Forall_cons_1 in F as [[F1 F2] _]. by repeat constructor. Qed.

(** Witness: three octets are written, another index is defined, the octets are read. *)
Definition w_u : NvState := w_after [ok (w_define w_ordinary)].
Definition w_u1 : NvState := end_of (nv_exec TPM_RC_SUCCESS w_write w_u).
Definition w_u2 : NvState := end_of (nv_run w_other w_u1).

Lemma nv_write_then_read_witness :
  ∃ out s3, nv_exec TPM_RC_SUCCESS (OpRead TPM_RH_OWNER w_h 3 4) w_u2 = Some ((TPM_RC_SUCCESS, out), s3) ∧
    out = [[5; 6; 7]].
Proof.
  destruct (w_after_sys [ok (w_define w_ordinary)] ltac:(ops_ok) ltac:(by vm_compute))
    as (es & rs & c & Hs & _).
  destruct (code_is_some TPM_RC_SUCCESS (nv_exec TPM_RC_SUCCESS w_write w_u)) as [o E]; [by vm_compute|].
  destruct (returns_some (nv_run w_other w_u1)) as [rr Er]; [by vm_compute|].
  destruct (code_is_some TPM_RC_SUCCESS (nv_exec TPM_RC_SUCCESS (OpRead TPM_RH_OWNER w_h 3 4) w_u2)) as [out E3];
    [by vm_compute|].
  exists out. eexists. split; [exact E3|].
  apply (nv_write_then_read w_u es rs c w_h TPM_RC_SUCCESS TPM_RH_OWNER [5; 6; 7] 4 o w_u1 w_other rr w_u2 TPM_RC_SUCCESS
    TPM_RH_OWNER out (end_of (nv_exec TPM_RC_SUCCESS (OpRead TPM_RH_OWNER w_h 3 4) w_u2))).
  - exact Hs.
  - exact w_write_ok.
  - exact E.
  - exact w_other_leaves.
  - exact Er.
  - exact E3.
Defined.

(** Witness: a counter is defined by the owner. *)
Lemma nv_define_space_witness :
  NvSys w0 [] [] 0 ∧ ∃ s', TPM2_NV_DefineSpace pad2 TPM_RH_OWNER no_auth w_counter w0 = Some (TPM_RC_SUCCESS, s') ∧
    checked TPM_RH_OWNER w_counter.
Proof.
  destruct w0_sys as [Hs _]. split; [exact Hs|].
  destruct (nv_define_space w0 [] [] 0 TPM_RH_OWNER no_auth w_counter pad2 Hs) as (r & s' & E & Hr & _ & Hc);
    [exact (w_define_ok 8 _ ltac:(by vm_compute))|].
  assert (r = TPM_RC_SUCCESS) as -> by (rewrite Hr; by vm_compute). exists s'. split; [exact E|]. by apply Hc.
Defined.
