(* ===== verification/Kdf.v ===== *)
(** * HMAC and key derivation (src/CryptHash.c, src/CryptUtil.c)

    [CryptHmacStart] and [CryptHmacEnd], the mask generation function, the two
    key derivation functions and XOR obfuscation, over the hash functions of
    [HashLib].  The contents that a hash state has been given so far are kept as
    octets.  A context or label that may be [NULL] is empty here: the code treats
    both the same.  The loops take as fuel the number of octets they are to
    produce; each iteration produces at least one. *)

From S2P Require Import Prelude TpmTypes Memory.
Local Open Scope Z_scope.

(** [CryptHashGetBlockSize] (TpmAlgorithmDefines.h, lines 83-92). *)
Definition CryptHashGetBlockSize (hashAlg : Z) : Z :=
  if hashAlg =? TPM_ALG_SHA1 then 64
  else if hashAlg =? TPM_ALG_SHA256 then 64
  else if hashAlg =? TPM_ALG_SHA384 then 128
  else if hashAlg =? TPM_ALG_SHA512 then 128
  else 0.

(** [hm_key] is [hmacKey], the key block xored with the outer pad. *)
Record HMAC_STATE := mkHMAC { hm_alg : Z; hm_key : bytes; hm_data : bytes }.

Definition xor_with (x : Z) (b : bytes) : bytes := (λ y, Z.lxor y x) <$> b.

Section hmac.
Context `{HashLib}.

(** The key, or its digest if it is longer than a block. *)
Definition hmac_key (hashAlg : Z) (key : bytes) : bytes :=
  if CryptHashGetBlockSize hashAlg <? blen key
  then take (Z.to_nat (CryptHashGetDigestSize hashAlg)) (Hash hashAlg key)
  else key.

Definition CryptHmacStart (hashAlg : Z) (key : bytes) : HMAC_STATE :=
  if CryptHashGetDigestSize hashAlg =? 0 then mkHMAC hashAlg [] []
  else
    let k := hmac_key hashAlg key in
    let inner := xor_with 0x36 k ++ bfill 0x36 (CryptHashGetBlockSize hashAlg - blen k) in
    mkHMAC hashAlg (xor_with (Z.lxor 0x5c 0x36) inner) inner.

Definition CryptDigestUpdate (data : bytes) (state : HMAC_STATE) : HMAC_STATE :=
  mkHMAC (hm_alg state) (hm_key state) (hm_data state ++ data).

(** [dOutSize] is the size of the digest. *)
Definition CryptHmacEnd (state : HMAC_STATE) : bytes :=
  if hm_alg state =? TPM_ALG_NULL then []
  else Hash (hm_alg state) (hm_key state ++ Hash (hm_alg state) (hm_data state)).

(** Start, one update with everything, end. *)
Definition Hmac (hashAlg : Z) (key data : bytes) : bytes :=
  CryptHmacEnd (CryptDigestUpdate data (CryptHmacStart hashAlg key)).

(** ** RFC 2104 *)

(** The key filled up with zeros to a block. *)
Definition key_block (hashAlg : Z) (key : bytes) : bytes :=
  hmac_key hashAlg key ++ bfill 0 (CryptHashGetBlockSize hashAlg - blen (hmac_key hashAlg key)).

Lemma xor_with_app x a b : xor_with x (a ++ b) = xor_with x a ++ xor_with x b.
Proof. apply fmap_app. Qed.

Lemma xor_with_fill x v n : xor_with x (bfill v n) = bfill (Z.lxor v x) n.
Proof. unfold xor_with, bfill. by rewrite fmap_replicate. Qed.

Lemma xor_with_xor x y b : xor_with y (xor_with x b) = xor_with (Z.lxor x y) b.
Proof.
  unfold xor_with. rewrite <- list_fmap_compose. apply list_fmap_ext. intros _ z _. cbn.
  apply Z.lxor_assoc.
Qed.

Lemma Hmac_rfc2104 hashAlg key data :
  CryptHashGetDigestSize hashAlg ≠ 0 →
  Hmac hashAlg key data
  = Hash hashAlg (xor_with 0x5c (key_block hashAlg key)
                  ++ Hash hashAlg (xor_with 0x36 (key_block hashAlg key) ++ data)).
Proof.
  intros Hd. unfold Hmac, CryptHmacStart. rewrite (proj2 (Z.eqb_neq _ _) Hd).
  unfold CryptDigestUpdate, CryptHmacEnd. cbn [hm_alg hm_key hm_data].
  destruct (Z.eqb_spec hashAlg TPM_ALG_NULL) as [->|_]; [done|].
  unfold key_block. rewrite !xor_with_app, !xor_with_fill, xor_with_xor.
  by change (Z.lxor 0x36 (Z.lxor 92 54)) with 0x5c.
Qed.

Lemma Hmac_size hashAlg key data : blen (Hmac hashAlg key data) = CryptHashGetDigestSize hashAlg.
Proof.
  unfold Hmac, CryptHmacEnd. cbn [hm_alg CryptDigestUpdate].
  assert (E : hm_alg (CryptHmacStart hashAlg key) = hashAlg) by (unfold CryptHmacStart; by case_match).
  rewrite E. case_match eqn:N; [|apply Hash_size]. apply Z.eqb_eq in N. by subst.
Qed.
End hmac.

(** * Key derivation (src/CryptHash.c, src/CryptUtil.c) *)

Definition INT16_MAX : Z := 32767.
(** [BITS_TO_BYTES] (GpMacros.h). *)
Definition BITS_TO_BYTES (bits : Z) : Z := Z.shiftr (bits + 7) 3.
(** The value of an [INT16] that is assigned [x]. *)
Definition int16 (x : Z) : Z := (x + 32768) mod 65536 - 32768.

(** [XOR_KEY] and [CFB_KEY] (Global.c), with their terminators. *)
Definition XOR_KEY : bytes := [0x58; 0x4F; 0x52; 0].
Definition CFB_KEY : bytes := [0x43; 0x46; 0x42; 0].

(** ** XOR of octets, to the length of the first *)
Fixpoint xor_into (data mask : bytes) : bytes :=
  match data, mask with
  | d :: data, m :: mask => Z.lxor d m :: xor_into data mask
  | _, _ => data
  end.

Section kdf.
Context `{HashLib}.

(** ** [CryptMGF_KDF] *)

(** [for(bytes = 0; bytes < mSize; bytes += hLen)]; [left] is [mSize - bytes]. *)
Fixpoint CryptMGF_KDF_loop (fuel : nat) (left : Z) (hashAlg : Z) (seed : bytes) (counter : Z) : bytes :=
  match fuel with
  | O => []
  | S fuel =>
      if 0 <? left then
        take (Z.to_nat left) (Hash hashAlg (seed ++ Uint32ToByteArray counter))
        ++ CryptMGF_KDF_loop fuel (left - CryptHashGetDigestSize hashAlg) hashAlg seed (u32 (counter + 1))
      else []
  end.

(** The mask; empty where nothing is written. *)
Definition CryptMGF_KDF (mSize hashAlg : Z) (seed : bytes) (counter : Z) : bytes :=
  if (CryptHashGetDigestSize hashAlg =? 0) || (mSize =? 0) then []
  else CryptMGF_KDF_loop (Z.to_nat mSize) mSize hashAlg seed (if counter =? 0 then 0 else 1).

(** ** [CryptKDFa] *)

(** What is authenticated in one iteration. *)
Definition kdfa_input (counter : Z) (label contextU contextV : bytes) (sizeInBits : Z) : bytes :=
  Uint32ToByteArray counter ++ label
  ++ (if List.last label 1 =? 0 then [] else [0])
  ++ contextU ++ contextV ++ Uint32ToByteArray sizeInBits.

(** The key stream and the last counter. *)
Fixpoint CryptKDFa_loop (fuel : nat) (bytes : Z) (hashAlg : Z) (key label contextU contextV : list Z)
    (sizeInBits counter : Z) : list Z * Z :=
  match fuel with
  | O => ([], counter)
  | S fuel =>
      if 0 <? bytes then
        let counter := u32 (counter + 1) in
        let block := take (Z.to_nat bytes)
                       (Hmac hashAlg key (kdfa_input counter label contextU contextV sizeInBits)) in
        let '(rest, last) :=
          CryptKDFa_loop fuel (bytes - CryptHashGetDigestSize hashAlg) hashAlg key label contextU
            contextV sizeInBits counter in
        (block ++ rest, last)
      else ([], counter)
  end.

(** [counter] is [*counterInOut], 0 for [NULL]. *)
Definition CryptKDFa_from (hashAlg : Z) (key label contextU contextV : list Z)
    (sizeInBits counter blocks : Z) : list Z * Z :=
  let digestSize := CryptHashGetDigestSize hashAlg in
  if digestSize =? 0 then ([], counter)
  else
    let bytes := int16 (if 0 <? blocks then blocks * digestSize else u16 (BITS_TO_BYTES sizeInBits)) in
    CryptKDFa_loop (Z.to_nat bytes) bytes hashAlg key label contextU contextV sizeInBits counter.

(** With [counterInOut] [NULL] and [blocks] 0. *)
Definition CryptKDFa (hashAlg : Z) (key label contextU contextV : list Z) (sizeInBits : Z) : list Z :=
  (CryptKDFa_from hashAlg key label contextU contextV sizeInBits 0 0).1.

(** ** [CryptKDFe] *)

Fixpoint CryptKDFe_loop (fuel : nat) (bytes : Z) (hashAlg : Z) (z label partyUInfo partyVInfo : list Z)
    (hLen counter : Z) : list Z :=
  match fuel with
  | O => []
  | S fuel =>
      if 0 <? bytes then
        let hLen := if bytes <? hLen then bytes else hLen in
        let counter := u32 (counter + 1) in
        take (Z.to_nat hLen)
          (Hash hashAlg (Uint32ToByteArray counter ++ z ++ label ++ partyUInfo ++ partyVInfo))
        ++ CryptKDFe_loop fuel (bytes - hLen) hashAlg z label partyUInfo partyVInfo hLen counter
      else []
  end.

(** The key stream: for [TPM_ALG_NULL] or no octets to generate nothing is
    written; bits beyond the last octet are masked in the first.  The loop does
    not end for a hash without a digest ([None]). *)
Definition CryptKDFe (hashAlg : Z) (z label partyUInfo partyVInfo : list Z) (sizeInBits : Z)
  : option (list Z) :=
  let bytes := int16 ((sizeInBits + 7) / 8) in
  let hLen := CryptHashGetDigestSize hashAlg in
  if (hashAlg =? TPM_ALG_NULL) || (bytes =? 0) then Some []
  else if (hLen =? 0) && (0 <? bytes) then None
  else
    let stream := CryptKDFe_loop (Z.to_nat bytes) bytes hashAlg z label partyUInfo partyVInfo hLen 0 in
    Some (if sizeInBits mod 8 =? 0 then stream
          else match stream with
               | b :: rest => Z.land b (Z.shiftl 1 (sizeInBits mod 8) - 1) :: rest
               | [] => []
               end).

(** ** [CryptXORObfuscation] (CryptUtil.c) *)

(** [for(; remainBytes > 0; remainBytes -= hLen)]: one block of the mask is
    generated and applied in each iteration; [data] is what remains. *)
Fixpoint CryptXORObfuscation_loop (fuel : nat) (hash : Z) (key contextU contextV : list Z)
    (requestSize counter : Z) (data : bytes) : bytes :=
  match fuel with
  | O => data
  | S fuel =>
      match data with
      | [] => []
      | _ =>
          let '(mask, counter) :=
            CryptKDFa_from hash key XOR_KEY contextU contextV requestSize counter 1 in
          let hLen := Z.to_nat (CryptHashGetDigestSize hash) in
          xor_into (take hLen data) mask
          ++ CryptXORObfuscation_loop fuel hash key contextU contextV requestSize counter (drop hLen data)
      end
  end.

Section obfuscation.
Context {S : Type} `{FailState S}.

(** [CryptKDFa] asserts that the size fits an [INT16]; this happens in every
    iteration.  A hash without a digest never ends the loop. *)
Definition CryptXORObfuscation (hash : Z) (key contextU contextV : list Z) (data : bytes) : M S bytes :=
  let hLen := CryptHashGetDigestSize hash in
  let requestSize := u32 (blen data * 8) in
  pAssert (negb (hLen =? 0)) ;;
  match data with
  | [] => ret []
  | _ =>
      if hLen =? 0 then undef
      else
        pAssert ((requestSize + 7) / 8 <=? INT16_MAX) ;;
        ret (CryptXORObfuscation_loop (length data) hash key contextU contextV requestSize 0 data)
  end.
End obfuscation.

(** ** Lengths *)

Lemma digest_size_le alg : 0 ≤ CryptHashGetDigestSize alg ≤ 64.
Proof. unfold CryptHashGetDigestSize. repeat case_match; lia. Qed.

Lemma int16_small x : 0 ≤ x ≤ INT16_MAX → int16 x = x.
Proof. unfold int16, INT16_MAX. intros. rewrite Z.mod_small; lia. Qed.

Lemma BITS_TO_BYTES_8 n : 0 ≤ n → BITS_TO_BYTES (8 * n) = n.
Proof.
  intros. unfold BITS_TO_BYTES. rewrite Z.shiftr_div_pow2 by lia. change (2 ^ 3) with 8.
  rewrite (Z.mul_comm 8), Z.div_add_l by lia. change (7 / 8) with 0. lia.
Qed.

Lemma CryptKDFa_loop_len fuel n alg key label cu cv bits counter :
  CryptHashGetDigestSize alg ≠ 0 → 0 ≤ n ≤ Z.of_nat fuel →
  blen (CryptKDFa_loop fuel n alg key label cu cv bits counter).1 = n.
Proof.
  intros Hd. pose proof (digest_size_le alg) as Hr.
  assert (G : ∀ fuel n counter, n ≤ Z.of_nat fuel →
            blen (CryptKDFa_loop fuel n alg key label cu cv bits counter).1 = Z.max 0 n).
  { clear fuel n counter. induction fuel as [|fuel IH]; intros n counter Hn; cbn [CryptKDFa_loop].
    { unfold blen; cbn; lia. }
    destruct (Z.ltb_spec 0 n) as [Hp|Hp]; [|unfold blen; cbn; lia].
    specialize (IH (n - CryptHashGetDigestSize alg) (u32 (counter + 1)) ltac:(lia)).
    destruct (CryptKDFa_loop fuel _ _ _ _ _ _ _ _) as [rest last]. cbn [fst] in IH |- *.
    rewrite blen_app, IH. unfold blen at 1. rewrite length_take.
    pose proof (Hmac_size alg key (kdfa_input (u32 (counter + 1)) label cu cv bits)) as Hs.
    unfold blen in Hs. lia. }
  intros Hn. rewrite G by lia. lia.
Qed.

Lemma CryptKDFa_len alg key label cu cv n :
  CryptHashGetDigestSize alg ≠ 0 → 0 ≤ n ≤ INT16_MAX →
  blen (CryptKDFa alg key label cu cv (8 * n)) = n.
Proof.
  intros Hd Hn. unfold CryptKDFa, CryptKDFa_from. rewrite (proj2 (Z.eqb_neq _ _) Hd). cbn [Z.ltb Z.compare].
  unfold INT16_MAX in Hn. rewrite BITS_TO_BYTES_8, (wrap_small 16), int16_small by (unfold INT16_MAX; lia).
  apply CryptKDFa_loop_len; [done|lia].
Qed.

(** A key of the size of the digest. *)
Lemma CryptKDFa_digest alg key label cu cv :
  blen (CryptKDFa alg key label cu cv (CryptHashGetDigestSize alg * 8)) = CryptHashGetDigestSize alg.
Proof.
  destruct (decide (CryptHashGetDigestSize alg = 0)) as [Hd|Hd].
  - unfold CryptKDFa, CryptKDFa_from. by rewrite (proj2 (Z.eqb_eq _ _) Hd), Hd.
  - rewrite Z.mul_comm. apply CryptKDFa_len; [done|].
    pose proof (digest_size_le alg). unfold INT16_MAX. lia.
Qed.
(** ** The key stream *)

(** SP 800-108 in counter mode: the blocks for the counters [from + 1] to
    [from + k]. *)
Definition kdf_blocks (alg : Z) (key label cu cv : bytes) (bits : Z) (from : Z) (k : nat) : bytes :=
  concat ((λ i, Hmac alg key (kdfa_input (u32 (from + i)) label cu cv bits)) <$> seqZ 1 (Z.of_nat k)).

Lemma kdf_blocks_S alg key label cu cv bits from k :
  kdf_blocks alg key label cu cv bits from (S k)
  = Hmac alg key (kdfa_input (u32 (from + 1)) label cu cv bits)
    ++ kdf_blocks alg key label cu cv bits (u32 (from + 1)) k.
Proof.
  unfold kdf_blocks. rewrite seqZ_cons by lia. cbn [fmap list_fmap concat]. f_equal. f_equal.
  replace (Z.pred (Z.of_nat (S k))) with (Z.of_nat k) by lia.
  change (Z.succ 1) with (1 + 1). rewrite <- (fmap_add_seqZ 1 1 (Z.of_nat k)).
  rewrite <- list_fmap_compose. apply list_fmap_ext. intros _ i _. cbn beta.
  replace (u32 (u32 (from + 1) + i)) with (u32 (from + (1 + i))); [done|].
  unfold wrap. rewrite Z.add_mod_idemp_l by done. f_equal. lia.
Qed.

Lemma kdf_blocks_len alg key label cu cv bits k : ∀ from,
  blen (kdf_blocks alg key label cu cv bits from k) = Z.of_nat k * CryptHashGetDigestSize alg.
Proof.
  induction k as [|k IH]; intros from; [done|].
  rewrite kdf_blocks_S, blen_app, IH, Hmac_size. lia.
Qed.

Lemma CryptKDFa_loop_blocks alg key label cu cv bits : CryptHashGetDigestSize alg ≠ 0 →
  ∀ fuel k n from, n ≤ Z.of_nat fuel → n ≤ Z.of_nat k * CryptHashGetDigestSize alg →
  (CryptKDFa_loop fuel n alg key label cu cv bits from).1
  = take (Z.to_nat n) (kdf_blocks alg key label cu cv bits from k).
Proof.
  intros Hd. pose proof (digest_size_le alg) as Hr.
  induction fuel as [|fuel IH]; intros k n from Hn Hk; cbn [CryptKDFa_loop].
  { by replace (Z.to_nat n) with O by lia. }
  destruct (Z.ltb_spec 0 n) as [Hp|Hp]; [|by replace (Z.to_nat n) with O by lia].
  destruct k as [|k]; [lia|]. rewrite kdf_blocks_S.
  specialize (IH k (n - CryptHashGetDigestSize alg) (u32 (from + 1)) ltac:(lia) ltac:(lia)).
  destruct (CryptKDFa_loop fuel _ _ _ _ _ _ _ _) as [rest last]. cbn [fst] in IH |- *. rewrite IH.
  rewrite take_app. f_equal. f_equal.
  pose proof (Hmac_size alg key (kdfa_input (u32 (from + 1)) label cu cv bits)) as Hs.
  unfold blen in Hs. lia.
Qed.

(** [CryptKDFa] is the key stream cut to the size. *)
Lemma CryptKDFa_blocks alg key label cu cv n k :
  CryptHashGetDigestSize alg ≠ 0 → 0 ≤ n ≤ INT16_MAX → n ≤ Z.of_nat k * CryptHashGetDigestSize alg →
  CryptKDFa alg key label cu cv (8 * n)
  = take (Z.to_nat n) (kdf_blocks alg key label cu cv (8 * n) 0 k).
Proof.
  intros Hd Hn Hk. unfold CryptKDFa, CryptKDFa_from. rewrite (proj2 (Z.eqb_neq _ _) Hd).
  cbn [Z.ltb Z.compare]. unfold INT16_MAX in Hn.
  rewrite BITS_TO_BYTES_8, (wrap_small 16), int16_small by (unfold INT16_MAX; lia).
  apply CryptKDFa_loop_blocks; [done|lia|lia].
Qed.

(** ** XOR obfuscation *)

Lemma xor_into_app d1 d2 m1 m2 :
  length d1 = length m1 → xor_into (d1 ++ d2) (m1 ++ m2) = xor_into d1 m1 ++ xor_into d2 m2.
Proof.
  revert m1. induction d1 as [|d d1 IH]; intros [|m m1] E; try done. cbn. f_equal. apply IH. by injection E.
Qed.

Lemma xor_into_take data mask n : (length data ≤ n)%nat → xor_into data (take n mask) = xor_into data mask.
Proof.
  revert mask n. induction data as [|d data IH]; intros mask n Hn; [by destruct mask, n|].
  destruct n as [|n]; [cbn in Hn; lia|]. destruct mask as [|m mask]; [done|].
  cbn. f_equal. apply IH. cbn in Hn. lia.
Qed.

Lemma length_xor_into data mask : length (xor_into data mask) = length data.
Proof. revert mask. induction data as [|d data IH]; intros [|m mask]; cbn; try done. by rewrite IH. Qed.

Lemma xor_into_involutive data mask : xor_into (xor_into data mask) mask = data.
Proof.
  revert mask. induction data as [|d data IH]; intros [|m mask]; try done. cbn. rewrite IH. f_equal.
  by rewrite Z.lxor_assoc, Z.lxor_nilpotent, Z.lxor_0_r.
Qed.

(** One block from the counter: [blocks] is 1. *)
Lemma CryptKDFa_one alg key label cu cv bits from :
  CryptHashGetDigestSize alg ≠ 0 →
  CryptKDFa_from alg key label cu cv bits from 1
  = (Hmac alg key (kdfa_input (u32 (from + 1)) label cu cv bits), u32 (from + 1)).
Proof.
  intros Hd. pose proof (digest_size_le alg) as Hr. unfold CryptKDFa_from.
  rewrite (proj2 (Z.eqb_neq _ _) Hd). cbn [Z.ltb Z.compare]. rewrite Z.mul_1_l.
  rewrite int16_small by (unfold INT16_MAX; lia).
  set (d := CryptHashGetDigestSize alg) in *.
  destruct (Z.to_nat d) as [|k] eqn:Ek; [lia|]. cbn [CryptKDFa_loop].
  rewrite (proj2 (Z.ltb_lt 0 d)) by lia.
  assert (E : CryptKDFa_loop k (d - CryptHashGetDigestSize alg) alg key label cu cv bits (u32 (from + 1))
              = ([], u32 (from + 1))).
  { destruct k; [done|]. cbn [CryptKDFa_loop]. by rewrite (proj2 (Z.ltb_ge 0 _)) by (unfold d; lia). }
  rewrite E, app_nil_r. f_equal. apply take_ge.
  pose proof (Hmac_size alg key (kdfa_input (u32 (from + 1)) label cu cv bits)) as Hs.
  unfold blen in Hs. fold d in Hs. lia.
Qed.

Lemma CryptXORObfuscation_loop_blocks alg key cu cv bits : CryptHashGetDigestSize alg ≠ 0 →
  ∀ fuel data from, (length data ≤ fuel)%nat →
  CryptXORObfuscation_loop fuel alg key cu cv bits from data
  = xor_into data (kdf_blocks alg key XOR_KEY cu cv bits from (length data)).
Proof.
  intros Hd. pose proof (digest_size_le alg) as Hr.
  assert (G : ∀ fuel k data from, (length data ≤ fuel)%nat → (length data ≤ k)%nat →
     CryptXORObfuscation_loop fuel alg key cu cv bits from data
     = xor_into data (kdf_blocks alg key XOR_KEY cu cv bits from k)).
  2:{ intros. apply G; lia. }
  induction fuel as [|fuel IH]; intros k data from Hf Hk.
  { destruct data; [|cbn in Hf; lia]. by destruct (kdf_blocks _ _ _ _ _ _ _ _). }
  cbn [CryptXORObfuscation_loop]. destruct data as [|x data'].
  { by destruct (kdf_blocks _ _ _ _ _ _ _ _). }
  set (data := x :: data') in *. destruct k as [|k]; [cbn in Hk; lia|].
  rewrite CryptKDFa_one by done. rewrite kdf_blocks_S.
  set (m := Hmac _ _ _). set (n := Z.to_nat (CryptHashGetDigestSize alg)).
  assert (Lm : length m = n).
  { pose proof (Hmac_size alg key (kdfa_input (u32 (from + 1)) XOR_KEY cu cv bits)) as Hs.
    unfold blen in Hs. fold m in Hs. unfold n. lia. }
  assert (Ld : (length (drop n data) < length data)%nat).
  { rewrite length_drop. unfold n. cbn. lia. }
  rewrite (IH k) by lia.
  destruct (decide (n ≤ length data)%nat) as [Hl|Hl].
  - rewrite <- (take_drop n data) at 3. rewrite xor_into_app; [done|]. rewrite length_take. lia.
  - rewrite (take_ge data), (drop_ge data) by lia.
    rewrite <- (xor_into_take data (m ++ _) n) by lia. rewrite take_app_le, take_ge by lia.
    by destruct (kdf_blocks _ _ _ _ _ _ _ _); cbn [xor_into]; rewrite app_nil_r.
Qed.

(** Obfuscation is exclusive or with the key stream of the whole size, although
    it is generated block by block. *)
Lemma CryptXORObfuscation_stream {S} `{FailState S} alg key cu cv data (s : S) :
  CryptHashGetDigestSize alg ≠ 0 → blen data ≤ INT16_MAX →
  CryptXORObfuscation alg key cu cv data s
  = Some (xor_into data (CryptKDFa alg key XOR_KEY cu cv (8 * blen data)), s).
Proof.
  intros Hd Hl. pose proof (digest_size_le alg) as Hr. unfold CryptXORObfuscation.
  rewrite (proj2 (Z.eqb_neq _ _) Hd). cbn [negb pAssert]. unfold bind at 1. cbn [ret].
  destruct data as [|x data']; [done|]. set (data := x :: data') in *.
  pose proof (blen_nonneg data). unfold INT16_MAX in Hl.
  rewrite (Z.mul_comm (blen data)), (wrap_small 32) by lia.
  replace ((8 * blen data + 7) / 8) with (blen data)
    by (rewrite (Z.mul_comm 8), Z.div_add_l by lia; change (7 / 8) with 0; lia).
  erewrite bind_Some by (apply pAssert_true, Z.leb_le; unfold INT16_MAX; lia).
  unfold ret. do 2 f_equal. rewrite CryptXORObfuscation_loop_blocks by done.
  rewrite (CryptKDFa_blocks alg key XOR_KEY cu cv (blen data) (length data))
    by (done || (unfold INT16_MAX; unfold blen in *; nia)).
  by rewrite xor_into_take by (unfold blen; lia).
Qed.
End kdf.
