(* ===== verification/Session.v ===== *)
(** * Authorization sessions (src/Session.c)

    The session slots, the tracking array of context identifiers and the
    operations on them, statement by statement.  [gr.contextArray] holds, for
    each of the 64 session handles, 0 (free), 1..3 (loaded in that slot) or the
    low 16 bits of the context identifier under which the session was saved.

    What a session needs from the entities and from the random number
    generator is the class [SessionEnv]. *)

From S2P Require Import Prelude TpmTypes Memory Kdf.
Local Open Scope Z_scope.

(** ** Data (Global.h, lines 295-411 and 1345-1366) *)

Record SESSION_ATTRIBUTES := mkAttr {
  isPolicy : bool; isAudit : bool; isBound : bool; isCpHashDefined : bool;
  isNameHashDefined : bool; isParametersHashDefined : bool; isTemplateHashDefined : bool;
  isAuthValueNeeded : bool; isPasswordNeeded : bool; isPPRequired : bool;
  isTrialPolicy : bool; isDaBound : bool; isLockoutBound : bool; includeAuth : bool;
  checkNvWritten : bool; nvWrittenState : bool
}.

Definition zero_attr : SESSION_ATTRIBUTES :=
  mkAttr false false false false false false false false false false false false false
    false false false.

(** [TPMT_SYM_DEF]: an algorithm identifier, key bits and mode. *)
Record TPMT_SYM_DEF := mkSymDef { sd_algorithm : Z; sd_keyBits : Z; sd_mode : Z }.

(** [struct SESSION].  Every member of the unions [u1] and [u2] is a sized
    buffer at the same address: [u1] is as large as its largest member,
    [boundEntity]. *)
Record SESSION := mkSession {
  attributes : SESSION_ATTRIBUTES;
  ss_pcrCounter : Z;
  startTime : Z;
  timeout : Z;
  epoch : Z;
  commandCode : Z;
  authHashAlg : Z;
  commandLocality : Z;
  symmetric : TPMT_SYM_DEF;
  sessionKey : TPM2B;
  nonceTPM : TPM2B;
  u1 : TPM2B;                          (* boundEntity, cpHash, nameHash, ... *)
  u2 : TPM2B                           (* auditDigest, policyDigest *)
}.

Definition zero2B (n : Z) : TPM2B := mkTPM2B 0 (bfill 0 n).

(** [MemorySet(session, 0, sizeof(SESSION))] *)
Definition zero_session : SESSION :=
  mkSession zero_attr 0 0 0 0 0 0 0 (mkSymDef 0 0 0) (zero2B sizeof_TPMU_HA)
    (zero2B sizeof_TPMU_HA) (zero2B sizeof_TPMU_NAME) (zero2B sizeof_TPMU_HA).

Record SESSION_SLOT := mkSlot { occupied : bool; session : SESSION }.

(** What sessions rely on in the random number generator (CryptRand.c). *)
Class CryptEnv := {
  drbg : Type;
  CryptRandomGenerate : drbg → Z → bytes * drbg;
  CryptRandomGenerate_len d n : 0 ≤ n →
    blen (CryptRandomGenerate d n).1 = n ∧ Forall is_byte (CryptRandomGenerate d n).1
}.

(** And in the entities: the authorization value and the Name of an entity
    (Entity.c), and whether it is exempt from dictionary attack protection
    (SessionProcess.c). *)
Class SessionEnv := {
  EntityGetAuthValue : Z → TPM2B;
  EntityGetName : Z → TPM2B;
  IsDAExempted : Z → bool;
  EntityGetAuthValue_wf handle :
    wf2B (EntityGetAuthValue handle) ∧ blen (buffer2B (EntityGetAuthValue handle)) = sizeof_TPMU_HA;
  EntityGetName_wf handle :
    wf2B (EntityGetName handle) ∧ blen (buffer2B (EntityGetName handle)) = sizeof_TPMU_NAME
}.

(** [SESSION_KEY] (Global.c, line 117): the string ATH with its terminator. *)
Definition SESSION_KEY : bytes := [0x41; 0x54; 0x48; 0x00].

(** Field updates of a session. *)
Definition with_attributes a ses := mkSession a (ss_pcrCounter ses) (startTime ses) (timeout ses)
  (epoch ses) (commandCode ses) (authHashAlg ses) (commandLocality ses) (symmetric ses)
  (sessionKey ses) (nonceTPM ses) (u1 ses) (u2 ses).
Definition with_times st ti ep ses := mkSession (attributes ses) (ss_pcrCounter ses) st ti
  ep (commandCode ses) (authHashAlg ses) (commandLocality ses) (symmetric ses)
  (sessionKey ses) (nonceTPM ses) (u1 ses) (u2 ses).
Definition with_authHashAlg h ses := mkSession (attributes ses) (ss_pcrCounter ses)
  (startTime ses) (timeout ses) (epoch ses) (commandCode ses) h (commandLocality ses)
  (symmetric ses) (sessionKey ses) (nonceTPM ses) (u1 ses) (u2 ses).
Definition with_symmetric d ses := mkSession (attributes ses) (ss_pcrCounter ses)
  (startTime ses) (timeout ses) (epoch ses) (commandCode ses) (authHashAlg ses)
  (commandLocality ses) d (sessionKey ses) (nonceTPM ses) (u1 ses) (u2 ses).
Definition with_sessionKey k ses := mkSession (attributes ses) (ss_pcrCounter ses)
  (startTime ses) (timeout ses) (epoch ses) (commandCode ses) (authHashAlg ses)
  (commandLocality ses) (symmetric ses) k (nonceTPM ses) (u1 ses) (u2 ses).
Definition with_nonceTPM n ses := mkSession (attributes ses) (ss_pcrCounter ses)
  (startTime ses) (timeout ses) (epoch ses) (commandCode ses) (authHashAlg ses)
  (commandLocality ses) (symmetric ses) (sessionKey ses) n (u1 ses) (u2 ses).
Definition with_u1 u ses := mkSession (attributes ses) (ss_pcrCounter ses)
  (startTime ses) (timeout ses) (epoch ses) (commandCode ses) (authHashAlg ses)
  (commandLocality ses) (symmetric ses) (sessionKey ses) (nonceTPM ses) u (u2 ses).
Definition with_u2 u ses := mkSession (attributes ses) (ss_pcrCounter ses)
  (startTime ses) (timeout ses) (epoch ses) (commandCode ses) (authHashAlg ses)
  (commandLocality ses) (symmetric ses) (sessionKey ses) (nonceTPM ses) (u1 ses) u.
Definition set_size (b : TPM2B) (n : Z) : TPM2B := mkTPM2B n (buffer2B b).

Section session.
Context {CE : CryptEnv} {HL : HashLib} {H : SessionEnv}.

(** The part of [gr] and of the session module's statics that Session.c uses. *)
Record SessState := mkSess {
  contextArray : list Z;               (* CONTEXT_SLOT [MAX_ACTIVE_SESSIONS] *)
  contextCounter : Z;                  (* UINT64 *)
  pcrCounter : Z;
  s_sessions : list SESSION_SLOT;      (* [MAX_LOADED_SESSIONS] *)
  s_oldestSavedSession : Z;
  s_freeSessionSlots : Z;
  g_time : Z;
  g_timeEpoch : Z;
  rand : drbg;
  s_inFailureMode : bool
}.

#[global] Instance sess_fail : FailState SessState := {|
  set_failure s := mkSess (contextArray s) (contextCounter s) (pcrCounter s) (s_sessions s)
    (s_oldestSavedSession s) (s_freeSessionSlots s) (g_time s) (g_timeEpoch s) (rand s) true
|}.

Definition set_contextArray a s := mkSess a (contextCounter s) (pcrCounter s) (s_sessions s)
  (s_oldestSavedSession s) (s_freeSessionSlots s) (g_time s) (g_timeEpoch s) (rand s)
  (s_inFailureMode s).
Definition set_contextCounter c s := mkSess (contextArray s) c (pcrCounter s) (s_sessions s)
  (s_oldestSavedSession s) (s_freeSessionSlots s) (g_time s) (g_timeEpoch s) (rand s)
  (s_inFailureMode s).
Definition set_sessions l s := mkSess (contextArray s) (contextCounter s) (pcrCounter s) l
  (s_oldestSavedSession s) (s_freeSessionSlots s) (g_time s) (g_timeEpoch s) (rand s)
  (s_inFailureMode s).
Definition set_oldest o s := mkSess (contextArray s) (contextCounter s) (pcrCounter s)
  (s_sessions s) o (s_freeSessionSlots s) (g_time s) (g_timeEpoch s) (rand s)
  (s_inFailureMode s).
Definition set_free f s := mkSess (contextArray s) (contextCounter s) (pcrCounter s)
  (s_sessions s) (s_oldestSavedSession s) f (g_time s) (g_timeEpoch s) (rand s)
  (s_inFailureMode s).
Definition set_rand r s := mkSess (contextArray s) (contextCounter s) (pcrCounter s)
  (s_sessions s) (s_oldestSavedSession s) (s_freeSessionSlots s) (g_time s) (g_timeEpoch s) r
  (s_inFailureMode s).

(** Array accesses; outside the array C gives no result. *)
Definition ca_get (i : Z) : M SessState Z :=
  let! a := gets contextArray in of_option (a !! Z.to_nat i).
Definition ca_set (i v : Z) : M SessState unit :=
  let! a := gets contextArray in
  if i <? Z.of_nat (length a) then modify (set_contextArray (<[Z.to_nat i := v]> a)) else undef.
Definition slot_get (i : Z) : M SessState SESSION_SLOT :=
  let! l := gets s_sessions in of_option (l !! Z.to_nat i).
Definition slot_set (i : Z) (v : SESSION_SLOT) : M SessState unit :=
  let! l := gets s_sessions in
  if i <? Z.of_nat (length l) then modify (set_sessions (<[Z.to_nat i := v]> l)) else undef.
Definition set_occupied (i : Z) (b : bool) : M SessState unit :=
  let! sl := slot_get i in slot_set i (mkSlot b (session sl)).

(** ** The oldest saved context *)

(** The loop of [ContextIdSetOldest]: [i] is the index of the head of [arr]. *)
Fixpoint oldest_loop (lowBits : Z) (arr : list Z) (i smallest oldest : Z) : Z :=
  match arr with
  | [] => oldest
  | entry :: arr =>
      if (MAX_LOADED_SESSIONS <? entry) && (u16 (entry - lowBits) <=? smallest)
      then oldest_loop lowBits arr (i + 1) (u16 (entry - lowBits)) i
      else oldest_loop lowBits arr (i + 1) smallest oldest
  end.

Definition ContextIdSetOldest : M SessState unit :=
  modify (λ s, set_oldest
    (oldest_loop (u16 (contextCounter s)) (contextArray s) 0 (u16 (-1)) (MAX_ACTIVE_SESSIONS + 1)) s).

Definition SessionStartup (type : STARTUP_TYPE) : M SessState bool :=
  modify (λ s, set_sessions (map (λ sl, mkSlot false (session sl)) (s_sessions s)) s) ;;
  modify (set_free MAX_LOADED_SESSIONS) ;;
  match type with
  | SU_RESUME | SU_RESTART =>
      modify (λ s, set_contextArray
        (map (λ e, if e <=? MAX_LOADED_SESSIONS then 0 else e) (contextArray s)) s) ;;
      ContextIdSetOldest ;;
      ret true
  | SU_RESET =>
      modify (λ s, set_contextArray (map (λ _, 0) (contextArray s)) s) ;;
      modify (set_contextCounter (MAX_LOADED_SESSIONS + 1)) ;;
      modify (set_oldest (MAX_ACTIVE_SESSIONS + 1)) ;;
      ret true
  end.

(** ** Access *)

Definition is_session_handle (handle : Z) : bool :=
  (HandleGetType handle =? TPM_HT_POLICY_SESSION) || (HandleGetType handle =? TPM_HT_HMAC_SESSION).

Definition SessionIsLoaded (handle : Z) : M SessState bool :=
  pAssert (is_session_handle handle) ;;
  let handle := Z.land handle HR_HANDLE_MASK in
  if MAX_ACTIVE_SESSIONS <=? handle then ret false
  else
    let! e := ca_get handle in
    if (e =? 0) || (MAX_LOADED_SESSIONS <? e) then ret false else ret true.

Definition SessionIsSaved (handle : Z) : M SessState bool :=
  pAssert (is_session_handle handle) ;;
  let handle := Z.land handle HR_HANDLE_MASK in
  if MAX_ACTIVE_SESSIONS <=? handle then ret false
  else
    let! e := ca_get handle in
    if (e =? 0) || (e <=? MAX_LOADED_SESSIONS) then ret false else ret true.

(** [MAX_CONTEXT_GAP] *)
Definition MAX_CONTEXT_GAP : Z := u16 (-1) + 1.

(** The members of [TPMS_CONTEXT] that the check reads. *)
Record TPMS_CONTEXT := mkContext { sequence : Z; savedHandle : Z }.

Definition SequenceNumberForSavedContextIsValid (context : TPMS_CONTEXT) : M SessState bool :=
  let handle := Z.land (savedHandle context) HR_HANDLE_MASK in
  if MAX_ACTIVE_SESSIONS <=? handle then ret false
  else
    let! e := ca_get handle in
    let! counter := gets contextCounter in
    if (e <=? MAX_LOADED_SESSIONS)
       || negb (e =? u16 (sequence context))
       || (counter <? sequence context)
       || (MAX_CONTEXT_GAP <? u64 (counter - sequence context))
    then ret false else ret true.

Definition SessionPCRValueIsCurrent (session : SESSION) : M SessState bool :=
  let! c := gets pcrCounter in
  if negb (ss_pcrCounter session =? 0) && negb (ss_pcrCounter session =? c)
  then ret false else ret true.

(** [SessionGet] returns a pointer into [s_sessions]: here the slot index. *)
Definition SessionGet (handle : Z) : M SessState Z :=
  pAssert (is_session_handle handle) ;;
  let slotIndex := Z.land handle HR_HANDLE_MASK in
  pAssert (slotIndex <? MAX_ACTIVE_SESSIONS) ;;
  let! e := ca_get slotIndex in
  let sessionIndex := u16 (e - 1) in
  pAssert (sessionIndex <? MAX_LOADED_SESSIONS) ;;
  ret sessionIndex.

(** ** Creating a session *)

(** The search for a free entry of [contextArray]; [i] is the index of the
    head.  The result is [MAX_ACTIVE_SESSIONS] if there is none. *)
Fixpoint find_entry (arr : list Z) (i : Z) : Z :=
  match arr with
  | [] => i
  | e :: arr => if e =? 0 then i else find_entry arr (i + 1)
  end.

(** Returns the response code and the new value of the out parameter. *)
Definition ContextIdSessionCreate (handle sessionIndex : Z) : M SessState (Z * Z) :=
  pAssert (sessionIndex <? MAX_LOADED_SESSIONS) ;;
  let! oldest := gets s_oldestSavedSession in
  let! free := gets s_freeSessionSlots in
  let! counter := gets contextCounter in
  let! gap :=
    (if (oldest <? MAX_ACTIVE_SESSIONS) && (free =? 1)
     then let! e := ca_get oldest in ret (u16 counter =? e)
     else ret false) in
  if gap then ret (TPM_RC_CONTEXT_GAP, handle)
  else
    let! arr := gets contextArray in
    let handle := find_entry arr 0 in
    if handle <? MAX_ACTIVE_SESSIONS
    then
      ca_set handle (u16 (sessionIndex + 1)) ;;
      ret (TPM_RC_SUCCESS, handle)
    else ret (TPM_RC_SESSION_HANDLES, handle).

(** The search for a free slot; [MAX_LOADED_SESSIONS] if there is none. *)
Fixpoint find_session_slot (l : list SESSION_SLOT) (i : Z) : Z :=
  match l with
  | [] => i
  | sl :: l => if occupied sl then find_session_slot l (i + 1) else i
  end.

Definition SessionSetStartTime (ses : SESSION) : M SessState SESSION :=
  let! t := gets g_time in
  let! e := gets g_timeEpoch in
  ret (with_times t 0 e ses).

(** [for(i = sizeof(name) - auth.size; i < sizeof(name); i++) name[i] ^= *pAuth++] *)
Fixpoint xor_at (name : bytes) (i : nat) (auth : bytes) : bytes :=
  match auth with
  | [] => name
  | a :: auth => xor_at (alter (λ b, Z.lxor b a) i name) (S i) auth
  end.

(** The binding value from the Name and the authorization value of the entity. *)
Definition bound_entity (bind auth : TPM2B) : TPM2B :=
  let name := MemorySet (buffer2B bind) (size2B bind) 0 (sizeof_TPMU_NAME - size2B bind) in
  mkTPM2B sizeof_TPMU_NAME
    (xor_at name (Z.to_nat (sizeof_TPMU_NAME - size2B auth)) (contents auth)).

Definition SessionComputeBoundEntity (entityHandle : Z) : TPM2B :=
  bound_entity (EntityGetName entityHandle) (EntityGetAuthValue entityHandle).

(** The session secret: [KDFa(hash, authValue || seed, ATH, nonceTPM, nonceCaller)].
    The key buffer is filled by [EntityGetAuthValue] and [MemoryConcat2B]; the
    octets past its size are never read. *)
Definition session_key_of (bind : Z) (seed nonceCaller : TPM2B) (ses : SESSION)
    : M SessState SESSION :=
  let bits_size := CryptHashGetDigestSize (authHashAlg ses) in
  let auth := EntityGetAuthValue bind in
  let key := mkTPM2B (size2B auth)
    (bwrite (bfill 0 (2 * sizeof_TPMT_HA)) 0 (contents auth)) in
  pAssert (size2B key + size2B seed <=? 2 * sizeof_TPMT_HA) ;;
  let! key := MemoryConcat2B key seed (2 * sizeof_TPMT_HA) in
  let! buf := buffer_write (buffer2B (sessionKey ses)) 0
    (CryptKDFa (authHashAlg ses) (contents key) SESSION_KEY (contents (nonceTPM ses))
       (contents nonceCaller) (bits_size * 8)) in
  ret (with_sessionKey (mkTPM2B bits_size buf) ses).

(** The initialisation of the session structure in [SessionCreate]
    (lines 499-585), in three parts: the session type, ... *)
Definition session_type_init (sessionType authHash : Z) : M SessState SESSION :=
  let ses := with_authHashAlg authHash zero_session in
  if sessionType =? TPM_SE_HMAC then ret ses
  else
    let ses := with_attributes
      (mkAttr true false false false false false false false false false
         (sessionType =? TPM_SE_TRIAL) false false false false false) ses in
    let! ses := SessionSetStartTime ses in
    ret (with_u2 (set_size (u2 ses) (CryptHashGetDigestSize (authHashAlg ses))) ses).

(** ... the binding to an entity and to its dictionary attack protection, ... *)
Definition session_binding (sessionType bindh : Z) (ses : SESSION) : SESSION :=
  let bound := negb (bindh =? TPM_RH_NULL) && (sessionType =? TPM_SE_HMAC) in
  let ses := if bound then with_u1 (SessionComputeBoundEntity bindh) ses else ses in
  let da := negb (bindh =? TPM_RH_NULL) && negb (IsDAExempted bindh) in
  let a := attributes ses in
  with_attributes
    (mkAttr (isPolicy a) (isAudit a) bound (isCpHashDefined a) (isNameHashDefined a)
       (isParametersHashDefined a) (isTemplateHashDefined a) (isAuthValueNeeded a)
       (isPasswordNeeded a) (isPPRequired a) (isTrialPolicy a) da
       (da && (bindh =? TPM_RH_LOCKOUT)) (includeAuth a) (checkNvWritten a)
       (nvWrittenState a)) ses.

(** ... and between them the nonce, the algorithm and the session key. *)
Definition session_init (sessionType authHash : Z) (nonceCaller : TPM2B)
    (sym : TPMT_SYM_DEF) (bindh : Z) (seed nonceTpm : TPM2B)
    : M SessState (SESSION * TPM2B) :=
  let! ses := session_type_init sessionType authHash in
  let! r := gets rand in
  let '(rb, r') := CryptRandomGenerate r (size2B nonceCaller) in
  modify (set_rand r') ;;
  let! nbuf := buffer_write (buffer2B (nonceTPM ses)) 0 rb in
  let ses := with_nonceTPM (mkTPM2B (size2B nonceCaller) nbuf) ses in
  let! '(_, nonceTpm) := MemoryCopy2B nonceTpm (Some (nonceTPM ses)) sizeof_TPMU_HA in
  let ses := with_symmetric sym ses in
  let! ses :=
    (if negb (bindh =? TPM_RH_NULL) || negb (size2B seed =? 0)
     then session_key_of bindh seed nonceCaller ses else ret ses) in
  ret (session_binding sessionType bindh ses, nonceTpm).

(** The rest of [SessionCreate] once the handle is assigned (lines 487-586). *)
Definition session_create_at (slotIndex sessionType authHash : Z) (nonceCaller : TPM2B)
    (sym : TPMT_SYM_DEF) (bindh : Z) (seed : TPM2B) (sessionHandle : Z) (nonceTpm : TPM2B)
    : M SessState (Z * Z * TPM2B) :=
  modify (λ s, set_free (s_freeSessionSlots s - 1) s) ;;
  set_occupied slotIndex true ;;
  let! '(ses, nonceTpm) :=
    session_init sessionType authHash nonceCaller sym bindh seed nonceTpm in
  slot_set slotIndex (mkSlot true ses) ;;
  ret (TPM_RC_SUCCESS,
       sessionHandle + (if sessionType =? TPM_SE_HMAC then HMAC_SESSION_FIRST
                        else POLICY_SESSION_FIRST), nonceTpm).

(** The out parameters are the session handle and the TPM's nonce. *)
Definition SessionCreate (sessionType authHash : Z) (nonceCaller : TPM2B)
    (sym : TPMT_SYM_DEF) (bindh : Z) (seed : TPM2B) (sessionHandle : Z) (nonceTpm : TPM2B)
    : M SessState (Z * Z * TPM2B) :=
  pAssert ((sessionType =? TPM_SE_HMAC) || (sessionType =? TPM_SE_POLICY)
           || (sessionType =? TPM_SE_TRIAL)) ;;
  let! free := gets s_freeSessionSlots in
  if free =? 0 then ret (TPM_RC_SESSION_MEMORY, sessionHandle, nonceTpm)
  else
    let! l := gets s_sessions in
    let slotIndex := find_session_slot l 0 in
    pAssert (negb (MAX_LOADED_SESSIONS <=? slotIndex)) ;;
    let! '(result, sessionHandle) := ContextIdSessionCreate sessionHandle slotIndex in
    if negb (result =? TPM_RC_SUCCESS) then ret (result, sessionHandle, nonceTpm)
    else session_create_at slotIndex sessionType authHash nonceCaller sym bindh seed
           sessionHandle nonceTpm.

(** ** Saving, loading and flushing a session context *)

(** [contextID] is the value the out parameter has on entry; the caller passes
    its address (a [NULL] only drops the result, which is its value on return). *)
Definition SessionContextSave (handle contextID : Z) : M SessState (Z * Z) :=
  let! loaded := SessionIsLoaded handle in
  pAssert loaded ;;
  let! oldest := gets s_oldestSavedSession in
  let! counter := gets contextCounter in
  let! gap :=
    (if oldest <? MAX_ACTIVE_SESSIONS
     then let! e := ca_get oldest in ret (e =? u16 counter)
     else ret false) in
  if gap then ret (TPM_RC_CONTEXT_GAP, contextID)
  else
    let contextID := counter in
    let contextIndex := Z.land handle HR_HANDLE_MASK in
    pAssert (contextIndex <? MAX_ACTIVE_SESSIONS) ;;
    let! e := ca_get contextIndex in
    let slotIndex := u16 (e - 1) in
    ca_set contextIndex (u16 counter) ;;
    let counter := u64 (counter + 1) in
    modify (set_contextCounter counter) ;;
    if counter =? 0
    then
      modify (set_contextCounter (u64 (counter - 1))) ;;
      ret (TPM_RC_TOO_MANY_CONTEXTS, contextID)
    else
      (if u16 counter =? 0
       then modify (set_contextCounter (u64 (counter + (MAX_LOADED_SESSIONS + 1))))
       else ret tt) ;;
      (if MAX_ACTIVE_SESSIONS <=? oldest then modify (set_oldest contextIndex) else ret tt) ;;
      set_occupied slotIndex false ;;
      modify (λ s, set_free (s_freeSessionSlots s + 1) s) ;;
      ret (TPM_RC_SUCCESS, contextID).

Definition SessionContextLoad (ses : SESSION) (handle : Z) : M SessState Z :=
  pAssert (is_session_handle handle) ;;
  let! free := gets s_freeSessionSlots in
  if free =? 0 then ret TPM_RC_SESSION_MEMORY
  else
    let! l := gets s_sessions in
    let slotIndex := find_session_slot l 0 in
    pAssert (slotIndex <? MAX_LOADED_SESSIONS) ;;
    let contextIndex := Z.land handle HR_HANDLE_MASK in
    let! oldest := gets s_oldestSavedSession in
    let! counter := gets contextCounter in
    let! gap :=
      (if (oldest <? MAX_ACTIVE_SESSIONS) && (free =? 1)
       then let! e := ca_get oldest in
            ret ((u16 counter =? e) && negb (contextIndex =? oldest))
       else ret false) in
    if gap then ret TPM_RC_CONTEXT_GAP
    else
      pAssert (contextIndex <? MAX_ACTIVE_SESSIONS) ;;
      ca_set contextIndex (u16 (slotIndex + 1)) ;;
      (if contextIndex =? oldest then ContextIdSetOldest else ret tt) ;;
      slot_set slotIndex (mkSlot true ses) ;;
      modify (λ s, set_free (s_freeSessionSlots s - 1) s) ;;
      ret TPM_RC_SUCCESS.

Definition SessionFlush (handle : Z) : M SessState unit :=
  let! ok :=
    (if is_session_handle handle
     then let! loaded := SessionIsLoaded handle in
          if loaded then ret true else SessionIsSaved handle
     else ret false) in
  pAssert ok ;;
  let contextIndex := Z.land handle HR_HANDLE_MASK in
  pAssert (contextIndex <? MAX_ACTIVE_SESSIONS) ;;
  let! slotIndex := ca_get contextIndex in
  ca_set contextIndex 0 ;;
  let! oldest := gets s_oldestSavedSession in
  if MAX_LOADED_SESSIONS <? slotIndex
  then if contextIndex =? oldest then ContextIdSetOldest else ret tt
  else
    set_occupied (u16 (slotIndex - 1)) false ;;
    modify (λ s, set_free (s_freeSessionSlots s + 1) s).

(** [SessionResetPolicyData]: the policy data, keeping the nonce, the start
    time and the binding attributes. *)
Definition SessionResetPolicyData (ses : SESSION) : SESSION :=
  let old := attributes ses in
  mkSession
    (mkAttr true false false false false false false false false false (isTrialPolicy old)
       (isDaBound old) (isLockoutBound old) false false false)
    0 (startTime ses) 0 (epoch ses) 0 (authHashAlg ses) 0 (symmetric ses) (sessionKey ses)
    (nonceTPM ses) (set_size (u1 ses) 0)
    (mkTPM2B (size2B (u2 ses)) (MemorySet (buffer2B (u2 ses)) 0 0 (size2B (u2 ses)))).

Definition IsCpHashUnionOccupied (attrs : SESSION_ATTRIBUTES) : bool :=
  isBound attrs || isCpHashDefined attrs || isNameHashDefined attrs
  || isParametersHashDefined attrs || isTemplateHashDefined attrs.

(** ** Reporting sessions *)

(** The scans of [SessionCapGetLoaded] and [SessionCapGetSaved] from index [i]:
    [n] entries are left; the list so far is in [acc]. *)
Fixpoint cap_loaded (n : nat) (i count : Z) (acc : list Z) : M SessState (list Z * bool) :=
  match n with
  | O => ret (acc, false)
  | S n =>
      let! e := ca_get i in
      if negb (e =? 0) && (e <=? MAX_LOADED_SESSIONS)
      then
        if Z.of_nat (length acc) <? count
        then
          let! k := SessionGet (i + HMAC_SESSION_FIRST) in
          let! sl := slot_get k in
          let handle := i + (if isPolicy (attributes (session sl)) then POLICY_SESSION_FIRST
                             else HMAC_SESSION_FIRST) in
          cap_loaded n (i + 1) count (acc ++ [handle])
        else ret (acc, true)
      else cap_loaded n (i + 1) count acc
  end.

Fixpoint cap_saved (n : nat) (i count : Z) (acc : list Z) : M SessState (list Z * bool) :=
  match n with
  | O => ret (acc, false)
  | S n =>
      let! e := ca_get i in
      if negb (e =? 0) && (MAX_LOADED_SESSIONS <? e)
      then
        if Z.of_nat (length acc) <? count
        then cap_saved n (i + 1) count (acc ++ [i + HMAC_SESSION_FIRST])
        else ret (acc, true)
      else cap_saved n (i + 1) count acc
  end.

Definition cap_limit (count : Z) : Z := if MAX_CAP_HANDLES <? count then MAX_CAP_HANDLES else count.

Definition SessionCapGetLoaded (handle count : Z) : M SessState (list Z * bool) :=
  pAssert (HandleGetType handle =? TPM_HT_LOADED_SESSION) ;;
  let i := Z.land handle HR_HANDLE_MASK in
  cap_loaded (Z.to_nat (MAX_ACTIVE_SESSIONS - i)) i (cap_limit count) [].

Definition SessionCapGetSaved (handle count : Z) : M SessState (list Z * bool) :=
  pAssert (HandleGetType handle =? TPM_HT_SAVED_SESSION) ;;
  let i := Z.land handle HR_HANDLE_MASK in
  cap_saved (Z.to_nat (MAX_ACTIVE_SESSIONS - i)) i (cap_limit count) [].

Definition SessionCapGetOneLoaded (handle : Z) : M SessState bool :=
  pAssert (HandleGetType handle =? TPM_HT_LOADED_SESSION) ;;
  let i := Z.land handle HR_HANDLE_MASK in
  if i <? MAX_ACTIVE_SESSIONS then let! e := ca_get i in ret (negb (e =? 0)) else ret false.

Definition SessionCapGetOneSaved (handle : Z) : M SessState bool :=
  pAssert (HandleGetType handle =? TPM_HT_SAVED_SESSION) ;;
  let i := Z.land handle HR_HANDLE_MASK in
  if i <? MAX_ACTIVE_SESSIONS then let! e := ca_get i in ret (negb (e =? 0)) else ret false.

Definition SessionCapGetLoadedNumber : M SessState Z :=
  gets (λ s, u32 (MAX_LOADED_SESSIONS - s_freeSessionSlots s)).
Definition SessionCapGetLoadedAvail : M SessState Z := gets (λ s, u32 (s_freeSessionSlots s)).

(** The counting loops over [contextArray]. *)
Fixpoint count_loop (p : Z → bool) (arr : list Z) (num : Z) : Z :=
  match arr with
  | [] => num
  | e :: arr => count_loop p arr (if p e then num + 1 else num)
  end.
Definition SessionCapGetActiveNumber : M SessState Z :=
  gets (λ s, count_loop (λ e, negb (e =? 0)) (contextArray s) 0).
Definition SessionCapGetActiveAvail : M SessState Z :=
  gets (λ s, count_loop (λ e, e =? 0) (contextArray s) 0).

End session.

(** The exclusive or of the value a session is bound to. *)

Lemma xor_at_length auth name i : length (xor_at name i auth) = length name.
Proof.
  revert name i. induction auth as [|a auth IH]; intros name i; [done|].
  cbn. by rewrite IH, length_alter.
Qed.

Lemma xor_at_lookup auth name i j :
  xor_at name i auth !! j =
    if decide (i ≤ j)%nat then (λ b, Z.lxor b (default 0 (auth !! (j - i)%nat))) <$> name !! j
    else name !! j.
Proof.
  revert name i. induction auth as [|a auth IH]; intros name i; cbn [xor_at].
  - case_decide; [|done]. rewrite lookup_nil. cbn. destruct (name !! j); [|done].
    cbn. by rewrite Z.lxor_0_r.
  - rewrite IH. destruct (decide (S i ≤ j)%nat) as [H1|H1].
    + rewrite list_lookup_alter_ne by lia. rewrite decide_True by lia.
      replace (j - i)%nat with (S (j - S i)) by lia. done.
    + destruct (decide (i ≤ j)%nat) as [H2|H2].
      * assert (j = i) as -> by lia. rewrite list_lookup_alter_eq, Nat.sub_diag. done.
      * rewrite list_lookup_alter_ne by lia. done.
Qed.

Lemma xor_at_zip name i auth :
  length name = (i + length auth)%nat →
  xor_at name i auth = zip_with Z.lxor name (replicate i 0 ++ auth).
Proof.
  intros Hl. apply list_eq. intros j. rewrite xor_at_lookup, lookup_zip_with.
  destruct (name !! j) as [b|] eqn:Eb; cbn; [|by case_decide].
  apply lookup_lt_Some in Eb. case_decide as Hij.
  - rewrite lookup_app_r by (rewrite length_replicate; lia). rewrite length_replicate.
    destruct (lookup_lt_is_Some_2 auth (j - i)) as [x Hx]; [lia|]. by rewrite Hx.
  - rewrite lookup_app_l by (rewrite length_replicate; lia). rewrite lookup_replicate_2 by lia.
    cbn. by rewrite Z.lxor_0_r.
Qed.
