(* ===== verification/Time.v ===== *)
(** * Time, dictionary attack logic, startup and shutdown

    src/Time.c, src/DA.c, the persistent-data functions of src/NVReserved.c, the
    commands of src/ClockCommands.c, src/DictionaryCommands.c and
    src/StartupCommands.c, and the lockout functions of src/SessionProcess.c.

    The globals [gp], [go], [gr] and [gc] are structures that are copied to NV
    memory; they are images ([Struct.v]), and where their members lie is the
    parameter [TimeLayout].  NV memory is the state of [NVReserved.v], the clock
    that of [Clock.v].  The switches of the build are [USE_DA_USED] = NO,
    [CLOCK_STOPS] = NO and [ACCUMULATE_SELF_HEAL_TIMER] = YES
    (TpmBuildSwitches.h, lines 247-260): the self-heal timers are members of
    [go]. *)

From S2P Require Import Prelude TpmTypes Struct Cbc NVMem NVReserved Clock.
From S2P Require Import NvList NvRam NvIndex Session.
Local Open Scope Z_scope.

(** ** Constants *)

Definition PRE_STARTUP_FLAG : Z := 0x8000.
Definition STARTUP_LOCALITY_3 : Z := 0x4000.
Definition TPM_RC_AUTH_FAIL : Z := RC_FMT1 + 0x00E.
Definition TPM_RC_AUTH_TYPE : Z := RC_VER1 + 0x024.
Definition TPM_RC_AUTH_UNAVAILABLE : Z := RC_VER1 + 0x02F.
Definition TPM_RC_PP : Z := RC_FMT1 + 0x010.
Definition TPM_RC_BAD_AUTH : Z := RC_FMT1 + 0x022.
Definition TPM_RC_LOCKOUT : Z := RC_WARN + 0x021.
Definition NV_CLOCK_UPDATE_INTERVAL : Z := 22.
Definition CLOCK_UPDATE_MASK : Z := Z.shiftl 1 NV_CLOCK_UPDATE_INTERVAL - 1.

(** [TPM_CLOCK_ADJUST] (TpmTypes.h, lines 500-508). *)
Definition TPM_CLOCK_COARSE_SLOWER : Z := -3.
Definition TPM_CLOCK_MEDIUM_SLOWER : Z := -2.
Definition TPM_CLOCK_FINE_SLOWER : Z := -1.
Definition TPM_CLOCK_NO_CHANGE : Z := 0.
Definition TPM_CLOCK_FINE_FASTER : Z := 1.
Definition TPM_CLOCK_MEDIUM_FASTER : Z := 2.
Definition TPM_CLOCK_COARSE_FASTER : Z := 3.

(** ** The persistent structures *)

(** The members of [PERSISTENT_DATA] this component uses. *)
Inductive GpField :=
  | totalResetCount | resetCount
  | failedTries | maxTries | recoveryTime | lockoutRecovery | lockOutAuthEnabled
  | orderlyState | timeEpoch.

(** Of [ORDERLY_DATA]. *)
Inductive GoField := go_clock | go_clockSafe | selfHealTimer | lockoutTimer | go_time.

(** Of [STATE_RESET_DATA]. *)
Inductive GrField := objectContextID | clearCount | restartCount.

#[global] Instance GpField_eq_dec : EqDecision GpField.
Proof. solve_decision. Defined.
#[global] Instance GoField_eq_dec : EqDecision GoField.
Proof. solve_decision. Defined.
#[global] Instance GrField_eq_dec : EqDecision GrField.
Proof. solve_decision. Defined.

(** Sizes of the members' types: [UINT64], [UINT32], [BOOL] ([int]),
    [TPM_SU] ([UINT16]), [CLOCK_NONCE] ([UINT32]), [TPMI_YES_NO] ([BYTE]). *)
Definition gp_width (f : GpField) : Z :=
  match f with totalResetCount => 8 | orderlyState => 2 | _ => 4 end.
Definition go_width (f : GoField) : Z :=
  match f with go_clockSafe => 1 | _ => 8 end.
Definition gr_width (f : GrField) : Z :=
  match f with objectContextID => 8 | _ => 4 end.

Class TimeLayout `{NvLayout} := {
  gp_layout :: Layout GpField;
  go_layout :: Layout GoField;
  gr_layout :: Layout GrField;
  gp_fsize f : @fsize _ gp_layout f = gp_width f;
  go_fsize f : @fsize _ go_layout f = go_width f;
  gr_fsize f : @fsize _ gr_layout f = gr_width f;
  gp_size : @struct_size _ gp_layout = sizeof_PERSISTENT_DATA;
  go_size : @struct_size _ go_layout = sizeof_ORDERLY_DATA;
  gr_size : @struct_size _ gr_layout = sizeof_STATE_RESET_DATA;
}.

(** ** State *)

Record TimeState := mkTime {
  nv : NvState;
  clk : PlatClock;
  gp : bytes;
  go : bytes;
  gr : bytes;
  gc : bytes;
  g_time : Z;
  g_initialized : bool;
  g_nvOk : bool;
  g_powerWasLost : bool;
  g_pcrReConfig : bool;
  g_DrtmPreStartup : bool;
  g_StartupLocality3 : bool;
  s_DAPendingOnNV : bool;
}.

Definition set_nv (x : NvState) (s : TimeState) : TimeState :=
  mkTime x (clk s) (gp s) (go s) (gr s) (gc s) (g_time s) (g_initialized s) (g_nvOk s)
    (g_powerWasLost s) (g_pcrReConfig s) (g_DrtmPreStartup s) (g_StartupLocality3 s)
    (s_DAPendingOnNV s).
Definition set_clk (x : PlatClock) (s : TimeState) : TimeState :=
  mkTime (nv s) x (gp s) (go s) (gr s) (gc s) (g_time s) (g_initialized s) (g_nvOk s)
    (g_powerWasLost s) (g_pcrReConfig s) (g_DrtmPreStartup s) (g_StartupLocality3 s)
    (s_DAPendingOnNV s).
Definition set_gp (x : bytes) (s : TimeState) : TimeState :=
  mkTime (nv s) (clk s) x (go s) (gr s) (gc s) (g_time s) (g_initialized s) (g_nvOk s)
    (g_powerWasLost s) (g_pcrReConfig s) (g_DrtmPreStartup s) (g_StartupLocality3 s)
    (s_DAPendingOnNV s).
Definition set_go (x : bytes) (s : TimeState) : TimeState :=
  mkTime (nv s) (clk s) (gp s) x (gr s) (gc s) (g_time s) (g_initialized s) (g_nvOk s)
    (g_powerWasLost s) (g_pcrReConfig s) (g_DrtmPreStartup s) (g_StartupLocality3 s)
    (s_DAPendingOnNV s).
Definition set_gr (x : bytes) (s : TimeState) : TimeState :=
  mkTime (nv s) (clk s) (gp s) (go s) x (gc s) (g_time s) (g_initialized s) (g_nvOk s)
    (g_powerWasLost s) (g_pcrReConfig s) (g_DrtmPreStartup s) (g_StartupLocality3 s)
    (s_DAPendingOnNV s).
Definition set_gc (x : bytes) (s : TimeState) : TimeState :=
  mkTime (nv s) (clk s) (gp s) (go s) (gr s) x (g_time s) (g_initialized s) (g_nvOk s)
    (g_powerWasLost s) (g_pcrReConfig s) (g_DrtmPreStartup s) (g_StartupLocality3 s)
    (s_DAPendingOnNV s).
Definition set_g_time (x : Z) (s : TimeState) : TimeState :=
  mkTime (nv s) (clk s) (gp s) (go s) (gr s) (gc s) x (g_initialized s) (g_nvOk s)
    (g_powerWasLost s) (g_pcrReConfig s) (g_DrtmPreStartup s) (g_StartupLocality3 s)
    (s_DAPendingOnNV s).
Definition set_g_initialized (x : bool) (s : TimeState) : TimeState :=
  mkTime (nv s) (clk s) (gp s) (go s) (gr s) (gc s) (g_time s) x (g_nvOk s)
    (g_powerWasLost s) (g_pcrReConfig s) (g_DrtmPreStartup s) (g_StartupLocality3 s)
    (s_DAPendingOnNV s).
Definition set_g_nvOk (x : bool) (s : TimeState) : TimeState :=
  mkTime (nv s) (clk s) (gp s) (go s) (gr s) (gc s) (g_time s) (g_initialized s) x
    (g_powerWasLost s) (g_pcrReConfig s) (g_DrtmPreStartup s) (g_StartupLocality3 s)
    (s_DAPendingOnNV s).
Definition set_g_powerWasLost (x : bool) (s : TimeState) : TimeState :=
  mkTime (nv s) (clk s) (gp s) (go s) (gr s) (gc s) (g_time s) (g_initialized s) (g_nvOk
    s) x (g_pcrReConfig s) (g_DrtmPreStartup s) (g_StartupLocality3 s) (s_DAPendingOnNV s).
Definition set_g_pcrReConfig (x : bool) (s : TimeState) : TimeState :=
  mkTime (nv s) (clk s) (gp s) (go s) (gr s) (gc s) (g_time s) (g_initialized s) (g_nvOk
    s) (g_powerWasLost s) x (g_DrtmPreStartup s) (g_StartupLocality3 s) (s_DAPendingOnNV
    s).
Definition set_g_DrtmPreStartup (x : bool) (s : TimeState) : TimeState :=
  mkTime (nv s) (clk s) (gp s) (go s) (gr s) (gc s) (g_time s) (g_initialized s) (g_nvOk
    s) (g_powerWasLost s) (g_pcrReConfig s) x (g_StartupLocality3 s) (s_DAPendingOnNV s).
Definition set_g_StartupLocality3 (x : bool) (s : TimeState) : TimeState :=
  mkTime (nv s) (clk s) (gp s) (go s) (gr s) (gc s) (g_time s) (g_initialized s) (g_nvOk
    s) (g_powerWasLost s) (g_pcrReConfig s) (g_DrtmPreStartup s) x (s_DAPendingOnNV s).
Definition set_s_DAPendingOnNV (x : bool) (s : TimeState) : TimeState :=
  mkTime (nv s) (clk s) (gp s) (go s) (gr s) (gc s) (g_time s) (g_initialized s) (g_nvOk
    s) (g_powerWasLost s) (g_pcrReConfig s) (g_DrtmPreStartup s) (g_StartupLocality3 s) x.

#[global] Instance TimeState_fail : FailState TimeState :=
  {| set_failure := λ s, set_nv (set_failure (nv s)) s |}.

Definition set_prevOrderlyState (x : Z) (s : NvState) : NvState :=
  mkNvState (plat s) (s_evictNvEnd s) (s_indexOrderlyRam s) (s_maxCounter s)
    (s_cachedNvIndex s) (s_cachedNvRef s) (s_cachedNvRamRef s) (g_NvStatus s)
    (g_updateNV s) (g_clearOrderly s) (g_inFailureMode s) (gc_shEnable s)
    (gc_phEnableNV s) x.

(** Calls of the NV subsystem and of the platform clock. *)
Definition on_nv {A} (m : M NvState A) : M TimeState A := λ s,
  match m (nv s) with Some (a, n) => Some (a, set_nv n s) | None => None end.
Definition on_clk {A} (m : M PlatClock A) : M TimeState A := λ s,
  match m (clk s) with Some (a, c) => Some (a, set_clk c s) | None => None end.

Definition boolZ (b : bool) : Z := if b then 1 else 0.

Section time.
Context `{TimeLayout}.

(** Members of [gp] and [go] as variables. *)
Definition gpv (f : GpField) : M TimeState Z := gets (λ s, fget f (gp s)).
Definition gp_assign (f : GpField) (v : Z) : M TimeState unit :=
  modify (λ s, set_gp (fset f v (gp s)) s).
Definition gov (f : GoField) : M TimeState Z := gets (λ s, fget f (go s)).
Definition go_assign (f : GoField) (v : Z) : M TimeState unit :=
  modify (λ s, set_go (fset f v (go s)) s).
Definition grv (f : GrField) : M TimeState Z := gets (λ s, fget f (gr s)).
Definition gr_assign (f : GrField) (v : Z) : M TimeState unit :=
  modify (λ s, set_gr (fset f v (gr s)) s).

Definition NV_IS_AVAILABLE : M TimeState bool := gets (λ s, g_NvStatus (nv s) =? TPM_RC_SUCCESS).
Definition NV_IS_ORDERLY : M TimeState bool := gets (λ s, IS_ORDERLY (fget orderlyState (gp s))).

(** ** Persistent data (Global.h, lines 1115-1124; NVReserved.c, lines 240-272) *)

(** [NvWrite(offsetof(PERSISTENT_DATA, item), sizeof(gp.item), &gp.item)]. *)
Definition NV_SYNC_PERSISTENT (f : GpField) : M TimeState bool :=
  let! d := gets (λ s, fbytes f (gp s)) in on_nv (NvWrite (foff f) (fsize f) d).

(** [&gp + offset] counts in units of [sizeof(gp)]: the copy is inside [gp] only
    for offset 0. *)
Definition NvUpdatePersistent (offset size : Z) (buffer : bytes) : M TimeState unit :=
  pAssert (u32 (offset + size) <=? sizeof_PERSISTENT_DATA) ;;
  let! g := gets gp in
  if inb g (offset * sizeof_PERSISTENT_DATA) size && inb buffer 0 size then
    modify (set_gp (bwrite g (offset * sizeof_PERSISTENT_DATA) (bread buffer 0 size))) ;;
    on_nv (NvWrite offset size buffer) ;; ret tt
  else undef.

Definition NvClearPersistent (offset size : Z) : M TimeState unit :=
  pAssert (u32 (offset + size) <=? sizeof_PERSISTENT_DATA) ;;
  let! g := gets gp in
  if inb g (offset * sizeof_PERSISTENT_DATA) size then
    modify (set_gp (bwrite g (offset * sizeof_PERSISTENT_DATA) (bfill 0 size))) ;;
    on_nv (NvWrite offset size (bfill 0 size)) ;; ret tt
  else undef.

Definition NvReadPersistent : M TimeState unit :=
  let! d := on_nv (NvRead NV_PERSISTENT_DATA sizeof_PERSISTENT_DATA) in modify (set_gp d).

(** Division of unsigned integers, undefined for a divisor of zero. *)
Definition c_div (x y : Z) : M TimeState Z := if y =? 0 then undef else ret (x / y).

(** ** DA.c *)

Definition DAPreInstall_Init : M TimeState unit :=
  gp_assign failedTries 0 ;;
  gp_assign maxTries 3 ;;
  gp_assign recoveryTime 1000 ;;
  gp_assign lockoutRecovery 1000 ;;
  gp_assign lockOutAuthEnabled 1 ;;
  NV_SYNC_PERSISTENT failedTries ;;
  NV_SYNC_PERSISTENT maxTries ;;
  NV_SYNC_PERSISTENT recoveryTime ;;
  NV_SYNC_PERSISTENT lockoutRecovery ;;
  NV_SYNC_PERSISTENT lockOutAuthEnabled ;;
  ret tt.

Definition DARegisterFailure (handle : Z) : M TimeState unit :=
  let! t := gets g_time in
  if handle =? TPM_RH_LOCKOUT then go_assign lockoutTimer t else go_assign selfHealTimer t.

(** [g_time] and the timer are [UINT64]: the cast to [INT64] has no effect on
    the difference, which is taken modulo 2^64. *)
Definition DASelfHeal : M TimeState unit :=
  let! tries := gpv failedTries in
  (if negb (tries =? 0) then
     let! recovery := gpv recoveryTime in
     if recovery =? 0 then
       gp_assign failedTries 0 ;; NV_SYNC_PERSISTENT failedTries ;; ret tt
     else
       let! time := gets g_time in
       let! timer := gov selfHealTimer in
       let! decreaseCount := c_div (u64 (time - timer) / 1000) recovery in
       (if tries <=? u32 decreaseCount then gp_assign failedTries 0
        else gp_assign failedTries (tries - u32 decreaseCount)) ;;
       go_assign selfHealTimer (u64 (timer + decreaseCount * recovery * 1000)) ;;
       (if negb (decreaseCount =? 0) then NV_SYNC_PERSISTENT failedTries ;; ret tt else ret tt)
   else ret tt) ;;
  let! enabled := gpv lockOutAuthEnabled in
  if enabled =? 0 then
    let! recovery := gpv lockoutRecovery in
    if negb (recovery =? 0) then
      let! time := gets g_time in
      let! timer := gov lockoutTimer in
      if recovery <=? u64 (time - timer) / 1000 then
        gp_assign lockOutAuthEnabled 1 ;; NV_SYNC_PERSISTENT lockOutAuthEnabled ;; ret tt
      else ret tt
    else ret tt
  else ret tt.

(** ** Time.c *)

Definition TimePowerOn (cycles : Z) : M TimeState unit :=
  let! t := on_clk (plat__TimerRead cycles) in modify (set_g_time t).

Definition TimeNewEpoch : M TimeState unit :=
  let! e := gpv timeEpoch in
  gp_assign timeEpoch (u32 (e + 1)) ;;
  NV_SYNC_PERSISTENT timeEpoch ;;
  on_clk plat__TimerWasStopped ;; ret tt.

Definition TimeStartup (type : STARTUP_TYPE) : M TimeState bool :=
  let! orderly := NV_IS_ORDERLY in
  (if negb orderly then go_assign go_clockSafe 0 else ret tt) ;; ret true.

(** [NvWrite(NV_ORDERLY_DATA, sizeof(go), &go)] *)
Definition write_orderly : M TimeState unit :=
  let! d := gets go in on_nv (NvWrite NV_ORDERLY_DATA sizeof_ORDERLY_DATA d) ;; ret tt.

Definition TimeClockUpdate (newTime : Z) : M TimeState unit :=
  let! clock := gov go_clock in
  if Z.lor clock CLOCK_UPDATE_MASK <? Z.lor newTime CLOCK_UPDATE_MASK then
    let! available := NV_IS_AVAILABLE in
    pAssert available ;;
    go_assign go_clockSafe 1 ;;
    go_assign go_clock newTime ;;
    write_orderly
  else go_assign go_clock newTime.

Definition TimeUpdate (cycles : Z) : M TimeState unit :=
  let! stopped := on_clk plat__TimerWasStopped in
  (if stopped then TimeNewEpoch else ret tt) ;;
  let! now := on_clk (plat__TimerRead cycles) in
  let! time := gets g_time in
  let elapsed := u64 (now - time) in
  modify (set_g_time (u64 (time + elapsed))) ;;
  let! clock := gov go_clock in
  TimeClockUpdate (u64 (clock + elapsed)) ;;
  DASelfHeal.

Definition TPMIsStarted : M TimeState bool := gets g_initialized.

Definition TimeUpdateToCurrent (cycles : Z) : M TimeState unit :=
  let! available := NV_IS_AVAILABLE in
  let! started := TPMIsStarted in
  if negb available || negb started then ret tt else TimeUpdate cycles.

Definition TimeSetAdjustRate (adjust : Z) : M TimeState unit :=
  if adjust =? TPM_CLOCK_COARSE_SLOWER then
    on_clk (plat__ClockRateAdjust PLAT_TPM_CLOCK_ADJUST_COARSE_SLOWER)
  else if adjust =? TPM_CLOCK_COARSE_FASTER then
    on_clk (plat__ClockRateAdjust PLAT_TPM_CLOCK_ADJUST_COARSE_FASTER)
  else if adjust =? TPM_CLOCK_MEDIUM_SLOWER then
    on_clk (plat__ClockRateAdjust PLAT_TPM_CLOCK_ADJUST_MEDIUM_SLOWER)
  else if adjust =? TPM_CLOCK_MEDIUM_FASTER then
    on_clk (plat__ClockRateAdjust PLAT_TPM_CLOCK_ADJUST_MEDIUM_FASTER)
  else if adjust =? TPM_CLOCK_FINE_SLOWER then
    on_clk (plat__ClockRateAdjust PLAT_TPM_CLOCK_ADJUST_FINE_SLOWER)
  else if adjust =? TPM_CLOCK_FINE_FASTER then
    on_clk (plat__ClockRateAdjust PLAT_TPM_CLOCK_ADJUST_FINE_FASTER)
  else if adjust =? TPM_CLOCK_NO_CHANGE then ret tt
  else modify set_failure.

(** [TPMS_CLOCK_INFO] *)
Record TPMS_CLOCK_INFO := mkClockInfo {
  ci_clock : Z; ci_resetCount : Z; ci_restartCount : Z; ci_safe : Z
}.

Definition TimeFillInfo : M TimeState TPMS_CLOCK_INFO :=
  let! clock := gov go_clock in
  let! resets := gpv resetCount in
  let! restarts := grv restartCount in
  let! available := NV_IS_AVAILABLE in
  let! safe := gov go_clockSafe in
  ret (mkClockInfo clock resets restarts (if available then safe else 0)).

(** ** ClockCommands.c *)

Definition TPM2_ReadClock : M TimeState (Z * TPMS_CLOCK_INFO) :=
  let! t := gets g_time in let! info := TimeFillInfo in ret (t, info).

Definition TPM2_ClockSet (newTime : Z) : M TimeState Z :=
  let! clock := gov go_clock in
  if (0xFFFF000000000000 <? newTime) || (newTime <? clock)
  then ret (TPM_RCS_VALUE + (TPM_RC_P + TPM_RC_1))
  else
    let! status := gets (λ s, g_NvStatus (nv s)) in
    if negb (status =? TPM_RC_SUCCESS) then ret status
    else TimeClockUpdate newTime ;; ret TPM_RC_SUCCESS.

Definition TPM2_ClockRateAdjust (rateAdjust : Z) : M TimeState Z :=
  TimeSetAdjustRate rateAdjust ;; ret TPM_RC_SUCCESS.

(** ** DictionaryCommands.c *)

Definition TPM2_DictionaryAttackLockReset : M TimeState Z :=
  let! status := gets (λ s, g_NvStatus (nv s)) in
  if negb (status =? TPM_RC_SUCCESS) then ret status
  else gp_assign failedTries 0 ;; NV_SYNC_PERSISTENT failedTries ;; ret TPM_RC_SUCCESS.

Definition TPM2_DictionaryAttackParameters (newMaxTries newRecoveryTime newLockoutRecovery : Z)
    : M TimeState Z :=
  let! status := gets (λ s, g_NvStatus (nv s)) in
  if negb (status =? TPM_RC_SUCCESS) then ret status
  else
    gp_assign maxTries newMaxTries ;;
    gp_assign recoveryTime newRecoveryTime ;;
    gp_assign lockoutRecovery newLockoutRecovery ;;
    NV_SYNC_PERSISTENT failedTries ;;
    NV_SYNC_PERSISTENT maxTries ;;
    NV_SYNC_PERSISTENT recoveryTime ;;
    NV_SYNC_PERSISTENT lockoutRecovery ;;
    ret TPM_RC_SUCCESS.

(** ** The lockout functions of SessionProcess.c (lines 80-205, 1283-1340) *)

(** [IsDAExempted]; [noDA] is the attribute of a loaded object's public area. *)
Definition IsDAExempted (noDA : Z → bool) (handle : Z) : M TimeState bool :=
  let type := HandleGetType handle in
  if type =? TPM_HT_PERMANENT then ret (negb (handle =? TPM_RH_LOCKOUT))
  else if type =? TPM_HT_TRANSIENT then ret (noDA handle)
  else if type =? TPM_HT_NV_INDEX then
    let! nvIndex := on_nv (NvGetIndexInfo handle) in
    match nvIndex with
    | None => undef                (* NULL is dereferenced *)
    | Some _ =>
        gets (λ s, IS_ATTRIBUTE (pub_attributes (s_cachedNvIndex (nv s))) TPMA_NV_NO_DA)
    end
  else if type =? TPM_HT_PCR then ret true
  else ret false.

(** The tail of [IncrementLockout]: the failure is counted for [handle]. *)
Definition count_failure (handle : Z) : M TimeState Z :=
  (if handle =? TPM_RH_LOCKOUT then
     let! enabled := gpv lockOutAuthEnabled in
     pAssert (enabled =? 1) ;;
     gp_assign lockOutAuthEnabled 0 ;;
     let! recovery := gpv lockoutRecovery in
     if negb (recovery =? 0) then
       let! available := NV_IS_AVAILABLE in
       if available then NV_SYNC_PERSISTENT lockOutAuthEnabled ;; ret tt
       else modify (set_s_DAPendingOnNV true)
     else ret tt
   else
     let! recovery := gpv recoveryTime in
     if negb (recovery =? 0) then
       let! tries := gpv failedTries in
       gp_assign failedTries (u32 (tries + 1)) ;;
       let! available := NV_IS_AVAILABLE in
       if available then NV_SYNC_PERSISTENT failedTries ;; ret tt
       else modify (set_s_DAPendingOnNV true)
     else ret tt) ;;
  DARegisterFailure handle ;;
  ret TPM_RC_AUTH_FAIL.

(** [IncrementLockout]: [handle] is the associated handle of the session,
    [session] the attributes of the session ([None] for a password). *)
Definition IncrementLockout (noDA : Z → bool) (handle : Z) (session : option SESSION_ATTRIBUTES)
    : M TimeState Z :=
  match session with
  | None =>
      let! exempted := IsDAExempted noDA handle in
      if exempted then ret TPM_RC_BAD_AUTH else count_failure handle
  | Some a =>
      let handle := if isLockoutBound a then TPM_RH_LOCKOUT else handle in
      if isDaBound a then count_failure handle
      else
        let! exempted := IsDAExempted noDA handle in
        if exempted || negb (includeAuth a) then ret TPM_RC_BAD_AUTH else count_failure handle
  end.

Definition CheckLockedOut (lockoutAuthCheck : bool) : M TimeState Z :=
  let! status := gets (λ s, g_NvStatus (nv s)) in
  let! orderly := NV_IS_ORDERLY in
  if negb (status =? TPM_RC_SUCCESS) && orderly then ret status
  else
    let! pending := gets s_DAPendingOnNV in
    if pending && negb (status =? TPM_RC_SUCCESS) then ret status
    else
      (if pending then
         NV_SYNC_PERSISTENT lockOutAuthEnabled ;;
         NV_SYNC_PERSISTENT failedTries ;;
         modify (set_s_DAPendingOnNV false)
       else ret tt) ;;
      if lockoutAuthCheck then
        let! enabled := gpv lockOutAuthEnabled in
        ret (if enabled =? 0 then TPM_RC_LOCKOUT else TPM_RC_SUCCESS)
      else
        let! tries := gpv failedTries in
        let! max := gpv maxTries in
        ret (if max <=? tries then TPM_RC_LOCKOUT else TPM_RC_SUCCESS).

(** The authorization of an entity other than an NV index (for which a PIN count
    may follow) with an HMAC session that is not a policy session: the lockout
    check of [CheckCommandSessions] (lines 1594-1606) for a session bound to an
    entity subject to the logic, and [CheckAuthSession] with [CheckSessionHMAC].
    [session] holds the attributes, [includeAuth] as [CheckAuthSession] has set
    it; [matches]: the HMAC is right. *)
Definition CheckAuthSession_hmac (noDA : Z → bool) (pp_missing policy_required auth_available : bool)
    (session : SESSION_ATTRIBUTES) (handle : Z) (matches : bool) : M TimeState Z :=
  let! result := (if isDaBound session then CheckLockedOut (isLockoutBound session)
                  else ret TPM_RC_SUCCESS) in
  if negb (result =? TPM_RC_SUCCESS) then ret result
  else if (handle =? TPM_RH_PLATFORM) && pp_missing then ret TPM_RC_PP
  else
    let! result := (if includeAuth session then
                      let! exempted := IsDAExempted noDA handle in
                      if exempted then ret TPM_RC_SUCCESS else CheckLockedOut (handle =? TPM_RH_LOCKOUT)
                    else ret TPM_RC_SUCCESS) in
    if negb (result =? TPM_RC_SUCCESS) then ret result
    else if policy_required then ret TPM_RC_AUTH_TYPE
    else if negb auth_available then ret TPM_RC_AUTH_UNAVAILABLE
    else if matches then ret TPM_RC_SUCCESS
    else IncrementLockout noDA handle (Some session).

(** [CheckAuthSession] for a password session ([TPM_RS_PW]) on an entity other
    than an NV index (for which a PIN count may follow).  [pp_missing]: physical
    presence is required and not asserted; [policy_required] and
    [auth_available]: what [IsPolicySessionRequired] and [IsAuthValueAvailable]
    return; [matches]: the password is the authValue. *)
Definition CheckAuthSession_pw (noDA : Z → bool) (pp_missing policy_required auth_available : bool)
    (handle : Z) (matches : bool) : M TimeState Z :=
  if (handle =? TPM_RH_PLATFORM) && pp_missing then ret TPM_RC_PP
  else
    let! exempted := IsDAExempted noDA handle in
    let! result := (if exempted then ret TPM_RC_SUCCESS
                    else CheckLockedOut (handle =? TPM_RH_LOCKOUT)) in
    if negb (result =? TPM_RC_SUCCESS) then ret result
    else if policy_required then ret TPM_RC_AUTH_TYPE
    else if negb auth_available then ret TPM_RC_AUTH_UNAVAILABLE
    else if matches then ret TPM_RC_SUCCESS
    else IncrementLockout noDA handle None.

(** ** Startup and shutdown (DA.c, lines 93-152; StartupCommands.c) *)

Definition DAStartup (cycles : Z) (type : STARTUP_TYPE) : M TimeState bool :=
  let! wasReset := on_clk plat__TimerWasReset in
  (if wasReset then
     let! orderly := NV_IS_ORDERLY in
     if negb orderly then go_assign selfHealTimer 0 ;; go_assign lockoutTimer 0
     else
       let! t := gov go_time in
       let! heal := gov selfHealTimer in
       go_assign selfHealTimer (u64 (heal - t)) ;;
       let! lock := gov lockoutTimer in
       go_assign lockoutTimer (u64 (lock - t))
   else ret tt) ;;
  let! lrecovery := gpv lockoutRecovery in
  (if lrecovery =? 0 then
     gp_assign lockOutAuthEnabled 1 ;; NV_SYNC_PERSISTENT lockOutAuthEnabled ;; ret tt
   else ret tt) ;;
  let! recovery := gpv recoveryTime in
  let! tries := gpv failedTries in
  let! max := gpv maxTries in
  let! prev := gets (λ s, g_prevOrderlyState (nv s)) in
  (if negb (recovery =? 0) && (tries <? max) && negb (IS_ORDERLY prev) then
     gp_assign failedTries (u32 (tries + 1)) ;; NV_SYNC_PERSISTENT failedTries ;; ret tt
   else ret tt) ;;
  TimeUpdate cycles ;;
  ret true.

(** The part of [_TPM_Init] after NV and the cryptographic library are up. *)
Definition tpm_init_load (cycles : Z) : M TimeState unit :=
  NvReadPersistent ;;
  let! d := on_nv (NvRead NV_ORDERLY_DATA sizeof_ORDERLY_DATA) in
  modify (set_go d) ;;
  TimePowerOn cycles.

(** [TPM2_Startup].  The startup functions of the other components are arguments:
    [crypt] is [CryptStartup], [middle] those between [DAStartup] and the counters
    ([HierarchyStartup], [PCRStartup], which is given the locality, and
    [CommandAuditStartup]), [late] those after them ([SessionStartup],
    [ObjectStartup] and [NvEntityStartup]), each conjoined with [&&].  They have
    state of their own, and members of [gr] and [gc]. *)
Definition startup_counters (startup : STARTUP_TYPE) : M TimeState unit :=
  match startup with
  | SU_RESUME => let! n := grv restartCount in gr_assign restartCount (u32 (n + 1))
  | SU_RESTART =>
      let! n := grv clearCount in gr_assign clearCount (u32 (n + 1)) ;;
      let! n := grv restartCount in gr_assign restartCount (u32 (n + 1))
  | SU_RESET =>
      gr_assign objectContextID 0 ;;
      gr_assign clearCount 0 ;;
      let! n := gpv resetCount in gp_assign resetCount (u32 (n + 1)) ;;
      NV_SYNC_PERSISTENT resetCount ;;
      let! n := gpv totalResetCount in gp_assign totalResetCount (u64 (n + 1)) ;;
      let! n := gpv totalResetCount in
      (if n =? 0 then modify set_failure else ret tt) ;;
      NV_SYNC_PERSISTENT totalResetCount ;;
      gr_assign restartCount 0
  end.

(** The saved state that is read, and the startup type that results. *)
Definition startup_read (startupType : Z) : M TimeState STARTUP_TYPE :=
  let! prev := gpv orderlyState in
  let! nvOk := gets g_nvOk in
  if (prev =? TPM_SU_STATE) && nvOk then
    let! d := on_nv (NvRead NV_STATE_RESET_DATA sizeof_STATE_RESET_DATA) in
    modify (set_gr d) ;;
    if startupType =? TPM_SU_STATE then
      let! d := on_nv (NvRead NV_STATE_CLEAR_DATA sizeof_STATE_CLEAR_DATA) in
      modify (set_gc d) ;; ret SU_RESUME
    else ret SU_RESTART
  else ret SU_RESET.

(** From the cryptographic library's startup on. *)
Definition startup_subsystems (cycles locality : Z) (crypt : STARTUP_TYPE → M TimeState bool)
    (middle : STARTUP_TYPE → Z → M TimeState bool) (late : STARTUP_TYPE → M TimeState bool)
    (startup : STARTUP_TYPE) : M TimeState Z :=
  let! ok := crypt startup in
  let! ok := (if ok then
                modify (set_g_initialized true) ;;
                TimeStartup startup ;; DAStartup cycles startup
              else ret false) in
  let! ok := (if ok then middle startup locality else ret false) in
  (if ok then startup_counters startup else ret tt) ;;
  let! ok := (if ok then late startup else ret false) in
  gp_assign orderlyState SU_NONE_VALUE ;;
  let! ok := (if ok then NV_SYNC_PERSISTENT orderlyState else ret false) in
  (if ok then modify (set_g_powerWasLost false) else ret tt) ;;
  ret (if ok then TPM_RC_SUCCESS else TPM_RC_FAILURE).

Definition TPM2_Startup (cycles locality : Z) (crypt : STARTUP_TYPE → M TimeState bool)
    (middle : STARTUP_TYPE → Z → M TimeState bool) (late : STARTUP_TYPE → M TimeState bool)
    (startupType : Z) : M TimeState Z :=
  let! status := gets (λ s, g_NvStatus (nv s)) in
  if negb (status =? TPM_RC_SUCCESS) then ret status
  else if negb (locality =? 0) && negb (locality =? 3) then ret TPM_RC_LOCALITY
  else
    let! drtm := gets g_DrtmPreStartup in
    let locality := if drtm then 0 else locality in
    modify (set_g_StartupLocality3 (locality =? 3)) ;;
    let! state := gpv orderlyState in
    let prev := if IS_ORDERLY state
                then Z.ldiff state (Z.lor PRE_STARTUP_FLAG STARTUP_LOCALITY_3) else state in
    on_nv (modify (set_prevOrderlyState prev)) ;;
    let! nvOk := gets g_nvOk in
    if (startupType =? TPM_SU_STATE) && negb (prev =? TPM_SU_STATE)
    then ret (TPM_RCS_VALUE + (TPM_RC_P + TPM_RC_1))
    else if (startupType =? TPM_SU_STATE) && negb nvOk then ret TPM_RC_NV_UNINITIALIZED
    else if (startupType =? TPM_SU_STATE)
            && negb (eqb drtm (negb (Z.land state PRE_STARTUP_FLAG =? 0)))
    then ret (TPM_RCS_VALUE + (TPM_RC_P + TPM_RC_1))
    else if (startupType =? TPM_SU_STATE)
            && negb (eqb (locality =? 3) (negb (Z.land state STARTUP_LOCALITY_3 =? 0)))
    then ret TPM_RC_LOCALITY
    else
      gp_assign orderlyState prev ;;
      let! startup := startup_read startupType in
      startup_subsystems cycles locality crypt middle late startup.

(** [TPM2_Shutdown]; [PCRStateSave] is a function on [gc]. *)
Definition TPM2_Shutdown (PCRStateSave : Z → bytes → bytes) (shutdownType : Z) : M TimeState Z :=
  let! status := gets (λ s, g_NvStatus (nv s)) in
  if negb (status =? TPM_RC_SUCCESS) then ret status
  else
    let! reconfig := gets g_pcrReConfig in
    if reconfig && (shutdownType =? TPM_SU_STATE)
    then ret (TPM_RCS_TYPE + (TPM_RC_P + TPM_RC_1))
    else
      gp_assign orderlyState shutdownType ;;
      modify (λ s, set_gc (PCRStateSave shutdownType (gc s)) s) ;;
      on_nv NvUpdateIndexOrderlyData ;;
      let! t := gets g_time in
      go_assign go_time t ;;
      write_orderly ;;
      if shutdownType =? TPM_SU_STATE then
        let! d := gets gc in
        on_nv (NvWrite NV_STATE_CLEAR_DATA sizeof_STATE_CLEAR_DATA d) ;;
        let! d := gets gr in
        on_nv (NvWrite NV_STATE_RESET_DATA sizeof_STATE_RESET_DATA d) ;;
        let! drtm := gets g_DrtmPreStartup in
        let! locality3 := gets g_StartupLocality3 in
        (if drtm then gp_assign orderlyState (Z.lor TPM_SU_STATE PRE_STARTUP_FLAG)
         else if locality3 then gp_assign orderlyState (Z.lor TPM_SU_STATE STARTUP_LOCALITY_3)
         else ret tt) ;;
        NV_SYNC_PERSISTENT orderlyState ;;
        ret TPM_RC_SUCCESS
      else if negb (shutdownType =? TPM_SU_CLEAR)
      then ret (TPM_RCS_VALUE + (TPM_RC_P + TPM_RC_1))
      else NV_SYNC_PERSISTENT orderlyState ;; ret TPM_RC_SUCCESS.

(** ** The frame of a command (ExecCommand.c, lines 124-151 and 297-328)

    Before the command is parsed, and after it has been executed; the failure
    mode has its own path. *)
Section command.
Context `{BlockCipher} (FILE_BACKED_NV : bool).

(** [_TPM_Init]; [crypt_init] is what [CryptInit] returns, [powerLost] what
    [_plat__WasPowerLost] does. *)
Definition TPM_Init (powerLost crypt_init : bool) (cycles : Z) : M TimeState unit :=
  modify (λ s, set_g_powerWasLost (g_powerWasLost s || powerLost) s) ;;
  modify (set_g_initialized false) ;;
  modify (set_g_DrtmPreStartup false) ;;
  let! lost := gets g_powerWasLost in
  let! nvOk := on_nv (NvPowerOn FILE_BACKED_NV lost) in
  modify (set_g_nvOk nvOk) ;;
  on_nv (modify (set_inFailureMode (negb nvOk || negb crypt_init))) ;;
  if nvOk && crypt_init then tpm_init_load cycles else ret tt.

Definition command_begin (cycles : Z) : M TimeState unit :=
  on_nv (modify (set_updateNV 0)) ;;
  on_nv (modify (set_clearOrderly false)) ;;
  on_nv (NvCheckState FILE_BACKED_NV) ;;
  TimeUpdateToCurrent cycles.

Definition clear_orderly : M TimeState unit :=
  let! clear := gets (λ s, g_clearOrderly (nv s)) in
  let! orderly := NV_IS_ORDERLY in
  if clear && orderly then
    gp_assign orderlyState SU_NONE_VALUE ;; NV_SYNC_PERSISTENT orderlyState ;; ret tt
  else ret tt.

Definition commit_nv : M TimeState unit :=
  let! update := gets (λ s, g_updateNV (nv s)) in
  let! failed := gets (λ s, g_inFailureMode (nv s)) in
  if negb (update =? 0) && negb failed then
    (if update =? UT_ORDERLY then on_nv NvUpdateIndexOrderlyData else ret tt) ;;
    let! ok := on_nv (NvCommit FILE_BACKED_NV) in
    (if ok then ret tt else modify set_failure) ;;
    on_nv (modify (set_updateNV 0))
  else ret tt.

(** The response is built between the two, which does not touch this state. *)
Definition command_end : M TimeState unit := clear_orderly ;; commit_nv.
End command.
End time.
