(* ===== verification/TimeProof.v ===== *)
(** * Lemmas on time and the dictionary attack logic

    [time_wf] is the invariant on sizes and octets.  [view] is what the
    dictionary attack logic keeps (in RAM and in NV memory), [heal],
    [count_fail] and so on are its specification on views, and the lemmas show
    that the functions of DA.c, Time.c and SessionProcess.c implement it, at
    startup and around a command too. *)

From S2P Require Import Prelude TpmTypes Struct Cbc NVMem NVReserved Clock NvList NvRam Session Time.
Local Open Scope Z_scope.

Section lemmas.
Context `{TimeLayout}.
Implicit Types (s : TimeState) (f g : GpField).

(** ** Well-formed states *)

Record time_wf (s : TimeState) : Prop := {
  wf_nv : nv_ok (nv s);
  wf_mem_byte : Forall is_byte (nvmem (nv s));
  wf_ram : blen (s_indexOrderlyRam (nv s)) = RAM_INDEX_SPACE;
  wf_ram_byte : Forall is_byte (s_indexOrderlyRam (nv s));
  wf_gp : swf (F := GpField) (gp s);
  wf_go : swf (F := GoField) (go s);
  wf_gr : swf (F := GrField) (gr s);
  wf_gp_byte : Forall is_byte (gp s);
  wf_go_byte : Forall is_byte (go s);
}.

Lemma time_wf_ext s s' :
  time_wf s → nvmem (nv s') = nvmem (nv s) → s_indexOrderlyRam (nv s') = s_indexOrderlyRam (nv s) →
  gp s' = gp s → go s' = go s → gr s' = gr s → time_wf s'.
Proof.
  intros [] Hm Hram Hgp Hgo Hgr. unfold nv_ok in *.
  by constructor; unfold nv_ok; rewrite ?Hm, ?Hram, ?Hgp, ?Hgo, ?Hgr.
Qed.

Lemma wf_set_gp f v s : time_wf s → time_wf (set_gp (fset f v (gp s)) s).
Proof. intros []. constructor; cbn; eauto with tpm. Qed.

Lemma wf_set_go (f : GoField) v s : time_wf s → time_wf (set_go (fset f v (go s)) s).
Proof. intros []. constructor; cbn; eauto with tpm. Qed.

Lemma wf_set_clk c s : time_wf s → time_wf (set_clk c s).
Proof. intros []. by constructor. Qed.

Lemma wf_set_time t s : time_wf s → time_wf (set_g_time t s).
Proof. intros []. by constructor. Qed.

Lemma wf_set_pending b s : time_wf s → time_wf (set_s_DAPendingOnNV b s).
Proof. intros []. by constructor. Qed.

(** ** Members of [gp] and their copies in NV memory *)

Lemma gp_in f :
  0 ≤ foff f ∧ 0 < fsize f ∧ foff f + fsize f ≤ sizeof_PERSISTENT_DATA.
Proof. rewrite <- gp_size. apply field_in. Qed.

Lemma persistent_fits : sizeof_PERSISTENT_DATA < NV_ORDERLY_DATA + sizeof_ORDERLY_DATA
  ∧ NV_ORDERLY_DATA + sizeof_ORDERLY_DATA + 512 < NV_MEMORY_SIZE
  ∧ 0 < sizeof_PERSISTENT_DATA ≤ NV_ORDERLY_DATA ∧ 0 < sizeof_ORDERLY_DATA.
Proof.
  pose proof NV_USER_DYNAMIC_bounds. pose proof layout_persistent. pose proof layout_reset. pose proof layout_clear.
  pose proof layout_orderly. pose proof layout_fits.
  unfold NV_USER_DYNAMIC, NV_INDEX_RAM_DATA, NV_ORDERLY_DATA, NV_STATE_CLEAR_DATA,
    NV_STATE_RESET_DATA, NV_PERSISTENT_DATA, RAM_INDEX_SPACE in *. lia.
Qed.

(** The copy of a member in NV memory. *)
Definition nvbytes f s : bytes := bread (nvmem (nv s)) (foff f) (fsize f).
Definition nvget f s : Z := le_val (nvbytes f s).

(** What [NV_SYNC_PERSISTENT] does. *)
Definition sync f s : TimeState := set_nv (nv_put (foff f) (fbytes f (gp s)) (nv s)) s.

Lemma NV_SYNC_ok f s : time_wf s → NV_SYNC_PERSISTENT f s = Some (true, sync f s).
Proof.
  intros [Hnv _ _ _ Hgp _ _ _ _]. unfold NV_SYNC_PERSISTENT. munfold. unfold on_nv.
  pose proof (gp_in f). pose proof persistent_fits.
  rewrite NvWrite_ok; [done|done|lia|by rewrite blen_fbytes|lia].
Qed.

Lemma wf_sync f s : time_wf s → time_wf (sync f s).
Proof.
  intros Hw. pose proof (gp_in f). pose proof persistent_fits. destruct Hw.
  constructor; cbn; try done; [|by apply bwrite_byte, bread_byte].
  apply nv_put_ok; [done|lia|rewrite blen_fbytes by done; lia].
Qed.

Lemma nvbytes_sync f s : time_wf s → nvbytes f (sync f s) = fbytes f (gp s).
Proof.
  intros [Hnv _ _ _ Hgp _ _ _ _]. pose proof (gp_in f). pose proof persistent_fits.
  unfold nvbytes, sync. cbn. unfold nv_ok in Hnv. fold (nvmem (nv s)).
  apply bread_bwrite_same; rewrite ?blen_fbytes by done; lia.
Qed.

Lemma nvbytes_sync_ne f g s : time_wf s → f ≠ g → nvbytes f (sync g s) = nvbytes f s.
Proof.
  intros [Hnv _ _ _ Hgp _ _ _ _] Hne. pose proof (gp_in f). pose proof (gp_in g).
  pose proof persistent_fits. unfold nvbytes, sync. cbn. unfold nv_ok in Hnv. fold (nvmem (nv s)).
  destruct (field_disjoint f g Hne).
  - apply bread_bwrite_before; rewrite ?blen_fbytes by done; lia.
  - apply bread_bwrite_after; rewrite ?blen_fbytes by done; lia.
Qed.

Lemma nvget_sync f s : time_wf s → nvget f (sync f s) = fget f (gp s).
Proof. intros. unfold nvget. by rewrite nvbytes_sync. Qed.

Lemma nvget_sync_ne f g s : time_wf s → f ≠ g → nvget f (sync g s) = nvget f s.
Proof. intros. unfold nvget. by rewrite nvbytes_sync_ne. Qed.

Lemma gp_get_set f v m :
  swf (F := GpField) m → 0 ≤ v < 2 ^ (8 * gp_width f) → fget f (fset f v m) = v.
Proof. intros Hm Hv. rewrite fget_fset, gp_fsize by done. by apply wrap_small. Qed.

Lemma go_get_set (f : GoField) v m :
  swf (F := GoField) m → 0 ≤ v < 2 ^ (8 * go_width f) → fget f (fset f v m) = v.
Proof. intros Hm Hv. rewrite fget_fset, go_fsize by done. by apply wrap_small. Qed.

Lemma gp_range f s : time_wf s → 0 ≤ fget f (gp s) < 2 ^ (8 * gp_width f).
Proof.
  intros Hw. pose proof (fget_range f _ (wf_gp_byte s Hw)) as Hr. rewrite gp_fsize in Hr.
  destruct f; exact Hr.
Qed.

Lemma go_range (f : GoField) s : time_wf s → 0 ≤ fget f (go s) < 2 ^ (8 * go_width f).
Proof.
  intros Hw. pose proof (fget_range f _ (wf_go_byte s Hw)) as Hr. rewrite go_fsize in Hr.
  destruct f; exact Hr.
Qed.

End lemmas.

#[export] Hint Resolve wf_set_gp wf_set_go wf_set_clk wf_set_time wf_set_pending wf_sync
  wf_gp wf_go wf_gr wf_nv wf_gp_byte wf_go_byte : tpm.

(** ** Symbolic execution

    [texec] runs statements on a state built from the field updates; [tsync]
    uses the lemma on [NV_SYNC_PERSISTENT]. *)

Ltac tcbn :=
  cbn [nv clk gp go gr gc g_time g_initialized g_nvOk g_powerWasLost g_pcrReConfig
    g_DrtmPreStartup g_StartupLocality3 s_DAPendingOnNV set_nv set_clk set_gp set_go set_gr set_gc
    set_g_time set_g_initialized set_g_nvOk set_g_powerWasLost set_g_StartupLocality3
    set_s_DAPendingOnNV negb andb orb] in *.
Ltac texec :=
  cbv beta iota zeta delta [bind ret gets modify gpv gp_assign gov go_assign grv gr_assign
    NV_IS_AVAILABLE NV_IS_ORDERLY TPMIsStarted on_clk]; tcbn.
Ltac tside := first [done | solve [eauto 12 with tpm] | solve [cbn; lia]].
Ltac tsync := rewrite NV_SYNC_ok by tside; texec.

(** ** The view of the dictionary attack logic and its specification *)

Record Da := mkDa {
  d_tries : Z; d_max : Z; d_rec : Z; d_time : Z; d_timer : Z; d_nvtries : Z; d_pending : bool
}.

(** Self healing: one failure is forgiven for every [d_rec] seconds since the
    timer, and the rest of the time stays on it.  The count is truncated to 32
    bits before it is subtracted. *)
Definition heal (v : Da) : Da :=
  if d_tries v =? 0 then v
  else if d_rec v =? 0 then mkDa 0 (d_max v) (d_rec v) (d_time v) (d_timer v) 0 (d_pending v)
  else
    let k := (d_time v - d_timer v) / 1000 / d_rec v in
    let t := if d_tries v <=? u32 k then 0 else d_tries v - u32 k in
    mkDa t (d_max v) (d_rec v) (d_time v) (d_timer v + k * d_rec v * 1000)
      (if k =? 0 then d_nvtries v else t) (d_pending v).

(** A failure of an authorization is counted; [avail]: NV can be written. *)
Definition count_fail (avail : bool) (v : Da) : Da :=
  if d_rec v =? 0
  then mkDa (d_tries v) (d_max v) (d_rec v) (d_time v) (d_time v) (d_nvtries v) (d_pending v)
  else
    let t := u32 (d_tries v + 1) in
    mkDa t (d_max v) (d_rec v) (d_time v) (d_time v) (if avail then t else d_nvtries v)
      (negb avail || d_pending v).

(** Pending data is recorded; the time advances. *)
Definition flush (v : Da) : Da :=
  mkDa (d_tries v) (d_max v) (d_rec v) (d_time v) (d_timer v) (d_tries v) false.
Definition tick (t : Z) (v : Da) : Da :=
  mkDa (d_tries v) (d_max v) (d_rec v) t (d_timer v) (d_nvtries v) (d_pending v).

Section view.
Context `{TimeLayout}.
Implicit Types (s : TimeState).

Definition view s : Da :=
  mkDa (fget failedTries (gp s)) (fget maxTries (gp s)) (fget recoveryTime (gp s))
    (g_time s) (fget selfHealTimer (go s)) (nvget failedTries s) (s_DAPendingOnNV s).

Definition timer_ok (v : Da) : Prop := 0 ≤ d_timer v ≤ d_time v ∧ d_time v < 2 ^ 63.

(** The parameters of the logic, and the orderly state. *)
Definition is_param (f : GpField) : bool :=
  match f with
  | maxTries | recoveryTime | lockoutRecovery | orderlyState => true
  | _ => false
  end.

(** What the functions on tries and timers leave alone: the parameters and the
    orderly state, in RAM and in NV, and the rest of the state. *)
Record keeps (s s' : TimeState) : Prop := {
  keeps_gp f : is_param f = true →
    fget f (gp s') = fget f (gp s) ∧ nvget f s' = nvget f s;
  keeps_status : g_NvStatus (nv s') = g_NvStatus (nv s);
  keeps_clear : g_clearOrderly (nv s') = g_clearOrderly (nv s);
  keeps_init : g_initialized s' = g_initialized s;
}.

Lemma keeps_refl s : keeps s s.
Proof. by constructor. Qed.

Lemma keeps_trans s1 s2 s3 : keeps s1 s2 → keeps s2 s3 → keeps s1 s3.
Proof.
  intros [G1 ? ? ?] [G2 ? ? ?]. constructor; try congruence. intros f Hf.
  destruct (G1 f Hf), (G2 f Hf). split; congruence.
Qed.

Lemma keeps_assign f v s :
  time_wf s → is_param f = false → keeps s (set_gp (fset f v (gp s)) s).
Proof.
  intros Hw Hf. constructor; try done. intros g Hg. split; [|done]. cbn.
  apply fget_fset_ne; [eauto with tpm|]. intros ->. congruence.
Qed.

Lemma keeps_sync f s :
  time_wf s → is_param f = false → keeps s (sync f s).
Proof.
  intros Hw Hf. constructor; try done. intros g Hg. split; [done|].
  apply nvget_sync_ne; [done|]. intros ->. congruence.
Qed.

Lemma keeps_go (f : GoField) v s : keeps s (set_go (fset f v (go s)) s).
Proof. by constructor. Qed.

(** Recording the tries in NV. *)
Definition d_sync (v : Da) : Da :=
  mkDa (d_tries v) (d_max v) (d_rec v) (d_time v) (d_timer v) (d_tries v) (d_pending v).

Lemma view_sync s : time_wf s → view (sync failedTries s) = d_sync (view s).
Proof. intros Hw. unfold view, d_sync. by rewrite nvget_sync. Qed.

Lemma view_sync_ne f s : time_wf s → f ≠ failedTries → view (sync f s) = view s.
Proof. intros Hw Hf. unfold view. by rewrite nvget_sync_ne. Qed.

(** The two halves of [DASelfHeal]. *)
Definition heal_tries : M TimeState unit :=
  let! tries := gpv failedTries in
  (if negb (tries =? 0) then
     let! recovery := gpv recoveryTime in
     if recovery =? 0 then
       gp_assign failedTries 0 ;; NV_SYNC_PERSISTENT failedTries ;; ret tt
     else
       let! time := gets g_time in
       let! timer := gov selfHealTimer in
       let! decreaseCount := c_div (u64 (time - timer) / 1000) recovery in
       (if tries <=? u32 decreaseCount then gp_assign failedTries 0
        else gp_assign failedTries (tries - u32 decreaseCount)) ;;
       go_assign selfHealTimer (u64 (timer + decreaseCount * recovery * 1000)) ;;
       (if negb (decreaseCount =? 0) then NV_SYNC_PERSISTENT failedTries ;; ret tt else ret tt)
   else ret tt).

Definition heal_lockout : M TimeState unit :=
  let! enabled := gpv lockOutAuthEnabled in
  if enabled =? 0 then
    let! recovery := gpv lockoutRecovery in
    if negb (recovery =? 0) then
      let! time := gets g_time in
      let! timer := gov lockoutTimer in
      if recovery <=? u64 (time - timer) / 1000 then
        gp_assign lockOutAuthEnabled 1 ;; NV_SYNC_PERSISTENT lockOutAuthEnabled ;; ret tt
      else ret tt
    else ret tt
  else ret tt.

Lemma DASelfHeal_split : DASelfHeal = (heal_tries ;; heal_lockout).
Proof. done. Qed.

Lemma decrease_bounds d r : 0 ≤ d → 0 < r → 0 ≤ d / 1000 / r ∧ d / 1000 / r * r * 1000 ≤ d.
Proof.
  intros Hd Hr. assert (0 ≤ d / 1000) by (apply Z.div_pos; lia).
  split; [apply Z.div_pos; lia|].
  pose proof (Z.mul_div_le d 1000 ltac:(lia)). pose proof (Z.mul_div_le (d / 1000) r ltac:(lia)). nia.
Qed.

Lemma heal_tries_view s :
  time_wf s → timer_ok (view s) →
  ∃ s', heal_tries s = Some (tt, s') ∧ time_wf s' ∧ view s' = heal (view s) ∧ keeps s s' ∧
    clk s' = clk s.
Proof.
  intros Hw [Ht Ht2]. cbn [view d_timer d_time] in Ht, Ht2.
  pose proof (gp_range failedTries s Hw) as Hf. pose proof (gp_range recoveryTime s Hw) as Hr.
  cbn in Hf, Hr. unfold heal_tries, heal. cbn [view d_tries d_max d_rec d_time d_timer d_nvtries d_pending].
  texec. destruct (Z.eqb_spec (fget failedTries (gp s)) 0); texec;
    [exists s; auto 6 using keeps_refl|].
  destruct (Z.eqb_spec (fget recoveryTime (gp s)) 0) as [Hr0|Hr0]; texec.
  { tsync. eexists. split; [done|]. split; [eauto with tpm|]. split.
    - rewrite view_sync by eauto with tpm. unfold view, d_sync. tcbn.
      by rewrite gp_get_set, !fget_fset_ne by tside.
    - split; [|done]. eapply keeps_trans; [apply (keeps_assign failedTries 0); done|].
      apply keeps_sync; eauto with tpm. }
  destruct (decrease_bounds (g_time s - fget selfHealTimer (go s)) (fget recoveryTime (gp s)))
    as [Hk Hk2]; [lia..|].
  unfold c_div. rewrite (proj2 (Z.eqb_neq _ _) Hr0). texec.
  rewrite (wrap_small 64 (g_time s - _)) by lia.
  set (k := (g_time s - fget selfHealTimer (go s)) / 1000 / fget recoveryTime (gp s)) in *.
  rewrite (wrap_small 64 (fget selfHealTimer (go s) + _)) by lia.
  pose proof (wrap_range 32 k ltac:(lia)) as Hu.
  set (t := if fget failedTries (gp s) <=? u32 k then 0 else fget failedTries (gp s) - u32 k).
  assert (Ht' : 0 ≤ t < 2 ^ 32).
  { unfold t. destruct (Z.leb_spec (fget failedTries (gp s)) (u32 k)); lia. }
  match goal with |- context [match ?m with Some _ => _ | None => _ end] =>
    replace m with (Some (tt, set_gp (fset failedTries t (gp s)) s)) by (unfold t; by case_match) end.
  texec. set (s1 := set_go _ _).
  assert (W1 : time_wf s1).
  { unfold s1. apply (wf_set_go selfHealTimer _ (set_gp (fset failedTries t (gp s)) s)).
    eauto with tpm. }
  assert (K1 : keeps s s1).
  { eapply keeps_trans; [apply (keeps_assign failedTries t); done|].
    apply (keeps_go selfHealTimer _ (set_gp (fset failedTries t (gp s)) s)). }
  assert (V1 : view s1 = mkDa t (fget maxTries (gp s)) (fget recoveryTime (gp s)) (g_time s)
      (fget selfHealTimer (go s) + k * fget recoveryTime (gp s) * 1000)
      (nvget failedTries s) (s_DAPendingOnNV s)).
  { unfold view, s1. tcbn. rewrite gp_get_set, go_get_set, !fget_fset_ne
      by tside. done. }
  destruct (Z.eqb_spec k 0); texec; [by exists s1|].
  tsync. eexists. split; [done|]. split; [eauto with tpm|]. split.
  - by rewrite view_sync, V1.
  - split; [|done]. eapply keeps_trans; [done|]. apply keeps_sync; eauto with tpm.
Qed.

Lemma heal_lockout_view s :
  time_wf s →
  ∃ s', heal_lockout s = Some (tt, s') ∧ time_wf s' ∧ view s' = view s ∧ keeps s s' ∧
    clk s' = clk s.
Proof.
  intros Hw. unfold heal_lockout. texec.
  destruct (_ =? 0); texec; [|exists s; auto 6 using keeps_refl].
  destruct (_ =? 0); texec; [exists s; auto 6 using keeps_refl|].
  destruct (_ <=? _); texec; [|exists s; auto 6 using keeps_refl].
  tsync. eexists. split; [done|]. split; [eauto with tpm|]. split_and!; [|..|done].
  - rewrite view_sync_ne by tside. unfold view. tcbn. by rewrite !fget_fset_ne by tside.
  - eapply keeps_trans; [by apply (keeps_assign lockOutAuthEnabled 1)|].
    apply keeps_sync; eauto with tpm.
Qed.

Lemma DASelfHeal_view s :
  time_wf s → timer_ok (view s) →
  ∃ s', DASelfHeal s = Some (tt, s') ∧ time_wf s' ∧ view s' = heal (view s) ∧ keeps s s' ∧
    clk s' = clk s.
Proof.
  intros Hw Ht. rewrite DASelfHeal_split.
  destruct (heal_tries_view s Hw Ht) as (s1 & E1 & W1 & V1 & K1 & C1).
  destruct (heal_lockout_view s1 W1) as (s2 & E2 & W2 & V2 & K2 & C2).
  exists s2. erewrite bind_Some by exact E1. split_and!; try done.
  - congruence.
  - by eapply keeps_trans.
  - congruence.
Qed.

(** ** Failures *)

Definition avail s : bool := g_NvStatus (nv s) =? TPM_RC_SUCCESS.

Lemma count_failure_view handle s :
  time_wf s → handle ≠ TPM_RH_LOCKOUT → 0 ≤ g_time s < 2 ^ 64 →
  ∃ s', count_failure handle s = Some (TPM_RC_AUTH_FAIL, s') ∧ time_wf s' ∧
    view s' = count_fail (avail s) (view s) ∧ keeps s s' ∧ clk s' = clk s.
Proof.
  intros Hw Hh Ht. pose proof (gp_range failedTries s Hw) as Hf. cbn in Hf.
  unfold count_failure, DARegisterFailure, count_fail, avail. cbn [view d_tries d_max d_rec d_time d_timer d_nvtries d_pending].
  rewrite (proj2 (Z.eqb_neq handle TPM_RH_LOCKOUT)) by done.
  texec. destruct (Z.eqb_spec (fget recoveryTime (gp s)) 0) as [Hr|Hr]; texec.
  { eexists. split; [done|]. split; [by eauto with tpm|]. split_and!; [|apply keeps_go|done].
    unfold view. tcbn. by rewrite go_get_set by tside. }
  pose proof (wrap_range 32 (fget failedTries (gp s) + 1) ltac:(lia)) as Hu.
  set (t := u32 (fget failedTries (gp s) + 1)) in *.
  destruct (g_NvStatus (nv s) =? TPM_RC_SUCCESS); texec.
  - tsync. eexists. split; [done|].
    assert (W1 : time_wf (set_gp (fset failedTries t (gp s)) s)) by eauto with tpm.
    split; [by eauto with tpm|]. split_and!; [| |done].
    + change (view _) with (view (sync failedTries (set_go (fset selfHealTimer (g_time s) (go s)) (set_gp (fset failedTries t (gp s)) s)))).
      rewrite view_sync by (by apply (wf_set_go selfHealTimer _ (set_gp (fset failedTries t (gp s)) s))).
      unfold view, d_sync. tcbn. by rewrite gp_get_set, go_get_set, !fget_fset_ne by tside.
    + eapply keeps_trans; [by apply (keeps_assign failedTries t)|].
      eapply keeps_trans; [by apply (keeps_sync failedTries)|].
      apply (keeps_go selfHealTimer _ (sync failedTries (set_gp (fset failedTries t (gp s)) s))).
  - eexists. split; [done|].
    assert (W1 : time_wf (set_gp (fset failedTries t (gp s)) s)) by eauto with tpm.
    split; [by apply (wf_set_go selfHealTimer _ (set_s_DAPendingOnNV true (set_gp (fset failedTries t (gp s)) s))); eauto with tpm|].
    split_and!; [| |done].
    + unfold view. tcbn. by rewrite gp_get_set, go_get_set, !fget_fset_ne by tside.
    + eapply keeps_trans; [by apply (keeps_assign failedTries t)|]. by constructor.
Qed.

(** ** The lockout test

    It fails with the NV status when NV cannot be written and the TPM was shut
    down in an orderly way or data is pending; otherwise pending data is written
    and the limit decides. *)

Definition orderly s : bool := IS_ORDERLY (fget orderlyState (gp s)).

Definition locked_out s : Z :=
  if negb (avail s) && (orderly s || s_DAPendingOnNV s) then g_NvStatus (nv s)
  else if fget maxTries (gp s) <=? fget failedTries (gp s) then TPM_RC_LOCKOUT
  else TPM_RC_SUCCESS.

Lemma CheckLockedOut_view s :
  time_wf s →
  ∃ s', CheckLockedOut false s = Some (locked_out s, s') ∧ time_wf s' ∧
    view s' = (if avail s && s_DAPendingOnNV s then flush (view s) else view s) ∧
    keeps s s' ∧ clk s' = clk s.
Proof.
  intros Hw. unfold CheckLockedOut, locked_out, orderly, avail. texec.
  destruct (g_NvStatus (nv s) =? TPM_RC_SUCCESS) eqn:Ha,
    (IS_ORDERLY (fget orderlyState (gp s))), (s_DAPendingOnNV s) eqn:Hp; texec; rewrite ?Hp; texec;
    try (exists s; by auto 6 using keeps_refl).
  all: tsync; tsync; eexists; (split; [done|]); (split; [by eauto with tpm|]).
  all: split_and!; [|..|done].
  all: try (eapply keeps_trans; [by apply (keeps_sync lockOutAuthEnabled)|];
    eapply keeps_trans; [by apply (keeps_sync failedTries); eauto with tpm|]; by constructor).
  all: unfold view, flush; tcbn; cbn [view d_tries d_max d_rec d_time d_timer]; f_equal;
    exact (nvget_sync failedTries (sync lockOutAuthEnabled s) (wf_sync _ _ Hw)).
Qed.

(** ** Time *)

(** [go] is written to its place in NV memory. *)
Definition sync_go s : TimeState := set_nv (nv_put NV_ORDERLY_DATA (go s) (nv s)) s.

Lemma go_blen s : time_wf s → blen (go s) = sizeof_ORDERLY_DATA.
Proof. intros Hw. rewrite <- go_size. apply (wf_go s Hw). Qed.

Lemma write_orderly_ok s : time_wf s → write_orderly s = Some (tt, sync_go s).
Proof.
  intros Hw. unfold write_orderly. texec. unfold on_nv. pose proof persistent_fits.
  rewrite NvWrite_ok; [done|by apply wf_nv|lia|by rewrite go_blen|lia].
Qed.

Lemma wf_sync_go s : time_wf s → time_wf (sync_go s).
Proof.
  intros Hw. pose proof persistent_fits. pose proof (go_blen s Hw). destruct Hw.
  constructor; cbn; try done; [|by apply bwrite_byte].
  apply nv_put_ok; [done|lia|lia].
Qed.

Lemma nvget_sync_go f s : time_wf s → nvget f (sync_go s) = nvget f s.
Proof.
  intros Hw. pose proof persistent_fits. pose proof (go_blen s Hw). pose proof (gp_in f).
  pose proof (wf_nv s Hw) as Hnv. unfold nv_ok in Hnv.
  unfold nvget, nvbytes, sync_go. cbn. f_equal. fold (nvmem (nv s)).
  apply bread_bwrite_before; lia.
Qed.

Lemma keeps_sync_go s : time_wf s → keeps s (sync_go s).
Proof. intros Hw. constructor; try done. intros f _. split; [done|]. by apply nvget_sync_go. Qed.

Lemma TimeClockUpdate_view t s :
  time_wf s → avail s = true →
  ∃ s', TimeClockUpdate t s = Some (tt, s') ∧ time_wf s' ∧ view s' = view s ∧ keeps s s' ∧
    clk s' = clk s.
Proof.
  intros Hw Ha. unfold TimeClockUpdate, avail in *. texec.
  destruct (_ <? _); texec.
  - rewrite Ha. cbn [pAssert]. texec.
    set (s1 := set_go (fset go_clockSafe 1 (go s)) s).
    assert (W1 : time_wf s1) by (by apply wf_set_go).
    set (s2 := set_go _ _). assert (W2 : time_wf s2) by (by apply (wf_set_go go_clock t s1)).
    rewrite write_orderly_ok by done. exists (sync_go s2). split; [done|].
    split; [by apply wf_sync_go|]. split_and!; [| |done].
    + unfold view. rewrite nvget_sync_go by done. cbn. tcbn. by rewrite !fget_fset_ne by tside.
    + eapply keeps_trans; [|by apply keeps_sync_go]. by constructor.
  - eexists. split; [done|]. split; [by apply wf_set_go|]. split_and!; [| |done].
    + unfold view. tcbn. by rewrite fget_fset_ne by tside.
    + apply keeps_go.
Qed.

Lemma TimeNewEpoch_view s :
  time_wf s →
  ∃ s', TimeNewEpoch s = Some (tt, s') ∧ time_wf s' ∧ view s' = view s ∧ keeps s s' ∧
    clk s' = set_timerStopped false (clk s).
Proof.
  intros Hw. unfold TimeNewEpoch. texec. tsync. eexists. split; [done|].
  split; [by eauto with tpm|]. split_and!; [| |done].
  - change (view (sync timeEpoch (set_gp (fset timeEpoch (u32 (fget timeEpoch (gp s) + 1)) (gp s)) s))
      = view s).
    rewrite view_sync_ne by tside. unfold view. tcbn. by rewrite !fget_fset_ne by tside.
  - eapply keeps_trans; [by apply (keeps_assign timeEpoch (u32 (fget timeEpoch (gp s) + 1)))|].
    eapply keeps_trans; [apply (keeps_sync timeEpoch); eauto with tpm|]. by constructor.
Qed.

(** The clock of a started TPM: [g_time] is the TPM time of the last reading. *)
Definition clock_ok s : Prop := clock_range (clk s) ∧ s_tpmTime (clk s) = g_time s.

Lemma TimeUpdate_view cycles s :
  time_wf s → timer_ok (view s) → clock_ok s → g_time s < 2 ^ 62 → avail s = true →
  ∃ s', TimeUpdate cycles s = Some (tt, s') ∧ g_time s ≤ g_time s' < 2 ^ 63 ∧ time_wf s' ∧
    view s' = heal (tick (g_time s') (view s)) ∧ keeps s s' ∧ clock_ok s' ∧
    s_timerReset (clk s') = s_timerReset (clk s).
Proof.
  intros Hw [Ht1 Ht2] [Hc Htpm] H62 Ha. cbn [view d_timer d_time] in Ht1, Ht2. unfold TimeUpdate.
  erewrite bind_Some by reflexivity. cbn [fst snd].
  set (s1 := set_clk (set_timerStopped false (clk s)) s).
  assert (W1 : time_wf s1) by (by apply wf_set_clk).
  assert (∃ s2, (if s_timerStopped (clk s) then TimeNewEpoch else ret tt) s1 = Some (tt, s2) ∧
    time_wf s2 ∧ view s2 = view s ∧ keeps s s2 ∧ clk s2 = set_timerStopped false (clk s))
    as (s2 & E2 & W2 & V2 & K2 & C2).
  { destruct (s_timerStopped (clk s)).
    - destruct (TimeNewEpoch_view s1 W1) as (s2 & E & W & V & K & C). exists s2.
      split_and!; try done; by eapply keeps_trans; [|exact K]; constructor.
    - exists s1. split_and!; (done || by constructor). }
  erewrite bind_Some by exact E2.
  assert (T2 : g_time s2 = g_time s) by (by injection V2).
  destruct (timer_read_forward (plat__RealTime cycles) (clk s2)) as (t & c & Er & Ht & Etc & Hcr & _ & R1 & _).
  { rewrite C2. exact Hc. }
  { rewrite C2. cbn. lia. }
  { apply RealTime_range. }
  rewrite C2 in Ht, R1. cbn in Ht, R1.
  unfold plat__TimerRead. texec. rewrite Er. texec. rewrite T2.
  rewrite (wrap_small 64 (t - g_time s)) by lia.
  replace (g_time s + (t - g_time s)) with t by lia. rewrite (wrap_small 64 t) by lia.
  set (s3 := set_g_time t (set_clk c s2)).
  assert (W3 : time_wf s3) by (unfold s3; eauto with tpm).
  assert (V3 : view s3 = tick t (view s)) by (rewrite <- V2; done).
  assert (K3 : keeps s s3) by (eapply keeps_trans; [exact K2|by constructor]).
  destruct (TimeClockUpdate_view (u64 (fget go_clock (go s2) + (t - g_time s))) s3 W3)
    as (s4 & E4 & W4 & V4 & K4 & C4).
  { unfold avail. by rewrite (keeps_status _ _ K3). }
  rewrite E4. destruct (DASelfHeal_view s4 W4) as (s5 & E5 & W5 & V5 & K5 & C5).
  { rewrite V4, V3. unfold timer_ok. cbn. lia. }
  rewrite V4, V3 in V5. assert (T5 : g_time s5 = t).
  { change (d_time (view s5) = t). rewrite V5. unfold heal. by repeat case_match. }
  assert (C : clk s5 = c) by (by rewrite C5, C4).
  assert (Hok : clock_ok s5) by (unfold clock_ok; rewrite C, T5; done).
  assert (K : keeps s s5) by (eapply keeps_trans; [exact K3|]; by eapply keeps_trans).
  exists s5. rewrite T5. split; [done|]. split; [lia|]. rewrite C. done.
Qed.

End view.
#[export] Hint Resolve wf_sync_go : tpm.

(** * Startup after a power loss, and the frame of a command *)

(** The timers start at zero; a failure that was not recorded is assumed. *)
Definition restart_view (v : Da) : Da :=
  let more := negb (d_rec v =? 0) && (d_tries v <? d_max v) in
  let t := if more then d_tries v + 1 else d_tries v in
  mkDa t (d_max v) (d_rec v) (d_time v) 0 (if more then t else d_nvtries v) (d_pending v).

Section start.
Context `{TimeLayout}.
Implicit Types (s : TimeState).

Definition reset_timers : M TimeState unit :=
  go_assign selfHealTimer 0 ;; go_assign lockoutTimer 0.

Lemma wf_set_gr (f : GrField) v s : time_wf s → time_wf (set_gr (fset f v (gr s)) s).
Proof. intros []. constructor; cbn; eauto with tpm. Qed.

Lemma keeps_gr d s : keeps s (set_gr d s).
Proof. by constructor. Qed.

(** [DAStartup] up to the update of the time. *)
Lemma DAStartup_unorderly cycles type s :
  time_wf s → s_timerReset (clk s) = true → orderly s = false →
  IS_ORDERLY (g_prevOrderlyState (nv s)) = false →
  ∃ s1, DAStartup cycles type s = (TimeUpdate cycles ;; ret true) s1 ∧ time_wf s1 ∧
    view s1 = restart_view (view s) ∧ keeps s s1 ∧ clk s1 = set_timerReset false (clk s).
Proof.
  intros Hw Hrst Hord Hprev. unfold DAStartup. unfold orderly in Hord.
  erewrite bind_Some by reflexivity. rewrite Hrst.
  set (s1 := set_go (fset lockoutTimer 0 (fset selfHealTimer 0 (go s)))
    (set_go (fset selfHealTimer 0 (go s)) (set_clk (set_timerReset false (clk s)) s))).
  rewrite (bind_Some _ _ _ tt s1) by (texec; by rewrite Hord).
  assert (W1 : time_wf s1).
  { unfold s1. apply (wf_set_go lockoutTimer 0 (set_go (fset selfHealTimer 0 (go s)) (set_clk (set_timerReset false (clk s)) s))).
    apply (wf_set_go selfHealTimer 0 (set_clk (set_timerReset false (clk s)) s)). by apply wf_set_clk. }
  assert (V1 : view s1 = mkDa (d_tries (view s)) (d_max (view s)) (d_rec (view s)) (d_time (view s)) 0
      (d_nvtries (view s)) (d_pending (view s))).
  { unfold view, s1. tcbn. cbn [d_tries d_max d_rec d_time d_nvtries d_pending]. f_equal.
    rewrite fget_fset_ne, go_get_set by tside. done. }
  assert (K1 : keeps s s1) by (by constructor).
  erewrite bind_Some by reflexivity.
  assert (∃ s2, (if fget lockoutRecovery (gp s1) =? 0
      then gp_assign lockOutAuthEnabled 1 ;; NV_SYNC_PERSISTENT lockOutAuthEnabled ;; ret tt
      else ret tt) s1 = Some (tt, s2) ∧ time_wf s2 ∧ view s2 = view s1 ∧
      keeps s1 s2 ∧ clk s2 = clk s1 ∧ g_prevOrderlyState (nv s2) = g_prevOrderlyState (nv s1))
    as (s2 & E2 & W2 & V2 & K2 & C2 & P2).
  { destruct (_ =? 0); [|by exists s1; auto 8 using keeps_refl].
    texec. tsync. eexists. split; [done|].
    split; [eauto with tpm|]. split_and!; [| |done..].
    - rewrite view_sync_ne by tside. unfold view. tcbn. by rewrite !fget_fset_ne by tside.
    - eapply keeps_trans; [by apply (keeps_assign lockOutAuthEnabled 1)|].
      apply keeps_sync; eauto with tpm. }
  erewrite bind_Some by exact E2. texec. unfold restart_view.
  change (fget recoveryTime (gp s2)) with (d_rec (view s2)).
  change (fget failedTries (gp s2)) with (d_tries (view s2)).
  change (fget maxTries (gp s2)) with (d_max (view s2)).
  rewrite V2, V1. cbn [d_rec d_tries d_max]. rewrite P2.
  change (g_prevOrderlyState (nv s1)) with (g_prevOrderlyState (nv s)). rewrite Hprev. cbn [negb].
  rewrite andb_true_r. destruct (negb (d_rec (view s) =? 0) && (d_tries (view s) <? d_max (view s))) eqn:Hb.
  - zbool. destruct Hb as [_ Hlt]. pose proof (gp_range maxTries s Hw) as Hm.
    pose proof (gp_range failedTries s Hw) as Hf. cbn in Hm, Hf, Hlt.
    rewrite (wrap_small 32) by (cbn; lia). tsync. eexists. split; [done|].
    split; [eauto with tpm|]. split_and!; [| |exact C2].
    + rewrite view_sync by eauto with tpm. unfold d_sync, view. tcbn.
      rewrite gp_get_set, !fget_fset_ne by (first [tside | cbn in *; lia]).
      unfold view in V2, V1. cbn in V2, V1 |- *. rewrite V1 in V2. injection V2 as _ -> -> -> -> _ ->. done.
    + eapply keeps_trans; [exact K1|]. eapply keeps_trans; [exact K2|].
      eapply keeps_trans; [by apply (keeps_assign failedTries (d_tries (view s) + 1))|].
      apply keeps_sync; eauto with tpm.
  - exists s2. split; [done|]. split; [done|]. split_and!; [|by eapply keeps_trans|exact C2].
    rewrite V2, V1. done.
Qed.
(** ** TPM2_Startup *)

(** A step of the startup that touches neither tries, parameters nor timers. *)
Record quiet (s s' : TimeState) : Prop := {
  quiet_wf : time_wf s';
  quiet_view : view s' = view s;
  quiet_keeps : keeps s s';
  quiet_clk : clk s' = clk s;
  quiet_prev : g_prevOrderlyState (nv s') = g_prevOrderlyState (nv s);
}.

Lemma quiet_refl s : time_wf s → quiet s s.
Proof. intros. constructor; auto using keeps_refl. Qed.

Lemma quiet_trans s1 s2 s3 : quiet s1 s2 → quiet s2 s3 → quiet s1 s3.
Proof. intros [] []. constructor; try congruence. by eapply keeps_trans. Qed.

Lemma quiet_assign f v s :
  time_wf s → f ≠ failedTries → is_param f = false → quiet s (set_gp (fset f v (gp s)) s).
Proof.
  intros Hw Hf Hp. constructor; try done; [eauto with tpm| |by apply keeps_assign].
  unfold view. tcbn. assert (Hg : ∀ g, f ≠ g → fget g (fset f v (gp s)) = fget g (gp s)).
  { intros g Hg. apply fget_fset_ne; [eauto with tpm|congruence]. }
  rewrite !Hg; [done|..]; (done || by intros ->).
Qed.

Lemma quiet_sync f s :
  time_wf s → f ≠ failedTries → is_param f = false → quiet s (sync f s).
Proof.
  intros Hw Hf Hp. constructor; (done || eauto using view_sync_ne, keeps_sync with tpm).
Qed.

Lemma quiet_gr (f : GrField) v s : time_wf s → quiet s (set_gr (fset f v (gr s)) s).
Proof. intros Hw. constructor; (done || eauto using wf_set_gr, keeps_gr). Qed.

Lemma quiet_failure s : time_wf s → quiet s (set_failure s).
Proof. intros []. by constructor. Qed.

Lemma startup_counters_quiet startup s :
  time_wf s → ∃ s', startup_counters startup s = Some (tt, s') ∧ quiet s s'.
Proof.
  intros Hw. destruct startup; unfold startup_counters; texec.
  - set (s1 := set_gr _ s). assert (Q1 : quiet s s1) by (by apply quiet_gr).
    set (s2 := set_gr _ s1). assert (Q2 : quiet s s2) by (eapply quiet_trans; [done|]; apply (quiet_gr clearCount _ s1), Q1).
    set (s3 := set_gp _ s2).
    assert (Q3 : quiet s s3) by (eapply quiet_trans; [done|]; apply (quiet_assign resetCount _ s2); (done || apply Q2)).
    rewrite NV_SYNC_ok by apply Q3. texec.
    set (s4 := sync resetCount s3).
    assert (Q4 : quiet s s4) by (eapply quiet_trans; [done|]; apply quiet_sync; (done || apply Q3)).
    set (s5 := set_gp _ s4).
    assert (Q5 : quiet s s5) by (eapply quiet_trans; [done|]; apply (quiet_assign totalResetCount _ s4); (done || apply Q4)).
    assert (Hend : ∀ s6, quiet s s6 →
      ∃ s', (NV_SYNC_PERSISTENT totalResetCount ;; gr_assign restartCount 0) s6 = Some (tt, s') ∧ quiet s s').
    { intros s6 Q6. texec. rewrite NV_SYNC_ok by apply Q6. eexists. split; [done|].
      eapply quiet_trans; [exact Q6|].
      eapply quiet_trans; [apply (quiet_sync totalResetCount); (done || apply Q6)|].
      apply (quiet_gr restartCount _ (sync totalResetCount s6)). apply wf_sync, Q6. }
    destruct (_ =? 0); apply Hend; [|done].
    eapply quiet_trans; [done|]. apply quiet_failure, Q5.
  - eexists. split; [done|]. eapply quiet_trans; [by apply (quiet_gr clearCount)|].
    apply (quiet_gr restartCount). by apply wf_set_gr.
  - eexists. split; [done|]. by apply quiet_gr.
Qed.
(** The parameters, in RAM and in NV. *)
Definition same_params s s' : Prop :=
  ∀ f, is_param f = true → f ≠ orderlyState →
    fget f (gp s') = fget f (gp s) ∧ nvget f s' = nvget f s.

Lemma keeps_params s s' : keeps s s' → same_params s s'.
Proof. intros K f Hf _. by apply K. Qed.

Lemma same_params_trans s1 s2 s3 : same_params s1 s2 → same_params s2 s3 → same_params s1 s3.
Proof. intros H1 H2 f Hf Hn. destruct (H1 f Hf Hn), (H2 f Hf Hn). split; congruence. Qed.

(** The state a startup leaves: not orderly, in RAM and in NV. *)
Record started (s' : TimeState) : Prop := {
  st_wf : time_wf s';
  st_ram : fget orderlyState (gp s') = SU_NONE_VALUE;
  st_nv : nvget orderlyState s' = SU_NONE_VALUE;
  st_clock : clock_ok s';
  st_reset : s_timerReset (clk s') = false;
  st_init : g_initialized s' = true;
}.

Lemma set_orderly_none s :
  time_wf s → let s' := sync orderlyState (set_gp (fset orderlyState SU_NONE_VALUE (gp s)) s) in
  time_wf s' ∧ fget orderlyState (gp s') = SU_NONE_VALUE ∧ nvget orderlyState s' = SU_NONE_VALUE ∧
  view s' = view s ∧ same_params s s'.
Proof.
  intros Hw. cbv zeta. assert (W1 : time_wf (set_gp (fset orderlyState SU_NONE_VALUE (gp s)) s))
    by eauto with tpm.
  rewrite nvget_sync by done. unfold sync at 2. tcbn. rewrite !gp_get_set by tside.
  split_and!; [eauto with tpm|done..| |].
  - rewrite view_sync_ne by tside. unfold view. tcbn. by rewrite !fget_fset_ne by tside.
  - intros f Hf Hn. rewrite nvget_sync_ne by done. split; [|done].
    unfold sync. tcbn. by rewrite fget_fset_ne by tside.
Qed.

(** A startup function of another component that succeeds and leaves this one
    alone. *)
Definition aside (m : M TimeState bool) : Prop :=
  ∀ s, time_wf s → ∃ s', m s = Some (true, s') ∧ quiet s s'.

Lemma orderly_quiet s s' : quiet s s' → orderly s' = orderly s.
Proof. intros Q. unfold orderly. by rewrite (proj1 (keeps_gp _ _ (quiet_keeps _ _ Q) orderlyState eq_refl)). Qed.

Lemma TPM2_Startup_unorderly cycles locality crypt middle late s :
  aside (crypt SU_RESET) → (∀ l, aside (middle SU_RESET l)) → aside (late SU_RESET) →
  time_wf s → avail s = true → locality = 0 ∨ locality = 3 → orderly s = false →
  s_timerReset (clk s) = true → clock_ok s → g_time s < 2 ^ 62 →
  ∃ s', TPM2_Startup cycles locality crypt middle late TPM_SU_CLEAR s = Some (TPM_RC_SUCCESS, s') ∧
    started s' ∧ avail s' = true ∧ same_params s s' ∧
    g_time s ≤ g_time s' < 2 ^ 63 ∧ view s' = heal (tick (g_time s') (restart_view (view s))).
Proof.
  intros Hcrypt Hmiddle Hlate Hw Ha Hl Hord Hrst Hclk Ht. unfold TPM2_Startup. unfold avail in Ha. texec. rewrite Ha. cbn [negb].
  replace (negb (locality =? 0) && negb (locality =? 3)) with false by (destruct Hl; by subst).
  texec. unfold on_nv, orderly in *. texec. rewrite Hord. cbn [TPM_SU_CLEAR TPM_SU_STATE].
  replace (TPM_SU_CLEAR =? TPM_SU_STATE) with false by done. cbn [andb].
  set (s1 := set_gp _ _).
  assert (W1 : time_wf s1).
  { apply (wf_set_gp orderlyState _ (set_nv _ (set_g_StartupLocality3 _ s))). destruct Hw. by constructor. }
  assert (O1 : fget orderlyState (gp s1) = fget orderlyState (gp s)).
  { unfold s1. cbn. rewrite fget_fset by eauto with tpm. rewrite gp_fsize.
    apply wrap_small. by apply (gp_range orderlyState). }
  assert (V1 : view s1 = view s).
  { unfold view, s1. tcbn. by rewrite !fget_fset_ne by tside. }
  assert (P1 : same_params s s1).
  { intros f Hf Hn. unfold s1. tcbn. by rewrite fget_fset_ne by tside. }
  unfold startup_read. texec. fold s1. rewrite O1.
  rewrite (proj2 (Z.eqb_neq (fget orderlyState (gp s)) TPM_SU_STATE))
    by (unfold IS_ORDERLY, SU_DA_USED_VALUE, SU_NONE_VALUE, TPM_SU_STATE in *; zbool; lia).
  cbn [andb]. texec. unfold startup_subsystems, TimeStartup. texec.
  destruct (Hcrypt s1 W1) as (s1' & E1' & Q1). pose proof (quiet_wf _ _ Q1) as W1'. rewrite E1'. texec.
  assert (O1' : IS_ORDERLY (fget orderlyState (gp s1')) = false).
  { fold (orderly s1'). rewrite (orderly_quiet _ _ Q1). unfold orderly. by rewrite O1. }
  rewrite O1'. texec.
  set (s2 := set_go _ _).
  assert (W2 : time_wf s2).
  { unfold s2. apply (wf_set_go go_clockSafe 0 (set_g_initialized true s1')). destruct W1'. by constructor. }
  assert (V2 : view s2 = view s).
  { rewrite <- V1, <- (quiet_view _ _ Q1). unfold view, s2. tcbn. by rewrite !fget_fset_ne by tside. }
  destruct (DAStartup_unorderly cycles SU_RESET s2) as (s3 & E3 & W3 & V3 & K3 & C3); [done| |done| |].
  { change (s_timerReset (clk s1') = true). by rewrite (quiet_clk _ _ Q1). }
  { change (IS_ORDERLY (g_prevOrderlyState (nv s1')) = false). by rewrite (quiet_prev _ _ Q1). }
  rewrite E3. texec. rewrite V2 in V3.
  assert (Hg : g_time s3 = g_time s) by (injection V3; unfold restart_view; by intros).
  destruct (TimeUpdate_view cycles s3) as (s4 & E4 & T4 & W4 & V4 & K4 & C4 & R4); [done|..].
  { rewrite V3. unfold timer_ok, restart_view. cbn. destruct Hclk as [(_ & _ & _ & ? & _) ?]. lia. }
  { unfold clock_ok. rewrite C3, Hg. change (clk s2) with (clk s1'). rewrite (quiet_clk _ _ Q1). exact Hclk. }
  { lia. }
  { unfold avail. rewrite (keeps_status _ _ K3). change (nv s2) with (nv s1').
    by rewrite (keeps_status _ _ (quiet_keeps _ _ Q1)). }
  rewrite E4. cbn [andb]. rewrite V3 in V4. rewrite Hg in T4. texec.
  match goal with |- context [middle SU_RESET ?l] => destruct (Hmiddle l s4 W4) as (s4a & E4a & Q4a) end.
  rewrite E4a. pose proof (quiet_wf _ _ Q4a) as W4a.
  destruct (startup_counters_quiet SU_RESET s4a W4a) as (s4b & E4b & Q4b). rewrite E4b.
  destruct (Hlate s4b (quiet_wf _ _ Q4b)) as (s5 & E5 & Q5). rewrite E5.
  destruct (quiet_trans _ _ _ (quiet_trans _ _ _ Q4a Q4b) Q5) as [W5 V5 K5 C5 _].
  rewrite NV_SYNC_ok by eauto with tpm. texec.
  destruct (set_orderly_none s5 W5) as (W6 & R6 & N6 & V6 & P6). set (s6 := sync _ _) in *.
  assert (T6 : g_time s6 = g_time s4) by (change (d_time (view s6) = d_time (view s4)); by rewrite V6, V5).
  assert (K : keeps s2 s5) by (eapply keeps_trans; [exact K3|]; by eapply keeps_trans).
  assert (P1' : same_params s1 s2).
  { eapply same_params_trans; [apply keeps_params, (quiet_keeps _ _ Q1)|]. by intros f. }
  exists (set_g_powerWasLost false s6). split; [done|]. split_and!.
  - constructor; try done.
    + destruct W6. by constructor.
    + change (clock_range (clk s5) ∧ s_tpmTime (clk s5) = g_time s6). rewrite T6, C5. exact C4.
    + change (s_timerReset (clk s5) = false). by rewrite C5, R4, C3.
    + change (g_initialized s5 = true). by rewrite (keeps_init _ _ K).
  - unfold avail. cbn. rewrite (keeps_status _ _ K). change (nv s2) with (nv s1').
    rewrite (keeps_status _ _ (quiet_keeps _ _ Q1)). exact Ha.
  - eapply same_params_trans; [exact P1|]. eapply same_params_trans; [exact P1'|].
    eapply same_params_trans; [|exact P6].
    apply (keeps_params s2 s5 K).
  - change (g_time s ≤ g_time s6). lia.
  - change (g_time s6 < 2 ^ 63). lia.
  - change (view s6 = heal (tick (g_time s6) (restart_view (view s)))). by rewrite V6, V5, T6.
Qed.
End start.
