(* ===== verification/TimeRun.v ===== *)
(** * Histories of a TPM that is not shut down

    Commands, power losses and changes of the availability of NV, as a step
    relation on the state of [Time.v], and the invariant that bounds the number
    of failed authorizations by the time that passes. *)

From S2P Require Import Prelude TpmTypes Struct Cbc NVMem NVReserved Clock.
From S2P Require Import NvList NvRam NvIndex Session Time TimeProof.
Local Open Scope Z_scope.

(** ** The invariant on views *)

(** Milliseconds in which one failure is forgiven. *)
Definition d_period (v : Da) : Z := 1000 * d_rec v.

(** [n] failures in [T] milliseconds since [v0]. *)
Record da_inv (v0 : Da) (n T : Z) (v : Da) : Prop := {
  di_max : d_max v = d_max v0;
  di_rec : d_rec v = d_rec v0;
  di_rec_pos : 0 < d_rec v0;
  di_timer : 0 ≤ d_timer v ≤ d_time v;
  di_tries : 0 ≤ d_tries v ≤ Z.max (d_max v) (d_tries v0);
  di_nv : if d_pending v
          then d_tries v ≤ d_max v ∧ d_nvtries v ≤ d_tries v ≤ d_nvtries v + 1
          else d_nvtries v = d_tries v;
  di_credit :
    n * d_period v0 + d_tries v0 * d_period v0 + (d_time v - d_timer v)
    ≤ d_tries v * d_period v0 + (d_time v0 - d_timer v0) + T;
}.

Lemma da_inv_tick v0 n T v t :
  da_inv v0 n T v → d_time v ≤ t → da_inv v0 n (T + (t - d_time v)) (tick t v).
Proof. intros [] Ht. constructor; cbn; (done || lia). Qed.

Lemma da_inv_heal v0 n T v : da_inv v0 n T v → da_inv v0 n T (heal v).
Proof.
  intros Hi. pose proof Hi as [Hm Hr Hp Ht Htr Hnv Hc]. unfold heal.
  destruct (Z.eqb_spec (d_tries v) 0); [done|].
  destruct (Z.eqb_spec (d_rec v) 0); [lia|]. cbv zeta.
  destruct (decrease_bounds (d_time v - d_timer v) (d_rec v)) as [Hk Hk2]; [lia..|].
  set (k := (d_time v - d_timer v) / 1000 / d_rec v) in *.
  pose proof (wrap_range 32 k ltac:(lia)) as Hu.
  assert (u32 k ≤ k) by (unfold u32, wrap; apply Z.mod_le; lia).
  set (t := if d_tries v <=? u32 k then 0 else d_tries v - u32 k).
  assert (Ht' : 0 ≤ t ≤ d_tries v ∧ d_tries v - t ≤ k)
    by (unfold t; destruct (Z.leb_spec (d_tries v) (u32 k)); lia).
  assert (Hz : k = 0 → t = d_tries v).
  { intros E. unfold t. rewrite E. change (u32 0) with 0.
    destruct (Z.leb_spec (d_tries v) 0); lia. }
  unfold d_period in *. rewrite Hr in *. constructor; cbn; try (done || lia).
  - destruct (Z.eqb_spec k 0) as [E|E].
    + rewrite (Hz E). destruct (d_pending v); lia.
    + destruct (d_pending v); lia.
  - unfold d_period. nia.
Qed.

Lemma da_inv_flush v0 n T v : da_inv v0 n T v → da_inv v0 n T (flush v).
Proof. intros []. by constructor; cbn. Qed.

Lemma da_inv_fail v0 n T v avail :
  da_inv v0 n T v → d_tries v < d_max v < 2 ^ 32 → d_pending v = false →
  da_inv v0 (n + 1) T (count_fail avail v).
Proof.
  intros [Hm Hr Hp Ht Htr Hnv Hc] Hlt Hpend. unfold count_fail.
  destruct (Z.eqb_spec (d_rec v) 0); [lia|]. cbv zeta.
  rewrite (wrap_small 32) by lia. rewrite Hpend in *.
  constructor; cbn; try (done || lia). destruct avail; cbn; lia.
Qed.

(** After a loss of power: the tries that NV holds, and a timer at zero. *)
Lemma da_inv_restart v0 n T v v' :
  da_inv v0 n T v → d_max v' = d_max v → d_rec v' = d_rec v → d_tries v' = d_nvtries v →
  d_nvtries v' = d_nvtries v → d_pending v' = false → 0 ≤ d_time v' →
  0 ≤ d_nvtries v →
  da_inv v0 n (T + d_time v') (restart_view v').
Proof.
  intros [Hm Hr Hp Ht Htr Hnv Hc] Em Er Et En Ep Hz Hn. unfold restart_view.
  rewrite Em, Er, Et, En. destruct (Z.eqb_spec (d_rec v) 0); [lia|]. cbn [negb andb].
  destruct (Z.ltb_spec (d_nvtries v) (d_max v)); cbv zeta;
    destruct (d_pending v); constructor; cbn; rewrite ?Ep; try (done || lia);
    unfold d_period in *; nia.
Qed.

Section run.
Context `{TimeLayout} `{BlockCipher} (FILE_BACKED_NV : bool).
Implicit Types (s : TimeState).

(** ** What is written to NV is recorded

    Between the beginning of a command and its end, nothing changes the NV image
    without a commit becoming due, and nothing touches the file. *)

Record tracks s s' : Prop := {
  tr_chip : NVChip (plat (nv s')) = NVChip (plat (nv s));
  tr_file : s_NvFile (plat (nv s')) = s_NvFile (plat (nv s));
  tr_sd : sd_ok (plat (nv s')) = sd_ok (plat (nv s));
  tr_update : g_updateNV (nv s) ≠ 0 → g_updateNV (nv s') ≠ 0;
  tr_mem : nvmem (nv s') = nvmem (nv s) ∨ g_updateNV (nv s') ≠ 0;
}.

#[local] Instance tracks_preorder : PreOrder tracks.
Proof.
  split; [intros s; constructor; auto|]. intros s1 s2 s3 [] []. constructor; try congruence; auto.
  destruct tr_mem0 as [E|E]; [|auto]. destruct tr_mem1 as [E'|]; [left; congruence|auto].
Qed.

Lemma tracks_nv s s' : nv s' = nv s → tracks s s'.
Proof. intros E. constructor; rewrite ?E; auto. Qed.

Definition tracked {A} (m : M TimeState A) : Prop := ∀ s a s', m s = Some (a, s') → tracks s s'.

Lemma tracked_ret {A} (a : A) : tracked (ret a).
Proof. intros s b s' [= _ <-]. reflexivity. Qed.
Lemma tracked_undef {A} : tracked (undef (A := A)).
Proof. by intros s b s'. Qed.
Lemma tracked_gets {A} (f : TimeState → A) : tracked (gets f).
Proof. intros s b s' [= _ <-]. reflexivity. Qed.
Lemma tracked_bind {A B} (m : M TimeState A) (k : A → M TimeState B) :
  tracked m → (∀ a, tracked (k a)) → tracked (bind m k).
Proof. intros Hm Hk s b s' (a & s1 & E1 & E2)%bind_inv. etransitivity; [by eapply Hm|by eapply Hk]. Qed.
Lemma tracked_if {A} (b : bool) (m1 m2 : M TimeState A) : tracked m1 → tracked m2 → tracked (if b then m1 else m2).
Proof. by destruct b. Qed.
Lemma tracked_modify (f : TimeState → TimeState) : (∀ s, tracks s (f s)) → tracked (modify f).
Proof. intros Hf s b s' [= _ <-]. apply Hf. Qed.
Lemma tracked_pAssert b : tracked (pAssert b).
Proof. destruct b; [apply tracked_ret|]. apply tracked_modify. intros s. by constructor; auto. Qed.
Lemma tracked_clk {A} (m : M PlatClock A) : tracked (on_clk m).
Proof.
  intros s b s'. unfold on_clk. destruct (m (clk s)) as [[a c]|]; [|done]. intros [= _ <-]. by apply tracks_nv.
Qed.

Lemma lor_NV x : Z.lor x UT_NV ≠ 0.
Proof. intros E. apply Z.lor_eq_0_iff in E as [_ E]. discriminate. Qed.

(** The one way to the image. *)
Lemma tracked_NvWrite o n d : tracked (on_nv (NvWrite o n d)).
Proof.
  intros s b s'. unfold on_nv, NvWrite, SET_NV_UPDATE, on_plat. munfold.
  destruct (_ <=? _); [|intros [= _ <-]; by apply tracks_nv].
  unfold plat__NvMemoryWrite, c_assert. destruct (nv_in_range o n); munfold; [|done].
  destruct (_ && _); [|done]. intros [= _ <-]. constructor; try done; cbn; intros.
  - apply lor_NV.
  - right. apply lor_NV.
Qed.
Lemma tracked_NvRead o n : tracked (on_nv (NvRead o n)).
Proof.
  intros s b s'. unfold on_nv, NvRead, on_plat. munfold. unfold pAssert.
  destruct (_ <? _); munfold; unfold plat__NvMemoryRead, c_assert; munfold;
    destruct (nv_in_range o n); munfold; try done; destruct (inb _ _ _); try done;
    intros [= _ <-]; by constructor; auto.
Qed.
Lemma tracked_sync f : tracked (NV_SYNC_PERSISTENT f).
Proof. apply tracked_bind; [apply tracked_gets|intros; apply tracked_NvWrite]. Qed.
Lemma tracked_write_orderly : tracked write_orderly.
Proof.
  apply tracked_bind; [apply tracked_gets|intros]. apply tracked_bind; [apply tracked_NvWrite|intros; apply tracked_ret].
Qed.

Ltac tracked_step :=
  match goal with
  | |- tracked (bind _ _) => apply tracked_bind; [|intros]
  | |- tracked (ret _) => apply tracked_ret
  | |- tracked undef => apply tracked_undef
  | |- tracked (gets _) => apply tracked_gets
  | |- tracked (pAssert _) => apply tracked_pAssert
  | |- tracked (NV_SYNC_PERSISTENT _) => apply tracked_sync
  | |- tracked write_orderly => apply tracked_write_orderly
  | |- tracked (on_nv (NvRead _ _)) => apply tracked_NvRead
  | |- tracked (on_clk _) => apply tracked_clk
  | |- tracked (if _ then _ else _) => apply tracked_if
  | |- tracked (modify _) => apply tracked_modify; intros; first [by apply tracks_nv | by constructor; auto]
  | _ => solve [eauto]
  end.

Lemma tracked_DASelfHeal : tracked DASelfHeal.
Proof. unfold DASelfHeal, c_div, gpv, gov, gp_assign, go_assign. repeat tracked_step. Qed.
Lemma tracked_TimeUpdate cycles : tracked (TimeUpdate cycles).
Proof.
  pose proof tracked_DASelfHeal.
  unfold TimeUpdate, TimeNewEpoch, TimeClockUpdate, NV_IS_AVAILABLE, gpv, gov, gp_assign, go_assign.
  repeat tracked_step.
Qed.
Lemma tracked_TimeUpdateToCurrent cycles : tracked (TimeUpdateToCurrent cycles).
Proof.
  pose proof (tracked_TimeUpdate cycles). unfold TimeUpdateToCurrent, NV_IS_AVAILABLE, TPMIsStarted.
  repeat tracked_step.
Qed.
Lemma tracked_CheckLockedOut b : tracked (CheckLockedOut b).
Proof. unfold CheckLockedOut, NV_IS_ORDERLY, gpv. repeat tracked_step. Qed.
Lemma tracked_count_failure handle : tracked (count_failure handle).
Proof.
  unfold count_failure, DARegisterFailure, NV_IS_AVAILABLE, gpv, gp_assign, go_assign. repeat tracked_step.
Qed.
Lemma tracked_IsDAExempted noDA handle :
  HandleGetType handle = TPM_HT_TRANSIENT → tracked (IsDAExempted noDA handle).
Proof. intros Hh. unfold IsDAExempted. rewrite Hh. cbn. apply tracked_ret. Qed.
Lemma tracked_DAStartup cycles type : tracked (DAStartup cycles type).
Proof.
  pose proof (tracked_TimeUpdate cycles).
  unfold DAStartup, NV_IS_ORDERLY, gpv, gov, gp_assign, go_assign. repeat tracked_step.
Qed.
Lemma tracked_TPM2_Startup cycles locality crypt middle late startupType :
  (∀ t, tracked (crypt t)) → (∀ t l, tracked (middle t l)) → (∀ t, tracked (late t)) →
  tracked (TPM2_Startup cycles locality crypt middle late startupType).
Proof.
  intros. pose proof tracked_DAStartup.
  assert (∀ t, tracked (startup_counters t)).
  { intros []; unfold startup_counters, grv, gr_assign, gpv, gp_assign; repeat tracked_step. }
  assert (∀ p, tracked (on_nv (modify (set_prevOrderlyState p)))).
  { intros p s a s' [= _ <-]. by constructor; auto. }
  unfold TPM2_Startup, startup_read, startup_subsystems, TimeStartup, NV_IS_ORDERLY, gpv, gp_assign, go_assign.
  cbv zeta. repeat tracked_step.
Qed.
Lemma tracked_clear_orderly : tracked clear_orderly.
Proof. unfold clear_orderly, NV_IS_ORDERLY, gp_assign. repeat tracked_step. Qed.

(** ** Power *)

(** The file is open on a card that works, and holds the NV image. *)
Definition disk_inv s : Prop :=
  if FILE_BACKED_NV
  then s_NvFile (plat (nv s)) = true ∧ sd_ok (plat (nv s)) = true ∧ file_holds (plat (nv s)) (nvmem (nv s))
  else True.

(** [_plat__Signal_PowerOff], and power comes back: the NV file was closed;
    what was in RAM is arbitrary, the pending flag has its initial value and
    the timer is reset.  The build without a file keeps the image in RAM. *)
Record powered_off s s' : Prop := {
  off_plat : ∃ p, plat__NVDisable FILE_BACKED_NV false (plat (nv s)) = Some (tt, p) ∧
    if FILE_BACKED_NV then power_off p (plat (nv s')) else plat (nv s') = p;
  off_wf : time_wf s';
  off_pending : s_DAPendingOnNV s' = false;
  off_clock : ∃ c, clock_range c ∧ plat__TimerReset c = Some (tt, clk s');
}.

Lemma TimerReset_range c c' :
  clock_range c → plat__TimerReset c = Some (tt, c') →
  clock_range c' ∧ s_tpmTime c' = 0 ∧ s_timerReset c' = true.
Proof.
  unfold plat__TimerReset, modify. intros (? & ? & ? & ? & ?) E. injection E as <-.
  unfold clock_range, rate_ok, CLOCK_NOMINAL, CLOCK_ADJUST_LIMIT. cbn. lia.
Qed.

Lemma NvRead_time o n s :
  time_wf s → 0 ≤ o → 0 ≤ n → o + n < NV_MEMORY_SIZE →
  on_nv (NvRead o n) s = Some (bread (nvmem (nv s)) o n, s).
Proof.
  intros Hw Ho Hn Hlt. unfold on_nv. rewrite NvRead_ok by (done || apply Hw). by destruct s.
Qed.

(** The member functions of [_TPM_Init]: it loads the members of [gp] from their copies in NV. *)
Lemma tpm_init_load_view cycles s :
  time_wf s → clock_range (clk s) → s_tpmTime (clk s) = 0 → s_timerReset (clk s) = true →
  ∃ s', tpm_init_load cycles s = Some (tt, s') ∧ time_wf s' ∧
    (∀ f, fget f (gp s') = nvget f s) ∧ (∀ f, nvget f s' = nvget f s) ∧
    clock_ok s' ∧ s_timerReset (clk s') = true ∧ 0 ≤ g_time s' < 2 ^ 62 ∧
    s_DAPendingOnNV s' = s_DAPendingOnNV s ∧ nv s' = nv s ∧ g_initialized s' = g_initialized s.
Proof.
  intros Hw Hc Hz Hrst. unfold tpm_init_load, NvReadPersistent, TimePowerOn.
  pose proof persistent_fits as (F1 & F2 & F3 & F4).
  pose proof Hw as W1.
  assert (Hlen : blen (nvmem (nv s)) = NV_MEMORY_SIZE) by apply Hw.
  erewrite bind_Some by (erewrite bind_Some by (apply NvRead_time; [done|unfold NV_PERSISTENT_DATA; lia..]); reflexivity).
  set (s1 := set_gp _ _).
  assert (Hg : swf (F := GpField) (gp s1)).
  { unfold swf. rewrite gp_size. unfold s1. cbn. apply blen_bread; unfold NV_PERSISTENT_DATA; lia. }
  assert (W2 : time_wf s1).
  { destruct W1. constructor; try done. apply bread_byte. done. }
  erewrite bind_Some by (apply NvRead_time; [done|lia..]).
  set (s2 := set_go (bread (nvmem (nv s1)) NV_ORDERLY_DATA sizeof_ORDERLY_DATA) s1).
  rewrite (bind_Some _ _ s1 tt s2) by done.
  assert (W3 : time_wf s2).
  { destruct W2. constructor; try done; [|by apply bread_byte].
    unfold swf. rewrite go_size. unfold s2. cbn. fold (nvmem (nv s)). apply blen_bread; lia. }
  destruct (timer_read_forward (plat__RealTime cycles) (clk s)) as (t & c & E & Ht & Et & Hr & _ & R & _);
    [done|lia|apply RealTime_range|].
  unfold plat__TimerRead. texec. change (clk s2) with (clk s). rewrite E. texec.
  eexists. split; [done|]. split_and!; try done; tcbn; try (congruence || lia).
  - apply wf_set_time, wf_set_clk, W3.
  - intros f. tcbn. unfold s2, s1, nvget, nvbytes, fget, fbytes. tcbn. f_equal.
    pose proof (gp_in f). rewrite bread_bread by (unfold NV_PERSISTENT_DATA; lia). f_equal.
Qed.

(** ** The frame of a command *)

Lemma NvCheckState_quiet n :
  ∃ st, NvCheckState FILE_BACKED_NV n = Some (tt, set_NvStatus st n) ∧ st ≠ TPM_RC_AUTH_FAIL.
Proof.
  unfold NvCheckState, on_plat, plat__GetNvReadyState. munfold. destruct n as [p ? ? ? ? ? ? ? ? ? ? ? ? ?]. cbn.
  destruct (s_NvIsAvailable p); cbn; [destruct FILE_BACKED_NV, (s_NvFile p); cbn|];
    eexists; (split; [reflexivity|done]).
Qed.

Lemma command_begin_view cycles s :
  started s → timer_ok (view s) → g_time s < 2 ^ 62 →
  ∃ s', command_begin FILE_BACKED_NV cycles s = Some (tt, s') ∧ started s' ∧ same_params s s' ∧
    g_time s ≤ g_time s' < 2 ^ 63 ∧ g_NvStatus (nv s') ≠ TPM_RC_AUTH_FAIL ∧
    (view s' = view s ∧ g_time s' = g_time s ∨ view s' = heal (tick (g_time s') (view s))).
Proof.
  intros [Hw Hr Hn Hc Hrst Hi] Ht Hg. unfold command_begin, on_nv. texec.
  destruct (NvCheckState_quiet (set_clearOrderly false (set_updateNV 0 (nv s)))) as (st & Es & Hne).
  rewrite Es. unfold TimeUpdateToCurrent. texec. rewrite Hi. cbn [negb]. rewrite orb_false_r.
  set (s1 := set_nv (set_NvStatus st _) _).
  assert (W1 : time_wf s1) by (destruct Hw; by constructor).
  cbn [g_NvStatus set_NvStatus]. destruct (st =? TPM_RC_SUCCESS) eqn:Hst; cbn [negb].
  - destruct (TimeUpdate_view cycles s1) as (s2 & E2 & T2 & W2 & V2 & K2 & C2 & R2);
      [exact W1|exact Ht|exact Hc|exact Hg|exact Hst|].
    exists s2. split; [exact E2|]. split.
    { constructor; try done.
      - rewrite (proj1 (keeps_gp _ _ K2 orderlyState eq_refl)). exact Hr.
      - rewrite (proj2 (keeps_gp _ _ K2 orderlyState eq_refl)). exact Hn.
      - by rewrite R2.
      - by rewrite (keeps_init _ _ K2). }
    split; [by apply (keeps_params s1 s2)|]. split; [exact T2|].
    rewrite (keeps_status _ _ K2). split; [exact Hne|]. by right.
  - exists s1. split; [done|]. split; [by constructor|]. split; [by intros f|].
    split; [split; [done|apply Ht]|]. split; [exact Hne|]. by left.
Qed.
Lemma NvCommit_mem n b n' :
  NvCommit FILE_BACKED_NV n = Some (b, n') → nvmem n' = nvmem n ∧ n' = set_plat (plat n') n.
Proof.
  unfold NvCommit, on_plat, bind. destruct (plat__NvCommit FILE_BACKED_NV (plat n)) as [[r p]|] eqn:E; [|done].
  intros Hr. injection Hr as _ <-. split; [|done]. unfold nvmem. cbn. revert E.
  unfold plat__NvCommit, NvFileCommit. destruct FILE_BACKED_NV; munfold; [|by intros [= _ <-]].
  destruct (s_NvFile (plat n)); cbn; [|by intros [= _ <-]].
  unfold aes_cbc_encrypt_decrypt. cbn. destruct (sd_ok (plat n)); cbn; [by intros [= _ <-]|done].
Qed.

(** A state whose NV part differs outside the persistent data. *)
Lemma quiet_set_nv s n :
  time_wf s → bread (nvmem n) 0 sizeof_PERSISTENT_DATA = bread (nvmem (nv s)) 0 sizeof_PERSISTENT_DATA →
  blen (nvmem n) = NV_MEMORY_SIZE → Forall is_byte (nvmem n) →
  s_indexOrderlyRam n = s_indexOrderlyRam (nv s) → g_NvStatus n = g_NvStatus (nv s) →
  g_clearOrderly n = g_clearOrderly (nv s) → g_prevOrderlyState n = g_prevOrderlyState (nv s) →
  quiet s (set_nv n s).
Proof.
  intros Hw Hm Hl Hb Hram Hst Hcl Hp.
  assert (Hget : ∀ f, nvget f (set_nv n s) = nvget f s).
  { intros f. pose proof (gp_in f). unfold nvget, nvbytes. tcbn. f_equal.
    replace (foff f) with (0 + foff f) by lia.
    rewrite <- !(bread_bread _ 0 sizeof_PERSISTENT_DATA) by lia. by rewrite Hm. }
  destruct Hw. constructor; try done.
  - constructor; try done; cbn; by rewrite Hram.
  - unfold view. by rewrite Hget.
Qed.

Lemma NvUpdateIndexOrderlyData_quiet s :
  time_wf s → ∃ s', on_nv NvUpdateIndexOrderlyData s = Some (tt, s') ∧ quiet s s'.
Proof.
  intros Hw. pose proof persistent_fits as (F1 & F2 & F3 & F4). pose proof (wf_nv s Hw) as Hl.
  unfold nv_ok in Hl. pose proof (wf_ram s Hw) as Hram. unfold RAM_INDEX_SPACE in *.
  unfold on_nv, NvUpdateIndexOrderlyData. texec. unfold NV_INDEX_RAM_DATA, RAM_INDEX_SPACE.
  rewrite NvWrite_ok; [|apply Hw|lia|done|lia]. eexists. split; [done|].
  assert (E : nvmem (nv_put (NV_ORDERLY_DATA + sizeof_ORDERLY_DATA) (s_indexOrderlyRam (nv s)) (nv s))
    = bwrite (nvmem (nv s)) (NV_ORDERLY_DATA + sizeof_ORDERLY_DATA) (s_indexOrderlyRam (nv s))) by done.
  apply quiet_set_nv; try done; rewrite E.
  - apply bread_bwrite_before; lia.
  - rewrite blen_bwrite by lia. done.
  - apply bwrite_byte; apply Hw.
Qed.

Lemma command_end_quiet s s' :
  time_wf s → orderly s = false → command_end FILE_BACKED_NV s = Some (tt, s') → quiet s s'.
Proof.
  intros Hw Ho. unfold command_end, clear_orderly, commit_nv, orderly in *. texec. rewrite Ho, andb_false_r.
  destruct (_ && _); [|intros [= <-]; by apply quiet_refl].
  assert (∃ s1, (if g_updateNV (nv s) =? UT_ORDERLY then on_nv NvUpdateIndexOrderlyData else ret tt) s
    = Some (tt, s1) ∧ quiet s s1) as (s1 & E1 & Q1).
  { destruct (_ =? _); [by apply NvUpdateIndexOrderlyData_quiet|]. exists s. split; [done|by apply quiet_refl]. }
  unfold ret in E1. rewrite E1. unfold on_nv at 1.
  destruct (NvCommit FILE_BACKED_NV (nv s1)) as [[ok n]|] eqn:E2; [|done].
  apply NvCommit_mem in E2 as [Em En]. intros E.
  assert (Q2 : quiet s1 (set_nv n s1)).
  { pose proof (quiet_wf _ _ Q1) as []. rewrite En. apply quiet_set_nv; rewrite <- ?En, ?Em; try done;
      by rewrite En. }
  eapply quiet_trans; [exact Q1|]. eapply quiet_trans; [exact Q2|].
  pose proof (quiet_wf _ _ Q2) as []. destruct ok; injection E as <-; by constructor.
Qed.
(** ** Steps and histories *)

(** The body of a command, with the number of failures counted: authorizations
    of loaded objects, with a password or with an HMAC session that is not bound
    to the lockout authorization, and anything that leaves the logic alone and
    has a commit become due for what it writes to NV, in any order. *)
Inductive body (noDA : Z → bool) : TimeState → Z → TimeState → Prop :=
  | body_pw s pp policy available handle matches r s' :
      HandleGetType handle = TPM_HT_TRANSIENT →
      CheckAuthSession_pw noDA pp policy available handle matches s = Some (r, s') →
      body noDA s (if r =? TPM_RC_AUTH_FAIL then 1 else 0) s'
  | body_hmac s pp policy available session handle matches r s' :
      HandleGetType handle = TPM_HT_TRANSIENT → isLockoutBound session = false →
      CheckAuthSession_hmac noDA pp policy available session handle matches s = Some (r, s') →
      body noDA s (if r =? TPM_RC_AUTH_FAIL then 1 else 0) s'
  | body_other s s' : quiet s s' → tracks s s' → body noDA s 0 s'
  | body_seq s n s' n' s'' : body noDA s n s' → body noDA s' n' s'' → body noDA s (n + n') s''.

(** [da_step s n t s']: one event, with [n] counted failures and [t]
    milliseconds of TPM time; the TPM does not enter failure mode.  A restart is
    [_plat__Signal_PowerOff], a loss of power, [_TPM_Init] and the command
    TPM2_Startup(CLEAR), in which the startup functions of the other components
    succeed. *)
Inductive da_step (noDA : Z → bool) : TimeState → Z → Z → TimeState → Prop :=
  | step_command s cycles s1 n s2 s3 :
      g_time s < 2 ^ 62 →
      command_begin FILE_BACKED_NV cycles s = Some (tt, s1) →
      body noDA s1 n s2 →
      g_inFailureMode (nv s2) = false →
      command_end FILE_BACKED_NV s2 = Some (tt, s3) →
      da_step noDA s n (g_time s3 - g_time s) s3
  | step_nv_avail s s' :
      on_nv (on_plat plat__SetNvAvail) s = Some (tt, s') → da_step noDA s 0 0 s'
  | step_nv_unavail s s' :
      on_nv (on_plat plat__ClearNvAvail) s = Some (tt, s') → da_step noDA s 0 0 s'
  | step_restart s s1 c1 s2 c2 s3 c3 locality crypt middle late s4 s5 :
      powered_off s s1 →
      TPM_Init FILE_BACKED_NV true true c1 s1 = Some (tt, s2) →
      command_begin FILE_BACKED_NV c2 s2 = Some (tt, s3) →
      (∀ t, aside (crypt t) ∧ tracked (crypt t)) →
      (∀ t l, aside (middle t l) ∧ tracked (middle t l)) →
      (∀ t, aside (late t) ∧ tracked (late t)) →
      TPM2_Startup c3 locality crypt middle late TPM_SU_CLEAR s3 = Some (TPM_RC_SUCCESS, s4) →
      g_inFailureMode (nv s4) = false →
      command_end FILE_BACKED_NV s4 = Some (tt, s5) →
      da_step noDA s 0 (g_time s5) s5.

Inductive da_run (noDA : Z → bool) (s0 : TimeState) : Z → Z → TimeState → Prop :=
  | run_nil : da_run noDA s0 0 0 s0
  | run_step n T s n' t s' :
      da_run noDA s0 n T s → da_step noDA s n' t s' → da_run noDA s0 (n + n') (T + t) s'.

(** ** The invariant of a history *)

Record run_inv (v0 : Da) (n T : Z) s : Prop := {
  ri_started : started s;
  ri_view : da_inv v0 n T (view s);
  ri_time : g_time s < 2 ^ 63;
  ri_nvmax : nvget maxTries s = d_max v0;
  ri_nvrec : nvget recoveryTime s = d_rec v0;
}.

Lemma run_inv_timer v0 n T s : run_inv v0 n T s → timer_ok (view s).
Proof. intros [_ [] ? _ _]. by split. Qed.

Lemma started_orderly s : started s → orderly s = false.
Proof. intros Hs. unfold orderly. by rewrite (st_ram s Hs). Qed.

Lemma started_quiet s s' : started s → quiet s s' → started s'.
Proof.
  intros [W R N [C1 C2] S I] [W' V' K' L' _]. destruct (keeps_gp _ _ K' orderlyState eq_refl) as [E1 E2].
  constructor; try done; rewrite ?L', ?E1, ?E2; try done.
  - split; rewrite L'; [done|]. rewrite C2. by injection V'.
  - by rewrite (keeps_init _ _ K').
Qed.

Lemma run_inv_quiet v0 n T s s' : run_inv v0 n T s → quiet s s' → run_inv v0 n T s'.
Proof.
  intros [S V G M R] Q. pose proof (started_quiet _ _ S Q) as S'. destruct Q as [W' V' K' L' _].
  constructor; try done.
  - by rewrite V'.
  - change (d_time (view s') < 2 ^ 63). by rewrite V'.
  - by rewrite (proj2 (keeps_gp _ _ K' maxTries eq_refl)).
  - by rewrite (proj2 (keeps_gp _ _ K' recoveryTime eq_refl)).
Qed.

(** A change of the tries and timers. *)
Lemma run_inv_view v0 n T n' T' s s' :
  run_inv v0 n T s → time_wf s' → keeps s s' → clk s' = clk s → g_time s' = g_time s →
  da_inv v0 n' T' (view s') → run_inv v0 n' T' s'.
Proof.
  intros [[W R N [C1 C2] S I] V G M Rc] W' K' L' G' V'.
  destruct (keeps_gp _ _ K' orderlyState eq_refl) as [E1 E2]. constructor; try done.
  - constructor; try done; rewrite ?L', ?E1, ?E2; try done.
    + split; rewrite L'; [done|]. by rewrite C2, G'.
    + by rewrite (keeps_init _ _ K').
  - by rewrite G'.
  - by rewrite (proj2 (keeps_gp _ _ K' maxTries eq_refl)).
  - by rewrite (proj2 (keeps_gp _ _ K' recoveryTime eq_refl)).
Qed.
(** No lockout: another failure can be counted. *)
Definition may_fail s : Prop :=
  d_tries (view s) < d_max (view s) < 2 ^ 32 ∧ d_pending (view s) = false.

Lemma check_inv v0 n T s :
  run_inv v0 n T s → g_NvStatus (nv s) ≠ TPM_RC_AUTH_FAIL →
  ∃ r s', CheckLockedOut false s = Some (r, s') ∧ run_inv v0 n T s' ∧ g_time s' = g_time s ∧
    keeps s s' ∧ r ≠ TPM_RC_AUTH_FAIL ∧ (r = TPM_RC_SUCCESS → may_fail s').
Proof.
  intros Hi Hst. pose proof (st_wf _ (ri_started _ _ _ _ Hi)) as Hw.
  destruct (CheckLockedOut_view s Hw) as (s1 & E1 & W1 & V1 & K1 & C1).
  exists (locked_out s), s1. split; [done|].
  assert (G1 : g_time s1 = g_time s).
  { change (d_time (view s1) = d_time (view s)). rewrite V1. by destruct (_ && _). }
  split; [|split; [done|split; [done|split]]].
  - apply (run_inv_view v0 n T n T s); try done. rewrite V1.
    destruct (_ && _); [apply da_inv_flush|]; apply Hi.
  - unfold locked_out. repeat case_match; done.
  - intros Hok. unfold locked_out in Hok.
    destruct (negb (avail s) && (orderly s || s_DAPendingOnNV s)) eqn:Hav.
    { unfold avail in Hav. rewrite Hok in Hav. done. }
    destruct (Z.leb_spec (fget maxTries (gp s)) (fget failedTries (gp s))) as [|Hlt]; [done|].
    split.
    + rewrite V1. pose proof (gp_range maxTries s Hw) as Hr. destruct (_ && _); cbn in *; lia.
    + rewrite V1. destruct (avail s), (s_DAPendingOnNV s) eqn:E; cbn in *; try done.
      by rewrite orb_true_r in Hav.
Qed.

Lemma count_inv v0 n T handle s :
  run_inv v0 n T s → may_fail s → handle ≠ TPM_RH_LOCKOUT →
  ∃ s', count_failure handle s = Some (TPM_RC_AUTH_FAIL, s') ∧ run_inv v0 (n + 1) T s' ∧
    g_time s' = g_time s ∧ keeps s s'.
Proof.
  intros Hi [Hm Hp] Hlock. pose proof (st_wf _ (ri_started _ _ _ _ Hi)) as Hw.
  destruct (count_failure_view handle s Hw Hlock) as (s2 & E2 & W2 & V2 & K2 & C2).
  { destruct Hi as [_ [] ? _ _]. cbn in *. lia. }
  assert (G2 : g_time s2 = g_time s).
  { change (d_time (view s2) = d_time (view s)). rewrite V2. unfold count_fail.
    destruct (d_rec (view s) =? 0); reflexivity. }
  exists s2. split; [done|]. split; [|done]. apply (run_inv_view v0 n T (n + 1) T s); try done.
  rewrite V2. apply da_inv_fail; try done. apply Hi.
Qed.

(** What an authorization does to a history. *)
Definition auth_ok (v0 : Da) (n T : Z) s (m : M TimeState Z) : Prop :=
  ∀ r s', m s = Some (r, s') →
    run_inv v0 (n + (if r =? TPM_RC_AUTH_FAIL then 1 else 0)) T s' ∧ g_time s' = g_time s ∧ keeps s s'.

Lemma auth_ret v0 n T s r : run_inv v0 n T s → r ≠ TPM_RC_AUTH_FAIL → auth_ok v0 n T s (ret r).
Proof.
  intros Hi Hr r' s' [= <- <-]. rewrite (proj2 (Z.eqb_neq _ _) Hr), Z.add_0_r. auto using keeps_refl.
Qed.

Lemma auth_count v0 n T s handle :
  run_inv v0 n T s → may_fail s → handle ≠ TPM_RH_LOCKOUT → auth_ok v0 n T s (count_failure handle).
Proof.
  intros Hi Hm Hh r s' E. destruct (count_inv v0 n T handle s Hi Hm Hh) as (s1 & E1 & I1 & G1 & K1).
  rewrite E in E1. injection E1 as -> ->. by rewrite Z.eqb_refl.
Qed.

(** A lockout check that may end the authorization. *)
Lemma auth_check v0 n T s (b : bool) k :
  run_inv v0 n T s → g_NvStatus (nv s) ≠ TPM_RC_AUTH_FAIL →
  (∀ s1, run_inv v0 n T s1 → g_NvStatus (nv s1) ≠ TPM_RC_AUTH_FAIL → (b = true → may_fail s1) →
     (b = false → s1 = s) → auth_ok v0 n T s1 k) →
  auth_ok v0 n T s (let! result := (if b then CheckLockedOut false else ret TPM_RC_SUCCESS) in
                    if negb (result =? TPM_RC_SUCCESS) then ret result else k).
Proof.
  intros Hi Hst Hk. destruct b.
  - destruct (check_inv v0 n T s Hi Hst) as (r1 & s1 & E1 & I1 & G1 & K1 & N1 & M1).
    intros r s'. rewrite (bind_Some _ _ _ _ _ E1).
    assert (S1 : g_NvStatus (nv s1) ≠ TPM_RC_AUTH_FAIL) by (by rewrite (keeps_status _ _ K1)).
    assert (A : auth_ok v0 n T s1 (if negb (r1 =? TPM_RC_SUCCESS) then ret r1 else k)).
    { destruct (Z.eqb_spec r1 TPM_RC_SUCCESS) as [->|]; cbn [negb]; [by apply Hk; auto; discriminate|by apply auth_ret]. }
    intros E. destruct (A r s' E) as (Ia & Ga & Ka). split; [done|]. split; [congruence|]. by eapply keeps_trans.
  - intros r s'. rewrite (bind_Some _ _ s TPM_RC_SUCCESS s) by done. by apply Hk.
Qed.

Lemma pw_inv noDA pp policy available handle matches s v0 n T :
  run_inv v0 n T s → HandleGetType handle = TPM_HT_TRANSIENT → g_NvStatus (nv s) ≠ TPM_RC_AUTH_FAIL →
  auth_ok v0 n T s (CheckAuthSession_pw noDA pp policy available handle matches).
Proof.
  intros Hi Hh Hst. assert (Hlock : handle ≠ TPM_RH_LOCKOUT) by (by intros ->).
  unfold CheckAuthSession_pw, IncrementLockout, IsDAExempted. rewrite Hh. cbn -[CheckLockedOut count_failure].
  rewrite (proj2 (Z.eqb_neq handle TPM_RH_LOCKOUT)), (proj2 (Z.eqb_neq handle TPM_RH_PLATFORM))
    by (done || by intros ->). cbn [andb].
  intros r s'. rewrite (bind_Some _ _ s (noDA handle) s) by done. revert r s'.
  change (auth_ok v0 n T s (let! result := (if noDA handle then ret TPM_RC_SUCCESS else CheckLockedOut false) in
    if negb (result =? TPM_RC_SUCCESS) then ret result
    else if policy then ret TPM_RC_AUTH_TYPE
    else if negb available then ret TPM_RC_AUTH_UNAVAILABLE
    else if matches then ret TPM_RC_SUCCESS
    else let! exempted := ret (noDA handle) in if exempted then ret TPM_RC_BAD_AUTH else count_failure handle)).
  replace (if noDA handle then ret TPM_RC_SUCCESS else CheckLockedOut false)
    with (if negb (noDA handle) then CheckLockedOut false else ret TPM_RC_SUCCESS) by (by destruct (noDA handle)).
  apply auth_check; [done|done|]. intros s1 I1 S1 M1 _.
  destruct policy; [by apply auth_ret|]. destruct available; [|by apply auth_ret].
  destruct matches; [by apply auth_ret|]. cbn [negb].
  intros r s'. rewrite (bind_Some _ _ s1 (noDA handle) s1) by done.
  destruct (noDA handle); [by apply auth_ret|]. by apply auth_count; auto.
Qed.

Lemma hmac_inv noDA pp policy available session handle matches s v0 n T :
  run_inv v0 n T s → HandleGetType handle = TPM_HT_TRANSIENT → isLockoutBound session = false →
  g_NvStatus (nv s) ≠ TPM_RC_AUTH_FAIL →
  auth_ok v0 n T s (CheckAuthSession_hmac noDA pp policy available session handle matches).
Proof.
  intros Hi Hh Hb Hst. assert (Hlock : handle ≠ TPM_RH_LOCKOUT) by (by intros ->).
  unfold CheckAuthSession_hmac. rewrite Hb. apply auth_check; [done|done|]. intros s1 I1 S1 M1 _.
  rewrite (proj2 (Z.eqb_neq handle TPM_RH_LOCKOUT)), (proj2 (Z.eqb_neq handle TPM_RH_PLATFORM))
    by (done || by intros ->). cbn [andb].
  assert (Ex : IsDAExempted noDA handle = ret (noDA handle)) by (unfold IsDAExempted; by rewrite Hh).
  rewrite Ex.
  replace (if includeAuth session then
             let! exempted := ret (noDA handle) in if exempted then ret TPM_RC_SUCCESS else CheckLockedOut false
           else ret TPM_RC_SUCCESS)
    with (if includeAuth session && negb (noDA handle) then CheckLockedOut false else ret TPM_RC_SUCCESS)
    by (by destruct (includeAuth session), (noDA handle)).
  apply auth_check; [done|done|]. intros s2 I2 S2 M2 E2.
  destruct policy; [by apply auth_ret|]. destruct available; [|by apply auth_ret].
  destruct matches; [by apply auth_ret|]. cbn [negb]. unfold IncrementLockout. rewrite Hb, Ex. cbv zeta.
  destruct (isDaBound session).
  - apply auth_count; [done| |done]. destruct (includeAuth session && negb (noDA handle)); [auto|].
    rewrite E2 by done. by apply M1.
  - intros r s'. rewrite (bind_Some _ _ s2 (noDA handle) s2) by done.
    destruct (includeAuth session), (noDA handle); try (by apply auth_ret). by apply auth_count; auto.
Qed.
(** The body of a command. *)
Lemma tracked_pw noDA pp policy available handle matches :
  HandleGetType handle = TPM_HT_TRANSIENT →
  tracked (CheckAuthSession_pw noDA pp policy available handle matches).
Proof.
  intros Hh. pose proof (tracked_IsDAExempted noDA handle Hh). pose proof tracked_CheckLockedOut.
  pose proof (tracked_count_failure handle). unfold CheckAuthSession_pw, IncrementLockout. repeat tracked_step.
Qed.
Lemma tracked_hmac noDA pp policy available session handle matches :
  HandleGetType handle = TPM_HT_TRANSIENT → isLockoutBound session = false →
  tracked (CheckAuthSession_hmac noDA pp policy available session handle matches).
Proof.
  intros Hh Hb. pose proof (tracked_IsDAExempted noDA handle Hh). pose proof tracked_CheckLockedOut.
  pose proof (tracked_count_failure handle). unfold CheckAuthSession_hmac, IncrementLockout. rewrite Hb. cbv zeta.
  repeat tracked_step.
Qed.

Lemma body_inv noDA s m s' v0 n T :
  body noDA s m s' → run_inv v0 n T s → g_NvStatus (nv s) ≠ TPM_RC_AUTH_FAIL →
  run_inv v0 (n + m) T s' ∧ g_time s' = g_time s ∧ g_NvStatus (nv s') ≠ TPM_RC_AUTH_FAIL ∧ tracks s s'.
Proof.
  intros Hb. revert n. induction Hb as [s pp policy available handle matches r s' Hh E
    |s pp policy available session handle matches r s' Hh Hl E|s s' Q Tr|s a s' b s'' _ IH1 _ IH2]; intros n Hi Hst.
  - destruct (pw_inv noDA pp policy available handle matches s v0 n T Hi Hh Hst r s' E) as (I & G & K).
    rewrite (keeps_status _ _ K). split_and!; try done. by eapply tracked_pw.
  - destruct (hmac_inv noDA pp policy available session handle matches s v0 n T Hi Hh Hl Hst r s' E) as (I & G & K).
    rewrite (keeps_status _ _ K). split_and!; try done. by eapply tracked_hmac.
  - rewrite Z.add_0_r, (keeps_status _ _ (quiet_keeps _ _ Q)). split_and!; try done; [by eapply run_inv_quiet|].
    change (d_time (view s') = d_time (view s)). by rewrite (quiet_view _ _ Q).
  - destruct (IH1 n Hi Hst) as (I1 & G1 & S1 & T1). destruct (IH2 _ I1 S1) as (I2 & G2 & S2 & T2).
    rewrite Z.add_assoc. split_and!; try done; [congruence|]. by etransitivity.
Qed.

(** ** The file *)

Lemma tracked_NvUpdateIndexOrderlyData : tracked (on_nv NvUpdateIndexOrderlyData).
Proof.
  intros s a s'. unfold on_nv, NvUpdateIndexOrderlyData. munfold.
  destruct (NvWrite _ _ _ _) as [[b n]|] eqn:E; [|done]. intros [= _ <-].
  eapply (tracked_NvWrite NV_INDEX_RAM_DATA RAM_INDEX_SPACE (s_indexOrderlyRam (nv s)) s b). unfold on_nv.
  by rewrite E.
Qed.

Lemma disk_same s s' : disk_inv s → plat (nv s') = plat (nv s) → disk_inv s'.
Proof. unfold disk_inv, nvmem. by intros Hd ->. Qed.

Lemma commit_disk s ok n :
  time_wf s → s_NvFile (plat (nv s)) = true → sd_ok (plat (nv s)) = true → file_fits (plat (nv s)) →
  NvCommit true (nv s) = Some (ok, n) →
  ok = true ∧ s_NvFile (plat n) = true ∧ sd_ok (plat n) = true ∧ file_holds (plat n) (nvmem n).
Proof.
  intros Hw Hf Hs Hfit. destruct (commit_ok (plat (nv s))) as (p1 & E & Hh & Em & F1 & S1 & _); try done.
  { split; apply Hw. }
  unfold NvCommit, on_plat. munfold. rewrite E. intros [= <- <-]. split_and!; try done.
  unfold nvmem. cbn. by rewrite Em.
Qed.

(** At the end of a command the file holds the image again. *)
Lemma command_end_disk s0 s s' :
  disk_inv s0 → tracks s0 s → time_wf s → orderly s = false → g_inFailureMode (nv s) = false →
  command_end FILE_BACKED_NV s = Some (tt, s') → disk_inv s'.
Proof.
  intros Hd Ht Hw Ho Hfail. unfold command_end, clear_orderly, commit_nv, orderly in *. texec.
  rewrite Ho, andb_false_r, Hfail, andb_true_r.
  unfold disk_inv in *. destruct FILE_BACKED_NV; [|done]. destruct Hd as (Df & Ds & Dh).
  destruct Ht as [Tc Tf Ts _ Tm]. destruct (Z.eqb_spec (g_updateNV (nv s)) 0) as [Ez|Ez]; cbn [negb].
  { intros [= <-]. rewrite Tf, Ts. split_and!; try done. destruct Tm as [->|]; [|done].
    destruct Dh as (enc & E & Hr). exists enc. by rewrite Tc. }
  assert (∃ s1, (if g_updateNV (nv s) =? UT_ORDERLY then on_nv NvUpdateIndexOrderlyData else ret tt) s
    = Some (tt, s1) ∧ quiet s s1 ∧ tracks s s1) as (s1 & E1 & Q1 & T1).
  { destruct (_ =? _); [|exists s; split_and!; [done|by apply quiet_refl|reflexivity]].
    destruct (NvUpdateIndexOrderlyData_quiet s Hw) as (s1 & E1 & Q1). exists s1. split_and!; try done.
    by eapply tracked_NvUpdateIndexOrderlyData. }
  unfold ret in E1. rewrite E1. unfold on_nv at 1.
  destruct (NvCommit true (nv s1)) as [[ok n]|] eqn:E2; [|done].
  destruct T1 as [Uc Uf Us _ _].
  destruct (commit_disk s1 ok n (quiet_wf _ _ Q1)) as (-> & F & S & Hh); [congruence|congruence| |exact E2|].
  { destruct Dh as (enc & E & Hl & _). right. exists enc. rewrite Uc, Tc. split; [done|lia]. }
  intros [= <-]. by split_and!.
Qed.

(** ** Restart *)

Lemma powered_off_load s s1 c1 s2 :
  disk_inv s → time_wf s → powered_off s s1 → TPM_Init FILE_BACKED_NV true true c1 s1 = Some (tt, s2) →
  time_wf s2 ∧ disk_inv s2 ∧ (∀ f, fget f (gp s2) = nvget f s) ∧ (∀ f, nvget f s2 = nvget f s) ∧
  clock_ok s2 ∧ s_timerReset (clk s2) = true ∧ 0 ≤ g_time s2 < 2 ^ 62 ∧
  s_DAPendingOnNV s2 = false ∧ g_initialized s2 = false.
Proof.
  intros Hd Hw [(p & Ep & Hoff) W1 P1 (c & Hc & Hrc)] E.
  assert (∃ p', plat__NVEnable FILE_BACKED_NV (plat (nv s1)) = Some (0, p') ∧ s_NV p' = nvmem (nv s) ∧
    (if FILE_BACKED_NV then s_NvFile p' = true ∧ sd_ok p' = true ∧ file_holds p' (s_NV p') else True))
    as (p' & Ee & Em & Hd').
  { assert (∃ r p', plat__NVEnable FILE_BACKED_NV (plat (nv s1)) = Some (r, p')) as (r & p' & Ee).
    { destruct (plat__NVEnable FILE_BACKED_NV (plat (nv s1))) as [[r p']|] eqn:En; [eauto|]. exfalso. revert E.
      unfold TPM_Init, NvPowerOn, on_nv, on_plat. munfold. unfold set_g_DrtmPreStartup.
      tcbn. rewrite orb_true_r. by rewrite En. }
    unfold disk_inv in Hd. clear E Hrc. destruct FILE_BACKED_NV.
    - destruct Hd as (Df & Ds & Dh). destruct (disable_ok (plat (nv s)) Df Ds) as (p0 & E0 & N0 & _ & _ & _ & C0).
      rewrite E0 in Ep. injection Ep as <-. destruct Hoff as [Of Oi Oc].
      pose proof (enable_card _ _ _ Of Oi Ee) as Hs1.
      assert (Hh : file_holds (plat (nv s1)) (nvmem (nv s))).
      { destruct Dh as (enc & En & Hr). exists enc. split; [|exact Hr]. by rewrite (Oc C0), N0. }
      destruct (enable_ok _ _ Hh Hs1 Of Oi) as (p1 & E1 & I1 & F1 & N1 & _ & _ & S1).
      exists p1. rewrite I1. split_and!; try done. destruct Hh as (enc & En & Hr). exists enc. by rewrite N1.
    - revert Ep. unfold plat__NVDisable. munfold. intros [= <-]. rewrite Hoff.
      unfold plat__NVEnable, nv_enable_tail. munfold. cbn. eexists. by split_and!. }
  destruct (TimerReset_range _ _ Hc Hrc) as (Cr & Cz & Ct).
  revert E. unfold TPM_Init, NvPowerOn, NvInitStatic, on_nv, on_plat. munfold.
  unfold set_g_DrtmPreStartup. tcbn. rewrite orb_true_r, Ee.
  cbn [Z.ltb Z.compare Z.eqb negb orb andb]. munfold. tcbn.
  match goal with |- tpm_init_load _ ?x = _ → _ => set (sl := x) end. intros E.
  assert (Wl : time_wf sl).
  { destruct W1, Hw. constructor; try done; unfold sl, nv_ok, nvmem; cbn; by rewrite Em. }
  destruct (tpm_init_load_view c1 sl Wl Cr Cz Ct) as (s2' & E2 & W2 & Hgp & Hnv & C2 & R2 & T2 & P2 & N2 & I2).
  rewrite E in E2. injection E2 as <-.
  assert (Hs : ∀ f, nvget f sl = nvget f s) by (intros f; unfold nvget, nvbytes, sl, nvmem; cbn; by rewrite Em).
  split_and!; try done; try lia.
  - unfold disk_inv. rewrite N2. exact Hd'.
  - intros f. by rewrite Hgp.
  - intros f. by rewrite Hnv.
  - by rewrite P2.
Qed.

(** Before the startup a command begins without an update of the time. *)
Lemma command_begin_idle cycles s s' :
  g_initialized s = false → command_begin FILE_BACKED_NV cycles s = Some (tt, s') →
  ∃ st, s' = set_nv (set_NvStatus st (set_clearOrderly false (set_updateNV 0 (nv s)))) s.
Proof.
  intros Hi. unfold command_begin, on_nv. texec.
  destruct (NvCheckState_quiet (set_clearOrderly false (set_updateNV 0 (nv s)))) as (st & Es & _).
  rewrite Es. unfold TimeUpdateToCurrent. texec. rewrite Hi. cbn [negb]. rewrite orb_true_r.
  intros [= <-]. by exists st.
Qed.

(** And at any time it starts with nothing recorded. *)
Lemma command_begin_tracks cycles s s' :
  command_begin FILE_BACKED_NV cycles s = Some (tt, s') → disk_inv s → ∃ s0, disk_inv s0 ∧ tracks s0 s'.
Proof.
  unfold command_begin, on_nv. texec.
  destruct (NvCheckState_quiet (set_clearOrderly false (set_updateNV 0 (nv s)))) as (st & Es & _).
  rewrite Es. intros E Hd. eexists. split; [|by eapply tracked_TimeUpdateToCurrent]. by eapply disk_same.
Qed.

Lemma Startup_success c l crypt middle late t s s' :
  TPM2_Startup c l crypt middle late t s = Some (TPM_RC_SUCCESS, s') →
  avail s = true ∧ (l = 0 ∨ l = 3).
Proof.
  unfold TPM2_Startup, avail. texec. destruct (Z.eqb_spec (g_NvStatus (nv s)) TPM_RC_SUCCESS) as [|Hn]; cbn [negb].
  - split; [done|]. destruct (Z.eqb_spec l 0), (Z.eqb_spec l 3); auto. done.
  - intros [= E _]. done.
Qed.

(** The counter NV holds is what a startup finds. *)
Lemma restart_inv v0 n T s s1 c1 s2 c2 s3 c3 locality crypt middle late s4 s5 :
  run_inv v0 n T s → disk_inv s → powered_off s s1 →
  TPM_Init FILE_BACKED_NV true true c1 s1 = Some (tt, s2) →
  command_begin FILE_BACKED_NV c2 s2 = Some (tt, s3) →
  (∀ t, aside (crypt t) ∧ tracked (crypt t)) → (∀ t l, aside (middle t l) ∧ tracked (middle t l)) →
  (∀ t, aside (late t) ∧ tracked (late t)) →
  TPM2_Startup c3 locality crypt middle late TPM_SU_CLEAR s3 = Some (TPM_RC_SUCCESS, s4) →
  g_inFailureMode (nv s4) = false → command_end FILE_BACKED_NV s4 = Some (tt, s5) →
  run_inv v0 n (T + g_time s5) s5 ∧ disk_inv s5.
Proof.
  intros [S V G M R] Hd Hoff E2 E3 Hc Hm Hl E4 Hfail E5.
  destruct (powered_off_load s s1 c1 s2 Hd (st_wf _ S) Hoff E2)
    as (W2 & D2 & Hgp & Hnv & C2 & R2 & T2 & P2 & I2).
  destruct (command_begin_idle c2 s2 s3 I2 E3) as (st & Es3).
  assert (W3 : time_wf s3) by (subst s3; destruct W2; by constructor).
  assert (D3 : disk_inv s3) by (subst s3; by eapply disk_same).
  destruct (Startup_success _ _ _ _ _ _ _ _ E4) as [A3 Hloc].
  destruct (TPM2_Startup_unorderly c3 locality crypt middle late s3) as (s4' & E4' & S4 & A4 & Ps & T4 & V4); try done.
  { apply Hc. }
  { intros l. apply Hm. }
  { apply Hl. }
  { unfold orderly. subst s3. tcbn. rewrite Hgp, (st_nv _ S). done. }
  { by subst s3. }
  { by subst s3. }
  { subst s3. tcbn. lia. }
  rewrite E4 in E4'. injection E4' as <-.
  assert (Q5 : quiet s4 s5) by (eapply command_end_quiet; try done; apply S4 || by apply started_orderly).
  split.
  - replace (g_time s5) with (g_time s4)
      by (change (d_time (view s4) = d_time (view s5)); by rewrite (quiet_view _ _ Q5)).
    eapply run_inv_quiet; [|exact Q5].
    destruct (Ps maxTries eq_refl), (Ps recoveryTime eq_refl); [done..|].
    assert (Hs3 : ∀ f, nvget f s3 = nvget f s) by (intros f; subst s3; apply Hnv).
    assert (G3 : g_time s3 = g_time s2) by (by subst s3).
    constructor; try done; [|lia|congruence..].
    rewrite V4. apply da_inv_heal.
    assert (Ht : 0 ≤ nvget failedTries s).
    { rewrite <- Hgp. apply (gp_range failedTries s2 W2). }
    replace (T + g_time s4) with (T + g_time s3 + (g_time s4 - d_time (restart_view (view s3))))
      by (change (d_time (restart_view (view s3))) with (g_time s3); lia).
    apply da_inv_tick; [|change (d_time (restart_view (view s3))) with (g_time s3); lia].
    apply (da_inv_restart v0 n T (view s) (view s3)); try done; cbn; subst s3; tcbn;
      rewrite ?Hgp, ?Hnv, ?P2, ?M, ?R; try done; try (symmetry; apply V); lia.
  - eapply (command_end_disk s3 s4); try done; [|apply S4|by apply started_orderly].
    eapply (tracked_TPM2_Startup c3 locality crypt middle late); [..|exact E4].
    + intros t. apply Hc.
    + intros t l. apply Hm.
    + intros t. apply Hl.
Qed.

Lemma step_inv noDA v0 n T s n' t s' :
  run_inv v0 n T s → disk_inv s → da_step noDA s n' t s' → run_inv v0 (n + n') (T + t) s' ∧ disk_inv s'.
Proof.
  intros Hi Hd Hs. destruct Hs as [s cycles s1 m s2 s3 Hg E1 Hb Hf E3|s s' E|s s' E
    |s s1 c1 s2 c2 s3 c3 locality crypt middle late s4 s5 Ho E2 E3 Hc Hm Hl E4 Hf E5].
  - pose proof Hi as [S V G M R].
    destruct (command_begin_view cycles s S (run_inv_timer _ _ _ _ Hi) Hg)
      as (s1' & E1' & S1 & P1 & G1 & N1 & V1).
    rewrite E1 in E1'. injection E1' as <-.
    assert (I1 : run_inv v0 n (T + (g_time s1 - g_time s)) s1).
    { destruct (P1 maxTries eq_refl), (P1 recoveryTime eq_refl); [done..|].
      constructor; try congruence; [|lia]. destruct V1 as [[-> Eg]| ->].
      - by rewrite Eg, Z.sub_diag, Z.add_0_r.
      - apply da_inv_heal. apply (da_inv_tick v0 n T (view s)); [done|cbn; lia]. }
    destruct (body_inv noDA s1 m s2 v0 n _ Hb I1 N1) as (I2 & G2 & _ & T2).
    pose proof (ri_started _ _ _ _ I2) as S2.
    assert (Q3 : quiet s2 s3) by (eapply command_end_quiet; try done; apply S2 || by apply started_orderly).
    assert (Eg : g_time s3 = g_time s1).
    { rewrite <- G2. change (d_time (view s3) = d_time (view s2)). by rewrite (quiet_view _ _ Q3). }
    rewrite Eg. split; [by eapply run_inv_quiet|].
    destruct (command_begin_tracks cycles s s1 E1 Hd) as (s0 & D0 & T0).
    eapply (command_end_disk s0 s2); try done; [by etransitivity|apply S2|by apply started_orderly].
  - injection E as <-. rewrite !Z.add_0_r. split.
    + eapply run_inv_quiet; [done|]. pose proof (st_wf _ (ri_started _ _ _ _ Hi)) as []. by constructor.
    + unfold disk_inv in *. by destruct FILE_BACKED_NV.
  - injection E as <-. rewrite !Z.add_0_r. split.
    + eapply run_inv_quiet; [done|]. pose proof (st_wf _ (ri_started _ _ _ _ Hi)) as []. by constructor.
    + unfold disk_inv in *. by destruct FILE_BACKED_NV.
  - rewrite Z.add_0_r. eapply (restart_inv v0 n T s s1 c1 s2 c2 s3 c3 locality crypt middle late s4 s5); done.
Qed.

(** A counted failure of a history, started with the tries recorded. *)
Lemma run_inv_run noDA n T s0 s :
  run_inv (view s0) 0 0 s0 → disk_inv s0 → da_run noDA s0 n T s → run_inv (view s0) n T s ∧ disk_inv s.
Proof. intros Hi Hd Hrun. induction Hrun as [|n T s n' t s' _ [I D] Hs]; [done|]. by eapply step_inv. Qed.
End run.
