(* ===== verification/TimeTyping.v ===== *)
(** * Totality and preservation of the invariant

    [tinv] is the invariant of the time and dictionary attack state: sizes,
    octets, and a rate of the clock within its limits.  [typed R m]: from a state
    with the invariant, [m] returns, in a state with the invariant that is
    related by [R].  One rule per statement form and primitive, then the
    functions of DA.c, Time.c, ClockCommands.c, DictionaryCommands.c,
    StartupCommands.c. *)

From S2P Require Import Prelude TpmTypes Struct Cbc NVMem NVReserved Clock.
From S2P Require Import NvList NvRam NvIndex Session Time TimeProof TimeRun.
Local Open Scope Z_scope.

Section typing.
Context `{TimeLayout}.
Implicit Types (s : TimeState).

Record tinv s : Prop := {
  ti_wf : time_wf s;
  ti_rate : rate_ok (clk s);
  ti_gc : blen (gc s) = sizeof_STATE_CLEAR_DATA;
  ti_gc_byte : Forall is_byte (gc s);
  ti_gr_byte : Forall is_byte (gr s);
}.

Definition typed {A} (R : relation TimeState) (m : M TimeState A) : Prop :=
  ∀ s, tinv s → ∃ a s', m s = Some (a, s') ∧ tinv s' ∧ R s s'.

(** Primitive updates the functions of DA.c and Time.c are made of. *)
Inductive prim : TimeState → TimeState → Prop :=
  | prim_gp (f : GpField) v s : prim s (set_gp (fset f v (gp s)) s)
  | prim_go (f : GoField) v s : prim s (set_go (fset f v (go s)) s)
  | prim_sync f s : prim s (sync f s)
  | prim_sync_go s : prim s (sync_go s)
  | prim_time t s : prim s (set_g_time t s)
  | prim_clk c s : rate_ok c → prim s (set_clk c s)
  | prim_pending b s : prim s (set_s_DAPendingOnNV b s)
  | prim_init b s : prim s (set_g_initialized b s)
  | prim_powerWasLost b s : prim s (set_g_powerWasLost b s)
  | prim_failure s : prim s (set_failure s).

Lemma prim_tinv s s' : tinv s → prim s s' → tinv s'.
Proof.
  intros [W R ? ? ?] P. destruct P; split; eauto with tpm.
  all: destruct W; by constructor.
Qed.

(** A relation that the primitives respect. *)
Class PrimRel (R : relation TimeState) := {
  prim_preorder :: PreOrder R;
  prim_respect s s' : prim s s' → R s s';
}.

Section rules.
Context (R : relation TimeState) `{!PrimRel R}.

Lemma typed_ret {A} (a : A) : typed R (ret a).
Proof. intros s Hs. exists a, s. by split_and!. Qed.

Lemma typed_bind {A B} (m : M TimeState A) (k : A → M TimeState B) :
  typed R m → (∀ a, typed R (k a)) → typed R (bind m k).
Proof.
  intros Hm Hk s Hs. destruct (Hm s Hs) as (a & s1 & E1 & I1 & R1).
  destruct (Hk a s1 I1) as (b & s2 & E2 & I2 & R2). exists b, s2.
  rewrite (bind_Some _ _ _ _ _ E1). split_and!; [done..|]. by etransitivity.
Qed.

Lemma typed_gets {A} (f : TimeState → A) : typed R (gets f).
Proof. intros s Hs. by exists (f s), s. Qed.

Lemma typed_modify (f : TimeState → TimeState) : (∀ s, prim s (f s)) → typed R (modify f).
Proof.
  intros Hf s Hs. exists tt, (f s). split_and!; [done|by eapply prim_tinv|by apply prim_respect].
Qed.

(** A branch is reached with its guard. *)
Lemma typed_if {A} (b : bool) (m1 m2 : M TimeState A) :
  (b = true → typed R m1) → (b = false → typed R m2) → typed R (if b then m1 else m2).
Proof. destruct b; auto. Qed.

(** A division is defined where the divisor has been tested. *)
Lemma typed_c_div x y : (y =? 0) = false → typed R (c_div x y).
Proof. intros E. unfold c_div. rewrite E. apply typed_ret. Qed.

Lemma typed_pAssert b : typed R (pAssert b).
Proof. destruct b; [apply typed_ret|]. apply typed_modify. intros; apply prim_failure. Qed.

Lemma typed_sync f : typed R (NV_SYNC_PERSISTENT f).
Proof.
  intros s Hs. exists true, (sync f s). rewrite NV_SYNC_ok by apply Hs.
  split_and!; [done|eapply prim_tinv; [done|]|apply prim_respect]; apply prim_sync.
Qed.

Lemma typed_write_orderly : typed R write_orderly.
Proof.
  intros s Hs. exists tt, (sync_go s). rewrite write_orderly_ok by apply Hs.
  split_and!; [done|eapply prim_tinv; [done|]|apply prim_respect]; apply prim_sync_go.
Qed.

(** The calls of the platform clock: a function that keeps the rate in range. *)
Lemma typed_clk {A} (m : M PlatClock A) :
  (∀ c, rate_ok c → ∃ a c', m c = Some (a, c') ∧ rate_ok c') → typed R (on_clk m).
Proof.
  intros Hm s Hs. destruct (Hm (clk s) (ti_rate s Hs)) as (a & c' & E & Hr).
  exists a, (set_clk c' s). unfold on_clk. rewrite E.
  split_and!; [done|eapply prim_tinv; [done|]|apply prim_respect]; by apply prim_clk.
Qed.

Lemma TimerRead_total cycles c :
  rate_ok c → ∃ t c', plat__TimerRead cycles c = Some (t, c') ∧ rate_ok c'.
Proof.
  intros Hr. unfold plat__TimerRead, timer_read, tpm_update.
  set (c1 := system_update _ c). assert (Hr1 : rate_ok c1).
  { unfold c1, system_update. unfold rate_ok in *. by destruct (_ =? 0). }
  destruct (_ <=? _); [by eexists _, c1|].
  unfold rate_ok, CLOCK_NOMINAL, CLOCK_ADJUST_LIMIT in Hr1.
  destruct (Z.eqb_spec (s_adjustRate c1) 0); [lia|]. by eexists _, _.
Qed.
End rules.
End typing.

Ltac typed_step :=
  match goal with
  | |- typed _ (bind _ _) => refine (typed_bind _ _ _ _ _); [|intros]
  | |- typed _ (ret _) => refine (typed_ret _ _)
  | |- typed _ (gets _) => refine (typed_gets _ _)
  | |- typed _ (pAssert _) => refine (typed_pAssert _ _)
  | |- typed _ (NV_SYNC_PERSISTENT _) => refine (typed_sync _ _)
  | |- typed _ write_orderly => refine (typed_write_orderly _)
  | |- typed _ (if _ then _ else _) => refine (typed_if _ _ _ _ _ _); intros
  | |- typed _ (c_div _ _) => refine (typed_c_div _ _ _ _); assumption
  | |- typed _ (modify _) => refine (typed_modify _ _ _); intros; constructor
  | |- typed _ (on_clk _) =>
      refine (typed_clk _ _ _); intros; solve [by eexists _, _ | by apply TimerRead_total]
  | _ => solve [eauto]
  end.

(** ** The functions built from the primitives *)

Section ops.
Context `{TimeLayout} (R : relation TimeState) `{!PrimRel R}.

Lemma typed_DASelfHeal : typed R DASelfHeal.
Proof. unfold DASelfHeal, gpv, gov, gp_assign, go_assign. repeat typed_step. Qed.

Lemma typed_DARegisterFailure handle : typed R (DARegisterFailure handle).
Proof. unfold DARegisterFailure, go_assign. repeat typed_step. Qed.

Lemma typed_DAPreInstall_Init : typed R DAPreInstall_Init.
Proof. unfold DAPreInstall_Init, gp_assign. repeat typed_step. Qed.

Lemma typed_TimePowerOn cycles : typed R (TimePowerOn cycles).
Proof. unfold TimePowerOn. repeat typed_step. Qed.

Lemma typed_TimeNewEpoch : typed R TimeNewEpoch.
Proof. unfold TimeNewEpoch, gpv, gp_assign. repeat typed_step. Qed.

Lemma typed_TimeStartup type : typed R (TimeStartup type).
Proof. unfold TimeStartup, NV_IS_ORDERLY, go_assign. repeat typed_step. Qed.

Lemma typed_TimeClockUpdate t : typed R (TimeClockUpdate t).
Proof. unfold TimeClockUpdate, NV_IS_AVAILABLE, gov, go_assign. repeat typed_step. Qed.

Lemma typed_TimeUpdate cycles : typed R (TimeUpdate cycles).
Proof.
  pose proof typed_TimeNewEpoch. pose proof typed_TimeClockUpdate. pose proof typed_DASelfHeal.
  unfold TimeUpdate, gov. repeat typed_step.
Qed.

Lemma typed_TimeUpdateToCurrent cycles : typed R (TimeUpdateToCurrent cycles).
Proof.
  pose proof (typed_TimeUpdate cycles). unfold TimeUpdateToCurrent, NV_IS_AVAILABLE, TPMIsStarted.
  repeat typed_step.
Qed.

Lemma typed_TimeSetAdjustRate adjust : typed R (TimeSetAdjustRate adjust).
Proof.
  unfold TimeSetAdjustRate. repeat (apply typed_if; intros _); try typed_step.
  all: refine (typed_clk _ _ _); intros c Hc.
  all: match goal with |- context [plat__ClockRateAdjust ?a] =>
    destruct (adjust_rate_ok a c Hc) as (c' & E & Hr & _) end; by exists tt, c'.
Qed.

Lemma typed_count_failure handle : typed R (count_failure handle).
Proof.
  pose proof (typed_DARegisterFailure handle).
  unfold count_failure, gpv, gp_assign, NV_IS_AVAILABLE. repeat typed_step.
Qed.

Lemma typed_CheckLockedOut b : typed R (CheckLockedOut b).
Proof. unfold CheckLockedOut, gpv, NV_IS_ORDERLY. repeat typed_step. Qed.

Lemma typed_DAStartup cycles type : typed R (DAStartup cycles type).
Proof.
  pose proof (typed_TimeUpdate cycles).
  unfold DAStartup, gpv, gov, gp_assign, go_assign, NV_IS_ORDERLY. repeat typed_step.
Qed.
End ops.

(** ** Commands, startup and shutdown *)

Definition anything : relation TimeState := λ _ _, True.

#[global] Instance anything_prim `{TimeLayout} : PrimRel anything.
Proof. split; [|done]. by split. Qed.

(** The state that a shutdown saves, and what a startup checks. *)
Record same_saved (s s' : TimeState) : Prop := {
  sv_gr : gr s' = gr s;
  sv_gc : gc s' = gc s;
  sv_status : g_NvStatus (nv s') = g_NvStatus (nv s);
}.

#[global] Instance same_saved_prim `{TimeLayout} : PrimRel same_saved.
Proof.
  split; [|intros s s' []; done]. split; [done|]. intros s1 s2 s3 [] []. split; congruence.
Qed.

Section commands.
Context `{TimeLayout}.
Implicit Types (s : TimeState).

Lemma typed_ext {A} (R R' : relation TimeState) (m : M TimeState A) :
  typed R m → (∀ s s', R s s' → R' s s') → typed R' m.
Proof. intros Hm HR s Hs. destruct (Hm s Hs) as (a & s' & ? & ? & ?). exists a, s'. auto. Qed.

(** A write to NV memory. *)
Definition put (o : Z) (d : bytes) s : TimeState := set_nv (nv_put o d (nv s)) s.

Lemma put_ok o n d s :
  tinv s → 0 ≤ o → n = blen d → o + n ≤ NV_MEMORY_SIZE → Forall is_byte d →
  on_nv (NvWrite o n d) s = Some (true, put o d s) ∧ tinv (put o d s).
Proof.
  intros [W R G1 G2 G3] Ho Hn Hle Hb. unfold on_nv. rewrite NvWrite_ok by (done || apply W).
  split; [done|]. split; try done. destruct W. constructor; try done.
  - apply nv_put_ok; [done|done|lia].
  - cbn. by apply bwrite_byte.
Qed.

(** What [NvRead] of a reserved area gives. *)
Lemma reserved_fits :
  0 < sizeof_STATE_RESET_DATA ∧ 0 < sizeof_STATE_CLEAR_DATA ∧
  0 < NV_STATE_RESET_DATA ∧ NV_STATE_RESET_DATA + sizeof_STATE_RESET_DATA = NV_STATE_CLEAR_DATA ∧
  NV_STATE_CLEAR_DATA + sizeof_STATE_CLEAR_DATA = NV_ORDERLY_DATA ∧
  sizeof_PERSISTENT_DATA = NV_STATE_RESET_DATA.
Proof.
  pose proof layout_persistent. pose proof layout_reset. pose proof layout_clear.
  unfold NV_ORDERLY_DATA, NV_STATE_CLEAR_DATA, NV_STATE_RESET_DATA, NV_PERSISTENT_DATA. lia.
Qed.

Lemma tinv_gr d s :
  tinv s → blen d = sizeof_STATE_RESET_DATA → Forall is_byte d → tinv (set_gr d s).
Proof.
  intros [[] R G1 G2 G3] Hd Hb. split; try done. constructor; try done.
  unfold swf. by rewrite gr_size.
Qed.

Lemma tinv_gr_set (f : GrField) v s : tinv s → tinv (set_gr (fset f v (gr s)) s).
Proof.
  intros [W R G1 G2 G3]. split; try done; [by apply wf_set_gr|]. cbn. by apply fset_byte.
Qed.

Lemma tinv_gc d s :
  tinv s → blen d = sizeof_STATE_CLEAR_DATA → Forall is_byte d → tinv (set_gc d s).
Proof. intros [[] R G1 G2 G3] Hd Hb. by split. Qed.

Lemma typed_gr_assign (f : GrField) v : typed anything (gr_assign f v).
Proof. intros s Hs. eexists _, _. split; [done|]. split; [by apply tinv_gr_set|done]. Qed.

Lemma typed_startup_counters startup : typed anything (startup_counters startup).
Proof.
  pose proof typed_gr_assign. unfold startup_counters, grv, gpv, gp_assign.
  destruct startup; repeat typed_step.
Qed.

(** The startup functions of the other components. *)
Section startup.
Context (crypt : STARTUP_TYPE → M TimeState bool) (middle : STARTUP_TYPE → Z → M TimeState bool)
  (late : STARTUP_TYPE → M TimeState bool).
Definition actions_typed : Prop :=
  (∀ t, typed anything (crypt t)) ∧ (∀ t l, typed anything (middle t l)) ∧ (∀ t, typed anything (late t)).

Lemma typed_startup_subsystems cycles locality startup :
  actions_typed → typed anything (startup_subsystems cycles locality crypt middle late startup).
Proof.
  intros (Hc & Hm & Hl).
  pose proof (typed_startup_counters startup). pose proof (typed_DAStartup anything cycles startup).
  pose proof (typed_TimeStartup anything startup).
  unfold startup_subsystems, gp_assign. repeat typed_step.
Qed.

Lemma typed_startup_read startupType : typed anything (startup_read startupType).
Proof.
  intros s Hs. pose proof persistent_fits. pose proof reserved_fits. pose proof (ti_wf s Hs) as W.
  assert (Hl : blen (nvmem (nv s)) = NV_MEMORY_SIZE) by apply W.
  assert (Hb : ∀ o n, Forall is_byte (bread (nvmem (nv s)) o n)) by (intros; apply bread_byte, W).
  unfold startup_read. texec. destruct (_ && _); texec; [|by eexists _, s].
  rewrite NvRead_time by (done || lia). texec.
  assert (I1 : tinv (set_gr (bread (nvmem (nv s)) NV_STATE_RESET_DATA sizeof_STATE_RESET_DATA) s)).
  { apply tinv_gr; [done| |apply Hb]. apply blen_bread; lia. }
  destruct (_ =? _); texec; [|by eexists _, _].
  rewrite NvRead_time by (apply I1 || lia). texec. eexists _, _. split; [done|]. split; [|done].
  apply tinv_gc; [done| |apply Hb]. apply blen_bread; tcbn; lia.
Qed.

Lemma typed_modify_inv (f : TimeState → TimeState) :
  (∀ s, tinv s → tinv (f s)) → typed anything (modify f).
Proof. intros Hf s Hs. exists tt, (f s). split_and!; [done|by apply Hf|done]. Qed.

Lemma typed_TPM2_Startup cycles locality startupType :
  actions_typed → typed anything (TPM2_Startup cycles locality crypt middle late startupType).
Proof.
  intros Ha. pose proof typed_startup_read. pose proof typed_startup_subsystems.
  unfold TPM2_Startup, gpv, gp_assign, on_nv.
  repeat match goal with
  | |- typed _ (modify (set_g_StartupLocality3 _)) =>
      apply typed_modify_inv; intros s [[] ? ? ? ?]; by split
  | |- typed _ (λ _, _) => apply (typed_modify_inv (λ s, set_nv (set_prevOrderlyState _ (nv s)) s));
      intros s [[] ? ? ? ?]; by split
  | _ => typed_step
  end.
Qed.
End startup.

(** [_TPM_Init] loads [gp] and [go]. *)
Lemma tinv_load (g : bytes) (o : bytes) s :
  tinv s → blen g = sizeof_PERSISTENT_DATA → Forall is_byte g →
  blen o = sizeof_ORDERLY_DATA → Forall is_byte o → tinv (set_go o (set_gp g s)).
Proof.
  intros [[] ? ? ? ?] Hg Fg Ho Fo. split; try done. constructor; try done; unfold swf.
  - by rewrite gp_size.
  - by rewrite go_size.
Qed.

Lemma typed_init_load cycles : typed anything (tpm_init_load cycles).
Proof.
  intros s Hs. pose proof persistent_fits. pose proof (ti_wf s Hs) as W.
  assert (Hl : blen (nvmem (nv s)) = NV_MEMORY_SIZE) by apply W.
  unfold tpm_init_load, NvReadPersistent. texec.
  rewrite NvRead_time by (apply W || unfold NV_PERSISTENT_DATA; lia). texec.
  set (s1 := set_gp _ s).
  assert (I1 : ∀ o, blen o = sizeof_ORDERLY_DATA → Forall is_byte o → tinv (set_go o s1)).
  { intros o. apply tinv_load; [done| |apply bread_byte, W].
    apply blen_bread; unfold NV_PERSISTENT_DATA; cbn; fold (nvmem (nv s)); lia. }
  unfold on_nv at 1. rewrite NvRead_ok by (done || lia). texec.
  destruct (typed_TimePowerOn anything cycles
    (set_go (bread (nvmem (nv s1)) NV_ORDERLY_DATA sizeof_ORDERLY_DATA) s1)) as (a & s' & E & I & _).
  { apply I1; [|apply bread_byte, W]. apply blen_bread; cbn; fold (nvmem (nv s)); lia. }
  by exists a, s'.
Qed.

Lemma typed_NvUpdateIndexOrderlyData : typed anything (on_nv NvUpdateIndexOrderlyData).
Proof.
  intros s Hs. pose proof persistent_fits as (F1 & F2 & F3 & F4). pose proof (ti_wf s Hs) as W.
  pose proof (wf_ram s W) as Hram.
  destruct (put_ok (NV_ORDERLY_DATA + sizeof_ORDERLY_DATA) RAM_INDEX_SPACE (s_indexOrderlyRam (nv s)) s)
    as [E I]; [done|lia|done|unfold RAM_INDEX_SPACE; lia|apply W|].
  exists tt, (put (NV_ORDERLY_DATA + sizeof_ORDERLY_DATA) (s_indexOrderlyRam (nv s)) s).
  split; [|done]. unfold on_nv, NvUpdateIndexOrderlyData, NV_INDEX_RAM_DATA, bind, gets, ret in *.
  destruct (NvWrite _ _ _ _) as [[b n]|]; [|done]. by injection E as _ ->.
Qed.

(** The saved areas written by [TPM2_Shutdown]. *)
Lemma typed_save_gr {A} (k : M TimeState A) :
  typed anything k →
  typed anything (let! d := gets gr in on_nv (NvWrite NV_STATE_RESET_DATA sizeof_STATE_RESET_DATA d) ;; k).
Proof.
  intros Hk s Hs. pose proof persistent_fits. pose proof reserved_fits.
  destruct (put_ok NV_STATE_RESET_DATA sizeof_STATE_RESET_DATA (gr s) s) as [E I];
    [done|lia| |lia|apply Hs|].
  { rewrite <- gr_size. symmetry. apply (wf_gr s (ti_wf s Hs)). }
  texec. rewrite E. destruct (Hk _ I) as (a & s' & E' & I' & _). by exists a, s'.
Qed.

Lemma typed_save_gc {A} (k : M TimeState A) :
  typed anything k →
  typed anything (let! d := gets gc in on_nv (NvWrite NV_STATE_CLEAR_DATA sizeof_STATE_CLEAR_DATA d) ;; k).
Proof.
  intros Hk s Hs. pose proof persistent_fits. pose proof reserved_fits.
  destruct (put_ok NV_STATE_CLEAR_DATA sizeof_STATE_CLEAR_DATA (gc s) s) as [E I];
    [done|lia|symmetry; apply Hs|lia|apply Hs|].
  texec. rewrite E. destruct (Hk _ I) as (a & s' & E' & I' & _). by exists a, s'.
Qed.

(** The parameter of [TPM2_Shutdown] keeps the size of [gc]. *)
Definition saves_gc (PCRStateSave : Z → bytes → bytes) : Prop :=
  ∀ t d, blen d = sizeof_STATE_CLEAR_DATA → Forall is_byte d →
    blen (PCRStateSave t d) = sizeof_STATE_CLEAR_DATA ∧ Forall is_byte (PCRStateSave t d).

Lemma typed_TPM2_Shutdown PCRStateSave shutdownType :
  saves_gc PCRStateSave → typed anything (TPM2_Shutdown PCRStateSave shutdownType).
Proof.
  intros Hsave. pose proof typed_NvUpdateIndexOrderlyData.
  unfold TPM2_Shutdown, gp_assign, go_assign.
  repeat match goal with
  | |- typed _ (bind (gets gc) _) => apply typed_save_gc
  | |- typed _ (bind (gets gr) _) => apply typed_save_gr
  | |- typed _ (modify (λ s, set_gc _ s)) =>
      apply typed_modify_inv; intros s Hs;
      destruct (Hsave shutdownType (gc s) (ti_gc s Hs) (ti_gc_byte s Hs)); by apply tinv_gc
  | _ => typed_step
  end.
Qed.

(** The first statements of a command, with the state of NV. *)
Lemma typed_command_begin FILE_BACKED_NV cycles : typed anything (command_begin FILE_BACKED_NV cycles).
Proof.
  intros s Hs. unfold command_begin, on_nv. texec.
  destruct (NvCheckState_quiet FILE_BACKED_NV (set_clearOrderly false (set_updateNV 0 (nv s)))) as (st & Es & _).
  rewrite Es. match goal with |- context [TimeUpdateToCurrent _ ?x] => set (s1 := x) end.
  destruct (typed_TimeUpdateToCurrent anything cycles s1) as (a & s' & E & I & _); [|by exists a, s'].
  destruct Hs as [[] ? ? ? ?]. by split.
Qed.

Lemma typed_clear_orderly : typed anything clear_orderly.
Proof. unfold clear_orderly, NV_IS_ORDERLY, gp_assign. repeat typed_step. Qed.

(** The authorizations of an entity other than an NV index. *)
Section authorization.
Context (noDA : Z → bool).

Lemma typed_IsDAExempted handle :
  HandleGetType handle ≠ TPM_HT_NV_INDEX → typed anything (IsDAExempted noDA handle).
Proof.
  intros Hh. unfold IsDAExempted. cbv zeta. repeat typed_step.
  all: by match goal with E : (_ =? TPM_HT_NV_INDEX) = true |- _ => apply Z.eqb_eq in E end.
Qed.

Lemma typed_IncrementLockout handle session :
  HandleGetType handle ≠ TPM_HT_NV_INDEX → typed anything (IncrementLockout noDA handle session).
Proof.
  intros Hh. pose proof (typed_count_failure anything). pose proof typed_IsDAExempted as Hx.
  destruct session as [a|]; unfold IncrementLockout; cbv zeta; repeat typed_step.
  by apply Hx; destruct (isLockoutBound a).
Qed.

Lemma typed_CheckAuthSession_pw pp policy available handle matches :
  HandleGetType handle ≠ TPM_HT_NV_INDEX →
  typed anything (CheckAuthSession_pw noDA pp policy available handle matches).
Proof.
  pose proof typed_IsDAExempted. pose proof (typed_CheckLockedOut anything). pose proof typed_IncrementLockout.
  intros. unfold CheckAuthSession_pw. repeat typed_step.
Qed.

Lemma typed_CheckAuthSession_hmac pp policy available session handle matches :
  HandleGetType handle ≠ TPM_HT_NV_INDEX →
  typed anything (CheckAuthSession_hmac noDA pp policy available session handle matches).
Proof.
  pose proof typed_IsDAExempted. pose proof (typed_CheckLockedOut anything). pose proof typed_IncrementLockout.
  intros. unfold CheckAuthSession_hmac. repeat typed_step.
Qed.
End authorization.

(** ** The operations of the component *)

Inductive TimeOp :=
  | OpInit (cycles : Z)
  | OpStartup (cycles locality : Z) (crypt : STARTUP_TYPE → M TimeState bool)
      (middle : STARTUP_TYPE → Z → M TimeState bool) (late : STARTUP_TYPE → M TimeState bool)
      (startupType : Z)
  | OpShutdown (shutdownType : Z)
  | OpBegin (FILE_BACKED_NV : bool) (cycles : Z)
  | OpClearOrderly
  | OpReadClock
  | OpClockSet (newTime : Z)
  | OpClockRateAdjust (rateAdjust : Z)
  | OpLockReset
  | OpParameters (newMaxTries newRecoveryTime newLockoutRecovery : Z)
  | OpPreInstall
  | OpCheckLockedOut (lockoutAuthCheck : bool)
  | OpFailure (noDA : Z → bool) (handle : Z) (session : option SESSION_ATTRIBUTES)
  | OpPassword (noDA : Z → bool) (pp policy available : bool) (handle : Z) (matches : bool)
  | OpHmac (noDA : Z → bool) (pp policy available : bool) (session : SESSION_ATTRIBUTES) (handle : Z)
      (matches : bool).

Definition run_op (PCRStateSave : Z → bytes → bytes) (op : TimeOp) : M TimeState Z :=
  match op with
  | OpInit c => tpm_init_load c ;; ret TPM_RC_SUCCESS
  | OpStartup c l crypt middle late t => TPM2_Startup c l crypt middle late t
  | OpShutdown t => TPM2_Shutdown PCRStateSave t
  | OpBegin file c => command_begin file c ;; ret TPM_RC_SUCCESS
  | OpClearOrderly => clear_orderly ;; ret TPM_RC_SUCCESS
  | OpReadClock => TPM2_ReadClock ;; ret TPM_RC_SUCCESS
  | OpClockSet t => TPM2_ClockSet t
  | OpClockRateAdjust a => TPM2_ClockRateAdjust a
  | OpLockReset => TPM2_DictionaryAttackLockReset
  | OpParameters a b c => TPM2_DictionaryAttackParameters a b c
  | OpPreInstall => DAPreInstall_Init ;; ret TPM_RC_SUCCESS
  | OpCheckLockedOut b => CheckLockedOut b
  | OpFailure noDA h session => IncrementLockout noDA h session
  | OpPassword noDA pp policy available h matches => CheckAuthSession_pw noDA pp policy available h matches
  | OpHmac noDA pp policy available session h matches =>
      CheckAuthSession_hmac noDA pp policy available session h matches
  end.

(** The startup functions of the other components keep the invariant; the entity
    authorized is not an NV index, whose cached public area is another component's. *)
Definition time_op_ok (op : TimeOp) : Prop :=
  match op with
  | OpStartup _ _ crypt middle late _ => actions_typed crypt middle late
  | OpFailure _ h _ | OpPassword _ _ _ _ h _ | OpHmac _ _ _ _ _ h _ => HandleGetType h ≠ TPM_HT_NV_INDEX
  | _ => True
  end.

Lemma typed_run_op PCRStateSave op :
  saves_gc PCRStateSave → time_op_ok op → typed anything (run_op PCRStateSave op).
Proof.
  intros Hsave Hop.
  pose proof typed_init_load. pose proof typed_TPM2_Startup. pose proof typed_TPM2_Shutdown.
  pose proof typed_command_begin. pose proof (typed_TimeClockUpdate anything).
  pose proof (typed_TimeSetAdjustRate anything). pose proof (typed_DAPreInstall_Init anything).
  pose proof (typed_CheckLockedOut anything). pose proof typed_IncrementLockout.
  pose proof typed_CheckAuthSession_pw. pose proof typed_CheckAuthSession_hmac. pose proof typed_clear_orderly.
  destruct op; unfold run_op, TPM2_ReadClock, TimeFillInfo, TPM2_ClockSet, TPM2_ClockRateAdjust,
    TPM2_DictionaryAttackLockReset, TPM2_DictionaryAttackParameters, gpv, gov, grv, gp_assign,
    NV_IS_AVAILABLE; repeat typed_step.
Qed.
End commands.
