(* ===== verification/TimeProps.v ===== *)
(** * Properties of time and of the dictionary attack logic

    The theorems about Clock.c, Time.c, DA.c, SessionProcess.c and
    StartupCommands.c.  The witnesses use a TPM whose structures have their
    members at fixed places ([rv64_time]). *)

From S2P Require Import Prelude TpmTypes Struct Cbc AesProof NVMem NVReserved Clock.
From S2P Require Import NvList NvRam NvIndex Session Time TimeProof TimeRun TimeTyping.
Local Open Scope Z_scope.

(** ** A layout and a started TPM *)

Definition gp_offset (f : GpField) : Z :=
  match f with
  | totalResetCount => 800 | resetCount => 808 | failedTries => 820 | maxTries => 824
  | recoveryTime => 828 | lockoutRecovery => 832 | lockOutAuthEnabled => 836
  | orderlyState => 840 | timeEpoch => 844
  end.
Definition go_offset (f : GoField) : Z :=
  match f with
  | go_clock => 0 | go_clockSafe => 8 | selfHealTimer => 16 | lockoutTimer => 24 | go_time => 32
  end.
Definition gr_offset (f : GrField) : Z :=
  match f with objectContextID => 64 | clearCount => 8 | restartCount => 12 end.

#[global] Instance rv64_time : TimeLayout.
Proof.
  unshelve refine {| gp_layout := Build_Layout _ gp_offset gp_width 1400 _ _;
    go_layout := Build_Layout _ go_offset go_width 128 _ _;
    gr_layout := Build_Layout _ gr_offset gr_width 400 _ _ |}; try done.
  all: try (intros []; cbn; lia).
  all: intros [] []; cbn; first [done | lia].
Defined.

(** [maxTries] = 3, a failure is forgiven in 10 seconds. *)
Definition da_gp (tries orderly : Z) : bytes :=
  fset failedTries tries (fset maxTries 3 (fset recoveryTime 10 (fset lockoutRecovery 10
    (fset lockOutAuthEnabled 1 (fset orderlyState orderly (bfill 0 1400)))))).

Definition da_state (tries orderly : Z) (cl : PlatClock) : TimeState :=
  let g := da_gp tries orderly in
  mkTime (mkNvState (mkPlatNv (bwrite (bfill 0 NV_MEMORY_SIZE) 0 g) [] true 0 0 false false None true true)
      0 (bfill 0 RAM_INDEX_SPACE) 0 [] 0 None TPM_RC_SUCCESS 0 false false true true SU_NONE_VALUE)
    cl g (bfill 0 128) (bfill 0 400) (bfill 0 1600) (s_tpmTime cl) true true false false false false false.

(** A clock that was read [t] milliseconds after the first reading, at 1000. *)
Definition clock_at (t : Z) : PlatClock := mkClock t (1000 + t) t t false false CLOCK_NOMINAL.

Lemma da_state_wf tries orderly cl : time_wf (da_state tries orderly cl).
Proof.
  assert (Hg : blen (da_gp tries orderly) = 1400).
  { change (swf (F := GpField) (da_gp tries orderly)). unfold da_gp.
    repeat apply swf_fset. by apply blen_bfill. }
  assert (Hb : Forall is_byte (da_gp tries orderly)).
  { unfold da_gp. repeat apply (fset_byte (F := GpField)). apply Forall_replicate. by vm_compute. }
  assert (Hl : blen (bwrite (bfill 0 NV_MEMORY_SIZE) 0 (da_gp tries orderly)) = NV_MEMORY_SIZE).
  { rewrite blen_bwrite by (rewrite ?Hg, ?blen_bfill; unfold NV_MEMORY_SIZE; lia).
    by apply blen_bfill. }
  assert (Hz : ∀ n, Forall is_byte (bfill 0 n)) by (intros; apply Forall_replicate; unfold is_byte; lia).
  constructor; [exact Hl|apply bwrite_byte; done| |apply Hz|exact Hg| | |exact Hb|apply Hz];
    by vm_compute.
Qed.

(** ** The bound on failed authorizations *)

(** A started TPM whose tries are recorded in NV, with its parameters; with a
    file, it is open on a card that works and holds the NV image. *)
Record da_start `{TimeLayout} `{BlockCipher} (FILE_BACKED_NV : bool) (s : TimeState) : Prop := {
  ds_started : started s;
  ds_timer : timer_ok (view s);
  ds_pending : s_DAPendingOnNV s = false;
  ds_tries : nvget failedTries s = fget failedTries (gp s);
  ds_max : nvget maxTries s = fget maxTries (gp s);
  ds_rec : nvget recoveryTime s = fget recoveryTime (gp s);
  ds_rec_pos : 0 < fget recoveryTime (gp s);
  ds_disk : disk_inv FILE_BACKED_NV s;
}.

Lemma da_start_inv `{TimeLayout} `{BlockCipher} FILE_BACKED_NV s :
  da_start FILE_BACKED_NV s → run_inv (view s) 0 0 s.
Proof.
  intros [S [Ht1 Ht2] P T M R Rp _]. pose proof (gp_range failedTries s (st_wf _ S)).
  constructor; try done. constructor; cbn in *; try (done || lia). by rewrite P.
Qed.


(** The state a computation ends in. *)
Definition end_state {A} (r : option (A * TimeState)) (d : TimeState) : TimeState :=
  match r with Some (_, s) => s | None => d end.
Definition value_is (v : Z) (r : option (Z * TimeState)) : bool :=
  match r with Some (x, _) => x =? v | None => false end.
Definition returns {A} (r : option (A * TimeState)) : bool :=
  match r with Some _ => true | None => false end.

Lemma returns_unit (r : option (unit * TimeState)) d :
  returns r = true → r = Some (tt, end_state r d).
Proof. by destruct r as [[[] ?]|]. Qed.

Lemma returns_value v (r : option (Z * TimeState)) d :
  value_is v r = true → r = Some (v, end_state r d).
Proof. destruct r as [[x s]|]; [|done]. cbn. intros ->%Z.eqb_eq. done. Qed.

(** Two tries were used; an object's password is guessed wrong at 12 s. *)
Definition da2 : TimeState := da_state 2 SU_NONE_VALUE (clock_at 5000).
Definition object1 : Z := 0x80000001.
Definition da2_cycles : Z := 2 ^ 32 * 13 + 500000000.
Definition da2_begin : TimeState := end_state (command_begin false da2_cycles da2) da2.
Definition da2_auth : TimeState :=
  end_state (CheckAuthSession_pw (λ _, false) false false true object1 false da2_begin) da2.
Definition da2_end : TimeState := end_state (@command_end _ _ nv_cipher false da2_auth) da2.

Lemma da2_start : @da_start _ _ nv_cipher false da2.
Proof.
  split; [split; [apply da_state_wf|..]|..]; by vm_compute.
Qed.

Lemma da2_run : @da_run _ _ nv_cipher false (λ _, false) da2 1 7500 da2_end.
Proof.
  change 1 with (0 + 1). change 7500 with (0 + 7500). eapply run_step; [apply run_nil|].
  replace 7500 with (g_time da2_end - g_time da2) by (by vm_compute).
  apply (step_command _ _ _ da2_cycles da2_begin _ da2_auth).
  - by vm_compute.
  - apply returns_unit. by vm_compute.
  - change 1 with (if TPM_RC_AUTH_FAIL =? TPM_RC_AUTH_FAIL then 1 else 0).
    eapply (body_pw _ _ false false true object1 false); [done..|]. apply returns_value. by vm_compute.
  - by vm_compute.
  - apply returns_unit. by vm_compute.
Qed.


(** ** Self healing *)

(** Running [DASelfHeal] at the time [t]. *)
Definition heal_at `{TimeLayout} (t : Z) : M TimeState unit := modify (set_g_time t) ;; DASelfHeal.

Lemma heal_at_view `{TimeLayout} t s :
  time_wf s → 0 ≤ fget selfHealTimer (go s) ≤ t → t < 2 ^ 63 →
  ∃ s', heal_at t s = Some (tt, s') ∧ time_wf s' ∧ view s' = heal (tick t (view s)).
Proof.
  intros Hw Ht H63. destruct (DASelfHeal_view (set_g_time t s)) as (s' & E & W & V & _).
  { eauto with tpm. }
  { split; cbn; lia. }
  exists s'. unfold heal_at, modify, bind. by rewrite E, V.
Qed.

(** Whole periods: healing for [a] and then [b] is healing for their sum. *)
Lemma periods_split a b r :
  0 ≤ a → 0 ≤ b → 0 < r →
  let k1 := a / 1000 / r in
  (a - k1 * r * 1000 + b) / 1000 / r = (a + b) / 1000 / r - k1.
Proof.
  intros Ha Hb Hr. cbv zeta. rewrite !Z.div_div by lia.
  set (k := a / (1000 * r)).
  replace (a - k * r * 1000 + b) with (a + b + (- k) * (1000 * r)) by lia.
  rewrite Z.div_add by lia. lia.
Qed.

Lemma heal_heal v t1 t2 :
  0 ≤ d_tries v → 0 ≤ d_rec v → 0 ≤ d_timer v ≤ t1 → t1 ≤ t2 →
  (t2 - d_timer v) / 1000 < 2 ^ 32 →
  d_tries (heal (tick t2 (heal (tick t1 v)))) = d_tries (heal (tick t2 v)) ∧
  (0 < d_tries (heal (tick t2 v)) →
   d_timer (heal (tick t2 (heal (tick t1 v)))) = d_timer (heal (tick t2 v))).
Proof.
  intros Hn Hr0 Ht1 Ht2 H32.
  set (w := heal (tick t1 v)). unfold heal in w.
  cbn [tick d_tries d_rec d_max d_time d_timer d_pending d_nvtries] in w.
  destruct (Z.eqb_spec (d_tries v) 0) as [E|E]; [done|].
  destruct (Z.eqb_spec (d_rec v) 0) as [E'|E'].
  { unfold w, heal. cbn. rewrite (proj2 (Z.eqb_neq (d_tries v) 0)), E' by done. done. }
  cbv zeta.
  destruct (decrease_bounds (t1 - d_timer v) (d_rec v)) as [Hk1 Hk1']; [lia..|].
  pose proof (periods_split (t1 - d_timer v) (t2 - t1) (d_rec v) ltac:(lia) ltac:(lia) ltac:(lia)) as Hsp.
  cbv zeta in Hsp. replace (t1 - d_timer v + (t2 - t1)) with (t2 - d_timer v) in Hsp by lia.
  assert (Hk2 : 0 ≤ (t2 - d_timer v) / 1000 / d_rec v < 2 ^ 32).
  { split; [apply Z.div_pos; [apply Z.div_pos|]; lia|].
    apply Z.le_lt_trans with ((t2 - d_timer v) / 1000); [|done].
    apply Z.div_le_upper_bound; [lia|]. assert (0 ≤ (t2 - d_timer v) / 1000) by (apply Z.div_pos; lia). nia. }
  assert (Hle : (t1 - d_timer v) / 1000 / d_rec v ≤ (t2 - d_timer v) / 1000 / d_rec v).
  { do 2 (apply Z.div_le_mono; [lia|]). lia. }
  set (k1 := (t1 - d_timer v) / 1000 / d_rec v) in *.
  set (k2 := (t2 - d_timer v) / 1000 / d_rec v) in *.
  unfold w. rewrite (wrap_small 32 k1) by lia. unfold heal.
  cbn [tick d_tries d_rec d_max d_time d_timer d_pending].
  rewrite (proj2 (Z.eqb_neq (d_tries v) 0)), !(proj2 (Z.eqb_neq (d_rec v) 0)) by done. cbv zeta.
  replace (t2 - (d_timer v + k1 * d_rec v * 1000)) with (t1 - d_timer v - k1 * d_rec v * 1000 + (t2 - t1)) by lia.
  rewrite Hsp. fold k2. rewrite (wrap_small 32 (k2 - k1)), (wrap_small 32 k2) by lia.
  destruct (Z.leb_spec (d_tries v) k1); cbn [Z.eqb].
  - destruct (Z.leb_spec (d_tries v) k2); [|lia]. cbn. split; [done|lia].
  - destruct (Z.eqb_spec (d_tries v - k1) 0); [lia|]. cbn.
    destruct (Z.leb_spec (d_tries v - k1) (k2 - k1)), (Z.leb_spec (d_tries v) k2); try lia.
Qed.

(** How often the time is updated does not matter: self healing at [t1] and
    again at [t2] leaves the failure count that self healing once at [t2] leaves,
    and, unless that is zero, the same self-heal timer. *)
Theorem da_self_heal_additive `{TimeLayout} s t1 t2 :
  time_wf s → 0 ≤ fget selfHealTimer (go s) ≤ t1 → t1 ≤ t2 → t2 < 2 ^ 63 →
  (t2 - fget selfHealTimer (go s)) / 1000 < 2 ^ 32 →
  ∃ s1 s2, (heal_at t1 ;; heal_at t2) s = Some (tt, s1) ∧ heal_at t2 s = Some (tt, s2) ∧
    fget failedTries (gp s1) = fget failedTries (gp s2) ∧
    (0 < fget failedTries (gp s2) → fget selfHealTimer (go s1) = fget selfHealTimer (go s2)).
Proof.
  intros Hw Ht1 Ht2 H63 H32.
  destruct (heal_at_view t1 s Hw) as (sa & Ea & Wa & Va); [lia..|].
  destruct (heal_at_view t2 s Hw) as (s2 & E2 & W2 & V2); [lia..|].
  assert (Hta : 0 ≤ d_timer (view sa) ≤ t2).
  { rewrite Va. pose proof (gp_range recoveryTime s Hw). cbn in *. unfold heal.
    cbn [tick d_tries d_rec d_max d_time d_timer d_pending view].
    destruct (_ =? 0); [cbn; lia|]. destruct (Z.eqb_spec (fget recoveryTime (gp s)) 0); [cbn; lia|].
    cbn. destruct (decrease_bounds (t1 - fget selfHealTimer (go s)) (fget recoveryTime (gp s))); lia. }
  destruct (heal_at_view t2 sa Wa) as (s1 & E1 & W1 & V1); [exact Hta|lia|].
  exists s1, s2. split; [by erewrite bind_Some by exact Ea|]. split; [done|].
  change (d_tries (view s1) = d_tries (view s2) ∧
    (0 < d_tries (view s2) → d_timer (view s1) = d_timer (view s2))).
  rewrite V1, V2, Va. apply heal_heal; [| |exact Ht1|done|exact H32].
  - apply (gp_range failedTries s Hw).
  - apply (gp_range recoveryTime s Hw).
Qed.

Lemma da_self_heal_additive_witness :
  fget failedTries (gp (end_state ((heal_at 9000 ;; heal_at 25000) da2) da2)) = 0 ∧
  ∃ s1 s2, (heal_at 9000 ;; heal_at 25000) da2 = Some (tt, s1) ∧ heal_at 25000 da2 = Some (tt, s2) ∧
    fget failedTries (gp s1) = fget failedTries (gp s2) ∧
    (0 < fget failedTries (gp s2) → fget selfHealTimer (go s1) = fget selfHealTimer (go s2)).
Proof.
  split; [by vm_compute|].
  apply (da_self_heal_additive da2 9000 25000); [apply da_state_wf|by vm_compute..].
Defined.

(** C21. The lockout lasts exactly as long as it takes to forgive enough failures.
    NV is available, [recoveryTime] > 0, [failedTries] >= [maxTries] > 0, and the
    self-heal timer is not after the time [t] < 2^63 and less than 2^32 seconds
    before it (DA.c cuts the number of periods to 32 bits).  Then the lockout check
    at the time [t], after the self healing of that time, succeeds if and only if
    [failedTries - maxTries + 1] recovery periods have passed on the self-heal
    timer; before that it returns [TPM_RC_LOCKOUT]. *)
Theorem da_lockout_duration `{TimeLayout} s t :
  time_wf s → avail s = true → 0 ≤ fget selfHealTimer (go s) ≤ t → t < 2 ^ 63 →
  (t - fget selfHealTimer (go s)) / 1000 < 2 ^ 32 →
  0 < fget recoveryTime (gp s) → 0 < fget maxTries (gp s) ≤ fget failedTries (gp s) →
  let wait := (fget failedTries (gp s) - fget maxTries (gp s) + 1) * (1000 * fget recoveryTime (gp s)) in
  ∃ s', (heal_at t ;; CheckLockedOut false) s =
    Some (if wait <=? t - fget selfHealTimer (go s) then TPM_RC_SUCCESS else TPM_RC_LOCKOUT, s').
Proof.
  intros Hw Ha Ht H63 H32 Hrec Hmax. cbv zeta.
  destruct (DASelfHeal_view (set_g_time t s)) as (s1 & E1 & W1 & V1 & K1 & _).
  { eauto with tpm. }
  { split; cbn; lia. }
  assert (A1 : avail s1 = true) by (unfold avail in *; by rewrite (keeps_status _ _ K1)).
  destruct (CheckLockedOut_view s1 W1) as (s2 & E2 & _).
  exists s2. unfold heal_at. rewrite (bind_Some _ _ s tt s1) by exact E1.
  rewrite E2. do 2 f_equal. unfold locked_out. rewrite A1. cbn [negb andb].
  change (fget maxTries (gp s1)) with (d_max (view s1)).
  change (fget failedTries (gp s1)) with (d_tries (view s1)). rewrite V1.
  unfold heal. cbn [view d_tries d_rec d_max d_time d_timer d_pending g_time set_g_time gp go].
  destruct (Z.eqb_spec (fget failedTries (gp s)) 0); [lia|].
  destruct (Z.eqb_spec (fget recoveryTime (gp s)) 0); [lia|].
  cbn [d_tries d_max]. set (d := t - fget selfHealTimer (go s)) in *.
  set (r := fget recoveryTime (gp s)) in *. set (k := d / 1000 / r).
  assert (Hk : 0 ≤ k < 2 ^ 32).
  { assert (0 ≤ d / 1000) by (apply Z.div_pos; lia). unfold k. split; [apply Z.div_pos; lia|].
    apply Z.div_lt_upper_bound; nia. }
  assert (Hkd : ∀ x, x * (1000 * r) ≤ d ↔ x ≤ k).
  { intros x. unfold k. rewrite Z.div_div by lia. pose proof (Z.mul_div_le d (1000 * r) ltac:(lia)).
    split; intros Hx; [apply Z.div_le_lower_bound; lia|nia]. }
  rewrite (wrap_small 32 k) by lia.
  specialize (Hkd (fget failedTries (gp s) - fget maxTries (gp s) + 1)).
  destruct (Z.leb_spec (fget failedTries (gp s)) k); repeat case_match; zbool; try done; lia.
Qed.

(** All three tries used. *)
Definition da3 : TimeState := da_state 3 SU_NONE_VALUE (clock_at 5000).

Lemma da_lockout_duration_witness :
  (∃ s', (heal_at 9999 ;; CheckLockedOut false) da3 = Some (TPM_RC_LOCKOUT, s')) ∧
  (∃ s', (heal_at 10000 ;; CheckLockedOut false) da3 = Some (TPM_RC_SUCCESS, s')).
Proof.
  split.
  - destruct (da_lockout_duration da3 9999) as (s' & E); [apply da_state_wf|by vm_compute..|].
    exists s'. rewrite E. do 2 f_equal.
  - destruct (da_lockout_duration da3 10000) as (s' & E); [apply da_state_wf|by vm_compute..|].
    exists s'. rewrite E. do 2 f_equal.
Defined.

(** ** Totality *)

(** C37. The operations of the time and dictionary attack component are total and
    keep its invariant (structures of the right size, a clock rate within its
    limits).  From every state with the invariant, and whatever the arguments, the
    load of the saved data in [_TPM_Init], [TPM2_Startup], [TPM2_Shutdown], the
    beginning of a command ([NvCheckState] and [TimeUpdateToCurrent]) and the clear of the
    orderly state at its end, [TPM2_ReadClock], [TPM2_ClockSet],
    [TPM2_ClockRateAdjust], the two dictionary attack commands,
    [DAPreInstall_Init], [CheckLockedOut], [IncrementLockout] and
    [CheckAuthSession] with a password or an HMAC session return a response code
    and a state with the invariant: no access out of bounds and no division by
    zero.  The startup functions of the other components are assumed to do the
    same, and the entity that is authorized is not an NV index, whose cached public
    area is another component's.  [NvUpdatePersistent] and [NvClearPersistent],
    which are undefined but for the offset 0, and the commit of NV, which stops at
    an assertion when the card fails, are not among these operations. *)
Theorem time_operations_typed `{TimeLayout} PCRStateSave op s :
  saves_gc PCRStateSave → time_op_ok op → tinv s →
  ∃ r s', run_op PCRStateSave op s = Some (r, s') ∧ tinv s'.
Proof.
  intros Hsave Hop Hs. destruct (typed_run_op PCRStateSave op Hsave Hop s Hs) as (r & s' & E & I & _).
  by exists r, s'.
Qed.

Lemma da_state_tinv tries orderly cl : rate_ok cl → tinv (da_state tries orderly cl).
Proof.
  intros Hr. split; [apply da_state_wf|done|by vm_compute|..];
    apply Forall_replicate; unfold is_byte; lia.
Qed.

Lemma keeps_gc : saves_gc (λ _ d, d).
Proof. by split. Qed.

(** The update of the time heals failures; then an authorization with a bound
    HMAC session. *)
Definition da_bound : SESSION_ATTRIBUTES :=
  mkAttr false false true false false false false false false false false true false true false false.

Lemma time_operations_typed_witness :
  (∃ r s', run_op (λ _ d, d) (OpBegin false da2_cycles) da2 = Some (r, s') ∧ tinv s') ∧
  (∃ r s', run_op (λ _ d, d) (OpHmac (λ _, false) false false true
     da_bound object1 false) da2 = Some (r, s') ∧ tinv s') ∧
  ∃ r s', run_op (λ _ d, d) (OpStartup 1000 0 (λ _, ret true) (λ _ _, ret true) (λ _, ret true) TPM_SU_CLEAR) da2
    = Some (r, s') ∧ tinv s'.
Proof.
  assert (Hda : tinv da2) by (by apply da_state_tinv; vm_compute).
  split_and!.
  - apply (time_operations_typed (λ _ d, d) (OpBegin false da2_cycles) da2); [apply keeps_gc|exact I|done].
  - apply (time_operations_typed (λ _ d, d) (OpHmac (λ _, false) false false true _ object1 false) da2);
      [apply keeps_gc|done|done].
  - apply (time_operations_typed (λ _ d, d) (OpStartup 1000 0 _ _ _ TPM_SU_CLEAR) da2); [apply keeps_gc| |done].
    split_and!; intros; refine (typed_ret _ _).
Defined.

(** ** Saved state *)

Section saved.
Context `{TimeLayout}.
Implicit Types (s : TimeState).

(** The areas of the NV image that [TPM2_Startup] reads. *)
Record saved (m : bytes) (c r : bytes) : Prop := {
  saved_clear : bread m NV_STATE_CLEAR_DATA sizeof_STATE_CLEAR_DATA = c;
  saved_reset : bread m NV_STATE_RESET_DATA sizeof_STATE_RESET_DATA = r;
  saved_orderly : le_val (bread m (foff orderlyState) (fsize orderlyState)) = TPM_SU_STATE;
}.

Lemma saved_image m c r o :
  blen m = NV_MEMORY_SIZE → blen c = sizeof_STATE_CLEAR_DATA → blen r = sizeof_STATE_RESET_DATA →
  blen o = fsize orderlyState → le_val o = TPM_SU_STATE →
  saved (bwrite (bwrite (bwrite m NV_STATE_CLEAR_DATA c) NV_STATE_RESET_DATA r) (foff orderlyState) o) c r.
Proof.
  intros Hm Hc Hr Ho Hv. pose proof persistent_fits. pose proof reserved_fits.
  pose proof (gp_in orderlyState).
  assert (L1 : blen (bwrite m NV_STATE_CLEAR_DATA c) = NV_MEMORY_SIZE) by (rewrite blen_bwrite; lia).
  assert (L2 : blen (bwrite (bwrite m NV_STATE_CLEAR_DATA c) NV_STATE_RESET_DATA r) = NV_MEMORY_SIZE)
    by (rewrite blen_bwrite; lia).
  split.
  - rewrite bread_bwrite_after, bread_bwrite_after by lia. apply bread_bwrite_same; lia.
  - rewrite bread_bwrite_after by lia. apply bread_bwrite_same; lia.
  - rewrite bread_bwrite_same by lia. done.
Qed.

Lemma Shutdown_state save s :
  tinv s → saves_gc save → avail s = true → g_pcrReConfig s = false →
  g_DrtmPreStartup s = false → g_StartupLocality3 s = false →
  ∃ s', TPM2_Shutdown save TPM_SU_STATE s = Some (TPM_RC_SUCCESS, s') ∧ tinv s' ∧
    saved (nvmem (nv s')) (save TPM_SU_STATE (gc s)) (gr s).
Proof.
  intros Hs Hsave Ha Hpcr Hdrtm Hloc. unfold TPM2_Shutdown, avail in *. texec. rewrite Ha. texec.
  rewrite Hpcr. texec.
  pose proof persistent_fits. pose proof reserved_fits. pose proof (gp_in orderlyState).
  set (s1 := set_gp _ s). assert (I1 : tinv s1) by (eapply prim_tinv; [done|constructor]).
  destruct (Hsave TPM_SU_STATE (gc s) (ti_gc s Hs) (ti_gc_byte s Hs)) as [Hl Hb].
  set (s2 := set_gc _ s1). assert (I2 : tinv s2) by (by apply tinv_gc).
  destruct (typed_NvUpdateIndexOrderlyData s2 I2) as ([] & s3 & E3 & I3 & _). rewrite E3.
  assert (F3 : s3 = set_nv (nv s3) s2).
  { unfold on_nv in E3. destruct (NvUpdateIndexOrderlyData (nv s2)) as [[? n]|]; [|done].
    by injection E3 as _ <-. }
  set (s4 := set_go _ s3). assert (I4 : tinv s4) by (eapply prim_tinv; [done|constructor]).
  rewrite write_orderly_ok by apply I4. replace (TPM_SU_STATE =? TPM_SU_STATE) with true by done.
  set (s5 := sync_go s4). assert (I5 : tinv s5) by (eapply prim_tinv; [done|constructor]).
  assert (G5 : gc s5 = save TPM_SU_STATE (gc s)) by (unfold s5, s4; cbn; by rewrite F3).
  assert (R5 : gr s5 = gr s) by (unfold s5, s4; cbn; by rewrite F3).
  assert (D5 : g_DrtmPreStartup s5 = false ∧ g_StartupLocality3 s5 = false ∧ fget orderlyState (gp s5) = TPM_SU_STATE).
  { unfold s5, s4. cbn. rewrite F3. split_and!; [done..|]. cbn. apply gp_get_set; [apply Hs|by vm_compute]. }
  destruct D5 as (D5 & L5 & O5).
  destruct (put_ok NV_STATE_CLEAR_DATA sizeof_STATE_CLEAR_DATA (gc s5) s5) as [E6 I6];
    [done|lia|by rewrite G5|lia|apply I5|].
  rewrite E6. set (s6 := put _ _ s5) in *.
  destruct (put_ok NV_STATE_RESET_DATA sizeof_STATE_RESET_DATA (gr s6) s6) as [E7 I7];
    [done|lia| |lia|apply I6|].
  { rewrite <- gr_size. symmetry. apply (wf_gr s6 (ti_wf s6 I6)). }
  rewrite E7. set (s7 := put _ _ s6) in *. cbn [negb].
  change (g_DrtmPreStartup s7) with (g_DrtmPreStartup s5).
  change (g_StartupLocality3 s7) with (g_StartupLocality3 s5). rewrite D5, L5.
  rewrite NV_SYNC_ok by apply I7. exists (sync orderlyState s7). split; [done|].
  split; [eapply prim_tinv; [done|constructor]|].
  assert (M : nvmem (nv (sync orderlyState s7)) =
    bwrite (bwrite (bwrite (nvmem (nv s5)) NV_STATE_CLEAR_DATA (save TPM_SU_STATE (gc s)))
      NV_STATE_RESET_DATA (gr s)) (foff orderlyState) (fbytes orderlyState (gp s5))) by (by rewrite <- G5, <- R5).
  rewrite M. apply saved_image; [apply I5|done|by rewrite <- gr_size; apply (wf_gr s (ti_wf s Hs))| |done].
  apply blen_fbytes, (wf_gp s5 (ti_wf s5 I5)).
Qed.
(** A startup function of another component that succeeds, with its effect on
    [gr] and [gc]. *)
Definition acts (m : M TimeState bool) (f : bytes → bytes → bytes * bytes) : Prop :=
  ∀ s, tinv s → ∃ s', m s = Some (true, s') ∧ tinv s' ∧ (gr s', gc s') = f (gr s) (gc s).

(** The effects in the order of the calls, with the count of resumes. *)
Definition resume_effect (fcrypt fmiddle flate : bytes → bytes → bytes * bytes) (r c : bytes) : bytes * bytes :=
  let '(r, c) := fcrypt r c in
  let '(r, c) := fmiddle r c in
  flate (fset restartCount (u32 (fget restartCount r + 1)) r) c.

(** [TPM2_Startup(TPM_SU_STATE)] on the saved state, after [_TPM_Init]. *)
Lemma Startup_resume crypt middle late fcrypt fmiddle flate cycles s c r :
  acts (crypt SU_RESUME) fcrypt → acts (middle SU_RESUME 0) fmiddle → acts (late SU_RESUME) flate →
  tinv s → avail s = true → g_nvOk s = true → g_DrtmPreStartup s = false →
  fget orderlyState (gp s) = TPM_SU_STATE → saved (nvmem (nv s)) c r →
  ∃ s', TPM2_Startup cycles 0 crypt middle late TPM_SU_STATE s = Some (TPM_RC_SUCCESS, s') ∧
    tinv s' ∧ (gr s', gc s') = resume_effect fcrypt fmiddle flate r c.
Proof.
  intros Hfc Hfm Hfl Hs Ha Hok Hdrtm Hord [Hc Hr _]. unfold TPM2_Startup, avail in *. texec. rewrite Ha. cbn [negb].
  texec. replace (negb (0 =? 0) && negb (0 =? 3)) with false by done. texec. rewrite Hdrtm. cbn [negb].
  rewrite Hord. cbn [IS_ORDERLY]. replace (IS_ORDERLY TPM_SU_STATE) with true by done.
  replace (Z.ldiff TPM_SU_STATE (Z.lor PRE_STARTUP_FLAG STARTUP_LOCALITY_3)) with TPM_SU_STATE by done.
  replace (Z.land TPM_SU_STATE PRE_STARTUP_FLAG =? 0) with true by done.
  replace (Z.land TPM_SU_STATE STARTUP_LOCALITY_3 =? 0) with true by done.
  replace (TPM_SU_STATE =? TPM_SU_STATE) with true by done. unfold on_nv. texec.
  rewrite Hok. cbn [negb andb eqb]. replace (0 =? 0) with true by done.
  replace (0 =? 3) with false by done. cbn [negb eqb]. texec.
  set (s1 := set_gp _ _).
  assert (I1 : tinv s1).
  { apply (prim_tinv (set_nv (set_prevOrderlyState TPM_SU_STATE (nv s)) (set_g_StartupLocality3 false s)));
      [|exact (prim_gp orderlyState TPM_SU_STATE _)]. destruct Hs as [[] ? ? ? ?]. by split. }
  assert (O1 : fget orderlyState (gp s1) = TPM_SU_STATE).
  { unfold s1. cbn. apply gp_get_set; [apply Hs|by vm_compute]. }
  unfold startup_read. texec. fold s1. rewrite O1.
  change (g_nvOk s1) with (g_nvOk s). rewrite Hok.
  replace (TPM_SU_STATE =? TPM_SU_STATE) with true by done. texec.
  pose proof persistent_fits. pose proof reserved_fits.
  rewrite NvRead_time by (apply I1 || lia). texec.
  change (nvmem (nv s1)) with (nvmem (nv s)). rewrite Hr.
  assert (Hl : blen (nvmem (nv s)) = NV_MEMORY_SIZE) by apply Hs.
  assert (I2 : tinv (set_gr r s1)).
  { apply tinv_gr; [done|rewrite <- Hr; apply blen_bread; lia|rewrite <- Hr; apply bread_byte, Hs]. }
  rewrite NvRead_time by (apply I2 || lia). texec.
  change (nvmem (nv s1)) with (nvmem (nv s)). rewrite Hc.
  set (s2 := set_gc c (set_gr r s1)).
  assert (I3 : tinv s2).
  { apply tinv_gc; [done|rewrite <- Hc; apply blen_bread; lia|rewrite <- Hc; apply bread_byte, Hs]. }
  unfold startup_subsystems. texec.
  destruct (Hfc s2 I3) as (s2' & Ec & Ic & Fc). rewrite Ec.
  set (s3 := set_g_initialized true s2'). assert (I4 : tinv s3) by (eapply prim_tinv; [done|constructor]).
  destruct (typed_TimeStartup same_saved SU_RESUME s3 I4) as (b1 & s4 & E4 & I5 & [R4 C4 _]).
  rewrite E4.
  destruct (typed_DAStartup same_saved cycles SU_RESUME s4 I5) as (b2 & s5 & E5 & I6 & [R5 C5 _]).
  assert (b2 = true) as ->.
  { clear -E5. revert E5. unfold DAStartup. intros E5.
    repeat (apply bind_inv in E5 as (? & ? & ? & E5)). by injection E5. }
  rewrite E5. destruct (Hfm s5 I6) as (s5' & Em & Im & Fm). rewrite Em. cbn [andb startup_counters]. texec.
  set (s6 := set_gr _ s5'). assert (I7 : tinv s6) by (by apply tinv_gr_set).
  destruct (Hfl s6 I7) as (s6' & El & Il & Fl). rewrite El.
  set (s7 := set_gp _ s6'). assert (I8 : tinv s7) by (eapply prim_tinv; [exact Il|exact (prim_gp orderlyState SU_NONE_VALUE s6')]).
  rewrite NV_SYNC_ok by apply I8. eexists. split; [done|]. split.
  - eapply prim_tinv; [|constructor]. eapply prim_tinv; [exact I8|constructor].
  - change ((gr s6', gc s6') = resume_effect fcrypt fmiddle flate r c). rewrite Fl. unfold resume_effect.
    change (gr s2) with r in Fc. change (gc s2) with c in Fc. rewrite <- Fc.
    change (gr s3) with (gr s2') in R4. change (gc s3) with (gc s2') in C4.
    rewrite R5, R4, C5, C4 in Fm. rewrite <- Fm. done.
Qed.
Lemma init_load_facts cycles s s' :
  tinv s → tpm_init_load cycles s = Some (tt, s') →
  nv s' = nv s ∧ g_nvOk s' = g_nvOk s ∧ g_DrtmPreStartup s' = g_DrtmPreStartup s ∧
  ∀ f, fget f (gp s') = nvget f s.
Proof.
  intros Hs. pose proof persistent_fits. pose proof (ti_wf s Hs) as W.
  unfold tpm_init_load, NvReadPersistent, TimePowerOn. texec. unfold on_nv.
  rewrite NvRead_ok by (apply W || unfold NV_PERSISTENT_DATA; lia). texec.
  rewrite NvRead_ok by (apply W || lia). texec.
  destruct (plat__TimerRead cycles (clk s)) as [[t c]|]; [|done]. intros E. injection E as <-.
  split_and!; try done. intros f. tcbn. unfold nvget, nvbytes, fget, fbytes.
  pose proof (gp_in f). rewrite bread_bread by (unfold NV_PERSISTENT_DATA; lia). done.
Qed.
End saved.


(** Loss of power: RAM is cleared, the timer is reset. *)
Definition power_cycle (s : TimeState) : TimeState :=
  mkTime (set_NvStatus TPM_RC_SUCCESS (nv s)) (mkClock 0 0 0 0 true true CLOCK_NOMINAL)
    (bfill 0 1400) (bfill 0 128) (bfill 0 400) (bfill 0 1600) 0 false true true false false false false.

Lemma power_cycle_tinv s : tinv s → tinv (power_cycle s).
Proof.
  intros [[] ? ? ? ?].
  assert (Hz : ∀ n, Forall is_byte (bfill 0 n)) by (intros; apply Forall_replicate; unfold is_byte; lia).
  split; [constructor|..]; try done; try apply Hz; by vm_compute.
Qed.

(** The loop of [SessionStartup] on [gr.contextArray], two octets an entry, at [o]. *)
Fixpoint free_loaded (n : nat) (o : Z) (g : bytes) : bytes :=
  match n with
  | O => g
  | S n => let i := o + 2 * Z.of_nat n in
           free_loaded n o (if le_val (bread g i 2) <=? MAX_LOADED_SESSIONS then bwrite g i [0; 0] else g)
  end.

Lemma free_loaded_ok n o g :
  0 ≤ o → o + 2 * Z.of_nat n ≤ blen g → Forall is_byte g →
  blen (free_loaded n o g) = blen g ∧ Forall is_byte (free_loaded n o g).
Proof.
  intros Ho. revert g. induction n as [|n IH]; intros g Hn Hb; [done|]. cbn [free_loaded].
  set (g' := if _ <=? _ then _ else _).
  assert (blen g' = blen g ∧ Forall is_byte g') as [<- Hb'].
  { unfold g'. destruct (_ <=? _); [|done]. split; [apply blen_bwrite; change (blen [0; 0]) with 2; lia|].
    apply bwrite_byte; [done|]. repeat constructor; unfold is_byte; lia. }
  apply IH; [|done]. enough (blen g' = blen g) by lia. unfold g'. destruct (_ <=? _); [|done].
  apply blen_bwrite; change (blen [0; 0]) with 2; lia.
Qed.

(** [gr.contextArray] at 200; slot 5 is a loaded session, slot 6 a saved one. *)
Definition session_startup : M TimeState bool :=
  modify (λ s, set_gr (free_loaded 64 200 (gr s)) s) ;; ret true.
Definition da2_sessions : TimeState := set_gr (bwrite (gr da2) 210 [2; 0; 9; 0]) da2.


(** ** The clock that survives a loss of power *)

Section nvclock.
Context `{TimeLayout}.
Implicit Types (s : TimeState).

(** [go.clock] as [_TPM_Init] would load it. *)
Definition nvclock s : Z :=
  fget go_clock (bread (nvmem (nv s)) NV_ORDERLY_DATA sizeof_ORDERLY_DATA).
Definition clock_saved s : Prop :=
  fget go_clock (go s) ≤ Z.lor (nvclock s) CLOCK_UPDATE_MASK.

Lemma nvclock_sync_go s : time_wf s → nvclock (sync_go s) = fget go_clock (go s).
Proof.
  intros Hw. pose proof persistent_fits. pose proof (go_blen s Hw). pose proof (wf_nv s Hw) as Hl.
  unfold nv_ok in Hl. unfold nvclock, sync_go. cbn. fold (nvmem (nv s)).
  rewrite bread_bwrite_same by lia. done.
Qed.

Lemma lor_mask x :
  0 ≤ x → Z.lor x CLOCK_UPDATE_MASK = x / 2 ^ 22 * 2 ^ 22 + CLOCK_UPDATE_MASK.
Proof.
  intros Hx. pose proof (Z.add_lor_land x CLOCK_UPDATE_MASK) as E.
  change CLOCK_UPDATE_MASK with (Z.ones 22) in *. rewrite Z.land_ones in E by lia.
  pose proof (Z.div_mod x (2 ^ 22) ltac:(lia)). lia.
Qed.

Lemma nvclock_range s : time_wf s → 0 ≤ nvclock s.
Proof. intros Hw. apply (fget_range go_clock). apply bread_byte, Hw. Qed.

Lemma TimeClockUpdate_saved t s :
  time_wf s → avail s = true → clock_saved s → 0 ≤ t < 2 ^ 64 →
  ∃ s', TimeClockUpdate t s = Some (tt, s') ∧ time_wf s' ∧ avail s' = true ∧ clock_saved s' ∧
    fget go_clock (go s') = t.
Proof.
  intros Hw Ha Hc Ht. unfold TimeClockUpdate, avail in *. texec. case_match eqn:E; texec.
  - rewrite Ha. cbn [pAssert]. texec.
    set (s1 := set_go (fset go_clockSafe 1 (go s)) s).
    assert (W1 : time_wf s1) by (by apply wf_set_go).
    set (s2 := set_go _ _). assert (W2 : time_wf s2) by (by apply (wf_set_go go_clock t s1)).
    assert (Hg : fget go_clock (go s2) = t) by (apply go_get_set; [apply W1|done]).
    rewrite write_orderly_ok by done. exists (sync_go s2). split_and!; [done|by apply wf_sync_go|exact Ha| |exact Hg].
    unfold clock_saved. rewrite nvclock_sync_go by done. change (go (sync_go s2)) with (go s2).
    rewrite Hg, lor_mask by lia. change CLOCK_UPDATE_MASK with (2 ^ 22 - 1).
    pose proof (Z.mod_pos_bound t (2 ^ 22) ltac:(lia)). pose proof (Z.div_mod t (2 ^ 22) ltac:(lia)).
    lia.
  - assert (Hg : fget go_clock (fset go_clock t (go s)) = t) by (apply go_get_set; [apply Hw|done]).
    eexists. split; [done|]. split_and!; [by apply wf_set_go|exact Ha| |exact Hg].
    unfold clock_saved in *. tcbn. change (nvclock (set_go _ s)) with (nvclock s). rewrite Hg. zbool.
    pose proof (nvclock_range s Hw). pose proof (go_range go_clock s Hw) as Hr. cbn in Hr.
    rewrite !lor_mask in * by lia. change CLOCK_UPDATE_MASK with (2 ^ 22 - 1) in *.
    pose proof (Z.mod_pos_bound t (2 ^ 22) ltac:(lia)). pose proof (Z.div_mod t (2 ^ 22) ltac:(lia)).
    pose proof (Z.div_mod (fget go_clock (go s)) (2 ^ 22) ltac:(lia)).
    pose proof (Z.mod_pos_bound (fget go_clock (go s)) (2 ^ 22) ltac:(lia)). lia.
Qed.

(** A sequence of updates. *)
Fixpoint clock_updates (ts : list Z) : M TimeState unit :=
  match ts with [] => ret tt | t :: ts => TimeClockUpdate t ;; clock_updates ts end.

Lemma clock_updates_saved ts s :
  time_wf s → avail s = true → clock_saved s → Forall (λ t, 0 ≤ t < 2 ^ 64) ts →
  ∃ s', clock_updates ts s = Some (tt, s') ∧ time_wf s' ∧ clock_saved s' ∧
    fget go_clock (go s') = List.last ts (fget go_clock (go s)).
Proof.
  intros Hw Ha Hc Hts. revert s Hw Ha Hc.
  induction Hts as [|t ts Ht Hts IH]; intros s Hw Ha Hc; cbn [clock_updates].
  { by exists s. }
  destruct (TimeClockUpdate_saved t s Hw Ha Hc Ht) as (s1 & E1 & W1 & A1 & C1 & T1).
  destruct (IH s1 W1 A1 C1) as (s' & E & W & C & L). exists s'.
  rewrite (bind_Some _ _ _ _ _ E1). split_and!; [done..|]. by rewrite L, T1, last_cons_default.
Qed.
End nvclock.

(** The clock survives a loss of power up to the update interval.  After any
    sequence of updates of the clock ([TimeUpdate], [TPM2_ClockSet]) from a state
    in which this holds, the value that [_TPM_Init] would load from NV is less
    than 2^22 milliseconds behind the clock, although NV is written only when the
    clock leaves an interval of that length. *)
Theorem nv_clock_behind `{TimeLayout} ts s :
  time_wf s → avail s = true → clock_saved s → Forall (λ t, 0 ≤ t < 2 ^ 64) ts →
  ∃ s', clock_updates ts s = Some (tt, s') ∧
    fget go_clock (go s') = List.last ts (fget go_clock (go s)) ∧
    fget go_clock (go s') - nvclock s' < 2 ^ 22.
Proof.
  intros Hw Ha Hc Hts. destruct (clock_updates_saved ts s Hw Ha Hc Hts) as (s' & E & W & C & L).
  exists s'. split_and!; [done..|]. unfold clock_saved in C. pose proof (nvclock_range s' W).
  rewrite lor_mask in C by done. change CLOCK_UPDATE_MASK with (2 ^ 22 - 1) in C.
  pose proof (Z.div_mod (nvclock s') (2 ^ 22) ltac:(lia)).
  pose proof (Z.mod_pos_bound (nvclock s') (2 ^ 22) ltac:(lia)). lia.
Qed.

Lemma nv_clock_behind_witness :
  nvclock (end_state (clock_updates [5000000; 8000000; 9000000] da2) da2) = 9000000 ∧
  ∃ s', clock_updates [5000000; 8000000; 9000000] da2 = Some (tt, s') ∧
    fget go_clock (go s') = 9000000 ∧ fget go_clock (go s') - nvclock s' < 2 ^ 22.
Proof.
  split; [by vm_compute|].
  apply (nv_clock_behind [5000000; 8000000; 9000000] da2);
    [apply da_state_wf|by vm_compute..|by repeat constructor].
Defined.

(** ** The platform clock *)

(** TPM time never goes backwards: whatever the system clock returns, each of
    the readings of a sequence succeeds and TPM time does not decrease (as long as
    it is below 2^62 milliseconds). *)
Theorem timer_monotone nows c :
  clock_range c → Forall (λ now, 0 ≤ now < 2 ^ 64) nows →
  s_tpmTime c + 2 ^ 50 * Z.of_nat (List.length nows) < 2 ^ 62 →
  ∃ c', timer_reads nows c = Some c' ∧ s_tpmTime c ≤ s_tpmTime c'.
Proof.
  intros Hc Hall. revert c Hc. induction Hall as [|now nows Hn Hall IH]; intros c Hc Hlt; cbn [timer_reads].
  { by exists c. }
  cbn [List.length] in Hlt.
  destruct (timer_read_forward now c Hc) as (t & c1 & E & Ht & Et & Hc1 & _); [lia|done|].
  rewrite E. destruct (IH c1 Hc1) as (c' & E' & Hle); [lia|]. exists c'. split; [done|]. lia.
Qed.

Lemma timer_monotone_witness :
  ∃ c', timer_reads [7000; 3000; 9000] (clock_at 5000) = Some c' ∧ 5000 ≤ s_tpmTime c'.
Proof.
  apply (timer_monotone [7000; 3000; 9000] (clock_at 5000));
    [by vm_compute|repeat constructor; vm_compute; congruence|by vm_compute].
Defined.

(** At the nominal rate the timer is exact: after a reset, when the system
    clock is read at [first] and then at times that do not decrease, TPM time is
    the system time since [first] - no rounding error accumulates, however many
    readings there are. *)
Theorem timer_exact c c1 first nows :
  plat__TimerReset c = Some (tt, c1) → 0 < first < 2 ^ 48 → ascending first nows →
  Forall (λ now, now < 2 ^ 48) nows →
  ∃ c', timer_reads (first :: nows) c1 = Some c' ∧ s_tpmTime c' = List.last nows first - first.
Proof.
  intros Hr Hf Ha Hall. destruct (timer_read_first first c c1 Hr Hf)
    as (c2 & E & S & T & L & R & P & _).
  assert (He : exact first c2).
  { split; [done|]. destruct S as (_ & _ & S & _). lia. }
  cbn [timer_reads]. rewrite E. rewrite <- L in Ha.
  destruct (timer_reads_exact first nows c2 He Ha Hall) as (c' & E' & _ & T'). exists c'. by rewrite T', L.
Qed.

Lemma timer_exact_witness :
  ∃ c', timer_reads [1000; 1001; 1002; 5000] (mkClock 7 0 9 0 true true CLOCK_NOMINAL) = Some c'
    ∧ s_tpmTime c' = 4000.
Proof.
  apply (timer_exact (mkClock 7 8 9 10 false false 0) _ 1000 [1001; 1002; 5000]);
    [done|lia|cbn; lia|repeat constructor].
Defined.

(** ** What the code does not do *)

(** Cycle counts at which the system clock reads [t]. *)
Definition cycles_at (t : Z) : Z := t / 1000 * 2 ^ 32 + t mod 1000 * 1000000.

(** One round: [TPM2_Shutdown(CLEAR)] 10 ms after the startup, a wrong password
    at 200 ms, a loss of power, [_TPM_Init] and [TPM2_Startup(CLEAR)]. *)
Definition guess_round (st : Z * TimeState) : Z * TimeState :=
  match (command_begin false (cycles_at 5010) ;;
         TPM2_Shutdown (λ _ d, d) TPM_SU_CLEAR ;; @command_end _ _ nv_cipher false ;;
         command_begin false (cycles_at 5200) ;;
         let! r := CheckAuthSession_pw (λ _, false) false false true object1 false in
         @command_end _ _ nv_cipher false ;;
         modify power_cycle ;;
         tpm_init_load (cycles_at 5000) ;;
         TPM2_Startup (cycles_at 5005) 0 (λ _, ret true) (λ _ _, ret true) (λ _, ret true) TPM_SU_CLEAR ;;
         ret r) (snd st) with
  | Some (r, s') => (fst st + (if r =? TPM_RC_AUTH_FAIL then 1 else 0), s')
  | None => st
  end.

(** In lockout (3 of 3 tries), shut down and started 9.9 s after the last
    failure; a failure is forgiven in 10 s. *)
Definition locked : TimeState :=
  end_state ((command_begin false (cycles_at 10900) ;;
              TPM2_Shutdown (λ _ d, d) TPM_SU_CLEAR ;;
              modify power_cycle ;;
              tpm_init_load (cycles_at 5000) ;;
              TPM2_Startup (cycles_at 5005) 0 (λ _, ret true) (λ _ _, ret true) (λ _, ret true) TPM_SU_CLEAR)
    (da_state 3 SU_NONE_VALUE (clock_at 9900))) da3.

(** With [USE_DA_USED] = NO the bound of [da_bruteforce_bound] does not extend to
    histories with shutdowns: a failure after [TPM2_Shutdown] is counted, but the
    shutdown stays orderly and the self-heal timer saved by it is restored.  Five
    rounds of 200 ms give five counted failures, where 5 * 10 s would be due. *)
Theorem da_shutdown_restores_credit :
  (fget failedTries (gp locked), fget maxTries (gp locked)) = (3, 3) ∧
  fst (Nat.iter 5 guess_round (0, locked)) = 5.
Proof. by vm_compute. Qed.

(** The system clock goes backwards each time the low half of the cycle counter
    wraps: its halves are used as seconds and nanoseconds, but it counts to 2^32
    and not to 10^9. *)
Theorem system_clock_goes_back :
  plat__RealTime 4200000000 = 4200 ∧ plat__RealTime 4500000000 = 1205.
Proof. by vm_compute. Qed.

(** The difference is taken modulo 2^64: when the first reading was at 4000 ms,
    the next one after such a step moves TPM time by more than 10^14 ms, and the
    lockout of a TPM in lockout is over. *)
Theorem clock_wrap_ends_lockout :
  let s := set_clk (mkClock 0 4000 0 0 false false CLOCK_NOMINAL) (da_state 3 SU_NONE_VALUE (clock_at 0)) in
  value_is TPM_RC_LOCKOUT (CheckLockedOut false s) = true ∧
  value_is TPM_RC_SUCCESS ((TimeUpdateToCurrent 4500000000 ;; CheckLockedOut false) s) = true ∧
  (10 ^ 14 <? g_time (end_state (TimeUpdateToCurrent 4500000000 s) s)) = true.
Proof. by vm_compute. Qed.

(** [&gp + offset] in [NvUpdatePersistent] and [NvClearPersistent] counts in units
    of [sizeof(gp)]: for every offset but 0 the write is outside [gp]. *)
Theorem NvClearPersistent_out_of_bounds `{TimeLayout} offset size s :
  time_wf s → 0 < offset → 0 < size → NvClearPersistent offset size s = None.
Proof.
  intros Hw Ho Hn. unfold NvClearPersistent, pAssert.
  pose proof (wf_gp s Hw) as Hg. unfold swf in Hg. rewrite gp_size in Hg.
  assert (0 < sizeof_PERSISTENT_DATA) by apply layout_persistent.
  assert (∀ s', gp s' = gp s → inb (gp s') (offset * sizeof_PERSISTENT_DATA) size = false) as Hin.
  { intros s' ->. apply not_true_is_false. rewrite inb_true, Hg. nia. }
  destruct (_ <=? _); munfold; rewrite Hin; done.
Qed.
