(* ===== verification/SessionSpec.v ===== *)
(** * What session tracking promises, and that Session.c implements it

    The specification forgets the 16-bit tracking array: a session handle is
    free, loaded (with the session's contents) or saved under its full context
    identifier, and identifiers are taken from a counter that never repeats.
    [Rep] relates the concrete state to it; each operation of Session.c
    refines the operation of the specification with the same name. *)

From S2P Require Import Prelude TpmTypes Memory Kdf Session.
Local Open Scope Z_scope.

(** ** Counting elements *)

Fixpoint count {A} (p : A → bool) (l : list A) : nat :=
  match l with [] => 0 | x :: l => (if p x then 1 else 0) + count p l end%nat.

Lemma count_insert {A} (p : A → bool) l i x y :
  l !! i = Some x →
  (count p (<[i := y]> l) + (if p x then 1 else 0) = count p l + (if p y then 1 else 0))%nat.
Proof.
  revert i. induction l as [|z l IH]; intros [|i] Hi; simplify_eq/=; [lia|].
  specialize (IH _ Hi). lia.
Qed.

Lemma count_pos {A} (p : A → bool) l i x :
  l !! i = Some x → p x = true → (0 < count p l)%nat.
Proof.
  revert i. induction l as [|z l IH]; intros [|i] Hi Hp; simplify_eq/=; [rewrite Hp; lia|].
  specialize (IH _ Hi Hp). lia.
Qed.

Lemma count_all {A} (p : A → bool) l :
  (∀ i x, l !! i = Some x → p x = true) → count p l = length l.
Proof.
  induction l as [|z l IH]; intros Hp; [done|]. simpl.
  rewrite (Hp 0%nat z eq_refl), IH; [done|]. intros i x Hx. by apply (Hp (S i)).
Qed.

Lemma count_none {A} (p : A → bool) l :
  (∀ i x, l !! i = Some x → p x = false) → count p l = 0%nat.
Proof.
  induction l as [|z l IH]; intros Hp; [done|]. simpl.
  rewrite (Hp 0%nat z eq_refl), IH; [done|]. intros i x Hx. by apply (Hp (S i)).
Qed.

(** ** The specification *)

Inductive aentry :=
| AFree
| ALoaded (ses : SESSION)
| ASaved (id : Z).

Definition is_free (x : aentry) : bool := match x with AFree => true | _ => false end.
Definition is_loaded (x : aentry) : bool := match x with ALoaded _ => true | _ => false end.
Definition is_saved_as (id : Z) (x : aentry) : bool :=
  match x with ASaved id' => id' =? id | _ => false end.

Record ASess := mkA { a_tab : list aentry; a_next : Z }.

(** Identifiers whose low 16 bits would read as a slot number are skipped. *)
Definition next_id (c : Z) : Z :=
  if (c + 1) mod 65536 =? 0 then c + 1 + (MAX_LOADED_SESSIONS + 1) else c + 1.

(** The gap is at its maximum: the oldest saved context was saved 2^16
    identifiers ago. *)
Definition gap_full (a : ASess) : bool := existsb (is_saved_as (a_next a - 65536)) (a_tab a).

Definition loaded_count (a : ASess) : Z := Z.of_nat (count is_loaded (a_tab a)).

(** The first free handle. *)
Fixpoint first_free (l : list aentry) : option nat :=
  match l with
  | [] => None
  | x :: l => if is_free x then Some 0%nat else S <$> first_free l
  end.

Definition set_tab (a : ASess) (h : nat) (x : aentry) : ASess :=
  mkA (<[h := x]> (a_tab a)) (a_next a).

Definition ACreate (ses : SESSION) (a : ASess) : Z * option nat * ASess :=
  if loaded_count a =? MAX_LOADED_SESSIONS then (TPM_RC_SESSION_MEMORY, None, a)
  else if (loaded_count a =? MAX_LOADED_SESSIONS - 1) && gap_full a
  then (TPM_RC_CONTEXT_GAP, None, a)
  else match first_free (a_tab a) with
       | None => (TPM_RC_SESSION_HANDLES, None, a)
       | Some h => (TPM_RC_SUCCESS, Some h, set_tab a h (ALoaded ses))
       end.

Definition ASave (h : nat) (a : ASess) : Z * option Z * ASess :=
  if gap_full a then (TPM_RC_CONTEXT_GAP, None, a)
  else (TPM_RC_SUCCESS, Some (a_next a),
        mkA (<[h := ASaved (a_next a)]> (a_tab a)) (next_id (a_next a))).

Definition ALoad (ses : SESSION) (h : nat) (a : ASess) : Z * ASess :=
  if loaded_count a =? MAX_LOADED_SESSIONS then (TPM_RC_SESSION_MEMORY, a)
  else if (loaded_count a =? MAX_LOADED_SESSIONS - 1) && gap_full a
          && negb (default false (is_saved_as (a_next a - 65536) <$> a_tab a !! h))
  then (TPM_RC_CONTEXT_GAP, a)
  else (TPM_RC_SUCCESS, set_tab a h (ALoaded ses)).

Definition AFlush (h : nat) (a : ASess) : ASess := set_tab a h AFree.

Definition AStartup (type : STARTUP_TYPE) (a : ASess) : ASess :=
  match type with
  | SU_RESET => mkA (map (λ _, AFree) (a_tab a)) (MAX_LOADED_SESSIONS + 1)
  | _ => mkA (map (λ x, if is_loaded x then AFree else x) (a_tab a)) (a_next a)
  end.

(** The saved context with the smallest identifier. *)
Definition oldest_spec (tab : list aentry) (o : Z) : Prop :=
  (o = MAX_ACTIVE_SESSIONS + 1 ∧ ∀ i id, tab !! i ≠ Some (ASaved id))
  ∨ (∃ id, 0 ≤ o < MAX_ACTIVE_SESSIONS ∧ tab !! Z.to_nat o = Some (ASaved id)
       ∧ ∀ j id', tab !! j = Some (ASaved id') → id ≤ id').

(** ** The representation relation *)

(** The entry [e] of [contextArray] stands for [x], with counter [c]. *)
Definition entry_rep (slots : list SESSION_SLOT) (c e : Z) (x : aentry) : Prop :=
  match x with
  | AFree => e = 0
  | ALoaded ses => ∃ k : nat, (k < 3)%nat ∧ e = Z.of_nat k + 1 ∧ slots !! k = Some (mkSlot true ses)
  | ASaved id => e = id mod 65536 ∧ MAX_LOADED_SESSIONS < e ∧ c - 65536 ≤ id < c ∧ 0 ≤ id
  end.

Record RepC (arr : list Z) (c : Z) (slots : list SESSION_SLOT) (o f : Z) (a : ASess) : Prop := {
  r_arr : length arr = 64%nat;
  r_slots : length slots = 3%nat;
  r_tab : length (a_tab a) = 64%nat;
  r_next : a_next a = c;
  r_range : 0 ≤ c < 2 ^ 64;
  r_low : MAX_LOADED_SESSIONS < c mod 65536;
  r_entry i x : a_tab a !! i = Some x → ∃ e, arr !! i = Some e ∧ entry_rep slots c e x;
  r_inj i j k : arr !! i = Some k → arr !! j = Some k → 1 ≤ k ≤ MAX_LOADED_SESSIONS → i = j;
  r_free : f = Z.of_nat (count (λ sl, negb (occupied sl)) slots);
  r_loaded : f = MAX_LOADED_SESSIONS - loaded_count a;
  r_ids i j id : a_tab a !! i = Some (ASaved id) → a_tab a !! j = Some (ASaved id) → i = j;
  r_old : oldest_spec (a_tab a) o
}.

Section rep.
Context {CE : CryptEnv} {HL : HashLib} {H : SessionEnv}.

Definition Rep (s : SessState) (a : ASess) : Prop :=
  RepC (contextArray s) (contextCounter s) (s_sessions s) (s_oldestSavedSession s)
    (s_freeSessionSlots s) a.

(** What no operation on sessions changes; a failed assertion would show in
    [s_inFailureMode]. *)
Definition frame (s s' : SessState) : Prop :=
  pcrCounter s' = pcrCounter s ∧ g_time s' = g_time s ∧ g_timeEpoch s' = g_timeEpoch s ∧
  s_inFailureMode s' = s_inFailureMode s.

End rep.

(** ** Facts about represented states *)

Lemma window_unique id c : c - 65536 ≤ id < c → id mod 65536 = c mod 65536 → id = c - 65536.
Proof.
  intros Hw He. pose proof (Z.div_mod id 65536). pose proof (Z.div_mod c 65536).
  pose proof (Z.mod_pos_bound c 65536). nia.
Qed.

(** Subtracting the counter's low bits orders the entries by age. *)
Lemma key_of_id id c :
  c - 65536 ≤ id < c → u16 (id mod 65536 - u16 c) = id - (c - 65536).
Proof.
  intros Hw. unfold wrap. change (2 ^ 16) with 65536. rewrite <- Zminus_mod.
  rewrite <- (Z.mod_add (id - c) 1) by lia. rewrite Z.mod_small; lia.
Qed.

Section facts.
Context {arr : list Z} {c : Z} {slots : list SESSION_SLOT} {o f : Z} {a : ASess}.
Context (R : RepC arr c slots o f a).

Lemma gap_entry :
  o < MAX_ACTIVE_SESSIONS → ∃ e, arr !! Z.to_nat o = Some e ∧ (e =? u16 c) = gap_full a.
Proof.
  intros Ho. destruct (r_old _ _ _ _ _ _ R) as [[-> _]|(id & Hr & Hid & Hmin)];
    [unfold MAX_ACTIVE_SESSIONS in Ho; lia|].
  destruct (r_entry _ _ _ _ _ _ R _ _ Hid) as (e & He & -> & _ & Hw & _).
  eexists. split; [exact He|]. unfold gap_full. rewrite (r_next _ _ _ _ _ _ R).
  destruct (existsb _ _) eqn:E.
  - apply existsb_exists in E as (x & Hx & Hs). destruct x as [| |id']; try done.
    apply Z.eqb_eq in Hs as ->. apply list_elem_of_In, list_elem_of_lookup in Hx as [j Hj].
    pose proof (Hmin _ _ Hj). assert (id = c - 65536) as -> by lia.
    apply Z.eqb_eq. unfold wrap. change (2 ^ 16) with 65536.
    rewrite <- (Z.mod_add (c - 65536) 1) by lia. f_equal. lia.
  - apply Z.eqb_neq. unfold wrap. change (2 ^ 16) with 65536. intros Hm.
    apply window_unique in Hm; [|done]. subst id.
    apply not_true_iff_false in E. apply E, existsb_exists. exists (ASaved (c - 65536)).
    split; [|by apply Z.eqb_refl]. apply list_elem_of_In. by eapply list_elem_of_lookup_2.
Qed.

Lemma gap_none : MAX_ACTIVE_SESSIONS ≤ o → gap_full a = false.
Proof.
  intros Ho. destruct (r_old _ _ _ _ _ _ R) as [[-> Hn]|(id & Hr & _)]; [|lia].
  apply not_true_iff_false. intros E. apply existsb_exists in E as (x & Hx & Hs).
  destruct x as [| |id']; try done.
  apply list_elem_of_In, list_elem_of_lookup in Hx as [j Hj]. by apply Hn in Hj.
Qed.

Lemma entry_at (h : nat) x :
  a_tab a !! h = Some x → (h < 64)%nat.
Proof. intros Hx. apply lookup_lt_Some in Hx. rewrite (r_tab _ _ _ _ _ _ R) in Hx. lia. Qed.

Lemma tab_lookup (h : nat) : (h < 64)%nat → ∃ x, a_tab a !! h = Some x.
Proof. intros Hh. apply lookup_lt_is_Some. rewrite (r_tab _ _ _ _ _ _ R). lia. Qed.

Lemma loaded_bound : 0 ≤ loaded_count a ≤ 3 ∧ 0 ≤ f.
Proof.
  pose proof (r_loaded _ _ _ _ _ _ R). pose proof (r_free _ _ _ _ _ _ R).
  unfold loaded_count, MAX_LOADED_SESSIONS in *. lia.
Qed.

(** Loaded entries hold slot numbers, saved ones do not. *)
Lemma entry_class (h : nat) x :
  a_tab a !! h = Some x → ∃ e, arr !! h = Some e ∧ 0 ≤ e < 65536 ∧
    is_free x = (e =? 0) ∧ is_loaded x = (negb (e =? 0) && (e <=? MAX_LOADED_SESSIONS)).
Proof.
  intros Hx. destruct (r_entry _ _ _ _ _ _ R _ _ Hx) as (e & He & Hr). exists e.
  split; [done|]. unfold MAX_LOADED_SESSIONS in *. destruct x as [|ses|id]; cbn in Hr |- *.
  - subst e. split; [lia|]. by split.
  - destruct Hr as (k & Hk & -> & _). split; [lia|].
    split; symmetry; [apply Z.eqb_neq; lia|]. zbool. lia.
  - destruct Hr as (-> & H3 & _). pose proof (Z.mod_pos_bound id 65536). unfold MAX_LOADED_SESSIONS in *.
    split; [lia|]. split; symmetry; [apply Z.eqb_neq; lia|].
    apply andb_false_iff. right. apply Z.leb_gt. lia.
Qed.

Lemma find_slot_ok :
  f ≠ 0 → ∃ (k : nat) sl, (k < 3)%nat ∧ find_session_slot slots 0 = Z.of_nat k ∧
    slots !! k = Some sl ∧ occupied sl = false.
Proof.
  rewrite (r_free _ _ _ _ _ _ R). rewrite <- (r_slots _ _ _ _ _ _ R).
  enough (G : ∀ l i, Z.of_nat (count (λ sl, negb (occupied sl)) l) ≠ 0 →
    ∃ (k : nat) sl, (k < length l)%nat ∧ find_session_slot l i = i + Z.of_nat k ∧
      l !! k = Some sl ∧ occupied sl = false).
  { intros Hc. destruct (G _ 0 Hc) as (k & sl & ? & ? & ? & ?). eauto 10. }
  intros l. induction l as [|sl l IH]; intros i Hc; [done|].
  cbn [count find_session_slot] in *. destruct (occupied sl) eqn:Eo; cbn [negb] in *.
  - destruct (IH (i + 1) ltac:(lia)) as (k & sl' & ? & E & ? & ?).
    exists (S k), sl'. cbn [length]. rewrite E. split_and!; try done; lia.
  - exists 0%nat, sl. cbn [length]. split_and!; try done; lia.
Qed.

Lemma find_entry_ok :
  find_entry arr 0 = match first_free (a_tab a) with Some h => Z.of_nat h | None => 64 end.
Proof.
  assert (G : ∀ tab l i, length l = length tab →
    (∀ j x, tab !! j = Some x → ∃ e, l !! j = Some e ∧ is_free x = (e =? 0)) →
    find_entry l i = i + match first_free tab with Some h => Z.of_nat h | None => Z.of_nat (length l) end).
  { intros tab. induction tab as [|x tab IH]; intros [|e l] i Hl Hx; try done.
    - cbn. lia.
    - destruct (Hx 0%nat x eq_refl) as (e' & [= <-] & Ef). cbn [find_entry first_free].
      rewrite Ef. destruct (e =? 0); [cbn; lia|].
      rewrite (IH l (i + 1)); [|by injection Hl|intros j; apply (Hx (S j))].
      destruct (first_free tab); cbn [fmap option_fmap option_map length]; lia. }
  rewrite (G (a_tab a) arr 0).
  - rewrite Z.add_0_l, (r_arr _ _ _ _ _ _ R). done.
  - by rewrite (r_arr _ _ _ _ _ _ R), (r_tab _ _ _ _ _ _ R).
  - intros j x Hx. destruct (entry_class _ _ Hx) as (e & He & _ & Hf & _). eauto.
Qed.

End facts.

Lemma first_free_Some tab h : first_free tab = Some h → tab !! h = Some AFree.
Proof.
  revert h. induction tab as [|x tab IH]; intros h Hh; [done|]. cbn in Hh.
  destruct x; simplify_eq/=; [done| |];
    destruct (first_free tab) as [h'|]; simplify_eq/=; by apply IH.
Qed.

(** The scan finds the saved entry of smallest key. *)
Lemma oldest_loop_spec low arr i sm old :
  let key e := u16 (e - low) in
  let r := oldest_loop low arr i sm old in
  (r = old ∧ ∀ (j : nat) e, arr !! j = Some e → MAX_LOADED_SESSIONS < e → sm < key e)
  ∨ (∃ (j : nat) e, r = i + Z.of_nat j ∧ arr !! j = Some e ∧ MAX_LOADED_SESSIONS < e ∧ key e ≤ sm ∧
       ∀ (j' : nat) e', arr !! j' = Some e' → MAX_LOADED_SESSIONS < e' → key e ≤ key e').
Proof.
  intros key. revert i sm old. induction arr as [|e arr IH]; intros i sm old; [by left|].
  cbn [oldest_loop]. fold (key e).
  destruct (Z.ltb_spec MAX_LOADED_SESSIONS e) as [He|He]; cbn [andb];
    [destruct (Z.leb_spec (key e) sm) as [Hk|Hk]|].
  - right. destruct (IH (i + 1) (key e) i) as [(-> & Hn)|(j & e' & -> & Hj & H3 & Hle & Hm)].
    + exists 0%nat, e. split_and!; try done; try lia.
      intros [|j'] e' He' H3; cbn in He'; simplify_eq; [lia|]. specialize (Hn _ _ He' H3). lia.
    + exists (S j), e'. split_and!; try done; try lia.
      intros [|j'] e2 He2 H32; cbn in He2; simplify_eq; [lia|]. by eapply Hm.
  - destruct (IH (i + 1) sm old) as [(-> & Hn)|(j & e' & -> & Hj & H3 & Hle & Hm)].
    + left. split; [done|]. intros [|j'] e' He' H3; cbn in He'; simplify_eq; [lia|]. by eapply Hn.
    + right. exists (S j), e'. split_and!; try done; try lia.
      intros [|j'] e2 He2 H32; cbn in He2; simplify_eq; [lia|]. by eapply Hm.
  - destruct (IH (i + 1) sm old) as [(-> & Hn)|(j & e' & -> & Hj & H3 & Hle & Hm)].
    + left. split; [done|]. intros [|j'] e' He' H3; cbn in He'; simplify_eq; [lia|]. by eapply Hn.
    + right. exists (S j), e'. split_and!; try done; try lia.
      intros [|j'] e2 He2 H32; cbn in He2; simplify_eq; [lia|]. by eapply Hm.
Qed.

(** [ContextIdSetOldest] computes the oldest saved context. *)
Lemma set_oldest_ok arr c slots tab :
  length arr = 64%nat → length tab = 64%nat →
  (∀ i x, tab !! i = Some x → ∃ e, arr !! i = Some e ∧ entry_rep slots c e x) →
  oldest_spec tab (oldest_loop (u16 c) arr 0 (u16 (-1)) (MAX_ACTIVE_SESSIONS + 1)).
Proof.
  intros La Lt Hr.
  assert (Hsaved : ∀ i e, arr !! i = Some e → MAX_LOADED_SESSIONS < e →
    ∃ id, tab !! i = Some (ASaved id) ∧ c - 65536 ≤ id < c ∧ u16 (e - u16 c) = id - (c - 65536)).
  { intros i e He H3. destruct (lookup_lt_is_Some_2 tab i) as [x Hx].
    { apply lookup_lt_Some in He. lia. }
    destruct (Hr _ _ Hx) as (e' & He' & Hrep). simplify_eq. destruct x as [|ses|id]; cbn in Hrep.
    - unfold MAX_LOADED_SESSIONS in H3. lia.
    - destruct Hrep as (k & Hk & -> & _). unfold MAX_LOADED_SESSIONS in H3. lia.
    - destruct Hrep as (-> & _ & Hw & _). exists id. split_and!; try done; try lia.
      by apply key_of_id. }
  assert (Hinv : ∀ i id, tab !! i = Some (ASaved id) → ∃ e, arr !! i = Some e ∧
    MAX_LOADED_SESSIONS < e ∧ u16 (e - u16 c) = id - (c - 65536)).
  { intros i id Hi. destruct (Hr _ _ Hi) as (e & He & -> & H3 & Hw & _).
    eexists. split; [done|]. split; [done|]. by apply key_of_id. }
  destruct (oldest_loop_spec (u16 c) arr 0 (u16 (-1)) (MAX_ACTIVE_SESSIONS + 1))
    as [(-> & Hn)|(j & e & -> & Hj & H3 & _ & Hm)].
  - left. split; [done|]. intros i id Hi. destruct (Hinv _ _ Hi) as (e & He & H3 & _).
    specialize (Hn _ _ He H3). pose proof (wrap_range 16 (e - u16 c)) as Hw.
    change (u16 (-1)) with 65535 in Hn. change (2 ^ 16) with 65536 in Hw. lia.
  - right. destruct (Hsaved _ _ Hj H3) as (id & Hid & Hw & Hk). exists id.
    apply lookup_lt_Some in Hj as Hlt. rewrite Z.add_0_l, Nat2Z.id.
    split; [unfold MAX_ACTIVE_SESSIONS; lia|]. split; [done|].
    intros j' id' Hid'. destruct (Hinv _ _ Hid') as (e' & He' & H3' & Hk').
    specialize (Hm _ _ He' H3'). lia.
Qed.

(** ** One change to a represented state *)

Lemma RepC_update arr c slots o f a (h : nat) x e' x' c' slots' o' f' :
  RepC arr c slots o f a →
  a_tab a !! h = Some x →
  0 ≤ c' < 2 ^ 64 → MAX_LOADED_SESSIONS < c' mod 65536 → c ≤ c' →
  (∀ i id, i ≠ h → a_tab a !! i = Some (ASaved id) → c' - 65536 ≤ id) →
  entry_rep slots' c' e' x' →
  length slots' = 3%nat →
  (∀ i (k : nat), i ≠ h → (k < 3)%nat → arr !! i = Some (Z.of_nat k + 1) → slots' !! k = slots !! k) →
  (1 ≤ e' ≤ MAX_LOADED_SESSIONS → ∀ i, i ≠ h → arr !! i ≠ Some e') →
  f' = Z.of_nat (count (λ sl, negb (occupied sl)) slots') →
  f' = f + (if is_loaded x then 1 else 0) - (if is_loaded x' then 1 else 0) →
  (∀ id i, x' = ASaved id → i ≠ h → a_tab a !! i ≠ Some (ASaved id)) →
  oldest_spec (<[h := x']> (a_tab a)) o' →
  RepC (<[h := e']> arr) c' slots' o' f' (mkA (<[h := x']> (a_tab a)) c').
Proof.
  intros R Hx Hc' Hlow' Hcc Hwin Hrep Hsl Hkeep Hfresh Hf' Hff Hids Hold.
  assert (Hh : (h < 64)%nat) by (eapply entry_at; eauto).
  split; cbn [a_tab a_next]; try done.
  - by rewrite length_insert, (r_arr _ _ _ _ _ _ R).
  - by rewrite length_insert, (r_tab _ _ _ _ _ _ R).
  - intros i y Hy. destruct (decide (i = h)) as [->|Hi].
    + rewrite list_lookup_insert_eq in Hy by (rewrite (r_tab _ _ _ _ _ _ R); lia).
      exists e'. split; [|by simplify_eq].
      rewrite list_lookup_insert_eq; [done|]. rewrite (r_arr _ _ _ _ _ _ R); lia.
    + rewrite list_lookup_insert_ne in Hy by done.
      destruct (r_entry _ _ _ _ _ _ R _ _ Hy) as (e & He & Hr). exists e.
      split; [by rewrite list_lookup_insert_ne|].
      destruct y as [|ses|id]; cbn in Hr |- *; [done| |].
      * destruct Hr as (k & Hk & -> & Hs). exists k. split_and!; try done.
        rewrite <- Hs. by eapply Hkeep.
      * destruct Hr as (-> & H3 & Hw & H0). specialize (Hwin _ _ Hi Hy). split_and!; try done; lia.
  - intros i j k Hi Hj Hk. destruct (decide (i = h)) as [->|Hih], (decide (j = h)) as [->|Hjh]; try done.
    + rewrite list_lookup_insert_eq in Hi by (rewrite (r_arr _ _ _ _ _ _ R); lia).
      rewrite list_lookup_insert_ne in Hj by done. simplify_eq. exfalso. by eapply Hfresh.
    + rewrite list_lookup_insert_eq in Hj by (rewrite (r_arr _ _ _ _ _ _ R); lia).
      rewrite list_lookup_insert_ne in Hi by done. simplify_eq. exfalso. by eapply Hfresh.
    + rewrite list_lookup_insert_ne in Hi, Hj by done. by eapply (r_inj _ _ _ _ _ _ R).
  - rewrite Hff, (r_loaded _ _ _ _ _ _ R). unfold loaded_count. cbn [a_tab].
    pose proof (count_insert is_loaded (a_tab a) h x x' Hx).
    destruct (is_loaded x), (is_loaded x'); lia.
  - intros i j id Hi Hj. destruct (decide (i = h)) as [->|Hih], (decide (j = h)) as [->|Hjh]; try done.
    + rewrite list_lookup_insert_eq in Hi by (rewrite (r_tab _ _ _ _ _ _ R); lia).
      rewrite list_lookup_insert_ne in Hj by done. simplify_eq. exfalso. by eapply Hids.
    + rewrite list_lookup_insert_eq in Hj by (rewrite (r_tab _ _ _ _ _ _ R); lia).
      rewrite list_lookup_insert_ne in Hi by done. simplify_eq. exfalso. by eapply Hids.
    + rewrite list_lookup_insert_ne in Hi, Hj by done. by eapply (r_ids _ _ _ _ _ _ R).
Qed.

(** The oldest saved context after another entry changed. *)
Lemma oldest_other tab o (h : nat) x :
  oldest_spec tab o → o ≠ Z.of_nat h → (∀ id, x ≠ ASaved id) →
  oldest_spec (<[h := x]> tab) o.
Proof.
  intros [(-> & Hn)|(id & Hr & Hid & Hm)] Ho Hx.
  - left. split; [done|]. intros i id Hi. apply list_lookup_insert_Some in Hi as [(_ & ? & _)|(_ & Hi)].
    + by eapply Hx.
    + by eapply Hn.
  - right. exists id. split; [done|]. split; [rewrite list_lookup_insert_ne; [done|lia]|].
    intros j id' Hj. apply list_lookup_insert_Some in Hj as [(_ & ? & _)|(_ & Hj)].
    + exfalso. by eapply Hx.
    + by eapply Hm.
Qed.

Lemma oldest_save tab o (h : nat) c :
  length tab = 64%nat → (h < 64)%nat → (∀ id, tab !! h ≠ Some (ASaved id)) →
  (∀ i id, tab !! i = Some (ASaved id) → id < c) →
  oldest_spec tab o →
  oldest_spec (<[h := ASaved c]> tab) (if MAX_ACTIVE_SESSIONS <=? o then Z.of_nat h else o).
Proof.
  intros Ht Hh Hns Hlt [(-> & Hn)|(id & Hr & Hid & Hm)].
  - right. exists c. rewrite (proj2 (Z.leb_le _ _)) by lia. unfold MAX_ACTIVE_SESSIONS.
    split; [lia|]. rewrite Nat2Z.id, list_lookup_insert_eq by lia. split; [done|].
    intros j id' Hj. apply list_lookup_insert_Some in Hj as [(_ & [= ->] & _)|(_ & Hj)]; [lia|].
    by apply Hn in Hj.
  - right. exists id. rewrite (proj2 (Z.leb_gt _ _)) by lia. split; [done|].
    split.
    + rewrite list_lookup_insert_ne; [done|]. intros E. subst h. by apply Hns in Hid.
    + intros j id' Hj. apply list_lookup_insert_Some in Hj as [(_ & [= ->] & _)|(_ & Hj)].
      * pose proof (Hlt _ _ Hid). lia.
      * by eapply Hm.
Qed.

(** The next identifier keeps every saved context inside the window, unless
    the gap was at its maximum. *)
Lemma next_id_ok c :
  MAX_LOADED_SESSIONS < c mod 65536 → 0 ≤ c → c + 1 < 2 ^ 64 →
  c < next_id c < 2 ^ 64 ∧ MAX_LOADED_SESSIONS < next_id c mod 65536 ∧
  (∀ id, c - 65536 < id < c → MAX_LOADED_SESSIONS < id mod 65536 → next_id c - 65536 ≤ id).
Proof.
  unfold next_id, MAX_LOADED_SESSIONS. intros Hl H0 H64.
  pose proof (Z.div_mod c 65536). pose proof (Z.mod_pos_bound c 65536).
  destruct (Z.eqb_spec ((c + 1) mod 65536) 0) as [E|E].
  - pose proof (Z.div_mod (c + 1) 65536 ltac:(lia)) as D. rewrite E in D.
    replace (c + 1 + (3 + 1)) with (4 + (c + 1) / 65536 * 65536) by lia.
    rewrite Z.mod_add, Z.mod_small by lia.
    change (2 ^ 64) with (281474976710656 * 65536) in *. split_and!; try lia.
    intros id Hid Hm. pose proof (Z.div_mod id 65536). pose proof (Z.mod_pos_bound id 65536). nia.
  - pose proof (Z.div_mod (c + 1) 65536 ltac:(lia)). pose proof (Z.mod_pos_bound (c + 1) 65536).
    assert ((c + 1) mod 65536 = c mod 65536 + 1) as -> by nia.
    split_and!; lia.
Qed.
