(* ===== verification/SessionRefine.v ===== *)
(** * Session.c refines the session specification

    For each operation: from a represented state the C code has a defined
    result, it is the result of the specification's operation, and the new
    state is represented.  No assertion fails. *)

From S2P Require Import Prelude TpmTypes Memory Kdf Session SessionSpec.
Local Open Scope Z_scope.

Section refine.
Context {CE : CryptEnv} {HL : HashLib} {H : SessionEnv}.
Implicit Types (s : SessState) (a : ASess).

(** A session handle: the type octet is that of an HMAC or a policy session,
    and the rest is the index [i]. *)
Definition session_handle (handle : Z) (i : nat) : Prop :=
  is_session_handle handle = true ∧ Z.land handle HR_HANDLE_MASK = Z.of_nat i ∧ (i < 64)%nat.

(** ** Statements *)

Lemma ca_get_ok s (i : nat) e :
  contextArray s !! i = Some e → ca_get (Z.of_nat i) s = Some (e, s).
Proof. intros E. unfold ca_get, bind, gets, of_option. by rewrite Nat2Z.id, E. Qed.

Lemma ca_set_ok s (i : nat) v :
  (i < length (contextArray s))%nat →
  ca_set (Z.of_nat i) v s = Some (tt, set_contextArray (<[i := v]> (contextArray s)) s).
Proof.
  intros Hi. unfold ca_set, bind, gets, modify.
  by rewrite (proj2 (Z.ltb_lt _ _)), Nat2Z.id by lia.
Qed.

Lemma slot_set_ok s (i : nat) v :
  (i < length (s_sessions s))%nat →
  slot_set (Z.of_nat i) v s = Some (tt, set_sessions (<[i := v]> (s_sessions s)) s).
Proof.
  intros Hi. unfold slot_set, bind, gets, modify.
  by rewrite (proj2 (Z.ltb_lt _ _)), Nat2Z.id by lia.
Qed.

Lemma set_occupied_ok s (i : nat) b sl :
  s_sessions s !! i = Some sl →
  set_occupied (Z.of_nat i) b s =
    Some (tt, set_sessions (<[i := mkSlot b (session sl)]> (s_sessions s)) s).
Proof.
  intros Hi. unfold set_occupied. erewrite bind_Some; cycle 1.
  { unfold slot_get, bind, gets, of_option. rewrite Nat2Z.id, Hi. reflexivity. }
  apply slot_set_ok. by eapply lookup_lt_Some.
Qed.

(** ** Queries *)

Lemma SessionIsLoaded_ok s a handle i x :
  Rep s a → session_handle handle i → a_tab a !! i = Some x →
  SessionIsLoaded handle s = Some (is_loaded x, s).
Proof.
  intros R (Ht & Hi & Hlt) Hx. unfold SessionIsLoaded.
  erewrite bind_Some by (by apply pAssert_true). rewrite Hi.
  rewrite (proj2 (Z.leb_gt _ _)) by (unfold MAX_ACTIVE_SESSIONS; lia).
  destruct (entry_class R _ _ Hx) as (e & He & _ & _ & ->).
  erewrite bind_Some by (by apply ca_get_ok). unfold ret.
  rewrite (Z.leb_antisym MAX_LOADED_SESSIONS e). by destruct (e =? 0), (MAX_LOADED_SESSIONS <? e).
Qed.

Lemma SessionIsSaved_ok s a handle i x :
  Rep s a → session_handle handle i → a_tab a !! i = Some x →
  SessionIsSaved handle s = Some (negb (is_free x) && negb (is_loaded x), s).
Proof.
  intros R (Ht & Hi & Hlt) Hx. unfold SessionIsSaved.
  erewrite bind_Some by (by apply pAssert_true). rewrite Hi.
  rewrite (proj2 (Z.leb_gt _ _)) by (unfold MAX_ACTIVE_SESSIONS; lia).
  destruct (entry_class R _ _ Hx) as (e & He & _ & -> & ->).
  erewrite bind_Some by (by apply ca_get_ok). unfold ret.
  by destruct (e =? 0), (e <=? MAX_LOADED_SESSIONS).
Qed.

(** A loaded session is found in its slot. *)
Lemma SessionGet_ok s a handle i ses :
  Rep s a → session_handle handle i → a_tab a !! i = Some (ALoaded ses) →
  ∃ k : nat, SessionGet handle s = Some (Z.of_nat k, s) ∧ s_sessions s !! k = Some (mkSlot true ses).
Proof.
  intros R (Ht & Hi & Hlt) Hx. unfold SessionGet.
  destruct (r_entry _ _ _ _ _ _ R _ _ Hx) as (e & He & k & Hk & -> & Hs). exists k.
  split; [|done].
  erewrite bind_Some by (by apply pAssert_true). rewrite Hi.
  erewrite bind_Some by (apply pAssert_true, Z.ltb_lt; unfold MAX_ACTIVE_SESSIONS; lia).
  erewrite bind_Some by (by apply ca_get_ok).
  replace (Z.of_nat k + 1 - 1) with (Z.of_nat k) by lia.
  rewrite wrap_small by lia.
  by erewrite bind_Some by (apply pAssert_true, Z.ltb_lt; unfold MAX_LOADED_SESSIONS; lia).
Qed.

(** The sequence number of a saved context is accepted when it is the
    identifier under which the session was saved; at the maximum gap the
    counter's own value is accepted as well. *)
Lemma SequenceNumber_ok s a h seq i x :
  Rep s a → Z.land h HR_HANDLE_MASK = Z.of_nat i → a_tab a !! i = Some x → 0 ≤ seq < 2 ^ 64 →
  SequenceNumberForSavedContextIsValid (mkContext seq h) s =
    Some (is_saved_as seq x || ((seq =? a_next a) && is_saved_as (a_next a - 65536) x), s).
Proof.
  intros R Hi Hx Hseq. unfold SequenceNumberForSavedContextIsValid. cbn [savedHandle sequence].
  rewrite Hi. assert (Hlt := entry_at R _ _ Hx).
  rewrite (proj2 (Z.leb_gt _ _)) by (unfold MAX_ACTIVE_SESSIONS; lia).
  destruct (r_entry _ _ _ _ _ _ R _ _ Hx) as (e & He & Hr).
  pose proof (r_range _ _ _ _ _ _ R) as Hc. rewrite (r_next _ _ _ _ _ _ R).
  set (c := contextCounter s) in *.
  erewrite bind_Some by (by apply ca_get_ok). unfold bind at 1, gets at 1. fold c.
  change MAX_CONTEXT_GAP with 65536. unfold ret.
  match goal with |- (if ?b then _ else _) _ = Some (?r, _) =>
    enough (E : b = negb r) by (rewrite E; by destruct r) end.
  unfold MAX_LOADED_SESSIONS in *. unfold wrap at 1. change (2 ^ 16) with 65536.
  destruct x as [|ses|id]; cbn in Hr |- *.
  - subst e. rewrite andb_false_r. done.
  - destruct Hr as (k & Hk & -> & _). rewrite andb_false_r, (proj2 (Z.leb_le _ _)) by lia. done.
  - destruct Hr as (-> & H3 & Hw & H0). unfold MAX_LOADED_SESSIONS in H3.
    rewrite (proj2 (Z.leb_gt _ _)) by lia. cbn [orb].
    destruct (Z.ltb_spec c seq) as [Hgt|Hle].
    + rewrite orb_true_r. cbn [orb]. symmetry. apply negb_true_iff, orb_false_iff.
      split; [apply Z.eqb_neq; lia|]. apply andb_false_iff. left. apply Z.eqb_neq. lia.
    + rewrite (wrap_small 64) by lia. rewrite orb_false_r.
      destruct (Z.eqb_spec (id mod 65536) (seq mod 65536)) as [Em|Em]; cbn [negb orb].
      * destruct (Z.ltb_spec 65536 (c - seq)) as [Hfar|Hnear]; symmetry.
        -- apply negb_true_iff, orb_false_iff. split; [apply Z.eqb_neq; lia|].
           apply andb_false_iff. left. apply Z.eqb_neq. lia.
        -- apply negb_false_iff, orb_true_iff.
           destruct (Z.eqb_spec id seq) as [|Hne]; [by left|right].
           pose proof (Z.div_mod id 65536). pose proof (Z.div_mod seq 65536).
           apply andb_true_iff. rewrite !Z.eqb_eq. split; nia.
      * symmetry. apply negb_true_iff, orb_false_iff. split.
        -- apply Z.eqb_neq. intros ->. done.
        -- apply andb_false_iff. destruct (Z.eqb_spec seq c) as [->|]; [right|by left].
           apply Z.eqb_neq. intros E. apply Em. rewrite E.
           rewrite <- (Z.mod_add (c - 65536) 1) by lia. f_equal. lia.
Qed.

(** ** Saving *)

(** The test for the maximum gap, as every operation makes it. *)
Lemma gap_test s a (k : Z → bool) :
  Rep s a → (∀ e, k e = (e =? u16 (contextCounter s))) →
  (if s_oldestSavedSession s <? MAX_ACTIVE_SESSIONS
   then let! e := ca_get (s_oldestSavedSession s) in ret (k e) else ret false) s
  = Some (gap_full a, s).
Proof.
  intros R Hk. destruct (Z.ltb_spec (s_oldestSavedSession s) MAX_ACTIVE_SESSIONS) as [Ho|Ho].
  - destruct (gap_entry R Ho) as (e & He & Hg).
    unfold ca_get, bind, gets, of_option, ret. rewrite He, Hk, Hg. done.
  - by rewrite (gap_none R Ho).
Qed.

Lemma loaded_entry s a i ses :
  Rep s a → a_tab a !! i = Some (ALoaded ses) →
  ∃ k : nat, (k < 3)%nat ∧ contextArray s !! i = Some (Z.of_nat k + 1) ∧
    s_sessions s !! k = Some (mkSlot true ses) ∧ u16 (Z.of_nat k + 1 - 1) = Z.of_nat k.
Proof.
  intros R Hx. destruct (r_entry _ _ _ _ _ _ R _ _ Hx) as (e & He & k & Hk & -> & Hs).
  exists k. split_and!; try done. rewrite wrap_small by lia. lia.
Qed.

(** The entry [i] leaves its slot [k]: it becomes free, or saved under the
    identifier [a_next a]. *)
Lemma RepC_unload s a i ses (k : nat) e' x' c' o' :
  Rep s a → a_tab a !! i = Some (ALoaded ses) → (k < 3)%nat →
  contextArray s !! i = Some (Z.of_nat k + 1) → s_sessions s !! k = Some (mkSlot true ses) →
  0 ≤ c' < 2 ^ 64 → MAX_LOADED_SESSIONS < c' mod 65536 → contextCounter s ≤ c' →
  (∀ j id, j ≠ i → a_tab a !! j = Some (ASaved id) → c' - 65536 ≤ id) →
  (e' = 0 ∧ x' = AFree ∨
   e' = contextCounter s mod 65536 ∧ x' = ASaved (contextCounter s)
   ∧ contextCounter s < c' ∧ c' - 65536 ≤ contextCounter s) →
  oldest_spec (<[i := x']> (a_tab a)) o' →
  RepC (<[i := e']> (contextArray s)) c' (<[k := mkSlot false ses]> (s_sessions s)) o'
    (s_freeSessionSlots s + 1) (mkA (<[i := x']> (a_tab a)) c').
Proof.
  intros R Hx Hk He Hs Hc' Hl' Hcc Hwin Hcase Hold.
  assert (Hnl : is_loaded x' = false) by (by destruct Hcase as [(_ & ->)|(_ & -> & _)]).
  pose proof (r_low _ _ _ _ _ _ R) as Hlow. pose proof (r_range _ _ _ _ _ _ R) as Hr.
  eapply RepC_update; try done.
  - destruct Hcase as [(-> & ->)|(-> & -> & Hlt)]; cbn; [done|]. split_and!; try done; lia.
  - by rewrite length_insert, (r_slots _ _ _ _ _ _ R).
  - intros j k' Hj Hk' Hjk. rewrite list_lookup_insert_ne; [done|]. intros <-.
    apply Hj. eapply (r_inj _ _ _ _ _ _ R); [exact Hjk|exact He|unfold MAX_LOADED_SESSIONS; lia].
  - destruct Hcase as [(-> & _)|(-> & _)]; [lia|]. lia.
  - rewrite (r_free _ _ _ _ _ _ R).
    pose proof (count_insert (λ sl, negb (occupied sl)) _ _ _ (mkSlot false ses) Hs) as Hcnt.
    cbn in Hcnt. lia.
  - rewrite Hnl. cbn. lia.
  - intros id j Hid Hj Hsv. destruct Hcase as [(_ & ->)|(_ & -> & _)]; [done|].
    injection Hid as <-. destruct (r_entry _ _ _ _ _ _ R _ _ Hsv) as (e & _ & _ & _ & Hw & _). lia.
Qed.

Lemma SessionContextSave_ok s a handle cid i ses :
  Rep s a → session_handle handle i → a_tab a !! i = Some (ALoaded ses) →
  (gap_full a = false → contextCounter s + 1 < 2 ^ 64) →
  let '(rc, id, a') := ASave i a in
  ∃ s', SessionContextSave handle cid s = Some ((rc, default cid id), s') ∧ Rep s' a' ∧ frame s s'.
Proof.
  intros R Hh Hx Hc. destruct (Hh) as (_ & Hi & Hlt). unfold ASave, SessionContextSave.
  erewrite bind_Some by (by eapply SessionIsLoaded_ok). cbn [is_loaded].
  erewrite bind_Some by (by apply pAssert_true).
  do 2 (erewrite bind_Some by reflexivity).
  erewrite bind_Some by (apply (gap_test _ _ _ R); done).
  destruct (gap_full a) eqn:G; [by eexists; split_and!; try done|]. specialize (Hc eq_refl).
  destruct (loaded_entry _ _ _ _ R Hx) as (k & Hk & He & Hs & Hw).
  pose proof (r_range _ _ _ _ _ _ R) as Hr. pose proof (r_low _ _ _ _ _ _ R) as Hlow.
  destruct (next_id_ok _ Hlow (proj1 Hr) Hc) as (Hn & Hnl & Hwin).
  rewrite Hi. erewrite bind_Some by (apply pAssert_true, Z.ltb_lt; unfold MAX_ACTIVE_SESSIONS; lia).
  erewrite bind_Some by (by apply ca_get_ok). rewrite Hw.
  erewrite bind_Some by (apply ca_set_ok; rewrite (r_arr _ _ _ _ _ _ R); lia).
  erewrite bind_Some by reflexivity. rewrite (wrap_small 64) by lia.
  rewrite (proj2 (Z.eqb_neq _ _)) by lia.
  erewrite bind_Some; cycle 1.
  { instantiate (2 := tt). instantiate (1 := set_contextCounter (next_id (contextCounter s))
      (set_contextArray (<[i := u16 (contextCounter s)]> (contextArray s)) s)).
    unfold wrap, next_id in *. change (2 ^ 16) with 65536.
    destruct ((contextCounter s + 1) mod 65536 =? 0); [|reflexivity].
    rewrite Z.mod_small by lia. reflexivity. }
  erewrite bind_Some; cycle 1.
  { instantiate (2 := tt). instantiate (1 := set_oldest
      (if MAX_ACTIVE_SESSIONS <=? s_oldestSavedSession s then Z.of_nat i else s_oldestSavedSession s)
      (set_contextCounter (next_id (contextCounter s))
      (set_contextArray (<[i := u16 (contextCounter s)]> (contextArray s)) s))).
    by destruct (MAX_ACTIVE_SESSIONS <=? s_oldestSavedSession s). }
  erewrite bind_Some by (apply set_occupied_ok; exact Hs).
  rewrite (r_next _ _ _ _ _ _ R). eexists. split; [reflexivity|]. split; [|done].
  assert (Hold : ∀ j id, a_tab a !! j = Some (ASaved id) → id < contextCounter s).
  { intros j id Hj. destruct (r_entry _ _ _ _ _ _ R _ _ Hj) as (e & _ & _ & _ & ? & _). lia. }
  unfold Rep. cbn. eapply (RepC_unload s a i ses k); try done; [lia|lia| | |].
  - intros j id Hj Hsv. destruct (r_entry _ _ _ _ _ _ R _ _ Hsv) as (e & _ & Ee & H3 & Hwd & _).
    apply Hwin; [|by rewrite <- Ee]. split; [|lia].
    enough (id ≠ contextCounter s - 65536) by lia. intros ->.
    apply not_true_iff_false in G. apply G, existsb_exists.
    exists (ASaved (contextCounter s - 65536)). rewrite (r_next _ _ _ _ _ _ R).
    split; [|apply Z.eqb_refl]. apply list_elem_of_In. by eapply list_elem_of_lookup_2.
  - right. split_and!; try done; [lia|]. unfold next_id, MAX_LOADED_SESSIONS.
    destruct (_ =? 0); lia.
  - apply oldest_save; try done; [apply (r_tab _ _ _ _ _ _ R)|by rewrite Hx|].
    apply (r_old _ _ _ _ _ _ R).
Qed.

(** ** Loading and flushing *)

(** No entry refers to a free slot. *)
Lemma slot_unused s a (k : nat) sl :
  Rep s a → s_sessions s !! k = Some sl → occupied sl = false →
  ∀ j, contextArray s !! j ≠ Some (Z.of_nat k + 1).
Proof.
  intros R Hs Ho j Hj. assert (Hj64 := lookup_lt_Some _ _ _ Hj).
  rewrite (r_arr _ _ _ _ _ _ R) in Hj64. destruct (tab_lookup R j Hj64) as [y Hy].
  assert (Hk3 := lookup_lt_Some _ _ _ Hs). rewrite (r_slots _ _ _ _ _ _ R) in Hk3.
  destruct (r_entry _ _ _ _ _ _ R _ _ Hy) as (e & He & Hr). simplify_eq.
  destruct y as [|ses'|id]; cbn in Hr; [lia| |].
  - destruct Hr as (k' & _ & Ek & Hs'). assert (k' = k) as -> by lia. by simplify_eq.
  - unfold MAX_LOADED_SESSIONS in Hr. lia.
Qed.

(** At the maximum gap, the oldest context is the one saved 2^16 identifiers ago. *)
Lemma oldest_at_gap s a i id :
  Rep s a → gap_full a = true → s_oldestSavedSession s < MAX_ACTIVE_SESSIONS →
  a_tab a !! i = Some (ASaved id) →
  Z.of_nat i = s_oldestSavedSession s ↔ id = contextCounter s - 65536.
Proof.
  intros R G Ho Hx. apply existsb_exists in G as (y & Hy & Hs). destruct y as [| |id']; try done.
  apply Z.eqb_eq in Hs as ->. apply list_elem_of_In, list_elem_of_lookup in Hy as [j Hj].
  rewrite (r_next _ _ _ _ _ _ R) in Hj.
  destruct (r_old _ _ _ _ _ _ R) as [(E & _)|(ido & Hr & Hido & Hm)];
    [rewrite E in Ho; unfold MAX_ACTIVE_SESSIONS in Ho; lia|].
  destruct (r_entry _ _ _ _ _ _ R _ _ Hido) as (e & _ & _ & _ & Hw & _).
  pose proof (Hm _ _ Hj). assert (ido = contextCounter s - 65536) as -> by lia.
  split.
  - intros E. rewrite <- E, Nat2Z.id in Hido. by simplify_eq.
  - intros ->. pose proof (r_ids _ _ _ _ _ _ R _ _ _ Hx Hido). lia.
Qed.

(** The entry [i], which is not loaded, takes the free slot [k]. *)
Lemma RepC_load s a i x ses (k : nat) sl o' :
  Rep s a → a_tab a !! i = Some x → is_loaded x = false → (k < 3)%nat →
  s_sessions s !! k = Some sl → occupied sl = false →
  oldest_spec (<[i := ALoaded ses]> (a_tab a)) o' →
  RepC (<[i := Z.of_nat k + 1]> (contextArray s)) (contextCounter s)
    (<[k := mkSlot true ses]> (s_sessions s)) o' (s_freeSessionSlots s - 1)
    (set_tab a i (ALoaded ses)).
Proof.
  intros R Hx Hnl Hk Hs Ho Hold. unfold set_tab. rewrite (r_next _ _ _ _ _ _ R).
  pose proof (slot_unused _ _ _ _ R Hs Ho) as Hfree.
  eapply RepC_update; try done.
  - apply (r_range _ _ _ _ _ _ R).
  - apply (r_low _ _ _ _ _ _ R).
  - intros j id _ Hj. destruct (r_entry _ _ _ _ _ _ R _ _ Hj) as (e & _ & _ & _ & ? & _). lia.
  - exists k. split_and!; try done. rewrite list_lookup_insert_eq; [done|].
    by eapply lookup_lt_Some.
  - by rewrite length_insert, (r_slots _ _ _ _ _ _ R).
  - intros j k' _ _ Hj. rewrite list_lookup_insert_ne; [done|]. intros <-. by eapply Hfree.
  - rewrite (r_free _ _ _ _ _ _ R).
    pose proof (count_insert (λ sl, negb (occupied sl)) _ _ _ (mkSlot true ses) Hs) as Hcnt.
    cbn in Hcnt. rewrite Ho in Hcnt. cbn in Hcnt. lia.
  - rewrite Hnl. cbn. lia.
Qed.

(** The oldest context, recomputed or kept, when the entry [i] is no longer saved. *)
Lemma oldest_after s a i arr' slots' x' :
  Rep s a → (i < 64)%nat → (∀ id, x' ≠ ASaved id) → length arr' = 64%nat →
  (∀ j y, <[i := x']> (a_tab a) !! j = Some y →
     ∃ e, arr' !! j = Some e ∧ entry_rep slots' (contextCounter s) e y) →
  oldest_spec (<[i := x']> (a_tab a))
    (if Z.of_nat i =? s_oldestSavedSession s
     then oldest_loop (u16 (contextCounter s)) arr' 0 (u16 (-1)) (MAX_ACTIVE_SESSIONS + 1)
     else s_oldestSavedSession s).
Proof.
  intros R Hi Hx' Hl Hr. destruct (Z.eqb_spec (Z.of_nat i) (s_oldestSavedSession s)) as [E|E].
  - eapply set_oldest_ok; [done| |exact Hr]. by rewrite length_insert, (r_tab _ _ _ _ _ _ R).
  - apply oldest_other; [apply (r_old _ _ _ _ _ _ R)|lia|done].
Qed.

(** Entries other than [i] stand for what they did, also when slots that none
    of them uses change. *)
Lemma entries_except s a i slots' e' x' :
  Rep s a → (i < 64)%nat →
  (∀ j (k : nat), j ≠ i → contextArray s !! j = Some (Z.of_nat k + 1) → (k < 3)%nat →
     slots' !! k = s_sessions s !! k) →
  entry_rep slots' (contextCounter s) e' x' →
  ∀ j y, <[i := x']> (a_tab a) !! j = Some y →
    ∃ e, <[i := e']> (contextArray s) !! j = Some e ∧
      entry_rep slots' (contextCounter s) e y.
Proof.
  intros R Hi Hk Hr j y Hy. destruct (decide (j = i)) as [->|Hj].
  - rewrite list_lookup_insert_eq in Hy by (rewrite (r_tab _ _ _ _ _ _ R); lia). simplify_eq.
    exists e'. split; [|done]. apply list_lookup_insert_eq. rewrite (r_arr _ _ _ _ _ _ R). lia.
  - rewrite list_lookup_insert_ne in Hy by done.
    destruct (r_entry _ _ _ _ _ _ R _ _ Hy) as (e & He & Hre). exists e.
    split; [by rewrite list_lookup_insert_ne|]. destruct y as [|ses|id]; [done| |done].
    destruct Hre as (k' & Hk' & -> & Hs). exists k'. split_and!; try done.
    rewrite <- Hs. by eapply Hk.
Qed.

(** The test of [SessionContextLoad]: only the oldest context may take the
    last slot at the maximum gap. *)
Lemma load_gap_test s a (i : nat) id :
  Rep s a → a_tab a !! i = Some (ASaved id) →
  (if (s_oldestSavedSession s <? MAX_ACTIVE_SESSIONS) && (s_freeSessionSlots s =? 1)
   then let! e := ca_get (s_oldestSavedSession s) in
        ret ((u16 (contextCounter s) =? e) && negb (Z.of_nat i =? s_oldestSavedSession s))
   else ret false) s
  = Some ((s_freeSessionSlots s =? 1) && gap_full a && negb (id =? contextCounter s - 65536), s).
Proof.
  intros R Hx.
  destruct (Z.ltb_spec (s_oldestSavedSession s) MAX_ACTIVE_SESSIONS) as [Hol|Hol]; cbn [andb];
    [|by rewrite (gap_none R Hol), andb_false_r].
  destruct (s_freeSessionSlots s =? 1); [|reflexivity]. cbn [andb].
  destruct (gap_entry R Hol) as (e & He & Hg).
  unfold ca_get, bind, gets, of_option, ret. rewrite He, Z.eqb_sym, Hg.
  destruct (gap_full a) eqn:G; [|reflexivity]. cbn [andb].
  do 3 f_equal. apply eq_bool_prop_intro. rewrite !Is_true_true, !Z.eqb_eq.
  eapply (oldest_at_gap s a); done.
Qed.

Lemma SessionContextLoad_ok s a handle i id ses :
  Rep s a → session_handle handle i → a_tab a !! i = Some (ASaved id) →
  let '(rc, a') := ALoad ses i a in
  ∃ s', SessionContextLoad ses handle s = Some (rc, s') ∧ Rep s' a' ∧ frame s s'.
Proof.
  intros R (Ht & Hi & Hlt) Hx. unfold ALoad, SessionContextLoad.
  erewrite bind_Some by (by apply pAssert_true). erewrite bind_Some by reflexivity.
  pose proof (r_loaded _ _ _ _ _ _ R) as Hf.
  replace (loaded_count a =? MAX_LOADED_SESSIONS) with (s_freeSessionSlots s =? 0)
    by (apply eq_bool_prop_intro; rewrite !Is_true_true, !Z.eqb_eq; lia).
  replace (loaded_count a =? MAX_LOADED_SESSIONS - 1) with (s_freeSessionSlots s =? 1)
    by (apply eq_bool_prop_intro; rewrite !Is_true_true, !Z.eqb_eq; lia).
  destruct (Z.eqb_spec (s_freeSessionSlots s) 0) as [E0|E0]; [by eexists; split_and!; try done|].
  erewrite bind_Some by reflexivity.
  destruct (find_slot_ok R E0) as (k & sl & Hk & -> & Hs & Ho).
  erewrite bind_Some by (apply pAssert_true, Z.ltb_lt; unfold MAX_LOADED_SESSIONS; lia).
  rewrite Hi. do 2 (erewrite bind_Some by reflexivity).
  assert (Hself : default false (is_saved_as (a_next a - 65536) <$> a_tab a !! i)
    = (id =? contextCounter s - 65536)) by (by rewrite Hx, (r_next _ _ _ _ _ _ R)).
  rewrite Hself. clear Hself.
  rewrite (bind_Some _ _ _ _ _ (load_gap_test _ _ _ _ R Hx)).
  destruct ((s_freeSessionSlots s =? 1) && gap_full a && negb (id =? contextCounter s - 65536));
    [by eexists; split_and!; try done|].
  erewrite bind_Some by (apply pAssert_true, Z.ltb_lt; unfold MAX_ACTIVE_SESSIONS; lia).
  rewrite (wrap_small 16) by lia.
  erewrite bind_Some by (apply ca_set_ok; rewrite (r_arr _ _ _ _ _ _ R); lia).
  set (arr' := <[i := Z.of_nat k + 1]> (contextArray s)).
  erewrite bind_Some; cycle 1.
  { instantiate (2 := tt). instantiate (1 := set_oldest
      (if Z.of_nat i =? s_oldestSavedSession s
       then oldest_loop (u16 (contextCounter s)) arr' 0 (u16 (-1)) (MAX_ACTIVE_SESSIONS + 1)
       else s_oldestSavedSession s) (set_contextArray arr' s)).
    by destruct (Z.of_nat i =? s_oldestSavedSession s). }
  erewrite bind_Some by (apply slot_set_ok; cbn; rewrite (r_slots _ _ _ _ _ _ R); lia).
  eexists. split; [reflexivity|]. split; [|done].
  unfold Rep. cbn. eapply RepC_load; try done.
  eapply oldest_after; try done.
  - unfold arr'. by rewrite length_insert, (r_arr _ _ _ _ _ _ R).
  - eapply (entries_except _ _ _ (<[k := mkSlot true ses]> (s_sessions s))); try done.
    + intros j k' _ Hj _. rewrite list_lookup_insert_ne; [done|]. intros <-.
      by eapply slot_unused.
    + exists k. split_and!; try done. apply list_lookup_insert_eq. by eapply lookup_lt_Some.
Qed.

(** A saved entry becomes free. *)
Lemma RepC_forget s a i id o' :
  Rep s a → a_tab a !! i = Some (ASaved id) →
  oldest_spec (<[i := AFree]> (a_tab a)) o' →
  RepC (<[i := 0]> (contextArray s)) (contextCounter s) (s_sessions s) o' (s_freeSessionSlots s)
    (set_tab a i AFree).
Proof.
  intros R Hx Hold. unfold set_tab. rewrite (r_next _ _ _ _ _ _ R).
  eapply RepC_update; try done.
  - apply (r_range _ _ _ _ _ _ R).
  - apply (r_low _ _ _ _ _ _ R).
  - intros j id' _ Hj. destruct (r_entry _ _ _ _ _ _ R _ _ Hj) as (e & _ & _ & _ & ? & _). lia.
  - apply (r_slots _ _ _ _ _ _ R).
  - lia.
  - apply (r_free _ _ _ _ _ _ R).
  - cbn. lia.
Qed.

Lemma oldest_not_loaded s a i ses :
  Rep s a → a_tab a !! i = Some (ALoaded ses) → s_oldestSavedSession s ≠ Z.of_nat i.
Proof.
  intros R Hx E. destruct (r_old _ _ _ _ _ _ R) as [(Eo & _)|(id & _ & Hid & _)].
  - assert (Hi := entry_at R _ _ Hx). unfold MAX_ACTIVE_SESSIONS in Eo. lia.
  - rewrite E, Nat2Z.id in Hid. by simplify_eq.
Qed.

Lemma SessionFlush_ok s a handle i x :
  Rep s a → session_handle handle i → a_tab a !! i = Some x → x ≠ AFree →
  ∃ s', SessionFlush handle s = Some (tt, s') ∧ Rep s' (AFlush i a) ∧ frame s s'.
Proof.
  intros R Hh Hx Hne. destruct (Hh) as (Ht & Hi & Hlt). unfold SessionFlush, AFlush. rewrite Ht.
  erewrite (bind_Some _ _ s true s); cycle 1.
  { erewrite bind_Some by (by eapply SessionIsLoaded_ok). destruct x as [|ses|id]; try done.
    exact (SessionIsSaved_ok s a handle i _ R Hh Hx). }
  erewrite bind_Some by (by apply pAssert_true). rewrite Hi.
  erewrite bind_Some by (apply pAssert_true, Z.ltb_lt; unfold MAX_ACTIVE_SESSIONS; lia).
  destruct x as [|ses|id]; [done| |].
  - destruct (loaded_entry _ _ _ _ R Hx) as (k & Hk & He & Hs & Hw).
    erewrite bind_Some by (by apply ca_get_ok).
    erewrite bind_Some by (apply ca_set_ok; rewrite (r_arr _ _ _ _ _ _ R); lia).
    erewrite bind_Some by reflexivity.
    rewrite (proj2 (Z.ltb_ge _ _)) by (unfold MAX_LOADED_SESSIONS; lia). rewrite Hw.
    erewrite bind_Some by (apply set_occupied_ok; exact Hs).
    eexists. split; [reflexivity|]. split; [|done]. unfold Rep, set_tab. cbn.
    rewrite (r_next _ _ _ _ _ _ R). pose proof (r_range _ _ _ _ _ _ R).
    eapply (RepC_unload s a i ses k); try done.
    + apply (r_low _ _ _ _ _ _ R).
    + intros j id _ Hj. destruct (r_entry _ _ _ _ _ _ R _ _ Hj) as (e & _ & _ & _ & ? & _). lia.
    + by left.
    + apply oldest_other; [apply (r_old _ _ _ _ _ _ R)|by eapply oldest_not_loaded|done].
  - destruct (r_entry _ _ _ _ _ _ R _ _ Hx) as (e & He & Ee & H3 & _).
    erewrite bind_Some by (by apply ca_get_ok).
    erewrite bind_Some by (apply ca_set_ok; rewrite (r_arr _ _ _ _ _ _ R); lia).
    erewrite bind_Some by reflexivity. rewrite (proj2 (Z.ltb_lt _ _)) by lia.
    set (arr' := <[i := 0]> (contextArray s)).
    exists (set_oldest
      (if Z.of_nat i =? s_oldestSavedSession s
       then oldest_loop (u16 (contextCounter s)) arr' 0 (u16 (-1)) (MAX_ACTIVE_SESSIONS + 1)
       else s_oldestSavedSession s) (set_contextArray arr' s)).
    change (s_oldestSavedSession (set_contextArray arr' s)) with (s_oldestSavedSession s).
    split; [by destruct (Z.of_nat i =? s_oldestSavedSession s)|]. split; [|done].
    unfold Rep. cbn. eapply RepC_forget; try done.
    eapply oldest_after; try done.
    + unfold arr'. by rewrite length_insert, (r_arr _ _ _ _ _ _ R).
    + by apply (entries_except s a i (s_sessions s) 0 AFree R Hlt).
Qed.

(** ** Startup *)

Lemma count_cleared (l : list SESSION_SLOT) :
  count (λ sl, negb (occupied sl)) (map (λ sl, mkSlot false (session sl)) l) = length l.
Proof. induction l as [|sl l IH]; [done|]. cbn. by rewrite IH. Qed.

(** TPM Reset: every handle is free and the counter restarts. *)
Lemma SessionStartup_reset s a :
  length (contextArray s) = 64%nat → length (s_sessions s) = 3%nat → length (a_tab a) = 64%nat →
  ∃ s', SessionStartup SU_RESET s = Some (true, s') ∧ Rep s' (AStartup SU_RESET a) ∧ frame s s'.
Proof.
  intros La Ls Lt. eexists. split; [reflexivity|]. split; [|done].
  assert (Hf : ∀ i x, map (λ _, AFree) (a_tab a) !! i = Some x → x = AFree ∧ (i < 64)%nat).
  { intros i x Hx. change (map (λ _ : aentry, AFree) (a_tab a)) with ((λ _ : aentry, AFree) <$> a_tab a) in Hx.
    rewrite list_lookup_fmap in Hx. destruct (a_tab a !! i) eqn:E; simplify_eq/=.
    apply lookup_lt_Some in E. split; [done|lia]. }
  unfold Rep. split; cbn [set_oldest set_contextCounter set_contextArray set_free set_sessions
    contextArray contextCounter s_sessions s_oldestSavedSession s_freeSessionSlots a_tab a_next
    AStartup]; try done.
  - by rewrite length_map.
  - by rewrite length_map.
  - by rewrite length_map.
  - intros i x Hx. destruct (Hf _ _ Hx) as (-> & Hi). exists 0. split; [|done].
    change (map (λ _ : Z, 0) (contextArray s)) with ((λ _ : Z, 0) <$> contextArray s).
    rewrite list_lookup_fmap. destruct (lookup_lt_is_Some_2 (contextArray s) i) as [e ->]; [lia|done].
  - intros i j k Hi _ Hk. change (map (λ _ : Z, 0) (contextArray s)) with ((λ _ : Z, 0) <$> contextArray s) in Hi.
    rewrite list_lookup_fmap in Hi. destruct (contextArray s !! i); simplify_eq/=. lia.
  - by rewrite count_cleared, Ls.
  - unfold loaded_count. cbn [a_tab]. rewrite count_none; [done|].
    intros i x Hx. by destruct (Hf _ _ Hx) as (-> & _).
  - intros i j id Hi _. by destruct (Hf _ _ Hi).
  - left. split; [done|]. intros i id Hi. by destruct (Hf _ _ Hi).
Qed.

(** TPM Restart and Resume: the tracking array and the counter come back from
    the saved state, whatever the memory of the slots holds; saved contexts
    stay saved, loaded ones are lost. *)
Lemma SessionStartup_resume s s0 a type :
  Rep s0 a → contextArray s = contextArray s0 → contextCounter s = contextCounter s0 →
  length (s_sessions s) = 3%nat → type ≠ SU_RESET →
  ∃ s', SessionStartup type s = Some (true, s') ∧ Rep s' (AStartup type a) ∧ frame s s'.
Proof.
  intros R Ea Ec Ls Ht.
  set (clr := λ x, if is_loaded x then AFree else x).
  set (cle := λ e, if e <=? MAX_LOADED_SESSIONS then 0 else e).
  set (slots' := map (λ sl, mkSlot false (session sl)) (s_sessions s)).
  set (arr' := map cle (contextArray s)).
  assert (Hent : ∀ i x, map clr (a_tab a) !! i = Some x →
    ∃ e, arr' !! i = Some e ∧ entry_rep slots' (contextCounter s) e x ∧ is_loaded x = false
      ∧ (∀ id, x = ASaved id → a_tab a !! i = Some x)).
  { intros i x Hx. change (map clr (a_tab a)) with (clr <$> a_tab a) in Hx.
    rewrite list_lookup_fmap in Hx. destruct (a_tab a !! i) as [y|] eqn:E; simplify_eq/=.
    destruct (r_entry _ _ _ _ _ _ R _ _ E) as (e & He & Hr). exists (cle e).
    change arr' with (cle <$> contextArray s). rewrite list_lookup_fmap, Ea, He, Ec.
    split; [done|]. unfold cle. destruct y as [|ses|id]; cbn in Hr |- *.
    - by subst.
    - destruct Hr as (k & Hk & -> & _).
      by rewrite (proj2 (Z.leb_le _ _)) by (unfold MAX_LOADED_SESSIONS; lia).
    - destruct Hr as (-> & H3 & Hw). rewrite (proj2 (Z.leb_gt _ _)) by lia. done. }
  assert (La : length arr' = 64%nat) by (unfold arr'; by rewrite length_map, Ea, (r_arr _ _ _ _ _ _ R)).
  assert (Lt : length (map clr (a_tab a)) = 64%nat) by (by rewrite length_map, (r_tab _ _ _ _ _ _ R)).
  exists (set_oldest (oldest_loop (u16 (contextCounter s)) arr' 0 (u16 (-1)) (MAX_ACTIVE_SESSIONS + 1))
    (set_contextArray arr' (set_free MAX_LOADED_SESSIONS (set_sessions slots' s)))).
  split; [by destruct type|]. split; [|done].
  replace (AStartup type a) with (mkA (map clr (a_tab a)) (a_next a)) by (by destruct type).
  unfold Rep. split; cbn [set_oldest set_contextArray set_free set_sessions
    contextArray contextCounter s_sessions s_oldestSavedSession s_freeSessionSlots a_tab a_next];
    try done.
  - unfold slots'. by rewrite length_map.
  - by rewrite (r_next _ _ _ _ _ _ R), Ec.
  - rewrite Ec. apply (r_range _ _ _ _ _ _ R).
  - rewrite Ec. apply (r_low _ _ _ _ _ _ R).
  - intros i x Hx. destruct (Hent _ _ Hx) as (e & He & Hr & _). eauto.
  - intros i j k Hi _ Hk. change arr' with (cle <$> contextArray s) in Hi.
    rewrite list_lookup_fmap in Hi. destruct (contextArray s !! i); simplify_eq/=.
    unfold cle in Hk. destruct (Z.leb_spec z MAX_LOADED_SESSIONS); lia.
  - unfold slots'. by rewrite count_cleared, Ls.
  - unfold loaded_count. cbn [a_tab]. rewrite count_none; [done|].
    intros i x Hx. by destruct (Hent _ _ Hx) as (e & _ & _ & -> & _).
  - intros i j id Hi Hj. destruct (Hent _ _ Hi) as (_ & _ & _ & _ & Hi').
    destruct (Hent _ _ Hj) as (_ & _ & _ & _ & Hj').
    by eapply (r_ids _ _ _ _ _ _ R); eauto.
  - eapply set_oldest_ok; [done..|]. intros i x Hx.
    destruct (Hent _ _ Hx) as (e & He & Hr & _). eauto.
Qed.

(** ** Creation *)

Definition wf_of (n : Z) (b : TPM2B) : Prop := wf2B b ∧ blen (buffer2B b) = n.

Lemma bfill_byte n : Forall is_byte (bfill 0 n).
Proof. apply Forall_replicate. unfold is_byte. lia. Qed.

Lemma zero2B_wf n : 0 ≤ n < 65536 → wf_of n (zero2B n).
Proof.
  intros Hn. unfold wf_of, wf2B. cbn [zero2B size2B buffer2B]. rewrite blen_bfill by lia.
  split_and!; try lia. apply bfill_byte.
Qed.

Lemma contents_size b : wf2B b → blen (contents b) = size2B b.
Proof. intros (Hs & _). unfold contents. apply blen_bread; lia. Qed.

Lemma session_key_ok s bindh seed nonceCaller ses :
  wf_of sizeof_TPMT_HA seed → wf_of sizeof_TPMU_HA (sessionKey ses) →
  ∃ key, session_key_of bindh seed nonceCaller ses s = Some (with_sessionKey key ses, s) ∧
    contents key = CryptKDFa (authHashAlg ses) (contents (EntityGetAuthValue bindh) ++ contents seed)
      SESSION_KEY (contents (nonceTPM ses)) (contents nonceCaller)
      (CryptHashGetDigestSize (authHashAlg ses) * 8).
Proof.
  intros (Ws & Ls) (Wk & Lk). unfold session_key_of.
  destruct (EntityGetAuthValue_wf bindh) as (Wa & La).
  set (auth := EntityGetAuthValue bindh) in *. set (buf := bwrite _ 0 (contents auth)).
  pose proof (contents_size _ Wa) as Lc. pose proof (proj1 Wa) as Ha. pose proof (proj1 Ws) as Hs.
  unfold sizeof_TPMU_HA, sizeof_TPMT_HA in *.
  assert (Lf : blen (bfill 0 (2 * 66)) = 132) by (apply blen_bfill; lia).
  assert (Lb : blen buf = 132) by (unfold buf; rewrite blen_bwrite; lia).
  assert (Wb : wf2B (mkTPM2B (size2B auth) buf)).
  { split_and!; cbn [size2B buffer2B]; try lia.
    apply bwrite_byte; [apply bfill_byte|]. apply bread_byte, Wa. }
  erewrite bind_Some by (apply pAssert_true, Z.leb_le; cbn [size2B]; lia).
  destruct (MemoryConcat2B_ok s _ seed Wb Ws ltac:(cbn [size2B buffer2B]; lia))
    as (key & Hkey & Ckey & _). cbn [buffer2B] in Hkey. rewrite Lb in Hkey.
  rewrite (bind_Some _ _ _ _ _ Hkey).
  pose proof (digest_size_range (authHashAlg ses)) as Hd.
  set (d := CryptHashGetDigestSize (authHashAlg ses)) in *.
  assert (Ek : contents key = contents auth ++ contents seed).
  { rewrite Ckey. f_equal. unfold contents at 1. cbn [size2B buffer2B]. unfold buf.
    apply bread_bwrite_same; lia. }
  rewrite Ek. set (kdf := CryptKDFa _ _ _ _ _ _).
  assert (Lkdf : blen kdf = d).
  { apply CryptKDFa_digest. }
  unfold buffer_write. rewrite (proj2 (inb_true _ _ _)) by lia.
  eexists. split; [reflexivity|]. unfold contents. cbn [size2B buffer2B].
  apply bread_bwrite_same; lia.
Qed.

(** The session key is computed when there is a bind entity or a seed. *)
Lemma session_key_opt s bindh seed nonceCaller ses :
  wf_of sizeof_TPMT_HA seed → sessionKey ses = zero2B sizeof_TPMU_HA →
  ∃ key, (if negb (bindh =? TPM_RH_NULL) || negb (size2B seed =? 0)
          then session_key_of bindh seed nonceCaller ses else ret ses) s
      = Some (with_sessionKey key ses, s) ∧
    contents key = if negb (bindh =? TPM_RH_NULL) || negb (size2B seed =? 0)
      then CryptKDFa (authHashAlg ses) (contents (EntityGetAuthValue bindh) ++ contents seed)
        SESSION_KEY (contents (nonceTPM ses)) (contents nonceCaller)
        (CryptHashGetDigestSize (authHashAlg ses) * 8)
      else [].
Proof.
  intros Wseed Ek. destruct (negb (bindh =? TPM_RH_NULL) || negb (size2B seed =? 0)).
  - apply session_key_ok; [done|]. rewrite Ek. apply zero2B_wf. done.
  - exists (zero2B sizeof_TPMU_HA). split; [|done]. rewrite <- Ek. unfold ret. by destruct ses.
Qed.

(** What a new session contains. *)
Record new_session (s : SessState) (sessionType authHash : Z) (nonceCaller : TPM2B)
    (sym : TPMT_SYM_DEF) (bindh : Z) (seed : TPM2B) (ses : SESSION) : Prop := {
  n_policy : isPolicy (attributes ses) = negb (sessionType =? TPM_SE_HMAC);
  n_trial : isTrialPolicy (attributes ses) = (sessionType =? TPM_SE_TRIAL);
  n_bound : isBound (attributes ses)
    = negb (bindh =? TPM_RH_NULL) && (sessionType =? TPM_SE_HMAC);
  n_da : isDaBound (attributes ses) = negb (bindh =? TPM_RH_NULL) && negb (IsDAExempted bindh);
  n_lockout : isLockoutBound (attributes ses)
    = negb (IsDAExempted bindh) && (bindh =? TPM_RH_LOCKOUT);
  n_hash : authHashAlg ses = authHash;
  n_sym : symmetric ses = sym;
  n_nonce : contents (nonceTPM ses) = (CryptRandomGenerate (rand s) (size2B nonceCaller)).1;
  n_key : contents (sessionKey ses) =
    if negb (bindh =? TPM_RH_NULL) || negb (size2B seed =? 0)
    then CryptKDFa authHash (contents (EntityGetAuthValue bindh) ++ contents seed) SESSION_KEY
      (contents (nonceTPM ses)) (contents nonceCaller) (CryptHashGetDigestSize authHash * 8)
    else [];
  n_entity : isBound (attributes ses) = true → u1 ses = SessionComputeBoundEntity bindh;
  n_digest : isPolicy (attributes ses) = true →
    contents (u2 ses) = bfill 0 (CryptHashGetDigestSize authHash)
    ∧ startTime ses = g_time s ∧ epoch ses = g_timeEpoch s ∧ timeout ses = 0
}.

(** The session before its nonce is drawn. *)
Definition typed_session s (sessionType authHash : Z) : SESSION :=
  if sessionType =? TPM_SE_HMAC then with_authHashAlg authHash zero_session
  else with_u2 (mkTPM2B (CryptHashGetDigestSize authHash) (bfill 0 64))
    (with_times (g_time s) 0 (g_timeEpoch s)
      (with_attributes (mkAttr true false false false false false false false false false
          (sessionType =? TPM_SE_TRIAL) false false false false false)
        (with_authHashAlg authHash zero_session))).

Lemma typed_session_new s sessionType authHash nonceCaller sym bindh seed nonce key :
  sessionType = TPM_SE_HMAC ∨ sessionType = TPM_SE_POLICY ∨ sessionType = TPM_SE_TRIAL →
  contents nonce = (CryptRandomGenerate (rand s) (size2B nonceCaller)).1 →
  contents key = (if negb (bindh =? TPM_RH_NULL) || negb (size2B seed =? 0)
    then CryptKDFa authHash (contents (EntityGetAuthValue bindh) ++ contents seed) SESSION_KEY
      (contents nonce) (contents nonceCaller) (CryptHashGetDigestSize authHash * 8)
    else []) →
  new_session s sessionType authHash nonceCaller sym bindh seed
    (session_binding sessionType bindh
      (with_sessionKey key (with_symmetric sym (with_nonceTPM nonce
        (typed_session s sessionType authHash))))).
Proof.
  intros Ht Hn Hk.
  assert (Hz : contents (mkTPM2B (CryptHashGetDigestSize authHash) (bfill 0 64))
    = bfill 0 (CryptHashGetDigestSize authHash)).
  { pose proof (digest_size_range authHash) as Hd.
    unfold contents, bread, bfill. cbn [size2B buffer2B]. rewrite drop_0, take_replicate. f_equal. lia. }
  destruct (Z.eqb_spec bindh TPM_RH_NULL) as [->|Hb], Ht as [->|[->| ->]];
    (split; unfold session_binding, typed_session; rewrite ?(proj2 (Z.eqb_neq _ _) Hb);
     cbn [negb andb orb] in *; 
     first [reflexivity|assumption|intros _; reflexivity|intros _; by split_and!|discriminate
           |by destruct (IsDAExempted TPM_RH_NULL)]).
Qed.

Lemma session_init_ok s sessionType authHash nonceCaller sym bindh seed nonceTpm :
  wf2B nonceCaller → size2B nonceCaller ≤ sizeof_TPMU_HA →
  wf_of sizeof_TPMT_HA seed → wf_of sizeof_TPMU_HA nonceTpm →
  sessionType = TPM_SE_HMAC ∨ sessionType = TPM_SE_POLICY ∨ sessionType = TPM_SE_TRIAL →
  ∃ ses nt, session_init sessionType authHash nonceCaller sym bindh seed nonceTpm s
      = Some ((ses, nt), set_rand (CryptRandomGenerate (rand s) (size2B nonceCaller)).2 s) ∧
    new_session s sessionType authHash nonceCaller sym bindh seed ses ∧
    contents nt = (CryptRandomGenerate (rand s) (size2B nonceCaller)).1.
Proof.
  intros Wn Hn Wseed (Wt & Lt) Htype. unfold session_init.
  set (ses0 := typed_session s sessionType authHash).
  erewrite (bind_Some _ _ s ses0 s) by (unfold session_type_init, ses0, typed_session;
    by destruct (sessionType =? TPM_SE_HMAC)).
  unfold bind at 1, gets at 1.
  destruct (CryptRandomGenerate_len (rand s) (size2B nonceCaller) (proj1 (proj1 Wn))) as (Lr & Br).
  destruct (CryptRandomGenerate (rand s) (size2B nonceCaller)) as [rb r'] eqn:Er.
  cbn [fst snd] in *. erewrite bind_Some by reflexivity. set (s1 := set_rand r' s).
  assert (Hf : ∀ f : SESSION → TPM2B, f = nonceTPM ∨ f = sessionKey → f ses0 = zero2B 64)
    by (intros f [-> | ->]; unfold ses0, typed_session; by destruct (sessionType =? TPM_SE_HMAC)).
  rewrite (Hf nonceTPM) by auto. cbn [zero2B buffer2B]. unfold sizeof_TPMU_HA in *.
  unfold buffer_write at 1.
  assert (Lf : blen (bfill 0 64) = 64) by (apply blen_bfill; lia). pose proof (blen_nonneg rb).
  rewrite (proj2 (inb_true _ _ _)) by lia. unfold bind at 1, ret at 1.
  set (nonce := mkTPM2B (size2B nonceCaller) (bwrite (bfill 0 64) 0 rb)).
  assert (Lnb : blen (buffer2B nonce) = 64) by (cbn [nonce buffer2B]; rewrite blen_bwrite; lia).
  assert (Wnonce : wf2B nonce).
  { unfold wf2B. rewrite Lnb. cbn [nonce size2B]. split_and!; try lia.
    apply bwrite_byte; [apply bfill_byte|done]. }
  assert (Cn : contents nonce = rb) by (unfold contents; cbn [nonce size2B buffer2B];
    apply bread_bwrite_same; lia).
  destruct (MemoryCopy2B_ok s1 nonceTpm nonce Wt Wnonce ltac:(cbn [nonce size2B]; lia))
    as (nt & Hnt & Cnt & _). rewrite Lt in Hnt.
  change (nonceTPM (with_nonceTPM nonce ses0)) with nonce.
  rewrite (bind_Some _ _ _ _ _ Hnt). cbn iota beta.
  set (ses1 := with_symmetric sym (with_nonceTPM nonce ses0)).
  assert (Eh : authHashAlg ses1 = authHash)
    by (unfold ses1, ses0, typed_session; by destruct (sessionType =? TPM_SE_HMAC)).
  destruct (session_key_opt s1 bindh seed nonceCaller ses1 Wseed) as (key & Hkey & Ckey).
  { apply (Hf sessionKey). auto. }
  rewrite (bind_Some _ _ _ _ _ Hkey). rewrite Eh in Ckey.
  eexists _, nt. split; [reflexivity|]. split; [|by rewrite Cnt].
  apply typed_session_new; [done| |done]. by rewrite Er, Cn.
Qed.

(** The handle is assigned unless the last slot must be kept for the oldest
    context, or every handle is in use. *)
Lemma ContextIdSessionCreate_ok s a handle (k : nat) :
  Rep s a → (k < 3)%nat → s_freeSessionSlots s ≠ 0 →
  ContextIdSessionCreate handle (Z.of_nat k) s =
    if (loaded_count a =? MAX_LOADED_SESSIONS - 1) && gap_full a
    then Some ((TPM_RC_CONTEXT_GAP, handle), s)
    else match first_free (a_tab a) with
         | None => Some ((TPM_RC_SESSION_HANDLES, MAX_ACTIVE_SESSIONS), s)
         | Some h => Some ((TPM_RC_SUCCESS, Z.of_nat h),
             set_contextArray (<[h := Z.of_nat k + 1]> (contextArray s)) s)
         end.
Proof.
  intros R Hk E0. unfold ContextIdSessionCreate.
  erewrite bind_Some by (apply pAssert_true, Z.ltb_lt; unfold MAX_LOADED_SESSIONS; lia).
  do 3 (erewrite bind_Some by reflexivity). pose proof (r_loaded _ _ _ _ _ _ R) as Hf.
  replace (loaded_count a =? MAX_LOADED_SESSIONS - 1) with (s_freeSessionSlots s =? 1)
    by (apply eq_bool_prop_intro; rewrite !Is_true_true, !Z.eqb_eq; lia).
  erewrite (bind_Some _ _ s ((s_freeSessionSlots s =? 1) && gap_full a) s); cycle 1.
  { destruct (s_freeSessionSlots s =? 1); [|by rewrite andb_false_r]. rewrite andb_true_r.
    apply (gap_test _ _ _ R). intros e. apply Z.eqb_sym. }
  destruct ((s_freeSessionSlots s =? 1) && gap_full a); [done|].
  erewrite bind_Some by reflexivity. rewrite (find_entry_ok R).
  destruct (first_free (a_tab a)) as [h|] eqn:Ef; [|done].
  apply first_free_Some in Ef. assert (Hh := entry_at R _ _ Ef).
  rewrite (proj2 (Z.ltb_lt _ _)) by (unfold MAX_ACTIVE_SESSIONS; lia).
  rewrite (wrap_small 16) by lia.
  by erewrite bind_Some by (apply ca_set_ok; rewrite (r_arr _ _ _ _ _ _ R); lia).
Qed.

(** The session is written into the slot that was found. *)
Lemma session_create_at_ok s a (k h : nat) sl sessionType authHash nonceCaller sym bindh seed nonceTpm :
  Rep s a → (k < 3)%nat → s_sessions s !! k = Some sl → occupied sl = false →
  a_tab a !! h = Some AFree →
  wf2B nonceCaller → size2B nonceCaller ≤ sizeof_TPMU_HA →
  wf_of sizeof_TPMT_HA seed → wf_of sizeof_TPMU_HA nonceTpm →
  sessionType = TPM_SE_HMAC ∨ sessionType = TPM_SE_POLICY ∨ sessionType = TPM_SE_TRIAL →
  ∃ ses s' nt,
    session_create_at (Z.of_nat k) sessionType authHash nonceCaller sym bindh seed (Z.of_nat h)
      nonceTpm (set_contextArray (<[h := Z.of_nat k + 1]> (contextArray s)) s)
    = Some ((TPM_RC_SUCCESS,
             Z.of_nat h + (if sessionType =? TPM_SE_HMAC then HMAC_SESSION_FIRST
                           else POLICY_SESSION_FIRST), nt), s') ∧
    Rep s' (set_tab a h (ALoaded ses)) ∧ frame s s' ∧
    new_session s sessionType authHash nonceCaller sym bindh seed ses ∧
    contents nt = contents (nonceTPM ses).
Proof.
  intros R Hk Hs Ho Hx Wn Hn Wseed Wt Htype. unfold session_create_at.
  erewrite bind_Some by reflexivity. erewrite bind_Some by (apply set_occupied_ok; exact Hs).
  match goal with |- context [bind _ _ ?st] => set (s2 := st) end.
  destruct (session_init_ok s2 sessionType authHash nonceCaller sym bindh seed nonceTpm Wn Hn
    Wseed Wt Htype) as (ses & nt & Hinit & Hnew & Cnt).
  exists ses. rewrite (bind_Some _ _ _ _ _ Hinit). cbn iota beta.
  erewrite bind_Some by (apply slot_set_ok; cbn; rewrite length_insert, (r_slots _ _ _ _ _ _ R); lia).
  eexists _, nt. split; [reflexivity|]. split; [|split; [done|]].
  - unfold Rep. cbn. rewrite list_insert_insert_eq. eapply RepC_load; try done.
    apply oldest_other; [apply (r_old _ _ _ _ _ _ R)| |done].
    destruct (r_old _ _ _ _ _ _ R) as [(Eo & _)|(id & _ & Hid & _)].
    + assert (Hh := entry_at R _ _ Hx). unfold MAX_ACTIVE_SESSIONS in Eo. lia.
    + intros E. rewrite E, Nat2Z.id in Hid. by simplify_eq.
  - split; [by destruct Hnew; split|]. by rewrite Cnt, (n_nonce _ _ _ _ _ _ _ _ Hnew).
Qed.

Lemma SessionCreate_ok s a sessionType authHash nonceCaller sym bindh seed sh nonceTpm :
  Rep s a → wf2B nonceCaller → size2B nonceCaller ≤ sizeof_TPMU_HA →
  wf_of sizeof_TPMT_HA seed → wf_of sizeof_TPMU_HA nonceTpm →
  sessionType = TPM_SE_HMAC ∨ sessionType = TPM_SE_POLICY ∨ sessionType = TPM_SE_TRIAL →
  ∃ ses s' nt sh',
    let '(rc, h, a') := ACreate ses a in
    SessionCreate sessionType authHash nonceCaller sym bindh seed sh nonceTpm s
      = Some ((rc, sh', nt), s') ∧ Rep s' a' ∧ frame s s' ∧
    (∀ i, h = Some i →
       new_session s sessionType authHash nonceCaller sym bindh seed ses ∧
       sh' = Z.of_nat i + (if sessionType =? TPM_SE_HMAC then HMAC_SESSION_FIRST
                           else POLICY_SESSION_FIRST) ∧
       contents nt = contents (nonceTPM ses)).
Proof.
  intros R Wn Hn Wseed Wt Htype. unfold ACreate, SessionCreate.
  erewrite bind_Some by (apply pAssert_true; by destruct Htype as [->|[->| ->]]).
  erewrite bind_Some by reflexivity. pose proof (r_loaded _ _ _ _ _ _ R) as Hf.
  replace (loaded_count a =? MAX_LOADED_SESSIONS) with (s_freeSessionSlots s =? 0)
    by (apply eq_bool_prop_intro; rewrite !Is_true_true, !Z.eqb_eq; lia).
  destruct (Z.eqb_spec (s_freeSessionSlots s) 0) as [E0|E0].
  { exists zero_session, s, nonceTpm, sh. by split_and!. }
  erewrite bind_Some by reflexivity.
  destruct (find_slot_ok R E0) as (k & sl & Hk & -> & Hs & Ho).
  erewrite bind_Some by (apply pAssert_true, negb_true_iff, Z.leb_gt; unfold MAX_LOADED_SESSIONS; lia).
  pose proof (ContextIdSessionCreate_ok s a sh k R Hk E0) as Hctx.
  destruct ((loaded_count a =? MAX_LOADED_SESSIONS - 1) && gap_full a).
  { rewrite (bind_Some _ _ _ _ _ Hctx). exists zero_session, s, nonceTpm, sh. by split_and!. }
  destruct (first_free (a_tab a)) as [h|] eqn:Ef; rewrite (bind_Some _ _ _ _ _ Hctx); cbn iota beta.
  2: { exists zero_session, s, nonceTpm, MAX_ACTIVE_SESSIONS. by split_and!. }
  change (negb (TPM_RC_SUCCESS =? TPM_RC_SUCCESS)) with false. cbn iota.
  apply first_free_Some in Ef.
  destruct (session_create_at_ok s a k h sl sessionType authHash nonceCaller sym bindh seed nonceTpm)
    as (ses & s' & nt & Hrun & R' & Hfr & Hnew & Cnt); try done.
  exists ses, s', nt. eexists. split; [exact Hrun|]. split_and!; try done; try apply Hfr.
  by intros i [= <-].
Qed.

End refine.
