(* ===== verification/SessionRun.v ===== *)
(** * Executions of the session module

    [session_step] is one call to Session.c by the command code, with the
    check that the command makes before it: a handle is loaded before it is
    saved, the sequence number is valid before a context is loaded, the handle
    is active before it is flushed.  [astep] is the corresponding step of the
    specification; executions are simulated, and the invariants that need a
    whole history are proved on the specification. *)

From stdpp Require Import relations.
From S2P Require Import Prelude TpmTypes Memory Kdf Session SessionSpec SessionRefine.
Local Open Scope Z_scope.

(** ** Steps of the specification *)

Inductive astep (a : ASess) : ASess → Prop :=
| as_create ses rc h a' : ACreate ses a = (rc, h, a') → astep a a'
| as_save i ses rc id a' :
    a_tab a !! i = Some (ALoaded ses) → ASave i a = (rc, id, a') → astep a a'
| as_load i id ses rc a' :
    a_tab a !! i = Some (ASaved id) → ALoad ses i a = (rc, a') → astep a a'
| as_flush i x : a_tab a !! i = Some x → astep a (AFlush i a)
| as_restart type : type ≠ SU_RESET → astep a (AStartup type a).

Lemma gap_full_true a :
  gap_full a = true ↔ ∃ j, a_tab a !! j = Some (ASaved (a_next a - 65536)).
Proof.
  unfold gap_full. rewrite existsb_exists. split.
  - intros (x & Hx & Hs). destruct x as [| |id]; try done. apply Z.eqb_eq in Hs as ->.
    apply list_elem_of_In, list_elem_of_lookup in Hx. done.
  - intros [j Hj]. exists (ASaved (a_next a - 65536)). split; [|apply Z.eqb_refl].
    apply list_elem_of_In. by eapply list_elem_of_lookup_2.
Qed.

(** A context identifier that no longer stands for the session [i], and that
    was issued in the past, never stands for it again. *)
Definition stale (id : Z) (i : nat) (a : ASess) : Prop :=
  id < a_next a ∧ a_tab a !! i ≠ Some (ASaved id).

Lemma stale_insert id i a h x c' :
  stale id i a → a_next a ≤ c' → x ≠ ASaved id →
  stale id i (mkA (<[h := x]> (a_tab a)) c').
Proof.
  intros (Hlt & Hne) Hc Hx. split; cbn [a_next a_tab]; [lia|]. intros Hi.
  apply list_lookup_insert_Some in Hi as [(_ & ? & _)|(_ & ?)]; done.
Qed.

Lemma next_id_gt c : c < next_id c.
Proof. unfold next_id, MAX_LOADED_SESSIONS. destruct (_ =? 0); lia. Qed.

Lemma stale_step id i a a' : stale id i a → astep a a' → stale id i a'.
Proof.
  intros St [ses rc h a2 Hc|j ses rc id' a2 Hj Hs|j id' ses rc a2 Hj Hl|j x Hj|type Ht].
  - unfold ACreate in Hc. repeat case_match; simplify_eq; try done. by apply stale_insert.
  - unfold ASave in Hs. case_match; simplify_eq; [done|].
    pose proof (next_id_gt (a_next a)). apply stale_insert; [done|lia|].
    destruct St as (Hlt & _). intros [= E]. lia.
  - unfold ALoad in Hl. repeat case_match; simplify_eq; try done. by apply stale_insert.
  - by apply stale_insert.
  - destruct St as (Hlt & Hne).
    assert (E : AStartup type a = mkA (map (λ x, if is_loaded x then AFree else x) (a_tab a)) (a_next a))
      by (by destruct type).
    rewrite E. split; [done|]. cbn [a_tab].
    change (map ?f (a_tab a)) with (f <$> a_tab a). rewrite list_lookup_fmap.
    destruct (a_tab a !! i) as [x|] eqn:Ex; [|done]. cbn. destruct x; cbn; congruence.
Qed.

(** At the maximum gap there is always a free slot, so that the oldest context
    can be brought back. *)
Definition gap_room (a : ASess) : Prop := gap_full a = true → loaded_count a < MAX_LOADED_SESSIONS.

Lemma gap_full_insert a h x :
  (∀ id, x ≠ ASaved id) → gap_full (set_tab a h x) = true → gap_full a = true.
Proof.
  rewrite !gap_full_true. cbn. intros Hx [j Hj]. exists j.
  apply list_lookup_insert_Some in Hj as [(_ & ? & _)|(_ & ?)]; [exfalso; by eapply Hx|done].
Qed.

Lemma loaded_count_insert a h x y c' :
  a_tab a !! h = Some x →
  loaded_count (mkA (<[h := y]> (a_tab a)) c')
  = loaded_count a - (if is_loaded x then 1 else 0) + (if is_loaded y then 1 else 0).
Proof.
  intros Hx. unfold loaded_count. cbn [a_tab].
  pose proof (count_insert is_loaded _ _ _ y Hx). destruct (is_loaded x), (is_loaded y); lia.
Qed.

Section run.
Context {CE : CryptEnv} {HL : HashLib} {H : SessionEnv}.
Implicit Types (s : SessState) (a : ASess).

Lemma gap_room_step s a a' : Rep s a → gap_room a → astep a a' → gap_room a'.
Proof.
  intros R Hr St. pose proof (loaded_bound R) as (Hb & _). unfold gap_room, MAX_LOADED_SESSIONS in *.
  destruct St as [ses rc h a2 Hc|j ses rc id' a2 Hj Hs|j id' ses rc a2 Hj Hl|j x Hj|type Ht].
  - unfold ACreate, MAX_LOADED_SESSIONS in Hc. change (3 - 1) with 2 in Hc.
    destruct (Z.eqb_spec (loaded_count a) 3); [by simplify_eq|].
    destruct (Z.eqb_spec (loaded_count a) 2); cbn [andb] in Hc;
      [destruct (gap_full a) eqn:G; [by simplify_eq; intros; lia|]|];
      (destruct (first_free (a_tab a)) as [k|] eqn:Ef; simplify_eq; [|by intros; lia]);
      apply first_free_Some in Ef; intros G'; unfold set_tab;
      rewrite (loaded_count_insert _ _ _ _ _ Ef); cbn [is_loaded].
    + apply gap_full_insert in G'; [congruence|done].
    + lia.
  - unfold ASave in Hs. destruct (gap_full a) eqn:G; simplify_eq; [intros _; by apply Hr|]. intros _.
    rewrite (loaded_count_insert _ _ _ _ _ Hj). cbn [is_loaded]. lia.
  - unfold ALoad, MAX_LOADED_SESSIONS in Hl. change (3 - 1) with 2 in Hl.
    destruct (Z.eqb_spec (loaded_count a) 3); [by simplify_eq|].
    destruct (Z.eqb_spec (loaded_count a) 2); cbn [andb] in Hl.
    2: { simplify_eq. intros _. unfold set_tab. rewrite (loaded_count_insert _ _ _ _ _ Hj).
         cbn [is_loaded]. lia. }
    destruct (gap_full a) eqn:G; cbn [andb] in Hl.
    2: { simplify_eq. intros G'. apply gap_full_insert in G'; [congruence|done]. }
    rewrite Hj in Hl. cbn in Hl.
    destruct (Z.eqb_spec id' (a_next a - 65536)) as [->|]; cbn [negb] in Hl; simplify_eq; [|lia].
    intros G'. exfalso. apply gap_full_true in G' as [k Hk]. cbn in Hk.
    apply list_lookup_insert_Some in Hk as [(_ & ? & _)|(Hne & Hk)]; [done|].
    apply Hne. by eapply (r_ids _ _ _ _ _ _ R).
  - intros G'. apply gap_full_insert in G'; [|done]. specialize (Hr G').
    unfold AFlush, set_tab. rewrite (loaded_count_insert _ _ _ _ _ Hj). cbn [is_loaded].
    destruct (is_loaded x); lia.
  - intros _. unfold loaded_count. rewrite count_none; [lia|]. intros i x Hx.
    assert (E : a_tab (AStartup type a) = (λ x, if is_loaded x then AFree else x) <$> a_tab a)
      by (by destruct type).
    rewrite E, list_lookup_fmap in Hx. destruct (a_tab a !! i) as [y|]; [|done].
    cbn in Hx. destruct y; by simplify_eq/=.
Qed.

(** ** Steps of the program *)

Inductive session_step (s : SessState) : SessState → Prop :=
| st_create sessionType authHash nonceCaller sym bindh seed sh nonceTpm r s' :
    wf2B nonceCaller → size2B nonceCaller ≤ sizeof_TPMU_HA →
    wf_of sizeof_TPMT_HA seed → wf_of sizeof_TPMU_HA nonceTpm →
    sessionType = TPM_SE_HMAC ∨ sessionType = TPM_SE_POLICY ∨ sessionType = TPM_SE_TRIAL →
    SessionCreate sessionType authHash nonceCaller sym bindh seed sh nonceTpm s = Some (r, s') →
    session_step s s'
| st_save handle i cid r s' :
    session_handle handle i → SessionIsLoaded handle s = Some (true, s) →
    contextCounter s + 1 < 2 ^ 64 →
    SessionContextSave handle cid s = Some (r, s') → session_step s s'
| st_load handle i seq ses r s' :
    session_handle handle i → 0 ≤ seq < 2 ^ 64 →
    SequenceNumberForSavedContextIsValid (mkContext seq handle) s = Some (true, s) →
    SessionContextLoad ses handle s = Some (r, s') → session_step s s'
| st_flush handle i s' :
    session_handle handle i →
    SessionIsLoaded handle s = Some (true, s) ∨ SessionIsSaved handle s = Some (true, s) →
    SessionFlush handle s = Some (tt, s') → session_step s s'
| st_restart type s0 s' :
    (* the RAM of the slots is lost; [gr] and the failure flag come back as saved *)
    type ≠ SU_RESET → contextArray s0 = contextArray s → contextCounter s0 = contextCounter s →
    length (s_sessions s0) = 3%nat → s_inFailureMode s0 = s_inFailureMode s →
    SessionStartup type s0 = Some (true, s') → session_step s s'.

Lemma sequence_saved s a handle i seq :
  Rep s a → session_handle handle i → 0 ≤ seq < 2 ^ 64 →
  SequenceNumberForSavedContextIsValid (mkContext seq handle) s = Some (true, s) →
  ∃ id, a_tab a !! i = Some (ASaved id).
Proof.
  intros R (_ & Hi & Hlt) Hseq Hv. destruct (tab_lookup R i Hlt) as [x Hx].
  rewrite (SequenceNumber_ok _ _ _ _ _ _ R Hi Hx Hseq) in Hv.
  destruct x as [| |id]; cbn in Hv; rewrite ?andb_false_r in Hv; [done..|eauto].
Qed.

(** Every step of the program is a step of the specification. *)
Lemma step_sim s a s' :
  Rep s a → session_step s s' →
  ∃ a', astep a a' ∧ Rep s' a' ∧ s_inFailureMode s' = s_inFailureMode s.
Proof.
  intros R [sty au nc sym bi seed sh nt r s2 W1 H1 W2 W3 Ht Hrun|h i cid r s2 Hh Hl Hc Hrun
           |h i seq ses r s2 Hh Hseq Hv Hrun|h i s2 Hh Hact Hrun|type s0 s2 Ht Ea Ec Ls Ef Hrun].
  - destruct (SessionCreate_ok s a sty au nc sym bi seed sh nt R W1 H1 W2 W3 Ht)
      as (ses & s3 & nt' & sh' & Hok).
    destruct (ACreate ses a) as [[rc h] a'] eqn:E. destruct Hok as (Hr & R' & (_ & _ & _ & Hf) & _).
    rewrite Hrun in Hr. simplify_eq. exists a'. split; [by eapply as_create|done].
  - destruct (tab_lookup R i (proj2 (proj2 Hh))) as [x Hx].
    rewrite (SessionIsLoaded_ok _ _ _ _ _ R Hh Hx) in Hl. destruct x as [|ses|]; try done.
    pose proof (SessionContextSave_ok s a h cid i ses R Hh Hx (λ _, Hc)) as Hok.
    destruct (ASave i a) as [[rc id] a'] eqn:E. destruct Hok as (s3 & Hr & R' & _ & _ & _ & Hf).
    rewrite Hrun in Hr. simplify_eq. exists a'. split; [by eapply as_save|done].
  - destruct (sequence_saved _ _ _ _ _ R Hh Hseq Hv) as [id Hx].
    pose proof (SessionContextLoad_ok s a h i id ses R Hh Hx) as Hok.
    destruct (ALoad ses i a) as [rc a'] eqn:E. destruct Hok as (s3 & Hr & R' & _ & _ & _ & Hf).
    rewrite Hrun in Hr. simplify_eq. exists a'. split; [by eapply as_load|done].
  - destruct (tab_lookup R i (proj2 (proj2 Hh))) as [x Hx].
    rewrite (SessionIsLoaded_ok _ _ _ _ _ R Hh Hx), (SessionIsSaved_ok _ _ _ _ _ R Hh Hx) in Hact.
    assert (Hne : x ≠ AFree) by (intros ->; by destruct Hact).
    destruct (SessionFlush_ok s a h i x R Hh Hx Hne) as (s3 & Hr & R' & _ & _ & _ & Hf).
    rewrite Hrun in Hr. simplify_eq. exists (AFlush i a). split; [by eapply as_flush|done].
  - destruct (SessionStartup_resume s0 s a type R Ea Ec Ls Ht) as (s3 & Hr & R' & _ & _ & _ & Hf).
    rewrite Hrun in Hr. simplify_eq. exists (AStartup type a).
    split; [by apply as_restart|]. by rewrite Hf, Ef.
Qed.

(** The invariant of all executions. *)
Definition SessInv s : Prop :=
  (∃ a, Rep s a ∧ gap_room a) ∧ s_inFailureMode s = false.

Lemma SessInv_step s s' : SessInv s → session_step s s' → SessInv s'.
Proof.
  intros ((a & R & G) & F) St. destruct (step_sim _ _ _ R St) as (a' & As & R' & F').
  split; [|congruence]. exists a'. split; [done|]. exact (gap_room_step s a a' R G As).
Qed.

(** A power cycle with TPM2_Startup(CLEAR) after TPM2_Shutdown(CLEAR). *)
Definition after_reset s : Prop :=
  ∃ s0, length (contextArray s0) = 64%nat ∧ length (s_sessions s0) = 3%nat ∧
    s_inFailureMode s0 = false ∧ SessionStartup SU_RESET s0 = Some (true, s).

Lemma SessInv_reset s : after_reset s → SessInv s.
Proof.
  intros (s0 & La & Ls & F & Hrun).
  destruct (SessionStartup_reset s0 (mkA (replicate 64 AFree) 0) La Ls) as (s' & Hr & R & _ & _ & _ & Hf);
    [done|].
  rewrite Hrun in Hr. simplify_eq. split; [|congruence]. eexists. split; [exact R|].
  intros _. done.
Qed.

Definition session_reachable s : Prop := ∃ s0, after_reset s0 ∧ rtc session_step s0 s.

Lemma SessInv_rtc s s' : rtc session_step s s' → SessInv s → SessInv s'.
Proof. induction 1; eauto using SessInv_step. Qed.

Lemma reachable_inv s : session_reachable s → SessInv s.
Proof. intros (s0 & H0 & Hr). eapply SessInv_rtc; [exact Hr|]. by apply SessInv_reset. Qed.

(** Staleness along an execution. *)
Lemma stale_rtc s s' a id i :
  rtc session_step s s' → Rep s a → stale id i a → ∃ a', Rep s' a' ∧ stale id i a'.
Proof.
  intros Hr. revert a. induction Hr as [s|s s1 s2 St _ IH]; intros a R Hs; [eauto|].
  destruct (step_sim _ _ _ R St) as (a1 & As & R1 & _).
  eapply IH; [exact R1|]. by eapply stale_step.
Qed.

End run.
