(* ===== verification/SessionProps.v ===== *)
(** * The properties of the session module

    The theorems about Session.c, each with a witness on a concrete state. *)

From stdpp Require Import relations.
From S2P Require Import Prelude TpmTypes Memory Kdf Session SessionSpec SessionRefine SessionRun.
Local Open Scope Z_scope.

(** ** Reported handles *)

(** The handles that [f] selects, in order, from index [i] on. *)
Fixpoint report (f : aentry → option Z) (l : list aentry) (i : Z) : list Z :=
  match l with
  | [] => []
  | x :: l =>
      match f x with Some base => (i + base) :: report f l (i + 1) | None => report f l (i + 1) end
  end.

Definition loaded_base (x : aentry) : option Z :=
  match x with
  | ALoaded ses => Some (if isPolicy (attributes ses) then POLICY_SESSION_FIRST else HMAC_SESSION_FIRST)
  | _ => None
  end.
Definition saved_base (x : aentry) : option Z :=
  match x with ASaved _ => Some HMAC_SESSION_FIRST | _ => None end.

Lemma hmac_handle (i : nat) :
  (i < 64)%nat → session_handle (Z.of_nat i + HMAC_SESSION_FIRST) i.
Proof.
  intros Hi. unfold session_handle.
  do 64 (destruct i as [|i]; [split_and!; [vm_compute; reflexivity..|lia]|]). lia.
Qed.

(** ** The value a session is bound to *)

Lemma zip_lxor_0_r l n : length l = n → zip_with Z.lxor l (replicate n 0) = l.
Proof.
  intros <-. induction l as [|x l IH]; [done|]. cbn. by rewrite IH, Z.lxor_0_r.
Qed.

Lemma zip_lxor_0_l l n : length l = n → zip_with Z.lxor (replicate n 0) l = l.
Proof. intros <-. induction l as [|x l IH]; [done|]. cbn. by rewrite IH. Qed.

(** Two operands that do not overlap are concatenated. *)
Lemma zip_fit (n v : bytes) :
  blen n + blen v ≤ 68 →
  zip_with Z.lxor (n ++ bfill 0 (68 - blen n)) (bfill 0 (68 - blen v) ++ v)
  = n ++ bfill 0 (68 - blen n - blen v) ++ v.
Proof.
  unfold blen, bfill. intros Hfit. set (k := (68 - length n - length v)%nat).
  replace (Z.to_nat (68 - Z.of_nat (length n))) with (k + length v)%nat by lia.
  replace (Z.to_nat (68 - Z.of_nat (length v))) with (length n + k)%nat by lia.
  replace (Z.to_nat (68 - Z.of_nat (length n) - Z.of_nat (length v))) with k by lia.
  rewrite !replicate_add, <- app_assoc.
  rewrite zip_with_app by (by rewrite length_replicate). rewrite zip_lxor_0_r by done. f_equal.
  rewrite zip_with_app by (by rewrite !length_replicate).
  rewrite zip_lxor_0_l by (by rewrite length_replicate). f_equal. by apply zip_lxor_0_l.
Qed.

Lemma count_split {A} (p : A → bool) l :
  (count p l + count (λ x, negb (p x)) l)%nat = length l.
Proof. induction l as [|x l IH]; [done|]. cbn. destruct (p x); cbn; lia. Qed.

Lemma bwrite_tail m n v :
  0 ≤ n ≤ blen m → bwrite m n (bfill v (blen m - n)) = bread m 0 n ++ bfill v (blen m - n).
Proof.
  intros Hn. unfold bwrite, bread, blen in *. f_equal.
  rewrite drop_ge; [by rewrite app_nil_r|]. unfold bfill. rewrite length_replicate. lia.
Qed.

Section props.
Context {CE : CryptEnv} {HL : HashLib} {H : SessionEnv}.
Implicit Types (s : SessState) (a : ASess).

Lemma cap_loaded_ok s a count n i acc :
  Rep s a → (i + n = 64)%nat → Z.of_nat (length acc) ≤ count →
  let l := report loaded_base (drop i (a_tab a)) (Z.of_nat i) in
  let k := Z.to_nat (count - Z.of_nat (length acc)) in
  cap_loaded n (Z.of_nat i) count acc s = Some ((acc ++ take k l, (k <? length l)%nat), s).
Proof.
  intros R. revert i acc. induction n as [|n IH]; intros i acc Hin Hacc; cbn [cap_loaded].
  - rewrite drop_ge by (rewrite (r_tab _ _ _ _ _ _ R); lia). cbn. by rewrite take_nil, app_nil_r.
  - destruct (tab_lookup R i ltac:(lia)) as [x Hx]. rewrite (drop_S _ _ _ Hx). cbn [report].
    destruct (entry_class R _ _ Hx) as (e & He & _ & _ & Hc).
    erewrite bind_Some by (by apply ca_get_ok). rewrite <- Hc.
    replace (Z.of_nat i + 1) with (Z.of_nat (S i)) by lia.
    destruct x as [|ses|id]; cbn [is_loaded loaded_base];
      [by rewrite IH by lia| |by rewrite IH by lia].
    destruct (Z.ltb_spec (Z.of_nat (length acc)) count) as [Hlt|Hge].
    + destruct (SessionGet_ok s a _ i ses R (hmac_handle i ltac:(lia)) Hx) as (k & Hg & Hs).
      rewrite (bind_Some _ _ _ _ _ Hg).
      erewrite (bind_Some _ _ s (mkSlot true ses) s) by (unfold slot_get, bind, gets, of_option;
        by rewrite Nat2Z.id, Hs).
      cbn [session]. rewrite IH by (rewrite ?length_app; cbn; lia). rewrite length_app. cbn [length].
      replace (Z.to_nat (count - Z.of_nat (length acc)))
        with (S (Z.to_nat (count - Z.of_nat (length acc + 1)))) by lia.
      cbn [take]. by rewrite <- app_assoc.
    + replace (Z.to_nat (count - Z.of_nat (length acc))) with 0%nat by lia. cbn.
      by rewrite app_nil_r.
Qed.

Lemma cap_saved_ok s a count n i acc :
  Rep s a → (i + n = 64)%nat → Z.of_nat (length acc) ≤ count →
  let l := report saved_base (drop i (a_tab a)) (Z.of_nat i) in
  let k := Z.to_nat (count - Z.of_nat (length acc)) in
  cap_saved n (Z.of_nat i) count acc s = Some ((acc ++ take k l, (k <? length l)%nat), s).
Proof.
  intros R. revert i acc. induction n as [|n IH]; intros i acc Hin Hacc; cbn [cap_saved].
  - rewrite drop_ge by (rewrite (r_tab _ _ _ _ _ _ R); lia). cbn. by rewrite take_nil, app_nil_r.
  - destruct (tab_lookup R i ltac:(lia)) as [x Hx]. rewrite (drop_S _ _ _ Hx). cbn [report].
    destruct (entry_class R _ _ Hx) as (e & He & _ & Hf & Hc).
    erewrite bind_Some by (by apply ca_get_ok).
    assert (Es : negb (e =? 0) && (MAX_LOADED_SESSIONS <? e) = negb (is_free x) && negb (is_loaded x)).
    { rewrite Hc, Hf. rewrite (Z.leb_antisym MAX_LOADED_SESSIONS e).
      by destruct (e =? 0), (MAX_LOADED_SESSIONS <? e). }
    rewrite Es. replace (Z.of_nat i + 1) with (Z.of_nat (S i)) by lia.
    destruct x as [|ses|id]; cbn [is_free is_loaded negb andb saved_base];
      [by rewrite IH by lia|by rewrite IH by lia|].
    destruct (Z.ltb_spec (Z.of_nat (length acc)) count) as [Hlt|Hge].
    + rewrite IH by (rewrite ?length_app; cbn; lia). rewrite length_app. cbn [length].
      replace (Z.to_nat (count - Z.of_nat (length acc)))
        with (S (Z.to_nat (count - Z.of_nat (length acc + 1)))) by lia.
      cbn [take]. by rewrite <- app_assoc.
    + replace (Z.to_nat (count - Z.of_nat (length acc))) with 0%nat by lia. cbn.
      by rewrite app_nil_r.
Qed.

Lemma count_loop_ok (p : Z → bool) arr n : count_loop p arr n = n + Z.of_nat (count p arr).
Proof.
  revert n. induction arr as [|e arr IH]; intros n; cbn [count_loop count]; [lia|].
  rewrite IH. destruct (p e); lia.
Qed.

Lemma count_related {A B} (p : A → bool) (q : B → bool) l l' :
  length l = length l' → (∀ i x, l !! i = Some x → ∃ y, l' !! i = Some y ∧ p x = q y) →
  count p l = count q l'.
Proof.
  revert l'. induction l as [|x l IH]; intros [|y l'] Hl Hx; try done. cbn.
  destruct (Hx 0%nat x eq_refl) as (y' & [= <-] & ->). f_equal. apply IH; [by injection Hl|].
  intros i. apply (Hx (S i)).
Qed.

(** ** What a represented state says about the tracking array *)

Lemma entry_of s a i e :
  Rep s a → contextArray s !! i = Some e →
  ∃ x, a_tab a !! i = Some x ∧ entry_rep (s_sessions s) (contextCounter s) e x.
Proof.
  intros R He. assert (Hi := lookup_lt_Some _ _ _ He). rewrite (r_arr _ _ _ _ _ _ R) in Hi.
  destruct (tab_lookup R i Hi) as [x Hx]. exists x. split; [done|].
  destruct (r_entry _ _ _ _ _ _ R _ _ Hx) as (e' & He' & Hr). by simplify_eq.
Qed.

Lemma tracked_loaded s a i e :
  Rep s a → contextArray s !! i = Some e → 1 ≤ e ≤ MAX_LOADED_SESSIONS →
  ∃ ses, s_sessions s !! Z.to_nat (e - 1) = Some (mkSlot true ses).
Proof.
  intros R He H1. destruct (entry_of _ _ _ _ R He) as (x & _ & Hr).
  destruct x as [|ses|id]; cbn in Hr; [lia| |lia]. destruct Hr as (k & _ & -> & Hs).
  exists ses. by replace (Z.to_nat (Z.of_nat k + 1 - 1)) with k by lia.
Qed.

Lemma tracked_distinct s a i j e :
  Rep s a → contextArray s !! i = Some e → contextArray s !! j = Some e → e ≠ 0 → i = j.
Proof.
  intros R Hi Hj H0. destruct (entry_of _ _ _ _ R Hi) as (x & Hx & Hr).
  destruct (entry_of _ _ _ _ R Hj) as (y & Hy & Hr').
  unfold MAX_LOADED_SESSIONS in *.
  destruct x as [|ses|id]; cbn in Hr; [done| |].
  - destruct Hr as (k & Hk & -> & _).
    eapply (r_inj _ _ _ _ _ _ R); [exact Hi|exact Hj|unfold MAX_LOADED_SESSIONS; lia].
  - destruct Hr as (Ee & H3 & Hw & _). unfold MAX_LOADED_SESSIONS in H3.
    destruct y as [|ses|id']; cbn in Hr'; [done| |].
    + destruct Hr' as (k & Hk & -> & _). lia.
    + destruct Hr' as (Ee' & _ & Hw' & _).
      assert (id = id') as ->; [|by eapply (r_ids _ _ _ _ _ _ R)].
      rewrite Ee in Ee'. pose proof (Z.div_mod id 65536). pose proof (Z.div_mod id' 65536). nia.
Qed.

Lemma key_entry id c : c - 65536 ≤ id < c → u16 (id mod 65536 - c) = id - (c - 65536).
Proof.
  intros Hw. rewrite <- (key_of_id id c Hw). unfold wrap. change (2 ^ 16) with 65536.
  by rewrite Zminus_mod_idemp_r.
Qed.

Lemma tracked_oldest s a i e :
  Rep s a → contextArray s !! i = Some e → MAX_LOADED_SESSIONS < e →
  ∃ eo, contextArray s !! Z.to_nat (s_oldestSavedSession s) = Some eo ∧
    MAX_LOADED_SESSIONS < eo ∧ u16 (eo - contextCounter s) ≤ u16 (e - contextCounter s).
Proof.
  intros R He H3. destruct (entry_of _ _ _ _ R He) as (x & Hx & Hr).
  unfold MAX_LOADED_SESSIONS in *. destruct x as [|ses|id]; cbn in Hr; [lia| |].
  { destruct Hr as (k & ? & -> & _). lia. }
  destruct Hr as (-> & _ & Hw & _).
  destruct (r_old _ _ _ _ _ _ R) as [(_ & Hn)|(ido & _ & Hido & Hm)]; [by apply Hn in Hx|].
  destruct (r_entry _ _ _ _ _ _ R _ _ Hido) as (eo & Heo & -> & H3o & Hwo & _).
  eexists. split; [exact Heo|]. split; [done|]. rewrite !key_entry by done.
  specialize (Hm _ _ Hx). lia.
Qed.

(** ** Histories *)

Lemma save_issued s a handle cid i ses id s1 :
  Rep s a → session_handle handle i → a_tab a !! i = Some (ALoaded ses) →
  contextCounter s + 1 < 2 ^ 64 →
  SessionContextSave handle cid s = Some ((TPM_RC_SUCCESS, id), s1) →
  ∃ a1, Rep s1 a1 ∧ id < a_next a1 ∧ 0 ≤ id < 2 ^ 64.
Proof.
  intros R Hh Hx Hc Hs. pose proof (SessionContextSave_ok s a handle cid i ses R Hh Hx (λ _, Hc)) as Hok.
  unfold ASave in Hok. destruct (gap_full a); destruct Hok as (s' & Hrun & R' & _);
    rewrite Hs in Hrun; [done|]. cbn in Hrun. simplify_eq.
  eexists. split; [exact R'|]. cbn [a_next]. split; [apply next_id_gt|].
  rewrite (r_next _ _ _ _ _ _ R). apply (r_range _ _ _ _ _ _ R).
Qed.

Lemma astep_next a a' : astep a a' → a_next a ≤ a_next a'.
Proof.
  intros [ses rc h a2 Hc|j ses rc id' a2 Hj Hs|j id' ses rc a2 Hj Hl|j x Hj|type Ht].
  - unfold ACreate in Hc. repeat case_match; simplify_eq; cbn; lia.
  - unfold ASave in Hs. pose proof (next_id_gt (a_next a)). case_match; simplify_eq; cbn; lia.
  - unfold ALoad in Hl. repeat case_match; simplify_eq; cbn; lia.
  - cbn. lia.
  - destruct type; cbn; [done|lia|lia].
Qed.

Lemma issued_rtc s s' a id :
  rtc session_step s s' → Rep s a → id < a_next a → ∃ a', Rep s' a' ∧ id < a_next a'.
Proof.
  intros Hr. revert a. induction Hr as [s|s s1 s2 St _ IH]; intros a R Hs; [eauto|].
  destruct (step_sim _ _ _ R St) as (a1 & As & R1 & _).
  eapply IH; [exact R1|]. pose proof (astep_next _ _ As). lia.
Qed.

Lemma rejected_stale s a handle i id :
  Rep s a → session_handle handle i → 0 ≤ id < 2 ^ 64 → id < a_next a →
  SequenceNumberForSavedContextIsValid (mkContext id handle) s = Some (false, s) → stale id i a.
Proof.
  intros R (_ & Hi & Hlt) H0 Hn Hv. split; [done|]. intros Hx.
  rewrite (SequenceNumber_ok _ _ _ _ _ _ R Hi Hx H0) in Hv. cbn in Hv.
  by rewrite Z.eqb_refl in Hv.
Qed.

Lemma stale_rejected s a handle i id :
  Rep s a → session_handle handle i → 0 ≤ id < 2 ^ 64 → stale id i a →
  SequenceNumberForSavedContextIsValid (mkContext id handle) s = Some (false, s).
Proof.
  intros R (_ & Hi & Hlt) H0 (Hn & Hx). destruct (tab_lookup R i Hlt) as [x Ex].
  rewrite (SequenceNumber_ok _ _ _ _ _ _ R Hi Ex H0).
  rewrite (proj2 (Z.eqb_neq id (a_next a))) by lia. rewrite orb_false_r.
  destruct x as [| |id']; [done..|]. cbn. rewrite (proj2 (Z.eqb_neq id' id)); [done|]. congruence.
Qed.

Lemma saved_accepted s a handle i id :
  Rep s a → session_handle handle i → a_tab a !! i = Some (ASaved id) → 0 ≤ id < 2 ^ 64 →
  SequenceNumberForSavedContextIsValid (mkContext id handle) s = Some (true, s).
Proof.
  intros R (_ & Hi & _) Hx H0. rewrite (SequenceNumber_ok _ _ _ _ _ _ R Hi Hx H0).
  cbn [is_saved_as]. by rewrite Z.eqb_refl.
Qed.

(** The two outcomes of a load. *)
Lemma save_load_outcome s1 s2 a1 a2 handle i id ses rc :
  Rep s1 a1 → session_handle handle i → a_tab a1 !! i = Some (ASaved id) →
  ALoad ses i a1 = (rc, a2) → loaded_count a1 < MAX_LOADED_SESSIONS →
  SessionContextLoad ses handle s1 = Some (rc, s2) → Rep s2 a2 →
  rc = TPM_RC_SUCCESS ∧
    (∃ k : nat, SessionGet handle s2 = Some (Z.of_nat k, s2) ∧
       s_sessions s2 !! k = Some (mkSlot true ses))
  ∨ rc = TPM_RC_CONTEXT_GAP ∧ a2 = a1.
Proof.
  intros R1 Hh Hx E Hcnt Hl R2. unfold ALoad in E.
  rewrite (proj2 (Z.eqb_neq _ _)) in E by lia. case_match; simplify_eq; [by right|left].
  split; [done|]. eapply SessionGet_ok; [exact R2|exact Hh|]. cbn.
  apply list_lookup_insert_eq. rewrite (r_tab _ _ _ _ _ _ R1). destruct Hh as (_ & _ & ?). lia.
Qed.

(** Recycling the oldest context. *)
Lemma oldest_recycle s a :
  Rep s a → gap_room a → s_oldestSavedSession s < MAX_ACTIVE_SESSIONS →
  contextArray s !! Z.to_nat (s_oldestSavedSession s) = Some (u16 (contextCounter s)) →
  gap_full a = true ∧
  a_tab a !! Z.to_nat (s_oldestSavedSession s) = Some (ASaved (a_next a - 65536)) ∧
  loaded_count a < MAX_LOADED_SESSIONS.
Proof.
  intros R Hroom Ho He. destruct (gap_entry R Ho) as (e & He' & Hg). rewrite He in He'.
  injection He' as <-. rewrite Z.eqb_refl in Hg. split; [done|]. split; [|by apply Hroom].
  destruct (r_old _ _ _ _ _ _ R) as [(Eo & _)|(id & _ & Hid & Hm)];
    [rewrite Eo in Ho; unfold MAX_ACTIVE_SESSIONS in Ho; lia|].
  destruct (r_entry _ _ _ _ _ _ R _ _ Hid) as (e & Hee & Hm' & _ & Hw & _).
  rewrite He in Hee. injection Hee as <-. rewrite Hid, (r_next _ _ _ _ _ _ R). do 2 f_equal.
  by apply window_unique.
Qed.

Lemma ALoad_oldest ses a i :
  a_tab a !! i = Some (ASaved (a_next a - 65536)) → loaded_count a < MAX_LOADED_SESSIONS →
  ALoad ses i a = (TPM_RC_SUCCESS, set_tab a i (ALoaded ses)).
Proof.
  intros Hx Hc. unfold ALoad. rewrite (proj2 (Z.eqb_neq _ _)) by lia. rewrite Hx. cbn.
  by rewrite Z.eqb_refl, andb_false_r.
Qed.

Lemma gap_cleared s a i ses :
  Rep s a → a_tab a !! i = Some (ASaved (a_next a - 65536)) →
  gap_full (set_tab a i (ALoaded ses)) = false.
Proof.
  intros R Hx. apply not_true_iff_false. intros G. apply gap_full_true in G as [j Hj]. cbn in Hj.
  apply list_lookup_insert_Some in Hj as [(_ & ? & _)|(Hne & Hj)]; [done|].
  apply Hne. by eapply (r_ids _ _ _ _ _ _ R).
Qed.

(** ** The tracking array *)

(** C9. Whatever sequence of session commands, power cycles with saved state
    and failed attempts led to a state, no assertion has failed; the count of
    free slots is the number of unoccupied slots; a loaded handle refers to an
    occupied slot; no two active handles have the same tracking value, so no
    two loaded sessions share a slot and no two saved contexts share the
    truncated identifier; and [s_oldestSavedSession] is the entry that is
    oldest in the order of the truncated counter. *)
Theorem session_tracking_invariant s :
  session_reachable s →
  s_inFailureMode s = false ∧
  s_freeSessionSlots s = Z.of_nat (count (λ sl, negb (occupied sl)) (s_sessions s)) ∧
  (∀ i e, contextArray s !! i = Some e → 1 ≤ e ≤ MAX_LOADED_SESSIONS →
     ∃ ses, s_sessions s !! Z.to_nat (e - 1) = Some (mkSlot true ses)) ∧
  (∀ i j e, contextArray s !! i = Some e → contextArray s !! j = Some e → e ≠ 0 → i = j) ∧
  (∀ i e, contextArray s !! i = Some e → MAX_LOADED_SESSIONS < e →
     ∃ eo, contextArray s !! Z.to_nat (s_oldestSavedSession s) = Some eo ∧
       MAX_LOADED_SESSIONS < eo ∧
       u16 (eo - contextCounter s) ≤ u16 (e - contextCounter s)).
Proof.
  intros Hr. destruct (reachable_inv s Hr) as ((a & R & _) & F).
  split; [done|]. split; [apply (r_free _ _ _ _ _ _ R)|].
  split; [intros; by eapply tracked_loaded|]. split; [intros; by eapply tracked_distinct|].
  intros. by eapply tracked_oldest.
Qed.

(** The exhausted counter. *)
Lemma save_rollover s a handle cid i ses :
  Rep s a → session_handle handle i → a_tab a !! i = Some (ALoaded ses) →
  contextCounter s = 2 ^ 64 - 1 → gap_full a = false →
  ∃ s', SessionContextSave handle cid s = Some ((TPM_RC_TOO_MANY_CONTEXTS, contextCounter s), s') ∧
    SessionIsLoaded handle s = Some (true, s) ∧ SessionIsLoaded handle s' = Some (false, s') ∧
    s_sessions s' = s_sessions s ∧ s_freeSessionSlots s' = s_freeSessionSlots s ∧
    contextCounter s' = contextCounter s ∧ ∀ j, j ≠ i → contextArray s' !! j = contextArray s !! j.
Proof.
  intros R Hh Hx Hc G. destruct (Hh) as (Ht & Hi & Hlt).
  destruct (loaded_entry _ _ _ _ R Hx) as (k & Hk & He & Hs & Hw).
  exists (set_contextArray (<[i := 65535]> (contextArray s)) s).
  pose proof (SessionIsLoaded_ok s a handle i _ R Hh Hx) as Hl. cbn [is_loaded] in Hl.
  split; [|split; [done|split; [|split_and!; try done; intros j Hj; by apply list_lookup_insert_ne]]].
  - unfold SessionContextSave. rewrite (bind_Some _ _ _ _ _ Hl).
    erewrite bind_Some by (by apply pAssert_true).
    do 2 (erewrite bind_Some by reflexivity).
    erewrite bind_Some by (apply (gap_test _ _ _ R); done). rewrite G, Hi.
    erewrite bind_Some by (apply pAssert_true, Z.ltb_lt; unfold MAX_ACTIVE_SESSIONS; lia).
    erewrite bind_Some by (by apply ca_get_ok).
    erewrite bind_Some by (apply ca_set_ok; rewrite (r_arr _ _ _ _ _ _ R); lia).
    erewrite bind_Some by reflexivity. rewrite Hc. destruct s. cbn in Hc. subst. reflexivity.
  - unfold SessionIsLoaded. erewrite bind_Some by (by apply pAssert_true). rewrite Hi.
    rewrite (proj2 (Z.leb_gt _ _)) by (unfold MAX_ACTIVE_SESSIONS; lia).
    erewrite bind_Some; [|apply (ca_get_ok _ i 65535); cbn; apply list_lookup_insert_eq;
      rewrite (r_arr _ _ _ _ _ _ R); lia]. reflexivity.
Qed.

(** C23. Saving a loaded session, on every branch.  At the maximum gap
    [TPM_RC_CONTEXT_GAP] and nothing changes.  Otherwise, while the 64-bit counter is
    not at its last value, the caller receives a context identifier that is the
    counter, the handle is saved under it, the slot is free again, the counter
    moves on (over the values that mean a slot number), and every other session is
    as it was.  At the last value of the counter [TPM_RC_TOO_MANY_CONTEXTS]: the
    counter, the slots and the entries of the other handles are as they were, but
    the entry of the handle has been overwritten, so it is not loaded any more while
    its slot stays occupied. *)
Theorem session_save_refines s a handle cid i ses :
  Rep s a → session_handle handle i → a_tab a !! i = Some (ALoaded ses) →
  ((gap_full a = false → contextCounter s + 1 < 2 ^ 64) →
   let '(rc, id, a') := ASave i a in
   ∃ s', SessionContextSave handle cid s = Some ((rc, default cid id), s') ∧ Rep s' a' ∧ frame s s') ∧
  (gap_full a = false → ¬ contextCounter s + 1 < 2 ^ 64 →
   ∃ s', SessionContextSave handle cid s = Some ((TPM_RC_TOO_MANY_CONTEXTS, contextCounter s), s') ∧
     SessionIsLoaded handle s = Some (true, s) ∧ SessionIsLoaded handle s' = Some (false, s') ∧
     s_sessions s' = s_sessions s ∧ s_freeSessionSlots s' = s_freeSessionSlots s ∧
     contextCounter s' = contextCounter s ∧ ∀ j, j ≠ i → contextArray s' !! j = contextArray s !! j).
Proof.
  intros R Hh Hx. split; [by apply (SessionContextSave_ok s a handle cid i ses)|]. intros G Hc.
  pose proof (r_range _ _ _ _ _ _ R). apply (save_rollover s a handle cid i ses R Hh Hx); [lia|done].
Qed.

(** C24. Loading a saved context: [TPM_RC_SESSION_MEMORY] without a free slot,
    [TPM_RC_CONTEXT_GAP] when the gap is at its maximum, one slot is left and the
    context is not the oldest one, and otherwise the session's contents are in a
    slot of its own and its identifier is given up.  (The comment at the head of
    [SessionContextLoad] says that at the maximum gap only the oldest session can
    be loaded; the code refuses the others for the last free slot only.) *)
Theorem session_load_refines s a handle i id ses :
  Rep s a → session_handle handle i → a_tab a !! i = Some (ASaved id) →
  let '(rc, a') := ALoad ses i a in
  ∃ s', SessionContextLoad ses handle s = Some (rc, s') ∧ Rep s' a' ∧ frame s s'.
Proof. apply SessionContextLoad_ok. Qed.

(** C25. Starting a session: the response code and the handle are those of the
    specification (no slot, maximum gap with one slot left, no handle, or the
    first free handle), the new session has the requested type, algorithms and
    binding, a fresh nonce that is also returned, a zero policy digest of the
    right size and the session key derived from the bind entity and the seed. *)
Theorem session_create_refines s a sessionType authHash nonceCaller sym bindh seed sh nonceTpm :
  Rep s a → wf2B nonceCaller → size2B nonceCaller ≤ sizeof_TPMU_HA →
  wf_of sizeof_TPMT_HA seed → wf_of sizeof_TPMU_HA nonceTpm →
  sessionType = TPM_SE_HMAC ∨ sessionType = TPM_SE_POLICY ∨ sessionType = TPM_SE_TRIAL →
  ∃ ses s' nt sh',
    let '(rc, h, a') := ACreate ses a in
    SessionCreate sessionType authHash nonceCaller sym bindh seed sh nonceTpm s
      = Some ((rc, sh', nt), s') ∧ Rep s' a' ∧ frame s s' ∧
    (∀ i, h = Some i →
       new_session s sessionType authHash nonceCaller sym bindh seed ses ∧
       sh' = Z.of_nat i + (if sessionType =? TPM_SE_HMAC then HMAC_SESSION_FIRST
                           else POLICY_SESSION_FIRST) ∧
       contents nt = contents (nonceTPM ses)).
Proof. apply SessionCreate_ok. Qed.

(** Flushing an active session frees its handle, and its slot if it was
    loaded; the other sessions are untouched and the oldest saved context is
    found again. *)
Theorem session_flush_refines s a handle i x :
  Rep s a → session_handle handle i → a_tab a !! i = Some x → x ≠ AFree →
  ∃ s', SessionFlush handle s = Some (tt, s') ∧ Rep s' (AFlush i a) ∧ frame s s'.
Proof. apply SessionFlush_ok. Qed.

(** TPM Restart and TPM Resume: from the preserved tracking array and
    counter, with arbitrary contents of the session slots, every saved context
    is still saved under its identifier, every session that was loaded is
    gone, and all slots are free. *)
Theorem session_startup_keeps_saved s s0 a type :
  Rep s0 a → contextArray s = contextArray s0 → contextCounter s = contextCounter s0 →
  length (s_sessions s) = 3%nat → type ≠ SU_RESET →
  ∃ s', SessionStartup type s = Some (true, s') ∧ Rep s' (AStartup type a) ∧ frame s s'.
Proof. apply SessionStartup_resume. Qed.

(** Saving and loading a session is the identity on its contents: the
    identifier returned by the save is accepted for the saved handle, and the
    load either puts the same session back under the same handle, or reports
    [TPM_RC_CONTEXT_GAP] because an older context must be recycled first, and
    then the saved context is still accepted. *)
Theorem session_save_load s a handle cid i ses :
  Rep s a → session_handle handle i → a_tab a !! i = Some (ALoaded ses) →
  contextCounter s + 1 < 2 ^ 64 → gap_full a = false →
  ∃ id s1 rc s2,
    SessionContextSave handle cid s = Some ((TPM_RC_SUCCESS, id), s1) ∧
    SequenceNumberForSavedContextIsValid (mkContext id handle) s1 = Some (true, s1) ∧
    SessionContextLoad ses handle s1 = Some (rc, s2) ∧
    (rc = TPM_RC_SUCCESS ∧
       (∃ k : nat, SessionGet handle s2 = Some (Z.of_nat k, s2) ∧
          s_sessions s2 !! k = Some (mkSlot true ses))
     ∨ rc = TPM_RC_CONTEXT_GAP ∧
       SequenceNumberForSavedContextIsValid (mkContext id handle) s2 = Some (true, s2)).
Proof.
  intros R Hh Hx Hc G. pose proof (SessionContextSave_ok s a handle cid i ses R Hh Hx (λ _, Hc)) as Hsave.
  unfold ASave in Hsave. rewrite G in Hsave. destruct Hsave as (s1 & Hrun & R1 & _).
  destruct (Hh) as (_ & Hi & Hlt). pose proof (r_range _ _ _ _ _ _ R) as Hr.
  assert (Hx1 : <[i := ASaved (a_next a)]> (a_tab a) !! i = Some (ASaved (a_next a))).
  { apply list_lookup_insert_eq. rewrite (r_tab _ _ _ _ _ _ R). lia. }
  pose proof (SessionContextLoad_ok s1 _ handle i (a_next a) ses R1 Hh Hx1) as Hload.
  destruct (ALoad ses i _) as [rc a2] eqn:E. destruct Hload as (s2 & Hl & R2 & _).
  exists (a_next a), s1, rc, s2. split; [exact Hrun|]. split; [|split; [exact Hl|]].
  { eapply saved_accepted; try done. rewrite (r_next _ _ _ _ _ _ R). lia. }
  destruct (save_load_outcome s1 s2 _ a2 handle i _ ses rc R1 Hh Hx1 E) as [?|(Egap & ->)]; try done.
  { rewrite (loaded_count_insert _ _ _ _ _ Hx). pose proof (loaded_bound R) as (Hb & _).
    cbn. unfold MAX_LOADED_SESSIONS. lia. }
  { by left. }
  right. split; [done|]. eapply saved_accepted; try done. rewrite (r_next _ _ _ _ _ _ R). lia.
Qed.

(** C7. A saved context cannot be replayed: once the pair of handle and
    identifier that a save returned is no longer accepted (the context was
    loaded again or flushed), it is not accepted in any later state, whatever
    commands and resumes follow, and however often the 16-bit tracking value
    comes round. *)
Theorem session_no_replay s a handle cid i ses id s1 s2 s3 :
  Rep s a → session_handle handle i → a_tab a !! i = Some (ALoaded ses) →
  contextCounter s + 1 < 2 ^ 64 →
  SessionContextSave handle cid s = Some ((TPM_RC_SUCCESS, id), s1) →
  rtc session_step s1 s2 →
  SequenceNumberForSavedContextIsValid (mkContext id handle) s2 = Some (false, s2) →
  rtc session_step s2 s3 →
  SequenceNumberForSavedContextIsValid (mkContext id handle) s3 = Some (false, s3).
Proof.
  intros R Hh Hx Hc Hsave Hr12 Hv Hr23.
  destruct (save_issued _ _ _ _ _ _ _ _ R Hh Hx Hc Hsave) as (a1 & R1 & Hlt & H0).
  destruct (issued_rtc _ _ _ _ Hr12 R1 Hlt) as (a2 & R2 & Hlt2).
  assert (St : stale id i a2) by (by eapply rejected_stale).
  destruct (stale_rtc _ _ _ _ _ Hr23 R2 St) as (a3 & R3 & St3).
  by eapply stale_rejected.
Qed.

(** C17. The oldest context can always be recycled: in every state that
    satisfies the invariant, when the gap is at its maximum (so that no other
    session can be saved) loading the oldest saved context succeeds, and
    saving it again then succeeds with a new identifier. *)
Theorem session_gap_recovery s handle cid ses :
  SessInv s → contextCounter s + 1 < 2 ^ 64 →
  s_oldestSavedSession s < MAX_ACTIVE_SESSIONS →
  contextArray s !! Z.to_nat (s_oldestSavedSession s) = Some (u16 (contextCounter s)) →
  session_handle handle (Z.to_nat (s_oldestSavedSession s)) →
  ∃ s1 s2, SessionContextLoad ses handle s = Some (TPM_RC_SUCCESS, s1) ∧
    SessionContextSave handle cid s1 = Some ((TPM_RC_SUCCESS, contextCounter s), s2) ∧
    SessInv s2.
Proof.
  intros ((a & R & Hroom) & F) Hc Ho He Hh.
  destruct (oldest_recycle s a R Hroom Ho He) as (Hg & Hx & Hcnt).
  pose proof (SessionContextLoad_ok s a handle _ _ ses R Hh Hx) as Hload.
  rewrite (ALoad_oldest _ _ _ Hx Hcnt) in Hload. destruct Hload as (s1 & Hl & R1 & Fr1).
  assert (Hx1 : a_tab (set_tab a (Z.to_nat (s_oldestSavedSession s)) (ALoaded ses))
    !! Z.to_nat (s_oldestSavedSession s) = Some (ALoaded ses)).
  { cbn. apply list_lookup_insert_eq. rewrite (r_tab _ _ _ _ _ _ R). destruct Hh as (_ & _ & ?). lia. }
  assert (Ec : contextCounter s1 = contextCounter s)
    by (by rewrite <- (r_next _ _ _ _ _ _ R1), <- (r_next _ _ _ _ _ _ R)).
  pose proof (SessionContextSave_ok s1 _ handle cid _ ses R1 Hh Hx1 ltac:(lia)) as Hsave.
  unfold ASave in Hsave. rewrite (gap_cleared s a _ ses R Hx) in Hsave.
  destruct Hsave as (s2 & Hs & R2 & Fr2). exists s1, s2. split; [exact Hl|].
  rewrite <- (r_next _ _ _ _ _ _ R). split; [exact Hs|]. split.
  - eexists. split; [exact R2|]. intros _. rewrite (loaded_count_insert _ _ _ _ _ Hx1).
    pose proof (loaded_bound R1) as (Hb & _). cbn [is_loaded]. unfold MAX_LOADED_SESSIONS. lia.
  - destruct Fr1 as (_ & _ & _ & F1), Fr2 as (_ & _ & _ & F2). congruence.
Qed.

(** The check of a saved context's sequence number accepts exactly the
    identifier under which the handle was saved, except that at the maximum
    gap the present value of the counter, which has not been issued, is
    accepted for the oldest context too. *)
Theorem session_sequence_check s a h seq i x :
  Rep s a → Z.land h HR_HANDLE_MASK = Z.of_nat i → a_tab a !! i = Some x → 0 ≤ seq < 2 ^ 64 →
  SequenceNumberForSavedContextIsValid (mkContext seq h) s =
    Some (is_saved_as seq x || ((seq =? a_next a) && is_saved_as (a_next a - 65536) x), s).
Proof. apply SequenceNumber_ok. Qed.

(** When the 64-bit counter is exhausted, [SessionContextSave] returns
    [TPM_RC_TOO_MANY_CONTEXTS] but has already overwritten the tracking entry:
    the handle is no longer loaded, while its slot stays occupied and the
    number of free slots is unchanged. *)
Theorem session_counter_rollover s a handle cid i ses :
  Rep s a → session_handle handle i → a_tab a !! i = Some (ALoaded ses) →
  contextCounter s = 2 ^ 64 - 1 → gap_full a = false →
  ∃ s', SessionContextSave handle cid s = Some ((TPM_RC_TOO_MANY_CONTEXTS, contextCounter s), s') ∧
    SessionIsLoaded handle s = Some (true, s) ∧ SessionIsLoaded handle s' = Some (false, s') ∧
    s_sessions s' = s_sessions s ∧ s_freeSessionSlots s' = s_freeSessionSlots s.
Proof.
  intros R Hh Hx Hc G. destruct (save_rollover s a handle cid i ses R Hh Hx Hc G) as (s' & ? & ? & ? & ? & ? & _).
  by exists s'.
Qed.

(** ** Capabilities *)

(** [SessionCapGetLoaded] reports the loaded sessions with a handle at or
    after the given one, in order and with the handle type of the session, at
    most [count] of them, and says whether some were left out;
    [SessionCapGetSaved] does the same for the saved ones. *)
Theorem session_cap_lists s a h1 h2 i1 i2 count :
  Rep s a → 0 ≤ count →
  HandleGetType h1 = TPM_HT_LOADED_SESSION → HandleGetType h2 = TPM_HT_SAVED_SESSION →
  Z.land h1 HR_HANDLE_MASK = Z.of_nat i1 → Z.land h2 HR_HANDLE_MASK = Z.of_nat i2 →
  (i1 ≤ 64)%nat → (i2 ≤ 64)%nat →
  let n := Z.to_nat (Z.min count MAX_CAP_HANDLES) in
  let loaded := report loaded_base (drop i1 (a_tab a)) (Z.of_nat i1) in
  let saved := report saved_base (drop i2 (a_tab a)) (Z.of_nat i2) in
  SessionCapGetLoaded h1 count s = Some ((take n loaded, (n <? length loaded)%nat), s) ∧
  SessionCapGetSaved h2 count s = Some ((take n saved, (n <? length saved)%nat), s).
Proof.
  intros R Hc T1 T2 E1 E2 L1 L2 n loaded saved.
  assert (Hlim : cap_limit count = Z.min count MAX_CAP_HANDLES)
    by (unfold cap_limit; zcase; lia).
  assert (Hm : 0 ≤ Z.min count MAX_CAP_HANDLES) by (change MAX_CAP_HANDLES with 254; lia).
  unfold SessionCapGetLoaded, SessionCapGetSaved. rewrite T1, T2, E1, E2, Hlim.
  erewrite !bind_Some by (by apply pAssert_true).
  unfold MAX_ACTIVE_SESSIONS.
  rewrite (cap_loaded_ok s a _ _ i1 []) by (done || (cbn; lia)).
  rewrite (cap_saved_ok s a _ _ i2 []) by (done || (cbn; lia)).
  cbn [length app]. rewrite !Z.sub_0_r. done.
Qed.

(** The counts reported for sessions: the number of loaded sessions and of
    free slots add up to 3, the number of active handles and of available ones
    add up to 64, and each is the number of handles in that state. *)
Theorem session_cap_numbers s a :
  Rep s a →
  SessionCapGetLoadedNumber s = Some (loaded_count a, s) ∧
  SessionCapGetLoadedAvail s = Some (MAX_LOADED_SESSIONS - loaded_count a, s) ∧
  SessionCapGetActiveAvail s = Some (Z.of_nat (count is_free (a_tab a)), s) ∧
  SessionCapGetActiveNumber s = Some (MAX_ACTIVE_SESSIONS - Z.of_nat (count is_free (a_tab a)), s).
Proof.
  intros R. pose proof (r_loaded _ _ _ _ _ _ R) as Hf. pose proof (loaded_bound R) as Hb.
  assert (Ha : count (λ e, e =? 0) (contextArray s) = count is_free (a_tab a)).
  { symmetry. apply count_related; [by rewrite (r_arr _ _ _ _ _ _ R), (r_tab _ _ _ _ _ _ R)|].
    intros i x Hx. destruct (entry_class R _ _ Hx) as (e & He & _ & Hfr & _). eauto. }
  pose proof (count_split (λ e, e =? 0) (contextArray s)) as Hs.
  rewrite (r_arr _ _ _ _ _ _ R) in Hs.
  unfold SessionCapGetLoadedNumber, SessionCapGetLoadedAvail, SessionCapGetActiveAvail,
    SessionCapGetActiveNumber, gets. rewrite !count_loop_ok, !wrap_small by (unfold MAX_LOADED_SESSIONS in *; lia).
  split_and!; do 2 f_equal; unfold MAX_ACTIVE_SESSIONS in *; lia.
Qed.

(** [SessionCapGetOneLoaded] and [SessionCapGetOneSaved] are documented to
    say whether a session is loaded, respectively saved; both say only that
    the handle is active. *)
Theorem session_cap_one_is_active s a h1 h2 i x :
  Rep s a → a_tab a !! i = Some x →
  HandleGetType h1 = TPM_HT_LOADED_SESSION → HandleGetType h2 = TPM_HT_SAVED_SESSION →
  Z.land h1 HR_HANDLE_MASK = Z.of_nat i → Z.land h2 HR_HANDLE_MASK = Z.of_nat i →
  SessionCapGetOneLoaded h1 s = Some (negb (is_free x), s) ∧
  SessionCapGetOneSaved h2 s = Some (negb (is_free x), s).
Proof.
  intros R Hx T1 T2 E1 E2. destruct (entry_class R _ _ Hx) as (e & He & _ & -> & _).
  assert (Hi := entry_at R _ _ Hx).
  unfold SessionCapGetOneLoaded, SessionCapGetOneSaved. rewrite T1, T2, E1, E2.
  erewrite !bind_Some by (by apply pAssert_true).
  rewrite (proj2 (Z.ltb_lt _ _)) by (unfold MAX_ACTIVE_SESSIONS; lia).
  by erewrite !bind_Some by (by apply ca_get_ok).
Qed.

(** ** Binding *)

(** The binding value of an entity fills the whole buffer: it is the Name
    followed by zeros, exclusive-ored with the authorization value right
    aligned; when both fit, it is the Name, zeros, and the authorization value. *)
Theorem session_bound_entity h :
  let n := contents (EntityGetName h) in
  let v := contents (EntityGetAuthValue h) in
  let b := SessionComputeBoundEntity h in
  size2B b = sizeof_TPMU_NAME ∧
  buffer2B b = zip_with Z.lxor (n ++ bfill 0 (sizeof_TPMU_NAME - blen n))
                 (bfill 0 (sizeof_TPMU_NAME - blen v) ++ v) ∧
  (blen n + blen v ≤ sizeof_TPMU_NAME →
     buffer2B b = n ++ bfill 0 (sizeof_TPMU_NAME - blen n - blen v) ++ v).
Proof.
  intros n v b. destruct (EntityGetName_wf h) as (Wn & Ln), (EntityGetAuthValue_wf h) as (Wv & Lv).
  pose proof (contents_size _ Wn) as En. pose proof (contents_size _ Wv) as Ev. fold n in En. fold v in Ev.
  destruct Wn as (Hn & _), Wv as (Hv & _). unfold sizeof_TPMU_NAME, sizeof_TPMU_HA in *.
  assert (E : buffer2B b = zip_with Z.lxor (n ++ bfill 0 (68 - blen n)) (bfill 0 (68 - blen v) ++ v)).
  { unfold b, SessionComputeBoundEntity, bound_entity, MemorySet, sizeof_TPMU_NAME. cbn [buffer2B].
    rewrite <- Ln, bwrite_tail by lia. fold (contents (EntityGetName h)). fold n. fold v.
    rewrite <- En, <- Ev. unfold bfill at 2. apply xor_at_zip.
    rewrite length_app. unfold bfill. rewrite length_replicate. unfold blen in *. lia. }
  split; [done|]. split; [done|]. intros Hfit. rewrite E. by apply zip_fit.
Qed.

End props.

(** ** Witnesses *)

Lemma bfill_bytes v n : is_byte v → Forall is_byte (bfill v n).
Proof. intros Hv. by apply Forall_replicate. Qed.

Definition demo_auth : TPM2B := mkTPM2B 2 (bfill 5 2 ++ bfill 0 62).
Definition demo_name : TPM2B := mkTPM2B 4 (bfill 3 4 ++ bfill 0 64).

Lemma demo_wf b n :
  0 ≤ size2B b ≤ n → n < 65536 → blen (buffer2B b) = n → forallb (λ x, (0 <=? x) && (x <? 256)) (buffer2B b) = true →
  wf2B b ∧ blen (buffer2B b) = n.
Proof.
  intros Hs Hn Hl Hb. split; [|done]. split_and!; try lia.
  apply list.Forall_forall. intros x Hx. apply forallb_forall with (x := x) in Hb.
  - apply andb_true_iff in Hb as [H1%Z.leb_le H2%Z.ltb_lt]. done.
  - by apply list_elem_of_In.
Qed.

#[local] Program Instance demo_crypt : CryptEnv := {|
  drbg := unit;
  CryptRandomGenerate d n := (bfill 7 n, d)
|}.
Next Obligation. intros d n Hn. cbn. split; [by apply blen_bfill|]. apply bfill_bytes. done. Qed.

#[local] Instance demo_hash : HashLib.
Proof.
  refine {| Hash alg d := bfill (fold_left Z.add d 1 mod 256) (CryptHashGetDigestSize alg) |}.
  - intros alg d. apply blen_bfill, digest_size_range.
  - intros alg d. apply Forall_replicate. apply Z.mod_pos_bound. lia.
Defined.

#[local] Program Instance demo_env : SessionEnv := {|
  EntityGetAuthValue _ := demo_auth;
  EntityGetName _ := demo_name;
  IsDAExempted h := negb (h =? TPM_RH_LOCKOUT)
|}.
Next Obligation. intros h. apply demo_wf; [unfold sizeof_TPMU_HA, sizeof_TPMU_NAME; cbn; lia|done|reflexivity|reflexivity]. Qed.
Next Obligation. intros h. apply demo_wf; [unfold sizeof_TPMU_HA, sizeof_TPMU_NAME; cbn; lia|done|reflexivity|reflexivity]. Qed.

(** After TPM Reset: every handle is free. *)
Definition demo_s0 : SessState :=
  mkSess (replicate 64 0) 0 0 (replicate 3 (mkSlot false zero_session)) 0 0 100 5 tt false.
Definition demo_s1 : SessState :=
  mkSess (replicate 64 0) 4 0 (replicate 3 (mkSlot false zero_session)) 65 3 100 5 tt false.
Definition demo_a1 : ASess := mkA (replicate 64 AFree) 4.

Lemma demo_rep1 : Rep demo_s1 demo_a1.
Proof.
  destruct (SessionStartup_reset demo_s0 (mkA (replicate 64 AFree) 0)) as (s' & Hr & R & _); [done..|].
  assert (s' = demo_s1) as ->; [|exact R].
  assert (E : SessionStartup SU_RESET demo_s0 = Some (true, demo_s1)) by (vm_compute; reflexivity).
  rewrite E in Hr. by injection Hr.
Qed.

(** One session loaded, with handle 0x02000000. *)
Definition demo_ses : SESSION := with_authHashAlg TPM_ALG_SHA256 zero_session.
Definition demo_s2 : SessState :=
  mkSess (<[0%nat := 1]> (replicate 64 0)) 4 0
    (<[0%nat := mkSlot true demo_ses]> (replicate 3 (mkSlot false zero_session))) 65 2 100 5 tt false.
Definition demo_a2 : ASess := set_tab demo_a1 0 (ALoaded demo_ses).

Lemma demo_rep2 : Rep demo_s2 demo_a2.
Proof.
  apply (RepC_load demo_s1 demo_a1 0 AFree demo_ses 0 (mkSlot false zero_session) 65);
    [exact demo_rep1|reflexivity|reflexivity|lia|reflexivity|reflexivity|].
  apply oldest_other; [apply (r_old _ _ _ _ _ _ demo_rep1)|done|done].
Qed.

Lemma demo_handle0 : session_handle 0x02000000 0.
Proof. split_and!; [vm_compute; reflexivity..|lia]. Qed.

(** The session saved under identifier 4. *)
Definition demo_s3 : SessState :=
  mkSess (<[0%nat := 4]> (replicate 64 0)) 5 0
    (<[0%nat := mkSlot false demo_ses]> (replicate 3 (mkSlot false zero_session))) 0 3 100 5 tt false.
Definition demo_a3 : ASess := mkA (<[0%nat := ASaved 4]> (a_tab demo_a2)) 5.

Lemma demo_save : SessionContextSave 0x02000000 0 demo_s2 = Some ((TPM_RC_SUCCESS, 4), demo_s3).
Proof. vm_compute. reflexivity. Qed.

Lemma demo_rep3 : Rep demo_s3 demo_a3.
Proof.
  pose proof (SessionContextSave_ok demo_s2 demo_a2 0x02000000 0 0 demo_ses demo_rep2 demo_handle0
    eq_refl ltac:(done)) as Hok.
  replace (ASave 0 demo_a2) with (TPM_RC_SUCCESS, Some 4, demo_a3) in Hok by (vm_compute; reflexivity).
  destruct Hok as (s' & Hr & R & _). cbn [default] in Hr. rewrite demo_save in Hr. by injection Hr as <-.
Qed.

(** The gap at its maximum: handle 0 was saved 2^16 identifiers ago. *)
Definition demo_s4 : SessState :=
  mkSess (<[0%nat := 4]> (replicate 64 0)) 65540 0 (replicate 3 (mkSlot false zero_session)) 0 3
    100 5 tt false.
Definition demo_a4 : ASess := mkA (<[0%nat := ASaved 4]> (replicate 64 AFree)) 65540.

Lemma demo_rep4 : Rep demo_s4 demo_a4.
Proof.
  apply (RepC_update (replicate 64 0) 4 (replicate 3 (mkSlot false zero_session)) 65 3 demo_a1 0 AFree);
    try done; [exact demo_rep1| | | |].
  - intros i id _ Hi. by apply lookup_replicate in Hi as [? _].
  - intros _ i _ Hi. by apply lookup_replicate in Hi as [? _].
  - intros id i [= <-] _ Hi. by apply lookup_replicate in Hi as [? _].
  - right. exists 4. split; [done|]. split; [done|]. intros j id' Hj.
    apply list_lookup_insert_Some in Hj as [(_ & [= ->] & _)|(_ & Hj)]; [lia|].
    by apply lookup_replicate in Hj as [? _].
Qed.

(** The counter exhausted, with a session loaded. *)
Definition demo_s5 : SessState :=
  mkSess (<[0%nat := 1]> (replicate 64 0)) (2 ^ 64 - 1) 0
    (<[0%nat := mkSlot true demo_ses]> (replicate 3 (mkSlot false zero_session))) 65 2 100 5 tt false.
Definition demo_a5 : ASess := mkA (<[0%nat := ALoaded demo_ses]> (replicate 64 AFree)) (2 ^ 64 - 1).

Lemma demo_rep5 : Rep demo_s5 demo_a5.
Proof.
  apply (RepC_update (replicate 64 0) 4 (replicate 3 (mkSlot false zero_session)) 65 3 demo_a1 0 AFree);
    try done; [exact demo_rep1| | | | |].
  - intros i id _ Hi. by apply lookup_replicate in Hi as [? _].
  - exists 0%nat. split_and!; [lia|done|done].
  - intros i k _ Hk Hi. apply lookup_replicate in Hi as [? _]. lia.
  - intros _ i _ Hi. by apply lookup_replicate in Hi as [? _].
  - apply oldest_other; [apply (r_old _ _ _ _ _ _ demo_rep1)|done|done].
Qed.

Definition demo_nonce : TPM2B := mkTPM2B 16 (bfill 1 16 ++ bfill 0 48).
Definition run_state {A} (m : M SessState A) (s : SessState) : SessState :=
  match m s with Some (_, s') => s' | None => s end.

Lemma demo_nonce_wf : wf_of sizeof_TPMU_HA demo_nonce.
Proof. apply demo_wf; [unfold sizeof_TPMU_HA; cbn; lia|done|reflexivity|reflexivity]. Qed.

Lemma demo_seed_wf : wf_of sizeof_TPMT_HA (zero2B 66).
Proof. apply zero2B_wf. done. Qed.

(** A policy session created after TPM Reset, and then saved. *)
Definition demo_c1 : SessState :=
  run_state (SessionCreate TPM_SE_POLICY TPM_ALG_SHA256 demo_nonce (mkSymDef 16 0 0) TPM_RH_LOCKOUT
    (zero2B 66) 0 demo_nonce) demo_s1.
Definition demo_c2 : SessState := run_state (SessionContextSave 0x03000000 0) demo_c1.

Lemma demo_reachable : session_reachable demo_c2.
Proof.
  exists demo_s1. split.
  - exists demo_s0. split_and!; [reflexivity..|]. vm_compute. reflexivity.
  - eapply rtc_l; [|apply rtc_once].
    + eapply (st_create demo_s1 TPM_SE_POLICY TPM_ALG_SHA256 demo_nonce (mkSymDef 16 0 0)
        TPM_RH_LOCKOUT (zero2B 66) 0 demo_nonce (TPM_RC_SUCCESS, 0x03000000, _) demo_c1);
        [apply demo_nonce_wf|done|apply demo_seed_wf|apply demo_nonce_wf|by right; left|].
      vm_compute. reflexivity.
    + eapply (st_save demo_c1 0x03000000 0 0 (TPM_RC_SUCCESS, 4) demo_c2);
        [split_and!; [vm_compute; reflexivity..|lia]|vm_compute; reflexivity|vm_compute; reflexivity|].
      vm_compute. reflexivity.
Qed.

Lemma session_tracking_invariant_witness : s_inFailureMode demo_c2 = false.
Proof. exact (proj1 (session_tracking_invariant demo_c2 demo_reachable)). Defined.

Lemma session_save_refines_witness :
  ∃ s', SessionContextSave 0x02000000 0 demo_s2 = Some ((TPM_RC_SUCCESS, 4), s') ∧ Rep s' demo_a3
    ∧ frame demo_s2 s'.
Proof.
  exact (proj1 (session_save_refines demo_s2 demo_a2 0x02000000 0 0 demo_ses demo_rep2 demo_handle0
    eq_refl) (λ _, eq_refl)).
Defined.

Lemma session_load_refines_witness :
  ∃ s', SessionContextLoad demo_ses 0x02000000 demo_s3 = Some (TPM_RC_SUCCESS, s') ∧
    Rep s' (set_tab demo_a3 0 (ALoaded demo_ses)) ∧ frame demo_s3 s'.
Proof.
  exact (session_load_refines demo_s3 demo_a3 0x02000000 0 4 demo_ses demo_rep3 demo_handle0 eq_refl).
Defined.

Lemma session_create_refines_witness :
  ∃ ses s' nt sh',
    SessionCreate TPM_SE_HMAC TPM_ALG_SHA256 demo_nonce (mkSymDef 16 0 0) TPM_RH_LOCKOUT
      (zero2B 66) 0 demo_nonce demo_s1 = Some ((TPM_RC_SUCCESS, sh', nt), s') ∧
    sh' = 0x02000000 ∧ isLockoutBound (attributes ses) = true.
Proof.
  destruct (session_create_refines demo_s1 demo_a1 TPM_SE_HMAC TPM_ALG_SHA256 demo_nonce
    (mkSymDef 16 0 0) TPM_RH_LOCKOUT (zero2B 66) 0 demo_nonce demo_rep1 (proj1 demo_nonce_wf)
    ltac:(discriminate) demo_seed_wf demo_nonce_wf (or_introl eq_refl))
    as (ses & s' & nt & sh' & Hrun & _ & _ & Hnew).
  destruct (Hnew 0%nat eq_refl) as (Hses & Hsh & _).
  exists ses, s', nt, sh'. split; [exact Hrun|]. split; [exact Hsh|].
  exact (n_lockout _ _ _ _ _ _ _ _ Hses).
Defined.

Lemma session_flush_refines_witness :
  ∃ s', SessionFlush 0x02000000 demo_s2 = Some (tt, s') ∧ Rep s' (AFlush 0 demo_a2) ∧ frame demo_s2 s'.
Proof.
  exact (session_flush_refines demo_s2 demo_a2 0x02000000 0 (ALoaded demo_ses) demo_rep2 demo_handle0
    eq_refl ltac:(discriminate)).
Defined.

Lemma session_startup_keeps_saved_witness :
  ∃ s', SessionStartup SU_RESUME demo_s3 = Some (true, s') ∧
    Rep s' (AStartup SU_RESUME demo_a3) ∧ frame demo_s3 s'.
Proof.
  exact (session_startup_keeps_saved demo_s3 demo_s3 demo_a3 SU_RESUME demo_rep3 eq_refl eq_refl
    eq_refl ltac:(discriminate)).
Defined.

Lemma session_save_load_witness :
  ∃ id s1, SessionContextSave 0x02000000 0 demo_s2 = Some ((TPM_RC_SUCCESS, id), s1) ∧
    SequenceNumberForSavedContextIsValid (mkContext id 0x02000000) s1 = Some (true, s1).
Proof.
  destruct (session_save_load demo_s2 demo_a2 0x02000000 0 0 demo_ses demo_rep2 demo_handle0 eq_refl
    eq_refl eq_refl) as (id & s1 & _ & _ & H1 & H2 & _).
  exists id, s1. split; [exact H1|exact H2].
Defined.

(** The saved context of [demo_s3] is flushed, and no longer accepted. *)
Definition demo_s6 : SessState := run_state (SessionFlush 0x02000000) demo_s3.

Lemma demo_flush_step : rtc session_step demo_s3 demo_s6.
Proof.
  apply rtc_once. eapply (st_flush demo_s3 0x02000000 0); [exact demo_handle0|right|];
    vm_compute; reflexivity.
Qed.

Lemma session_no_replay_witness :
  SequenceNumberForSavedContextIsValid (mkContext 4 0x02000000) demo_s6 = Some (false, demo_s6).
Proof.
  apply (session_no_replay demo_s2 demo_a2 0x02000000 0 0 demo_ses 4 demo_s3 demo_s6 demo_s6
    demo_rep2 demo_handle0 eq_refl eq_refl demo_save demo_flush_step); [|exact (rtc_refl _ _)].
  vm_compute. reflexivity.
Defined.

Lemma demo_inv4 : SessInv demo_s4.
Proof. split; [|reflexivity]. exists demo_a4. split; [exact demo_rep4|]. intros _. done. Qed.

Lemma session_gap_recovery_witness :
  ∃ s1 s2, SessionContextLoad demo_ses 0x02000000 demo_s4 = Some (TPM_RC_SUCCESS, s1) ∧
    SessionContextSave 0x02000000 0 s1 = Some ((TPM_RC_SUCCESS, 65540), s2) ∧ SessInv s2.
Proof.
  exact (session_gap_recovery demo_s4 0x02000000 0 demo_ses demo_inv4 eq_refl eq_refl eq_refl
    demo_handle0).
Defined.

Lemma session_sequence_check_witness :
  SequenceNumberForSavedContextIsValid (mkContext 65540 0x02000000) demo_s4 = Some (true, demo_s4).
Proof.
  exact (session_sequence_check demo_s4 demo_a4 0x02000000 65540 0 (ASaved 4) demo_rep4 eq_refl
    eq_refl ltac:(lia)).
Defined.

Lemma session_counter_rollover_witness :
  ∃ s', SessionContextSave 0x02000000 0 demo_s5
      = Some ((TPM_RC_TOO_MANY_CONTEXTS, 2 ^ 64 - 1), s') ∧
    SessionIsLoaded 0x02000000 s' = Some (false, s') ∧ s_freeSessionSlots s' = 2.
Proof.
  destruct (session_counter_rollover demo_s5 demo_a5 0x02000000 0 0 demo_ses demo_rep5 demo_handle0
    eq_refl eq_refl eq_refl) as (s' & H1 & _ & H3 & _ & H5).
  exists s'. split; [exact H1|]. split; [exact H3|exact H5].
Defined.

Lemma session_cap_lists_witness :
  SessionCapGetLoaded 0x02000000 10 demo_s2 = Some (([0x02000000], false), demo_s2).
Proof.
  exact (proj1 (session_cap_lists demo_s2 demo_a2 0x02000000 0x03000000 0 0 10 demo_rep2
    ltac:(lia) eq_refl eq_refl eq_refl eq_refl ltac:(lia) ltac:(lia))).
Defined.

Lemma session_cap_numbers_witness : SessionCapGetActiveNumber demo_s2 = Some (1, demo_s2).
Proof. exact (proj2 (proj2 (proj2 (session_cap_numbers demo_s2 demo_a2 demo_rep2)))). Defined.

Lemma session_cap_one_is_active_witness :
  SessionCapGetOneLoaded 0x02000000 demo_s3 = Some (true, demo_s3) ∧
  SessionIsLoaded 0x02000000 demo_s3 = Some (false, demo_s3).
Proof.
  split; [|vm_compute; reflexivity].
  exact (proj1 (session_cap_one_is_active demo_s3 demo_a3 0x02000000 0x03000000 0 (ASaved 4)
    demo_rep3 eq_refl eq_refl eq_refl eq_refl eq_refl)).
Defined.

Lemma session_bound_entity_witness :
  buffer2B (SessionComputeBoundEntity TPM_RH_OWNER) = bfill 3 4 ++ bfill 0 62 ++ bfill 5 2.
Proof.
  assert (Hfit : blen (contents demo_name) + blen (contents demo_auth) ≤ sizeof_TPMU_NAME)
    by (vm_compute; discriminate).
  exact (proj2 (proj2 (session_bound_entity TPM_RH_OWNER)) Hfit).
Defined.
