(* ===== verification/Pcr.v ===== *)
(** * Platform configuration registers (src/PCR.c, src/PlatformPCR.c, the PCR
    commands of src/IntegrityCommands.c)

    The registers are the array [s_pcrs] of structures of octet arrays, without
    padding: a flat memory of 24 structures of 164 octets, and a pointer into it
    is an offset.  The saved registers [gc.pcrSave] are a flat memory too.  The
    hash algorithms are reached through the interface [HashLib]. *)

From S2P Require Import Prelude TpmTypes Memory.
Local Open Scope Z_scope.

(** ** Constants (TpmProfile_Misc.h, TpmTypes.h) *)

Definition IMPLEMENTATION_PCR : Z := 24.
Definition PCR_SELECT_MAX : Z := 3.
Definition PCR_FIRST : Z := 0.
Definition PCR_LAST : Z := PCR_FIRST + IMPLEMENTATION_PCR - 1.
Definition DRTM_PCR : Z := 17.
Definition HCRTM_PCR : Z := 0.
Definition NUM_STATIC_PCR : Z := 16.
Definition NUM_POLICY_PCR_GROUP : Z := 1.
Definition NUM_AUTHVALUE_PCR_GROUP : Z := 1.

(** ** Data *)

Record TPMS_PCR_SELECTION := mkSel { sel_hash : Z; sizeofSelect : Z; pcrSelect : bytes }.

(** [PCR_Attributes] (pcrstruct.h). *)
Record PCR_Attributes := mkPcrAttr {
  stateSave : bool; doNotIncrementPcrCounter : bool; policyAuthGroup : Z; authValuesGroup : Z;
  resetLocality : Z; extendLocality : Z
}.

Record PcrState := mkPcr {
  s_pcrs : bytes;      (* the registers *)
  pcrSave : bytes;      (* gc.pcrSave *)
  pcrAuth : TPM2B;      (* gc.pcrAuthValues.auth[0] *)
  pcrPolicyAlg : Z;      (* gp.pcrPolicies.hashAlg[0] *)
  pcrPolicy : TPM2B;      (* gp.pcrPolicies.policy[0] *)
  pcrAllocated : list TPMS_PCR_SELECTION;      (* gp.pcrAllocated *)
  nv_pcrAllocated : list TPMS_PCR_SELECTION;      (* its copy in NV *)
  nv_pcrPolicies : Z * TPM2B;      (* the copy of gp.pcrPolicies in NV *)
  pcrCounter : Z;      (* gr.pcrCounter *)
  p_reConfig : bool;      (* g_pcrReConfig *)
  p_DrtmPreStartup : bool;      (* g_DrtmPreStartup *)
  p_started : bool;      (* TPMIsStarted() *)
  p_locality : Z;      (* s_locality *)
  p_NvStatus : Z;      (* g_NvStatus *)
  p_orderly : Z;      (* gp.orderlyState *)
  p_clearOrderly : bool;      (* g_clearOrderly *)
  p_updateNV : Z;      (* g_updateNV *)
  p_failed : bool;      (* g_inFailureMode *)
}.

Definition set_s_pcrs (x : bytes) (s : PcrState) : PcrState :=
    mkPcr x (pcrSave s) (pcrAuth s) (pcrPolicyAlg s) (pcrPolicy s) (pcrAllocated s)
    (nv_pcrAllocated s) (nv_pcrPolicies s) (pcrCounter s) (p_reConfig s) (p_DrtmPreStartup s)
    (p_started s) (p_locality s) (p_NvStatus s) (p_orderly s) (p_clearOrderly s) (p_updateNV s)
    (p_failed s).
Definition set_pcrSave (x : bytes) (s : PcrState) : PcrState :=
    mkPcr (s_pcrs s) x (pcrAuth s) (pcrPolicyAlg s) (pcrPolicy s) (pcrAllocated s)
    (nv_pcrAllocated s) (nv_pcrPolicies s) (pcrCounter s) (p_reConfig s) (p_DrtmPreStartup s)
    (p_started s) (p_locality s) (p_NvStatus s) (p_orderly s) (p_clearOrderly s) (p_updateNV s)
    (p_failed s).
Definition set_pcrAuth (x : TPM2B) (s : PcrState) : PcrState :=
    mkPcr (s_pcrs s) (pcrSave s) x (pcrPolicyAlg s) (pcrPolicy s) (pcrAllocated s)
    (nv_pcrAllocated s) (nv_pcrPolicies s) (pcrCounter s) (p_reConfig s) (p_DrtmPreStartup s)
    (p_started s) (p_locality s) (p_NvStatus s) (p_orderly s) (p_clearOrderly s) (p_updateNV s)
    (p_failed s).
Definition set_pcrPolicyAlg (x : Z) (s : PcrState) : PcrState :=
    mkPcr (s_pcrs s) (pcrSave s) (pcrAuth s) x (pcrPolicy s) (pcrAllocated s) (nv_pcrAllocated
    s) (nv_pcrPolicies s) (pcrCounter s) (p_reConfig s) (p_DrtmPreStartup s) (p_started s)
    (p_locality s) (p_NvStatus s) (p_orderly s) (p_clearOrderly s) (p_updateNV s) (p_failed s).
Definition set_pcrPolicy (x : TPM2B) (s : PcrState) : PcrState :=
    mkPcr (s_pcrs s) (pcrSave s) (pcrAuth s) (pcrPolicyAlg s) x (pcrAllocated s)
    (nv_pcrAllocated s) (nv_pcrPolicies s) (pcrCounter s) (p_reConfig s) (p_DrtmPreStartup s)
    (p_started s) (p_locality s) (p_NvStatus s) (p_orderly s) (p_clearOrderly s) (p_updateNV s)
    (p_failed s).
Definition set_pcrAllocated (x : list TPMS_PCR_SELECTION) (s : PcrState) : PcrState :=
    mkPcr (s_pcrs s) (pcrSave s) (pcrAuth s) (pcrPolicyAlg s) (pcrPolicy s) x (nv_pcrAllocated
    s) (nv_pcrPolicies s) (pcrCounter s) (p_reConfig s) (p_DrtmPreStartup s) (p_started s)
    (p_locality s) (p_NvStatus s) (p_orderly s) (p_clearOrderly s) (p_updateNV s) (p_failed s).
Definition set_nv_pcrAllocated (x : list TPMS_PCR_SELECTION) (s : PcrState) : PcrState :=
    mkPcr (s_pcrs s) (pcrSave s) (pcrAuth s) (pcrPolicyAlg s) (pcrPolicy s) (pcrAllocated s) x
    (nv_pcrPolicies s) (pcrCounter s) (p_reConfig s) (p_DrtmPreStartup s) (p_started s)
    (p_locality s) (p_NvStatus s) (p_orderly s) (p_clearOrderly s) (p_updateNV s) (p_failed s).
Definition set_nv_pcrPolicies (x : Z * TPM2B) (s : PcrState) : PcrState :=
    mkPcr (s_pcrs s) (pcrSave s) (pcrAuth s) (pcrPolicyAlg s) (pcrPolicy s) (pcrAllocated s)
    (nv_pcrAllocated s) x (pcrCounter s) (p_reConfig s) (p_DrtmPreStartup s) (p_started s)
    (p_locality s) (p_NvStatus s) (p_orderly s) (p_clearOrderly s) (p_updateNV s) (p_failed s).
Definition set_pcrCounter (x : Z) (s : PcrState) : PcrState :=
    mkPcr (s_pcrs s) (pcrSave s) (pcrAuth s) (pcrPolicyAlg s) (pcrPolicy s) (pcrAllocated s)
    (nv_pcrAllocated s) (nv_pcrPolicies s) x (p_reConfig s) (p_DrtmPreStartup s) (p_started s)
    (p_locality s) (p_NvStatus s) (p_orderly s) (p_clearOrderly s) (p_updateNV s) (p_failed s).
Definition set_p_reConfig (x : bool) (s : PcrState) : PcrState :=
    mkPcr (s_pcrs s) (pcrSave s) (pcrAuth s) (pcrPolicyAlg s) (pcrPolicy s) (pcrAllocated s)
    (nv_pcrAllocated s) (nv_pcrPolicies s) (pcrCounter s) x (p_DrtmPreStartup s) (p_started s)
    (p_locality s) (p_NvStatus s) (p_orderly s) (p_clearOrderly s) (p_updateNV s) (p_failed s).
Definition set_p_DrtmPreStartup (x : bool) (s : PcrState) : PcrState :=
    mkPcr (s_pcrs s) (pcrSave s) (pcrAuth s) (pcrPolicyAlg s) (pcrPolicy s) (pcrAllocated s)
    (nv_pcrAllocated s) (nv_pcrPolicies s) (pcrCounter s) (p_reConfig s) x (p_started s)
    (p_locality s) (p_NvStatus s) (p_orderly s) (p_clearOrderly s) (p_updateNV s) (p_failed s).
Definition set_p_started (x : bool) (s : PcrState) : PcrState :=
    mkPcr (s_pcrs s) (pcrSave s) (pcrAuth s) (pcrPolicyAlg s) (pcrPolicy s) (pcrAllocated s)
    (nv_pcrAllocated s) (nv_pcrPolicies s) (pcrCounter s) (p_reConfig s) (p_DrtmPreStartup s) x
    (p_locality s) (p_NvStatus s) (p_orderly s) (p_clearOrderly s) (p_updateNV s) (p_failed s).
Definition set_p_locality (x : Z) (s : PcrState) : PcrState :=
    mkPcr (s_pcrs s) (pcrSave s) (pcrAuth s) (pcrPolicyAlg s) (pcrPolicy s) (pcrAllocated s)
    (nv_pcrAllocated s) (nv_pcrPolicies s) (pcrCounter s) (p_reConfig s) (p_DrtmPreStartup s)
    (p_started s) x (p_NvStatus s) (p_orderly s) (p_clearOrderly s) (p_updateNV s) (p_failed s).
Definition set_p_NvStatus (x : Z) (s : PcrState) : PcrState :=
    mkPcr (s_pcrs s) (pcrSave s) (pcrAuth s) (pcrPolicyAlg s) (pcrPolicy s) (pcrAllocated s)
    (nv_pcrAllocated s) (nv_pcrPolicies s) (pcrCounter s) (p_reConfig s) (p_DrtmPreStartup s)
    (p_started s) (p_locality s) x (p_orderly s) (p_clearOrderly s) (p_updateNV s) (p_failed s).
Definition set_p_orderly (x : Z) (s : PcrState) : PcrState :=
    mkPcr (s_pcrs s) (pcrSave s) (pcrAuth s) (pcrPolicyAlg s) (pcrPolicy s) (pcrAllocated s)
    (nv_pcrAllocated s) (nv_pcrPolicies s) (pcrCounter s) (p_reConfig s) (p_DrtmPreStartup s)
    (p_started s) (p_locality s) (p_NvStatus s) x (p_clearOrderly s) (p_updateNV s) (p_failed
    s).
Definition set_p_clearOrderly (x : bool) (s : PcrState) : PcrState :=
    mkPcr (s_pcrs s) (pcrSave s) (pcrAuth s) (pcrPolicyAlg s) (pcrPolicy s) (pcrAllocated s)
    (nv_pcrAllocated s) (nv_pcrPolicies s) (pcrCounter s) (p_reConfig s) (p_DrtmPreStartup s)
    (p_started s) (p_locality s) (p_NvStatus s) (p_orderly s) x (p_updateNV s) (p_failed s).
Definition set_p_updateNV (x : Z) (s : PcrState) : PcrState :=
    mkPcr (s_pcrs s) (pcrSave s) (pcrAuth s) (pcrPolicyAlg s) (pcrPolicy s) (pcrAllocated s)
    (nv_pcrAllocated s) (nv_pcrPolicies s) (pcrCounter s) (p_reConfig s) (p_DrtmPreStartup s)
    (p_started s) (p_locality s) (p_NvStatus s) (p_orderly s) (p_clearOrderly s) x (p_failed s).
Definition set_p_failed (x : bool) (s : PcrState) : PcrState :=
    mkPcr (s_pcrs s) (pcrSave s) (pcrAuth s) (pcrPolicyAlg s) (pcrPolicy s) (pcrAllocated s)
    (nv_pcrAllocated s) (nv_pcrPolicies s) (pcrCounter s) (p_reConfig s) (p_DrtmPreStartup s)
    (p_started s) (p_locality s) (p_NvStatus s) (p_orderly s) (p_clearOrderly s) (p_updateNV s)
    x.

#[global] Instance PcrState_fail : FailState PcrState := {| set_failure := set_p_failed true |}.

(** [NV_WRITE_PERSISTENT(pcrAllocated, ...)] and [NV_SYNC_PERSISTENT(pcrPolicies)]:
    the item's copy in NV is written and the write is flagged. *)
Definition NV_WRITE_pcrAllocated (x : list TPMS_PCR_SELECTION) (s : PcrState) : PcrState :=
  set_nv_pcrAllocated x (set_p_updateNV (Z.lor (p_updateNV s) UT_NV) s).
Definition NV_SYNC_pcrPolicies (s : PcrState) : PcrState :=
  set_nv_pcrPolicies (pcrPolicyAlg s, pcrPolicy s) (set_p_updateNV (Z.lor (p_updateNV s) UT_NV) s).

(** ** The platform's table (PlatformPCR.c) *)

Definition static_pcr : PCR_Attributes := mkPcrAttr true false 0 0 0 0x1F.
Definition s_initAttributes : list PCR_Attributes :=
  replicate 16 static_pcr ++
  [mkPcrAttr false true 0 0 0x0F 0x1F;
   mkPcrAttr false false 0 0 0x10 0x1C;
   mkPcrAttr false false 0 0 0x10 0x1C;
   mkPcrAttr false false 0 0 0x10 0x0C;
   mkPcrAttr false false 0 0 0x1C 0x0E;
   mkPcrAttr false true 0 0 0x1C 0x04;
   mkPcrAttr false true 0 0 0x1C 0x04;
   mkPcrAttr false true 0 0 0x0F 0x1F].

Definition platPcr__NumberOfPcrs : Z := Z.of_nat (List.length s_initAttributes).

Definition platPcr__GetPcrInitializationAttributes (pcrNumber : Z) : PCR_Attributes :=
  let pcrNumber := if platPcr__NumberOfPcrs <=? pcrNumber then 0 else pcrNumber in
  List.nth (Z.to_nat pcrNumber) s_initAttributes static_pcr.

Definition platPcr_IsPcrBankDefaultActive (pcrAlg : Z) : bool :=
  existsb (Z.eqb pcrAlg) [TPM_ALG_SHA256; TPM_ALG_SHA384].

(** ** Selections *)

(** [array[pcr / 8] & (1 << (pcr % 8))] *)
Definition select_bit (pcrSelect : bytes) (pcr : Z) : bool :=
  negb (Z.land (List.nth (Z.to_nat (pcr / 8)) pcrSelect 0) (Z.shiftl 1 (pcr mod 8)) =? 0).

Definition IsPcrSelected (pcr : Z) (selection : TPMS_PCR_SELECTION) : bool :=
  (pcr <? IMPLEMENTATION_PCR) && select_bit (pcrSelect selection) pcr.

(** The entry of a bank in the allocation: the first with its hash. *)
Definition find_bank (hash : Z) (allocated : list TPMS_PCR_SELECTION) : option TPMS_PCR_SELECTION :=
  List.find (λ a, sel_hash a =? hash) allocated.

Definition pcr_allocated (pcr hashAlg : Z) (allocated : list TPMS_PCR_SELECTION) : bool :=
  if pcr <? IMPLEMENTATION_PCR then
    match find_bank hashAlg allocated with
    | Some a => select_bit (pcrSelect a) pcr
    | None => false
    end
  else false.

Definition PcrIsAllocated (pcr hashAlg : Z) : M PcrState bool :=
  gets (λ s, pcr_allocated pcr hashAlg (pcrAllocated s)).

(** [FilterPcr]: octets past [sizeofSelect] are cleared, the others are masked
    with the allocation of the bank. *)
Definition filter_pcr (allocated : list TPMS_PCR_SELECTION) (sel : TPMS_PCR_SELECTION)
    : TPMS_PCR_SELECTION :=
  let mask := match find_bank (sel_hash sel) allocated with
              | Some a => pcrSelect a | None => [0; 0; 0] end in
  mkSel (sel_hash sel) (sizeofSelect sel)
    (imap (λ i b, if Z.of_nat i <? sizeofSelect sel
                  then Z.land b (List.nth i mask 0) else 0) (pcrSelect sel)).

Definition FilterPcr (sel : TPMS_PCR_SELECTION) : M PcrState TPMS_PCR_SELECTION :=
  gets (λ s, filter_pcr (pcrAllocated s) sel).

(** ** Access to the registers *)

Definition sizeof_PCR : Z := 164.
Definition pcr_offset (alg : Z) : option Z :=
  if alg =? TPM_ALG_SHA1 then Some 0
  else if alg =? TPM_ALG_SHA256 then Some 20
  else if alg =? TPM_ALG_SHA384 then Some 52
  else if alg =? TPM_ALG_SHA512 then Some 100
  else None.

Definition GetPcrPointerFromPcrArray (alg pcrNumber : Z) : M PcrState (option Z) :=
  match pcr_offset alg with
  | Some o => ret (Some (pcrNumber * sizeof_PCR + o))
  | None => modify set_failure ;; ret None
  end.

Definition GetPcrPointerIfAllocated (alg pcrNumber : Z) : M PcrState (option Z) :=
  let! allocated := PcrIsAllocated pcrNumber alg in
  if negb allocated then ret None else GetPcrPointerFromPcrArray alg pcrNumber.

Definition GetPcrPointer (alg pcrNumber : Z) : M PcrState (option Z) :=
  GetPcrPointerIfAllocated alg pcrNumber.

(** Offset of the register saved at [pcrIndex] in [PCR_SAVE]. *)
Definition save_offset (alg pcrIndex : Z) : option Z :=
  if alg =? TPM_ALG_SHA1 then Some (pcrIndex * 20)
  else if alg =? TPM_ALG_SHA256 then Some (320 + pcrIndex * 32)
  else if alg =? TPM_ALG_SHA384 then Some (832 + pcrIndex * 48)
  else if alg =? TPM_ALG_SHA512 then Some (1600 + pcrIndex * 64)
  else None.

Definition GetSavedPcrPointer (alg pcrIndex : Z) : M PcrState (option Z) :=
  match save_offset alg pcrIndex with
  | Some o => ret (Some o)
  | None => modify set_failure ;; ret None
  end.

(** Reading and writing [n] octets through a pointer; [NULL] and accesses
    outside the object have no result. *)
Definition peek (p : option Z) (n : Z) : M PcrState bytes :=
  match p with
  | None => undef
  | Some o =>
      let! m := gets s_pcrs in
      if inb m o n then ret (bread m o n) else undef
  end.
Definition poke (p : option Z) (d : bytes) : M PcrState unit :=
  match p with
  | None => undef
  | Some o =>
      let! m := gets s_pcrs in
      if inb m o (blen d) then modify (set_s_pcrs (bwrite m o d)) else undef
  end.
Definition peek_saved (p : option Z) (n : Z) : M PcrState bytes :=
  match p with
  | None => undef
  | Some o =>
      let! m := gets pcrSave in
      if inb m o n then ret (bread m o n) else undef
  end.
Definition poke_saved (p : option Z) (d : bytes) : M PcrState unit :=
  match p with
  | None => undef
  | Some o =>
      let! m := gets pcrSave in
      if inb m o (blen d) then modify (set_pcrSave (bwrite m o d)) else undef
  end.

(** ** Groups *)

Definition PCRBelongsAuthGroup (handle : Z) : M PcrState (bool * Z) :=
  let a := platPcr__GetPcrInitializationAttributes (u32 (handle - PCR_FIRST)) in
  if negb (authValuesGroup a =? 0) then
    let groupIndex := authValuesGroup a - 1 in
    if groupIndex <? NUM_AUTHVALUE_PCR_GROUP then ret (true, groupIndex)
    else modify set_failure ;; ret (false, groupIndex)
  else ret (false, 0).

Definition PCRBelongsPolicyGroup (handle : Z) : M PcrState (bool * Z) :=
  let a := platPcr__GetPcrInitializationAttributes (u32 (handle - PCR_FIRST)) in
  if negb (policyAuthGroup a =? 0) then
    let groupIndex := policyAuthGroup a - 1 in
    if groupIndex <? NUM_POLICY_PCR_GROUP then ret (true, groupIndex)
    else modify set_failure ;; ret (false, groupIndex)
  else ret (false, 0).

Definition PCRBelongsTCBGroup (handle : Z) : bool :=
  doNotIncrementPcrCounter
    (platPcr__GetPcrInitializationAttributes (u32 (handle - PCR_FIRST))).

Definition PCRPolicyIsAvailable (handle : Z) : M PcrState bool :=
  let! '(b, _) := PCRBelongsPolicyGroup handle in ret b.

Definition PCRGetAuthValue (handle : Z) : M PcrState (option TPM2B) :=
  let! '(b, _) := PCRBelongsAuthGroup handle in
  if b : bool then let! a := gets pcrAuth in ret (Some a) else ret None.

Definition PCRGetAuthPolicy (handle : Z) : M PcrState (Z * TPM2B) :=
  let! '(b, _) := PCRBelongsPolicyGroup handle in
  if b : bool then
    let! policy := gets pcrPolicy in let! alg := gets pcrPolicyAlg in ret (alg, policy)
  else ret (TPM_ALG_NULL, mkTPM2B 0 []).

Definition PCRIsStateSaved (handle : Z) : bool :=
  stateSave (platPcr__GetPcrInitializationAttributes (u32 (handle - PCR_FIRST))).

(** [localityBits << commandLocality] on a promoted [int], kept in 8 bits; a
    shift by 31 or more has no result in C. *)
Definition locality_bits (locality : Z) : option Z :=
  if locality <? 31 then Some (u8 (Z.shiftl 1 locality)) else None.

Definition PCRIsResetAllowed (handle : Z) : M PcrState bool :=
  let a := platPcr__GetPcrInitializationAttributes (u32 (handle - PCR_FIRST)) in
  let! locality := gets p_locality in
  if locality =? 4 then ret false
  else
    let! bits := of_option (locality_bits locality) in
    ret (negb (Z.land bits (resetLocality a) =? 0)).

Definition PCRIsExtendAllowed (handle : Z) : M PcrState bool :=
  let a := platPcr__GetPcrInitializationAttributes (u32 (handle - PCR_FIRST)) in
  let! locality := gets p_locality in
  let! bits := of_option (locality_bits locality) in
  ret (negb (Z.land bits (extendLocality a) =? 0)).

Definition PCRChanged (pcrHandle : Z) : M PcrState unit :=
  if (pcrHandle =? 0) || negb (PCRBelongsTCBGroup pcrHandle) then
    modify (λ s, set_pcrCounter (u32 (pcrCounter s + 1)) s) ;;
    let! c := gets pcrCounter in
    if c =? 0 then modify set_failure else ret tt
  else ret tt.

(** The numbers of the registers, as the loops go through them. *)
Definition pcr_numbers : list Z := seqZ 0 IMPLEMENTATION_PCR.

Section pcr.
Context `{HashLib}.

(** ** Extension *)

Definition PCRExtend (handle hash size : Z) (data : bytes) : M PcrState unit :=
  let! pcrData := GetPcrPointer hash (u32 (handle - PCR_FIRST)) in
  match pcrData with
  | None => ret tt
  | Some _ =>
      let pcrSize := CryptHashGetDigestSize hash in
      let! old := peek pcrData pcrSize in
      if inb data 0 size then
        poke pcrData (Hash hash (old ++ bread data 0 size)) ;;
        PCRChanged handle
      else undef
  end.

Definition PcrDrtm (pcrHandle hash : Z) (digest : TPM2B) : M PcrState unit :=
  let! pcrData := GetPcrPointer hash pcrHandle in
  match pcrData with
  | None => ret tt
  | Some o =>
      poke pcrData (bfill 0 (size2B digest)) ;;
      let! started := gets p_started in
      (if negb started then poke (Some (o + size2B digest - 1)) [4] else ret tt) ;;
      PCRExtend pcrHandle hash (size2B digest) (buffer2B digest)
  end.

(** [PCRSetValue]: the pointer is that of the bank at index [i] of the
    allocation, the size that of the hash at index [i] of the implemented
    hashes.  [initialValue] is an [INT8]. *)
Definition set_value_at (pcr initialValue i : Z) : M PcrState unit :=
  let hash := CryptHashGetAlgByIndex i in
  if hash =? TPM_ALG_NULL then ret tt
  else
    let! banks := gets pcrAllocated in
    let! bank := of_option (banks !! Z.to_nat i) in
    let! pcrData := GetPcrPointer (sel_hash bank) pcr in
    match pcrData with
    | None => ret tt
    | Some o =>
        let digestSize := CryptHashGetDigestSize hash in
        poke (Some (o + digestSize - 1)) [u8 initialValue] ;;
        if 0 <=? initialValue then poke pcrData (bfill 0 (digestSize - 1))
        else poke pcrData (bfill (u8 (-1)) (digestSize - 1))
    end.

Definition PCRSetValue (handle initialValue : Z) : M PcrState unit :=
  for_each (seqZ 0 HASH_COUNT) (set_value_at (u32 (handle - PCR_FIRST)) initialValue).

(** A register that locality 4 can reset is set to zero. *)
Definition reset_dynamic (pcr : Z) (bank : TPMS_PCR_SELECTION) : M PcrState unit :=
  let a := platPcr__GetPcrInitializationAttributes pcr in
  let! pcrData := GetPcrPointer (sel_hash bank) pcr in
  match pcrData with
  | None => ret tt
  | Some _ =>
      if negb (Z.land (resetLocality a) 0x10 =? 0)
      then poke pcrData (bfill 0 (CryptHashGetDigestSize (sel_hash bank)))
      else ret tt
  end.

Definition PCRResetDynamics : M PcrState unit :=
  let! banks := gets pcrAllocated in
  for_each pcr_numbers (λ pcr, for_each banks (reset_dynamic pcr)).

Definition PCR_ClearAuth : M PcrState unit :=
  modify (λ s, set_pcrAuth (mkTPM2B 0 (buffer2B (pcrAuth s))) s).

(** ** Startup and saving *)

Definition platPcr__GetInitialValueForPcr (pcrNumber pcrAlg startupLocality : Z)
    (pcrData : option Z) (bufferSize : Z) : M PcrState (Z * Z) :=
  let pcrSize := CryptHashGetDigestSize pcrAlg in
  if negb (pcrNumber <? platPcr__NumberOfPcrs) then modify set_failure ;; ret (TPM_RC_FAILURE, 0)
  else if negb (pcrSize <=? bufferSize) then modify set_failure ;; ret (TPM_RC_FAILURE, 0)
  else
    let a := platPcr__GetPcrInitializationAttributes pcrNumber in
    let defaultValue := if negb (Z.land (resetLocality a) 0x10 =? 0) then 0xFF else 0 in
    poke pcrData (bfill defaultValue pcrSize) ;;
    (if pcrNumber =? HCRTM_PCR
     then poke (fmap (λ o, o + pcrSize - 1) pcrData) [startupLocality] else ret tt) ;;
    ret (TPM_RC_SUCCESS, pcrSize).

(** One bank of one register; [false] when [PCRStartup] returns FALSE. *)
Definition startup_bank (locality pcr : Z) (stateSaved : bool) (saveIndex : Z)
    (bank : TPMS_PCR_SELECTION) : M PcrState bool :=
  let hash := sel_hash bank in
  let! pcrData := GetPcrPointer hash pcr in
  let pcrSize := CryptHashGetDigestSize hash in
  match pcrData with
  | None => ret true
  | Some o =>
      if stateSaved then
        let! saved := GetSavedPcrPointer hash saveIndex in
        match saved with
        | None => ret false
        | Some _ => let! d := peek_saved saved pcrSize in poke pcrData d ;; ret true
        end
      else
        let! '(result, pcrLength) :=
          platPcr__GetInitialValueForPcr pcr hash locality pcrData pcrSize in
        if negb ((result =? TPM_RC_SUCCESS) || (result =? TPM_RC_PCR))
        then modify set_failure ;; ret false
        else if (result =? TPM_RC_SUCCESS) && (pcrLength =? pcrSize) then ret true
        else
          let a := platPcr__GetPcrInitializationAttributes pcr in
          let defaultValue := if negb (Z.land (resetLocality a) 0x10 =? 0) then 0xFF else 0 in
          poke pcrData (bfill defaultValue pcrSize) ;;
          (if pcr =? HCRTM_PCR then poke (Some (o + pcrSize - 1)) [locality] else ret tt) ;;
          ret true
  end.

(** A loop that a [return FALSE] in its body ends. *)
Fixpoint while_ok {A} (l : list A) (body : A → M PcrState bool) : M PcrState bool :=
  match l with
  | [] => ret true
  | x :: l => let! ok := body x in if ok : bool then while_ok l body else ret false
  end.

Fixpoint startup_pcrs (type : STARTUP_TYPE) (locality : Z) (pcrs : list Z) (saveIndex : Z)
    : M PcrState bool :=
  match pcrs with
  | [] => ret true
  | pcr :: pcrs =>
      let a := platPcr__GetPcrInitializationAttributes pcr in
      let resume := match type with SU_RESUME => true | _ => false end in
      let stateSaved := resume && stateSave a in
      (if stateSaved then ret tt else PCRChanged pcr) ;;
      let! drtm := gets p_DrtmPreStartup in
      if (pcr =? HCRTM_PCR) && negb resume && drtm then startup_pcrs type locality pcrs saveIndex
      else
        let! banks := gets pcrAllocated in
        let! ok := while_ok banks (startup_bank locality pcr stateSaved saveIndex) in
        if ok : bool
        then startup_pcrs type locality pcrs (saveIndex + (if stateSaved then 1 else 0))
        else ret false
  end.

Definition PCRStartup (type : STARTUP_TYPE) (locality : Z) : M PcrState bool :=
  modify (set_p_reConfig false) ;;
  (match type with SU_RESET => modify (set_pcrCounter 0) | _ => ret tt end) ;;
  if negb (platPcr__NumberOfPcrs =? IMPLEMENTATION_PCR) then modify set_failure ;; ret false
  else
    let! ok := startup_pcrs type locality pcr_numbers 0 in
    if negb ok then ret false
    else
      (match type with SU_RESUME => ret tt | _ => PCR_ClearAuth end) ;;
      ret true.

Definition save_bank (pcr saveIndex : Z) (bank : TPMS_PCR_SELECTION) : M PcrState unit :=
  let hash := sel_hash bank in
  let! pcrData := GetPcrPointer hash pcr in
  match pcrData with
  | None => ret tt
  | Some _ =>
      let! saved := GetSavedPcrPointer hash saveIndex in
      let! d := peek pcrData (CryptHashGetDigestSize hash) in
      poke_saved saved d
  end.

Fixpoint save_pcrs (pcrs : list Z) (saveIndex : Z) : M PcrState unit :=
  match pcrs with
  | [] => ret tt
  | pcr :: pcrs =>
      let! banks := gets pcrAllocated in
      let stateSaved := stateSave (platPcr__GetPcrInitializationAttributes pcr) in
      (if stateSaved then for_each banks (save_bank pcr saveIndex)
       else for_each banks (λ bank, GetPcrPointer (sel_hash bank) pcr ;; ret tt)) ;;
      save_pcrs pcrs (saveIndex + (if stateSaved then 1 else 0))
  end.

Definition PCRStateSave (type : Z) : M PcrState unit :=
  if type =? TPM_SU_CLEAR then ret tt else save_pcrs pcr_numbers 0.

Definition PCRManufacture : M PcrState unit :=
  modify (λ s, set_pcrPolicyAlg TPM_ALG_NULL
    (set_pcrPolicy (mkTPM2B 0 (buffer2B (pcrPolicy s))) s)) ;;
  PCR_ClearAuth ;;
  modify (set_pcrAllocated
    (map (λ i, let bank := CryptHashGetAlgByIndex i in
               mkSel bank PCR_SELECT_MAX
                 (bfill (if platPcr_IsPcrBankDefaultActive bank then 0xFF else 0) PCR_SELECT_MAX))
       (seqZ 0 HASH_COUNT))) ;;
  modify NV_SYNC_pcrPolicies ;;
  modify (λ s, NV_WRITE_pcrAllocated (pcrAllocated s) s).

(** ** Reading *)

(** The values of the selected registers of a bank, in order. *)
Fixpoint digest_bank (sel : TPMS_PCR_SELECTION) (pcrs : list Z) : M PcrState bytes :=
  match pcrs with
  | [] => ret []
  | pcr :: pcrs =>
      if IsPcrSelected pcr sel then
        let! pcrData := GetPcrPointer (sel_hash sel) pcr in
        pAssert (match pcrData with Some _ => true | None => false end) ;;
        let! d := peek pcrData (CryptHashGetDigestSize (sel_hash sel)) in
        let! rest := digest_bank sel pcrs in
        ret (d ++ rest)
      else digest_bank sel pcrs
  end.

Fixpoint digest_banks (selection : list TPMS_PCR_SELECTION)
    : M PcrState (list TPMS_PCR_SELECTION * bytes) :=
  match selection with
  | [] => ret ([], [])
  | sel :: selection =>
      let! sel := FilterPcr sel in
      let! d := digest_bank sel pcr_numbers in
      let! '(selection, rest) := digest_banks selection in
      ret (sel :: selection, d ++ rest)
  end.

Definition PCRComputeCurrentDigest (hashAlg : Z) (selection : list TPMS_PCR_SELECTION)
    : M PcrState (list TPMS_PCR_SELECTION * bytes) :=
  let size := CryptHashGetDigestSize hashAlg in
  pAssert ((0 <? size) && (size <? 0xFFFF)) ;;
  let! '(selection, d) := digest_banks selection in
  ret (selection, Hash hashAlg d).

(** [select->pcrSelect[pcr / 8] &= ~(1 << (pcr % 8))] *)
Definition clear_select (pcr : Z) (sel : TPMS_PCR_SELECTION) : TPMS_PCR_SELECTION :=
  let i := Z.to_nat (pcr / 8) in
  mkSel (sel_hash sel) (sizeofSelect sel)
    (<[i := Z.land (List.nth i (pcrSelect sel) 0) (u8 (Z.lnot (Z.shiftl 1 (pcr mod 8))))]>
       (pcrSelect sel)).

(** The loop that clears the rest of a bank's selection. *)
Fixpoint clear_rest (fuel : nat) (pcr : Z) (sel : TPMS_PCR_SELECTION) : Z * TPMS_PCR_SELECTION :=
  match fuel with
  | O => (pcr, sel)
  | S fuel =>
      if (pcr <? IMPLEMENTATION_PCR) && (pcr / 8 <? sizeofSelect sel)
      then clear_rest fuel (pcr + 1) (clear_select pcr sel)
      else (pcr, sel)
  end.

(** The loop over the registers of a bank, from [pcr]; the number it ends with is
    part of the result. *)
Fixpoint read_bank (fuel : nat) (pcr : Z) (sel : TPMS_PCR_SELECTION) (digest : list bytes)
    : M PcrState (Z * TPMS_PCR_SELECTION * list bytes) :=
  match fuel with
  | O => ret (pcr, sel, digest)
  | S fuel =>
      if negb (pcr <? IMPLEMENTATION_PCR) then ret (pcr, sel, digest)
      else if IsPcrSelected pcr sel then
        if 7 <? Z.of_nat (List.length digest) then
          let '(pcr, sel) := clear_rest (Z.to_nat IMPLEMENTATION_PCR) pcr sel in
          ret (pcr, sel, digest)
        else
          let! pcrData := GetPcrPointer (sel_hash sel) pcr in
          pAssert (match pcrData with Some _ => true | None => false end) ;;
          let! d := peek pcrData (CryptHashGetDigestSize (sel_hash sel)) in
          read_bank fuel (pcr + 1) sel (digest ++ [d])
      else read_bank fuel (pcr + 1) sel digest
  end.

(** [MemorySet] of the selection's octets. *)
Definition clear_selection (sel : TPMS_PCR_SELECTION) : TPMS_PCR_SELECTION :=
  mkSel (sel_hash sel) (sizeofSelect sel)
    (bwrite (pcrSelect sel) 0 (bfill 0 (sizeofSelect sel))).

Fixpoint read_banks (selection : list TPMS_PCR_SELECTION) (digest : list bytes)
    : M PcrState (list TPMS_PCR_SELECTION * list bytes) :=
  match selection with
  | [] => ret ([], digest)
  | sel :: rest =>
      let! sel := FilterPcr sel in
      let! '(pcr, sel, digest) := read_bank (S (Z.to_nat IMPLEMENTATION_PCR)) 0 sel digest in
      if (7 <? Z.of_nat (List.length digest)) && (pcr <? IMPLEMENTATION_PCR)
      then ret (map clear_selection (sel :: rest), digest)
      else
        let! '(rest, digest) := read_banks rest digest in
        ret (sel :: rest, digest)
  end.

Definition PCRRead (selection : list TPMS_PCR_SELECTION)
    : M PcrState (list TPMS_PCR_SELECTION * list bytes * Z) :=
  let! '(selection, digest) := read_banks selection [] in
  let! c := gets pcrCounter in
  ret (selection, digest, c).

(** ** Allocation *)

(** The first bank with the hash of [new] is replaced. *)
Fixpoint replace_bank (new : TPMS_PCR_SELECTION) (banks : list TPMS_PCR_SELECTION)
    : option (list TPMS_PCR_SELECTION) :=
  match banks with
  | [] => None
  | b :: banks =>
      if sel_hash b =? sel_hash new then Some (new :: banks)
      else match replace_bank new banks with Some l => Some (b :: l) | None => None end
  end.

Fixpoint new_allocation (allocate banks : list TPMS_PCR_SELECTION)
    : M PcrState (list TPMS_PCR_SELECTION) :=
  match allocate with
  | [] => ret banks
  | a :: allocate =>
      match replace_bank a banks with
      | Some banks => new_allocation allocate banks
      | None => pAssert false ;; new_allocation allocate banks
      end
  end.

(** Number of bits set in an octet, by the loop over the mask. *)
Definition count_bits (b : Z) : Z :=
  fold_left (λ n k, if negb (Z.land b (Z.shiftl 1 k) =? 0) then n + 1 else n) (seqZ 0 8) 0.

(** Does the bank select a DRTM and an H-CRTM register, and its size. *)
Fixpoint allocation_scan (banks : list TPMS_PCR_SELECTION) (drtm hcrtm : bool) (sizeNeeded : Z)
    : M PcrState (bool * bool * Z) :=
  match banks with
  | [] => ret (drtm, hcrtm, sizeNeeded)
  | b :: banks =>
      let! drtm := (if drtm then ret true else TestBit DRTM_PCR (pcrSelect b) (sizeofSelect b)) in
      let! hcrtm := (if hcrtm then ret true else TestBit HCRTM_PCR (pcrSelect b) (sizeofSelect b)) in
      let bits := fold_left (λ n x, n + count_bits x)
                    (take (Z.to_nat (sizeofSelect b)) (pcrSelect b)) 0 in
      allocation_scan banks drtm hcrtm
        (u32 (sizeNeeded + bits * CryptHashGetDigestSize (sel_hash b)))
  end.

Record AllocateOut := mkAllocOut { maxPCR : Z; sizeNeeded : Z; sizeAvailable : Z }.

Definition PCRAllocate (allocate : list TPMS_PCR_SELECTION) : M PcrState (Z * AllocateOut) :=
  let! banks := gets pcrAllocated in
  let! newAllocate := new_allocation allocate banks in
  let max := if IMPLEMENTATION_PCR <? platPcr__NumberOfPcrs then IMPLEMENTATION_PCR
             else platPcr__NumberOfPcrs in
  let! '(drtm, hcrtm, needed) := allocation_scan newAllocate false false 0 in
  if negb drtm || negb hcrtm then ret (TPM_RC_PCR, mkAllocOut max needed 0)
  else
    modify (NV_WRITE_pcrAllocated newAllocate) ;;
    ret (TPM_RC_SUCCESS, mkAllocOut max needed (IMPLEMENTATION_PCR * sizeof_PCR)).

(** ** Capabilities *)

Definition PCRCapGetAllocation (count : Z) : M PcrState (bool * list TPMS_PCR_SELECTION) :=
  if count =? 0 then ret (true, []) else let! a := gets pcrAllocated in ret (false, a).

(** [PCRSetSelectBit] *)
Definition PCRSetSelectBit (pcr : Z) (bitmap : bytes) : bytes :=
  let i := Z.to_nat (pcr / 8) in
  <[i := u8 (Z.lor (List.nth i bitmap 0) (Z.shiftl 1 (pcr mod 8)))]> bitmap.

(** The test of one property on the attributes of a register; [None]: the
    property is not supported. *)
Definition pcr_property (property pcr : Z) : option bool :=
  let a := platPcr__GetPcrInitializationAttributes pcr in
  let extend bit := Some (negb (Z.land (extendLocality a) bit =? 0)) in
  let reset bit := Some (negb (Z.land (resetLocality a) bit =? 0)) in
  if property =? 0x00 then Some (stateSave a)
  else if property =? 0x01 then extend 0x01
  else if property =? 0x02 then reset 0x01
  else if property =? 0x03 then extend 0x02
  else if property =? 0x04 then reset 0x02
  else if property =? 0x05 then extend 0x04
  else if property =? 0x06 then reset 0x04
  else if property =? 0x07 then extend 0x08
  else if property =? 0x08 then reset 0x08
  else if property =? 0x09 then extend 0x10
  else if property =? 0x0A then reset 0x10
  else if property =? 0x12 then reset 0x10
  else if property =? 0x13 then Some (negb (policyAuthGroup a =? 0))
  else if property =? 0x14 then Some (negb (authValuesGroup a =? 0))
  else if property =? 0x11 then Some (doNotIncrementPcrCounter a)
  else None.

Fixpoint property_loop (property : Z) (pcrs : list Z) (bitmap : bytes) : option bytes :=
  match pcrs with
  | [] => Some bitmap
  | pcr :: pcrs =>
      match pcr_property property pcr with
      | None => None
      | Some b => property_loop property pcrs (if b then PCRSetSelectBit pcr bitmap else bitmap)
      end
  end.

(** [PCRGetProperty]: the bit map of the property, when it is supported. *)
Definition PCRGetProperty (property : Z) : option bytes :=
  property_loop property pcr_numbers (bfill 0 ((IMPLEMENTATION_PCR + 7) / 8)).

Definition TPM_PT_PCR_LAST : Z := 0x14.
Definition MAX_PCR_PROPERTIES : Z := 127.

Fixpoint properties_loop (properties : list Z) (count : Z) (select : list (Z * bytes))
    : bool * list (Z * bytes) :=
  match properties with
  | [] => (false, select)
  | i :: properties =>
      if Z.of_nat (List.length select) <? count then
        match PCRGetProperty i with
        | Some b => properties_loop properties count (select ++ [(i, b)])
        | None => properties_loop properties count select
        end
      else (true, select)
  end.

Definition PCRCapGetProperties (property count : Z) : bool * list (Z * bytes) :=
  properties_loop (seqZ property (TPM_PT_PCR_LAST + 1 - property))
    (Z.min count MAX_PCR_PROPERTIES) [].

Fixpoint handles_loop (handles : list Z) (count : Z) (list : list Z) : bool * Datatypes.list Z :=
  match handles with
  | [] => (false, list)
  | i :: handles =>
      if Z.of_nat (List.length list) <? count
      then handles_loop handles count (list ++ [i + PCR_FIRST])
      else (true, list)
  end.

Definition PCRCapGetHandles (handle count : Z) : M PcrState (bool * list Z) :=
  pAssert (HandleGetType handle =? TPM_HT_PCR) ;;
  let from := Z.land handle HR_HANDLE_MASK in
  ret (handles_loop (seqZ from (PCR_LAST + 1 - from)) (Z.min count MAX_CAP_HANDLES) []).

Definition PCRCapGetOneHandle (handle : Z) : M PcrState bool :=
  pAssert (HandleGetType handle =? TPM_HT_PCR) ;;
  ret (Z.land handle HR_HANDLE_MASK <=? PCR_LAST).

(** ** Commands (IntegrityCommands.c) *)

(** [NvClearOrderly] (NV_spt.c) and [RETURN_IF_ORDERLY]. *)
Definition NvClearOrderly : M PcrState Z :=
  let! orderly := gets p_orderly in
  let! status := gets p_NvStatus in
  if (orderly <? SU_DA_USED_VALUE) && negb (status =? TPM_RC_SUCCESS) then ret status
  else modify (set_p_clearOrderly true) ;; ret TPM_RC_SUCCESS.

Definition RETURN_IF_ORDERLY (k : M PcrState Z) : M PcrState Z :=
  let! r := NvClearOrderly in
  if negb (r =? TPM_RC_SUCCESS) then gets p_NvStatus else k.

Definition TPM2_PCR_Extend (pcrHandle : Z) (digests : list (Z * bytes)) : M PcrState Z :=
  if pcrHandle =? TPM_RH_NULL then ret TPM_RC_SUCCESS
  else
    let! allowed := PCRIsExtendAllowed pcrHandle in
    if negb allowed then ret TPM_RC_LOCALITY
    else
      let update :=
        for_each digests (λ '(hashAlg, digest),
          PCRExtend pcrHandle hashAlg (CryptHashGetDigestSize hashAlg) digest) ;;
        ret TPM_RC_SUCCESS in
      if PCRIsStateSaved pcrHandle then RETURN_IF_ORDERLY update else update.

(** The loop of [TPM2_PCR_Event]. *)
Definition event_bank (pcrHandle : Z) (eventData : bytes) (i : Z) : M PcrState unit :=
  let hash := CryptHashGetAlgByIndex i in
  if negb (pcrHandle =? TPM_RH_NULL)
  then PCRExtend pcrHandle hash (CryptHashGetDigestSize hash) (Hash hash eventData)
  else ret tt.

Definition TPM2_PCR_Event (pcrHandle : Z) (eventData : bytes) : M PcrState (Z * list (Z * bytes)) :=
  let update :=
    for_each (seqZ 0 HASH_COUNT) (event_bank pcrHandle eventData) ;;
    ret (TPM_RC_SUCCESS,
         map (λ i, (CryptHashGetAlgByIndex i, Hash (CryptHashGetAlgByIndex i) eventData))
           (seqZ 0 HASH_COUNT)) in
  if negb (pcrHandle =? TPM_RH_NULL) then
    let! allowed := PCRIsExtendAllowed pcrHandle in
    if negb allowed then ret (TPM_RC_LOCALITY, [])
    else if PCRIsStateSaved pcrHandle then
      let! r := NvClearOrderly in
      if negb (r =? TPM_RC_SUCCESS) then let! status := gets p_NvStatus in ret (status, [])
      else update
    else update
  else update.

Definition TPM2_PCR_Read (pcrSelectionIn : list TPMS_PCR_SELECTION)
    : M PcrState (Z * (list TPMS_PCR_SELECTION * list bytes * Z)) :=
  let! out := PCRRead pcrSelectionIn in ret (TPM_RC_SUCCESS, out).

Definition TPM2_PCR_Allocate (pcrAllocation : list TPMS_PCR_SELECTION)
    : M PcrState (Z * option (bool * AllocateOut)) :=
  let! status := gets p_NvStatus in
  if negb (status =? TPM_RC_SUCCESS) then ret (status, None)
  else
    let! '(result, out) := PCRAllocate pcrAllocation in
    if result =? TPM_RC_PCR then ret (result, None)
    else
      let allocationSuccess := result =? TPM_RC_SUCCESS in
      (if allocationSuccess then modify (set_p_reConfig true) else ret tt) ;;
      ret (TPM_RC_SUCCESS, Some (allocationSuccess, out)).

Definition TPM2_PCR_SetAuthPolicy (authPolicy : TPM2B) (hashAlg pcrNum : Z) : M PcrState Z :=
  let! status := gets p_NvStatus in
  if negb (status =? TPM_RC_SUCCESS) then ret status
  else if negb (size2B authPolicy =? CryptHashGetDigestSize hashAlg)
  then ret (TPM_RC_SIZE + (TPM_RC_P + TPM_RC_1))
  else
    let! '(b, _) := PCRBelongsPolicyGroup pcrNum in
    if negb b then ret (TPM_RC_VALUE + (TPM_RC_P + TPM_RC_3))
    else
      modify (λ s, set_pcrPolicyAlg hashAlg (set_pcrPolicy authPolicy s)) ;;
      modify NV_SYNC_pcrPolicies ;;
      ret TPM_RC_SUCCESS.

Definition TPM2_PCR_SetAuthValue (pcrHandle : Z) (auth : TPM2B) : M PcrState Z :=
  let! '(b, _) := PCRBelongsAuthGroup pcrHandle in
  if negb b then ret TPM_RC_VALUE
  else RETURN_IF_ORDERLY
    (modify (set_pcrAuth (MemoryRemoveTrailingZeros auth)) ;; ret TPM_RC_SUCCESS).

Definition TPM2_PCR_Reset (pcrHandle : Z) : M PcrState Z :=
  let! allowed := PCRIsResetAllowed pcrHandle in
  if negb allowed then ret TPM_RC_LOCALITY
  else
    let update := PCRSetValue pcrHandle 0 ;; PCRChanged pcrHandle ;; ret TPM_RC_SUCCESS in
    if PCRIsStateSaved pcrHandle then RETURN_IF_ORDERLY update else update.
End pcr.
