(* ===== verification/PcrProof.v ===== *)
(** * Lemmas on the platform configuration registers

    The invariant [pcr_wf], the value [pcr_val] of a register of a bank, and what
    each function does to the values; selections as sets of numbers, with
    [PCRRead] against a specification on lists; [PCRAllocate] against a
    specification by bank. *)

From S2P Require Import Prelude TpmTypes Memory Pcr.
Local Open Scope Z_scope.

Record sel_wf (sel : TPMS_PCR_SELECTION) : Prop := {
  sel_size : sizeofSelect sel = PCR_SELECT_MAX;
  sel_len : List.length (pcrSelect sel) = 3%nat;
  sel_byte : Forall is_byte (pcrSelect sel);
}.

Definition sizeof_PCR_SAVE : Z := 2628.

(** The allocation has an entry for each implemented hash, in their order. *)
Record pcr_wf (s : PcrState) : Prop := {
  pw_pcrs : blen (s_pcrs s) = IMPLEMENTATION_PCR * sizeof_PCR;
  pw_pcrs_byte : Forall is_byte (s_pcrs s);
  pw_save : blen (pcrSave s) = sizeof_PCR_SAVE;
  pw_save_byte : Forall is_byte (pcrSave s);
  pw_banks : map sel_hash (pcrAllocated s) = hash_algs;
  pw_sels : Forall sel_wf (pcrAllocated s);
}.

(** ** Places of the registers *)

Definition is_alg (alg : Z) : Prop := alg ∈ hash_algs.
Definition is_pcr (pcr : Z) : Prop := 0 ≤ pcr < IMPLEMENTATION_PCR.

Definition pcr_loc (alg pcr : Z) : Z := pcr * sizeof_PCR + default 0 (pcr_offset alg).
Abbreviation dsize := CryptHashGetDigestSize.

Definition pcr_val (s : PcrState) (alg pcr : Z) : bytes := bread (s_pcrs s) (pcr_loc alg pcr) (dsize alg).

Lemma is_alg_inv alg :
  is_alg alg →
  alg = TPM_ALG_SHA1 ∨ alg = TPM_ALG_SHA256 ∨ alg = TPM_ALG_SHA384 ∨ alg = TPM_ALG_SHA512.
Proof. unfold is_alg, hash_algs. rewrite !elem_of_cons, elem_of_nil. tauto. Qed.

Ltac algs H := apply is_alg_inv in H as [H|[H|[H|H]]]; rewrite H in *; clear H.
Ltac pcr_unfold :=
  unfold is_pcr, pcr_loc, sizeof_PCR, sizeof_PCR_SAVE, IMPLEMENTATION_PCR in *; cbn in *.

Lemma alg_place alg :
  is_alg alg →
  ∃ o, pcr_offset alg = Some o ∧ 0 ≤ o ∧ 0 < dsize alg ∧ o + dsize alg ≤ sizeof_PCR.
Proof. intros Ha. algs Ha; (eexists; split; [reflexivity|]); pcr_unfold; lia. Qed.

Lemma pcr_loc_bounds alg pcr :
  is_alg alg → is_pcr pcr →
  pcr * sizeof_PCR ≤ pcr_loc alg pcr ∧ pcr_loc alg pcr + dsize alg ≤ (pcr + 1) * sizeof_PCR ∧
  0 ≤ pcr_loc alg pcr ∧ pcr_loc alg pcr + dsize alg ≤ IMPLEMENTATION_PCR * sizeof_PCR ∧
  0 < dsize alg.
Proof. intros Ha Hp. algs Ha; pcr_unfold; lia. Qed.

Lemma pcr_loc_disjoint alg alg' pcr pcr' :
  is_alg alg → is_alg alg' → is_pcr pcr → is_pcr pcr' → (alg, pcr) ≠ (alg', pcr') →
  pcr_loc alg pcr + dsize alg ≤ pcr_loc alg' pcr' ∨ pcr_loc alg' pcr' + dsize alg' ≤ pcr_loc alg pcr.
Proof.
  intros Ha Ha' Hp Hp' Hne. destruct (decide (pcr = pcr')) as [<-|].
  - assert (alg ≠ alg') by congruence. algs Ha; algs Ha'; pcr_unfold; (done || lia).
  - destruct (pcr_loc_bounds alg pcr Ha Hp) as (? & ? & _).
    destruct (pcr_loc_bounds alg' pcr' Ha' Hp') as (? & ? & _). unfold sizeof_PCR in *. lia.
Qed.

Lemma pcr_val_len s alg pcr : pcr_wf s → is_alg alg → is_pcr pcr → blen (pcr_val s alg pcr) = dsize alg.
Proof.
  intros Hw Ha Hp. destruct (pcr_loc_bounds alg pcr Ha Hp) as (_ & _ & ? & ? & ?).
  apply blen_bread; [lia..|]. by rewrite (pw_pcrs s Hw).
Qed.

(** Pointers of allocated registers are their places. *)
Definition allocated (s : PcrState) (alg pcr : Z) : bool := pcr_allocated pcr alg (pcrAllocated s).

Lemma allocated_alg s alg pcr : pcr_wf s → allocated s alg pcr = true → is_alg alg ∧ pcr < IMPLEMENTATION_PCR.
Proof.
  intros Hw. unfold allocated, pcr_allocated.
  destruct (Z.ltb_spec pcr IMPLEMENTATION_PCR); [|done].
  destruct (find_bank alg (pcrAllocated s)) as [b|] eqn:E; [|done]. intros _. split; [|done].
  apply find_some in E as [Hin E%Z.eqb_eq]. unfold is_alg. rewrite <- (pw_banks s Hw), <- E.
  apply elem_map. by apply list_elem_of_In.
Qed.

Lemma GetPcrPointer_eq alg pcr s :
  pcr_wf s →
  GetPcrPointer alg pcr s = Some (if allocated s alg pcr then Some (pcr_loc alg pcr) else None, s).
Proof.
  intros Hw. unfold GetPcrPointer, GetPcrPointerIfAllocated, PcrIsAllocated. munfold.
  fold (allocated s alg pcr). destruct (allocated s alg pcr) eqn:E; cbn [negb]; [|done].
  destruct (allocated_alg s alg pcr Hw E) as [Ha _].
  destruct (alg_place alg Ha) as (o & Ho & _). unfold GetPcrPointerFromPcrArray, pcr_loc. by rewrite Ho.
Qed.

(** ** Writing a register *)

Definition put_pcr (o : Z) (d : bytes) (s : PcrState) : PcrState := set_s_pcrs (bwrite (s_pcrs s) o d) s.

Lemma peek_ok o n s :
  0 ≤ o → 0 ≤ n → o + n ≤ blen (s_pcrs s) → peek (Some o) n s = Some (bread (s_pcrs s) o n, s).
Proof. intros. unfold peek. munfold. by rewrite (proj2 (inb_true _ _ _)). Qed.

Lemma poke_ok o d s :
  0 ≤ o → o + blen d ≤ blen (s_pcrs s) → poke (Some o) d s = Some (tt, put_pcr o d s).
Proof.
  intros. pose proof (blen_nonneg d). unfold poke. munfold. by rewrite (proj2 (inb_true _ _ _)).
Qed.

Lemma wf_put o d s :
  pcr_wf s → 0 ≤ o → o + blen d ≤ IMPLEMENTATION_PCR * sizeof_PCR → Forall is_byte d →
  pcr_wf (put_pcr o d s).
Proof.
  intros [Hl Hb ? ? ? ?] Ho Hle Hd. constructor; try done; cbn.
  - by rewrite blen_bwrite by lia.
  - by apply bwrite_byte.
Qed.

Lemma val_put_same alg pcr d s :
  pcr_wf s → is_alg alg → is_pcr pcr → blen d = dsize alg →
  pcr_val (put_pcr (pcr_loc alg pcr) d s) alg pcr = d.
Proof.
  intros Hw Ha Hp Hd. destruct (pcr_loc_bounds alg pcr Ha Hp) as (_ & _ & ? & ? & ?).
  pose proof (pw_pcrs s Hw). apply bread_bwrite_same; lia.
Qed.

Lemma val_put_ne alg pcr d s alg' pcr' :
  pcr_wf s → is_alg alg → is_pcr pcr → is_alg alg' → is_pcr pcr' → blen d = dsize alg →
  (alg, pcr) ≠ (alg', pcr') → pcr_val (put_pcr (pcr_loc alg pcr) d s) alg' pcr' = pcr_val s alg' pcr'.
Proof.
  intros Hw Ha Hp Ha' Hp' Hd Hne. pose proof (pw_pcrs s Hw).
  destruct (pcr_loc_bounds alg pcr Ha Hp) as (_ & _ & ? & ? & ?).
  destruct (pcr_loc_bounds alg' pcr' Ha' Hp') as (_ & _ & ? & ? & ?).
  destruct (pcr_loc_disjoint alg alg' pcr pcr' Ha Ha' Hp Hp' Hne).
  - apply bread_bwrite_after; lia.
  - apply bread_bwrite_before; lia.
Qed.

(** A write inside the structure of register [pcr]. *)
Lemma val_put_other o d s pcr alg' pcr' :
  pcr_wf s → is_pcr pcr → is_alg alg' → is_pcr pcr' → pcr ≠ pcr' →
  pcr * sizeof_PCR ≤ o → o + blen d ≤ (pcr + 1) * sizeof_PCR →
  pcr_val (put_pcr o d s) alg' pcr' = pcr_val s alg' pcr'.
Proof.
  intros Hw Hp Ha' Hp' Hne Ho Hle. pose proof (pw_pcrs s Hw). pose proof (blen_nonneg d).
  destruct (pcr_loc_bounds alg' pcr' Ha' Hp') as (? & ? & ? & ? & ?).
  unfold is_pcr, sizeof_PCR, IMPLEMENTATION_PCR in *.
  destruct (Z.lt_total pcr pcr') as [|[|]]; [|done|].
  - apply bread_bwrite_after; lia.
  - apply bread_bwrite_before; lia.
Qed.

(** ** What a function leaves alone

    [only P s s']: the state is well formed, the values of the registers outside
    [P] and everything but the values, the counter and the failure flag are as
    before. *)
Record only (P : Z → Prop) (s s' : PcrState) : Prop := {
  only_wf : pcr_wf s';
  only_val alg pcr : is_alg alg → is_pcr pcr → ¬ P pcr → pcr_val s' alg pcr = pcr_val s alg pcr;
  only_rest : s' = set_p_failed (p_failed s') (set_pcrCounter (pcrCounter s') (set_s_pcrs (s_pcrs s') s));
}.

Lemma only_refl P s : pcr_wf s → only P s s.
Proof. intros Hw. split; [done..|]. by destruct s. Qed.

Lemma only_trans P s1 s2 s3 : only P s1 s2 → only P s2 s3 → only P s1 s3.
Proof.
  intros [W1 V1 R1] [W2 V2 R2]. split; [done| |].
  - intros alg pcr Ha Hp HP. by rewrite V2, V1.
  - rewrite R2 at 1. rewrite R1. by destruct s1.
Qed.

Lemma only_weaken P (Q : Z → Prop) s s' : (∀ x, P x → Q x) → only P s s' → only Q s s'.
Proof. intros HPQ [W V R]. split; [done| |done]. intros alg pcr Ha Hp HQ. apply V; auto. Qed.

Lemma only_allocated P s s' : only P s s' → pcrAllocated s' = pcrAllocated s.
Proof. intros [_ _ ->]. by destruct s. Qed.

Lemma only_put o d s pcr :
  pcr_wf s → is_pcr pcr → pcr * sizeof_PCR ≤ o → o + blen d ≤ (pcr + 1) * sizeof_PCR →
  Forall is_byte d → only (eq pcr) s (put_pcr o d s).
Proof.
  intros Hw Hp Ho Hle Hd. split.
  - apply wf_put; try done; unfold is_pcr, IMPLEMENTATION_PCR, sizeof_PCR in *; lia.
  - intros alg pcr' Ha Hp' Hne. by apply (val_put_other o d s pcr).
  - by destruct s.
Qed.

Lemma PCRChanged_only pcr s :
  pcr_wf s → ∃ s', PCRChanged pcr s = Some (tt, s') ∧ only (λ _, False) s s' ∧ s_pcrs s' = s_pcrs s ∧
    pcrCounter s' = if (pcr =? 0) || negb (PCRBelongsTCBGroup pcr)
                    then u32 (pcrCounter s + 1) else pcrCounter s.
Proof.
  intros Hw. unfold PCRChanged. destruct (_ || _); munfold.
  - destruct (_ =? 0); eexists; (split; [reflexivity|]); split_and!; try done;
      (split; [by destruct Hw; constructor|done|by destruct s]).
  - exists s. split; [done|]. split; [by apply only_refl|done].
Qed.

Lemma handle_pcr h : 0 ≤ h < 2 ^ 32 → u32 (h - PCR_FIRST) = h.
Proof. intros. unfold PCR_FIRST. rewrite Z.sub_0_r. by apply wrap_small. Qed.

Lemma not_allocated s alg pcr : IMPLEMENTATION_PCR ≤ pcr → allocated s alg pcr = false.
Proof. intros Hp. unfold allocated, pcr_allocated. destruct (Z.ltb_spec pcr IMPLEMENTATION_PCR); [lia|done]. Qed.

Section proof.
Context `{HashLib}.

(** ** Extension *)

Lemma PCRExtend_spec pcr hash size data s :
  pcr_wf s → is_pcr pcr → 0 ≤ size ≤ blen data →
  ∃ s', PCRExtend pcr hash size data s = Some (tt, s') ∧ only (eq pcr) s s' ∧
    (∀ alg, is_alg alg → pcr_val s' alg pcr =
      if allocated s hash pcr && (alg =? hash)
      then Hash hash (pcr_val s hash pcr ++ bread data 0 size) else pcr_val s alg pcr).
Proof.
  intros Hw Hp Hsz. unfold PCRExtend.
  rewrite handle_pcr by (unfold is_pcr, IMPLEMENTATION_PCR in *; lia).
  rewrite (bind_Some _ _ _ _ _ (GetPcrPointer_eq hash pcr s Hw)).
  destruct (allocated s hash pcr) eqn:Hal; [|exists s; split; [done|]; split; [by apply only_refl|done]].
  destruct (allocated_alg s hash pcr Hw Hal) as [Ha _].
  destruct (pcr_loc_bounds hash pcr Ha Hp) as (B1 & B2 & B3 & B4 & B5).
  pose proof (pw_pcrs s Hw) as Hl.
  rewrite (bind_Some _ _ _ _ _ (peek_ok (pcr_loc hash pcr) (dsize hash) s ltac:(lia) ltac:(lia) ltac:(lia))).
  rewrite (proj2 (inb_true data 0 size)) by lia. fold (pcr_val s hash pcr).
  set (v := Hash hash _). assert (Hv : blen v = dsize hash) by apply Hash_size.
  assert (Hvb : Forall is_byte v) by apply Hash_byte.
  rewrite (bind_Some _ _ _ tt (put_pcr (pcr_loc hash pcr) v s)) by (apply poke_ok; lia).
  assert (O1 : only (eq pcr) s (put_pcr (pcr_loc hash pcr) v s)) by (apply only_put; (done || lia)).
  destruct (PCRChanged_only pcr (put_pcr (pcr_loc hash pcr) v s) (only_wf _ _ _ O1))
    as (s' & E & O2 & M & _).
  exists s'. split; [done|]. split; [eapply only_trans; [done|]; by eapply only_weaken; [|exact O2]|].
  intros alg Halg. unfold pcr_val at 1. rewrite M. cbn [andb].
  fold (pcr_val (put_pcr (pcr_loc hash pcr) v s) alg pcr).
  destruct (Z.eqb_spec alg hash) as [->|Hne]; [by apply val_put_same|].
  apply val_put_ne; try done. congruence.
Qed.

Lemma PCRExtend_none h hash size data s :
  pcr_wf s → IMPLEMENTATION_PCR ≤ h < 2 ^ 32 → PCRExtend h hash size data s = Some (tt, s).
Proof.
  intros Hw Hh. unfold PCRExtend.
  rewrite handle_pcr by (unfold IMPLEMENTATION_PCR in *; lia).
  rewrite (bind_Some _ _ _ _ _ (GetPcrPointer_eq hash h s Hw)). by rewrite not_allocated by lia.
Qed.

(** The digests a list of tagged digests adds to one bank. *)
Definition bank_log (alg : Z) (digests : list (Z * bytes)) : list bytes :=
  map (λ '(_, d), bread d 0 (dsize alg)) (List.filter (λ '(a, _), a =? alg) digests).

(** The value after a sequence of extensions. *)
Definition extended (alg : Z) (v : bytes) (log : list bytes) : bytes :=
  fold_left (λ v d, Hash alg (v ++ d)) log v.

Lemma extended_app alg v l1 l2 : extended alg v (l1 ++ l2) = extended alg (extended alg v l1) l2.
Proof. apply fold_left_app. Qed.

Definition digests_ok (digests : list (Z * bytes)) : Prop :=
  Forall (λ '(a, d), dsize a ≤ blen d) digests.

Lemma dsize_nonneg alg : 0 ≤ dsize alg.
Proof. unfold CryptHashGetDigestSize. repeat case_match; lia. Qed.

Lemma extend_all pcr digests s :
  pcr_wf s → is_pcr pcr → digests_ok digests →
  ∃ s', for_each digests (λ '(a, d), PCRExtend pcr a (dsize a) d) s = Some (tt, s') ∧ only (eq pcr) s s' ∧
    (∀ alg, is_alg alg → pcr_val s' alg pcr =
      if allocated s alg pcr then extended alg (pcr_val s alg pcr) (bank_log alg digests)
      else pcr_val s alg pcr).
Proof.
  intros Hw Hp Hd. revert s Hw. induction Hd as [|[a d] digests Hle Hd IH]; intros s Hw; cbn [for_each].
  { exists s. split; [done|]. split; [by apply only_refl|]. intros alg _. by destruct (allocated s alg pcr). }
  pose proof (dsize_nonneg a).
  destruct (PCRExtend_spec pcr a (dsize a) d s Hw Hp) as (s1 & E1 & O1 & V1); [lia|].
  destruct (IH s1 (only_wf _ _ _ O1)) as (s2 & E2 & O2 & V2).
  exists s2. split; [by erewrite bind_Some by exact E1|]. split; [by eapply only_trans|].
  intros alg Ha. rewrite V2 by done. unfold allocated in *. rewrite (only_allocated _ _ _ O1), V1 by done.
  unfold bank_log. cbn [List.filter]. destruct (Z.eqb_spec a alg) as [->|Hne].
  - rewrite Z.eqb_refl, andb_true_r. by destruct (pcr_allocated pcr alg (pcrAllocated s)).
  - rewrite (proj2 (Z.eqb_neq alg a)), andb_false_r by congruence. done.
Qed.

(** ** Reset *)

Lemma bank_at s i :
  pcr_wf s → 0 ≤ i < HASH_COUNT →
  ∃ bank, pcrAllocated s !! Z.to_nat i = Some bank ∧ sel_hash bank = CryptHashGetAlgByIndex i ∧
    is_alg (CryptHashGetAlgByIndex i).
Proof.
  intros Hw Hi. unfold HASH_COUNT in Hi.
  assert (Hl : hash_algs !! Z.to_nat i = Some (CryptHashGetAlgByIndex i)).
  { assert (i = 0 ∨ i = 1 ∨ i = 2 ∨ i = 3) as [->|[->|[->| ->]]] by lia; done. }
  pose proof Hl as Hm. rewrite <- (pw_banks s Hw), list_lookup_fmap in Hm.
  destruct (pcrAllocated s !! Z.to_nat i) as [b|]; [|done]. exists b. split; [done|].
  split; [by injection Hm|]. unfold is_alg. by apply list_elem_of_lookup_2 in Hl.
Qed.

(** The value zero in a register of the bank at index [i]. *)
Lemma set_value_at_spec pcr i s :
  pcr_wf s → is_pcr pcr → 0 ≤ i < HASH_COUNT →
  ∃ s', set_value_at pcr 0 i s = Some (tt, s') ∧ only (eq pcr) s s' ∧
    (∀ alg, is_alg alg → pcr_val s' alg pcr =
      if allocated s alg pcr && (alg =? CryptHashGetAlgByIndex i) then bfill 0 (dsize alg)
      else pcr_val s alg pcr).
Proof.
  intros Hw Hp Hi. destruct (bank_at s i Hw Hi) as (bank & Hb & Hh & Ha). unfold set_value_at.
  set (h := CryptHashGetAlgByIndex i) in *.
  assert (h ≠ TPM_ALG_NULL) as Hnull%Z.eqb_neq by (algs Ha; done). rewrite Hnull.
  erewrite bind_Some by reflexivity. erewrite bind_Some by (unfold of_option; by rewrite Hb).
  rewrite Hh, (bind_Some _ _ _ _ _ (GetPcrPointer_eq h pcr s Hw)).
  destruct (allocated s h pcr) eqn:Hal; cycle 1.
  { exists s. split; [done|]. split; [by apply only_refl|]. intros alg _.
    destruct (Z.eqb_spec alg h) as [->|]; [by rewrite Hal|by rewrite andb_false_r]. }
  destruct (pcr_loc_bounds h pcr Ha Hp) as (B1 & B2 & B3 & B4 & B5).
  pose proof (pw_pcrs s Hw) as Hl.
  assert (L1 : blen [u8 0] = 1) by done.
  rewrite (bind_Some _ _ _ tt (put_pcr (pcr_loc h pcr + dsize h - 1) [u8 0] s)) by (apply poke_ok; lia).
  assert (O1 : only (eq pcr) s (put_pcr (pcr_loc h pcr + dsize h - 1) [u8 0] s)).
  { apply only_put; try done; try lia. repeat constructor; done. }
  set (s1 := put_pcr _ _ s) in *. pose proof (only_wf _ _ _ O1) as W1. pose proof (pw_pcrs s1 W1).
  assert (L2 : blen (bfill 0 (dsize h - 1)) = dsize h - 1) by (apply blen_bfill; lia).
  cbn [Z.leb]. change (0 <=? 0) with true. cbv iota. rewrite poke_ok by lia.
  assert (O2 : only (eq pcr) s1 (put_pcr (pcr_loc h pcr) (bfill 0 (dsize h - 1)) s1)).
  { apply only_put; try done; try lia. apply Forall_replicate. unfold is_byte. lia. }
  eexists. split; [done|]. split; [by eapply only_trans|].
  assert (E : put_pcr (pcr_loc h pcr) (bfill 0 (dsize h - 1)) s1 = put_pcr (pcr_loc h pcr) (bfill 0 (dsize h)) s).
  { unfold s1, put_pcr, set_s_pcrs. cbn. f_equal.
    replace (pcr_loc h pcr + dsize h - 1) with (pcr_loc h pcr + blen (bfill 0 (dsize h - 1))) by lia.
    rewrite bwrite_bwrite_prefix by (rewrite ?L1, ?L2; lia). f_equal.
    unfold bfill. replace (Z.to_nat (dsize h)) with (Z.to_nat (dsize h - 1) + 1)%nat by lia.
    by rewrite replicate_add. }
  intros alg Halg. rewrite E. destruct (Z.eqb_spec alg h) as [->|Hne].
  - rewrite Hal. apply val_put_same; try done. apply blen_bfill. lia.
  - rewrite andb_false_r. apply val_put_ne; try done; [|congruence]. apply blen_bfill. lia.
Qed.

Lemma set_values pcr l s :
  pcr_wf s → is_pcr pcr → Forall (λ i, 0 ≤ i < HASH_COUNT) l →
  ∃ s', for_each l (set_value_at pcr 0) s = Some (tt, s') ∧ only (eq pcr) s s' ∧
    (∀ alg, is_alg alg → pcr_val s' alg pcr =
      if allocated s alg pcr && existsb (Z.eqb alg) (map CryptHashGetAlgByIndex l)
      then bfill 0 (dsize alg) else pcr_val s alg pcr).
Proof.
  intros Hw Hp Hl. revert s Hw. induction Hl as [|i l Hi Hl IH]; intros s Hw; cbn [for_each].
  { exists s. split; [done|]. split; [by apply only_refl|]. intros alg _. by rewrite andb_false_r. }
  destruct (set_value_at_spec pcr i s Hw Hp Hi) as (s1 & E1 & O1 & V1).
  destruct (IH s1 (only_wf _ _ _ O1)) as (s2 & E2 & O2 & V2).
  exists s2. split; [by erewrite bind_Some by exact E1|]. split; [by eapply only_trans|].
  intros alg Ha. rewrite V2, V1 by done. unfold allocated. rewrite (only_allocated _ _ _ O1).
  cbn [map existsb]. destruct (pcr_allocated pcr alg (pcrAllocated s)), (alg =? CryptHashGetAlgByIndex i),
    (existsb (Z.eqb alg) (map CryptHashGetAlgByIndex l)); done.
Qed.

Lemma PCRSetValue_spec pcr s :
  pcr_wf s → is_pcr pcr →
  ∃ s', PCRSetValue pcr 0 s = Some (tt, s') ∧ only (eq pcr) s s' ∧
    (∀ alg, is_alg alg → pcr_val s' alg pcr =
      if allocated s alg pcr then bfill 0 (dsize alg) else pcr_val s alg pcr).
Proof.
  intros Hw Hp. unfold PCRSetValue.
  rewrite handle_pcr by (unfold is_pcr, IMPLEMENTATION_PCR in *; lia).
  destruct (set_values pcr (seqZ 0 HASH_COUNT) s Hw Hp) as (s' & E & O & V).
  { apply Forall_seqZ. intros i. unfold HASH_COUNT. lia. }
  exists s'. split; [done|]. split; [done|]. intros alg Ha. rewrite V by done.
  replace (existsb _ _) with true by (algs Ha; done). by rewrite andb_true_r.
Qed.

(** A loop over pairs keeps what its body keeps. *)
Lemma for_each_only {A} (P : Z → Prop) (l : list A) (body : A → M PcrState unit) s :
  pcr_wf s →
  (∀ x s, x ∈ l → pcr_wf s → ∃ s', body x s = Some (tt, s') ∧ only P s s') →
  ∃ s', for_each l body s = Some (tt, s') ∧ only P s s'.
Proof.
  revert s. induction l as [|x l IH]; intros s Hw Hb; cbn [for_each].
  { exists s. split; [done|by apply only_refl]. }
  destruct (Hb x s) as (s1 & E1 & O1); [by left|done|].
  destruct (IH s1 (only_wf _ _ _ O1)) as (s2 & E2 & O2).
  { intros y s' Hy. apply Hb. by right. }
  exists s2. split; [by erewrite bind_Some by exact E1|by eapply only_trans].
Qed.

(** The registers that locality 4 can reset. *)
Definition dynamic (pcr : Z) : Prop :=
  Z.land (resetLocality (platPcr__GetPcrInitializationAttributes pcr)) 0x10 ≠ 0.

Lemma reset_dynamic_only pcr bank s :
  pcr_wf s → is_pcr pcr → ∃ s', reset_dynamic pcr bank s = Some (tt, s') ∧ only dynamic s s'.
Proof.
  intros Hw Hp. unfold reset_dynamic.
  rewrite (bind_Some _ _ _ _ _ (GetPcrPointer_eq (sel_hash bank) pcr s Hw)).
  destruct (allocated s (sel_hash bank) pcr) eqn:Hal; [|exists s; split; [done|by apply only_refl]].
  destruct (allocated_alg s _ pcr Hw Hal) as [Ha _].
  destruct (Z.eqb_spec (Z.land (resetLocality (platPcr__GetPcrInitializationAttributes pcr)) 0x10) 0)
    as [Hd|Hd]; cbn [negb]; [exists s; split; [done|by apply only_refl]|].
  destruct (pcr_loc_bounds _ pcr Ha Hp) as (B1 & B2 & B3 & B4 & B5). pose proof (pw_pcrs s Hw).
  assert (L : blen (bfill 0 (dsize (sel_hash bank))) = dsize (sel_hash bank)) by (apply blen_bfill; lia).
  rewrite poke_ok by lia. eexists. split; [done|].
  eapply (only_weaken (eq pcr)); [by intros ? <-|]. apply only_put; try done; try lia.
  apply Forall_replicate. unfold is_byte. lia.
Qed.

Lemma PCRResetDynamics_only s :
  pcr_wf s → ∃ s', PCRResetDynamics s = Some (tt, s') ∧ only dynamic s s'.
Proof.
  intros Hw. unfold PCRResetDynamics. erewrite bind_Some by reflexivity.
  apply for_each_only; [done|]. intros pcr s1 Hin W1. apply for_each_only; [done|].
  intros bank s2 _ W2. apply reset_dynamic_only; [done|]. unfold pcr_numbers in Hin.
  apply elem_of_seqZ in Hin. unfold is_pcr. lia.
Qed.
End proof.

(** * Reading the registers: selections as sets of numbers *)

(** ** Bits of a selection *)

Lemma select_bit_testbit l pcr :
  select_bit l pcr = Z.testbit (List.nth (Z.to_nat (pcr / 8)) l 0) (pcr mod 8).
Proof. unfold select_bit. apply land_bit. apply Z.mod_pos_bound. lia. Qed.

Lemma pcr_octet pcr : is_pcr pcr → (Z.to_nat (pcr / 8) < 3)%nat ∧ 0 ≤ pcr mod 8 < 8.
Proof.
  unfold is_pcr, IMPLEMENTATION_PCR. intros Hp. pose proof (Z.div_mod pcr 8 ltac:(lia)).
  pose proof (Z.mod_pos_bound pcr 8 ltac:(lia)). assert (pcr / 8 < 3) by (apply Z.div_lt_upper_bound; lia).
  assert (0 ≤ pcr / 8) by (apply Z.div_pos; lia). lia.
Qed.

(** The shape of a selection from the wire: three octets. *)
Definition sel_shape (sel : TPMS_PCR_SELECTION) : Prop :=
  sizeofSelect sel = PCR_SELECT_MAX ∧ List.length (pcrSelect sel) = 3%nat.

Lemma filter_pcr_shape banks sel : sel_shape sel → sel_shape (filter_pcr banks sel).
Proof. intros [H1 H2]. split; [done|]. cbn. by rewrite length_imap. Qed.

Lemma filter_pcr_selected banks sel pcr :
  sel_shape sel → is_pcr pcr →
  IsPcrSelected pcr (filter_pcr banks sel) =
    IsPcrSelected pcr sel && pcr_allocated pcr (sel_hash sel) banks.
Proof.
  intros [Hs Hl] Hp. destruct (pcr_octet pcr Hp) as [Ho Hb]. unfold IsPcrSelected, pcr_allocated.
  rewrite (proj2 (Z.ltb_lt pcr IMPLEMENTATION_PCR)) by apply Hp. cbn [andb pcrSelect filter_pcr sel_hash].
  rewrite !select_bit_testbit.
  destruct (pcrSelect sel) as [|b0 [|b1 [|b2 [|]]]]; try done. rewrite Hs.
  assert (Z.to_nat (pcr / 8) = 0 ∨ Z.to_nat (pcr / 8) = 1 ∨ Z.to_nat (pcr / 8) = 2)%nat as Hi by lia.
  destruct (find_bank (sel_hash sel) banks) as [a|]; rewrite ?select_bit_testbit;
    destruct Hi as [E|[E|E]]; rewrite !E; cbn -[Z.land Z.testbit];
    match goal with |- context [if ?c then _ else _] => change c with true end; cbv iota;
    rewrite Z.land_spec; try done;
    by rewrite ?Z.testbit_0_l, ?andb_false_r.
Qed.

Lemma clear_select_shape pcr sel : sel_shape sel → sel_shape (clear_select pcr sel).
Proof. intros [H1 H2]. split; [done|]. cbn. by rewrite length_insert. Qed.

Lemma clear_mask_bit k j : 0 ≤ k < 8 → 0 ≤ j < 8 → Z.testbit (u8 (Z.lnot (Z.shiftl 1 k))) j = negb (j =? k).
Proof.
  intros Hk Hj. rewrite wrap_testbit by lia. rewrite (proj2 (Z.ltb_lt j 8)) by lia. cbn [andb].
  rewrite Z.lnot_spec, Z.shiftl_spec by lia. f_equal.
  destruct (Z.eqb_spec j k) as [->|]; [by rewrite Z.sub_diag|].
  destruct (Z.lt_ge_cases (j - k) 0); [by rewrite Z.testbit_neg_r by lia|].
  apply Z.bits_above_log2; cbn; lia.
Qed.

Lemma clear_select_selected pcr sel q :
  sel_shape sel → is_pcr pcr → is_pcr q →
  IsPcrSelected q (clear_select pcr sel) = IsPcrSelected q sel && negb (q =? pcr).
Proof.
  intros [Hs Hl] Hp Hq. destruct (pcr_octet pcr Hp) as [Ho Hb]. destruct (pcr_octet q Hq) as [Ho' Hb'].
  unfold IsPcrSelected. rewrite (proj2 (Z.ltb_lt q IMPLEMENTATION_PCR)) by apply Hq.
  cbn [andb pcrSelect clear_select]. rewrite !select_bit_testbit, !nth_lookup.
  unfold is_pcr, IMPLEMENTATION_PCR in *.
  pose proof (Z.div_mod q 8 ltac:(lia)). pose proof (Z.div_mod pcr 8 ltac:(lia)).
  destruct (decide (Z.to_nat (pcr / 8) = Z.to_nat (q / 8))) as [E|E].
  - rewrite <- E, list_lookup_insert_eq by lia. cbn [from_option id]. rewrite Z.land_spec, clear_mask_bit by done.
    f_equal. f_equal. apply eq_true_iff_eq. rewrite !Z.eqb_eq. lia.
  - rewrite list_lookup_insert_ne by done. rewrite (proj2 (Z.eqb_neq q pcr)); [by rewrite andb_true_r|].
    intros ->. done.
Qed.

Lemma clear_rest_spec fuel pcr sel :
  sel_shape sel → 0 ≤ pcr ≤ IMPLEMENTATION_PCR → IMPLEMENTATION_PCR - pcr ≤ Z.of_nat fuel →
  ∃ sel', clear_rest fuel pcr sel = (IMPLEMENTATION_PCR, sel') ∧ sel_shape sel' ∧
    sel_hash sel' = sel_hash sel ∧
    (∀ q, is_pcr q → IsPcrSelected q sel' = IsPcrSelected q sel && (q <? pcr)).
Proof.
  revert pcr sel. induction fuel as [|fuel IH]; intros pcr sel Hs Hp Hf; cbn [clear_rest].
  - assert (pcr = IMPLEMENTATION_PCR) as -> by lia. exists sel. split_and!; try done.
    intros q Hq. rewrite (proj2 (Z.ltb_lt q IMPLEMENTATION_PCR)) by apply Hq. by rewrite andb_true_r.
  - destruct (Z.ltb_spec pcr IMPLEMENTATION_PCR) as [Hlt|Hge]; cbn [andb]; cycle 1.
    { assert (pcr = IMPLEMENTATION_PCR) as -> by lia. exists sel. split_and!; try done.
      intros q Hq. rewrite (proj2 (Z.ltb_lt q IMPLEMENTATION_PCR)) by apply Hq. by rewrite andb_true_r. }
    assert (Hpcr : is_pcr pcr) by (unfold is_pcr; lia). destruct Hs as [Hsz Hln].
    assert ((pcr / 8 <? sizeofSelect sel) = true) as ->.
    { rewrite Hsz. unfold PCR_SELECT_MAX. zbool. apply Z.div_lt_upper_bound; unfold IMPLEMENTATION_PCR in *; lia. }
    destruct (IH (pcr + 1) (clear_select pcr sel)) as (sel' & E & S' & H' & Q');
      [by apply clear_select_shape|lia|lia|].
    exists sel'. split_and!; try done. intros q Hq. rewrite Q', clear_select_selected by done.
    rewrite <- andb_assoc. f_equal. apply eq_true_iff_eq. rewrite andb_true_iff, negb_true_iff, Z.eqb_neq, !Z.ltb_lt. lia.
Qed.

(** ** Selections as lists of registers *)

(** The selected registers of a bank from number [pcr] on, in order. *)
Definition selected_from (pcr : Z) (sel : TPMS_PCR_SELECTION) : list Z :=
  List.filter (λ q, IsPcrSelected q sel) (seqZ pcr (IMPLEMENTATION_PCR - pcr)).

(** The registers a list of selections selects, with the algorithm of the bank. *)
Definition selected_of (sels : list TPMS_PCR_SELECTION) : list (Z * Z) :=
  flat_map (λ sel, map (pair (sel_hash sel)) (selected_from 0 sel)) sels.

Lemma selected_from_end sel : selected_from IMPLEMENTATION_PCR sel = [].
Proof. done. Qed.

Lemma selected_from_cons pcr sel :
  is_pcr pcr →
  selected_from pcr sel =
    if IsPcrSelected pcr sel then pcr :: selected_from (pcr + 1) sel else selected_from (pcr + 1) sel.
Proof.
  intros Hp. unfold selected_from, is_pcr in *. rewrite seqZ_cons by lia. cbn [List.filter].
  by replace (Z.pred (IMPLEMENTATION_PCR - pcr)) with (IMPLEMENTATION_PCR - (pcr + 1)) by lia.
Qed.

Lemma elem_of_selected pcr sel q : 0 ≤ pcr → In q (selected_from pcr sel) → is_pcr q ∧ pcr ≤ q.
Proof.
  intros H0 [Hq _]%filter_In. apply list_elem_of_In, elem_of_seqZ in Hq. unfold is_pcr. lia.
Qed.

Lemma selected_from_none pcr sel :
  0 ≤ pcr → (∀ q, is_pcr q → pcr ≤ q → IsPcrSelected q sel = false) → selected_from pcr sel = [].
Proof.
  intros H0 Hq. destruct (selected_from pcr sel) as [|q l] eqn:E; [done|].
  assert (Hin : In q (selected_from pcr sel)) by (rewrite E; by left).
  destruct (elem_of_selected pcr sel q H0 Hin) as [Hp Hle]. apply filter_In in Hin as [_ Hs].
  by rewrite Hq in Hs.
Qed.

Lemma filter_list_ext {A} (f g : A → bool) l :
  (∀ x, In x l → f x = g x) → List.filter f l = List.filter g l.
Proof.
  induction l as [|x l IH]; intros E; [done|]. cbn. rewrite E by (by left).
  rewrite IH; [done|]. intros. apply E. by right.
Qed.

(** Masking with the allocation filters the list. *)
Lemma selected_filter s sel :
  sel_shape sel →
  map (pair (sel_hash sel)) (selected_from 0 (filter_pcr (pcrAllocated s) sel)) =
    List.filter (λ '(a, q), allocated s a q) (map (pair (sel_hash sel)) (selected_from 0 sel)).
Proof.
  intros Hs. unfold selected_from, allocated.
  assert (Hr : ∀ q, In q (seqZ 0 (IMPLEMENTATION_PCR - 0)) → is_pcr q)
    by (intros q Hq; apply list_elem_of_In, elem_of_seqZ in Hq; unfold is_pcr; lia).
  rewrite (filter_list_ext _ _ _ (λ q Hq, filter_pcr_selected (pcrAllocated s) sel q Hs (Hr q Hq))).
  induction (seqZ 0 _) as [|q l IH]; [done|]. cbn.
  assert (IH' := IH ltac:(intros; apply Hr; by right)).
  destruct (IsPcrSelected q sel); cbn [andb map List.filter]; [|done].
  destruct (pcr_allocated q (sel_hash sel) (pcrAllocated s)); cbn [map]; by rewrite IH'.
Qed.

(** ** The loops *)

Section read.
Context `{HashLib}.

Definition masked (s : PcrState) (sel : TPMS_PCR_SELECTION) : Prop :=
  ∀ q, is_pcr q → IsPcrSelected q sel = true → allocated s (sel_hash sel) q = true.

Lemma filter_pcr_masked s sel : sel_shape sel → masked s (filter_pcr (pcrAllocated s) sel).
Proof.
  intros Hs q Hq. rewrite filter_pcr_selected by done. by intros [_ ?]%andb_true_iff.
Qed.

(** Reading an allocated register. *)
Lemma peek_allocated {B} alg pcr s (k : bytes → M PcrState B) :
  pcr_wf s → is_pcr pcr → allocated s alg pcr = true →
  (let! pcrData := GetPcrPointer alg pcr in
   pAssert (match pcrData with Some _ => true | None => false end) ;;
   let! d := peek pcrData (dsize alg) in k d) s = k (pcr_val s alg pcr) s.
Proof.
  intros Hw Hp Ha. rewrite (bind_Some _ _ _ _ _ (GetPcrPointer_eq alg pcr s Hw)), Ha.
  destruct (allocated_alg s alg pcr Hw Ha) as [Hal _].
  destruct (pcr_loc_bounds alg pcr Hal Hp) as (B1 & B2 & B3 & B4 & B5). pose proof (pw_pcrs s Hw).
  erewrite bind_Some by reflexivity. by erewrite bind_Some by (apply peek_ok; lia).
Qed.

Lemma read_bank_spec fuel pcr sel dg s :
  pcr_wf s → sel_shape sel → masked s sel → 0 ≤ pcr ≤ IMPLEMENTATION_PCR →
  IMPLEMENTATION_PCR - pcr < Z.of_nat fuel →
  let l := take (8 - List.length dg) (selected_from pcr sel) in
  ∃ sel', read_bank fuel pcr sel dg s =
      Some ((IMPLEMENTATION_PCR, sel', dg ++ map (pcr_val s (sel_hash sel)) l), s) ∧
    sel_shape sel' ∧ sel_hash sel' = sel_hash sel ∧ selected_from pcr sel' = l ∧
    (∀ q, is_pcr q → q < pcr → IsPcrSelected q sel' = IsPcrSelected q sel).
Proof.
  intros Hw Hs Hm. revert pcr dg. induction fuel as [|fuel IH]; intros pcr dg Hp Hf; [lia|].
  cbn [read_bank]. destruct (Z.ltb_spec pcr IMPLEMENTATION_PCR) as [Hlt|Hge]; cbn [negb]; cycle 1.
  { assert (pcr = IMPLEMENTATION_PCR) as -> by lia. exists sel.
    rewrite selected_from_end, take_nil, app_nil_r. split_and!; done. }
  assert (Hpcr : is_pcr pcr) by (unfold is_pcr; lia).
  destruct (IsPcrSelected pcr sel) eqn:Hsel; cycle 1.
  { destruct (IH (pcr + 1) dg) as (sel' & E & S' & H' & L & Q); [lia..|].
    exists sel'. rewrite !(selected_from_cons pcr) by done. rewrite (Q pcr), Hsel by (done || lia).
    split_and!; try done. intros q Hq Hlt'. apply Q; [done|lia]. }
  destruct (Z.ltb_spec 7 (Z.of_nat (length dg))) as [H7|H7].
  - destruct (clear_rest_spec (Z.to_nat IMPLEMENTATION_PCR) pcr sel Hs) as (sel' & E & S' & H' & Q); [lia..|].
    rewrite E. exists sel'. replace (8 - length dg)%nat with 0%nat by lia. rewrite take_0, app_nil_r.
    split_and!; try done.
    + apply selected_from_none; [lia|]. intros q Hq Hle. rewrite Q by done.
      destruct (Z.ltb_spec q pcr); [lia|]. apply andb_false_r.
    + intros q Hq Hlt'. rewrite Q by done. rewrite (proj2 (Z.ltb_lt q pcr)) by done. apply andb_true_r.
  - rewrite (peek_allocated (sel_hash sel) pcr s _ Hw Hpcr (Hm pcr Hpcr Hsel)).
    destruct (IH (pcr + 1) (dg ++ [pcr_val s (sel_hash sel) pcr])) as (sel' & E & S' & H' & L & Q); [lia..|].
    exists sel'. rewrite !(selected_from_cons pcr) by done. rewrite (Q pcr), Hsel by (done || lia).
    rewrite length_app in *. cbn [length] in *.
    replace (8 - length dg)%nat with (S (8 - (length dg + 1))) by lia. cbn [take map].
    rewrite E, L, <- app_assoc. split_and!; try done. intros q Hq Hlt'. apply Q; [done|lia].
Qed.

Lemma read_banks_spec sels dg s :
  pcr_wf s → Forall sel_shape sels →
  let l := take (8 - List.length dg) (List.filter (λ '(a, q), allocated s a q) (selected_of sels)) in
  ∃ sels', read_banks sels dg s = Some ((sels', dg ++ map (λ '(a, q), pcr_val s a q) l), s) ∧
    Forall sel_shape sels' ∧ map sel_hash sels' = map sel_hash sels ∧ selected_of sels' = l.
Proof.
  intros Hw Hs. revert dg. induction Hs as [|sel sels Hsel Hs IH]; intros dg; cbn [read_banks].
  { exists []. cbn. rewrite take_nil, app_nil_r. split_and!; done. }
  erewrite bind_Some by reflexivity. pose proof (selected_filter s sel Hsel) as Hfil.
  set (f := filter_pcr (pcrAllocated s) sel) in *.
  assert (Hh : sel_hash f = sel_hash sel) by done.
  destruct (read_bank_spec (S (Z.to_nat IMPLEMENTATION_PCR)) 0 f dg s Hw) as (sel' & E & S' & H' & L & _);
    [by apply filter_pcr_shape|by apply filter_pcr_masked|unfold IMPLEMENTATION_PCR; lia..|].
  rewrite (bind_Some _ _ _ _ _ E), Z.ltb_irrefl, andb_false_r.
  destruct (IH (dg ++ map (pcr_val s (sel_hash f)) (take (8 - length dg) (selected_from 0 f))))
    as (sels' & E' & Sh & Hd & L').
  rewrite (bind_Some _ _ _ _ _ E'). exists (sel' :: sels').
  rewrite length_app, length_map, length_take in *. cbn [selected_of flat_map].
  fold (selected_of sels) (selected_of sels'). rewrite filter_app, take_app, <- Hfil.
  rewrite length_map, L, L', H', Hh, !map_app, firstn_map.
  replace (8 - (length dg + (8 - length dg) `min` length (selected_from 0 f)))%nat
    with (8 - length dg - length (selected_from 0 f))%nat by lia.
  split_and!; [by rewrite map_map, <- app_assoc|by constructor|cbn; by rewrite H', Hd|done].
Qed.

(** The digest of a selection is taken over the same registers. *)
Lemma digest_bank_spec sel pcrs s :
  pcr_wf s → masked s sel → Forall is_pcr pcrs →
  digest_bank sel pcrs s =
    Some (concat (map (pcr_val s (sel_hash sel)) (List.filter (λ q, IsPcrSelected q sel) pcrs)), s).
Proof.
  intros Hw Hm Hp. induction Hp as [|q pcrs Hq Hp IH]; [done|]. cbn [digest_bank List.filter].
  destruct (IsPcrSelected q sel) eqn:Hs; [|done].
  rewrite (peek_allocated (sel_hash sel) q s _ Hw Hq (Hm q Hq Hs)). by rewrite (bind_Some _ _ _ _ _ IH).
Qed.

Lemma digest_banks_spec sels s :
  pcr_wf s → Forall sel_shape sels →
  let l := List.filter (λ '(a, q), allocated s a q) (selected_of sels) in
  ∃ sels', digest_banks sels s = Some ((sels', concat (map (λ '(a, q), pcr_val s a q) l)), s) ∧
    selected_of sels' = l.
Proof.
  intros Hw Hs. induction Hs as [|sel sels Hsel Hs IH]; cbn [digest_banks]; [by exists []|].
  destruct IH as (sels' & E & L). erewrite bind_Some by reflexivity.
  pose proof (selected_filter s sel Hsel) as Hfil.
  rewrite (bind_Some _ _ _ _ _ (digest_bank_spec _ pcr_numbers s Hw (filter_pcr_masked s sel Hsel)
    ltac:(apply Forall_seqZ; unfold is_pcr; lia))).
  rewrite (bind_Some _ _ _ _ _ E). eexists (_ :: sels'). cbn [selected_of flat_map].
  fold (selected_of sels) (selected_of sels'). rewrite filter_app, <- Hfil, map_app, concat_app, map_map, L.
  split; done.
Qed.
End read.

(** * Changing the allocation of the registers *)

(** The entry of bank [h] after an allocation. *)
Definition effective (h : Z) (allocate banks : list TPMS_PCR_SELECTION) : option TPMS_PCR_SELECTION :=
  fold_left (λ acc a, if sel_hash a =? h then Some a else acc) allocate (find_bank h banks).

Lemma replace_bank_spec (P : TPMS_PCR_SELECTION → Prop) a banks :
  sel_hash a ∈ map sel_hash banks → P a → Forall P banks →
  ∃ l, replace_bank a banks = Some l ∧ map sel_hash l = map sel_hash banks ∧ Forall P l ∧
    (∀ h, find_bank h l = if sel_hash a =? h then Some a else find_bank h banks).
Proof.
  intros Hin Pa HP. induction HP as [|b banks Pb HP IH]; [by apply elem_of_nil in Hin|]. cbn [replace_bank].
  destruct (Z.eqb_spec (sel_hash b) (sel_hash a)) as [E|Hne].
  - exists (a :: banks). split_and!; [done|cbn; by rewrite E|by constructor|].
    intros h. unfold find_bank. cbn. rewrite E. by destruct (sel_hash a =? h).
  - cbn in Hin. apply elem_of_cons in Hin as [Hin|Hin]; [done|].
    destruct (IH Hin) as (l & -> & Hm & Hl & Hf). exists (b :: l).
    split_and!; [done|cbn; by rewrite Hm|by constructor|].
    intros h. unfold find_bank in *. cbn. rewrite Hf.
    destruct (Z.eqb_spec (sel_hash b) h) as [<-|]; [|done]. by rewrite (proj2 (Z.eqb_neq _ _)) by done.
Qed.

Lemma new_allocation_spec allocate banks s :
  Forall (λ a, sel_wf a ∧ sel_hash a ∈ map sel_hash banks) allocate → Forall sel_wf banks →
  ∃ l, new_allocation allocate banks s = Some (l, s) ∧ map sel_hash l = map sel_hash banks ∧
    Forall sel_wf l ∧ (∀ h, find_bank h l = effective h allocate banks).
Proof.
  intros Ha. revert banks Ha. induction allocate as [|a allocate IH]; intros banks Ha Hb; [by exists banks|].
  inversion Ha as [|? ? [Wa Hin] Hrest]; subst. cbn [new_allocation].
  destruct (replace_bank_spec sel_wf a banks Hin Wa Hb) as (l & -> & Hm & Hl & Hf).
  destruct (IH l) as (l' & E & Hm' & Hl' & Hf'); [by rewrite Hm|done|].
  exists l'. split_and!; [done|by rewrite Hm'|done|].
  intros h. rewrite Hf'. unfold effective. cbn [fold_left]. by rewrite Hf.
Qed.

(** ** The size needed *)

Lemma count_filter {A} (f : A → bool) l n :
  fold_left (λ n k, if f k then n + 1 else n) l n = n + Z.of_nat (length (List.filter f l)).
Proof.
  revert n. induction l as [|x l IH]; intros n; cbn; [lia|]. rewrite IH. destruct (f x); cbn [length]; lia.
Qed.

Lemma filter_map_len {A B} (f : B → bool) (g : A → B) l :
  length (List.filter f (map g l)) = length (List.filter (λ x, f (g x)) l).
Proof. induction l as [|x l IH]; [done|]. cbn. destruct (f (g x)); cbn; by rewrite IH. Qed.

(** The registers of one octet of a selection. *)
Lemma octet_count sel j :
  0 ≤ j < 3 →
  Z.of_nat (length (List.filter (λ q, IsPcrSelected q sel) (map (Z.add (8 * j)) (seqZ 0 8)))) =
    count_bits (List.nth (Z.to_nat j) (pcrSelect sel) 0).
Proof.
  intros Hj. unfold count_bits. rewrite count_filter, filter_map_len, Z.add_0_l. do 2 f_equal.
  apply filter_list_ext. intros k Hk. apply list_elem_of_In, elem_of_seqZ in Hk.
  unfold IsPcrSelected, IMPLEMENTATION_PCR, select_bit. rewrite (proj2 (Z.ltb_lt _ _)) by lia. cbn [andb].
  replace ((8 * j + k) / 8) with j by (rewrite Z.mul_comm, Z.div_add_l by lia; rewrite Z.div_small; lia).
  replace ((8 * j + k) mod 8) with k; [done|].
  rewrite Z.mul_comm, Z.add_comm, Z.mod_add by lia. symmetry. apply Z.mod_small. lia.
Qed.

Lemma bank_bits sel :
  sel_wf sel →
  fold_left (λ n x, n + count_bits x) (take (Z.to_nat (sizeofSelect sel)) (pcrSelect sel)) 0 =
    Z.of_nat (length (selected_from 0 sel)).
Proof.
  intros [Hs Hl _]. rewrite Hs. unfold selected_from.
  change (seqZ 0 (IMPLEMENTATION_PCR - 0)) with
    (map (Z.add (8 * 0)) (seqZ 0 8) ++ map (Z.add (8 * 1)) (seqZ 0 8) ++ map (Z.add (8 * 2)) (seqZ 0 8)).
  rewrite !filter_app, !length_app, !Nat2Z.inj_add, !octet_count by lia.
  destruct (pcrSelect sel) as [|b0 [|b1 [|b2 [|]]]]; try done.
  change (Z.to_nat PCR_SELECT_MAX) with 3%nat. change (Z.to_nat 0) with 0%nat.
  change (Z.to_nat 1) with 1%nat. change (Z.to_nat 2) with 2%nat. cbn -[count_bits]. lia.
Qed.

(** The octets a list of registers takes. *)
Definition size_of (l : list (Z * Z)) : Z := fold_right (λ '(a, _) n, dsize a + n) 0 l.

Lemma size_of_cons a p l : size_of ((a, p) :: l) = dsize a + size_of l.
Proof. done. Qed.

Lemma size_of_app l1 l2 : size_of (l1 ++ l2) = size_of l1 + size_of l2.
Proof. induction l1 as [|[a p] l1 IH]; [done|]. cbn [app]. rewrite !size_of_cons, IH. lia. Qed.

Lemma size_of_bank a l : size_of (map (pair a) l) = Z.of_nat (length l) * dsize a.
Proof. induction l as [|x l IH]; [done|]. cbn [map length]. rewrite size_of_cons, IH. lia. Qed.

Lemma size_of_nonneg l : 0 ≤ size_of l.
Proof.
  induction l as [|[a p] l IH]; [done|]. rewrite size_of_cons. pose proof (dsize_nonneg a). lia.
Qed.

Definition has_pcr (pcr : Z) (banks : list TPMS_PCR_SELECTION) : bool :=
  existsb (IsPcrSelected pcr) banks.

Lemma TestBit_selected pcr b s :
  sel_wf b → is_pcr pcr → TestBit pcr (pcrSelect b) (sizeofSelect b) s = Some (IsPcrSelected pcr b, s).
Proof.
  intros [Hs Hl _] Hp. destruct (pcr_octet pcr Hp) as [Ho _]. rewrite Hs.
  assert (blen (pcrSelect b) = PCR_SELECT_MAX) as <- by (unfold blen; by rewrite Hl).
  rewrite TestBit_ok by (unfold blen; rewrite Hl; unfold is_pcr, IMPLEMENTATION_PCR in Hp; lia).
  do 2 f_equal. unfold IsPcrSelected. rewrite (proj2 (Z.ltb_lt _ _)) by apply Hp. cbn [andb].
  rewrite select_bit_testbit, nth_lookup. unfold bit_of.
  destruct (_ !! _); [done|]. cbn. by rewrite Z.testbit_0_l.
Qed.

Lemma allocation_scan_spec banks drtm hcrtm n s :
  Forall sel_wf banks → 0 ≤ n → n + size_of (selected_of banks) < 2 ^ 32 →
  allocation_scan banks drtm hcrtm n s =
    Some ((drtm || has_pcr DRTM_PCR banks, hcrtm || has_pcr HCRTM_PCR banks,
           n + size_of (selected_of banks)), s).
Proof.
  intros Hb. revert drtm hcrtm n. induction Hb as [|b banks Wb Hb IH]; intros drtm hcrtm n Hn Hlt.
  { cbn [allocation_scan]. unfold ret. cbn. by rewrite !orb_false_r, Z.add_0_r. }
  cbn [selected_of flat_map] in *. fold (selected_of banks) in *. rewrite size_of_app, size_of_bank in *.
  pose proof (size_of_nonneg (selected_of banks)). pose proof (dsize_nonneg (sel_hash b)).
  assert (Ht : ∀ (c : bool) pcr, is_pcr pcr →
    (if c then ret true else TestBit pcr (pcrSelect b) (sizeofSelect b)) s = Some (c || IsPcrSelected pcr b, s)).
  { intros [] pcr Hp; [done|]. by apply TestBit_selected. }
  cbn [allocation_scan]. rewrite (bind_Some _ _ _ _ _ (Ht drtm DRTM_PCR ltac:(done))).
  rewrite (bind_Some _ _ _ _ _ (Ht hcrtm HCRTM_PCR ltac:(done))). rewrite bank_bits by done.
  rewrite wrap_small by nia. rewrite IH by nia. cbn [has_pcr existsb]. by rewrite !orb_assoc, Z.add_assoc.
Qed.

Lemma selected_len sel : (length (selected_from 0 sel) <= 24)%nat.
Proof. unfold selected_from. etrans; [apply List.filter_length_le|]. by rewrite length_seqZ. Qed.

Lemma size_of_banks banks :
  map sel_hash banks = hash_algs → 0 ≤ size_of (selected_of banks) ≤ IMPLEMENTATION_PCR * sizeof_PCR.
Proof.
  intros Hm. destruct banks as [|b1 [|b2 [|b3 [|b4 [|]]]]]; try done. injection Hm as H1 H2 H3 H4.
  unfold selected_of. cbn [flat_map]. rewrite !size_of_app, !size_of_bank.
  assert (dsize (sel_hash b1) + dsize (sel_hash b2) + dsize (sel_hash b3) + dsize (sel_hash b4) = sizeof_PCR)
    by (by rewrite H1, H2, H3, H4).
  pose proof (selected_len b1). pose proof (selected_len b2). pose proof (selected_len b3).
  pose proof (selected_len b4). pose proof (dsize_nonneg (sel_hash b1)). pose proof (dsize_nonneg (sel_hash b2)).
  pose proof (dsize_nonneg (sel_hash b3)). pose proof (dsize_nonneg (sel_hash b4)).
  unfold IMPLEMENTATION_PCR. change (size_of []) with 0. nia.
Qed.

Lemma PCRAllocate_spec allocate s :
  pcr_wf s → Forall (λ a, sel_wf a ∧ is_alg (sel_hash a)) allocate →
  ∃ new, map sel_hash new = hash_algs ∧ Forall sel_wf new ∧
    (∀ h, find_bank h new = effective h allocate (pcrAllocated s)) ∧
    let needed := size_of (selected_of new) in
    PCRAllocate allocate s =
      Some (if has_pcr DRTM_PCR new && has_pcr HCRTM_PCR new
            then ((TPM_RC_SUCCESS, mkAllocOut 24 needed (24 * sizeof_PCR)), NV_WRITE_pcrAllocated new s)
            else ((TPM_RC_PCR, mkAllocOut 24 needed 0), s)).
Proof.
  intros Hw Ha. pose proof (pw_banks s Hw) as Hm.
  destruct (new_allocation_spec allocate (pcrAllocated s) s) as (new & E & Hm' & Wn & Hf);
    [by rewrite Hm|apply (pw_sels s Hw)|].
  rewrite Hm in Hm'. exists new. split_and!; [done..|]. cbn zeta.
  pose proof (size_of_banks new Hm') as Hb.
  assert (Hlt : 0 + size_of (selected_of new) < 2 ^ 32)
    by (unfold IMPLEMENTATION_PCR, sizeof_PCR in Hb; lia).
  unfold PCRAllocate. erewrite bind_Some by reflexivity. rewrite (bind_Some _ _ _ _ _ E).
  rewrite (bind_Some _ _ _ _ _ (allocation_scan_spec new false false 0 s Wn ltac:(lia) Hlt)).
  cbn [orb]. rewrite Z.add_0_l. by destruct (has_pcr DRTM_PCR new), (has_pcr HCRTM_PCR new).
Qed.
