(* ===== verification/PcrSave.v ===== *)
(** * Saving, restoring and initializing the registers

    What [PCRStateSave] writes to the saved area [gc.pcrSave] and what
    [PCRStartup] puts into each register. *)

From S2P Require Import Prelude TpmTypes Memory Pcr PcrProof.
Local Open Scope Z_scope.

(** ** The saved area *)

Definition is_saved (pcr : Z) : Prop := 0 ≤ pcr < NUM_STATIC_PCR.

Definition save_loc (alg i : Z) : Z := default 0 (save_offset alg i).
Definition save_val (s : PcrState) (alg i : Z) : bytes := bread (pcrSave s) (save_loc alg i) (dsize alg).

Lemma saved_is_pcr pcr : is_saved pcr → is_pcr pcr.
Proof. unfold is_saved, is_pcr, NUM_STATIC_PCR, IMPLEMENTATION_PCR. lia. Qed.

Lemma save_loc_bounds alg i :
  is_alg alg → is_saved i →
  save_offset alg i = Some (save_loc alg i) ∧ 0 ≤ save_loc alg i ∧
  save_loc alg i + dsize alg ≤ sizeof_PCR_SAVE ∧ 0 < dsize alg.
Proof.
  intros Ha Hi. unfold is_saved, save_loc, NUM_STATIC_PCR in *. algs Ha; pcr_unfold; split_and!; (done || lia).
Qed.

Lemma save_loc_disjoint alg alg' i i' :
  is_alg alg → is_alg alg' → is_saved i → is_saved i' → (alg, i) ≠ (alg', i') →
  save_loc alg i + dsize alg ≤ save_loc alg' i' ∨ save_loc alg' i' + dsize alg' ≤ save_loc alg i.
Proof.
  intros Ha Ha' Hi Hi' Hne. assert (alg ≠ alg' ∨ i ≠ i') as Hd.
  { destruct (decide (alg = alg')) as [<-|]; [right|by left]. intros <-. done. }
  unfold is_saved, save_loc, NUM_STATIC_PCR in *. algs Ha; algs Ha'; pcr_unfold; destruct Hd; (done || lia).
Qed.

(** [saves P s s']: only the saved area changes, and in it only the entries
    [P] names, which hold the registers' values. *)
Record saves (P : Z → Z → bool) (s s' : PcrState) : Prop := {
  saves_wf : pcr_wf s';
  saves_rest : s' = set_pcrSave (pcrSave s') s;
  saves_val alg i : is_alg alg → is_saved i →
    save_val s' alg i = if P alg i then pcr_val s alg i else save_val s alg i;
}.

Lemma saves_refl P s : pcr_wf s → (∀ alg i, is_alg alg → is_saved i → P alg i = false) → saves P s s.
Proof. intros Hw HP. split; [done|by destruct s|]. intros alg i Ha Hi. by rewrite HP. Qed.

Lemma saves_same P s s' :
  saves P s s' → s_pcrs s' = s_pcrs s ∧ pcrAllocated s' = pcrAllocated s.
Proof. intros [_ -> _]. by destruct s. Qed.

Lemma saves_trans P Q s1 s2 s3 :
  saves P s1 s2 → saves Q s2 s3 → saves (λ a i, Q a i || P a i) s1 s3.
Proof.
  intros S1 S2. destruct (saves_same _ _ _ S1) as [Hp _]. split; [apply S2| |].
  - rewrite (saves_rest _ _ _ S2) at 1. rewrite (saves_rest _ _ _ S1). by destruct s1.
  - intros alg i Ha Hi. rewrite (saves_val _ _ _ S2), (saves_val _ _ _ S1) by done.
    unfold pcr_val. rewrite Hp. by destruct (Q alg i), (P alg i).
Qed.

Lemma saves_ext P Q s s' :
  saves P s s' → (∀ alg i, is_alg alg → is_saved i → P alg i = Q alg i) → saves Q s s'.
Proof. intros [W R V] E. split; [done..|]. intros. rewrite <- E by done. by apply V. Qed.

(** ** Saving *)

Lemma save_bank_spec pcr bank s :
  pcr_wf s → is_saved pcr → is_alg (sel_hash bank) →
  ∃ s', save_bank pcr pcr bank s = Some (tt, s') ∧
    saves (λ alg i, (i =? pcr) && (alg =? sel_hash bank) && allocated s alg pcr) s s'.
Proof.
  intros Hw Hp Ha. pose proof (saved_is_pcr _ Hp) as Hpcr. unfold save_bank. set (h := sel_hash bank) in *. clearbody h.
  rewrite (bind_Some _ _ _ _ _ (GetPcrPointer_eq h pcr s Hw)).
  destruct (allocated s h pcr) eqn:Hal; cycle 1.
  { exists s. split; [done|]. apply saves_refl; [done|]. intros alg i _ _.
    destruct (i =? pcr), (Z.eqb_spec alg h) as [->|]; by rewrite ?Hal. }
  destruct (save_loc_bounds h pcr Ha Hp) as (Ho & S1 & S2 & S3). unfold GetSavedPcrPointer. rewrite Ho.
  erewrite bind_Some by reflexivity.
  destruct (pcr_loc_bounds h pcr Ha Hpcr) as (_ & _ & B3 & B4 & B5).
  rewrite (bind_Some _ _ _ _ _ (peek_ok (pcr_loc h pcr) (dsize h) s ltac:(lia) ltac:(lia)
    ltac:(rewrite (pw_pcrs s Hw); lia))). fold (pcr_val s h pcr).
  pose proof (pcr_val_len s h pcr Hw Ha Hpcr) as Hl. pose proof (pw_save s Hw) as Hsl.
  unfold poke_saved. munfold. rewrite (proj2 (inb_true _ _ _)) by lia. eexists. split; [reflexivity|]. split.
  - destruct Hw. constructor; try done; cbn [pcrSave set_pcrSave].
    + rewrite blen_bwrite; lia.
    + apply bwrite_byte; [done|]. by apply bread_byte.
  - by destruct s.
  - intros alg i Ha' Hi. cbn [pcrSave set_pcrSave]. unfold save_val at 1. cbn [pcrSave set_pcrSave].
    destruct (decide ((h, pcr) = (alg, i))) as [[= <- <-]|Hne].
    + rewrite !Z.eqb_refl, Hal. cbn [andb]. apply bread_bwrite_same; lia.
    + assert ((i =? pcr) && (alg =? h) && allocated s alg pcr = false) as ->.
      { destruct (Z.eqb_spec i pcr) as [->|]; [|done]. destruct (Z.eqb_spec alg h) as [->|]; done. }
      destruct (save_loc_bounds alg i Ha' Hi) as (_ & T1 & T2 & T3).
      destruct (save_loc_disjoint h alg pcr i Ha Ha' Hp Hi Hne);
        [apply bread_bwrite_after; lia|apply bread_bwrite_before; lia].
Qed.

Lemma save_banks_spec pcr banks s :
  pcr_wf s → is_saved pcr → Forall is_alg (map sel_hash banks) →
  ∃ s', for_each banks (save_bank pcr pcr) s = Some (tt, s') ∧
    saves (λ alg i, (i =? pcr) && existsb (Z.eqb alg) (map sel_hash banks) && allocated s alg pcr) s s'.
Proof.
  intros Hw Hp. revert s Hw. induction banks as [|b banks IH]; intros s Hw Hb; cbn [for_each].
  { exists s. split; [done|]. apply saves_refl; [done|]. intros. cbn. by rewrite andb_false_r. }
  inversion Hb as [|? ? Hb1 Hb2]; subst.
  destruct (save_bank_spec pcr b s Hw Hp Hb1) as (s1 & E1 & S1).
  destruct (IH s1 (saves_wf _ _ _ S1) Hb2) as (s2 & E2 & S2).
  exists s2. split; [by erewrite bind_Some by exact E1|].
  eapply saves_ext; [by eapply saves_trans|]. intros alg i _ _. cbn [map existsb].
  unfold allocated. destruct (saves_same _ _ _ S1) as [_ ->].
  destruct (i =? pcr), (alg =? sel_hash b), (existsb _ _), (pcr_allocated _ _ _); done.
Qed.

Lemma saved_attributes pcr : is_saved pcr → platPcr__GetPcrInitializationAttributes pcr = static_pcr.
Proof.
  intros Hs. unfold is_saved, NUM_STATIC_PCR in Hs.
  assert (Hin : In pcr (seqZ 0 16)) by (apply list_elem_of_In, elem_of_seqZ; lia).
  revert Hin. cbn. intros Hin. repeat (destruct Hin as [<-|Hin]; [done|]). done.
Qed.

Lemma unsaved_attributes pcr :
  is_pcr pcr → ¬ is_saved pcr → stateSave (platPcr__GetPcrInitializationAttributes pcr) = false.
Proof.
  intros Hp Hs. unfold is_saved, is_pcr, NUM_STATIC_PCR, IMPLEMENTATION_PCR in *.
  assert (Hin : In pcr (seqZ 16 8)) by (apply list_elem_of_In, elem_of_seqZ; lia).
  revert Hin. cbn. intros Hin. repeat (destruct Hin as [<-|Hin]; [done|]). done.
Qed.

Lemma all_algs alg : is_alg alg → existsb (Z.eqb alg) hash_algs = true.
Proof. intros Ha. algs Ha; done. Qed.

Lemma hash_algs_are : Forall is_alg hash_algs.
Proof. apply Forall_forall. intros a Ha. by apply list_elem_of_In. Qed.

(** The state-saved registers come first, so that a register's index in the
    saved area is its number. *)
Lemma save_static n pcr rest s :
  pcr_wf s → 0 ≤ pcr → pcr + Z.of_nat n ≤ NUM_STATIC_PCR →
  ∃ s', save_pcrs (seqZ pcr (Z.of_nat n) ++ rest) pcr s = save_pcrs rest (pcr + Z.of_nat n) s' ∧
    saves (λ alg i, (pcr <=? i) && (i <? pcr + Z.of_nat n) && allocated s alg i) s s'.
Proof.
  revert pcr s. induction n as [|n IH]; intros pcr s Hw H0 Hn.
  { exists s. cbn [seqZ]. rewrite Z.add_0_r. split; [done|]. apply saves_refl; [done|]. intros alg i _ _.
    destruct (Z.leb_spec pcr i), (Z.ltb_spec i pcr); (done || lia). }
  assert (Hp : is_saved pcr) by (unfold is_saved; lia).
  rewrite seqZ_cons by lia. replace (Z.pred (Z.of_nat (S n))) with (Z.of_nat n) by lia. cbn [app save_pcrs].
  erewrite bind_Some by reflexivity. rewrite saved_attributes by done. cbn [stateSave static_pcr].
  destruct (save_banks_spec pcr (pcrAllocated s) s Hw Hp) as (s1 & E1 & S1).
  { rewrite (pw_banks s Hw). apply hash_algs_are. }
  rewrite (bind_Some _ _ _ _ _ E1).
  destruct (IH (pcr + 1) s1) as (s2 & E2 & S2); [apply S1|lia..|]. rewrite <- Z.add_1_r, E2.
  exists s2. split; [f_equal; lia|]. eapply saves_ext; [by eapply saves_trans|]. intros alg i Ha _.
  rewrite (pw_banks s Hw), all_algs by done. unfold allocated. destruct (saves_same _ _ _ S1) as [_ ->].
  destruct (Z.eqb_spec i pcr) as [Hi|], (Z.leb_spec (pcr + 1) i), (Z.ltb_spec i (pcr + 1 + Z.of_nat n)),
    (Z.leb_spec pcr i), (Z.ltb_spec i (pcr + Z.of_nat (S n))); cbn [andb orb]; (lia || by rewrite ?Hi, ?orb_false_r).
Qed.

Lemma save_rest pcrs i s :
  pcr_wf s → Forall (λ p, is_pcr p ∧ ¬ is_saved p) pcrs → save_pcrs pcrs i s = Some (tt, s).
Proof.
  intros Hw Hp. revert i. induction Hp as [|p pcrs [Hp Hs] _ IH]; intros i; [done|]. cbn [save_pcrs].
  erewrite bind_Some by reflexivity. rewrite unsaved_attributes by done.
  erewrite bind_Some; [apply IH|]. clear IH i. induction (pcrAllocated s) as [|b l IH]; [done|].
  cbn [for_each]. erewrite bind_Some; [exact IH|].
  by rewrite (bind_Some _ _ _ _ _ (GetPcrPointer_eq (sel_hash b) p s Hw)).
Qed.

(** Shutdown(STATE) saves every allocated state-saved register. *)
Lemma PCRStateSave_spec s :
  pcr_wf s → ∃ s', PCRStateSave TPM_SU_STATE s = Some (tt, s') ∧ saves (allocated s) s s'.
Proof.
  intros Hw. destruct (save_static 16 0 (seqZ 16 8) s Hw) as (s' & E & S); [done..|].
  exists s'. split.
  - change (PCRStateSave TPM_SU_STATE s) with (save_pcrs (seqZ 0 16 ++ seqZ 16 8) 0 s).
    change (Z.of_nat 16) with 16 in E. rewrite E. apply save_rest; [apply S|].
    apply Forall_seqZ. intros p Hp. unfold is_pcr, is_saved, NUM_STATIC_PCR, IMPLEMENTATION_PCR. lia.
  - eapply saves_ext; [exact S|]. intros alg i _ [H1 H2]. unfold NUM_STATIC_PCR in H2. cbn.
    rewrite (proj2 (Z.leb_le 0 i)), (proj2 (Z.ltb_lt i _)) by (try done; lia). done.
Qed.

(** ** Startup *)

(** The value a register that is not restored starts with: ones in the registers
    that locality 4 resets, zeros in the others, and the startup locality in the
    last octet of PCR 0. *)
Definition initial (locality pcr n : Z) : bytes :=
  let a := platPcr__GetPcrInitializationAttributes pcr in
  let d := bfill (if negb (Z.land (resetLocality a) 0x10 =? 0) then 0xFF else 0) n in
  if pcr =? HCRTM_PCR then bwrite d (n - 1) [locality] else d.

Lemma blen_initial locality pcr n : 0 < n → blen (initial locality pcr n) = n.
Proof.
  intros Hn. unfold initial. set (d := bfill _ _). assert (Ld : blen d = n) by (apply blen_bfill; lia).
  assert (L1 : blen [locality] = 1) by done.
  destruct (_ =? HCRTM_PCR); [rewrite blen_bwrite; lia|done].
Qed.

Lemma initial_byte locality pcr n : is_byte locality → Forall is_byte (initial locality pcr n).
Proof.
  intros Hl. assert (Hf : ∀ v, is_byte v → Forall is_byte (bfill v n)) by (intros; by apply Forall_replicate).
  unfold initial. destruct (_ =? HCRTM_PCR); [apply bwrite_byte; [|by constructor]|];
    apply Hf; unfold is_byte; destruct (negb _); lia.
Qed.

Lemma GetInitialValueForPcr_eq pcr alg locality s :
  pcr_wf s → is_alg alg → is_pcr pcr →
  platPcr__GetInitialValueForPcr pcr alg locality (Some (pcr_loc alg pcr)) (dsize alg) s =
    Some ((TPM_RC_SUCCESS, dsize alg), put_pcr (pcr_loc alg pcr) (initial locality pcr (dsize alg)) s).
Proof.
  intros Hw Ha Hp. unfold platPcr__GetInitialValueForPcr.
  change platPcr__NumberOfPcrs with IMPLEMENTATION_PCR.
  rewrite (proj2 (Z.ltb_lt pcr IMPLEMENTATION_PCR)) by apply Hp. rewrite Z.leb_refl. cbn [negb].
  destruct (pcr_loc_bounds alg pcr Ha Hp) as (B1 & B2 & B3 & B4 & B5). pose proof (pw_pcrs s Hw) as Hl.
  unfold initial. set (d := bfill _ _). assert (Ld : blen d = dsize alg) by (apply blen_bfill; lia).
  rewrite (bind_Some _ _ _ tt (put_pcr (pcr_loc alg pcr) d s)) by (apply poke_ok; lia).
  destruct (pcr =? HCRTM_PCR); [|done]. cbn [fmap option_fmap option_map].
  replace (pcr_loc alg pcr + dsize alg - 1) with (pcr_loc alg pcr + (dsize alg - 1)) by lia.
  assert (L1 : blen [locality] = 1) by done.
  erewrite bind_Some by (apply poke_ok; [lia|]; cbn [s_pcrs put_pcr set_s_pcrs]; rewrite blen_bwrite; lia).
  unfold ret, put_pcr. cbn [s_pcrs set_s_pcrs]. rewrite bwrite_bwrite_in by lia. by destruct s.
Qed.

(** What a register of bank [alg] holds after startup. *)
Definition started_val (stateSaved : bool) (locality : Z) (s : PcrState) (alg pcr : Z) : bytes :=
  if stateSaved then save_val s alg pcr else initial locality pcr (dsize alg).

Lemma startup_bank_spec locality pcr (stateSaved : bool) i bank s :
  pcr_wf s → is_byte locality → is_pcr pcr → (stateSaved = true → is_saved pcr ∧ i = pcr) →
  is_alg (sel_hash bank) →
  ∃ s', startup_bank locality pcr stateSaved i bank s = Some (true, s') ∧ only (eq pcr) s s' ∧
    (∀ alg, is_alg alg → pcr_val s' alg pcr =
      if (alg =? sel_hash bank) && allocated s alg pcr then started_val stateSaved locality s alg pcr
      else pcr_val s alg pcr).
Proof.
  intros Hw Hloc Hp Hsv Ha. unfold startup_bank. set (h := sel_hash bank) in *. clearbody h.
  rewrite (bind_Some _ _ _ _ _ (GetPcrPointer_eq h pcr s Hw)).
  destruct (allocated s h pcr) eqn:Hal; cycle 1.
  { exists s. split; [done|]. split; [by apply only_refl|]. intros alg _.
    destruct (Z.eqb_spec alg h) as [->|]; [by rewrite Hal|done]. }
  destruct (pcr_loc_bounds h pcr Ha Hp) as (B1 & B2 & B3 & B4 & B5). pose proof (pw_pcrs s Hw) as Hl.
  assert (Hput : ∀ d, blen d = dsize h → Forall is_byte d → d = started_val stateSaved locality s h pcr →
    only (eq pcr) s (put_pcr (pcr_loc h pcr) d s) ∧ ∀ alg, is_alg alg →
    pcr_val (put_pcr (pcr_loc h pcr) d s) alg pcr =
      if (alg =? h) && allocated s alg pcr then started_val stateSaved locality s alg pcr
      else pcr_val s alg pcr).
  { intros d Ld Bd Ed. split; [apply only_put; (done || lia)|]. intros alg Halg.
    destruct (Z.eqb_spec alg h) as [->|Hne]; cbn [andb].
    - rewrite Hal, <- Ed. by apply val_put_same.
    - apply val_put_ne; try done. congruence. }
  destruct stateSaved.
  - destruct (Hsv eq_refl) as [Hs ->].
    destruct (save_loc_bounds h pcr Ha Hs) as (Ho & S1 & S2 & S3). unfold GetSavedPcrPointer. rewrite Ho.
    erewrite bind_Some by reflexivity. cbv beta iota. pose proof (pw_save s Hw).
    rewrite (bind_Some _ _ _ (save_val s h pcr) s)
      by (unfold peek_saved; munfold; by rewrite (proj2 (inb_true _ _ _)) by lia).
    assert (Lv : blen (save_val s h pcr) = dsize h) by (apply blen_bread; lia).
    erewrite bind_Some by (apply poke_ok; lia). eexists. split; [reflexivity|]. apply Hput; try done.
    apply bread_byte. apply (pw_save_byte s Hw).
  - rewrite (bind_Some _ _ _ _ _ (GetInitialValueForPcr_eq pcr h locality s Hw Ha Hp)).
    rewrite !Z.eqb_refl. cbn [negb orb andb]. eexists. split; [reflexivity|].
    apply Hput; [by apply blen_initial|by apply initial_byte|done].
Qed.

Lemma only_saved P s s' alg i : only P s s' → save_val s' alg i = save_val s alg i.
Proof. intros [_ _ E]. unfold save_val. rewrite E. by destruct s. Qed.

Lemma only_alloc_eq P s s' alg pcr : only P s s' → allocated s' alg pcr = allocated s alg pcr.
Proof. intros O. unfold allocated. by rewrite (only_allocated _ _ _ O). Qed.

Lemma startup_banks_spec locality pcr (stateSaved : bool) i banks s :
  pcr_wf s → is_byte locality → is_pcr pcr → (stateSaved = true → is_saved pcr ∧ i = pcr) →
  Forall is_alg (map sel_hash banks) →
  ∃ s', while_ok banks (startup_bank locality pcr stateSaved i) s = Some (true, s') ∧ only (eq pcr) s s' ∧
    (∀ alg, is_alg alg → pcr_val s' alg pcr =
      if existsb (Z.eqb alg) (map sel_hash banks) && allocated s alg pcr
      then started_val stateSaved locality s alg pcr else pcr_val s alg pcr).
Proof.
  intros Hw Hloc Hp Hsv. revert s Hw. induction banks as [|b banks IH]; intros s Hw Hb; cbn [while_ok].
  { exists s. split; [done|]. split; [by apply only_refl|done]. }
  inversion Hb as [|? ? Hb1 Hb2]; subst.
  destruct (startup_bank_spec locality pcr stateSaved i b s Hw Hloc Hp Hsv Hb1) as (s1 & E1 & O1 & V1).
  destruct (IH s1 (only_wf _ _ _ O1) Hb2) as (s2 & E2 & O2 & V2).
  exists s2. split; [by erewrite bind_Some by exact E1|]. split; [by eapply only_trans|].
  intros alg Ha. rewrite V2, V1 by done. cbn [map existsb]. rewrite (only_alloc_eq _ _ _ _ _ O1).
  assert (started_val stateSaved locality s1 alg pcr = started_val stateSaved locality s alg pcr) as ->
    by (unfold started_val; by rewrite (only_saved _ _ _ _ _ O1)).
  destruct (alg =? sel_hash b), (existsb _ _), (allocated s alg pcr); done.
Qed.

Lemma only_changed (b : bool) pcr s :
  pcr_wf s → ∃ s', (if b then ret tt else PCRChanged pcr) s = Some (tt, s') ∧ only (λ _, False) s s'.
Proof.
  intros Hw. destruct b; [exists s; split; [done|by apply only_refl]|].
  destruct (PCRChanged_only pcr s Hw) as (s' & E & O & _). by exists s'.
Qed.

Definition is_resume (type : STARTUP_TYPE) : bool := match type with SU_RESUME => true | _ => false end.

(** PCR 0 keeps its value when an H-CRTM sequence ran before startup. *)
Definition kept (type : STARTUP_TYPE) (s : PcrState) (pcr : Z) : bool :=
  (pcr =? HCRTM_PCR) && negb (is_resume type) && p_DrtmPreStartup s.

Lemma stateSaved_eq type pcr :
  is_pcr pcr →
  is_resume type && stateSave (platPcr__GetPcrInitializationAttributes pcr) =
  is_resume type && (pcr <? NUM_STATIC_PCR).
Proof.
  intros Hp. destruct (Z.ltb_spec pcr NUM_STATIC_PCR).
  - rewrite saved_attributes by (split; [apply Hp|done]). done.
  - rewrite unsaved_attributes; [done..|]. unfold is_saved. lia.
Qed.

(** One register; [k] is the rest of the loop. *)
Lemma startup_one type locality pcr i s (k : Z → M PcrState bool) :
  pcr_wf s → is_byte locality → is_pcr pcr →
  (is_resume type = true → pcr ≤ NUM_STATIC_PCR → i = pcr) →
  let sv := is_resume type && (pcr <? NUM_STATIC_PCR) in
  ∃ s' i', ((if sv then ret tt else PCRChanged pcr) ;;
      let! drtm := gets p_DrtmPreStartup in
      if (pcr =? HCRTM_PCR) && negb (is_resume type) && drtm then k i
      else
        let! banks := gets pcrAllocated in
        let! ok := while_ok banks (startup_bank locality pcr sv i) in
        if ok : bool then k (i + (if sv then 1 else 0)) else ret false) s = k i' s' ∧
    only (eq pcr) s s' ∧
    (is_resume type = true → pcr + 1 ≤ NUM_STATIC_PCR → i' = pcr + 1) ∧
    (∀ alg, is_alg alg → pcr_val s' alg pcr =
      if allocated s alg pcr && negb (kept type s pcr) then started_val sv locality s alg pcr
      else pcr_val s alg pcr).
Proof.
  intros Hw Hloc Hp Hi sv.
  destruct (only_changed sv pcr s Hw) as (s1 & E1 & O1). rewrite (bind_Some _ _ _ _ _ E1).
  erewrite bind_Some by reflexivity. pose proof (only_wf _ _ _ O1) as W1.
  assert (O1' : only (eq pcr) s s1) by (by eapply only_weaken; [|exact O1]).
  assert (p_DrtmPreStartup s1 = p_DrtmPreStartup s) as -> by (rewrite (only_rest _ _ _ O1); by destruct s).
  fold (kept type s pcr). destruct (kept type s pcr) eqn:Hk.
  - exists s1, i. split_and!; try done.
    + intros Hr. unfold kept in Hk. rewrite Hr, andb_false_r in Hk. done.
    + intros alg Ha. rewrite andb_false_r. apply (only_val _ _ _ O1); tauto.
  - destruct (startup_banks_spec locality pcr sv i (pcrAllocated s1) s1) as (s2 & E2 & O2 & V2); try done.
    { unfold sv. intros [Hr Hlt%Z.ltb_lt]%andb_true_iff. split; [split; [apply Hp|done]|]. apply Hi; [done|lia]. }
    { rewrite (pw_banks s1 W1). apply hash_algs_are. }
    exists s2, (i + (if sv then 1 else 0)). erewrite bind_Some by reflexivity.
    rewrite (bind_Some _ _ _ _ _ E2). split_and!; [done|by eapply only_trans| |].
    + intros Hr Hle. unfold sv. rewrite Hr, (proj2 (Z.ltb_lt _ _)) by lia. cbn. rewrite Hi by (done || lia). done.
    + intros alg Ha. rewrite V2, (pw_banks s1 W1), all_algs by done. cbn [andb negb].
      rewrite (only_alloc_eq _ _ _ _ _ O1), andb_true_r. unfold started_val.
      rewrite (only_saved _ _ _ _ _ O1), (only_val _ _ _ O1) by tauto. done.
Qed.

Lemma startup_pcrs_spec n type locality pcr i s :
  pcr_wf s → is_byte locality → 0 ≤ pcr → pcr + Z.of_nat n = IMPLEMENTATION_PCR →
  (is_resume type = true → pcr ≤ NUM_STATIC_PCR → i = pcr) →
  ∃ s', startup_pcrs type locality (seqZ pcr (Z.of_nat n)) i s = Some (true, s') ∧
    only (λ p, pcr ≤ p) s s' ∧
    (∀ alg p, is_alg alg → is_pcr p → pcr ≤ p → pcr_val s' alg p =
      if allocated s alg p && negb (kept type s p)
      then started_val (is_resume type && (p <? NUM_STATIC_PCR)) locality s alg p else pcr_val s alg p).
Proof.
  intros Hw Hloc. revert pcr i s Hw. induction n as [|n IH]; intros pcr i s Hw H0 Hn Hi.
  { exists s. split; [done|]. split; [by apply only_refl|]. unfold is_pcr. intros. lia. }
  assert (Hp : is_pcr pcr) by (unfold is_pcr; lia).
  rewrite seqZ_cons by lia. replace (Z.pred (Z.of_nat (S n))) with (Z.of_nat n) by lia.
  cbn [startup_pcrs]. fold (is_resume type). rewrite stateSaved_eq, <- Z.add_1_r by done.
  destruct (startup_one type locality pcr i s
    (startup_pcrs type locality (seqZ (pcr + 1) (Z.of_nat n))) Hw Hloc Hp Hi) as (s2 & i' & E2 & O2 & Hi' & V2).
  rewrite E2. destruct (IH (pcr + 1) i' s2) as (s3 & E3 & O3 & V3); [apply O2|lia|lia|done|].
  exists s3. split; [done|]. split.
  { eapply only_trans; [eapply only_weaken; [|exact O2]; intros; lia|].
    eapply only_weaken; [|exact O3]. cbn. intros; lia. }
  intros alg p Ha Hpp Hle. destruct (decide (p = pcr)) as [->|Hne].
  - rewrite (only_val _ _ _ O3) by (try done; lia). by apply V2.
  - rewrite V3, (only_alloc_eq _ _ _ _ _ O2) by (try done; lia).
    assert (kept type s2 p = kept type s p) as ->
      by (unfold kept; rewrite (only_rest _ _ _ O2); by destruct s).
    unfold started_val. rewrite (only_saved _ _ _ _ _ O2), (only_val _ _ _ O2) by done. done.
Qed.

(** [PCRStartup] succeeds, and gives every register its saved or initial value. *)
Lemma PCRStartup_spec type locality s :
  pcr_wf s → is_byte locality →
  ∃ s', PCRStartup type locality s = Some (true, s') ∧ pcr_wf s' ∧
    pcrAllocated s' = pcrAllocated s ∧ p_reConfig s' = false ∧
    (∀ alg p, is_alg alg → is_pcr p → pcr_val s' alg p =
      if allocated s alg p && negb (kept type s p)
      then started_val (is_resume type && (p <? NUM_STATIC_PCR)) locality s alg p else pcr_val s alg p).
Proof.
  intros Hw Hloc. unfold PCRStartup. rewrite (bind_Some _ _ _ tt (set_p_reConfig false s)) by done.
  set (s0 := match type with SU_RESET => set_pcrCounter 0 (set_p_reConfig false s)
             | _ => set_p_reConfig false s end).
  rewrite (bind_Some _ _ _ tt s0) by (by destruct type).
  change (platPcr__NumberOfPcrs =? IMPLEMENTATION_PCR) with true. cbn [negb].
  assert (W0 : pcr_wf s0) by (destruct Hw, type; by constructor).
  destruct (startup_pcrs_spec 24 type locality 0 0 s0 W0 Hloc) as (s1 & E1 & O1 & V1); [done..|].
  rewrite (bind_Some _ _ _ _ _ E1). cbn [negb].
  assert (Hc : p_reConfig s1 = false ∧ pcrAllocated s1 = pcrAllocated s).
  { split; [rewrite (only_rest _ _ _ O1)|rewrite (only_allocated _ _ _ O1)]; by destruct s, type. }
  destruct Hc as [Hc Hal]. pose proof (only_wf _ _ _ O1) as W1.
  assert (Hv : ∀ alg p, is_alg alg → is_pcr p → pcr_val s1 alg p =
      if allocated s alg p && negb (kept type s p)
      then started_val (is_resume type && (p <? NUM_STATIC_PCR)) locality s alg p else pcr_val s alg p).
  { intros alg p Ha Hp. rewrite V1 by (try done; apply Hp). by destruct type. }
  destruct type; (eexists; split; [reflexivity|]); split_and!; try done; destruct W1; by constructor.
Qed.
