(* ===== verification/PcrLog.v ===== *)
(** * The PCR commands as a measurement log

    Each command returns, and extends the static registers with the digests it
    logs. *)

From S2P Require Import Prelude TpmTypes Memory Pcr PcrProof.
Local Open Scope Z_scope.

Section commands.
Context `{HashLib}.
Implicit Types (s : PcrState).

(** ** The commands as a list of events *)

Inductive PcrCmd :=
  | CExtend (pcrHandle : Z) (digests : list (Z * bytes))
  | CEvent (pcrHandle : Z) (eventData : bytes)
  | CRead (pcrSelectionIn : list TPMS_PCR_SELECTION)
  | CAllocate (pcrAllocation : list TPMS_PCR_SELECTION)
  | CSetAuthPolicy (authPolicy : TPM2B) (hashAlg pcrNum : Z)
  | CSetAuthValue (pcrHandle : Z) (auth : TPM2B)
  | CReset (pcrHandle : Z)
  | CResetDynamics.

Definition run_cmd (c : PcrCmd) : M PcrState Z :=
  match c with
  | CExtend h ds => TPM2_PCR_Extend h ds
  | CEvent h d => let! '(r, _) := TPM2_PCR_Event h d in ret r
  | CRead sel => let! '(r, _) := TPM2_PCR_Read sel in ret r
  | CAllocate sel => let! '(r, _) := TPM2_PCR_Allocate sel in ret r
  | CSetAuthPolicy p a n => TPM2_PCR_SetAuthPolicy p a n
  | CSetAuthValue h a => TPM2_PCR_SetAuthValue h a
  | CReset h => TPM2_PCR_Reset h
  | CResetDynamics => PCRResetDynamics ;; ret TPM_RC_SUCCESS
  end.

(** What unmarshaling guarantees. *)
Definition cmd_ok (c : PcrCmd) : Prop :=
  match c with
  | CExtend h ds => 0 ≤ h < 2 ^ 32 ∧ digests_ok ds
  | CEvent h _ | CReset h => 0 ≤ h < 2 ^ 32
  | CRead sel => Forall sel_shape sel
  | CAllocate sel => Forall (λ a, sel_wf a ∧ is_alg (sel_hash a)) sel
  | _ => True
  end.

(** The digests a command that returned [r] adds to a register. *)
Definition cmd_log (alg pcr : Z) (c : PcrCmd) (r : Z) : list bytes :=
  if r =? TPM_RC_SUCCESS then
    match c with
    | CExtend h ds => if h =? pcr then bank_log alg ds else []
    | CEvent h d => if h =? pcr then [Hash alg d] else []
    | _ => []
    end
  else [].

Fixpoint run_cmds (cs : list PcrCmd) : M PcrState (list Z) :=
  match cs with
  | [] => ret []
  | c :: cs => let! r := run_cmd c in let! rs := run_cmds cs in ret (r :: rs)
  end.

Fixpoint cmds_log (alg pcr : Z) (cs : list PcrCmd) (rs : list Z) : list bytes :=
  match cs, rs with
  | c :: cs, r :: rs => cmd_log alg pcr c r ++ cmds_log alg pcr cs rs
  | _, _ => []
  end.

(** ** Steps on the registers *)

(** The static registers: not resettable and not dynamic. *)
Definition static (pcr : Z) : Prop := 0 ≤ pcr < NUM_STATIC_PCR.

Lemma static_pcr_is pcr : static pcr → is_pcr pcr.
Proof. unfold static, is_pcr, NUM_STATIC_PCR, IMPLEMENTATION_PCR. lia. Qed.

Lemma static_attributes pcr :
  static pcr → platPcr__GetPcrInitializationAttributes pcr = static_pcr.
Proof.
  intros Hs. unfold static, NUM_STATIC_PCR in Hs. unfold platPcr__GetPcrInitializationAttributes.
  change platPcr__NumberOfPcrs with 24. destruct (Z.leb_spec 24 pcr); [lia|].
  unfold s_initAttributes. rewrite app_nth1 by (rewrite length_replicate; lia).
  assert (Hn : (Z.to_nat pcr < length (replicate 16 static_pcr))%nat) by (rewrite length_replicate; lia).
  apply (nth_In _ static_pcr), list_elem_of_In, elem_of_replicate in Hn as [-> _]. done.
Qed.

Lemma out_of_range_attributes h :
  IMPLEMENTATION_PCR ≤ h → platPcr__GetPcrInitializationAttributes h = static_pcr.
Proof.
  intros Hh. unfold platPcr__GetPcrInitializationAttributes. change platPcr__NumberOfPcrs with 24.
  unfold IMPLEMENTATION_PCR in Hh. by destruct (Z.leb_spec 24 h); [|lia].
Qed.

(** [steps log s s']: well formed, the same allocation and locality, and each
    static register is extended with [log]. *)
Record steps (log : Z → Z → list bytes) s s' : Prop := {
  steps_wf : pcr_wf s';
  steps_locality : p_locality s' = p_locality s;
  steps_banks : pcrAllocated s' = pcrAllocated s;
  steps_val alg pcr : is_alg alg → static pcr →
    pcr_val s' alg pcr =
      if allocated s alg pcr then extended alg (pcr_val s alg pcr) (log alg pcr)
      else pcr_val s alg pcr;
}.

Definition no_log : Z → Z → list bytes := λ _ _, [].

Lemma steps_trans l1 l2 s1 s2 s3 :
  steps l1 s1 s2 → steps l2 s2 s3 → steps (λ a p, l1 a p ++ l2 a p) s1 s3.
Proof.
  intros [W1 L1 B1 V1] [W2 L2 B2 V2]. split; [done|congruence..|]. intros alg pcr Ha Hp.
  rewrite V2, V1 by done. unfold allocated. rewrite B1, extended_app.
  by destruct (pcr_allocated pcr alg (pcrAllocated s1)).
Qed.

Lemma steps_ext l l' s s' :
  steps l s s' → (∀ a p, static p → l a p = l' a p) → steps l' s s'.
Proof. intros [W L B V] E. split; [done..|]. intros. rewrite <- E by done. by apply V. Qed.

(** A change outside the registers and the allocation. *)
Lemma steps_same s s' :
  pcr_wf s' → p_locality s' = p_locality s → pcrAllocated s' = pcrAllocated s → s_pcrs s' = s_pcrs s →
  steps no_log s s'.
Proof.
  intros W L B E. split; [done..|]. intros alg pcr _ _. unfold pcr_val. rewrite E.
  by destruct (allocated s alg pcr).
Qed.

Lemma only_locality (P : Z → Prop) s s' : only P s s' → p_locality s' = p_locality s.
Proof. intros [_ _ ->]. by destruct s. Qed.

Lemma steps_only (P : Z → Prop) s s' :
  only P s s' → (∀ pcr, static pcr → ¬ P pcr) → steps no_log s s'.
Proof.
  intros O HP. split; [apply O|by eapply only_locality|by eapply only_allocated|]. intros alg pcr Ha Hp.
  rewrite (only_val _ _ _ O) by (auto using static_pcr_is). by destruct (allocated s alg pcr).
Qed.

Lemma steps_extend h digests s :
  pcr_wf s → 0 ≤ h < 2 ^ 32 → digests_ok digests →
  ∃ s', for_each digests (λ '(a, d), PCRExtend h a (dsize a) d) s = Some (tt, s') ∧
    steps (λ alg pcr, if h =? pcr then bank_log alg digests else []) s s'.
Proof.
  intros Hw Hh Hd. destruct (Z.lt_ge_cases h IMPLEMENTATION_PCR) as [Hlt|Hge].
  - destruct (extend_all h digests s Hw) as (s' & E & O & V); [unfold is_pcr; lia|done|].
    exists s'. split; [done|]. split; [apply O|by eapply only_locality|by eapply only_allocated|]. intros alg pcr Ha Hp.
    destruct (Z.eqb_spec h pcr) as [->|Hne]; [by apply V|].
    rewrite (only_val _ _ _ O) by (auto using static_pcr_is). by destruct (allocated s alg pcr).
  - exists s. split.
    + induction digests as [|[a d] digests IH]; [done|]. inversion Hd; subst. cbn [for_each].
      rewrite (bind_Some _ _ _ tt s) by (apply PCRExtend_none; [done|lia]). auto.
    + split; [done..|]. intros alg pcr _ Hp.
      destruct (Z.eqb_spec h pcr) as [->|]; [|by destruct (allocated s alg pcr)].
      pose proof (static_pcr_is _ Hp). unfold is_pcr in *. lia.
Qed.

(** ** Each command *)

Lemma NvClearOrderly_steps s :
  pcr_wf s → ∃ r s', NvClearOrderly s = Some (r, s') ∧ steps no_log s s' ∧
    p_NvStatus s' = p_NvStatus s ∧ (r = TPM_RC_SUCCESS ∨ r = p_NvStatus s ∧ r ≠ TPM_RC_SUCCESS).
Proof.
  intros Hw. unfold NvClearOrderly. munfold.
  destruct (_ <? _); cbn [andb]; [destruct (Z.eqb_spec (p_NvStatus s) TPM_RC_SUCCESS); cbn [negb]|];
    eexists _, _; (split; [reflexivity|]); split_and!; auto;
    apply steps_same; try done; destruct Hw; by constructor.
Qed.

(** What a command leaves behind: a result, and the registers extended with what
    it logs. *)
Definition runs (c : PcrCmd) (m : M PcrState Z) s : Prop :=
  ∃ r s', m s = Some (r, s') ∧ steps (λ a p, cmd_log a p c r) s s'.

Lemma log_failed alg pcr c r : r ≠ TPM_RC_SUCCESS → cmd_log alg pcr c r = [].
Proof. intros Hr%Z.eqb_neq. unfold cmd_log. by rewrite Hr. Qed.

Lemma steps_failed c s s' r :
  steps no_log s s' → r ≠ TPM_RC_SUCCESS → steps (λ a p, cmd_log a p c r) s s'.
Proof. intros S Hr. eapply steps_ext; [done|]. intros. by rewrite log_failed. Qed.

Lemma runs_failed c r s : pcr_wf s → r ≠ TPM_RC_SUCCESS → runs c (ret r) s.
Proof. intros Hw Hr. exists r, s. split; [done|]. apply steps_failed; [by apply steps_same|done]. Qed.

Lemma runs_eq c m m' s : m s = m' s → runs c m' s → runs c m s.
Proof. intros E (r & s' & E' & S). exists r, s'. by rewrite E. Qed.

Lemma runs_bind {A} c (m : M PcrState A) k s a : m s = Some (a, s) → runs c (k a) s → runs c (bind m k) s.
Proof. intros E. apply runs_eq. by apply bind_Some. Qed.

Lemma bind_assoc {A B C} (m : M PcrState A) (f : A → M PcrState B) (g : B → M PcrState C) s :
  bind (bind m f) g s = bind m (λ x, bind (f x) g) s.
Proof. unfold bind. by destruct (m s) as [[x s']|]. Qed.

Lemma runs_after c m s s1 : steps no_log s s1 → runs c m s1 → ∃ r s', m s1 = Some (r, s') ∧
  steps (λ a p, cmd_log a p c r) s s'.
Proof. intros S1 (r & s' & E & S2). exists r, s'. split; [done|]. eapply steps_ext; [by eapply steps_trans|done]. Qed.

(** [RETURN_IF_ORDERLY]: the rest is executed, or the NV status is returned. *)
Lemma runs_if_orderly c k s :
  pcr_wf s → (∀ s1, pcr_wf s1 → runs c k s1) → runs c (RETURN_IF_ORDERLY k) s.
Proof.
  intros Hw Hk. destruct (NvClearOrderly_steps s Hw) as (r1 & s1 & E & S1 & N & Hr).
  unfold runs, RETURN_IF_ORDERLY. setoid_rewrite (bind_Some _ _ _ _ _ E).
  destruct (Z.eqb_spec r1 TPM_RC_SUCCESS) as [->|Hne]; cbn [negb].
  - apply runs_after; [done|]. apply Hk, S1.
  - exists (p_NvStatus s1), s1. split; [done|]. apply steps_failed; [done|].
    rewrite N. destruct Hr as [|[-> ?]]; done.
Qed.

(** The update of a state-saved register, or of another one. *)
Lemma runs_orderly c (b : bool) k s :
  pcr_wf s → (∀ s1, pcr_wf s1 → runs c k s1) → runs c (if b then RETURN_IF_ORDERLY k else k) s.
Proof. intros Hw Hk. destruct b; [by apply runs_if_orderly|by apply Hk]. Qed.

(** The checks of the locality. *)
Definition loc_ok s : Prop := 0 ≤ p_locality s < 31.

Lemma extend_allowed h s : loc_ok s → ∃ b, PCRIsExtendAllowed h s = Some (b, s).
Proof.
  intros [_ Hl]. unfold PCRIsExtendAllowed, locality_bits, of_option. munfold.
  rewrite (proj2 (Z.ltb_lt _ _)) by done. eexists. reflexivity.
Qed.

Lemma reset_allowed h s : loc_ok s → ∃ b, PCRIsResetAllowed h s = Some (b, s).
Proof.
  intros [_ Hl]. unfold PCRIsResetAllowed, locality_bits, of_option. munfold.
  destruct (_ =? 4); [by eexists|]. rewrite (proj2 (Z.ltb_lt _ _)) by done. eexists. reflexivity.
Qed.

Lemma static_not_null h p : h = TPM_RH_NULL → static p → (h =? p) = false.
Proof. intros -> Hp. apply Z.eqb_neq. unfold static, NUM_STATIC_PCR, TPM_RH_NULL in *. lia. Qed.

Lemma extend_runs h ds s :
  pcr_wf s → loc_ok s → cmd_ok (CExtend h ds) → runs (CExtend h ds) (TPM2_PCR_Extend h ds) s.
Proof.
  intros Hw Hloc [Hh Hd]. unfold TPM2_PCR_Extend.
  destruct (Z.eqb_spec h TPM_RH_NULL) as [Hn|Hn].
  { exists TPM_RC_SUCCESS, s. split; [done|]. eapply steps_ext; [by apply steps_same|]. intros a p Hp.
    unfold cmd_log, no_log. cbn. by rewrite static_not_null. }
  destruct (extend_allowed h s Hloc) as [allowed E]. eapply runs_bind; [exact E|].
  destruct allowed; cbn [negb]; [|by apply runs_failed].
  apply runs_orderly; [done|]. intros s1 W1.
  destruct (steps_extend h ds s1 W1 Hh Hd) as (s2 & E2 & S2).
  exists TPM_RC_SUCCESS, s2. split; [by rewrite (bind_Some _ _ _ _ _ E2)|]. by eapply steps_ext.
Qed.

Lemma for_each_map {A B} (f : A → B) (l : list A) (body : B → M PcrState unit) s :
  for_each (map f l) body s = for_each l (λ x, body (f x)) s.
Proof.
  revert s. induction l as [|x l IH]; intros s; [done|]. cbn [map for_each]. unfold bind.
  destruct (body (f x) s) as [[[] s1]|]; [apply IH|done].
Qed.

(** The digests of an event. *)
Definition event_digests (d : bytes) : list (Z * bytes) :=
  map (λ i, (CryptHashGetAlgByIndex i, Hash (CryptHashGetAlgByIndex i) d)) (seqZ 0 HASH_COUNT).

Lemma event_digests_ok d : digests_ok (event_digests d).
Proof. unfold digests_ok, event_digests. apply Forall_fmap, Forall_forall. intros i _. cbn. by rewrite Hash_size. Qed.

Lemma event_log alg d : is_alg alg → bank_log alg (event_digests d) = [Hash alg d].
Proof.
  intros Ha. assert (bread (Hash alg d) 0 (dsize alg) = Hash alg d) as E
    by (apply bread_all; by rewrite Hash_size).
  algs Ha; exact (f_equal (λ x, [x]) E).
Qed.

Lemma steps_event h d s :
  pcr_wf s → 0 ≤ h < 2 ^ 32 → h ≠ TPM_RH_NULL →
  ∃ s', for_each (seqZ 0 HASH_COUNT) (event_bank h d) s = Some (tt, s') ∧
    steps (λ alg pcr, if h =? pcr then [Hash alg d] else []) s s'.
Proof.
  intros Hw Hh Hn. destruct (steps_extend h (event_digests d) s Hw Hh (event_digests_ok d)) as (s' & E & S).
  exists s'. split.
  - rewrite <- E. unfold event_digests. rewrite for_each_map. unfold event_bank.
    by rewrite (proj2 (Z.eqb_neq h TPM_RH_NULL)).
  - destruct S as [W L B V]. split; [done..|]. intros alg pcr Ha Hp. rewrite V by done.
    destruct (h =? pcr); [|done]. by rewrite event_log.
Qed.

Lemma event_runs h d s :
  pcr_wf s → loc_ok s → 0 ≤ h < 2 ^ 32 →
  runs (CEvent h d) (let! '(r, _) := TPM2_PCR_Event h d in ret r) s.
Proof.
  intros Hw Hloc Hh. unfold TPM2_PCR_Event.
  destruct (Z.eqb_spec h TPM_RH_NULL) as [Hn|Hn]; cbn [negb].
  { exists TPM_RC_SUCCESS, s. split; [|eapply steps_ext; [by apply steps_same|]].
    - unfold event_bank. rewrite Hn. done.
    - intros a p Hp. unfold cmd_log, no_log. cbn. by rewrite static_not_null. }
  destruct (extend_allowed h s Hloc) as [allowed E].
  set (up := for_each (seqZ 0 HASH_COUNT) (event_bank h d) ;; ret (TPM_RC_SUCCESS, event_digests d)).
  assert (Hup : ∀ s1, pcr_wf s1 → runs (CEvent h d) (let! '(r, _) := up in ret r) s1).
  { intros s1 W1. destruct (steps_event h d s1 W1 Hh Hn) as (s2 & E2 & S2).
    exists TPM_RC_SUCCESS, s2. split; [|by eapply steps_ext].
    unfold up, bind. by rewrite E2. }
  eapply runs_eq; [apply bind_assoc|]. eapply runs_bind; [exact E|].
  destruct allowed; cbn [negb]; [|by apply runs_failed].
  destruct (PCRIsStateSaved h); [|by apply Hup].
  eapply runs_eq; [|exact (runs_if_orderly (CEvent h d) (let! '(r, _) := up in ret r) s Hw Hup)].
  rewrite bind_assoc. unfold RETURN_IF_ORDERLY, bind. destruct (NvClearOrderly s) as [[r1 s1]|]; [|done].
  by destruct (r1 =? TPM_RC_SUCCESS).
Qed.

Lemma steps_no_log_trans s1 s2 s3 : steps no_log s1 s2 → steps no_log s2 s3 → steps no_log s1 s3.
Proof. intros S1 S2. eapply steps_ext; [by eapply steps_trans|done]. Qed.

(** The commands that measure nothing. *)
Lemma steps_quiet c r s s' :
  steps no_log s s' → match c with CExtend _ _ | CEvent _ _ => False | _ => True end →
  steps (λ a p, cmd_log a p c r) s s'.
Proof.
  intros S Hc. eapply steps_ext; [exact S|]. intros a p _. unfold cmd_log.
  by destruct c, (r =? TPM_RC_SUCCESS).
Qed.

Lemma reset_static h : 0 ≤ h < 2 ^ 32 → static h ∨ IMPLEMENTATION_PCR ≤ h →
  ∀ s b s', PCRIsResetAllowed h s = Some (b, s') → b = false.
Proof.
  intros Hh Hs s b s'. unfold PCRIsResetAllowed, of_option. rewrite handle_pcr by done.
  assert (platPcr__GetPcrInitializationAttributes h = static_pcr) as ->
    by (destruct Hs; [by apply static_attributes|by apply out_of_range_attributes]).
  munfold. destruct (_ =? 4); [by intros [= <- _]|]. destruct (locality_bits _); [|done].
  cbn. rewrite Z.land_0_r. by intros [= <- _].
Qed.

Lemma reset_runs h s :
  pcr_wf s → loc_ok s → 0 ≤ h < 2 ^ 32 → runs (CReset h) (TPM2_PCR_Reset h) s.
Proof.
  intros Hw Hloc Hh. unfold TPM2_PCR_Reset. destruct (reset_allowed h s Hloc) as [allowed E].
  eapply runs_bind; [exact E|]. destruct allowed; cbn [negb]; [|by apply runs_failed].
  assert (Hp : is_pcr h ∧ ¬ static h).
  { assert (Hno : ¬ (static h ∨ IMPLEMENTATION_PCR ≤ h))
      by (intros Hs; discriminate (reset_static h Hh Hs _ _ _ E)).
    unfold is_pcr. split; [|tauto]. split; [lia|]. destruct (Z.lt_ge_cases h IMPLEMENTATION_PCR); tauto. }
  destruct Hp as [Hp Hns]. apply runs_orderly; [done|]. intros s1 W1.
  destruct (PCRSetValue_spec h s1 W1 Hp) as (s2 & E2 & O2 & _).
  destruct (PCRChanged_only h s2 (only_wf _ _ _ O2)) as (s3 & E3 & O3 & _).
  exists TPM_RC_SUCCESS, s3. split; [unfold bind; by rewrite E2, E3|]. apply steps_quiet; [|done].
  eapply steps_no_log_trans; eapply steps_only; try done; [by intros p Hst <-|by intros p _ []].
Qed.

Lemma read_runs sels s :
  pcr_wf s → cmd_ok (CRead sels) → runs (CRead sels) (let! '(r, _) := TPM2_PCR_Read sels in ret r) s.
Proof.
  intros Hw Hs. destruct (read_banks_spec sels [] s Hw Hs) as (sels' & E & _).
  exists TPM_RC_SUCCESS, s. split; [|apply steps_quiet; [by apply steps_same|done]].
  unfold TPM2_PCR_Read, PCRRead, bind. by rewrite E.
Qed.

Lemma allocate_runs sels s :
  pcr_wf s → cmd_ok (CAllocate sels) → runs (CAllocate sels) (let! '(r, _) := TPM2_PCR_Allocate sels in ret r) s.
Proof.
  intros Hw Ha. unfold TPM2_PCR_Allocate. eapply runs_eq; [apply bind_assoc|].
  eapply runs_bind; [reflexivity|].
  destruct (Z.eqb_spec (p_NvStatus s) TPM_RC_SUCCESS); cbn [negb]; [|by apply runs_failed].
  destruct (PCRAllocate_spec sels s Hw Ha) as (new & _ & _ & _ & E). unfold runs, bind. rewrite E.
  destruct (_ && _); (eexists _, _; split; [reflexivity|]);
    (apply steps_quiet; [apply steps_same; try done; destruct Hw; by constructor|done]).
Qed.

Lemma auth_policy_runs p a n s :
  pcr_wf s → runs (CSetAuthPolicy p a n) (TPM2_PCR_SetAuthPolicy p a n) s.
Proof.
  intros Hw. unfold TPM2_PCR_SetAuthPolicy, PCRBelongsPolicyGroup, runs. munfold.
  repeat case_match; simplify_eq; (eexists _, _; split; [reflexivity|]);
    (apply steps_quiet; [apply steps_same; try done; destruct Hw; by constructor|done]).
Qed.

Lemma auth_value_runs h a s :
  pcr_wf s → runs (CSetAuthValue h a) (TPM2_PCR_SetAuthValue h a) s.
Proof.
  intros Hw. unfold TPM2_PCR_SetAuthValue.
  assert (Hg : ∃ b g s1, PCRBelongsAuthGroup h s = Some ((b, g), s1) ∧ steps no_log s s1).
  { unfold PCRBelongsAuthGroup. munfold.
    repeat case_match; simplify_eq; (eexists _, _, _; split; [reflexivity|]);
      apply steps_same; try done; destruct Hw; by constructor. }
  destruct Hg as (b & g & s1 & E & S1). pose proof (steps_wf _ _ _ S1) as W1.
  unfold runs. setoid_rewrite (bind_Some _ _ _ _ _ E). apply runs_after; [done|].
  destruct b; cbn [negb]; [|by apply runs_failed].
  apply runs_if_orderly; [done|]. intros s2 W2. eexists _, _. split; [reflexivity|].
  apply steps_quiet; [apply steps_same; try done; destruct W2; by constructor|done].
Qed.

Lemma static_not_dynamic pcr : static pcr → ¬ dynamic pcr.
Proof. intros Hs. unfold dynamic. rewrite static_attributes by done. tauto. Qed.

Lemma cmd_runs c s : pcr_wf s → loc_ok s → cmd_ok c → runs c (run_cmd c) s.
Proof.
  intros Hw Hloc Hc. destruct c; cbn [run_cmd cmd_ok] in *.
  - by apply extend_runs.
  - by apply event_runs.
  - by apply read_runs.
  - by apply allocate_runs.
  - by apply auth_policy_runs.
  - by apply auth_value_runs.
  - by apply reset_runs.
  - destruct (PCRResetDynamics_only s Hw) as (s1 & E1 & O1). exists TPM_RC_SUCCESS, s1.
    split; [by rewrite (bind_Some _ _ _ _ _ E1)|]. apply steps_quiet; [|done].
    eapply steps_only; [exact O1|]. apply static_not_dynamic.
Qed.

Lemma cmds_run cs s :
  pcr_wf s → loc_ok s → Forall cmd_ok cs →
  ∃ rs s', run_cmds cs s = Some (rs, s') ∧ steps (λ a p, cmds_log a p cs rs) s s'.
Proof.
  intros Hw Hloc Hcs. revert s Hw Hloc. induction Hcs as [|c cs Hc Hcs IH]; intros s Hw Hloc; cbn [run_cmds].
  { exists [], s. split; [done|]. by apply steps_same. }
  destruct (cmd_runs c s Hw Hloc Hc) as (r & s1 & E1 & S1).
  destruct (IH s1 (steps_wf _ _ _ S1)) as (rs & s2 & E2 & S2).
  { unfold loc_ok. by rewrite (steps_locality _ _ _ S1). }
  exists (r :: rs), s2. split; [unfold bind; by rewrite E1, E2|]. eapply steps_ext; [by eapply steps_trans|done].
Qed.
End commands.
