(* ===== verification/PcrProps.v ===== *)
(** * Properties of the platform configuration registers *)

From S2P Require Import Prelude TpmTypes Memory Pcr PcrProof PcrSave PcrLog.
Local Open Scope Z_scope.

Section properties.
Context `{HashLib}.
Implicit Types (s : PcrState).

(** C14. The static registers are a log of what was measured.  Every sequence of
    the PCR commands (and of DRTM resets) returns, and afterwards the value of a
    static register of an allocated bank is the old value extended, in order, with
    exactly the digests of the TPM2_PCR_Extend and TPM2_PCR_Event commands on it
    that succeeded: no command sets or resets it, and the registers of banks that
    are not allocated do not change. *)
Theorem pcr_measurement_log cs s :
  pcr_wf s → loc_ok s → Forall cmd_ok cs →
  ∃ rs s', run_cmds cs s = Some (rs, s') ∧ pcr_wf s' ∧
    (∀ alg pcr, is_alg alg → static pcr →
      pcr_val s' alg pcr =
        if allocated s alg pcr then extended alg (pcr_val s alg pcr) (cmds_log alg pcr cs rs)
        else pcr_val s alg pcr).
Proof.
  intros Hw Hloc Hcs. destruct (cmds_run cs s Hw Hloc Hcs) as (rs & s' & E & S).
  exists rs, s'. split_and!; [done|apply S|]. intros. by apply (steps_val _ _ _ S).
Qed.

(** TPM2_PCR_Read returns the first eight of the selected registers that are
    allocated, in the order of the selection: their values, the selection reduced
    to exactly these registers with the banks in place, and the update counter.
    The state does not change. *)
Theorem pcr_read_first8 sels s :
  pcr_wf s → Forall sel_shape sels →
  let l := take 8 (List.filter (λ '(a, q), allocated s a q) (selected_of sels)) in
  ∃ sels', TPM2_PCR_Read sels s =
      Some ((TPM_RC_SUCCESS, (sels', map (λ '(a, q), pcr_val s a q) l, pcrCounter s)), s) ∧
    selected_of sels' = l ∧ map sel_hash sels' = map sel_hash sels ∧ Forall sel_shape sels'.
Proof.
  intros Hw Hs l. destruct (read_banks_spec sels [] s Hw Hs) as (sels' & E & Sh & Hh & L).
  exists sels'. split_and!; try done. unfold TPM2_PCR_Read, PCRRead, bind. by rewrite E.
Qed.

(** The digest of a selection (of a quote or a policy) is the hash of the
    concatenated values of exactly the selected registers that are allocated, and
    the selection that is returned names exactly these. *)
Theorem pcr_current_digest hashAlg sels s :
  pcr_wf s → is_alg hashAlg → Forall sel_shape sels →
  let l := List.filter (λ '(a, q), allocated s a q) (selected_of sels) in
  ∃ sels', PCRComputeCurrentDigest hashAlg sels s =
      Some ((sels', Hash hashAlg (concat (map (λ '(a, q), pcr_val s a q) l))), s) ∧
    selected_of sels' = l.
Proof.
  intros Hw Ha Hs l. destruct (digest_banks_spec sels s Hw Hs) as (sels' & E & L).
  exists sels'. split; [|done]. unfold PCRComputeCurrentDigest.
  replace ((0 <? dsize hashAlg) && (dsize hashAlg <? 0xFFFF)) with true by (algs Ha; done).
  erewrite bind_Some by reflexivity. by rewrite (bind_Some _ _ _ _ _ E).
Qed.

(** C20. A shutdown that saves the state and a resume restore the registers: the
    state-saved registers of all allocated banks have the values they had when the
    state was saved, whatever the registers held in between, and the others start
    with their initial values. *)
Theorem pcr_save_restore locality s :
  pcr_wf s → is_byte locality →
  ∃ s1, PCRStateSave TPM_SU_STATE s = Some (tt, s1) ∧ s_pcrs s1 = s_pcrs s ∧
    ∀ s2, pcr_wf s2 → pcrSave s2 = pcrSave s1 → pcrAllocated s2 = pcrAllocated s →
    ∃ s3, PCRStartup SU_RESUME locality s2 = Some (true, s3) ∧ pcr_wf s3 ∧
      ∀ alg pcr, is_alg alg → is_pcr pcr → allocated s alg pcr = true →
      pcr_val s3 alg pcr =
        if pcr <? NUM_STATIC_PCR then pcr_val s alg pcr else initial locality pcr (dsize alg).
Proof.
  intros Hw Hloc. destruct (PCRStateSave_spec s Hw) as (s1 & E1 & S1).
  exists s1. split_and!; [done|apply (saves_same _ _ _ S1)|]. intros s2 W2 Hsv Hal.
  destruct (PCRStartup_spec SU_RESUME locality s2 W2 Hloc) as (s3 & E3 & W3 & _ & _ & V3).
  exists s3. split_and!; [done..|]. intros alg pcr Ha Hp Hpa. rewrite V3 by done.
  unfold allocated in *. rewrite Hal, Hpa. unfold kept. cbn [is_resume negb andb].
  rewrite andb_false_r. cbn [negb andb]. unfold started_val, save_val.
  destruct (Z.ltb_spec pcr NUM_STATIC_PCR); [|done]. rewrite Hsv. fold (save_val s1 alg pcr).
  rewrite (saves_val _ _ _ S1) by (done || (split; [apply Hp|done])). unfold allocated. by rewrite Hpa.
Qed.

(** After a reset or a restart no measurement of the previous boot survives:
    every allocated register has its initial value, which is the startup locality
    for PCR 0 (unless an H-CRTM sequence has set it), ones for the registers of the
    dynamic root of trust and zero for the others. *)
Theorem pcr_startup_initial type locality s :
  pcr_wf s → is_byte locality → type ≠ SU_RESUME →
  ∃ s', PCRStartup type locality s = Some (true, s') ∧ pcr_wf s' ∧
    ∀ alg pcr, is_alg alg → is_pcr pcr → allocated s alg pcr = true →
    pcr_val s' alg pcr =
      if (pcr =? HCRTM_PCR) && p_DrtmPreStartup s then pcr_val s alg pcr
      else if pcr =? 0 then bfill 0 (dsize alg - 1) ++ [locality]
      else if (17 <=? pcr) && (pcr <=? 22) then bfill 0xFF (dsize alg)
      else bfill 0 (dsize alg).
Proof.
  intros Hw Hloc Ht. destruct (PCRStartup_spec type locality s Hw Hloc) as (s' & E & W & _ & _ & V).
  exists s'. split_and!; [done..|]. intros alg pcr Ha Hp Hal. rewrite V, Hal by done. unfold kept.
  replace (is_resume type) with false by (by destruct type). cbn [negb andb]. rewrite andb_true_r.
  destruct ((pcr =? HCRTM_PCR) && p_DrtmPreStartup s); [done|]. cbn [negb started_val].
  unfold is_pcr, IMPLEMENTATION_PCR in Hp.
  assert (Hin : In pcr (seqZ 0 24)) by (apply list_elem_of_In, elem_of_seqZ; lia).
  clear V Hal. revert Hin. cbn. intros Hin. destruct Hin as [<-|Hin]; [algs Ha; done|].
  repeat (destruct Hin as [<-|Hin]; [done|]). done.
Qed.

(** C30. TPM2_PCR_Allocate changes the banks as specified: the last entry for a
    bank takes effect, banks that are not mentioned keep their registers, the
    banks stay in place, and the size reported is the sum of the digest sizes of
    the allocated registers.  An allocation without a DRTM or an H-CRTM register is
    refused and changes nothing.  The new allocation is only written to NV: the
    registers and the allocation in use stay as they are until the next reset. *)
Theorem pcr_allocate sels s :
  pcr_wf s → Forall (λ a, sel_wf a ∧ is_alg (sel_hash a)) sels → p_NvStatus s = TPM_RC_SUCCESS →
  ∃ new, map sel_hash new = hash_algs ∧ Forall sel_wf new ∧
    (∀ h, find_bank h new = effective h sels (pcrAllocated s)) ∧
    if has_pcr DRTM_PCR new && has_pcr HCRTM_PCR new then
      TPM2_PCR_Allocate sels s =
        Some ((TPM_RC_SUCCESS, Some (true, mkAllocOut 24 (size_of (selected_of new)) 3936)),
              set_p_reConfig true (NV_WRITE_pcrAllocated new s))
    else TPM2_PCR_Allocate sels s = Some ((TPM_RC_PCR, None), s).
Proof.
  intros Hw Ha Hn. destruct (PCRAllocate_spec sels s Hw Ha) as (new & Hm & Wn & Hf & E).
  exists new. split_and!; try done. unfold TPM2_PCR_Allocate, bind, gets. rewrite Hn.
  cbn [negb Z.eqb TPM_RC_SUCCESS]. by destruct (has_pcr DRTM_PCR new && has_pcr HCRTM_PCR new); rewrite E.
Qed.

(** The localities from which TPM2_PCR_Reset may reset a register. *)
Definition reset_ok (locality pcr : Z) : bool :=
  ((pcr =? 16) || (pcr =? 23)) && (locality <? 4) ||
  (20 <=? pcr) && (pcr <=? 22) && (2 <=? locality) && (locality <? 4).

Lemma PCRIsResetAllowed_eq h s :
  0 ≤ h < 2 ^ 32 → 0 ≤ p_locality s ≤ 4 → PCRIsResetAllowed h s = Some (reset_ok (p_locality s) h, s).
Proof.
  intros Hh Hl. unfold PCRIsResetAllowed. rewrite handle_pcr by done. munfold.
  assert (Hls : In (p_locality s) (seqZ 0 5)) by (apply list_elem_of_In, elem_of_seqZ; lia).
  destruct (Z.lt_ge_cases h 24) as [Hlt|Hge].
  - assert (Hin : In h (seqZ 0 24)) by (apply list_elem_of_In, elem_of_seqZ; lia).
    revert Hin Hls. cbn [seqZ]. generalize (p_locality s). intros l Hin Hls. clear Hl Hh Hlt. cbn in Hls, Hin.
    repeat (destruct Hls as [<-|Hls]; [repeat (destruct Hin as [<-|Hin]; [done|]); done|]). done.
  - rewrite out_of_range_attributes by (unfold IMPLEMENTATION_PCR; lia). cbn [resetLocality static_pcr].
    assert (reset_ok (p_locality s) h = false) as ->.
    { unfold reset_ok. rewrite (proj2 (Z.eqb_neq h 16)), (proj2 (Z.eqb_neq h 23)), (proj2 (Z.leb_gt h 22)) by lia.
      by rewrite andb_false_r. }
    destruct (_ =? 4); [done|]. unfold locality_bits, of_option. rewrite (proj2 (Z.ltb_lt _ _)) by lia.
    by rewrite Z.land_0_r.
Qed.

Lemma reset_ok_pcr l h : reset_ok l h = true → is_pcr h ∧ PCRIsStateSaved h = false.
Proof.
  unfold reset_ok, is_pcr, IMPLEMENTATION_PCR. zbool. intros Hr.
  assert (h = 16 ∨ h = 20 ∨ h = 21 ∨ h = 22 ∨ h = 23) as Hh by lia.
  destruct Hh as [->|[->|[->|[->| ->]]]]; (split; [lia|done]).
Qed.

(** C31. TPM2_PCR_Reset obeys the locality table on every handle, from the
    localities 0 to 4: PCR 16 and 23 from localities 0 to 3, PCR 20 to 22 from
    localities 2 and 3, and nothing else, in particular never the static and the DRTM
    registers.  When it is refused nothing changes; when it is accepted the register
    is zero in every allocated bank and every other register has its value.  From an
    extended locality, 32 to 255, which [_plat__LocalitySet] also lets through, the
    shift by the locality has no defined result, and neither has the command. *)
Theorem pcr_reset_locality h s :
  pcr_wf s → 0 ≤ h < 2 ^ 32 →
  (0 ≤ p_locality s ≤ 4 →
   ∃ s', TPM2_PCR_Reset h s =
       Some (if reset_ok (p_locality s) h then TPM_RC_SUCCESS else TPM_RC_LOCALITY, s') ∧
     (reset_ok (p_locality s) h = false → s' = s) ∧
     (reset_ok (p_locality s) h = true → pcr_wf s' ∧
       ∀ alg pcr, is_alg alg → is_pcr pcr → pcr_val s' alg pcr =
         if (pcr =? h) && allocated s alg h then bfill 0 (dsize alg) else pcr_val s alg pcr)) ∧
  (32 ≤ p_locality s → TPM2_PCR_Reset h s = None).
Proof.
  intros Hw Hh. split; intros Hl; unfold TPM2_PCR_Reset; cycle 1.
  { unfold PCRIsResetAllowed, locality_bits. munfold. unfold of_option.
    destruct (Z.eqb_spec (p_locality s) 4); [lia|]. by destruct (Z.ltb_spec (p_locality s) 31); [lia|]. }
  rewrite (bind_Some _ _ _ _ _ (PCRIsResetAllowed_eq h s Hh Hl)).
  destruct (reset_ok (p_locality s) h) eqn:Hr; cbn [negb]; [|by exists s].
  destruct (reset_ok_pcr _ _ Hr) as [Hp ->].
  destruct (PCRSetValue_spec h s Hw Hp) as (s1 & E1 & O1 & V1).
  destruct (PCRChanged_only h s1 (only_wf _ _ _ O1)) as (s2 & E2 & O2 & _).
  exists s2. split_and!; [unfold bind; by rewrite E1, E2|done|]. intros _.
  split; [apply O2|]. intros alg pcr Ha Hpp. rewrite (only_val _ _ _ O2) by tauto.
  destruct (Z.eqb_spec pcr h) as [->|Hne]; [by apply V1|]. by apply (only_val _ _ _ O1).
Qed.
End properties.

(** ** Witnesses *)

(** A checksum in place of the hash algorithms. *)
Definition sum_hash (alg : Z) (d : bytes) : bytes := bfill (fold_left Z.add d 1 mod 256) (dsize alg).

#[local] Instance sum_HashLib : HashLib.
Proof.
  refine {| Hash := sum_hash |}.
  - intros alg d. apply blen_bfill, dsize_nonneg.
  - intros alg d. apply Forall_replicate. apply Z.mod_pos_bound. lia.
Defined.

Definition w_sel (alg b0 b1 b2 : Z) : TPMS_PCR_SELECTION := mkSel alg 3 [b0; b1; b2].
Definition w_banks : list TPMS_PCR_SELECTION :=
  [w_sel TPM_ALG_SHA1 0 0 0; w_sel TPM_ALG_SHA256 255 255 255;
   w_sel TPM_ALG_SHA384 255 255 255; w_sel TPM_ALG_SHA512 0 0 0].
Definition w_pcr : PcrState :=
  mkPcr (bfill 7 3936) (bfill 0 2628) (mkTPM2B 0 (bfill 0 64)) TPM_ALG_NULL (mkTPM2B 0 (bfill 0 64))
    w_banks w_banks (TPM_ALG_NULL, mkTPM2B 0 (bfill 0 64)) 5 false false true 0 TPM_RC_SUCCESS
    0xFFFF false 0 false.

Lemma w_pcr_wf : pcr_wf w_pcr.
Proof.
  constructor; try done; try (apply Forall_replicate; unfold is_byte; lia).
  repeat constructor; unfold is_byte; lia.
Qed.

Definition w_cmds : list PcrCmd :=
  [CExtend 1 [(TPM_ALG_SHA256, bfill 9 32)]; CReset 1; CEvent 1 [1; 2; 3]; CRead w_banks;
   CAllocate [w_sel TPM_ALG_SHA1 1 0 2]].

Lemma w_sels_shape : Forall sel_shape w_banks.
Proof. repeat constructor. Qed.

Ltac w_side :=
  lazymatch goal with
  | |- is_alg _ => unfold is_alg, hash_algs; right; left
  | |- is_pcr _ => unfold is_pcr, IMPLEMENTATION_PCR; lia
  | |- _ => vm_compute; reflexivity
  end.

Lemma pcr_measurement_log_witness :
  ∃ rs s', run_cmds w_cmds w_pcr = Some (rs, s') ∧ rs = [0; TPM_RC_LOCALITY; 0; 0; 0] ∧
    pcr_val s' TPM_ALG_SHA256 1 =
      Hash TPM_ALG_SHA256 (Hash TPM_ALG_SHA256 (bfill 7 32 ++ bfill 9 32) ++ Hash TPM_ALG_SHA256 [1; 2; 3]).
Proof.
  destruct (pcr_measurement_log w_cmds w_pcr w_pcr_wf ltac:(done)) as (rs & s' & E & _ & V).
  { repeat constructor; cbn; try lia; try done; try apply elem_of_cons; try (by left);
      unfold is_alg, hash_algs; try by left. }
  exists rs, s'. split; [exact E|]. assert (Hrs : rs = [0; TPM_RC_LOCALITY; 0; 0; 0]).
  { assert (Hc : match run_cmds w_cmds w_pcr with Some (r, _) => r | None => [] end =
      [0; TPM_RC_LOCALITY; 0; 0; 0]) by (vm_compute; reflexivity). rewrite E in Hc. exact Hc. }
  split; [exact Hrs|]. rewrite (V TPM_ALG_SHA256 1), Hrs.
  - vm_compute. reflexivity.
  - unfold is_alg, hash_algs. right. left.
  - done.
Defined.

Lemma pcr_read_first8_witness :
  ∃ sels', TPM2_PCR_Read [w_sel TPM_ALG_SHA1 1 0 0; w_sel TPM_ALG_SHA256 255 1 0] w_pcr =
      Some ((TPM_RC_SUCCESS, (sels', replicate 8 (bfill 7 32), 5)), w_pcr) ∧
    selected_of sels' = map (pair TPM_ALG_SHA256) (seqZ 0 8).
Proof.
  destruct (pcr_read_first8 [w_sel TPM_ALG_SHA1 1 0 0; w_sel TPM_ALG_SHA256 255 1 0] w_pcr w_pcr_wf)
    as (sels' & E & L & _); [repeat constructor|]. exists sels'. split.
  - rewrite E. vm_compute. reflexivity.
  - rewrite L. vm_compute. reflexivity.
Defined.

Lemma pcr_current_digest_witness :
  ∃ sels', PCRComputeCurrentDigest TPM_ALG_SHA384 [w_sel TPM_ALG_SHA256 3 0 0] w_pcr =
    Some ((sels', Hash TPM_ALG_SHA384 (bfill 7 64)), w_pcr).
Proof.
  destruct (pcr_current_digest TPM_ALG_SHA384 [w_sel TPM_ALG_SHA256 3 0 0] w_pcr w_pcr_wf)
    as (sels' & E & _); [unfold is_alg, hash_algs; right; right; left|repeat constructor|].
  exists sels'. rewrite E. vm_compute. reflexivity.
Defined.

Lemma pcr_save_restore_witness :
  ∃ s1, PCRStateSave TPM_SU_STATE w_pcr = Some (tt, s1) ∧
    ∃ s3, PCRStartup SU_RESUME 3 (set_s_pcrs (bfill 0 3936) s1) = Some (true, s3) ∧
      pcr_val s3 TPM_ALG_SHA256 5 = bfill 7 32 ∧ pcr_val s3 TPM_ALG_SHA256 17 = bfill 255 32.
Proof.
  destruct (pcr_save_restore 3 w_pcr w_pcr_wf ltac:(done)) as (s1 & E & _ & K). exists s1. split; [exact E|].
  assert (Hs : match PCRStateSave TPM_SU_STATE w_pcr with Some (_, s) => s | None => w_pcr end = s1)
    by (by rewrite E).
  destruct (K (set_s_pcrs (bfill 0 3936) s1)) as (s3 & E3 & _ & V).
  - destruct (PCRStateSave_spec w_pcr w_pcr_wf) as (s1' & E' & S). rewrite E in E'. injection E' as <-.
    destruct (saves_wf _ _ _ S). constructor; [vm_compute; done| |assumption..].
    apply Forall_replicate. unfold is_byte. lia.
  - done.
  - rewrite <- Hs. vm_compute. reflexivity.
  - exists s3. split; [exact E3|].
    split; [rewrite (V TPM_ALG_SHA256 5)|rewrite (V TPM_ALG_SHA256 17)]; w_side.
Defined.

Lemma pcr_startup_initial_witness :
  ∃ s', PCRStartup SU_RESET 3 w_pcr = Some (true, s') ∧
    pcr_val s' TPM_ALG_SHA256 0 = bfill 0 31 ++ [3] ∧ pcr_val s' TPM_ALG_SHA256 20 = bfill 255 32.
Proof.
  destruct (pcr_startup_initial SU_RESET 3 w_pcr w_pcr_wf ltac:(done) ltac:(done)) as (s' & E & _ & V).
  exists s'. split; [exact E|].
  split; [rewrite (V TPM_ALG_SHA256 0)|rewrite (V TPM_ALG_SHA256 20)]; w_side.
Defined.

Lemma pcr_allocate_witness :
  ∃ new, find_bank TPM_ALG_SHA1 new = Some (w_sel TPM_ALG_SHA1 1 0 2) ∧
    if has_pcr DRTM_PCR new && has_pcr HCRTM_PCR new then
      TPM2_PCR_Allocate [w_sel TPM_ALG_SHA1 1 0 2] w_pcr =
        Some ((TPM_RC_SUCCESS, Some (true, mkAllocOut 24 (size_of (selected_of new)) 3936)),
              set_p_reConfig true (NV_WRITE_pcrAllocated new w_pcr))
    else TPM2_PCR_Allocate [w_sel TPM_ALG_SHA1 1 0 2] w_pcr = Some ((TPM_RC_PCR, None), w_pcr).
Proof.
  destruct (pcr_allocate [w_sel TPM_ALG_SHA1 1 0 2] w_pcr w_pcr_wf) as (new & _ & _ & F & E).
  - repeat constructor; cbn; lia.
  - done.
  - exists new. split; [rewrite F; vm_compute; reflexivity|exact E].
Defined.

Lemma pcr_reset_locality_witness :
  TPM2_PCR_Reset 17 w_pcr = Some (TPM_RC_LOCALITY, w_pcr) ∧
  ∃ s', TPM2_PCR_Reset 16 w_pcr = Some (TPM_RC_SUCCESS, s') ∧ pcr_val s' TPM_ALG_SHA256 16 = bfill 0 32.
Proof.
  split.
  - destruct (proj1 (pcr_reset_locality 17 w_pcr w_pcr_wf ltac:(lia)) ltac:(cbn; lia)) as (s' & E & K & _).
    rewrite E, (K eq_refl). reflexivity.
  - destruct (proj1 (pcr_reset_locality 16 w_pcr w_pcr_wf ltac:(lia)) ltac:(cbn; lia)) as (s' & E & _ & K).
    exists s'. split; [exact E|]. destruct (K eq_refl) as [_ V].
    rewrite (V TPM_ALG_SHA256 16); w_side.
Defined.
