(* ===== verification/MemProps.v ===== *)
(** * The properties of the memory functions and of the NV image cipher

    Sized buffers (Memory.c), bit arrays (Bits.c), canonical integers, and AES
    in CBC mode, which protects the NV image, each with a witness. *)

From S2P Require Import Prelude TpmTypes Memory Cbc Aes AesProof.
Local Open Scope Z_scope.

Section mem_props.
Context {S : Type} `{FailState S}.

(** [MemoryEqual2B] compares the contents of two sized buffers: it is true
    exactly when they have the same size and the same octets, although the
    loop looks at every octet and accumulates the differences. *)
Theorem mem_equal_2B (s : S) a b :
  wf2B a → wf2B b → MemoryEqual2B a b s = Some (bool_decide (contents a = contents b), s).
Proof. apply MemoryEqual2B_ok. Qed.

(** Building a buffer: copying and then concatenating gives the
    concatenation of the contents when it fits the destination, without
    failing an assertion and within the buffer. *)
Theorem mem_copy_concat_2B (s : S) d a b :
  wf2B d → wf2B a → wf2B b → size2B a + size2B b ≤ blen (buffer2B d) →
  ∃ d1 d2, MemoryCopy2B d (Some a) (blen (buffer2B d)) s = Some ((size2B a, d1), s) ∧
    MemoryConcat2B d1 b (blen (buffer2B d)) s = Some (d2, s) ∧
    contents d2 = contents a ++ contents b ∧ blen (buffer2B d2) = blen (buffer2B d) ∧ wf2B d2.
Proof.
  intros Wd Wa Wb Hfit. pose proof (proj1 Wa). pose proof (proj1 Wb).
  destruct (MemoryCopy2B_ok s d a Wd Wa ltac:(lia)) as (d1 & Hcopy & C1 & L1 & W1).
  assert (size2B d1 = size2B a) as E1.
  { apply (f_equal blen) in C1. unfold contents in C1. destruct W1 as (? & _).
    rewrite !blen_bread in C1 by lia. done. }
  destruct (MemoryConcat2B_ok s d1 b W1 Wb ltac:(lia)) as (d2 & Hcat & C2 & L2 & W2).
  exists d1, d2. rewrite L1 in Hcat. split_and!; try done; [by rewrite C2, C1|lia|apply W2..].
Qed.

(** Bit arrays are sets of bit numbers: after setting or clearing bit [i],
    testing a bit of the array tells whether it is [i] or was set before. *)
Theorem bits_set_clear_test (s : S) i j a :
  0 ≤ i < 8 * blen a → 0 ≤ j < 8 * blen a →
  ∃ a1 a2, SetBit i a (blen a) s = Some (a1, s) ∧ ClearBit i a (blen a) s = Some (a2, s) ∧
    TestBit j a1 (blen a) s = Some ((j =? i) || bit_of a j, s) ∧
    TestBit j a2 (blen a) s = Some (negb (j =? i) && bit_of a j, s).
Proof.
  intros Hi Hj. destruct (SetBit_ok s i a Hi) as (a1 & H1 & L1 & B1).
  destruct (ClearBit_ok s i a Hi) as (a2 & H2 & L2 & B2). exists a1, a2.
  split; [done|]. split; [done|].
  rewrite <- B1, <- B2 by lia. rewrite <- L1 at 1. rewrite TestBit_ok by lia.
  split; [done|]. rewrite <- L2 at 1. by rewrite TestBit_ok by lia.
Qed.

(** The canonical (big-endian) form of a 64-bit integer and back, in both
    directions: no value and no eight octets are lost. *)
Theorem uint64_canonical_roundtrip i a :
  0 ≤ i < 2 ^ 64 → Forall is_byte a → length a = 8%nat →
  ByteArrayToUint64 (Uint64ToByteArray i) = i ∧ Uint64ToByteArray (ByteArrayToUint64 a) = a.
Proof. split; [by apply Uint64_roundtrip|by apply Uint64_roundtrip_bytes]. Qed.

End mem_props.

(** CBC decryption undoes CBC encryption for every whole number of blocks
    and every initialisation vector, over any block cipher whose decryption
    undoes its encryption; the ciphertext is as long as the plaintext. *)
Theorem cbc_decrypt_encrypt `{BlockCipher} inp iv :
  (length inp `mod` 16 = 0)%nat → Forall is_byte inp → is_block iv →
  let c := fst (CRYPTO_cbc128_encrypt inp iv) in
  length c = length inp ∧ fst <$> CRYPTO_cbc128_decrypt c (length inp) iv = Some inp.
Proof. apply cbc128_roundtrip. Qed.

(** C40. AES: for every key of 128, 192 or 256 bits both schedules are expanded
    with status 0, whatever the key structures held before, and decryption with
    the second one, by tables for the equivalent inverse cipher, undoes
    encryption with the first on every block. *)
Theorem aes_decrypt_encrypt userKey bits key0 inp :
  key_bits bits → Forall is_byte userKey → sched_ok (rd_key key0) → is_block inp →
  ∃ ek dk,
    AES_set_encrypt_key (Some userKey) bits (Some key0) = (0, Some ek) ∧
    AES_set_decrypt_key (Some userKey) bits (Some key0) = (0, Some dk) ∧
    is_block (AES_encrypt inp ek) ∧ AES_decrypt (AES_encrypt inp ek) dk = inp.
Proof.
  intros Hbits Hu Hk Hi. exists (enc_key userKey bits key0), (dec_key userKey bits key0).
  destruct (schedules userKey bits key0 Hbits Hu Hk) as (-> & -> & Hblock).
  split; [done|]. split; [done|]. by apply Hblock.
Qed.

(** The test of FIPS-197, appendix C: the key 00 01 02 ... encrypts the block
    00 11 22 ... ff to [ct]. *)
Definition fips197 (bits : Z) (ct : bytes) : Prop :=
  let key := map Z.of_nat (seq 0 (Z.to_nat (bits / 8))) in
  let pt := map (λ i, 17 * Z.of_nat i) (seq 0 16) in
  match AES_set_encrypt_key (Some key) bits (Some zero_key) with
  | (0, Some ek) => AES_encrypt pt ek = ct
  | _ => False
  end.

(** The table-driven code is AES: it gives the ciphertexts of appendix C of
    FIPS-197 for each of the three key sizes. *)
Theorem aes_fips197_vectors :
  fips197 128 [0x69; 0xc4; 0xe0; 0xd8; 0x6a; 0x7b; 0x04; 0x30;
               0xd8; 0xcd; 0xb7; 0x80; 0x70; 0xb4; 0xc5; 0x5a] ∧
  fips197 192 [0xdd; 0xa9; 0x7c; 0xa4; 0x86; 0x4c; 0xdf; 0xe0;
               0x6e; 0xaf; 0x70; 0xa0; 0xec; 0x0d; 0x71; 0x91] ∧
  fips197 256 [0x8e; 0xa2; 0xb7; 0xca; 0x51; 0x67; 0x45; 0xbf;
               0xea; 0xfc; 0x49; 0x90; 0x4b; 0x49; 0x60; 0x89].
Proof. split_and!; vm_compute; reflexivity. Qed.

(** ** Witnesses *)

#[local] Instance flag_fail : FailState bool := {| set_failure _ := true |}.

Lemma small_wf b :
  0 ≤ size2B b ≤ blen (buffer2B b) → blen (buffer2B b) < 65536 →
  forallb (λ x, (0 <=? x) && (x <? 256)) (buffer2B b) = true → wf2B b.
Proof.
  intros Hs Hn Hb. split_and!; try lia. apply list.Forall_forall. intros x Hx.
  apply forallb_forall with (x := x) in Hb; [|by apply list_elem_of_In].
  apply andb_true_iff in Hb as [H1%Z.leb_le H2%Z.ltb_lt]. done.
Qed.

Ltac small := apply small_wf; [vm_compute; split; discriminate|reflexivity|reflexivity].

Lemma mem_equal_2B_witness :
  MemoryEqual2B (mkTPM2B 2 [1; 2; 3]) (mkTPM2B 2 [1; 2; 9]) false = Some (true, false).
Proof.
  exact (mem_equal_2B false (mkTPM2B 2 [1; 2; 3]) (mkTPM2B 2 [1; 2; 9]) ltac:(small) ltac:(small)).
Defined.

Lemma mem_copy_concat_2B_witness :
  ∃ d1 d2, MemoryCopy2B (mkTPM2B 0 [0; 0; 0; 0]) (Some (mkTPM2B 2 [1; 2])) 4 false
      = Some ((2, d1), false) ∧
    MemoryConcat2B d1 (mkTPM2B 1 [9]) 4 false = Some (d2, false) ∧ contents d2 = [1; 2; 9].
Proof.
  destruct (mem_copy_concat_2B false (mkTPM2B 0 [0; 0; 0; 0]) (mkTPM2B 2 [1; 2]) (mkTPM2B 1 [9])
    ltac:(small) ltac:(small) ltac:(small) ltac:(vm_compute; discriminate)) as (d1 & d2 & H1 & H2 & H3 & _).
  exists d1, d2. split; [exact H1|]. split; [exact H2|exact H3].
Defined.

Lemma bits_set_clear_test_witness :
  ∃ a1, SetBit 11 [1; 0] 2 false = Some (a1, false) ∧ TestBit 11 a1 2 false = Some (true, false).
Proof.
  destruct (bits_set_clear_test false 11 11 [1; 0] ltac:(vm_compute; split; [discriminate|reflexivity])
    ltac:(vm_compute; split; [discriminate|reflexivity]))
    as (a1 & a2 & H1 & _ & H3 & _).
  exists a1. split; [exact H1|exact H3].
Defined.

Lemma uint64_canonical_roundtrip_witness :
  ByteArrayToUint64 (Uint64ToByteArray 258) = 258 ∧
  Uint64ToByteArray (ByteArrayToUint64 [0; 0; 0; 0; 0; 0; 1; 2]) = [0; 0; 0; 0; 0; 0; 1; 2].
Proof.
  apply uint64_canonical_roundtrip; [lia| |reflexivity]. repeat constructor; unfold is_byte; lia.
Defined.

(** Witness: two blocks under the key of the NV image. *)
Lemma cbc_decrypt_encrypt_witness :
  fst <$> @CRYPTO_cbc128_decrypt nv_cipher
    (fst (@CRYPTO_cbc128_encrypt nv_cipher (replicate 32 7) (replicate 16 1))) 32 (replicate 16 1)
  = Some (replicate 32 7).
Proof.
  apply (@cbc_decrypt_encrypt nv_cipher (replicate 32 7) (replicate 16 1));
    [reflexivity| |split; [reflexivity|]]; apply Forall_replicate; unfold is_byte; lia.
Defined.

(** Witness: a block of zeros under the key of the NV image. *)
Lemma aes_decrypt_encrypt_witness :
  ∃ ek dk,
    AES_set_encrypt_key (Some nv_key) 128 (Some zero_key) = (0, Some ek) ∧
    AES_set_decrypt_key (Some nv_key) 128 (Some zero_key) = (0, Some dk) ∧
    is_block (AES_encrypt (replicate 16 0) ek) ∧
    AES_decrypt (AES_encrypt (replicate 16 0) ek) dk = replicate 16 0.
Proof.
  apply (aes_decrypt_encrypt nv_key 128 zero_key (replicate 16 0)).
  - left. reflexivity.
  - apply nv_key_octets.
  - apply zero_key_ok.
  - split; [reflexivity|]. apply Forall_replicate. unfold is_byte. lia.
Defined.
