(* ===== verification/WireTypes.v ===== *)
(** * The structures of the TPM interface (include/ftpm/TpmTypes.h)

    The constants, structures and unions that Marshal.c and Unmarshal.c read
    and write.  An integer type is [Z] (its width is part of the typing
    predicates of WireWf.v), a sized buffer is the [TPM2B] of Memory.v with the
    capacity its declaration gives it ([<type>_buffer]), a [struct] is a record
    whose fields carry the name of the structure, and a [union] is an inductive
    type with a constructor per member ([<union>_none] is a union in which no
    member was stored).  The values of the [#define]s and of [sizeof] are those
    of this build. *)

From S2P Require Import Prelude TpmTypes Memory.
Local Open Scope Z_scope.

(** The labels of a [switch] that share a branch. *)
Definition one_of (x : Z) (l : list Z) : bool := existsb (Z.eqb x) l.

(** ** Curves *)

Definition TPM_ECC_NONE : Z := 0x0000.
Definition TPM_ECC_NIST_P192 : Z := 0x0001.
Definition TPM_ECC_NIST_P224 : Z := 0x0002.
Definition TPM_ECC_NIST_P256 : Z := 0x0003.
Definition TPM_ECC_NIST_P384 : Z := 0x0004.
Definition TPM_ECC_NIST_P521 : Z := 0x0005.
Definition TPM_ECC_BN_P256 : Z := 0x0010.
Definition TPM_ECC_BN_P638 : Z := 0x0011.
Definition TPM_ECC_SM2_P256 : Z := 0x0020.

(** ** Response codes *)

Definition TPM_RC_CURVE : Z := 0x0A6.
Definition TPM_RC_RESERVED_BITS : Z := 0x0A1.
Definition TPM_RC_HASH : Z := 0x083.
Definition TPM_RC_SYMMETRIC : Z := 0x096.
Definition TPM_RC_MODE : Z := 0x089.
Definition TPM_RC_KDF : Z := 0x08C.
Definition TPM_RC_SCHEME : Z := 0x092.
Definition TPM_RC_BAD_TAG : Z := 0x01E.
Definition TPM_RC_SELECTOR : Z := 0x098.
Definition TPM_RC_TAG : Z := 0x097.
Definition TPM_RC_TYPE : Z := 0x08A.
Definition TPM_RC_INSUFFICIENT : Z := 0x09A.

(** ** Clock adjustments *)

Definition TPM_CLOCK_COARSE_SLOWER : Z := -3.
Definition TPM_CLOCK_MEDIUM_SLOWER : Z := -2.
Definition TPM_CLOCK_FINE_SLOWER : Z := -1.
Definition TPM_CLOCK_NO_CHANGE : Z := 0.
Definition TPM_CLOCK_FINE_FASTER : Z := 1.
Definition TPM_CLOCK_MEDIUM_FASTER : Z := 2.
Definition TPM_CLOCK_COARSE_FASTER : Z := 3.

(** ** Arithmetic operands *)

Definition TPM_EO_EQ : Z := 0x0000.
Definition TPM_EO_NEQ : Z := 0x0001.
Definition TPM_EO_SIGNED_GT : Z := 0x0002.
Definition TPM_EO_UNSIGNED_GT : Z := 0x0003.
Definition TPM_EO_SIGNED_LT : Z := 0x0004.
Definition TPM_EO_UNSIGNED_LT : Z := 0x0005.
Definition TPM_EO_SIGNED_GE : Z := 0x0006.
Definition TPM_EO_UNSIGNED_GE : Z := 0x0007.
Definition TPM_EO_SIGNED_LE : Z := 0x0008.
Definition TPM_EO_UNSIGNED_LE : Z := 0x0009.
Definition TPM_EO_BITSET : Z := 0x000A.
Definition TPM_EO_BITCLEAR : Z := 0x000B.

(** ** Structure tags *)

Definition TPM_ST_RSP_COMMAND : Z := 0x00C4.
Definition TPM_ST_NULL : Z := 0x8000.
Definition TPM_ST_NO_SESSIONS : Z := 0x8001.
Definition TPM_ST_SESSIONS : Z := 0x8002.
Definition TPM_ST_ATTEST_NV : Z := 0x8014.
Definition TPM_ST_ATTEST_COMMAND_AUDIT : Z := 0x8015.
Definition TPM_ST_ATTEST_SESSION_AUDIT : Z := 0x8016.
Definition TPM_ST_ATTEST_CERTIFY : Z := 0x8017.
Definition TPM_ST_ATTEST_QUOTE : Z := 0x8018.
Definition TPM_ST_ATTEST_TIME : Z := 0x8019.
Definition TPM_ST_ATTEST_CREATION : Z := 0x801A.
Definition TPM_ST_CREATION : Z := 0x8021.
Definition TPM_ST_VERIFIED : Z := 0x8022.
Definition TPM_ST_AUTH_SECRET : Z := 0x8023.
Definition TPM_ST_HASHCHECK : Z := 0x8024.
Definition TPM_ST_AUTH_SIGNED : Z := 0x8025.
Definition TPM_ST_ATTEST_NV_DIGEST : Z := 0x801C.

(** ** Capabilities *)

Definition TPM_CAP_ALGS : Z := 0x0000.
Definition TPM_CAP_HANDLES : Z := 0x0001.
Definition TPM_CAP_COMMANDS : Z := 0x0002.
Definition TPM_CAP_PP_COMMANDS : Z := 0x0003.
Definition TPM_CAP_AUDIT_COMMANDS : Z := 0x0004.
Definition TPM_CAP_PCRS : Z := 0x0005.
Definition TPM_CAP_TPM_PROPERTIES : Z := 0x0006.
Definition TPM_CAP_PCR_PROPERTIES : Z := 0x0007.
Definition TPM_CAP_ECC_CURVES : Z := 0x0008.
Definition TPM_CAP_AUTH_POLICIES : Z := 0x0009.
Definition TPM_CAP_ACT : Z := 0x000A.
Definition TPM_CAP_VENDOR_PROPERTY : Z := 0x0100.

(** ** Algorithms *)

Definition TPM_ALG_AES : Z := 0x0006.
Definition TPM_ALG_CAMELLIA : Z := 0x0026.
Definition TPM_ALG_XOR : Z := 0x000A.
Definition TPM_ALG_CTR : Z := 0x0040.
Definition TPM_ALG_OFB : Z := 0x0041.
Definition TPM_ALG_CBC : Z := 0x0042.
Definition TPM_ALG_CFB : Z := 0x0043.
Definition TPM_ALG_ECB : Z := 0x0044.
Definition TPM_ALG_CMAC : Z := 0x003F.
Definition TPM_ALG_MGF1 : Z := 0x0007.
Definition TPM_ALG_KDF1_SP800_56A : Z := 0x0020.
Definition TPM_ALG_KDF2 : Z := 0x0021.
Definition TPM_ALG_KDF1_SP800_108 : Z := 0x0022.
Definition TPM_ALG_HMAC : Z := 0x0005.
Definition TPM_ALG_RSASSA : Z := 0x0014.
Definition TPM_ALG_RSAPSS : Z := 0x0016.
Definition TPM_ALG_ECDSA : Z := 0x0018.
Definition TPM_ALG_ECDAA : Z := 0x001A.
Definition TPM_ALG_SM2 : Z := 0x001B.
Definition TPM_ALG_ECSCHNORR : Z := 0x001C.
Definition TPM_ALG_ECDH : Z := 0x0019.
Definition TPM_ALG_ECMQV : Z := 0x001D.
Definition TPM_ALG_RSAES : Z := 0x0015.
Definition TPM_ALG_OAEP : Z := 0x0017.
Definition TPM_ALG_KEYEDHASH : Z := 0x0008.
Definition TPM_ALG_RSA : Z := 0x0001.
Definition TPM_ALG_ECC : Z := 0x0023.
Definition TPM_ALG_SYMCIPHER : Z := 0x0025.

(** ** Permanent handles *)

Definition TPM_RH_AUTH_00 : Z := 0x40000010.
Definition TPM_RH_AUTH_FF : Z := 0x4000010F.
Definition TPM_RH_ACT_0 : Z := 0x40000110.
Definition TPM_RH_ACT_F : Z := 0x4000011F.

(** ** Handle ranges, reserved bits and limits *)

Definition TPMA_ALGORITHM_reserved : Z := 0xFFFFF8F0.
Definition TPMA_OBJECT_reserved : Z := 0xFFF0F009.
Definition TPMA_SESSION_reserved : Z := 0x0018.
Definition TPMA_CC_reserved : Z := 0xC03F0000.
Definition NO : Z := 0.
Definition YES : Z := 1.
Definition TRANSIENT_FIRST : Z := 0x80000000.
Definition TRANSIENT_LAST : Z := 0x80000002.
Definition NV_INDEX_LAST : Z := 0x01FFFFFF.
Definition PCR_LAST : Z := 0x0017.
Definition HMAC_SESSION_LAST : Z := 0x0200003F.
Definition POLICY_SESSION_LAST : Z := 0x0300003F.
Definition EXTERNAL_NV_FIRST : Z := 0x11000000.
Definition EXTERNAL_NV_LAST : Z := 0x11FFFFFF.
Definition PERMANENT_NV_FIRST : Z := 0x12000000.
Definition PERMANENT_NV_LAST : Z := 0x12FFFFFF.
Definition AC_FIRST : Z := 0x90000000.
Definition AC_LAST : Z := 0x9000FFFF.
Definition SHA1_DIGEST_SIZE : Z := 20.
Definition SHA256_DIGEST_SIZE : Z := 32.
Definition SHA384_DIGEST_SIZE : Z := 48.
Definition SHA512_DIGEST_SIZE : Z := 64.
Definition MAX_DIGEST_BUFFER : Z := 1024.
Definition MAX_SYM_BLOCK_SIZE : Z := 16.
Definition PCR_SELECT_MIN : Z := 3.
Definition PCR_SELECT_MAX : Z := 3.
Definition MAX_CAP_CC : Z := 254.
Definition MAX_ALG_LIST_SIZE : Z := 64.
Definition MAX_SYM_KEY_BYTES : Z := 32.
Definition LABEL_MAX_BUFFER : Z := 32.
Definition MAX_SYM_DATA : Z := 128.
Definition MAX_RSA_KEY_BYTES : Z := 512.
Definition RSA_PRIVATE_SIZE : Z := 1280.
Definition MAX_ECC_KEY_BYTES : Z := 80.
Definition TPMA_NV_RESERVED : Z := 0x01F00300.
Definition TPMA_NV_EXP_reserved : Z := 0xFFFFFFF800000000.
Definition MAX_CONTEXT_SIZE : Z := 2680.
Definition PRIVATE_VENDOR_SPECIFIC_BYTES : Z := 1280.
Definition MAX_CAP_ALGS : Z := 127.
Definition MAX_TPM_PROPERTIES : Z := 127.
Definition MAX_PCR_PROPERTIES : Z := 127.
Definition MAX_ECC_CURVES : Z := 508.
Definition MAX_TAGGED_POLICIES : Z := 14.
Definition MAX_ACT_DATA : Z := 84.
Definition MAX_AC_CAPABILITIES : Z := 127.
Definition TPM_GENERATED_VALUE : Z := 0xFF544347.

(** ** Sizes of types in this build *)

Definition sizeof_TPM2B_EVENT : Z := 1026.
Definition sizeof_UINT16 : Z := 2.
Definition sizeof_TPMU_ENCRYPTED_SECRET : Z := 512.
Definition sizeof_TPMT_PUBLIC : Z := 612.
Definition sizeof__PRIVATE : Z := 1550.
Definition sizeof_TPMS_ID_OBJECT : Z := 132.
Definition sizeof_TPMS_CONTEXT_DATA : Z := 2748.
Definition sizeof_UINT64 : Z := 8.
Definition sizeof_TPMU_SENSITIVE_CREATE : Z := 128.
Definition sizeof_TPMS_ATTEST : Z := 1280.
Definition sizeof_UINT8 : Z := 1.
Definition sizeof_UINT32 : Z := 4.

(** ** Structures and unions *)

Inductive TPMU_HA :=
| TPMU_HA_sha1 (sha1 : bytes)
| TPMU_HA_sha256 (sha256 : bytes)
| TPMU_HA_sha384 (sha384 : bytes)
| TPMU_HA_sha512 (sha512 : bytes)
| TPMU_HA_none.

Record TPMT_HA := mkTPMT_HA {
  TPMT_HA_hashAlg : Z;
  TPMT_HA_digest : TPMU_HA }.

Definition TPM2B_DIGEST_buffer : Z := sizeof_TPMU_HA.
Definition TPM2B_DATA_buffer : Z := sizeof_TPMT_HA.
Definition TPM2B_EVENT_buffer : Z := 1024.
Definition TPM2B_MAX_BUFFER_buffer : Z := MAX_DIGEST_BUFFER.
Definition TPM2B_MAX_NV_BUFFER_buffer : Z := MAX_NV_BUFFER_SIZE.
Definition TPM2B_TIMEOUT_buffer : Z := sizeof_UINT64.
Definition TPM2B_IV_buffer : Z := MAX_SYM_BLOCK_SIZE.
Definition TPM2B_NAME_buffer : Z := sizeof_TPMU_NAME.
Record TPMS_PCR_SELECTION := mkTPMS_PCR_SELECTION {
  TPMS_PCR_SELECTION_hash : Z;
  TPMS_PCR_SELECTION_sizeofSelect : Z;
  TPMS_PCR_SELECTION_pcrSelect : bytes }.

Record TPMT_TK_CREATION := mkTPMT_TK_CREATION {
  TPMT_TK_CREATION_tag : Z;
  TPMT_TK_CREATION_hierarchy : Z;
  TPMT_TK_CREATION_digest : TPM2B }.

Record TPMT_TK_VERIFIED := mkTPMT_TK_VERIFIED {
  TPMT_TK_VERIFIED_tag : Z;
  TPMT_TK_VERIFIED_hierarchy : Z;
  TPMT_TK_VERIFIED_digest : TPM2B }.

Record TPMT_TK_AUTH := mkTPMT_TK_AUTH {
  TPMT_TK_AUTH_tag : Z;
  TPMT_TK_AUTH_hierarchy : Z;
  TPMT_TK_AUTH_digest : TPM2B }.

Record TPMT_TK_HASHCHECK := mkTPMT_TK_HASHCHECK {
  TPMT_TK_HASHCHECK_tag : Z;
  TPMT_TK_HASHCHECK_hierarchy : Z;
  TPMT_TK_HASHCHECK_digest : TPM2B }.

Record TPMS_ALG_PROPERTY := mkTPMS_ALG_PROPERTY {
  TPMS_ALG_PROPERTY_alg : Z;
  TPMS_ALG_PROPERTY_algProperties : Z }.

Record TPMS_TAGGED_PROPERTY := mkTPMS_TAGGED_PROPERTY {
  TPMS_TAGGED_PROPERTY_property : Z;
  TPMS_TAGGED_PROPERTY_value : Z }.

Record TPMS_TAGGED_PCR_SELECT := mkTPMS_TAGGED_PCR_SELECT {
  TPMS_TAGGED_PCR_SELECT_tag : Z;
  TPMS_TAGGED_PCR_SELECT_sizeofSelect : Z;
  TPMS_TAGGED_PCR_SELECT_pcrSelect : bytes }.

Record TPML_CC := mkTPML_CC {
  TPML_CC_count : Z;
  TPML_CC_commandCodes : list Z }.

Record TPMS_TAGGED_POLICY := mkTPMS_TAGGED_POLICY {
  TPMS_TAGGED_POLICY_handle : Z;
  TPMS_TAGGED_POLICY_policyHash : TPMT_HA }.

Record TPML_CCA := mkTPML_CCA {
  TPML_CCA_count : Z;
  TPML_CCA_commandAttributes : list Z }.

Record TPML_ALG := mkTPML_ALG {
  TPML_ALG_count : Z;
  TPML_ALG_algorithms : list Z }.

Record TPML_HANDLE := mkTPML_HANDLE {
  TPML_HANDLE_count : Z;
  TPML_HANDLE_handle : list Z }.

Record TPML_DIGEST := mkTPML_DIGEST {
  TPML_DIGEST_count : Z;
  TPML_DIGEST_digests : list TPM2B }.

Record TPML_DIGEST_VALUES := mkTPML_DIGEST_VALUES {
  TPML_DIGEST_VALUES_count : Z;
  TPML_DIGEST_VALUES_digests : list TPMT_HA }.

Record TPML_PCR_SELECTION := mkTPML_PCR_SELECTION {
  TPML_PCR_SELECTION_count : Z;
  TPML_PCR_SELECTION_pcrSelections : list TPMS_PCR_SELECTION }.

Inductive TPMU_SYM_KEY_BITS :=
| TPMU_SYM_KEY_BITS_aes (aes : Z)
| TPMU_SYM_KEY_BITS_camellia (camellia : Z)
| TPMU_SYM_KEY_BITS_sym (sym : Z)
| TPMU_SYM_KEY_BITS_xorr (xorr : Z)
| TPMU_SYM_KEY_BITS_none.

Inductive TPMU_SYM_MODE :=
| TPMU_SYM_MODE_aes (aes : Z)
| TPMU_SYM_MODE_camellia (camellia : Z)
| TPMU_SYM_MODE_sym (sym : Z)
| TPMU_SYM_MODE_none.

Record TPMT_SYM_DEF := mkTPMT_SYM_DEF {
  TPMT_SYM_DEF_algorithm : Z;
  TPMT_SYM_DEF_keyBits : TPMU_SYM_KEY_BITS;
  TPMT_SYM_DEF_mode : TPMU_SYM_MODE }.

Record TPMT_SYM_DEF_OBJECT := mkTPMT_SYM_DEF_OBJECT {
  TPMT_SYM_DEF_OBJECT_algorithm : Z;
  TPMT_SYM_DEF_OBJECT_keyBits : TPMU_SYM_KEY_BITS;
  TPMT_SYM_DEF_OBJECT_mode : TPMU_SYM_MODE }.

Definition TPM2B_SYM_KEY_buffer : Z := MAX_SYM_KEY_BYTES.
Record TPMS_SYMCIPHER_PARMS := mkTPMS_SYMCIPHER_PARMS {
  TPMS_SYMCIPHER_PARMS_sym : TPMT_SYM_DEF_OBJECT }.

Definition TPM2B_LABEL_buffer : Z := LABEL_MAX_BUFFER.
Record TPMS_DERIVE := mkTPMS_DERIVE {
  TPMS_DERIVE_label : TPM2B;
  TPMS_DERIVE_context : TPM2B }.

Definition TPM2B_SENSITIVE_DATA_buffer : Z := sizeof_TPMU_SENSITIVE_CREATE.
Record TPMS_SENSITIVE_CREATE := mkTPMS_SENSITIVE_CREATE {
  TPMS_SENSITIVE_CREATE_userAuth : TPM2B;
  TPMS_SENSITIVE_CREATE_data : TPM2B }.

Record TPM2B_SENSITIVE_CREATE := mkTPM2B_SENSITIVE_CREATE {
  TPM2B_SENSITIVE_CREATE_size : Z;
  TPM2B_SENSITIVE_CREATE_sensitive : TPMS_SENSITIVE_CREATE }.

Record TPMS_SCHEME_HASH := mkTPMS_SCHEME_HASH {
  TPMS_SCHEME_HASH_hashAlg : Z }.

Record TPMS_SCHEME_ECDAA := mkTPMS_SCHEME_ECDAA {
  TPMS_SCHEME_ECDAA_hashAlg : Z;
  TPMS_SCHEME_ECDAA_count : Z }.

Record TPMS_SCHEME_XOR := mkTPMS_SCHEME_XOR {
  TPMS_SCHEME_XOR_hashAlg : Z;
  TPMS_SCHEME_XOR_kdf : Z }.

Inductive TPMU_SCHEME_KEYEDHASH :=
| TPMU_SCHEME_KEYEDHASH_hmac (hmac : TPMS_SCHEME_HASH)
| TPMU_SCHEME_KEYEDHASH_xorr (xorr : TPMS_SCHEME_XOR)
| TPMU_SCHEME_KEYEDHASH_none.

Record TPMT_KEYEDHASH_SCHEME := mkTPMT_KEYEDHASH_SCHEME {
  TPMT_KEYEDHASH_SCHEME_scheme : Z;
  TPMT_KEYEDHASH_SCHEME_details : TPMU_SCHEME_KEYEDHASH }.

Inductive TPMU_SIG_SCHEME :=
| TPMU_SIG_SCHEME_ecdaa (ecdaa : TPMS_SCHEME_ECDAA)
| TPMU_SIG_SCHEME_rsassa (rsassa : TPMS_SCHEME_HASH)
| TPMU_SIG_SCHEME_rsapss (rsapss : TPMS_SCHEME_HASH)
| TPMU_SIG_SCHEME_ecdsa (ecdsa : TPMS_SCHEME_HASH)
| TPMU_SIG_SCHEME_sm2 (sm2 : TPMS_SCHEME_HASH)
| TPMU_SIG_SCHEME_ecschnorr (ecschnorr : TPMS_SCHEME_HASH)
| TPMU_SIG_SCHEME_hmac (hmac : TPMS_SCHEME_HASH)
| TPMU_SIG_SCHEME_any (any : TPMS_SCHEME_HASH)
| TPMU_SIG_SCHEME_none.

Record TPMT_SIG_SCHEME := mkTPMT_SIG_SCHEME {
  TPMT_SIG_SCHEME_scheme : Z;
  TPMT_SIG_SCHEME_details : TPMU_SIG_SCHEME }.

Inductive TPMU_KDF_SCHEME :=
| TPMU_KDF_SCHEME_mgf1 (mgf1 : TPMS_SCHEME_HASH)
| TPMU_KDF_SCHEME_kdf1_sp800_56a (kdf1_sp800_56a : TPMS_SCHEME_HASH)
| TPMU_KDF_SCHEME_kdf2 (kdf2 : TPMS_SCHEME_HASH)
| TPMU_KDF_SCHEME_kdf1_sp800_108 (kdf1_sp800_108 : TPMS_SCHEME_HASH)
| TPMU_KDF_SCHEME_anyKdf (anyKdf : TPMS_SCHEME_HASH)
| TPMU_KDF_SCHEME_none.

Record TPMT_KDF_SCHEME := mkTPMT_KDF_SCHEME {
  TPMT_KDF_SCHEME_scheme : Z;
  TPMT_KDF_SCHEME_details : TPMU_KDF_SCHEME }.

Inductive TPMU_ASYM_SCHEME :=
| TPMU_ASYM_SCHEME_ecdh (ecdh : TPMS_SCHEME_HASH)
| TPMU_ASYM_SCHEME_ecmqv (ecmqv : TPMS_SCHEME_HASH)
| TPMU_ASYM_SCHEME_ecdaa (ecdaa : TPMS_SCHEME_ECDAA)
| TPMU_ASYM_SCHEME_rsassa (rsassa : TPMS_SCHEME_HASH)
| TPMU_ASYM_SCHEME_rsapss (rsapss : TPMS_SCHEME_HASH)
| TPMU_ASYM_SCHEME_ecdsa (ecdsa : TPMS_SCHEME_HASH)
| TPMU_ASYM_SCHEME_sm2 (sm2 : TPMS_SCHEME_HASH)
| TPMU_ASYM_SCHEME_ecschnorr (ecschnorr : TPMS_SCHEME_HASH)
| TPMU_ASYM_SCHEME_rsaes (rsaes : unit)
| TPMU_ASYM_SCHEME_oaep (oaep : TPMS_SCHEME_HASH)
| TPMU_ASYM_SCHEME_anySig (anySig : TPMS_SCHEME_HASH)
| TPMU_ASYM_SCHEME_none.

Record TPMT_RSA_SCHEME := mkTPMT_RSA_SCHEME {
  TPMT_RSA_SCHEME_scheme : Z;
  TPMT_RSA_SCHEME_details : TPMU_ASYM_SCHEME }.

Record TPMT_RSA_DECRYPT := mkTPMT_RSA_DECRYPT {
  TPMT_RSA_DECRYPT_scheme : Z;
  TPMT_RSA_DECRYPT_details : TPMU_ASYM_SCHEME }.

Definition TPM2B_PUBLIC_KEY_RSA_buffer : Z := MAX_RSA_KEY_BYTES.
Definition TPM2B_PRIVATE_KEY_RSA_buffer : Z := RSA_PRIVATE_SIZE.
Definition TPM2B_ECC_PARAMETER_buffer : Z := MAX_ECC_KEY_BYTES.
Record TPMS_ECC_POINT := mkTPMS_ECC_POINT {
  TPMS_ECC_POINT_x : TPM2B;
  TPMS_ECC_POINT_y : TPM2B }.

Record TPM2B_ECC_POINT := mkTPM2B_ECC_POINT {
  TPM2B_ECC_POINT_size : Z;
  TPM2B_ECC_POINT_point : TPMS_ECC_POINT }.

Record TPMT_ECC_SCHEME := mkTPMT_ECC_SCHEME {
  TPMT_ECC_SCHEME_scheme : Z;
  TPMT_ECC_SCHEME_details : TPMU_ASYM_SCHEME }.

Record TPMS_SIGNATURE_RSA := mkTPMS_SIGNATURE_RSA {
  TPMS_SIGNATURE_RSA_hash : Z;
  TPMS_SIGNATURE_RSA_sig : TPM2B }.

Record TPMS_SIGNATURE_ECC := mkTPMS_SIGNATURE_ECC {
  TPMS_SIGNATURE_ECC_hash : Z;
  TPMS_SIGNATURE_ECC_signatureR : TPM2B;
  TPMS_SIGNATURE_ECC_signatureS : TPM2B }.

Inductive TPMU_SIGNATURE :=
| TPMU_SIGNATURE_ecdaa (ecdaa : TPMS_SIGNATURE_ECC)
| TPMU_SIGNATURE_rsassa (rsassa : TPMS_SIGNATURE_RSA)
| TPMU_SIGNATURE_rsapss (rsapss : TPMS_SIGNATURE_RSA)
| TPMU_SIGNATURE_ecdsa (ecdsa : TPMS_SIGNATURE_ECC)
| TPMU_SIGNATURE_sm2 (sm2 : TPMS_SIGNATURE_ECC)
| TPMU_SIGNATURE_ecschnorr (ecschnorr : TPMS_SIGNATURE_ECC)
| TPMU_SIGNATURE_hmac (hmac : TPMT_HA)
| TPMU_SIGNATURE_any (any : TPMS_SCHEME_HASH)
| TPMU_SIGNATURE_none.

Record TPMT_SIGNATURE := mkTPMT_SIGNATURE {
  TPMT_SIGNATURE_sigAlg : Z;
  TPMT_SIGNATURE_signature : TPMU_SIGNATURE }.

Definition TPM2B_ENCRYPTED_SECRET_buffer : Z := sizeof_TPMU_ENCRYPTED_SECRET.
Inductive TPMU_PUBLIC_ID :=
| TPMU_PUBLIC_ID_keyedHash (keyedHash : TPM2B)
| TPMU_PUBLIC_ID_sym (sym : TPM2B)
| TPMU_PUBLIC_ID_rsa (rsa : TPM2B)
| TPMU_PUBLIC_ID_ecc (ecc : TPMS_ECC_POINT)
| TPMU_PUBLIC_ID_derive (derive : TPMS_DERIVE).

Record TPMS_KEYEDHASH_PARMS := mkTPMS_KEYEDHASH_PARMS {
  TPMS_KEYEDHASH_PARMS_scheme : TPMT_KEYEDHASH_SCHEME }.

Record TPMS_RSA_PARMS := mkTPMS_RSA_PARMS {
  TPMS_RSA_PARMS_symmetric : TPMT_SYM_DEF_OBJECT;
  TPMS_RSA_PARMS_scheme : TPMT_RSA_SCHEME;
  TPMS_RSA_PARMS_keyBits : Z;
  TPMS_RSA_PARMS_exponent : Z }.

Record TPMS_ECC_PARMS := mkTPMS_ECC_PARMS {
  TPMS_ECC_PARMS_symmetric : TPMT_SYM_DEF_OBJECT;
  TPMS_ECC_PARMS_scheme : TPMT_ECC_SCHEME;
  TPMS_ECC_PARMS_curveID : Z;
  TPMS_ECC_PARMS_kdf : TPMT_KDF_SCHEME }.

Record TPMT_ASYM_SCHEME := mkTPMT_ASYM_SCHEME {
  TPMT_ASYM_SCHEME_scheme : Z;
  TPMT_ASYM_SCHEME_details : TPMU_ASYM_SCHEME }.

Record TPMS_ASYM_PARMS := mkTPMS_ASYM_PARMS {
  TPMS_ASYM_PARMS_symmetric : TPMT_SYM_DEF_OBJECT;
  TPMS_ASYM_PARMS_scheme : TPMT_ASYM_SCHEME }.

Inductive TPMU_PUBLIC_PARMS :=
| TPMU_PUBLIC_PARMS_keyedHashDetail (keyedHashDetail : TPMS_KEYEDHASH_PARMS)
| TPMU_PUBLIC_PARMS_symDetail (symDetail : TPMS_SYMCIPHER_PARMS)
| TPMU_PUBLIC_PARMS_rsaDetail (rsaDetail : TPMS_RSA_PARMS)
| TPMU_PUBLIC_PARMS_eccDetail (eccDetail : TPMS_ECC_PARMS)
| TPMU_PUBLIC_PARMS_asymDetail (asymDetail : TPMS_ASYM_PARMS).

Record TPMT_PUBLIC_PARMS := mkTPMT_PUBLIC_PARMS {
  TPMT_PUBLIC_PARMS_type : Z;
  TPMT_PUBLIC_PARMS_parameters : TPMU_PUBLIC_PARMS }.

Record TPMT_PUBLIC := mkTPMT_PUBLIC {
  TPMT_PUBLIC_type : Z;
  TPMT_PUBLIC_nameAlg : Z;
  TPMT_PUBLIC_objectAttributes : Z;
  TPMT_PUBLIC_authPolicy : TPM2B;
  TPMT_PUBLIC_parameters : TPMU_PUBLIC_PARMS;
  TPMT_PUBLIC_unique : TPMU_PUBLIC_ID }.

Record TPM2B_PUBLIC := mkTPM2B_PUBLIC {
  TPM2B_PUBLIC_size : Z;
  TPM2B_PUBLIC_publicArea : TPMT_PUBLIC }.

Definition TPM2B_TEMPLATE_buffer : Z := sizeof_TPMT_PUBLIC.
Definition TPM2B_PRIVATE_VENDOR_SPECIFIC_buffer : Z := PRIVATE_VENDOR_SPECIFIC_BYTES.
Inductive TPMU_SENSITIVE_COMPOSITE :=
| TPMU_SENSITIVE_COMPOSITE_rsa (rsa : TPM2B)
| TPMU_SENSITIVE_COMPOSITE_ecc (ecc : TPM2B)
| TPMU_SENSITIVE_COMPOSITE_bits (bits : TPM2B)
| TPMU_SENSITIVE_COMPOSITE_sym (sym : TPM2B)
| TPMU_SENSITIVE_COMPOSITE_any (any : TPM2B).

Record TPMT_SENSITIVE := mkTPMT_SENSITIVE {
  TPMT_SENSITIVE_sensitiveType : Z;
  TPMT_SENSITIVE_authValue : TPM2B;
  TPMT_SENSITIVE_seedValue : TPM2B;
  TPMT_SENSITIVE_sensitive : TPMU_SENSITIVE_COMPOSITE }.

Record TPM2B_SENSITIVE := mkTPM2B_SENSITIVE {
  TPM2B_SENSITIVE_size : Z;
  TPM2B_SENSITIVE_sensitiveArea : option TPMT_SENSITIVE }.

Definition TPM2B_PRIVATE_buffer : Z := sizeof__PRIVATE.
Definition TPM2B_ID_OBJECT_buffer : Z := sizeof_TPMS_ID_OBJECT.
Record TPMS_NV_PUBLIC := mkTPMS_NV_PUBLIC {
  TPMS_NV_PUBLIC_nvIndex : Z;
  TPMS_NV_PUBLIC_nameAlg : Z;
  TPMS_NV_PUBLIC_attributes : Z;
  TPMS_NV_PUBLIC_authPolicy : TPM2B;
  TPMS_NV_PUBLIC_dataSize : Z }.

Record TPM2B_NV_PUBLIC := mkTPM2B_NV_PUBLIC {
  TPM2B_NV_PUBLIC_size : Z;
  TPM2B_NV_PUBLIC_nvPublic : TPMS_NV_PUBLIC }.

Record TPMS_NV_PUBLIC_EXP_ATTR := mkTPMS_NV_PUBLIC_EXP_ATTR {
  TPMS_NV_PUBLIC_EXP_ATTR_nvIndex : Z;
  TPMS_NV_PUBLIC_EXP_ATTR_nameAlg : Z;
  TPMS_NV_PUBLIC_EXP_ATTR_attributes : Z;
  TPMS_NV_PUBLIC_EXP_ATTR_authPolicy : TPM2B;
  TPMS_NV_PUBLIC_EXP_ATTR_dataSize : Z }.

Inductive TPMU_NV_PUBLIC_2 :=
| TPMU_NV_PUBLIC_2_nvIndex (nvIndex : TPMS_NV_PUBLIC)
| TPMU_NV_PUBLIC_2_externalNV (externalNV : TPMS_NV_PUBLIC_EXP_ATTR)
| TPMU_NV_PUBLIC_2_permanentNV (permanentNV : TPMS_NV_PUBLIC).

Record TPMT_NV_PUBLIC_2 := mkTPMT_NV_PUBLIC_2 {
  TPMT_NV_PUBLIC_2_handleType : Z;
  TPMT_NV_PUBLIC_2_nvPublic2 : TPMU_NV_PUBLIC_2 }.

Record TPM2B_NV_PUBLIC_2 := mkTPM2B_NV_PUBLIC_2 {
  TPM2B_NV_PUBLIC_2_size : Z;
  TPM2B_NV_PUBLIC_2_nvPublic2 : TPMT_NV_PUBLIC_2 }.

Definition TPM2B_CONTEXT_SENSITIVE_buffer : Z := MAX_CONTEXT_SIZE.
Definition TPM2B_CONTEXT_DATA_buffer : Z := sizeof_TPMS_CONTEXT_DATA.
Record TPMS_CONTEXT := mkTPMS_CONTEXT {
  TPMS_CONTEXT_sequence : Z;
  TPMS_CONTEXT_savedHandle : Z;
  TPMS_CONTEXT_hierarchy : Z;
  TPMS_CONTEXT_contextBlob : TPM2B }.

Record TPMU_SET_CAPABILITIES := mkTPMU_SET_CAPABILITIES {
  TPMU_SET_CAPABILITIES_platformSpecific : Z }.

Record TPMS_SET_CAPABILITY_DATA := mkTPMS_SET_CAPABILITY_DATA {
  TPMS_SET_CAPABILITY_DATA_setCapability : Z;
  TPMS_SET_CAPABILITY_DATA_data : TPMU_SET_CAPABILITIES }.

Record TPM2B_SET_CAPABILITY_DATA := mkTPM2B_SET_CAPABILITY_DATA {
  TPM2B_SET_CAPABILITY_DATA_size : Z;
  TPM2B_SET_CAPABILITY_DATA_setCapabilityData : TPMS_SET_CAPABILITY_DATA }.

Record TPMS_ACT_DATA := mkTPMS_ACT_DATA {
  TPMS_ACT_DATA_handle : Z;
  TPMS_ACT_DATA_timeout : Z;
  TPMS_ACT_DATA_attributes : Z }.

Record TPML_ALG_PROPERTY := mkTPML_ALG_PROPERTY {
  TPML_ALG_PROPERTY_count : Z;
  TPML_ALG_PROPERTY_algProperties : list TPMS_ALG_PROPERTY }.

Record TPML_TAGGED_TPM_PROPERTY := mkTPML_TAGGED_TPM_PROPERTY {
  TPML_TAGGED_TPM_PROPERTY_count : Z;
  TPML_TAGGED_TPM_PROPERTY_tpmProperty : list TPMS_TAGGED_PROPERTY }.

Record TPML_TAGGED_PCR_PROPERTY := mkTPML_TAGGED_PCR_PROPERTY {
  TPML_TAGGED_PCR_PROPERTY_count : Z;
  TPML_TAGGED_PCR_PROPERTY_pcrProperty : list TPMS_TAGGED_PCR_SELECT }.

Record TPML_ECC_CURVE := mkTPML_ECC_CURVE {
  TPML_ECC_CURVE_count : Z;
  TPML_ECC_CURVE_eccCurves : list Z }.

Record TPML_TAGGED_POLICY := mkTPML_TAGGED_POLICY {
  TPML_TAGGED_POLICY_count : Z;
  TPML_TAGGED_POLICY_policies : list TPMS_TAGGED_POLICY }.

Record TPML_ACT_DATA := mkTPML_ACT_DATA {
  TPML_ACT_DATA_count : Z;
  TPML_ACT_DATA_actData : list TPMS_ACT_DATA }.

Inductive TPMU_CAPABILITIES :=
| TPMU_CAPABILITIES_algorithms (algorithms : TPML_ALG_PROPERTY)
| TPMU_CAPABILITIES_handles (handles : TPML_HANDLE)
| TPMU_CAPABILITIES_command (command : TPML_CCA)
| TPMU_CAPABILITIES_ppCommands (ppCommands : TPML_CC)
| TPMU_CAPABILITIES_auditCommands (auditCommands : TPML_CC)
| TPMU_CAPABILITIES_assignedPCR (assignedPCR : TPML_PCR_SELECTION)
| TPMU_CAPABILITIES_tpmProperties (tpmProperties : TPML_TAGGED_TPM_PROPERTY)
| TPMU_CAPABILITIES_pcrProperties (pcrProperties : TPML_TAGGED_PCR_PROPERTY)
| TPMU_CAPABILITIES_eccCurves (eccCurves : TPML_ECC_CURVE)
| TPMU_CAPABILITIES_authPolicies (authPolicies : TPML_TAGGED_POLICY)
| TPMU_CAPABILITIES_actData (actData : TPML_ACT_DATA).

Record TPMS_CAPABILITY_DATA := mkTPMS_CAPABILITY_DATA {
  TPMS_CAPABILITY_DATA_capability : Z;
  TPMS_CAPABILITY_DATA_data : TPMU_CAPABILITIES }.

Record TPMS_CLOCK_INFO := mkTPMS_CLOCK_INFO {
  TPMS_CLOCK_INFO_clock : Z;
  TPMS_CLOCK_INFO_resetCount : Z;
  TPMS_CLOCK_INFO_restartCount : Z;
  TPMS_CLOCK_INFO_safe : Z }.

Record TPMS_TIME_INFO := mkTPMS_TIME_INFO {
  TPMS_TIME_INFO_time : Z;
  TPMS_TIME_INFO_clockInfo : TPMS_CLOCK_INFO }.

Record TPMS_TIME_ATTEST_INFO := mkTPMS_TIME_ATTEST_INFO {
  TPMS_TIME_ATTEST_INFO_time : TPMS_TIME_INFO;
  TPMS_TIME_ATTEST_INFO_firmwareVersion : Z }.

Record TPMS_CERTIFY_INFO := mkTPMS_CERTIFY_INFO {
  TPMS_CERTIFY_INFO_name : TPM2B;
  TPMS_CERTIFY_INFO_qualifiedName : TPM2B }.

Record TPMS_QUOTE_INFO := mkTPMS_QUOTE_INFO {
  TPMS_QUOTE_INFO_pcrSelect : TPML_PCR_SELECTION;
  TPMS_QUOTE_INFO_pcrDigest : TPM2B }.

Record TPMS_COMMAND_AUDIT_INFO := mkTPMS_COMMAND_AUDIT_INFO {
  TPMS_COMMAND_AUDIT_INFO_auditCounter : Z;
  TPMS_COMMAND_AUDIT_INFO_digestAlg : Z;
  TPMS_COMMAND_AUDIT_INFO_auditDigest : TPM2B;
  TPMS_COMMAND_AUDIT_INFO_commandDigest : TPM2B }.

Record TPMS_SESSION_AUDIT_INFO := mkTPMS_SESSION_AUDIT_INFO {
  TPMS_SESSION_AUDIT_INFO_exclusiveSession : Z;
  TPMS_SESSION_AUDIT_INFO_sessionDigest : TPM2B }.

Record TPMS_CREATION_INFO := mkTPMS_CREATION_INFO {
  TPMS_CREATION_INFO_objectName : TPM2B;
  TPMS_CREATION_INFO_creationHash : TPM2B }.

Record TPMS_NV_CERTIFY_INFO := mkTPMS_NV_CERTIFY_INFO {
  TPMS_NV_CERTIFY_INFO_indexName : TPM2B;
  TPMS_NV_CERTIFY_INFO_offset : Z;
  TPMS_NV_CERTIFY_INFO_nvContents : TPM2B }.

Record TPMS_NV_DIGEST_CERTIFY_INFO := mkTPMS_NV_DIGEST_CERTIFY_INFO {
  TPMS_NV_DIGEST_CERTIFY_INFO_indexName : TPM2B;
  TPMS_NV_DIGEST_CERTIFY_INFO_nvDigest : TPM2B }.

Inductive TPMU_ATTEST :=
| TPMU_ATTEST_certify (certify : TPMS_CERTIFY_INFO)
| TPMU_ATTEST_creation (creation : TPMS_CREATION_INFO)
| TPMU_ATTEST_quote (quote : TPMS_QUOTE_INFO)
| TPMU_ATTEST_commandAudit (commandAudit : TPMS_COMMAND_AUDIT_INFO)
| TPMU_ATTEST_sessionAudit (sessionAudit : TPMS_SESSION_AUDIT_INFO)
| TPMU_ATTEST_time (time : TPMS_TIME_ATTEST_INFO)
| TPMU_ATTEST_nv (nv : TPMS_NV_CERTIFY_INFO)
| TPMU_ATTEST_nvDigest (nvDigest : TPMS_NV_DIGEST_CERTIFY_INFO).

Record TPMS_ATTEST := mkTPMS_ATTEST {
  TPMS_ATTEST_magic : Z;
  TPMS_ATTEST_type : Z;
  TPMS_ATTEST_qualifiedSigner : TPM2B;
  TPMS_ATTEST_extraData : TPM2B;
  TPMS_ATTEST_clockInfo : TPMS_CLOCK_INFO;
  TPMS_ATTEST_firmwareVersion : Z;
  TPMS_ATTEST_attested : TPMU_ATTEST }.

Definition TPM2B_ATTEST_buffer : Z := sizeof_TPMS_ATTEST.
Record TPMS_ALGORITHM_DETAIL_ECC := mkTPMS_ALGORITHM_DETAIL_ECC {
  TPMS_ALGORITHM_DETAIL_ECC_curveID : Z;
  TPMS_ALGORITHM_DETAIL_ECC_keySize : Z;
  TPMS_ALGORITHM_DETAIL_ECC_kdf : TPMT_KDF_SCHEME;
  TPMS_ALGORITHM_DETAIL_ECC_sign : TPMT_ECC_SCHEME;
  TPMS_ALGORITHM_DETAIL_ECC_p : TPM2B;
  TPMS_ALGORITHM_DETAIL_ECC_a : TPM2B;
  TPMS_ALGORITHM_DETAIL_ECC_b : TPM2B;
  TPMS_ALGORITHM_DETAIL_ECC_gX : TPM2B;
  TPMS_ALGORITHM_DETAIL_ECC_gY : TPM2B;
  TPMS_ALGORITHM_DETAIL_ECC_n : TPM2B;
  TPMS_ALGORITHM_DETAIL_ECC_h : TPM2B }.

Record TPMS_CREATION_DATA := mkTPMS_CREATION_DATA {
  TPMS_CREATION_DATA_pcrSelect : TPML_PCR_SELECTION;
  TPMS_CREATION_DATA_pcrDigest : TPM2B;
  TPMS_CREATION_DATA_locality : Z;
  TPMS_CREATION_DATA_parentNameAlg : Z;
  TPMS_CREATION_DATA_parentName : TPM2B;
  TPMS_CREATION_DATA_parentQualifiedName : TPM2B;
  TPMS_CREATION_DATA_outsideInfo : TPM2B }.

Record TPM2B_CREATION_DATA := mkTPM2B_CREATION_DATA {
  TPM2B_CREATION_DATA_size : Z;
  TPM2B_CREATION_DATA_creationData : TPMS_CREATION_DATA }.

Record TPMS_AC_OUTPUT := mkTPMS_AC_OUTPUT {
  TPMS_AC_OUTPUT_tag : Z;
  TPMS_AC_OUTPUT_data : Z }.

Record TPML_AC_CAPABILITIES := mkTPML_AC_CAPABILITIES {
  TPML_AC_CAPABILITIES_count : Z;
  TPML_AC_CAPABILITIES_acCapabilities : list TPMS_AC_OUTPUT }.

