(* ===== verification/Unmarshal.v ===== *)
(** * Unmarshaling (src/Unmarshal.c)

    Every function of the file that this build compiles.  A function takes
    [buffer], the octets from the current position to the end of the object the
    caller's pointer is in, and [size], the number of octets the caller says are
    left; it returns a response code or the value it stored in [*target].  Every
    statement after the first is guarded by [rc == TPM_RC_SUCCESS] in the
    source, so the sequence is the bind of an error monad.

    [None] is a read past the end of the object or a write past the end of the
    target: [Array_Unmarshal] takes, besides the size the source passes, the
    length of the array it writes to. *)

From S2P Require Import Prelude TpmTypes Memory WireTypes.
Local Open Scope Z_scope.

(** ** The unmarshaling monad *)

Record UState := mkU { u_buffer : bytes; u_size : Z }.
Definition Unm (A : Type) : Type := M UState (Z + A).

Definition uret {A} (a : A) : Unm A := ret (inr a).
Definition uerr {A} (rc : Z) : Unm A := ret (inl rc).
Definition ubind {A B} (m : Unm A) (k : A → Unm B) : Unm B :=
  let! r := m in match r with inl rc => uerr rc | inr a => k a end.

Declare Scope unm_scope.
Delimit Scope unm_scope with unm.
Notation "'let*' x ':=' m 'in' k" := (ubind m (fun x => k))
  (at level 10, x name, m at level 100, k at level 200,
   format "'[v' 'let*'  x  ':='  m  'in' '/' k ']'") : unm_scope.
Open Scope unm_scope.

(** [if (rc == TPM_RC_SUCCESS) { if (c) rc = code; }] *)
Definition fail_if (c : bool) (code : Z) : Unm unit := if c then uerr code else uret tt.
(** The value of [*size]. *)
Definition get_size : Unm Z := λ s, Some (inr (u_size s), s).

(** Read [n] octets at [*buffer]; [*buffer += n; *size -= n]. *)
Definition read_octets (n : Z) : M UState bytes :=
  λ s, if inb (u_buffer s) 0 n
       then Some (bread (u_buffer s) 0 n,
                  mkU (drop (Z.to_nat n) (u_buffer s)) (u_size s - n))
       else None.

(** ** Integers and buffers (lines 45-143) *)

Definition UINT8_Unmarshal : Unm Z :=
  let! size := gets u_size in
  if u32 size <? sizeof_UINT8 then uerr TPM_RC_INSUFFICIENT
  else let! b := read_octets sizeof_UINT8 in uret (byte_at b 0).

(** The same octet, read as a signed one. *)
Definition s8 (x : Z) : Z := if x <? 128 then x else x - 256.
Definition INT8_Unmarshal : Unm Z :=
  let* x := UINT8_Unmarshal in uret (s8 x).

Definition UINT16_Unmarshal : Unm Z :=
  let! size := gets u_size in
  if u32 size <? sizeof_UINT16 then uerr TPM_RC_INSUFFICIENT
  else
    let! b := read_octets sizeof_UINT16 in
    uret (Z.lor (Z.shiftl (byte_at b 0) 8) (Z.shiftl (byte_at b 1) 0)).

Definition UINT32_Unmarshal : Unm Z :=
  let! size := gets u_size in
  if u32 size <? sizeof_UINT32 then uerr TPM_RC_INSUFFICIENT
  else
    let! b := read_octets sizeof_UINT32 in
    uret (Z.lor (Z.lor (Z.lor (Z.shiftl (byte_at b 0) 24) (Z.shiftl (byte_at b 1) 16))
                       (Z.shiftl (byte_at b 2) 8))
                (Z.shiftl (byte_at b 3) 0)).

Definition UINT64_Unmarshal : Unm Z :=
  let! size := gets u_size in
  if u32 size <? sizeof_UINT64 then uerr TPM_RC_INSUFFICIENT
  else
    let! b := read_octets sizeof_UINT64 in
    uret (Z.lor (Z.lor (Z.lor (Z.lor (Z.lor (Z.lor (Z.lor
           (Z.shiftl (byte_at b 0) 56) (Z.shiftl (byte_at b 1) 48))
           (Z.shiftl (byte_at b 2) 40)) (Z.shiftl (byte_at b 3) 32))
           (Z.shiftl (byte_at b 4) 24)) (Z.shiftl (byte_at b 5) 16))
           (Z.shiftl (byte_at b 6) 8)) (Z.shiftl (byte_at b 7) 0)).

(** [capacity] is the length of the array at [targetBuffer]. *)
Definition Array_Unmarshal (capacity targetSize : Z) : Unm bytes :=
  let! size := gets u_size in
  if targetSize >? size then uerr TPM_RC_INSUFFICIENT
  else if targetSize >? capacity then undef
  else let! b := read_octets targetSize in uret b.

Definition TPM2B_Unmarshal (capacity targetSize : Z) : Unm TPM2B :=
  let* size := UINT16_Unmarshal in
  let* _ := fail_if (size >? targetSize) TPM_RC_SIZE in
  let* buffer := Array_Unmarshal capacity size in
  uret (mkTPM2B size buffer).

(** The loop of the [TPML_*] functions, from element [i]:
    [for (i = 0; (rc == TPM_RC_SUCCESS) && (i < target->count); i++)
       rc = f(&target->items[i], ...)], for an array of [capacity] elements. *)
Fixpoint Unmarshal_items {A} (capacity : Z) (f : Unm A) (n : nat) (i : Z) : Unm (list A) :=
  match n with
  | O => uret []
  | S n =>
      if i >=? capacity then undef
      else
        let* x := f in
        let* xs := Unmarshal_items capacity f n (i + 1) in
        uret (x :: xs)
  end.

(** ** Constants, interface types and structures (lines 145-4588) *)

Definition TPM_KEY_BITS_Unmarshal : Unm Z :=
  UINT16_Unmarshal.

Definition TPM_ALG_ID_Unmarshal : Unm Z :=
  UINT16_Unmarshal.

Definition TPM_ECC_CURVE_Unmarshal : Unm Z :=
  let* target := UINT16_Unmarshal in
  let* _ := fail_if (negb (one_of target [TPM_ECC_NONE; TPM_ECC_NIST_P192; TPM_ECC_NIST_P224;
      TPM_ECC_NIST_P256; TPM_ECC_NIST_P384; TPM_ECC_NIST_P521; TPM_ECC_BN_P256; TPM_ECC_BN_P638;
      TPM_ECC_SM2_P256])) TPM_RC_CURVE in
  uret target.

Definition TPM_CC_Unmarshal : Unm Z :=
  UINT32_Unmarshal.

Definition TPM_CLOCK_ADJUST_Unmarshal : Unm Z :=
  let* target := INT8_Unmarshal in
  let* _ := fail_if (negb (one_of target [TPM_CLOCK_COARSE_SLOWER; TPM_CLOCK_MEDIUM_SLOWER;
      TPM_CLOCK_FINE_SLOWER; TPM_CLOCK_NO_CHANGE; TPM_CLOCK_FINE_FASTER; TPM_CLOCK_MEDIUM_FASTER;
      TPM_CLOCK_COARSE_FASTER])) TPM_RC_VALUE in
  uret target.

Definition TPM_EO_Unmarshal : Unm Z :=
  let* target := UINT16_Unmarshal in
  let* _ := fail_if (negb (one_of target [TPM_EO_EQ; TPM_EO_NEQ; TPM_EO_SIGNED_GT;
      TPM_EO_UNSIGNED_GT; TPM_EO_SIGNED_LT; TPM_EO_UNSIGNED_LT; TPM_EO_SIGNED_GE;
      TPM_EO_UNSIGNED_GE; TPM_EO_SIGNED_LE; TPM_EO_UNSIGNED_LE; TPM_EO_BITSET; TPM_EO_BITCLEAR]))
      TPM_RC_VALUE in
  uret target.

Definition TPM_ST_Unmarshal : Unm Z :=
  let* target := UINT16_Unmarshal in
  let* _ := fail_if (negb (one_of target [TPM_ST_RSP_COMMAND; TPM_ST_NULL; TPM_ST_NO_SESSIONS;
      TPM_ST_SESSIONS; TPM_ST_ATTEST_NV; TPM_ST_ATTEST_COMMAND_AUDIT;
      TPM_ST_ATTEST_SESSION_AUDIT; TPM_ST_ATTEST_CERTIFY; TPM_ST_ATTEST_QUOTE;
      TPM_ST_ATTEST_TIME; TPM_ST_ATTEST_CREATION; TPM_ST_CREATION; TPM_ST_VERIFIED;
      TPM_ST_AUTH_SECRET; TPM_ST_HASHCHECK; TPM_ST_AUTH_SIGNED])) TPM_RC_VALUE in
  uret target.

Definition TPM_SU_Unmarshal : Unm Z :=
  let* target := UINT16_Unmarshal in
  let* _ := fail_if (negb (one_of target [TPM_SU_CLEAR; TPM_SU_STATE])) TPM_RC_VALUE in
  uret target.

Definition TPM_SE_Unmarshal : Unm Z :=
  let* target := UINT8_Unmarshal in
  let* _ := fail_if (negb (one_of target [TPM_SE_HMAC; TPM_SE_POLICY; TPM_SE_TRIAL]))
      TPM_RC_VALUE in
  uret target.

Definition TPM_CAP_Unmarshal : Unm Z :=
  let* target := UINT32_Unmarshal in
  let* _ := fail_if (negb (one_of target [TPM_CAP_ALGS; TPM_CAP_HANDLES; TPM_CAP_COMMANDS;
      TPM_CAP_PP_COMMANDS; TPM_CAP_AUDIT_COMMANDS; TPM_CAP_PCRS; TPM_CAP_TPM_PROPERTIES;
      TPM_CAP_PCR_PROPERTIES; TPM_CAP_ECC_CURVES; TPM_CAP_AUTH_POLICIES; TPM_CAP_ACT;
      TPM_CAP_VENDOR_PROPERTY])) TPM_RC_VALUE in
  uret target.

Definition TPM_PT_Unmarshal : Unm Z :=
  UINT32_Unmarshal.

Definition TPM_PT_PCR_Unmarshal : Unm Z :=
  UINT32_Unmarshal.

Definition TPM_HANDLE_Unmarshal : Unm Z :=
  UINT32_Unmarshal.

Definition TPMA_ALGORITHM_Unmarshal : Unm Z :=
  let* target := UINT32_Unmarshal in
  let* _ := fail_if (negb (Z.land target TPMA_ALGORITHM_reserved =? 0)) TPM_RC_RESERVED_BITS in
  uret target.

Definition TPMA_OBJECT_Unmarshal : Unm Z :=
  let* target := UINT32_Unmarshal in
  let* _ := fail_if (negb (Z.land target TPMA_OBJECT_reserved =? 0)) TPM_RC_RESERVED_BITS in
  uret target.

Definition TPMA_SESSION_Unmarshal : Unm Z :=
  let* target := UINT8_Unmarshal in
  let* _ := fail_if (negb (Z.land target TPMA_SESSION_reserved =? 0)) TPM_RC_RESERVED_BITS in
  uret target.

Definition TPMA_LOCALITY_Unmarshal : Unm Z :=
  UINT8_Unmarshal.

Definition TPMA_CC_Unmarshal : Unm Z :=
  let* target := UINT32_Unmarshal in
  let* _ := fail_if (negb (Z.land target TPMA_CC_reserved =? 0)) TPM_RC_RESERVED_BITS in
  uret target.

Definition TPMI_YES_NO_Unmarshal : Unm Z :=
  let* target := UINT8_Unmarshal in
  let* _ := fail_if (negb (one_of target [NO; YES])) TPM_RC_VALUE in
  uret target.

Definition TPMI_DH_OBJECT_Unmarshal (allowNull : bool) : Unm Z :=
  let* target := TPM_HANDLE_Unmarshal in
  let isNotTransient := (target <? TRANSIENT_FIRST) || (target >? TRANSIENT_LAST) in
  let isNotPersistent := (target <? PERSISTENT_FIRST) || (target >? PERSISTENT_LAST) in
  let isNotLegalNull := (negb (target =? TPM_RH_NULL)) || negb allowNull in
  let* _ := fail_if (isNotTransient && isNotPersistent && isNotLegalNull) TPM_RC_VALUE in
  uret target.

Definition TPMI_DH_PARENT_Unmarshal (allowNull : bool) : Unm Z :=
  let* target := TPM_HANDLE_Unmarshal in
  let isNotTransient := (target <? TRANSIENT_FIRST) || (target >? TRANSIENT_LAST) in
  let isNotPersistent := (target <? PERSISTENT_FIRST) || (target >? PERSISTENT_LAST) in
  let isNotOwner := negb (target =? TPM_RH_OWNER) in
  let isNotPlatform := negb (target =? TPM_RH_PLATFORM) in
  let isNotEndorsement := negb (target =? TPM_RH_ENDORSEMENT) in
  let isNotLegalNull := (negb (target =? TPM_RH_NULL)) || negb allowNull in
  let* _ := fail_if (isNotTransient && isNotPersistent && isNotOwner && isNotPlatform &&
      isNotEndorsement && isNotLegalNull) TPM_RC_VALUE in
  uret target.

Definition TPMI_DH_PERSISTENT_Unmarshal : Unm Z :=
  let* target := TPM_HANDLE_Unmarshal in
  let isNotPersistent := (target <? PERSISTENT_FIRST) || (target >? PERSISTENT_LAST) in
  let* _ := fail_if (isNotPersistent) TPM_RC_VALUE in
  uret target.

Definition TPMI_DH_ENTITY_Unmarshal (allowNull : bool) : Unm Z :=
  let* target := TPM_HANDLE_Unmarshal in
  let isNotOwner := negb (target =? TPM_RH_OWNER) in
  let isNotEndorsement := negb (target =? TPM_RH_ENDORSEMENT) in
  let isNotPlatform := negb (target =? TPM_RH_PLATFORM) in
  let isNotLockout := negb (target =? TPM_RH_LOCKOUT) in
  let isNotTransient := (target <? TRANSIENT_FIRST) || (target >? TRANSIENT_LAST) in
  let isNotPersistent := (target <? PERSISTENT_FIRST) || (target >? PERSISTENT_LAST) in
  let isNotNv := (target <? NV_INDEX_FIRST) || (target >? NV_INDEX_LAST) in
  let isNotPcr := target >? PCR_LAST in
  let isNotAuth := (target <? TPM_RH_AUTH_00) || (target >? TPM_RH_AUTH_FF) in
  let isNotLegalNull := (negb (target =? TPM_RH_NULL)) || negb allowNull in
  let* _ := fail_if (isNotOwner && isNotEndorsement && isNotPlatform && isNotLockout &&
      isNotTransient && isNotPersistent && isNotNv && isNotPcr && isNotAuth && isNotLegalNull)
      TPM_RC_VALUE in
  uret target.

Definition TPMI_DH_PCR_Unmarshal (allowNull : bool) : Unm Z :=
  let* target := TPM_HANDLE_Unmarshal in
  let isNotPcr := target >? PCR_LAST in
  let isNotLegalNull := (negb (target =? TPM_RH_NULL)) || negb allowNull in
  let* _ := fail_if (isNotPcr && isNotLegalNull) TPM_RC_VALUE in
  uret target.

Definition TPMI_SH_AUTH_SESSION_Unmarshal (allowPwd : bool) : Unm Z :=
  let* target := TPM_HANDLE_Unmarshal in
  let isNotHmacSession := (target <? HMAC_SESSION_FIRST) || (target >? HMAC_SESSION_LAST) in
  let isNotPolicySession := (target <? POLICY_SESSION_FIRST) || (target >? POLICY_SESSION_LAST) in
  let isNotLegalPwd := (negb (target =? TPM_RS_PW)) || negb allowPwd in
  let* _ := fail_if (isNotHmacSession && isNotPolicySession && isNotLegalPwd) TPM_RC_VALUE in
  uret target.

Definition TPMI_SH_HMAC_Unmarshal : Unm Z :=
  let* target := TPM_HANDLE_Unmarshal in
  let isNotHmacSession := (target <? HMAC_SESSION_FIRST) || (target >? HMAC_SESSION_LAST) in
  let* _ := fail_if (isNotHmacSession) TPM_RC_VALUE in
  uret target.

Definition TPMI_SH_POLICY_Unmarshal : Unm Z :=
  let* target := TPM_HANDLE_Unmarshal in
  let isNotPolicySession := (target <? POLICY_SESSION_FIRST) || (target >? POLICY_SESSION_LAST) in
  let* _ := fail_if (isNotPolicySession) TPM_RC_VALUE in
  uret target.

Definition TPMI_DH_CONTEXT_Unmarshal : Unm Z :=
  let* target := TPM_HANDLE_Unmarshal in
  let isNotHmacSession := (target <? HMAC_SESSION_FIRST) || (target >? HMAC_SESSION_LAST) in
  let isNotPolicySession := (target <? POLICY_SESSION_FIRST) || (target >? POLICY_SESSION_LAST) in
  let isNotTransient := (target <? TRANSIENT_FIRST) || (target >? TRANSIENT_LAST) in
  let* _ := fail_if (isNotHmacSession && isNotPolicySession && isNotTransient) TPM_RC_VALUE in
  uret target.

Definition TPMI_DH_SAVED_Unmarshal (allowNull : bool) : Unm Z :=
  let* target := TPM_HANDLE_Unmarshal in
  let isNotHmacSession := (target <? HMAC_SESSION_FIRST) || (target >? HMAC_SESSION_LAST) in
  let isNotPolicySession := (target <? POLICY_SESSION_FIRST) || (target >? POLICY_SESSION_LAST) in
  let isNotTransientObject := negb (target =? 0x80000000) in
  let isNotSequenceObject := negb (target =? 0x80000001) in
  let isNotTransientStClear := negb (target =? 0x80000002) in
  let* _ := fail_if (isNotHmacSession && isNotPolicySession && isNotTransientObject &&
      isNotSequenceObject && isNotTransientStClear) TPM_RC_VALUE in
  uret target.

Definition TPMI_RH_HIERARCHY_Unmarshal (allowNull : bool) : Unm Z :=
  let* target := TPM_HANDLE_Unmarshal in
  let* _ := fail_if (negb (one_of target [TPM_RH_OWNER; TPM_RH_PLATFORM; TPM_RH_ENDORSEMENT] ||
      ((target =? TPM_RH_NULL) && allowNull))) TPM_RC_VALUE in
  uret target.

Definition TPMI_RH_ENABLES_Unmarshal (allowNull : bool) : Unm Z :=
  let* target := TPM_HANDLE_Unmarshal in
  let* _ := fail_if (negb (one_of target [TPM_RH_OWNER; TPM_RH_PLATFORM; TPM_RH_ENDORSEMENT;
      TPM_RH_PLATFORM_NV] || ((target =? TPM_RH_NULL) && allowNull))) TPM_RC_VALUE in
  uret target.

Definition TPMI_RH_HIERARCHY_AUTH_Unmarshal : Unm Z :=
  let* target := TPM_HANDLE_Unmarshal in
  let* _ := fail_if (negb (one_of target [TPM_RH_OWNER; TPM_RH_PLATFORM; TPM_RH_ENDORSEMENT;
      TPM_RH_LOCKOUT])) TPM_RC_VALUE in
  uret target.

Definition TPMI_RH_HIERARCHY_POLICY_Unmarshal : Unm Z :=
  let* target := TPM_HANDLE_Unmarshal in
  let isNotHP := (target <? TPM_RH_ACT_0) || (target >? TPM_RH_ACT_F) in
  let* _ := fail_if (negb (one_of target [TPM_RH_OWNER; TPM_RH_PLATFORM; TPM_RH_ENDORSEMENT;
      TPM_RH_LOCKOUT]) && isNotHP) TPM_RC_VALUE in
  uret target.

Definition TPMI_RH_PLATFORM_Unmarshal : Unm Z :=
  let* target := TPM_HANDLE_Unmarshal in
  let* _ := fail_if (negb (one_of target [TPM_RH_PLATFORM])) TPM_RC_VALUE in
  uret target.

Definition TPMI_RH_ENDORSEMENT_Unmarshal (allowNull : bool) : Unm Z :=
  let* target := TPM_HANDLE_Unmarshal in
  let* _ := fail_if (negb (one_of target [TPM_RH_ENDORSEMENT] || ((target =? TPM_RH_NULL) &&
      allowNull))) TPM_RC_VALUE in
  uret target.

Definition TPMI_RH_PROVISION_Unmarshal : Unm Z :=
  let* target := TPM_HANDLE_Unmarshal in
  let* _ := fail_if (negb (one_of target [TPM_RH_OWNER; TPM_RH_PLATFORM])) TPM_RC_VALUE in
  uret target.

Definition TPMI_RH_CLEAR_Unmarshal : Unm Z :=
  let* target := TPM_HANDLE_Unmarshal in
  let* _ := fail_if (negb (one_of target [TPM_RH_LOCKOUT; TPM_RH_PLATFORM])) TPM_RC_VALUE in
  uret target.

Definition TPMI_RH_NV_AUTH_Unmarshal : Unm Z :=
  let* target := TPM_HANDLE_Unmarshal in
  let isNotNv := (target <? NV_INDEX_FIRST) || (target >? NV_INDEX_LAST) in
  let* _ := fail_if (negb (one_of target [TPM_RH_OWNER; TPM_RH_PLATFORM]) && isNotNv)
      TPM_RC_VALUE in
  uret target.

Definition TPMI_RH_LOCKOUT_Unmarshal : Unm Z :=
  let* target := TPM_HANDLE_Unmarshal in
  let* _ := fail_if (negb (one_of target [TPM_RH_LOCKOUT])) TPM_RC_VALUE in
  uret target.

Definition TPMI_RH_NV_INDEX_Unmarshal : Unm Z :=
  let* target := TPM_HANDLE_Unmarshal in
  let isNotNv := (target <? NV_INDEX_FIRST) || (target >? NV_INDEX_LAST) in
  let isNotExternalNV := (target <? EXTERNAL_NV_FIRST) || (target >? EXTERNAL_NV_LAST) in
  let isNotPermamentNV := (target <? PERMANENT_NV_FIRST) || (target >? PERMANENT_NV_LAST) in
  let* _ := fail_if (isNotNv && isNotExternalNV && isNotPermamentNV) TPM_RC_VALUE in
  uret target.

Definition TPMI_RH_NV_DEFINED_INDEX_Unmarshal : Unm Z :=
  let* target := TPM_HANDLE_Unmarshal in
  let isNotNv := (target <? NV_INDEX_FIRST) || (target >? NV_INDEX_LAST) in
  let isNotExternalNV := (target <? EXTERNAL_NV_FIRST) || (target >? EXTERNAL_NV_LAST) in
  let* _ := fail_if (isNotNv && isNotExternalNV) TPM_RC_VALUE in
  uret target.

Definition TPMI_RH_NV_LEGACY_INDEX_Unmarshal : Unm Z :=
  let* target := TPM_HANDLE_Unmarshal in
  let isNotNv := (target <? NV_INDEX_FIRST) || (target >? NV_INDEX_LAST) in
  let* _ := fail_if (isNotNv) TPM_RC_VALUE in
  uret target.

Definition TPMI_RH_NV_EXP_INDEX_Unmarshal : Unm Z :=
  let* target := TPM_HANDLE_Unmarshal in
  let isNotExternalNV := (target <? EXTERNAL_NV_FIRST) || (target >? EXTERNAL_NV_LAST) in
  let* _ := fail_if (isNotExternalNV) TPM_RC_VALUE in
  uret target.

Definition TPMI_RH_AC_Unmarshal : Unm Z :=
  let* target := TPM_HANDLE_Unmarshal in
  let isNotAC := (target <? AC_FIRST) || (target >? AC_LAST) in
  let* _ := fail_if (isNotAC) TPM_RC_VALUE in
  uret target.

Definition TPMI_RH_ACT_Unmarshal : Unm Z :=
  let* target := TPM_HANDLE_Unmarshal in
  let isNotACT := (target <? TPM_RH_ACT_0) || (target >? TPM_RH_ACT_F) in
  let* _ := fail_if (isNotACT) TPM_RC_VALUE in
  uret target.

Definition TPMI_ALG_HASH_Unmarshal (allowNull : bool) : Unm Z :=
  let* target := TPM_ALG_ID_Unmarshal in
  let* _ := fail_if (negb (one_of target [TPM_ALG_SHA1; TPM_ALG_SHA256; TPM_ALG_SHA384;
      TPM_ALG_SHA512] || ((target =? TPM_ALG_NULL) && allowNull))) TPM_RC_HASH in
  uret target.

Definition TPMI_ALG_SYM_Unmarshal (allowNull : bool) : Unm Z :=
  let* target := TPM_ALG_ID_Unmarshal in
  let* _ := fail_if (negb (one_of target [TPM_ALG_AES; TPM_ALG_CAMELLIA; TPM_ALG_XOR] ||
      ((target =? TPM_ALG_NULL) && allowNull))) TPM_RC_SYMMETRIC in
  uret target.

Definition TPMI_ALG_SYM_OBJECT_Unmarshal (allowNull : bool) : Unm Z :=
  let* target := TPM_ALG_ID_Unmarshal in
  let* _ := fail_if (negb (one_of target [TPM_ALG_AES; TPM_ALG_CAMELLIA] ||
      ((target =? TPM_ALG_NULL) && allowNull))) TPM_RC_SYMMETRIC in
  uret target.

Definition TPMI_ALG_SYM_MODE_Unmarshal (allowNull : bool) : Unm Z :=
  let* target := TPM_ALG_ID_Unmarshal in
  let* _ := fail_if (negb (one_of target [TPM_ALG_CTR; TPM_ALG_OFB; TPM_ALG_CBC; TPM_ALG_CFB;
      TPM_ALG_ECB; TPM_ALG_CMAC] || ((target =? TPM_ALG_NULL) && allowNull))) TPM_RC_MODE in
  uret target.

Definition TPMI_ALG_KDF_Unmarshal (allowNull : bool) : Unm Z :=
  let* target := TPM_ALG_ID_Unmarshal in
  let* _ := fail_if (negb (one_of target [TPM_ALG_MGF1; TPM_ALG_KDF1_SP800_56A; TPM_ALG_KDF2;
      TPM_ALG_KDF1_SP800_108] || ((target =? TPM_ALG_NULL) && allowNull))) TPM_RC_KDF in
  uret target.

Definition TPMI_ALG_SIG_SCHEME_Unmarshal (allowNull : bool) : Unm Z :=
  let* target := TPM_ALG_ID_Unmarshal in
  let* _ := fail_if (negb (one_of target [TPM_ALG_HMAC; TPM_ALG_RSASSA; TPM_ALG_RSAPSS;
      TPM_ALG_ECDSA; TPM_ALG_ECDAA; TPM_ALG_SM2; TPM_ALG_ECSCHNORR] || ((target =? TPM_ALG_NULL)
      && allowNull))) TPM_RC_SCHEME in
  uret target.

Definition TPMI_ECC_KEY_EXCHANGE_Unmarshal (allowNull : bool) : Unm Z :=
  let* target := TPM_ALG_ID_Unmarshal in
  let* _ := fail_if (negb (one_of target [TPM_ALG_ECDH; TPM_ALG_ECMQV; TPM_ALG_SM2] ||
      ((target =? TPM_ALG_NULL) && allowNull))) TPM_RC_SCHEME in
  uret target.

Definition TPMI_ST_COMMAND_TAG_Unmarshal : Unm Z :=
  let* target := TPM_ST_Unmarshal in
  let* _ := fail_if (negb (one_of target [TPM_ST_NO_SESSIONS; TPM_ST_SESSIONS])) TPM_RC_BAD_TAG in
  uret target.

Definition TPMI_ALG_MAC_SCHEME_Unmarshal (allowNull : bool) : Unm Z :=
  let* target := TPM_ALG_ID_Unmarshal in
  let* _ := fail_if (negb (one_of target [TPM_ALG_SHA1; TPM_ALG_SHA256; TPM_ALG_SHA384;
      TPM_ALG_SHA512; TPM_ALG_CMAC] || ((target =? TPM_ALG_NULL) && allowNull)))
      TPM_RC_SYMMETRIC in
  uret target.

Definition TPMI_ALG_CIPHER_MODE_Unmarshal (allowNull : bool) : Unm Z :=
  let* target := TPM_ALG_ID_Unmarshal in
  let* _ := fail_if (negb (one_of target [TPM_ALG_CTR; TPM_ALG_OFB; TPM_ALG_CBC; TPM_ALG_CFB;
      TPM_ALG_ECB] || ((target =? TPM_ALG_NULL) && allowNull))) TPM_RC_MODE in
  uret target.

Definition TPMS_EMPTY_Unmarshal : Unm unit :=
  uret tt.

Definition TPMU_HA_Unmarshal (selector : Z) : Unm TPMU_HA :=
  if selector =? TPM_ALG_SHA1 then let* sha1 :=
      Array_Unmarshal SHA1_DIGEST_SIZE SHA1_DIGEST_SIZE in uret (TPMU_HA_sha1 sha1) else
  if selector =? TPM_ALG_SHA256 then let* sha256 :=
      Array_Unmarshal SHA256_DIGEST_SIZE SHA256_DIGEST_SIZE in uret (TPMU_HA_sha256 sha256) else
  if selector =? TPM_ALG_SHA384 then let* sha384 :=
      Array_Unmarshal SHA384_DIGEST_SIZE SHA384_DIGEST_SIZE in uret (TPMU_HA_sha384 sha384) else
  if selector =? TPM_ALG_SHA512 then let* sha512 :=
      Array_Unmarshal SHA512_DIGEST_SIZE SHA512_DIGEST_SIZE in uret (TPMU_HA_sha512 sha512) else
  if selector =? TPM_ALG_NULL then uret TPMU_HA_none else
  uerr TPM_RC_SELECTOR.

Definition TPMT_HA_Unmarshal (allowNull : bool) : Unm TPMT_HA :=
  let* hashAlg := TPMI_ALG_HASH_Unmarshal allowNull in
  let* digest := TPMU_HA_Unmarshal hashAlg in
  uret (mkTPMT_HA hashAlg digest).

Definition TPM2B_DIGEST_Unmarshal : Unm TPM2B :=
  TPM2B_Unmarshal TPM2B_DIGEST_buffer sizeof_TPMU_HA.

Definition TPM2B_DATA_Unmarshal : Unm TPM2B :=
  TPM2B_Unmarshal TPM2B_DATA_buffer sizeof_TPMT_HA.

Definition TPM2B_NONCE_Unmarshal : Unm TPM2B :=
  TPM2B_DIGEST_Unmarshal.

Definition TPM2B_AUTH_Unmarshal : Unm TPM2B :=
  TPM2B_DIGEST_Unmarshal.

Definition TPM2B_EVENT_Unmarshal : Unm TPM2B :=
  TPM2B_Unmarshal TPM2B_EVENT_buffer (sizeof_TPM2B_EVENT - sizeof_UINT16).

Definition TPM2B_MAX_BUFFER_Unmarshal : Unm TPM2B :=
  TPM2B_Unmarshal TPM2B_MAX_BUFFER_buffer MAX_DIGEST_BUFFER.

Definition TPM2B_MAX_NV_BUFFER_Unmarshal : Unm TPM2B :=
  TPM2B_Unmarshal TPM2B_MAX_NV_BUFFER_buffer MAX_NV_BUFFER_SIZE.

Definition TPM2B_TIMEOUT_Unmarshal : Unm TPM2B :=
  TPM2B_Unmarshal TPM2B_TIMEOUT_buffer TPM2B_TIMEOUT_buffer.

Definition TPM2B_IV_Unmarshal : Unm TPM2B :=
  TPM2B_Unmarshal TPM2B_IV_buffer MAX_SYM_BLOCK_SIZE.

Definition TPM2B_NAME_Unmarshal : Unm TPM2B :=
  TPM2B_Unmarshal TPM2B_NAME_buffer sizeof_TPMU_NAME.

Definition TPMS_PCR_SELECTION_Unmarshal : Unm TPMS_PCR_SELECTION :=
  let* hash := TPMI_ALG_HASH_Unmarshal false in
  let* sizeofSelect := UINT8_Unmarshal in
  let* _ := fail_if ((sizeofSelect <? PCR_SELECT_MIN) || (sizeofSelect >? PCR_SELECT_MAX))
      TPM_RC_VALUE in
  let* pcrSelect := Array_Unmarshal PCR_SELECT_MAX sizeofSelect in
  uret (mkTPMS_PCR_SELECTION hash sizeofSelect pcrSelect).

Definition TPMT_TK_CREATION_Unmarshal : Unm TPMT_TK_CREATION :=
  let* tag := TPM_ST_Unmarshal in
  let* _ := fail_if (negb (tag =? TPM_ST_CREATION)) TPM_RC_TAG in
  let* hierarchy := TPMI_RH_HIERARCHY_Unmarshal true in
  let* digest := TPM2B_DIGEST_Unmarshal in
  uret (mkTPMT_TK_CREATION tag hierarchy digest).

Definition TPMT_TK_VERIFIED_Unmarshal : Unm TPMT_TK_VERIFIED :=
  let* tag := TPM_ST_Unmarshal in
  let* _ := fail_if (negb (tag =? TPM_ST_VERIFIED)) TPM_RC_TAG in
  let* hierarchy := TPMI_RH_HIERARCHY_Unmarshal true in
  let* digest := TPM2B_DIGEST_Unmarshal in
  uret (mkTPMT_TK_VERIFIED tag hierarchy digest).

Definition TPMT_TK_AUTH_Unmarshal : Unm TPMT_TK_AUTH :=
  let* tag := TPM_ST_Unmarshal in
  let* _ := fail_if ((negb (tag =? TPM_ST_AUTH_SIGNED)) && (negb (tag =? TPM_ST_AUTH_SECRET)))
      TPM_RC_TAG in
  let* hierarchy := TPMI_RH_HIERARCHY_Unmarshal true in
  let* digest := TPM2B_DIGEST_Unmarshal in
  uret (mkTPMT_TK_AUTH tag hierarchy digest).

Definition TPMT_TK_HASHCHECK_Unmarshal : Unm TPMT_TK_HASHCHECK :=
  let* tag := TPM_ST_Unmarshal in
  let* _ := fail_if (negb (tag =? TPM_ST_HASHCHECK)) TPM_RC_TAG in
  let* hierarchy := TPMI_RH_HIERARCHY_Unmarshal true in
  let* digest := TPM2B_DIGEST_Unmarshal in
  uret (mkTPMT_TK_HASHCHECK tag hierarchy digest).

Definition TPMS_ALG_PROPERTY_Unmarshal : Unm TPMS_ALG_PROPERTY :=
  let* alg := TPM_ALG_ID_Unmarshal in
  let* algProperties := TPMA_ALGORITHM_Unmarshal in
  uret (mkTPMS_ALG_PROPERTY alg algProperties).

Definition TPMS_TAGGED_PROPERTY_Unmarshal : Unm TPMS_TAGGED_PROPERTY :=
  let* property := TPM_PT_Unmarshal in
  let* value := UINT32_Unmarshal in
  uret (mkTPMS_TAGGED_PROPERTY property value).

Definition TPMS_TAGGED_PCR_SELECT_Unmarshal : Unm TPMS_TAGGED_PCR_SELECT :=
  let* tag := TPM_PT_PCR_Unmarshal in
  let* sizeofSelect := UINT8_Unmarshal in
  let* pcrSelect := Array_Unmarshal PCR_SELECT_MAX sizeofSelect in
  uret (mkTPMS_TAGGED_PCR_SELECT tag sizeofSelect pcrSelect).

Definition TPML_CC_Unmarshal : Unm TPML_CC :=
  let* count := UINT32_Unmarshal in
  let* _ := fail_if (count >? MAX_CAP_CC) TPM_RC_SIZE in
  let* commandCodes := Unmarshal_items MAX_CAP_CC TPM_CC_Unmarshal (Z.to_nat count) 0 in
  uret (mkTPML_CC count commandCodes).

Definition TPMS_TAGGED_POLICY_Unmarshal : Unm TPMS_TAGGED_POLICY :=
  let* handle := TPM_HANDLE_Unmarshal in
  let* policyHash := TPMT_HA_Unmarshal false in
  uret (mkTPMS_TAGGED_POLICY handle policyHash).

Definition TPML_CCA_Unmarshal : Unm TPML_CCA :=
  let* count := UINT32_Unmarshal in
  let* _ := fail_if (count >? MAX_CAP_CC) TPM_RC_SIZE in
  let* commandAttributes := Unmarshal_items MAX_CAP_CC TPMA_CC_Unmarshal (Z.to_nat count) 0 in
  uret (mkTPML_CCA count commandAttributes).

Definition TPML_ALG_Unmarshal : Unm TPML_ALG :=
  let* count := UINT32_Unmarshal in
  let* _ := fail_if (count >? MAX_ALG_LIST_SIZE) TPM_RC_SIZE in
  let* algorithms := Unmarshal_items MAX_ALG_LIST_SIZE TPM_ALG_ID_Unmarshal (Z.to_nat count) 0 in
  uret (mkTPML_ALG count algorithms).

Definition TPML_HANDLE_Unmarshal : Unm TPML_HANDLE :=
  let* count := UINT32_Unmarshal in
  let* _ := fail_if (count >? MAX_CAP_HANDLES) TPM_RC_SIZE in
  let* handle := Unmarshal_items MAX_CAP_HANDLES TPM_HANDLE_Unmarshal (Z.to_nat count) 0 in
  uret (mkTPML_HANDLE count handle).

Definition TPML_DIGEST_Unmarshal : Unm TPML_DIGEST :=
  let* count := UINT32_Unmarshal in
  let* _ := fail_if (count <? 2) TPM_RC_SIZE in
  let* _ := fail_if (count >? 8) TPM_RC_SIZE in
  let* digests := Unmarshal_items 8 TPM2B_DIGEST_Unmarshal (Z.to_nat count) 0 in
  uret (mkTPML_DIGEST count digests).

Definition TPML_DIGEST_VALUES_Unmarshal : Unm TPML_DIGEST_VALUES :=
  let* count := UINT32_Unmarshal in
  let* _ := fail_if (count >? HASH_COUNT) TPM_RC_SIZE in
  let* digests := Unmarshal_items HASH_COUNT (TPMT_HA_Unmarshal false) (Z.to_nat count) 0 in
  uret (mkTPML_DIGEST_VALUES count digests).

Definition TPML_PCR_SELECTION_Unmarshal : Unm TPML_PCR_SELECTION :=
  let* count := UINT32_Unmarshal in
  let* _ := fail_if (count >? HASH_COUNT) TPM_RC_SIZE in
  let* pcrSelections := Unmarshal_items HASH_COUNT TPMS_PCR_SELECTION_Unmarshal (Z.to_nat count)
      0 in
  uret (mkTPML_PCR_SELECTION count pcrSelections).

Definition TPMI_AES_KEY_BITS_Unmarshal : Unm Z :=
  let* target := TPM_KEY_BITS_Unmarshal in
  let* _ := fail_if (negb (one_of target [128; 256])) TPM_RC_VALUE in
  uret target.

Definition TPMI_CAMELLIA_KEY_BITS_Unmarshal : Unm Z :=
  let* target := TPM_KEY_BITS_Unmarshal in
  let* _ := fail_if (negb (one_of target [128])) TPM_RC_VALUE in
  uret target.

Definition TPMU_SYM_KEY_BITS_Unmarshal (selector : Z) : Unm TPMU_SYM_KEY_BITS :=
  if selector =? TPM_ALG_AES then let* aes := TPMI_AES_KEY_BITS_Unmarshal in uret
      (TPMU_SYM_KEY_BITS_aes aes) else
  if selector =? TPM_ALG_CAMELLIA then let* camellia := TPMI_CAMELLIA_KEY_BITS_Unmarshal in uret
      (TPMU_SYM_KEY_BITS_camellia camellia) else
  if selector =? TPM_ALG_XOR then let* xorr := TPMI_ALG_HASH_Unmarshal false in uret
      (TPMU_SYM_KEY_BITS_xorr xorr) else
  if selector =? TPM_ALG_NULL then uret TPMU_SYM_KEY_BITS_none else
  uerr TPM_RC_SELECTOR.

Definition TPMU_SYM_MODE_Unmarshal (selector : Z) : Unm TPMU_SYM_MODE :=
  if selector =? TPM_ALG_AES then let* aes := TPMI_ALG_SYM_MODE_Unmarshal true in uret
      (TPMU_SYM_MODE_aes aes) else
  if selector =? TPM_ALG_CAMELLIA then let* camellia := TPMI_ALG_SYM_MODE_Unmarshal true in uret
      (TPMU_SYM_MODE_camellia camellia) else
  if one_of selector [TPM_ALG_XOR; TPM_ALG_NULL] then uret TPMU_SYM_MODE_none else
  uerr TPM_RC_SELECTOR.

Definition TPMT_SYM_DEF_Unmarshal (allowNull : bool) : Unm TPMT_SYM_DEF :=
  let* algorithm := TPMI_ALG_SYM_Unmarshal allowNull in
  let* keyBits := TPMU_SYM_KEY_BITS_Unmarshal algorithm in
  let* mode := TPMU_SYM_MODE_Unmarshal algorithm in
  uret (mkTPMT_SYM_DEF algorithm keyBits mode).

Definition TPMT_SYM_DEF_OBJECT_Unmarshal (allowNull : bool) : Unm TPMT_SYM_DEF_OBJECT :=
  let* algorithm := TPMI_ALG_SYM_OBJECT_Unmarshal allowNull in
  let* keyBits := TPMU_SYM_KEY_BITS_Unmarshal algorithm in
  let* mode := TPMU_SYM_MODE_Unmarshal algorithm in
  uret (mkTPMT_SYM_DEF_OBJECT algorithm keyBits mode).

Definition TPM2B_SYM_KEY_Unmarshal : Unm TPM2B :=
  TPM2B_Unmarshal TPM2B_SYM_KEY_buffer MAX_SYM_KEY_BYTES.

Definition TPMS_SYMCIPHER_PARMS_Unmarshal : Unm TPMS_SYMCIPHER_PARMS :=
  let* sym := TPMT_SYM_DEF_OBJECT_Unmarshal false in
  uret (mkTPMS_SYMCIPHER_PARMS sym).

Definition TPM2B_LABEL_Unmarshal : Unm TPM2B :=
  TPM2B_Unmarshal TPM2B_LABEL_buffer LABEL_MAX_BUFFER.

Definition TPMS_DERIVE_Unmarshal : Unm TPMS_DERIVE :=
  let* label := TPM2B_LABEL_Unmarshal in
  let* context := TPM2B_LABEL_Unmarshal in
  uret (mkTPMS_DERIVE label context).

Definition TPM2B_SENSITIVE_DATA_Unmarshal : Unm TPM2B :=
  TPM2B_Unmarshal TPM2B_SENSITIVE_DATA_buffer MAX_SYM_DATA.

Definition TPMS_SENSITIVE_CREATE_Unmarshal : Unm TPMS_SENSITIVE_CREATE :=
  let* userAuth := TPM2B_AUTH_Unmarshal in
  let* data := TPM2B_SENSITIVE_DATA_Unmarshal in
  uret (mkTPMS_SENSITIVE_CREATE userAuth data).

Definition TPM2B_SENSITIVE_CREATE_Unmarshal : Unm TPM2B_SENSITIVE_CREATE :=
  let* size := UINT16_Unmarshal in
  let* _ := fail_if (size =? 0) TPM_RC_SIZE in
  let* startSize := get_size in
  let* sensitive := TPMS_SENSITIVE_CREATE_Unmarshal in
  let* endSize := get_size in
  let* _ := fail_if (negb (size =? startSize - endSize)) TPM_RC_SIZE in
  uret (mkTPM2B_SENSITIVE_CREATE size sensitive).

Definition TPMS_SCHEME_HASH_Unmarshal : Unm TPMS_SCHEME_HASH :=
  let* hashAlg := TPMI_ALG_HASH_Unmarshal false in
  uret (mkTPMS_SCHEME_HASH hashAlg).

Definition TPMS_SCHEME_ECDAA_Unmarshal : Unm TPMS_SCHEME_ECDAA :=
  let* hashAlg := TPMI_ALG_HASH_Unmarshal false in
  let* count := UINT16_Unmarshal in
  uret (mkTPMS_SCHEME_ECDAA hashAlg count).

Definition TPMI_ALG_KEYEDHASH_SCHEME_Unmarshal (allowNull : bool) : Unm Z :=
  let* target := TPM_ALG_ID_Unmarshal in
  let* _ := fail_if (negb (one_of target [TPM_ALG_HMAC; TPM_ALG_XOR] || ((target =? TPM_ALG_NULL)
      && allowNull))) TPM_RC_VALUE in
  uret target.

Definition TPMS_SCHEME_HMAC_Unmarshal : Unm TPMS_SCHEME_HASH :=
  TPMS_SCHEME_HASH_Unmarshal.

Definition TPMS_SCHEME_XOR_Unmarshal : Unm TPMS_SCHEME_XOR :=
  let* hashAlg := TPMI_ALG_HASH_Unmarshal false in
  let* kdf := TPMI_ALG_KDF_Unmarshal true in
  uret (mkTPMS_SCHEME_XOR hashAlg kdf).

Definition TPMU_SCHEME_KEYEDHASH_Unmarshal (selector : Z) : Unm TPMU_SCHEME_KEYEDHASH :=
  if selector =? TPM_ALG_HMAC then let* hmac := TPMS_SCHEME_HMAC_Unmarshal in uret
      (TPMU_SCHEME_KEYEDHASH_hmac hmac) else
  if selector =? TPM_ALG_XOR then let* xorr := TPMS_SCHEME_XOR_Unmarshal in uret
      (TPMU_SCHEME_KEYEDHASH_xorr xorr) else
  if selector =? TPM_ALG_NULL then uret TPMU_SCHEME_KEYEDHASH_none else
  uerr TPM_RC_SELECTOR.

Definition TPMT_KEYEDHASH_SCHEME_Unmarshal (allowNull : bool) : Unm TPMT_KEYEDHASH_SCHEME :=
  let* scheme := TPMI_ALG_KEYEDHASH_SCHEME_Unmarshal allowNull in
  let* details := TPMU_SCHEME_KEYEDHASH_Unmarshal scheme in
  uret (mkTPMT_KEYEDHASH_SCHEME scheme details).

Definition TPMS_SIG_SCHEME_RSAPSS_Unmarshal : Unm TPMS_SCHEME_HASH :=
  TPMS_SCHEME_HASH_Unmarshal.

Definition TPMS_SIG_SCHEME_RSASSA_Unmarshal : Unm TPMS_SCHEME_HASH :=
  TPMS_SCHEME_HASH_Unmarshal.

Definition TPMS_SIG_SCHEME_ECDAA_Unmarshal : Unm TPMS_SCHEME_ECDAA :=
  TPMS_SCHEME_ECDAA_Unmarshal.

Definition TPMS_SIG_SCHEME_ECDSA_Unmarshal : Unm TPMS_SCHEME_HASH :=
  TPMS_SCHEME_HASH_Unmarshal.

Definition TPMS_SIG_SCHEME_ECSCHNORR_Unmarshal : Unm TPMS_SCHEME_HASH :=
  TPMS_SCHEME_HASH_Unmarshal.

Definition TPMS_SIG_SCHEME_SM2_Unmarshal : Unm TPMS_SCHEME_HASH :=
  TPMS_SCHEME_HASH_Unmarshal.

Definition TPMU_SIG_SCHEME_Unmarshal (selector : Z) : Unm TPMU_SIG_SCHEME :=
  if selector =? TPM_ALG_RSASSA then let* rsassa := TPMS_SIG_SCHEME_RSASSA_Unmarshal in uret
      (TPMU_SIG_SCHEME_rsassa rsassa) else
  if selector =? TPM_ALG_RSAPSS then let* rsapss := TPMS_SIG_SCHEME_RSAPSS_Unmarshal in uret
      (TPMU_SIG_SCHEME_rsapss rsapss) else
  if selector =? TPM_ALG_ECDSA then let* ecdsa := TPMS_SIG_SCHEME_ECDSA_Unmarshal in uret
      (TPMU_SIG_SCHEME_ecdsa ecdsa) else
  if selector =? TPM_ALG_ECDAA then let* ecdaa := TPMS_SIG_SCHEME_ECDAA_Unmarshal in uret
      (TPMU_SIG_SCHEME_ecdaa ecdaa) else
  if selector =? TPM_ALG_SM2 then let* sm2 := TPMS_SIG_SCHEME_SM2_Unmarshal in uret
      (TPMU_SIG_SCHEME_sm2 sm2) else
  if selector =? TPM_ALG_ECSCHNORR then let* ecschnorr :=
      TPMS_SIG_SCHEME_ECSCHNORR_Unmarshal in uret (TPMU_SIG_SCHEME_ecschnorr ecschnorr) else
  if selector =? TPM_ALG_HMAC then let* hmac := TPMS_SCHEME_HMAC_Unmarshal in uret
      (TPMU_SIG_SCHEME_hmac hmac) else
  if selector =? TPM_ALG_NULL then uret TPMU_SIG_SCHEME_none else
  uerr TPM_RC_SELECTOR.

Definition TPMT_SIG_SCHEME_Unmarshal (allowNull : bool) : Unm TPMT_SIG_SCHEME :=
  let* scheme := TPMI_ALG_SIG_SCHEME_Unmarshal allowNull in
  let* details := TPMU_SIG_SCHEME_Unmarshal scheme in
  uret (mkTPMT_SIG_SCHEME scheme details).

Definition TPMS_ENC_SCHEME_OAEP_Unmarshal : Unm TPMS_SCHEME_HASH :=
  TPMS_SCHEME_HASH_Unmarshal.

Definition TPMS_ENC_SCHEME_RSAES_Unmarshal : Unm unit :=
  TPMS_EMPTY_Unmarshal.

Definition TPMS_KEY_SCHEME_ECDH_Unmarshal : Unm TPMS_SCHEME_HASH :=
  TPMS_SCHEME_HASH_Unmarshal.

Definition TPMS_KEY_SCHEME_ECMQV_Unmarshal : Unm TPMS_SCHEME_HASH :=
  TPMS_SCHEME_HASH_Unmarshal.

Definition TPMS_KDF_SCHEME_KDF1_SP800_108_Unmarshal : Unm TPMS_SCHEME_HASH :=
  TPMS_SCHEME_HASH_Unmarshal.

Definition TPMS_KDF_SCHEME_KDF1_SP800_56A_Unmarshal : Unm TPMS_SCHEME_HASH :=
  TPMS_SCHEME_HASH_Unmarshal.

Definition TPMS_KDF_SCHEME_KDF2_Unmarshal : Unm TPMS_SCHEME_HASH :=
  TPMS_SCHEME_HASH_Unmarshal.

Definition TPMS_KDF_SCHEME_MGF1_Unmarshal : Unm TPMS_SCHEME_HASH :=
  TPMS_SCHEME_HASH_Unmarshal.

Definition TPMU_KDF_SCHEME_Unmarshal (selector : Z) : Unm TPMU_KDF_SCHEME :=
  if selector =? TPM_ALG_MGF1 then let* mgf1 := TPMS_KDF_SCHEME_MGF1_Unmarshal in uret
      (TPMU_KDF_SCHEME_mgf1 mgf1) else
  if selector =? TPM_ALG_KDF1_SP800_56A then let* kdf1_sp800_56a :=
      TPMS_KDF_SCHEME_KDF1_SP800_56A_Unmarshal in uret
      (TPMU_KDF_SCHEME_kdf1_sp800_56a kdf1_sp800_56a) else
  if selector =? TPM_ALG_KDF2 then let* kdf2 := TPMS_KDF_SCHEME_KDF2_Unmarshal in uret
      (TPMU_KDF_SCHEME_kdf2 kdf2) else
  if selector =? TPM_ALG_KDF1_SP800_108 then let* kdf1_sp800_108 :=
      TPMS_KDF_SCHEME_KDF1_SP800_108_Unmarshal in uret
      (TPMU_KDF_SCHEME_kdf1_sp800_108 kdf1_sp800_108) else
  if selector =? TPM_ALG_NULL then uret TPMU_KDF_SCHEME_none else
  uerr TPM_RC_SELECTOR.

Definition TPMT_KDF_SCHEME_Unmarshal (allowNull : bool) : Unm TPMT_KDF_SCHEME :=
  let* scheme := TPMI_ALG_KDF_Unmarshal allowNull in
  let* details := TPMU_KDF_SCHEME_Unmarshal scheme in
  uret (mkTPMT_KDF_SCHEME scheme details).

Definition TPMU_ASYM_SCHEME_Unmarshal (selector : Z) : Unm TPMU_ASYM_SCHEME :=
  if selector =? TPM_ALG_ECDH then let* ecdh := TPMS_KEY_SCHEME_ECDH_Unmarshal in uret
      (TPMU_ASYM_SCHEME_ecdh ecdh) else
  if selector =? TPM_ALG_ECMQV then let* ecmqv := TPMS_KEY_SCHEME_ECMQV_Unmarshal in uret
      (TPMU_ASYM_SCHEME_ecmqv ecmqv) else
  if selector =? TPM_ALG_RSASSA then let* rsassa := TPMS_SIG_SCHEME_RSASSA_Unmarshal in uret
      (TPMU_ASYM_SCHEME_rsassa rsassa) else
  if selector =? TPM_ALG_RSAPSS then let* rsapss := TPMS_SIG_SCHEME_RSAPSS_Unmarshal in uret
      (TPMU_ASYM_SCHEME_rsapss rsapss) else
  if selector =? TPM_ALG_ECDSA then let* ecdsa := TPMS_SIG_SCHEME_ECDSA_Unmarshal in uret
      (TPMU_ASYM_SCHEME_ecdsa ecdsa) else
  if selector =? TPM_ALG_ECDAA then let* ecdaa := TPMS_SIG_SCHEME_ECDAA_Unmarshal in uret
      (TPMU_ASYM_SCHEME_ecdaa ecdaa) else
  if selector =? TPM_ALG_SM2 then let* sm2 := TPMS_SIG_SCHEME_SM2_Unmarshal in uret
      (TPMU_ASYM_SCHEME_sm2 sm2) else
  if selector =? TPM_ALG_ECSCHNORR then let* ecschnorr :=
      TPMS_SIG_SCHEME_ECSCHNORR_Unmarshal in uret (TPMU_ASYM_SCHEME_ecschnorr ecschnorr) else
  if selector =? TPM_ALG_RSAES then let* rsaes := TPMS_ENC_SCHEME_RSAES_Unmarshal in uret
      (TPMU_ASYM_SCHEME_rsaes rsaes) else
  if selector =? TPM_ALG_OAEP then let* oaep := TPMS_ENC_SCHEME_OAEP_Unmarshal in uret
      (TPMU_ASYM_SCHEME_oaep oaep) else
  if selector =? TPM_ALG_NULL then uret TPMU_ASYM_SCHEME_none else
  uerr TPM_RC_SELECTOR.

Definition TPMI_ALG_RSA_SCHEME_Unmarshal (allowNull : bool) : Unm Z :=
  let* target := TPM_ALG_ID_Unmarshal in
  let* _ := fail_if (negb (one_of target [TPM_ALG_RSASSA; TPM_ALG_RSAPSS; TPM_ALG_RSAES;
      TPM_ALG_OAEP] || ((target =? TPM_ALG_NULL) && allowNull))) TPM_RC_VALUE in
  uret target.

Definition TPMT_RSA_SCHEME_Unmarshal (allowNull : bool) : Unm TPMT_RSA_SCHEME :=
  let* scheme := TPMI_ALG_RSA_SCHEME_Unmarshal allowNull in
  let* details := TPMU_ASYM_SCHEME_Unmarshal scheme in
  uret (mkTPMT_RSA_SCHEME scheme details).

Definition TPMI_ALG_RSA_DECRYPT_Unmarshal (allowNull : bool) : Unm Z :=
  let* target := TPM_ALG_ID_Unmarshal in
  let* _ := fail_if (negb (one_of target [TPM_ALG_RSAES; TPM_ALG_OAEP] ||
      ((target =? TPM_ALG_NULL) && allowNull))) TPM_RC_VALUE in
  uret target.

Definition TPMT_RSA_DECRYPT_Unmarshal (allowNull : bool) : Unm TPMT_RSA_DECRYPT :=
  let* scheme := TPMI_ALG_RSA_DECRYPT_Unmarshal allowNull in
  let* details := TPMU_ASYM_SCHEME_Unmarshal scheme in
  uret (mkTPMT_RSA_DECRYPT scheme details).

Definition TPM2B_PUBLIC_KEY_RSA_Unmarshal : Unm TPM2B :=
  TPM2B_Unmarshal TPM2B_PUBLIC_KEY_RSA_buffer MAX_RSA_KEY_BYTES.

Definition TPMI_RSA_KEY_BITS_Unmarshal : Unm Z :=
  let* target := TPM_KEY_BITS_Unmarshal in
  let* _ := fail_if (negb (one_of target [1024; 2048; 3072])) TPM_RC_VALUE in
  uret target.

Definition TPM2B_PRIVATE_KEY_RSA_Unmarshal : Unm TPM2B :=
  TPM2B_Unmarshal TPM2B_PRIVATE_KEY_RSA_buffer RSA_PRIVATE_SIZE.

Definition TPM2B_ECC_PARAMETER_Unmarshal : Unm TPM2B :=
  TPM2B_Unmarshal TPM2B_ECC_PARAMETER_buffer MAX_ECC_KEY_BYTES.

Definition TPMS_ECC_POINT_Unmarshal : Unm TPMS_ECC_POINT :=
  let* x := TPM2B_ECC_PARAMETER_Unmarshal in
  let* y := TPM2B_ECC_PARAMETER_Unmarshal in
  uret (mkTPMS_ECC_POINT x y).

Definition TPM2B_ECC_POINT_Unmarshal : Unm TPM2B_ECC_POINT :=
  let* size := UINT16_Unmarshal in
  let* _ := fail_if (size =? 0) TPM_RC_SIZE in
  let* startSize := get_size in
  let* point := TPMS_ECC_POINT_Unmarshal in
  let* endSize := get_size in
  let* _ := fail_if (negb (size =? startSize - endSize)) TPM_RC_SIZE in
  uret (mkTPM2B_ECC_POINT size point).

Definition TPMI_ALG_ECC_SCHEME_Unmarshal (allowNull : bool) : Unm Z :=
  let* target := TPM_ALG_ID_Unmarshal in
  let* _ := fail_if (negb (one_of target [TPM_ALG_ECDSA; TPM_ALG_SM2; TPM_ALG_ECDAA;
      TPM_ALG_ECSCHNORR; TPM_ALG_ECDH; TPM_ALG_ECMQV] || ((target =? TPM_ALG_NULL) &&
      allowNull))) TPM_RC_SCHEME in
  uret target.

Definition TPMI_ECC_CURVE_Unmarshal (allowNull : bool) : Unm Z :=
  let* target := TPM_ECC_CURVE_Unmarshal in
  let* _ := fail_if ((target =? TPM_ECC_NONE) && negb allowNull) TPM_RC_CURVE in
  uret target.

Definition TPMT_ECC_SCHEME_Unmarshal (allowNull : bool) : Unm TPMT_ECC_SCHEME :=
  let* scheme := TPMI_ALG_ECC_SCHEME_Unmarshal allowNull in
  let* details := TPMU_ASYM_SCHEME_Unmarshal scheme in
  uret (mkTPMT_ECC_SCHEME scheme details).

Definition TPMS_SIGNATURE_RSA_Unmarshal : Unm TPMS_SIGNATURE_RSA :=
  let* hash := TPMI_ALG_HASH_Unmarshal false in
  let* sig := TPM2B_PUBLIC_KEY_RSA_Unmarshal in
  uret (mkTPMS_SIGNATURE_RSA hash sig).

Definition TPMS_SIGNATURE_RSASSA_Unmarshal : Unm TPMS_SIGNATURE_RSA :=
  TPMS_SIGNATURE_RSA_Unmarshal.

Definition TPMS_SIGNATURE_RSAPSS_Unmarshal : Unm TPMS_SIGNATURE_RSA :=
  TPMS_SIGNATURE_RSA_Unmarshal.

Definition TPMS_SIGNATURE_ECC_Unmarshal : Unm TPMS_SIGNATURE_ECC :=
  let* hash := TPMI_ALG_HASH_Unmarshal false in
  let* signatureR := TPM2B_ECC_PARAMETER_Unmarshal in
  let* signatureS := TPM2B_ECC_PARAMETER_Unmarshal in
  uret (mkTPMS_SIGNATURE_ECC hash signatureR signatureS).

Definition TPMS_SIGNATURE_ECDSA_Unmarshal : Unm TPMS_SIGNATURE_ECC :=
  TPMS_SIGNATURE_ECC_Unmarshal.

Definition TPMS_SIGNATURE_ECDAA_Unmarshal : Unm TPMS_SIGNATURE_ECC :=
  TPMS_SIGNATURE_ECC_Unmarshal.

Definition TPMS_SIGNATURE_SM2_Unmarshal : Unm TPMS_SIGNATURE_ECC :=
  TPMS_SIGNATURE_ECC_Unmarshal.

Definition TPMS_SIGNATURE_ECSCHNORR_Unmarshal : Unm TPMS_SIGNATURE_ECC :=
  TPMS_SIGNATURE_ECC_Unmarshal.

Definition TPMU_SIGNATURE_Unmarshal (selector : Z) : Unm TPMU_SIGNATURE :=
  if selector =? TPM_ALG_RSASSA then let* rsassa := TPMS_SIGNATURE_RSASSA_Unmarshal in uret
      (TPMU_SIGNATURE_rsassa rsassa) else
  if selector =? TPM_ALG_RSAPSS then let* rsapss := TPMS_SIGNATURE_RSAPSS_Unmarshal in uret
      (TPMU_SIGNATURE_rsapss rsapss) else
  if selector =? TPM_ALG_ECDSA then let* ecdsa := TPMS_SIGNATURE_ECDSA_Unmarshal in uret
      (TPMU_SIGNATURE_ecdsa ecdsa) else
  if selector =? TPM_ALG_ECDAA then let* ecdaa := TPMS_SIGNATURE_ECDAA_Unmarshal in uret
      (TPMU_SIGNATURE_ecdaa ecdaa) else
  if selector =? TPM_ALG_SM2 then let* sm2 := TPMS_SIGNATURE_SM2_Unmarshal in uret
      (TPMU_SIGNATURE_sm2 sm2) else
  if selector =? TPM_ALG_ECSCHNORR then let* ecschnorr :=
      TPMS_SIGNATURE_ECSCHNORR_Unmarshal in uret (TPMU_SIGNATURE_ecschnorr ecschnorr) else
  if selector =? TPM_ALG_HMAC then let* hmac := TPMT_HA_Unmarshal false in uret
      (TPMU_SIGNATURE_hmac hmac) else
  if selector =? TPM_ALG_NULL then uret TPMU_SIGNATURE_none else
  uerr TPM_RC_SELECTOR.

Definition TPMT_SIGNATURE_Unmarshal (allowNull : bool) : Unm TPMT_SIGNATURE :=
  let* sigAlg := TPMI_ALG_SIG_SCHEME_Unmarshal allowNull in
  let* signature := TPMU_SIGNATURE_Unmarshal sigAlg in
  uret (mkTPMT_SIGNATURE sigAlg signature).

Definition TPM2B_ENCRYPTED_SECRET_Unmarshal : Unm TPM2B :=
  TPM2B_Unmarshal TPM2B_ENCRYPTED_SECRET_buffer sizeof_TPMU_ENCRYPTED_SECRET.

Definition TPMI_ALG_PUBLIC_Unmarshal : Unm Z :=
  let* target := TPM_ALG_ID_Unmarshal in
  let* _ := fail_if (negb (one_of target [TPM_ALG_KEYEDHASH; TPM_ALG_RSA; TPM_ALG_ECC;
      TPM_ALG_SYMCIPHER])) TPM_RC_TYPE in
  uret target.

Definition TPMU_PUBLIC_ID_Unmarshal (selector : Z) : Unm TPMU_PUBLIC_ID :=
  if selector =? TPM_ALG_KEYEDHASH then let* keyedHash := TPM2B_DIGEST_Unmarshal in uret
      (TPMU_PUBLIC_ID_keyedHash keyedHash) else
  if selector =? TPM_ALG_SYMCIPHER then let* sym := TPM2B_DIGEST_Unmarshal in uret
      (TPMU_PUBLIC_ID_sym sym) else
  if selector =? TPM_ALG_RSA then let* rsa := TPM2B_PUBLIC_KEY_RSA_Unmarshal in uret
      (TPMU_PUBLIC_ID_rsa rsa) else
  if selector =? TPM_ALG_ECC then let* ecc := TPMS_ECC_POINT_Unmarshal in uret
      (TPMU_PUBLIC_ID_ecc ecc) else
  uerr TPM_RC_SELECTOR.

Definition TPMS_KEYEDHASH_PARMS_Unmarshal : Unm TPMS_KEYEDHASH_PARMS :=
  let* scheme := TPMT_KEYEDHASH_SCHEME_Unmarshal true in
  uret (mkTPMS_KEYEDHASH_PARMS scheme).

Definition TPMS_RSA_PARMS_Unmarshal : Unm TPMS_RSA_PARMS :=
  let* symmetric := TPMT_SYM_DEF_OBJECT_Unmarshal true in
  let* scheme := TPMT_RSA_SCHEME_Unmarshal true in
  let* keyBits := TPMI_RSA_KEY_BITS_Unmarshal in
  let* exponent := UINT32_Unmarshal in
  uret (mkTPMS_RSA_PARMS symmetric scheme keyBits exponent).

Definition TPMS_ECC_PARMS_Unmarshal : Unm TPMS_ECC_PARMS :=
  let* symmetric := TPMT_SYM_DEF_OBJECT_Unmarshal true in
  let* scheme := TPMT_ECC_SCHEME_Unmarshal true in
  let* curveID := TPMI_ECC_CURVE_Unmarshal false in
  let* kdf := TPMT_KDF_SCHEME_Unmarshal true in
  uret (mkTPMS_ECC_PARMS symmetric scheme curveID kdf).

Definition TPMU_PUBLIC_PARMS_Unmarshal (selector : Z) : Unm TPMU_PUBLIC_PARMS :=
  if selector =? TPM_ALG_KEYEDHASH then let* keyedHashDetail :=
      TPMS_KEYEDHASH_PARMS_Unmarshal in uret (TPMU_PUBLIC_PARMS_keyedHashDetail keyedHashDetail)
      else
  if selector =? TPM_ALG_SYMCIPHER then let* symDetail := TPMS_SYMCIPHER_PARMS_Unmarshal in uret
      (TPMU_PUBLIC_PARMS_symDetail symDetail) else
  if selector =? TPM_ALG_RSA then let* rsaDetail := TPMS_RSA_PARMS_Unmarshal in uret
      (TPMU_PUBLIC_PARMS_rsaDetail rsaDetail) else
  if selector =? TPM_ALG_ECC then let* eccDetail := TPMS_ECC_PARMS_Unmarshal in uret
      (TPMU_PUBLIC_PARMS_eccDetail eccDetail) else
  uerr TPM_RC_SELECTOR.

Definition TPMT_PUBLIC_PARMS_Unmarshal : Unm TPMT_PUBLIC_PARMS :=
  let* type := TPMI_ALG_PUBLIC_Unmarshal in
  let* parameters := TPMU_PUBLIC_PARMS_Unmarshal type in
  uret (mkTPMT_PUBLIC_PARMS type parameters).

Definition TPMT_PUBLIC_Unmarshal (allowNull : bool) : Unm TPMT_PUBLIC :=
  let* type := TPMI_ALG_PUBLIC_Unmarshal in
  let* nameAlg := TPMI_ALG_HASH_Unmarshal allowNull in
  let* objectAttributes := TPMA_OBJECT_Unmarshal in
  let* authPolicy := TPM2B_DIGEST_Unmarshal in
  let* parameters := TPMU_PUBLIC_PARMS_Unmarshal type in
  let* unique := TPMU_PUBLIC_ID_Unmarshal type in
  uret (mkTPMT_PUBLIC type nameAlg objectAttributes authPolicy parameters unique).

Definition TPM2B_PUBLIC_Unmarshal (allowNull : bool) : Unm TPM2B_PUBLIC :=
  let* size := UINT16_Unmarshal in
  let* _ := fail_if (size =? 0) TPM_RC_SIZE in
  let* startSize := get_size in
  let* publicArea := TPMT_PUBLIC_Unmarshal allowNull in
  let* endSize := get_size in
  let* _ := fail_if (negb (size =? startSize - endSize)) TPM_RC_SIZE in
  uret (mkTPM2B_PUBLIC size publicArea).

Definition TPM2B_TEMPLATE_Unmarshal : Unm TPM2B :=
  TPM2B_Unmarshal TPM2B_TEMPLATE_buffer sizeof_TPMT_PUBLIC.

Definition TPMU_SENSITIVE_COMPOSITE_Unmarshal (selector : Z) : Unm TPMU_SENSITIVE_COMPOSITE :=
  if selector =? TPM_ALG_RSA then let* rsa := TPM2B_PRIVATE_KEY_RSA_Unmarshal in uret
      (TPMU_SENSITIVE_COMPOSITE_rsa rsa) else
  if selector =? TPM_ALG_ECC then let* ecc := TPM2B_ECC_PARAMETER_Unmarshal in uret
      (TPMU_SENSITIVE_COMPOSITE_ecc ecc) else
  if selector =? TPM_ALG_KEYEDHASH then let* bits := TPM2B_SENSITIVE_DATA_Unmarshal in uret
      (TPMU_SENSITIVE_COMPOSITE_bits bits) else
  if selector =? TPM_ALG_SYMCIPHER then let* sym := TPM2B_SYM_KEY_Unmarshal in uret
      (TPMU_SENSITIVE_COMPOSITE_sym sym) else
  uerr TPM_RC_SELECTOR.

Definition TPMT_SENSITIVE_Unmarshal : Unm TPMT_SENSITIVE :=
  let* sensitiveType := TPMI_ALG_PUBLIC_Unmarshal in
  let* authValue := TPM2B_AUTH_Unmarshal in
  let* seedValue := TPM2B_DIGEST_Unmarshal in
  let* sensitive := TPMU_SENSITIVE_COMPOSITE_Unmarshal sensitiveType in
  uret (mkTPMT_SENSITIVE sensitiveType authValue seedValue sensitive).

Definition TPM2B_SENSITIVE_Unmarshal : Unm TPM2B_SENSITIVE :=
  let* size := UINT16_Unmarshal in
  let* sensitiveArea :=
    if negb (size =? 0) then
      let* startSize := get_size in
      let* sensitiveArea := TPMT_SENSITIVE_Unmarshal in
      let* endSize := get_size in
      let* _ := fail_if (negb (size =? startSize - endSize)) TPM_RC_SIZE in
      uret (Some sensitiveArea)
    else uret None in
  uret (mkTPM2B_SENSITIVE size sensitiveArea).

Definition TPM2B_PRIVATE_Unmarshal : Unm TPM2B :=
  TPM2B_Unmarshal TPM2B_PRIVATE_buffer sizeof__PRIVATE.

Definition TPM2B_ID_OBJECT_Unmarshal : Unm TPM2B :=
  TPM2B_Unmarshal TPM2B_ID_OBJECT_buffer sizeof_TPMS_ID_OBJECT.

Definition TPMA_NV_Unmarshal : Unm Z :=
  let* target := UINT32_Unmarshal in
  let* _ := fail_if (negb (Z.land target TPMA_NV_RESERVED =? 0)) TPM_RC_RESERVED_BITS in
  uret target.

Definition TPMS_NV_PUBLIC_Unmarshal : Unm TPMS_NV_PUBLIC :=
  let* nvIndex := TPMI_RH_NV_INDEX_Unmarshal in
  let* nameAlg := TPMI_ALG_HASH_Unmarshal false in
  let* attributes := TPMA_NV_Unmarshal in
  let* authPolicy := TPM2B_DIGEST_Unmarshal in
  let* dataSize := UINT16_Unmarshal in
  let* _ := fail_if (dataSize >? MAX_NV_INDEX_SIZE) TPM_RC_SIZE in
  uret (mkTPMS_NV_PUBLIC nvIndex nameAlg attributes authPolicy dataSize).

Definition TPM2B_NV_PUBLIC_Unmarshal : Unm TPM2B_NV_PUBLIC :=
  let* size := UINT16_Unmarshal in
  let* _ := fail_if (size =? 0) TPM_RC_SIZE in
  let* startSize := get_size in
  let* nvPublic := TPMS_NV_PUBLIC_Unmarshal in
  let* endSize := get_size in
  let* _ := fail_if (negb (size =? startSize - endSize)) TPM_RC_SIZE in
  uret (mkTPM2B_NV_PUBLIC size nvPublic).

Definition TPMA_NV_EXP_Unmarshal : Unm Z :=
  let* target := UINT64_Unmarshal in
  let* _ := fail_if (negb (Z.land target TPMA_NV_EXP_reserved =? 0)) TPM_RC_RESERVED_BITS in
  uret target.

Definition TPMS_NV_PUBLIC_EXP_ATTR_Unmarshal : Unm TPMS_NV_PUBLIC_EXP_ATTR :=
  let* nvIndex := TPMI_RH_NV_EXP_INDEX_Unmarshal in
  let* nameAlg := TPMI_ALG_HASH_Unmarshal false in
  let* attributes := TPMA_NV_EXP_Unmarshal in
  let* authPolicy := TPM2B_DIGEST_Unmarshal in
  let* dataSize := UINT16_Unmarshal in
  let* _ := fail_if (dataSize >? MAX_NV_INDEX_SIZE) TPM_RC_SIZE in
  uret (mkTPMS_NV_PUBLIC_EXP_ATTR nvIndex nameAlg attributes authPolicy dataSize).

Definition TPMU_NV_PUBLIC_2_Unmarshal (selector : Z) : Unm TPMU_NV_PUBLIC_2 :=
  if selector =? TPM_HT_NV_INDEX then let* nvIndex := TPMS_NV_PUBLIC_Unmarshal in uret
      (TPMU_NV_PUBLIC_2_nvIndex nvIndex) else
  if selector =? TPM_HT_EXTERNAL_NV then let* externalNV :=
      TPMS_NV_PUBLIC_EXP_ATTR_Unmarshal in uret (TPMU_NV_PUBLIC_2_externalNV externalNV) else
  if selector =? TPM_HT_PERMANENT_NV then let* permanentNV := TPMS_NV_PUBLIC_Unmarshal in uret
      (TPMU_NV_PUBLIC_2_permanentNV permanentNV) else
  uerr TPM_RC_SELECTOR.

Definition TPMT_NV_PUBLIC_2_Unmarshal : Unm TPMT_NV_PUBLIC_2 :=
  let* handleType := UINT8_Unmarshal in
  let* nvPublic2 := TPMU_NV_PUBLIC_2_Unmarshal handleType in
  uret (mkTPMT_NV_PUBLIC_2 handleType nvPublic2).

Definition TPM2B_NV_PUBLIC_2_Unmarshal : Unm TPM2B_NV_PUBLIC_2 :=
  let* size := UINT16_Unmarshal in
  let* _ := fail_if (size =? 0) TPM_RC_SIZE in
  let* startSize := get_size in
  let* nvPublic2 := TPMT_NV_PUBLIC_2_Unmarshal in
  let* endSize := get_size in
  let* _ := fail_if (negb (size =? startSize - endSize)) TPM_RC_SIZE in
  uret (mkTPM2B_NV_PUBLIC_2 size nvPublic2).

Definition TPM2B_CONTEXT_SENSITIVE_Unmarshal : Unm TPM2B :=
  TPM2B_Unmarshal TPM2B_CONTEXT_SENSITIVE_buffer MAX_CONTEXT_SIZE.

Definition TPM2B_CONTEXT_DATA_Unmarshal : Unm TPM2B :=
  TPM2B_Unmarshal TPM2B_CONTEXT_DATA_buffer sizeof_TPMS_CONTEXT_DATA.

Definition TPMS_CONTEXT_Unmarshal : Unm TPMS_CONTEXT :=
  let* sequence := UINT64_Unmarshal in
  let* savedHandle := TPMI_DH_SAVED_Unmarshal false in
  let* hierarchy := TPMI_RH_HIERARCHY_Unmarshal true in
  let* contextBlob := TPM2B_CONTEXT_DATA_Unmarshal in
  uret (mkTPMS_CONTEXT sequence savedHandle hierarchy contextBlob).

Definition TPM_AT_Unmarshal : Unm Z :=
  UINT32_Unmarshal.

Definition TPMU_SET_CAPABILITIES_Unmarshal (selector : Z) : Unm TPMU_SET_CAPABILITIES :=
  uerr TPM_RC_SELECTOR.

Definition TPMS_SET_CAPABILITY_DATA_Unmarshal : Unm TPMS_SET_CAPABILITY_DATA :=
  let* setCapability := TPM_CAP_Unmarshal in
  let* data := TPMU_SET_CAPABILITIES_Unmarshal setCapability in
  uret (mkTPMS_SET_CAPABILITY_DATA setCapability data).

Definition TPM2B_SET_CAPABILITY_DATA_Unmarshal : Unm TPM2B_SET_CAPABILITY_DATA :=
  let* size := UINT16_Unmarshal in
  let* _ := fail_if (size =? 0) TPM_RC_SIZE in
  let* startSize := get_size in
  let* setCapabilityData := TPMS_SET_CAPABILITY_DATA_Unmarshal in
  let* endSize := get_size in
  let* _ := fail_if (negb (size =? startSize - endSize)) TPM_RC_SIZE in
  uret (mkTPM2B_SET_CAPABILITY_DATA size setCapabilityData).

(** The functions are told apart by name when a contract is looked up. *)
#[export] Hint Opaque
  Array_Unmarshal INT8_Unmarshal TPM2B_Unmarshal UINT16_Unmarshal UINT32_Unmarshal
  UINT64_Unmarshal UINT8_Unmarshal TPM_KEY_BITS_Unmarshal TPM_ALG_ID_Unmarshal
  TPM_ECC_CURVE_Unmarshal TPM_CC_Unmarshal TPM_CLOCK_ADJUST_Unmarshal TPM_EO_Unmarshal
  TPM_ST_Unmarshal TPM_SU_Unmarshal TPM_SE_Unmarshal TPM_CAP_Unmarshal TPM_PT_Unmarshal
  TPM_PT_PCR_Unmarshal TPM_HANDLE_Unmarshal TPMA_ALGORITHM_Unmarshal TPMA_OBJECT_Unmarshal
  TPMA_SESSION_Unmarshal TPMA_LOCALITY_Unmarshal TPMA_CC_Unmarshal TPMI_YES_NO_Unmarshal
  TPMI_DH_OBJECT_Unmarshal TPMI_DH_PARENT_Unmarshal TPMI_DH_PERSISTENT_Unmarshal
  TPMI_DH_ENTITY_Unmarshal TPMI_DH_PCR_Unmarshal TPMI_SH_AUTH_SESSION_Unmarshal
  TPMI_SH_HMAC_Unmarshal TPMI_SH_POLICY_Unmarshal TPMI_DH_CONTEXT_Unmarshal
  TPMI_DH_SAVED_Unmarshal TPMI_RH_HIERARCHY_Unmarshal TPMI_RH_ENABLES_Unmarshal
  TPMI_RH_HIERARCHY_AUTH_Unmarshal TPMI_RH_HIERARCHY_POLICY_Unmarshal
  TPMI_RH_PLATFORM_Unmarshal TPMI_RH_ENDORSEMENT_Unmarshal TPMI_RH_PROVISION_Unmarshal
  TPMI_RH_CLEAR_Unmarshal TPMI_RH_NV_AUTH_Unmarshal TPMI_RH_LOCKOUT_Unmarshal
  TPMI_RH_NV_INDEX_Unmarshal TPMI_RH_NV_DEFINED_INDEX_Unmarshal
  TPMI_RH_NV_LEGACY_INDEX_Unmarshal TPMI_RH_NV_EXP_INDEX_Unmarshal TPMI_RH_AC_Unmarshal
  TPMI_RH_ACT_Unmarshal TPMI_ALG_HASH_Unmarshal TPMI_ALG_SYM_Unmarshal
  TPMI_ALG_SYM_OBJECT_Unmarshal TPMI_ALG_SYM_MODE_Unmarshal TPMI_ALG_KDF_Unmarshal
  TPMI_ALG_SIG_SCHEME_Unmarshal TPMI_ECC_KEY_EXCHANGE_Unmarshal TPMI_ST_COMMAND_TAG_Unmarshal
  TPMI_ALG_MAC_SCHEME_Unmarshal TPMI_ALG_CIPHER_MODE_Unmarshal TPMS_EMPTY_Unmarshal
  TPMU_HA_Unmarshal TPMT_HA_Unmarshal TPM2B_DIGEST_Unmarshal TPM2B_DATA_Unmarshal
  TPM2B_NONCE_Unmarshal TPM2B_AUTH_Unmarshal TPM2B_EVENT_Unmarshal TPM2B_MAX_BUFFER_Unmarshal
  TPM2B_MAX_NV_BUFFER_Unmarshal TPM2B_TIMEOUT_Unmarshal TPM2B_IV_Unmarshal
  TPM2B_NAME_Unmarshal TPMS_PCR_SELECTION_Unmarshal TPMT_TK_CREATION_Unmarshal
  TPMT_TK_VERIFIED_Unmarshal TPMT_TK_AUTH_Unmarshal TPMT_TK_HASHCHECK_Unmarshal
  TPMS_ALG_PROPERTY_Unmarshal TPMS_TAGGED_PROPERTY_Unmarshal TPMS_TAGGED_PCR_SELECT_Unmarshal
  TPML_CC_Unmarshal TPMS_TAGGED_POLICY_Unmarshal TPML_CCA_Unmarshal TPML_ALG_Unmarshal
  TPML_HANDLE_Unmarshal TPML_DIGEST_Unmarshal TPML_DIGEST_VALUES_Unmarshal
  TPML_PCR_SELECTION_Unmarshal TPMI_AES_KEY_BITS_Unmarshal TPMI_CAMELLIA_KEY_BITS_Unmarshal
  TPMU_SYM_KEY_BITS_Unmarshal TPMU_SYM_MODE_Unmarshal TPMT_SYM_DEF_Unmarshal
  TPMT_SYM_DEF_OBJECT_Unmarshal TPM2B_SYM_KEY_Unmarshal TPMS_SYMCIPHER_PARMS_Unmarshal
  TPM2B_LABEL_Unmarshal TPMS_DERIVE_Unmarshal TPM2B_SENSITIVE_DATA_Unmarshal
  TPMS_SENSITIVE_CREATE_Unmarshal TPM2B_SENSITIVE_CREATE_Unmarshal TPMS_SCHEME_HASH_Unmarshal
  TPMS_SCHEME_ECDAA_Unmarshal TPMI_ALG_KEYEDHASH_SCHEME_Unmarshal TPMS_SCHEME_HMAC_Unmarshal
  TPMS_SCHEME_XOR_Unmarshal TPMU_SCHEME_KEYEDHASH_Unmarshal TPMT_KEYEDHASH_SCHEME_Unmarshal
  TPMS_SIG_SCHEME_RSAPSS_Unmarshal TPMS_SIG_SCHEME_RSASSA_Unmarshal
  TPMS_SIG_SCHEME_ECDAA_Unmarshal TPMS_SIG_SCHEME_ECDSA_Unmarshal
  TPMS_SIG_SCHEME_ECSCHNORR_Unmarshal TPMS_SIG_SCHEME_SM2_Unmarshal TPMU_SIG_SCHEME_Unmarshal
  TPMT_SIG_SCHEME_Unmarshal TPMS_ENC_SCHEME_OAEP_Unmarshal TPMS_ENC_SCHEME_RSAES_Unmarshal
  TPMS_KEY_SCHEME_ECDH_Unmarshal TPMS_KEY_SCHEME_ECMQV_Unmarshal
  TPMS_KDF_SCHEME_KDF1_SP800_108_Unmarshal TPMS_KDF_SCHEME_KDF1_SP800_56A_Unmarshal
  TPMS_KDF_SCHEME_KDF2_Unmarshal TPMS_KDF_SCHEME_MGF1_Unmarshal TPMU_KDF_SCHEME_Unmarshal
  TPMT_KDF_SCHEME_Unmarshal TPMU_ASYM_SCHEME_Unmarshal TPMI_ALG_RSA_SCHEME_Unmarshal
  TPMT_RSA_SCHEME_Unmarshal TPMI_ALG_RSA_DECRYPT_Unmarshal TPMT_RSA_DECRYPT_Unmarshal
  TPM2B_PUBLIC_KEY_RSA_Unmarshal TPMI_RSA_KEY_BITS_Unmarshal TPM2B_PRIVATE_KEY_RSA_Unmarshal
  TPM2B_ECC_PARAMETER_Unmarshal TPMS_ECC_POINT_Unmarshal TPM2B_ECC_POINT_Unmarshal
  TPMI_ALG_ECC_SCHEME_Unmarshal TPMI_ECC_CURVE_Unmarshal TPMT_ECC_SCHEME_Unmarshal
  TPMS_SIGNATURE_RSA_Unmarshal TPMS_SIGNATURE_RSASSA_Unmarshal TPMS_SIGNATURE_RSAPSS_Unmarshal
  TPMS_SIGNATURE_ECC_Unmarshal TPMS_SIGNATURE_ECDSA_Unmarshal TPMS_SIGNATURE_ECDAA_Unmarshal
  TPMS_SIGNATURE_SM2_Unmarshal TPMS_SIGNATURE_ECSCHNORR_Unmarshal TPMU_SIGNATURE_Unmarshal
  TPMT_SIGNATURE_Unmarshal TPM2B_ENCRYPTED_SECRET_Unmarshal TPMI_ALG_PUBLIC_Unmarshal
  TPMU_PUBLIC_ID_Unmarshal TPMS_KEYEDHASH_PARMS_Unmarshal TPMS_RSA_PARMS_Unmarshal
  TPMS_ECC_PARMS_Unmarshal TPMU_PUBLIC_PARMS_Unmarshal TPMT_PUBLIC_PARMS_Unmarshal
  TPMT_PUBLIC_Unmarshal TPM2B_PUBLIC_Unmarshal TPM2B_TEMPLATE_Unmarshal
  TPMU_SENSITIVE_COMPOSITE_Unmarshal TPMT_SENSITIVE_Unmarshal TPM2B_SENSITIVE_Unmarshal
  TPM2B_PRIVATE_Unmarshal TPM2B_ID_OBJECT_Unmarshal TPMA_NV_Unmarshal TPMS_NV_PUBLIC_Unmarshal
  TPM2B_NV_PUBLIC_Unmarshal TPMA_NV_EXP_Unmarshal TPMS_NV_PUBLIC_EXP_ATTR_Unmarshal
  TPMU_NV_PUBLIC_2_Unmarshal TPMT_NV_PUBLIC_2_Unmarshal TPM2B_NV_PUBLIC_2_Unmarshal
  TPM2B_CONTEXT_SENSITIVE_Unmarshal TPM2B_CONTEXT_DATA_Unmarshal TPMS_CONTEXT_Unmarshal
  TPM_AT_Unmarshal TPMU_SET_CAPABILITIES_Unmarshal TPMS_SET_CAPABILITY_DATA_Unmarshal
  TPM2B_SET_CAPABILITY_DATA_Unmarshal : typeclass_instances.
