(* ===== verification/Marshal.v ===== *)
(** * Marshaling (src/Marshal.c)

    Every function of the file that this build compiles.  The caller passes
    [buffer], a pointer into an object that the function advances ([NULL] asks
    for the size only), and [size], the number of octets the caller allows
    ([NULL] for no limit).  A function returns the number of octets as a
    [UINT16] and adds up those of the functions it calls; [pAssert] sets failure
    mode and execution goes on, so that a field that does not fit is skipped
    and still counted.  The arguments that are not the source (a selector, the
    size of an array) come first here.

    [None] is an access outside an object: a write past the end of the object
    [*buffer] points into, a read past the end of an array of the source, or a
    read of a member of a union other than the one it holds. *)

From S2P Require Import Prelude TpmTypes Memory WireTypes.
Local Open Scope Z_scope.

(** ** The output of a marshaling function *)

Record MState := mkM {
  o_mem : bytes;             (* the object [*buffer] points into *)
  o_ptr : option Z;          (* the offset of [*buffer]; [None]: [buffer == NULL] *)
  o_size : option Z;         (* [*size]; [None]: [size == NULL] *)
  o_failed : bool }.         (* failure mode *)

#[export] Instance MState_fail : FailState MState :=
  {| set_failure := λ s, mkM (o_mem s) (o_ptr s) (o_size s) true |}.

Definition Mar : Type := M MState Z.

Definition set_ptr (p : option Z) : M MState unit :=
  modify (λ s, mkM (o_mem s) p (o_size s) (o_failed s)).

(** Store [d] at [*buffer]; [*buffer += n; if (size != NULL) *size -= n], where
    [n] is the number of octets. *)
Definition store (d : bytes) : M MState unit :=
  λ s, match o_ptr s with
       | None => None
       | Some p =>
           if inb (o_mem s) p (blen d)
           then Some (tt, mkM (bwrite (o_mem s) p d) (Some (p + blen d))
                              ((λ z, z - blen d) <$> o_size s) (o_failed s))
           else None
       end.

(** ** Integers and buffers (lines 66-184) *)

(** The common body: nothing is stored for a [NULL] buffer; with a size, the
    octets are stored when they fit ([fits], the comparison of the source) and
    failure mode is set when they do not.  [d] is [None] when the octets cannot
    be read from the source. *)
Definition emit (fits : Z → bool) (d : option bytes) (n : Z) : Mar :=
  let! buffer := gets o_ptr in
  let! size := gets o_size in
  match buffer with
  | None => ret n
  | Some _ =>
      (if match size with None => true | Some size => fits size end
       then match d with Some d => store d | None => undef end
       else pAssert false) ;;
      ret n
  end.

Definition UINT8_Marshal (source : Z) : Mar :=
  emit (λ size, u32 size >=? sizeof_UINT8) (Some [u8 source]) sizeof_UINT8.

Definition UINT16_Marshal (source : Z) : Mar :=
  emit (λ size, u32 size >=? sizeof_UINT16)
    (Some
    [u8 (Z.land (Z.shiftr source 8) 0xff); u8 (Z.land (Z.shiftr source 0) 0xff)])
    sizeof_UINT16.

Definition UINT32_Marshal (source : Z) : Mar :=
  emit (λ size, u32 size >=? sizeof_UINT32)
    (Some
    [u8 (Z.land (Z.shiftr source 24) 0xff); u8 (Z.land (Z.shiftr source 16) 0xff);
     u8 (Z.land (Z.shiftr source 8) 0xff); u8 (Z.land (Z.shiftr source 0) 0xff)])
    sizeof_UINT32.

Definition UINT64_Marshal (source : Z) : Mar :=
  emit (λ size, u32 size >=? sizeof_UINT64)
    (Some
    [u8 (Z.land (Z.shiftr source 56) 0xff); u8 (Z.land (Z.shiftr source 48) 0xff);
     u8 (Z.land (Z.shiftr source 40) 0xff); u8 (Z.land (Z.shiftr source 32) 0xff);
     u8 (Z.land (Z.shiftr source 24) 0xff); u8 (Z.land (Z.shiftr source 16) 0xff);
     u8 (Z.land (Z.shiftr source 8) 0xff); u8 (Z.land (Z.shiftr source 0) 0xff)])
    sizeof_UINT64.

Definition Array_Marshal (sourceSize : Z) (sourceBuffer : bytes) : Mar :=
  emit (λ size, size >=? sourceSize)
    (if inb sourceBuffer 0 sourceSize
     then Some (bread sourceBuffer 0 sourceSize) else None)
    sourceSize.

(** [UINT16 written = 0; written += a; written += b; ...; return written;] *)
Fixpoint accumulate_from (written : Z) (l : list Mar) : Mar :=
  match l with
  | [] => ret written
  | m :: l => let! n := m in accumulate_from (u16 (written + n)) l
  end.
Definition accumulate : list Mar → Mar := accumulate_from 0.

Definition TPM2B_Marshal (source : TPM2B) : Mar :=
  accumulate [UINT16_Marshal (size2B source); Array_Marshal (size2B source) (buffer2B source)].

(** The calls of the loop of the [TPML_*] functions:
    [for (i = 0; i < source->count; i++) written += f(&source->items[i], ...)]. *)
Fixpoint Marshal_items {A} (n : nat) (items : list A) (f : A → Mar) : list Mar :=
  match n, items with
  | O, _ => []
  | S n, x :: items => f x :: Marshal_items n items f
  | S _, [] => [undef]
  end.

(** The body of the [TPM2B_*] functions of structures: the size goes in front
    of the structure once it is known; [UINT16_Marshal] writes it through
    [sizePtr], a copy of [*buffer] from before the structure. *)
Definition size_prefixed (m : Mar) : Mar :=
  let! sizePtr := gets o_ptr in
  match sizePtr with
  | Some p =>
      set_ptr (Some (p + sizeof_UINT16)) ;;
      let! n := m in
      let written := u16 (0 + n) in
      let! buffer := gets o_ptr in
      set_ptr sizePtr ;;
      let! k := UINT16_Marshal written in
      set_ptr buffer ;;
      ret (u16 (written + k))
  | None =>
      let! n := m in
      let written := u16 (0 + n) in
      ret (u16 (written + sizeof_UINT16))
  end.

(** ** Structures (lines 186-2380) *)

Definition TPM_KEY_BITS_Marshal (source : Z) : Mar :=
  accumulate [UINT16_Marshal source].

Definition TPM_CONSTANTS32_Marshal (source : Z) : Mar :=
  accumulate [UINT32_Marshal source].

Definition TPM_ALG_ID_Marshal (source : Z) : Mar :=
  accumulate [UINT16_Marshal source].

Definition TPM_ECC_CURVE_Marshal (source : Z) : Mar :=
  accumulate [UINT16_Marshal source].

Definition TPM_CC_Marshal (source : Z) : Mar :=
  accumulate [UINT32_Marshal source].

Definition TPM_RC_Marshal (source : Z) : Mar :=
  accumulate [UINT32_Marshal source].

Definition TPM_ST_Marshal (source : Z) : Mar :=
  accumulate [UINT16_Marshal source].

Definition TPM_CAP_Marshal (source : Z) : Mar :=
  accumulate [UINT32_Marshal source].

Definition TPM_PT_Marshal (source : Z) : Mar :=
  accumulate [UINT32_Marshal source].

Definition TPM_PT_PCR_Marshal (source : Z) : Mar :=
  accumulate [UINT32_Marshal source].

Definition TPM_HANDLE_Marshal (source : Z) : Mar :=
  accumulate [UINT32_Marshal source].

Definition TPMA_ALGORITHM_Marshal (source : Z) : Mar :=
  accumulate [UINT32_Marshal source].

Definition TPMA_OBJECT_Marshal (source : Z) : Mar :=
  accumulate [UINT32_Marshal source].

Definition TPMA_SESSION_Marshal (source : Z) : Mar :=
  accumulate [UINT8_Marshal source].

Definition TPMA_LOCALITY_Marshal (source : Z) : Mar :=
  accumulate [UINT8_Marshal source].

Definition TPMA_CC_Marshal (source : Z) : Mar :=
  accumulate [UINT32_Marshal source].

Definition TPMI_YES_NO_Marshal (source : Z) : Mar :=
  accumulate [UINT8_Marshal source].

Definition TPMA_ACT_Marshal (source : Z) : Mar :=
  accumulate [UINT32_Marshal source].

Definition TPMI_DH_SAVED_Marshal (source : Z) : Mar :=
  accumulate [TPM_HANDLE_Marshal source].

Definition TPMI_RH_HIERARCHY_Marshal (source : Z) : Mar :=
  accumulate [TPM_HANDLE_Marshal source].

Definition TPMI_RH_NV_INDEX_Marshal (source : Z) : Mar :=
  accumulate [TPM_HANDLE_Marshal source].

Definition TPMI_RH_NV_EXP_INDEX_Marshal (source : Z) : Mar :=
  accumulate [TPM_HANDLE_Marshal source].

Definition TPMI_ALG_HASH_Marshal (source : Z) : Mar :=
  accumulate [TPM_ALG_ID_Marshal source].

Definition TPMI_ALG_SYM_OBJECT_Marshal (source : Z) : Mar :=
  accumulate [TPM_ALG_ID_Marshal source].

Definition TPMI_ALG_SYM_MODE_Marshal (source : Z) : Mar :=
  accumulate [TPM_ALG_ID_Marshal source].

Definition TPMI_ALG_KDF_Marshal (source : Z) : Mar :=
  accumulate [TPM_ALG_ID_Marshal source].

Definition TPMI_ALG_SIG_SCHEME_Marshal (source : Z) : Mar :=
  accumulate [TPM_ALG_ID_Marshal source].

Definition TPMU_HA_Marshal (selector : Z) (source : TPMU_HA) : Mar :=
  if selector =? TPM_ALG_SHA1 then
    match source with
    | TPMU_HA_sha1 sha1 => accumulate [Array_Marshal SHA1_DIGEST_SIZE sha1]
    | _ => undef
    end
  else
  if selector =? TPM_ALG_SHA256 then
    match source with
    | TPMU_HA_sha256 sha256 => accumulate [Array_Marshal SHA256_DIGEST_SIZE sha256]
    | _ => undef
    end
  else
  if selector =? TPM_ALG_SHA384 then
    match source with
    | TPMU_HA_sha384 sha384 => accumulate [Array_Marshal SHA384_DIGEST_SIZE sha384]
    | _ => undef
    end
  else
  if selector =? TPM_ALG_SHA512 then
    match source with
    | TPMU_HA_sha512 sha512 => accumulate [Array_Marshal SHA512_DIGEST_SIZE sha512]
    | _ => undef
    end
  else
  if selector =? TPM_ALG_NULL then ret 0 else
  pAssert false ;; ret 0.

Definition TPMT_HA_Marshal (source : TPMT_HA) : Mar :=
  accumulate [TPMI_ALG_HASH_Marshal (TPMT_HA_hashAlg source);
    TPMU_HA_Marshal (TPMT_HA_hashAlg source) (TPMT_HA_digest source)].

Definition TPM2B_DIGEST_Marshal (source : TPM2B) : Mar :=
  accumulate [TPM2B_Marshal source].

Definition TPM2B_DATA_Marshal (source : TPM2B) : Mar :=
  accumulate [TPM2B_Marshal source].

Definition TPM2B_NONCE_Marshal (source : TPM2B) : Mar :=
  accumulate [TPM2B_DIGEST_Marshal source].

Definition TPM2B_AUTH_Marshal (source : TPM2B) : Mar :=
  accumulate [TPM2B_DIGEST_Marshal source].

Definition TPM2B_MAX_BUFFER_Marshal (source : TPM2B) : Mar :=
  accumulate [TPM2B_Marshal source].

Definition TPM2B_MAX_NV_BUFFER_Marshal (source : TPM2B) : Mar :=
  accumulate [TPM2B_Marshal source].

Definition TPM2B_TIMEOUT_Marshal (source : TPM2B) : Mar :=
  accumulate [TPM2B_Marshal source].

Definition TPM2B_IV_Marshal (source : TPM2B) : Mar :=
  accumulate [TPM2B_Marshal source].

Definition TPM2B_NAME_Marshal (source : TPM2B) : Mar :=
  accumulate [TPM2B_Marshal source].

Definition TPMS_PCR_SELECTION_Marshal (source : TPMS_PCR_SELECTION) : Mar :=
  accumulate [TPMI_ALG_HASH_Marshal (TPMS_PCR_SELECTION_hash source);
    UINT8_Marshal (TPMS_PCR_SELECTION_sizeofSelect source);
    Array_Marshal (TPMS_PCR_SELECTION_sizeofSelect source) (TPMS_PCR_SELECTION_pcrSelect source)].

Definition TPMT_TK_CREATION_Marshal (source : TPMT_TK_CREATION) : Mar :=
  accumulate [TPM_ST_Marshal (TPMT_TK_CREATION_tag source);
    TPMI_RH_HIERARCHY_Marshal (TPMT_TK_CREATION_hierarchy source);
    TPM2B_DIGEST_Marshal (TPMT_TK_CREATION_digest source)].

Definition TPMT_TK_VERIFIED_Marshal (source : TPMT_TK_VERIFIED) : Mar :=
  accumulate [TPM_ST_Marshal (TPMT_TK_VERIFIED_tag source);
    TPMI_RH_HIERARCHY_Marshal (TPMT_TK_VERIFIED_hierarchy source);
    TPM2B_DIGEST_Marshal (TPMT_TK_VERIFIED_digest source)].

Definition TPMT_TK_AUTH_Marshal (source : TPMT_TK_AUTH) : Mar :=
  accumulate [TPM_ST_Marshal (TPMT_TK_AUTH_tag source);
    TPMI_RH_HIERARCHY_Marshal (TPMT_TK_AUTH_hierarchy source);
    TPM2B_DIGEST_Marshal (TPMT_TK_AUTH_digest source)].

Definition TPMT_TK_HASHCHECK_Marshal (source : TPMT_TK_HASHCHECK) : Mar :=
  accumulate [TPM_ST_Marshal (TPMT_TK_HASHCHECK_tag source);
    TPMI_RH_HIERARCHY_Marshal (TPMT_TK_HASHCHECK_hierarchy source);
    TPM2B_DIGEST_Marshal (TPMT_TK_HASHCHECK_digest source)].

Definition TPMS_ALG_PROPERTY_Marshal (source : TPMS_ALG_PROPERTY) : Mar :=
  accumulate [TPM_ALG_ID_Marshal (TPMS_ALG_PROPERTY_alg source);
    TPMA_ALGORITHM_Marshal (TPMS_ALG_PROPERTY_algProperties source)].

Definition TPMS_TAGGED_PCR_SELECT_Marshal (source : TPMS_TAGGED_PCR_SELECT) : Mar :=
  accumulate [TPM_PT_PCR_Marshal (TPMS_TAGGED_PCR_SELECT_tag source);
    UINT8_Marshal (TPMS_TAGGED_PCR_SELECT_sizeofSelect source);
    Array_Marshal (TPMS_TAGGED_PCR_SELECT_sizeofSelect source)
        (TPMS_TAGGED_PCR_SELECT_pcrSelect source)].

Definition TPMS_TAGGED_POLICY_Marshal (source : TPMS_TAGGED_POLICY) : Mar :=
  accumulate [TPM_HANDLE_Marshal (TPMS_TAGGED_POLICY_handle source);
    TPMT_HA_Marshal (TPMS_TAGGED_POLICY_policyHash source)].

Definition TPMS_ACT_DATA_Marshal (source : TPMS_ACT_DATA) : Mar :=
  accumulate [TPM_HANDLE_Marshal (TPMS_ACT_DATA_handle source);
    UINT32_Marshal (TPMS_ACT_DATA_timeout source);
    TPMA_ACT_Marshal (TPMS_ACT_DATA_attributes source)].

Definition TPMS_TAGGED_PROPERTY_Marshal (source : TPMS_TAGGED_PROPERTY) : Mar :=
  accumulate [TPM_PT_Marshal (TPMS_TAGGED_PROPERTY_property source);
    UINT32_Marshal (TPMS_TAGGED_PROPERTY_value source)].

Definition TPML_CC_Marshal (source : TPML_CC) : Mar :=
  accumulate
    (UINT32_Marshal (TPML_CC_count source) ::
     Marshal_items (Z.to_nat (TPML_CC_count source)) (TPML_CC_commandCodes source)
         TPM_CC_Marshal).

Definition TPML_CCA_Marshal (source : TPML_CCA) : Mar :=
  accumulate
    (UINT32_Marshal (TPML_CCA_count source) ::
     Marshal_items (Z.to_nat (TPML_CCA_count source)) (TPML_CCA_commandAttributes source)
         TPMA_CC_Marshal).

Definition TPML_ALG_Marshal (source : TPML_ALG) : Mar :=
  accumulate
    (UINT32_Marshal (TPML_ALG_count source) ::
     Marshal_items (Z.to_nat (TPML_ALG_count source)) (TPML_ALG_algorithms source)
         TPM_ALG_ID_Marshal).

Definition TPML_HANDLE_Marshal (source : TPML_HANDLE) : Mar :=
  accumulate
    (UINT32_Marshal (TPML_HANDLE_count source) ::
     Marshal_items (Z.to_nat (TPML_HANDLE_count source)) (TPML_HANDLE_handle source)
         TPM_HANDLE_Marshal).

Definition TPML_DIGEST_Marshal (source : TPML_DIGEST) : Mar :=
  accumulate
    (UINT32_Marshal (TPML_DIGEST_count source) ::
     Marshal_items (Z.to_nat (TPML_DIGEST_count source)) (TPML_DIGEST_digests source)
         TPM2B_DIGEST_Marshal).

Definition TPML_DIGEST_VALUES_Marshal (source : TPML_DIGEST_VALUES) : Mar :=
  accumulate
    (UINT32_Marshal (TPML_DIGEST_VALUES_count source) ::
     Marshal_items (Z.to_nat (TPML_DIGEST_VALUES_count source))
         (TPML_DIGEST_VALUES_digests source) TPMT_HA_Marshal).

Definition TPML_PCR_SELECTION_Marshal (source : TPML_PCR_SELECTION) : Mar :=
  accumulate
    (UINT32_Marshal (TPML_PCR_SELECTION_count source) ::
     Marshal_items (Z.to_nat (TPML_PCR_SELECTION_count source))
         (TPML_PCR_SELECTION_pcrSelections source) TPMS_PCR_SELECTION_Marshal).

Definition TPML_ALG_PROPERTY_Marshal (source : TPML_ALG_PROPERTY) : Mar :=
  accumulate
    (UINT32_Marshal (TPML_ALG_PROPERTY_count source) ::
     Marshal_items (Z.to_nat (TPML_ALG_PROPERTY_count source))
         (TPML_ALG_PROPERTY_algProperties source) TPMS_ALG_PROPERTY_Marshal).

Definition TPML_TAGGED_TPM_PROPERTY_Marshal (source : TPML_TAGGED_TPM_PROPERTY) : Mar :=
  accumulate
    (UINT32_Marshal (TPML_TAGGED_TPM_PROPERTY_count source) ::
     Marshal_items (Z.to_nat (TPML_TAGGED_TPM_PROPERTY_count source))
         (TPML_TAGGED_TPM_PROPERTY_tpmProperty source) TPMS_TAGGED_PROPERTY_Marshal).

Definition TPML_TAGGED_PCR_PROPERTY_Marshal (source : TPML_TAGGED_PCR_PROPERTY) : Mar :=
  accumulate
    (UINT32_Marshal (TPML_TAGGED_PCR_PROPERTY_count source) ::
     Marshal_items (Z.to_nat (TPML_TAGGED_PCR_PROPERTY_count source))
         (TPML_TAGGED_PCR_PROPERTY_pcrProperty source) TPMS_TAGGED_PCR_SELECT_Marshal).

Definition TPML_ECC_CURVE_Marshal (source : TPML_ECC_CURVE) : Mar :=
  accumulate
    (UINT32_Marshal (TPML_ECC_CURVE_count source) ::
     Marshal_items (Z.to_nat (TPML_ECC_CURVE_count source)) (TPML_ECC_CURVE_eccCurves source)
         TPM_ECC_CURVE_Marshal).

Definition TPML_TAGGED_POLICY_Marshal (source : TPML_TAGGED_POLICY) : Mar :=
  accumulate
    (UINT32_Marshal (TPML_TAGGED_POLICY_count source) ::
     Marshal_items (Z.to_nat (TPML_TAGGED_POLICY_count source))
         (TPML_TAGGED_POLICY_policies source) TPMS_TAGGED_POLICY_Marshal).

Definition TPML_ACT_DATA_Marshal (source : TPML_ACT_DATA) : Mar :=
  accumulate
    (UINT32_Marshal (TPML_ACT_DATA_count source) ::
     Marshal_items (Z.to_nat (TPML_ACT_DATA_count source)) (TPML_ACT_DATA_actData source)
         TPMS_ACT_DATA_Marshal).

Definition TPMU_CAPABILITIES_Marshal (selector : Z) (source : TPMU_CAPABILITIES) : Mar :=
  if selector =? TPM_CAP_ALGS then
    match source with
    | TPMU_CAPABILITIES_algorithms algorithms => accumulate [TPML_ALG_PROPERTY_Marshal algorithms]
    | _ => undef
    end
  else
  if selector =? TPM_CAP_HANDLES then
    match source with
    | TPMU_CAPABILITIES_handles handles => accumulate [TPML_HANDLE_Marshal handles]
    | _ => undef
    end
  else
  if selector =? TPM_CAP_COMMANDS then
    match source with
    | TPMU_CAPABILITIES_command command => accumulate [TPML_CCA_Marshal command]
    | _ => undef
    end
  else
  if selector =? TPM_CAP_PP_COMMANDS then
    match source with
    | TPMU_CAPABILITIES_ppCommands ppCommands => accumulate [TPML_CC_Marshal ppCommands]
    | _ => undef
    end
  else
  if selector =? TPM_CAP_AUDIT_COMMANDS then
    match source with
    | TPMU_CAPABILITIES_auditCommands auditCommands => accumulate [TPML_CC_Marshal auditCommands]
    | _ => undef
    end
  else
  if selector =? TPM_CAP_PCRS then
    match source with
    | TPMU_CAPABILITIES_assignedPCR assignedPCR => accumulate [TPML_PCR_SELECTION_Marshal assignedPCR]
    | _ => undef
    end
  else
  if selector =? TPM_CAP_TPM_PROPERTIES then
    match source with
    | TPMU_CAPABILITIES_tpmProperties tpmProperties => accumulate [TPML_TAGGED_TPM_PROPERTY_Marshal tpmProperties]
    | _ => undef
    end
  else
  if selector =? TPM_CAP_PCR_PROPERTIES then
    match source with
    | TPMU_CAPABILITIES_pcrProperties pcrProperties => accumulate [TPML_TAGGED_PCR_PROPERTY_Marshal pcrProperties]
    | _ => undef
    end
  else
  if selector =? TPM_CAP_ECC_CURVES then
    match source with
    | TPMU_CAPABILITIES_eccCurves eccCurves => accumulate [TPML_ECC_CURVE_Marshal eccCurves]
    | _ => undef
    end
  else
  if selector =? TPM_CAP_AUTH_POLICIES then
    match source with
    | TPMU_CAPABILITIES_authPolicies authPolicies => accumulate [TPML_TAGGED_POLICY_Marshal authPolicies]
    | _ => undef
    end
  else
  if selector =? TPM_CAP_ACT then
    match source with
    | TPMU_CAPABILITIES_actData actData => accumulate [TPML_ACT_DATA_Marshal actData]
    | _ => undef
    end
  else
  pAssert false ;; ret 0.

Definition TPMS_CAPABILITY_DATA_Marshal (source : TPMS_CAPABILITY_DATA) : Mar :=
  accumulate [TPM_CAP_Marshal (TPMS_CAPABILITY_DATA_capability source);
    TPMU_CAPABILITIES_Marshal (TPMS_CAPABILITY_DATA_capability source)
        (TPMS_CAPABILITY_DATA_data source)].

Definition TPMS_CLOCK_INFO_Marshal (source : TPMS_CLOCK_INFO) : Mar :=
  accumulate [UINT64_Marshal (TPMS_CLOCK_INFO_clock source);
    UINT32_Marshal (TPMS_CLOCK_INFO_resetCount source);
    UINT32_Marshal (TPMS_CLOCK_INFO_restartCount source);
    TPMI_YES_NO_Marshal (TPMS_CLOCK_INFO_safe source)].

Definition TPMS_TIME_INFO_Marshal (source : TPMS_TIME_INFO) : Mar :=
  accumulate [UINT64_Marshal (TPMS_TIME_INFO_time source);
    TPMS_CLOCK_INFO_Marshal (TPMS_TIME_INFO_clockInfo source)].

Definition TPMS_TIME_ATTEST_INFO_Marshal (source : TPMS_TIME_ATTEST_INFO) : Mar :=
  accumulate [TPMS_TIME_INFO_Marshal (TPMS_TIME_ATTEST_INFO_time source);
    UINT64_Marshal (TPMS_TIME_ATTEST_INFO_firmwareVersion source)].

Definition TPMS_CERTIFY_INFO_Marshal (source : TPMS_CERTIFY_INFO) : Mar :=
  accumulate [TPM2B_NAME_Marshal (TPMS_CERTIFY_INFO_name source);
    TPM2B_NAME_Marshal (TPMS_CERTIFY_INFO_qualifiedName source)].

Definition TPMS_QUOTE_INFO_Marshal (source : TPMS_QUOTE_INFO) : Mar :=
  accumulate [TPML_PCR_SELECTION_Marshal (TPMS_QUOTE_INFO_pcrSelect source);
    TPM2B_DIGEST_Marshal (TPMS_QUOTE_INFO_pcrDigest source)].

Definition TPMS_COMMAND_AUDIT_INFO_Marshal (source : TPMS_COMMAND_AUDIT_INFO) : Mar :=
  accumulate [UINT64_Marshal (TPMS_COMMAND_AUDIT_INFO_auditCounter source);
    TPM_ALG_ID_Marshal (TPMS_COMMAND_AUDIT_INFO_digestAlg source);
    TPM2B_DIGEST_Marshal (TPMS_COMMAND_AUDIT_INFO_auditDigest source);
    TPM2B_DIGEST_Marshal (TPMS_COMMAND_AUDIT_INFO_commandDigest source)].

Definition TPMS_SESSION_AUDIT_INFO_Marshal (source : TPMS_SESSION_AUDIT_INFO) : Mar :=
  accumulate [TPMI_YES_NO_Marshal (TPMS_SESSION_AUDIT_INFO_exclusiveSession source);
    TPM2B_DIGEST_Marshal (TPMS_SESSION_AUDIT_INFO_sessionDigest source)].

Definition TPMS_CREATION_INFO_Marshal (source : TPMS_CREATION_INFO) : Mar :=
  accumulate [TPM2B_NAME_Marshal (TPMS_CREATION_INFO_objectName source);
    TPM2B_DIGEST_Marshal (TPMS_CREATION_INFO_creationHash source)].

Definition TPMS_NV_CERTIFY_INFO_Marshal (source : TPMS_NV_CERTIFY_INFO) : Mar :=
  accumulate [TPM2B_NAME_Marshal (TPMS_NV_CERTIFY_INFO_indexName source);
    UINT16_Marshal (TPMS_NV_CERTIFY_INFO_offset source);
    TPM2B_MAX_NV_BUFFER_Marshal (TPMS_NV_CERTIFY_INFO_nvContents source)].

Definition TPMS_NV_DIGEST_CERTIFY_INFO_Marshal (source : TPMS_NV_DIGEST_CERTIFY_INFO) : Mar :=
  accumulate [TPM2B_NAME_Marshal (TPMS_NV_DIGEST_CERTIFY_INFO_indexName source);
    TPM2B_DIGEST_Marshal (TPMS_NV_DIGEST_CERTIFY_INFO_nvDigest source)].

Definition TPMI_ST_ATTEST_Marshal (source : Z) : Mar :=
  accumulate [TPM_ST_Marshal source].

Definition TPMU_ATTEST_Marshal (selector : Z) (source : TPMU_ATTEST) : Mar :=
  if selector =? TPM_ST_ATTEST_CERTIFY then
    match source with
    | TPMU_ATTEST_certify certify => accumulate [TPMS_CERTIFY_INFO_Marshal certify]
    | _ => undef
    end
  else
  if selector =? TPM_ST_ATTEST_CREATION then
    match source with
    | TPMU_ATTEST_creation creation => accumulate [TPMS_CREATION_INFO_Marshal creation]
    | _ => undef
    end
  else
  if selector =? TPM_ST_ATTEST_QUOTE then
    match source with
    | TPMU_ATTEST_quote quote => accumulate [TPMS_QUOTE_INFO_Marshal quote]
    | _ => undef
    end
  else
  if selector =? TPM_ST_ATTEST_COMMAND_AUDIT then
    match source with
    | TPMU_ATTEST_commandAudit commandAudit => accumulate [TPMS_COMMAND_AUDIT_INFO_Marshal commandAudit]
    | _ => undef
    end
  else
  if selector =? TPM_ST_ATTEST_SESSION_AUDIT then
    match source with
    | TPMU_ATTEST_sessionAudit sessionAudit => accumulate [TPMS_SESSION_AUDIT_INFO_Marshal sessionAudit]
    | _ => undef
    end
  else
  if selector =? TPM_ST_ATTEST_TIME then
    match source with
    | TPMU_ATTEST_time time => accumulate [TPMS_TIME_ATTEST_INFO_Marshal time]
    | _ => undef
    end
  else
  if selector =? TPM_ST_ATTEST_NV then
    match source with
    | TPMU_ATTEST_nv nv => accumulate [TPMS_NV_CERTIFY_INFO_Marshal nv]
    | _ => undef
    end
  else
  if selector =? TPM_ST_ATTEST_NV_DIGEST then
    match source with
    | TPMU_ATTEST_nvDigest nvDigest => accumulate [TPMS_NV_DIGEST_CERTIFY_INFO_Marshal nvDigest]
    | _ => undef
    end
  else
  pAssert false ;; ret 0.

Definition TPMS_ATTEST_Marshal (source : TPMS_ATTEST) : Mar :=
  accumulate [TPM_CONSTANTS32_Marshal (TPMS_ATTEST_magic source);
    TPMI_ST_ATTEST_Marshal (TPMS_ATTEST_type source);
    TPM2B_NAME_Marshal (TPMS_ATTEST_qualifiedSigner source);
    TPM2B_DATA_Marshal (TPMS_ATTEST_extraData source);
    TPMS_CLOCK_INFO_Marshal (TPMS_ATTEST_clockInfo source);
    UINT64_Marshal (TPMS_ATTEST_firmwareVersion source);
    TPMU_ATTEST_Marshal (TPMS_ATTEST_type source) (TPMS_ATTEST_attested source)].

Definition TPM2B_ATTEST_Marshal (source : TPM2B) : Mar :=
  accumulate [TPM2B_Marshal source].

Definition TPMI_AES_KEY_BITS_Marshal (source : Z) : Mar :=
  accumulate [TPM_KEY_BITS_Marshal source].

Definition TPMI_CAMELLIA_KEY_BITS_Marshal (source : Z) : Mar :=
  accumulate [TPM_KEY_BITS_Marshal source].

Definition TPMU_SYM_KEY_BITS_Marshal (selector : Z) (source : TPMU_SYM_KEY_BITS) : Mar :=
  if selector =? TPM_ALG_AES then
    match source with
    | TPMU_SYM_KEY_BITS_aes aes => accumulate [TPMI_AES_KEY_BITS_Marshal aes]
    | _ => undef
    end
  else
  if selector =? TPM_ALG_CAMELLIA then
    match source with
    | TPMU_SYM_KEY_BITS_camellia camellia => accumulate [TPMI_CAMELLIA_KEY_BITS_Marshal camellia]
    | _ => undef
    end
  else
  if selector =? TPM_ALG_XOR then
    match source with
    | TPMU_SYM_KEY_BITS_xorr xorr => accumulate [TPMI_ALG_HASH_Marshal xorr]
    | _ => undef
    end
  else
  if selector =? TPM_ALG_NULL then ret 0 else
  pAssert false ;; ret 0.

Definition TPMU_SYM_MODE_Marshal (selector : Z) (source : TPMU_SYM_MODE) : Mar :=
  if selector =? TPM_ALG_AES then
    match source with
    | TPMU_SYM_MODE_aes aes => accumulate [TPMI_ALG_SYM_MODE_Marshal aes]
    | _ => undef
    end
  else
  if selector =? TPM_ALG_CAMELLIA then
    match source with
    | TPMU_SYM_MODE_camellia camellia => accumulate [TPMI_ALG_SYM_MODE_Marshal camellia]
    | _ => undef
    end
  else
  if one_of selector [TPM_ALG_XOR; TPM_ALG_NULL] then ret 0 else
  pAssert false ;; ret 0.

Definition TPMT_SYM_DEF_OBJECT_Marshal (source : TPMT_SYM_DEF_OBJECT) : Mar :=
  accumulate [TPMI_ALG_SYM_OBJECT_Marshal (TPMT_SYM_DEF_OBJECT_algorithm source);
    TPMU_SYM_KEY_BITS_Marshal (TPMT_SYM_DEF_OBJECT_algorithm source)
        (TPMT_SYM_DEF_OBJECT_keyBits source);
    TPMU_SYM_MODE_Marshal (TPMT_SYM_DEF_OBJECT_algorithm source)
        (TPMT_SYM_DEF_OBJECT_mode source)].

Definition TPM2B_SYM_KEY_Marshal (source : TPM2B) : Mar :=
  accumulate [TPM2B_Marshal source].

Definition TPMS_SYMCIPHER_PARMS_Marshal (source : TPMS_SYMCIPHER_PARMS) : Mar :=
  accumulate [TPMT_SYM_DEF_OBJECT_Marshal (TPMS_SYMCIPHER_PARMS_sym source)].

Definition TPM2B_SENSITIVE_DATA_Marshal (source : TPM2B) : Mar :=
  accumulate [TPM2B_Marshal source].

Definition TPMS_SCHEME_HASH_Marshal (source : TPMS_SCHEME_HASH) : Mar :=
  accumulate [TPMI_ALG_HASH_Marshal (TPMS_SCHEME_HASH_hashAlg source)].

Definition TPMS_SCHEME_ECDAA_Marshal (source : TPMS_SCHEME_ECDAA) : Mar :=
  accumulate [TPMI_ALG_HASH_Marshal (TPMS_SCHEME_ECDAA_hashAlg source);
    UINT16_Marshal (TPMS_SCHEME_ECDAA_count source)].

Definition TPMI_ALG_KEYEDHASH_SCHEME_Marshal (source : Z) : Mar :=
  accumulate [TPM_ALG_ID_Marshal source].

Definition TPMS_SCHEME_HMAC_Marshal (source : TPMS_SCHEME_HASH) : Mar :=
  accumulate [TPMS_SCHEME_HASH_Marshal source].

Definition TPMS_SCHEME_XOR_Marshal (source : TPMS_SCHEME_XOR) : Mar :=
  accumulate [TPMI_ALG_HASH_Marshal (TPMS_SCHEME_XOR_hashAlg source);
    TPMI_ALG_KDF_Marshal (TPMS_SCHEME_XOR_kdf source)].

Definition TPMU_SCHEME_KEYEDHASH_Marshal (selector : Z) (source : TPMU_SCHEME_KEYEDHASH) : Mar :=
  if selector =? TPM_ALG_HMAC then
    match source with
    | TPMU_SCHEME_KEYEDHASH_hmac hmac => accumulate [TPMS_SCHEME_HMAC_Marshal hmac]
    | _ => undef
    end
  else
  if selector =? TPM_ALG_XOR then
    match source with
    | TPMU_SCHEME_KEYEDHASH_xorr xorr => accumulate [TPMS_SCHEME_XOR_Marshal xorr]
    | _ => undef
    end
  else
  if selector =? TPM_ALG_NULL then ret 0 else
  pAssert false ;; ret 0.

Definition TPMT_KEYEDHASH_SCHEME_Marshal (source : TPMT_KEYEDHASH_SCHEME) : Mar :=
  accumulate [TPMI_ALG_KEYEDHASH_SCHEME_Marshal (TPMT_KEYEDHASH_SCHEME_scheme source);
    TPMU_SCHEME_KEYEDHASH_Marshal (TPMT_KEYEDHASH_SCHEME_scheme source)
        (TPMT_KEYEDHASH_SCHEME_details source)].

Definition TPMS_SIG_SCHEME_RSASSA_Marshal (source : TPMS_SCHEME_HASH) : Mar :=
  accumulate [TPMS_SCHEME_HASH_Marshal source].

Definition TPMS_SIG_SCHEME_RSAPSS_Marshal (source : TPMS_SCHEME_HASH) : Mar :=
  accumulate [TPMS_SCHEME_HASH_Marshal source].

Definition TPMS_SIG_SCHEME_ECDSA_Marshal (source : TPMS_SCHEME_HASH) : Mar :=
  accumulate [TPMS_SCHEME_HASH_Marshal source].

Definition TPMS_SIG_SCHEME_SM2_Marshal (source : TPMS_SCHEME_HASH) : Mar :=
  accumulate [TPMS_SCHEME_HASH_Marshal source].

Definition TPMS_SIG_SCHEME_ECSCHNORR_Marshal (source : TPMS_SCHEME_HASH) : Mar :=
  accumulate [TPMS_SCHEME_HASH_Marshal source].

Definition TPMS_SIG_SCHEME_ECDAA_Marshal (source : TPMS_SCHEME_ECDAA) : Mar :=
  accumulate [TPMS_SCHEME_ECDAA_Marshal source].

Definition TPMS_ENC_SCHEME_OAEP_Marshal (source : TPMS_SCHEME_HASH) : Mar :=
  accumulate [TPMS_SCHEME_HASH_Marshal source].

Definition TPMS_ENC_SCHEME_RSAES_Marshal (source : unit) : Mar :=
  ret 0.

Definition TPMS_KEY_SCHEME_ECDH_Marshal (source : TPMS_SCHEME_HASH) : Mar :=
  accumulate [TPMS_SCHEME_HASH_Marshal source].

Definition TPMS_KEY_SCHEME_ECMQV_Marshal (source : TPMS_SCHEME_HASH) : Mar :=
  accumulate [TPMS_SCHEME_HASH_Marshal source].

Definition TPMS_KDF_SCHEME_MGF1_Marshal (source : TPMS_SCHEME_HASH) : Mar :=
  accumulate [TPMS_SCHEME_HASH_Marshal source].

Definition TPMS_KDF_SCHEME_KDF1_SP800_56A_Marshal (source : TPMS_SCHEME_HASH) : Mar :=
  accumulate [TPMS_SCHEME_HASH_Marshal source].

Definition TPMS_KDF_SCHEME_KDF2_Marshal (source : TPMS_SCHEME_HASH) : Mar :=
  accumulate [TPMS_SCHEME_HASH_Marshal source].

Definition TPMS_KDF_SCHEME_KDF1_SP800_108_Marshal (source : TPMS_SCHEME_HASH) : Mar :=
  accumulate [TPMS_SCHEME_HASH_Marshal source].

Definition TPMU_KDF_SCHEME_Marshal (selector : Z) (source : TPMU_KDF_SCHEME) : Mar :=
  if selector =? TPM_ALG_MGF1 then
    match source with
    | TPMU_KDF_SCHEME_mgf1 mgf1 => accumulate [TPMS_KDF_SCHEME_MGF1_Marshal mgf1]
    | _ => undef
    end
  else
  if selector =? TPM_ALG_KDF1_SP800_56A then
    match source with
    | TPMU_KDF_SCHEME_kdf1_sp800_56a kdf1_sp800_56a => accumulate [TPMS_KDF_SCHEME_KDF1_SP800_56A_Marshal kdf1_sp800_56a]
    | _ => undef
    end
  else
  if selector =? TPM_ALG_KDF2 then
    match source with
    | TPMU_KDF_SCHEME_kdf2 kdf2 => accumulate [TPMS_KDF_SCHEME_KDF2_Marshal kdf2]
    | _ => undef
    end
  else
  if selector =? TPM_ALG_KDF1_SP800_108 then
    match source with
    | TPMU_KDF_SCHEME_kdf1_sp800_108 kdf1_sp800_108 => accumulate [TPMS_KDF_SCHEME_KDF1_SP800_108_Marshal kdf1_sp800_108]
    | _ => undef
    end
  else
  if selector =? TPM_ALG_NULL then ret 0 else
  pAssert false ;; ret 0.

Definition TPMT_KDF_SCHEME_Marshal (source : TPMT_KDF_SCHEME) : Mar :=
  accumulate [TPMI_ALG_KDF_Marshal (TPMT_KDF_SCHEME_scheme source);
    TPMU_KDF_SCHEME_Marshal (TPMT_KDF_SCHEME_scheme source) (TPMT_KDF_SCHEME_details source)].

Definition TPMU_ASYM_SCHEME_Marshal (selector : Z) (source : TPMU_ASYM_SCHEME) : Mar :=
  if selector =? TPM_ALG_ECDH then
    match source with
    | TPMU_ASYM_SCHEME_ecdh ecdh => accumulate [TPMS_KEY_SCHEME_ECDH_Marshal ecdh]
    | _ => undef
    end
  else
  if selector =? TPM_ALG_ECMQV then
    match source with
    | TPMU_ASYM_SCHEME_ecmqv ecmqv => accumulate [TPMS_KEY_SCHEME_ECMQV_Marshal ecmqv]
    | _ => undef
    end
  else
  if selector =? TPM_ALG_RSASSA then
    match source with
    | TPMU_ASYM_SCHEME_rsassa rsassa => accumulate [TPMS_SIG_SCHEME_RSASSA_Marshal rsassa]
    | _ => undef
    end
  else
  if selector =? TPM_ALG_RSAPSS then
    match source with
    | TPMU_ASYM_SCHEME_rsapss rsapss => accumulate [TPMS_SIG_SCHEME_RSAPSS_Marshal rsapss]
    | _ => undef
    end
  else
  if selector =? TPM_ALG_ECDSA then
    match source with
    | TPMU_ASYM_SCHEME_ecdsa ecdsa => accumulate [TPMS_SIG_SCHEME_ECDSA_Marshal ecdsa]
    | _ => undef
    end
  else
  if selector =? TPM_ALG_ECDAA then
    match source with
    | TPMU_ASYM_SCHEME_ecdaa ecdaa => accumulate [TPMS_SIG_SCHEME_ECDAA_Marshal ecdaa]
    | _ => undef
    end
  else
  if selector =? TPM_ALG_SM2 then
    match source with
    | TPMU_ASYM_SCHEME_sm2 sm2 => accumulate [TPMS_SIG_SCHEME_SM2_Marshal sm2]
    | _ => undef
    end
  else
  if selector =? TPM_ALG_ECSCHNORR then
    match source with
    | TPMU_ASYM_SCHEME_ecschnorr ecschnorr => accumulate [TPMS_SIG_SCHEME_ECSCHNORR_Marshal ecschnorr]
    | _ => undef
    end
  else
  if selector =? TPM_ALG_RSAES then
    match source with
    | TPMU_ASYM_SCHEME_rsaes rsaes => accumulate [TPMS_ENC_SCHEME_RSAES_Marshal rsaes]
    | _ => undef
    end
  else
  if selector =? TPM_ALG_OAEP then
    match source with
    | TPMU_ASYM_SCHEME_oaep oaep => accumulate [TPMS_ENC_SCHEME_OAEP_Marshal oaep]
    | _ => undef
    end
  else
  if selector =? TPM_ALG_NULL then ret 0 else
  pAssert false ;; ret 0.

Definition TPMI_ALG_RSA_SCHEME_Marshal (source : Z) : Mar :=
  accumulate [TPM_ALG_ID_Marshal source].

Definition TPMT_RSA_SCHEME_Marshal (source : TPMT_RSA_SCHEME) : Mar :=
  accumulate [TPMI_ALG_RSA_SCHEME_Marshal (TPMT_RSA_SCHEME_scheme source);
    TPMU_ASYM_SCHEME_Marshal (TPMT_RSA_SCHEME_scheme source) (TPMT_RSA_SCHEME_details source)].

Definition TPM2B_PUBLIC_KEY_RSA_Marshal (source : TPM2B) : Mar :=
  accumulate [TPM2B_Marshal source].

Definition TPMI_RSA_KEY_BITS_Marshal (source : Z) : Mar :=
  accumulate [TPM_KEY_BITS_Marshal source].

Definition TPM2B_PRIVATE_KEY_RSA_Marshal (source : TPM2B) : Mar :=
  accumulate [TPM2B_Marshal source].

Definition TPM2B_ECC_PARAMETER_Marshal (source : TPM2B) : Mar :=
  accumulate [TPM2B_Marshal source].

Definition TPMS_ECC_POINT_Marshal (source : TPMS_ECC_POINT) : Mar :=
  accumulate [TPM2B_ECC_PARAMETER_Marshal (TPMS_ECC_POINT_x source);
    TPM2B_ECC_PARAMETER_Marshal (TPMS_ECC_POINT_y source)].

Definition TPM2B_ECC_POINT_Marshal (source : TPM2B_ECC_POINT) : Mar :=
  size_prefixed (TPMS_ECC_POINT_Marshal (TPM2B_ECC_POINT_point source)).

Definition TPMI_ALG_ECC_SCHEME_Marshal (source : Z) : Mar :=
  accumulate [TPM_ALG_ID_Marshal source].

Definition TPMI_ECC_CURVE_Marshal (source : Z) : Mar :=
  accumulate [TPM_ECC_CURVE_Marshal source].

Definition TPMT_ECC_SCHEME_Marshal (source : TPMT_ECC_SCHEME) : Mar :=
  accumulate [TPMI_ALG_ECC_SCHEME_Marshal (TPMT_ECC_SCHEME_scheme source);
    TPMU_ASYM_SCHEME_Marshal (TPMT_ECC_SCHEME_scheme source) (TPMT_ECC_SCHEME_details source)].

Definition TPMS_ALGORITHM_DETAIL_ECC_Marshal (source : TPMS_ALGORITHM_DETAIL_ECC) : Mar :=
  accumulate [TPM_ECC_CURVE_Marshal (TPMS_ALGORITHM_DETAIL_ECC_curveID source);
    UINT16_Marshal (TPMS_ALGORITHM_DETAIL_ECC_keySize source);
    TPMT_KDF_SCHEME_Marshal (TPMS_ALGORITHM_DETAIL_ECC_kdf source);
    TPMT_ECC_SCHEME_Marshal (TPMS_ALGORITHM_DETAIL_ECC_sign source);
    TPM2B_ECC_PARAMETER_Marshal (TPMS_ALGORITHM_DETAIL_ECC_p source);
    TPM2B_ECC_PARAMETER_Marshal (TPMS_ALGORITHM_DETAIL_ECC_a source);
    TPM2B_ECC_PARAMETER_Marshal (TPMS_ALGORITHM_DETAIL_ECC_b source);
    TPM2B_ECC_PARAMETER_Marshal (TPMS_ALGORITHM_DETAIL_ECC_gX source);
    TPM2B_ECC_PARAMETER_Marshal (TPMS_ALGORITHM_DETAIL_ECC_gY source);
    TPM2B_ECC_PARAMETER_Marshal (TPMS_ALGORITHM_DETAIL_ECC_n source);
    TPM2B_ECC_PARAMETER_Marshal (TPMS_ALGORITHM_DETAIL_ECC_h source)].

Definition TPMS_SIGNATURE_RSA_Marshal (source : TPMS_SIGNATURE_RSA) : Mar :=
  accumulate [TPMI_ALG_HASH_Marshal (TPMS_SIGNATURE_RSA_hash source);
    TPM2B_PUBLIC_KEY_RSA_Marshal (TPMS_SIGNATURE_RSA_sig source)].

Definition TPMS_SIGNATURE_RSASSA_Marshal (source : TPMS_SIGNATURE_RSA) : Mar :=
  accumulate [TPMS_SIGNATURE_RSA_Marshal source].

Definition TPMS_SIGNATURE_RSAPSS_Marshal (source : TPMS_SIGNATURE_RSA) : Mar :=
  accumulate [TPMS_SIGNATURE_RSA_Marshal source].

Definition TPMS_SIGNATURE_ECC_Marshal (source : TPMS_SIGNATURE_ECC) : Mar :=
  accumulate [TPMI_ALG_HASH_Marshal (TPMS_SIGNATURE_ECC_hash source);
    TPM2B_ECC_PARAMETER_Marshal (TPMS_SIGNATURE_ECC_signatureR source);
    TPM2B_ECC_PARAMETER_Marshal (TPMS_SIGNATURE_ECC_signatureS source)].

Definition TPMS_SIGNATURE_ECDSA_Marshal (source : TPMS_SIGNATURE_ECC) : Mar :=
  accumulate [TPMS_SIGNATURE_ECC_Marshal source].

Definition TPMS_SIGNATURE_ECDAA_Marshal (source : TPMS_SIGNATURE_ECC) : Mar :=
  accumulate [TPMS_SIGNATURE_ECC_Marshal source].

Definition TPMS_SIGNATURE_SM2_Marshal (source : TPMS_SIGNATURE_ECC) : Mar :=
  accumulate [TPMS_SIGNATURE_ECC_Marshal source].

Definition TPMS_SIGNATURE_ECSCHNORR_Marshal (source : TPMS_SIGNATURE_ECC) : Mar :=
  accumulate [TPMS_SIGNATURE_ECC_Marshal source].

Definition TPMU_SIGNATURE_Marshal (selector : Z) (source : TPMU_SIGNATURE) : Mar :=
  if selector =? TPM_ALG_RSASSA then
    match source with
    | TPMU_SIGNATURE_rsassa rsassa => accumulate [TPMS_SIGNATURE_RSASSA_Marshal rsassa]
    | _ => undef
    end
  else
  if selector =? TPM_ALG_RSAPSS then
    match source with
    | TPMU_SIGNATURE_rsapss rsapss => accumulate [TPMS_SIGNATURE_RSAPSS_Marshal rsapss]
    | _ => undef
    end
  else
  if selector =? TPM_ALG_ECDSA then
    match source with
    | TPMU_SIGNATURE_ecdsa ecdsa => accumulate [TPMS_SIGNATURE_ECDSA_Marshal ecdsa]
    | _ => undef
    end
  else
  if selector =? TPM_ALG_ECDAA then
    match source with
    | TPMU_SIGNATURE_ecdaa ecdaa => accumulate [TPMS_SIGNATURE_ECDAA_Marshal ecdaa]
    | _ => undef
    end
  else
  if selector =? TPM_ALG_SM2 then
    match source with
    | TPMU_SIGNATURE_sm2 sm2 => accumulate [TPMS_SIGNATURE_SM2_Marshal sm2]
    | _ => undef
    end
  else
  if selector =? TPM_ALG_ECSCHNORR then
    match source with
    | TPMU_SIGNATURE_ecschnorr ecschnorr => accumulate [TPMS_SIGNATURE_ECSCHNORR_Marshal ecschnorr]
    | _ => undef
    end
  else
  if selector =? TPM_ALG_HMAC then
    match source with
    | TPMU_SIGNATURE_hmac hmac => accumulate [TPMT_HA_Marshal hmac]
    | _ => undef
    end
  else
  if selector =? TPM_ALG_NULL then ret 0 else
  pAssert false ;; ret 0.

Definition TPMT_SIGNATURE_Marshal (source : TPMT_SIGNATURE) : Mar :=
  accumulate [TPMI_ALG_SIG_SCHEME_Marshal (TPMT_SIGNATURE_sigAlg source);
    TPMU_SIGNATURE_Marshal (TPMT_SIGNATURE_sigAlg source) (TPMT_SIGNATURE_signature source)].

Definition TPM2B_ENCRYPTED_SECRET_Marshal (source : TPM2B) : Mar :=
  accumulate [TPM2B_Marshal source].

Definition TPMI_ALG_PUBLIC_Marshal (source : Z) : Mar :=
  accumulate [TPM_ALG_ID_Marshal source].

Definition TPMU_PUBLIC_ID_Marshal (selector : Z) (source : TPMU_PUBLIC_ID) : Mar :=
  if selector =? TPM_ALG_KEYEDHASH then
    match source with
    | TPMU_PUBLIC_ID_keyedHash keyedHash => accumulate [TPM2B_DIGEST_Marshal keyedHash]
    | _ => undef
    end
  else
  if selector =? TPM_ALG_SYMCIPHER then
    match source with
    | TPMU_PUBLIC_ID_sym sym => accumulate [TPM2B_DIGEST_Marshal sym]
    | _ => undef
    end
  else
  if selector =? TPM_ALG_RSA then
    match source with
    | TPMU_PUBLIC_ID_rsa rsa => accumulate [TPM2B_PUBLIC_KEY_RSA_Marshal rsa]
    | _ => undef
    end
  else
  if selector =? TPM_ALG_ECC then
    match source with
    | TPMU_PUBLIC_ID_ecc ecc => accumulate [TPMS_ECC_POINT_Marshal ecc]
    | _ => undef
    end
  else
  pAssert false ;; ret 0.

Definition TPMS_KEYEDHASH_PARMS_Marshal (source : TPMS_KEYEDHASH_PARMS) : Mar :=
  accumulate [TPMT_KEYEDHASH_SCHEME_Marshal (TPMS_KEYEDHASH_PARMS_scheme source)].

Definition TPMS_RSA_PARMS_Marshal (source : TPMS_RSA_PARMS) : Mar :=
  accumulate [TPMT_SYM_DEF_OBJECT_Marshal (TPMS_RSA_PARMS_symmetric source);
    TPMT_RSA_SCHEME_Marshal (TPMS_RSA_PARMS_scheme source);
    TPMI_RSA_KEY_BITS_Marshal (TPMS_RSA_PARMS_keyBits source);
    UINT32_Marshal (TPMS_RSA_PARMS_exponent source)].

Definition TPMS_ECC_PARMS_Marshal (source : TPMS_ECC_PARMS) : Mar :=
  accumulate [TPMT_SYM_DEF_OBJECT_Marshal (TPMS_ECC_PARMS_symmetric source);
    TPMT_ECC_SCHEME_Marshal (TPMS_ECC_PARMS_scheme source);
    TPMI_ECC_CURVE_Marshal (TPMS_ECC_PARMS_curveID source);
    TPMT_KDF_SCHEME_Marshal (TPMS_ECC_PARMS_kdf source)].

Definition TPMU_PUBLIC_PARMS_Marshal (selector : Z) (source : TPMU_PUBLIC_PARMS) : Mar :=
  if selector =? TPM_ALG_KEYEDHASH then
    match source with
    | TPMU_PUBLIC_PARMS_keyedHashDetail keyedHashDetail => accumulate [TPMS_KEYEDHASH_PARMS_Marshal keyedHashDetail]
    | _ => undef
    end
  else
  if selector =? TPM_ALG_SYMCIPHER then
    match source with
    | TPMU_PUBLIC_PARMS_symDetail symDetail => accumulate [TPMS_SYMCIPHER_PARMS_Marshal symDetail]
    | _ => undef
    end
  else
  if selector =? TPM_ALG_RSA then
    match source with
    | TPMU_PUBLIC_PARMS_rsaDetail rsaDetail => accumulate [TPMS_RSA_PARMS_Marshal rsaDetail]
    | _ => undef
    end
  else
  if selector =? TPM_ALG_ECC then
    match source with
    | TPMU_PUBLIC_PARMS_eccDetail eccDetail => accumulate [TPMS_ECC_PARMS_Marshal eccDetail]
    | _ => undef
    end
  else
  pAssert false ;; ret 0.

Definition TPMT_PUBLIC_Marshal (source : TPMT_PUBLIC) : Mar :=
  accumulate [TPMI_ALG_PUBLIC_Marshal (TPMT_PUBLIC_type source);
    TPMI_ALG_HASH_Marshal (TPMT_PUBLIC_nameAlg source);
    TPMA_OBJECT_Marshal (TPMT_PUBLIC_objectAttributes source);
    TPM2B_DIGEST_Marshal (TPMT_PUBLIC_authPolicy source);
    TPMU_PUBLIC_PARMS_Marshal (TPMT_PUBLIC_type source) (TPMT_PUBLIC_parameters source);
    TPMU_PUBLIC_ID_Marshal (TPMT_PUBLIC_type source) (TPMT_PUBLIC_unique source)].

Definition TPM2B_PUBLIC_Marshal (source : TPM2B_PUBLIC) : Mar :=
  size_prefixed (TPMT_PUBLIC_Marshal (TPM2B_PUBLIC_publicArea source)).

Definition TPMU_SENSITIVE_COMPOSITE_Marshal (selector : Z) (source : TPMU_SENSITIVE_COMPOSITE)
    : Mar :=
  if selector =? TPM_ALG_RSA then
    match source with
    | TPMU_SENSITIVE_COMPOSITE_rsa rsa => accumulate [TPM2B_PRIVATE_KEY_RSA_Marshal rsa]
    | _ => undef
    end
  else
  if selector =? TPM_ALG_ECC then
    match source with
    | TPMU_SENSITIVE_COMPOSITE_ecc ecc => accumulate [TPM2B_ECC_PARAMETER_Marshal ecc]
    | _ => undef
    end
  else
  if selector =? TPM_ALG_KEYEDHASH then
    match source with
    | TPMU_SENSITIVE_COMPOSITE_bits bits => accumulate [TPM2B_SENSITIVE_DATA_Marshal bits]
    | _ => undef
    end
  else
  if selector =? TPM_ALG_SYMCIPHER then
    match source with
    | TPMU_SENSITIVE_COMPOSITE_sym sym => accumulate [TPM2B_SYM_KEY_Marshal sym]
    | _ => undef
    end
  else
  pAssert false ;; ret 0.

Definition TPMT_SENSITIVE_Marshal (source : TPMT_SENSITIVE) : Mar :=
  accumulate [TPMI_ALG_PUBLIC_Marshal (TPMT_SENSITIVE_sensitiveType source);
    TPM2B_AUTH_Marshal (TPMT_SENSITIVE_authValue source);
    TPM2B_DIGEST_Marshal (TPMT_SENSITIVE_seedValue source);
    TPMU_SENSITIVE_COMPOSITE_Marshal (TPMT_SENSITIVE_sensitiveType source)
        (TPMT_SENSITIVE_sensitive source)].

Definition TPM2B_PRIVATE_Marshal (source : TPM2B) : Mar :=
  accumulate [TPM2B_Marshal source].

Definition TPM2B_ID_OBJECT_Marshal (source : TPM2B) : Mar :=
  accumulate [TPM2B_Marshal source].

Definition TPMA_NV_Marshal (source : Z) : Mar :=
  accumulate [UINT32_Marshal source].

Definition TPMA_NV_EXP_Marshal (source : Z) : Mar :=
  accumulate [UINT64_Marshal source].

Definition TPMS_NV_PUBLIC_Marshal (source : TPMS_NV_PUBLIC) : Mar :=
  accumulate [TPMI_RH_NV_INDEX_Marshal (TPMS_NV_PUBLIC_nvIndex source);
    TPMI_ALG_HASH_Marshal (TPMS_NV_PUBLIC_nameAlg source);
    TPMA_NV_Marshal (TPMS_NV_PUBLIC_attributes source);
    TPM2B_DIGEST_Marshal (TPMS_NV_PUBLIC_authPolicy source);
    UINT16_Marshal (TPMS_NV_PUBLIC_dataSize source)].

Definition TPM2B_NV_PUBLIC_Marshal (source : TPM2B_NV_PUBLIC) : Mar :=
  size_prefixed (TPMS_NV_PUBLIC_Marshal (TPM2B_NV_PUBLIC_nvPublic source)).

Definition TPMS_NV_PUBLIC_EXP_ATTR_Marshal (source : TPMS_NV_PUBLIC_EXP_ATTR) : Mar :=
  accumulate [TPMI_RH_NV_EXP_INDEX_Marshal (TPMS_NV_PUBLIC_EXP_ATTR_nvIndex source);
    TPMI_ALG_HASH_Marshal (TPMS_NV_PUBLIC_EXP_ATTR_nameAlg source);
    TPMA_NV_EXP_Marshal (TPMS_NV_PUBLIC_EXP_ATTR_attributes source);
    TPM2B_DIGEST_Marshal (TPMS_NV_PUBLIC_EXP_ATTR_authPolicy source);
    UINT16_Marshal (TPMS_NV_PUBLIC_EXP_ATTR_dataSize source)].

Definition TPMU_NV_PUBLIC_2_Marshal (selector : Z) (source : TPMU_NV_PUBLIC_2) : Mar :=
  if selector =? TPM_HT_NV_INDEX then
    match source with
    | TPMU_NV_PUBLIC_2_nvIndex nvIndex => accumulate [TPMS_NV_PUBLIC_Marshal nvIndex]
    | _ => undef
    end
  else
  if selector =? TPM_HT_EXTERNAL_NV then
    match source with
    | TPMU_NV_PUBLIC_2_externalNV externalNV => accumulate [TPMS_NV_PUBLIC_EXP_ATTR_Marshal externalNV]
    | _ => undef
    end
  else
  if selector =? TPM_HT_PERMANENT_NV then
    match source with
    | TPMU_NV_PUBLIC_2_permanentNV permanentNV => accumulate [TPMS_NV_PUBLIC_Marshal permanentNV]
    | _ => undef
    end
  else
  pAssert false ;; ret 0.

Definition TPMT_NV_PUBLIC_2_Marshal (source : TPMT_NV_PUBLIC_2) : Mar :=
  accumulate [UINT8_Marshal (TPMT_NV_PUBLIC_2_handleType source);
    TPMU_NV_PUBLIC_2_Marshal (TPMT_NV_PUBLIC_2_handleType source)
        (TPMT_NV_PUBLIC_2_nvPublic2 source)].

Definition TPM2B_NV_PUBLIC_2_Marshal (source : TPM2B_NV_PUBLIC_2) : Mar :=
  size_prefixed (TPMT_NV_PUBLIC_2_Marshal (TPM2B_NV_PUBLIC_2_nvPublic2 source)).

Definition TPM2B_CONTEXT_DATA_Marshal (source : TPM2B) : Mar :=
  accumulate [TPM2B_Marshal source].

Definition TPMS_CONTEXT_Marshal (source : TPMS_CONTEXT) : Mar :=
  accumulate [UINT64_Marshal (TPMS_CONTEXT_sequence source);
    TPMI_DH_SAVED_Marshal (TPMS_CONTEXT_savedHandle source);
    TPMI_RH_HIERARCHY_Marshal (TPMS_CONTEXT_hierarchy source);
    TPM2B_CONTEXT_DATA_Marshal (TPMS_CONTEXT_contextBlob source)].

Definition TPMS_CREATION_DATA_Marshal (source : TPMS_CREATION_DATA) : Mar :=
  accumulate [TPML_PCR_SELECTION_Marshal (TPMS_CREATION_DATA_pcrSelect source);
    TPM2B_DIGEST_Marshal (TPMS_CREATION_DATA_pcrDigest source);
    TPMA_LOCALITY_Marshal (TPMS_CREATION_DATA_locality source);
    TPM_ALG_ID_Marshal (TPMS_CREATION_DATA_parentNameAlg source);
    TPM2B_NAME_Marshal (TPMS_CREATION_DATA_parentName source);
    TPM2B_NAME_Marshal (TPMS_CREATION_DATA_parentQualifiedName source);
    TPM2B_DATA_Marshal (TPMS_CREATION_DATA_outsideInfo source)].

Definition TPM2B_CREATION_DATA_Marshal (source : TPM2B_CREATION_DATA) : Mar :=
  size_prefixed (TPMS_CREATION_DATA_Marshal (TPM2B_CREATION_DATA_creationData source)).

Definition TPM_AT_Marshal (source : Z) : Mar :=
  accumulate [UINT32_Marshal source].

Definition TPMS_AC_OUTPUT_Marshal (source : TPMS_AC_OUTPUT) : Mar :=
  accumulate [TPM_AT_Marshal (TPMS_AC_OUTPUT_tag source);
    UINT32_Marshal (TPMS_AC_OUTPUT_data source)].

Definition TPML_AC_CAPABILITIES_Marshal (source : TPML_AC_CAPABILITIES) : Mar :=
  accumulate
    (UINT32_Marshal (TPML_AC_CAPABILITIES_count source) ::
     Marshal_items (Z.to_nat (TPML_AC_CAPABILITIES_count source))
         (TPML_AC_CAPABILITIES_acCapabilities source) TPMS_AC_OUTPUT_Marshal).

(** The functions are told apart by name when a contract is looked up. *)
#[export] Hint Opaque
  Array_Marshal TPM2B_Marshal UINT16_Marshal UINT32_Marshal UINT64_Marshal UINT8_Marshal
  TPM_KEY_BITS_Marshal TPM_CONSTANTS32_Marshal TPM_ALG_ID_Marshal TPM_ECC_CURVE_Marshal
  TPM_CC_Marshal TPM_RC_Marshal TPM_ST_Marshal TPM_CAP_Marshal TPM_PT_Marshal
  TPM_PT_PCR_Marshal TPM_HANDLE_Marshal TPMA_ALGORITHM_Marshal TPMA_OBJECT_Marshal
  TPMA_SESSION_Marshal TPMA_LOCALITY_Marshal TPMA_CC_Marshal TPMI_YES_NO_Marshal
  TPMA_ACT_Marshal TPMI_DH_SAVED_Marshal TPMI_RH_HIERARCHY_Marshal TPMI_RH_NV_INDEX_Marshal
  TPMI_RH_NV_EXP_INDEX_Marshal TPMI_ALG_HASH_Marshal TPMI_ALG_SYM_OBJECT_Marshal
  TPMI_ALG_SYM_MODE_Marshal TPMI_ALG_KDF_Marshal TPMI_ALG_SIG_SCHEME_Marshal TPMU_HA_Marshal
  TPMT_HA_Marshal TPM2B_DIGEST_Marshal TPM2B_DATA_Marshal TPM2B_NONCE_Marshal
  TPM2B_AUTH_Marshal TPM2B_MAX_BUFFER_Marshal TPM2B_MAX_NV_BUFFER_Marshal
  TPM2B_TIMEOUT_Marshal TPM2B_IV_Marshal TPM2B_NAME_Marshal TPMS_PCR_SELECTION_Marshal
  TPMT_TK_CREATION_Marshal TPMT_TK_VERIFIED_Marshal TPMT_TK_AUTH_Marshal
  TPMT_TK_HASHCHECK_Marshal TPMS_ALG_PROPERTY_Marshal TPMS_TAGGED_PCR_SELECT_Marshal
  TPMS_TAGGED_POLICY_Marshal TPMS_ACT_DATA_Marshal TPMS_TAGGED_PROPERTY_Marshal
  TPML_CC_Marshal TPML_CCA_Marshal TPML_ALG_Marshal TPML_HANDLE_Marshal TPML_DIGEST_Marshal
  TPML_DIGEST_VALUES_Marshal TPML_PCR_SELECTION_Marshal TPML_ALG_PROPERTY_Marshal
  TPML_TAGGED_TPM_PROPERTY_Marshal TPML_TAGGED_PCR_PROPERTY_Marshal TPML_ECC_CURVE_Marshal
  TPML_TAGGED_POLICY_Marshal TPML_ACT_DATA_Marshal TPMU_CAPABILITIES_Marshal
  TPMS_CAPABILITY_DATA_Marshal TPMS_CLOCK_INFO_Marshal TPMS_TIME_INFO_Marshal
  TPMS_TIME_ATTEST_INFO_Marshal TPMS_CERTIFY_INFO_Marshal TPMS_QUOTE_INFO_Marshal
  TPMS_COMMAND_AUDIT_INFO_Marshal TPMS_SESSION_AUDIT_INFO_Marshal TPMS_CREATION_INFO_Marshal
  TPMS_NV_CERTIFY_INFO_Marshal TPMS_NV_DIGEST_CERTIFY_INFO_Marshal TPMI_ST_ATTEST_Marshal
  TPMU_ATTEST_Marshal TPMS_ATTEST_Marshal TPM2B_ATTEST_Marshal TPMI_AES_KEY_BITS_Marshal
  TPMI_CAMELLIA_KEY_BITS_Marshal TPMU_SYM_KEY_BITS_Marshal TPMU_SYM_MODE_Marshal
  TPMT_SYM_DEF_OBJECT_Marshal TPM2B_SYM_KEY_Marshal TPMS_SYMCIPHER_PARMS_Marshal
  TPM2B_SENSITIVE_DATA_Marshal TPMS_SCHEME_HASH_Marshal TPMS_SCHEME_ECDAA_Marshal
  TPMI_ALG_KEYEDHASH_SCHEME_Marshal TPMS_SCHEME_HMAC_Marshal TPMS_SCHEME_XOR_Marshal
  TPMU_SCHEME_KEYEDHASH_Marshal TPMT_KEYEDHASH_SCHEME_Marshal TPMS_SIG_SCHEME_RSASSA_Marshal
  TPMS_SIG_SCHEME_RSAPSS_Marshal TPMS_SIG_SCHEME_ECDSA_Marshal TPMS_SIG_SCHEME_SM2_Marshal
  TPMS_SIG_SCHEME_ECSCHNORR_Marshal TPMS_SIG_SCHEME_ECDAA_Marshal TPMS_ENC_SCHEME_OAEP_Marshal
  TPMS_ENC_SCHEME_RSAES_Marshal TPMS_KEY_SCHEME_ECDH_Marshal TPMS_KEY_SCHEME_ECMQV_Marshal
  TPMS_KDF_SCHEME_MGF1_Marshal TPMS_KDF_SCHEME_KDF1_SP800_56A_Marshal
  TPMS_KDF_SCHEME_KDF2_Marshal TPMS_KDF_SCHEME_KDF1_SP800_108_Marshal TPMU_KDF_SCHEME_Marshal
  TPMT_KDF_SCHEME_Marshal TPMU_ASYM_SCHEME_Marshal TPMI_ALG_RSA_SCHEME_Marshal
  TPMT_RSA_SCHEME_Marshal TPM2B_PUBLIC_KEY_RSA_Marshal TPMI_RSA_KEY_BITS_Marshal
  TPM2B_PRIVATE_KEY_RSA_Marshal TPM2B_ECC_PARAMETER_Marshal TPMS_ECC_POINT_Marshal
  TPM2B_ECC_POINT_Marshal TPMI_ALG_ECC_SCHEME_Marshal TPMI_ECC_CURVE_Marshal
  TPMT_ECC_SCHEME_Marshal TPMS_ALGORITHM_DETAIL_ECC_Marshal TPMS_SIGNATURE_RSA_Marshal
  TPMS_SIGNATURE_RSASSA_Marshal TPMS_SIGNATURE_RSAPSS_Marshal TPMS_SIGNATURE_ECC_Marshal
  TPMS_SIGNATURE_ECDSA_Marshal TPMS_SIGNATURE_ECDAA_Marshal TPMS_SIGNATURE_SM2_Marshal
  TPMS_SIGNATURE_ECSCHNORR_Marshal TPMU_SIGNATURE_Marshal TPMT_SIGNATURE_Marshal
  TPM2B_ENCRYPTED_SECRET_Marshal TPMI_ALG_PUBLIC_Marshal TPMU_PUBLIC_ID_Marshal
  TPMS_KEYEDHASH_PARMS_Marshal TPMS_RSA_PARMS_Marshal TPMS_ECC_PARMS_Marshal
  TPMU_PUBLIC_PARMS_Marshal TPMT_PUBLIC_Marshal TPM2B_PUBLIC_Marshal
  TPMU_SENSITIVE_COMPOSITE_Marshal TPMT_SENSITIVE_Marshal TPM2B_PRIVATE_Marshal
  TPM2B_ID_OBJECT_Marshal TPMA_NV_Marshal TPMA_NV_EXP_Marshal TPMS_NV_PUBLIC_Marshal
  TPM2B_NV_PUBLIC_Marshal TPMS_NV_PUBLIC_EXP_ATTR_Marshal TPMU_NV_PUBLIC_2_Marshal
  TPMT_NV_PUBLIC_2_Marshal TPM2B_NV_PUBLIC_2_Marshal TPM2B_CONTEXT_DATA_Marshal
  TPMS_CONTEXT_Marshal TPMS_CREATION_DATA_Marshal TPM2B_CREATION_DATA_Marshal TPM_AT_Marshal
  TPMS_AC_OUTPUT_Marshal TPML_AC_CAPABILITIES_Marshal : typeclass_instances.
