(* ===== verification/WireCodec.v ===== *)
(** * Codecs: what an unmarshaling and a marshaling function promise each other

    [parses u Q]: on any input whose size does not exceed the octets that are
    there, [u] ends with a response code or a value, it has consumed a prefix
    of the input and no more than the size, it has not touched memory outside
    the objects it was given, and a value and the octets it was read from are
    related by [Q].

    [emits m b]: [m] writes exactly the octets [b] where there is room, returns
    their number and leaves the rest of the state alone; for a [NULL] buffer it
    only returns the number.

    [reads u b a]: [u] reads the value [a] from the octets [b], whatever follows.

    The class [Codec u m P n] is the contract of a pair of functions: what [u]
    accepts satisfies [P] and [m] writes it back as the very octets it was read
    from; what satisfies [P] is written in at most [n] octets, from which [u]
    reads it again.  The instances are in WireCodecs.v. *)

From S2P Require Import Prelude TpmTypes Memory WireTypes Unmarshal Marshal.
Local Open Scope Z_scope.

(** ** Unmarshaling: what one function promises *)

Definition input (s : UState) : Prop :=
  Forall is_byte (u_buffer s) ∧ 0 ≤ u_size s ≤ blen (u_buffer s) ∧ u_size s < 2 ^ 31.

Definition consumed (s s' : UState) (b : bytes) : Prop :=
  u_buffer s = b ++ u_buffer s' ∧ u_size s = blen b + u_size s' ∧ 0 ≤ u_size s'.

(** The response codes of Unmarshal.c. *)
Definition unmarshal_code (rc : Z) : bool :=
  one_of rc [TPM_RC_INSUFFICIENT; TPM_RC_SIZE; TPM_RC_VALUE; TPM_RC_CURVE; TPM_RC_HASH;
    TPM_RC_SYMMETRIC; TPM_RC_MODE; TPM_RC_KDF; TPM_RC_SCHEME; TPM_RC_BAD_TAG; TPM_RC_TAG;
    TPM_RC_SELECTOR; TPM_RC_TYPE; TPM_RC_RESERVED_BITS].

Definition parses {A} (u : Unm A) (Q : A → bytes → Prop) : Prop :=
  ∀ s, input s → ∃ r s' b,
    u s = Some (r, s') ∧ consumed s s' b ∧
    match r with inl rc => unmarshal_code rc = true | inr a => Q a b end.

Definition reads {A} (u : Unm A) (b : bytes) (a : A) : Prop :=
  ∀ rest n, blen b ≤ n < 2 ^ 31 →
    u (mkU (b ++ rest) n) = Some (inr a, mkU rest (n - blen b)).

Lemma consumed_input s s' b : input s → consumed s s' b → input s'.
Proof.
  intros (Hb & Hs & Hm) (E & Es & Hp). rewrite E in Hb, Hs. apply Forall_app in Hb as [_ Hb].
  rewrite blen_app in Hs. pose proof (blen_nonneg b). repeat split; [done|lia..].
Qed.

Lemma consumed_bytes s s' b : input s → consumed s s' b → Forall is_byte b.
Proof. intros (Hb & _) (E & _). rewrite E in Hb. by apply Forall_app in Hb as [? _]. Qed.

Lemma consumed_nil s : 0 ≤ u_size s → consumed s s [].
Proof. done. Qed.

Lemma consumed_app s s1 s2 b1 b2 :
  consumed s s1 b1 → consumed s1 s2 b2 → consumed s s2 (b1 ++ b2).
Proof.
  intros (E & Es & _) (E' & Es' & ?). repeat split; [by rewrite E, E', app_assoc| |done].
  rewrite blen_app. lia.
Qed.

Lemma parses_weaken {A} (u : Unm A) (Q Q' : A → bytes → Prop) :
  parses u Q → (∀ a b, Q a b → Q' a b) → parses u Q'.
Proof.
  intros H HQ s Hs. destruct (H s Hs) as ([rc|a] & s' & b & E & C & R); eexists _, s', b; eauto.
Qed.

Lemma parses_ret {A} (a : A) (Q : A → bytes → Prop) : Q a [] → parses (uret a) Q.
Proof. intros H s Hs. exists (inr a), s, []. repeat split; try done. apply Hs. Qed.

Lemma parses_err {A} rc (Q : A → bytes → Prop) : unmarshal_code rc = true → parses (uerr rc) Q.
Proof. intros H s Hs. exists (inl rc), s, []. repeat split; try done. apply Hs. Qed.

Lemma parses_bind {A B} (u : Unm A) (k : A → Unm B) Q Q' :
  parses u Q → (∀ a b, Q a b → parses (k a) (λ c b', Q' c (b ++ b'))) →
  parses (ubind u k) Q'.
Proof.
  intros Hu Hk s Hs. destruct (Hu s Hs) as ([rc|a] & s1 & b & E & C & R).
  - exists (inl rc), s1, b. unfold ubind, bind. by rewrite E.
  - destruct (Hk a b R s1 (consumed_input _ _ _ Hs C)) as (r & s2 & b2 & E2 & C2 & R2).
    exists r, s2, (b ++ b2). unfold ubind, bind. rewrite E.
    split; [done|]. split; [by eapply consumed_app|done].
Qed.

Lemma parses_check {B} (c : bool) rc (k : unit → Unm B) Q :
  unmarshal_code rc = true → (c = false → parses (k tt) Q) → parses (ubind (fail_if c rc) k) Q.
Proof.
  intros Hrc H. destruct c; [|by apply H].
  intros s Hs. exists (inl rc), s, []. repeat split; try done. apply Hs.
Qed.

(** The [startSize] idiom: the structure must take the octets its size says. *)
Lemma parses_sized {A B} (u : Unm A) (size : Z) (f : A → B) (Q : A → bytes → Prop) Q' :
  parses u Q → (∀ a b, Q a b → size = blen b → Q' (f a) b) →
  parses (let* startSize := get_size in let* a := u in let* endSize := get_size in
          let* _ := fail_if (negb (size =? startSize - endSize)) TPM_RC_SIZE in uret (f a)) Q'.
Proof.
  intros Hu HQ s Hs. destruct (Hu s Hs) as ([rc|a] & s1 & b & E & C & R);
    cbn [get_size ubind bind]; unfold ubind, bind, get_size; rewrite E.
  - exists (inl rc), s1, b. done.
  - unfold fail_if. destruct (Z.eqb_spec size (u_size s - u_size s1)) as [Es|Es]; cbn [negb].
    + exists (inr (f a)), s1, b. repeat split; try apply C. apply HQ; [done|].
      destruct C as (_ & C & _). lia.
    + exists (inl TPM_RC_SIZE), s1, b. repeat split; apply C.
Qed.

Lemma reads_ret {A} (a : A) : reads (uret a) [] a.
Proof. intros rest n H. unfold uret, ret. change (blen []) with 0. by rewrite Z.sub_0_r. Qed.

Lemma reads_bind {A B} (u : Unm A) (k : A → Unm B) b b' a c :
  reads u b a → reads (k a) b' c → reads (ubind u k) (b ++ b') c.
Proof.
  intros Hu Hk rest n H. rewrite blen_app in H. pose proof (blen_nonneg b').
  unfold ubind, bind. rewrite <- app_assoc, Hu by lia.
  pose proof (blen_nonneg b). rewrite Hk by lia. do 3 f_equal. rewrite blen_app. lia.
Qed.

Lemma reads_sized {A B} (u : Unm A) (f : A → B) b a :
  reads u b a →
  reads (let* startSize := get_size in let* a := u in let* endSize := get_size in
         let* _ := fail_if (negb (blen b =? startSize - endSize)) TPM_RC_SIZE in uret (f a)) b (f a).
Proof.
  intros Hu rest n H. unfold ubind, bind, get_size. cbn [u_size]. rewrite Hu by done. cbn [u_size].
  replace (n - (n - blen b)) with (blen b) by lia. by rewrite Z.eqb_refl.
Qed.

(** ** Marshaling: what one function promises *)

Definition room (s : MState) (n : Z) : Prop :=
  match o_ptr s with
  | None => True
  | Some p => 0 ≤ p ∧ p + n ≤ blen (o_mem s) ∧
              match o_size s with None => True | Some z => n ≤ z < 2 ^ 31 end
  end.

Definition push (s : MState) (b : bytes) : MState :=
  match o_ptr s with
  | None => s
  | Some p => mkM (bwrite (o_mem s) p b) (Some (p + blen b))
                  ((λ z, z - blen b) <$> o_size s) (o_failed s)
  end.

Definition emits (m : Mar) (b : bytes) : Prop :=
  ∀ s, room s (blen b) → m s = Some (u16 (blen b), push s b).

(** The calls of a sequence, each with the octets it writes. *)
Inductive emits_all : list Mar → bytes → Prop :=
| emits_nil : emits_all [] []
| emits_cons m b l bs : emits m b → emits_all l bs → emits_all (m :: l) (b ++ bs).

Lemma push_nil s : push s [] = s.
Proof.
  unfold push. destruct s as [mem [p|] z f]; cbn; [|done]. rewrite bwrite_nil.
  change (blen []) with 0. rewrite Z.add_0_r. destruct z; cbn; by rewrite ?Z.sub_0_r.
Qed.

Lemma room_app_l s b b' : room s (blen (b ++ b')) → room s (blen b).
Proof.
  unfold room. rewrite blen_app. pose proof (blen_nonneg b').
  destruct (o_ptr s), (o_size s); intuition lia.
Qed.

Lemma room_push s b b' : room s (blen (b ++ b')) → room (push s b) (blen b').
Proof.
  unfold room, push. rewrite blen_app. pose proof (blen_nonneg b). pose proof (blen_nonneg b').
  destruct (o_ptr s) as [p|] eqn:E; cbn; [|by rewrite E].
  intros (? & ? & Hz). rewrite blen_bwrite by lia. destruct (o_size s); cbn; intuition lia.
Qed.

Lemma push_push s b b' : room s (blen (b ++ b')) → push (push s b) b' = push s (b ++ b').
Proof.
  unfold room, push. rewrite blen_app. pose proof (blen_nonneg b). pose proof (blen_nonneg b').
  destruct (o_ptr s) as [p|] eqn:E; cbn; [|by rewrite E]. intros H'.
  rewrite bwrite_bwrite_adjacent by (destruct (o_size s); lia). rewrite Z.add_assoc.
  f_equal. destruct (o_size s); cbn; [|done]. f_equal. lia.
Qed.

Lemma u16_add x y : u16 (u16 x + y) = u16 (x + y).
Proof. unfold wrap. by rewrite Z.add_mod_idemp_l. Qed.
Lemma u16_add_r x y : u16 (x + u16 y) = u16 (x + y).
Proof. unfold wrap. by rewrite Z.add_mod_idemp_r. Qed.

Lemma accumulate_from_ok l b : emits_all l b → ∀ w s, room s (blen b) →
  accumulate_from (u16 w) l s = Some (u16 (w + blen b), push s b).
Proof.
  induction 1 as [|m b l bs Hm Hl IH]; intros w s Hs.
  - cbn [accumulate_from ret]. unfold ret. rewrite push_nil. by rewrite Z.add_0_r.
  - cbn [accumulate_from]. rewrite (bind_Some _ _ _ _ _ (Hm s (room_app_l _ _ _ Hs))).
    rewrite u16_add, u16_add_r, IH by (by apply room_push).
    rewrite push_push by done. rewrite blen_app. do 3 f_equal. lia.
Qed.

Lemma emits_accumulate l b : emits_all l b → emits (accumulate l) b.
Proof. intros H s Hs. exact (accumulate_from_ok l b H 0 s Hs). Qed.

Lemma emits_accumulate1 m b : emits m b → emits (accumulate [m]) b.
Proof.
  intros H. rewrite <- (app_nil_r b). apply emits_accumulate. repeat constructor. done.
Qed.

Lemma emits_ret0 : emits (ret 0) [].
Proof. intros s _. by rewrite push_nil. Qed.

Lemma emits_emit fits b n :
  n = blen b → n < 65536 → (∀ z, n ≤ z < 2 ^ 31 → fits z = true) →
  emits (emit fits (Some b) n) b.
Proof.
  intros -> Hn Hf s Hs. pose proof (blen_nonneg b) as Hb.
  unfold emit, push, room in *. unfold bind, gets. destruct (o_ptr s) as [p|] eqn:E.
  - assert ((match o_size s with None => true | Some size => fits size end) = true) as ->
      by (destruct (o_size s); [apply Hf; lia|done]).
    unfold store. rewrite E. rewrite (proj2 (inb_true _ _ _)) by lia. unfold ret.
    by rewrite (wrap_small 16).
  - unfold ret. by rewrite (wrap_small 16).
Qed.

(** The octets are determined by the function. *)
Lemma emits_inj m b b' : emits m b → emits m b' → b = b'.
Proof.
  intros H H'. pose proof (blen_nonneg b). pose proof (blen_nonneg b').
  set (s := mkM (bfill 0 (blen b + blen b')) (Some 0) None false).
  assert (Hs : ∀ n, n ≤ blen b + blen b' → room s n)
    by (intros n Hn; unfold room; cbn; rewrite blen_bfill; lia).
  specialize (H s (Hs (blen b) ltac:(lia))). specialize (H' s (Hs (blen b') ltac:(lia))).
  rewrite H in H'. injection H' as _ E Hl. cbn in E.
  assert (Hb : blen b = blen b') by lia.
  apply (f_equal (λ m, bread m 0 (blen b))) in E. rewrite Hb in E at 2.
  by rewrite !bread_bwrite_same in E by (rewrite ?blen_bfill by lia; lia).
Qed.

(** The size a structure takes, as a call with a [NULL] buffer computes it. *)
Definition marshaled_size (m : Mar) : Z :=
  match m (mkM [] None None false) with Some (n, _) => n | None => -1 end.

Lemma emits_size m b : emits m b → marshaled_size m = u16 (blen b).
Proof. intros H. unfold marshaled_size. by rewrite (H (mkM [] None None false) I). Qed.

Lemma UINT16_be v : UINT16_Marshal v =
  emit (λ size, u32 size >=? 2) (Some (rev (le_bytes 2 v))) 2.
Proof.
  unfold UINT16_Marshal, sizeof_UINT16. f_equal. f_equal. cbn -[Z.modulo Z.div wrap Z.shiftr Z.land].
  change 255 with (Z.ones 8). rewrite !Z.land_ones, !Z.shiftr_div_pow2 by lia.
  rewrite Z.div_1_r. unfold wrap. by rewrite !Z.mod_mod.
Qed.

(** The size goes in front, and is written last. *)
Lemma emits_size_prefixed m b :
  emits m b → blen b < 65536 →
  emits (size_prefixed m) (rev (le_bytes 2 (blen b)) ++ b).
Proof.
  intros H Hb s Hs. pose proof (blen_nonneg b) as Hp. unfold size_prefixed.
  assert (Hl : blen (rev (le_bytes 2 (blen b))) = 2) by done.
  pose proof (UINT16_be (blen b)) as Hm.
  set (h := rev (le_bytes 2 (blen b))) in *. clearbody h.
  unfold bind at 1, gets at 1. unfold room in Hs. unfold push.
  rewrite blen_app, Hl in Hs. rewrite !blen_app, !Hl.
  destruct (o_ptr s) as [p|] eqn:Ep.
  - destruct Hs as (H0 & H1 & H2). unfold sizeof_UINT16. rewrite (bind_Some _ _ _ _ _ eq_refl).
    erewrite bind_Some by (apply H; unfold room; cbn; destruct (o_size s); lia).
    cbv zeta. rewrite Z.add_0_l, (wrap_small 16 (blen b)), (wrap_small 16 (blen b)) by done.
    unfold push. cbn [o_ptr o_mem o_size o_failed].
    rewrite (bind_Some _ _ _ _ _ eq_refl). cbn [o_ptr o_mem o_size o_failed].
    rewrite (bind_Some _ _ _ _ _ eq_refl). cbn [o_ptr o_mem o_size o_failed].
    rewrite Hm.
    erewrite bind_Some.
    2: { apply emits_emit; [done|done| |].
      - intros z Hz. rewrite Z.geb_leb, Z.leb_le, u32_small; lia.
      - unfold room. cbn. rewrite blen_bwrite by lia. rewrite Hl. destruct (o_size s); cbn; lia. }
    rewrite (bind_Some _ _ _ _ _ eq_refl). unfold ret, push. cbn [o_ptr o_mem o_size o_failed].
    rewrite Hl, u16_add_r, (Z.add_comm 2). do 2 f_equal. f_equal.
    + rewrite <- (bwrite_bwrite_prefix (o_mem s) p h b) by lia. by rewrite Hl.
    + f_equal. lia.
    + destruct (o_size s); cbn; [|done]. f_equal. lia.
  - rewrite (bind_Some _ _ _ _ _ (H s ltac:(unfold room; by rewrite Ep))).
    cbv zeta. unfold ret, push. rewrite Ep. rewrite Z.add_0_l, u16_add, u16_add.
    do 3 f_equal. unfold sizeof_UINT16. lia.
Qed.

(** ** Types of integers, buffers and lists *)

Definition uint (w x : Z) : bool := (0 <=? x) && (x <? 2 ^ w).
Definition octet (x : Z) : bool := uint 8 x.
Definition in_range (x lo hi : Z) : bool := (lo <=? x) && (x <=? hi).
(** An array of [n] octets. *)
Definition array_wf (n : Z) (b : bytes) : bool := (blen b =? n) && forallb octet b.
(** A sized buffer of at most [n] octets. *)
Definition tpm2b_wf (n : Z) (b : TPM2B) : bool :=
  (size2B b <=? n) && array_wf (size2B b) (buffer2B b).
(** A counted list of at most [n] elements. *)
Definition list_wf {A} (n : Z) (P : A → bool) (count : Z) (l : list A) : bool :=
  (count =? Z.of_nat (length l)) && (count <=? n) && forallb P l.

Lemma octets_bytes b : Forall is_byte b → forallb octet b = true.
Proof.
  intros H. apply forallb_forall. intros x Hx. rewrite Forall_forall in H.
  specialize (H x Hx). unfold octet, uint, is_byte in *. zbool.
  change (2 ^ 8) with 256. lia.
Qed.

(** ** The contracts *)

Class Parser {A} (u : Unm A) (P : A → bool) : Prop :=
  parser : parses u (λ a _, P a = true).

Class Emitter {A} (m : A → Mar) (P : A → bool) (n : Z) : Prop :=
  emitter : ∀ a, P a = true → ∃ b, emits (m a) b ∧ blen b ≤ n.

(** Written with [m], read back with [u]. *)
Definition codes {A} (l : list Mar) (u : Unm A) (a : A) (n : Z) : Prop :=
  ∃ b, emits_all l b ∧ blen b ≤ n ∧ reads u b a.
Definition code {A} (m : Mar) (u : Unm A) (a : A) (n : Z) : Prop :=
  ∃ b, emits m b ∧ blen b ≤ n ∧ reads u b a.

Class Codec {A} (u : Unm A) (m : A → Mar) (P : A → bool) (n : Z) : Prop := {
  codec_parse : parses u (λ a b, P a = true ∧ emits (m a) b ∧ blen b ≤ n);
  codec_code a : P a = true → code (m a) u a n }.

#[export] Instance codec_parser {A} (u : Unm A) m P n : Codec u m P n → Parser u P.
Proof. intros C. eapply parses_weaken; [apply codec_parse|]. by intros a b [? _]. Qed.

Lemma codec_emitter {A} (u : Unm A) m P n : Codec u m P n → Emitter m P n.
Proof. intros C a Ha. destruct (codec_code a Ha) as (b & ? & ? & ?). eauto. Qed.

Lemma code_accumulate {A} l (u : Unm A) a n : codes l u a n → code (accumulate l) u a n.
Proof. intros (b & ? & ? & ?). exists b. eauto using emits_accumulate. Qed.

Lemma code_accumulate1 {A} m (u : Unm A) a n : code m u a n → code (accumulate [m]) u a n.
Proof. intros (b & ? & ? & ?). exists b. eauto using emits_accumulate1. Qed.

Lemma codes_ret {A} (a : A) : codes [] (uret a) a 0.
Proof. exists []. repeat split; [constructor|done|apply reads_ret]. Qed.

Lemma code_ret {A} (a : A) : code (ret 0) (uret a) a 0.
Proof. exists []. repeat split; [apply emits_ret0|done|apply reads_ret]. Qed.

Lemma codes_bind {A B} m l (u : Unm A) (k : A → Unm B) a c n n' :
  code m u a n → codes l (k a) c n' → codes (m :: l) (ubind u k) c (n + n').
Proof.
  intros (b & ? & ? & ?) (b' & ? & ? & ?). exists (b ++ b').
  rewrite blen_app. split; [by constructor|]. split; [lia|]. by eapply reads_bind.
Qed.

Lemma codes_check {B} l c rc (k : unit → Unm B) a n :
  c = false → codes l (k tt) a n → codes l (ubind (fail_if c rc) k) a n.
Proof. by intros ->. Qed.

Lemma code_le {A} m (u : Unm A) a n n' : code m u a n → n <= n' → code m u a n'.
Proof. intros (b & ? & ? & ?) ?. exists b. repeat split; try done. lia. Qed.

(** ** Integers and buffers *)

Lemma lor_octet x b k k' :
  k' = k + 8 → 0 ≤ k → is_byte b →
  Z.lor (x * 2 ^ k') (Z.shiftl b k) = (x * 256 + b) * 2 ^ k.
Proof.
  intros -> Hk Hb. unfold is_byte in Hb.
  rewrite <- Z.shiftl_mul_pow2, Z.add_comm, <- Z.shiftl_shiftl by lia.
  rewrite <- Z.shiftl_lor, <- Z.shiftl_mul_pow2 by lia. f_equal.
  pose proof (Z.add_lor_land (Z.shiftl x 8) b) as E.
  assert (Z.land (Z.shiftl x 8) b = 0) as L.
  { replace b with (Z.land (Z.ones 8) b)
      by (rewrite Z.land_comm, Z.land_ones by lia; apply Z.mod_small; lia).
    rewrite Z.land_assoc, Z.land_ones, Z.shiftl_mul_pow2, Z.mod_mul by lia. apply Z.land_0_l. }
  rewrite Z.shiftl_mul_pow2 in * by lia. change (2 ^ 8) with 256 in *. lia.
Qed.

(** [read_octets] takes a prefix of the input. *)
Lemma read_octets_ok s n :
  input s → 0 ≤ n ≤ u_size s →
  ∃ b s', read_octets n s = Some (b, s') ∧ consumed s s' b ∧ blen b = n.
Proof.
  intros (Hb & Hs & Hm) Hn. unfold read_octets. rewrite (proj2 (inb_true _ _ _)) by lia.
  eexists _, _. split; [done|]. assert (blen (bread (u_buffer s) 0 n) = n) by (apply blen_bread; lia).
  unfold consumed. cbn [u_buffer u_size]. split; [|done]. split; [|lia].
  unfold bread. by rewrite drop_0, take_drop.
Qed.

Lemma read_octets_app b rest n :
  read_octets (blen b) (mkU (b ++ rest) n) = Some (b, mkU rest (n - blen b)).
Proof.
  pose proof (blen_nonneg b). pose proof (blen_nonneg rest). unfold read_octets. cbn [u_buffer u_size].
  rewrite (proj2 (inb_true _ _ _)) by (rewrite blen_app; lia). unfold bread, blen.
  rewrite Nat2Z.id, drop_0, take_app_length, drop_app_length. done.
Qed.

(** Integers: [n] octets, the first the most significant. *)
Section integers.
Variables (n : nat) (value : bytes → Z).
Definition unmarshal_uint : Unm Z :=
  let! size := gets u_size in
  if u32 size <? Z.of_nat n then uerr TPM_RC_INSUFFICIENT
  else let! b := read_octets (Z.of_nat n) in uret (value b).
Definition marshal_uint (v : Z) : Mar :=
  emit (λ size, u32 size >=? Z.of_nat n) (Some (rev (le_bytes n v))) (Z.of_nat n).

Hypothesis n_small : (n ≤ 8)%nat.
Hypothesis value_ok : ∀ b, Forall is_byte b → length b = n → value b = le_val (rev b).

Lemma be_bytes_blen v : blen (rev (le_bytes n v)) = Z.of_nat n.
Proof. unfold blen. by rewrite length_rev, length_le_bytes. Qed.

Lemma uint_bytes x : uint (8 * Z.of_nat n) x = true ↔ 0 ≤ x < 256 ^ Z.of_nat n.
Proof. unfold uint. zbool. rewrite Z.pow_mul_r by lia. done. Qed.

Lemma codec_uint : Codec unmarshal_uint marshal_uint (uint (8 * Z.of_nat n)) (Z.of_nat n).
Proof.
  assert (He : ∀ v, emits (marshal_uint v) (rev (le_bytes n v))).
  { intros v. apply emits_emit; rewrite ?be_bytes_blen; [done|lia|]. intros z Hz.
    rewrite Z.geb_leb, Z.leb_le, u32_small; lia. }
  split.
  - intros s Hs. pose proof Hs as (Hb & Hz & Hm). unfold unmarshal_uint, bind, gets.
    rewrite u32_small by lia. destruct (Z.ltb_spec (u_size s) (Z.of_nat n)).
    + exists (inl TPM_RC_INSUFFICIENT), s, []. repeat split; done || lia.
    + destruct (read_octets_ok s (Z.of_nat n) Hs) as (b & s' & -> & C & Hl); [lia|].
      exists (inr (value b)), s', b. split; [done|]. split; [done|].
      pose proof (consumed_bytes _ _ _ Hs C) as Hbb.
      assert (length b = n) as Hn by (unfold blen in Hl; lia).
      rewrite value_ok by done. assert (Forall is_byte (rev b)) as Hr by by apply Forall_rev.
      split; [|split; [|lia]].
      * apply uint_bytes. pose proof (le_val_range _ Hr) as R. unfold blen in R.
        by rewrite length_rev, Hn in R.
      * pose proof (He (le_val (rev b))) as R. pose proof (le_bytes_val _ Hr) as E.
        rewrite length_rev, Hn in E. by rewrite E, rev_involutive in R.
  - intros v Hv. apply uint_bytes in Hv. exists (rev (le_bytes n v)).
    split; [apply He|]. rewrite be_bytes_blen. split; [lia|].
    intros rest k Hk. rewrite be_bytes_blen in *. unfold unmarshal_uint, bind, gets. cbn [u_size].
    rewrite u32_small by lia. rewrite (proj2 (Z.ltb_ge _ _)) by lia.
    pose proof (read_octets_app (rev (le_bytes n v)) rest k) as E. rewrite be_bytes_blen in E.
    rewrite E. unfold uret, ret. rewrite value_ok.
    + by rewrite rev_involutive, le_val_bytes.
    + apply Forall_rev, le_bytes_byte.
    + by rewrite length_rev, length_le_bytes.
Qed.
End integers.

Ltac be_octets :=
  let b := fresh in let Hb := fresh in let Hl := fresh in intros b Hb Hl;
  repeat (destruct b as [|? b]; simpl in Hl; try lia);
  repeat (apply Forall_cons_iff in Hb as [? Hb]);
  unfold byte_at; cbn [lookup list_lookup default rev app le_val]; unfold id.

Ltac marshal_octets :=
  intros; unfold marshal_uint, UINT8_Marshal, UINT16_Marshal, UINT32_Marshal, UINT64_Marshal;
  f_equal; f_equal; cbn -[Z.modulo Z.div wrap Z.shiftr Z.land];
  change 255 with (Z.ones 8); rewrite ?Z.land_ones, ?Z.shiftr_div_pow2 by lia;
  rewrite ?Z.div_1_r, ?Zdiv.Zdiv_Zdiv by lia; unfold wrap; by rewrite ?Z.mod_mod by lia.

Lemma codec_ext {A} (u : Unm A) (m m' : A → Mar) P n :
  (∀ a, m a = m' a) → Codec u m' P n → Codec u m P n.
Proof.
  intros E C. split.
  - eapply parses_weaken; [apply codec_parse|]. intros a b. by rewrite E.
  - intros a Ha. rewrite E. by apply codec_code.
Qed.

#[export] Instance UINT8_codec : Codec UINT8_Unmarshal UINT8_Marshal (uint 8) 1.
Proof.
  apply (codec_ext _ _ (marshal_uint 1)); [marshal_octets|].
  apply (codec_uint 1 (λ b, byte_at b 0)); [lia|]. be_octets. lia.
Qed.

#[export] Instance UINT16_codec : Codec UINT16_Unmarshal UINT16_Marshal (uint 16) 2.
Proof.
  apply (codec_ext _ _ (marshal_uint 2)); [marshal_octets|].
  apply (codec_uint 2 (λ b, Z.lor (Z.shiftl (byte_at b 0) 8) (Z.shiftl (byte_at b 1) 0))); [lia|].
  be_octets. rewrite Z.shiftl_mul_pow2 by lia. rewrite (lor_octet _ _ 0 8) by (done || lia). lia.
Qed.

#[export] Instance UINT32_codec : Codec UINT32_Unmarshal UINT32_Marshal (uint 32) 4.
Proof.
  apply (codec_ext _ _ (marshal_uint 4)); [marshal_octets|].
  apply (codec_uint 4 (λ b,
    Z.lor (Z.lor (Z.lor (Z.shiftl (byte_at b 0) 24) (Z.shiftl (byte_at b 1) 16))
      (Z.shiftl (byte_at b 2) 8)) (Z.shiftl (byte_at b 3) 0))); [lia|].
  be_octets. rewrite Z.shiftl_mul_pow2 by lia.
  rewrite (lor_octet _ _ 16 24), (lor_octet _ _ 8 16), (lor_octet _ _ 0 8) by (done || lia). lia.
Qed.

#[export] Instance UINT64_codec : Codec UINT64_Unmarshal UINT64_Marshal (uint 64) 8.
Proof.
  apply (codec_ext _ _ (marshal_uint 8)); [marshal_octets|].
  apply (codec_uint 8 (λ b,
    Z.lor (Z.lor (Z.lor (Z.lor (Z.lor (Z.lor (Z.lor
           (Z.shiftl (byte_at b 0) 56) (Z.shiftl (byte_at b 1) 48))
           (Z.shiftl (byte_at b 2) 40)) (Z.shiftl (byte_at b 3) 32))
           (Z.shiftl (byte_at b 4) 24)) (Z.shiftl (byte_at b 5) 16))
           (Z.shiftl (byte_at b 6) 8)) (Z.shiftl (byte_at b 7) 0))); [lia|].
  be_octets. rewrite Z.shiftl_mul_pow2 by lia.
  rewrite (lor_octet _ _ 48 56), (lor_octet _ _ 40 48), (lor_octet _ _ 32 40), (lor_octet _ _ 24 32),
    (lor_octet _ _ 16 24), (lor_octet _ _ 8 16), (lor_octet _ _ 0 8) by (done || lia). lia.
Qed.

(** ** Arrays and sized buffers *)

Lemma array_wf_blen n b : array_wf n b = true → blen b = n ∧ inb b 0 n = true.
Proof.
  unfold array_wf. intros [H _]%andb_prop. apply Z.eqb_eq in H as <-. split; [done|].
  apply inb_true. pose proof (blen_nonneg b). lia.
Qed.

Lemma emits_array b n : array_wf n b = true → n < 65536 → emits (Array_Marshal n b) b.
Proof.
  intros [Hl Hi]%array_wf_blen Hn. unfold Array_Marshal. rewrite Hi, bread_all by done.
  apply emits_emit; [done|done|]. intros z Hz. rewrite Z.geb_leb, Z.leb_le. lia.
Qed.

Lemma parses_array capacity n :
  0 ≤ n ≤ capacity →
  parses (Array_Unmarshal capacity n) (λ b b', b = b' ∧ array_wf n b = true).
Proof.
  intros Hn s Hs. unfold Array_Unmarshal, bind at 1, gets. rewrite !Z.gtb_ltb.
  destruct (Z.ltb_spec (u_size s) n).
  - exists (inl TPM_RC_INSUFFICIENT), s, []. repeat split; try done. apply Hs.
  - rewrite (proj2 (Z.ltb_ge _ _)) by lia. unfold bind.
    destruct (read_octets_ok s n Hs) as (b & s' & -> & C & Hl); [lia|].
    exists (inr b), s', b. split; [done|]. split; [done|]. split; [done|].
    unfold array_wf. rewrite Hl, Z.eqb_refl. apply octets_bytes. by eapply consumed_bytes.
Qed.

Lemma reads_array capacity n b :
  array_wf n b = true → n ≤ capacity → reads (Array_Unmarshal capacity n) b b.
Proof.
  intros [<- _]%array_wf_blen Hc rest k Hk. unfold Array_Unmarshal, bind at 1, gets. cbn [u_size].
  rewrite !Z.gtb_ltb, !(proj2 (Z.ltb_ge _ _)) by lia. unfold bind. by rewrite read_octets_app.
Qed.

Lemma codec_array capacity n :
  0 ≤ n ≤ capacity → n < 65536 →
  Codec (Array_Unmarshal capacity n) (Array_Marshal n) (array_wf n) n.
Proof.
  intros Hc Hn. split.
  - eapply parses_weaken; [by apply parses_array|]. intros b ? [<- Hb].
    split; [done|]. split; [by apply emits_array|]. apply array_wf_blen in Hb as [-> _]. lia.
  - intros b Hb. exists b. split; [by apply emits_array|].
    split; [apply array_wf_blen in Hb as [-> _]; lia|]. apply reads_array; [done|lia].
Qed.

Lemma TPM2B_codec capacity n :
  0 ≤ n ≤ capacity → n < 65536 →
  Codec (TPM2B_Unmarshal capacity n) TPM2B_Marshal (tpm2b_wf n) (2 + n).
Proof.
  intros Hc Hn. split.
  - unfold TPM2B_Unmarshal. eapply parses_bind; [apply codec_parse|]. intros z b (Hz & He & Hb).
    apply parses_check; [done|]. rewrite Z.gtb_ltb, Z.ltb_ge. intros Hzn.
    unfold uint in Hz. apply andb_prop in Hz as [Hz%Z.leb_le _].
    eapply parses_bind; [apply parses_array; lia|]. intros d b' [<- Hd]. apply parses_ret.
    pose proof (array_wf_blen _ _ Hd) as [Hl _].
    split; [|split].
    + unfold tpm2b_wf. cbn [size2B buffer2B]. rewrite Hd, andb_true_r. by apply Z.leb_le.
    + unfold TPM2B_Marshal. apply emits_accumulate. repeat constructor; [done|].
      cbn [size2B buffer2B]. apply emits_array; [done|lia].
    + rewrite !blen_app, Hl. change (blen []) with 0. lia.
  - intros [z d] [Hz Hd]%andb_prop. cbn [size2B buffer2B] in *. apply Z.leb_le in Hz.
    pose proof (array_wf_blen _ _ Hd) as [Hl _]. pose proof (blen_nonneg d).
    apply code_le with (2 + (z + 0)); [|lia].
    apply code_accumulate. unfold TPM2B_Unmarshal. cbn [size2B buffer2B]. eapply codes_bind.
    { apply codec_code. unfold uint. zbool. change (2 ^ 16) with 65536. lia. }
    apply codes_check; [rewrite Z.gtb_ltb; apply Z.ltb_ge; lia|].
    eapply codes_bind; [|apply codes_ret]. exists d. cbn [size2B buffer2B].
    split; [apply emits_array; [done|lia]|]. split; [lia|]. apply reads_array; [done|lia].
Qed.

(** ** Lists *)

Section lists.
Context {A : Type} (u : Unm A) (m : A → Mar) (P : A → bool) (n : Z) {C : Codec u m P n}.

Lemma parses_items capacity k i :
  i + Z.of_nat k ≤ capacity →
  parses (Unmarshal_items capacity u k i) (λ l b,
    length l = k ∧ forallb P l = true ∧ emits_all (Marshal_items k l m) b ∧ blen b ≤ Z.of_nat k * n).
Proof.
  revert i. induction k as [|k IH]; intros i Hi; cbn [Unmarshal_items].
  - apply parses_ret. repeat split; try done. constructor.
  - rewrite Z.geb_leb, (proj2 (Z.leb_gt _ _)) by lia.
    eapply parses_bind; [apply codec_parse|]. intros x b (Hx & He & Hb).
    eapply parses_bind; [apply IH; lia|]. intros l b' (Hl & Hf & Hs & Hb'). apply parses_ret.
    cbn [length forallb Marshal_items]. rewrite app_nil_r, blen_app, Hl, Hx, Hf.
    repeat split; try done; [by constructor|lia].
Qed.

Lemma codes_items capacity k i l :
  i + Z.of_nat k ≤ capacity → length l = k → forallb P l = true →
  codes (Marshal_items k l m) (Unmarshal_items capacity u k i) l (Z.of_nat k * n).
Proof.
  revert i l. induction k as [|k IH]; intros i [|x l] Hi Hl Hf; try done.
  - apply codes_ret.
  - cbn [forallb] in Hf. apply andb_prop in Hf as [Hx Hf]. cbn [Unmarshal_items Marshal_items].
    rewrite Z.geb_leb, (proj2 (Z.leb_gt _ _)) by lia.
    replace (Z.of_nat (S k) * n) with (n + Z.of_nat k * n) by lia.
    eapply codes_bind; [by apply codec_code|].
    destruct (IH (i + 1) l) as (b & ? & ? & Hr); [lia|by injection Hl|done|].
    exists b. repeat split; try done. rewrite <- (app_nil_r b).
    eapply reads_bind; [done|]. apply reads_ret.
Qed.
End lists.

(** The [TPML_*] types: a count of at most [max], refused also when [bad] says
    so, and the array of the elements. *)
Lemma codec_list_if {A L} (u : Unm A) m P n (mk : Z → list A → L) (pc : L → Z) (pl : L → list A)
    (bad : Z → bool) (check : Z → Unm L → Unm L) max :
  Codec u m P n → 0 ≤ n → 0 ≤ max < 2 ^ 32 →
  (∀ c x, check c x = if bad c then uerr TPM_RC_SIZE else x) →
  (∀ c l, pc (mk c l) = c) → (∀ c l, pl (mk c l) = l) → (∀ v, mk (pc v) (pl v) = v) →
  Codec (let* count := UINT32_Unmarshal in
         check count (let* _ := fail_if (count >? max) TPM_RC_SIZE in
         let* l := Unmarshal_items max u (Z.to_nat count) 0 in uret (mk count l)))
        (λ v, accumulate (UINT32_Marshal (pc v) :: Marshal_items (Z.to_nat (pc v)) (pl v) m))
        (λ v, negb (bad (pc v)) && list_wf max P (pc v) (pl v)) (4 + max * n).
Proof.
  intros C Hn Hmax Hbad Hc Hl Hv. split.
  - eapply parses_bind; [apply codec_parse|]. intros z b (Hz & He & Hb).
    unfold uint in Hz. apply andb_prop in Hz as [Hz%Z.leb_le _].
    rewrite Hbad. destruct (bad z) eqn:Ebad; [by apply parses_err|].
    apply parses_check; [done|]. rewrite Z.gtb_ltb, Z.ltb_ge. intros Hzm.
    eapply parses_bind; [apply (parses_items u m P n); lia|].
    intros l b' (Hk & Hf & Hs & Hb'). apply parses_ret. rewrite !Hc, !Hl, app_nil_r.
    split; [|split].
    + rewrite Ebad. unfold list_wf. cbn [negb andb]. zbool. repeat split; try done; lia.
    + apply emits_accumulate. by constructor.
    + rewrite blen_app. nia.
  - intros v Hw. apply andb_prop in Hw as [Hgood%negb_true_iff Hw]. unfold list_wf in Hw.
    apply andb_prop in Hw as [[Hk%Z.eqb_eq Hm%Z.leb_le]%andb_prop Hf].
    apply code_le with (4 + (Z.of_nat (Z.to_nat (pc v)) * n)); [|nia].
    apply code_accumulate. eapply codes_bind.
    { apply codec_code. unfold uint. zbool. lia. }
    rewrite Hbad, Hgood.
    apply codes_check; [rewrite Z.gtb_ltb; apply Z.ltb_ge; lia|].
    destruct (codes_items u m P n max (Z.to_nat (pc v)) 0 (pl v)) as (b & ? & ? & Hr); [lia..|done|].
    exists b. repeat split; try done. rewrite <- (app_nil_r b).
    eapply reads_bind; [done|]. rewrite Hv. apply reads_ret.
Qed.

Lemma codec_list {A L} (u : Unm A) m P n (mk : Z → list A → L) (pc : L → Z) (pl : L → list A) max :
  Codec u m P n → 0 ≤ n → 0 ≤ max < 2 ^ 32 →
  (∀ c l, pc (mk c l) = c) → (∀ c l, pl (mk c l) = l) → (∀ v, mk (pc v) (pl v) = v) →
  Codec (let* count := UINT32_Unmarshal in
         let* _ := fail_if (count >? max) TPM_RC_SIZE in
         let* l := Unmarshal_items max u (Z.to_nat count) 0 in uret (mk count l))
        (λ v, accumulate (UINT32_Marshal (pc v) :: Marshal_items (Z.to_nat (pc v)) (pl v) m))
        (λ v, list_wf max P (pc v) (pl v)) (4 + max * n).
Proof.
  intros C Hn Hmax Hc Hl Hv.
  exact (codec_list_if u m P n mk pc pl (λ _, false) (λ _ x, x) max C Hn Hmax
           (λ _ _, eq_refl) Hc Hl Hv).
Qed.

(** ** Structures behind their size *)

Lemma emits_UINT16 v : emits (UINT16_Marshal v) (rev (le_bytes 2 v)).
Proof.
  rewrite UINT16_be. apply emits_emit; [done|done|]. intros z Hz.
  rewrite Z.geb_leb, Z.leb_le, u32_small; lia.
Qed.

Lemma reads_UINT16 v : 0 ≤ v < 65536 → reads UINT16_Unmarshal (rev (le_bytes 2 v)) v.
Proof.
  intros Hv. destruct (codec_code (Codec := UINT16_codec) v) as (b & He & _ & Hr).
  { unfold uint. zbool. done. }
  by rewrite (emits_inj _ _ _ (emits_UINT16 v) He).
Qed.

Lemma codec_sized {A B} (u : Unm A) m P n (mk : Z → A → B) (pz : B → Z) (pa : B → A) :
  Codec u m P n → n < 65536 →
  (∀ z a, pz (mk z a) = z) → (∀ z a, pa (mk z a) = a) → (∀ v, mk (pz v) (pa v) = v) →
  Codec (let* size := UINT16_Unmarshal in
         let* _ := fail_if (size =? 0) TPM_RC_SIZE in
         let* startSize := get_size in
         let* a := u in
         let* endSize := get_size in
         let* _ := fail_if (negb (size =? startSize - endSize)) TPM_RC_SIZE in
         uret (mk size a))
        (λ v, size_prefixed (m (pa v)))
        (λ v, negb (pz v =? 0) && (pz v =? marshaled_size (m (pa v))) && P (pa v)) (2 + n).
Proof.
  intros C Hn Hz Ha Hv. split.
  - eapply parses_bind; [apply codec_parse|]. intros z b (Hu & He & Hb).
    apply parses_check; [done|]. intros Hz0.
    apply (parses_sized u z (mk z) (λ a b, P a = true ∧ emits (m a) b ∧ blen b ≤ n)); [apply codec_parse|].
    intros a b' (HP & Hm & Hl) ->. rewrite !Hz, !Ha.
    pose proof (blen_nonneg b'). split; [|split].
    + rewrite (emits_size _ _ Hm), (wrap_small 16) by (done || lia). rewrite Z.eqb_refl, HP, Hz0. done.
    + assert (b = rev (le_bytes 2 (blen b'))) as ->.
      { eapply emits_inj; [exact He|apply emits_UINT16]. }
      apply emits_size_prefixed; [done|lia].
    + rewrite blen_app. lia.
  - intros v [[Hz0 Hzs%Z.eqb_eq]%andb_prop HP]%andb_prop. apply negb_true_iff in Hz0.
    destruct (codec_code (pa v) HP) as (b & Hm & Hb & Hr). pose proof (blen_nonneg b).
    rewrite (emits_size _ _ Hm), (wrap_small 16) in Hzs by (done || lia).
    exists (rev (le_bytes 2 (blen b)) ++ b).
    split; [apply emits_size_prefixed; [done|lia]|]. split; [rewrite blen_app; change (blen (rev _)) with 2; lia|].
    eapply reads_bind; [apply (reads_UINT16 (blen b)); lia|].
    rewrite Hzs in Hz0. rewrite Hz0. rewrite <- (Hv v) at 1. rewrite Hzs.
    exact (reads_sized u (mk (blen b)) b _ Hr).
Qed.

(** ** Emitters *)

Definition emitter_list (l : list Mar) (n : Z) : Prop := ∃ b, emits_all l b ∧ blen b ≤ n.

Lemma emitter_nil : emitter_list [] 0.
Proof. exists []. split; [constructor|done]. Qed.

Lemma emitter_cons m l n n' :
  (∃ b, emits m b ∧ blen b ≤ n) → emitter_list l n' → emitter_list (m :: l) (n + n').
Proof.
  intros (b & ? & ?) (bs & ? & ?). exists (b ++ bs). split; [by constructor|]. rewrite blen_app. lia.
Qed.

Lemma emitter_accumulate l n n' :
  emitter_list l n → n <= n' → ∃ b, emits (accumulate l) b ∧ blen b ≤ n'.
Proof. intros (b & ? & ?) ?. exists b. split; [by apply emits_accumulate|lia]. Qed.

Lemma emitter_alias {A} (m : A → Mar) P n :
  Emitter m P n → Emitter (λ a, accumulate [m a]) P n.
Proof. intros H a Ha. destruct (H a Ha) as (b & ? & ?). eauto using emits_accumulate1. Qed.

Lemma emitter_items {A} (m : A → Mar) P n l k :
  Emitter m P n → length l = k → forallb P l = true →
  emitter_list (Marshal_items k l m) (Z.of_nat k * n).
Proof.
  intros H <-. induction l as [|x l IH]; cbn [length Marshal_items forallb]; [intros _; apply emitter_nil|].
  intros [Hx Hl]%andb_prop. replace (Z.of_nat (S _) * n) with (n + Z.of_nat (length l) * n) by lia.
  apply emitter_cons; [by apply H|by apply IH].
Qed.

Lemma emitter_counted {A L} (m : A → Mar) P n (pc : L → Z) (pl : L → list A) max :
  Emitter m P n → 0 ≤ n → max < 2 ^ 32 →
  Emitter (λ v, accumulate (UINT32_Marshal (pc v) :: Marshal_items (Z.to_nat (pc v)) (pl v) m))
          (λ v, list_wf max P (pc v) (pl v)) (4 + max * n).
Proof.
  intros H Hn Hm v Hw. unfold list_wf in Hw.
  apply andb_prop in Hw as [[Hk%Z.eqb_eq Hx%Z.leb_le]%andb_prop Hf].
  eapply emitter_accumulate.
  - apply emitter_cons; [apply (codec_emitter _ _ _ _ UINT32_codec)|apply (emitter_items m P n); [done|lia|done]].
    unfold uint. zbool. lia.
  - nia.
Qed.

Lemma emitter_sized {A} (m : A → Mar) P n :
  Emitter m P n → n < 65536 → Emitter (λ a, size_prefixed (m a)) P (2 + n).
Proof.
  intros H Hn a Ha. destruct (H a Ha) as (b & ? & ?). eexists.
  split; [apply emits_size_prefixed; [done|lia]|]. rewrite blen_app. change (blen (rev _)) with 2. lia.
Qed.

Lemma codec_alias {A} (u : Unm A) m P n : Codec u m P n → Codec u (λ a, accumulate [m a]) P n.
Proof.
  intros C. split.
  - eapply parses_weaken; [apply codec_parse|]. intros a b (? & ? & ?).
    eauto using emits_accumulate1.
  - intros a Ha. by apply code_accumulate1, codec_code.
Qed.

(** ** Automation

    The condition of a [fail_if] that did not fail, in the positive form of
    the typing predicates. *)

Lemma negb_ltb a b : negb (a <? b) = (b <=? a).
Proof. by rewrite Z.leb_antisym. Qed.
Lemma negb_gtb a b : negb (a >? b) = (a <=? b).
Proof. by rewrite Z.gtb_ltb, negb_ltb. Qed.

Create Rewrite HintDb wire.
#[export] Hint Rewrite negb_orb negb_andb negb_involutive negb_ltb negb_gtb : wire.

Lemma passed (c : bool) : c = false → negb c = true.
Proof. by intros ->. Qed.
Lemma passes (c : bool) : negb c = true → c = false.
Proof. by destruct c. Qed.

Ltac split_ands :=
  unfold in_range in *;
  repeat match goal with H : (_ && _) = true |- _ => apply andb_prop in H as [? ?] end.

Lemma one_of_inv x a l : one_of x (a :: l) = true → x = a ∨ one_of x l = true.
Proof. cbn. intros [->%Z.eqb_eq|H]%orb_prop; auto. Qed.

(** The selector of a union that was stored. *)
Ltac selected :=
  repeat match goal with
  | E : (_ =? _) = true |- _ => apply Z.eqb_eq in E; subst
  | E : one_of _ [] = true |- _ => discriminate E
  | E : one_of _ _ = true |- _ => apply one_of_inv in E as [?|E]; [subst|]
  end.

(** A selector against the labels of a [switch]: both are constants. *)
Ltac select_branch :=
  repeat match goal with
  | |- context [?a =? ?b] =>
      let c := eval vm_compute in (a =? b) in
      lazymatch c with true => idtac | false => idtac end; change (a =? b) with c; cbv iota
  | |- context [one_of ?a ?l] =>
      let c := eval vm_compute in (one_of a l) in
      lazymatch c with true => idtac | false => idtac end; change (one_of a l) with c; cbv iota
  end.

Ltac emit_known :=
  lazymatch goal with
  | |- emits _ ?b => match goal with H : emits _ b |- _ => exact H end
  end.

Ltac emit_list :=
  lazymatch goal with
  | |- emits_all (_ :: _) _ => apply emits_cons; [emit_known|emit_list]
  | |- emits_all [] _ => apply emits_nil
  end.

(** A value that was read has its type: field by field. *)
Ltac typed :=
  unfold in_range;
  repeat match goal with |- (_ && _) = true => apply andb_true_intro; split end;
  first [assumption | reflexivity | idtac].

(** One statement of an unmarshaling function, for the contract of a codec. *)
Ltac parse_step :=
  lazymatch goal with
  | |- parses (ubind (fail_if _ _) _) _ =>
      let H := fresh "Hc" in
      apply parses_check; [reflexivity|intros H; apply passed in H; autorewrite with wire in H]
  | |- parses (ubind _ _) _ =>
      eapply parses_bind; [apply codec_parse|intros ? ? (? & ? & ?)]
  | |- parses (uerr _) _ => apply parses_err; reflexivity
  | |- parses (uret _) _ => apply parses_ret
  | |- parses (if ?a =? ?b then _ else _) _ => destruct (Z.eqb_spec a b); [subst|]
  | |- parses (if ?c then _ else _) _ => destruct c eqn:?
  end.

(** The same for a function whose values are not marshaled. *)
Ltac parse_only_step :=
  lazymatch goal with
  | |- parses (ubind (fail_if _ _) _) _ => parse_step
  | |- parses (ubind _ _) _ => eapply parses_bind; [apply parser|intros ? ? ?]
  | |- _ => parse_step
  end.

Ltac bounds :=
  repeat match goal with
  | H : blen _ ≤ ?k |- _ => let n := eval vm_compute in k in progress change k with n in H
  end;
  rewrite ?blen_app; change (blen []) with 0; lia.
(** A comparison of constants. *)
Ltac closed_le := vm_compute; discriminate.

Ltac codes_step :=
  lazymatch goal with
  | |- codes _ (ubind (fail_if _ _) _) _ _ =>
      apply codes_check; [apply passes; autorewrite with wire; typed|]
  | |- codes (_ :: _) (ubind _ _) _ _ => eapply codes_bind; [apply codec_code; assumption|]
  | |- codes [] (uret _) _ _ => apply codes_ret
  end.

Ltac emitter_step :=
  lazymatch goal with
  | |- emitter_list (?m ?x :: _) _ =>
      match goal with
      | H : ?P x = true |- _ => eapply emitter_cons; [exact (emitter (m := m) (P := P) x H)|]
      end
  | |- emitter_list [] _ => apply emitter_nil
  end.

(** The four kinds of obligations; the functions have been unfolded. *)
Ltac parse_codec :=
  cbv beta zeta; repeat parse_step; split_ands;
  try (split; [typed|split; [first [apply emits_ret0|apply emits_accumulate; emit_list]|bounds]]).

Ltac code_codec :=
  split_ands; eapply code_le;
  [first [apply code_ret|apply code_accumulate; cbv beta zeta; repeat codes_step]|closed_le].

(** A union: the value determines the selector, and with it the branch. *)
Ltac code_union :=
  let v := fresh "v" in let H := fresh "Hw" in
  intros v H; destruct v; try discriminate H; split_ands;
  selected;
  select_branch; code_codec.

Ltac parse_parser := cbv beta zeta; repeat parse_only_step; split_ands; typed.

Ltac emit_emitter :=
  split_ands; eapply emitter_accumulate; [repeat emitter_step|closed_le].

Ltac emit_union :=
  let v := fresh "v" in let H := fresh "Hw" in
  intros v H; destruct v; try discriminate H; split_ands;
  selected;
  select_branch; emit_emitter.

#[export] Hint Extern 1 (Codec (Array_Unmarshal _ _) _ _ _) =>
  apply codec_array; [split; discriminate|reflexivity] : typeclass_instances.
