(* ===== verification/WireWf.v ===== *)
(** * Types of the interface structures

    What a value of each type of TpmTypes.h is: the width of its integers, the
    constants and handle ranges of the interface types ([allowNull] adds the
    null value), reserved bits that are zero, buffers and lists within the
    capacity of their declaration, and unions that hold the member their
    selector names.  The functions are decidable, so that a concrete structure
    is checked by evaluation. *)

From S2P Require Import Prelude TpmTypes Memory WireTypes Unmarshal Marshal WireCodec.
Local Open Scope Z_scope.

Definition sint8 (x : Z) : bool := (-128 <=? x) && (x <? 128).
Definition unit_wf (_ : unit) : bool := true.

(** ** Types that the TPM unmarshals *)

Definition TPM_ECC_CURVE_wf (target : Z) : bool :=
  uint 16 target && one_of target [TPM_ECC_NONE; TPM_ECC_NIST_P192; TPM_ECC_NIST_P224;
      TPM_ECC_NIST_P256; TPM_ECC_NIST_P384; TPM_ECC_NIST_P521; TPM_ECC_BN_P256; TPM_ECC_BN_P638;
      TPM_ECC_SM2_P256].

Definition TPM_CLOCK_ADJUST_wf (target : Z) : bool :=
  sint8 target && one_of target [TPM_CLOCK_COARSE_SLOWER; TPM_CLOCK_MEDIUM_SLOWER;
      TPM_CLOCK_FINE_SLOWER; TPM_CLOCK_NO_CHANGE; TPM_CLOCK_FINE_FASTER; TPM_CLOCK_MEDIUM_FASTER;
      TPM_CLOCK_COARSE_FASTER].

Definition TPM_EO_wf (target : Z) : bool :=
  uint 16 target && one_of target [TPM_EO_EQ; TPM_EO_NEQ; TPM_EO_SIGNED_GT; TPM_EO_UNSIGNED_GT;
      TPM_EO_SIGNED_LT; TPM_EO_UNSIGNED_LT; TPM_EO_SIGNED_GE; TPM_EO_UNSIGNED_GE;
      TPM_EO_SIGNED_LE; TPM_EO_UNSIGNED_LE; TPM_EO_BITSET; TPM_EO_BITCLEAR].

Definition TPM_ST_wf (target : Z) : bool :=
  uint 16 target && one_of target [TPM_ST_RSP_COMMAND; TPM_ST_NULL; TPM_ST_NO_SESSIONS;
      TPM_ST_SESSIONS; TPM_ST_ATTEST_NV; TPM_ST_ATTEST_COMMAND_AUDIT;
      TPM_ST_ATTEST_SESSION_AUDIT; TPM_ST_ATTEST_CERTIFY; TPM_ST_ATTEST_QUOTE;
      TPM_ST_ATTEST_TIME; TPM_ST_ATTEST_CREATION; TPM_ST_CREATION; TPM_ST_VERIFIED;
      TPM_ST_AUTH_SECRET; TPM_ST_HASHCHECK; TPM_ST_AUTH_SIGNED].

Definition TPM_SU_wf (target : Z) : bool :=
  uint 16 target && one_of target [TPM_SU_CLEAR; TPM_SU_STATE].

Definition TPM_SE_wf (target : Z) : bool :=
  uint 8 target && one_of target [TPM_SE_HMAC; TPM_SE_POLICY; TPM_SE_TRIAL].

Definition TPM_CAP_wf (target : Z) : bool :=
  uint 32 target && one_of target [TPM_CAP_ALGS; TPM_CAP_HANDLES; TPM_CAP_COMMANDS;
      TPM_CAP_PP_COMMANDS; TPM_CAP_AUDIT_COMMANDS; TPM_CAP_PCRS; TPM_CAP_TPM_PROPERTIES;
      TPM_CAP_PCR_PROPERTIES; TPM_CAP_ECC_CURVES; TPM_CAP_AUTH_POLICIES; TPM_CAP_ACT;
      TPM_CAP_VENDOR_PROPERTY].

Definition TPMA_ALGORITHM_wf (target : Z) : bool :=
  uint 32 target && (Z.land target TPMA_ALGORITHM_reserved =? 0).

Definition TPMA_OBJECT_wf (target : Z) : bool :=
  uint 32 target && (Z.land target TPMA_OBJECT_reserved =? 0).

Definition TPMA_SESSION_wf (target : Z) : bool :=
  uint 8 target && (Z.land target TPMA_SESSION_reserved =? 0).

Definition TPMA_CC_wf (target : Z) : bool :=
  uint 32 target && (Z.land target TPMA_CC_reserved =? 0).

Definition TPMI_YES_NO_wf (target : Z) : bool :=
  uint 8 target && one_of target [NO; YES].

Definition TPMI_DH_OBJECT_wf (allowNull : bool) (target : Z) : bool :=
  uint 32 target && (in_range target TRANSIENT_FIRST TRANSIENT_LAST ||
      in_range target PERSISTENT_FIRST PERSISTENT_LAST || ((target =? TPM_RH_NULL) && allowNull)).

Definition TPMI_DH_PARENT_wf (allowNull : bool) (target : Z) : bool :=
  uint 32 target && (in_range target TRANSIENT_FIRST TRANSIENT_LAST ||
      in_range target PERSISTENT_FIRST PERSISTENT_LAST || (target =? TPM_RH_OWNER) ||
      (target =? TPM_RH_PLATFORM) || (target =? TPM_RH_ENDORSEMENT) || ((target =? TPM_RH_NULL)
      && allowNull)).

Definition TPMI_DH_PERSISTENT_wf (target : Z) : bool :=
  uint 32 target && in_range target PERSISTENT_FIRST PERSISTENT_LAST.

Definition TPMI_DH_ENTITY_wf (allowNull : bool) (target : Z) : bool :=
  uint 32 target && ((target =? TPM_RH_OWNER) || (target =? TPM_RH_ENDORSEMENT) ||
      (target =? TPM_RH_PLATFORM) || (target =? TPM_RH_LOCKOUT) ||
      in_range target TRANSIENT_FIRST TRANSIENT_LAST ||
      in_range target PERSISTENT_FIRST PERSISTENT_LAST ||
      in_range target NV_INDEX_FIRST NV_INDEX_LAST || (target <=? PCR_LAST) ||
      in_range target TPM_RH_AUTH_00 TPM_RH_AUTH_FF || ((target =? TPM_RH_NULL) && allowNull)).

Definition TPMI_DH_PCR_wf (allowNull : bool) (target : Z) : bool :=
  uint 32 target && ((target <=? PCR_LAST) || ((target =? TPM_RH_NULL) && allowNull)).

Definition TPMI_SH_AUTH_SESSION_wf (allowPwd : bool) (target : Z) : bool :=
  uint 32 target && (in_range target HMAC_SESSION_FIRST HMAC_SESSION_LAST ||
      in_range target POLICY_SESSION_FIRST POLICY_SESSION_LAST || ((target =? TPM_RS_PW) &&
      allowPwd)).

Definition TPMI_SH_HMAC_wf (target : Z) : bool :=
  uint 32 target && in_range target HMAC_SESSION_FIRST HMAC_SESSION_LAST.

Definition TPMI_SH_POLICY_wf (target : Z) : bool :=
  uint 32 target && in_range target POLICY_SESSION_FIRST POLICY_SESSION_LAST.

Definition TPMI_DH_CONTEXT_wf (target : Z) : bool :=
  uint 32 target && (in_range target HMAC_SESSION_FIRST HMAC_SESSION_LAST ||
      in_range target POLICY_SESSION_FIRST POLICY_SESSION_LAST ||
      in_range target TRANSIENT_FIRST TRANSIENT_LAST).

Definition TPMI_DH_SAVED_wf (allowNull : bool) (target : Z) : bool :=
  uint 32 target && (in_range target HMAC_SESSION_FIRST HMAC_SESSION_LAST ||
      in_range target POLICY_SESSION_FIRST POLICY_SESSION_LAST || (target =? 0x80000000) ||
      (target =? 0x80000001) || (target =? 0x80000002)).

Definition TPMI_RH_HIERARCHY_wf (allowNull : bool) (target : Z) : bool :=
  uint 32 target && (one_of target [TPM_RH_OWNER; TPM_RH_PLATFORM; TPM_RH_ENDORSEMENT] ||
      ((target =? TPM_RH_NULL) && allowNull)).

Definition TPMI_RH_ENABLES_wf (allowNull : bool) (target : Z) : bool :=
  uint 32 target && (one_of target [TPM_RH_OWNER; TPM_RH_PLATFORM; TPM_RH_ENDORSEMENT;
      TPM_RH_PLATFORM_NV] || ((target =? TPM_RH_NULL) && allowNull)).

Definition TPMI_RH_HIERARCHY_AUTH_wf (target : Z) : bool :=
  uint 32 target && one_of target [TPM_RH_OWNER; TPM_RH_PLATFORM; TPM_RH_ENDORSEMENT;
      TPM_RH_LOCKOUT].

Definition TPMI_RH_HIERARCHY_POLICY_wf (target : Z) : bool :=
  uint 32 target && (one_of target [TPM_RH_OWNER; TPM_RH_PLATFORM; TPM_RH_ENDORSEMENT;
      TPM_RH_LOCKOUT] || in_range target TPM_RH_ACT_0 TPM_RH_ACT_F).

Definition TPMI_RH_PLATFORM_wf (target : Z) : bool :=
  uint 32 target && one_of target [TPM_RH_PLATFORM].

Definition TPMI_RH_ENDORSEMENT_wf (allowNull : bool) (target : Z) : bool :=
  uint 32 target && (one_of target [TPM_RH_ENDORSEMENT] || ((target =? TPM_RH_NULL) &&
      allowNull)).

Definition TPMI_RH_PROVISION_wf (target : Z) : bool :=
  uint 32 target && one_of target [TPM_RH_OWNER; TPM_RH_PLATFORM].

Definition TPMI_RH_CLEAR_wf (target : Z) : bool :=
  uint 32 target && one_of target [TPM_RH_LOCKOUT; TPM_RH_PLATFORM].

Definition TPMI_RH_NV_AUTH_wf (target : Z) : bool :=
  uint 32 target && (one_of target [TPM_RH_OWNER; TPM_RH_PLATFORM] ||
      in_range target NV_INDEX_FIRST NV_INDEX_LAST).

Definition TPMI_RH_LOCKOUT_wf (target : Z) : bool :=
  uint 32 target && one_of target [TPM_RH_LOCKOUT].

Definition TPMI_RH_NV_INDEX_wf (target : Z) : bool :=
  uint 32 target && (in_range target NV_INDEX_FIRST NV_INDEX_LAST ||
      in_range target EXTERNAL_NV_FIRST EXTERNAL_NV_LAST ||
      in_range target PERMANENT_NV_FIRST PERMANENT_NV_LAST).

Definition TPMI_RH_NV_DEFINED_INDEX_wf (target : Z) : bool :=
  uint 32 target && (in_range target NV_INDEX_FIRST NV_INDEX_LAST ||
      in_range target EXTERNAL_NV_FIRST EXTERNAL_NV_LAST).

Definition TPMI_RH_NV_LEGACY_INDEX_wf (target : Z) : bool :=
  uint 32 target && in_range target NV_INDEX_FIRST NV_INDEX_LAST.

Definition TPMI_RH_NV_EXP_INDEX_wf (target : Z) : bool :=
  uint 32 target && in_range target EXTERNAL_NV_FIRST EXTERNAL_NV_LAST.

Definition TPMI_RH_AC_wf (target : Z) : bool :=
  uint 32 target && in_range target AC_FIRST AC_LAST.

Definition TPMI_RH_ACT_wf (target : Z) : bool :=
  uint 32 target && in_range target TPM_RH_ACT_0 TPM_RH_ACT_F.

Definition TPMI_ALG_HASH_wf (allowNull : bool) (target : Z) : bool :=
  uint 16 target && (one_of target [TPM_ALG_SHA1; TPM_ALG_SHA256; TPM_ALG_SHA384;
      TPM_ALG_SHA512] || ((target =? TPM_ALG_NULL) && allowNull)).

Definition TPMI_ALG_SYM_wf (allowNull : bool) (target : Z) : bool :=
  uint 16 target && (one_of target [TPM_ALG_AES; TPM_ALG_CAMELLIA; TPM_ALG_XOR] ||
      ((target =? TPM_ALG_NULL) && allowNull)).

Definition TPMI_ALG_SYM_OBJECT_wf (allowNull : bool) (target : Z) : bool :=
  uint 16 target && (one_of target [TPM_ALG_AES; TPM_ALG_CAMELLIA] || ((target =? TPM_ALG_NULL)
      && allowNull)).

Definition TPMI_ALG_SYM_MODE_wf (allowNull : bool) (target : Z) : bool :=
  uint 16 target && (one_of target [TPM_ALG_CTR; TPM_ALG_OFB; TPM_ALG_CBC; TPM_ALG_CFB;
      TPM_ALG_ECB; TPM_ALG_CMAC] || ((target =? TPM_ALG_NULL) && allowNull)).

Definition TPMI_ALG_KDF_wf (allowNull : bool) (target : Z) : bool :=
  uint 16 target && (one_of target [TPM_ALG_MGF1; TPM_ALG_KDF1_SP800_56A; TPM_ALG_KDF2;
      TPM_ALG_KDF1_SP800_108] || ((target =? TPM_ALG_NULL) && allowNull)).

Definition TPMI_ALG_SIG_SCHEME_wf (allowNull : bool) (target : Z) : bool :=
  uint 16 target && (one_of target [TPM_ALG_HMAC; TPM_ALG_RSASSA; TPM_ALG_RSAPSS; TPM_ALG_ECDSA;
      TPM_ALG_ECDAA; TPM_ALG_SM2; TPM_ALG_ECSCHNORR] || ((target =? TPM_ALG_NULL) && allowNull)).

Definition TPMI_ECC_KEY_EXCHANGE_wf (allowNull : bool) (target : Z) : bool :=
  uint 16 target && (one_of target [TPM_ALG_ECDH; TPM_ALG_ECMQV; TPM_ALG_SM2] ||
      ((target =? TPM_ALG_NULL) && allowNull)).

Definition TPMI_ST_COMMAND_TAG_wf (target : Z) : bool :=
  TPM_ST_wf target && one_of target [TPM_ST_NO_SESSIONS; TPM_ST_SESSIONS].

Definition TPMI_ALG_MAC_SCHEME_wf (allowNull : bool) (target : Z) : bool :=
  uint 16 target && (one_of target [TPM_ALG_SHA1; TPM_ALG_SHA256; TPM_ALG_SHA384; TPM_ALG_SHA512;
      TPM_ALG_CMAC] || ((target =? TPM_ALG_NULL) && allowNull)).

Definition TPMI_ALG_CIPHER_MODE_wf (allowNull : bool) (target : Z) : bool :=
  uint 16 target && (one_of target [TPM_ALG_CTR; TPM_ALG_OFB; TPM_ALG_CBC; TPM_ALG_CFB;
      TPM_ALG_ECB] || ((target =? TPM_ALG_NULL) && allowNull)).

Definition TPMU_HA_wf (selector : Z) (v : TPMU_HA) : bool :=
  match v with
  | TPMU_HA_sha1 sha1 => (selector =? TPM_ALG_SHA1) && array_wf SHA1_DIGEST_SIZE sha1
  | TPMU_HA_sha256 sha256 => (selector =? TPM_ALG_SHA256) && array_wf SHA256_DIGEST_SIZE sha256
  | TPMU_HA_sha384 sha384 => (selector =? TPM_ALG_SHA384) && array_wf SHA384_DIGEST_SIZE sha384
  | TPMU_HA_sha512 sha512 => (selector =? TPM_ALG_SHA512) && array_wf SHA512_DIGEST_SIZE sha512
  | TPMU_HA_none => selector =? TPM_ALG_NULL
  end.

Definition TPMT_HA_wf (allowNull : bool) (v : TPMT_HA) : bool :=
  TPMI_ALG_HASH_wf allowNull (TPMT_HA_hashAlg v) &&
  TPMU_HA_wf (TPMT_HA_hashAlg v) (TPMT_HA_digest v).

Definition TPMS_PCR_SELECTION_wf (v : TPMS_PCR_SELECTION) : bool :=
  TPMI_ALG_HASH_wf false (TPMS_PCR_SELECTION_hash v) &&
  uint 8 (TPMS_PCR_SELECTION_sizeofSelect v) &&
  in_range (TPMS_PCR_SELECTION_sizeofSelect v) PCR_SELECT_MIN PCR_SELECT_MAX &&
  array_wf (TPMS_PCR_SELECTION_sizeofSelect v) (TPMS_PCR_SELECTION_pcrSelect v).

Definition TPMT_TK_CREATION_wf (v : TPMT_TK_CREATION) : bool :=
  TPM_ST_wf (TPMT_TK_CREATION_tag v) &&
  (TPMT_TK_CREATION_tag v =? TPM_ST_CREATION) &&
  TPMI_RH_HIERARCHY_wf true (TPMT_TK_CREATION_hierarchy v) &&
  tpm2b_wf sizeof_TPMU_HA (TPMT_TK_CREATION_digest v).

Definition TPMT_TK_VERIFIED_wf (v : TPMT_TK_VERIFIED) : bool :=
  TPM_ST_wf (TPMT_TK_VERIFIED_tag v) &&
  (TPMT_TK_VERIFIED_tag v =? TPM_ST_VERIFIED) &&
  TPMI_RH_HIERARCHY_wf true (TPMT_TK_VERIFIED_hierarchy v) &&
  tpm2b_wf sizeof_TPMU_HA (TPMT_TK_VERIFIED_digest v).

Definition TPMT_TK_AUTH_wf (v : TPMT_TK_AUTH) : bool :=
  TPM_ST_wf (TPMT_TK_AUTH_tag v) &&
  ((TPMT_TK_AUTH_tag v =? TPM_ST_AUTH_SIGNED) || (TPMT_TK_AUTH_tag v =? TPM_ST_AUTH_SECRET)) &&
  TPMI_RH_HIERARCHY_wf true (TPMT_TK_AUTH_hierarchy v) &&
  tpm2b_wf sizeof_TPMU_HA (TPMT_TK_AUTH_digest v).

Definition TPMT_TK_HASHCHECK_wf (v : TPMT_TK_HASHCHECK) : bool :=
  TPM_ST_wf (TPMT_TK_HASHCHECK_tag v) &&
  (TPMT_TK_HASHCHECK_tag v =? TPM_ST_HASHCHECK) &&
  TPMI_RH_HIERARCHY_wf true (TPMT_TK_HASHCHECK_hierarchy v) &&
  tpm2b_wf sizeof_TPMU_HA (TPMT_TK_HASHCHECK_digest v).

Definition TPMS_ALG_PROPERTY_wf (v : TPMS_ALG_PROPERTY) : bool :=
  uint 16 (TPMS_ALG_PROPERTY_alg v) &&
  TPMA_ALGORITHM_wf (TPMS_ALG_PROPERTY_algProperties v).

Definition TPMS_TAGGED_PROPERTY_wf (v : TPMS_TAGGED_PROPERTY) : bool :=
  uint 32 (TPMS_TAGGED_PROPERTY_property v) &&
  uint 32 (TPMS_TAGGED_PROPERTY_value v).

Definition TPMS_TAGGED_PCR_SELECT_wf (v : TPMS_TAGGED_PCR_SELECT) : bool :=
  uint 32 (TPMS_TAGGED_PCR_SELECT_tag v) &&
  (TPMS_TAGGED_PCR_SELECT_sizeofSelect v <=? PCR_SELECT_MAX) &&
  array_wf (TPMS_TAGGED_PCR_SELECT_sizeofSelect v) (TPMS_TAGGED_PCR_SELECT_pcrSelect v).

Definition TPML_CC_wf (v : TPML_CC) : bool :=
  list_wf MAX_CAP_CC (uint 32) (TPML_CC_count v) (TPML_CC_commandCodes v).

Definition TPMS_TAGGED_POLICY_wf (v : TPMS_TAGGED_POLICY) : bool :=
  uint 32 (TPMS_TAGGED_POLICY_handle v) &&
  TPMT_HA_wf false (TPMS_TAGGED_POLICY_policyHash v).

Definition TPML_CCA_wf (v : TPML_CCA) : bool :=
  list_wf MAX_CAP_CC TPMA_CC_wf (TPML_CCA_count v) (TPML_CCA_commandAttributes v).

Definition TPML_ALG_wf (v : TPML_ALG) : bool :=
  list_wf MAX_ALG_LIST_SIZE (uint 16) (TPML_ALG_count v) (TPML_ALG_algorithms v).

Definition TPML_HANDLE_wf (v : TPML_HANDLE) : bool :=
  list_wf MAX_CAP_HANDLES (uint 32) (TPML_HANDLE_count v) (TPML_HANDLE_handle v).

Definition TPML_DIGEST_wf (v : TPML_DIGEST) : bool :=
  negb (TPML_DIGEST_count v <? 2) && list_wf 8 (tpm2b_wf sizeof_TPMU_HA) (TPML_DIGEST_count v)
      (TPML_DIGEST_digests v).

Definition TPML_DIGEST_VALUES_wf (v : TPML_DIGEST_VALUES) : bool :=
  list_wf HASH_COUNT (TPMT_HA_wf false) (TPML_DIGEST_VALUES_count v)
      (TPML_DIGEST_VALUES_digests v).

Definition TPML_PCR_SELECTION_wf (v : TPML_PCR_SELECTION) : bool :=
  list_wf HASH_COUNT TPMS_PCR_SELECTION_wf (TPML_PCR_SELECTION_count v)
      (TPML_PCR_SELECTION_pcrSelections v).

Definition TPMI_AES_KEY_BITS_wf (target : Z) : bool :=
  uint 16 target && one_of target [128; 256].

Definition TPMI_CAMELLIA_KEY_BITS_wf (target : Z) : bool :=
  uint 16 target && one_of target [128].

Definition TPMU_SYM_KEY_BITS_wf (selector : Z) (v : TPMU_SYM_KEY_BITS) : bool :=
  match v with
  | TPMU_SYM_KEY_BITS_aes aes => (selector =? TPM_ALG_AES) && TPMI_AES_KEY_BITS_wf aes
  | TPMU_SYM_KEY_BITS_camellia camellia => (selector =? TPM_ALG_CAMELLIA) &&
      TPMI_CAMELLIA_KEY_BITS_wf camellia
  | TPMU_SYM_KEY_BITS_xorr xorr => (selector =? TPM_ALG_XOR) && TPMI_ALG_HASH_wf false xorr
  | TPMU_SYM_KEY_BITS_none => selector =? TPM_ALG_NULL
  | _ => false
  end.

Definition TPMU_SYM_MODE_wf (selector : Z) (v : TPMU_SYM_MODE) : bool :=
  match v with
  | TPMU_SYM_MODE_aes aes => (selector =? TPM_ALG_AES) && TPMI_ALG_SYM_MODE_wf true aes
  | TPMU_SYM_MODE_camellia camellia => (selector =? TPM_ALG_CAMELLIA) &&
      TPMI_ALG_SYM_MODE_wf true camellia
  | TPMU_SYM_MODE_none => one_of selector [TPM_ALG_XOR; TPM_ALG_NULL]
  | _ => false
  end.

Definition TPMT_SYM_DEF_wf (allowNull : bool) (v : TPMT_SYM_DEF) : bool :=
  TPMI_ALG_SYM_wf allowNull (TPMT_SYM_DEF_algorithm v) &&
  TPMU_SYM_KEY_BITS_wf (TPMT_SYM_DEF_algorithm v) (TPMT_SYM_DEF_keyBits v) &&
  TPMU_SYM_MODE_wf (TPMT_SYM_DEF_algorithm v) (TPMT_SYM_DEF_mode v).

Definition TPMT_SYM_DEF_OBJECT_wf (allowNull : bool) (v : TPMT_SYM_DEF_OBJECT) : bool :=
  TPMI_ALG_SYM_OBJECT_wf allowNull (TPMT_SYM_DEF_OBJECT_algorithm v) &&
  TPMU_SYM_KEY_BITS_wf (TPMT_SYM_DEF_OBJECT_algorithm v) (TPMT_SYM_DEF_OBJECT_keyBits v) &&
  TPMU_SYM_MODE_wf (TPMT_SYM_DEF_OBJECT_algorithm v) (TPMT_SYM_DEF_OBJECT_mode v).

Definition TPMS_SYMCIPHER_PARMS_wf (v : TPMS_SYMCIPHER_PARMS) : bool :=
  TPMT_SYM_DEF_OBJECT_wf false (TPMS_SYMCIPHER_PARMS_sym v).

Definition TPMS_DERIVE_wf (v : TPMS_DERIVE) : bool :=
  tpm2b_wf LABEL_MAX_BUFFER (TPMS_DERIVE_label v) &&
  tpm2b_wf LABEL_MAX_BUFFER (TPMS_DERIVE_context v).

Definition TPMS_SENSITIVE_CREATE_wf (v : TPMS_SENSITIVE_CREATE) : bool :=
  tpm2b_wf sizeof_TPMU_HA (TPMS_SENSITIVE_CREATE_userAuth v) &&
  tpm2b_wf MAX_SYM_DATA (TPMS_SENSITIVE_CREATE_data v).

Definition TPM2B_SENSITIVE_CREATE_wf (v : TPM2B_SENSITIVE_CREATE) : bool :=
  uint 16 (TPM2B_SENSITIVE_CREATE_size v) && negb (TPM2B_SENSITIVE_CREATE_size v =? 0) &&
      TPMS_SENSITIVE_CREATE_wf (TPM2B_SENSITIVE_CREATE_sensitive v).

Definition TPMS_SCHEME_HASH_wf (v : TPMS_SCHEME_HASH) : bool :=
  TPMI_ALG_HASH_wf false (TPMS_SCHEME_HASH_hashAlg v).

Definition TPMS_SCHEME_ECDAA_wf (v : TPMS_SCHEME_ECDAA) : bool :=
  TPMI_ALG_HASH_wf false (TPMS_SCHEME_ECDAA_hashAlg v) &&
  uint 16 (TPMS_SCHEME_ECDAA_count v).

Definition TPMI_ALG_KEYEDHASH_SCHEME_wf (allowNull : bool) (target : Z) : bool :=
  uint 16 target && (one_of target [TPM_ALG_HMAC; TPM_ALG_XOR] || ((target =? TPM_ALG_NULL) &&
      allowNull)).

Definition TPMS_SCHEME_XOR_wf (v : TPMS_SCHEME_XOR) : bool :=
  TPMI_ALG_HASH_wf false (TPMS_SCHEME_XOR_hashAlg v) &&
  TPMI_ALG_KDF_wf true (TPMS_SCHEME_XOR_kdf v).

Definition TPMU_SCHEME_KEYEDHASH_wf (selector : Z) (v : TPMU_SCHEME_KEYEDHASH) : bool :=
  match v with
  | TPMU_SCHEME_KEYEDHASH_hmac hmac => (selector =? TPM_ALG_HMAC) && TPMS_SCHEME_HASH_wf hmac
  | TPMU_SCHEME_KEYEDHASH_xorr xorr => (selector =? TPM_ALG_XOR) && TPMS_SCHEME_XOR_wf xorr
  | TPMU_SCHEME_KEYEDHASH_none => selector =? TPM_ALG_NULL
  end.

Definition TPMT_KEYEDHASH_SCHEME_wf (allowNull : bool) (v : TPMT_KEYEDHASH_SCHEME) : bool :=
  TPMI_ALG_KEYEDHASH_SCHEME_wf allowNull (TPMT_KEYEDHASH_SCHEME_scheme v) &&
  TPMU_SCHEME_KEYEDHASH_wf (TPMT_KEYEDHASH_SCHEME_scheme v) (TPMT_KEYEDHASH_SCHEME_details v).

Definition TPMU_SIG_SCHEME_wf (selector : Z) (v : TPMU_SIG_SCHEME) : bool :=
  match v with
  | TPMU_SIG_SCHEME_ecdaa ecdaa => (selector =? TPM_ALG_ECDAA) && TPMS_SCHEME_ECDAA_wf ecdaa
  | TPMU_SIG_SCHEME_rsassa rsassa => (selector =? TPM_ALG_RSASSA) && TPMS_SCHEME_HASH_wf rsassa
  | TPMU_SIG_SCHEME_rsapss rsapss => (selector =? TPM_ALG_RSAPSS) && TPMS_SCHEME_HASH_wf rsapss
  | TPMU_SIG_SCHEME_ecdsa ecdsa => (selector =? TPM_ALG_ECDSA) && TPMS_SCHEME_HASH_wf ecdsa
  | TPMU_SIG_SCHEME_sm2 sm2 => (selector =? TPM_ALG_SM2) && TPMS_SCHEME_HASH_wf sm2
  | TPMU_SIG_SCHEME_ecschnorr ecschnorr => (selector =? TPM_ALG_ECSCHNORR) &&
      TPMS_SCHEME_HASH_wf ecschnorr
  | TPMU_SIG_SCHEME_hmac hmac => (selector =? TPM_ALG_HMAC) && TPMS_SCHEME_HASH_wf hmac
  | TPMU_SIG_SCHEME_none => selector =? TPM_ALG_NULL
  | _ => false
  end.

Definition TPMT_SIG_SCHEME_wf (allowNull : bool) (v : TPMT_SIG_SCHEME) : bool :=
  TPMI_ALG_SIG_SCHEME_wf allowNull (TPMT_SIG_SCHEME_scheme v) &&
  TPMU_SIG_SCHEME_wf (TPMT_SIG_SCHEME_scheme v) (TPMT_SIG_SCHEME_details v).

Definition TPMU_KDF_SCHEME_wf (selector : Z) (v : TPMU_KDF_SCHEME) : bool :=
  match v with
  | TPMU_KDF_SCHEME_mgf1 mgf1 => (selector =? TPM_ALG_MGF1) && TPMS_SCHEME_HASH_wf mgf1
  | TPMU_KDF_SCHEME_kdf1_sp800_56a kdf1_sp800_56a => (selector =? TPM_ALG_KDF1_SP800_56A) &&
      TPMS_SCHEME_HASH_wf kdf1_sp800_56a
  | TPMU_KDF_SCHEME_kdf2 kdf2 => (selector =? TPM_ALG_KDF2) && TPMS_SCHEME_HASH_wf kdf2
  | TPMU_KDF_SCHEME_kdf1_sp800_108 kdf1_sp800_108 => (selector =? TPM_ALG_KDF1_SP800_108) &&
      TPMS_SCHEME_HASH_wf kdf1_sp800_108
  | TPMU_KDF_SCHEME_none => selector =? TPM_ALG_NULL
  | _ => false
  end.

Definition TPMT_KDF_SCHEME_wf (allowNull : bool) (v : TPMT_KDF_SCHEME) : bool :=
  TPMI_ALG_KDF_wf allowNull (TPMT_KDF_SCHEME_scheme v) &&
  TPMU_KDF_SCHEME_wf (TPMT_KDF_SCHEME_scheme v) (TPMT_KDF_SCHEME_details v).

Definition TPMU_ASYM_SCHEME_wf (selector : Z) (v : TPMU_ASYM_SCHEME) : bool :=
  match v with
  | TPMU_ASYM_SCHEME_ecdh ecdh => (selector =? TPM_ALG_ECDH) && TPMS_SCHEME_HASH_wf ecdh
  | TPMU_ASYM_SCHEME_ecmqv ecmqv => (selector =? TPM_ALG_ECMQV) && TPMS_SCHEME_HASH_wf ecmqv
  | TPMU_ASYM_SCHEME_ecdaa ecdaa => (selector =? TPM_ALG_ECDAA) && TPMS_SCHEME_ECDAA_wf ecdaa
  | TPMU_ASYM_SCHEME_rsassa rsassa => (selector =? TPM_ALG_RSASSA) && TPMS_SCHEME_HASH_wf rsassa
  | TPMU_ASYM_SCHEME_rsapss rsapss => (selector =? TPM_ALG_RSAPSS) && TPMS_SCHEME_HASH_wf rsapss
  | TPMU_ASYM_SCHEME_ecdsa ecdsa => (selector =? TPM_ALG_ECDSA) && TPMS_SCHEME_HASH_wf ecdsa
  | TPMU_ASYM_SCHEME_sm2 sm2 => (selector =? TPM_ALG_SM2) && TPMS_SCHEME_HASH_wf sm2
  | TPMU_ASYM_SCHEME_ecschnorr ecschnorr => (selector =? TPM_ALG_ECSCHNORR) &&
      TPMS_SCHEME_HASH_wf ecschnorr
  | TPMU_ASYM_SCHEME_rsaes rsaes => (selector =? TPM_ALG_RSAES) && unit_wf rsaes
  | TPMU_ASYM_SCHEME_oaep oaep => (selector =? TPM_ALG_OAEP) && TPMS_SCHEME_HASH_wf oaep
  | TPMU_ASYM_SCHEME_none => selector =? TPM_ALG_NULL
  | _ => false
  end.

Definition TPMI_ALG_RSA_SCHEME_wf (allowNull : bool) (target : Z) : bool :=
  uint 16 target && (one_of target [TPM_ALG_RSASSA; TPM_ALG_RSAPSS; TPM_ALG_RSAES;
      TPM_ALG_OAEP] || ((target =? TPM_ALG_NULL) && allowNull)).

Definition TPMT_RSA_SCHEME_wf (allowNull : bool) (v : TPMT_RSA_SCHEME) : bool :=
  TPMI_ALG_RSA_SCHEME_wf allowNull (TPMT_RSA_SCHEME_scheme v) &&
  TPMU_ASYM_SCHEME_wf (TPMT_RSA_SCHEME_scheme v) (TPMT_RSA_SCHEME_details v).

Definition TPMI_ALG_RSA_DECRYPT_wf (allowNull : bool) (target : Z) : bool :=
  uint 16 target && (one_of target [TPM_ALG_RSAES; TPM_ALG_OAEP] || ((target =? TPM_ALG_NULL) &&
      allowNull)).

Definition TPMT_RSA_DECRYPT_wf (allowNull : bool) (v : TPMT_RSA_DECRYPT) : bool :=
  TPMI_ALG_RSA_DECRYPT_wf allowNull (TPMT_RSA_DECRYPT_scheme v) &&
  TPMU_ASYM_SCHEME_wf (TPMT_RSA_DECRYPT_scheme v) (TPMT_RSA_DECRYPT_details v).

Definition TPMI_RSA_KEY_BITS_wf (target : Z) : bool :=
  uint 16 target && one_of target [1024; 2048; 3072].

Definition TPMS_ECC_POINT_wf (v : TPMS_ECC_POINT) : bool :=
  tpm2b_wf MAX_ECC_KEY_BYTES (TPMS_ECC_POINT_x v) &&
  tpm2b_wf MAX_ECC_KEY_BYTES (TPMS_ECC_POINT_y v).

Definition TPM2B_ECC_POINT_wf (v : TPM2B_ECC_POINT) : bool :=
  negb (TPM2B_ECC_POINT_size v =? 0) && (TPM2B_ECC_POINT_size v =? marshaled_size
      (TPMS_ECC_POINT_Marshal (TPM2B_ECC_POINT_point v))) &&
  TPMS_ECC_POINT_wf (TPM2B_ECC_POINT_point v).

Definition TPMI_ALG_ECC_SCHEME_wf (allowNull : bool) (target : Z) : bool :=
  uint 16 target && (one_of target [TPM_ALG_ECDSA; TPM_ALG_SM2; TPM_ALG_ECDAA; TPM_ALG_ECSCHNORR;
      TPM_ALG_ECDH; TPM_ALG_ECMQV] || ((target =? TPM_ALG_NULL) && allowNull)).

Definition TPMI_ECC_CURVE_wf (allowNull : bool) (target : Z) : bool :=
  TPM_ECC_CURVE_wf target && (negb (target =? TPM_ECC_NONE) || allowNull).

Definition TPMT_ECC_SCHEME_wf (allowNull : bool) (v : TPMT_ECC_SCHEME) : bool :=
  TPMI_ALG_ECC_SCHEME_wf allowNull (TPMT_ECC_SCHEME_scheme v) &&
  TPMU_ASYM_SCHEME_wf (TPMT_ECC_SCHEME_scheme v) (TPMT_ECC_SCHEME_details v).

Definition TPMS_SIGNATURE_RSA_wf (v : TPMS_SIGNATURE_RSA) : bool :=
  TPMI_ALG_HASH_wf false (TPMS_SIGNATURE_RSA_hash v) &&
  tpm2b_wf MAX_RSA_KEY_BYTES (TPMS_SIGNATURE_RSA_sig v).

Definition TPMS_SIGNATURE_ECC_wf (v : TPMS_SIGNATURE_ECC) : bool :=
  TPMI_ALG_HASH_wf false (TPMS_SIGNATURE_ECC_hash v) &&
  tpm2b_wf MAX_ECC_KEY_BYTES (TPMS_SIGNATURE_ECC_signatureR v) &&
  tpm2b_wf MAX_ECC_KEY_BYTES (TPMS_SIGNATURE_ECC_signatureS v).

Definition TPMU_SIGNATURE_wf (selector : Z) (v : TPMU_SIGNATURE) : bool :=
  match v with
  | TPMU_SIGNATURE_ecdaa ecdaa => (selector =? TPM_ALG_ECDAA) && TPMS_SIGNATURE_ECC_wf ecdaa
  | TPMU_SIGNATURE_rsassa rsassa => (selector =? TPM_ALG_RSASSA) && TPMS_SIGNATURE_RSA_wf rsassa
  | TPMU_SIGNATURE_rsapss rsapss => (selector =? TPM_ALG_RSAPSS) && TPMS_SIGNATURE_RSA_wf rsapss
  | TPMU_SIGNATURE_ecdsa ecdsa => (selector =? TPM_ALG_ECDSA) && TPMS_SIGNATURE_ECC_wf ecdsa
  | TPMU_SIGNATURE_sm2 sm2 => (selector =? TPM_ALG_SM2) && TPMS_SIGNATURE_ECC_wf sm2
  | TPMU_SIGNATURE_ecschnorr ecschnorr => (selector =? TPM_ALG_ECSCHNORR) &&
      TPMS_SIGNATURE_ECC_wf ecschnorr
  | TPMU_SIGNATURE_hmac hmac => (selector =? TPM_ALG_HMAC) && TPMT_HA_wf false hmac
  | TPMU_SIGNATURE_none => selector =? TPM_ALG_NULL
  | _ => false
  end.

Definition TPMT_SIGNATURE_wf (allowNull : bool) (v : TPMT_SIGNATURE) : bool :=
  TPMI_ALG_SIG_SCHEME_wf allowNull (TPMT_SIGNATURE_sigAlg v) &&
  TPMU_SIGNATURE_wf (TPMT_SIGNATURE_sigAlg v) (TPMT_SIGNATURE_signature v).

Definition TPMI_ALG_PUBLIC_wf (target : Z) : bool :=
  uint 16 target && one_of target [TPM_ALG_KEYEDHASH; TPM_ALG_RSA; TPM_ALG_ECC;
      TPM_ALG_SYMCIPHER].

Definition TPMU_PUBLIC_ID_wf (selector : Z) (v : TPMU_PUBLIC_ID) : bool :=
  match v with
  | TPMU_PUBLIC_ID_keyedHash keyedHash => (selector =? TPM_ALG_KEYEDHASH) &&
      tpm2b_wf sizeof_TPMU_HA keyedHash
  | TPMU_PUBLIC_ID_sym sym => (selector =? TPM_ALG_SYMCIPHER) && tpm2b_wf sizeof_TPMU_HA sym
  | TPMU_PUBLIC_ID_rsa rsa => (selector =? TPM_ALG_RSA) && tpm2b_wf MAX_RSA_KEY_BYTES rsa
  | TPMU_PUBLIC_ID_ecc ecc => (selector =? TPM_ALG_ECC) && TPMS_ECC_POINT_wf ecc
  | _ => false
  end.

Definition TPMS_KEYEDHASH_PARMS_wf (v : TPMS_KEYEDHASH_PARMS) : bool :=
  TPMT_KEYEDHASH_SCHEME_wf true (TPMS_KEYEDHASH_PARMS_scheme v).

Definition TPMS_RSA_PARMS_wf (v : TPMS_RSA_PARMS) : bool :=
  TPMT_SYM_DEF_OBJECT_wf true (TPMS_RSA_PARMS_symmetric v) &&
  TPMT_RSA_SCHEME_wf true (TPMS_RSA_PARMS_scheme v) &&
  TPMI_RSA_KEY_BITS_wf (TPMS_RSA_PARMS_keyBits v) &&
  uint 32 (TPMS_RSA_PARMS_exponent v).

Definition TPMS_ECC_PARMS_wf (v : TPMS_ECC_PARMS) : bool :=
  TPMT_SYM_DEF_OBJECT_wf true (TPMS_ECC_PARMS_symmetric v) &&
  TPMT_ECC_SCHEME_wf true (TPMS_ECC_PARMS_scheme v) &&
  TPMI_ECC_CURVE_wf false (TPMS_ECC_PARMS_curveID v) &&
  TPMT_KDF_SCHEME_wf true (TPMS_ECC_PARMS_kdf v).

Definition TPMU_PUBLIC_PARMS_wf (selector : Z) (v : TPMU_PUBLIC_PARMS) : bool :=
  match v with
  | TPMU_PUBLIC_PARMS_keyedHashDetail keyedHashDetail => (selector =? TPM_ALG_KEYEDHASH) &&
      TPMS_KEYEDHASH_PARMS_wf keyedHashDetail
  | TPMU_PUBLIC_PARMS_symDetail symDetail => (selector =? TPM_ALG_SYMCIPHER) &&
      TPMS_SYMCIPHER_PARMS_wf symDetail
  | TPMU_PUBLIC_PARMS_rsaDetail rsaDetail => (selector =? TPM_ALG_RSA) &&
      TPMS_RSA_PARMS_wf rsaDetail
  | TPMU_PUBLIC_PARMS_eccDetail eccDetail => (selector =? TPM_ALG_ECC) &&
      TPMS_ECC_PARMS_wf eccDetail
  | _ => false
  end.

Definition TPMT_PUBLIC_PARMS_wf (v : TPMT_PUBLIC_PARMS) : bool :=
  TPMI_ALG_PUBLIC_wf (TPMT_PUBLIC_PARMS_type v) &&
  TPMU_PUBLIC_PARMS_wf (TPMT_PUBLIC_PARMS_type v) (TPMT_PUBLIC_PARMS_parameters v).

Definition TPMT_PUBLIC_wf (allowNull : bool) (v : TPMT_PUBLIC) : bool :=
  TPMI_ALG_PUBLIC_wf (TPMT_PUBLIC_type v) &&
  TPMI_ALG_HASH_wf allowNull (TPMT_PUBLIC_nameAlg v) &&
  TPMA_OBJECT_wf (TPMT_PUBLIC_objectAttributes v) &&
  tpm2b_wf sizeof_TPMU_HA (TPMT_PUBLIC_authPolicy v) &&
  TPMU_PUBLIC_PARMS_wf (TPMT_PUBLIC_type v) (TPMT_PUBLIC_parameters v) &&
  TPMU_PUBLIC_ID_wf (TPMT_PUBLIC_type v) (TPMT_PUBLIC_unique v).

Definition TPM2B_PUBLIC_wf (allowNull : bool) (v : TPM2B_PUBLIC) : bool :=
  negb (TPM2B_PUBLIC_size v =? 0) && (TPM2B_PUBLIC_size v =? marshaled_size (TPMT_PUBLIC_Marshal
      (TPM2B_PUBLIC_publicArea v))) &&
  TPMT_PUBLIC_wf allowNull (TPM2B_PUBLIC_publicArea v).

Definition TPMU_SENSITIVE_COMPOSITE_wf (selector : Z) (v : TPMU_SENSITIVE_COMPOSITE) : bool :=
  match v with
  | TPMU_SENSITIVE_COMPOSITE_rsa rsa => (selector =? TPM_ALG_RSA) && tpm2b_wf RSA_PRIVATE_SIZE rsa
  | TPMU_SENSITIVE_COMPOSITE_ecc ecc => (selector =? TPM_ALG_ECC) &&
      tpm2b_wf MAX_ECC_KEY_BYTES ecc
  | TPMU_SENSITIVE_COMPOSITE_bits bits => (selector =? TPM_ALG_KEYEDHASH) &&
      tpm2b_wf MAX_SYM_DATA bits
  | TPMU_SENSITIVE_COMPOSITE_sym sym => (selector =? TPM_ALG_SYMCIPHER) &&
      tpm2b_wf MAX_SYM_KEY_BYTES sym
  | _ => false
  end.

Definition TPMT_SENSITIVE_wf (v : TPMT_SENSITIVE) : bool :=
  TPMI_ALG_PUBLIC_wf (TPMT_SENSITIVE_sensitiveType v) &&
  tpm2b_wf sizeof_TPMU_HA (TPMT_SENSITIVE_authValue v) &&
  tpm2b_wf sizeof_TPMU_HA (TPMT_SENSITIVE_seedValue v) &&
  TPMU_SENSITIVE_COMPOSITE_wf (TPMT_SENSITIVE_sensitiveType v) (TPMT_SENSITIVE_sensitive v).

Definition TPM2B_SENSITIVE_wf (v : TPM2B_SENSITIVE) : bool :=
  uint 16 (TPM2B_SENSITIVE_size v) &&
  match TPM2B_SENSITIVE_sensitiveArea v with
  | Some a => negb (TPM2B_SENSITIVE_size v =? 0) && TPMT_SENSITIVE_wf a
  | None => TPM2B_SENSITIVE_size v =? 0
  end.

Definition TPMA_NV_wf (target : Z) : bool :=
  uint 32 target && (Z.land target TPMA_NV_RESERVED =? 0).

Definition TPMS_NV_PUBLIC_wf (v : TPMS_NV_PUBLIC) : bool :=
  TPMI_RH_NV_INDEX_wf (TPMS_NV_PUBLIC_nvIndex v) &&
  TPMI_ALG_HASH_wf false (TPMS_NV_PUBLIC_nameAlg v) &&
  TPMA_NV_wf (TPMS_NV_PUBLIC_attributes v) &&
  tpm2b_wf sizeof_TPMU_HA (TPMS_NV_PUBLIC_authPolicy v) &&
  uint 16 (TPMS_NV_PUBLIC_dataSize v) &&
  (TPMS_NV_PUBLIC_dataSize v <=? MAX_NV_INDEX_SIZE).

Definition TPM2B_NV_PUBLIC_wf (v : TPM2B_NV_PUBLIC) : bool :=
  negb (TPM2B_NV_PUBLIC_size v =? 0) && (TPM2B_NV_PUBLIC_size v =? marshaled_size
      (TPMS_NV_PUBLIC_Marshal (TPM2B_NV_PUBLIC_nvPublic v))) &&
  TPMS_NV_PUBLIC_wf (TPM2B_NV_PUBLIC_nvPublic v).

Definition TPMA_NV_EXP_wf (target : Z) : bool :=
  uint 64 target && (Z.land target TPMA_NV_EXP_reserved =? 0).

Definition TPMS_NV_PUBLIC_EXP_ATTR_wf (v : TPMS_NV_PUBLIC_EXP_ATTR) : bool :=
  TPMI_RH_NV_EXP_INDEX_wf (TPMS_NV_PUBLIC_EXP_ATTR_nvIndex v) &&
  TPMI_ALG_HASH_wf false (TPMS_NV_PUBLIC_EXP_ATTR_nameAlg v) &&
  TPMA_NV_EXP_wf (TPMS_NV_PUBLIC_EXP_ATTR_attributes v) &&
  tpm2b_wf sizeof_TPMU_HA (TPMS_NV_PUBLIC_EXP_ATTR_authPolicy v) &&
  uint 16 (TPMS_NV_PUBLIC_EXP_ATTR_dataSize v) &&
  (TPMS_NV_PUBLIC_EXP_ATTR_dataSize v <=? MAX_NV_INDEX_SIZE).

Definition TPMU_NV_PUBLIC_2_wf (selector : Z) (v : TPMU_NV_PUBLIC_2) : bool :=
  match v with
  | TPMU_NV_PUBLIC_2_nvIndex nvIndex => (selector =? TPM_HT_NV_INDEX) && TPMS_NV_PUBLIC_wf nvIndex
  | TPMU_NV_PUBLIC_2_externalNV externalNV => (selector =? TPM_HT_EXTERNAL_NV) &&
      TPMS_NV_PUBLIC_EXP_ATTR_wf externalNV
  | TPMU_NV_PUBLIC_2_permanentNV permanentNV => (selector =? TPM_HT_PERMANENT_NV) &&
      TPMS_NV_PUBLIC_wf permanentNV
  end.

Definition TPMT_NV_PUBLIC_2_wf (v : TPMT_NV_PUBLIC_2) : bool :=
  uint 8 (TPMT_NV_PUBLIC_2_handleType v) &&
  TPMU_NV_PUBLIC_2_wf (TPMT_NV_PUBLIC_2_handleType v) (TPMT_NV_PUBLIC_2_nvPublic2 v).

Definition TPM2B_NV_PUBLIC_2_wf (v : TPM2B_NV_PUBLIC_2) : bool :=
  negb (TPM2B_NV_PUBLIC_2_size v =? 0) && (TPM2B_NV_PUBLIC_2_size v =? marshaled_size
      (TPMT_NV_PUBLIC_2_Marshal (TPM2B_NV_PUBLIC_2_nvPublic2 v))) &&
  TPMT_NV_PUBLIC_2_wf (TPM2B_NV_PUBLIC_2_nvPublic2 v).

Definition TPMS_CONTEXT_wf (v : TPMS_CONTEXT) : bool :=
  uint 64 (TPMS_CONTEXT_sequence v) &&
  TPMI_DH_SAVED_wf false (TPMS_CONTEXT_savedHandle v) &&
  TPMI_RH_HIERARCHY_wf true (TPMS_CONTEXT_hierarchy v) &&
  tpm2b_wf sizeof_TPMS_CONTEXT_DATA (TPMS_CONTEXT_contextBlob v).

Definition TPMU_SET_CAPABILITIES_wf (selector : Z) (v : TPMU_SET_CAPABILITIES) : bool := false.

Definition TPMS_SET_CAPABILITY_DATA_wf (v : TPMS_SET_CAPABILITY_DATA) : bool :=
  TPM_CAP_wf (TPMS_SET_CAPABILITY_DATA_setCapability v) &&
  TPMU_SET_CAPABILITIES_wf (TPMS_SET_CAPABILITY_DATA_setCapability v)
      (TPMS_SET_CAPABILITY_DATA_data v).

Definition TPM2B_SET_CAPABILITY_DATA_wf (v : TPM2B_SET_CAPABILITY_DATA) : bool :=
  uint 16 (TPM2B_SET_CAPABILITY_DATA_size v) && negb (TPM2B_SET_CAPABILITY_DATA_size v =? 0) &&
      TPMS_SET_CAPABILITY_DATA_wf (TPM2B_SET_CAPABILITY_DATA_setCapabilityData v).

(** ** Types that the TPM only marshals *)

Definition TPMS_ACT_DATA_wf (v : TPMS_ACT_DATA) : bool :=
  uint 32 (TPMS_ACT_DATA_handle v) &&
  uint 32 (TPMS_ACT_DATA_timeout v) &&
  uint 32 (TPMS_ACT_DATA_attributes v).

Definition TPML_ALG_PROPERTY_wf (v : TPML_ALG_PROPERTY) : bool :=
  list_wf MAX_CAP_ALGS TPMS_ALG_PROPERTY_wf (TPML_ALG_PROPERTY_count v)
      (TPML_ALG_PROPERTY_algProperties v).

Definition TPML_TAGGED_TPM_PROPERTY_wf (v : TPML_TAGGED_TPM_PROPERTY) : bool :=
  list_wf MAX_TPM_PROPERTIES TPMS_TAGGED_PROPERTY_wf (TPML_TAGGED_TPM_PROPERTY_count v)
      (TPML_TAGGED_TPM_PROPERTY_tpmProperty v).

Definition TPML_TAGGED_PCR_PROPERTY_wf (v : TPML_TAGGED_PCR_PROPERTY) : bool :=
  list_wf MAX_PCR_PROPERTIES TPMS_TAGGED_PCR_SELECT_wf (TPML_TAGGED_PCR_PROPERTY_count v)
      (TPML_TAGGED_PCR_PROPERTY_pcrProperty v).

Definition TPML_ECC_CURVE_wf (v : TPML_ECC_CURVE) : bool :=
  list_wf MAX_ECC_CURVES (uint 16) (TPML_ECC_CURVE_count v) (TPML_ECC_CURVE_eccCurves v).

Definition TPML_TAGGED_POLICY_wf (v : TPML_TAGGED_POLICY) : bool :=
  list_wf MAX_TAGGED_POLICIES TPMS_TAGGED_POLICY_wf (TPML_TAGGED_POLICY_count v)
      (TPML_TAGGED_POLICY_policies v).

Definition TPML_ACT_DATA_wf (v : TPML_ACT_DATA) : bool :=
  list_wf MAX_ACT_DATA TPMS_ACT_DATA_wf (TPML_ACT_DATA_count v) (TPML_ACT_DATA_actData v).

Definition TPMU_CAPABILITIES_wf (selector : Z) (v : TPMU_CAPABILITIES) : bool :=
  match v with
  | TPMU_CAPABILITIES_algorithms algorithms => (selector =? TPM_CAP_ALGS) &&
      TPML_ALG_PROPERTY_wf algorithms
  | TPMU_CAPABILITIES_handles handles => (selector =? TPM_CAP_HANDLES) && TPML_HANDLE_wf handles
  | TPMU_CAPABILITIES_command command => (selector =? TPM_CAP_COMMANDS) && TPML_CCA_wf command
  | TPMU_CAPABILITIES_ppCommands ppCommands => (selector =? TPM_CAP_PP_COMMANDS) &&
      TPML_CC_wf ppCommands
  | TPMU_CAPABILITIES_auditCommands auditCommands => (selector =? TPM_CAP_AUDIT_COMMANDS) &&
      TPML_CC_wf auditCommands
  | TPMU_CAPABILITIES_assignedPCR assignedPCR => (selector =? TPM_CAP_PCRS) &&
      TPML_PCR_SELECTION_wf assignedPCR
  | TPMU_CAPABILITIES_tpmProperties tpmProperties => (selector =? TPM_CAP_TPM_PROPERTIES) &&
      TPML_TAGGED_TPM_PROPERTY_wf tpmProperties
  | TPMU_CAPABILITIES_pcrProperties pcrProperties => (selector =? TPM_CAP_PCR_PROPERTIES) &&
      TPML_TAGGED_PCR_PROPERTY_wf pcrProperties
  | TPMU_CAPABILITIES_eccCurves eccCurves => (selector =? TPM_CAP_ECC_CURVES) &&
      TPML_ECC_CURVE_wf eccCurves
  | TPMU_CAPABILITIES_authPolicies authPolicies => (selector =? TPM_CAP_AUTH_POLICIES) &&
      TPML_TAGGED_POLICY_wf authPolicies
  | TPMU_CAPABILITIES_actData actData => (selector =? TPM_CAP_ACT) && TPML_ACT_DATA_wf actData
  end.

Definition TPMS_CAPABILITY_DATA_wf (v : TPMS_CAPABILITY_DATA) : bool :=
  uint 32 (TPMS_CAPABILITY_DATA_capability v) &&
  TPMU_CAPABILITIES_wf (TPMS_CAPABILITY_DATA_capability v) (TPMS_CAPABILITY_DATA_data v).

Definition TPMS_CLOCK_INFO_wf (v : TPMS_CLOCK_INFO) : bool :=
  uint 64 (TPMS_CLOCK_INFO_clock v) &&
  uint 32 (TPMS_CLOCK_INFO_resetCount v) &&
  uint 32 (TPMS_CLOCK_INFO_restartCount v) &&
  uint 8 (TPMS_CLOCK_INFO_safe v).

Definition TPMS_TIME_INFO_wf (v : TPMS_TIME_INFO) : bool :=
  uint 64 (TPMS_TIME_INFO_time v) &&
  TPMS_CLOCK_INFO_wf (TPMS_TIME_INFO_clockInfo v).

Definition TPMS_TIME_ATTEST_INFO_wf (v : TPMS_TIME_ATTEST_INFO) : bool :=
  TPMS_TIME_INFO_wf (TPMS_TIME_ATTEST_INFO_time v) &&
  uint 64 (TPMS_TIME_ATTEST_INFO_firmwareVersion v).

Definition TPMS_CERTIFY_INFO_wf (v : TPMS_CERTIFY_INFO) : bool :=
  tpm2b_wf sizeof_TPMU_NAME (TPMS_CERTIFY_INFO_name v) &&
  tpm2b_wf sizeof_TPMU_NAME (TPMS_CERTIFY_INFO_qualifiedName v).

Definition TPMS_QUOTE_INFO_wf (v : TPMS_QUOTE_INFO) : bool :=
  TPML_PCR_SELECTION_wf (TPMS_QUOTE_INFO_pcrSelect v) &&
  tpm2b_wf sizeof_TPMU_HA (TPMS_QUOTE_INFO_pcrDigest v).

Definition TPMS_COMMAND_AUDIT_INFO_wf (v : TPMS_COMMAND_AUDIT_INFO) : bool :=
  uint 64 (TPMS_COMMAND_AUDIT_INFO_auditCounter v) &&
  uint 16 (TPMS_COMMAND_AUDIT_INFO_digestAlg v) &&
  tpm2b_wf sizeof_TPMU_HA (TPMS_COMMAND_AUDIT_INFO_auditDigest v) &&
  tpm2b_wf sizeof_TPMU_HA (TPMS_COMMAND_AUDIT_INFO_commandDigest v).

Definition TPMS_SESSION_AUDIT_INFO_wf (v : TPMS_SESSION_AUDIT_INFO) : bool :=
  uint 8 (TPMS_SESSION_AUDIT_INFO_exclusiveSession v) &&
  tpm2b_wf sizeof_TPMU_HA (TPMS_SESSION_AUDIT_INFO_sessionDigest v).

Definition TPMS_CREATION_INFO_wf (v : TPMS_CREATION_INFO) : bool :=
  tpm2b_wf sizeof_TPMU_NAME (TPMS_CREATION_INFO_objectName v) &&
  tpm2b_wf sizeof_TPMU_HA (TPMS_CREATION_INFO_creationHash v).

Definition TPMS_NV_CERTIFY_INFO_wf (v : TPMS_NV_CERTIFY_INFO) : bool :=
  tpm2b_wf sizeof_TPMU_NAME (TPMS_NV_CERTIFY_INFO_indexName v) &&
  uint 16 (TPMS_NV_CERTIFY_INFO_offset v) &&
  tpm2b_wf MAX_NV_BUFFER_SIZE (TPMS_NV_CERTIFY_INFO_nvContents v).

Definition TPMS_NV_DIGEST_CERTIFY_INFO_wf (v : TPMS_NV_DIGEST_CERTIFY_INFO) : bool :=
  tpm2b_wf sizeof_TPMU_NAME (TPMS_NV_DIGEST_CERTIFY_INFO_indexName v) &&
  tpm2b_wf sizeof_TPMU_HA (TPMS_NV_DIGEST_CERTIFY_INFO_nvDigest v).

Definition TPMU_ATTEST_wf (selector : Z) (v : TPMU_ATTEST) : bool :=
  match v with
  | TPMU_ATTEST_certify certify => (selector =? TPM_ST_ATTEST_CERTIFY) &&
      TPMS_CERTIFY_INFO_wf certify
  | TPMU_ATTEST_creation creation => (selector =? TPM_ST_ATTEST_CREATION) &&
      TPMS_CREATION_INFO_wf creation
  | TPMU_ATTEST_quote quote => (selector =? TPM_ST_ATTEST_QUOTE) && TPMS_QUOTE_INFO_wf quote
  | TPMU_ATTEST_commandAudit commandAudit => (selector =? TPM_ST_ATTEST_COMMAND_AUDIT) &&
      TPMS_COMMAND_AUDIT_INFO_wf commandAudit
  | TPMU_ATTEST_sessionAudit sessionAudit => (selector =? TPM_ST_ATTEST_SESSION_AUDIT) &&
      TPMS_SESSION_AUDIT_INFO_wf sessionAudit
  | TPMU_ATTEST_time time => (selector =? TPM_ST_ATTEST_TIME) && TPMS_TIME_ATTEST_INFO_wf time
  | TPMU_ATTEST_nv nv => (selector =? TPM_ST_ATTEST_NV) && TPMS_NV_CERTIFY_INFO_wf nv
  | TPMU_ATTEST_nvDigest nvDigest => (selector =? TPM_ST_ATTEST_NV_DIGEST) &&
      TPMS_NV_DIGEST_CERTIFY_INFO_wf nvDigest
  end.

Definition TPMS_ATTEST_wf (v : TPMS_ATTEST) : bool :=
  uint 32 (TPMS_ATTEST_magic v) &&
  uint 16 (TPMS_ATTEST_type v) &&
  tpm2b_wf sizeof_TPMU_NAME (TPMS_ATTEST_qualifiedSigner v) &&
  tpm2b_wf sizeof_TPMT_HA (TPMS_ATTEST_extraData v) &&
  TPMS_CLOCK_INFO_wf (TPMS_ATTEST_clockInfo v) &&
  uint 64 (TPMS_ATTEST_firmwareVersion v) &&
  TPMU_ATTEST_wf (TPMS_ATTEST_type v) (TPMS_ATTEST_attested v).

Definition TPMS_ALGORITHM_DETAIL_ECC_wf (v : TPMS_ALGORITHM_DETAIL_ECC) : bool :=
  uint 16 (TPMS_ALGORITHM_DETAIL_ECC_curveID v) &&
  uint 16 (TPMS_ALGORITHM_DETAIL_ECC_keySize v) &&
  TPMT_KDF_SCHEME_wf true (TPMS_ALGORITHM_DETAIL_ECC_kdf v) &&
  TPMT_ECC_SCHEME_wf true (TPMS_ALGORITHM_DETAIL_ECC_sign v) &&
  tpm2b_wf MAX_ECC_KEY_BYTES (TPMS_ALGORITHM_DETAIL_ECC_p v) &&
  tpm2b_wf MAX_ECC_KEY_BYTES (TPMS_ALGORITHM_DETAIL_ECC_a v) &&
  tpm2b_wf MAX_ECC_KEY_BYTES (TPMS_ALGORITHM_DETAIL_ECC_b v) &&
  tpm2b_wf MAX_ECC_KEY_BYTES (TPMS_ALGORITHM_DETAIL_ECC_gX v) &&
  tpm2b_wf MAX_ECC_KEY_BYTES (TPMS_ALGORITHM_DETAIL_ECC_gY v) &&
  tpm2b_wf MAX_ECC_KEY_BYTES (TPMS_ALGORITHM_DETAIL_ECC_n v) &&
  tpm2b_wf MAX_ECC_KEY_BYTES (TPMS_ALGORITHM_DETAIL_ECC_h v).

Definition TPMS_CREATION_DATA_wf (v : TPMS_CREATION_DATA) : bool :=
  TPML_PCR_SELECTION_wf (TPMS_CREATION_DATA_pcrSelect v) &&
  tpm2b_wf sizeof_TPMU_HA (TPMS_CREATION_DATA_pcrDigest v) &&
  uint 8 (TPMS_CREATION_DATA_locality v) &&
  uint 16 (TPMS_CREATION_DATA_parentNameAlg v) &&
  tpm2b_wf sizeof_TPMU_NAME (TPMS_CREATION_DATA_parentName v) &&
  tpm2b_wf sizeof_TPMU_NAME (TPMS_CREATION_DATA_parentQualifiedName v) &&
  tpm2b_wf sizeof_TPMT_HA (TPMS_CREATION_DATA_outsideInfo v).

Definition TPM2B_CREATION_DATA_wf (v : TPM2B_CREATION_DATA) : bool := TPMS_CREATION_DATA_wf
    (TPM2B_CREATION_DATA_creationData v).

Definition TPMS_AC_OUTPUT_wf (v : TPMS_AC_OUTPUT) : bool :=
  uint 32 (TPMS_AC_OUTPUT_tag v) &&
  uint 32 (TPMS_AC_OUTPUT_data v).

Definition TPML_AC_CAPABILITIES_wf (v : TPML_AC_CAPABILITIES) : bool :=
  list_wf MAX_AC_CAPABILITIES TPMS_AC_OUTPUT_wf (TPML_AC_CAPABILITIES_count v)
      (TPML_AC_CAPABILITIES_acCapabilities v).
