(* ===== verification/WireCodecs.v ===== *)
(** * The codecs: one instance per type

    For every type of Unmarshal.c the contract its function keeps: a [Codec]
    when Marshal.c has the inverse function, a [Parser] when the type is only
    received; and an [Emitter] for the types that are only sent.  The numbers
    are the most octets a value takes. *)

From S2P Require Import Prelude TpmTypes Memory WireTypes Unmarshal Marshal WireCodec WireWf.
Local Open Scope Z_scope.

#[export] Instance INT8_parser : Parser INT8_Unmarshal sint8.
Proof.
  unfold Parser, INT8_Unmarshal. parse_only_step. apply parses_ret. unfold sint8, s8.
  unfold uint in *. change (2 ^ 8) with 256 in *. zbool. destruct (Z.ltb_spec a 128); lia.
Qed.

#[export] Instance TPM_KEY_BITS_codec :
  Codec TPM_KEY_BITS_Unmarshal TPM_KEY_BITS_Marshal (uint 16) 2.
Proof.
  unfold TPM_KEY_BITS_Unmarshal, TPM_KEY_BITS_Marshal. apply codec_alias, _.
Qed.

#[export] Instance TPM_ALG_ID_codec :
  Codec TPM_ALG_ID_Unmarshal TPM_ALG_ID_Marshal (uint 16) 2.
Proof.
  unfold TPM_ALG_ID_Unmarshal, TPM_ALG_ID_Marshal. apply codec_alias, _.
Qed.

#[export] Instance TPM_ECC_CURVE_codec :
  Codec TPM_ECC_CURVE_Unmarshal TPM_ECC_CURVE_Marshal TPM_ECC_CURVE_wf 2.
Proof.
  split; unfold TPM_ECC_CURVE_Unmarshal, TPM_ECC_CURVE_Marshal, TPM_ECC_CURVE_wf;
      [parse_codec|intros a Hw; code_codec].
Qed.

#[export] Instance TPM_CC_codec :
  Codec TPM_CC_Unmarshal TPM_CC_Marshal (uint 32) 4.
Proof.
  unfold TPM_CC_Unmarshal, TPM_CC_Marshal. apply codec_alias, _.
Qed.

#[export] Instance TPM_CLOCK_ADJUST_parser : Parser TPM_CLOCK_ADJUST_Unmarshal TPM_CLOCK_ADJUST_wf.
Proof.
  unfold Parser, TPM_CLOCK_ADJUST_Unmarshal, TPM_CLOCK_ADJUST_wf. parse_parser.
Qed.

#[export] Instance TPM_EO_parser : Parser TPM_EO_Unmarshal TPM_EO_wf.
Proof.
  unfold Parser, TPM_EO_Unmarshal, TPM_EO_wf. parse_parser.
Qed.

#[export] Instance TPM_ST_codec :
  Codec TPM_ST_Unmarshal TPM_ST_Marshal TPM_ST_wf 2.
Proof.
  split; unfold TPM_ST_Unmarshal, TPM_ST_Marshal, TPM_ST_wf; [parse_codec|intros a Hw; code_codec].
Qed.

#[export] Instance TPM_SU_parser : Parser TPM_SU_Unmarshal TPM_SU_wf.
Proof.
  unfold Parser, TPM_SU_Unmarshal, TPM_SU_wf. parse_parser.
Qed.

#[export] Instance TPM_SE_parser : Parser TPM_SE_Unmarshal TPM_SE_wf.
Proof.
  unfold Parser, TPM_SE_Unmarshal, TPM_SE_wf. parse_parser.
Qed.

#[export] Instance TPM_CAP_codec :
  Codec TPM_CAP_Unmarshal TPM_CAP_Marshal TPM_CAP_wf 4.
Proof.
  split; unfold TPM_CAP_Unmarshal, TPM_CAP_Marshal, TPM_CAP_wf; [parse_codec|intros a Hw;
      code_codec].
Qed.

#[export] Instance TPM_PT_codec :
  Codec TPM_PT_Unmarshal TPM_PT_Marshal (uint 32) 4.
Proof.
  unfold TPM_PT_Unmarshal, TPM_PT_Marshal. apply codec_alias, _.
Qed.

#[export] Instance TPM_PT_PCR_codec :
  Codec TPM_PT_PCR_Unmarshal TPM_PT_PCR_Marshal (uint 32) 4.
Proof.
  unfold TPM_PT_PCR_Unmarshal, TPM_PT_PCR_Marshal. apply codec_alias, _.
Qed.

#[export] Instance TPM_HANDLE_codec :
  Codec TPM_HANDLE_Unmarshal TPM_HANDLE_Marshal (uint 32) 4.
Proof.
  unfold TPM_HANDLE_Unmarshal, TPM_HANDLE_Marshal. apply codec_alias, _.
Qed.

#[export] Instance TPMA_ALGORITHM_codec :
  Codec TPMA_ALGORITHM_Unmarshal TPMA_ALGORITHM_Marshal TPMA_ALGORITHM_wf 4.
Proof.
  split; unfold TPMA_ALGORITHM_Unmarshal, TPMA_ALGORITHM_Marshal, TPMA_ALGORITHM_wf;
      [parse_codec|intros a Hw; code_codec].
Qed.

#[export] Instance TPMA_OBJECT_codec :
  Codec TPMA_OBJECT_Unmarshal TPMA_OBJECT_Marshal TPMA_OBJECT_wf 4.
Proof.
  split; unfold TPMA_OBJECT_Unmarshal, TPMA_OBJECT_Marshal, TPMA_OBJECT_wf; [parse_codec|intros a
      Hw; code_codec].
Qed.

#[export] Instance TPMA_SESSION_codec :
  Codec TPMA_SESSION_Unmarshal TPMA_SESSION_Marshal TPMA_SESSION_wf 1.
Proof.
  split; unfold TPMA_SESSION_Unmarshal, TPMA_SESSION_Marshal, TPMA_SESSION_wf; [parse_codec|intros
      a Hw; code_codec].
Qed.

#[export] Instance TPMA_LOCALITY_codec :
  Codec TPMA_LOCALITY_Unmarshal TPMA_LOCALITY_Marshal (uint 8) 1.
Proof.
  unfold TPMA_LOCALITY_Unmarshal, TPMA_LOCALITY_Marshal. apply codec_alias, _.
Qed.

#[export] Instance TPMA_CC_codec :
  Codec TPMA_CC_Unmarshal TPMA_CC_Marshal TPMA_CC_wf 4.
Proof.
  split; unfold TPMA_CC_Unmarshal, TPMA_CC_Marshal, TPMA_CC_wf; [parse_codec|intros a Hw;
      code_codec].
Qed.

#[export] Instance TPMI_YES_NO_codec :
  Codec TPMI_YES_NO_Unmarshal TPMI_YES_NO_Marshal TPMI_YES_NO_wf 1.
Proof.
  split; unfold TPMI_YES_NO_Unmarshal, TPMI_YES_NO_Marshal, TPMI_YES_NO_wf; [parse_codec|intros a
      Hw; code_codec].
Qed.

#[export] Instance TPMI_DH_OBJECT_parser (allowNull : bool) : Parser
    (TPMI_DH_OBJECT_Unmarshal allowNull) (TPMI_DH_OBJECT_wf allowNull).
Proof.
  unfold Parser, TPMI_DH_OBJECT_Unmarshal, TPMI_DH_OBJECT_wf. parse_parser.
Qed.

#[export] Instance TPMI_DH_PARENT_parser (allowNull : bool) : Parser
    (TPMI_DH_PARENT_Unmarshal allowNull) (TPMI_DH_PARENT_wf allowNull).
Proof.
  unfold Parser, TPMI_DH_PARENT_Unmarshal, TPMI_DH_PARENT_wf. parse_parser.
Qed.

#[export] Instance TPMI_DH_PERSISTENT_parser : Parser TPMI_DH_PERSISTENT_Unmarshal
    TPMI_DH_PERSISTENT_wf.
Proof.
  unfold Parser, TPMI_DH_PERSISTENT_Unmarshal, TPMI_DH_PERSISTENT_wf. parse_parser.
Qed.

#[export] Instance TPMI_DH_ENTITY_parser (allowNull : bool) : Parser
    (TPMI_DH_ENTITY_Unmarshal allowNull) (TPMI_DH_ENTITY_wf allowNull).
Proof.
  unfold Parser, TPMI_DH_ENTITY_Unmarshal, TPMI_DH_ENTITY_wf. parse_parser.
Qed.

#[export] Instance TPMI_DH_PCR_parser (allowNull : bool) : Parser
    (TPMI_DH_PCR_Unmarshal allowNull) (TPMI_DH_PCR_wf allowNull).
Proof.
  unfold Parser, TPMI_DH_PCR_Unmarshal, TPMI_DH_PCR_wf. parse_parser.
Qed.

#[export] Instance TPMI_SH_AUTH_SESSION_parser (allowPwd : bool) : Parser
    (TPMI_SH_AUTH_SESSION_Unmarshal allowPwd) (TPMI_SH_AUTH_SESSION_wf allowPwd).
Proof.
  unfold Parser, TPMI_SH_AUTH_SESSION_Unmarshal, TPMI_SH_AUTH_SESSION_wf. parse_parser.
Qed.

#[export] Instance TPMI_SH_HMAC_parser : Parser TPMI_SH_HMAC_Unmarshal TPMI_SH_HMAC_wf.
Proof.
  unfold Parser, TPMI_SH_HMAC_Unmarshal, TPMI_SH_HMAC_wf. parse_parser.
Qed.

#[export] Instance TPMI_SH_POLICY_parser : Parser TPMI_SH_POLICY_Unmarshal TPMI_SH_POLICY_wf.
Proof.
  unfold Parser, TPMI_SH_POLICY_Unmarshal, TPMI_SH_POLICY_wf. parse_parser.
Qed.

#[export] Instance TPMI_DH_CONTEXT_parser : Parser TPMI_DH_CONTEXT_Unmarshal TPMI_DH_CONTEXT_wf.
Proof.
  unfold Parser, TPMI_DH_CONTEXT_Unmarshal, TPMI_DH_CONTEXT_wf. parse_parser.
Qed.

#[export] Instance TPMI_DH_SAVED_codec (allowNull : bool) :
  Codec (TPMI_DH_SAVED_Unmarshal allowNull) TPMI_DH_SAVED_Marshal (TPMI_DH_SAVED_wf allowNull) 4.
Proof.
  split; unfold TPMI_DH_SAVED_Unmarshal, TPMI_DH_SAVED_Marshal, TPMI_DH_SAVED_wf;
      [parse_codec|intros a Hw; code_codec].
Qed.

#[export] Instance TPMI_RH_HIERARCHY_codec (allowNull : bool) :
  Codec (TPMI_RH_HIERARCHY_Unmarshal allowNull) TPMI_RH_HIERARCHY_Marshal
      (TPMI_RH_HIERARCHY_wf allowNull) 4.
Proof.
  split; unfold TPMI_RH_HIERARCHY_Unmarshal, TPMI_RH_HIERARCHY_Marshal, TPMI_RH_HIERARCHY_wf;
      [parse_codec|intros a Hw; code_codec].
Qed.

#[export] Instance TPMI_RH_ENABLES_parser (allowNull : bool) : Parser
    (TPMI_RH_ENABLES_Unmarshal allowNull) (TPMI_RH_ENABLES_wf allowNull).
Proof.
  unfold Parser, TPMI_RH_ENABLES_Unmarshal, TPMI_RH_ENABLES_wf. parse_parser.
Qed.

#[export] Instance TPMI_RH_HIERARCHY_AUTH_parser : Parser TPMI_RH_HIERARCHY_AUTH_Unmarshal
    TPMI_RH_HIERARCHY_AUTH_wf.
Proof.
  unfold Parser, TPMI_RH_HIERARCHY_AUTH_Unmarshal, TPMI_RH_HIERARCHY_AUTH_wf. parse_parser.
Qed.

#[export] Instance TPMI_RH_HIERARCHY_POLICY_parser : Parser TPMI_RH_HIERARCHY_POLICY_Unmarshal
    TPMI_RH_HIERARCHY_POLICY_wf.
Proof.
  unfold Parser, TPMI_RH_HIERARCHY_POLICY_Unmarshal, TPMI_RH_HIERARCHY_POLICY_wf. parse_parser.
Qed.

#[export] Instance TPMI_RH_PLATFORM_parser : Parser TPMI_RH_PLATFORM_Unmarshal TPMI_RH_PLATFORM_wf.
Proof.
  unfold Parser, TPMI_RH_PLATFORM_Unmarshal, TPMI_RH_PLATFORM_wf. parse_parser.
Qed.

#[export] Instance TPMI_RH_ENDORSEMENT_parser (allowNull : bool) : Parser
    (TPMI_RH_ENDORSEMENT_Unmarshal allowNull) (TPMI_RH_ENDORSEMENT_wf allowNull).
Proof.
  unfold Parser, TPMI_RH_ENDORSEMENT_Unmarshal, TPMI_RH_ENDORSEMENT_wf. parse_parser.
Qed.

#[export] Instance TPMI_RH_PROVISION_parser : Parser TPMI_RH_PROVISION_Unmarshal
    TPMI_RH_PROVISION_wf.
Proof.
  unfold Parser, TPMI_RH_PROVISION_Unmarshal, TPMI_RH_PROVISION_wf. parse_parser.
Qed.

#[export] Instance TPMI_RH_CLEAR_parser : Parser TPMI_RH_CLEAR_Unmarshal TPMI_RH_CLEAR_wf.
Proof.
  unfold Parser, TPMI_RH_CLEAR_Unmarshal, TPMI_RH_CLEAR_wf. parse_parser.
Qed.

#[export] Instance TPMI_RH_NV_AUTH_parser : Parser TPMI_RH_NV_AUTH_Unmarshal TPMI_RH_NV_AUTH_wf.
Proof.
  unfold Parser, TPMI_RH_NV_AUTH_Unmarshal, TPMI_RH_NV_AUTH_wf. parse_parser.
Qed.

#[export] Instance TPMI_RH_LOCKOUT_parser : Parser TPMI_RH_LOCKOUT_Unmarshal TPMI_RH_LOCKOUT_wf.
Proof.
  unfold Parser, TPMI_RH_LOCKOUT_Unmarshal, TPMI_RH_LOCKOUT_wf. parse_parser.
Qed.

#[export] Instance TPMI_RH_NV_INDEX_codec :
  Codec TPMI_RH_NV_INDEX_Unmarshal TPMI_RH_NV_INDEX_Marshal TPMI_RH_NV_INDEX_wf 4.
Proof.
  split; unfold TPMI_RH_NV_INDEX_Unmarshal, TPMI_RH_NV_INDEX_Marshal, TPMI_RH_NV_INDEX_wf;
      [parse_codec|intros a Hw; code_codec].
Qed.

#[export] Instance TPMI_RH_NV_DEFINED_INDEX_parser : Parser TPMI_RH_NV_DEFINED_INDEX_Unmarshal
    TPMI_RH_NV_DEFINED_INDEX_wf.
Proof.
  unfold Parser, TPMI_RH_NV_DEFINED_INDEX_Unmarshal, TPMI_RH_NV_DEFINED_INDEX_wf. parse_parser.
Qed.

#[export] Instance TPMI_RH_NV_LEGACY_INDEX_parser : Parser TPMI_RH_NV_LEGACY_INDEX_Unmarshal
    TPMI_RH_NV_LEGACY_INDEX_wf.
Proof.
  unfold Parser, TPMI_RH_NV_LEGACY_INDEX_Unmarshal, TPMI_RH_NV_LEGACY_INDEX_wf. parse_parser.
Qed.

#[export] Instance TPMI_RH_NV_EXP_INDEX_codec :
  Codec TPMI_RH_NV_EXP_INDEX_Unmarshal TPMI_RH_NV_EXP_INDEX_Marshal TPMI_RH_NV_EXP_INDEX_wf 4.
Proof.
  split; unfold TPMI_RH_NV_EXP_INDEX_Unmarshal, TPMI_RH_NV_EXP_INDEX_Marshal,
      TPMI_RH_NV_EXP_INDEX_wf; [parse_codec|intros a Hw; code_codec].
Qed.

#[export] Instance TPMI_RH_AC_parser : Parser TPMI_RH_AC_Unmarshal TPMI_RH_AC_wf.
Proof.
  unfold Parser, TPMI_RH_AC_Unmarshal, TPMI_RH_AC_wf. parse_parser.
Qed.

#[export] Instance TPMI_RH_ACT_parser : Parser TPMI_RH_ACT_Unmarshal TPMI_RH_ACT_wf.
Proof.
  unfold Parser, TPMI_RH_ACT_Unmarshal, TPMI_RH_ACT_wf. parse_parser.
Qed.

#[export] Instance TPMI_ALG_HASH_codec (allowNull : bool) :
  Codec (TPMI_ALG_HASH_Unmarshal allowNull) TPMI_ALG_HASH_Marshal (TPMI_ALG_HASH_wf allowNull) 2.
Proof.
  split; unfold TPMI_ALG_HASH_Unmarshal, TPMI_ALG_HASH_Marshal, TPMI_ALG_HASH_wf;
      [parse_codec|intros a Hw; code_codec].
Qed.

#[export] Instance TPMI_ALG_SYM_parser (allowNull : bool) : Parser
    (TPMI_ALG_SYM_Unmarshal allowNull) (TPMI_ALG_SYM_wf allowNull).
Proof.
  unfold Parser, TPMI_ALG_SYM_Unmarshal, TPMI_ALG_SYM_wf. parse_parser.
Qed.

#[export] Instance TPMI_ALG_SYM_OBJECT_codec (allowNull : bool) :
  Codec (TPMI_ALG_SYM_OBJECT_Unmarshal allowNull) TPMI_ALG_SYM_OBJECT_Marshal
      (TPMI_ALG_SYM_OBJECT_wf allowNull) 2.
Proof.
  split; unfold TPMI_ALG_SYM_OBJECT_Unmarshal, TPMI_ALG_SYM_OBJECT_Marshal,
      TPMI_ALG_SYM_OBJECT_wf; [parse_codec|intros a Hw; code_codec].
Qed.

#[export] Instance TPMI_ALG_SYM_MODE_codec (allowNull : bool) :
  Codec (TPMI_ALG_SYM_MODE_Unmarshal allowNull) TPMI_ALG_SYM_MODE_Marshal
      (TPMI_ALG_SYM_MODE_wf allowNull) 2.
Proof.
  split; unfold TPMI_ALG_SYM_MODE_Unmarshal, TPMI_ALG_SYM_MODE_Marshal, TPMI_ALG_SYM_MODE_wf;
      [parse_codec|intros a Hw; code_codec].
Qed.

#[export] Instance TPMI_ALG_KDF_codec (allowNull : bool) :
  Codec (TPMI_ALG_KDF_Unmarshal allowNull) TPMI_ALG_KDF_Marshal (TPMI_ALG_KDF_wf allowNull) 2.
Proof.
  split; unfold TPMI_ALG_KDF_Unmarshal, TPMI_ALG_KDF_Marshal, TPMI_ALG_KDF_wf; [parse_codec|intros
      a Hw; code_codec].
Qed.

#[export] Instance TPMI_ALG_SIG_SCHEME_codec (allowNull : bool) :
  Codec (TPMI_ALG_SIG_SCHEME_Unmarshal allowNull) TPMI_ALG_SIG_SCHEME_Marshal
      (TPMI_ALG_SIG_SCHEME_wf allowNull) 2.
Proof.
  split; unfold TPMI_ALG_SIG_SCHEME_Unmarshal, TPMI_ALG_SIG_SCHEME_Marshal,
      TPMI_ALG_SIG_SCHEME_wf; [parse_codec|intros a Hw; code_codec].
Qed.

#[export] Instance TPMI_ECC_KEY_EXCHANGE_parser (allowNull : bool) : Parser
    (TPMI_ECC_KEY_EXCHANGE_Unmarshal allowNull) (TPMI_ECC_KEY_EXCHANGE_wf allowNull).
Proof.
  unfold Parser, TPMI_ECC_KEY_EXCHANGE_Unmarshal, TPMI_ECC_KEY_EXCHANGE_wf. parse_parser.
Qed.

#[export] Instance TPMI_ST_COMMAND_TAG_parser : Parser TPMI_ST_COMMAND_TAG_Unmarshal
    TPMI_ST_COMMAND_TAG_wf.
Proof.
  unfold Parser, TPMI_ST_COMMAND_TAG_Unmarshal, TPMI_ST_COMMAND_TAG_wf. parse_parser.
Qed.

#[export] Instance TPMI_ALG_MAC_SCHEME_parser (allowNull : bool) : Parser
    (TPMI_ALG_MAC_SCHEME_Unmarshal allowNull) (TPMI_ALG_MAC_SCHEME_wf allowNull).
Proof.
  unfold Parser, TPMI_ALG_MAC_SCHEME_Unmarshal, TPMI_ALG_MAC_SCHEME_wf. parse_parser.
Qed.

#[export] Instance TPMI_ALG_CIPHER_MODE_parser (allowNull : bool) : Parser
    (TPMI_ALG_CIPHER_MODE_Unmarshal allowNull) (TPMI_ALG_CIPHER_MODE_wf allowNull).
Proof.
  unfold Parser, TPMI_ALG_CIPHER_MODE_Unmarshal, TPMI_ALG_CIPHER_MODE_wf. parse_parser.
Qed.

#[export] Instance TPMS_EMPTY_parser : Parser TPMS_EMPTY_Unmarshal unit_wf.
Proof.
  intros s Hs. exact (parses_ret tt (λ a _, unit_wf a = true) eq_refl s Hs).
Qed.

#[export] Instance TPMU_HA_codec (selector : Z) :
  Codec (TPMU_HA_Unmarshal selector) (TPMU_HA_Marshal selector) (TPMU_HA_wf selector) 64.
Proof.
  split; unfold TPMU_HA_Unmarshal, TPMU_HA_Marshal, TPMU_HA_wf.
  - parse_codec.
  - code_union.
Qed.

#[export] Instance TPMT_HA_codec (allowNull : bool) :
  Codec (TPMT_HA_Unmarshal allowNull) TPMT_HA_Marshal (TPMT_HA_wf allowNull) 66.
Proof.
  split; unfold TPMT_HA_Unmarshal, TPMT_HA_Marshal, TPMT_HA_wf.
  - parse_codec.
  - intros [x0 x1] Hw; cbn [TPMT_HA_hashAlg TPMT_HA_digest] in *. code_codec.
Qed.

#[export] Instance TPM2B_DIGEST_codec :
  Codec TPM2B_DIGEST_Unmarshal TPM2B_DIGEST_Marshal (tpm2b_wf sizeof_TPMU_HA) 66.
Proof.
  unfold TPM2B_DIGEST_Unmarshal, TPM2B_DIGEST_Marshal. apply codec_alias, TPM2B_codec; [split;
      discriminate|reflexivity].
Qed.

#[export] Instance TPM2B_DATA_codec :
  Codec TPM2B_DATA_Unmarshal TPM2B_DATA_Marshal (tpm2b_wf sizeof_TPMT_HA) 68.
Proof.
  unfold TPM2B_DATA_Unmarshal, TPM2B_DATA_Marshal. apply codec_alias, TPM2B_codec; [split;
      discriminate|reflexivity].
Qed.

#[export] Instance TPM2B_NONCE_codec :
  Codec TPM2B_NONCE_Unmarshal TPM2B_NONCE_Marshal (tpm2b_wf sizeof_TPMU_HA) 66.
Proof.
  unfold TPM2B_NONCE_Unmarshal, TPM2B_NONCE_Marshal. apply codec_alias, _.
Qed.

#[export] Instance TPM2B_AUTH_codec :
  Codec TPM2B_AUTH_Unmarshal TPM2B_AUTH_Marshal (tpm2b_wf sizeof_TPMU_HA) 66.
Proof.
  unfold TPM2B_AUTH_Unmarshal, TPM2B_AUTH_Marshal. apply codec_alias, _.
Qed.

#[export] Instance TPM2B_EVENT_parser : Parser TPM2B_EVENT_Unmarshal (tpm2b_wf
    (sizeof_TPM2B_EVENT - sizeof_UINT16)).
Proof.
  unfold TPM2B_EVENT_Unmarshal. eapply codec_parser, TPM2B_codec; [split; discriminate|reflexivity].
Qed.

#[export] Instance TPM2B_MAX_BUFFER_codec :
  Codec TPM2B_MAX_BUFFER_Unmarshal TPM2B_MAX_BUFFER_Marshal (tpm2b_wf MAX_DIGEST_BUFFER) 1026.
Proof.
  unfold TPM2B_MAX_BUFFER_Unmarshal, TPM2B_MAX_BUFFER_Marshal. apply codec_alias, TPM2B_codec;
      [split; discriminate|reflexivity].
Qed.

#[export] Instance TPM2B_MAX_NV_BUFFER_codec :
  Codec TPM2B_MAX_NV_BUFFER_Unmarshal TPM2B_MAX_NV_BUFFER_Marshal (tpm2b_wf MAX_NV_BUFFER_SIZE)
      1026.
Proof.
  unfold TPM2B_MAX_NV_BUFFER_Unmarshal, TPM2B_MAX_NV_BUFFER_Marshal. apply codec_alias,
      TPM2B_codec; [split; discriminate|reflexivity].
Qed.

#[export] Instance TPM2B_TIMEOUT_codec :
  Codec TPM2B_TIMEOUT_Unmarshal TPM2B_TIMEOUT_Marshal (tpm2b_wf TPM2B_TIMEOUT_buffer) 10.
Proof.
  unfold TPM2B_TIMEOUT_Unmarshal, TPM2B_TIMEOUT_Marshal. apply codec_alias, TPM2B_codec; [split;
      discriminate|reflexivity].
Qed.

#[export] Instance TPM2B_IV_codec :
  Codec TPM2B_IV_Unmarshal TPM2B_IV_Marshal (tpm2b_wf MAX_SYM_BLOCK_SIZE) 18.
Proof.
  unfold TPM2B_IV_Unmarshal, TPM2B_IV_Marshal. apply codec_alias, TPM2B_codec; [split;
      discriminate|reflexivity].
Qed.

#[export] Instance TPM2B_NAME_codec :
  Codec TPM2B_NAME_Unmarshal TPM2B_NAME_Marshal (tpm2b_wf sizeof_TPMU_NAME) 70.
Proof.
  unfold TPM2B_NAME_Unmarshal, TPM2B_NAME_Marshal. apply codec_alias, TPM2B_codec; [split;
      discriminate|reflexivity].
Qed.

#[export] Instance TPMS_PCR_SELECTION_codec :
  Codec TPMS_PCR_SELECTION_Unmarshal TPMS_PCR_SELECTION_Marshal TPMS_PCR_SELECTION_wf 6.
Proof.
  split; unfold TPMS_PCR_SELECTION_Unmarshal, TPMS_PCR_SELECTION_Marshal, TPMS_PCR_SELECTION_wf.
  - do 3 parse_step. split_ands. change PCR_SELECT_MAX with 3 in *. change PCR_SELECT_MIN with 3
      in *.
    zbool. eapply parses_bind; [apply parses_array; lia|]. intros d b' [<- Hd]. apply parses_ret.
    pose proof (array_wf_blen _ _ Hd) as [Hl _]. split; [typed; cbn; by apply Z.leb_le|split;
        [|bounds]].
    apply emits_accumulate. apply emits_cons; [done|]. apply emits_cons; [done|].
    apply emits_cons; [|apply emits_nil]. apply emits_array; [done|cbn; lia].
  - intros [x0 x1 x2] Hw; cbn [TPMS_PCR_SELECTION_hash TPMS_PCR_SELECTION_sizeofSelect
      TPMS_PCR_SELECTION_pcrSelect] in *. split_ands.
    assert (0 ≤ x1 ≤ PCR_SELECT_MAX ∧ x1 < 65536)
      by (change PCR_SELECT_MAX with 3 in *; change PCR_SELECT_MIN with 3 in *; zbool; lia).
    pose proof (codec_array PCR_SELECT_MAX x1 ltac:(tauto) ltac:(tauto)).
    eapply code_le; [apply code_accumulate; repeat codes_step|].
    change PCR_SELECT_MAX with 3 in *. lia.
Qed.

#[export] Instance TPMT_TK_CREATION_codec :
  Codec TPMT_TK_CREATION_Unmarshal TPMT_TK_CREATION_Marshal TPMT_TK_CREATION_wf 72.
Proof.
  split; unfold TPMT_TK_CREATION_Unmarshal, TPMT_TK_CREATION_Marshal, TPMT_TK_CREATION_wf.
  - parse_codec.
  - intros [x0 x1 x2] Hw; cbn [TPMT_TK_CREATION_tag TPMT_TK_CREATION_hierarchy
      TPMT_TK_CREATION_digest] in *. code_codec.
Qed.

#[export] Instance TPMT_TK_VERIFIED_codec :
  Codec TPMT_TK_VERIFIED_Unmarshal TPMT_TK_VERIFIED_Marshal TPMT_TK_VERIFIED_wf 72.
Proof.
  split; unfold TPMT_TK_VERIFIED_Unmarshal, TPMT_TK_VERIFIED_Marshal, TPMT_TK_VERIFIED_wf.
  - parse_codec.
  - intros [x0 x1 x2] Hw; cbn [TPMT_TK_VERIFIED_tag TPMT_TK_VERIFIED_hierarchy
      TPMT_TK_VERIFIED_digest] in *. code_codec.
Qed.

#[export] Instance TPMT_TK_AUTH_codec :
  Codec TPMT_TK_AUTH_Unmarshal TPMT_TK_AUTH_Marshal TPMT_TK_AUTH_wf 72.
Proof.
  split; unfold TPMT_TK_AUTH_Unmarshal, TPMT_TK_AUTH_Marshal, TPMT_TK_AUTH_wf.
  - parse_codec.
  - intros [x0 x1 x2] Hw; cbn [TPMT_TK_AUTH_tag TPMT_TK_AUTH_hierarchy TPMT_TK_AUTH_digest] in *.
      code_codec.
Qed.

#[export] Instance TPMT_TK_HASHCHECK_codec :
  Codec TPMT_TK_HASHCHECK_Unmarshal TPMT_TK_HASHCHECK_Marshal TPMT_TK_HASHCHECK_wf 72.
Proof.
  split; unfold TPMT_TK_HASHCHECK_Unmarshal, TPMT_TK_HASHCHECK_Marshal, TPMT_TK_HASHCHECK_wf.
  - parse_codec.
  - intros [x0 x1 x2] Hw; cbn [TPMT_TK_HASHCHECK_tag TPMT_TK_HASHCHECK_hierarchy
      TPMT_TK_HASHCHECK_digest] in *. code_codec.
Qed.

#[export] Instance TPMS_ALG_PROPERTY_codec :
  Codec TPMS_ALG_PROPERTY_Unmarshal TPMS_ALG_PROPERTY_Marshal TPMS_ALG_PROPERTY_wf 6.
Proof.
  split; unfold TPMS_ALG_PROPERTY_Unmarshal, TPMS_ALG_PROPERTY_Marshal, TPMS_ALG_PROPERTY_wf.
  - parse_codec.
  - intros [x0 x1] Hw; cbn [TPMS_ALG_PROPERTY_alg TPMS_ALG_PROPERTY_algProperties] in *. code_codec.
Qed.

#[export] Instance TPMS_TAGGED_PROPERTY_codec :
  Codec TPMS_TAGGED_PROPERTY_Unmarshal TPMS_TAGGED_PROPERTY_Marshal TPMS_TAGGED_PROPERTY_wf 8.
Proof.
  split; unfold TPMS_TAGGED_PROPERTY_Unmarshal, TPMS_TAGGED_PROPERTY_Marshal,
      TPMS_TAGGED_PROPERTY_wf.
  - parse_codec.
  - intros [x0 x1] Hw; cbn [TPMS_TAGGED_PROPERTY_property TPMS_TAGGED_PROPERTY_value] in *.
      code_codec.
Qed.

#[export] Instance TPML_CC_codec :
  Codec TPML_CC_Unmarshal TPML_CC_Marshal TPML_CC_wf 1020.
Proof.
  refine (codec_list _ _ _ 4 mkTPML_CC TPML_CC_count TPML_CC_commandCodes MAX_CAP_CC _ _ _ _ _ _);
      try done. by intros [].
Qed.

#[export] Instance TPMS_TAGGED_POLICY_codec :
  Codec TPMS_TAGGED_POLICY_Unmarshal TPMS_TAGGED_POLICY_Marshal TPMS_TAGGED_POLICY_wf 70.
Proof.
  split; unfold TPMS_TAGGED_POLICY_Unmarshal, TPMS_TAGGED_POLICY_Marshal, TPMS_TAGGED_POLICY_wf.
  - parse_codec.
  - intros [x0 x1] Hw; cbn [TPMS_TAGGED_POLICY_handle TPMS_TAGGED_POLICY_policyHash] in *.
      code_codec.
Qed.

#[export] Instance TPML_CCA_codec :
  Codec TPML_CCA_Unmarshal TPML_CCA_Marshal TPML_CCA_wf 1020.
Proof.
  refine (codec_list _ _ _ 4 mkTPML_CCA TPML_CCA_count TPML_CCA_commandAttributes MAX_CAP_CC _ _ _
      _ _ _); try done. by intros [].
Qed.

#[export] Instance TPML_ALG_codec :
  Codec TPML_ALG_Unmarshal TPML_ALG_Marshal TPML_ALG_wf 132.
Proof.
  refine (codec_list _ _ _ 2 mkTPML_ALG TPML_ALG_count TPML_ALG_algorithms MAX_ALG_LIST_SIZE _ _ _
      _ _ _); try done. by intros [].
Qed.

#[export] Instance TPML_HANDLE_codec :
  Codec TPML_HANDLE_Unmarshal TPML_HANDLE_Marshal TPML_HANDLE_wf 1020.
Proof.
  refine (codec_list _ _ _ 4 mkTPML_HANDLE TPML_HANDLE_count TPML_HANDLE_handle MAX_CAP_HANDLES _
      _ _ _ _ _); try done. by intros [].
Qed.

#[export] Instance TPML_DIGEST_codec :
  Codec TPML_DIGEST_Unmarshal TPML_DIGEST_Marshal TPML_DIGEST_wf 532.
Proof.
  refine (codec_list_if _ _ _ 66 mkTPML_DIGEST TPML_DIGEST_count TPML_DIGEST_digests
    (λ c, c <? 2) (λ c x, let* _ := fail_if (c <? 2) TPM_RC_SIZE in x) 8 _ _ _ _ _ _ _);
    try done; [by intros c x; destruct (c <? 2)|by intros []].
Qed.

#[export] Instance TPML_DIGEST_VALUES_codec :
  Codec TPML_DIGEST_VALUES_Unmarshal TPML_DIGEST_VALUES_Marshal TPML_DIGEST_VALUES_wf 268.
Proof.
  refine (codec_list _ _ _ 66 mkTPML_DIGEST_VALUES TPML_DIGEST_VALUES_count
      TPML_DIGEST_VALUES_digests HASH_COUNT _ _ _ _ _ _); try done. by intros [].
Qed.

#[export] Instance TPML_PCR_SELECTION_codec :
  Codec TPML_PCR_SELECTION_Unmarshal TPML_PCR_SELECTION_Marshal TPML_PCR_SELECTION_wf 28.
Proof.
  refine (codec_list _ _ _ 6 mkTPML_PCR_SELECTION TPML_PCR_SELECTION_count
      TPML_PCR_SELECTION_pcrSelections HASH_COUNT _ _ _ _ _ _); try done. by intros [].
Qed.

#[export] Instance TPMI_AES_KEY_BITS_codec :
  Codec TPMI_AES_KEY_BITS_Unmarshal TPMI_AES_KEY_BITS_Marshal TPMI_AES_KEY_BITS_wf 2.
Proof.
  split; unfold TPMI_AES_KEY_BITS_Unmarshal, TPMI_AES_KEY_BITS_Marshal, TPMI_AES_KEY_BITS_wf;
      [parse_codec|intros a Hw; code_codec].
Qed.

#[export] Instance TPMI_CAMELLIA_KEY_BITS_codec :
  Codec TPMI_CAMELLIA_KEY_BITS_Unmarshal TPMI_CAMELLIA_KEY_BITS_Marshal TPMI_CAMELLIA_KEY_BITS_wf 2.
Proof.
  split; unfold TPMI_CAMELLIA_KEY_BITS_Unmarshal, TPMI_CAMELLIA_KEY_BITS_Marshal,
      TPMI_CAMELLIA_KEY_BITS_wf; [parse_codec|intros a Hw; code_codec].
Qed.

#[export] Instance TPMU_SYM_KEY_BITS_codec (selector : Z) :
  Codec (TPMU_SYM_KEY_BITS_Unmarshal selector) (TPMU_SYM_KEY_BITS_Marshal selector)
      (TPMU_SYM_KEY_BITS_wf selector) 2.
Proof.
  split; unfold TPMU_SYM_KEY_BITS_Unmarshal, TPMU_SYM_KEY_BITS_Marshal, TPMU_SYM_KEY_BITS_wf.
  - parse_codec.
  - code_union.
Qed.

#[export] Instance TPMU_SYM_MODE_codec (selector : Z) :
  Codec (TPMU_SYM_MODE_Unmarshal selector) (TPMU_SYM_MODE_Marshal selector)
      (TPMU_SYM_MODE_wf selector) 2.
Proof.
  split; unfold TPMU_SYM_MODE_Unmarshal, TPMU_SYM_MODE_Marshal, TPMU_SYM_MODE_wf.
  - parse_codec.
  - code_union.
Qed.

#[export] Instance TPMT_SYM_DEF_parser (allowNull : bool) : Parser
    (TPMT_SYM_DEF_Unmarshal allowNull) (TPMT_SYM_DEF_wf allowNull).
Proof.
  unfold Parser, TPMT_SYM_DEF_Unmarshal, TPMT_SYM_DEF_wf. parse_parser.
Qed.

#[export] Instance TPMT_SYM_DEF_OBJECT_codec (allowNull : bool) :
  Codec (TPMT_SYM_DEF_OBJECT_Unmarshal allowNull) TPMT_SYM_DEF_OBJECT_Marshal
      (TPMT_SYM_DEF_OBJECT_wf allowNull) 6.
Proof.
  split; unfold TPMT_SYM_DEF_OBJECT_Unmarshal, TPMT_SYM_DEF_OBJECT_Marshal, TPMT_SYM_DEF_OBJECT_wf.
  - parse_codec.
  - intros [x0 x1 x2] Hw; cbn [TPMT_SYM_DEF_OBJECT_algorithm TPMT_SYM_DEF_OBJECT_keyBits
      TPMT_SYM_DEF_OBJECT_mode] in *. code_codec.
Qed.

#[export] Instance TPM2B_SYM_KEY_codec :
  Codec TPM2B_SYM_KEY_Unmarshal TPM2B_SYM_KEY_Marshal (tpm2b_wf MAX_SYM_KEY_BYTES) 34.
Proof.
  unfold TPM2B_SYM_KEY_Unmarshal, TPM2B_SYM_KEY_Marshal. apply codec_alias, TPM2B_codec; [split;
      discriminate|reflexivity].
Qed.

#[export] Instance TPMS_SYMCIPHER_PARMS_codec :
  Codec TPMS_SYMCIPHER_PARMS_Unmarshal TPMS_SYMCIPHER_PARMS_Marshal TPMS_SYMCIPHER_PARMS_wf 6.
Proof.
  split; unfold TPMS_SYMCIPHER_PARMS_Unmarshal, TPMS_SYMCIPHER_PARMS_Marshal,
      TPMS_SYMCIPHER_PARMS_wf.
  - parse_codec.
  - intros [x0] Hw; cbn [TPMS_SYMCIPHER_PARMS_sym] in *. code_codec.
Qed.

#[export] Instance TPM2B_LABEL_parser : Parser TPM2B_LABEL_Unmarshal (tpm2b_wf LABEL_MAX_BUFFER).
Proof.
  unfold TPM2B_LABEL_Unmarshal. eapply codec_parser, TPM2B_codec; [split; discriminate|reflexivity].
Qed.

#[export] Instance TPMS_DERIVE_parser : Parser TPMS_DERIVE_Unmarshal TPMS_DERIVE_wf.
Proof.
  unfold Parser, TPMS_DERIVE_Unmarshal, TPMS_DERIVE_wf. parse_parser.
Qed.

#[export] Instance TPM2B_SENSITIVE_DATA_codec :
  Codec TPM2B_SENSITIVE_DATA_Unmarshal TPM2B_SENSITIVE_DATA_Marshal (tpm2b_wf MAX_SYM_DATA) 130.
Proof.
  unfold TPM2B_SENSITIVE_DATA_Unmarshal, TPM2B_SENSITIVE_DATA_Marshal. apply codec_alias,
      TPM2B_codec; [split; discriminate|reflexivity].
Qed.

#[export] Instance TPMS_SENSITIVE_CREATE_parser : Parser TPMS_SENSITIVE_CREATE_Unmarshal
    TPMS_SENSITIVE_CREATE_wf.
Proof.
  unfold Parser, TPMS_SENSITIVE_CREATE_Unmarshal, TPMS_SENSITIVE_CREATE_wf. parse_parser.
Qed.

#[export] Instance TPM2B_SENSITIVE_CREATE_parser : Parser TPM2B_SENSITIVE_CREATE_Unmarshal
    TPM2B_SENSITIVE_CREATE_wf.
Proof.
  unfold Parser, TPM2B_SENSITIVE_CREATE_Unmarshal. do 2 parse_only_step.
  eapply parses_sized; [apply parser|]. intros x b' Hx _. unfold TPM2B_SENSITIVE_CREATE_wf. typed.
Qed.

#[export] Instance TPMS_SCHEME_HASH_codec :
  Codec TPMS_SCHEME_HASH_Unmarshal TPMS_SCHEME_HASH_Marshal TPMS_SCHEME_HASH_wf 2.
Proof.
  split; unfold TPMS_SCHEME_HASH_Unmarshal, TPMS_SCHEME_HASH_Marshal, TPMS_SCHEME_HASH_wf.
  - parse_codec.
  - intros [x0] Hw; cbn [TPMS_SCHEME_HASH_hashAlg] in *. code_codec.
Qed.

#[export] Instance TPMS_SCHEME_ECDAA_codec :
  Codec TPMS_SCHEME_ECDAA_Unmarshal TPMS_SCHEME_ECDAA_Marshal TPMS_SCHEME_ECDAA_wf 4.
Proof.
  split; unfold TPMS_SCHEME_ECDAA_Unmarshal, TPMS_SCHEME_ECDAA_Marshal, TPMS_SCHEME_ECDAA_wf.
  - parse_codec.
  - intros [x0 x1] Hw; cbn [TPMS_SCHEME_ECDAA_hashAlg TPMS_SCHEME_ECDAA_count] in *. code_codec.
Qed.

#[export] Instance TPMI_ALG_KEYEDHASH_SCHEME_codec (allowNull : bool) :
  Codec (TPMI_ALG_KEYEDHASH_SCHEME_Unmarshal allowNull) TPMI_ALG_KEYEDHASH_SCHEME_Marshal
      (TPMI_ALG_KEYEDHASH_SCHEME_wf allowNull) 2.
Proof.
  split; unfold TPMI_ALG_KEYEDHASH_SCHEME_Unmarshal, TPMI_ALG_KEYEDHASH_SCHEME_Marshal,
      TPMI_ALG_KEYEDHASH_SCHEME_wf; [parse_codec|intros a Hw; code_codec].
Qed.

#[export] Instance TPMS_SCHEME_HMAC_codec :
  Codec TPMS_SCHEME_HMAC_Unmarshal TPMS_SCHEME_HMAC_Marshal TPMS_SCHEME_HASH_wf 2.
Proof.
  unfold TPMS_SCHEME_HMAC_Unmarshal, TPMS_SCHEME_HMAC_Marshal. apply codec_alias, _.
Qed.

#[export] Instance TPMS_SCHEME_XOR_codec :
  Codec TPMS_SCHEME_XOR_Unmarshal TPMS_SCHEME_XOR_Marshal TPMS_SCHEME_XOR_wf 4.
Proof.
  split; unfold TPMS_SCHEME_XOR_Unmarshal, TPMS_SCHEME_XOR_Marshal, TPMS_SCHEME_XOR_wf.
  - parse_codec.
  - intros [x0 x1] Hw; cbn [TPMS_SCHEME_XOR_hashAlg TPMS_SCHEME_XOR_kdf] in *. code_codec.
Qed.

#[export] Instance TPMU_SCHEME_KEYEDHASH_codec (selector : Z) :
  Codec (TPMU_SCHEME_KEYEDHASH_Unmarshal selector) (TPMU_SCHEME_KEYEDHASH_Marshal selector)
      (TPMU_SCHEME_KEYEDHASH_wf selector) 4.
Proof.
  split; unfold TPMU_SCHEME_KEYEDHASH_Unmarshal, TPMU_SCHEME_KEYEDHASH_Marshal,
      TPMU_SCHEME_KEYEDHASH_wf.
  - parse_codec.
  - code_union.
Qed.

#[export] Instance TPMT_KEYEDHASH_SCHEME_codec (allowNull : bool) :
  Codec (TPMT_KEYEDHASH_SCHEME_Unmarshal allowNull) TPMT_KEYEDHASH_SCHEME_Marshal
      (TPMT_KEYEDHASH_SCHEME_wf allowNull) 6.
Proof.
  split; unfold TPMT_KEYEDHASH_SCHEME_Unmarshal, TPMT_KEYEDHASH_SCHEME_Marshal,
      TPMT_KEYEDHASH_SCHEME_wf.
  - parse_codec.
  - intros [x0 x1] Hw; cbn [TPMT_KEYEDHASH_SCHEME_scheme TPMT_KEYEDHASH_SCHEME_details] in *.
      code_codec.
Qed.

#[export] Instance TPMS_SIG_SCHEME_RSAPSS_codec :
  Codec TPMS_SIG_SCHEME_RSAPSS_Unmarshal TPMS_SIG_SCHEME_RSAPSS_Marshal TPMS_SCHEME_HASH_wf 2.
Proof.
  unfold TPMS_SIG_SCHEME_RSAPSS_Unmarshal, TPMS_SIG_SCHEME_RSAPSS_Marshal. apply codec_alias, _.
Qed.

#[export] Instance TPMS_SIG_SCHEME_RSASSA_codec :
  Codec TPMS_SIG_SCHEME_RSASSA_Unmarshal TPMS_SIG_SCHEME_RSASSA_Marshal TPMS_SCHEME_HASH_wf 2.
Proof.
  unfold TPMS_SIG_SCHEME_RSASSA_Unmarshal, TPMS_SIG_SCHEME_RSASSA_Marshal. apply codec_alias, _.
Qed.

#[export] Instance TPMS_SIG_SCHEME_ECDAA_codec :
  Codec TPMS_SIG_SCHEME_ECDAA_Unmarshal TPMS_SIG_SCHEME_ECDAA_Marshal TPMS_SCHEME_ECDAA_wf 4.
Proof.
  unfold TPMS_SIG_SCHEME_ECDAA_Unmarshal, TPMS_SIG_SCHEME_ECDAA_Marshal. apply codec_alias, _.
Qed.

#[export] Instance TPMS_SIG_SCHEME_ECDSA_codec :
  Codec TPMS_SIG_SCHEME_ECDSA_Unmarshal TPMS_SIG_SCHEME_ECDSA_Marshal TPMS_SCHEME_HASH_wf 2.
Proof.
  unfold TPMS_SIG_SCHEME_ECDSA_Unmarshal, TPMS_SIG_SCHEME_ECDSA_Marshal. apply codec_alias, _.
Qed.

#[export] Instance TPMS_SIG_SCHEME_ECSCHNORR_codec :
  Codec TPMS_SIG_SCHEME_ECSCHNORR_Unmarshal TPMS_SIG_SCHEME_ECSCHNORR_Marshal TPMS_SCHEME_HASH_wf 2.
Proof.
  unfold TPMS_SIG_SCHEME_ECSCHNORR_Unmarshal, TPMS_SIG_SCHEME_ECSCHNORR_Marshal. apply
      codec_alias, _.
Qed.

#[export] Instance TPMS_SIG_SCHEME_SM2_codec :
  Codec TPMS_SIG_SCHEME_SM2_Unmarshal TPMS_SIG_SCHEME_SM2_Marshal TPMS_SCHEME_HASH_wf 2.
Proof.
  unfold TPMS_SIG_SCHEME_SM2_Unmarshal, TPMS_SIG_SCHEME_SM2_Marshal. apply codec_alias, _.
Qed.

#[export] Instance TPMU_SIG_SCHEME_parser (selector : Z) : Parser
    (TPMU_SIG_SCHEME_Unmarshal selector) (TPMU_SIG_SCHEME_wf selector).
Proof.
  unfold Parser, TPMU_SIG_SCHEME_Unmarshal, TPMU_SIG_SCHEME_wf. parse_parser.
Qed.

#[export] Instance TPMT_SIG_SCHEME_parser (allowNull : bool) : Parser
    (TPMT_SIG_SCHEME_Unmarshal allowNull) (TPMT_SIG_SCHEME_wf allowNull).
Proof.
  unfold Parser, TPMT_SIG_SCHEME_Unmarshal, TPMT_SIG_SCHEME_wf. parse_parser.
Qed.

#[export] Instance TPMS_ENC_SCHEME_OAEP_codec :
  Codec TPMS_ENC_SCHEME_OAEP_Unmarshal TPMS_ENC_SCHEME_OAEP_Marshal TPMS_SCHEME_HASH_wf 2.
Proof.
  unfold TPMS_ENC_SCHEME_OAEP_Unmarshal, TPMS_ENC_SCHEME_OAEP_Marshal. apply codec_alias, _.
Qed.

#[export] Instance TPMS_ENC_SCHEME_RSAES_codec :
  Codec TPMS_ENC_SCHEME_RSAES_Unmarshal TPMS_ENC_SCHEME_RSAES_Marshal unit_wf 0.
Proof.
  split; unfold TPMS_ENC_SCHEME_RSAES_Unmarshal, TPMS_EMPTY_Unmarshal,
      TPMS_ENC_SCHEME_RSAES_Marshal.
  - apply parses_ret. split; [done|]. split; [apply emits_ret0|done].
  - intros [] _. apply code_ret.
Qed.

#[export] Instance TPMS_KEY_SCHEME_ECDH_codec :
  Codec TPMS_KEY_SCHEME_ECDH_Unmarshal TPMS_KEY_SCHEME_ECDH_Marshal TPMS_SCHEME_HASH_wf 2.
Proof.
  unfold TPMS_KEY_SCHEME_ECDH_Unmarshal, TPMS_KEY_SCHEME_ECDH_Marshal. apply codec_alias, _.
Qed.

#[export] Instance TPMS_KEY_SCHEME_ECMQV_codec :
  Codec TPMS_KEY_SCHEME_ECMQV_Unmarshal TPMS_KEY_SCHEME_ECMQV_Marshal TPMS_SCHEME_HASH_wf 2.
Proof.
  unfold TPMS_KEY_SCHEME_ECMQV_Unmarshal, TPMS_KEY_SCHEME_ECMQV_Marshal. apply codec_alias, _.
Qed.

#[export] Instance TPMS_KDF_SCHEME_KDF1_SP800_108_codec :
  Codec TPMS_KDF_SCHEME_KDF1_SP800_108_Unmarshal TPMS_KDF_SCHEME_KDF1_SP800_108_Marshal
      TPMS_SCHEME_HASH_wf 2.
Proof.
  unfold TPMS_KDF_SCHEME_KDF1_SP800_108_Unmarshal, TPMS_KDF_SCHEME_KDF1_SP800_108_Marshal. apply
      codec_alias, _.
Qed.

#[export] Instance TPMS_KDF_SCHEME_KDF1_SP800_56A_codec :
  Codec TPMS_KDF_SCHEME_KDF1_SP800_56A_Unmarshal TPMS_KDF_SCHEME_KDF1_SP800_56A_Marshal
      TPMS_SCHEME_HASH_wf 2.
Proof.
  unfold TPMS_KDF_SCHEME_KDF1_SP800_56A_Unmarshal, TPMS_KDF_SCHEME_KDF1_SP800_56A_Marshal. apply
      codec_alias, _.
Qed.

#[export] Instance TPMS_KDF_SCHEME_KDF2_codec :
  Codec TPMS_KDF_SCHEME_KDF2_Unmarshal TPMS_KDF_SCHEME_KDF2_Marshal TPMS_SCHEME_HASH_wf 2.
Proof.
  unfold TPMS_KDF_SCHEME_KDF2_Unmarshal, TPMS_KDF_SCHEME_KDF2_Marshal. apply codec_alias, _.
Qed.

#[export] Instance TPMS_KDF_SCHEME_MGF1_codec :
  Codec TPMS_KDF_SCHEME_MGF1_Unmarshal TPMS_KDF_SCHEME_MGF1_Marshal TPMS_SCHEME_HASH_wf 2.
Proof.
  unfold TPMS_KDF_SCHEME_MGF1_Unmarshal, TPMS_KDF_SCHEME_MGF1_Marshal. apply codec_alias, _.
Qed.

#[export] Instance TPMU_KDF_SCHEME_codec (selector : Z) :
  Codec (TPMU_KDF_SCHEME_Unmarshal selector) (TPMU_KDF_SCHEME_Marshal selector)
      (TPMU_KDF_SCHEME_wf selector) 2.
Proof.
  split; unfold TPMU_KDF_SCHEME_Unmarshal, TPMU_KDF_SCHEME_Marshal, TPMU_KDF_SCHEME_wf.
  - parse_codec.
  - code_union.
Qed.

#[export] Instance TPMT_KDF_SCHEME_codec (allowNull : bool) :
  Codec (TPMT_KDF_SCHEME_Unmarshal allowNull) TPMT_KDF_SCHEME_Marshal
      (TPMT_KDF_SCHEME_wf allowNull) 4.
Proof.
  split; unfold TPMT_KDF_SCHEME_Unmarshal, TPMT_KDF_SCHEME_Marshal, TPMT_KDF_SCHEME_wf.
  - parse_codec.
  - intros [x0 x1] Hw; cbn [TPMT_KDF_SCHEME_scheme TPMT_KDF_SCHEME_details] in *. code_codec.
Qed.

#[export] Instance TPMU_ASYM_SCHEME_codec (selector : Z) :
  Codec (TPMU_ASYM_SCHEME_Unmarshal selector) (TPMU_ASYM_SCHEME_Marshal selector)
      (TPMU_ASYM_SCHEME_wf selector) 4.
Proof.
  split; unfold TPMU_ASYM_SCHEME_Unmarshal, TPMU_ASYM_SCHEME_Marshal, TPMU_ASYM_SCHEME_wf.
  - parse_codec.
  - code_union.
Qed.

#[export] Instance TPMI_ALG_RSA_SCHEME_codec (allowNull : bool) :
  Codec (TPMI_ALG_RSA_SCHEME_Unmarshal allowNull) TPMI_ALG_RSA_SCHEME_Marshal
      (TPMI_ALG_RSA_SCHEME_wf allowNull) 2.
Proof.
  split; unfold TPMI_ALG_RSA_SCHEME_Unmarshal, TPMI_ALG_RSA_SCHEME_Marshal,
      TPMI_ALG_RSA_SCHEME_wf; [parse_codec|intros a Hw; code_codec].
Qed.

#[export] Instance TPMT_RSA_SCHEME_codec (allowNull : bool) :
  Codec (TPMT_RSA_SCHEME_Unmarshal allowNull) TPMT_RSA_SCHEME_Marshal
      (TPMT_RSA_SCHEME_wf allowNull) 6.
Proof.
  split; unfold TPMT_RSA_SCHEME_Unmarshal, TPMT_RSA_SCHEME_Marshal, TPMT_RSA_SCHEME_wf.
  - parse_codec.
  - intros [x0 x1] Hw; cbn [TPMT_RSA_SCHEME_scheme TPMT_RSA_SCHEME_details] in *. code_codec.
Qed.

#[export] Instance TPMI_ALG_RSA_DECRYPT_parser (allowNull : bool) : Parser
    (TPMI_ALG_RSA_DECRYPT_Unmarshal allowNull) (TPMI_ALG_RSA_DECRYPT_wf allowNull).
Proof.
  unfold Parser, TPMI_ALG_RSA_DECRYPT_Unmarshal, TPMI_ALG_RSA_DECRYPT_wf. parse_parser.
Qed.

#[export] Instance TPMT_RSA_DECRYPT_parser (allowNull : bool) : Parser
    (TPMT_RSA_DECRYPT_Unmarshal allowNull) (TPMT_RSA_DECRYPT_wf allowNull).
Proof.
  unfold Parser, TPMT_RSA_DECRYPT_Unmarshal, TPMT_RSA_DECRYPT_wf. parse_parser.
Qed.

#[export] Instance TPM2B_PUBLIC_KEY_RSA_codec :
  Codec TPM2B_PUBLIC_KEY_RSA_Unmarshal TPM2B_PUBLIC_KEY_RSA_Marshal (tpm2b_wf MAX_RSA_KEY_BYTES)
      514.
Proof.
  unfold TPM2B_PUBLIC_KEY_RSA_Unmarshal, TPM2B_PUBLIC_KEY_RSA_Marshal. apply codec_alias,
      TPM2B_codec; [split; discriminate|reflexivity].
Qed.

#[export] Instance TPMI_RSA_KEY_BITS_codec :
  Codec TPMI_RSA_KEY_BITS_Unmarshal TPMI_RSA_KEY_BITS_Marshal TPMI_RSA_KEY_BITS_wf 2.
Proof.
  split; unfold TPMI_RSA_KEY_BITS_Unmarshal, TPMI_RSA_KEY_BITS_Marshal, TPMI_RSA_KEY_BITS_wf;
      [parse_codec|intros a Hw; code_codec].
Qed.

#[export] Instance TPM2B_PRIVATE_KEY_RSA_codec :
  Codec TPM2B_PRIVATE_KEY_RSA_Unmarshal TPM2B_PRIVATE_KEY_RSA_Marshal (tpm2b_wf RSA_PRIVATE_SIZE)
      1282.
Proof.
  unfold TPM2B_PRIVATE_KEY_RSA_Unmarshal, TPM2B_PRIVATE_KEY_RSA_Marshal. apply codec_alias,
      TPM2B_codec; [split; discriminate|reflexivity].
Qed.

#[export] Instance TPM2B_ECC_PARAMETER_codec :
  Codec TPM2B_ECC_PARAMETER_Unmarshal TPM2B_ECC_PARAMETER_Marshal (tpm2b_wf MAX_ECC_KEY_BYTES) 82.
Proof.
  unfold TPM2B_ECC_PARAMETER_Unmarshal, TPM2B_ECC_PARAMETER_Marshal. apply codec_alias,
      TPM2B_codec; [split; discriminate|reflexivity].
Qed.

#[export] Instance TPMS_ECC_POINT_codec :
  Codec TPMS_ECC_POINT_Unmarshal TPMS_ECC_POINT_Marshal TPMS_ECC_POINT_wf 164.
Proof.
  split; unfold TPMS_ECC_POINT_Unmarshal, TPMS_ECC_POINT_Marshal, TPMS_ECC_POINT_wf.
  - parse_codec.
  - intros [x0 x1] Hw; cbn [TPMS_ECC_POINT_x TPMS_ECC_POINT_y] in *. code_codec.
Qed.

#[export] Instance TPM2B_ECC_POINT_codec :
  Codec TPM2B_ECC_POINT_Unmarshal TPM2B_ECC_POINT_Marshal TPM2B_ECC_POINT_wf 166.
Proof.
  refine (codec_sized _ _ _ 164 mkTPM2B_ECC_POINT TPM2B_ECC_POINT_size TPM2B_ECC_POINT_point _ _ _
      _ _); try done. by intros [].
Qed.

#[export] Instance TPMI_ALG_ECC_SCHEME_codec (allowNull : bool) :
  Codec (TPMI_ALG_ECC_SCHEME_Unmarshal allowNull) TPMI_ALG_ECC_SCHEME_Marshal
      (TPMI_ALG_ECC_SCHEME_wf allowNull) 2.
Proof.
  split; unfold TPMI_ALG_ECC_SCHEME_Unmarshal, TPMI_ALG_ECC_SCHEME_Marshal,
      TPMI_ALG_ECC_SCHEME_wf; [parse_codec|intros a Hw; code_codec].
Qed.

#[export] Instance TPMI_ECC_CURVE_codec (allowNull : bool) :
  Codec (TPMI_ECC_CURVE_Unmarshal allowNull) TPMI_ECC_CURVE_Marshal (TPMI_ECC_CURVE_wf allowNull)
      2.
Proof.
  split; unfold TPMI_ECC_CURVE_Unmarshal, TPMI_ECC_CURVE_Marshal, TPMI_ECC_CURVE_wf;
      [parse_codec|intros a Hw; code_codec].
Qed.

#[export] Instance TPMT_ECC_SCHEME_codec (allowNull : bool) :
  Codec (TPMT_ECC_SCHEME_Unmarshal allowNull) TPMT_ECC_SCHEME_Marshal
      (TPMT_ECC_SCHEME_wf allowNull) 6.
Proof.
  split; unfold TPMT_ECC_SCHEME_Unmarshal, TPMT_ECC_SCHEME_Marshal, TPMT_ECC_SCHEME_wf.
  - parse_codec.
  - intros [x0 x1] Hw; cbn [TPMT_ECC_SCHEME_scheme TPMT_ECC_SCHEME_details] in *. code_codec.
Qed.

#[export] Instance TPMS_SIGNATURE_RSA_codec :
  Codec TPMS_SIGNATURE_RSA_Unmarshal TPMS_SIGNATURE_RSA_Marshal TPMS_SIGNATURE_RSA_wf 516.
Proof.
  split; unfold TPMS_SIGNATURE_RSA_Unmarshal, TPMS_SIGNATURE_RSA_Marshal, TPMS_SIGNATURE_RSA_wf.
  - parse_codec.
  - intros [x0 x1] Hw; cbn [TPMS_SIGNATURE_RSA_hash TPMS_SIGNATURE_RSA_sig] in *. code_codec.
Qed.

#[export] Instance TPMS_SIGNATURE_RSASSA_codec :
  Codec TPMS_SIGNATURE_RSASSA_Unmarshal TPMS_SIGNATURE_RSASSA_Marshal TPMS_SIGNATURE_RSA_wf 516.
Proof.
  unfold TPMS_SIGNATURE_RSASSA_Unmarshal, TPMS_SIGNATURE_RSASSA_Marshal. apply codec_alias, _.
Qed.

#[export] Instance TPMS_SIGNATURE_RSAPSS_codec :
  Codec TPMS_SIGNATURE_RSAPSS_Unmarshal TPMS_SIGNATURE_RSAPSS_Marshal TPMS_SIGNATURE_RSA_wf 516.
Proof.
  unfold TPMS_SIGNATURE_RSAPSS_Unmarshal, TPMS_SIGNATURE_RSAPSS_Marshal. apply codec_alias, _.
Qed.

#[export] Instance TPMS_SIGNATURE_ECC_codec :
  Codec TPMS_SIGNATURE_ECC_Unmarshal TPMS_SIGNATURE_ECC_Marshal TPMS_SIGNATURE_ECC_wf 166.
Proof.
  split; unfold TPMS_SIGNATURE_ECC_Unmarshal, TPMS_SIGNATURE_ECC_Marshal, TPMS_SIGNATURE_ECC_wf.
  - parse_codec.
  - intros [x0 x1 x2] Hw; cbn [TPMS_SIGNATURE_ECC_hash TPMS_SIGNATURE_ECC_signatureR
      TPMS_SIGNATURE_ECC_signatureS] in *. code_codec.
Qed.

#[export] Instance TPMS_SIGNATURE_ECDSA_codec :
  Codec TPMS_SIGNATURE_ECDSA_Unmarshal TPMS_SIGNATURE_ECDSA_Marshal TPMS_SIGNATURE_ECC_wf 166.
Proof.
  unfold TPMS_SIGNATURE_ECDSA_Unmarshal, TPMS_SIGNATURE_ECDSA_Marshal. apply codec_alias, _.
Qed.

#[export] Instance TPMS_SIGNATURE_ECDAA_codec :
  Codec TPMS_SIGNATURE_ECDAA_Unmarshal TPMS_SIGNATURE_ECDAA_Marshal TPMS_SIGNATURE_ECC_wf 166.
Proof.
  unfold TPMS_SIGNATURE_ECDAA_Unmarshal, TPMS_SIGNATURE_ECDAA_Marshal. apply codec_alias, _.
Qed.

#[export] Instance TPMS_SIGNATURE_SM2_codec :
  Codec TPMS_SIGNATURE_SM2_Unmarshal TPMS_SIGNATURE_SM2_Marshal TPMS_SIGNATURE_ECC_wf 166.
Proof.
  unfold TPMS_SIGNATURE_SM2_Unmarshal, TPMS_SIGNATURE_SM2_Marshal. apply codec_alias, _.
Qed.

#[export] Instance TPMS_SIGNATURE_ECSCHNORR_codec :
  Codec TPMS_SIGNATURE_ECSCHNORR_Unmarshal TPMS_SIGNATURE_ECSCHNORR_Marshal TPMS_SIGNATURE_ECC_wf
      166.
Proof.
  unfold TPMS_SIGNATURE_ECSCHNORR_Unmarshal, TPMS_SIGNATURE_ECSCHNORR_Marshal. apply codec_alias, _.
Qed.

#[export] Instance TPMU_SIGNATURE_codec (selector : Z) :
  Codec (TPMU_SIGNATURE_Unmarshal selector) (TPMU_SIGNATURE_Marshal selector)
      (TPMU_SIGNATURE_wf selector) 516.
Proof.
  split; unfold TPMU_SIGNATURE_Unmarshal, TPMU_SIGNATURE_Marshal, TPMU_SIGNATURE_wf.
  - parse_codec.
  - code_union.
Qed.

#[export] Instance TPMT_SIGNATURE_codec (allowNull : bool) :
  Codec (TPMT_SIGNATURE_Unmarshal allowNull) TPMT_SIGNATURE_Marshal (TPMT_SIGNATURE_wf allowNull)
      518.
Proof.
  split; unfold TPMT_SIGNATURE_Unmarshal, TPMT_SIGNATURE_Marshal, TPMT_SIGNATURE_wf.
  - parse_codec.
  - intros [x0 x1] Hw; cbn [TPMT_SIGNATURE_sigAlg TPMT_SIGNATURE_signature] in *. code_codec.
Qed.

#[export] Instance TPM2B_ENCRYPTED_SECRET_codec :
  Codec TPM2B_ENCRYPTED_SECRET_Unmarshal TPM2B_ENCRYPTED_SECRET_Marshal
      (tpm2b_wf sizeof_TPMU_ENCRYPTED_SECRET) 514.
Proof.
  unfold TPM2B_ENCRYPTED_SECRET_Unmarshal, TPM2B_ENCRYPTED_SECRET_Marshal. apply codec_alias,
      TPM2B_codec; [split; discriminate|reflexivity].
Qed.

#[export] Instance TPMI_ALG_PUBLIC_codec :
  Codec TPMI_ALG_PUBLIC_Unmarshal TPMI_ALG_PUBLIC_Marshal TPMI_ALG_PUBLIC_wf 2.
Proof.
  split; unfold TPMI_ALG_PUBLIC_Unmarshal, TPMI_ALG_PUBLIC_Marshal, TPMI_ALG_PUBLIC_wf;
      [parse_codec|intros a Hw; code_codec].
Qed.

#[export] Instance TPMU_PUBLIC_ID_codec (selector : Z) :
  Codec (TPMU_PUBLIC_ID_Unmarshal selector) (TPMU_PUBLIC_ID_Marshal selector)
      (TPMU_PUBLIC_ID_wf selector) 514.
Proof.
  split; unfold TPMU_PUBLIC_ID_Unmarshal, TPMU_PUBLIC_ID_Marshal, TPMU_PUBLIC_ID_wf.
  - parse_codec.
  - code_union.
Qed.

#[export] Instance TPMS_KEYEDHASH_PARMS_codec :
  Codec TPMS_KEYEDHASH_PARMS_Unmarshal TPMS_KEYEDHASH_PARMS_Marshal TPMS_KEYEDHASH_PARMS_wf 6.
Proof.
  split; unfold TPMS_KEYEDHASH_PARMS_Unmarshal, TPMS_KEYEDHASH_PARMS_Marshal,
      TPMS_KEYEDHASH_PARMS_wf.
  - parse_codec.
  - intros [x0] Hw; cbn [TPMS_KEYEDHASH_PARMS_scheme] in *. code_codec.
Qed.

#[export] Instance TPMS_RSA_PARMS_codec :
  Codec TPMS_RSA_PARMS_Unmarshal TPMS_RSA_PARMS_Marshal TPMS_RSA_PARMS_wf 18.
Proof.
  split; unfold TPMS_RSA_PARMS_Unmarshal, TPMS_RSA_PARMS_Marshal, TPMS_RSA_PARMS_wf.
  - parse_codec.
  - intros [x0 x1 x2 x3] Hw; cbn [TPMS_RSA_PARMS_symmetric TPMS_RSA_PARMS_scheme
      TPMS_RSA_PARMS_keyBits TPMS_RSA_PARMS_exponent] in *. code_codec.
Qed.

#[export] Instance TPMS_ECC_PARMS_codec :
  Codec TPMS_ECC_PARMS_Unmarshal TPMS_ECC_PARMS_Marshal TPMS_ECC_PARMS_wf 18.
Proof.
  split; unfold TPMS_ECC_PARMS_Unmarshal, TPMS_ECC_PARMS_Marshal, TPMS_ECC_PARMS_wf.
  - parse_codec.
  - intros [x0 x1 x2 x3] Hw; cbn [TPMS_ECC_PARMS_symmetric TPMS_ECC_PARMS_scheme
      TPMS_ECC_PARMS_curveID TPMS_ECC_PARMS_kdf] in *. code_codec.
Qed.

#[export] Instance TPMU_PUBLIC_PARMS_codec (selector : Z) :
  Codec (TPMU_PUBLIC_PARMS_Unmarshal selector) (TPMU_PUBLIC_PARMS_Marshal selector)
      (TPMU_PUBLIC_PARMS_wf selector) 18.
Proof.
  split; unfold TPMU_PUBLIC_PARMS_Unmarshal, TPMU_PUBLIC_PARMS_Marshal, TPMU_PUBLIC_PARMS_wf.
  - parse_codec.
  - code_union.
Qed.

#[export] Instance TPMT_PUBLIC_PARMS_parser : Parser TPMT_PUBLIC_PARMS_Unmarshal
    TPMT_PUBLIC_PARMS_wf.
Proof.
  unfold Parser, TPMT_PUBLIC_PARMS_Unmarshal, TPMT_PUBLIC_PARMS_wf. parse_parser.
Qed.

#[export] Instance TPMT_PUBLIC_codec (allowNull : bool) :
  Codec (TPMT_PUBLIC_Unmarshal allowNull) TPMT_PUBLIC_Marshal (TPMT_PUBLIC_wf allowNull) 606.
Proof.
  split; unfold TPMT_PUBLIC_Unmarshal, TPMT_PUBLIC_Marshal, TPMT_PUBLIC_wf.
  - parse_codec.
  - intros [x0 x1 x2 x3 x4 x5] Hw; cbn [TPMT_PUBLIC_type TPMT_PUBLIC_nameAlg
      TPMT_PUBLIC_objectAttributes TPMT_PUBLIC_authPolicy TPMT_PUBLIC_parameters
      TPMT_PUBLIC_unique] in *. code_codec.
Qed.

#[export] Instance TPM2B_PUBLIC_codec (allowNull : bool) :
  Codec (TPM2B_PUBLIC_Unmarshal allowNull) TPM2B_PUBLIC_Marshal (TPM2B_PUBLIC_wf allowNull) 608.
Proof.
  refine (codec_sized _ _ _ 606 mkTPM2B_PUBLIC TPM2B_PUBLIC_size TPM2B_PUBLIC_publicArea _ _ _ _
      _); try done. by intros [].
Qed.

#[export] Instance TPM2B_TEMPLATE_parser : Parser TPM2B_TEMPLATE_Unmarshal
    (tpm2b_wf sizeof_TPMT_PUBLIC).
Proof.
  unfold TPM2B_TEMPLATE_Unmarshal. eapply codec_parser, TPM2B_codec; [split;
      discriminate|reflexivity].
Qed.

#[export] Instance TPMU_SENSITIVE_COMPOSITE_codec (selector : Z) :
  Codec (TPMU_SENSITIVE_COMPOSITE_Unmarshal selector) (TPMU_SENSITIVE_COMPOSITE_Marshal selector)
      (TPMU_SENSITIVE_COMPOSITE_wf selector) 1282.
Proof.
  split; unfold TPMU_SENSITIVE_COMPOSITE_Unmarshal, TPMU_SENSITIVE_COMPOSITE_Marshal,
      TPMU_SENSITIVE_COMPOSITE_wf.
  - parse_codec.
  - code_union.
Qed.

#[export] Instance TPMT_SENSITIVE_codec :
  Codec TPMT_SENSITIVE_Unmarshal TPMT_SENSITIVE_Marshal TPMT_SENSITIVE_wf 1416.
Proof.
  split; unfold TPMT_SENSITIVE_Unmarshal, TPMT_SENSITIVE_Marshal, TPMT_SENSITIVE_wf.
  - parse_codec.
  - intros [x0 x1 x2 x3] Hw; cbn [TPMT_SENSITIVE_sensitiveType TPMT_SENSITIVE_authValue
      TPMT_SENSITIVE_seedValue TPMT_SENSITIVE_sensitive] in *. code_codec.
Qed.

#[export] Instance TPM2B_SENSITIVE_parser : Parser TPM2B_SENSITIVE_Unmarshal TPM2B_SENSITIVE_wf.
Proof.
  unfold Parser, TPM2B_SENSITIVE_Unmarshal. parse_only_step.
  eapply (parses_bind _ _ (λ o _, match o with
    | Some a0 => negb (a =? 0) && TPMT_SENSITIVE_wf a0 = true | None => (a =? 0) = true end)).
  - destruct (a =? 0) eqn:E; cbn [negb]; [by apply parses_ret|].
    eapply parses_sized; [apply parser|]. intros x b' Hx _. exact Hx.
  - intros [x|] b' Hx; apply parses_ret; unfold TPM2B_SENSITIVE_wf; typed.
Qed.

#[export] Instance TPM2B_PRIVATE_codec :
  Codec TPM2B_PRIVATE_Unmarshal TPM2B_PRIVATE_Marshal (tpm2b_wf sizeof__PRIVATE) 1552.
Proof.
  unfold TPM2B_PRIVATE_Unmarshal, TPM2B_PRIVATE_Marshal. apply codec_alias, TPM2B_codec; [split;
      discriminate|reflexivity].
Qed.

#[export] Instance TPM2B_ID_OBJECT_codec :
  Codec TPM2B_ID_OBJECT_Unmarshal TPM2B_ID_OBJECT_Marshal (tpm2b_wf sizeof_TPMS_ID_OBJECT) 134.
Proof.
  unfold TPM2B_ID_OBJECT_Unmarshal, TPM2B_ID_OBJECT_Marshal. apply codec_alias, TPM2B_codec;
      [split; discriminate|reflexivity].
Qed.

#[export] Instance TPMA_NV_codec :
  Codec TPMA_NV_Unmarshal TPMA_NV_Marshal TPMA_NV_wf 4.
Proof.
  split; unfold TPMA_NV_Unmarshal, TPMA_NV_Marshal, TPMA_NV_wf; [parse_codec|intros a Hw;
      code_codec].
Qed.

#[export] Instance TPMS_NV_PUBLIC_codec :
  Codec TPMS_NV_PUBLIC_Unmarshal TPMS_NV_PUBLIC_Marshal TPMS_NV_PUBLIC_wf 78.
Proof.
  split; unfold TPMS_NV_PUBLIC_Unmarshal, TPMS_NV_PUBLIC_Marshal, TPMS_NV_PUBLIC_wf.
  - parse_codec.
  - intros [x0 x1 x2 x3 x4] Hw; cbn [TPMS_NV_PUBLIC_nvIndex TPMS_NV_PUBLIC_nameAlg
      TPMS_NV_PUBLIC_attributes TPMS_NV_PUBLIC_authPolicy TPMS_NV_PUBLIC_dataSize] in *.
      code_codec.
Qed.

#[export] Instance TPM2B_NV_PUBLIC_codec :
  Codec TPM2B_NV_PUBLIC_Unmarshal TPM2B_NV_PUBLIC_Marshal TPM2B_NV_PUBLIC_wf 80.
Proof.
  refine (codec_sized _ _ _ 78 mkTPM2B_NV_PUBLIC TPM2B_NV_PUBLIC_size TPM2B_NV_PUBLIC_nvPublic _ _
      _ _ _); try done. by intros [].
Qed.

#[export] Instance TPMA_NV_EXP_codec :
  Codec TPMA_NV_EXP_Unmarshal TPMA_NV_EXP_Marshal TPMA_NV_EXP_wf 8.
Proof.
  split; unfold TPMA_NV_EXP_Unmarshal, TPMA_NV_EXP_Marshal, TPMA_NV_EXP_wf; [parse_codec|intros a
      Hw; code_codec].
Qed.

#[export] Instance TPMS_NV_PUBLIC_EXP_ATTR_codec :
  Codec TPMS_NV_PUBLIC_EXP_ATTR_Unmarshal TPMS_NV_PUBLIC_EXP_ATTR_Marshal
      TPMS_NV_PUBLIC_EXP_ATTR_wf 82.
Proof.
  split; unfold TPMS_NV_PUBLIC_EXP_ATTR_Unmarshal, TPMS_NV_PUBLIC_EXP_ATTR_Marshal,
      TPMS_NV_PUBLIC_EXP_ATTR_wf.
  - parse_codec.
  - intros [x0 x1 x2 x3 x4] Hw; cbn [TPMS_NV_PUBLIC_EXP_ATTR_nvIndex
      TPMS_NV_PUBLIC_EXP_ATTR_nameAlg TPMS_NV_PUBLIC_EXP_ATTR_attributes
      TPMS_NV_PUBLIC_EXP_ATTR_authPolicy TPMS_NV_PUBLIC_EXP_ATTR_dataSize] in *. code_codec.
Qed.

#[export] Instance TPMU_NV_PUBLIC_2_codec (selector : Z) :
  Codec (TPMU_NV_PUBLIC_2_Unmarshal selector) (TPMU_NV_PUBLIC_2_Marshal selector)
      (TPMU_NV_PUBLIC_2_wf selector) 82.
Proof.
  split; unfold TPMU_NV_PUBLIC_2_Unmarshal, TPMU_NV_PUBLIC_2_Marshal, TPMU_NV_PUBLIC_2_wf.
  - parse_codec.
  - code_union.
Qed.

#[export] Instance TPMT_NV_PUBLIC_2_codec :
  Codec TPMT_NV_PUBLIC_2_Unmarshal TPMT_NV_PUBLIC_2_Marshal TPMT_NV_PUBLIC_2_wf 83.
Proof.
  split; unfold TPMT_NV_PUBLIC_2_Unmarshal, TPMT_NV_PUBLIC_2_Marshal, TPMT_NV_PUBLIC_2_wf.
  - parse_codec.
  - intros [x0 x1] Hw; cbn [TPMT_NV_PUBLIC_2_handleType TPMT_NV_PUBLIC_2_nvPublic2] in *.
      code_codec.
Qed.

#[export] Instance TPM2B_NV_PUBLIC_2_codec :
  Codec TPM2B_NV_PUBLIC_2_Unmarshal TPM2B_NV_PUBLIC_2_Marshal TPM2B_NV_PUBLIC_2_wf 85.
Proof.
  refine (codec_sized _ _ _ 83 mkTPM2B_NV_PUBLIC_2 TPM2B_NV_PUBLIC_2_size
      TPM2B_NV_PUBLIC_2_nvPublic2 _ _ _ _ _); try done. by intros [].
Qed.

#[export] Instance TPM2B_CONTEXT_SENSITIVE_parser : Parser TPM2B_CONTEXT_SENSITIVE_Unmarshal
    (tpm2b_wf MAX_CONTEXT_SIZE).
Proof.
  unfold TPM2B_CONTEXT_SENSITIVE_Unmarshal. eapply codec_parser, TPM2B_codec; [split;
      discriminate|reflexivity].
Qed.

#[export] Instance TPM2B_CONTEXT_DATA_codec :
  Codec TPM2B_CONTEXT_DATA_Unmarshal TPM2B_CONTEXT_DATA_Marshal
      (tpm2b_wf sizeof_TPMS_CONTEXT_DATA) 2750.
Proof.
  unfold TPM2B_CONTEXT_DATA_Unmarshal, TPM2B_CONTEXT_DATA_Marshal. apply codec_alias, TPM2B_codec;
      [split; discriminate|reflexivity].
Qed.

#[export] Instance TPMS_CONTEXT_codec :
  Codec TPMS_CONTEXT_Unmarshal TPMS_CONTEXT_Marshal TPMS_CONTEXT_wf 2766.
Proof.
  split; unfold TPMS_CONTEXT_Unmarshal, TPMS_CONTEXT_Marshal, TPMS_CONTEXT_wf.
  - parse_codec.
  - intros [x0 x1 x2 x3] Hw; cbn [TPMS_CONTEXT_sequence TPMS_CONTEXT_savedHandle
      TPMS_CONTEXT_hierarchy TPMS_CONTEXT_contextBlob] in *. code_codec.
Qed.

#[export] Instance TPM_AT_codec :
  Codec TPM_AT_Unmarshal TPM_AT_Marshal (uint 32) 4.
Proof.
  unfold TPM_AT_Unmarshal, TPM_AT_Marshal. apply codec_alias, _.
Qed.

#[export] Instance TPMU_SET_CAPABILITIES_parser (selector : Z) : Parser
    (TPMU_SET_CAPABILITIES_Unmarshal selector) (TPMU_SET_CAPABILITIES_wf selector).
Proof.
  by apply parses_err.
Qed.

#[export] Instance TPMS_SET_CAPABILITY_DATA_parser : Parser TPMS_SET_CAPABILITY_DATA_Unmarshal
    TPMS_SET_CAPABILITY_DATA_wf.
Proof.
  unfold Parser, TPMS_SET_CAPABILITY_DATA_Unmarshal, TPMS_SET_CAPABILITY_DATA_wf. parse_parser.
Qed.

#[export] Instance TPM2B_SET_CAPABILITY_DATA_parser : Parser TPM2B_SET_CAPABILITY_DATA_Unmarshal
    TPM2B_SET_CAPABILITY_DATA_wf.
Proof.
  unfold Parser, TPM2B_SET_CAPABILITY_DATA_Unmarshal. do 2 parse_only_step.
  eapply parses_sized; [apply parser|]. intros x b' Hx _. unfold TPM2B_SET_CAPABILITY_DATA_wf.
      typed.
Qed.
