(* ===== verification/WireEmitters.v ===== *)
(** * The emitters: types that the TPM only sends

    An integer is sent whatever its value; a structure that Unmarshal.c does not
    read is sent when its fields have their types. *)

From S2P Require Import Prelude TpmTypes Memory WireTypes Unmarshal Marshal WireCodec WireWf WireCodecs.
Local Open Scope Z_scope.

#[export] Instance UINT8_emitter : Emitter UINT8_Marshal (uint 8) 1.
Proof. exact (codec_emitter _ _ _ _ UINT8_codec). Qed.

#[export] Instance UINT16_emitter : Emitter UINT16_Marshal (uint 16) 2.
Proof. exact (codec_emitter _ _ _ _ UINT16_codec). Qed.

#[export] Instance UINT32_emitter : Emitter UINT32_Marshal (uint 32) 4.
Proof. exact (codec_emitter _ _ _ _ UINT32_codec). Qed.

#[export] Instance UINT64_emitter : Emitter UINT64_Marshal (uint 64) 8.
Proof. exact (codec_emitter _ _ _ _ UINT64_codec). Qed.

#[export] Hint Extern 3 (Emitter _ _ _) => eapply codec_emitter, _ : typeclass_instances.

#[export] Instance TPM_KEY_BITS_emitter : Emitter TPM_KEY_BITS_Marshal (uint 16) 2.
Proof. unfold TPM_KEY_BITS_Marshal. apply emitter_alias, _. Qed.

#[export] Instance TPM_CONSTANTS32_emitter : Emitter TPM_CONSTANTS32_Marshal (uint 32) 4.
Proof. unfold TPM_CONSTANTS32_Marshal. apply emitter_alias, _. Qed.

#[export] Instance TPM_ALG_ID_emitter : Emitter TPM_ALG_ID_Marshal (uint 16) 2.
Proof. unfold TPM_ALG_ID_Marshal. apply emitter_alias, _. Qed.

#[export] Instance TPM_ECC_CURVE_emitter : Emitter TPM_ECC_CURVE_Marshal (uint 16) 2.
Proof. unfold TPM_ECC_CURVE_Marshal. apply emitter_alias, _. Qed.

#[export] Instance TPM_CC_emitter : Emitter TPM_CC_Marshal (uint 32) 4.
Proof. unfold TPM_CC_Marshal. apply emitter_alias, _. Qed.

#[export] Instance TPM_RC_emitter : Emitter TPM_RC_Marshal (uint 32) 4.
Proof. unfold TPM_RC_Marshal. apply emitter_alias, _. Qed.

#[export] Instance TPM_ST_emitter : Emitter TPM_ST_Marshal (uint 16) 2.
Proof. unfold TPM_ST_Marshal. apply emitter_alias, _. Qed.

#[export] Instance TPM_CAP_emitter : Emitter TPM_CAP_Marshal (uint 32) 4.
Proof. unfold TPM_CAP_Marshal. apply emitter_alias, _. Qed.

#[export] Instance TPM_PT_emitter : Emitter TPM_PT_Marshal (uint 32) 4.
Proof. unfold TPM_PT_Marshal. apply emitter_alias, _. Qed.

#[export] Instance TPM_PT_PCR_emitter : Emitter TPM_PT_PCR_Marshal (uint 32) 4.
Proof. unfold TPM_PT_PCR_Marshal. apply emitter_alias, _. Qed.

#[export] Instance TPM_HANDLE_emitter : Emitter TPM_HANDLE_Marshal (uint 32) 4.
Proof. unfold TPM_HANDLE_Marshal. apply emitter_alias, _. Qed.

#[export] Instance TPMA_ALGORITHM_emitter : Emitter TPMA_ALGORITHM_Marshal (uint 32) 4.
Proof. unfold TPMA_ALGORITHM_Marshal. apply emitter_alias, _. Qed.

#[export] Instance TPMA_OBJECT_emitter : Emitter TPMA_OBJECT_Marshal (uint 32) 4.
Proof. unfold TPMA_OBJECT_Marshal. apply emitter_alias, _. Qed.

#[export] Instance TPMA_SESSION_emitter : Emitter TPMA_SESSION_Marshal (uint 8) 1.
Proof. unfold TPMA_SESSION_Marshal. apply emitter_alias, _. Qed.

#[export] Instance TPMA_LOCALITY_emitter : Emitter TPMA_LOCALITY_Marshal (uint 8) 1.
Proof. unfold TPMA_LOCALITY_Marshal. apply emitter_alias, _. Qed.

#[export] Instance TPMA_CC_emitter : Emitter TPMA_CC_Marshal (uint 32) 4.
Proof. unfold TPMA_CC_Marshal. apply emitter_alias, _. Qed.

#[export] Instance TPMI_YES_NO_emitter : Emitter TPMI_YES_NO_Marshal (uint 8) 1.
Proof. unfold TPMI_YES_NO_Marshal. apply emitter_alias, _. Qed.

#[export] Instance TPMA_ACT_emitter : Emitter TPMA_ACT_Marshal (uint 32) 4.
Proof. unfold TPMA_ACT_Marshal. apply emitter_alias, _. Qed.

#[export] Instance TPMI_DH_SAVED_emitter : Emitter TPMI_DH_SAVED_Marshal (uint 32) 4.
Proof. unfold TPMI_DH_SAVED_Marshal. apply emitter_alias, _. Qed.

#[export] Instance TPMI_RH_HIERARCHY_emitter : Emitter TPMI_RH_HIERARCHY_Marshal (uint 32) 4.
Proof. unfold TPMI_RH_HIERARCHY_Marshal. apply emitter_alias, _. Qed.

#[export] Instance TPMI_RH_NV_INDEX_emitter : Emitter TPMI_RH_NV_INDEX_Marshal (uint 32) 4.
Proof. unfold TPMI_RH_NV_INDEX_Marshal. apply emitter_alias, _. Qed.

#[export] Instance TPMI_RH_NV_EXP_INDEX_emitter : Emitter TPMI_RH_NV_EXP_INDEX_Marshal (uint 32) 4.
Proof. unfold TPMI_RH_NV_EXP_INDEX_Marshal. apply emitter_alias, _. Qed.

#[export] Instance TPMI_ALG_HASH_emitter : Emitter TPMI_ALG_HASH_Marshal (uint 16) 2.
Proof. unfold TPMI_ALG_HASH_Marshal. apply emitter_alias, _. Qed.

#[export] Instance TPMI_ALG_SYM_OBJECT_emitter : Emitter TPMI_ALG_SYM_OBJECT_Marshal (uint 16) 2.
Proof. unfold TPMI_ALG_SYM_OBJECT_Marshal. apply emitter_alias, _. Qed.

#[export] Instance TPMI_ALG_SYM_MODE_emitter : Emitter TPMI_ALG_SYM_MODE_Marshal (uint 16) 2.
Proof. unfold TPMI_ALG_SYM_MODE_Marshal. apply emitter_alias, _. Qed.

#[export] Instance TPMI_ALG_KDF_emitter : Emitter TPMI_ALG_KDF_Marshal (uint 16) 2.
Proof. unfold TPMI_ALG_KDF_Marshal. apply emitter_alias, _. Qed.

#[export] Instance TPMI_ALG_SIG_SCHEME_emitter : Emitter TPMI_ALG_SIG_SCHEME_Marshal (uint 16) 2.
Proof. unfold TPMI_ALG_SIG_SCHEME_Marshal. apply emitter_alias, _. Qed.

#[export] Instance TPMS_TAGGED_PCR_SELECT_emitter :
  Emitter TPMS_TAGGED_PCR_SELECT_Marshal TPMS_TAGGED_PCR_SELECT_wf 8.
Proof.
  unfold Emitter, TPMS_TAGGED_PCR_SELECT_Marshal, TPMS_TAGGED_PCR_SELECT_wf.
  intros [x0 x1 x2]; cbn [TPMS_TAGGED_PCR_SELECT_tag TPMS_TAGGED_PCR_SELECT_sizeofSelect
    TPMS_TAGGED_PCR_SELECT_pcrSelect]; intros Hw. split_ands.
  match goal with H : array_wf _ _ = true |- _ => pose proof (array_wf_blen _ _ H) as [Hl _] end.
  pose proof (blen_nonneg x2). match goal with H : (x1 <=? _) = true |- _ => apply Z.leb_le in H
      end.
  change PCR_SELECT_MAX with 3 in *.
  eapply (emitter_accumulate _ (4 + (1 + (x1 + 0)))); [|lia].
  apply emitter_cons; [by apply emitter|]. apply emitter_cons.
  { apply (codec_emitter _ _ _ _ UINT8_codec). unfold uint. zbool. change (2 ^ 8) with 256. lia. }
  apply emitter_cons; [|apply emitter_nil].
  exists x2. split; [apply emits_array; [done|lia]|lia].
Qed.

#[export] Instance TPMS_ACT_DATA_emitter : Emitter TPMS_ACT_DATA_Marshal TPMS_ACT_DATA_wf 12.
Proof.
  unfold Emitter, TPMS_ACT_DATA_Marshal, TPMS_ACT_DATA_wf.
  intros [x0 x1 x2] Hw;
      cbn [TPMS_ACT_DATA_handle TPMS_ACT_DATA_timeout TPMS_ACT_DATA_attributes] in *. emit_emitter.
Qed.

#[export] Instance TPML_ALG_PROPERTY_emitter : Emitter TPML_ALG_PROPERTY_Marshal
    TPML_ALG_PROPERTY_wf 766.
Proof.
  exact (emitter_counted TPMS_ALG_PROPERTY_Marshal TPMS_ALG_PROPERTY_wf 6 TPML_ALG_PROPERTY_count
      TPML_ALG_PROPERTY_algProperties MAX_CAP_ALGS _ ltac:(done) ltac:(done)).
Qed.

#[export] Instance TPML_TAGGED_TPM_PROPERTY_emitter : Emitter TPML_TAGGED_TPM_PROPERTY_Marshal
    TPML_TAGGED_TPM_PROPERTY_wf 1020.
Proof.
  exact (emitter_counted TPMS_TAGGED_PROPERTY_Marshal TPMS_TAGGED_PROPERTY_wf 8
      TPML_TAGGED_TPM_PROPERTY_count TPML_TAGGED_TPM_PROPERTY_tpmProperty MAX_TPM_PROPERTIES _
      ltac:(done) ltac:(done)).
Qed.

#[export] Instance TPML_TAGGED_PCR_PROPERTY_emitter : Emitter TPML_TAGGED_PCR_PROPERTY_Marshal
    TPML_TAGGED_PCR_PROPERTY_wf 1020.
Proof.
  exact (emitter_counted TPMS_TAGGED_PCR_SELECT_Marshal TPMS_TAGGED_PCR_SELECT_wf 8
      TPML_TAGGED_PCR_PROPERTY_count TPML_TAGGED_PCR_PROPERTY_pcrProperty MAX_PCR_PROPERTIES _
      ltac:(done) ltac:(done)).
Qed.

#[export] Instance TPML_ECC_CURVE_emitter : Emitter TPML_ECC_CURVE_Marshal TPML_ECC_CURVE_wf 1020.
Proof.
  exact (emitter_counted TPM_ECC_CURVE_Marshal (uint 16) 2 TPML_ECC_CURVE_count
      TPML_ECC_CURVE_eccCurves MAX_ECC_CURVES _ ltac:(done) ltac:(done)).
Qed.

#[export] Instance TPML_TAGGED_POLICY_emitter : Emitter TPML_TAGGED_POLICY_Marshal
    TPML_TAGGED_POLICY_wf 984.
Proof.
  exact (emitter_counted TPMS_TAGGED_POLICY_Marshal TPMS_TAGGED_POLICY_wf 70
      TPML_TAGGED_POLICY_count TPML_TAGGED_POLICY_policies MAX_TAGGED_POLICIES _ ltac:(done)
      ltac:(done)).
Qed.

#[export] Instance TPML_ACT_DATA_emitter : Emitter TPML_ACT_DATA_Marshal TPML_ACT_DATA_wf 1012.
Proof.
  exact (emitter_counted TPMS_ACT_DATA_Marshal TPMS_ACT_DATA_wf 12 TPML_ACT_DATA_count
      TPML_ACT_DATA_actData MAX_ACT_DATA _ ltac:(done) ltac:(done)).
Qed.

#[export] Instance TPMU_CAPABILITIES_emitter selector :
  Emitter (TPMU_CAPABILITIES_Marshal selector) (TPMU_CAPABILITIES_wf selector) 1020.
Proof.
  unfold Emitter, TPMU_CAPABILITIES_Marshal, TPMU_CAPABILITIES_wf. emit_union.
Qed.

#[export] Instance TPMS_CAPABILITY_DATA_emitter : Emitter TPMS_CAPABILITY_DATA_Marshal
    TPMS_CAPABILITY_DATA_wf 1024.
Proof.
  unfold Emitter, TPMS_CAPABILITY_DATA_Marshal, TPMS_CAPABILITY_DATA_wf.
  intros [x0 x1] Hw;
      cbn [TPMS_CAPABILITY_DATA_capability TPMS_CAPABILITY_DATA_data] in *. emit_emitter.
Qed.

#[export] Instance TPMS_CLOCK_INFO_emitter : Emitter TPMS_CLOCK_INFO_Marshal TPMS_CLOCK_INFO_wf 17.
Proof.
  unfold Emitter, TPMS_CLOCK_INFO_Marshal, TPMS_CLOCK_INFO_wf.
  intros [x0 x1 x2 x3] Hw;
      cbn [TPMS_CLOCK_INFO_clock TPMS_CLOCK_INFO_resetCount TPMS_CLOCK_INFO_restartCount
          TPMS_CLOCK_INFO_safe] in *. emit_emitter.
Qed.

#[export] Instance TPMS_TIME_INFO_emitter : Emitter TPMS_TIME_INFO_Marshal TPMS_TIME_INFO_wf 25.
Proof.
  unfold Emitter, TPMS_TIME_INFO_Marshal, TPMS_TIME_INFO_wf.
  intros [x0 x1] Hw; cbn [TPMS_TIME_INFO_time TPMS_TIME_INFO_clockInfo] in *. emit_emitter.
Qed.

#[export] Instance TPMS_TIME_ATTEST_INFO_emitter : Emitter TPMS_TIME_ATTEST_INFO_Marshal
    TPMS_TIME_ATTEST_INFO_wf 33.
Proof.
  unfold Emitter, TPMS_TIME_ATTEST_INFO_Marshal, TPMS_TIME_ATTEST_INFO_wf.
  intros [x0 x1] Hw;
      cbn [TPMS_TIME_ATTEST_INFO_time TPMS_TIME_ATTEST_INFO_firmwareVersion] in *. emit_emitter.
Qed.

#[export] Instance TPMS_CERTIFY_INFO_emitter : Emitter TPMS_CERTIFY_INFO_Marshal
    TPMS_CERTIFY_INFO_wf 140.
Proof.
  unfold Emitter, TPMS_CERTIFY_INFO_Marshal, TPMS_CERTIFY_INFO_wf.
  intros [x0 x1] Hw;
      cbn [TPMS_CERTIFY_INFO_name TPMS_CERTIFY_INFO_qualifiedName] in *. emit_emitter.
Qed.

#[export] Instance TPMS_QUOTE_INFO_emitter : Emitter TPMS_QUOTE_INFO_Marshal TPMS_QUOTE_INFO_wf 94.
Proof.
  unfold Emitter, TPMS_QUOTE_INFO_Marshal, TPMS_QUOTE_INFO_wf.
  intros [x0 x1] Hw; cbn [TPMS_QUOTE_INFO_pcrSelect TPMS_QUOTE_INFO_pcrDigest] in *. emit_emitter.
Qed.

#[export] Instance TPMS_COMMAND_AUDIT_INFO_emitter : Emitter TPMS_COMMAND_AUDIT_INFO_Marshal
    TPMS_COMMAND_AUDIT_INFO_wf 142.
Proof.
  unfold Emitter, TPMS_COMMAND_AUDIT_INFO_Marshal, TPMS_COMMAND_AUDIT_INFO_wf.
  intros [x0 x1 x2 x3] Hw;
      cbn [TPMS_COMMAND_AUDIT_INFO_auditCounter TPMS_COMMAND_AUDIT_INFO_digestAlg
          TPMS_COMMAND_AUDIT_INFO_auditDigest TPMS_COMMAND_AUDIT_INFO_commandDigest] in *.
          emit_emitter.
Qed.

#[export] Instance TPMS_SESSION_AUDIT_INFO_emitter : Emitter TPMS_SESSION_AUDIT_INFO_Marshal
    TPMS_SESSION_AUDIT_INFO_wf 67.
Proof.
  unfold Emitter, TPMS_SESSION_AUDIT_INFO_Marshal, TPMS_SESSION_AUDIT_INFO_wf.
  intros [x0 x1] Hw;
      cbn [TPMS_SESSION_AUDIT_INFO_exclusiveSession TPMS_SESSION_AUDIT_INFO_sessionDigest] in *.
          emit_emitter.
Qed.

#[export] Instance TPMS_CREATION_INFO_emitter : Emitter TPMS_CREATION_INFO_Marshal
    TPMS_CREATION_INFO_wf 136.
Proof.
  unfold Emitter, TPMS_CREATION_INFO_Marshal, TPMS_CREATION_INFO_wf.
  intros [x0 x1] Hw;
      cbn [TPMS_CREATION_INFO_objectName TPMS_CREATION_INFO_creationHash] in *. emit_emitter.
Qed.

#[export] Instance TPMS_NV_CERTIFY_INFO_emitter : Emitter TPMS_NV_CERTIFY_INFO_Marshal
    TPMS_NV_CERTIFY_INFO_wf 1098.
Proof.
  unfold Emitter, TPMS_NV_CERTIFY_INFO_Marshal, TPMS_NV_CERTIFY_INFO_wf.
  intros [x0 x1 x2] Hw;
      cbn [TPMS_NV_CERTIFY_INFO_indexName TPMS_NV_CERTIFY_INFO_offset
          TPMS_NV_CERTIFY_INFO_nvContents] in *. emit_emitter.
Qed.

#[export] Instance TPMS_NV_DIGEST_CERTIFY_INFO_emitter : Emitter
    TPMS_NV_DIGEST_CERTIFY_INFO_Marshal TPMS_NV_DIGEST_CERTIFY_INFO_wf 136.
Proof.
  unfold Emitter, TPMS_NV_DIGEST_CERTIFY_INFO_Marshal, TPMS_NV_DIGEST_CERTIFY_INFO_wf.
  intros [x0 x1] Hw;
      cbn [TPMS_NV_DIGEST_CERTIFY_INFO_indexName TPMS_NV_DIGEST_CERTIFY_INFO_nvDigest] in *.
          emit_emitter.
Qed.

#[export] Instance TPMI_ST_ATTEST_emitter : Emitter TPMI_ST_ATTEST_Marshal (uint 16) 2.
Proof. unfold TPMI_ST_ATTEST_Marshal. apply emitter_alias, _. Qed.

#[export] Instance TPMU_ATTEST_emitter selector :
  Emitter (TPMU_ATTEST_Marshal selector) (TPMU_ATTEST_wf selector) 1098.
Proof.
  unfold Emitter, TPMU_ATTEST_Marshal, TPMU_ATTEST_wf. emit_union.
Qed.

#[export] Instance TPMS_ATTEST_emitter : Emitter TPMS_ATTEST_Marshal TPMS_ATTEST_wf 1267.
Proof.
  unfold Emitter, TPMS_ATTEST_Marshal, TPMS_ATTEST_wf.
  intros [x0 x1 x2 x3 x4 x5 x6] Hw;
      cbn [TPMS_ATTEST_magic TPMS_ATTEST_type TPMS_ATTEST_qualifiedSigner TPMS_ATTEST_extraData
          TPMS_ATTEST_clockInfo TPMS_ATTEST_firmwareVersion TPMS_ATTEST_attested] in *.
          emit_emitter.
Qed.

#[export] Instance TPM2B_ATTEST_emitter : Emitter TPM2B_ATTEST_Marshal (tpm2b_wf
    TPM2B_ATTEST_buffer) 1282.
Proof.
  unfold TPM2B_ATTEST_Marshal. apply emitter_alias.
  eapply codec_emitter, (TPM2B_codec TPM2B_ATTEST_buffer); [split; discriminate|reflexivity].
Qed.

#[export] Instance TPMI_AES_KEY_BITS_emitter : Emitter TPMI_AES_KEY_BITS_Marshal (uint 16) 2.
Proof. unfold TPMI_AES_KEY_BITS_Marshal. apply emitter_alias, _. Qed.

#[export] Instance TPMI_CAMELLIA_KEY_BITS_emitter : Emitter TPMI_CAMELLIA_KEY_BITS_Marshal (uint
    16) 2.
Proof. unfold TPMI_CAMELLIA_KEY_BITS_Marshal. apply emitter_alias, _. Qed.

#[export] Instance TPMI_ALG_KEYEDHASH_SCHEME_emitter : Emitter TPMI_ALG_KEYEDHASH_SCHEME_Marshal
    (uint 16) 2.
Proof. unfold TPMI_ALG_KEYEDHASH_SCHEME_Marshal. apply emitter_alias, _. Qed.

#[export] Instance TPMI_ALG_RSA_SCHEME_emitter : Emitter TPMI_ALG_RSA_SCHEME_Marshal (uint 16) 2.
Proof. unfold TPMI_ALG_RSA_SCHEME_Marshal. apply emitter_alias, _. Qed.

#[export] Instance TPMI_RSA_KEY_BITS_emitter : Emitter TPMI_RSA_KEY_BITS_Marshal (uint 16) 2.
Proof. unfold TPMI_RSA_KEY_BITS_Marshal. apply emitter_alias, _. Qed.

#[export] Instance TPMI_ALG_ECC_SCHEME_emitter : Emitter TPMI_ALG_ECC_SCHEME_Marshal (uint 16) 2.
Proof. unfold TPMI_ALG_ECC_SCHEME_Marshal. apply emitter_alias, _. Qed.

#[export] Instance TPMI_ECC_CURVE_emitter : Emitter TPMI_ECC_CURVE_Marshal (uint 16) 2.
Proof. unfold TPMI_ECC_CURVE_Marshal. apply emitter_alias, _. Qed.

#[export] Instance TPMS_ALGORITHM_DETAIL_ECC_emitter : Emitter TPMS_ALGORITHM_DETAIL_ECC_Marshal
    TPMS_ALGORITHM_DETAIL_ECC_wf 588.
Proof.
  unfold Emitter, TPMS_ALGORITHM_DETAIL_ECC_Marshal, TPMS_ALGORITHM_DETAIL_ECC_wf.
  intros [x0 x1 x2 x3 x4 x5 x6 x7 x8 x9 x10] Hw;
      cbn [TPMS_ALGORITHM_DETAIL_ECC_curveID TPMS_ALGORITHM_DETAIL_ECC_keySize
          TPMS_ALGORITHM_DETAIL_ECC_kdf TPMS_ALGORITHM_DETAIL_ECC_sign TPMS_ALGORITHM_DETAIL_ECC_p
          TPMS_ALGORITHM_DETAIL_ECC_a TPMS_ALGORITHM_DETAIL_ECC_b TPMS_ALGORITHM_DETAIL_ECC_gX
          TPMS_ALGORITHM_DETAIL_ECC_gY TPMS_ALGORITHM_DETAIL_ECC_n TPMS_ALGORITHM_DETAIL_ECC_h] in
          *. emit_emitter.
Qed.

#[export] Instance TPMI_ALG_PUBLIC_emitter : Emitter TPMI_ALG_PUBLIC_Marshal (uint 16) 2.
Proof. unfold TPMI_ALG_PUBLIC_Marshal. apply emitter_alias, _. Qed.

#[export] Instance TPMA_NV_emitter : Emitter TPMA_NV_Marshal (uint 32) 4.
Proof. unfold TPMA_NV_Marshal. apply emitter_alias, _. Qed.

#[export] Instance TPMA_NV_EXP_emitter : Emitter TPMA_NV_EXP_Marshal (uint 64) 8.
Proof. unfold TPMA_NV_EXP_Marshal. apply emitter_alias, _. Qed.

#[export] Instance TPMS_CREATION_DATA_emitter : Emitter TPMS_CREATION_DATA_Marshal
    TPMS_CREATION_DATA_wf 305.
Proof.
  unfold Emitter, TPMS_CREATION_DATA_Marshal, TPMS_CREATION_DATA_wf.
  intros [x0 x1 x2 x3 x4 x5 x6] Hw;
      cbn [TPMS_CREATION_DATA_pcrSelect TPMS_CREATION_DATA_pcrDigest TPMS_CREATION_DATA_locality
          TPMS_CREATION_DATA_parentNameAlg TPMS_CREATION_DATA_parentName
          TPMS_CREATION_DATA_parentQualifiedName TPMS_CREATION_DATA_outsideInfo] in *.
          emit_emitter.
Qed.

#[export] Instance TPM2B_CREATION_DATA_emitter : Emitter TPM2B_CREATION_DATA_Marshal
    TPM2B_CREATION_DATA_wf 307.
Proof.
  intros v Hv. exact (emitter_sized TPMS_CREATION_DATA_Marshal TPMS_CREATION_DATA_wf 305 _
      ltac:(done) (TPM2B_CREATION_DATA_creationData v) Hv).
Qed.

#[export] Instance TPM_AT_emitter : Emitter TPM_AT_Marshal (uint 32) 4.
Proof. unfold TPM_AT_Marshal. apply emitter_alias, _. Qed.

#[export] Instance TPMS_AC_OUTPUT_emitter : Emitter TPMS_AC_OUTPUT_Marshal TPMS_AC_OUTPUT_wf 8.
Proof.
  unfold Emitter, TPMS_AC_OUTPUT_Marshal, TPMS_AC_OUTPUT_wf.
  intros [x0 x1] Hw; cbn [TPMS_AC_OUTPUT_tag TPMS_AC_OUTPUT_data] in *. emit_emitter.
Qed.

#[export] Instance TPML_AC_CAPABILITIES_emitter : Emitter TPML_AC_CAPABILITIES_Marshal
    TPML_AC_CAPABILITIES_wf 1020.
Proof.
  exact (emitter_counted TPMS_AC_OUTPUT_Marshal TPMS_AC_OUTPUT_wf 8 TPML_AC_CAPABILITIES_count
      TPML_AC_CAPABILITIES_acCapabilities MAX_AC_CAPABILITIES _ ltac:(done) ltac:(done)).
Qed.
