(* ===== verification/WireTable.v ===== *)
(** * The functions of Unmarshal.c and Marshal.c, as lists

    The contracts of WireCodecs.v and WireEmitters.v for all the functions at
    once: a function with the type it works on and the predicate of that type.
    [flag] stands for the argument [allowNull] (or [allowPwd]) and [selector] for
    that of the functions of unions. *)

From S2P Require Import Prelude TpmTypes Memory WireTypes Unmarshal Marshal WireCodec WireWf WireCodecs WireEmitters.
Local Open Scope Z_scope.

Record unmarshaler := mkUnmarshaler {
  um_type : Type;
  um_fun : Unm um_type;
  um_wf : um_type → bool }.
Arguments mkUnmarshaler {_} _ _.

Record pair := mkPair {
  pr_type : Type;
  pr_unmarshal : Unm pr_type;
  pr_marshal : pr_type → Mar;
  pr_wf : pr_type → bool;
  pr_max : Z }.
Arguments mkPair {_} _ _ _ _.

Record sender := mkSender {
  sn_type : Type;
  sn_marshal : sn_type → Mar;
  sn_wf : sn_type → bool;
  sn_max : Z }.
Arguments mkSender {_} _ _ _.

(** Every function of Unmarshal.c but [Array_Unmarshal] and [TPM2B_Unmarshal],
    whose target the caller chooses, and [TPMS_TAGGED_PCR_SELECT_Unmarshal],
    which does not keep to its target. *)
Definition unmarshalers (flag : bool) (selector : Z) : list unmarshaler := [
  mkUnmarshaler UINT8_Unmarshal (uint 8);
  mkUnmarshaler INT8_Unmarshal sint8;
  mkUnmarshaler UINT16_Unmarshal (uint 16);
  mkUnmarshaler UINT32_Unmarshal (uint 32);
  mkUnmarshaler UINT64_Unmarshal (uint 64);
  mkUnmarshaler TPM_KEY_BITS_Unmarshal (uint 16);
  mkUnmarshaler TPM_ALG_ID_Unmarshal (uint 16);
  mkUnmarshaler TPM_ECC_CURVE_Unmarshal TPM_ECC_CURVE_wf;
  mkUnmarshaler TPM_CC_Unmarshal (uint 32);
  mkUnmarshaler TPM_CLOCK_ADJUST_Unmarshal TPM_CLOCK_ADJUST_wf;
  mkUnmarshaler TPM_EO_Unmarshal TPM_EO_wf;
  mkUnmarshaler TPM_ST_Unmarshal TPM_ST_wf;
  mkUnmarshaler TPM_SU_Unmarshal TPM_SU_wf;
  mkUnmarshaler TPM_SE_Unmarshal TPM_SE_wf;
  mkUnmarshaler TPM_CAP_Unmarshal TPM_CAP_wf;
  mkUnmarshaler TPM_PT_Unmarshal (uint 32);
  mkUnmarshaler TPM_PT_PCR_Unmarshal (uint 32);
  mkUnmarshaler TPM_HANDLE_Unmarshal (uint 32);
  mkUnmarshaler TPMA_ALGORITHM_Unmarshal TPMA_ALGORITHM_wf;
  mkUnmarshaler TPMA_OBJECT_Unmarshal TPMA_OBJECT_wf;
  mkUnmarshaler TPMA_SESSION_Unmarshal TPMA_SESSION_wf;
  mkUnmarshaler TPMA_LOCALITY_Unmarshal (uint 8);
  mkUnmarshaler TPMA_CC_Unmarshal TPMA_CC_wf;
  mkUnmarshaler TPMI_YES_NO_Unmarshal TPMI_YES_NO_wf;
  mkUnmarshaler (TPMI_DH_OBJECT_Unmarshal flag) (TPMI_DH_OBJECT_wf flag);
  mkUnmarshaler (TPMI_DH_PARENT_Unmarshal flag) (TPMI_DH_PARENT_wf flag);
  mkUnmarshaler TPMI_DH_PERSISTENT_Unmarshal TPMI_DH_PERSISTENT_wf;
  mkUnmarshaler (TPMI_DH_ENTITY_Unmarshal flag) (TPMI_DH_ENTITY_wf flag);
  mkUnmarshaler (TPMI_DH_PCR_Unmarshal flag) (TPMI_DH_PCR_wf flag);
  mkUnmarshaler (TPMI_SH_AUTH_SESSION_Unmarshal flag) (TPMI_SH_AUTH_SESSION_wf flag);
  mkUnmarshaler TPMI_SH_HMAC_Unmarshal TPMI_SH_HMAC_wf;
  mkUnmarshaler TPMI_SH_POLICY_Unmarshal TPMI_SH_POLICY_wf;
  mkUnmarshaler TPMI_DH_CONTEXT_Unmarshal TPMI_DH_CONTEXT_wf;
  mkUnmarshaler (TPMI_DH_SAVED_Unmarshal flag) (TPMI_DH_SAVED_wf flag);
  mkUnmarshaler (TPMI_RH_HIERARCHY_Unmarshal flag) (TPMI_RH_HIERARCHY_wf flag);
  mkUnmarshaler (TPMI_RH_ENABLES_Unmarshal flag) (TPMI_RH_ENABLES_wf flag);
  mkUnmarshaler TPMI_RH_HIERARCHY_AUTH_Unmarshal TPMI_RH_HIERARCHY_AUTH_wf;
  mkUnmarshaler TPMI_RH_HIERARCHY_POLICY_Unmarshal TPMI_RH_HIERARCHY_POLICY_wf;
  mkUnmarshaler TPMI_RH_PLATFORM_Unmarshal TPMI_RH_PLATFORM_wf;
  mkUnmarshaler (TPMI_RH_ENDORSEMENT_Unmarshal flag) (TPMI_RH_ENDORSEMENT_wf flag);
  mkUnmarshaler TPMI_RH_PROVISION_Unmarshal TPMI_RH_PROVISION_wf;
  mkUnmarshaler TPMI_RH_CLEAR_Unmarshal TPMI_RH_CLEAR_wf;
  mkUnmarshaler TPMI_RH_NV_AUTH_Unmarshal TPMI_RH_NV_AUTH_wf;
  mkUnmarshaler TPMI_RH_LOCKOUT_Unmarshal TPMI_RH_LOCKOUT_wf;
  mkUnmarshaler TPMI_RH_NV_INDEX_Unmarshal TPMI_RH_NV_INDEX_wf;
  mkUnmarshaler TPMI_RH_NV_DEFINED_INDEX_Unmarshal TPMI_RH_NV_DEFINED_INDEX_wf;
  mkUnmarshaler TPMI_RH_NV_LEGACY_INDEX_Unmarshal TPMI_RH_NV_LEGACY_INDEX_wf;
  mkUnmarshaler TPMI_RH_NV_EXP_INDEX_Unmarshal TPMI_RH_NV_EXP_INDEX_wf;
  mkUnmarshaler TPMI_RH_AC_Unmarshal TPMI_RH_AC_wf;
  mkUnmarshaler TPMI_RH_ACT_Unmarshal TPMI_RH_ACT_wf;
  mkUnmarshaler (TPMI_ALG_HASH_Unmarshal flag) (TPMI_ALG_HASH_wf flag);
  mkUnmarshaler (TPMI_ALG_SYM_Unmarshal flag) (TPMI_ALG_SYM_wf flag);
  mkUnmarshaler (TPMI_ALG_SYM_OBJECT_Unmarshal flag) (TPMI_ALG_SYM_OBJECT_wf flag);
  mkUnmarshaler (TPMI_ALG_SYM_MODE_Unmarshal flag) (TPMI_ALG_SYM_MODE_wf flag);
  mkUnmarshaler (TPMI_ALG_KDF_Unmarshal flag) (TPMI_ALG_KDF_wf flag);
  mkUnmarshaler (TPMI_ALG_SIG_SCHEME_Unmarshal flag) (TPMI_ALG_SIG_SCHEME_wf flag);
  mkUnmarshaler (TPMI_ECC_KEY_EXCHANGE_Unmarshal flag) (TPMI_ECC_KEY_EXCHANGE_wf flag);
  mkUnmarshaler TPMI_ST_COMMAND_TAG_Unmarshal TPMI_ST_COMMAND_TAG_wf;
  mkUnmarshaler (TPMI_ALG_MAC_SCHEME_Unmarshal flag) (TPMI_ALG_MAC_SCHEME_wf flag);
  mkUnmarshaler (TPMI_ALG_CIPHER_MODE_Unmarshal flag) (TPMI_ALG_CIPHER_MODE_wf flag);
  mkUnmarshaler TPMS_EMPTY_Unmarshal unit_wf;
  mkUnmarshaler (TPMU_HA_Unmarshal selector) (TPMU_HA_wf selector);
  mkUnmarshaler (TPMT_HA_Unmarshal flag) (TPMT_HA_wf flag);
  mkUnmarshaler TPM2B_DIGEST_Unmarshal (tpm2b_wf sizeof_TPMU_HA);
  mkUnmarshaler TPM2B_DATA_Unmarshal (tpm2b_wf sizeof_TPMT_HA);
  mkUnmarshaler TPM2B_NONCE_Unmarshal (tpm2b_wf sizeof_TPMU_HA);
  mkUnmarshaler TPM2B_AUTH_Unmarshal (tpm2b_wf sizeof_TPMU_HA);
  mkUnmarshaler TPM2B_EVENT_Unmarshal (tpm2b_wf (sizeof_TPM2B_EVENT - sizeof_UINT16));
  mkUnmarshaler TPM2B_MAX_BUFFER_Unmarshal (tpm2b_wf MAX_DIGEST_BUFFER);
  mkUnmarshaler TPM2B_MAX_NV_BUFFER_Unmarshal (tpm2b_wf MAX_NV_BUFFER_SIZE);
  mkUnmarshaler TPM2B_TIMEOUT_Unmarshal (tpm2b_wf TPM2B_TIMEOUT_buffer);
  mkUnmarshaler TPM2B_IV_Unmarshal (tpm2b_wf MAX_SYM_BLOCK_SIZE);
  mkUnmarshaler TPM2B_NAME_Unmarshal (tpm2b_wf sizeof_TPMU_NAME);
  mkUnmarshaler TPMS_PCR_SELECTION_Unmarshal TPMS_PCR_SELECTION_wf;
  mkUnmarshaler TPMT_TK_CREATION_Unmarshal TPMT_TK_CREATION_wf;
  mkUnmarshaler TPMT_TK_VERIFIED_Unmarshal TPMT_TK_VERIFIED_wf;
  mkUnmarshaler TPMT_TK_AUTH_Unmarshal TPMT_TK_AUTH_wf;
  mkUnmarshaler TPMT_TK_HASHCHECK_Unmarshal TPMT_TK_HASHCHECK_wf;
  mkUnmarshaler TPMS_ALG_PROPERTY_Unmarshal TPMS_ALG_PROPERTY_wf;
  mkUnmarshaler TPMS_TAGGED_PROPERTY_Unmarshal TPMS_TAGGED_PROPERTY_wf;
  mkUnmarshaler TPML_CC_Unmarshal TPML_CC_wf;
  mkUnmarshaler TPMS_TAGGED_POLICY_Unmarshal TPMS_TAGGED_POLICY_wf;
  mkUnmarshaler TPML_CCA_Unmarshal TPML_CCA_wf;
  mkUnmarshaler TPML_ALG_Unmarshal TPML_ALG_wf;
  mkUnmarshaler TPML_HANDLE_Unmarshal TPML_HANDLE_wf;
  mkUnmarshaler TPML_DIGEST_Unmarshal TPML_DIGEST_wf;
  mkUnmarshaler TPML_DIGEST_VALUES_Unmarshal TPML_DIGEST_VALUES_wf;
  mkUnmarshaler TPML_PCR_SELECTION_Unmarshal TPML_PCR_SELECTION_wf;
  mkUnmarshaler TPMI_AES_KEY_BITS_Unmarshal TPMI_AES_KEY_BITS_wf;
  mkUnmarshaler TPMI_CAMELLIA_KEY_BITS_Unmarshal TPMI_CAMELLIA_KEY_BITS_wf;
  mkUnmarshaler (TPMU_SYM_KEY_BITS_Unmarshal selector) (TPMU_SYM_KEY_BITS_wf selector);
  mkUnmarshaler (TPMU_SYM_MODE_Unmarshal selector) (TPMU_SYM_MODE_wf selector);
  mkUnmarshaler (TPMT_SYM_DEF_Unmarshal flag) (TPMT_SYM_DEF_wf flag);
  mkUnmarshaler (TPMT_SYM_DEF_OBJECT_Unmarshal flag) (TPMT_SYM_DEF_OBJECT_wf flag);
  mkUnmarshaler TPM2B_SYM_KEY_Unmarshal (tpm2b_wf MAX_SYM_KEY_BYTES);
  mkUnmarshaler TPMS_SYMCIPHER_PARMS_Unmarshal TPMS_SYMCIPHER_PARMS_wf;
  mkUnmarshaler TPM2B_LABEL_Unmarshal (tpm2b_wf LABEL_MAX_BUFFER);
  mkUnmarshaler TPMS_DERIVE_Unmarshal TPMS_DERIVE_wf;
  mkUnmarshaler TPM2B_SENSITIVE_DATA_Unmarshal (tpm2b_wf MAX_SYM_DATA);
  mkUnmarshaler TPMS_SENSITIVE_CREATE_Unmarshal TPMS_SENSITIVE_CREATE_wf;
  mkUnmarshaler TPM2B_SENSITIVE_CREATE_Unmarshal TPM2B_SENSITIVE_CREATE_wf;
  mkUnmarshaler TPMS_SCHEME_HASH_Unmarshal TPMS_SCHEME_HASH_wf;
  mkUnmarshaler TPMS_SCHEME_ECDAA_Unmarshal TPMS_SCHEME_ECDAA_wf;
  mkUnmarshaler (TPMI_ALG_KEYEDHASH_SCHEME_Unmarshal flag) (TPMI_ALG_KEYEDHASH_SCHEME_wf flag);
  mkUnmarshaler TPMS_SCHEME_HMAC_Unmarshal TPMS_SCHEME_HASH_wf;
  mkUnmarshaler TPMS_SCHEME_XOR_Unmarshal TPMS_SCHEME_XOR_wf;
  mkUnmarshaler (TPMU_SCHEME_KEYEDHASH_Unmarshal selector) (TPMU_SCHEME_KEYEDHASH_wf selector);
  mkUnmarshaler (TPMT_KEYEDHASH_SCHEME_Unmarshal flag) (TPMT_KEYEDHASH_SCHEME_wf flag);
  mkUnmarshaler TPMS_SIG_SCHEME_RSAPSS_Unmarshal TPMS_SCHEME_HASH_wf;
  mkUnmarshaler TPMS_SIG_SCHEME_RSASSA_Unmarshal TPMS_SCHEME_HASH_wf;
  mkUnmarshaler TPMS_SIG_SCHEME_ECDAA_Unmarshal TPMS_SCHEME_ECDAA_wf;
  mkUnmarshaler TPMS_SIG_SCHEME_ECDSA_Unmarshal TPMS_SCHEME_HASH_wf;
  mkUnmarshaler TPMS_SIG_SCHEME_ECSCHNORR_Unmarshal TPMS_SCHEME_HASH_wf;
  mkUnmarshaler TPMS_SIG_SCHEME_SM2_Unmarshal TPMS_SCHEME_HASH_wf;
  mkUnmarshaler (TPMU_SIG_SCHEME_Unmarshal selector) (TPMU_SIG_SCHEME_wf selector);
  mkUnmarshaler (TPMT_SIG_SCHEME_Unmarshal flag) (TPMT_SIG_SCHEME_wf flag);
  mkUnmarshaler TPMS_ENC_SCHEME_OAEP_Unmarshal TPMS_SCHEME_HASH_wf;
  mkUnmarshaler TPMS_ENC_SCHEME_RSAES_Unmarshal unit_wf;
  mkUnmarshaler TPMS_KEY_SCHEME_ECDH_Unmarshal TPMS_SCHEME_HASH_wf;
  mkUnmarshaler TPMS_KEY_SCHEME_ECMQV_Unmarshal TPMS_SCHEME_HASH_wf;
  mkUnmarshaler TPMS_KDF_SCHEME_KDF1_SP800_108_Unmarshal TPMS_SCHEME_HASH_wf;
  mkUnmarshaler TPMS_KDF_SCHEME_KDF1_SP800_56A_Unmarshal TPMS_SCHEME_HASH_wf;
  mkUnmarshaler TPMS_KDF_SCHEME_KDF2_Unmarshal TPMS_SCHEME_HASH_wf;
  mkUnmarshaler TPMS_KDF_SCHEME_MGF1_Unmarshal TPMS_SCHEME_HASH_wf;
  mkUnmarshaler (TPMU_KDF_SCHEME_Unmarshal selector) (TPMU_KDF_SCHEME_wf selector);
  mkUnmarshaler (TPMT_KDF_SCHEME_Unmarshal flag) (TPMT_KDF_SCHEME_wf flag);
  mkUnmarshaler (TPMU_ASYM_SCHEME_Unmarshal selector) (TPMU_ASYM_SCHEME_wf selector);
  mkUnmarshaler (TPMI_ALG_RSA_SCHEME_Unmarshal flag) (TPMI_ALG_RSA_SCHEME_wf flag);
  mkUnmarshaler (TPMT_RSA_SCHEME_Unmarshal flag) (TPMT_RSA_SCHEME_wf flag);
  mkUnmarshaler (TPMI_ALG_RSA_DECRYPT_Unmarshal flag) (TPMI_ALG_RSA_DECRYPT_wf flag);
  mkUnmarshaler (TPMT_RSA_DECRYPT_Unmarshal flag) (TPMT_RSA_DECRYPT_wf flag);
  mkUnmarshaler TPM2B_PUBLIC_KEY_RSA_Unmarshal (tpm2b_wf MAX_RSA_KEY_BYTES);
  mkUnmarshaler TPMI_RSA_KEY_BITS_Unmarshal TPMI_RSA_KEY_BITS_wf;
  mkUnmarshaler TPM2B_PRIVATE_KEY_RSA_Unmarshal (tpm2b_wf RSA_PRIVATE_SIZE);
  mkUnmarshaler TPM2B_ECC_PARAMETER_Unmarshal (tpm2b_wf MAX_ECC_KEY_BYTES);
  mkUnmarshaler TPMS_ECC_POINT_Unmarshal TPMS_ECC_POINT_wf;
  mkUnmarshaler TPM2B_ECC_POINT_Unmarshal TPM2B_ECC_POINT_wf;
  mkUnmarshaler (TPMI_ALG_ECC_SCHEME_Unmarshal flag) (TPMI_ALG_ECC_SCHEME_wf flag);
  mkUnmarshaler (TPMI_ECC_CURVE_Unmarshal flag) (TPMI_ECC_CURVE_wf flag);
  mkUnmarshaler (TPMT_ECC_SCHEME_Unmarshal flag) (TPMT_ECC_SCHEME_wf flag);
  mkUnmarshaler TPMS_SIGNATURE_RSA_Unmarshal TPMS_SIGNATURE_RSA_wf;
  mkUnmarshaler TPMS_SIGNATURE_RSASSA_Unmarshal TPMS_SIGNATURE_RSA_wf;
  mkUnmarshaler TPMS_SIGNATURE_RSAPSS_Unmarshal TPMS_SIGNATURE_RSA_wf;
  mkUnmarshaler TPMS_SIGNATURE_ECC_Unmarshal TPMS_SIGNATURE_ECC_wf;
  mkUnmarshaler TPMS_SIGNATURE_ECDSA_Unmarshal TPMS_SIGNATURE_ECC_wf;
  mkUnmarshaler TPMS_SIGNATURE_ECDAA_Unmarshal TPMS_SIGNATURE_ECC_wf;
  mkUnmarshaler TPMS_SIGNATURE_SM2_Unmarshal TPMS_SIGNATURE_ECC_wf;
  mkUnmarshaler TPMS_SIGNATURE_ECSCHNORR_Unmarshal TPMS_SIGNATURE_ECC_wf;
  mkUnmarshaler (TPMU_SIGNATURE_Unmarshal selector) (TPMU_SIGNATURE_wf selector);
  mkUnmarshaler (TPMT_SIGNATURE_Unmarshal flag) (TPMT_SIGNATURE_wf flag);
  mkUnmarshaler TPM2B_ENCRYPTED_SECRET_Unmarshal (tpm2b_wf sizeof_TPMU_ENCRYPTED_SECRET);
  mkUnmarshaler TPMI_ALG_PUBLIC_Unmarshal TPMI_ALG_PUBLIC_wf;
  mkUnmarshaler (TPMU_PUBLIC_ID_Unmarshal selector) (TPMU_PUBLIC_ID_wf selector);
  mkUnmarshaler TPMS_KEYEDHASH_PARMS_Unmarshal TPMS_KEYEDHASH_PARMS_wf;
  mkUnmarshaler TPMS_RSA_PARMS_Unmarshal TPMS_RSA_PARMS_wf;
  mkUnmarshaler TPMS_ECC_PARMS_Unmarshal TPMS_ECC_PARMS_wf;
  mkUnmarshaler (TPMU_PUBLIC_PARMS_Unmarshal selector) (TPMU_PUBLIC_PARMS_wf selector);
  mkUnmarshaler TPMT_PUBLIC_PARMS_Unmarshal TPMT_PUBLIC_PARMS_wf;
  mkUnmarshaler (TPMT_PUBLIC_Unmarshal flag) (TPMT_PUBLIC_wf flag);
  mkUnmarshaler (TPM2B_PUBLIC_Unmarshal flag) (TPM2B_PUBLIC_wf flag);
  mkUnmarshaler TPM2B_TEMPLATE_Unmarshal (tpm2b_wf sizeof_TPMT_PUBLIC);
    mkUnmarshaler (TPMU_SENSITIVE_COMPOSITE_Unmarshal selector) (TPMU_SENSITIVE_COMPOSITE_wf
    selector);
  mkUnmarshaler TPMT_SENSITIVE_Unmarshal TPMT_SENSITIVE_wf;
  mkUnmarshaler TPM2B_SENSITIVE_Unmarshal TPM2B_SENSITIVE_wf;
  mkUnmarshaler TPM2B_PRIVATE_Unmarshal (tpm2b_wf sizeof__PRIVATE);
  mkUnmarshaler TPM2B_ID_OBJECT_Unmarshal (tpm2b_wf sizeof_TPMS_ID_OBJECT);
  mkUnmarshaler TPMA_NV_Unmarshal TPMA_NV_wf;
  mkUnmarshaler TPMS_NV_PUBLIC_Unmarshal TPMS_NV_PUBLIC_wf;
  mkUnmarshaler TPM2B_NV_PUBLIC_Unmarshal TPM2B_NV_PUBLIC_wf;
  mkUnmarshaler TPMA_NV_EXP_Unmarshal TPMA_NV_EXP_wf;
  mkUnmarshaler TPMS_NV_PUBLIC_EXP_ATTR_Unmarshal TPMS_NV_PUBLIC_EXP_ATTR_wf;
  mkUnmarshaler (TPMU_NV_PUBLIC_2_Unmarshal selector) (TPMU_NV_PUBLIC_2_wf selector);
  mkUnmarshaler TPMT_NV_PUBLIC_2_Unmarshal TPMT_NV_PUBLIC_2_wf;
  mkUnmarshaler TPM2B_NV_PUBLIC_2_Unmarshal TPM2B_NV_PUBLIC_2_wf;
  mkUnmarshaler TPM2B_CONTEXT_SENSITIVE_Unmarshal (tpm2b_wf MAX_CONTEXT_SIZE);
  mkUnmarshaler TPM2B_CONTEXT_DATA_Unmarshal (tpm2b_wf sizeof_TPMS_CONTEXT_DATA);
  mkUnmarshaler TPMS_CONTEXT_Unmarshal TPMS_CONTEXT_wf;
  mkUnmarshaler TPM_AT_Unmarshal (uint 32);
  mkUnmarshaler (TPMU_SET_CAPABILITIES_Unmarshal selector) (TPMU_SET_CAPABILITIES_wf selector);
  mkUnmarshaler TPMS_SET_CAPABILITY_DATA_Unmarshal TPMS_SET_CAPABILITY_DATA_wf;
  mkUnmarshaler TPM2B_SET_CAPABILITY_DATA_Unmarshal TPM2B_SET_CAPABILITY_DATA_wf].

(** The types with a function in both files. *)
Definition pairs (flag : bool) (selector : Z) : list pair := [
  mkPair UINT8_Unmarshal UINT8_Marshal (uint 8) 1;
  mkPair UINT16_Unmarshal UINT16_Marshal (uint 16) 2;
  mkPair UINT32_Unmarshal UINT32_Marshal (uint 32) 4;
  mkPair UINT64_Unmarshal UINT64_Marshal (uint 64) 8;
  mkPair TPM_KEY_BITS_Unmarshal TPM_KEY_BITS_Marshal (uint 16) 2;
  mkPair TPM_ALG_ID_Unmarshal TPM_ALG_ID_Marshal (uint 16) 2;
  mkPair TPM_ECC_CURVE_Unmarshal TPM_ECC_CURVE_Marshal TPM_ECC_CURVE_wf 2;
  mkPair TPM_CC_Unmarshal TPM_CC_Marshal (uint 32) 4;
  mkPair TPM_ST_Unmarshal TPM_ST_Marshal TPM_ST_wf 2;
  mkPair TPM_CAP_Unmarshal TPM_CAP_Marshal TPM_CAP_wf 4;
  mkPair TPM_PT_Unmarshal TPM_PT_Marshal (uint 32) 4;
  mkPair TPM_PT_PCR_Unmarshal TPM_PT_PCR_Marshal (uint 32) 4;
  mkPair TPM_HANDLE_Unmarshal TPM_HANDLE_Marshal (uint 32) 4;
  mkPair TPMA_ALGORITHM_Unmarshal TPMA_ALGORITHM_Marshal TPMA_ALGORITHM_wf 4;
  mkPair TPMA_OBJECT_Unmarshal TPMA_OBJECT_Marshal TPMA_OBJECT_wf 4;
  mkPair TPMA_SESSION_Unmarshal TPMA_SESSION_Marshal TPMA_SESSION_wf 1;
  mkPair TPMA_LOCALITY_Unmarshal TPMA_LOCALITY_Marshal (uint 8) 1;
  mkPair TPMA_CC_Unmarshal TPMA_CC_Marshal TPMA_CC_wf 4;
  mkPair TPMI_YES_NO_Unmarshal TPMI_YES_NO_Marshal TPMI_YES_NO_wf 1;
  mkPair (TPMI_DH_SAVED_Unmarshal flag) TPMI_DH_SAVED_Marshal (TPMI_DH_SAVED_wf flag) 4;
    mkPair (TPMI_RH_HIERARCHY_Unmarshal flag) TPMI_RH_HIERARCHY_Marshal (TPMI_RH_HIERARCHY_wf
    flag) 4;
  mkPair TPMI_RH_NV_INDEX_Unmarshal TPMI_RH_NV_INDEX_Marshal TPMI_RH_NV_INDEX_wf 4;
  mkPair TPMI_RH_NV_EXP_INDEX_Unmarshal TPMI_RH_NV_EXP_INDEX_Marshal TPMI_RH_NV_EXP_INDEX_wf 4;
  mkPair (TPMI_ALG_HASH_Unmarshal flag) TPMI_ALG_HASH_Marshal (TPMI_ALG_HASH_wf flag) 2;
    mkPair (TPMI_ALG_SYM_OBJECT_Unmarshal flag) TPMI_ALG_SYM_OBJECT_Marshal
    (TPMI_ALG_SYM_OBJECT_wf flag) 2;
    mkPair (TPMI_ALG_SYM_MODE_Unmarshal flag) TPMI_ALG_SYM_MODE_Marshal (TPMI_ALG_SYM_MODE_wf
    flag) 2;
  mkPair (TPMI_ALG_KDF_Unmarshal flag) TPMI_ALG_KDF_Marshal (TPMI_ALG_KDF_wf flag) 2;
    mkPair (TPMI_ALG_SIG_SCHEME_Unmarshal flag) TPMI_ALG_SIG_SCHEME_Marshal
    (TPMI_ALG_SIG_SCHEME_wf flag) 2;
  mkPair (TPMU_HA_Unmarshal selector) (TPMU_HA_Marshal selector) (TPMU_HA_wf selector) 64;
  mkPair (TPMT_HA_Unmarshal flag) TPMT_HA_Marshal (TPMT_HA_wf flag) 66;
  mkPair TPM2B_DIGEST_Unmarshal TPM2B_DIGEST_Marshal (tpm2b_wf sizeof_TPMU_HA) 66;
  mkPair TPM2B_DATA_Unmarshal TPM2B_DATA_Marshal (tpm2b_wf sizeof_TPMT_HA) 68;
  mkPair TPM2B_NONCE_Unmarshal TPM2B_NONCE_Marshal (tpm2b_wf sizeof_TPMU_HA) 66;
  mkPair TPM2B_AUTH_Unmarshal TPM2B_AUTH_Marshal (tpm2b_wf sizeof_TPMU_HA) 66;
  mkPair TPM2B_MAX_BUFFER_Unmarshal TPM2B_MAX_BUFFER_Marshal (tpm2b_wf MAX_DIGEST_BUFFER) 1026;
    mkPair TPM2B_MAX_NV_BUFFER_Unmarshal TPM2B_MAX_NV_BUFFER_Marshal (tpm2b_wf
    MAX_NV_BUFFER_SIZE) 1026;
  mkPair TPM2B_TIMEOUT_Unmarshal TPM2B_TIMEOUT_Marshal (tpm2b_wf TPM2B_TIMEOUT_buffer) 10;
  mkPair TPM2B_IV_Unmarshal TPM2B_IV_Marshal (tpm2b_wf MAX_SYM_BLOCK_SIZE) 18;
  mkPair TPM2B_NAME_Unmarshal TPM2B_NAME_Marshal (tpm2b_wf sizeof_TPMU_NAME) 70;
  mkPair TPMS_PCR_SELECTION_Unmarshal TPMS_PCR_SELECTION_Marshal TPMS_PCR_SELECTION_wf 6;
  mkPair TPMT_TK_CREATION_Unmarshal TPMT_TK_CREATION_Marshal TPMT_TK_CREATION_wf 72;
  mkPair TPMT_TK_VERIFIED_Unmarshal TPMT_TK_VERIFIED_Marshal TPMT_TK_VERIFIED_wf 72;
  mkPair TPMT_TK_AUTH_Unmarshal TPMT_TK_AUTH_Marshal TPMT_TK_AUTH_wf 72;
  mkPair TPMT_TK_HASHCHECK_Unmarshal TPMT_TK_HASHCHECK_Marshal TPMT_TK_HASHCHECK_wf 72;
  mkPair TPMS_ALG_PROPERTY_Unmarshal TPMS_ALG_PROPERTY_Marshal TPMS_ALG_PROPERTY_wf 6;
  mkPair TPMS_TAGGED_PROPERTY_Unmarshal TPMS_TAGGED_PROPERTY_Marshal TPMS_TAGGED_PROPERTY_wf 8;
  mkPair TPML_CC_Unmarshal TPML_CC_Marshal TPML_CC_wf 1020;
  mkPair TPMS_TAGGED_POLICY_Unmarshal TPMS_TAGGED_POLICY_Marshal TPMS_TAGGED_POLICY_wf 70;
  mkPair TPML_CCA_Unmarshal TPML_CCA_Marshal TPML_CCA_wf 1020;
  mkPair TPML_ALG_Unmarshal TPML_ALG_Marshal TPML_ALG_wf 132;
  mkPair TPML_HANDLE_Unmarshal TPML_HANDLE_Marshal TPML_HANDLE_wf 1020;
  mkPair TPML_DIGEST_Unmarshal TPML_DIGEST_Marshal TPML_DIGEST_wf 532;
  mkPair TPML_DIGEST_VALUES_Unmarshal TPML_DIGEST_VALUES_Marshal TPML_DIGEST_VALUES_wf 268;
  mkPair TPML_PCR_SELECTION_Unmarshal TPML_PCR_SELECTION_Marshal TPML_PCR_SELECTION_wf 28;
  mkPair TPMI_AES_KEY_BITS_Unmarshal TPMI_AES_KEY_BITS_Marshal TPMI_AES_KEY_BITS_wf 2;
    mkPair TPMI_CAMELLIA_KEY_BITS_Unmarshal TPMI_CAMELLIA_KEY_BITS_Marshal
    TPMI_CAMELLIA_KEY_BITS_wf 2;
    mkPair (TPMU_SYM_KEY_BITS_Unmarshal selector) (TPMU_SYM_KEY_BITS_Marshal selector)
    (TPMU_SYM_KEY_BITS_wf selector) 2;
    mkPair (TPMU_SYM_MODE_Unmarshal selector) (TPMU_SYM_MODE_Marshal selector) (TPMU_SYM_MODE_wf
    selector) 2;
    mkPair (TPMT_SYM_DEF_OBJECT_Unmarshal flag) TPMT_SYM_DEF_OBJECT_Marshal
    (TPMT_SYM_DEF_OBJECT_wf flag) 6;
  mkPair TPM2B_SYM_KEY_Unmarshal TPM2B_SYM_KEY_Marshal (tpm2b_wf MAX_SYM_KEY_BYTES) 34;
  mkPair TPMS_SYMCIPHER_PARMS_Unmarshal TPMS_SYMCIPHER_PARMS_Marshal TPMS_SYMCIPHER_PARMS_wf 6;
  mkPair TPM2B_SENSITIVE_DATA_Unmarshal TPM2B_SENSITIVE_DATA_Marshal (tpm2b_wf MAX_SYM_DATA) 130;
  mkPair TPMS_SCHEME_HASH_Unmarshal TPMS_SCHEME_HASH_Marshal TPMS_SCHEME_HASH_wf 2;
  mkPair TPMS_SCHEME_ECDAA_Unmarshal TPMS_SCHEME_ECDAA_Marshal TPMS_SCHEME_ECDAA_wf 4;
    mkPair (TPMI_ALG_KEYEDHASH_SCHEME_Unmarshal flag) TPMI_ALG_KEYEDHASH_SCHEME_Marshal
    (TPMI_ALG_KEYEDHASH_SCHEME_wf flag) 2;
  mkPair TPMS_SCHEME_HMAC_Unmarshal TPMS_SCHEME_HMAC_Marshal TPMS_SCHEME_HASH_wf 2;
  mkPair TPMS_SCHEME_XOR_Unmarshal TPMS_SCHEME_XOR_Marshal TPMS_SCHEME_XOR_wf 4;
    mkPair (TPMU_SCHEME_KEYEDHASH_Unmarshal selector) (TPMU_SCHEME_KEYEDHASH_Marshal selector)
    (TPMU_SCHEME_KEYEDHASH_wf selector) 4;
    mkPair (TPMT_KEYEDHASH_SCHEME_Unmarshal flag) TPMT_KEYEDHASH_SCHEME_Marshal
    (TPMT_KEYEDHASH_SCHEME_wf flag) 6;
  mkPair TPMS_SIG_SCHEME_RSAPSS_Unmarshal TPMS_SIG_SCHEME_RSAPSS_Marshal TPMS_SCHEME_HASH_wf 2;
  mkPair TPMS_SIG_SCHEME_RSASSA_Unmarshal TPMS_SIG_SCHEME_RSASSA_Marshal TPMS_SCHEME_HASH_wf 2;
  mkPair TPMS_SIG_SCHEME_ECDAA_Unmarshal TPMS_SIG_SCHEME_ECDAA_Marshal TPMS_SCHEME_ECDAA_wf 4;
  mkPair TPMS_SIG_SCHEME_ECDSA_Unmarshal TPMS_SIG_SCHEME_ECDSA_Marshal TPMS_SCHEME_HASH_wf 2;
    mkPair TPMS_SIG_SCHEME_ECSCHNORR_Unmarshal TPMS_SIG_SCHEME_ECSCHNORR_Marshal
    TPMS_SCHEME_HASH_wf 2;
  mkPair TPMS_SIG_SCHEME_SM2_Unmarshal TPMS_SIG_SCHEME_SM2_Marshal TPMS_SCHEME_HASH_wf 2;
  mkPair TPMS_ENC_SCHEME_OAEP_Unmarshal TPMS_ENC_SCHEME_OAEP_Marshal TPMS_SCHEME_HASH_wf 2;
  mkPair TPMS_ENC_SCHEME_RSAES_Unmarshal TPMS_ENC_SCHEME_RSAES_Marshal unit_wf 0;
  mkPair TPMS_KEY_SCHEME_ECDH_Unmarshal TPMS_KEY_SCHEME_ECDH_Marshal TPMS_SCHEME_HASH_wf 2;
  mkPair TPMS_KEY_SCHEME_ECMQV_Unmarshal TPMS_KEY_SCHEME_ECMQV_Marshal TPMS_SCHEME_HASH_wf 2;
    mkPair TPMS_KDF_SCHEME_KDF1_SP800_108_Unmarshal TPMS_KDF_SCHEME_KDF1_SP800_108_Marshal
    TPMS_SCHEME_HASH_wf 2;
    mkPair TPMS_KDF_SCHEME_KDF1_SP800_56A_Unmarshal TPMS_KDF_SCHEME_KDF1_SP800_56A_Marshal
    TPMS_SCHEME_HASH_wf 2;
  mkPair TPMS_KDF_SCHEME_KDF2_Unmarshal TPMS_KDF_SCHEME_KDF2_Marshal TPMS_SCHEME_HASH_wf 2;
  mkPair TPMS_KDF_SCHEME_MGF1_Unmarshal TPMS_KDF_SCHEME_MGF1_Marshal TPMS_SCHEME_HASH_wf 2;
    mkPair (TPMU_KDF_SCHEME_Unmarshal selector) (TPMU_KDF_SCHEME_Marshal selector)
    (TPMU_KDF_SCHEME_wf selector) 2;
  mkPair (TPMT_KDF_SCHEME_Unmarshal flag) TPMT_KDF_SCHEME_Marshal (TPMT_KDF_SCHEME_wf flag) 4;
    mkPair (TPMU_ASYM_SCHEME_Unmarshal selector) (TPMU_ASYM_SCHEME_Marshal selector)
    (TPMU_ASYM_SCHEME_wf selector) 4;
    mkPair (TPMI_ALG_RSA_SCHEME_Unmarshal flag) TPMI_ALG_RSA_SCHEME_Marshal
    (TPMI_ALG_RSA_SCHEME_wf flag) 2;
  mkPair (TPMT_RSA_SCHEME_Unmarshal flag) TPMT_RSA_SCHEME_Marshal (TPMT_RSA_SCHEME_wf flag) 6;
    mkPair TPM2B_PUBLIC_KEY_RSA_Unmarshal TPM2B_PUBLIC_KEY_RSA_Marshal (tpm2b_wf
    MAX_RSA_KEY_BYTES) 514;
  mkPair TPMI_RSA_KEY_BITS_Unmarshal TPMI_RSA_KEY_BITS_Marshal TPMI_RSA_KEY_BITS_wf 2;
    mkPair TPM2B_PRIVATE_KEY_RSA_Unmarshal TPM2B_PRIVATE_KEY_RSA_Marshal (tpm2b_wf
    RSA_PRIVATE_SIZE) 1282;
  mkPair TPM2B_ECC_PARAMETER_Unmarshal TPM2B_ECC_PARAMETER_Marshal (tpm2b_wf MAX_ECC_KEY_BYTES) 82;
  mkPair TPMS_ECC_POINT_Unmarshal TPMS_ECC_POINT_Marshal TPMS_ECC_POINT_wf 164;
  mkPair TPM2B_ECC_POINT_Unmarshal TPM2B_ECC_POINT_Marshal TPM2B_ECC_POINT_wf 166;
    mkPair (TPMI_ALG_ECC_SCHEME_Unmarshal flag) TPMI_ALG_ECC_SCHEME_Marshal
    (TPMI_ALG_ECC_SCHEME_wf flag) 2;
  mkPair (TPMI_ECC_CURVE_Unmarshal flag) TPMI_ECC_CURVE_Marshal (TPMI_ECC_CURVE_wf flag) 2;
  mkPair (TPMT_ECC_SCHEME_Unmarshal flag) TPMT_ECC_SCHEME_Marshal (TPMT_ECC_SCHEME_wf flag) 6;
  mkPair TPMS_SIGNATURE_RSA_Unmarshal TPMS_SIGNATURE_RSA_Marshal TPMS_SIGNATURE_RSA_wf 516;
  mkPair TPMS_SIGNATURE_RSASSA_Unmarshal TPMS_SIGNATURE_RSASSA_Marshal TPMS_SIGNATURE_RSA_wf 516;
  mkPair TPMS_SIGNATURE_RSAPSS_Unmarshal TPMS_SIGNATURE_RSAPSS_Marshal TPMS_SIGNATURE_RSA_wf 516;
  mkPair TPMS_SIGNATURE_ECC_Unmarshal TPMS_SIGNATURE_ECC_Marshal TPMS_SIGNATURE_ECC_wf 166;
  mkPair TPMS_SIGNATURE_ECDSA_Unmarshal TPMS_SIGNATURE_ECDSA_Marshal TPMS_SIGNATURE_ECC_wf 166;
  mkPair TPMS_SIGNATURE_ECDAA_Unmarshal TPMS_SIGNATURE_ECDAA_Marshal TPMS_SIGNATURE_ECC_wf 166;
  mkPair TPMS_SIGNATURE_SM2_Unmarshal TPMS_SIGNATURE_SM2_Marshal TPMS_SIGNATURE_ECC_wf 166;
    mkPair TPMS_SIGNATURE_ECSCHNORR_Unmarshal TPMS_SIGNATURE_ECSCHNORR_Marshal
    TPMS_SIGNATURE_ECC_wf 166;
    mkPair (TPMU_SIGNATURE_Unmarshal selector) (TPMU_SIGNATURE_Marshal selector)
    (TPMU_SIGNATURE_wf selector) 516;
  mkPair (TPMT_SIGNATURE_Unmarshal flag) TPMT_SIGNATURE_Marshal (TPMT_SIGNATURE_wf flag) 518;
    mkPair TPM2B_ENCRYPTED_SECRET_Unmarshal TPM2B_ENCRYPTED_SECRET_Marshal (tpm2b_wf
    sizeof_TPMU_ENCRYPTED_SECRET) 514;
  mkPair TPMI_ALG_PUBLIC_Unmarshal TPMI_ALG_PUBLIC_Marshal TPMI_ALG_PUBLIC_wf 2;
    mkPair (TPMU_PUBLIC_ID_Unmarshal selector) (TPMU_PUBLIC_ID_Marshal selector)
    (TPMU_PUBLIC_ID_wf selector) 514;
  mkPair TPMS_KEYEDHASH_PARMS_Unmarshal TPMS_KEYEDHASH_PARMS_Marshal TPMS_KEYEDHASH_PARMS_wf 6;
  mkPair TPMS_RSA_PARMS_Unmarshal TPMS_RSA_PARMS_Marshal TPMS_RSA_PARMS_wf 18;
  mkPair TPMS_ECC_PARMS_Unmarshal TPMS_ECC_PARMS_Marshal TPMS_ECC_PARMS_wf 18;
    mkPair (TPMU_PUBLIC_PARMS_Unmarshal selector) (TPMU_PUBLIC_PARMS_Marshal selector)
    (TPMU_PUBLIC_PARMS_wf selector) 18;
  mkPair (TPMT_PUBLIC_Unmarshal flag) TPMT_PUBLIC_Marshal (TPMT_PUBLIC_wf flag) 606;
  mkPair (TPM2B_PUBLIC_Unmarshal flag) TPM2B_PUBLIC_Marshal (TPM2B_PUBLIC_wf flag) 608;
    mkPair (TPMU_SENSITIVE_COMPOSITE_Unmarshal selector) (TPMU_SENSITIVE_COMPOSITE_Marshal
    selector) (TPMU_SENSITIVE_COMPOSITE_wf selector) 1282;
  mkPair TPMT_SENSITIVE_Unmarshal TPMT_SENSITIVE_Marshal TPMT_SENSITIVE_wf 1416;
  mkPair TPM2B_PRIVATE_Unmarshal TPM2B_PRIVATE_Marshal (tpm2b_wf sizeof__PRIVATE) 1552;
  mkPair TPM2B_ID_OBJECT_Unmarshal TPM2B_ID_OBJECT_Marshal (tpm2b_wf sizeof_TPMS_ID_OBJECT) 134;
  mkPair TPMA_NV_Unmarshal TPMA_NV_Marshal TPMA_NV_wf 4;
  mkPair TPMS_NV_PUBLIC_Unmarshal TPMS_NV_PUBLIC_Marshal TPMS_NV_PUBLIC_wf 78;
  mkPair TPM2B_NV_PUBLIC_Unmarshal TPM2B_NV_PUBLIC_Marshal TPM2B_NV_PUBLIC_wf 80;
  mkPair TPMA_NV_EXP_Unmarshal TPMA_NV_EXP_Marshal TPMA_NV_EXP_wf 8;
    mkPair TPMS_NV_PUBLIC_EXP_ATTR_Unmarshal TPMS_NV_PUBLIC_EXP_ATTR_Marshal
    TPMS_NV_PUBLIC_EXP_ATTR_wf 82;
    mkPair (TPMU_NV_PUBLIC_2_Unmarshal selector) (TPMU_NV_PUBLIC_2_Marshal selector)
    (TPMU_NV_PUBLIC_2_wf selector) 82;
  mkPair TPMT_NV_PUBLIC_2_Unmarshal TPMT_NV_PUBLIC_2_Marshal TPMT_NV_PUBLIC_2_wf 83;
  mkPair TPM2B_NV_PUBLIC_2_Unmarshal TPM2B_NV_PUBLIC_2_Marshal TPM2B_NV_PUBLIC_2_wf 85;
    mkPair TPM2B_CONTEXT_DATA_Unmarshal TPM2B_CONTEXT_DATA_Marshal (tpm2b_wf
    sizeof_TPMS_CONTEXT_DATA) 2750;
  mkPair TPMS_CONTEXT_Unmarshal TPMS_CONTEXT_Marshal TPMS_CONTEXT_wf 2766;
  mkPair TPM_AT_Unmarshal TPM_AT_Marshal (uint 32) 4].

(** The structures that are only sent. *)
Definition senders (selector : Z) : list sender := [
  mkSender TPMS_TAGGED_PCR_SELECT_Marshal TPMS_TAGGED_PCR_SELECT_wf 8;
  mkSender TPMS_ACT_DATA_Marshal TPMS_ACT_DATA_wf 12;
  mkSender TPML_ALG_PROPERTY_Marshal TPML_ALG_PROPERTY_wf 766;
  mkSender TPML_TAGGED_TPM_PROPERTY_Marshal TPML_TAGGED_TPM_PROPERTY_wf 1020;
  mkSender TPML_TAGGED_PCR_PROPERTY_Marshal TPML_TAGGED_PCR_PROPERTY_wf 1020;
  mkSender TPML_ECC_CURVE_Marshal TPML_ECC_CURVE_wf 1020;
  mkSender TPML_TAGGED_POLICY_Marshal TPML_TAGGED_POLICY_wf 984;
  mkSender TPML_ACT_DATA_Marshal TPML_ACT_DATA_wf 1012;
  mkSender (TPMU_CAPABILITIES_Marshal selector) (TPMU_CAPABILITIES_wf selector) 1020;
  mkSender TPMS_CAPABILITY_DATA_Marshal TPMS_CAPABILITY_DATA_wf 1024;
  mkSender TPMS_CLOCK_INFO_Marshal TPMS_CLOCK_INFO_wf 17;
  mkSender TPMS_TIME_INFO_Marshal TPMS_TIME_INFO_wf 25;
  mkSender TPMS_TIME_ATTEST_INFO_Marshal TPMS_TIME_ATTEST_INFO_wf 33;
  mkSender TPMS_CERTIFY_INFO_Marshal TPMS_CERTIFY_INFO_wf 140;
  mkSender TPMS_QUOTE_INFO_Marshal TPMS_QUOTE_INFO_wf 94;
  mkSender TPMS_COMMAND_AUDIT_INFO_Marshal TPMS_COMMAND_AUDIT_INFO_wf 142;
  mkSender TPMS_SESSION_AUDIT_INFO_Marshal TPMS_SESSION_AUDIT_INFO_wf 67;
  mkSender TPMS_CREATION_INFO_Marshal TPMS_CREATION_INFO_wf 136;
  mkSender TPMS_NV_CERTIFY_INFO_Marshal TPMS_NV_CERTIFY_INFO_wf 1098;
  mkSender TPMS_NV_DIGEST_CERTIFY_INFO_Marshal TPMS_NV_DIGEST_CERTIFY_INFO_wf 136;
  mkSender (TPMU_ATTEST_Marshal selector) (TPMU_ATTEST_wf selector) 1098;
  mkSender TPMS_ATTEST_Marshal TPMS_ATTEST_wf 1267;
  mkSender TPM2B_ATTEST_Marshal (tpm2b_wf TPM2B_ATTEST_buffer) 1282;
  mkSender TPMS_ALGORITHM_DETAIL_ECC_Marshal TPMS_ALGORITHM_DETAIL_ECC_wf 588;
  mkSender TPMS_CREATION_DATA_Marshal TPMS_CREATION_DATA_wf 305;
  mkSender TPM2B_CREATION_DATA_Marshal TPM2B_CREATION_DATA_wf 307;
  mkSender TPMS_AC_OUTPUT_Marshal TPMS_AC_OUTPUT_wf 8;
  mkSender TPML_AC_CAPABILITIES_Marshal TPML_AC_CAPABILITIES_wf 1020].

Ltac each_contract :=
  repeat (apply Forall_cons_2; [cbn; first [apply _|eapply codec_parser, _]|]); apply Forall_nil_2.

Lemma unmarshalers_ok flag selector :
  Forall (λ f, Parser (um_fun f) (um_wf f)) (unmarshalers flag selector).
Proof. unfold unmarshalers. each_contract. Qed.

Lemma pairs_ok flag selector :
  Forall (λ p, Codec (pr_unmarshal p) (pr_marshal p) (pr_wf p) (pr_max p) ∧ pr_max p < 65536)
    (pairs flag selector).
Proof. unfold pairs. repeat (apply Forall_cons_2; [cbn; split; [apply _|done]|]); apply Forall_nil_2. Qed.

Lemma senders_ok selector :
  Forall (λ p, Emitter (sn_marshal p) (sn_wf p) (sn_max p) ∧ sn_max p < 65536) (senders selector).
Proof. unfold senders. repeat (apply Forall_cons_2; [cbn; split; [apply _|done]|]); apply Forall_nil_2. Qed.
