(* ===== verification/ObjectName.v ===== *)
(** * Names of objects, and structures marshaled without a limit

    [PublicMarshalAndComputeName] (Object.c) marshals a public area into a
    template on the stack, passing no size, and hashes it.  The same idiom is
    used for attestation data, creation data, PCR selections and points
    (Attest_spt.c, Object_spt.c, EACommands.c, CryptUtil.c): [buffer] points to
    the start of an array and [size] is [NULL], so that nothing but the length
    of the encoding keeps the function inside the array. *)

From S2P Require Import Prelude TpmTypes Memory WireTypes Unmarshal Marshal WireCodec WireWf WireCodecs.
Local Open Scope Z_scope.

(** [buffer = local; n = f(&value, &buffer, NULL);] on an array with the
    octets [local]: the octets written, and whether failure mode was entered. *)
Definition marshal_local (m : Mar) (local : bytes) : option (bytes * bool) :=
  match m (mkM local (Some 0) None false) with
  | Some (n, s) => Some (bread (o_mem s) 0 n, o_failed s)
  | None => None
  end.

Lemma marshal_local_ok m b local :
  emits m b → blen b ≤ blen local → blen b < 65536 →
  marshal_local m local = Some (b, false).
Proof.
  intros H Hl Hb. pose proof (blen_nonneg b). unfold marshal_local.
  rewrite (H (mkM local (Some 0) None false)) by (unfold room; cbn; lia).
  rewrite (wrap_small 16) by (done || lia). unfold push. cbn [o_mem o_ptr o_size o_failed].
  by rewrite bread_bwrite_same by lia.
Qed.

Section names.
Context `{HashLib}.

(** [CryptHashBlock] (CryptHash.c, lines 434-445): the digest, truncated to
    [dOutSize] octets. *)
Definition CryptHashBlock (hashAlg : Z) (data : bytes) (dOutSize : Z) : bytes :=
  take (Z.to_nat dOutSize) (Hash hashAlg data).

(** The result is the 2B of the octets stored in [name]. *)
Definition ObjectComputeName (publicArea : bytes) (nameAlg : Z) : TPM2B :=
  let digest := CryptHashBlock nameAlg publicArea (TPM2B_NAME_buffer - 2) in
  mkTPM2B (u16 (blen digest + 2)) (Uint16ToByteArray nameAlg ++ digest).

(** [marshaled] holds what the local variable of that name had before. *)
Definition PublicMarshalAndComputeName (marshaled : bytes) (publicArea : TPMT_PUBLIC)
  : option (TPM2B * bool) :=
  if TPMT_PUBLIC_nameAlg publicArea =? TPM_ALG_NULL then Some (mkTPM2B 0 [], false)
  else
    match marshal_local (TPMT_PUBLIC_Marshal publicArea) marshaled with
    | Some (octets, failed) =>
        Some (ObjectComputeName octets (TPMT_PUBLIC_nameAlg publicArea), failed)
    | None => None
    end.

Lemma CryptHashBlock_whole alg d : CryptHashBlock alg d (TPM2B_NAME_buffer - 2) = Hash alg d.
Proof.
  unfold CryptHashBlock. apply take_ge. pose proof (Hash_size alg d) as E. unfold blen in E.
  pose proof (digest_size_range alg). change (Z.to_nat (TPM2B_NAME_buffer - 2)) with 66%nat. lia.
Qed.

Lemma Uint16_inj x y :
  0 ≤ x < 65536 → 0 ≤ y < 65536 → Uint16ToByteArray x = Uint16ToByteArray y → x = y.
Proof.
  intros Hx Hy [= E1 E2]. unfold wrap in *. rewrite !Z.shiftr_div_pow2 in E1 by lia.
  change (2 ^ 8) with 256 in *. rewrite !(Z.mod_small (_ / _)) in E1 by (Z.to_euclidean_division_equations; lia).
  rewrite (Z.div_mod x 256), (Z.div_mod y 256), E1, E2 by lia. done.
Qed.

(** A name of a public area that has a name algorithm. *)
Lemma name_ok marshaled p :
  TPMT_PUBLIC_wf true p = true → blen marshaled = TPM2B_TEMPLATE_buffer →
  TPMT_PUBLIC_nameAlg p ≠ TPM_ALG_NULL →
  ∃ b, emits (TPMT_PUBLIC_Marshal p) b ∧ reads (TPMT_PUBLIC_Unmarshal true) b p ∧ blen b < 65536 ∧
    PublicMarshalAndComputeName marshaled p =
      Some (mkTPM2B (2 + CryptHashGetDigestSize (TPMT_PUBLIC_nameAlg p))
              (Uint16ToByteArray (TPMT_PUBLIC_nameAlg p) ++ Hash (TPMT_PUBLIC_nameAlg p) b), false).
Proof.
  intros Hw Hm Hn. destruct (codec_code (Codec := TPMT_PUBLIC_codec true) p Hw) as (b & He & Hb & Hr).
  exists b. split; [done|]. split; [done|]. split; [lia|]. unfold PublicMarshalAndComputeName.
  rewrite (proj2 (Z.eqb_neq _ _) Hn). change TPM2B_TEMPLATE_buffer with 612 in Hm.
  rewrite (marshal_local_ok _ b) by (done || lia). unfold ObjectComputeName.
  rewrite CryptHashBlock_whole, Hash_size. pose proof (digest_size_range (TPMT_PUBLIC_nameAlg p)).
  rewrite (wrap_small 16) by (change (2 ^ 16) with 65536; lia). by rewrite Z.add_comm.
Qed.

Lemma nameAlg_range p : TPMT_PUBLIC_wf true p = true → 0 ≤ TPMT_PUBLIC_nameAlg p < 65536.
Proof.
  unfold TPMT_PUBLIC_wf, TPMI_ALG_HASH_wf, uint. intros Hw. split_ands. zbool.
  change (2 ^ 16) with 65536 in *. lia.
Qed.

(** A name algorithm gives digests that are not empty. *)
Lemma nameAlg_digest p :
  TPMT_PUBLIC_wf true p = true → TPMT_PUBLIC_nameAlg p ≠ TPM_ALG_NULL →
  0 < CryptHashGetDigestSize (TPMT_PUBLIC_nameAlg p).
Proof.
  unfold TPMT_PUBLIC_wf, TPMI_ALG_HASH_wf. intros Hw Hn. split_ands.
  match goal with H : one_of _ _ || _ = true |- _ => apply orb_prop in H as [H|[H _]%andb_prop] end.
  - repeat match goal with H : one_of _ _ = true |- _ => apply one_of_inv in H as [->|H]; [done|] end. done.
  - zbool. done.
Qed.

Lemma Uint16_octets x : 0 ≤ x < 65536 → Uint16ToByteArray x = [x / 256; x mod 256].
Proof.
  intros Hx. unfold Uint16ToByteArray. unfold wrap. rewrite Z.shiftr_div_pow2 by lia.
  change (2 ^ 8) with 256. rewrite (Z.mod_small (x / 256)); [done|].
  split; [apply Z.div_pos; lia|apply Z.div_lt_upper_bound; lia].
Qed.

(** The octets a function writes are determined. *)
Lemma emits_fun m b c : emits m b → emits m c → blen b < 65536 → blen c < 65536 → b = c.
Proof.
  intros Eb Ec Hb Hc. pose proof (blen_nonneg b). pose proof (blen_nonneg c).
  assert (blen b = blen c) as El.
  { pose proof (Eb (mkM [] None None false) I) as E. rewrite (Ec (mkM [] None None false) I) in E.
    injection E as E. rewrite !(wrap_small 16) in E by (change (2 ^ 16) with 65536; lia). done. }
  pose (s := mkM (bfill 0 (blen b)) (Some 0) None false).
  assert (Hl : blen (bfill 0 (blen b)) = blen b) by (apply blen_bfill; lia).
  assert (Ew : ∀ d, blen d = blen b → emits m d → m s = Some (u16 (blen b), push s d) ∧ bread (o_mem (push s d)) 0 (blen b) = d).
  { intros d Hd Ed. split; [rewrite (Ed s) by (unfold room; cbn; lia); by rewrite Hd|].
    cbn. apply bread_bwrite_same; lia. }
  destruct (Ew b eq_refl Eb) as [E1 R1]. destruct (Ew c (eq_sym El) Ec) as [E2 R2].
  rewrite E1 in E2. assert (push s b = push s c) as Ep by congruence. by rewrite <- R1, Ep, R2.
Qed.

Lemma reads_fun {A} (u : Unm A) b a a' :
  reads u b a → reads u b a' → blen b < 2 ^ 31 → a = a'.
Proof.
  intros R R' Hb. specialize (R [] (blen b)). specialize (R' [] (blen b)).
  rewrite R in R' by lia. specialize (R' ltac:(lia)). by injection R'.
Qed.
End names.
