(* ===== verification/WireProps.v ===== *)
(** * Properties of marshaling and unmarshaling

    The octets of a command come from outside the TPM: the theorems say that
    the functions of Unmarshal.c keep to them and to their targets, whatever
    the octets are, that what they accept has its type, and that marshaling
    and unmarshaling are inverse to each other. *)

From S2P Require Import Prelude TpmTypes Memory WireTypes Unmarshal Marshal WireCodec WireWf WireCodecs WireEmitters WireTable ObjectName.
Local Open Scope Z_scope.

(** A call on [s] returns and has kept to its input and to its target: it has
    consumed a prefix of the input, at most [size] octets, and has counted them;
    the result is a response code of the file or a value of the type. *)
Definition safe_at {A} (f : Unm A) (wf : A → bool) (s : UState) : Prop :=
  ∃ r s' b, f s = Some (r, s') ∧
    u_buffer s = b ++ u_buffer s' ∧ u_size s' = u_size s - blen b ∧ 0 ≤ u_size s' ∧
    match r with inl rc => unmarshal_code rc = true | inr a => wf a = true end.

Lemma parses_safe {A} (f : Unm A) (Q : A → bytes → Prop) (wf : A → bool) s :
  parses f Q → (∀ a b, Q a b → wf a = true) → input s → safe_at f wf s.
Proof.
  intros Hf Hw Hs. destruct (Hf s Hs) as (r & s' & b & E & (Eb & Es & Hp) & R).
  exists r, s', b. repeat split; [done|done|lia|done|]. destruct r; eauto.
Qed.

(** The tag and the size, which [TPMS_TAGGED_PCR_SELECT_Unmarshal] reads first. *)
Definition tag_and_size : Unm (Z * Z) :=
  let* tag := TPM_PT_PCR_Unmarshal in
  let* sizeofSelect := UINT8_Unmarshal in uret (tag, sizeofSelect).

Lemma tag_and_size_value s tag z s' :
  tag_and_size s = Some (inr (tag, z), s') → z = byte_at (u_buffer s) 4 ∧ u_size s' = u_size s - 5.
Proof.
  unfold tag_and_size, TPM_PT_PCR_Unmarshal, UINT32_Unmarshal, UINT8_Unmarshal, ubind, bind, gets, read_octets.
  intros E. repeat (case_match; simplify_eq; try done); unfold uret, uerr, ret in *; simplify_eq. cbn [u_size u_buffer].
  change sizeof_UINT32 with 4 in *. change sizeof_UINT8 with 1 in *. split; [|lia].
  unfold bread, byte_at. cbn [u_buffer]. change (Z.to_nat 0) with 0%nat. rewrite drop_0.
  rewrite lookup_take_lt by lia. by rewrite lookup_drop.
Qed.

Lemma tag_and_size_parses : parses tag_and_size (λ p _, uint 32 p.1 = true ∧ uint 8 p.2 = true).
Proof.
  unfold tag_and_size. eapply parses_bind; [apply (codec_parse (Codec := UINT32_codec))|]. intros tag b [Ht _].
  eapply parses_bind; [apply (codec_parse (Codec := UINT8_codec))|]. intros z b' [Hz _]. by apply parses_ret.
Qed.

Lemma tag_and_size_fails s rc s' : input s → tag_and_size s = Some (inl rc, s') → u_size s < 5.
Proof.
  intros (_ & Hl & H1). change (2 ^ 31) with 2147483648 in *.
  unfold tag_and_size, TPM_PT_PCR_Unmarshal, UINT32_Unmarshal, UINT8_Unmarshal, ubind, bind, gets, read_octets.
  change sizeof_UINT32 with 4. change sizeof_UINT8 with 1. intros E.
  destruct (Z.lt_ge_cases (u_size s) 5) as [|Hz]; [done|]. exfalso. revert E.
  rewrite (wrap_small 32), (proj2 (Z.ltb_ge _ _)) by (change (2 ^ 32) with 4294967296; lia).
  destruct (inb (u_buffer s) 0 4); [|done]. unfold uret, ret. cbn [u_size u_buffer].
  rewrite (wrap_small 32), (proj2 (Z.ltb_ge _ _)) by (change (2 ^ 32) with 4294967296; lia).
  by destruct (inb _ _ _).
Qed.

Lemma byte_at_nonneg s i : input s → 0 ≤ byte_at (u_buffer s) i.
Proof.
  intros (Hb & _). unfold byte_at. destruct (u_buffer s !! i) as [x|] eqn:E; [|done].
  exact (proj1 (Forall_lookup_1 _ _ _ _ Hb E)).
Qed.

Lemma tagged_eq s :
  TPMS_TAGGED_PCR_SELECT_Unmarshal s
  = match tag_and_size s with
    | Some (inl rc, s1) => Some (inl rc, s1)
    | Some (inr (tag, z), s1) =>
        match Array_Unmarshal PCR_SELECT_MAX z s1 with
        | Some (inl rc, s2) => Some (inl rc, s2)
        | Some (inr d, s2) => Some (inr (mkTPMS_TAGGED_PCR_SELECT tag z d), s2)
        | None => None
        end
    | None => None
    end.
Proof.
  unfold TPMS_TAGGED_PCR_SELECT_Unmarshal, tag_and_size, ubind, bind, uret, uerr, ret.
  destruct (TPM_PT_PCR_Unmarshal s) as [[[rc|tag] s1]|]; [done| |done].
  destruct (UINT8_Unmarshal s1) as [[[rc|z] s2]|]; [done| |done].
  by destruct (Array_Unmarshal PCR_SELECT_MAX z s2) as [[[rc|d] s3]|].
Qed.

Lemma tagged_pcr_select s :
  input s →
  let z := byte_at (u_buffer s) 4 in
  if (PCR_SELECT_MAX <? z) && (5 + z <=? u_size s) then TPMS_TAGGED_PCR_SELECT_Unmarshal s = None
  else safe_at TPMS_TAGGED_PCR_SELECT_Unmarshal TPMS_TAGGED_PCR_SELECT_wf s.
Proof.
  intros Hs z. unfold safe_at. rewrite tagged_eq.
  destruct (tag_and_size_parses s Hs) as (r & s1 & b & E & C & R). rewrite E.
  pose proof (consumed_input _ _ _ Hs C) as Hs1. destruct C as (Cb & Cs & Cp).
  destruct r as [rc|[tag z']].
  { assert (u_size s < 5) by (by eapply tag_and_size_fails). pose proof (byte_at_nonneg s 4 Hs).
    rewrite (proj2 (Z.leb_gt _ _)) by (subst z; lia). rewrite andb_false_r.
    exists (inl rc), s1, b. repeat split; (done || lia). }
  destruct (tag_and_size_value s tag z' s1 E) as [Ez Es]. change (byte_at (u_buffer s) 4) with z in Ez. subst z'.
  destruct R as [Rt Rz]. cbn [fst snd] in *.
  destruct (Z.le_gt_cases z PCR_SELECT_MAX) as [Hz|Hz].
  - rewrite (proj2 (Z.ltb_ge PCR_SELECT_MAX z)) by done. cbn [andb].
    assert (0 ≤ z) by (unfold uint in Rz; zbool; lia).
    destruct (parses_array PCR_SELECT_MAX z ltac:(lia) s1 Hs1) as (r & s2 & b2 & -> & (Cb2 & Cs2 & Cp2) & R2).
    destruct r as [rc|d]; [exists (inl rc)|eexists (inr _)]; exists s2, (b ++ b2);
      (split; [done|]); rewrite Cb, Cb2, blen_app, <- app_assoc; repeat split; try lia; [done|].
    destruct R2 as [_ R2]. unfold TPMS_TAGGED_PCR_SELECT_wf.
    cbn [TPMS_TAGGED_PCR_SELECT_tag TPMS_TAGGED_PCR_SELECT_sizeofSelect TPMS_TAGGED_PCR_SELECT_pcrSelect].
    rewrite Rt, R2, (proj2 (Z.leb_le _ _)) by done. done.
  - rewrite (proj2 (Z.ltb_lt _ _)) by done. cbn [andb]. unfold Array_Unmarshal, bind, gets. rewrite !Z.gtb_ltb.
    destruct (Z.leb_spec (5 + z) (u_size s)).
    + rewrite (proj2 (Z.ltb_ge _ _)), (proj2 (Z.ltb_lt _ _)) by lia. done.
    + rewrite (proj2 (Z.ltb_lt _ _)) by lia. exists (inl TPM_RC_INSUFFICIENT), s1, b. repeat split; try done; lia.
Qed.

(** C4. The functions of Unmarshal.c, on any octets and with a size that does
    not exceed them, return without having left the objects they are given
    ([safe_at]).  For [Array_Unmarshal] and [TPM2B_Unmarshal], whose target and
    its size are the caller's, this holds for all sizes up to that of the
    target, and every other function that is compiled passes such a size, with
    one exception, which nothing that is compiled calls:
    [TPMS_TAGGED_PCR_SELECT_Unmarshal] leaves its target exactly when the octet
    for the size exceeds [PCR_SELECT_MAX] and that many octets follow. *)
Theorem unmarshal_safe flag selector s :
  input s →
  Forall (λ f, safe_at (um_fun f) (um_wf f) s) (unmarshalers flag selector) ∧
  (∀ capacity n, 0 ≤ n ≤ capacity → safe_at (Array_Unmarshal capacity n) (array_wf n) s) ∧
  (∀ capacity n, 0 ≤ n ≤ capacity → n < 65536 → safe_at (TPM2B_Unmarshal capacity n) (tpm2b_wf n) s) ∧
  (let z := byte_at (u_buffer s) 4 in
   if (PCR_SELECT_MAX <? z) && (5 + z <=? u_size s) then TPMS_TAGGED_PCR_SELECT_Unmarshal s = None
   else safe_at TPMS_TAGGED_PCR_SELECT_Unmarshal TPMS_TAGGED_PCR_SELECT_wf s).
Proof.
  intros Hs. split; [|split; [|split]].
  - eapply Forall_impl; [|apply unmarshalers_ok]. intros f Hf. by eapply parses_safe; [apply Hf|auto|].
  - intros capacity n Hn. by eapply parses_safe; [apply (parses_array _ _ Hn)|intros a b [_ H]|].
  - intros capacity n Hn Hl. eapply parses_safe; [apply (codec_parse (Codec := TPM2B_codec _ _ Hn Hl))| |done].
    by intros a b [H _].
  - by apply tagged_pcr_select.
Qed.

(** C11. What is written is read back: a value of its type is marshaled in at
    most [pr_max] octets, the same for every output with room for them (through
    [buffer] and within [size], or counted only for a [NULL] buffer), the number
    of octets is returned, and unmarshaling these octets, whatever follows
    them, gives the value and leaves what follows. *)
Theorem marshal_roundtrip flag selector :
  Forall (λ p, ∀ a, pr_wf p a = true → ∃ b, blen b ≤ pr_max p ∧
      (∀ s, room s (blen b) → pr_marshal p a s = Some (blen b, push s b)) ∧
      (∀ rest n, blen b ≤ n < 2 ^ 31 →
         pr_unmarshal p (mkU (b ++ rest) n) = Some (inr a, mkU rest (n - blen b))))
    (pairs flag selector).
Proof.
  eapply Forall_impl; [|apply pairs_ok]. intros p [C Hm] a Ha.
  destruct (codec_code a Ha) as (b & He & Hb & Hr). pose proof (blen_nonneg b).
  exists b. repeat split; [done| |exact Hr].
  intros s Hs. rewrite (He s Hs), (wrap_small 16); [done|change (2 ^ 16) with 65536; lia].
Qed.

(** C26. The encoding is canonical: what unmarshaling accepts, marshaling writes
    back as the very octets that were consumed.  No two encodings of a value are
    accepted, so that a digest or HMAC over a re-marshaled structure is one over
    the octets that were received. *)
Theorem unmarshal_canonical flag selector :
  Forall (λ p, ∀ s a s', input s → pr_unmarshal p s = Some (inr a, s') →
      ∃ b, u_buffer s = b ++ u_buffer s' ∧
        ∀ out, room out (blen b) → pr_marshal p a out = Some (blen b, push out b))
    (pairs flag selector).
Proof.
  eapply Forall_impl; [|apply pairs_ok]. intros p [C Hm] s a s' Hs E.
  destruct (codec_parse (Codec := C) s Hs) as (r & s1 & b & E1 & (Eb & _) & R).
  rewrite E in E1. injection E1 as <- <-. destruct R as (_ & He & Hb). pose proof (blen_nonneg b).
  exists b. split; [done|].
  intros out Ho. rewrite (He out Ho), (wrap_small 16); [done|change (2 ^ 16) with 65536; lia].
Qed.

(** C36. The calls that pass no size stay inside their array: an attestation in
    the buffer of a [TPM2B_ATTEST] (Attest_spt.c), a public area in that of a
    [TPM2B_TEMPLATE] (Object.c), creation data and a PCR selection in arrays of
    the size of the structure (Object_spt.c, EACommands.c), and a point in the
    buffer of a [TPM2B_ENCRYPTED_SECRET] (CryptUtil.c).  Each writes the whole
    structure and does not enter failure mode. *)
Theorem unlimited_marshal_fits local :
  (∀ v, TPMS_ATTEST_wf v = true → blen local = TPM2B_ATTEST_buffer →
     ∃ b, marshal_local (TPMS_ATTEST_Marshal v) local = Some (b, false) ∧
       emits (TPMS_ATTEST_Marshal v) b) ∧
  (∀ v, TPMT_PUBLIC_wf true v = true → blen local = TPM2B_TEMPLATE_buffer →
     ∃ b, marshal_local (TPMT_PUBLIC_Marshal v) local = Some (b, false) ∧
       emits (TPMT_PUBLIC_Marshal v) b) ∧
  (∀ v, TPMS_CREATION_DATA_wf v = true → blen local = 308 →
     ∃ b, marshal_local (TPMS_CREATION_DATA_Marshal v) local = Some (b, false) ∧
       emits (TPMS_CREATION_DATA_Marshal v) b) ∧
  (∀ v, TPML_PCR_SELECTION_wf v = true → blen local = 28 →
     ∃ b, marshal_local (TPML_PCR_SELECTION_Marshal v) local = Some (b, false) ∧
       emits (TPML_PCR_SELECTION_Marshal v) b) ∧
  (∀ v, TPMS_ECC_POINT_wf v = true → blen local = TPM2B_ENCRYPTED_SECRET_buffer →
     ∃ b, marshal_local (TPMS_ECC_POINT_Marshal v) local = Some (b, false) ∧
       emits (TPMS_ECC_POINT_Marshal v) b).
Proof.
  assert (H : ∀ A (m : A → Mar) P n k, Emitter m P n → n < 65536 → n <= k → ∀ v, P v = true →
            blen local = k → ∃ b, marshal_local (m v) local = Some (b, false) ∧ emits (m v) b).
  { intros A m P n k He Hn Hk v Hv Hl. destruct (He v Hv) as (b & ? & ?).
    exists b. split; [apply marshal_local_ok; [done|lia..]|done]. }
  repeat split; (eapply H; [apply _|reflexivity|closed_le]).
Qed.

(** C19. The name of an object identifies its public area: for two public areas
    with name algorithms, whatever the stack held before,
    [PublicMarshalAndComputeName] computes the names without leaving its
    template.  A name is the name algorithm and its digest, which is not empty,
    of the octets the public area is marshaled to; so two names are equal only
    if the algorithms are the same and it gives one digest for the octets of
    both, and these octets are the same only for the same public area. *)
Theorem object_name_binds `{HashLib} local local' p q :
  TPMT_PUBLIC_wf true p = true → TPMT_PUBLIC_wf true q = true →
  blen local = TPM2B_TEMPLATE_buffer → blen local' = TPM2B_TEMPLATE_buffer →
  TPMT_PUBLIC_nameAlg p ≠ TPM_ALG_NULL → TPMT_PUBLIC_nameAlg q ≠ TPM_ALG_NULL →
  ∃ b c np nq, emits (TPMT_PUBLIC_Marshal p) b ∧ emits (TPMT_PUBLIC_Marshal q) c ∧
    PublicMarshalAndComputeName local p = Some (np, false) ∧
    PublicMarshalAndComputeName local' q = Some (nq, false) ∧
    0 < CryptHashGetDigestSize (TPMT_PUBLIC_nameAlg p) ∧
    buffer2B np = [TPMT_PUBLIC_nameAlg p / 256; TPMT_PUBLIC_nameAlg p mod 256] ++ Hash (TPMT_PUBLIC_nameAlg p) b ∧
    size2B np = blen (buffer2B np) ∧
    (np = nq ↔ TPMT_PUBLIC_nameAlg p = TPMT_PUBLIC_nameAlg q ∧
               Hash (TPMT_PUBLIC_nameAlg p) b = Hash (TPMT_PUBLIC_nameAlg p) c) ∧
    (b = c ↔ p = q).
Proof.
  intros Wp Wq Hl Hl' Np Nq.
  destruct (name_ok local p Wp Hl Np) as (b & Eb & Rb & Hb & ->).
  destruct (name_ok local' q Wq Hl' Nq) as (c & Ec & Rc & Hc & ->).
  exists b, c. eexists _, _. split; [done|]. split; [done|]. split; [done|]. split; [done|].
  split; [by apply nameAlg_digest|]. cbn [buffer2B size2B].
  split; [by rewrite Uint16_octets by (by apply nameAlg_range)|].
  split; [by rewrite blen_app, Hash_size|]. split; split.
  - intros E. apply (f_equal buffer2B) in E. cbn [buffer2B] in E.
    apply app_inj_1 in E as [Ea Eh]; [|done].
    apply Uint16_inj in Ea; [|by apply nameAlg_range..]. rewrite Ea in *. done.
  - intros [Ea Eh]. rewrite Ea in *. by rewrite Eh.
  - intros ->. by eapply reads_fun; [exact Rb|exact Rc|lia].
  - intros ->. by eapply emits_fun; [exact Eb|exact Ec|..].
Qed.

(** A checksum in place of the hash algorithms. *)
#[local] Instance wire_hash : HashLib.
Proof.
  refine {| Hash alg d := bfill (fold_left Z.add d 1 mod 256) (CryptHashGetDigestSize alg) |}.
  - intros alg d. apply blen_bfill, digest_size_range.
  - intros alg d. apply Forall_replicate. apply Z.mod_pos_bound. lia.
Defined.

(** A sealed-data template with the policy [policy]. *)
Definition w_sealed (policy : bytes) : TPMT_PUBLIC :=
  mkTPMT_PUBLIC TPM_ALG_KEYEDHASH TPM_ALG_SHA256 0 (mkTPM2B (blen policy) policy)
    (TPMU_PUBLIC_PARMS_keyedHashDetail (mkTPMS_KEYEDHASH_PARMS
       (mkTPMT_KEYEDHASH_SCHEME TPM_ALG_NULL TPMU_SCHEME_KEYEDHASH_none)))
    (TPMU_PUBLIC_ID_keyedHash (mkTPM2B 0 [])).

Lemma object_name_binds_witness :
  ∃ b c np nq, emits (TPMT_PUBLIC_Marshal (w_sealed [1])) b ∧ emits (TPMT_PUBLIC_Marshal (w_sealed [2])) c ∧
    PublicMarshalAndComputeName (bfill 0 TPM2B_TEMPLATE_buffer) (w_sealed [1]) = Some (np, false) ∧
    PublicMarshalAndComputeName (bfill 7 TPM2B_TEMPLATE_buffer) (w_sealed [2]) = Some (nq, false) ∧
    0 < CryptHashGetDigestSize TPM_ALG_SHA256 ∧
    buffer2B np = [0; 11] ++ Hash TPM_ALG_SHA256 b ∧
    size2B np = blen (buffer2B np) ∧
    (np = nq ↔ TPM_ALG_SHA256 = TPM_ALG_SHA256 ∧ Hash TPM_ALG_SHA256 b = Hash TPM_ALG_SHA256 c) ∧
    (b = c ↔ w_sealed [1] = w_sealed [2]).
Proof.
  apply (object_name_binds (bfill 0 TPM2B_TEMPLATE_buffer) (bfill 7 TPM2B_TEMPLATE_buffer)
    (w_sealed [1]) (w_sealed [2])); (vm_compute; congruence).
Defined.

(** Octets that hold no more than a tag and a size. *)
Lemma unmarshal_safe_witness (s := mkU [0; 0; 0; 1; 2; 9; 9] 7) :
  input s ∧
  Forall (λ f, safe_at (um_fun f) (um_wf f) s) (unmarshalers true TPM_ALG_SHA256) ∧
  (∀ capacity n, 0 ≤ n ≤ capacity → safe_at (Array_Unmarshal capacity n) (array_wf n) s) ∧
  (∀ capacity n, 0 ≤ n ≤ capacity → n < 65536 → safe_at (TPM2B_Unmarshal capacity n) (tpm2b_wf n) s) ∧
  safe_at TPMS_TAGGED_PCR_SELECT_Unmarshal TPMS_TAGGED_PCR_SELECT_wf s.
Proof.
  assert (Hs : input s) by (repeat split; [|done..]; repeat constructor; unfold is_byte; lia).
  split; [exact Hs|]. exact (unmarshal_safe true TPM_ALG_SHA256 s Hs).
Defined.

(** ** Two functions that trust their caller *)

(** [TPMS_TAGGED_PCR_SELECT_Unmarshal] does not compare [sizeofSelect] with
    [PCR_SELECT_MAX], as its neighbours do: four octets for an array of three
    are enough for it to write past the structure. *)
Lemma tagged_pcr_select_overrun :
  input (mkU [0;0;0;0; 4; 1;2;3;4] 9) ∧
  TPMS_TAGGED_PCR_SELECT_Unmarshal (mkU [0;0;0;0; 4; 1;2;3;4] 9) = None.
Proof. split; [|by vm_compute]. repeat split; [|done..]. repeat constructor; unfold is_byte; lia. Qed.

(** The functions of structures in a TPM2B step over the size field without
    comparing it with [*size]: an empty point in an output of four octets is
    written through the next two, before the failed comparison of the size. *)
Lemma sized_marshal_overrun (point := mkTPM2B_ECC_POINT 4 (mkTPMS_ECC_POINT (mkTPM2B 0 []) (mkTPM2B 0 []))) :
  TPM2B_ECC_POINT_Marshal point (mkM [9;9;9;9] (Some 0) (Some 4) false) = None ∧
  (∃ n s, TPM2B_ECC_POINT_Marshal point (mkM [9;9;9;9;9;9] (Some 0) (Some 4) false) = Some (n, s) ∧
     o_mem s = [9;9;0;0;0;0] ∧ o_failed s = true).
Proof. split; [by vm_compute|]. eexists _, _. by vm_compute. Qed.
