(* ===== verification/CTypes.v ===== *)
(** * The layout of the structures in memory

    The size and the alignment the C ABI of the target (LP64) gives a type, and
    the offsets of the members of a structure.  The types are those of TpmTypes.h
    that a command passes to its action; the structures themselves are in
    CommandIO.v.  A [TPM2B_*] is a union of its own structure and of the general
    [TPM2B], which is not longer. *)

From Stdlib Require Import String.
From S2P Require Import Prelude TpmTypes Memory WireTypes.
Local Open Scope Z_scope.
Local Open Scope string_scope.

Record ctype := mkCtype { sizeof : Z; alignof : Z }.

Definition align_up (n a : Z) : Z := (n + a - 1) / a * a.

Definition scalar (n : Z) : ctype := mkCtype n n.
Definition array (t : ctype) (n : Z) : ctype := mkCtype (n * sizeof t) (alignof t).

(** Members with their names, each placed at the next offset its alignment
    allows. *)
Definition members : Type := list (string * ctype).

Fixpoint layout (offset : Z) (l : members) : list (string * (Z * Z)) :=
  match l with
  | [] => []
  | (name, t) :: l =>
      let o := align_up offset (alignof t) in
      (name, (o, sizeof t)) :: layout (o + sizeof t) l
  end.

Definition align_of (l : members) : Z := fold_right (λ m, Z.max (alignof m.2)) 1 l.
Definition end_of (l : members) : Z := fold_left (λ o m, align_up o (alignof m.2) + sizeof m.2) l 0.

Definition struct (l : members) : ctype := mkCtype (align_up (end_of l) (align_of l)) (align_of l).
Definition union (l : members) : ctype :=
  mkCtype (align_up (fold_right (λ m, Z.max (sizeof m.2)) 0 l) (align_of l)) (align_of l).

(** [offsetof(type, member)]. *)
Fixpoint lookup_member (name : string) (l : list (string * (Z * Z))) : Z :=
  match l with
  | [] => -1
  | (n, (o, _)) :: l => if (n =? name)%string then o else lookup_member name l
  end.
Definition offsetof (l : members) (name : string) : Z := lookup_member name (layout 0 l).

(** ** The types *)

Definition c_UINT32 : ctype := scalar 4.
Definition c_UINT16 : ctype := scalar 2.
Definition c_BYTE : ctype := scalar 1.
Definition c_UINT64 : ctype := scalar 8.
Definition c_UINT8 : ctype := scalar 1.
Definition c_INT8 : ctype := scalar 1.
Definition c_INT32 : ctype := scalar 4.

Definition c_TPM_ALG_ID : ctype := c_UINT16.
Definition c_TPM_ECC_CURVE : ctype := c_UINT16.
Definition c_TPM_CC : ctype := c_UINT32.
Definition c_TPM_KEY_BITS : ctype := c_UINT16.
Definition c_TPM_CONSTANTS32 : ctype := c_UINT32.
Definition c_TPM_RC : ctype := c_UINT32.
Definition c_TPM_CLOCK_ADJUST : ctype := c_INT8.
Definition c_TPM_EO : ctype := c_UINT16.
Definition c_TPM_ST : ctype := c_UINT16.
Definition c_TPM_SU : ctype := c_UINT16.
Definition c_TPM_SE : ctype := c_UINT8.
Definition c_TPM_CAP : ctype := c_UINT32.
Definition c_TPM_PT : ctype := c_UINT32.
Definition c_TPM_PT_PCR : ctype := c_UINT32.
Definition c_TPM_HANDLE : ctype := c_UINT32.
Definition c_TPM_HT : ctype := c_UINT8.
Definition c_TPMA_ALGORITHM : ctype := c_UINT32.
Definition c_TPMA_OBJECT : ctype := c_UINT32.
Definition c_TPMA_LOCALITY : ctype := c_UINT8.
Definition c_TPMA_CC : ctype := c_UINT32.
Definition c_TPMA_ACT : ctype := c_UINT32.
Definition c_TPMI_YES_NO : ctype := c_BYTE.
Definition c_TPMI_DH_OBJECT : ctype := c_TPM_HANDLE.
Definition c_TPMI_DH_PARENT : ctype := c_TPM_HANDLE.
Definition c_TPMI_DH_PERSISTENT : ctype := c_TPM_HANDLE.
Definition c_TPMI_DH_ENTITY : ctype := c_TPM_HANDLE.
Definition c_TPMI_DH_PCR : ctype := c_TPM_HANDLE.
Definition c_TPMI_SH_AUTH_SESSION : ctype := c_TPM_HANDLE.
Definition c_TPMI_SH_HMAC : ctype := c_TPM_HANDLE.
Definition c_TPMI_SH_POLICY : ctype := c_TPM_HANDLE.
Definition c_TPMI_DH_CONTEXT : ctype := c_TPM_HANDLE.
Definition c_TPMI_DH_SAVED : ctype := c_TPM_HANDLE.
Definition c_TPMI_RH_HIERARCHY : ctype := c_TPM_HANDLE.
Definition c_TPMI_RH_ENABLES : ctype := c_TPM_HANDLE.
Definition c_TPMI_RH_HIERARCHY_AUTH : ctype := c_TPM_HANDLE.
Definition c_TPMI_RH_HIERARCHY_POLICY : ctype := c_TPM_HANDLE.
Definition c_TPMI_RH_PLATFORM : ctype := c_TPM_HANDLE.
Definition c_TPMI_RH_ENDORSEMENT : ctype := c_TPM_HANDLE.
Definition c_TPMI_RH_PROVISION : ctype := c_TPM_HANDLE.
Definition c_TPMI_RH_CLEAR : ctype := c_TPM_HANDLE.
Definition c_TPMI_RH_NV_AUTH : ctype := c_TPM_HANDLE.
Definition c_TPMI_RH_LOCKOUT : ctype := c_TPM_HANDLE.
Definition c_TPMI_RH_NV_INDEX : ctype := c_TPM_HANDLE.
Definition c_TPMI_RH_NV_EXP_INDEX : ctype := c_TPM_HANDLE.
Definition c_TPMI_RH_AC : ctype := c_TPM_HANDLE.
Definition c_TPMI_RH_ACT : ctype := c_TPM_HANDLE.
Definition c_TPMI_ALG_HASH : ctype := c_TPM_ALG_ID.
Definition c_TPMI_ALG_SYM : ctype := c_TPM_ALG_ID.
Definition c_TPMI_ALG_SYM_OBJECT : ctype := c_TPM_ALG_ID.
Definition c_TPMI_ALG_SYM_MODE : ctype := c_TPM_ALG_ID.
Definition c_TPMI_ALG_KDF : ctype := c_TPM_ALG_ID.
Definition c_TPMI_ALG_SIG_SCHEME : ctype := c_TPM_ALG_ID.
Definition c_TPMI_ECC_KEY_EXCHANGE : ctype := c_TPM_ALG_ID.
Definition c_TPMI_ALG_MAC_SCHEME : ctype := c_TPM_ALG_ID.
Definition c_TPMI_ALG_CIPHER_MODE : ctype := c_TPM_ALG_ID.
Definition c_TPMS_EMPTY : ctype := c_BYTE.

Definition c_TPMU_HA : ctype := union [("sha1", array c_BYTE (SHA1_DIGEST_SIZE));
  ("sha256", array c_BYTE (SHA256_DIGEST_SIZE)); ("sha384", array c_BYTE (SHA384_DIGEST_SIZE));
  ("sha512", array c_BYTE (SHA512_DIGEST_SIZE))].

Definition c_TPMT_HA : ctype := struct [("hashAlg", c_TPMI_ALG_HASH); ("digest", c_TPMU_HA)].

Definition c_TPM2B_DIGEST : ctype := struct [("size", c_UINT16);
  ("buffer", array c_BYTE (sizeof c_TPMU_HA))].

Definition c_TPM2B_DATA : ctype := struct [("size", c_UINT16);
  ("buffer", array c_BYTE (sizeof c_TPMT_HA))].

Definition c_TPM2B_NONCE : ctype := c_TPM2B_DIGEST.
Definition c_TPM2B_AUTH : ctype := c_TPM2B_DIGEST.
Definition c_TPM2B_OPERAND : ctype := c_TPM2B_DIGEST.

Definition c_TPM2B_EVENT : ctype := struct [("size", c_UINT16); ("buffer", array c_BYTE (1024))].

Definition c_TPM2B_MAX_BUFFER : ctype := struct [("size", c_UINT16);
  ("buffer", array c_BYTE (MAX_DIGEST_BUFFER))].

Definition c_TPM2B_MAX_NV_BUFFER : ctype := struct [("size", c_UINT16);
  ("buffer", array c_BYTE (MAX_NV_BUFFER_SIZE))].

Definition c_TPM2B_TIMEOUT : ctype := struct [("size", c_UINT16);
  ("buffer", array c_BYTE (sizeof c_UINT64))].

Definition c_TPM2B_IV : ctype := struct [("size", c_UINT16);
  ("buffer", array c_BYTE (MAX_SYM_BLOCK_SIZE))].

Definition c_TPMU_NAME : ctype := union [("digest", c_TPMT_HA); ("handle", c_TPM_HANDLE)].

Definition c_TPM2B_NAME : ctype := struct [("size", c_UINT16);
  ("name", array c_BYTE (sizeof c_TPMU_NAME))].

Definition c_TPMS_PCR_SELECTION : ctype := struct [("hash", c_TPMI_ALG_HASH);
  ("sizeofSelect", c_UINT8); ("pcrSelect", array c_BYTE (PCR_SELECT_MAX))].

Definition c_TPMT_TK_CREATION : ctype := struct [("tag", c_TPM_ST);
  ("hierarchy", c_TPMI_RH_HIERARCHY); ("digest", c_TPM2B_DIGEST)].

Definition c_TPMT_TK_VERIFIED : ctype := struct [("tag", c_TPM_ST);
  ("hierarchy", c_TPMI_RH_HIERARCHY); ("digest", c_TPM2B_DIGEST)].

Definition c_TPMT_TK_AUTH : ctype := struct [("tag", c_TPM_ST);
  ("hierarchy", c_TPMI_RH_HIERARCHY); ("digest", c_TPM2B_DIGEST)].

Definition c_TPMT_TK_HASHCHECK : ctype := struct [("tag", c_TPM_ST);
  ("hierarchy", c_TPMI_RH_HIERARCHY); ("digest", c_TPM2B_DIGEST)].

Definition c_TPMS_ALG_PROPERTY : ctype := struct [("alg", c_TPM_ALG_ID);
  ("algProperties", c_TPMA_ALGORITHM)].

Definition c_TPMS_TAGGED_PROPERTY : ctype := struct [("property", c_TPM_PT); ("value", c_UINT32)].

Definition c_TPMS_TAGGED_PCR_SELECT : ctype := struct [("tag", c_TPM_PT_PCR);
  ("sizeofSelect", c_UINT8); ("pcrSelect", array c_BYTE (PCR_SELECT_MAX))].

Definition c_TPMS_TAGGED_POLICY : ctype := struct [("handle", c_TPM_HANDLE);
  ("policyHash", c_TPMT_HA)].

Definition c_TPMS_ACT_DATA : ctype := struct [("handle", c_TPM_HANDLE); ("timeout", c_UINT32);
  ("attributes", c_TPMA_ACT)].

Definition c_TPML_CC : ctype := struct [("count", c_UINT32);
  ("commandCodes", array c_TPM_CC (MAX_CAP_CC))].

Definition c_TPML_CCA : ctype := struct [("count", c_UINT32);
  ("commandAttributes", array c_TPMA_CC (MAX_CAP_CC))].

Definition c_TPML_ALG : ctype := struct [("count", c_UINT32);
  ("algorithms", array c_TPM_ALG_ID (MAX_ALG_LIST_SIZE))].

Definition c_TPML_HANDLE : ctype := struct [("count", c_UINT32);
  ("handle", array c_TPM_HANDLE (MAX_CAP_HANDLES))].

Definition c_TPML_DIGEST : ctype := struct [("count", c_UINT32);
  ("digests", array c_TPM2B_DIGEST (8))].

Definition c_TPML_DIGEST_VALUES : ctype := struct [("count", c_UINT32);
  ("digests", array c_TPMT_HA (HASH_COUNT))].

Definition c_TPML_PCR_SELECTION : ctype := struct [("count", c_UINT32);
  ("pcrSelections", array c_TPMS_PCR_SELECTION (HASH_COUNT))].

Definition c_TPML_ALG_PROPERTY : ctype := struct [("count", c_UINT32);
  ("algProperties", array c_TPMS_ALG_PROPERTY (MAX_CAP_ALGS))].

Definition c_TPML_TAGGED_TPM_PROPERTY : ctype := struct [("count", c_UINT32);
  ("tpmProperty", array c_TPMS_TAGGED_PROPERTY (MAX_TPM_PROPERTIES))].

Definition c_TPML_TAGGED_PCR_PROPERTY : ctype := struct [("count", c_UINT32);
  ("pcrProperty", array c_TPMS_TAGGED_PCR_SELECT (MAX_PCR_PROPERTIES))].

Definition c_TPML_ECC_CURVE : ctype := struct [("count", c_UINT32);
  ("eccCurves", array c_TPM_ECC_CURVE (MAX_ECC_CURVES))].

Definition c_TPML_TAGGED_POLICY : ctype := struct [("count", c_UINT32);
  ("policies", array c_TPMS_TAGGED_POLICY (MAX_TAGGED_POLICIES))].

Definition c_TPML_ACT_DATA : ctype := struct [("count", c_UINT32);
  ("actData", array c_TPMS_ACT_DATA (MAX_ACT_DATA))].

Definition c_TPMU_CAPABILITIES : ctype := union [("algorithms", c_TPML_ALG_PROPERTY);
  ("handles", c_TPML_HANDLE); ("command", c_TPML_CCA); ("ppCommands", c_TPML_CC);
  ("auditCommands", c_TPML_CC); ("assignedPCR", c_TPML_PCR_SELECTION);
  ("tpmProperties", c_TPML_TAGGED_TPM_PROPERTY); ("pcrProperties", c_TPML_TAGGED_PCR_PROPERTY);
  ("eccCurves", c_TPML_ECC_CURVE); ("authPolicies", c_TPML_TAGGED_POLICY);
  ("actData", c_TPML_ACT_DATA)].

Definition c_TPMU_SET_CAPABILITIES : ctype := struct [("platformSpecific", c_UINT32)].

Definition c_TPMS_CAPABILITY_DATA : ctype := struct [("capability", c_TPM_CAP);
  ("data", c_TPMU_CAPABILITIES)].

Definition c_TPMS_SET_CAPABILITY_DATA : ctype := struct [("setCapability", c_TPM_CAP);
  ("data", c_TPMU_SET_CAPABILITIES)].

Definition c_TPM2B_SET_CAPABILITY_DATA : ctype := struct [("size", c_UINT16);
  ("setCapabilityData", c_TPMS_SET_CAPABILITY_DATA)].

Definition c_TPMS_CLOCK_INFO : ctype := struct [("clock", c_UINT64); ("resetCount", c_UINT32);
  ("restartCount", c_UINT32); ("safe", c_TPMI_YES_NO)].

Definition c_TPMS_TIME_INFO : ctype := struct [("time", c_UINT64);
  ("clockInfo", c_TPMS_CLOCK_INFO)].

Definition c_TPMS_TIME_ATTEST_INFO : ctype := struct [("time", c_TPMS_TIME_INFO);
  ("firmwareVersion", c_UINT64)].

Definition c_TPMS_CERTIFY_INFO : ctype := struct [("name", c_TPM2B_NAME);
  ("qualifiedName", c_TPM2B_NAME)].

Definition c_TPMS_QUOTE_INFO : ctype := struct [("pcrSelect", c_TPML_PCR_SELECTION);
  ("pcrDigest", c_TPM2B_DIGEST)].

Definition c_TPMS_COMMAND_AUDIT_INFO : ctype := struct [("auditCounter", c_UINT64);
  ("digestAlg", c_TPM_ALG_ID); ("auditDigest", c_TPM2B_DIGEST);
  ("commandDigest", c_TPM2B_DIGEST)].

Definition c_TPMS_SESSION_AUDIT_INFO : ctype := struct [("exclusiveSession", c_TPMI_YES_NO);
  ("sessionDigest", c_TPM2B_DIGEST)].

Definition c_TPMS_CREATION_INFO : ctype := struct [("objectName", c_TPM2B_NAME);
  ("creationHash", c_TPM2B_DIGEST)].

Definition c_TPMS_NV_CERTIFY_INFO : ctype := struct [("indexName", c_TPM2B_NAME);
  ("offset", c_UINT16); ("nvContents", c_TPM2B_MAX_NV_BUFFER)].

Definition c_TPMS_NV_DIGEST_CERTIFY_INFO : ctype := struct [("indexName", c_TPM2B_NAME);
  ("nvDigest", c_TPM2B_DIGEST)].

Definition c_TPMI_ST_ATTEST : ctype := c_TPM_ST.

Definition c_TPMU_ATTEST : ctype := union [("certify", c_TPMS_CERTIFY_INFO);
  ("creation", c_TPMS_CREATION_INFO); ("quote", c_TPMS_QUOTE_INFO);
  ("commandAudit", c_TPMS_COMMAND_AUDIT_INFO); ("sessionAudit", c_TPMS_SESSION_AUDIT_INFO);
  ("time", c_TPMS_TIME_ATTEST_INFO); ("nv", c_TPMS_NV_CERTIFY_INFO);
  ("nvDigest", c_TPMS_NV_DIGEST_CERTIFY_INFO)].

Definition c_TPMS_ATTEST : ctype := struct [("magic", c_TPM_CONSTANTS32);
  ("type", c_TPMI_ST_ATTEST); ("qualifiedSigner", c_TPM2B_NAME); ("extraData", c_TPM2B_DATA);
  ("clockInfo", c_TPMS_CLOCK_INFO); ("firmwareVersion", c_UINT64); ("attested", c_TPMU_ATTEST)].

Definition c_TPM2B_ATTEST : ctype := struct [("size", c_UINT16);
  ("attestationData", array c_BYTE (sizeof c_TPMS_ATTEST))].

Definition c_TPMI_AES_KEY_BITS : ctype := c_TPM_KEY_BITS.
Definition c_TPMI_CAMELLIA_KEY_BITS : ctype := c_TPM_KEY_BITS.

Definition c_TPMU_SYM_KEY_BITS : ctype := union [("aes", c_TPMI_AES_KEY_BITS);
  ("camellia", c_TPMI_CAMELLIA_KEY_BITS); ("sym", c_TPM_KEY_BITS); ("xorr", c_TPMI_ALG_HASH)].

Definition c_TPMU_SYM_MODE : ctype := union [("aes", c_TPMI_ALG_SYM_MODE);
  ("camellia", c_TPMI_ALG_SYM_MODE); ("sym", c_TPMI_ALG_SYM_MODE)].

Definition c_TPMT_SYM_DEF : ctype := struct [("algorithm", c_TPMI_ALG_SYM);
  ("keyBits", c_TPMU_SYM_KEY_BITS); ("mode", c_TPMU_SYM_MODE)].

Definition c_TPMT_SYM_DEF_OBJECT : ctype := struct [("algorithm", c_TPMI_ALG_SYM_OBJECT);
  ("keyBits", c_TPMU_SYM_KEY_BITS); ("mode", c_TPMU_SYM_MODE)].

Definition c_TPM2B_SYM_KEY : ctype := struct [("size", c_UINT16);
  ("buffer", array c_BYTE (MAX_SYM_KEY_BYTES))].

Definition c_TPMS_SYMCIPHER_PARMS : ctype := struct [("sym", c_TPMT_SYM_DEF_OBJECT)].

Definition c_TPM2B_LABEL : ctype := struct [("size", c_UINT16);
  ("buffer", array c_BYTE (LABEL_MAX_BUFFER))].

Definition c_TPMS_DERIVE : ctype := struct [("label", c_TPM2B_LABEL); ("context", c_TPM2B_LABEL)].

Definition c_TPMU_SENSITIVE_CREATE : ctype := union [("create", array c_BYTE (MAX_SYM_DATA));
  ("derive", c_TPMS_DERIVE)].

Definition c_TPM2B_SENSITIVE_DATA : ctype := struct [("size", c_UINT16);
  ("buffer", array c_BYTE (sizeof c_TPMU_SENSITIVE_CREATE))].

Definition c_TPMS_SENSITIVE_CREATE : ctype := struct [("userAuth", c_TPM2B_AUTH);
  ("data", c_TPM2B_SENSITIVE_DATA)].

Definition c_TPM2B_SENSITIVE_CREATE : ctype := struct [("size", c_UINT16);
  ("sensitive", c_TPMS_SENSITIVE_CREATE)].

Definition c_TPMS_SCHEME_HASH : ctype := struct [("hashAlg", c_TPMI_ALG_HASH)].

Definition c_TPMS_SCHEME_ECDAA : ctype := struct [("hashAlg", c_TPMI_ALG_HASH);
  ("count", c_UINT16)].

Definition c_TPMI_ALG_KEYEDHASH_SCHEME : ctype := c_TPM_ALG_ID.
Definition c_TPMS_SCHEME_HMAC : ctype := c_TPMS_SCHEME_HASH.

Definition c_TPMS_SCHEME_XOR : ctype := struct [("hashAlg", c_TPMI_ALG_HASH);
  ("kdf", c_TPMI_ALG_KDF)].

Definition c_TPMU_SCHEME_KEYEDHASH : ctype := union [("hmac", c_TPMS_SCHEME_HMAC);
  ("xorr", c_TPMS_SCHEME_XOR)].

Definition c_TPMT_KEYEDHASH_SCHEME : ctype := struct [("scheme", c_TPMI_ALG_KEYEDHASH_SCHEME);
  ("details", c_TPMU_SCHEME_KEYEDHASH)].

Definition c_TPMS_SIG_SCHEME_RSASSA : ctype := c_TPMS_SCHEME_HASH.
Definition c_TPMS_SIG_SCHEME_RSAPSS : ctype := c_TPMS_SCHEME_HASH.
Definition c_TPMS_SIG_SCHEME_ECDSA : ctype := c_TPMS_SCHEME_HASH.
Definition c_TPMS_SIG_SCHEME_SM2 : ctype := c_TPMS_SCHEME_HASH.
Definition c_TPMS_SIG_SCHEME_ECSCHNORR : ctype := c_TPMS_SCHEME_HASH.
Definition c_TPMS_SIG_SCHEME_ECDAA : ctype := c_TPMS_SCHEME_ECDAA.

Definition c_TPMU_SIG_SCHEME : ctype := union [("ecdaa", c_TPMS_SIG_SCHEME_ECDAA);
  ("rsassa", c_TPMS_SIG_SCHEME_RSASSA); ("rsapss", c_TPMS_SIG_SCHEME_RSAPSS);
  ("ecdsa", c_TPMS_SIG_SCHEME_ECDSA); ("sm2", c_TPMS_SIG_SCHEME_SM2);
  ("ecschnorr", c_TPMS_SIG_SCHEME_ECSCHNORR); ("hmac", c_TPMS_SCHEME_HMAC);
  ("any", c_TPMS_SCHEME_HASH)].

Definition c_TPMT_SIG_SCHEME : ctype := struct [("scheme", c_TPMI_ALG_SIG_SCHEME);
  ("details", c_TPMU_SIG_SCHEME)].

Definition c_TPMS_ENC_SCHEME_OAEP : ctype := c_TPMS_SCHEME_HASH.
Definition c_TPMS_ENC_SCHEME_RSAES : ctype := c_TPMS_EMPTY.
Definition c_TPMS_KEY_SCHEME_ECDH : ctype := c_TPMS_SCHEME_HASH.
Definition c_TPMS_KEY_SCHEME_ECMQV : ctype := c_TPMS_SCHEME_HASH.
Definition c_TPMS_KDF_SCHEME_MGF1 : ctype := c_TPMS_SCHEME_HASH.
Definition c_TPMS_KDF_SCHEME_KDF1_SP800_56A : ctype := c_TPMS_SCHEME_HASH.
Definition c_TPMS_KDF_SCHEME_KDF2 : ctype := c_TPMS_SCHEME_HASH.
Definition c_TPMS_KDF_SCHEME_KDF1_SP800_108 : ctype := c_TPMS_SCHEME_HASH.

Definition c_TPMU_KDF_SCHEME : ctype := union [("mgf1", c_TPMS_KDF_SCHEME_MGF1);
  ("kdf1_sp800_56a", c_TPMS_KDF_SCHEME_KDF1_SP800_56A); ("kdf2", c_TPMS_KDF_SCHEME_KDF2);
  ("kdf1_sp800_108", c_TPMS_KDF_SCHEME_KDF1_SP800_108); ("anyKdf", c_TPMS_SCHEME_HASH)].

Definition c_TPMT_KDF_SCHEME : ctype := struct [("scheme", c_TPMI_ALG_KDF);
  ("details", c_TPMU_KDF_SCHEME)].

Definition c_TPMI_ALG_ASYM_SCHEME : ctype := c_TPM_ALG_ID.

Definition c_TPMU_ASYM_SCHEME : ctype := union [("ecdh", c_TPMS_KEY_SCHEME_ECDH);
  ("ecmqv", c_TPMS_KEY_SCHEME_ECMQV); ("ecdaa", c_TPMS_SIG_SCHEME_ECDAA);
  ("rsassa", c_TPMS_SIG_SCHEME_RSASSA); ("rsapss", c_TPMS_SIG_SCHEME_RSAPSS);
  ("ecdsa", c_TPMS_SIG_SCHEME_ECDSA); ("sm2", c_TPMS_SIG_SCHEME_SM2);
  ("ecschnorr", c_TPMS_SIG_SCHEME_ECSCHNORR); ("rsaes", c_TPMS_ENC_SCHEME_RSAES);
  ("oaep", c_TPMS_ENC_SCHEME_OAEP); ("anySig", c_TPMS_SCHEME_HASH)].

Definition c_TPMT_ASYM_SCHEME : ctype := struct [("scheme", c_TPMI_ALG_ASYM_SCHEME);
  ("details", c_TPMU_ASYM_SCHEME)].

Definition c_TPMI_ALG_RSA_SCHEME : ctype := c_TPM_ALG_ID.

Definition c_TPMT_RSA_SCHEME : ctype := struct [("scheme", c_TPMI_ALG_RSA_SCHEME);
  ("details", c_TPMU_ASYM_SCHEME)].

Definition c_TPMI_ALG_RSA_DECRYPT : ctype := c_TPM_ALG_ID.

Definition c_TPMT_RSA_DECRYPT : ctype := struct [("scheme", c_TPMI_ALG_RSA_DECRYPT);
  ("details", c_TPMU_ASYM_SCHEME)].

Definition c_TPM2B_PUBLIC_KEY_RSA : ctype := struct [("size", c_UINT16);
  ("buffer", array c_BYTE (MAX_RSA_KEY_BYTES))].

Definition c_TPMI_RSA_KEY_BITS : ctype := c_TPM_KEY_BITS.

Definition c_TPM2B_PRIVATE_KEY_RSA : ctype := struct [("size", c_UINT16);
  ("buffer", array c_BYTE (RSA_PRIVATE_SIZE))].

Definition c_TPM2B_ECC_PARAMETER : ctype := struct [("size", c_UINT16);
  ("buffer", array c_BYTE (MAX_ECC_KEY_BYTES))].

Definition c_TPMS_ECC_POINT : ctype := struct [("x", c_TPM2B_ECC_PARAMETER);
  ("y", c_TPM2B_ECC_PARAMETER)].

Definition c_TPM2B_ECC_POINT : ctype := struct [("size", c_UINT16); ("point", c_TPMS_ECC_POINT)].

Definition c_TPMI_ALG_ECC_SCHEME : ctype := c_TPM_ALG_ID.
Definition c_TPMI_ECC_CURVE : ctype := c_TPM_ECC_CURVE.

Definition c_TPMT_ECC_SCHEME : ctype := struct [("scheme", c_TPMI_ALG_ECC_SCHEME);
  ("details", c_TPMU_ASYM_SCHEME)].

Definition c_TPMS_ALGORITHM_DETAIL_ECC : ctype := struct [("curveID", c_TPM_ECC_CURVE);
  ("keySize", c_UINT16); ("kdf", c_TPMT_KDF_SCHEME); ("sign", c_TPMT_ECC_SCHEME);
  ("p", c_TPM2B_ECC_PARAMETER); ("a", c_TPM2B_ECC_PARAMETER); ("b", c_TPM2B_ECC_PARAMETER);
  ("gX", c_TPM2B_ECC_PARAMETER); ("gY", c_TPM2B_ECC_PARAMETER); ("n", c_TPM2B_ECC_PARAMETER);
  ("h", c_TPM2B_ECC_PARAMETER)].

Definition c_TPMS_SIGNATURE_RSA : ctype := struct [("hash", c_TPMI_ALG_HASH);
  ("sig", c_TPM2B_PUBLIC_KEY_RSA)].

Definition c_TPMS_SIGNATURE_RSASSA : ctype := c_TPMS_SIGNATURE_RSA.
Definition c_TPMS_SIGNATURE_RSAPSS : ctype := c_TPMS_SIGNATURE_RSA.

Definition c_TPMS_SIGNATURE_ECC : ctype := struct [("hash", c_TPMI_ALG_HASH);
  ("signatureR", c_TPM2B_ECC_PARAMETER); ("signatureS", c_TPM2B_ECC_PARAMETER)].

Definition c_TPMS_SIGNATURE_ECDAA : ctype := c_TPMS_SIGNATURE_ECC.
Definition c_TPMS_SIGNATURE_ECDSA : ctype := c_TPMS_SIGNATURE_ECC.
Definition c_TPMS_SIGNATURE_SM2 : ctype := c_TPMS_SIGNATURE_ECC.
Definition c_TPMS_SIGNATURE_ECSCHNORR : ctype := c_TPMS_SIGNATURE_ECC.

Definition c_TPMU_SIGNATURE : ctype := union [("ecdaa", c_TPMS_SIGNATURE_ECDAA);
  ("rsassa", c_TPMS_SIGNATURE_RSASSA); ("rsapss", c_TPMS_SIGNATURE_RSAPSS);
  ("ecdsa", c_TPMS_SIGNATURE_ECDSA); ("sm2", c_TPMS_SIGNATURE_SM2);
  ("ecschnorr", c_TPMS_SIGNATURE_ECSCHNORR); ("hmac", c_TPMT_HA); ("any", c_TPMS_SCHEME_HASH)].

Definition c_TPMT_SIGNATURE : ctype := struct [("sigAlg", c_TPMI_ALG_SIG_SCHEME);
  ("signature", c_TPMU_SIGNATURE)].

Definition c_TPMU_ENCRYPTED_SECRET : ctype := union [
  ("ecc", array c_BYTE (sizeof c_TPMS_ECC_POINT)); ("rsa", array c_BYTE (MAX_RSA_KEY_BYTES));
  ("symmetric", array c_BYTE (sizeof c_TPM2B_DIGEST));
  ("keyedHash", array c_BYTE (sizeof c_TPM2B_DIGEST))].

Definition c_TPM2B_ENCRYPTED_SECRET : ctype := struct [("size", c_UINT16);
  ("secret", array c_BYTE (sizeof c_TPMU_ENCRYPTED_SECRET))].

Definition c_TPMI_ALG_PUBLIC : ctype := c_TPM_ALG_ID.

Definition c_TPMU_PUBLIC_ID : ctype := union [("keyedHash", c_TPM2B_DIGEST);
  ("sym", c_TPM2B_DIGEST); ("rsa", c_TPM2B_PUBLIC_KEY_RSA); ("ecc", c_TPMS_ECC_POINT);
  ("derive", c_TPMS_DERIVE)].

Definition c_TPMS_KEYEDHASH_PARMS : ctype := struct [("scheme", c_TPMT_KEYEDHASH_SCHEME)].

Definition c_TPMS_ASYM_PARMS : ctype := struct [("symmetric", c_TPMT_SYM_DEF_OBJECT);
  ("scheme", c_TPMT_ASYM_SCHEME)].

Definition c_TPMS_RSA_PARMS : ctype := struct [("symmetric", c_TPMT_SYM_DEF_OBJECT);
  ("scheme", c_TPMT_RSA_SCHEME); ("keyBits", c_TPMI_RSA_KEY_BITS); ("exponent", c_UINT32)].

Definition c_TPMS_ECC_PARMS : ctype := struct [("symmetric", c_TPMT_SYM_DEF_OBJECT);
  ("scheme", c_TPMT_ECC_SCHEME); ("curveID", c_TPMI_ECC_CURVE); ("kdf", c_TPMT_KDF_SCHEME)].

Definition c_TPMU_PUBLIC_PARMS : ctype := union [("keyedHashDetail", c_TPMS_KEYEDHASH_PARMS);
  ("symDetail", c_TPMS_SYMCIPHER_PARMS); ("rsaDetail", c_TPMS_RSA_PARMS);
  ("eccDetail", c_TPMS_ECC_PARMS); ("asymDetail", c_TPMS_ASYM_PARMS)].

Definition c_TPMT_PUBLIC_PARMS : ctype := struct [("type", c_TPMI_ALG_PUBLIC);
  ("parameters", c_TPMU_PUBLIC_PARMS)].

Definition c_TPMT_PUBLIC : ctype := struct [("type", c_TPMI_ALG_PUBLIC);
  ("nameAlg", c_TPMI_ALG_HASH); ("objectAttributes", c_TPMA_OBJECT);
  ("authPolicy", c_TPM2B_DIGEST); ("parameters", c_TPMU_PUBLIC_PARMS);
  ("unique", c_TPMU_PUBLIC_ID)].

Definition c_TPM2B_PUBLIC : ctype := struct [("size", c_UINT16); ("publicArea", c_TPMT_PUBLIC)].

Definition c_TPM2B_TEMPLATE : ctype := struct [("size", c_UINT16);
  ("buffer", array c_BYTE (sizeof c_TPMT_PUBLIC))].

Definition c_TPM2B_PRIVATE_VENDOR_SPECIFIC : ctype := struct [("size", c_UINT16);
  ("buffer", array c_BYTE (PRIVATE_VENDOR_SPECIFIC_BYTES))].

Definition c_TPMU_SENSITIVE_COMPOSITE : ctype := union [("rsa", c_TPM2B_PRIVATE_KEY_RSA);
  ("ecc", c_TPM2B_ECC_PARAMETER); ("bits", c_TPM2B_SENSITIVE_DATA); ("sym", c_TPM2B_SYM_KEY);
  ("any", c_TPM2B_PRIVATE_VENDOR_SPECIFIC)].

Definition c_TPMT_SENSITIVE : ctype := struct [("sensitiveType", c_TPMI_ALG_PUBLIC);
  ("authValue", c_TPM2B_AUTH); ("seedValue", c_TPM2B_DIGEST);
  ("sensitive", c_TPMU_SENSITIVE_COMPOSITE)].

Definition c_TPM2B_SENSITIVE : ctype := struct [("size", c_UINT16);
  ("sensitiveArea", c_TPMT_SENSITIVE)].

Definition c__PRIVATE : ctype := struct [("integrityOuter", c_TPM2B_DIGEST);
  ("integrityInner", c_TPM2B_DIGEST); ("sensitive", c_TPM2B_SENSITIVE)].

Definition c_TPM2B_PRIVATE : ctype := struct [("size", c_UINT16);
  ("buffer", array c_BYTE (sizeof c__PRIVATE))].

Definition c_TPMS_ID_OBJECT : ctype := struct [("integrityHMAC", c_TPM2B_DIGEST);
  ("encIdentity", c_TPM2B_DIGEST)].

Definition c_TPM2B_ID_OBJECT : ctype := struct [("size", c_UINT16);
  ("credential", array c_BYTE (sizeof c_TPMS_ID_OBJECT))].

Definition c_TPMA_NV : ctype := c_UINT32.
Definition c_TPMA_NV_EXP : ctype := c_UINT64.

Definition c_TPMS_NV_PUBLIC : ctype := struct [("nvIndex", c_TPMI_RH_NV_INDEX);
  ("nameAlg", c_TPMI_ALG_HASH); ("attributes", c_TPMA_NV); ("authPolicy", c_TPM2B_DIGEST);
  ("dataSize", c_UINT16)].

Definition c_TPM2B_NV_PUBLIC : ctype := struct [("size", c_UINT16);
  ("nvPublic", c_TPMS_NV_PUBLIC)].

Definition c_TPMS_NV_PUBLIC_EXP_ATTR : ctype := struct [("nvIndex", c_TPMI_RH_NV_EXP_INDEX);
  ("nameAlg", c_TPMI_ALG_HASH); ("attributes", c_TPMA_NV_EXP); ("authPolicy", c_TPM2B_DIGEST);
  ("dataSize", c_UINT16)].

Definition c_TPMU_NV_PUBLIC_2 : ctype := union [("nvIndex", c_TPMS_NV_PUBLIC);
  ("externalNV", c_TPMS_NV_PUBLIC_EXP_ATTR); ("permanentNV", c_TPMS_NV_PUBLIC)].

Definition c_TPMT_NV_PUBLIC_2 : ctype := struct [("handleType", c_TPM_HT);
  ("nvPublic2", c_TPMU_NV_PUBLIC_2)].

Definition c_TPM2B_NV_PUBLIC_2 : ctype := struct [("size", c_UINT16);
  ("nvPublic2", c_TPMT_NV_PUBLIC_2)].

Definition c_TPM2B_CONTEXT_SENSITIVE : ctype := struct [("size", c_UINT16);
  ("buffer", array c_BYTE (MAX_CONTEXT_SIZE))].

Definition c_TPMS_CONTEXT_DATA : ctype := struct [("integrity", c_TPM2B_DIGEST);
  ("encrypted", c_TPM2B_CONTEXT_SENSITIVE)].

Definition c_TPM2B_CONTEXT_DATA : ctype := struct [("size", c_UINT16);
  ("buffer", array c_BYTE (sizeof c_TPMS_CONTEXT_DATA))].

Definition c_TPMS_CONTEXT : ctype := struct [("sequence", c_UINT64);
  ("savedHandle", c_TPMI_DH_SAVED); ("hierarchy", c_TPMI_RH_HIERARCHY);
  ("contextBlob", c_TPM2B_CONTEXT_DATA)].

Definition c_TPMS_CREATION_DATA : ctype := struct [("pcrSelect", c_TPML_PCR_SELECTION);
  ("pcrDigest", c_TPM2B_DIGEST); ("locality", c_TPMA_LOCALITY); ("parentNameAlg", c_TPM_ALG_ID);
  ("parentName", c_TPM2B_NAME); ("parentQualifiedName", c_TPM2B_NAME);
  ("outsideInfo", c_TPM2B_DATA)].

Definition c_TPM2B_CREATION_DATA : ctype := struct [("size", c_UINT16);
  ("creationData", c_TPMS_CREATION_DATA)].

Definition c_TPM_AT : ctype := c_UINT32.

Definition c_TPMS_AC_OUTPUT : ctype := struct [("tag", c_TPM_AT); ("data", c_UINT32)].

Definition c_TPML_AC_CAPABILITIES : ctype := struct [("count", c_UINT32);
  ("acCapabilities", array c_TPMS_AC_OUTPUT (MAX_AC_CAPABILITIES))].

(** The sizes that Unmarshal.c and Marshal.c take with [sizeof]. *)
Lemma sizes_agree :
  [sizeof c_TPM2B_EVENT; sizeof c_UINT16; sizeof c_TPMU_ENCRYPTED_SECRET;
   sizeof c_TPMT_PUBLIC; sizeof c__PRIVATE; sizeof c_TPMS_ID_OBJECT;
   sizeof c_TPMS_CONTEXT_DATA; sizeof c_UINT64; sizeof c_TPMU_SENSITIVE_CREATE;
   sizeof c_TPMS_ATTEST; sizeof c_UINT8; sizeof c_UINT32]
  = [sizeof_TPM2B_EVENT; sizeof_UINT16; sizeof_TPMU_ENCRYPTED_SECRET;
   sizeof_TPMT_PUBLIC; sizeof__PRIVATE; sizeof_TPMS_ID_OBJECT;
   sizeof_TPMS_CONTEXT_DATA; sizeof_UINT64; sizeof_TPMU_SENSITIVE_CREATE;
   sizeof_TPMS_ATTEST; sizeof_UINT8; sizeof_UINT32].
Proof. reflexivity. Qed.
