(* ===== verification/CommandIO.v ===== *)
(** * The input and output structures of the commands

    A command action takes a pointer to a structure with its handles and
    parameters and one to a structure for what it returns; they are declared in
    the files <Command>_fp.h. *)

From Stdlib Require Import String.
From S2P Require Import Prelude TpmTypes Memory WireTypes CTypes.
Local Open Scope Z_scope.
Local Open Scope string_scope.

Definition c_NTC2_CFG_STRUCT : ctype := struct [("i2cLoc1_2", c_UINT8); ("i2cLoc3_4", c_UINT8);
  ("AltCfg", c_UINT8); ("Direction", c_UINT8); ("PullUp", c_UINT8); ("PushPull", c_UINT8);
  ("CFG_A", c_UINT8); ("CFG_B", c_UINT8); ("CFG_C", c_UINT8); ("CFG_D", c_UINT8);
  ("CFG_E", c_UINT8); ("CFG_F", c_UINT8); ("CFG_G", c_UINT8); ("CFG_H", c_UINT8);
  ("CFG_I", c_UINT8); ("CFG_J", c_UINT8); ("IsValid", c_UINT8); ("IsLocked", c_UINT8)].

Definition ActivateCredential_In : members := [("activateHandle", c_TPMI_DH_OBJECT);
  ("keyHandle", c_TPMI_DH_OBJECT); ("credentialBlob", c_TPM2B_ID_OBJECT);
  ("secret", c_TPM2B_ENCRYPTED_SECRET)].
Definition ActivateCredential_Out : members := [("certInfo", c_TPM2B_DIGEST)].
Definition CertifyCreation_In : members := [("signHandle", c_TPMI_DH_OBJECT);
  ("objectHandle", c_TPMI_DH_OBJECT); ("qualifyingData", c_TPM2B_DATA);
  ("creationHash", c_TPM2B_DIGEST); ("inScheme", c_TPMT_SIG_SCHEME);
  ("creationTicket", c_TPMT_TK_CREATION)].
Definition CertifyCreation_Out : members := [("certifyInfo", c_TPM2B_ATTEST);
  ("signature", c_TPMT_SIGNATURE)].
Definition CertifyX509_In : members := [("objectHandle", c_TPMI_DH_OBJECT);
  ("signHandle", c_TPMI_DH_OBJECT); ("reserved", c_TPM2B_DATA); ("inScheme", c_TPMT_SIG_SCHEME);
  ("partialCertificate", c_TPM2B_MAX_BUFFER)].
Definition CertifyX509_Out : members := [("addedToCertificate", c_TPM2B_MAX_BUFFER);
  ("tbsDigest", c_TPM2B_DIGEST); ("signature", c_TPMT_SIGNATURE)].
Definition Certify_In : members := [("objectHandle", c_TPMI_DH_OBJECT);
  ("signHandle", c_TPMI_DH_OBJECT); ("qualifyingData", c_TPM2B_DATA);
  ("inScheme", c_TPMT_SIG_SCHEME)].
Definition Certify_Out : members := [("certifyInfo", c_TPM2B_ATTEST);
  ("signature", c_TPMT_SIGNATURE)].
Definition ChangeEPS_In : members := [("authHandle", c_TPMI_RH_PLATFORM)].
Definition ChangePPS_In : members := [("authHandle", c_TPMI_RH_PLATFORM)].
Definition ClearControl_In : members := [("auth", c_TPMI_RH_CLEAR); ("disable", c_TPMI_YES_NO)].
Definition Clear_In : members := [("authHandle", c_TPMI_RH_CLEAR)].
Definition ClockRateAdjust_In : members := [("auth", c_TPMI_RH_PROVISION);
  ("rateAdjust", c_TPM_CLOCK_ADJUST)].
Definition ClockSet_In : members := [("auth", c_TPMI_RH_PROVISION); ("newTime", c_UINT64)].
Definition Commit_In : members := [("signHandle", c_TPMI_DH_OBJECT); ("P1", c_TPM2B_ECC_POINT);
  ("s2", c_TPM2B_SENSITIVE_DATA); ("y2", c_TPM2B_ECC_PARAMETER)].
Definition Commit_Out : members := [("K", c_TPM2B_ECC_POINT); ("L", c_TPM2B_ECC_POINT);
  ("E", c_TPM2B_ECC_POINT); ("counter", c_UINT16)].
Definition ContextLoad_In : members := [("context", c_TPMS_CONTEXT)].
Definition ContextLoad_Out : members := [("loadedHandle", c_TPMI_DH_CONTEXT)].
Definition ContextSave_In : members := [("saveHandle", c_TPMI_DH_CONTEXT)].
Definition ContextSave_Out : members := [("context", c_TPMS_CONTEXT)].
Definition CreateLoaded_In : members := [("parentHandle", c_TPMI_DH_PARENT);
  ("inSensitive", c_TPM2B_SENSITIVE_CREATE); ("inPublic", c_TPM2B_TEMPLATE)].
Definition CreateLoaded_Out : members := [("objectHandle", c_TPM_HANDLE);
  ("outPrivate", c_TPM2B_PRIVATE); ("outPublic", c_TPM2B_PUBLIC); ("name", c_TPM2B_NAME)].
Definition CreatePrimary_In : members := [("primaryHandle", c_TPMI_RH_HIERARCHY);
  ("inSensitive", c_TPM2B_SENSITIVE_CREATE); ("inPublic", c_TPM2B_PUBLIC);
  ("outsideInfo", c_TPM2B_DATA); ("creationPCR", c_TPML_PCR_SELECTION)].
Definition CreatePrimary_Out : members := [("objectHandle", c_TPM_HANDLE);
  ("outPublic", c_TPM2B_PUBLIC); ("creationData", c_TPM2B_CREATION_DATA);
  ("creationHash", c_TPM2B_DIGEST); ("creationTicket", c_TPMT_TK_CREATION);
  ("name", c_TPM2B_NAME)].
Definition Create_In : members := [("parentHandle", c_TPMI_DH_OBJECT);
  ("inSensitive", c_TPM2B_SENSITIVE_CREATE); ("inPublic", c_TPM2B_PUBLIC);
  ("outsideInfo", c_TPM2B_DATA); ("creationPCR", c_TPML_PCR_SELECTION)].
Definition Create_Out : members := [("outPrivate", c_TPM2B_PRIVATE);
  ("outPublic", c_TPM2B_PUBLIC); ("creationData", c_TPM2B_CREATION_DATA);
  ("creationHash", c_TPM2B_DIGEST); ("creationTicket", c_TPMT_TK_CREATION)].
Definition DictionaryAttackLockReset_In : members := [("lockHandle", c_TPMI_RH_LOCKOUT)].
Definition DictionaryAttackParameters_In : members := [("lockHandle", c_TPMI_RH_LOCKOUT);
  ("newMaxTries", c_UINT32); ("newRecoveryTime", c_UINT32); ("lockoutRecovery", c_UINT32)].
Definition Duplicate_In : members := [("objectHandle", c_TPMI_DH_OBJECT);
  ("newParentHandle", c_TPMI_DH_OBJECT); ("encryptionKeyIn", c_TPM2B_DATA);
  ("symmetricAlg", c_TPMT_SYM_DEF_OBJECT)].
Definition Duplicate_Out : members := [("encryptionKeyOut", c_TPM2B_DATA);
  ("duplicate", c_TPM2B_PRIVATE); ("outSymSeed", c_TPM2B_ENCRYPTED_SECRET)].
Definition ECC_Decrypt_In : members := [("keyHandle", c_TPMI_DH_OBJECT);
  ("C1", c_TPM2B_ECC_POINT); ("C2", c_TPM2B_MAX_BUFFER); ("C3", c_TPM2B_DIGEST);
  ("inScheme", c_TPMT_KDF_SCHEME)].
Definition ECC_Decrypt_Out : members := [("plainText", c_TPM2B_MAX_BUFFER)].
Definition ECC_Encrypt_In : members := [("keyHandle", c_TPMI_DH_OBJECT);
  ("plainText", c_TPM2B_MAX_BUFFER); ("inScheme", c_TPMT_KDF_SCHEME)].
Definition ECC_Encrypt_Out : members := [("C1", c_TPM2B_ECC_POINT); ("C2", c_TPM2B_MAX_BUFFER);
  ("C3", c_TPM2B_DIGEST)].
Definition ECC_Parameters_In : members := [("curveID", c_TPMI_ECC_CURVE)].
Definition ECC_Parameters_Out : members := [("parameters", c_TPMS_ALGORITHM_DETAIL_ECC)].
Definition ECDH_KeyGen_In : members := [("keyHandle", c_TPMI_DH_OBJECT)].
Definition ECDH_KeyGen_Out : members := [("zPoint", c_TPM2B_ECC_POINT);
  ("pubPoint", c_TPM2B_ECC_POINT)].
Definition ECDH_ZGen_In : members := [("keyHandle", c_TPMI_DH_OBJECT);
  ("inPoint", c_TPM2B_ECC_POINT)].
Definition ECDH_ZGen_Out : members := [("outPoint", c_TPM2B_ECC_POINT)].
Definition EC_Ephemeral_In : members := [("curveID", c_TPMI_ECC_CURVE)].
Definition EC_Ephemeral_Out : members := [("Q", c_TPM2B_ECC_POINT); ("counter", c_UINT16)].
Definition EncryptDecrypt2_In : members := [("keyHandle", c_TPMI_DH_OBJECT);
  ("inData", c_TPM2B_MAX_BUFFER); ("decrypt", c_TPMI_YES_NO); ("mode", c_TPMI_ALG_CIPHER_MODE);
  ("ivIn", c_TPM2B_IV)].
Definition EncryptDecrypt2_Out : members := [("outData", c_TPM2B_MAX_BUFFER);
  ("ivOut", c_TPM2B_IV)].
Definition EncryptDecrypt_In : members := [("keyHandle", c_TPMI_DH_OBJECT);
  ("decrypt", c_TPMI_YES_NO); ("mode", c_TPMI_ALG_CIPHER_MODE); ("ivIn", c_TPM2B_IV);
  ("inData", c_TPM2B_MAX_BUFFER)].
Definition EncryptDecrypt_Out : members := [("outData", c_TPM2B_MAX_BUFFER);
  ("ivOut", c_TPM2B_IV)].
Definition EventSequenceComplete_In : members := [("pcrHandle", c_TPMI_DH_PCR);
  ("sequenceHandle", c_TPMI_DH_OBJECT); ("buffer", c_TPM2B_MAX_BUFFER)].
Definition EventSequenceComplete_Out : members := [("results", c_TPML_DIGEST_VALUES)].
Definition EvictControl_In : members := [("auth", c_TPMI_RH_PROVISION);
  ("objectHandle", c_TPMI_DH_OBJECT); ("persistentHandle", c_TPMI_DH_PERSISTENT)].
Definition FlushContext_In : members := [("flushHandle", c_TPMI_DH_CONTEXT)].
Definition GetCapability_In : members := [("capability", c_TPM_CAP); ("property", c_UINT32);
  ("propertyCount", c_UINT32)].
Definition GetCapability_Out : members := [("moreData", c_TPMI_YES_NO);
  ("capabilityData", c_TPMS_CAPABILITY_DATA)].
Definition GetCommandAuditDigest_In : members := [("privacyHandle", c_TPMI_RH_ENDORSEMENT);
  ("signHandle", c_TPMI_DH_OBJECT); ("qualifyingData", c_TPM2B_DATA);
  ("inScheme", c_TPMT_SIG_SCHEME)].
Definition GetCommandAuditDigest_Out : members := [("auditInfo", c_TPM2B_ATTEST);
  ("signature", c_TPMT_SIGNATURE)].
Definition GetRandom_In : members := [("bytesRequested", c_UINT16)].
Definition GetRandom_Out : members := [("randomBytes", c_TPM2B_DIGEST)].
Definition GetSessionAuditDigest_In : members := [("privacyAdminHandle", c_TPMI_RH_ENDORSEMENT);
  ("signHandle", c_TPMI_DH_OBJECT); ("sessionHandle", c_TPMI_SH_HMAC);
  ("qualifyingData", c_TPM2B_DATA); ("inScheme", c_TPMT_SIG_SCHEME)].
Definition GetSessionAuditDigest_Out : members := [("auditInfo", c_TPM2B_ATTEST);
  ("signature", c_TPMT_SIGNATURE)].
Definition GetTestResult_Out : members := [("outData", c_TPM2B_MAX_BUFFER);
  ("testResult", c_TPM_RC)].
Definition GetTime_In : members := [("privacyAdminHandle", c_TPMI_RH_ENDORSEMENT);
  ("signHandle", c_TPMI_DH_OBJECT); ("qualifyingData", c_TPM2B_DATA);
  ("inScheme", c_TPMT_SIG_SCHEME)].
Definition GetTime_Out : members := [("timeInfo", c_TPM2B_ATTEST);
  ("signature", c_TPMT_SIGNATURE)].
Definition HashSequenceStart_In : members := [("auth", c_TPM2B_AUTH);
  ("hashAlg", c_TPMI_ALG_HASH)].
Definition HashSequenceStart_Out : members := [("sequenceHandle", c_TPMI_DH_OBJECT)].
Definition Hash_In : members := [("data", c_TPM2B_MAX_BUFFER); ("hashAlg", c_TPMI_ALG_HASH);
  ("hierarchy", c_TPMI_RH_HIERARCHY)].
Definition Hash_Out : members := [("outHash", c_TPM2B_DIGEST);
  ("validation", c_TPMT_TK_HASHCHECK)].
Definition HierarchyChangeAuth_In : members := [("authHandle", c_TPMI_RH_HIERARCHY_AUTH);
  ("newAuth", c_TPM2B_AUTH)].
Definition HierarchyControl_In : members := [("authHandle", c_TPMI_RH_HIERARCHY);
  ("enable", c_TPMI_RH_ENABLES); ("state", c_TPMI_YES_NO)].
Definition Import_In : members := [("parentHandle", c_TPMI_DH_OBJECT);
  ("encryptionKey", c_TPM2B_DATA); ("objectPublic", c_TPM2B_PUBLIC);
  ("duplicate", c_TPM2B_PRIVATE); ("inSymSeed", c_TPM2B_ENCRYPTED_SECRET);
  ("symmetricAlg", c_TPMT_SYM_DEF_OBJECT)].
Definition Import_Out : members := [("outPrivate", c_TPM2B_PRIVATE)].
Definition IncrementalSelfTest_In : members := [("toTest", c_TPML_ALG)].
Definition IncrementalSelfTest_Out : members := [("toDoList", c_TPML_ALG)].
Definition LoadExternal_In : members := [("inPrivate", c_TPM2B_SENSITIVE);
  ("inPublic", c_TPM2B_PUBLIC); ("hierarchy", c_TPMI_RH_HIERARCHY)].
Definition LoadExternal_Out : members := [("objectHandle", c_TPM_HANDLE); ("name", c_TPM2B_NAME)].
Definition Load_In : members := [("parentHandle", c_TPMI_DH_OBJECT);
  ("inPrivate", c_TPM2B_PRIVATE); ("inPublic", c_TPM2B_PUBLIC)].
Definition Load_Out : members := [("objectHandle", c_TPM_HANDLE); ("name", c_TPM2B_NAME)].
Definition MAC_In : members := [("handle", c_TPMI_DH_OBJECT); ("buffer", c_TPM2B_MAX_BUFFER);
  ("inScheme", c_TPMI_ALG_MAC_SCHEME)].
Definition MAC_Out : members := [("outMAC", c_TPM2B_MAX_BUFFER)].
Definition MAC_Start_In : members := [("handle", c_TPMI_DH_OBJECT); ("auth", c_TPM2B_AUTH);
  ("inScheme", c_TPMI_ALG_MAC_SCHEME)].
Definition MAC_Start_Out : members := [("sequenceHandle", c_TPMI_DH_OBJECT)].
Definition MakeCredential_In : members := [("handle", c_TPMI_DH_OBJECT);
  ("credential", c_TPM2B_DIGEST); ("objectName", c_TPM2B_NAME)].
Definition MakeCredential_Out : members := [("credentialBlob", c_TPM2B_ID_OBJECT);
  ("secret", c_TPM2B_ENCRYPTED_SECRET)].
Definition NTC2_GetConfig_Out : members := [("preConfig", c_NTC2_CFG_STRUCT)].
Definition NTC2_PreConfig_In : members := [("preConfig", c_NTC2_CFG_STRUCT)].
Definition NV_Certify_In : members := [("signHandle", c_TPMI_DH_OBJECT);
  ("authHandle", c_TPMI_RH_NV_AUTH); ("nvIndex", c_TPMI_RH_NV_INDEX);
  ("qualifyingData", c_TPM2B_DATA); ("inScheme", c_TPMT_SIG_SCHEME); ("size", c_UINT16);
  ("offset", c_UINT16)].
Definition NV_Certify_Out : members := [("certifyInfo", c_TPM2B_ATTEST);
  ("signature", c_TPMT_SIGNATURE)].
Definition NV_ChangeAuth_In : members := [("nvIndex", c_TPMI_RH_NV_INDEX);
  ("newAuth", c_TPM2B_AUTH)].
Definition NV_DefineSpace2_In : members := [("authHandle", c_TPMI_RH_PROVISION);
  ("auth", c_TPM2B_AUTH); ("publicInfo", c_TPM2B_NV_PUBLIC_2)].
Definition NV_DefineSpace_In : members := [("authHandle", c_TPMI_RH_PROVISION);
  ("auth", c_TPM2B_AUTH); ("publicInfo", c_TPM2B_NV_PUBLIC)].
Definition NV_Extend_In : members := [("authHandle", c_TPMI_RH_NV_AUTH);
  ("nvIndex", c_TPMI_RH_NV_INDEX); ("data", c_TPM2B_MAX_NV_BUFFER)].
Definition NV_GlobalWriteLock_In : members := [("authHandle", c_TPMI_RH_PROVISION)].
Definition NV_Increment_In : members := [("authHandle", c_TPMI_RH_NV_AUTH);
  ("nvIndex", c_TPMI_RH_NV_INDEX)].
Definition NV_ReadLock_In : members := [("authHandle", c_TPMI_RH_NV_AUTH);
  ("nvIndex", c_TPMI_RH_NV_INDEX)].
Definition NV_ReadPublic2_In : members := [("nvIndex", c_TPMI_RH_NV_INDEX)].
Definition NV_ReadPublic2_Out : members := [("nvPublic", c_TPM2B_NV_PUBLIC_2);
  ("nvName", c_TPM2B_NAME)].
Definition NV_ReadPublic_In : members := [("nvIndex", c_TPMI_RH_NV_INDEX)].
Definition NV_ReadPublic_Out : members := [("nvPublic", c_TPM2B_NV_PUBLIC);
  ("nvName", c_TPM2B_NAME)].
Definition NV_Read_In : members := [("authHandle", c_TPMI_RH_NV_AUTH);
  ("nvIndex", c_TPMI_RH_NV_INDEX); ("size", c_UINT16); ("offset", c_UINT16)].
Definition NV_Read_Out : members := [("data", c_TPM2B_MAX_NV_BUFFER)].
Definition NV_SetBits_In : members := [("authHandle", c_TPMI_RH_NV_AUTH);
  ("nvIndex", c_TPMI_RH_NV_INDEX); ("bits", c_UINT64)].
Definition NV_UndefineSpaceSpecial_In : members := [("nvIndex", c_TPMI_RH_NV_INDEX);
  ("platform", c_TPMI_RH_PLATFORM)].
Definition NV_UndefineSpace_In : members := [("authHandle", c_TPMI_RH_PROVISION);
  ("nvIndex", c_TPMI_RH_NV_INDEX)].
Definition NV_WriteLock_In : members := [("authHandle", c_TPMI_RH_NV_AUTH);
  ("nvIndex", c_TPMI_RH_NV_INDEX)].
Definition NV_Write_In : members := [("authHandle", c_TPMI_RH_NV_AUTH);
  ("nvIndex", c_TPMI_RH_NV_INDEX); ("data", c_TPM2B_MAX_NV_BUFFER); ("offset", c_UINT16)].
Definition ObjectChangeAuth_In : members := [("objectHandle", c_TPMI_DH_OBJECT);
  ("parentHandle", c_TPMI_DH_OBJECT); ("newAuth", c_TPM2B_AUTH)].
Definition ObjectChangeAuth_Out : members := [("outPrivate", c_TPM2B_PRIVATE)].
Definition PCR_Allocate_In : members := [("authHandle", c_TPMI_RH_PLATFORM);
  ("pcrAllocation", c_TPML_PCR_SELECTION)].
Definition PCR_Allocate_Out : members := [("allocationSuccess", c_TPMI_YES_NO);
  ("maxPCR", c_UINT32); ("sizeNeeded", c_UINT32); ("sizeAvailable", c_UINT32)].
Definition PCR_Event_In : members := [("pcrHandle", c_TPMI_DH_PCR); ("eventData", c_TPM2B_EVENT)].
Definition PCR_Event_Out : members := [("digests", c_TPML_DIGEST_VALUES)].
Definition PCR_Extend_In : members := [("pcrHandle", c_TPMI_DH_PCR);
  ("digests", c_TPML_DIGEST_VALUES)].
Definition PCR_Read_In : members := [("pcrSelectionIn", c_TPML_PCR_SELECTION)].
Definition PCR_Read_Out : members := [("pcrUpdateCounter", c_UINT32);
  ("pcrSelectionOut", c_TPML_PCR_SELECTION); ("pcrValues", c_TPML_DIGEST)].
Definition PCR_Reset_In : members := [("pcrHandle", c_TPMI_DH_PCR)].
Definition PCR_SetAuthPolicy_In : members := [("authHandle", c_TPMI_RH_PLATFORM);
  ("authPolicy", c_TPM2B_DIGEST); ("hashAlg", c_TPMI_ALG_HASH); ("pcrNum", c_TPMI_DH_PCR)].
Definition PCR_SetAuthValue_In : members := [("pcrHandle", c_TPMI_DH_PCR);
  ("auth", c_TPM2B_DIGEST)].
Definition PP_Commands_In : members := [("auth", c_TPMI_RH_PLATFORM); ("setList", c_TPML_CC);
  ("clearList", c_TPML_CC)].
Definition PolicyAuthValue_In : members := [("policySession", c_TPMI_SH_POLICY)].
Definition PolicyAuthorizeNV_In : members := [("authHandle", c_TPMI_RH_NV_AUTH);
  ("nvIndex", c_TPMI_RH_NV_INDEX); ("policySession", c_TPMI_SH_POLICY)].
Definition PolicyAuthorize_In : members := [("policySession", c_TPMI_SH_POLICY);
  ("approvedPolicy", c_TPM2B_DIGEST); ("policyRef", c_TPM2B_NONCE); ("keySign", c_TPM2B_NAME);
  ("checkTicket", c_TPMT_TK_VERIFIED)].
Definition PolicyCapability_In : members := [("policySession", c_TPMI_SH_POLICY);
  ("operandB", c_TPM2B_OPERAND); ("offset", c_UINT16); ("operation", c_TPM_EO);
  ("capability", c_TPM_CAP); ("property", c_UINT32)].
Definition PolicyCommandCode_In : members := [("policySession", c_TPMI_SH_POLICY);
  ("code", c_TPM_CC)].
Definition PolicyCounterTimer_In : members := [("policySession", c_TPMI_SH_POLICY);
  ("operandB", c_TPM2B_OPERAND); ("offset", c_UINT16); ("operation", c_TPM_EO)].
Definition PolicyCpHash_In : members := [("policySession", c_TPMI_SH_POLICY);
  ("cpHashA", c_TPM2B_DIGEST)].
Definition PolicyDuplicationSelect_In : members := [("policySession", c_TPMI_SH_POLICY);
  ("objectName", c_TPM2B_NAME); ("newParentName", c_TPM2B_NAME);
  ("includeObject", c_TPMI_YES_NO)].
Definition PolicyGetDigest_In : members := [("policySession", c_TPMI_SH_POLICY)].
Definition PolicyGetDigest_Out : members := [("policyDigest", c_TPM2B_DIGEST)].
Definition PolicyLocality_In : members := [("policySession", c_TPMI_SH_POLICY);
  ("locality", c_TPMA_LOCALITY)].
Definition PolicyNV_In : members := [("authHandle", c_TPMI_RH_NV_AUTH);
  ("nvIndex", c_TPMI_RH_NV_INDEX); ("policySession", c_TPMI_SH_POLICY);
  ("operandB", c_TPM2B_OPERAND); ("offset", c_UINT16); ("operation", c_TPM_EO)].
Definition PolicyNameHash_In : members := [("policySession", c_TPMI_SH_POLICY);
  ("nameHash", c_TPM2B_DIGEST)].
Definition PolicyNvWritten_In : members := [("policySession", c_TPMI_SH_POLICY);
  ("writtenSet", c_TPMI_YES_NO)].
Definition PolicyOR_In : members := [("policySession", c_TPMI_SH_POLICY);
  ("pHashList", c_TPML_DIGEST)].
Definition PolicyPCR_In : members := [("policySession", c_TPMI_SH_POLICY);
  ("pcrDigest", c_TPM2B_DIGEST); ("pcrs", c_TPML_PCR_SELECTION)].
Definition PolicyParameters_In : members := [("policySession", c_TPMI_SH_POLICY);
  ("pHash", c_TPM2B_DIGEST)].
Definition PolicyPassword_In : members := [("policySession", c_TPMI_SH_POLICY)].
Definition PolicyPhysicalPresence_In : members := [("policySession", c_TPMI_SH_POLICY)].
Definition PolicyRestart_In : members := [("sessionHandle", c_TPMI_SH_POLICY)].
Definition PolicySecret_In : members := [("authHandle", c_TPMI_DH_ENTITY);
  ("policySession", c_TPMI_SH_POLICY); ("nonceTPM", c_TPM2B_NONCE); ("cpHashA", c_TPM2B_DIGEST);
  ("policyRef", c_TPM2B_NONCE); ("expiration", c_INT32)].
Definition PolicySecret_Out : members := [("timeout", c_TPM2B_TIMEOUT);
  ("policyTicket", c_TPMT_TK_AUTH)].
Definition PolicySigned_In : members := [("authObject", c_TPMI_DH_OBJECT);
  ("policySession", c_TPMI_SH_POLICY); ("nonceTPM", c_TPM2B_NONCE); ("cpHashA", c_TPM2B_DIGEST);
  ("policyRef", c_TPM2B_NONCE); ("expiration", c_INT32); ("auth", c_TPMT_SIGNATURE)].
Definition PolicySigned_Out : members := [("timeout", c_TPM2B_TIMEOUT);
  ("policyTicket", c_TPMT_TK_AUTH)].
Definition PolicyTemplate_In : members := [("policySession", c_TPMI_SH_POLICY);
  ("templateHash", c_TPM2B_DIGEST)].
Definition PolicyTicket_In : members := [("policySession", c_TPMI_SH_POLICY);
  ("timeout", c_TPM2B_TIMEOUT); ("cpHashA", c_TPM2B_DIGEST); ("policyRef", c_TPM2B_NONCE);
  ("authName", c_TPM2B_NAME); ("ticket", c_TPMT_TK_AUTH)].
Definition Quote_In : members := [("signHandle", c_TPMI_DH_OBJECT);
  ("qualifyingData", c_TPM2B_DATA); ("inScheme", c_TPMT_SIG_SCHEME);
  ("PCRselect", c_TPML_PCR_SELECTION)].
Definition Quote_Out : members := [("quoted", c_TPM2B_ATTEST); ("signature", c_TPMT_SIGNATURE)].
Definition RSA_Decrypt_In : members := [("keyHandle", c_TPMI_DH_OBJECT);
  ("cipherText", c_TPM2B_PUBLIC_KEY_RSA); ("inScheme", c_TPMT_RSA_DECRYPT);
  ("label", c_TPM2B_DATA)].
Definition RSA_Decrypt_Out : members := [("message", c_TPM2B_PUBLIC_KEY_RSA)].
Definition RSA_Encrypt_In : members := [("keyHandle", c_TPMI_DH_OBJECT);
  ("message", c_TPM2B_PUBLIC_KEY_RSA); ("inScheme", c_TPMT_RSA_DECRYPT); ("label", c_TPM2B_DATA)].
Definition RSA_Encrypt_Out : members := [("outData", c_TPM2B_PUBLIC_KEY_RSA)].
Definition ReadClock_Out : members := [("currentTime", c_TPMS_TIME_INFO)].
Definition ReadPublic_In : members := [("objectHandle", c_TPMI_DH_OBJECT)].
Definition ReadPublic_Out : members := [("outPublic", c_TPM2B_PUBLIC); ("name", c_TPM2B_NAME);
  ("qualifiedName", c_TPM2B_NAME)].
Definition Rewrap_In : members := [("oldParent", c_TPMI_DH_OBJECT);
  ("newParent", c_TPMI_DH_OBJECT); ("inDuplicate", c_TPM2B_PRIVATE); ("name", c_TPM2B_NAME);
  ("inSymSeed", c_TPM2B_ENCRYPTED_SECRET)].
Definition Rewrap_Out : members := [("outDuplicate", c_TPM2B_PRIVATE);
  ("outSymSeed", c_TPM2B_ENCRYPTED_SECRET)].
Definition SelfTest_In : members := [("fullTest", c_TPMI_YES_NO)].
Definition SequenceComplete_In : members := [("sequenceHandle", c_TPMI_DH_OBJECT);
  ("buffer", c_TPM2B_MAX_BUFFER); ("hierarchy", c_TPMI_RH_HIERARCHY)].
Definition SequenceComplete_Out : members := [("result", c_TPM2B_DIGEST);
  ("validation", c_TPMT_TK_HASHCHECK)].
Definition SequenceUpdate_In : members := [("sequenceHandle", c_TPMI_DH_OBJECT);
  ("buffer", c_TPM2B_MAX_BUFFER)].
Definition SetAlgorithmSet_In : members := [("authHandle", c_TPMI_RH_PLATFORM);
  ("algorithmSet", c_UINT32)].
Definition SetCommandCodeAuditStatus_In : members := [("auth", c_TPMI_RH_PROVISION);
  ("auditAlg", c_TPMI_ALG_HASH); ("setList", c_TPML_CC); ("clearList", c_TPML_CC)].
Definition SetPrimaryPolicy_In : members := [("authHandle", c_TPMI_RH_HIERARCHY_POLICY);
  ("authPolicy", c_TPM2B_DIGEST); ("hashAlg", c_TPMI_ALG_HASH)].
Definition Shutdown_In : members := [("shutdownType", c_TPM_SU)].
Definition Sign_In : members := [("keyHandle", c_TPMI_DH_OBJECT); ("digest", c_TPM2B_DIGEST);
  ("inScheme", c_TPMT_SIG_SCHEME); ("validation", c_TPMT_TK_HASHCHECK)].
Definition Sign_Out : members := [("signature", c_TPMT_SIGNATURE)].
Definition StartAuthSession_In : members := [("tpmKey", c_TPMI_DH_OBJECT);
  ("bind", c_TPMI_DH_ENTITY); ("nonceCaller", c_TPM2B_NONCE);
  ("encryptedSalt", c_TPM2B_ENCRYPTED_SECRET); ("sessionType", c_TPM_SE);
  ("symmetric", c_TPMT_SYM_DEF); ("authHash", c_TPMI_ALG_HASH)].
Definition StartAuthSession_Out : members := [("sessionHandle", c_TPMI_SH_AUTH_SESSION);
  ("nonceTPM", c_TPM2B_NONCE)].
Definition Startup_In : members := [("startupType", c_TPM_SU)].
Definition StirRandom_In : members := [("inData", c_TPM2B_SENSITIVE_DATA)].
Definition TestParms_In : members := [("parameters", c_TPMT_PUBLIC_PARMS)].
Definition Unseal_In : members := [("itemHandle", c_TPMI_DH_OBJECT)].
Definition Unseal_Out : members := [("outData", c_TPM2B_SENSITIVE_DATA)].
Definition Vendor_TCG_Test_In : members := [("inputData", c_TPM2B_DATA)].
Definition Vendor_TCG_Test_Out : members := [("outputData", c_TPM2B_DATA)].
Definition VerifySignature_In : members := [("keyHandle", c_TPMI_DH_OBJECT);
  ("digest", c_TPM2B_DIGEST); ("signature", c_TPMT_SIGNATURE)].
Definition VerifySignature_Out : members := [("validation", c_TPMT_TK_VERIFIED)].
Definition ZGen_2Phase_In : members := [("keyA", c_TPMI_DH_OBJECT); ("inQsB", c_TPM2B_ECC_POINT);
  ("inQeB", c_TPM2B_ECC_POINT); ("inScheme", c_TPMI_ECC_KEY_EXCHANGE); ("counter", c_UINT16)].
Definition ZGen_2Phase_Out : members := [("outZ1", c_TPM2B_ECC_POINT);
  ("outZ2", c_TPM2B_ECC_POINT)].
