(* ===== verification/DispatchArrays.v ===== *)
(** * The types of parameters and the functions that unmarshal and marshal them

    CommandDispatchData.h: a parameter of a command is described by one octet, an
    index in [unmarshalArray] (a handle or parameter of the command) or in
    [marshalArray] (a handle or parameter of the response), with [ADD_FLAG] for
    the argument of the functions that take a flag.  The functions are called
    through pointers to [void]; here they work on [value], the sum of the types
    they are for. *)

From S2P Require Import Prelude TpmTypes Memory WireTypes Unmarshal Marshal CTypes CommandIO.
Local Open Scope Z_scope.

Definition END_OF_LIST : Z := 0xff.
Definition ADD_FLAG : Z := 0x80.

(** ** Index values *)

Definition TPMI_DH_CONTEXT_H_UNMARSHAL : Z := 0.
Definition TPMI_RH_AC_H_UNMARSHAL : Z := TPMI_DH_CONTEXT_H_UNMARSHAL + 1.
Definition TPMI_RH_ACT_H_UNMARSHAL : Z := TPMI_RH_AC_H_UNMARSHAL + 1.
Definition TPMI_RH_CLEAR_H_UNMARSHAL : Z := TPMI_RH_ACT_H_UNMARSHAL + 1.
Definition TPMI_RH_HIERARCHY_AUTH_H_UNMARSHAL : Z := TPMI_RH_CLEAR_H_UNMARSHAL + 1.
Definition TPMI_RH_HIERARCHY_POLICY_H_UNMARSHAL : Z := TPMI_RH_HIERARCHY_AUTH_H_UNMARSHAL + 1.
Definition TPMI_RH_LOCKOUT_H_UNMARSHAL : Z := TPMI_RH_HIERARCHY_POLICY_H_UNMARSHAL + 1.
Definition TPMI_RH_NV_AUTH_H_UNMARSHAL : Z := TPMI_RH_LOCKOUT_H_UNMARSHAL + 1.
Definition TPMI_RH_NV_INDEX_H_UNMARSHAL : Z := TPMI_RH_NV_AUTH_H_UNMARSHAL + 1.
Definition TPMI_RH_PLATFORM_H_UNMARSHAL : Z := TPMI_RH_NV_INDEX_H_UNMARSHAL + 1.
Definition TPMI_RH_PROVISION_H_UNMARSHAL : Z := TPMI_RH_PLATFORM_H_UNMARSHAL + 1.
Definition TPMI_SH_HMAC_H_UNMARSHAL : Z := TPMI_RH_PROVISION_H_UNMARSHAL + 1.
Definition TPMI_SH_POLICY_H_UNMARSHAL : Z := TPMI_SH_HMAC_H_UNMARSHAL + 1.
Definition HANDLE_FIRST_FLAG_TYPE : Z := TPMI_SH_POLICY_H_UNMARSHAL + 1.
Definition TPMI_DH_ENTITY_H_UNMARSHAL : Z := TPMI_SH_POLICY_H_UNMARSHAL + 1.
Definition TPMI_DH_OBJECT_H_UNMARSHAL : Z := TPMI_DH_ENTITY_H_UNMARSHAL + 1.
Definition TPMI_DH_PARENT_H_UNMARSHAL : Z := TPMI_DH_OBJECT_H_UNMARSHAL + 1.
Definition TPMI_DH_PCR_H_UNMARSHAL : Z := TPMI_DH_PARENT_H_UNMARSHAL + 1.
Definition TPMI_RH_ENDORSEMENT_H_UNMARSHAL : Z := TPMI_DH_PCR_H_UNMARSHAL + 1.
Definition TPMI_RH_HIERARCHY_H_UNMARSHAL : Z := TPMI_RH_ENDORSEMENT_H_UNMARSHAL + 1.
Definition PARAMETER_FIRST_TYPE : Z := TPMI_RH_HIERARCHY_H_UNMARSHAL + 1.
Definition TPM2B_DATA_P_UNMARSHAL : Z := TPMI_RH_HIERARCHY_H_UNMARSHAL + 1.
Definition TPM2B_DIGEST_P_UNMARSHAL : Z := TPM2B_DATA_P_UNMARSHAL + 1.
Definition TPM2B_ECC_PARAMETER_P_UNMARSHAL : Z := TPM2B_DIGEST_P_UNMARSHAL + 1.
Definition TPM2B_ECC_POINT_P_UNMARSHAL : Z := TPM2B_ECC_PARAMETER_P_UNMARSHAL + 1.
Definition TPM2B_ENCRYPTED_SECRET_P_UNMARSHAL : Z := TPM2B_ECC_POINT_P_UNMARSHAL + 1.
Definition TPM2B_EVENT_P_UNMARSHAL : Z := TPM2B_ENCRYPTED_SECRET_P_UNMARSHAL + 1.
Definition TPM2B_ID_OBJECT_P_UNMARSHAL : Z := TPM2B_EVENT_P_UNMARSHAL + 1.
Definition TPM2B_IV_P_UNMARSHAL : Z := TPM2B_ID_OBJECT_P_UNMARSHAL + 1.
Definition TPM2B_MAX_BUFFER_P_UNMARSHAL : Z := TPM2B_IV_P_UNMARSHAL + 1.
Definition TPM2B_MAX_NV_BUFFER_P_UNMARSHAL : Z := TPM2B_MAX_BUFFER_P_UNMARSHAL + 1.
Definition TPM2B_NAME_P_UNMARSHAL : Z := TPM2B_MAX_NV_BUFFER_P_UNMARSHAL + 1.
Definition TPM2B_NV_PUBLIC_P_UNMARSHAL : Z := TPM2B_NAME_P_UNMARSHAL + 1.
Definition TPM2B_NV_PUBLIC_2_P_UNMARSHAL : Z := TPM2B_NV_PUBLIC_P_UNMARSHAL + 1.
Definition TPM2B_PRIVATE_P_UNMARSHAL : Z := TPM2B_NV_PUBLIC_2_P_UNMARSHAL + 1.
Definition TPM2B_PUBLIC_KEY_RSA_P_UNMARSHAL : Z := TPM2B_PRIVATE_P_UNMARSHAL + 1.
Definition TPM2B_SENSITIVE_P_UNMARSHAL : Z := TPM2B_PUBLIC_KEY_RSA_P_UNMARSHAL + 1.
Definition TPM2B_SENSITIVE_CREATE_P_UNMARSHAL : Z := TPM2B_SENSITIVE_P_UNMARSHAL + 1.
Definition TPM2B_SENSITIVE_DATA_P_UNMARSHAL : Z := TPM2B_SENSITIVE_CREATE_P_UNMARSHAL + 1.
Definition TPM2B_SET_CAPABILITY_DATA_P_UNMARSHAL : Z := TPM2B_SENSITIVE_DATA_P_UNMARSHAL + 1.
Definition TPM2B_TEMPLATE_P_UNMARSHAL : Z := TPM2B_SET_CAPABILITY_DATA_P_UNMARSHAL + 1.
Definition TPM2B_TIMEOUT_P_UNMARSHAL : Z := TPM2B_TEMPLATE_P_UNMARSHAL + 1.
Definition TPMI_DH_CONTEXT_P_UNMARSHAL : Z := TPM2B_TIMEOUT_P_UNMARSHAL + 1.
Definition TPMI_DH_PERSISTENT_P_UNMARSHAL : Z := TPMI_DH_CONTEXT_P_UNMARSHAL + 1.
Definition TPMI_YES_NO_P_UNMARSHAL : Z := TPMI_DH_PERSISTENT_P_UNMARSHAL + 1.
Definition TPML_ALG_P_UNMARSHAL : Z := TPMI_YES_NO_P_UNMARSHAL + 1.
Definition TPML_CC_P_UNMARSHAL : Z := TPML_ALG_P_UNMARSHAL + 1.
Definition TPML_DIGEST_P_UNMARSHAL : Z := TPML_CC_P_UNMARSHAL + 1.
Definition TPML_DIGEST_VALUES_P_UNMARSHAL : Z := TPML_DIGEST_P_UNMARSHAL + 1.
Definition TPML_PCR_SELECTION_P_UNMARSHAL : Z := TPML_DIGEST_VALUES_P_UNMARSHAL + 1.
Definition TPMS_CONTEXT_P_UNMARSHAL : Z := TPML_PCR_SELECTION_P_UNMARSHAL + 1.
Definition TPMT_PUBLIC_PARMS_P_UNMARSHAL : Z := TPMS_CONTEXT_P_UNMARSHAL + 1.
Definition TPMT_TK_AUTH_P_UNMARSHAL : Z := TPMT_PUBLIC_PARMS_P_UNMARSHAL + 1.
Definition TPMT_TK_CREATION_P_UNMARSHAL : Z := TPMT_TK_AUTH_P_UNMARSHAL + 1.
Definition TPMT_TK_HASHCHECK_P_UNMARSHAL : Z := TPMT_TK_CREATION_P_UNMARSHAL + 1.
Definition TPMT_TK_VERIFIED_P_UNMARSHAL : Z := TPMT_TK_HASHCHECK_P_UNMARSHAL + 1.
Definition TPM_AT_P_UNMARSHAL : Z := TPMT_TK_VERIFIED_P_UNMARSHAL + 1.
Definition TPM_CAP_P_UNMARSHAL : Z := TPM_AT_P_UNMARSHAL + 1.
Definition TPM_CLOCK_ADJUST_P_UNMARSHAL : Z := TPM_CAP_P_UNMARSHAL + 1.
Definition TPM_EO_P_UNMARSHAL : Z := TPM_CLOCK_ADJUST_P_UNMARSHAL + 1.
Definition TPM_SE_P_UNMARSHAL : Z := TPM_EO_P_UNMARSHAL + 1.
Definition TPM_SU_P_UNMARSHAL : Z := TPM_SE_P_UNMARSHAL + 1.
Definition UINT16_P_UNMARSHAL : Z := TPM_SU_P_UNMARSHAL + 1.
Definition UINT32_P_UNMARSHAL : Z := UINT16_P_UNMARSHAL + 1.
Definition UINT64_P_UNMARSHAL : Z := UINT32_P_UNMARSHAL + 1.
Definition UINT8_P_UNMARSHAL : Z := UINT64_P_UNMARSHAL + 1.
Definition PARAMETER_FIRST_FLAG_TYPE : Z := UINT8_P_UNMARSHAL + 1.
Definition TPM2B_PUBLIC_P_UNMARSHAL : Z := UINT8_P_UNMARSHAL + 1.
Definition TPMI_ALG_CIPHER_MODE_P_UNMARSHAL : Z := TPM2B_PUBLIC_P_UNMARSHAL + 1.
Definition TPMI_ALG_HASH_P_UNMARSHAL : Z := TPMI_ALG_CIPHER_MODE_P_UNMARSHAL + 1.
Definition TPMI_ALG_MAC_SCHEME_P_UNMARSHAL : Z := TPMI_ALG_HASH_P_UNMARSHAL + 1.
Definition TPMI_DH_PCR_P_UNMARSHAL : Z := TPMI_ALG_MAC_SCHEME_P_UNMARSHAL + 1.
Definition TPMI_ECC_CURVE_P_UNMARSHAL : Z := TPMI_DH_PCR_P_UNMARSHAL + 1.
Definition TPMI_ECC_KEY_EXCHANGE_P_UNMARSHAL : Z := TPMI_ECC_CURVE_P_UNMARSHAL + 1.
Definition TPMI_RH_ENABLES_P_UNMARSHAL : Z := TPMI_ECC_KEY_EXCHANGE_P_UNMARSHAL + 1.
Definition TPMI_RH_HIERARCHY_P_UNMARSHAL : Z := TPMI_RH_ENABLES_P_UNMARSHAL + 1.
Definition TPMT_KDF_SCHEME_P_UNMARSHAL : Z := TPMI_RH_HIERARCHY_P_UNMARSHAL + 1.
Definition TPMT_RSA_DECRYPT_P_UNMARSHAL : Z := TPMT_KDF_SCHEME_P_UNMARSHAL + 1.
Definition TPMT_SIGNATURE_P_UNMARSHAL : Z := TPMT_RSA_DECRYPT_P_UNMARSHAL + 1.
Definition TPMT_SIG_SCHEME_P_UNMARSHAL : Z := TPMT_SIGNATURE_P_UNMARSHAL + 1.
Definition TPMT_SYM_DEF_P_UNMARSHAL : Z := TPMT_SIG_SCHEME_P_UNMARSHAL + 1.
Definition TPMT_SYM_DEF_OBJECT_P_UNMARSHAL : Z := TPMT_SYM_DEF_P_UNMARSHAL + 1.
Definition NTC2_CFG_STRUCT_P_UNMARSHAL : Z := TPMT_SYM_DEF_OBJECT_P_UNMARSHAL + 1.
Definition PARAMETER_LAST_TYPE : Z := NTC2_CFG_STRUCT_P_UNMARSHAL.

Definition UINT32_H_MARSHAL : Z := 0.
Definition RESPONSE_PARAMETER_FIRST_TYPE : Z := UINT32_H_MARSHAL + 1.
Definition TPM2B_ATTEST_P_MARSHAL : Z := UINT32_H_MARSHAL + 1.
Definition TPM2B_CREATION_DATA_P_MARSHAL : Z := TPM2B_ATTEST_P_MARSHAL + 1.
Definition TPM2B_DATA_P_MARSHAL : Z := TPM2B_CREATION_DATA_P_MARSHAL + 1.
Definition TPM2B_DIGEST_P_MARSHAL : Z := TPM2B_DATA_P_MARSHAL + 1.
Definition TPM2B_ECC_POINT_P_MARSHAL : Z := TPM2B_DIGEST_P_MARSHAL + 1.
Definition TPM2B_ENCRYPTED_SECRET_P_MARSHAL : Z := TPM2B_ECC_POINT_P_MARSHAL + 1.
Definition TPM2B_ID_OBJECT_P_MARSHAL : Z := TPM2B_ENCRYPTED_SECRET_P_MARSHAL + 1.
Definition TPM2B_IV_P_MARSHAL : Z := TPM2B_ID_OBJECT_P_MARSHAL + 1.
Definition TPM2B_MAX_BUFFER_P_MARSHAL : Z := TPM2B_IV_P_MARSHAL + 1.
Definition TPM2B_MAX_NV_BUFFER_P_MARSHAL : Z := TPM2B_MAX_BUFFER_P_MARSHAL + 1.
Definition TPM2B_NAME_P_MARSHAL : Z := TPM2B_MAX_NV_BUFFER_P_MARSHAL + 1.
Definition TPM2B_NV_PUBLIC_P_MARSHAL : Z := TPM2B_NAME_P_MARSHAL + 1.
Definition TPM2B_NV_PUBLIC_2_P_MARSHAL : Z := TPM2B_NV_PUBLIC_P_MARSHAL + 1.
Definition TPM2B_PRIVATE_P_MARSHAL : Z := TPM2B_NV_PUBLIC_2_P_MARSHAL + 1.
Definition TPM2B_PUBLIC_P_MARSHAL : Z := TPM2B_PRIVATE_P_MARSHAL + 1.
Definition TPM2B_PUBLIC_KEY_RSA_P_MARSHAL : Z := TPM2B_PUBLIC_P_MARSHAL + 1.
Definition TPM2B_SENSITIVE_DATA_P_MARSHAL : Z := TPM2B_PUBLIC_KEY_RSA_P_MARSHAL + 1.
Definition TPM2B_TIMEOUT_P_MARSHAL : Z := TPM2B_SENSITIVE_DATA_P_MARSHAL + 1.
Definition UINT8_P_MARSHAL : Z := TPM2B_TIMEOUT_P_MARSHAL + 1.
Definition TPML_AC_CAPABILITIES_P_MARSHAL : Z := UINT8_P_MARSHAL + 1.
Definition TPML_ALG_P_MARSHAL : Z := TPML_AC_CAPABILITIES_P_MARSHAL + 1.
Definition TPML_DIGEST_P_MARSHAL : Z := TPML_ALG_P_MARSHAL + 1.
Definition TPML_DIGEST_VALUES_P_MARSHAL : Z := TPML_DIGEST_P_MARSHAL + 1.
Definition TPML_PCR_SELECTION_P_MARSHAL : Z := TPML_DIGEST_VALUES_P_MARSHAL + 1.
Definition TPMS_AC_OUTPUT_P_MARSHAL : Z := TPML_PCR_SELECTION_P_MARSHAL + 1.
Definition TPMS_ALGORITHM_DETAIL_ECC_P_MARSHAL : Z := TPMS_AC_OUTPUT_P_MARSHAL + 1.
Definition TPMS_CAPABILITY_DATA_P_MARSHAL : Z := TPMS_ALGORITHM_DETAIL_ECC_P_MARSHAL + 1.
Definition TPMS_CONTEXT_P_MARSHAL : Z := TPMS_CAPABILITY_DATA_P_MARSHAL + 1.
Definition TPMS_TIME_INFO_P_MARSHAL : Z := TPMS_CONTEXT_P_MARSHAL + 1.
Definition TPMT_HA_P_MARSHAL : Z := TPMS_TIME_INFO_P_MARSHAL + 1.
Definition TPMT_SIGNATURE_P_MARSHAL : Z := TPMT_HA_P_MARSHAL + 1.
Definition TPMT_TK_AUTH_P_MARSHAL : Z := TPMT_SIGNATURE_P_MARSHAL + 1.
Definition TPMT_TK_CREATION_P_MARSHAL : Z := TPMT_TK_AUTH_P_MARSHAL + 1.
Definition TPMT_TK_HASHCHECK_P_MARSHAL : Z := TPMT_TK_CREATION_P_MARSHAL + 1.
Definition TPMT_TK_VERIFIED_P_MARSHAL : Z := TPMT_TK_HASHCHECK_P_MARSHAL + 1.
Definition UINT32_P_MARSHAL : Z := TPMT_TK_VERIFIED_P_MARSHAL + 1.
Definition UINT16_P_MARSHAL : Z := UINT32_P_MARSHAL + 1.
Definition NTC2_CFG_STRUCT_P_MARSHAL : Z := UINT16_P_MARSHAL + 1.
Definition RESPONSE_PARAMETER_LAST_TYPE : Z := NTC2_CFG_STRUCT_P_MARSHAL.

Definition INT32_P_UNMARSHAL : Z := UINT32_P_UNMARSHAL.
Definition TPM2B_AUTH_P_UNMARSHAL : Z := TPM2B_DIGEST_P_UNMARSHAL.
Definition TPM2B_NONCE_P_UNMARSHAL : Z := TPM2B_DIGEST_P_UNMARSHAL.
Definition TPM2B_OPERAND_P_UNMARSHAL : Z := TPM2B_DIGEST_P_UNMARSHAL.
Definition TPMA_LOCALITY_P_UNMARSHAL : Z := UINT8_P_UNMARSHAL.
Definition TPM_CC_P_UNMARSHAL : Z := UINT32_P_UNMARSHAL.
Definition TPMI_DH_CONTEXT_H_MARSHAL : Z := UINT32_H_MARSHAL.
Definition TPMI_DH_OBJECT_H_MARSHAL : Z := UINT32_H_MARSHAL.
Definition TPMI_SH_AUTH_SESSION_H_MARSHAL : Z := UINT32_H_MARSHAL.
Definition TPM_HANDLE_H_MARSHAL : Z := UINT32_H_MARSHAL.
Definition TPM2B_NONCE_P_MARSHAL : Z := TPM2B_DIGEST_P_MARSHAL.
Definition TPMI_YES_NO_P_MARSHAL : Z := UINT8_P_MARSHAL.
Definition TPM_RC_P_MARSHAL : Z := UINT32_P_MARSHAL.

(** ** Values *)

Inductive value :=
| V_INT8 (v : Z)
| V_UINT16 (v : Z)
| V_UINT32 (v : Z)
| V_UINT64 (v : Z)
| V_UINT8 (v : Z)
| V_TPM2B (v : TPM2B)
| V_TPM2B_CREATION_DATA (v : TPM2B_CREATION_DATA)
| V_TPM2B_ECC_POINT (v : TPM2B_ECC_POINT)
| V_TPM2B_NV_PUBLIC (v : TPM2B_NV_PUBLIC)
| V_TPM2B_NV_PUBLIC_2 (v : TPM2B_NV_PUBLIC_2)
| V_TPM2B_PUBLIC (v : TPM2B_PUBLIC)
| V_TPM2B_SENSITIVE (v : TPM2B_SENSITIVE)
| V_TPM2B_SENSITIVE_CREATE (v : TPM2B_SENSITIVE_CREATE)
| V_TPM2B_SET_CAPABILITY_DATA (v : TPM2B_SET_CAPABILITY_DATA)
| V_TPML_AC_CAPABILITIES (v : TPML_AC_CAPABILITIES)
| V_TPML_ALG (v : TPML_ALG)
| V_TPML_CC (v : TPML_CC)
| V_TPML_DIGEST (v : TPML_DIGEST)
| V_TPML_DIGEST_VALUES (v : TPML_DIGEST_VALUES)
| V_TPML_PCR_SELECTION (v : TPML_PCR_SELECTION)
| V_TPMS_AC_OUTPUT (v : TPMS_AC_OUTPUT)
| V_TPMS_ALGORITHM_DETAIL_ECC (v : TPMS_ALGORITHM_DETAIL_ECC)
| V_TPMS_CAPABILITY_DATA (v : TPMS_CAPABILITY_DATA)
| V_TPMS_CONTEXT (v : TPMS_CONTEXT)
| V_TPMS_TIME_INFO (v : TPMS_TIME_INFO)
| V_TPMT_HA (v : TPMT_HA)
| V_TPMT_KDF_SCHEME (v : TPMT_KDF_SCHEME)
| V_TPMT_PUBLIC_PARMS (v : TPMT_PUBLIC_PARMS)
| V_TPMT_RSA_DECRYPT (v : TPMT_RSA_DECRYPT)
| V_TPMT_SIGNATURE (v : TPMT_SIGNATURE)
| V_TPMT_SIG_SCHEME (v : TPMT_SIG_SCHEME)
| V_TPMT_SYM_DEF (v : TPMT_SYM_DEF)
| V_TPMT_SYM_DEF_OBJECT (v : TPMT_SYM_DEF_OBJECT)
| V_TPMT_TK_AUTH (v : TPMT_TK_AUTH)
| V_TPMT_TK_CREATION (v : TPMT_TK_CREATION)
| V_TPMT_TK_HASHCHECK (v : TPMT_TK_HASHCHECK)
| V_TPMT_TK_VERIFIED (v : TPMT_TK_VERIFIED)
| V_bytes (v : bytes).

(** ** The functions of ntc2lib.c *)

Definition NTC2_CFG_STRUCT_Unmarshal : Unm bytes :=
  Array_Unmarshal (sizeof c_NTC2_CFG_STRUCT) (sizeof c_NTC2_CFG_STRUCT).

Definition NTC2_CFG_STRUCT_Marshal (source : bytes) : Mar :=
  accumulate [Array_Marshal (sizeof c_NTC2_CFG_STRUCT) source].

(** ** The arrays *)

(** A function that takes no flag and one that does, with the type of its
    target. *)
Inductive UNMARSHAL_t :=
| NoFlagFunction (target : ctype) (f : Unm value)
| FlagFunction (target : ctype) (f : bool → Unm value).

Definition target_of (e : UNMARSHAL_t) : ctype :=
  match e with NoFlagFunction t _ | FlagFunction t _ => t end.

Record MARSHAL_t := mkMARSHAL_t { source_of : ctype; MarshalFunction : value → Mar }.

Definition unmarshal_as {A} (V : A → value) (f : Unm A) : Unm value :=
  let* a := f in uret (V a).

Definition from_INT8 (f : Z → Mar) (v : value) : Mar :=
  match v with V_INT8 x => f x | _ => undef end.
Definition from_UINT16 (f : Z → Mar) (v : value) : Mar :=
  match v with V_UINT16 x => f x | _ => undef end.
Definition from_UINT32 (f : Z → Mar) (v : value) : Mar :=
  match v with V_UINT32 x => f x | _ => undef end.
Definition from_UINT64 (f : Z → Mar) (v : value) : Mar :=
  match v with V_UINT64 x => f x | _ => undef end.
Definition from_UINT8 (f : Z → Mar) (v : value) : Mar :=
  match v with V_UINT8 x => f x | _ => undef end.
Definition from_TPM2B (f : TPM2B → Mar) (v : value) : Mar :=
  match v with V_TPM2B x => f x | _ => undef end.
Definition from_TPM2B_CREATION_DATA (f : TPM2B_CREATION_DATA → Mar) (v : value) : Mar :=
  match v with V_TPM2B_CREATION_DATA x => f x | _ => undef end.
Definition from_TPM2B_ECC_POINT (f : TPM2B_ECC_POINT → Mar) (v : value) : Mar :=
  match v with V_TPM2B_ECC_POINT x => f x | _ => undef end.
Definition from_TPM2B_NV_PUBLIC (f : TPM2B_NV_PUBLIC → Mar) (v : value) : Mar :=
  match v with V_TPM2B_NV_PUBLIC x => f x | _ => undef end.
Definition from_TPM2B_NV_PUBLIC_2 (f : TPM2B_NV_PUBLIC_2 → Mar) (v : value) : Mar :=
  match v with V_TPM2B_NV_PUBLIC_2 x => f x | _ => undef end.
Definition from_TPM2B_PUBLIC (f : TPM2B_PUBLIC → Mar) (v : value) : Mar :=
  match v with V_TPM2B_PUBLIC x => f x | _ => undef end.
Definition from_TPM2B_SENSITIVE (f : TPM2B_SENSITIVE → Mar) (v : value) : Mar :=
  match v with V_TPM2B_SENSITIVE x => f x | _ => undef end.
Definition from_TPM2B_SENSITIVE_CREATE (f : TPM2B_SENSITIVE_CREATE → Mar) (v : value) : Mar :=
  match v with V_TPM2B_SENSITIVE_CREATE x => f x | _ => undef end.
Definition from_TPM2B_SET_CAPABILITY_DATA (f : TPM2B_SET_CAPABILITY_DATA → Mar) (v : value) : Mar :=
  match v with V_TPM2B_SET_CAPABILITY_DATA x => f x | _ => undef end.
Definition from_TPML_AC_CAPABILITIES (f : TPML_AC_CAPABILITIES → Mar) (v : value) : Mar :=
  match v with V_TPML_AC_CAPABILITIES x => f x | _ => undef end.
Definition from_TPML_ALG (f : TPML_ALG → Mar) (v : value) : Mar :=
  match v with V_TPML_ALG x => f x | _ => undef end.
Definition from_TPML_CC (f : TPML_CC → Mar) (v : value) : Mar :=
  match v with V_TPML_CC x => f x | _ => undef end.
Definition from_TPML_DIGEST (f : TPML_DIGEST → Mar) (v : value) : Mar :=
  match v with V_TPML_DIGEST x => f x | _ => undef end.
Definition from_TPML_DIGEST_VALUES (f : TPML_DIGEST_VALUES → Mar) (v : value) : Mar :=
  match v with V_TPML_DIGEST_VALUES x => f x | _ => undef end.
Definition from_TPML_PCR_SELECTION (f : TPML_PCR_SELECTION → Mar) (v : value) : Mar :=
  match v with V_TPML_PCR_SELECTION x => f x | _ => undef end.
Definition from_TPMS_AC_OUTPUT (f : TPMS_AC_OUTPUT → Mar) (v : value) : Mar :=
  match v with V_TPMS_AC_OUTPUT x => f x | _ => undef end.
Definition from_TPMS_ALGORITHM_DETAIL_ECC (f : TPMS_ALGORITHM_DETAIL_ECC → Mar) (v : value) : Mar :=
  match v with V_TPMS_ALGORITHM_DETAIL_ECC x => f x | _ => undef end.
Definition from_TPMS_CAPABILITY_DATA (f : TPMS_CAPABILITY_DATA → Mar) (v : value) : Mar :=
  match v with V_TPMS_CAPABILITY_DATA x => f x | _ => undef end.
Definition from_TPMS_CONTEXT (f : TPMS_CONTEXT → Mar) (v : value) : Mar :=
  match v with V_TPMS_CONTEXT x => f x | _ => undef end.
Definition from_TPMS_TIME_INFO (f : TPMS_TIME_INFO → Mar) (v : value) : Mar :=
  match v with V_TPMS_TIME_INFO x => f x | _ => undef end.
Definition from_TPMT_HA (f : TPMT_HA → Mar) (v : value) : Mar :=
  match v with V_TPMT_HA x => f x | _ => undef end.
Definition from_TPMT_KDF_SCHEME (f : TPMT_KDF_SCHEME → Mar) (v : value) : Mar :=
  match v with V_TPMT_KDF_SCHEME x => f x | _ => undef end.
Definition from_TPMT_PUBLIC_PARMS (f : TPMT_PUBLIC_PARMS → Mar) (v : value) : Mar :=
  match v with V_TPMT_PUBLIC_PARMS x => f x | _ => undef end.
Definition from_TPMT_RSA_DECRYPT (f : TPMT_RSA_DECRYPT → Mar) (v : value) : Mar :=
  match v with V_TPMT_RSA_DECRYPT x => f x | _ => undef end.
Definition from_TPMT_SIGNATURE (f : TPMT_SIGNATURE → Mar) (v : value) : Mar :=
  match v with V_TPMT_SIGNATURE x => f x | _ => undef end.
Definition from_TPMT_SIG_SCHEME (f : TPMT_SIG_SCHEME → Mar) (v : value) : Mar :=
  match v with V_TPMT_SIG_SCHEME x => f x | _ => undef end.
Definition from_TPMT_SYM_DEF (f : TPMT_SYM_DEF → Mar) (v : value) : Mar :=
  match v with V_TPMT_SYM_DEF x => f x | _ => undef end.
Definition from_TPMT_SYM_DEF_OBJECT (f : TPMT_SYM_DEF_OBJECT → Mar) (v : value) : Mar :=
  match v with V_TPMT_SYM_DEF_OBJECT x => f x | _ => undef end.
Definition from_TPMT_TK_AUTH (f : TPMT_TK_AUTH → Mar) (v : value) : Mar :=
  match v with V_TPMT_TK_AUTH x => f x | _ => undef end.
Definition from_TPMT_TK_CREATION (f : TPMT_TK_CREATION → Mar) (v : value) : Mar :=
  match v with V_TPMT_TK_CREATION x => f x | _ => undef end.
Definition from_TPMT_TK_HASHCHECK (f : TPMT_TK_HASHCHECK → Mar) (v : value) : Mar :=
  match v with V_TPMT_TK_HASHCHECK x => f x | _ => undef end.
Definition from_TPMT_TK_VERIFIED (f : TPMT_TK_VERIFIED → Mar) (v : value) : Mar :=
  match v with V_TPMT_TK_VERIFIED x => f x | _ => undef end.
Definition from_bytes (f : bytes → Mar) (v : value) : Mar :=
  match v with V_bytes x => f x | _ => undef end.

Definition unmarshalArray : list UNMARSHAL_t := [
  NoFlagFunction c_TPMI_DH_CONTEXT (unmarshal_as V_UINT32 TPMI_DH_CONTEXT_Unmarshal);
  NoFlagFunction c_TPMI_RH_AC (unmarshal_as V_UINT32 TPMI_RH_AC_Unmarshal);
  NoFlagFunction c_TPMI_RH_ACT (unmarshal_as V_UINT32 TPMI_RH_ACT_Unmarshal);
  NoFlagFunction c_TPMI_RH_CLEAR (unmarshal_as V_UINT32 TPMI_RH_CLEAR_Unmarshal);
  NoFlagFunction c_TPMI_RH_HIERARCHY_AUTH (unmarshal_as V_UINT32 TPMI_RH_HIERARCHY_AUTH_Unmarshal);
  NoFlagFunction c_TPMI_RH_HIERARCHY_POLICY (unmarshal_as V_UINT32 TPMI_RH_HIERARCHY_POLICY_Unmarshal);
  NoFlagFunction c_TPMI_RH_LOCKOUT (unmarshal_as V_UINT32 TPMI_RH_LOCKOUT_Unmarshal);
  NoFlagFunction c_TPMI_RH_NV_AUTH (unmarshal_as V_UINT32 TPMI_RH_NV_AUTH_Unmarshal);
  NoFlagFunction c_TPMI_RH_NV_INDEX (unmarshal_as V_UINT32 TPMI_RH_NV_INDEX_Unmarshal);
  NoFlagFunction c_TPMI_RH_PLATFORM (unmarshal_as V_UINT32 TPMI_RH_PLATFORM_Unmarshal);
  NoFlagFunction c_TPMI_RH_PROVISION (unmarshal_as V_UINT32 TPMI_RH_PROVISION_Unmarshal);
  NoFlagFunction c_TPMI_SH_HMAC (unmarshal_as V_UINT32 TPMI_SH_HMAC_Unmarshal);
  NoFlagFunction c_TPMI_SH_POLICY (unmarshal_as V_UINT32 TPMI_SH_POLICY_Unmarshal);
  FlagFunction c_TPMI_DH_ENTITY (λ flag, unmarshal_as V_UINT32 (TPMI_DH_ENTITY_Unmarshal flag));
  FlagFunction c_TPMI_DH_OBJECT (λ flag, unmarshal_as V_UINT32 (TPMI_DH_OBJECT_Unmarshal flag));
  FlagFunction c_TPMI_DH_PARENT (λ flag, unmarshal_as V_UINT32 (TPMI_DH_PARENT_Unmarshal flag));
  FlagFunction c_TPMI_DH_PCR (λ flag, unmarshal_as V_UINT32 (TPMI_DH_PCR_Unmarshal flag));
  FlagFunction c_TPMI_RH_ENDORSEMENT (λ flag, unmarshal_as V_UINT32 (TPMI_RH_ENDORSEMENT_Unmarshal flag));
  FlagFunction c_TPMI_RH_HIERARCHY (λ flag, unmarshal_as V_UINT32 (TPMI_RH_HIERARCHY_Unmarshal flag));
  NoFlagFunction c_TPM2B_DATA (unmarshal_as V_TPM2B TPM2B_DATA_Unmarshal);
  NoFlagFunction c_TPM2B_DIGEST (unmarshal_as V_TPM2B TPM2B_DIGEST_Unmarshal);
  NoFlagFunction c_TPM2B_ECC_PARAMETER (unmarshal_as V_TPM2B TPM2B_ECC_PARAMETER_Unmarshal);
  NoFlagFunction c_TPM2B_ECC_POINT (unmarshal_as V_TPM2B_ECC_POINT TPM2B_ECC_POINT_Unmarshal);
  NoFlagFunction c_TPM2B_ENCRYPTED_SECRET (unmarshal_as V_TPM2B TPM2B_ENCRYPTED_SECRET_Unmarshal);
  NoFlagFunction c_TPM2B_EVENT (unmarshal_as V_TPM2B TPM2B_EVENT_Unmarshal);
  NoFlagFunction c_TPM2B_ID_OBJECT (unmarshal_as V_TPM2B TPM2B_ID_OBJECT_Unmarshal);
  NoFlagFunction c_TPM2B_IV (unmarshal_as V_TPM2B TPM2B_IV_Unmarshal);
  NoFlagFunction c_TPM2B_MAX_BUFFER (unmarshal_as V_TPM2B TPM2B_MAX_BUFFER_Unmarshal);
  NoFlagFunction c_TPM2B_MAX_NV_BUFFER (unmarshal_as V_TPM2B TPM2B_MAX_NV_BUFFER_Unmarshal);
  NoFlagFunction c_TPM2B_NAME (unmarshal_as V_TPM2B TPM2B_NAME_Unmarshal);
  NoFlagFunction c_TPM2B_NV_PUBLIC (unmarshal_as V_TPM2B_NV_PUBLIC TPM2B_NV_PUBLIC_Unmarshal);
  NoFlagFunction c_TPM2B_NV_PUBLIC_2 (unmarshal_as V_TPM2B_NV_PUBLIC_2 TPM2B_NV_PUBLIC_2_Unmarshal);
  NoFlagFunction c_TPM2B_PRIVATE (unmarshal_as V_TPM2B TPM2B_PRIVATE_Unmarshal);
  NoFlagFunction c_TPM2B_PUBLIC_KEY_RSA (unmarshal_as V_TPM2B TPM2B_PUBLIC_KEY_RSA_Unmarshal);
  NoFlagFunction c_TPM2B_SENSITIVE (unmarshal_as V_TPM2B_SENSITIVE TPM2B_SENSITIVE_Unmarshal);
  NoFlagFunction c_TPM2B_SENSITIVE_CREATE (unmarshal_as V_TPM2B_SENSITIVE_CREATE TPM2B_SENSITIVE_CREATE_Unmarshal);
  NoFlagFunction c_TPM2B_SENSITIVE_DATA (unmarshal_as V_TPM2B TPM2B_SENSITIVE_DATA_Unmarshal);
  NoFlagFunction c_TPM2B_SET_CAPABILITY_DATA (unmarshal_as V_TPM2B_SET_CAPABILITY_DATA TPM2B_SET_CAPABILITY_DATA_Unmarshal);
  NoFlagFunction c_TPM2B_TEMPLATE (unmarshal_as V_TPM2B TPM2B_TEMPLATE_Unmarshal);
  NoFlagFunction c_TPM2B_TIMEOUT (unmarshal_as V_TPM2B TPM2B_TIMEOUT_Unmarshal);
  NoFlagFunction c_TPMI_DH_CONTEXT (unmarshal_as V_UINT32 TPMI_DH_CONTEXT_Unmarshal);
  NoFlagFunction c_TPMI_DH_PERSISTENT (unmarshal_as V_UINT32 TPMI_DH_PERSISTENT_Unmarshal);
  NoFlagFunction c_TPMI_YES_NO (unmarshal_as V_UINT8 TPMI_YES_NO_Unmarshal);
  NoFlagFunction c_TPML_ALG (unmarshal_as V_TPML_ALG TPML_ALG_Unmarshal);
  NoFlagFunction c_TPML_CC (unmarshal_as V_TPML_CC TPML_CC_Unmarshal);
  NoFlagFunction c_TPML_DIGEST (unmarshal_as V_TPML_DIGEST TPML_DIGEST_Unmarshal);
  NoFlagFunction c_TPML_DIGEST_VALUES (unmarshal_as V_TPML_DIGEST_VALUES TPML_DIGEST_VALUES_Unmarshal);
  NoFlagFunction c_TPML_PCR_SELECTION (unmarshal_as V_TPML_PCR_SELECTION TPML_PCR_SELECTION_Unmarshal);
  NoFlagFunction c_TPMS_CONTEXT (unmarshal_as V_TPMS_CONTEXT TPMS_CONTEXT_Unmarshal);
  NoFlagFunction c_TPMT_PUBLIC_PARMS (unmarshal_as V_TPMT_PUBLIC_PARMS TPMT_PUBLIC_PARMS_Unmarshal);
  NoFlagFunction c_TPMT_TK_AUTH (unmarshal_as V_TPMT_TK_AUTH TPMT_TK_AUTH_Unmarshal);
  NoFlagFunction c_TPMT_TK_CREATION (unmarshal_as V_TPMT_TK_CREATION TPMT_TK_CREATION_Unmarshal);
  NoFlagFunction c_TPMT_TK_HASHCHECK (unmarshal_as V_TPMT_TK_HASHCHECK TPMT_TK_HASHCHECK_Unmarshal);
  NoFlagFunction c_TPMT_TK_VERIFIED (unmarshal_as V_TPMT_TK_VERIFIED TPMT_TK_VERIFIED_Unmarshal);
  NoFlagFunction c_TPM_AT (unmarshal_as V_UINT32 TPM_AT_Unmarshal);
  NoFlagFunction c_TPM_CAP (unmarshal_as V_UINT32 TPM_CAP_Unmarshal);
  NoFlagFunction c_TPM_CLOCK_ADJUST (unmarshal_as V_INT8 TPM_CLOCK_ADJUST_Unmarshal);
  NoFlagFunction c_TPM_EO (unmarshal_as V_UINT16 TPM_EO_Unmarshal);
  NoFlagFunction c_TPM_SE (unmarshal_as V_UINT8 TPM_SE_Unmarshal);
  NoFlagFunction c_TPM_SU (unmarshal_as V_UINT16 TPM_SU_Unmarshal);
  NoFlagFunction c_UINT16 (unmarshal_as V_UINT16 UINT16_Unmarshal);
  NoFlagFunction c_UINT32 (unmarshal_as V_UINT32 UINT32_Unmarshal);
  NoFlagFunction c_UINT64 (unmarshal_as V_UINT64 UINT64_Unmarshal);
  NoFlagFunction c_UINT8 (unmarshal_as V_UINT8 UINT8_Unmarshal);
  FlagFunction c_TPM2B_PUBLIC (λ flag, unmarshal_as V_TPM2B_PUBLIC (TPM2B_PUBLIC_Unmarshal flag));
  FlagFunction c_TPMI_ALG_CIPHER_MODE (λ flag, unmarshal_as V_UINT16 (TPMI_ALG_CIPHER_MODE_Unmarshal flag));
  FlagFunction c_TPMI_ALG_HASH (λ flag, unmarshal_as V_UINT16 (TPMI_ALG_HASH_Unmarshal flag));
  FlagFunction c_TPMI_ALG_MAC_SCHEME (λ flag, unmarshal_as V_UINT16 (TPMI_ALG_MAC_SCHEME_Unmarshal flag));
  FlagFunction c_TPMI_DH_PCR (λ flag, unmarshal_as V_UINT32 (TPMI_DH_PCR_Unmarshal flag));
  FlagFunction c_TPMI_ECC_CURVE (λ flag, unmarshal_as V_UINT16 (TPMI_ECC_CURVE_Unmarshal flag));
  FlagFunction c_TPMI_ECC_KEY_EXCHANGE (λ flag, unmarshal_as V_UINT16 (TPMI_ECC_KEY_EXCHANGE_Unmarshal flag));
  FlagFunction c_TPMI_RH_ENABLES (λ flag, unmarshal_as V_UINT32 (TPMI_RH_ENABLES_Unmarshal flag));
  FlagFunction c_TPMI_RH_HIERARCHY (λ flag, unmarshal_as V_UINT32 (TPMI_RH_HIERARCHY_Unmarshal flag));
  FlagFunction c_TPMT_KDF_SCHEME (λ flag, unmarshal_as V_TPMT_KDF_SCHEME (TPMT_KDF_SCHEME_Unmarshal flag));
  FlagFunction c_TPMT_RSA_DECRYPT (λ flag, unmarshal_as V_TPMT_RSA_DECRYPT (TPMT_RSA_DECRYPT_Unmarshal flag));
  FlagFunction c_TPMT_SIGNATURE (λ flag, unmarshal_as V_TPMT_SIGNATURE (TPMT_SIGNATURE_Unmarshal flag));
  FlagFunction c_TPMT_SIG_SCHEME (λ flag, unmarshal_as V_TPMT_SIG_SCHEME (TPMT_SIG_SCHEME_Unmarshal flag));
  FlagFunction c_TPMT_SYM_DEF (λ flag, unmarshal_as V_TPMT_SYM_DEF (TPMT_SYM_DEF_Unmarshal flag));
  FlagFunction c_TPMT_SYM_DEF_OBJECT (λ flag, unmarshal_as V_TPMT_SYM_DEF_OBJECT (TPMT_SYM_DEF_OBJECT_Unmarshal flag));
  NoFlagFunction c_NTC2_CFG_STRUCT (unmarshal_as V_bytes NTC2_CFG_STRUCT_Unmarshal)].

Definition marshalArray : list MARSHAL_t := [
  mkMARSHAL_t c_UINT32 (from_UINT32 UINT32_Marshal);
  mkMARSHAL_t c_TPM2B_ATTEST (from_TPM2B TPM2B_ATTEST_Marshal);
  mkMARSHAL_t c_TPM2B_CREATION_DATA (from_TPM2B_CREATION_DATA TPM2B_CREATION_DATA_Marshal);
  mkMARSHAL_t c_TPM2B_DATA (from_TPM2B TPM2B_DATA_Marshal);
  mkMARSHAL_t c_TPM2B_DIGEST (from_TPM2B TPM2B_DIGEST_Marshal);
  mkMARSHAL_t c_TPM2B_ECC_POINT (from_TPM2B_ECC_POINT TPM2B_ECC_POINT_Marshal);
  mkMARSHAL_t c_TPM2B_ENCRYPTED_SECRET (from_TPM2B TPM2B_ENCRYPTED_SECRET_Marshal);
  mkMARSHAL_t c_TPM2B_ID_OBJECT (from_TPM2B TPM2B_ID_OBJECT_Marshal);
  mkMARSHAL_t c_TPM2B_IV (from_TPM2B TPM2B_IV_Marshal);
  mkMARSHAL_t c_TPM2B_MAX_BUFFER (from_TPM2B TPM2B_MAX_BUFFER_Marshal);
  mkMARSHAL_t c_TPM2B_MAX_NV_BUFFER (from_TPM2B TPM2B_MAX_NV_BUFFER_Marshal);
  mkMARSHAL_t c_TPM2B_NAME (from_TPM2B TPM2B_NAME_Marshal);
  mkMARSHAL_t c_TPM2B_NV_PUBLIC (from_TPM2B_NV_PUBLIC TPM2B_NV_PUBLIC_Marshal);
  mkMARSHAL_t c_TPM2B_NV_PUBLIC_2 (from_TPM2B_NV_PUBLIC_2 TPM2B_NV_PUBLIC_2_Marshal);
  mkMARSHAL_t c_TPM2B_PRIVATE (from_TPM2B TPM2B_PRIVATE_Marshal);
  mkMARSHAL_t c_TPM2B_PUBLIC (from_TPM2B_PUBLIC TPM2B_PUBLIC_Marshal);
  mkMARSHAL_t c_TPM2B_PUBLIC_KEY_RSA (from_TPM2B TPM2B_PUBLIC_KEY_RSA_Marshal);
  mkMARSHAL_t c_TPM2B_SENSITIVE_DATA (from_TPM2B TPM2B_SENSITIVE_DATA_Marshal);
  mkMARSHAL_t c_TPM2B_TIMEOUT (from_TPM2B TPM2B_TIMEOUT_Marshal);
  mkMARSHAL_t c_UINT8 (from_UINT8 UINT8_Marshal);
  mkMARSHAL_t c_TPML_AC_CAPABILITIES (from_TPML_AC_CAPABILITIES TPML_AC_CAPABILITIES_Marshal);
  mkMARSHAL_t c_TPML_ALG (from_TPML_ALG TPML_ALG_Marshal);
  mkMARSHAL_t c_TPML_DIGEST (from_TPML_DIGEST TPML_DIGEST_Marshal);
  mkMARSHAL_t c_TPML_DIGEST_VALUES (from_TPML_DIGEST_VALUES TPML_DIGEST_VALUES_Marshal);
  mkMARSHAL_t c_TPML_PCR_SELECTION (from_TPML_PCR_SELECTION TPML_PCR_SELECTION_Marshal);
  mkMARSHAL_t c_TPMS_AC_OUTPUT (from_TPMS_AC_OUTPUT TPMS_AC_OUTPUT_Marshal);
  mkMARSHAL_t c_TPMS_ALGORITHM_DETAIL_ECC (from_TPMS_ALGORITHM_DETAIL_ECC TPMS_ALGORITHM_DETAIL_ECC_Marshal);
  mkMARSHAL_t c_TPMS_CAPABILITY_DATA (from_TPMS_CAPABILITY_DATA TPMS_CAPABILITY_DATA_Marshal);
  mkMARSHAL_t c_TPMS_CONTEXT (from_TPMS_CONTEXT TPMS_CONTEXT_Marshal);
  mkMARSHAL_t c_TPMS_TIME_INFO (from_TPMS_TIME_INFO TPMS_TIME_INFO_Marshal);
  mkMARSHAL_t c_TPMT_HA (from_TPMT_HA TPMT_HA_Marshal);
  mkMARSHAL_t c_TPMT_SIGNATURE (from_TPMT_SIGNATURE TPMT_SIGNATURE_Marshal);
  mkMARSHAL_t c_TPMT_TK_AUTH (from_TPMT_TK_AUTH TPMT_TK_AUTH_Marshal);
  mkMARSHAL_t c_TPMT_TK_CREATION (from_TPMT_TK_CREATION TPMT_TK_CREATION_Marshal);
  mkMARSHAL_t c_TPMT_TK_HASHCHECK (from_TPMT_TK_HASHCHECK TPMT_TK_HASHCHECK_Marshal);
  mkMARSHAL_t c_TPMT_TK_VERIFIED (from_TPMT_TK_VERIFIED TPMT_TK_VERIFIED_Marshal);
  mkMARSHAL_t c_UINT32 (from_UINT32 UINT32_Marshal);
  mkMARSHAL_t c_UINT16 (from_UINT16 UINT16_Marshal);
  mkMARSHAL_t c_NTC2_CFG_STRUCT (from_bytes NTC2_CFG_STRUCT_Marshal)].

(** Nothing is kept transparent that proofs do not look into. *)
#[export] Hint Opaque NTC2_CFG_STRUCT_Unmarshal NTC2_CFG_STRUCT_Marshal : typeclass_instances.
