(* ===== verification/DispatchData.v ===== *)
(** * The descriptors of the commands

    CommandDispatchData.h: for each command that is implemented, the action that
    performs it, the sizes of its input and output structures, the offsets of
    their members (the first, at 0, left out) and the types of its handles,
    parameters, and response. *)

From Stdlib Require Import String.
From S2P Require Import Prelude TpmTypes Memory WireTypes CTypes CommandIO DispatchArrays.
Local Open Scope Z_scope.
Local Open Scope string_scope.

(** The actions, by the names of their functions. *)
Inductive command_action :=
| TPM2_NV_UndefineSpaceSpecial | TPM2_EvictControl | TPM2_HierarchyControl
| TPM2_NV_UndefineSpace | TPM2_ChangeEPS | TPM2_ChangePPS | TPM2_Clear | TPM2_ClearControl
| TPM2_ClockSet | TPM2_HierarchyChangeAuth | TPM2_NV_DefineSpace | TPM2_PCR_Allocate
| TPM2_PCR_SetAuthPolicy | TPM2_PP_Commands | TPM2_SetPrimaryPolicy | TPM2_ClockRateAdjust
| TPM2_CreatePrimary | TPM2_NV_GlobalWriteLock | TPM2_GetCommandAuditDigest
| TPM2_NV_Increment | TPM2_NV_SetBits | TPM2_NV_Extend | TPM2_NV_Write | TPM2_NV_WriteLock
| TPM2_DictionaryAttackLockReset | TPM2_DictionaryAttackParameters | TPM2_NV_ChangeAuth
| TPM2_PCR_Event | TPM2_PCR_Reset | TPM2_SequenceComplete | TPM2_SetAlgorithmSet
| TPM2_SetCommandCodeAuditStatus | TPM2_IncrementalSelfTest | TPM2_SelfTest | TPM2_Startup
| TPM2_Shutdown | TPM2_StirRandom | TPM2_ActivateCredential | TPM2_Certify | TPM2_PolicyNV
| TPM2_CertifyCreation | TPM2_Duplicate | TPM2_GetTime | TPM2_GetSessionAuditDigest
| TPM2_NV_Read | TPM2_NV_ReadLock | TPM2_ObjectChangeAuth | TPM2_PolicySecret | TPM2_Rewrap
| TPM2_Create | TPM2_ECDH_ZGen | TPM2_MAC | TPM2_Import | TPM2_Load | TPM2_Quote
| TPM2_RSA_Decrypt | TPM2_MAC_Start | TPM2_SequenceUpdate | TPM2_Sign | TPM2_Unseal
| TPM2_PolicySigned | TPM2_ContextLoad | TPM2_ContextSave | TPM2_ECDH_KeyGen
| TPM2_EncryptDecrypt | TPM2_FlushContext | TPM2_LoadExternal | TPM2_MakeCredential
| TPM2_NV_ReadPublic | TPM2_PolicyAuthorize | TPM2_PolicyAuthValue | TPM2_PolicyCommandCode
| TPM2_PolicyCounterTimer | TPM2_PolicyCpHash | TPM2_PolicyLocality | TPM2_PolicyNameHash
| TPM2_PolicyOR | TPM2_PolicyTicket | TPM2_ReadPublic | TPM2_RSA_Encrypt
| TPM2_StartAuthSession | TPM2_VerifySignature | TPM2_ECC_Parameters | TPM2_GetCapability
| TPM2_GetRandom | TPM2_GetTestResult | TPM2_Hash | TPM2_PCR_Read | TPM2_PolicyPCR
| TPM2_PolicyRestart | TPM2_ReadClock | TPM2_PCR_Extend | TPM2_PCR_SetAuthValue
| TPM2_NV_Certify | TPM2_EventSequenceComplete | TPM2_HashSequenceStart
| TPM2_PolicyPhysicalPresence | TPM2_PolicyDuplicationSelect | TPM2_PolicyGetDigest
| TPM2_TestParms | TPM2_Commit | TPM2_PolicyPassword | TPM2_ZGen_2Phase | TPM2_EC_Ephemeral
| TPM2_PolicyNvWritten | TPM2_PolicyTemplate | TPM2_CreateLoaded | TPM2_PolicyAuthorizeNV
| TPM2_EncryptDecrypt2 | TPM2_CertifyX509 | TPM2_ECC_Encrypt | TPM2_ECC_Decrypt
| TPM2_PolicyCapability | TPM2_PolicyParameters | TPM2_NV_DefineSpace2 | TPM2_NV_ReadPublic2
| TPM2_Vendor_TCG_Test | NTC2_PreConfig | NTC2_LockPreConfig | NTC2_GetConfig.

(** The command codes (TpmTypes.h). *)
Definition TPM_CC (a : command_action) : Z :=
  match a with
  | TPM2_NV_UndefineSpaceSpecial => 0x0000011F
  | TPM2_EvictControl => 0x00000120
  | TPM2_HierarchyControl => 0x00000121
  | TPM2_NV_UndefineSpace => 0x00000122
  | TPM2_ChangeEPS => 0x00000124
  | TPM2_ChangePPS => 0x00000125
  | TPM2_Clear => 0x00000126
  | TPM2_ClearControl => 0x00000127
  | TPM2_ClockSet => 0x00000128
  | TPM2_HierarchyChangeAuth => 0x00000129
  | TPM2_NV_DefineSpace => 0x0000012A
  | TPM2_PCR_Allocate => 0x0000012B
  | TPM2_PCR_SetAuthPolicy => 0x0000012C
  | TPM2_PP_Commands => 0x0000012D
  | TPM2_SetPrimaryPolicy => 0x0000012E
  | TPM2_ClockRateAdjust => 0x00000130
  | TPM2_CreatePrimary => 0x00000131
  | TPM2_NV_GlobalWriteLock => 0x00000132
  | TPM2_GetCommandAuditDigest => 0x00000133
  | TPM2_NV_Increment => 0x00000134
  | TPM2_NV_SetBits => 0x00000135
  | TPM2_NV_Extend => 0x00000136
  | TPM2_NV_Write => 0x00000137
  | TPM2_NV_WriteLock => 0x00000138
  | TPM2_DictionaryAttackLockReset => 0x00000139
  | TPM2_DictionaryAttackParameters => 0x0000013A
  | TPM2_NV_ChangeAuth => 0x0000013B
  | TPM2_PCR_Event => 0x0000013C
  | TPM2_PCR_Reset => 0x0000013D
  | TPM2_SequenceComplete => 0x0000013E
  | TPM2_SetAlgorithmSet => 0x0000013F
  | TPM2_SetCommandCodeAuditStatus => 0x00000140
  | TPM2_IncrementalSelfTest => 0x00000142
  | TPM2_SelfTest => 0x00000143
  | TPM2_Startup => 0x00000144
  | TPM2_Shutdown => 0x00000145
  | TPM2_StirRandom => 0x00000146
  | TPM2_ActivateCredential => 0x00000147
  | TPM2_Certify => 0x00000148
  | TPM2_PolicyNV => 0x00000149
  | TPM2_CertifyCreation => 0x0000014A
  | TPM2_Duplicate => 0x0000014B
  | TPM2_GetTime => 0x0000014C
  | TPM2_GetSessionAuditDigest => 0x0000014D
  | TPM2_NV_Read => 0x0000014E
  | TPM2_NV_ReadLock => 0x0000014F
  | TPM2_ObjectChangeAuth => 0x00000150
  | TPM2_PolicySecret => 0x00000151
  | TPM2_Rewrap => 0x00000152
  | TPM2_Create => 0x00000153
  | TPM2_ECDH_ZGen => 0x00000154
  | TPM2_MAC => 0x00000155
  | TPM2_Import => 0x00000156
  | TPM2_Load => 0x00000157
  | TPM2_Quote => 0x00000158
  | TPM2_RSA_Decrypt => 0x00000159
  | TPM2_MAC_Start => 0x0000015B
  | TPM2_SequenceUpdate => 0x0000015C
  | TPM2_Sign => 0x0000015D
  | TPM2_Unseal => 0x0000015E
  | TPM2_PolicySigned => 0x00000160
  | TPM2_ContextLoad => 0x00000161
  | TPM2_ContextSave => 0x00000162
  | TPM2_ECDH_KeyGen => 0x00000163
  | TPM2_EncryptDecrypt => 0x00000164
  | TPM2_FlushContext => 0x00000165
  | TPM2_LoadExternal => 0x00000167
  | TPM2_MakeCredential => 0x00000168
  | TPM2_NV_ReadPublic => 0x00000169
  | TPM2_PolicyAuthorize => 0x0000016A
  | TPM2_PolicyAuthValue => 0x0000016B
  | TPM2_PolicyCommandCode => 0x0000016C
  | TPM2_PolicyCounterTimer => 0x0000016D
  | TPM2_PolicyCpHash => 0x0000016E
  | TPM2_PolicyLocality => 0x0000016F
  | TPM2_PolicyNameHash => 0x00000170
  | TPM2_PolicyOR => 0x00000171
  | TPM2_PolicyTicket => 0x00000172
  | TPM2_ReadPublic => 0x00000173
  | TPM2_RSA_Encrypt => 0x00000174
  | TPM2_StartAuthSession => 0x00000176
  | TPM2_VerifySignature => 0x00000177
  | TPM2_ECC_Parameters => 0x00000178
  | TPM2_GetCapability => 0x0000017A
  | TPM2_GetRandom => 0x0000017B
  | TPM2_GetTestResult => 0x0000017C
  | TPM2_Hash => 0x0000017D
  | TPM2_PCR_Read => 0x0000017E
  | TPM2_PolicyPCR => 0x0000017F
  | TPM2_PolicyRestart => 0x00000180
  | TPM2_ReadClock => 0x00000181
  | TPM2_PCR_Extend => 0x00000182
  | TPM2_PCR_SetAuthValue => 0x00000183
  | TPM2_NV_Certify => 0x00000184
  | TPM2_EventSequenceComplete => 0x00000185
  | TPM2_HashSequenceStart => 0x00000186
  | TPM2_PolicyPhysicalPresence => 0x00000187
  | TPM2_PolicyDuplicationSelect => 0x00000188
  | TPM2_PolicyGetDigest => 0x00000189
  | TPM2_TestParms => 0x0000018A
  | TPM2_Commit => 0x0000018B
  | TPM2_PolicyPassword => 0x0000018C
  | TPM2_ZGen_2Phase => 0x0000018D
  | TPM2_EC_Ephemeral => 0x0000018E
  | TPM2_PolicyNvWritten => 0x0000018F
  | TPM2_PolicyTemplate => 0x00000190
  | TPM2_CreateLoaded => 0x00000191
  | TPM2_PolicyAuthorizeNV => 0x00000192
  | TPM2_EncryptDecrypt2 => 0x00000193
  | TPM2_CertifyX509 => 0x00000197
  | TPM2_ECC_Encrypt => 0x00000199
  | TPM2_ECC_Decrypt => 0x0000019A
  | TPM2_PolicyCapability => 0x0000019B
  | TPM2_PolicyParameters => 0x0000019C
  | TPM2_NV_DefineSpace2 => 0x0000019D
  | TPM2_NV_ReadPublic2 => 0x0000019E
  | TPM2_Vendor_TCG_Test => 0x20000000
  | NTC2_PreConfig => 0x20000211
  | NTC2_LockPreConfig => 0x20000212
  | NTC2_GetConfig => 0x20000213
  end.

Record COMMAND_DESCRIPTOR_t := mkDescriptor {
  d_command : command_action;
  d_inSize : Z;
  d_outSize : Z;
  d_offsets : list Z;
  d_types : list Z }.

(** The structure an action takes, as its entry in the table declares it. *)
Definition action_in (a : command_action) : members :=
  match a with
  | TPM2_NV_UndefineSpaceSpecial => NV_UndefineSpaceSpecial_In
  | TPM2_EvictControl => EvictControl_In
  | TPM2_HierarchyControl => HierarchyControl_In
  | TPM2_NV_UndefineSpace => NV_UndefineSpace_In
  | TPM2_ChangeEPS => ChangeEPS_In
  | TPM2_ChangePPS => ChangePPS_In
  | TPM2_Clear => Clear_In
  | TPM2_ClearControl => ClearControl_In
  | TPM2_ClockSet => ClockSet_In
  | TPM2_HierarchyChangeAuth => HierarchyChangeAuth_In
  | TPM2_NV_DefineSpace => NV_DefineSpace_In
  | TPM2_PCR_Allocate => PCR_Allocate_In
  | TPM2_PCR_SetAuthPolicy => PCR_SetAuthPolicy_In
  | TPM2_PP_Commands => PP_Commands_In
  | TPM2_SetPrimaryPolicy => SetPrimaryPolicy_In
  | TPM2_ClockRateAdjust => ClockRateAdjust_In
  | TPM2_CreatePrimary => CreatePrimary_In
  | TPM2_NV_GlobalWriteLock => NV_GlobalWriteLock_In
  | TPM2_GetCommandAuditDigest => GetCommandAuditDigest_In
  | TPM2_NV_Increment => NV_Increment_In
  | TPM2_NV_SetBits => NV_SetBits_In
  | TPM2_NV_Extend => NV_Extend_In
  | TPM2_NV_Write => NV_Write_In
  | TPM2_NV_WriteLock => NV_WriteLock_In
  | TPM2_DictionaryAttackLockReset => DictionaryAttackLockReset_In
  | TPM2_DictionaryAttackParameters => DictionaryAttackParameters_In
  | TPM2_NV_ChangeAuth => NV_ChangeAuth_In
  | TPM2_PCR_Event => PCR_Event_In
  | TPM2_PCR_Reset => PCR_Reset_In
  | TPM2_SequenceComplete => SequenceComplete_In
  | TPM2_SetAlgorithmSet => SetAlgorithmSet_In
  | TPM2_SetCommandCodeAuditStatus => SetCommandCodeAuditStatus_In
  | TPM2_IncrementalSelfTest => IncrementalSelfTest_In
  | TPM2_SelfTest => SelfTest_In
  | TPM2_Startup => Startup_In
  | TPM2_Shutdown => Shutdown_In
  | TPM2_StirRandom => StirRandom_In
  | TPM2_ActivateCredential => ActivateCredential_In
  | TPM2_Certify => Certify_In
  | TPM2_PolicyNV => PolicyNV_In
  | TPM2_CertifyCreation => CertifyCreation_In
  | TPM2_Duplicate => Duplicate_In
  | TPM2_GetTime => GetTime_In
  | TPM2_GetSessionAuditDigest => GetSessionAuditDigest_In
  | TPM2_NV_Read => NV_Read_In
  | TPM2_NV_ReadLock => NV_ReadLock_In
  | TPM2_ObjectChangeAuth => ObjectChangeAuth_In
  | TPM2_PolicySecret => PolicySecret_In
  | TPM2_Rewrap => Rewrap_In
  | TPM2_Create => Create_In
  | TPM2_ECDH_ZGen => ECDH_ZGen_In
  | TPM2_MAC => MAC_In
  | TPM2_Import => Import_In
  | TPM2_Load => Load_In
  | TPM2_Quote => Quote_In
  | TPM2_RSA_Decrypt => RSA_Decrypt_In
  | TPM2_MAC_Start => MAC_Start_In
  | TPM2_SequenceUpdate => SequenceUpdate_In
  | TPM2_Sign => Sign_In
  | TPM2_Unseal => Unseal_In
  | TPM2_PolicySigned => PolicySigned_In
  | TPM2_ContextLoad => ContextLoad_In
  | TPM2_ContextSave => ContextSave_In
  | TPM2_ECDH_KeyGen => ECDH_KeyGen_In
  | TPM2_EncryptDecrypt => EncryptDecrypt_In
  | TPM2_FlushContext => FlushContext_In
  | TPM2_LoadExternal => LoadExternal_In
  | TPM2_MakeCredential => MakeCredential_In
  | TPM2_NV_ReadPublic => NV_ReadPublic_In
  | TPM2_PolicyAuthorize => PolicyAuthorize_In
  | TPM2_PolicyAuthValue => PolicyAuthValue_In
  | TPM2_PolicyCommandCode => PolicyCommandCode_In
  | TPM2_PolicyCounterTimer => PolicyCounterTimer_In
  | TPM2_PolicyCpHash => PolicyCpHash_In
  | TPM2_PolicyLocality => PolicyLocality_In
  | TPM2_PolicyNameHash => PolicyNameHash_In
  | TPM2_PolicyOR => PolicyOR_In
  | TPM2_PolicyTicket => PolicyTicket_In
  | TPM2_ReadPublic => ReadPublic_In
  | TPM2_RSA_Encrypt => RSA_Encrypt_In
  | TPM2_StartAuthSession => StartAuthSession_In
  | TPM2_VerifySignature => VerifySignature_In
  | TPM2_ECC_Parameters => ECC_Parameters_In
  | TPM2_GetCapability => GetCapability_In
  | TPM2_GetRandom => GetRandom_In
  | TPM2_Hash => Hash_In
  | TPM2_PCR_Read => PCR_Read_In
  | TPM2_PolicyPCR => PolicyPCR_In
  | TPM2_PolicyRestart => PolicyRestart_In
  | TPM2_PCR_Extend => PCR_Extend_In
  | TPM2_PCR_SetAuthValue => PCR_SetAuthValue_In
  | TPM2_NV_Certify => NV_Certify_In
  | TPM2_EventSequenceComplete => EventSequenceComplete_In
  | TPM2_HashSequenceStart => HashSequenceStart_In
  | TPM2_PolicyPhysicalPresence => PolicyPhysicalPresence_In
  | TPM2_PolicyDuplicationSelect => PolicyDuplicationSelect_In
  | TPM2_PolicyGetDigest => PolicyGetDigest_In
  | TPM2_TestParms => TestParms_In
  | TPM2_Commit => Commit_In
  | TPM2_PolicyPassword => PolicyPassword_In
  | TPM2_ZGen_2Phase => ZGen_2Phase_In
  | TPM2_EC_Ephemeral => EC_Ephemeral_In
  | TPM2_PolicyNvWritten => PolicyNvWritten_In
  | TPM2_PolicyTemplate => PolicyTemplate_In
  | TPM2_CreateLoaded => CreateLoaded_In
  | TPM2_PolicyAuthorizeNV => PolicyAuthorizeNV_In
  | TPM2_EncryptDecrypt2 => EncryptDecrypt2_In
  | TPM2_CertifyX509 => CertifyX509_In
  | TPM2_ECC_Encrypt => ECC_Encrypt_In
  | TPM2_ECC_Decrypt => ECC_Decrypt_In
  | TPM2_PolicyCapability => PolicyCapability_In
  | TPM2_PolicyParameters => PolicyParameters_In
  | TPM2_NV_DefineSpace2 => NV_DefineSpace2_In
  | TPM2_NV_ReadPublic2 => NV_ReadPublic2_In
  | TPM2_Vendor_TCG_Test => Vendor_TCG_Test_In
  | NTC2_PreConfig => NTC2_PreConfig_In
  | _ => []
  end.

(** The structure an action returns. *)
Definition action_out (a : command_action) : members :=
  match a with
  | TPM2_PCR_Allocate => PCR_Allocate_Out
  | TPM2_CreatePrimary => CreatePrimary_Out
  | TPM2_GetCommandAuditDigest => GetCommandAuditDigest_Out
  | TPM2_PCR_Event => PCR_Event_Out
  | TPM2_SequenceComplete => SequenceComplete_Out
  | TPM2_IncrementalSelfTest => IncrementalSelfTest_Out
  | TPM2_ActivateCredential => ActivateCredential_Out
  | TPM2_Certify => Certify_Out
  | TPM2_CertifyCreation => CertifyCreation_Out
  | TPM2_Duplicate => Duplicate_Out
  | TPM2_GetTime => GetTime_Out
  | TPM2_GetSessionAuditDigest => GetSessionAuditDigest_Out
  | TPM2_NV_Read => NV_Read_Out
  | TPM2_ObjectChangeAuth => ObjectChangeAuth_Out
  | TPM2_PolicySecret => PolicySecret_Out
  | TPM2_Rewrap => Rewrap_Out
  | TPM2_Create => Create_Out
  | TPM2_ECDH_ZGen => ECDH_ZGen_Out
  | TPM2_MAC => MAC_Out
  | TPM2_Import => Import_Out
  | TPM2_Load => Load_Out
  | TPM2_Quote => Quote_Out
  | TPM2_RSA_Decrypt => RSA_Decrypt_Out
  | TPM2_MAC_Start => MAC_Start_Out
  | TPM2_Sign => Sign_Out
  | TPM2_Unseal => Unseal_Out
  | TPM2_PolicySigned => PolicySigned_Out
  | TPM2_ContextLoad => ContextLoad_Out
  | TPM2_ContextSave => ContextSave_Out
  | TPM2_ECDH_KeyGen => ECDH_KeyGen_Out
  | TPM2_EncryptDecrypt => EncryptDecrypt_Out
  | TPM2_LoadExternal => LoadExternal_Out
  | TPM2_MakeCredential => MakeCredential_Out
  | TPM2_NV_ReadPublic => NV_ReadPublic_Out
  | TPM2_ReadPublic => ReadPublic_Out
  | TPM2_RSA_Encrypt => RSA_Encrypt_Out
  | TPM2_StartAuthSession => StartAuthSession_Out
  | TPM2_VerifySignature => VerifySignature_Out
  | TPM2_ECC_Parameters => ECC_Parameters_Out
  | TPM2_GetCapability => GetCapability_Out
  | TPM2_GetRandom => GetRandom_Out
  | TPM2_GetTestResult => GetTestResult_Out
  | TPM2_Hash => Hash_Out
  | TPM2_PCR_Read => PCR_Read_Out
  | TPM2_ReadClock => ReadClock_Out
  | TPM2_NV_Certify => NV_Certify_Out
  | TPM2_EventSequenceComplete => EventSequenceComplete_Out
  | TPM2_HashSequenceStart => HashSequenceStart_Out
  | TPM2_PolicyGetDigest => PolicyGetDigest_Out
  | TPM2_Commit => Commit_Out
  | TPM2_ZGen_2Phase => ZGen_2Phase_Out
  | TPM2_EC_Ephemeral => EC_Ephemeral_Out
  | TPM2_CreateLoaded => CreateLoaded_Out
  | TPM2_EncryptDecrypt2 => EncryptDecrypt2_Out
  | TPM2_CertifyX509 => CertifyX509_Out
  | TPM2_ECC_Encrypt => ECC_Encrypt_Out
  | TPM2_ECC_Decrypt => ECC_Decrypt_Out
  | TPM2_NV_ReadPublic2 => NV_ReadPublic2_Out
  | TPM2_Vendor_TCG_Test => Vendor_TCG_Test_Out
  | NTC2_GetConfig => NTC2_GetConfig_Out
  | _ => []
  end.

Definition _StartupData : COMMAND_DESCRIPTOR_t :=
  mkDescriptor TPM2_Startup
    (u16 (sizeof (struct Startup_In))) 0
    []
    [TPM_SU_P_UNMARSHAL; END_OF_LIST; END_OF_LIST].

Definition _ShutdownData : COMMAND_DESCRIPTOR_t :=
  mkDescriptor TPM2_Shutdown
    (u16 (sizeof (struct Shutdown_In))) 0
    []
    [TPM_SU_P_UNMARSHAL; END_OF_LIST; END_OF_LIST].

Definition _SelfTestData : COMMAND_DESCRIPTOR_t :=
  mkDescriptor TPM2_SelfTest
    (u16 (sizeof (struct SelfTest_In))) 0
    []
    [TPMI_YES_NO_P_UNMARSHAL; END_OF_LIST; END_OF_LIST].

Definition _IncrementalSelfTestData : COMMAND_DESCRIPTOR_t :=
  mkDescriptor TPM2_IncrementalSelfTest
    (u16 (sizeof (struct IncrementalSelfTest_In))) (u16 (sizeof (struct IncrementalSelfTest_Out)))
    []
    [TPML_ALG_P_UNMARSHAL; END_OF_LIST; TPML_ALG_P_MARSHAL; END_OF_LIST].

Definition _GetTestResultData : COMMAND_DESCRIPTOR_t :=
  mkDescriptor TPM2_GetTestResult
    0 (u16 (sizeof (struct GetTestResult_Out)))
    [u16 (offsetof GetTestResult_Out "testResult")]
    [END_OF_LIST; TPM2B_MAX_BUFFER_P_MARSHAL; TPM_RC_P_MARSHAL; END_OF_LIST].

Definition _StartAuthSessionData : COMMAND_DESCRIPTOR_t :=
  mkDescriptor TPM2_StartAuthSession
    (u16 (sizeof (struct StartAuthSession_In))) (u16 (sizeof (struct StartAuthSession_Out)))
    [u16 (offsetof StartAuthSession_In "bind"); u16 (offsetof StartAuthSession_In "nonceCaller");
     u16 (offsetof StartAuthSession_In "encryptedSalt");
     u16 (offsetof StartAuthSession_In "sessionType");
     u16 (offsetof StartAuthSession_In "symmetric"); u16 (offsetof StartAuthSession_In "authHash");
     u16 (offsetof StartAuthSession_Out "nonceTPM")]
    [TPMI_DH_OBJECT_H_UNMARSHAL + ADD_FLAG; TPMI_DH_ENTITY_H_UNMARSHAL + ADD_FLAG;
     TPM2B_NONCE_P_UNMARSHAL; TPM2B_ENCRYPTED_SECRET_P_UNMARSHAL; TPM_SE_P_UNMARSHAL;
     TPMT_SYM_DEF_P_UNMARSHAL + ADD_FLAG; TPMI_ALG_HASH_P_UNMARSHAL; END_OF_LIST;
     TPMI_SH_AUTH_SESSION_H_MARSHAL; TPM2B_NONCE_P_MARSHAL; END_OF_LIST].

Definition _PolicyRestartData : COMMAND_DESCRIPTOR_t :=
  mkDescriptor TPM2_PolicyRestart
    (u16 (sizeof (struct PolicyRestart_In))) 0
    []
    [TPMI_SH_POLICY_H_UNMARSHAL; END_OF_LIST; END_OF_LIST].

Definition _CreateData : COMMAND_DESCRIPTOR_t :=
  mkDescriptor TPM2_Create
    (u16 (sizeof (struct Create_In))) (u16 (sizeof (struct Create_Out)))
    [u16 (offsetof Create_In "inSensitive"); u16 (offsetof Create_In "inPublic");
     u16 (offsetof Create_In "outsideInfo"); u16 (offsetof Create_In "creationPCR");
     u16 (offsetof Create_Out "outPublic"); u16 (offsetof Create_Out "creationData");
     u16 (offsetof Create_Out "creationHash"); u16 (offsetof Create_Out "creationTicket")]
    [TPMI_DH_OBJECT_H_UNMARSHAL; TPM2B_SENSITIVE_CREATE_P_UNMARSHAL; TPM2B_PUBLIC_P_UNMARSHAL;
     TPM2B_DATA_P_UNMARSHAL; TPML_PCR_SELECTION_P_UNMARSHAL; END_OF_LIST; TPM2B_PRIVATE_P_MARSHAL;
     TPM2B_PUBLIC_P_MARSHAL; TPM2B_CREATION_DATA_P_MARSHAL; TPM2B_DIGEST_P_MARSHAL;
     TPMT_TK_CREATION_P_MARSHAL; END_OF_LIST].

Definition _LoadData : COMMAND_DESCRIPTOR_t :=
  mkDescriptor TPM2_Load
    (u16 (sizeof (struct Load_In))) (u16 (sizeof (struct Load_Out)))
    [u16 (offsetof Load_In "inPrivate"); u16 (offsetof Load_In "inPublic");
     u16 (offsetof Load_Out "name")]
    [TPMI_DH_OBJECT_H_UNMARSHAL; TPM2B_PRIVATE_P_UNMARSHAL; TPM2B_PUBLIC_P_UNMARSHAL; END_OF_LIST;
     TPM_HANDLE_H_MARSHAL; TPM2B_NAME_P_MARSHAL; END_OF_LIST].

Definition _LoadExternalData : COMMAND_DESCRIPTOR_t :=
  mkDescriptor TPM2_LoadExternal
    (u16 (sizeof (struct LoadExternal_In))) (u16 (sizeof (struct LoadExternal_Out)))
    [u16 (offsetof LoadExternal_In "inPublic"); u16 (offsetof LoadExternal_In "hierarchy");
     u16 (offsetof LoadExternal_Out "name")]
    [TPM2B_SENSITIVE_P_UNMARSHAL; TPM2B_PUBLIC_P_UNMARSHAL + ADD_FLAG;
     TPMI_RH_HIERARCHY_P_UNMARSHAL + ADD_FLAG; END_OF_LIST; TPM_HANDLE_H_MARSHAL;
     TPM2B_NAME_P_MARSHAL; END_OF_LIST].

Definition _ReadPublicData : COMMAND_DESCRIPTOR_t :=
  mkDescriptor TPM2_ReadPublic
    (u16 (sizeof (struct ReadPublic_In))) (u16 (sizeof (struct ReadPublic_Out)))
    [u16 (offsetof ReadPublic_Out "name"); u16 (offsetof ReadPublic_Out "qualifiedName")]
    [TPMI_DH_OBJECT_H_UNMARSHAL; END_OF_LIST; TPM2B_PUBLIC_P_MARSHAL; TPM2B_NAME_P_MARSHAL;
     TPM2B_NAME_P_MARSHAL; END_OF_LIST].

Definition _ActivateCredentialData : COMMAND_DESCRIPTOR_t :=
  mkDescriptor TPM2_ActivateCredential
    (u16 (sizeof (struct ActivateCredential_In))) (u16 (sizeof (struct ActivateCredential_Out)))
    [u16 (offsetof ActivateCredential_In "keyHandle");
     u16 (offsetof ActivateCredential_In "credentialBlob");
     u16 (offsetof ActivateCredential_In "secret")]
    [TPMI_DH_OBJECT_H_UNMARSHAL; TPMI_DH_OBJECT_H_UNMARSHAL; TPM2B_ID_OBJECT_P_UNMARSHAL;
     TPM2B_ENCRYPTED_SECRET_P_UNMARSHAL; END_OF_LIST; TPM2B_DIGEST_P_MARSHAL; END_OF_LIST].

Definition _MakeCredentialData : COMMAND_DESCRIPTOR_t :=
  mkDescriptor TPM2_MakeCredential
    (u16 (sizeof (struct MakeCredential_In))) (u16 (sizeof (struct MakeCredential_Out)))
    [u16 (offsetof MakeCredential_In "credential"); u16 (offsetof MakeCredential_In "objectName");
     u16 (offsetof MakeCredential_Out "secret")]
    [TPMI_DH_OBJECT_H_UNMARSHAL; TPM2B_DIGEST_P_UNMARSHAL; TPM2B_NAME_P_UNMARSHAL; END_OF_LIST;
     TPM2B_ID_OBJECT_P_MARSHAL; TPM2B_ENCRYPTED_SECRET_P_MARSHAL; END_OF_LIST].

Definition _UnsealData : COMMAND_DESCRIPTOR_t :=
  mkDescriptor TPM2_Unseal
    (u16 (sizeof (struct Unseal_In))) (u16 (sizeof (struct Unseal_Out)))
    []
    [TPMI_DH_OBJECT_H_UNMARSHAL; END_OF_LIST; TPM2B_SENSITIVE_DATA_P_MARSHAL; END_OF_LIST].

Definition _ObjectChangeAuthData : COMMAND_DESCRIPTOR_t :=
  mkDescriptor TPM2_ObjectChangeAuth
    (u16 (sizeof (struct ObjectChangeAuth_In))) (u16 (sizeof (struct ObjectChangeAuth_Out)))
    [u16 (offsetof ObjectChangeAuth_In "parentHandle");
     u16 (offsetof ObjectChangeAuth_In "newAuth")]
    [TPMI_DH_OBJECT_H_UNMARSHAL; TPMI_DH_OBJECT_H_UNMARSHAL; TPM2B_AUTH_P_UNMARSHAL; END_OF_LIST;
     TPM2B_PRIVATE_P_MARSHAL; END_OF_LIST].

Definition _CreateLoadedData : COMMAND_DESCRIPTOR_t :=
  mkDescriptor TPM2_CreateLoaded
    (u16 (sizeof (struct CreateLoaded_In))) (u16 (sizeof (struct CreateLoaded_Out)))
    [u16 (offsetof CreateLoaded_In "inSensitive"); u16 (offsetof CreateLoaded_In "inPublic");
     u16 (offsetof CreateLoaded_Out "outPrivate"); u16 (offsetof CreateLoaded_Out "outPublic");
     u16 (offsetof CreateLoaded_Out "name")]
    [TPMI_DH_PARENT_H_UNMARSHAL + ADD_FLAG; TPM2B_SENSITIVE_CREATE_P_UNMARSHAL;
     TPM2B_TEMPLATE_P_UNMARSHAL; END_OF_LIST; TPM_HANDLE_H_MARSHAL; TPM2B_PRIVATE_P_MARSHAL;
     TPM2B_PUBLIC_P_MARSHAL; TPM2B_NAME_P_MARSHAL; END_OF_LIST].

Definition _DuplicateData : COMMAND_DESCRIPTOR_t :=
  mkDescriptor TPM2_Duplicate
    (u16 (sizeof (struct Duplicate_In))) (u16 (sizeof (struct Duplicate_Out)))
    [u16 (offsetof Duplicate_In "newParentHandle"); u16 (offsetof Duplicate_In "encryptionKeyIn");
     u16 (offsetof Duplicate_In "symmetricAlg"); u16 (offsetof Duplicate_Out "duplicate");
     u16 (offsetof Duplicate_Out "outSymSeed")]
    [TPMI_DH_OBJECT_H_UNMARSHAL; TPMI_DH_OBJECT_H_UNMARSHAL + ADD_FLAG; TPM2B_DATA_P_UNMARSHAL;
     TPMT_SYM_DEF_OBJECT_P_UNMARSHAL + ADD_FLAG; END_OF_LIST; TPM2B_DATA_P_MARSHAL;
     TPM2B_PRIVATE_P_MARSHAL; TPM2B_ENCRYPTED_SECRET_P_MARSHAL; END_OF_LIST].

Definition _RewrapData : COMMAND_DESCRIPTOR_t :=
  mkDescriptor TPM2_Rewrap
    (u16 (sizeof (struct Rewrap_In))) (u16 (sizeof (struct Rewrap_Out)))
    [u16 (offsetof Rewrap_In "newParent"); u16 (offsetof Rewrap_In "inDuplicate");
     u16 (offsetof Rewrap_In "name"); u16 (offsetof Rewrap_In "inSymSeed");
     u16 (offsetof Rewrap_Out "outSymSeed")]
    [TPMI_DH_OBJECT_H_UNMARSHAL + ADD_FLAG; TPMI_DH_OBJECT_H_UNMARSHAL + ADD_FLAG;
     TPM2B_PRIVATE_P_UNMARSHAL; TPM2B_NAME_P_UNMARSHAL; TPM2B_ENCRYPTED_SECRET_P_UNMARSHAL;
     END_OF_LIST; TPM2B_PRIVATE_P_MARSHAL; TPM2B_ENCRYPTED_SECRET_P_MARSHAL; END_OF_LIST].

Definition _ImportData : COMMAND_DESCRIPTOR_t :=
  mkDescriptor TPM2_Import
    (u16 (sizeof (struct Import_In))) (u16 (sizeof (struct Import_Out)))
    [u16 (offsetof Import_In "encryptionKey"); u16 (offsetof Import_In "objectPublic");
     u16 (offsetof Import_In "duplicate"); u16 (offsetof Import_In "inSymSeed");
     u16 (offsetof Import_In "symmetricAlg")]
    [TPMI_DH_OBJECT_H_UNMARSHAL; TPM2B_DATA_P_UNMARSHAL; TPM2B_PUBLIC_P_UNMARSHAL;
     TPM2B_PRIVATE_P_UNMARSHAL; TPM2B_ENCRYPTED_SECRET_P_UNMARSHAL;
     TPMT_SYM_DEF_OBJECT_P_UNMARSHAL + ADD_FLAG; END_OF_LIST; TPM2B_PRIVATE_P_MARSHAL;
     END_OF_LIST].

Definition _RSA_EncryptData : COMMAND_DESCRIPTOR_t :=
  mkDescriptor TPM2_RSA_Encrypt
    (u16 (sizeof (struct RSA_Encrypt_In))) (u16 (sizeof (struct RSA_Encrypt_Out)))
    [u16 (offsetof RSA_Encrypt_In "message"); u16 (offsetof RSA_Encrypt_In "inScheme");
     u16 (offsetof RSA_Encrypt_In "label")]
    [TPMI_DH_OBJECT_H_UNMARSHAL; TPM2B_PUBLIC_KEY_RSA_P_UNMARSHAL;
     TPMT_RSA_DECRYPT_P_UNMARSHAL + ADD_FLAG; TPM2B_DATA_P_UNMARSHAL; END_OF_LIST;
     TPM2B_PUBLIC_KEY_RSA_P_MARSHAL; END_OF_LIST].

Definition _RSA_DecryptData : COMMAND_DESCRIPTOR_t :=
  mkDescriptor TPM2_RSA_Decrypt
    (u16 (sizeof (struct RSA_Decrypt_In))) (u16 (sizeof (struct RSA_Decrypt_Out)))
    [u16 (offsetof RSA_Decrypt_In "cipherText"); u16 (offsetof RSA_Decrypt_In "inScheme");
     u16 (offsetof RSA_Decrypt_In "label")]
    [TPMI_DH_OBJECT_H_UNMARSHAL; TPM2B_PUBLIC_KEY_RSA_P_UNMARSHAL;
     TPMT_RSA_DECRYPT_P_UNMARSHAL + ADD_FLAG; TPM2B_DATA_P_UNMARSHAL; END_OF_LIST;
     TPM2B_PUBLIC_KEY_RSA_P_MARSHAL; END_OF_LIST].

Definition _ECDH_KeyGenData : COMMAND_DESCRIPTOR_t :=
  mkDescriptor TPM2_ECDH_KeyGen
    (u16 (sizeof (struct ECDH_KeyGen_In))) (u16 (sizeof (struct ECDH_KeyGen_Out)))
    [u16 (offsetof ECDH_KeyGen_Out "pubPoint")]
    [TPMI_DH_OBJECT_H_UNMARSHAL; END_OF_LIST; TPM2B_ECC_POINT_P_MARSHAL;
     TPM2B_ECC_POINT_P_MARSHAL; END_OF_LIST].

Definition _ECDH_ZGenData : COMMAND_DESCRIPTOR_t :=
  mkDescriptor TPM2_ECDH_ZGen
    (u16 (sizeof (struct ECDH_ZGen_In))) (u16 (sizeof (struct ECDH_ZGen_Out)))
    [u16 (offsetof ECDH_ZGen_In "inPoint")]
    [TPMI_DH_OBJECT_H_UNMARSHAL; TPM2B_ECC_POINT_P_UNMARSHAL; END_OF_LIST;
     TPM2B_ECC_POINT_P_MARSHAL; END_OF_LIST].

Definition _ECC_EncryptData : COMMAND_DESCRIPTOR_t :=
  mkDescriptor TPM2_ECC_Encrypt
    (u16 (sizeof (struct ECC_Encrypt_In))) (u16 (sizeof (struct ECC_Encrypt_Out)))
    [u16 (offsetof ECC_Encrypt_In "plainText"); u16 (offsetof ECC_Encrypt_In "inScheme");
     u16 (offsetof ECC_Encrypt_Out "C2"); u16 (offsetof ECC_Encrypt_Out "C3")]
    [TPMI_DH_OBJECT_H_UNMARSHAL; TPM2B_MAX_BUFFER_P_UNMARSHAL;
     TPMT_KDF_SCHEME_P_UNMARSHAL + ADD_FLAG; END_OF_LIST; TPM2B_ECC_POINT_P_MARSHAL;
     TPM2B_MAX_BUFFER_P_MARSHAL; TPM2B_DIGEST_P_MARSHAL; END_OF_LIST].

Definition _ECC_DecryptData : COMMAND_DESCRIPTOR_t :=
  mkDescriptor TPM2_ECC_Decrypt
    (u16 (sizeof (struct ECC_Decrypt_In))) (u16 (sizeof (struct ECC_Decrypt_Out)))
    [u16 (offsetof ECC_Decrypt_In "C1"); u16 (offsetof ECC_Decrypt_In "C2");
     u16 (offsetof ECC_Decrypt_In "C3"); u16 (offsetof ECC_Decrypt_In "inScheme")]
    [TPMI_DH_OBJECT_H_UNMARSHAL; TPM2B_ECC_POINT_P_UNMARSHAL; TPM2B_MAX_BUFFER_P_UNMARSHAL;
     TPM2B_DIGEST_P_UNMARSHAL; TPMT_KDF_SCHEME_P_UNMARSHAL + ADD_FLAG; END_OF_LIST;
     TPM2B_MAX_BUFFER_P_MARSHAL; END_OF_LIST].

Definition _ECC_ParametersData : COMMAND_DESCRIPTOR_t :=
  mkDescriptor TPM2_ECC_Parameters
    (u16 (sizeof (struct ECC_Parameters_In))) (u16 (sizeof (struct ECC_Parameters_Out)))
    []
    [TPMI_ECC_CURVE_P_UNMARSHAL; END_OF_LIST; TPMS_ALGORITHM_DETAIL_ECC_P_MARSHAL; END_OF_LIST].

Definition _ZGen_2PhaseData : COMMAND_DESCRIPTOR_t :=
  mkDescriptor TPM2_ZGen_2Phase
    (u16 (sizeof (struct ZGen_2Phase_In))) (u16 (sizeof (struct ZGen_2Phase_Out)))
    [u16 (offsetof ZGen_2Phase_In "inQsB"); u16 (offsetof ZGen_2Phase_In "inQeB");
     u16 (offsetof ZGen_2Phase_In "inScheme"); u16 (offsetof ZGen_2Phase_In "counter");
     u16 (offsetof ZGen_2Phase_Out "outZ2")]
    [TPMI_DH_OBJECT_H_UNMARSHAL; TPM2B_ECC_POINT_P_UNMARSHAL; TPM2B_ECC_POINT_P_UNMARSHAL;
     TPMI_ECC_KEY_EXCHANGE_P_UNMARSHAL; UINT16_P_UNMARSHAL; END_OF_LIST;
     TPM2B_ECC_POINT_P_MARSHAL; TPM2B_ECC_POINT_P_MARSHAL; END_OF_LIST].

Definition _EncryptDecryptData : COMMAND_DESCRIPTOR_t :=
  mkDescriptor TPM2_EncryptDecrypt
    (u16 (sizeof (struct EncryptDecrypt_In))) (u16 (sizeof (struct EncryptDecrypt_Out)))
    [u16 (offsetof EncryptDecrypt_In "decrypt"); u16 (offsetof EncryptDecrypt_In "mode");
     u16 (offsetof EncryptDecrypt_In "ivIn"); u16 (offsetof EncryptDecrypt_In "inData");
     u16 (offsetof EncryptDecrypt_Out "ivOut")]
    [TPMI_DH_OBJECT_H_UNMARSHAL; TPMI_YES_NO_P_UNMARSHAL;
     TPMI_ALG_CIPHER_MODE_P_UNMARSHAL + ADD_FLAG; TPM2B_IV_P_UNMARSHAL;
     TPM2B_MAX_BUFFER_P_UNMARSHAL; END_OF_LIST; TPM2B_MAX_BUFFER_P_MARSHAL; TPM2B_IV_P_MARSHAL;
     END_OF_LIST].

Definition _EncryptDecrypt2Data : COMMAND_DESCRIPTOR_t :=
  mkDescriptor TPM2_EncryptDecrypt2
    (u16 (sizeof (struct EncryptDecrypt2_In))) (u16 (sizeof (struct EncryptDecrypt2_Out)))
    [u16 (offsetof EncryptDecrypt2_In "inData"); u16 (offsetof EncryptDecrypt2_In "decrypt");
     u16 (offsetof EncryptDecrypt2_In "mode"); u16 (offsetof EncryptDecrypt2_In "ivIn");
     u16 (offsetof EncryptDecrypt2_Out "ivOut")]
    [TPMI_DH_OBJECT_H_UNMARSHAL; TPM2B_MAX_BUFFER_P_UNMARSHAL; TPMI_YES_NO_P_UNMARSHAL;
     TPMI_ALG_CIPHER_MODE_P_UNMARSHAL + ADD_FLAG; TPM2B_IV_P_UNMARSHAL; END_OF_LIST;
     TPM2B_MAX_BUFFER_P_MARSHAL; TPM2B_IV_P_MARSHAL; END_OF_LIST].

Definition _HashData : COMMAND_DESCRIPTOR_t :=
  mkDescriptor TPM2_Hash
    (u16 (sizeof (struct Hash_In))) (u16 (sizeof (struct Hash_Out)))
    [u16 (offsetof Hash_In "hashAlg"); u16 (offsetof Hash_In "hierarchy");
     u16 (offsetof Hash_Out "validation")]
    [TPM2B_MAX_BUFFER_P_UNMARSHAL; TPMI_ALG_HASH_P_UNMARSHAL;
     TPMI_RH_HIERARCHY_P_UNMARSHAL + ADD_FLAG; END_OF_LIST; TPM2B_DIGEST_P_MARSHAL;
     TPMT_TK_HASHCHECK_P_MARSHAL; END_OF_LIST].

Definition _MACData : COMMAND_DESCRIPTOR_t :=
  mkDescriptor TPM2_MAC
    (u16 (sizeof (struct MAC_In))) (u16 (sizeof (struct MAC_Out)))
    [u16 (offsetof MAC_In "buffer"); u16 (offsetof MAC_In "inScheme")]
    [TPMI_DH_OBJECT_H_UNMARSHAL; TPM2B_MAX_BUFFER_P_UNMARSHAL;
     TPMI_ALG_MAC_SCHEME_P_UNMARSHAL + ADD_FLAG; END_OF_LIST; TPM2B_DIGEST_P_MARSHAL;
     END_OF_LIST].

Definition _GetRandomData : COMMAND_DESCRIPTOR_t :=
  mkDescriptor TPM2_GetRandom
    (u16 (sizeof (struct GetRandom_In))) (u16 (sizeof (struct GetRandom_Out)))
    []
    [UINT16_P_UNMARSHAL; END_OF_LIST; TPM2B_DIGEST_P_MARSHAL; END_OF_LIST].

Definition _StirRandomData : COMMAND_DESCRIPTOR_t :=
  mkDescriptor TPM2_StirRandom
    (u16 (sizeof (struct StirRandom_In))) 0
    []
    [TPM2B_SENSITIVE_DATA_P_UNMARSHAL; END_OF_LIST; END_OF_LIST].

Definition _MAC_StartData : COMMAND_DESCRIPTOR_t :=
  mkDescriptor TPM2_MAC_Start
    (u16 (sizeof (struct MAC_Start_In))) (u16 (sizeof (struct MAC_Start_Out)))
    [u16 (offsetof MAC_Start_In "auth"); u16 (offsetof MAC_Start_In "inScheme")]
    [TPMI_DH_OBJECT_H_UNMARSHAL; TPM2B_AUTH_P_UNMARSHAL;
     TPMI_ALG_MAC_SCHEME_P_UNMARSHAL + ADD_FLAG; END_OF_LIST; TPMI_DH_OBJECT_H_MARSHAL;
     END_OF_LIST].

Definition _HashSequenceStartData : COMMAND_DESCRIPTOR_t :=
  mkDescriptor TPM2_HashSequenceStart
    (u16 (sizeof (struct HashSequenceStart_In))) (u16 (sizeof (struct HashSequenceStart_Out)))
    [u16 (offsetof HashSequenceStart_In "hashAlg")]
    [TPM2B_AUTH_P_UNMARSHAL; TPMI_ALG_HASH_P_UNMARSHAL + ADD_FLAG; END_OF_LIST;
     TPMI_DH_OBJECT_H_MARSHAL; END_OF_LIST].

Definition _SequenceUpdateData : COMMAND_DESCRIPTOR_t :=
  mkDescriptor TPM2_SequenceUpdate
    (u16 (sizeof (struct SequenceUpdate_In))) 0
    [u16 (offsetof SequenceUpdate_In "buffer")]
    [TPMI_DH_OBJECT_H_UNMARSHAL; TPM2B_MAX_BUFFER_P_UNMARSHAL; END_OF_LIST; END_OF_LIST].

Definition _SequenceCompleteData : COMMAND_DESCRIPTOR_t :=
  mkDescriptor TPM2_SequenceComplete
    (u16 (sizeof (struct SequenceComplete_In))) (u16 (sizeof (struct SequenceComplete_Out)))
    [u16 (offsetof SequenceComplete_In "buffer"); u16 (offsetof SequenceComplete_In "hierarchy");
     u16 (offsetof SequenceComplete_Out "validation")]
    [TPMI_DH_OBJECT_H_UNMARSHAL; TPM2B_MAX_BUFFER_P_UNMARSHAL;
     TPMI_RH_HIERARCHY_P_UNMARSHAL + ADD_FLAG; END_OF_LIST; TPM2B_DIGEST_P_MARSHAL;
     TPMT_TK_HASHCHECK_P_MARSHAL; END_OF_LIST].

Definition _EventSequenceCompleteData : COMMAND_DESCRIPTOR_t :=
  mkDescriptor TPM2_EventSequenceComplete
    (u16 (sizeof (struct EventSequenceComplete_In))) (u16 (sizeof (struct EventSequenceComplete_Out)))
    [u16 (offsetof EventSequenceComplete_In "sequenceHandle");
     u16 (offsetof EventSequenceComplete_In "buffer")]
    [TPMI_DH_PCR_H_UNMARSHAL + ADD_FLAG; TPMI_DH_OBJECT_H_UNMARSHAL; TPM2B_MAX_BUFFER_P_UNMARSHAL;
     END_OF_LIST; TPML_DIGEST_VALUES_P_MARSHAL; END_OF_LIST].

Definition _CertifyData : COMMAND_DESCRIPTOR_t :=
  mkDescriptor TPM2_Certify
    (u16 (sizeof (struct Certify_In))) (u16 (sizeof (struct Certify_Out)))
    [u16 (offsetof Certify_In "signHandle"); u16 (offsetof Certify_In "qualifyingData");
     u16 (offsetof Certify_In "inScheme"); u16 (offsetof Certify_Out "signature")]
    [TPMI_DH_OBJECT_H_UNMARSHAL; TPMI_DH_OBJECT_H_UNMARSHAL + ADD_FLAG; TPM2B_DATA_P_UNMARSHAL;
     TPMT_SIG_SCHEME_P_UNMARSHAL + ADD_FLAG; END_OF_LIST; TPM2B_ATTEST_P_MARSHAL;
     TPMT_SIGNATURE_P_MARSHAL; END_OF_LIST].

Definition _CertifyCreationData : COMMAND_DESCRIPTOR_t :=
  mkDescriptor TPM2_CertifyCreation
    (u16 (sizeof (struct CertifyCreation_In))) (u16 (sizeof (struct CertifyCreation_Out)))
    [u16 (offsetof CertifyCreation_In "objectHandle");
     u16 (offsetof CertifyCreation_In "qualifyingData");
     u16 (offsetof CertifyCreation_In "creationHash"); u16 (offsetof CertifyCreation_In "inScheme");
     u16 (offsetof CertifyCreation_In "creationTicket");
     u16 (offsetof CertifyCreation_Out "signature")]
    [TPMI_DH_OBJECT_H_UNMARSHAL + ADD_FLAG; TPMI_DH_OBJECT_H_UNMARSHAL; TPM2B_DATA_P_UNMARSHAL;
     TPM2B_DIGEST_P_UNMARSHAL; TPMT_SIG_SCHEME_P_UNMARSHAL + ADD_FLAG;
     TPMT_TK_CREATION_P_UNMARSHAL; END_OF_LIST; TPM2B_ATTEST_P_MARSHAL; TPMT_SIGNATURE_P_MARSHAL;
     END_OF_LIST].

Definition _QuoteData : COMMAND_DESCRIPTOR_t :=
  mkDescriptor TPM2_Quote
    (u16 (sizeof (struct Quote_In))) (u16 (sizeof (struct Quote_Out)))
    [u16 (offsetof Quote_In "qualifyingData"); u16 (offsetof Quote_In "inScheme");
     u16 (offsetof Quote_In "PCRselect"); u16 (offsetof Quote_Out "signature")]
    [TPMI_DH_OBJECT_H_UNMARSHAL + ADD_FLAG; TPM2B_DATA_P_UNMARSHAL;
     TPMT_SIG_SCHEME_P_UNMARSHAL + ADD_FLAG; TPML_PCR_SELECTION_P_UNMARSHAL; END_OF_LIST;
     TPM2B_ATTEST_P_MARSHAL; TPMT_SIGNATURE_P_MARSHAL; END_OF_LIST].

Definition _GetSessionAuditDigestData : COMMAND_DESCRIPTOR_t :=
  mkDescriptor TPM2_GetSessionAuditDigest
    (u16 (sizeof (struct GetSessionAuditDigest_In))) (u16 (sizeof (struct GetSessionAuditDigest_Out)))
    [u16 (offsetof GetSessionAuditDigest_In "signHandle");
     u16 (offsetof GetSessionAuditDigest_In "sessionHandle");
     u16 (offsetof GetSessionAuditDigest_In "qualifyingData");
     u16 (offsetof GetSessionAuditDigest_In "inScheme");
     u16 (offsetof GetSessionAuditDigest_Out "signature")]
    [TPMI_RH_ENDORSEMENT_H_UNMARSHAL; TPMI_DH_OBJECT_H_UNMARSHAL + ADD_FLAG;
     TPMI_SH_HMAC_H_UNMARSHAL; TPM2B_DATA_P_UNMARSHAL; TPMT_SIG_SCHEME_P_UNMARSHAL + ADD_FLAG;
     END_OF_LIST; TPM2B_ATTEST_P_MARSHAL; TPMT_SIGNATURE_P_MARSHAL; END_OF_LIST].

Definition _GetCommandAuditDigestData : COMMAND_DESCRIPTOR_t :=
  mkDescriptor TPM2_GetCommandAuditDigest
    (u16 (sizeof (struct GetCommandAuditDigest_In))) (u16 (sizeof (struct GetCommandAuditDigest_Out)))
    [u16 (offsetof GetCommandAuditDigest_In "signHandle");
     u16 (offsetof GetCommandAuditDigest_In "qualifyingData");
     u16 (offsetof GetCommandAuditDigest_In "inScheme");
     u16 (offsetof GetCommandAuditDigest_Out "signature")]
    [TPMI_RH_ENDORSEMENT_H_UNMARSHAL; TPMI_DH_OBJECT_H_UNMARSHAL + ADD_FLAG;
     TPM2B_DATA_P_UNMARSHAL; TPMT_SIG_SCHEME_P_UNMARSHAL + ADD_FLAG; END_OF_LIST;
     TPM2B_ATTEST_P_MARSHAL; TPMT_SIGNATURE_P_MARSHAL; END_OF_LIST].

Definition _GetTimeData : COMMAND_DESCRIPTOR_t :=
  mkDescriptor TPM2_GetTime
    (u16 (sizeof (struct GetTime_In))) (u16 (sizeof (struct GetTime_Out)))
    [u16 (offsetof GetTime_In "signHandle"); u16 (offsetof GetTime_In "qualifyingData");
     u16 (offsetof GetTime_In "inScheme"); u16 (offsetof GetTime_Out "signature")]
    [TPMI_RH_ENDORSEMENT_H_UNMARSHAL; TPMI_DH_OBJECT_H_UNMARSHAL + ADD_FLAG;
     TPM2B_DATA_P_UNMARSHAL; TPMT_SIG_SCHEME_P_UNMARSHAL + ADD_FLAG; END_OF_LIST;
     TPM2B_ATTEST_P_MARSHAL; TPMT_SIGNATURE_P_MARSHAL; END_OF_LIST].

Definition _CertifyX509Data : COMMAND_DESCRIPTOR_t :=
  mkDescriptor TPM2_CertifyX509
    (u16 (sizeof (struct CertifyX509_In))) (u16 (sizeof (struct CertifyX509_Out)))
    [u16 (offsetof CertifyX509_In "signHandle"); u16 (offsetof CertifyX509_In "reserved");
     u16 (offsetof CertifyX509_In "inScheme"); u16 (offsetof CertifyX509_In "partialCertificate");
     u16 (offsetof CertifyX509_Out "tbsDigest"); u16 (offsetof CertifyX509_Out "signature")]
    [TPMI_DH_OBJECT_H_UNMARSHAL; TPMI_DH_OBJECT_H_UNMARSHAL; TPM2B_DATA_P_UNMARSHAL;
     TPMT_SIG_SCHEME_P_UNMARSHAL + ADD_FLAG; TPM2B_MAX_BUFFER_P_UNMARSHAL; END_OF_LIST;
     TPM2B_MAX_BUFFER_P_MARSHAL; TPM2B_DIGEST_P_MARSHAL; TPMT_SIGNATURE_P_MARSHAL; END_OF_LIST].

Definition _CommitData : COMMAND_DESCRIPTOR_t :=
  mkDescriptor TPM2_Commit
    (u16 (sizeof (struct Commit_In))) (u16 (sizeof (struct Commit_Out)))
    [u16 (offsetof Commit_In "P1"); u16 (offsetof Commit_In "s2"); u16 (offsetof Commit_In "y2");
     u16 (offsetof Commit_Out "L"); u16 (offsetof Commit_Out "E");
     u16 (offsetof Commit_Out "counter")]
    [TPMI_DH_OBJECT_H_UNMARSHAL; TPM2B_ECC_POINT_P_UNMARSHAL; TPM2B_SENSITIVE_DATA_P_UNMARSHAL;
     TPM2B_ECC_PARAMETER_P_UNMARSHAL; END_OF_LIST; TPM2B_ECC_POINT_P_MARSHAL;
     TPM2B_ECC_POINT_P_MARSHAL; TPM2B_ECC_POINT_P_MARSHAL; UINT16_P_MARSHAL; END_OF_LIST].

Definition _EC_EphemeralData : COMMAND_DESCRIPTOR_t :=
  mkDescriptor TPM2_EC_Ephemeral
    (u16 (sizeof (struct EC_Ephemeral_In))) (u16 (sizeof (struct EC_Ephemeral_Out)))
    [u16 (offsetof EC_Ephemeral_Out "counter")]
    [TPMI_ECC_CURVE_P_UNMARSHAL; END_OF_LIST; TPM2B_ECC_POINT_P_MARSHAL; UINT16_P_MARSHAL;
     END_OF_LIST].

Definition _VerifySignatureData : COMMAND_DESCRIPTOR_t :=
  mkDescriptor TPM2_VerifySignature
    (u16 (sizeof (struct VerifySignature_In))) (u16 (sizeof (struct VerifySignature_Out)))
    [u16 (offsetof VerifySignature_In "digest"); u16 (offsetof VerifySignature_In "signature")]
    [TPMI_DH_OBJECT_H_UNMARSHAL; TPM2B_DIGEST_P_UNMARSHAL; TPMT_SIGNATURE_P_UNMARSHAL;
     END_OF_LIST; TPMT_TK_VERIFIED_P_MARSHAL; END_OF_LIST].

Definition _SignData : COMMAND_DESCRIPTOR_t :=
  mkDescriptor TPM2_Sign
    (u16 (sizeof (struct Sign_In))) (u16 (sizeof (struct Sign_Out)))
    [u16 (offsetof Sign_In "digest"); u16 (offsetof Sign_In "inScheme");
     u16 (offsetof Sign_In "validation")]
    [TPMI_DH_OBJECT_H_UNMARSHAL; TPM2B_DIGEST_P_UNMARSHAL; TPMT_SIG_SCHEME_P_UNMARSHAL + ADD_FLAG;
     TPMT_TK_HASHCHECK_P_UNMARSHAL; END_OF_LIST; TPMT_SIGNATURE_P_MARSHAL; END_OF_LIST].

Definition _SetCommandCodeAuditStatusData : COMMAND_DESCRIPTOR_t :=
  mkDescriptor TPM2_SetCommandCodeAuditStatus
    (u16 (sizeof (struct SetCommandCodeAuditStatus_In))) 0
    [u16 (offsetof SetCommandCodeAuditStatus_In "auditAlg");
     u16 (offsetof SetCommandCodeAuditStatus_In "setList");
     u16 (offsetof SetCommandCodeAuditStatus_In "clearList")]
    [TPMI_RH_PROVISION_H_UNMARSHAL; TPMI_ALG_HASH_P_UNMARSHAL + ADD_FLAG; TPML_CC_P_UNMARSHAL;
     TPML_CC_P_UNMARSHAL; END_OF_LIST; END_OF_LIST].

Definition _PCR_ExtendData : COMMAND_DESCRIPTOR_t :=
  mkDescriptor TPM2_PCR_Extend
    (u16 (sizeof (struct PCR_Extend_In))) 0
    [u16 (offsetof PCR_Extend_In "digests")]
    [TPMI_DH_PCR_H_UNMARSHAL + ADD_FLAG; TPML_DIGEST_VALUES_P_UNMARSHAL; END_OF_LIST;
     END_OF_LIST].

Definition _PCR_EventData : COMMAND_DESCRIPTOR_t :=
  mkDescriptor TPM2_PCR_Event
    (u16 (sizeof (struct PCR_Event_In))) (u16 (sizeof (struct PCR_Event_Out)))
    [u16 (offsetof PCR_Event_In "eventData")]
    [TPMI_DH_PCR_H_UNMARSHAL + ADD_FLAG; TPM2B_EVENT_P_UNMARSHAL; END_OF_LIST;
     TPML_DIGEST_VALUES_P_MARSHAL; END_OF_LIST].

Definition _PCR_ReadData : COMMAND_DESCRIPTOR_t :=
  mkDescriptor TPM2_PCR_Read
    (u16 (sizeof (struct PCR_Read_In))) (u16 (sizeof (struct PCR_Read_Out)))
    [u16 (offsetof PCR_Read_Out "pcrSelectionOut"); u16 (offsetof PCR_Read_Out "pcrValues")]
    [TPML_PCR_SELECTION_P_UNMARSHAL; END_OF_LIST; UINT32_P_MARSHAL; TPML_PCR_SELECTION_P_MARSHAL;
     TPML_DIGEST_P_MARSHAL; END_OF_LIST].

Definition _PCR_AllocateData : COMMAND_DESCRIPTOR_t :=
  mkDescriptor TPM2_PCR_Allocate
    (u16 (sizeof (struct PCR_Allocate_In))) (u16 (sizeof (struct PCR_Allocate_Out)))
    [u16 (offsetof PCR_Allocate_In "pcrAllocation"); u16 (offsetof PCR_Allocate_Out "maxPCR");
     u16 (offsetof PCR_Allocate_Out "sizeNeeded"); u16 (offsetof PCR_Allocate_Out "sizeAvailable")]
    [TPMI_RH_PLATFORM_H_UNMARSHAL; TPML_PCR_SELECTION_P_UNMARSHAL; END_OF_LIST;
     TPMI_YES_NO_P_MARSHAL; UINT32_P_MARSHAL; UINT32_P_MARSHAL; UINT32_P_MARSHAL; END_OF_LIST].

Definition _PCR_SetAuthPolicyData : COMMAND_DESCRIPTOR_t :=
  mkDescriptor TPM2_PCR_SetAuthPolicy
    (u16 (sizeof (struct PCR_SetAuthPolicy_In))) 0
    [u16 (offsetof PCR_SetAuthPolicy_In "authPolicy");
     u16 (offsetof PCR_SetAuthPolicy_In "hashAlg"); u16 (offsetof PCR_SetAuthPolicy_In "pcrNum")]
    [TPMI_RH_PLATFORM_H_UNMARSHAL; TPM2B_DIGEST_P_UNMARSHAL; TPMI_ALG_HASH_P_UNMARSHAL + ADD_FLAG;
     TPMI_DH_PCR_P_UNMARSHAL; END_OF_LIST; END_OF_LIST].

Definition _PCR_SetAuthValueData : COMMAND_DESCRIPTOR_t :=
  mkDescriptor TPM2_PCR_SetAuthValue
    (u16 (sizeof (struct PCR_SetAuthValue_In))) 0
    [u16 (offsetof PCR_SetAuthValue_In "auth")]
    [TPMI_DH_PCR_H_UNMARSHAL; TPM2B_DIGEST_P_UNMARSHAL; END_OF_LIST; END_OF_LIST].

Definition _PCR_ResetData : COMMAND_DESCRIPTOR_t :=
  mkDescriptor TPM2_PCR_Reset
    (u16 (sizeof (struct PCR_Reset_In))) 0
    []
    [TPMI_DH_PCR_H_UNMARSHAL; END_OF_LIST; END_OF_LIST].

Definition _PolicySignedData : COMMAND_DESCRIPTOR_t :=
  mkDescriptor TPM2_PolicySigned
    (u16 (sizeof (struct PolicySigned_In))) (u16 (sizeof (struct PolicySigned_Out)))
    [u16 (offsetof PolicySigned_In "policySession"); u16 (offsetof PolicySigned_In "nonceTPM");
     u16 (offsetof PolicySigned_In "cpHashA"); u16 (offsetof PolicySigned_In "policyRef");
     u16 (offsetof PolicySigned_In "expiration"); u16 (offsetof PolicySigned_In "auth");
     u16 (offsetof PolicySigned_Out "policyTicket")]
    [TPMI_DH_OBJECT_H_UNMARSHAL; TPMI_SH_POLICY_H_UNMARSHAL; TPM2B_NONCE_P_UNMARSHAL;
     TPM2B_DIGEST_P_UNMARSHAL; TPM2B_NONCE_P_UNMARSHAL; INT32_P_UNMARSHAL;
     TPMT_SIGNATURE_P_UNMARSHAL; END_OF_LIST; TPM2B_TIMEOUT_P_MARSHAL; TPMT_TK_AUTH_P_MARSHAL;
     END_OF_LIST].

Definition _PolicySecretData : COMMAND_DESCRIPTOR_t :=
  mkDescriptor TPM2_PolicySecret
    (u16 (sizeof (struct PolicySecret_In))) (u16 (sizeof (struct PolicySecret_Out)))
    [u16 (offsetof PolicySecret_In "policySession"); u16 (offsetof PolicySecret_In "nonceTPM");
     u16 (offsetof PolicySecret_In "cpHashA"); u16 (offsetof PolicySecret_In "policyRef");
     u16 (offsetof PolicySecret_In "expiration"); u16 (offsetof PolicySecret_Out "policyTicket")]
    [TPMI_DH_ENTITY_H_UNMARSHAL; TPMI_SH_POLICY_H_UNMARSHAL; TPM2B_NONCE_P_UNMARSHAL;
     TPM2B_DIGEST_P_UNMARSHAL; TPM2B_NONCE_P_UNMARSHAL; INT32_P_UNMARSHAL; END_OF_LIST;
     TPM2B_TIMEOUT_P_MARSHAL; TPMT_TK_AUTH_P_MARSHAL; END_OF_LIST].

Definition _PolicyTicketData : COMMAND_DESCRIPTOR_t :=
  mkDescriptor TPM2_PolicyTicket
    (u16 (sizeof (struct PolicyTicket_In))) 0
    [u16 (offsetof PolicyTicket_In "timeout"); u16 (offsetof PolicyTicket_In "cpHashA");
     u16 (offsetof PolicyTicket_In "policyRef"); u16 (offsetof PolicyTicket_In "authName");
     u16 (offsetof PolicyTicket_In "ticket")]
    [TPMI_SH_POLICY_H_UNMARSHAL; TPM2B_TIMEOUT_P_UNMARSHAL; TPM2B_DIGEST_P_UNMARSHAL;
     TPM2B_NONCE_P_UNMARSHAL; TPM2B_NAME_P_UNMARSHAL; TPMT_TK_AUTH_P_UNMARSHAL; END_OF_LIST;
     END_OF_LIST].

Definition _PolicyORData : COMMAND_DESCRIPTOR_t :=
  mkDescriptor TPM2_PolicyOR
    (u16 (sizeof (struct PolicyOR_In))) 0
    [u16 (offsetof PolicyOR_In "pHashList")]
    [TPMI_SH_POLICY_H_UNMARSHAL; TPML_DIGEST_P_UNMARSHAL; END_OF_LIST; END_OF_LIST].

Definition _PolicyPCRData : COMMAND_DESCRIPTOR_t :=
  mkDescriptor TPM2_PolicyPCR
    (u16 (sizeof (struct PolicyPCR_In))) 0
    [u16 (offsetof PolicyPCR_In "pcrDigest"); u16 (offsetof PolicyPCR_In "pcrs")]
    [TPMI_SH_POLICY_H_UNMARSHAL; TPM2B_DIGEST_P_UNMARSHAL; TPML_PCR_SELECTION_P_UNMARSHAL;
     END_OF_LIST; END_OF_LIST].

Definition _PolicyLocalityData : COMMAND_DESCRIPTOR_t :=
  mkDescriptor TPM2_PolicyLocality
    (u16 (sizeof (struct PolicyLocality_In))) 0
    [u16 (offsetof PolicyLocality_In "locality")]
    [TPMI_SH_POLICY_H_UNMARSHAL; TPMA_LOCALITY_P_UNMARSHAL; END_OF_LIST; END_OF_LIST].

Definition _PolicyNVData : COMMAND_DESCRIPTOR_t :=
  mkDescriptor TPM2_PolicyNV
    (u16 (sizeof (struct PolicyNV_In))) 0
    [u16 (offsetof PolicyNV_In "nvIndex"); u16 (offsetof PolicyNV_In "policySession");
     u16 (offsetof PolicyNV_In "operandB"); u16 (offsetof PolicyNV_In "offset");
     u16 (offsetof PolicyNV_In "operation")]
    [TPMI_RH_NV_AUTH_H_UNMARSHAL; TPMI_RH_NV_INDEX_H_UNMARSHAL; TPMI_SH_POLICY_H_UNMARSHAL;
     TPM2B_OPERAND_P_UNMARSHAL; UINT16_P_UNMARSHAL; TPM_EO_P_UNMARSHAL; END_OF_LIST; END_OF_LIST].

Definition _PolicyCounterTimerData : COMMAND_DESCRIPTOR_t :=
  mkDescriptor TPM2_PolicyCounterTimer
    (u16 (sizeof (struct PolicyCounterTimer_In))) 0
    [u16 (offsetof PolicyCounterTimer_In "operandB");
     u16 (offsetof PolicyCounterTimer_In "offset"); u16 (offsetof PolicyCounterTimer_In "operation")]
    [TPMI_SH_POLICY_H_UNMARSHAL; TPM2B_OPERAND_P_UNMARSHAL; UINT16_P_UNMARSHAL;
     TPM_EO_P_UNMARSHAL; END_OF_LIST; END_OF_LIST].

Definition _PolicyCommandCodeData : COMMAND_DESCRIPTOR_t :=
  mkDescriptor TPM2_PolicyCommandCode
    (u16 (sizeof (struct PolicyCommandCode_In))) 0
    [u16 (offsetof PolicyCommandCode_In "code")]
    [TPMI_SH_POLICY_H_UNMARSHAL; TPM_CC_P_UNMARSHAL; END_OF_LIST; END_OF_LIST].

Definition _PolicyPhysicalPresenceData : COMMAND_DESCRIPTOR_t :=
  mkDescriptor TPM2_PolicyPhysicalPresence
    (u16 (sizeof (struct PolicyPhysicalPresence_In))) 0
    []
    [TPMI_SH_POLICY_H_UNMARSHAL; END_OF_LIST; END_OF_LIST].

Definition _PolicyCpHashData : COMMAND_DESCRIPTOR_t :=
  mkDescriptor TPM2_PolicyCpHash
    (u16 (sizeof (struct PolicyCpHash_In))) 0
    [u16 (offsetof PolicyCpHash_In "cpHashA")]
    [TPMI_SH_POLICY_H_UNMARSHAL; TPM2B_DIGEST_P_UNMARSHAL; END_OF_LIST; END_OF_LIST].

Definition _PolicyNameHashData : COMMAND_DESCRIPTOR_t :=
  mkDescriptor TPM2_PolicyNameHash
    (u16 (sizeof (struct PolicyNameHash_In))) 0
    [u16 (offsetof PolicyNameHash_In "nameHash")]
    [TPMI_SH_POLICY_H_UNMARSHAL; TPM2B_DIGEST_P_UNMARSHAL; END_OF_LIST; END_OF_LIST].

Definition _PolicyDuplicationSelectData : COMMAND_DESCRIPTOR_t :=
  mkDescriptor TPM2_PolicyDuplicationSelect
    (u16 (sizeof (struct PolicyDuplicationSelect_In))) 0
    [u16 (offsetof PolicyDuplicationSelect_In "objectName");
     u16 (offsetof PolicyDuplicationSelect_In "newParentName");
     u16 (offsetof PolicyDuplicationSelect_In "includeObject")]
    [TPMI_SH_POLICY_H_UNMARSHAL; TPM2B_NAME_P_UNMARSHAL; TPM2B_NAME_P_UNMARSHAL;
     TPMI_YES_NO_P_UNMARSHAL; END_OF_LIST; END_OF_LIST].

Definition _PolicyAuthorizeData : COMMAND_DESCRIPTOR_t :=
  mkDescriptor TPM2_PolicyAuthorize
    (u16 (sizeof (struct PolicyAuthorize_In))) 0
    [u16 (offsetof PolicyAuthorize_In "approvedPolicy");
     u16 (offsetof PolicyAuthorize_In "policyRef"); u16 (offsetof PolicyAuthorize_In "keySign");
     u16 (offsetof PolicyAuthorize_In "checkTicket")]
    [TPMI_SH_POLICY_H_UNMARSHAL; TPM2B_DIGEST_P_UNMARSHAL; TPM2B_NONCE_P_UNMARSHAL;
     TPM2B_NAME_P_UNMARSHAL; TPMT_TK_VERIFIED_P_UNMARSHAL; END_OF_LIST; END_OF_LIST].

Definition _PolicyAuthValueData : COMMAND_DESCRIPTOR_t :=
  mkDescriptor TPM2_PolicyAuthValue
    (u16 (sizeof (struct PolicyAuthValue_In))) 0
    []
    [TPMI_SH_POLICY_H_UNMARSHAL; END_OF_LIST; END_OF_LIST].

Definition _PolicyPasswordData : COMMAND_DESCRIPTOR_t :=
  mkDescriptor TPM2_PolicyPassword
    (u16 (sizeof (struct PolicyPassword_In))) 0
    []
    [TPMI_SH_POLICY_H_UNMARSHAL; END_OF_LIST; END_OF_LIST].

Definition _PolicyGetDigestData : COMMAND_DESCRIPTOR_t :=
  mkDescriptor TPM2_PolicyGetDigest
    (u16 (sizeof (struct PolicyGetDigest_In))) (u16 (sizeof (struct PolicyGetDigest_Out)))
    []
    [TPMI_SH_POLICY_H_UNMARSHAL; END_OF_LIST; TPM2B_DIGEST_P_MARSHAL; END_OF_LIST].

Definition _PolicyNvWrittenData : COMMAND_DESCRIPTOR_t :=
  mkDescriptor TPM2_PolicyNvWritten
    (u16 (sizeof (struct PolicyNvWritten_In))) 0
    [u16 (offsetof PolicyNvWritten_In "writtenSet")]
    [TPMI_SH_POLICY_H_UNMARSHAL; TPMI_YES_NO_P_UNMARSHAL; END_OF_LIST; END_OF_LIST].

Definition _PolicyTemplateData : COMMAND_DESCRIPTOR_t :=
  mkDescriptor TPM2_PolicyTemplate
    (u16 (sizeof (struct PolicyTemplate_In))) 0
    [u16 (offsetof PolicyTemplate_In "templateHash")]
    [TPMI_SH_POLICY_H_UNMARSHAL; TPM2B_DIGEST_P_UNMARSHAL; END_OF_LIST; END_OF_LIST].

Definition _PolicyAuthorizeNVData : COMMAND_DESCRIPTOR_t :=
  mkDescriptor TPM2_PolicyAuthorizeNV
    (u16 (sizeof (struct PolicyAuthorizeNV_In))) 0
    [u16 (offsetof PolicyAuthorizeNV_In "nvIndex");
     u16 (offsetof PolicyAuthorizeNV_In "policySession")]
    [TPMI_RH_NV_AUTH_H_UNMARSHAL; TPMI_RH_NV_INDEX_H_UNMARSHAL; TPMI_SH_POLICY_H_UNMARSHAL;
     END_OF_LIST; END_OF_LIST].

Definition _PolicyCapabilityData : COMMAND_DESCRIPTOR_t :=
  mkDescriptor TPM2_PolicyCapability
    (u16 (sizeof (struct PolicyCapability_In))) 0
    [u16 (offsetof PolicyCapability_In "operandB"); u16 (offsetof PolicyCapability_In "offset");
     u16 (offsetof PolicyCapability_In "operation"); u16 (offsetof PolicyCapability_In "capability");
     u16 (offsetof PolicyCapability_In "property")]
    [TPMI_SH_POLICY_H_UNMARSHAL; TPM2B_OPERAND_P_UNMARSHAL; UINT16_P_UNMARSHAL;
     TPM_EO_P_UNMARSHAL; TPM_CAP_P_UNMARSHAL; UINT32_P_UNMARSHAL; END_OF_LIST; END_OF_LIST].

Definition _PolicyParametersData : COMMAND_DESCRIPTOR_t :=
  mkDescriptor TPM2_PolicyParameters
    (u16 (sizeof (struct PolicyParameters_In))) 0
    [u16 (offsetof PolicyParameters_In "pHash")]
    [TPMI_SH_POLICY_H_UNMARSHAL; TPM2B_DIGEST_P_UNMARSHAL; END_OF_LIST; END_OF_LIST].

Definition _CreatePrimaryData : COMMAND_DESCRIPTOR_t :=
  mkDescriptor TPM2_CreatePrimary
    (u16 (sizeof (struct CreatePrimary_In))) (u16 (sizeof (struct CreatePrimary_Out)))
    [u16 (offsetof CreatePrimary_In "inSensitive"); u16 (offsetof CreatePrimary_In "inPublic");
     u16 (offsetof CreatePrimary_In "outsideInfo"); u16 (offsetof CreatePrimary_In "creationPCR");
     u16 (offsetof CreatePrimary_Out "outPublic"); u16 (offsetof CreatePrimary_Out "creationData");
     u16 (offsetof CreatePrimary_Out "creationHash");
     u16 (offsetof CreatePrimary_Out "creationTicket"); u16 (offsetof CreatePrimary_Out "name")]
    [TPMI_RH_HIERARCHY_H_UNMARSHAL + ADD_FLAG; TPM2B_SENSITIVE_CREATE_P_UNMARSHAL;
     TPM2B_PUBLIC_P_UNMARSHAL; TPM2B_DATA_P_UNMARSHAL; TPML_PCR_SELECTION_P_UNMARSHAL;
     END_OF_LIST; TPM_HANDLE_H_MARSHAL; TPM2B_PUBLIC_P_MARSHAL; TPM2B_CREATION_DATA_P_MARSHAL;
     TPM2B_DIGEST_P_MARSHAL; TPMT_TK_CREATION_P_MARSHAL; TPM2B_NAME_P_MARSHAL; END_OF_LIST].

Definition _HierarchyControlData : COMMAND_DESCRIPTOR_t :=
  mkDescriptor TPM2_HierarchyControl
    (u16 (sizeof (struct HierarchyControl_In))) 0
    [u16 (offsetof HierarchyControl_In "enable"); u16 (offsetof HierarchyControl_In "state")]
    [TPMI_RH_HIERARCHY_H_UNMARSHAL; TPMI_RH_ENABLES_P_UNMARSHAL; TPMI_YES_NO_P_UNMARSHAL;
     END_OF_LIST; END_OF_LIST].

Definition _SetPrimaryPolicyData : COMMAND_DESCRIPTOR_t :=
  mkDescriptor TPM2_SetPrimaryPolicy
    (u16 (sizeof (struct SetPrimaryPolicy_In))) 0
    [u16 (offsetof SetPrimaryPolicy_In "authPolicy");
     u16 (offsetof SetPrimaryPolicy_In "hashAlg")]
    [TPMI_RH_HIERARCHY_POLICY_H_UNMARSHAL; TPM2B_DIGEST_P_UNMARSHAL;
     TPMI_ALG_HASH_P_UNMARSHAL + ADD_FLAG; END_OF_LIST; END_OF_LIST].

Definition _ChangePPSData : COMMAND_DESCRIPTOR_t :=
  mkDescriptor TPM2_ChangePPS
    (u16 (sizeof (struct ChangePPS_In))) 0
    []
    [TPMI_RH_PLATFORM_H_UNMARSHAL; END_OF_LIST; END_OF_LIST].

Definition _ChangeEPSData : COMMAND_DESCRIPTOR_t :=
  mkDescriptor TPM2_ChangeEPS
    (u16 (sizeof (struct ChangeEPS_In))) 0
    []
    [TPMI_RH_PLATFORM_H_UNMARSHAL; END_OF_LIST; END_OF_LIST].

Definition _ClearData : COMMAND_DESCRIPTOR_t :=
  mkDescriptor TPM2_Clear
    (u16 (sizeof (struct Clear_In))) 0
    []
    [TPMI_RH_CLEAR_H_UNMARSHAL; END_OF_LIST; END_OF_LIST].

Definition _ClearControlData : COMMAND_DESCRIPTOR_t :=
  mkDescriptor TPM2_ClearControl
    (u16 (sizeof (struct ClearControl_In))) 0
    [u16 (offsetof ClearControl_In "disable")]
    [TPMI_RH_CLEAR_H_UNMARSHAL; TPMI_YES_NO_P_UNMARSHAL; END_OF_LIST; END_OF_LIST].

Definition _HierarchyChangeAuthData : COMMAND_DESCRIPTOR_t :=
  mkDescriptor TPM2_HierarchyChangeAuth
    (u16 (sizeof (struct HierarchyChangeAuth_In))) 0
    [u16 (offsetof HierarchyChangeAuth_In "newAuth")]
    [TPMI_RH_HIERARCHY_AUTH_H_UNMARSHAL; TPM2B_AUTH_P_UNMARSHAL; END_OF_LIST; END_OF_LIST].

Definition _DictionaryAttackLockResetData : COMMAND_DESCRIPTOR_t :=
  mkDescriptor TPM2_DictionaryAttackLockReset
    (u16 (sizeof (struct DictionaryAttackLockReset_In))) 0
    []
    [TPMI_RH_LOCKOUT_H_UNMARSHAL; END_OF_LIST; END_OF_LIST].

Definition _DictionaryAttackParametersData : COMMAND_DESCRIPTOR_t :=
  mkDescriptor TPM2_DictionaryAttackParameters
    (u16 (sizeof (struct DictionaryAttackParameters_In))) 0
    [u16 (offsetof DictionaryAttackParameters_In "newMaxTries");
     u16 (offsetof DictionaryAttackParameters_In "newRecoveryTime");
     u16 (offsetof DictionaryAttackParameters_In "lockoutRecovery")]
    [TPMI_RH_LOCKOUT_H_UNMARSHAL; UINT32_P_UNMARSHAL; UINT32_P_UNMARSHAL; UINT32_P_UNMARSHAL;
     END_OF_LIST; END_OF_LIST].

Definition _PP_CommandsData : COMMAND_DESCRIPTOR_t :=
  mkDescriptor TPM2_PP_Commands
    (u16 (sizeof (struct PP_Commands_In))) 0
    [u16 (offsetof PP_Commands_In "setList"); u16 (offsetof PP_Commands_In "clearList")]
    [TPMI_RH_PLATFORM_H_UNMARSHAL; TPML_CC_P_UNMARSHAL; TPML_CC_P_UNMARSHAL; END_OF_LIST;
     END_OF_LIST].

Definition _SetAlgorithmSetData : COMMAND_DESCRIPTOR_t :=
  mkDescriptor TPM2_SetAlgorithmSet
    (u16 (sizeof (struct SetAlgorithmSet_In))) 0
    [u16 (offsetof SetAlgorithmSet_In "algorithmSet")]
    [TPMI_RH_PLATFORM_H_UNMARSHAL; UINT32_P_UNMARSHAL; END_OF_LIST; END_OF_LIST].

Definition _ContextSaveData : COMMAND_DESCRIPTOR_t :=
  mkDescriptor TPM2_ContextSave
    (u16 (sizeof (struct ContextSave_In))) (u16 (sizeof (struct ContextSave_Out)))
    []
    [TPMI_DH_CONTEXT_H_UNMARSHAL; END_OF_LIST; TPMS_CONTEXT_P_MARSHAL; END_OF_LIST].

Definition _ContextLoadData : COMMAND_DESCRIPTOR_t :=
  mkDescriptor TPM2_ContextLoad
    (u16 (sizeof (struct ContextLoad_In))) (u16 (sizeof (struct ContextLoad_Out)))
    []
    [TPMS_CONTEXT_P_UNMARSHAL; END_OF_LIST; TPMI_DH_CONTEXT_H_MARSHAL; END_OF_LIST].

Definition _FlushContextData : COMMAND_DESCRIPTOR_t :=
  mkDescriptor TPM2_FlushContext
    (u16 (sizeof (struct FlushContext_In))) 0
    []
    [TPMI_DH_CONTEXT_P_UNMARSHAL; END_OF_LIST; END_OF_LIST].

Definition _EvictControlData : COMMAND_DESCRIPTOR_t :=
  mkDescriptor TPM2_EvictControl
    (u16 (sizeof (struct EvictControl_In))) 0
    [u16 (offsetof EvictControl_In "objectHandle");
     u16 (offsetof EvictControl_In "persistentHandle")]
    [TPMI_RH_PROVISION_H_UNMARSHAL; TPMI_DH_OBJECT_H_UNMARSHAL; TPMI_DH_PERSISTENT_P_UNMARSHAL;
     END_OF_LIST; END_OF_LIST].

Definition _ReadClockData : COMMAND_DESCRIPTOR_t :=
  mkDescriptor TPM2_ReadClock
    0 (u16 (sizeof (struct ReadClock_Out)))
    []
    [END_OF_LIST; TPMS_TIME_INFO_P_MARSHAL; END_OF_LIST].

Definition _ClockSetData : COMMAND_DESCRIPTOR_t :=
  mkDescriptor TPM2_ClockSet
    (u16 (sizeof (struct ClockSet_In))) 0
    [u16 (offsetof ClockSet_In "newTime")]
    [TPMI_RH_PROVISION_H_UNMARSHAL; UINT64_P_UNMARSHAL; END_OF_LIST; END_OF_LIST].

Definition _ClockRateAdjustData : COMMAND_DESCRIPTOR_t :=
  mkDescriptor TPM2_ClockRateAdjust
    (u16 (sizeof (struct ClockRateAdjust_In))) 0
    [u16 (offsetof ClockRateAdjust_In "rateAdjust")]
    [TPMI_RH_PROVISION_H_UNMARSHAL; TPM_CLOCK_ADJUST_P_UNMARSHAL; END_OF_LIST; END_OF_LIST].

Definition _GetCapabilityData : COMMAND_DESCRIPTOR_t :=
  mkDescriptor TPM2_GetCapability
    (u16 (sizeof (struct GetCapability_In))) (u16 (sizeof (struct GetCapability_Out)))
    [u16 (offsetof GetCapability_In "property"); u16 (offsetof GetCapability_In "propertyCount");
     u16 (offsetof GetCapability_Out "capabilityData")]
    [TPM_CAP_P_UNMARSHAL; UINT32_P_UNMARSHAL; UINT32_P_UNMARSHAL; END_OF_LIST;
     TPMI_YES_NO_P_MARSHAL; TPMS_CAPABILITY_DATA_P_MARSHAL; END_OF_LIST].

Definition _TestParmsData : COMMAND_DESCRIPTOR_t :=
  mkDescriptor TPM2_TestParms
    (u16 (sizeof (struct TestParms_In))) 0
    []
    [TPMT_PUBLIC_PARMS_P_UNMARSHAL; END_OF_LIST; END_OF_LIST].

Definition _NV_DefineSpaceData : COMMAND_DESCRIPTOR_t :=
  mkDescriptor TPM2_NV_DefineSpace
    (u16 (sizeof (struct NV_DefineSpace_In))) 0
    [u16 (offsetof NV_DefineSpace_In "auth"); u16 (offsetof NV_DefineSpace_In "publicInfo")]
    [TPMI_RH_PROVISION_H_UNMARSHAL; TPM2B_AUTH_P_UNMARSHAL; TPM2B_NV_PUBLIC_P_UNMARSHAL;
     END_OF_LIST; END_OF_LIST].

Definition _NV_UndefineSpaceData : COMMAND_DESCRIPTOR_t :=
  mkDescriptor TPM2_NV_UndefineSpace
    (u16 (sizeof (struct NV_UndefineSpace_In))) 0
    [u16 (offsetof NV_UndefineSpace_In "nvIndex")]
    [TPMI_RH_PROVISION_H_UNMARSHAL; TPMI_RH_NV_INDEX_H_UNMARSHAL; END_OF_LIST; END_OF_LIST].

Definition _NV_UndefineSpaceSpecialData : COMMAND_DESCRIPTOR_t :=
  mkDescriptor TPM2_NV_UndefineSpaceSpecial
    (u16 (sizeof (struct NV_UndefineSpaceSpecial_In))) 0
    [u16 (offsetof NV_UndefineSpaceSpecial_In "platform")]
    [TPMI_RH_NV_INDEX_H_UNMARSHAL; TPMI_RH_PLATFORM_H_UNMARSHAL; END_OF_LIST; END_OF_LIST].

Definition _NV_ReadPublicData : COMMAND_DESCRIPTOR_t :=
  mkDescriptor TPM2_NV_ReadPublic
    (u16 (sizeof (struct NV_ReadPublic_In))) (u16 (sizeof (struct NV_ReadPublic_Out)))
    [u16 (offsetof NV_ReadPublic_Out "nvName")]
    [TPMI_RH_NV_INDEX_H_UNMARSHAL; END_OF_LIST; TPM2B_NV_PUBLIC_P_MARSHAL; TPM2B_NAME_P_MARSHAL;
     END_OF_LIST].

Definition _NV_WriteData : COMMAND_DESCRIPTOR_t :=
  mkDescriptor TPM2_NV_Write
    (u16 (sizeof (struct NV_Write_In))) 0
    [u16 (offsetof NV_Write_In "nvIndex"); u16 (offsetof NV_Write_In "data");
     u16 (offsetof NV_Write_In "offset")]
    [TPMI_RH_NV_AUTH_H_UNMARSHAL; TPMI_RH_NV_INDEX_H_UNMARSHAL; TPM2B_MAX_NV_BUFFER_P_UNMARSHAL;
     UINT16_P_UNMARSHAL; END_OF_LIST; END_OF_LIST].

Definition _NV_IncrementData : COMMAND_DESCRIPTOR_t :=
  mkDescriptor TPM2_NV_Increment
    (u16 (sizeof (struct NV_Increment_In))) 0
    [u16 (offsetof NV_Increment_In "nvIndex")]
    [TPMI_RH_NV_AUTH_H_UNMARSHAL; TPMI_RH_NV_INDEX_H_UNMARSHAL; END_OF_LIST; END_OF_LIST].

Definition _NV_ExtendData : COMMAND_DESCRIPTOR_t :=
  mkDescriptor TPM2_NV_Extend
    (u16 (sizeof (struct NV_Extend_In))) 0
    [u16 (offsetof NV_Extend_In "nvIndex"); u16 (offsetof NV_Extend_In "data")]
    [TPMI_RH_NV_AUTH_H_UNMARSHAL; TPMI_RH_NV_INDEX_H_UNMARSHAL; TPM2B_MAX_NV_BUFFER_P_UNMARSHAL;
     END_OF_LIST; END_OF_LIST].

Definition _NV_SetBitsData : COMMAND_DESCRIPTOR_t :=
  mkDescriptor TPM2_NV_SetBits
    (u16 (sizeof (struct NV_SetBits_In))) 0
    [u16 (offsetof NV_SetBits_In "nvIndex"); u16 (offsetof NV_SetBits_In "bits")]
    [TPMI_RH_NV_AUTH_H_UNMARSHAL; TPMI_RH_NV_INDEX_H_UNMARSHAL; UINT64_P_UNMARSHAL; END_OF_LIST;
     END_OF_LIST].

Definition _NV_WriteLockData : COMMAND_DESCRIPTOR_t :=
  mkDescriptor TPM2_NV_WriteLock
    (u16 (sizeof (struct NV_WriteLock_In))) 0
    [u16 (offsetof NV_WriteLock_In "nvIndex")]
    [TPMI_RH_NV_AUTH_H_UNMARSHAL; TPMI_RH_NV_INDEX_H_UNMARSHAL; END_OF_LIST; END_OF_LIST].

Definition _NV_GlobalWriteLockData : COMMAND_DESCRIPTOR_t :=
  mkDescriptor TPM2_NV_GlobalWriteLock
    (u16 (sizeof (struct NV_GlobalWriteLock_In))) 0
    []
    [TPMI_RH_PROVISION_H_UNMARSHAL; END_OF_LIST; END_OF_LIST].

Definition _NV_ReadData : COMMAND_DESCRIPTOR_t :=
  mkDescriptor TPM2_NV_Read
    (u16 (sizeof (struct NV_Read_In))) (u16 (sizeof (struct NV_Read_Out)))
    [u16 (offsetof NV_Read_In "nvIndex"); u16 (offsetof NV_Read_In "size");
     u16 (offsetof NV_Read_In "offset")]
    [TPMI_RH_NV_AUTH_H_UNMARSHAL; TPMI_RH_NV_INDEX_H_UNMARSHAL; UINT16_P_UNMARSHAL;
     UINT16_P_UNMARSHAL; END_OF_LIST; TPM2B_MAX_NV_BUFFER_P_MARSHAL; END_OF_LIST].

Definition _NV_ReadLockData : COMMAND_DESCRIPTOR_t :=
  mkDescriptor TPM2_NV_ReadLock
    (u16 (sizeof (struct NV_ReadLock_In))) 0
    [u16 (offsetof NV_ReadLock_In "nvIndex")]
    [TPMI_RH_NV_AUTH_H_UNMARSHAL; TPMI_RH_NV_INDEX_H_UNMARSHAL; END_OF_LIST; END_OF_LIST].

Definition _NV_ChangeAuthData : COMMAND_DESCRIPTOR_t :=
  mkDescriptor TPM2_NV_ChangeAuth
    (u16 (sizeof (struct NV_ChangeAuth_In))) 0
    [u16 (offsetof NV_ChangeAuth_In "newAuth")]
    [TPMI_RH_NV_INDEX_H_UNMARSHAL; TPM2B_AUTH_P_UNMARSHAL; END_OF_LIST; END_OF_LIST].

Definition _NV_CertifyData : COMMAND_DESCRIPTOR_t :=
  mkDescriptor TPM2_NV_Certify
    (u16 (sizeof (struct NV_Certify_In))) (u16 (sizeof (struct NV_Certify_Out)))
    [u16 (offsetof NV_Certify_In "authHandle"); u16 (offsetof NV_Certify_In "nvIndex");
     u16 (offsetof NV_Certify_In "qualifyingData"); u16 (offsetof NV_Certify_In "inScheme");
     u16 (offsetof NV_Certify_In "size"); u16 (offsetof NV_Certify_In "offset");
     u16 (offsetof NV_Certify_Out "signature")]
    [TPMI_DH_OBJECT_H_UNMARSHAL + ADD_FLAG; TPMI_RH_NV_AUTH_H_UNMARSHAL;
     TPMI_RH_NV_INDEX_H_UNMARSHAL; TPM2B_DATA_P_UNMARSHAL; TPMT_SIG_SCHEME_P_UNMARSHAL + ADD_FLAG;
     UINT16_P_UNMARSHAL; UINT16_P_UNMARSHAL; END_OF_LIST; TPM2B_ATTEST_P_MARSHAL;
     TPMT_SIGNATURE_P_MARSHAL; END_OF_LIST].

Definition _NV_DefineSpace2Data : COMMAND_DESCRIPTOR_t :=
  mkDescriptor TPM2_NV_DefineSpace2
    (u16 (sizeof (struct NV_DefineSpace2_In))) 0
    [u16 (offsetof NV_DefineSpace2_In "auth"); u16 (offsetof NV_DefineSpace2_In "publicInfo")]
    [TPMI_RH_PROVISION_H_UNMARSHAL; TPM2B_AUTH_P_UNMARSHAL; TPM2B_NV_PUBLIC_2_P_UNMARSHAL;
     END_OF_LIST; END_OF_LIST].

Definition _NV_ReadPublic2Data : COMMAND_DESCRIPTOR_t :=
  mkDescriptor TPM2_NV_ReadPublic2
    (u16 (sizeof (struct NV_ReadPublic2_In))) (u16 (sizeof (struct NV_ReadPublic2_Out)))
    [u16 (offsetof NV_ReadPublic2_Out "nvName")]
    [TPMI_RH_NV_INDEX_H_UNMARSHAL; END_OF_LIST; TPM2B_NV_PUBLIC_2_P_MARSHAL; TPM2B_NAME_P_MARSHAL;
     END_OF_LIST].

Definition _Vendor_TCG_TestData : COMMAND_DESCRIPTOR_t :=
  mkDescriptor TPM2_Vendor_TCG_Test
    (u16 (sizeof (struct Vendor_TCG_Test_In))) (u16 (sizeof (struct Vendor_TCG_Test_Out)))
    []
    [TPM2B_DATA_P_UNMARSHAL; END_OF_LIST; TPM2B_DATA_P_MARSHAL; END_OF_LIST].

Definition _NTC2_PreConfigData : COMMAND_DESCRIPTOR_t :=
  mkDescriptor NTC2_PreConfig
    (u16 (sizeof (struct NTC2_PreConfig_In))) 0
    []
    [NTC2_CFG_STRUCT_P_UNMARSHAL; END_OF_LIST; END_OF_LIST].

Definition _NTC2_LockPreConfigData : COMMAND_DESCRIPTOR_t :=
  mkDescriptor NTC2_LockPreConfig
    0 0
    []
    [END_OF_LIST; END_OF_LIST].

Definition _NTC2_GetConfigData : COMMAND_DESCRIPTOR_t :=
  mkDescriptor NTC2_GetConfig
    0 (u16 (sizeof (struct NTC2_GetConfig_Out)))
    []
    [END_OF_LIST; NTC2_CFG_STRUCT_P_MARSHAL; END_OF_LIST].

Definition s_CommandDataArray_1 : list COMMAND_DESCRIPTOR_t := [_NV_UndefineSpaceSpecialData;
  _EvictControlData; _HierarchyControlData; _NV_UndefineSpaceData; _ChangeEPSData; _ChangePPSData;
  _ClearData; _ClearControlData; _ClockSetData; _HierarchyChangeAuthData; _NV_DefineSpaceData;
  _PCR_AllocateData; _PCR_SetAuthPolicyData; _PP_CommandsData; _SetPrimaryPolicyData;
  _ClockRateAdjustData; _CreatePrimaryData; _NV_GlobalWriteLockData; _GetCommandAuditDigestData;
  _NV_IncrementData; _NV_SetBitsData; _NV_ExtendData; _NV_WriteData; _NV_WriteLockData;
  _DictionaryAttackLockResetData; _DictionaryAttackParametersData; _NV_ChangeAuthData;
  _PCR_EventData; _PCR_ResetData; _SequenceCompleteData].
Definition s_CommandDataArray_2 : list COMMAND_DESCRIPTOR_t := [_SetAlgorithmSetData;
  _SetCommandCodeAuditStatusData; _IncrementalSelfTestData; _SelfTestData; _StartupData;
  _ShutdownData; _StirRandomData; _ActivateCredentialData; _CertifyData; _PolicyNVData;
  _CertifyCreationData; _DuplicateData; _GetTimeData; _GetSessionAuditDigestData; _NV_ReadData;
  _NV_ReadLockData; _ObjectChangeAuthData; _PolicySecretData; _RewrapData; _CreateData;
  _ECDH_ZGenData; _MACData; _ImportData; _LoadData; _QuoteData; _RSA_DecryptData; _MAC_StartData;
  _SequenceUpdateData; _SignData; _UnsealData].
Definition s_CommandDataArray_3 : list COMMAND_DESCRIPTOR_t := [_PolicySignedData;
  _ContextLoadData; _ContextSaveData; _ECDH_KeyGenData; _EncryptDecryptData; _FlushContextData;
  _LoadExternalData; _MakeCredentialData; _NV_ReadPublicData; _PolicyAuthorizeData;
  _PolicyAuthValueData; _PolicyCommandCodeData; _PolicyCounterTimerData; _PolicyCpHashData;
  _PolicyLocalityData; _PolicyNameHashData; _PolicyORData; _PolicyTicketData; _ReadPublicData;
  _RSA_EncryptData; _StartAuthSessionData; _VerifySignatureData; _ECC_ParametersData;
  _GetCapabilityData; _GetRandomData; _GetTestResultData; _HashData; _PCR_ReadData;
  _PolicyPCRData; _PolicyRestartData].
Definition s_CommandDataArray_4 : list COMMAND_DESCRIPTOR_t := [_ReadClockData; _PCR_ExtendData;
  _PCR_SetAuthValueData; _NV_CertifyData; _EventSequenceCompleteData; _HashSequenceStartData;
  _PolicyPhysicalPresenceData; _PolicyDuplicationSelectData; _PolicyGetDigestData; _TestParmsData;
  _CommitData; _PolicyPasswordData; _ZGen_2PhaseData; _EC_EphemeralData; _PolicyNvWrittenData;
  _PolicyTemplateData; _CreateLoadedData; _PolicyAuthorizeNVData; _EncryptDecrypt2Data;
  _CertifyX509Data; _ECC_EncryptData; _ECC_DecryptData; _PolicyCapabilityData;
  _PolicyParametersData; _NV_DefineSpace2Data; _NV_ReadPublic2Data; _Vendor_TCG_TestData;
  _NTC2_PreConfigData; _NTC2_LockPreConfigData; _NTC2_GetConfigData].

(** In the order of the command codes, library commands first. *)
Definition s_CommandDataArray : list COMMAND_DESCRIPTOR_t :=
  s_CommandDataArray_1 ++ s_CommandDataArray_2 ++ s_CommandDataArray_3 ++ s_CommandDataArray_4.
