(* ===== verification/DispatchWf.v ===== *)
(** * What the functions of the dispatch arrays promise

    For each entry of [unmarshalArray] the predicate of the values it stores, and
    for each entry of [marshalArray] that of the values it is given and the
    number of octets it writes at most; the contracts of WireCodecs.v and
    WireEmitters.v show that the entries keep to them. *)

From S2P Require Import Prelude TpmTypes Memory WireTypes Unmarshal Marshal WireCodec WireWf WireCodecs WireEmitters CTypes CommandIO DispatchArrays.
Local Open Scope Z_scope.

(** ** Predicates on values *)

Definition is_INT8 (P : Z → bool) (v : value) : bool :=
  match v with V_INT8 x => P x | _ => false end.
Definition is_UINT16 (P : Z → bool) (v : value) : bool :=
  match v with V_UINT16 x => P x | _ => false end.
Definition is_UINT32 (P : Z → bool) (v : value) : bool :=
  match v with V_UINT32 x => P x | _ => false end.
Definition is_UINT64 (P : Z → bool) (v : value) : bool :=
  match v with V_UINT64 x => P x | _ => false end.
Definition is_UINT8 (P : Z → bool) (v : value) : bool :=
  match v with V_UINT8 x => P x | _ => false end.
Definition is_TPM2B (P : TPM2B → bool) (v : value) : bool :=
  match v with V_TPM2B x => P x | _ => false end.
Definition is_TPM2B_CREATION_DATA (P : TPM2B_CREATION_DATA → bool) (v : value) : bool :=
  match v with V_TPM2B_CREATION_DATA x => P x | _ => false end.
Definition is_TPM2B_ECC_POINT (P : TPM2B_ECC_POINT → bool) (v : value) : bool :=
  match v with V_TPM2B_ECC_POINT x => P x | _ => false end.
Definition is_TPM2B_NV_PUBLIC (P : TPM2B_NV_PUBLIC → bool) (v : value) : bool :=
  match v with V_TPM2B_NV_PUBLIC x => P x | _ => false end.
Definition is_TPM2B_NV_PUBLIC_2 (P : TPM2B_NV_PUBLIC_2 → bool) (v : value) : bool :=
  match v with V_TPM2B_NV_PUBLIC_2 x => P x | _ => false end.
Definition is_TPM2B_PUBLIC (P : TPM2B_PUBLIC → bool) (v : value) : bool :=
  match v with V_TPM2B_PUBLIC x => P x | _ => false end.
Definition is_TPM2B_SENSITIVE (P : TPM2B_SENSITIVE → bool) (v : value) : bool :=
  match v with V_TPM2B_SENSITIVE x => P x | _ => false end.
Definition is_TPM2B_SENSITIVE_CREATE (P : TPM2B_SENSITIVE_CREATE → bool) (v : value) : bool :=
  match v with V_TPM2B_SENSITIVE_CREATE x => P x | _ => false end.
Definition is_TPM2B_SET_CAPABILITY_DATA (P : TPM2B_SET_CAPABILITY_DATA → bool) (v : value) : bool :=
  match v with V_TPM2B_SET_CAPABILITY_DATA x => P x | _ => false end.
Definition is_TPML_AC_CAPABILITIES (P : TPML_AC_CAPABILITIES → bool) (v : value) : bool :=
  match v with V_TPML_AC_CAPABILITIES x => P x | _ => false end.
Definition is_TPML_ALG (P : TPML_ALG → bool) (v : value) : bool :=
  match v with V_TPML_ALG x => P x | _ => false end.
Definition is_TPML_CC (P : TPML_CC → bool) (v : value) : bool :=
  match v with V_TPML_CC x => P x | _ => false end.
Definition is_TPML_DIGEST (P : TPML_DIGEST → bool) (v : value) : bool :=
  match v with V_TPML_DIGEST x => P x | _ => false end.
Definition is_TPML_DIGEST_VALUES (P : TPML_DIGEST_VALUES → bool) (v : value) : bool :=
  match v with V_TPML_DIGEST_VALUES x => P x | _ => false end.
Definition is_TPML_PCR_SELECTION (P : TPML_PCR_SELECTION → bool) (v : value) : bool :=
  match v with V_TPML_PCR_SELECTION x => P x | _ => false end.
Definition is_TPMS_AC_OUTPUT (P : TPMS_AC_OUTPUT → bool) (v : value) : bool :=
  match v with V_TPMS_AC_OUTPUT x => P x | _ => false end.
Definition is_TPMS_ALGORITHM_DETAIL_ECC (P : TPMS_ALGORITHM_DETAIL_ECC → bool) (v : value) : bool :=
  match v with V_TPMS_ALGORITHM_DETAIL_ECC x => P x | _ => false end.
Definition is_TPMS_CAPABILITY_DATA (P : TPMS_CAPABILITY_DATA → bool) (v : value) : bool :=
  match v with V_TPMS_CAPABILITY_DATA x => P x | _ => false end.
Definition is_TPMS_CONTEXT (P : TPMS_CONTEXT → bool) (v : value) : bool :=
  match v with V_TPMS_CONTEXT x => P x | _ => false end.
Definition is_TPMS_TIME_INFO (P : TPMS_TIME_INFO → bool) (v : value) : bool :=
  match v with V_TPMS_TIME_INFO x => P x | _ => false end.
Definition is_TPMT_HA (P : TPMT_HA → bool) (v : value) : bool :=
  match v with V_TPMT_HA x => P x | _ => false end.
Definition is_TPMT_KDF_SCHEME (P : TPMT_KDF_SCHEME → bool) (v : value) : bool :=
  match v with V_TPMT_KDF_SCHEME x => P x | _ => false end.
Definition is_TPMT_PUBLIC_PARMS (P : TPMT_PUBLIC_PARMS → bool) (v : value) : bool :=
  match v with V_TPMT_PUBLIC_PARMS x => P x | _ => false end.
Definition is_TPMT_RSA_DECRYPT (P : TPMT_RSA_DECRYPT → bool) (v : value) : bool :=
  match v with V_TPMT_RSA_DECRYPT x => P x | _ => false end.
Definition is_TPMT_SIGNATURE (P : TPMT_SIGNATURE → bool) (v : value) : bool :=
  match v with V_TPMT_SIGNATURE x => P x | _ => false end.
Definition is_TPMT_SIG_SCHEME (P : TPMT_SIG_SCHEME → bool) (v : value) : bool :=
  match v with V_TPMT_SIG_SCHEME x => P x | _ => false end.
Definition is_TPMT_SYM_DEF (P : TPMT_SYM_DEF → bool) (v : value) : bool :=
  match v with V_TPMT_SYM_DEF x => P x | _ => false end.
Definition is_TPMT_SYM_DEF_OBJECT (P : TPMT_SYM_DEF_OBJECT → bool) (v : value) : bool :=
  match v with V_TPMT_SYM_DEF_OBJECT x => P x | _ => false end.
Definition is_TPMT_TK_AUTH (P : TPMT_TK_AUTH → bool) (v : value) : bool :=
  match v with V_TPMT_TK_AUTH x => P x | _ => false end.
Definition is_TPMT_TK_CREATION (P : TPMT_TK_CREATION → bool) (v : value) : bool :=
  match v with V_TPMT_TK_CREATION x => P x | _ => false end.
Definition is_TPMT_TK_HASHCHECK (P : TPMT_TK_HASHCHECK → bool) (v : value) : bool :=
  match v with V_TPMT_TK_HASHCHECK x => P x | _ => false end.
Definition is_TPMT_TK_VERIFIED (P : TPMT_TK_VERIFIED → bool) (v : value) : bool :=
  match v with V_TPMT_TK_VERIFIED x => P x | _ => false end.
Definition is_bytes (P : bytes → bool) (v : value) : bool :=
  match v with V_bytes x => P x | _ => false end.

(** ** The predicates of the arrays *)

Definition unmarshal_wf : list (bool → value → bool) := [
  λ _, is_UINT32 TPMI_DH_CONTEXT_wf;
  λ _, is_UINT32 TPMI_RH_AC_wf;
  λ _, is_UINT32 TPMI_RH_ACT_wf;
  λ _, is_UINT32 TPMI_RH_CLEAR_wf;
  λ _, is_UINT32 TPMI_RH_HIERARCHY_AUTH_wf;
  λ _, is_UINT32 TPMI_RH_HIERARCHY_POLICY_wf;
  λ _, is_UINT32 TPMI_RH_LOCKOUT_wf;
  λ _, is_UINT32 TPMI_RH_NV_AUTH_wf;
  λ _, is_UINT32 TPMI_RH_NV_INDEX_wf;
  λ _, is_UINT32 TPMI_RH_PLATFORM_wf;
  λ _, is_UINT32 TPMI_RH_PROVISION_wf;
  λ _, is_UINT32 TPMI_SH_HMAC_wf;
  λ _, is_UINT32 TPMI_SH_POLICY_wf;
  λ flag, is_UINT32 (TPMI_DH_ENTITY_wf flag);
  λ flag, is_UINT32 (TPMI_DH_OBJECT_wf flag);
  λ flag, is_UINT32 (TPMI_DH_PARENT_wf flag);
  λ flag, is_UINT32 (TPMI_DH_PCR_wf flag);
  λ flag, is_UINT32 (TPMI_RH_ENDORSEMENT_wf flag);
  λ flag, is_UINT32 (TPMI_RH_HIERARCHY_wf flag);
  λ _, is_TPM2B (tpm2b_wf sizeof_TPMT_HA);
  λ _, is_TPM2B (tpm2b_wf sizeof_TPMU_HA);
  λ _, is_TPM2B (tpm2b_wf MAX_ECC_KEY_BYTES);
  λ _, is_TPM2B_ECC_POINT TPM2B_ECC_POINT_wf;
  λ _, is_TPM2B (tpm2b_wf sizeof_TPMU_ENCRYPTED_SECRET);
  λ _, is_TPM2B (tpm2b_wf (sizeof_TPM2B_EVENT - sizeof_UINT16));
  λ _, is_TPM2B (tpm2b_wf sizeof_TPMS_ID_OBJECT);
  λ _, is_TPM2B (tpm2b_wf MAX_SYM_BLOCK_SIZE);
  λ _, is_TPM2B (tpm2b_wf MAX_DIGEST_BUFFER);
  λ _, is_TPM2B (tpm2b_wf MAX_NV_BUFFER_SIZE);
  λ _, is_TPM2B (tpm2b_wf sizeof_TPMU_NAME);
  λ _, is_TPM2B_NV_PUBLIC TPM2B_NV_PUBLIC_wf;
  λ _, is_TPM2B_NV_PUBLIC_2 TPM2B_NV_PUBLIC_2_wf;
  λ _, is_TPM2B (tpm2b_wf sizeof__PRIVATE);
  λ _, is_TPM2B (tpm2b_wf MAX_RSA_KEY_BYTES);
  λ _, is_TPM2B_SENSITIVE TPM2B_SENSITIVE_wf;
  λ _, is_TPM2B_SENSITIVE_CREATE TPM2B_SENSITIVE_CREATE_wf;
  λ _, is_TPM2B (tpm2b_wf MAX_SYM_DATA);
  λ _, is_TPM2B_SET_CAPABILITY_DATA TPM2B_SET_CAPABILITY_DATA_wf;
  λ _, is_TPM2B (tpm2b_wf sizeof_TPMT_PUBLIC);
  λ _, is_TPM2B (tpm2b_wf TPM2B_TIMEOUT_buffer);
  λ _, is_UINT32 TPMI_DH_CONTEXT_wf;
  λ _, is_UINT32 TPMI_DH_PERSISTENT_wf;
  λ _, is_UINT8 TPMI_YES_NO_wf;
  λ _, is_TPML_ALG TPML_ALG_wf;
  λ _, is_TPML_CC TPML_CC_wf;
  λ _, is_TPML_DIGEST TPML_DIGEST_wf;
  λ _, is_TPML_DIGEST_VALUES TPML_DIGEST_VALUES_wf;
  λ _, is_TPML_PCR_SELECTION TPML_PCR_SELECTION_wf;
  λ _, is_TPMS_CONTEXT TPMS_CONTEXT_wf;
  λ _, is_TPMT_PUBLIC_PARMS TPMT_PUBLIC_PARMS_wf;
  λ _, is_TPMT_TK_AUTH TPMT_TK_AUTH_wf;
  λ _, is_TPMT_TK_CREATION TPMT_TK_CREATION_wf;
  λ _, is_TPMT_TK_HASHCHECK TPMT_TK_HASHCHECK_wf;
  λ _, is_TPMT_TK_VERIFIED TPMT_TK_VERIFIED_wf;
  λ _, is_UINT32 (uint 32);
  λ _, is_UINT32 TPM_CAP_wf;
  λ _, is_INT8 TPM_CLOCK_ADJUST_wf;
  λ _, is_UINT16 TPM_EO_wf;
  λ _, is_UINT8 TPM_SE_wf;
  λ _, is_UINT16 TPM_SU_wf;
  λ _, is_UINT16 (uint 16);
  λ _, is_UINT32 (uint 32);
  λ _, is_UINT64 (uint 64);
  λ _, is_UINT8 (uint 8);
  λ flag, is_TPM2B_PUBLIC (TPM2B_PUBLIC_wf flag);
  λ flag, is_UINT16 (TPMI_ALG_CIPHER_MODE_wf flag);
  λ flag, is_UINT16 (TPMI_ALG_HASH_wf flag);
  λ flag, is_UINT16 (TPMI_ALG_MAC_SCHEME_wf flag);
  λ flag, is_UINT32 (TPMI_DH_PCR_wf flag);
  λ flag, is_UINT16 (TPMI_ECC_CURVE_wf flag);
  λ flag, is_UINT16 (TPMI_ECC_KEY_EXCHANGE_wf flag);
  λ flag, is_UINT32 (TPMI_RH_ENABLES_wf flag);
  λ flag, is_UINT32 (TPMI_RH_HIERARCHY_wf flag);
  λ flag, is_TPMT_KDF_SCHEME (TPMT_KDF_SCHEME_wf flag);
  λ flag, is_TPMT_RSA_DECRYPT (TPMT_RSA_DECRYPT_wf flag);
  λ flag, is_TPMT_SIGNATURE (TPMT_SIGNATURE_wf flag);
  λ flag, is_TPMT_SIG_SCHEME (TPMT_SIG_SCHEME_wf flag);
  λ flag, is_TPMT_SYM_DEF (TPMT_SYM_DEF_wf flag);
  λ flag, is_TPMT_SYM_DEF_OBJECT (TPMT_SYM_DEF_OBJECT_wf flag);
  λ _, is_bytes (array_wf (sizeof c_NTC2_CFG_STRUCT))].

Definition marshal_wf : list ((value → bool) * Z) := [
  (is_UINT32 (uint 32), 4);
  (is_TPM2B (tpm2b_wf TPM2B_ATTEST_buffer), 1282);
  (is_TPM2B_CREATION_DATA TPM2B_CREATION_DATA_wf, 307);
  (is_TPM2B (tpm2b_wf sizeof_TPMT_HA), 68);
  (is_TPM2B (tpm2b_wf sizeof_TPMU_HA), 66);
  (is_TPM2B_ECC_POINT TPM2B_ECC_POINT_wf, 166);
  (is_TPM2B (tpm2b_wf sizeof_TPMU_ENCRYPTED_SECRET), 514);
  (is_TPM2B (tpm2b_wf sizeof_TPMS_ID_OBJECT), 134);
  (is_TPM2B (tpm2b_wf MAX_SYM_BLOCK_SIZE), 18);
  (is_TPM2B (tpm2b_wf MAX_DIGEST_BUFFER), 1026);
  (is_TPM2B (tpm2b_wf MAX_NV_BUFFER_SIZE), 1026);
  (is_TPM2B (tpm2b_wf sizeof_TPMU_NAME), 70);
  (is_TPM2B_NV_PUBLIC TPM2B_NV_PUBLIC_wf, 80);
  (is_TPM2B_NV_PUBLIC_2 TPM2B_NV_PUBLIC_2_wf, 85);
  (is_TPM2B (tpm2b_wf sizeof__PRIVATE), 1552);
  (is_TPM2B_PUBLIC (TPM2B_PUBLIC_wf true), 608);
  (is_TPM2B (tpm2b_wf MAX_RSA_KEY_BYTES), 514);
  (is_TPM2B (tpm2b_wf MAX_SYM_DATA), 130);
  (is_TPM2B (tpm2b_wf TPM2B_TIMEOUT_buffer), 10);
  (is_UINT8 (uint 8), 1);
  (is_TPML_AC_CAPABILITIES TPML_AC_CAPABILITIES_wf, 1020);
  (is_TPML_ALG TPML_ALG_wf, 132);
  (is_TPML_DIGEST TPML_DIGEST_wf, 532);
  (is_TPML_DIGEST_VALUES TPML_DIGEST_VALUES_wf, 268);
  (is_TPML_PCR_SELECTION TPML_PCR_SELECTION_wf, 28);
  (is_TPMS_AC_OUTPUT TPMS_AC_OUTPUT_wf, 8);
  (is_TPMS_ALGORITHM_DETAIL_ECC TPMS_ALGORITHM_DETAIL_ECC_wf, 588);
  (is_TPMS_CAPABILITY_DATA TPMS_CAPABILITY_DATA_wf, 1024);
  (is_TPMS_CONTEXT TPMS_CONTEXT_wf, 2766);
  (is_TPMS_TIME_INFO TPMS_TIME_INFO_wf, 25);
  (is_TPMT_HA (TPMT_HA_wf true), 66);
  (is_TPMT_SIGNATURE (TPMT_SIGNATURE_wf true), 518);
  (is_TPMT_TK_AUTH TPMT_TK_AUTH_wf, 72);
  (is_TPMT_TK_CREATION TPMT_TK_CREATION_wf, 72);
  (is_TPMT_TK_HASHCHECK TPMT_TK_HASHCHECK_wf, 72);
  (is_TPMT_TK_VERIFIED TPMT_TK_VERIFIED_wf, 72);
  (is_UINT32 (uint 32), 4);
  (is_UINT16 (uint 16), 2);
  (is_bytes (array_wf (sizeof c_NTC2_CFG_STRUCT)), 18)].

(** ** The contracts *)

Definition keeps (e : UNMARSHAL_t) (P : bool → value → bool) : Prop :=
  match e with
  | NoFlagFunction _ f => ∀ flag, parses f (λ v _, P flag v = true)
  | FlagFunction _ f => ∀ flag, parses (f flag) (λ v _, P flag v = true)
  end.

Definition sends (e : MARSHAL_t) (P : (value → bool) * Z) : Prop :=
  P.2 ≤ sizeof (source_of e) ∧
  ∀ v, P.1 v = true → ∃ b, emits (MarshalFunction e v) b ∧ blen b ≤ P.2.

#[export] Instance NTC2_CFG_STRUCT_codec :
  Codec NTC2_CFG_STRUCT_Unmarshal NTC2_CFG_STRUCT_Marshal (array_wf (sizeof c_NTC2_CFG_STRUCT)) 18.
Proof. apply codec_alias, codec_array; done. Qed.

Lemma parses_as {A} (V : A → value) (f : Unm A) (P : A → bool) (Q : value → bool) :
  Parser f P → (∀ a, Q (V a) = P a) → parses (unmarshal_as V f) (λ v _, Q v = true).
Proof.
  intros H HQ. eapply parses_bind; [apply H|]. cbn beta. intros a b Ha. apply parses_ret. by rewrite HQ.
Qed.

Lemma sends_as {A} (t : ctype) (f : A → Mar) (g : value → Mar) (P : A → bool) (Q : value → bool) n :
  Emitter f P n → n ≤ sizeof t → (∀ v, Q v = true → ∃ a, P a = true ∧ g v = f a) →
  sends (mkMARSHAL_t t g) (Q, n).
Proof.
  intros H Hn HQ. split; [done|]. intros v Hv. destruct (HQ v Hv) as (a & Ha & E).
  cbn [MarshalFunction snd]. rewrite E. destruct (H a Ha) as (b & ? & ?). by exists b.
Qed.

Lemma unmarshalArray_ok : Forall2 keeps unmarshalArray unmarshal_wf.
Proof.
  repeat constructor; intros flag; (eapply parses_as; [apply _|reflexivity]).
Qed.

Lemma marshalArray_ok : Forall2 sends marshalArray marshal_wf.
Proof.
  unfold marshalArray, marshal_wf.
  repeat (apply List.Forall2_cons;
    [match goal with |- sends (mkMARSHAL_t _ (_ ?f)) (_ ?P, _) => apply (sends_as _ f _ P) end;
     [apply _|closed_le|intros [] Hv; try discriminate; by eexists]|]).
  apply List.Forall2_nil.
Qed.
