(* ===== verification/Dispatch.v ===== *)
(** * Dispatching a command

    CommandDispatcher.c and the buffers of IoBuffers.c.  [ParseHandleBuffer]
    unmarshals the handles of a command; [CommandDispatcher] unmarshals its
    parameters into the input structure of its action, calls the action and
    marshals what it returned into the response.  Both follow the descriptor of
    the command.  [TABLE_DRIVEN_DISPATCH] is set and [TABLE_DRIVEN_MARSHAL] is
    not.

    The input and output structures are kept as the members that have been
    stored in them, each at its offset and with its size; a store outside the
    structure, off its alignment or over another member has no result
    ([None]).  The actions are a parameter of the model. *)

From S2P Require Import Prelude TpmTypes Memory WireTypes Unmarshal Marshal CTypes CommandIO DispatchArrays DispatchData.
Local Open Scope Z_scope.

Definition MAX_HANDLE_NUM : Z := 3.

(** ** State *)

(** The members of [COMMAND] (Global.h) the dispatcher uses; [parameterBuffer]
    holds the octets from the pointer to the end of the request,
    [responseBuffer] is the offset of the pointer in the response. *)
Record COMMAND := mkCOMMAND {
  c_index : Z;
  c_handleNum : Z;
  c_handles : list Z;
  c_parameterSize : Z;
  c_parameterBuffer : bytes;
  c_responseBuffer : Z }.

Record field := mkField { f_offset : Z; f_size : Z; f_value : value }.

(** What an action returns: a response code, its output structure, the state of
    the TPM, and whether it has put the TPM in failure mode. *)
Record outcome (S : Type) := mkOutcome {
  a_result : Z; a_out : list field; a_tpm : S; a_failed : bool }.
Arguments mkOutcome {_} _ _ _ _.
Arguments a_result {_} _.
Arguments a_out {_} _.
Arguments a_tpm {_} _.
Arguments a_failed {_} _.

Record DState (S : Type) := mkD {
  command : COMMAND;
  response : bytes;
  s_actionIoAllocation : Z;
  g_inFailureMode : bool;
  tpm : S }.
Arguments mkD {_} _ _ _ _ _.
Arguments command {_} _.
Arguments response {_} _.
Arguments s_actionIoAllocation {_} _.
Arguments g_inFailureMode {_} _.
Arguments tpm {_} _.

Section dispatch.
Context {S : Type}.
Implicit Types (s : DState S) (c : COMMAND).

#[export] Instance DState_fail : FailState (DState S) :=
  {| set_failure := λ s, mkD (command s) (response s) (s_actionIoAllocation s) true (tpm s) |}.

Definition set_command c : M (DState S) unit :=
  modify (λ s, mkD c (response s) (s_actionIoAllocation s) (g_inFailureMode s) (tpm s)).

Definition set_allocation (n : Z) : M (DState S) unit :=
  modify (λ s, mkD (command s) (response s) n (g_inFailureMode s) (tpm s)).

Definition handle_stored (i h : Z) c : COMMAND :=
  mkCOMMAND (c_index c) (c_handleNum c) (<[Z.to_nat i := h]> (c_handles c))
    (c_parameterSize c) (c_parameterBuffer c) (c_responseBuffer c).

Definition handles_counted (n : Z) c : COMMAND :=
  mkCOMMAND (c_index c) n (c_handles c)
    (c_parameterSize c) (c_parameterBuffer c) (c_responseBuffer c).

(** ** The action buffers (IoBuffers.c) *)

(** [sizeof(s_actionIoBuffer)], an array of 768 [UINT64] (Global.h). *)
Definition sizeof_s_actionIoBuffer : Z := 768 * 8.
Definition UoM : Z := 8.

Definition MemoryIoBufferAllocationReset : M (DState S) unit := set_allocation 0.

Definition MemoryIoBufferZero : M (DState S) unit :=
  let! n := gets s_actionIoAllocation in
  if n <=? sizeof_s_actionIoBuffer then ret tt else undef.

Definition MemoryGetInBuffer (size : Z) : M (DState S) unit :=
  pAssert (size <=? sizeof_s_actionIoBuffer) ;;
  let size := Z.land (u32 (size + (UoM - 1))) (0xffffffff - (UoM - 1)) in
  (if size <=? sizeof_s_actionIoBuffer then ret tt else undef) ;;
  set_allocation size.

Definition MemoryGetOutBuffer (size : Z) : M (DState S) unit :=
  let! allocation := gets s_actionIoAllocation in
  pAssert (u32 (size + allocation) <? sizeof_s_actionIoBuffer) ;;
  (if allocation / UoM * UoM + size <=? sizeof_s_actionIoBuffer then ret tt else undef) ;;
  set_allocation (u32 (allocation + size)).

(** ** Stores into and loads from a structure *)

Definition overlaps (offset size : Z) (g : field) : bool :=
  (f_offset g <? offset + size) && (offset <? f_offset g + f_size g).

Definition store_member (limit offset : Z) (t : ctype) (v : value) (l : list field)
  : option (list field) :=
  if (0 <=? offset) && (offset + sizeof t <=? limit) && (offset mod alignof t =? 0)
     && negb (existsb (overlaps offset (sizeof t)) l)
  then Some (l ++ [mkField offset (sizeof t) v])
  else None.

Fixpoint load_member (offset : Z) (l : list field) : option value :=
  match l with
  | [] => None
  | f :: l => if f_offset f =? offset then Some (f_value f) else load_member offset l
  end.

(** The 16-bit words from [desc->offsets] on: the offsets, and after them the
    octets of [types], which the loop over the response reads once, without
    using what it read. *)
Fixpoint words (l : list Z) : list Z :=
  match l with
  | a :: b :: l => a + 256 * b :: words l
  | _ => []
  end.
Definition offset_words (d : COMMAND_DESCRIPTOR_t) : list Z := d_offsets d ++ words (d_types d).

(** ** Handles *)

(** A call through [NoFlagFunction *] or through [FlagFunction *].  A function
    that takes no flag ignores one it is passed (this happens for
    [NTC2_CFG_STRUCT_Unmarshal], whose index comes after those of the functions
    with a flag); the flag of one that takes it is undefined if none is passed. *)
Definition call_unmarshal (e : UNMARSHAL_t) (with_flag : bool) (flag : bool) : Unm value :=
  match e, with_flag with
  | NoFlagFunction _ f, _ => f
  | FlagFunction _ f, true => f flag
  | FlagFunction _ _, false => undef
  end.

(** A call of [f(target, &command->parameterBuffer, &command->parameterSize)]. *)
Definition on_parameters (f : Unm value) : M (DState S) (Z + value) :=
  λ s, let c := command s in
       match f (mkU (c_parameterBuffer c) (c_parameterSize c)) with
       | Some (r, u) =>
           Some (r, mkD (mkCOMMAND (c_index c) (c_handleNum c) (c_handles c)
                           (u_size u) (u_buffer u) (c_responseBuffer c))
                        (response s) (s_actionIoAllocation s) (g_inFailureMode s) (tpm s))
       | None => None
       end.

Definition type_of (type : Z) : Z := Z.land type 0x7F.
Definition flag_of (type : Z) : bool := negb (Z.land type 0x80 =? 0).

(** [unmarshalArray[dType]]. *)
Definition unmarshal_entry (dType : Z) : option UNMARSHAL_t := unmarshalArray !! Z.to_nat dType.

(** The loop over the types; [types] starts with the current [type]. *)
Fixpoint ParseHandles (types : list Z) : M (DState S) Z :=
  match types with
  | [] => undef
  | type :: types =>
      let dType := type_of type in
      if dType <? PARAMETER_FIRST_TYPE then
        let! e := of_option (unmarshal_entry dType) in
        let! c := gets command in
        if c_handleNum c >=? MAX_HANDLE_NUM then undef
        else
          let! r := on_parameters
                      (call_unmarshal e (negb (dType <? HANDLE_FIRST_FLAG_TYPE)) (flag_of type)) in
          match r with
          | inl result =>
              let! c := gets command in
              set_command (handles_counted (c_handleNum c + 1) c) ;;
              ret (result + TPM_RC_H + (c_handleNum c + 1) * TPM_RC_1)
          | inr (V_UINT32 h) =>
              let! c := gets command in
              set_command (handles_counted (c_handleNum c + 1)
                             (handle_stored (c_handleNum c) h c)) ;;
              ParseHandles types
          | inr _ => undef
          end
      else ret TPM_RC_SUCCESS
  end.

(** [desc = s_CommandDataArray[command->index]]; the [pAssert]s on the index and
    on the descriptor fail where it has no result. *)
Definition descriptor (index : Z) : option COMMAND_DESCRIPTOR_t :=
  if index <? 0 then None else s_CommandDataArray !! Z.to_nat index.

Definition ParseHandleBuffer : M (DState S) Z :=
  let! c := gets command in
  let! desc := of_option (descriptor (c_index c)) in
  set_command (handles_counted 0 c) ;;
  ParseHandles (d_types desc).

(** ** Parameters *)

(** Where the dispatcher is: [types] from the current [type] on, [offsets],
    [offset], the input structure and [hasInParameters]. *)
Record cursor := mkCursor {
  k_types : list Z; k_offsets : list Z; k_offset : Z; k_in : list field; k_has : Z }.

(** [if( *types != 0xFF) offset = *offsets++;], where [next] is [ *types]. *)
Definition advance (next offset : Z) (offsets : list Z) : option (Z * list Z) :=
  if next =? 0xFF then Some (offset, offsets)
  else match offsets with o :: offsets => Some (o, offsets) | [] => None end.

(** [for(type = *types++; (type & 0x7F) < PARAMETER_FIRST_TYPE; type = *types++)]. *)
Fixpoint CopyHandles (limit : Z) (types handles offsets : list Z) (offset : Z)
    (commandIn : list field) (has : Z) : option cursor :=
  match types with
  | [] => None
  | type :: types' =>
      if type_of type <? PARAMETER_FIRST_TYPE then
        match handles, types' with
        | h :: handles, next :: _ =>
            commandIn ← store_member limit offset c_TPM_HANDLE (V_UINT32 h) commandIn;
            '(offset, offsets) ← advance next offset offsets;
            CopyHandles limit types' handles offsets offset commandIn (has + 1)
        | _, _ => None
        end
      else Some (mkCursor types offsets offset commandIn has)
  end.

(** [for(; (dType = (type & 0x7F)) <= PARAMETER_LAST_TYPE; type = *types++)]; the
    result is the response code of a parameter or the cursor after the
    parameters. *)
Fixpoint UnmarshalParameters (limit : Z) (types offsets : list Z) (offset : Z)
    (commandIn : list field) (has pNum : Z) : M (DState S) (Z + cursor) :=
  match types with
  | [] => undef
  | type :: types' =>
      let dType := type_of type in
      if dType <=? PARAMETER_LAST_TYPE then
        let pNum := pNum + 1 in
        let! e := of_option (unmarshal_entry dType) in
        let! r := on_parameters
                    (call_unmarshal e (negb (dType <? PARAMETER_FIRST_FLAG_TYPE)) (flag_of type)) in
        match r, types' with
        | inl result, _ => ret (inl (result + (TPM_RC_P + TPM_RC_1 * pNum)))
        | inr v, next :: _ =>
            let! commandIn := of_option (store_member limit offset (target_of e) v commandIn) in
            let! '(offset, offsets) := of_option (advance next offset offsets) in
            UnmarshalParameters limit types' offsets offset commandIn (has + 1) pNum
        | inr _, [] => undef
        end
      else ret (inr (mkCursor types offsets offset commandIn has))
  end.

(** ** The response *)

(** [INT16], the type the functions are called with. *)
Definition s16 (x : Z) : Z := if x <? 32768 then x else x - 65536.

(** A call of [f(&commandOut[offset], &command->responseBuffer, &maxOutSize)] and
    the addition to [command->parameterSize]. *)
Definition marshal_member (e : MARSHAL_t) (v : value) (maxOutSize : Z) : M (DState S) Z :=
  λ s, let c := command s in
       match MarshalFunction e v
               (mkM (response s) (Some (c_responseBuffer c)) (Some maxOutSize) (g_inFailureMode s)) with
       | Some (n, m) =>
           match o_ptr m, o_size m with
           | Some p, Some size =>
               Some (size, mkD (mkCOMMAND (c_index c) (c_handleNum c) (c_handles c)
                                  (c_parameterSize c + s16 n) (c_parameterBuffer c) p)
                               (o_mem m) (s_actionIoAllocation s) (o_failed m) (tpm s))
           | _, _ => None
           end
       | None => None
       end.

(** [for(; (dType = (type & 0x7F)) <= RESPONSE_PARAMETER_LAST_TYPE &&
    !g_inFailureMode; type = *types++)]; the result is [maxOutSize]. *)
Fixpoint MarshalParameters (types offsets : list Z) (offset : Z) (commandOut : list field)
    (maxOutSize : Z) : M (DState S) Z :=
  match types with
  | [] => undef
  | type :: types =>
      let dType := type_of type in
      let! failed := gets g_inFailureMode in
      if (dType <=? RESPONSE_PARAMETER_LAST_TYPE) && negb failed then
        let! e := of_option (marshalArray !! Z.to_nat dType) in
        let! v := of_option (load_member offset commandOut) in
        let! maxOutSize := marshal_member e v maxOutSize in
        match offsets with
        | offset :: offsets => MarshalParameters types offsets offset commandOut maxOutSize
        | [] => undef
        end
      else ret maxOutSize
  end.

(** From [offset = 0] to the end of the function. *)
Definition MarshalResponse (types offsets : list Z) (commandOut : list field) (maxOutSize : Z)
  : M (DState S) Z :=
  let! c := gets command in
  set_command (handles_counted 0 c) ;;
  let! maxOutSize :=
    match types with
    | [] => undef
    | type :: types' =>
        if type_of type <? RESPONSE_PARAMETER_FIRST_TYPE then
          let! v := of_option (load_member 0 commandOut) in
          match v, offsets with
          | V_UINT32 h, offset :: offsets =>
              let! c := gets command in
              set_command (handles_counted 1 (handle_stored 0 h c)) ;;
              MarshalParameters types' offsets offset commandOut (maxOutSize - sizeof_UINT32)
          | _, _ => undef
          end
        else MarshalParameters types offsets 0 commandOut maxOutSize
    end in
  ret (if maxOutSize <? 0 then TPM_RC_FAILURE else TPM_RC_SUCCESS).

(** ** The dispatcher *)

Section action.
(** An action, given its input structure if it has one and told whether it has
    an output structure. *)
Context (action : command_action → option (list field) → bool → S → outcome S).

Definition call_action (cmd : command_action) (commandIn : option (list field)) (hasOut : bool)
  : M (DState S) (Z * list field) :=
  λ s, let o := action cmd commandIn hasOut (tpm s) in
       Some ((a_result o, a_out o),
             mkD (command s) (response s) (s_actionIoAllocation s)
                 (g_inFailureMode s || a_failed o) (a_tpm o)).

(** The parameters, the action and the response. *)
Definition dispatch_body (desc : COMMAND_DESCRIPTOR_t) : M (DState S) Z :=
  let! c := gets command in
  let! k := of_option (CopyHandles (d_inSize desc) (d_types desc) (c_handles c)
                         (offset_words desc) 0 [] 0) in
  let! r := UnmarshalParameters (d_inSize desc) (k_types k) (k_offsets k) (k_offset k)
              (k_in k) (k_has k) 0 in
  match r with
  | inl result => ret result
  | inr k =>
      let! c := gets command in
      if negb (c_parameterSize c =? 0) then ret TPM_RC_SIZE
      else
        match k_types k with
        | _ :: types =>
            match types with
            | first :: _ =>
                let hasOutParameters := negb (first =? 0xFF) in
                let! '(result, commandOut) :=
                  call_action (d_command desc) (if 0 <? k_has k then Some (k_in k) else None)
                    hasOutParameters in
                if negb (result =? TPM_RC_SUCCESS) then ret result
                else MarshalResponse types (k_offsets k) commandOut (d_outSize desc)
            | [] => undef
            end
        | [] => undef
        end
  end.

Definition CommandDispatcher : M (DState S) Z :=
  let! c := gets command in
  let! desc := of_option (descriptor (c_index c)) in
  MemoryIoBufferAllocationReset ;;
  MemoryGetInBuffer (d_inSize desc) ;;
  MemoryGetOutBuffer (d_outSize desc) ;;
  let! result := dispatch_body desc in
  MemoryIoBufferZero ;;
  ret result.
End action.
End dispatch.
