(* ===== verification/DispatchProof.v ===== *)
(** * The dispatcher follows the descriptor

    The types of a command are walked over three times, with the offsets that go
    with them; [walk] and [out_walk] are these walks without their effects, and
    [fits] says that the members they reach lie in their structure, one after
    the other.  The lemmas show what the loops of Dispatch.v do for a walk that
    fits, and [desc_ok], everything the dispatcher relies on and never checks, is
    computed for all the commands of [s_CommandDataArray]. *)

From S2P Require Import Prelude TpmTypes Memory WireTypes Unmarshal Marshal WireCodec CTypes CommandIO.
From S2P Require Import DispatchArrays DispatchData DispatchWf Dispatch.
Local Open Scope Z_scope.

(** ** Walks *)

(** The types [ts] of handles or parameters, before [rest]: the offset of each,
    and the offset and the offsets that are left. *)
Fixpoint walk (ts rest : list Z) (offset : Z) (offsets : list Z)
  : option (list (Z * Z) * Z * list Z) :=
  match ts with
  | [] => Some ([], offset, offsets)
  | t :: ts =>
      next ← head (ts ++ rest);
      '(o, os) ← advance next offset offsets;
      '(l, o, os) ← walk ts rest o os;
      Some ((offset, t) :: l, o, os)
  end.

(** The types of the response, from the member at [offset] on. *)
Fixpoint out_walk (ts : list Z) (offset : Z) (offsets : list Z) : option (list (Z * Z)) :=
  match ts, offsets with
  | [], _ => Some []
  | t :: ts, o :: os => cons (offset, t) <$> out_walk ts o os
  | _ :: _, [] => None
  end.

Definition member_type (t : Z) : ctype :=
  match unmarshal_entry (type_of t) with Some e => target_of e | None => scalar 1 end.
Definition member_wf (t : Z) (v : value) : bool :=
  match unmarshal_wf !! Z.to_nat (type_of t) with Some P => P (flag_of t) v | None => false end.
Definition out_wf (t : Z) (v : value) : bool :=
  match marshal_wf !! Z.to_nat (type_of t) with Some P => P.1 v | None => false end.
Definition out_max (t : Z) : Z :=
  match marshal_wf !! Z.to_nat (type_of t) with Some P => P.2 | None => 0 end.

Fixpoint fits (limit pos : Z) (l : list (Z * Z)) : bool :=
  match l with
  | [] => true
  | (o, t) :: l =>
      (pos <=? o) && (o + sizeof (member_type t) <=? limit) && (o mod alignof (member_type t) =? 0)
      && (0 <=? sizeof (member_type t)) && fits limit (o + sizeof (member_type t)) l
  end.

Definition member (p : Z * Z) (v : value) : field :=
  mkField p.1 (sizeof (member_type p.2)) v.

(** A function that takes a flag is called with one. *)
Definition flag_agrees (first_flag t : Z) : bool :=
  match unmarshal_entry (type_of t) with
  | Some (NoFlagFunction _ _) => true
  | Some (FlagFunction _ _) => negb (type_of t <? first_flag)
  | None => false
  end.

Definition handle_type (t : Z) : bool :=
  (type_of t <? PARAMETER_FIRST_TYPE) && flag_agrees HANDLE_FIRST_FLAG_TYPE t &&
  (sizeof (member_type t) =? 4) && (alignof (member_type t) =? 4).
Definition parameter_type (t : Z) : bool :=
  (PARAMETER_FIRST_TYPE <=? type_of t) && (type_of t <=? PARAMETER_LAST_TYPE) &&
  flag_agrees PARAMETER_FIRST_FLAG_TYPE t.
Definition response_type (t : Z) : bool :=
  (0 <=? type_of t) && (type_of t <=? RESPONSE_PARAMETER_LAST_TYPE).

Lemma geb_false x y : x < y → (x >=? y) = false.
Proof. rewrite Z.geb_leb. apply Z.leb_gt. Qed.

(** ** Stores *)

Definition ends_by (pos : Z) (l : list field) : Prop :=
  Forall (λ f, f_offset f + f_size f ≤ pos) l.

Lemma ends_by_weaken pos pos' l : ends_by pos l → pos ≤ pos' → ends_by pos' l.
Proof. intros H Hp. eapply Forall_impl; [|exact H]. cbn. lia. Qed.

Lemma store_member_ok limit pos o (t : ctype) v l :
  ends_by pos l → 0 ≤ pos ≤ o → o + sizeof t ≤ limit → o mod alignof t = 0 →
  store_member limit o t v l = Some (l ++ [mkField o (sizeof t) v]).
Proof.
  intros Hl Hp Hs Ha. unfold store_member.
  rewrite (proj2 (Z.leb_le 0 o)), (proj2 (Z.leb_le _ limit)), (proj2 (Z.eqb_eq _ 0)) by lia.
  assert (existsb (overlaps o (sizeof t)) l = false) as ->; [|done].
  induction Hl as [|f l Hf Hl IH]; [done|]. cbn [existsb]. rewrite IH.
  unfold overlaps. rewrite (proj2 (Z.ltb_ge o _)) by lia. by rewrite andb_false_r.
Qed.

Lemma fits_inv limit pos o t l :
  fits limit pos ((o, t) :: l) = true →
  pos ≤ o ∧ o + sizeof (member_type t) ≤ limit ∧ o mod alignof (member_type t) = 0 ∧
  0 ≤ sizeof (member_type t) ∧ fits limit (o + sizeof (member_type t)) l = true.
Proof. cbn [fits]. rewrite !andb_true_iff, !Z.leb_le, Z.eqb_eq. tauto. Qed.

Lemma ends_by_snoc pos o t v l :
  ends_by pos l → pos ≤ o → 0 ≤ sizeof (member_type t) →
  ends_by (o + sizeof (member_type t)) (l ++ [member (o, t) v]).
Proof.
  intros Hl Ho Hs. apply Forall_app. split; [eapply ends_by_weaken; [done|lia]|].
  repeat constructor. cbn. lia.
Qed.

(** ** Calls *)

Lemma entry_ok t e :
  unmarshal_entry (type_of t) = Some e →
  ∃ P, unmarshal_wf !! Z.to_nat (type_of t) = Some P ∧ keeps e P.
Proof.
  intros He. destruct (Forall2_lookup_l _ _ _ _ _ unmarshalArray_ok He) as (P & HP & Hk). eauto.
Qed.

(** The function the dispatcher calls for a type stores values of the type. *)
Lemma call_parses first_flag t :
  flag_agrees first_flag t = true →
  ∃ e, unmarshal_entry (type_of t) = Some e ∧
    parses (call_unmarshal e (negb (type_of t <? first_flag)) (flag_of t))
      (λ v _, member_wf t v = true).
Proof.
  unfold flag_agrees. destruct (unmarshal_entry (type_of t)) as [e|] eqn:He; [|done].
  intros Hf. exists e. split; [done|].
  destruct (entry_ok t e He) as (P & HP & Hk). unfold member_wf. rewrite HP.
  destruct e as [? f|? f]; cbn [keeps] in Hk; unfold call_unmarshal.
  - apply Hk.
  - rewrite Hf. apply Hk.
Qed.

(** The function of Unmarshal.c for a type of a descriptor. *)
Definition unmarshal_type (t : Z) : Unm value :=
  match unmarshal_entry (type_of t) with
  | Some (NoFlagFunction _ f) => f
  | Some (FlagFunction _ f) => f (flag_of t)
  | None => undef
  end.

Lemma call_type first_flag t e :
  flag_agrees first_flag t = true → unmarshal_entry (type_of t) = Some e →
  call_unmarshal e (negb (type_of t <? first_flag)) (flag_of t) = unmarshal_type t.
Proof.
  unfold flag_agrees, unmarshal_type. intros Hf He. rewrite He in *. destruct e; [done|].
  cbn [call_unmarshal]. by rewrite Hf.
Qed.

(** The octets of [u] hold, one after the other and up to those of [u'], the
    values [vs] of the types [ts]. *)
Inductive unmarshaled : list Z → UState → list value → UState → Prop :=
| unmarshaled_nil u : unmarshaled [] u [] u
| unmarshaled_cons t ts v vs u u1 u2 :
    unmarshal_type t u = Some (inr v, u1) → unmarshaled ts u1 vs u2 →
    unmarshaled (t :: ts) u (v :: vs) u2.

(** The first value of [ts] that cannot be unmarshaled from [u] is number [n],
    and [rc] is the response code for it; [u'] is where that left the input. *)
Definition malformed (ts : list Z) (u : UState) (n rc : Z) (u' : UState) : Prop :=
  ∃ before t after vs u1, ts = before ++ t :: after ∧ unmarshaled before u vs u1 ∧
    unmarshal_type t u1 = Some (inl rc, u') ∧ n = Z.of_nat (length before) + 1.

Lemma malformed_head t ts u rc u' : unmarshal_type t u = Some (inl rc, u') → malformed (t :: ts) u 1 rc u'.
Proof. intros E. exists [], t, ts, [], u. split; [done|]. split; [constructor|]. done. Qed.
Lemma malformed_tail t ts u v u1 n rc u' :
  unmarshal_type t u = Some (inr v, u1) → malformed ts u1 n rc u' → malformed (t :: ts) u (n + 1) rc u'.
Proof.
  intros E (before & t' & after & vs & u2 & -> & B & E' & ->).
  exists (t :: before), t', after, (v :: vs), u2. split; [done|]. split; [by econstructor|]. split; [done|].
  cbn [length]. lia.
Qed.
Lemma malformed_range ts u n rc u' : malformed ts u n rc u' → 1 ≤ n ≤ Z.of_nat (length ts).
Proof. intros (before & t & after & vs & u1 & -> & _ & _ & ->). rewrite length_app. cbn [length]. lia. Qed.

(** A handle is stored as a 32-bit integer. *)
Lemma handle_value t v :
  (type_of t <? PARAMETER_FIRST_TYPE) = true → member_wf t v = true → ∃ h, v = V_UINT32 h.
Proof.
  unfold member_wf. rewrite Z.ltb_lt. change PARAMETER_FIRST_TYPE with 19. intros Ht.
  assert (Hn : (Z.to_nat (type_of t) < 19)%nat) by lia. revert Hn.
  generalize (Z.to_nat (type_of t)) (flag_of t). intros n flag Hn.
  do 19 (destruct n as [|n]; [destruct v; try discriminate; eauto|]). lia.
Qed.

Section state.
Context {S : Type}.
Implicit Types (s : DState S) (c : COMMAND).

Definition params (c : COMMAND) : UState := mkU (c_parameterBuffer c) (c_parameterSize c).

Definition with_params (u : UState) s : DState S :=
  let c := command s in
  mkD (mkCOMMAND (c_index c) (c_handleNum c) (c_handles c) (u_size u) (u_buffer u) (c_responseBuffer c))
    (response s) (s_actionIoAllocation s) (g_inFailureMode s) (tpm s).

Lemma params_with u s : params (command (with_params u s)) = u.
Proof. by destruct u. Qed.

Lemma with_params_with u u' s : with_params u (with_params u' s) = with_params u s.
Proof. done. Qed.

Lemma with_params_self s : with_params (params (command s)) s = s.
Proof. by destruct s as [[] ? ? ? ?]. Qed.

Lemma on_parameters_ok f Q s :
  parses f Q → input (params (command s)) → ∃ r u b,
    on_parameters f s = Some (r, with_params u s) ∧ f (params (command s)) = Some (r, u) ∧
    consumed (params (command s)) u b ∧ input u ∧
    match r with inl rc => unmarshal_code rc = true | inr v => Q v b end.
Proof.
  intros Hf Hs. destruct (Hf _ Hs) as (r & u & b & E & C & R). exists r, u, b.
  unfold on_parameters. change (mkU _ _) with (params (command s)). rewrite E.
  split; [done|]. split; [done|]. split; [done|]. split; [by eapply consumed_input|done].
Qed.

Lemma on_parameters_reads f b v s rest n :
  reads f b v → params (command s) = mkU (b ++ rest) n → blen b ≤ n < 2 ^ 31 →
  on_parameters f s = Some (inr v, with_params (mkU rest (n - blen b)) s).
Proof.
  intros Hf E Hn. unfold on_parameters. change (mkU (c_parameterBuffer _) _) with (params (command s)).
  rewrite E, Hf by done. done.
Qed.

(** ** Handles *)

Definition with_handles (hs : list Z) s : DState S :=
  let c := command s in
  mkD (mkCOMMAND (c_index c) (Z.of_nat (length hs)) (hs ++ drop (length hs) (c_handles c))
         (c_parameterSize c) (c_parameterBuffer c) (c_responseBuffer c))
    (response s) (s_actionIoAllocation s) (g_inFailureMode s) (tpm s).

Lemma insert_next (l done : list Z) h :
  (length done < length l)%nat →
  <[length done := h]> (done ++ drop (length done) l)
  = (done ++ [h]) ++ drop (length (done ++ [h])) l.
Proof.
  intros Hl. rewrite insert_app_r_alt, Nat.sub_diag by done.
  destruct (drop (length done) l) as [|x r] eqn:E.
  - apply (f_equal length) in E. rewrite length_drop in E. cbn in E. lia.
  - cbn [insert list_insert]. rewrite <- app_assoc. cbn [app]. do 2 f_equal.
    rewrite length_app, <- drop_drop, E. done.
Qed.

(** Nothing but the command has changed, and not its index or response. *)
Definition untouched s s' : Prop :=
  c_index (command s') = c_index (command s) ∧
  c_responseBuffer (command s') = c_responseBuffer (command s) ∧
  response s' = response s ∧ g_inFailureMode s' = g_inFailureMode s ∧ tpm s' = tpm s.

Lemma ParseHandles_stop t rest s :
  PARAMETER_FIRST_TYPE ≤ type_of t → ParseHandles (t :: rest) s = Some (TPM_RC_SUCCESS, s).
Proof. intros Ht. cbn [ParseHandles]. by rewrite (proj2 (Z.ltb_ge _ _) Ht). Qed.

(** One handle: unmarshaled, counted, and stored unless it is malformed. *)
Lemma ParseHandles_step t ts prior s :
  handle_type t = true → Z.of_nat (length prior) < MAX_HANDLE_NUM →
  length (c_handles (command s)) = Z.to_nat MAX_HANDLE_NUM → input (params (command s)) →
  (∃ rc s', unmarshal_code rc = true ∧ untouched s s' ∧
     unmarshal_type t (params (command s)) = Some (inl rc, params (command s')) ∧
     ParseHandles (t :: ts) (with_handles prior s)
     = Some (rc + TPM_RC_H + (Z.of_nat (length prior) + 1) * TPM_RC_1, s')) ∨
  (∃ h u b, member_wf t (V_UINT32 h) = true ∧ consumed (params (command s)) u b ∧ input u ∧
     unmarshal_type t (params (command s)) = Some (inr (V_UINT32 h), u) ∧
     ParseHandles (t :: ts) (with_handles prior s)
     = ParseHandles ts (with_handles (prior ++ [h]) (with_params u s))).
Proof.
  unfold handle_type. rewrite !andb_true_iff. intros [[[Ht Hf] _] _] Hn Hl Hs.
  destruct (call_parses _ _ Hf) as (e & He & Hp).
  destruct (on_parameters_ok _ _ (with_handles prior s) Hp Hs) as ([rc|v] & u & b & E & Ef & C & Hu & R);
    rewrite (call_type _ _ _ Hf He) in Ef;
    cbn [ParseHandles]; rewrite Ht, (bind_Some _ _ _ e (with_handles prior s)) by (by rewrite He);
    rewrite (bind_Some _ _ _ _ _ (eq_refl (Some (command (with_handles prior s), _))));
    rewrite (geb_false (c_handleNum (command (with_handles prior s))) MAX_HANDLE_NUM) by exact Hn;
    rewrite (bind_Some _ _ _ _ _ E).
  - left. eexists rc, _. split; [done|]. split; [|split; [|reflexivity]]; [done|]. destruct u. exact Ef.
  - right. destruct (handle_value t v Ht R) as (h & ->). exists h, u, b.
    split; [done|]. split; [done|]. split; [done|]. split; [exact Ef|].
    unfold bind, gets, set_command, modify. f_equal. unfold with_handles, with_params, handles_counted, handle_stored.
    cbn [command c_handles c_handleNum c_index c_parameterSize c_parameterBuffer c_responseBuffer response s_actionIoAllocation g_inFailureMode tpm].
    rewrite Nat2Z.id, insert_next by (rewrite Hl; change (Z.to_nat MAX_HANDLE_NUM) with 3%nat; change MAX_HANDLE_NUM with 3 in Hn; lia).
    rewrite length_app, Nat2Z.inj_add. done.
Qed.

Lemma ParseHandles_ok hs t rest : ∀ prior s,
  Forall (λ t, handle_type t = true) hs → PARAMETER_FIRST_TYPE ≤ type_of t →
  Z.of_nat (length prior + length hs) ≤ MAX_HANDLE_NUM →
  length (c_handles (command s)) = Z.to_nat MAX_HANDLE_NUM → input (params (command s)) →
  (∃ rc n s', unmarshal_code rc = true ∧ malformed hs (params (command s)) n rc (params (command s')) ∧
     untouched s s' ∧
     ParseHandles (hs ++ t :: rest) (with_handles prior s)
     = Some (rc + TPM_RC_H + (Z.of_nat (length prior) + n) * TPM_RC_1, s')) ∨
  (∃ vs u b, Forall2 (λ t h, member_wf t (V_UINT32 h) = true) hs vs ∧
     unmarshaled hs (params (command s)) (V_UINT32 <$> vs) u ∧
     consumed (params (command s)) u b ∧ input u ∧
     ParseHandles (hs ++ t :: rest) (with_handles prior s)
     = Some (TPM_RC_SUCCESS, with_handles (prior ++ vs) (with_params u s))).
Proof.
  induction hs as [|t' hs IH]; intros prior s Hh Ht Hn Hl Hs.
  - right. exists [], (params (command s)), []. split; [constructor|]. split; [constructor|].
    split; [apply consumed_nil, Hs|].
    split; [done|]. rewrite app_nil_r, with_params_self. by apply ParseHandles_stop.
  - inversion_clear Hh as [|?? Ht' Hh']. cbn [length] in Hn. cbn [app].
    destruct (ParseHandles_step t' (hs ++ t :: rest) prior s Ht') as
      [(rc & s' & Hc & U & Em & E)|(h & u & b & Hw & C & Hu & Em & E)]; [lia|done|done| |].
    + left. exists rc, 1, s'. split; [done|]. split; [by apply malformed_head|]. done.
    + rewrite E. destruct (IH (prior ++ [h]) (with_params u s) Hh' Ht) as
        [(rc & n & s' & Hc & Hr & U & E')|(vs & u' & b' & Hv & Hm & C' & Hu' & E')];
        [rewrite length_app; cbn; lia|done|by rewrite params_with| |].
      * left. exists rc, (n + 1), s'. split; [done|]. rewrite params_with in Hr.
        split; [by eapply malformed_tail|]. split; [done|].
        rewrite E', length_app. cbn [length].
        by replace (Z.of_nat (length prior + 1) + n) with (Z.of_nat (length prior) + (n + 1)) by lia.
      * right. exists (h :: vs), u', (b ++ b'). rewrite params_with in C', Hm.
        split; [by constructor|]. split; [by econstructor|]. split; [by eapply consumed_app|]. split; [done|].
        by rewrite E', <- app_assoc.
Qed.

(** ** Parameters *)

Lemma walk_inv t ts rest offset offsets l o os :
  walk (t :: ts) rest offset offsets = Some (l, o, os) →
  ∃ next o1 os1 l', head (ts ++ rest) = Some next ∧ advance next offset offsets = Some (o1, os1) ∧
    walk ts rest o1 os1 = Some (l', o, os) ∧ l = (offset, t) :: l'.
Proof.
  cbn [walk]. intros H. destruct (head (ts ++ rest)) as [next|] eqn:En; [|done]. cbn [mbind option_bind] in H.
  destruct (advance next offset offsets) as [[o1 os1]|] eqn:Ea; [|done]. cbn [mbind option_bind] in H.
  destruct (walk ts rest o1 os1) as [[[l' o'] os']|] eqn:Ew; [|done]. injection H as <- <- <-.
  by exists next, o1, os1, l'.
Qed.

Definition handle_members (l : list (Z * Z)) (hs : list Z) : list field :=
  zip_with member l (V_UINT32 <$> hs).

Lemma CopyHandles_ok limit hs t rest : ∀ handles offsets offset cin has pos l o os,
  walk hs (t :: rest) offset offsets = Some (l, o, os) → fits limit pos l = true →
  Forall (λ t, handle_type t = true) hs → PARAMETER_FIRST_TYPE ≤ type_of t →
  (length hs ≤ length handles)%nat → ends_by pos cin → 0 ≤ pos →
  CopyHandles limit (hs ++ t :: rest) handles offsets offset cin has
  = Some (mkCursor (t :: rest) os o (cin ++ handle_members l handles) (has + Z.of_nat (length hs))).
Proof.
  induction hs as [|t' hs IH]; intros handles offsets offset cin has pos l o os Hw Hf Hh Ht Hl Hc Hp.
  - injection Hw as <- <- <-. cbn [app CopyHandles]. rewrite (proj2 (Z.ltb_ge _ _) Ht).
    cbn [length handle_members zip_with]. by rewrite app_nil_r, Z.add_0_r.
  - inversion_clear Hh as [|?? Ht' Hh']. unfold handle_type in Ht'. rewrite !andb_true_iff, !Z.eqb_eq in Ht'.
    destruct Ht' as [[[Ht' _] Hz] Ha].
    apply walk_inv in Hw as (next & o1 & os1 & l' & En & Ea & Ew & ->).
    apply fits_inv in Hf as (F1 & F2 & F3 & F4 & F5). rewrite Hz in *. rewrite Ha in F3.
    destruct handles as [|h handles]; [cbn in Hl; lia|]. cbn [app CopyHandles]. rewrite Ht'.
    destruct (hs ++ t :: rest) as [|n' r'] eqn:Er; [by destruct hs|]. injection En as ->.
    rewrite (store_member_ok limit pos offset c_TPM_HANDLE) by (done || lia).
    cbn [mbind option_bind]. rewrite Ea. cbn [mbind option_bind].
    change (mkField offset (sizeof c_TPM_HANDLE) (V_UINT32 h)) with (mkField offset 4 (V_UINT32 h)).
    rewrite <- Hz. change (mkField offset _ _) with (member (offset, t') (V_UINT32 h)).
    erewrite (IH _ _ _ _ _ _ _ _ _ Ew F5); [|done|done|cbn in Hl; lia| |lia].
    2: { rewrite <- Hz. apply (ends_by_snoc pos); [done|lia|lia]. }
    unfold handle_members. cbn [fmap list_fmap zip_with length]. rewrite <- app_assoc. do 2 f_equal. lia.
Qed.

(** The octets of the parameters are those of values of their types, or one of
    them is malformed and named in the response code. *)
Lemma UnmarshalParameters_ok limit ps t rest : ∀ offsets offset cin has pNum pos l o os s,
  walk ps (t :: rest) offset offsets = Some (l, o, os) → fits limit pos l = true →
  Forall (λ t, parameter_type t = true) ps → PARAMETER_LAST_TYPE < type_of t →
  ends_by pos cin → 0 ≤ pos → input (params (command s)) →
  ∃ u b, consumed (params (command s)) u b ∧ input u ∧
  ((∃ rc n, unmarshal_code rc = true ∧ malformed ps (params (command s)) n rc u ∧
     UnmarshalParameters limit (ps ++ t :: rest) offsets offset cin has pNum s
     = Some (inl (rc + (TPM_RC_P + TPM_RC_1 * (pNum + n))), with_params u s)) ∨
   (∃ vs, Forall2 (λ t v, member_wf t v = true) ps vs ∧ unmarshaled ps (params (command s)) vs u ∧
     UnmarshalParameters limit (ps ++ t :: rest) offsets offset cin has pNum s
     = Some (inr (mkCursor (t :: rest) os o (cin ++ zip_with member l vs) (has + Z.of_nat (length ps))),
             with_params u s))).
Proof.
  induction ps as [|t' ps IH]; intros offsets offset cin has pNum pos l o os s Hw Hf Hh Ht Hc Hp Hs.
  - injection Hw as <- <- <-. exists (params (command s)), []. split; [apply consumed_nil, Hs|].
    split; [done|]. right. exists []. split; [constructor|]. split; [constructor|]. cbn [app UnmarshalParameters].
    rewrite (proj2 (Z.leb_gt _ _) Ht), with_params_self. cbn [length zip_with]. by rewrite app_nil_r, Z.add_0_r.
  - inversion_clear Hh as [|?? Ht' Hh']. unfold parameter_type in Ht'. rewrite !andb_true_iff in Ht'.
    destruct Ht' as [[_ Ht'] Hfl].
    apply walk_inv in Hw as (next & o1 & os1 & l' & En & Ea & Ew & ->).
    apply fits_inv in Hf as (F1 & F2 & F3 & F4 & F5).
    destruct (call_parses _ _ Hfl) as (e & He & Hpa). assert (Em : member_type t' = target_of e) by (unfold member_type; by rewrite He).
    destruct (on_parameters_ok _ _ s Hpa Hs) as ([rc|v] & u & b & E & Ef & C & Hu & R);
      rewrite (call_type _ _ _ Hfl He) in Ef;
      cbn [app UnmarshalParameters]; rewrite Ht', He;
      rewrite (bind_Some (of_option (Some e)) _ s e s eq_refl), (bind_Some _ _ _ _ _ E).
    + exists u, b. split; [done|]. split; [done|]. left. exists rc, 1. split; [done|]. split; [by apply malformed_head|]. done.
    + destruct (ps ++ t :: rest) as [|n' r'] eqn:Er; [by destruct ps|]. injection En as ->.
      rewrite <- Em, (store_member_ok limit pos offset) by (done || lia).
      rewrite (bind_Some (of_option (Some _)) _ _ _ _ eq_refl), Ea, (bind_Some (of_option (Some _)) _ _ _ _ eq_refl).
      change (mkField offset _ v) with (member (offset, t') v).
      destruct (IH os1 o1 (cin ++ [member (offset, t') v]) (has + 1) (pNum + 1) _ l' o os (with_params u s) Ew F5)
        as (u' & b' & C' & Hu' & [(rc & n & Hrc & Hn & E')|(vs & Hv & Hn & E')]);
        [done|done|by apply (ends_by_snoc pos)|lia|by rewrite params_with| |];
        rewrite params_with in C', Hn; exists u', (b ++ b');
        (split; [by eapply consumed_app|]); (split; [done|]); rewrite E', with_params_with.
      * left. exists rc, (n + 1). split; [done|]. split; [by eapply malformed_tail|].
        by replace (pNum + 1 + n) with (pNum + (n + 1)) by lia.
      * right. exists (v :: vs). split; [by constructor|]. split; [by econstructor|]. cbn [zip_with length]. rewrite <- app_assoc.
        by replace (has + 1 + Z.of_nat (length ps)) with (has + Z.of_nat (Datatypes.S (length ps))) by lia.
Qed.

(** [b] is an encoding of [v] for the type [t] of a parameter. *)
Definition decodes (t : Z) (b : bytes) (v : value) : Prop :=
  ∃ e, unmarshal_entry (type_of t) = Some e ∧
    reads (call_unmarshal e (negb (type_of t <? PARAMETER_FIRST_FLAG_TYPE)) (flag_of t)) b v.

Lemma UnmarshalParameters_reads limit ps t rest : ∀ bs vs offsets offset cin has pNum pos l o os s tail n,
  Forall3 decodes ps bs vs →
  walk ps (t :: rest) offset offsets = Some (l, o, os) → fits limit pos l = true →
  Forall (λ t, parameter_type t = true) ps → PARAMETER_LAST_TYPE < type_of t →
  ends_by pos cin → 0 ≤ pos → params (command s) = mkU (concat bs ++ tail) n →
  blen (concat bs) ≤ n < 2 ^ 31 →
  UnmarshalParameters limit (ps ++ t :: rest) offsets offset cin has pNum s
  = Some (inr (mkCursor (t :: rest) os o (cin ++ zip_with member l vs) (has + Z.of_nat (length ps))),
          with_params (mkU tail (n - blen (concat bs))) s).
Proof.
  induction ps as [|t' ps IH]; intros bs vs offsets offset cin has pNum pos l o os s tail n H3 Hw Hf Hh Ht Hc Hp Hs Hn.
  - inversion H3; subst. injection Hw as <- <- <-. cbn [app UnmarshalParameters concat] in *.
    change (blen []) with 0. rewrite Z.sub_0_r, <- Hs, with_params_self.
    rewrite (proj2 (Z.leb_gt _ _) Ht). cbn [length zip_with]. by rewrite app_nil_r, Z.add_0_r.
  - inversion H3 as [|? b v ? bs' vs' (e & He & Hr) H3']; subst.
    inversion_clear Hh as [|?? Ht' Hh']. unfold parameter_type in Ht'. rewrite !andb_true_iff in Ht'.
    destruct Ht' as [[_ Ht'] _].
    apply walk_inv in Hw as (next & o1 & os1 & l' & En & Ea & Ew & ->).
    apply fits_inv in Hf as (F1 & F2 & F3 & F4 & F5).
    assert (Em : member_type t' = target_of e) by (unfold member_type; by rewrite He).
    cbn [concat] in Hs, Hn. rewrite blen_app in Hn. rewrite <- app_assoc in Hs.
    pose proof (blen_nonneg b). pose proof (blen_nonneg (concat bs')).
    cbn [app UnmarshalParameters]. rewrite Ht', He, (bind_Some (of_option (Some e)) _ s e s eq_refl).
    rewrite (bind_Some _ _ _ _ _ (on_parameters_reads _ _ _ _ _ _ Hr Hs ltac:(lia))).
    destruct (ps ++ t :: rest) as [|n' r'] eqn:Er; [by destruct ps|]. injection En as ->.
    rewrite <- Em, (store_member_ok limit pos offset) by (done || lia).
    rewrite (bind_Some (of_option (Some _)) _ _ _ _ eq_refl), Ea, (bind_Some (of_option (Some _)) _ _ _ _ eq_refl).
    change (mkField offset _ v) with (member (offset, t') v).
    rewrite (IH _ _ _ _ _ _ _ _ _ _ _ _ tail (n - blen b) H3' Ew F5) by
      (done || lia || by apply (ends_by_snoc pos)).
    cbn [zip_with length concat]. rewrite with_params_with, blen_app, <- app_assoc. cbn [app].
    replace (n - blen b - blen (concat bs')) with (n - (blen b + blen (concat bs'))) by lia.
    by replace (has + 1 + Z.of_nat (length ps)) with (has + Z.of_nat (Datatypes.S (length ps))) by lia.
Qed.

(** ** The response *)

(** [b] is the encoding of [v] for the type [t] of a response. *)
Definition encodes (t : Z) (v : value) (b : bytes) : Prop :=
  ∃ e, marshalArray !! Z.to_nat (type_of t) = Some e ∧ emits (MarshalFunction e v) b.

Lemma out_wf_encodes t v :
  out_wf t v = true → ∃ b, encodes t v b ∧ blen b ≤ out_max t.
Proof.
  unfold out_wf, out_max. destruct (marshal_wf !! _) as [P|] eqn:HP; [|done]. intros Hv.
  destruct (Forall2_lookup_r _ _ _ _ _ marshalArray_ok HP) as (e & He & _ & Hs).
  destruct (Hs v Hv) as (b & ? & ?). exists b. split; [by exists e|done].
Qed.

Definition pushed (b : bytes) s : DState S :=
  let c := command s in
  mkD (mkCOMMAND (c_index c) (c_handleNum c) (c_handles c) (c_parameterSize c + blen b)
         (c_parameterBuffer c) (c_responseBuffer c + blen b))
    (bwrite (response s) (c_responseBuffer c) b) (s_actionIoAllocation s) (g_inFailureMode s) (tpm s).

Lemma pushed_nil s : pushed [] s = s.
Proof.
  unfold pushed. change (blen []) with 0. rewrite bwrite_nil, !Z.add_0_r. by destruct s as [[] ? ? ? ?].
Qed.

Lemma pushed_app b b' s :
  0 ≤ c_responseBuffer (command s) → c_responseBuffer (command s) + blen b + blen b' ≤ blen (response s) →
  pushed b' (pushed b s) = pushed (b ++ b') s.
Proof.
  intros H H'. pose proof (blen_nonneg b). pose proof (blen_nonneg b'). unfold pushed.
  cbn [command c_responseBuffer c_parameterSize response]. rewrite bwrite_bwrite_adjacent by lia.
  by rewrite blen_app, !Z.add_assoc.
Qed.

Lemma marshal_member_ok e v b max s :
  emits (MarshalFunction e v) b → blen b < 32768 → blen b ≤ max < 2 ^ 31 →
  0 ≤ c_responseBuffer (command s) → c_responseBuffer (command s) + blen b ≤ blen (response s) →
  marshal_member e v max s = Some (max - blen b, pushed b s).
Proof.
  intros He Hb Hm H0 Hr. pose proof (blen_nonneg b). unfold marshal_member.
  rewrite (He (mkM _ _ _ _)) by (unfold room; cbn; lia).
  cbn [push o_ptr o_size o_mem o_failed fmap option_fmap option_map].
  rewrite (wrap_small 16) by (change (2 ^ 16) with 65536; lia).
  unfold s16. by rewrite (proj2 (Z.ltb_lt _ _) Hb).
Qed.

Definition total_max (l : list (Z * Z)) : Z := fold_right (λ p, Z.add (out_max p.2)) 0 l.

(** The member of the output structure for a type of the response. *)
Definition returns (out : list field) (p : Z * Z) : Prop :=
  ∃ v, load_member p.1 out = Some v ∧ out_wf p.2 v = true.
Definition encoded (out : list field) (p : Z * Z) (b : bytes) : Prop :=
  ∃ v, load_member p.1 out = Some v ∧ encodes p.2 v b.

Lemma returns_encoded out l :
  Forall (returns out) l → ∃ bs, Forall2 (encoded out) l bs ∧ Forall2 (λ p b, blen b ≤ out_max p.2) l bs ∧
    blen (concat bs) ≤ total_max l.
Proof.
  induction 1 as [|p l (v & Hv & Hw) Hl (bs & H1 & H2 & H3)].
  - exists []. split; [constructor|]. split; [constructor|done].
  - destruct (out_wf_encodes _ _ Hw) as (b & He & Hb). exists (b :: bs).
    split; [constructor; [by exists v|done]|]. split; [by constructor|].
    cbn [concat total_max fold_right]. rewrite blen_app. unfold total_max in H3. lia.
Qed.

Lemma MarshalParameters_ok out ts t rest : ∀ offsets offset l bs max s,
  out_walk ts offset offsets = Some l → Forall (λ t, response_type t = true) ts →
  RESPONSE_PARAMETER_LAST_TYPE < type_of t →
  Forall2 (encoded out) l bs → Forall (λ b, blen b < 32768) bs →
  blen (concat bs) ≤ max < 2 ^ 31 → g_inFailureMode s = false →
  0 ≤ c_responseBuffer (command s) →
  c_responseBuffer (command s) + blen (concat bs) ≤ blen (response s) →
  MarshalParameters (ts ++ t :: rest) offsets offset out max s
  = Some (max - blen (concat bs), pushed (concat bs) s).
Proof.
  induction ts as [|t' ts IH]; intros offsets offset l bs max s Hw Ht Hl H2 H3 Hm Hg H0 Hr.
  - injection Hw as <-. inversion H2; subst. cbn [app MarshalParameters concat].
    rewrite (bind_Some (gets _) _ s _ s eq_refl), (proj2 (Z.leb_gt _ _) Hl). cbn [andb].
    change (blen []) with 0. by rewrite Z.sub_0_r, pushed_nil.
  - destruct offsets as [|o os]; [done|]. cbn [out_walk] in Hw.
    destruct (out_walk ts o os) as [l'|] eqn:Ew; [|done]. injection Hw as <-.
    apply Forall2_cons_inv_l in H2 as (b & bs' & (v & Hv & e & He & Hb) & H2' & ->).
    apply Forall_cons_1 in H3 as [Hlt H3'].
    inversion_clear Ht as [|?? Ht' Htr]. unfold response_type in Ht'. apply andb_true_iff in Ht' as [_ Ht'].
    cbn [concat] in Hm, Hr |- *. rewrite blen_app in Hm, Hr. pose proof (blen_nonneg b). pose proof (blen_nonneg (concat bs')).
    cbn [app MarshalParameters]. rewrite (bind_Some (gets _) _ s _ s eq_refl), Ht', Hg. cbn [andb negb].
    cbn [fst snd] in Hv, He.
    rewrite He, (bind_Some (of_option (Some _)) _ _ _ _ eq_refl), Hv, (bind_Some (of_option (Some _)) _ _ _ _ eq_refl).
    rewrite (bind_Some _ _ _ _ _ (marshal_member_ok e v b max s Hb Hlt ltac:(lia) H0 ltac:(lia))).
    rewrite (IH os o l' bs' (max - blen b) (pushed b s) Ew) by
      (done || lia || (cbn [pushed command c_responseBuffer response]; rewrite ?blen_bwrite; lia)).
    rewrite pushed_app by lia. rewrite blen_app. do 2 f_equal. lia.
Qed.
End state.

(** * The descriptors are well formed *)

Definition MAX_RESPONSE_SIZE : Z := 4096 - 0x80.
(** The header, the handle and the size of the parameters. *)
Definition RESPONSE_PREFIX : Z := 10 + 4 + 4.

Fixpoint span {A} (p : A → bool) (l : list A) : list A * list A :=
  match l with
  | [] => ([], [])
  | x :: l' => if p x then let '(a, b) := span p l' in (x :: a, b) else ([], l)
  end.

Lemma span_app {A} (p : A → bool) l : l = (span p l).1 ++ (span p l).2.
Proof.
  induction l as [|x l IH]; [done|]. cbn [span]. destruct (p x); [|done].
  destruct (span p l) as [a b]. cbn in *. by rewrite IH.
Qed.

Lemma span_all {A} (p : A → bool) l : Forall (λ x, p x = true) (span p l).1.
Proof.
  induction l as [|x l IH]; [constructor|]. cbn [span]. destruct (p x) eqn:E; [|constructor].
  destruct (span p l) as [a b]. by constructor.
Qed.

Record plan := mkPlan {
  pl_handles : list (Z * Z);    (* offsets and types of the handles *)
  pl_params : list (Z * Z);     (* of the parameters *)
  pl_outHandle : list Z;        (* the type of the handle of the response, if any *)
  pl_outs : list (Z * Z);       (* offsets and types of its parameters *)
  pl_left : list Z }.           (* the offsets for the response *)

#[export] Instance plan_eq_dec : EqDecision plan.
Proof. solve_decision. Defined.

Definition plan_of (d : COMMAND_DESCRIPTOR_t) : option plan :=
  let '(ins, rest) := span (λ t, negb (t =? END_OF_LIST)) (d_types d) in
  let '(hs, ps) := span (λ t, type_of t <? PARAMETER_FIRST_TYPE) ins in
  let outs := (span (λ t, negb (t =? END_OF_LIST)) (tail rest)).1 in
  let '(oh, op) := span (λ t, type_of t <? RESPONSE_PARAMETER_FIRST_TYPE) outs in
  '(lh, o, os) ← walk hs (ps ++ rest) 0 (offset_words d);
  '(lp, _, os) ← walk ps rest o os;
  lo ← match oh with
       | [] => out_walk op 0 os
       | _ => match os with o :: os => out_walk op o os | [] => None end
       end;
  Some (mkPlan lh lp oh lo os).

Definition in_types (p : plan) : list Z := (pl_handles p).*2 ++ (pl_params p).*2.
Definition out_types (p : plan) : list Z := pl_outHandle p ++ (pl_outs p).*2.
Definition hasOut (p : plan) : bool := negb (length (out_types p) =? 0)%nat.
Definition handle_size (p : plan) : Z := 4 * Z.of_nat (length (pl_outHandle p)).

(** The size of the input structure, rounded up. *)
Definition in_allocation (d : COMMAND_DESCRIPTOR_t) : Z :=
  Z.land (u32 (d_inSize d + (UoM - 1))) (0xffffffff - (UoM - 1)).

Definition desc_ok (d : COMMAND_DESCRIPTOR_t) : bool :=
  match plan_of d with
  | None => false
  | Some p =>
      bool_decide (d_types d = in_types p ++ [END_OF_LIST] ++ out_types p ++ [END_OF_LIST]) &&
      forallb handle_type (pl_handles p).*2 && forallb parameter_type (pl_params p).*2 &&
      (Z.of_nat (length (pl_handles p)) <=? MAX_HANDLE_NUM) &&
      fits (d_inSize d) 0 (pl_handles p ++ pl_params p) &&
      forallb (λ t, type_of t =? 0) (pl_outHandle p) && (length (pl_outHandle p) <=? 1)%nat &&
      forallb (λ t, response_type t && (RESPONSE_PARAMETER_FIRST_TYPE <=? type_of t) &&
                    (out_max t <? 32768)) (pl_outs p).*2 &&
      (total_max (pl_outs p) <=? d_outSize d - handle_size p) &&
      (RESPONSE_PREFIX + total_max (pl_outs p) <=? MAX_RESPONSE_SIZE) &&
      (0 <=? d_outSize d) && (d_inSize d <=? in_allocation d) && (in_allocation d mod UoM =? 0) &&
      (in_allocation d + d_outSize d <? sizeof_s_actionIoBuffer)
  end.

Lemma descriptors_ok : forallb desc_ok s_CommandDataArray = true.
Proof. vm_compute. reflexivity. Qed.

(** ** What a plan says of its descriptor *)

Lemma walk_types ts rest : ∀ offset offsets l o os,
  walk ts rest offset offsets = Some (l, o, os) → l.*2 = ts.
Proof.
  induction ts as [|t ts IH]; intros offset offsets l o os H.
  - by injection H as <- <- <-.
  - apply walk_inv in H as (next & o1 & os1 & l' & _ & _ & Hw & ->). cbn. f_equal. by eapply IH.
Qed.

Lemma out_walk_types ts : ∀ offset offsets l,
  out_walk ts offset offsets = Some l → l.*2 = ts.
Proof.
  induction ts as [|t ts IH]; intros offset [|o os] l H; try (by injection H as <-); try done.
  cbn [out_walk] in H. destruct (out_walk ts o os) as [l'|] eqn:E; [|done]. injection H as <-.
  cbn. f_equal. by eapply IH.
Qed.

(** The walks over the types of [d] that make up [p]. *)
Definition walks (d : COMMAND_DESCRIPTOR_t) (p : plan) : Prop :=
  let rest := END_OF_LIST :: out_types p ++ [END_OF_LIST] in
  d_types d = (pl_handles p).*2 ++ (pl_params p).*2 ++ rest ∧
  (∃ o os o', walk (pl_handles p).*2 ((pl_params p).*2 ++ rest) 0 (offset_words d) = Some (pl_handles p, o, os) ∧
     walk (pl_params p).*2 rest o os = Some (pl_params p, o', pl_left p)) ∧
  match pl_outHandle p with
  | [] => out_walk (pl_outs p).*2 0 (pl_left p) = Some (pl_outs p)
  | _ => ∃ o os, pl_left p = o :: os ∧ out_walk (pl_outs p).*2 o os = Some (pl_outs p)
  end.

Lemma plan_walks d p :
  plan_of d = Some p →
  d_types d = in_types p ++ [END_OF_LIST] ++ out_types p ++ [END_OF_LIST] → walks d p.
Proof.
  unfold plan_of. pose proof (span_app (λ t, negb (t =? END_OF_LIST)) (d_types d)) as E1.
  destruct (span _ (d_types d)) as [ins rest]. cbn [fst snd] in E1.
  pose proof (span_app (λ t, type_of t <? PARAMETER_FIRST_TYPE) ins) as E2.
  destruct (span _ ins) as [hs ps]. cbn [fst snd] in E2.
  destruct (span _ (span _ (tail rest)).1) as [oh op].
  destruct (walk hs _ 0 _) as [[[lh o] os]|] eqn:W1; [|done]. cbn [mbind option_bind].
  destruct (walk ps rest o os) as [[[lp o'] os']|] eqn:W2; [|done]. cbn [mbind option_bind].
  destruct (match oh with [] => _ | _ => _ end) as [lo|] eqn:W3; [|done]. cbn [mbind option_bind].
  intros [= <-] Et. pose proof (walk_types _ _ _ _ _ _ _ W1) as T1. pose proof (walk_types _ _ _ _ _ _ _ W2) as T2.
  unfold walks, in_types, out_types in *. cbn [pl_handles pl_params pl_outHandle pl_outs pl_left] in *. rewrite T1, T2 in *.
  assert (rest = END_OF_LIST :: (oh ++ lo.*2) ++ [END_OF_LIST]) as ->.
  { rewrite E1, E2, <- !app_assoc in Et. apply app_inv_head, app_inv_head in Et. by rewrite <- app_assoc. }
  split; [by rewrite Et, <- app_assoc|]. split; [by exists o, os, o'|].
  destruct oh as [|h oh].
  - by rewrite (out_walk_types _ _ _ _ W3).
  - destruct os' as [|o2 os2]; [done|]. exists o2, os2. by rewrite (out_walk_types _ _ _ _ W3).
Qed.

Record described (d : COMMAND_DESCRIPTOR_t) (p : plan) : Prop := {
  ds_plan : plan_of d = Some p;
  ds_walks : walks d p;
  ds_handles : Forall (λ t, handle_type t = true) (pl_handles p).*2;
  ds_params : Forall (λ t, parameter_type t = true) (pl_params p).*2;
  ds_count : Z.of_nat (length (pl_handles p)) ≤ MAX_HANDLE_NUM;
  ds_fits : fits (d_inSize d) 0 (pl_handles p ++ pl_params p) = true;
  ds_outHandle : pl_outHandle p = [] ∨ ∃ t, pl_outHandle p = [t] ∧ type_of t = 0;
  ds_outs : Forall (λ t, response_type t = true ∧ RESPONSE_PARAMETER_FIRST_TYPE ≤ type_of t ∧
                         out_max t < 32768) (pl_outs p).*2;
  ds_total : total_max (pl_outs p) ≤ d_outSize d - handle_size p;
  ds_room : RESPONSE_PREFIX + total_max (pl_outs p) ≤ MAX_RESPONSE_SIZE;
  ds_sizes : 0 ≤ d_outSize d ∧ d_inSize d ≤ in_allocation d ∧ in_allocation d mod UoM = 0 ∧
             in_allocation d + d_outSize d < sizeof_s_actionIoBuffer }.

Lemma forallb_Forall_1 {A} (f : A → bool) l : forallb f l = true → Forall (λ x, f x = true) l.
Proof. intros H. induction l as [|x l IH]; constructor; cbn in H; apply andb_true_iff in H as [? ?]; auto. Qed.

Lemma desc_described d : desc_ok d = true → ∃ p, described d p.
Proof.
  unfold desc_ok. destruct (plan_of d) as [p|] eqn:Ep; [|done].
  rewrite !andb_true_iff, bool_decide_eq_true, !Z.leb_le, Z.ltb_lt, Z.eqb_eq, Nat.leb_le.
  intros (((((((((((((H1 & H2) & H3) & H4) & H5) & H6) & H7) & H8) & H9) & H10) & H11) & H12) & H13) & H14).
  exists p. split; try done.
  - by apply plan_walks.
  - by apply forallb_Forall_1.
  - by apply forallb_Forall_1.
  - destruct (pl_outHandle p) as [|t [|]]; [by left|right|cbn in H7; lia].
    exists t. cbn in H6. rewrite andb_true_r, Z.eqb_eq in H6. done.
  - apply forallb_Forall_1 in H8. eapply Forall_impl; [|exact H8]. cbn. intros t.
    rewrite !andb_true_iff, Z.leb_le, Z.ltb_lt. tauto.
Qed.

Lemma descriptor_elem i d : descriptor i = Some d → d ∈ s_CommandDataArray.
Proof. unfold descriptor. destruct (i <? 0); [done|]. apply list_elem_of_lookup_2. Qed.

(** Every command has a plan that its descriptor bears out. *)
Lemma command_described i d : descriptor i = Some d → ∃ p, described d p.
Proof.
  unfold descriptor. destruct (i <? 0); [done|]. intros H. apply desc_described.
  pose proof (forallb_Forall_1 _ _ descriptors_ok) as F. rewrite Forall_lookup in F. by eapply F.
Qed.
