(* ===== verification/DispatchRun.v ===== *)
(** * A run of the dispatcher

    [ParseHandleBuffer] and [CommandDispatcher] on the plan of a command, from
    the loops of DispatchProof.v. *)

From S2P Require Import Prelude TpmTypes Memory WireTypes Unmarshal Marshal WireCodec CTypes CommandIO DispatchArrays DispatchData DispatchWf Dispatch DispatchProof.
Local Open Scope Z_scope.

Section run.
Context {S : Type}.
Implicit Types (s : DState S) (p : plan).

(** ** The action buffers *)

Definition allocated (n : Z) s : DState S :=
  mkD (command s) (response s) n (g_inFailureMode s) (tpm s).

Lemma buffers_ok d p s :
  described d p →
  (MemoryIoBufferAllocationReset ;; MemoryGetInBuffer (d_inSize d) ;; MemoryGetOutBuffer (d_outSize d)) s
  = Some (tt, allocated (in_allocation d + d_outSize d) s).
Proof.
  intros [? ? ? ? ? ? ? ? ? ? (H1 & H2 & H3 & H4)].
  change sizeof_s_actionIoBuffer with 6144 in *. change UoM with 8 in *.
  pose proof (Z.div_mod (in_allocation d) 8 ltac:(lia)) as Hd.
  assert (H0 : 0 ≤ in_allocation d) by (apply Z.land_nonneg; right; done).
  unfold MemoryIoBufferAllocationReset, MemoryGetInBuffer, MemoryGetOutBuffer, set_allocation.
  unfold bind, gets, modify, pAssert. change sizeof_s_actionIoBuffer with 6144. change UoM with 8.
  rewrite (proj2 (Z.leb_le (d_inSize d) 6144)) by lia. unfold ret.
  change (Z.land (u32 (d_inSize d + (8 - 1))) (0xffffffff - (8 - 1))) with (in_allocation d).
  rewrite (proj2 (Z.leb_le (in_allocation d) 6144)) by lia. cbn [s_actionIoAllocation].
  rewrite !(wrap_small 32) by (change (2 ^ 32) with 4294967296; lia).
  rewrite (proj2 (Z.ltb_lt _ 6144)) by lia. rewrite (proj2 (Z.leb_le _ 6144)) by lia. done.
Qed.

(** ** Handles *)

(** What follows the types of the handles is not the type of a handle. *)
Lemma after_handles d p :
  described d p → ∃ t rest,
    (pl_params p).*2 ++ END_OF_LIST :: out_types p ++ [END_OF_LIST] = t :: rest ∧
    PARAMETER_FIRST_TYPE ≤ type_of t.
Proof.
  intros D. pose proof (ds_params _ _ D) as Hp. destruct (pl_params p).*2 as [|t ps].
  - exists END_OF_LIST. eexists. split; [done|]. discriminate.
  - exists t. eexists. split; [done|]. apply Forall_cons_1 in Hp as [Hp _].
    unfold parameter_type in Hp. rewrite !andb_true_iff, Z.leb_le in Hp. tauto.
Qed.

Lemma ParseHandleBuffer_ok d p s :
  descriptor (c_index (command s)) = Some d → described d p →
  length (c_handles (command s)) = Z.to_nat MAX_HANDLE_NUM → input (params (command s)) →
  (∃ rc n s', ParseHandleBuffer s = Some (rc + TPM_RC_H + n * TPM_RC_1, s') ∧
     unmarshal_code rc = true ∧ malformed (pl_handles p).*2 (params (command s)) n rc (params (command s')) ∧
     untouched s s') ∨
  (∃ hs u b, ParseHandleBuffer s = Some (TPM_RC_SUCCESS, with_handles hs (with_params u s)) ∧
     Forall2 (λ t h, member_wf t (V_UINT32 h) = true) (pl_handles p).*2 hs ∧
     unmarshaled (pl_handles p).*2 (params (command s)) (V_UINT32 <$> hs) u ∧
     consumed (params (command s)) u b ∧ input u).
Proof.
  intros Hd D Hl Hs. destruct (ds_walks _ _ D) as (Et & _).
  destruct (after_handles d p D) as (t & rest & Er & Ht).
  assert (ParseHandleBuffer s = ParseHandles ((pl_handles p).*2 ++ t :: rest) (with_handles [] s)) as ->.
  { unfold ParseHandleBuffer, bind, gets, of_option, set_command, modify. by rewrite Hd, Et, Er. }
  destruct (ParseHandles_ok (pl_handles p).*2 t rest [] s) as
    [(rc & n & s' & Hc & Hn & U & E)|(hs & u & b & Hw & Hm & C & Hu & E)];
    [apply D|done|cbn [length]; rewrite length_fmap; apply D|done|done| |].
  - left. exists rc, n, s'. by rewrite E.
  - right. exists hs, u, b. by rewrite E.
Qed.

(** ** The input structure *)

Definition end_pos (pos : Z) (l : list (Z * Z)) : Z :=
  fold_left (λ _ q, q.1 + sizeof (member_type q.2)) l pos.

Lemma fits_app limit l1 l2 : ∀ pos,
  fits limit pos (l1 ++ l2) = true →
  fits limit pos l1 = true ∧ fits limit (end_pos pos l1) l2 = true ∧ pos ≤ end_pos pos l1.
Proof.
  induction l1 as [|[o t] l1 IH]; intros pos H; [by repeat split|].
  cbn [app fits] in H. rewrite !andb_true_iff in H. destruct H as ((((H1 & H2) & H3) & H4) & H5).
  destruct (IH _ H5) as (I1 & I2 & I3). cbn [fits end_pos fold_left fst snd]. rewrite H1, H2, H3, H4, I1.
  apply Z.leb_le in H1, H4. repeat split; [exact I2|]. unfold end_pos in I3. lia.
Qed.

Lemma members_end limit l : ∀ pos vs,
  fits limit pos l = true → 0 ≤ pos → ends_by (end_pos pos l) (zip_with member l vs).
Proof.
  induction l as [|[o t] l IH]; intros pos vs H Hp; [constructor|].
  destruct vs as [|v vs]; [constructor|]. pose proof H as H'. apply fits_inv in H as (H1 & H2 & H3 & H4 & H5).
  cbn [zip_with end_pos fold_left fst snd]. constructor; [|apply IH; [done|lia]].
  cbn. pose proof (fits_app limit l [] _ (eq_trans (f_equal _ (app_nil_r l)) H5)) as (_ & _ & Hle).
  exact Hle.
Qed.

(** The members of the input structure for the handles [hs] and the parameters [vs]. *)
Definition in_members p (hs : list Z) (vs : list value) : list field :=
  zip_with member (pl_handles p) (V_UINT32 <$> hs) ++ zip_with member (pl_params p) vs.

Definition in_count p : Z := Z.of_nat (length (pl_handles p) + length (pl_params p)).

(** ** Up to the action *)

(** The part of [dispatch_body] before the comparison of [parameterSize]. *)
Definition unmarshal_in (d : COMMAND_DESCRIPTOR_t) : M (DState S) (Z + cursor) :=
  let! c := gets command in
  let! k := of_option (CopyHandles (d_inSize d) (d_types d) (c_handles c) (offset_words d) 0 [] 0) in
  UnmarshalParameters (d_inSize d) (k_types k) (k_offsets k) (k_offset k) (k_in k) (k_has k) 0.

Definition after_in p (hs : list Z) (vs : list value) (k : cursor) : Prop :=
  k_types k = END_OF_LIST :: out_types p ++ [END_OF_LIST] ∧ k_offsets k = pl_left p ∧
  k_in k = in_members p hs vs ∧ k_has k = in_count p.

Lemma copy_handles d p s :
  described d p → length (c_handles (command s)) = Z.to_nat MAX_HANDLE_NUM →
  ∃ o os o', walk (pl_params p).*2 (END_OF_LIST :: out_types p ++ [END_OF_LIST]) o os
             = Some (pl_params p, o', pl_left p) ∧
    CopyHandles (d_inSize d) (d_types d) (c_handles (command s)) (offset_words d) 0 [] 0
    = Some (mkCursor ((pl_params p).*2 ++ END_OF_LIST :: out_types p ++ [END_OF_LIST]) os o
              (zip_with member (pl_handles p) (V_UINT32 <$> c_handles (command s)))
              (Z.of_nat (length (pl_handles p)))).
Proof.
  intros D Hl. destruct (ds_walks _ _ D) as (Et & (o & os & o' & W1 & W2) & _).
  destruct (after_handles d p D) as (t & rest & Er & Ht). exists o, os, o'. split; [done|].
  destruct (fits_app _ _ _ _ (ds_fits _ _ D)) as (F & _). pose proof (ds_count _ _ D) as Hc.
  rewrite Et, Er. rewrite Er in W1.
  rewrite (CopyHandles_ok _ _ _ _ _ _ _ _ _ _ _ _ _ W1 F);
    [|apply D|done|rewrite Hl, length_fmap; lia|constructor|done].
  by rewrite length_fmap.
Qed.

Lemma unmarshal_in_ok d p s :
  described d p → length (c_handles (command s)) = Z.to_nat MAX_HANDLE_NUM → input (params (command s)) →
  ∃ u b, consumed (params (command s)) u b ∧ input u ∧
  ((∃ rc n, unmarshal_code rc = true ∧ malformed (pl_params p).*2 (params (command s)) n rc u ∧
     unmarshal_in d s = Some (inl (rc + (TPM_RC_P + TPM_RC_1 * n)), with_params u s)) ∨
   (∃ vs k, Forall2 (λ t v, member_wf t v = true) (pl_params p).*2 vs ∧
     unmarshaled (pl_params p).*2 (params (command s)) vs u ∧
     after_in p (c_handles (command s)) vs k ∧ unmarshal_in d s = Some (inr k, with_params u s))).
Proof.
  intros D Hl Hs. destruct (copy_handles d p s D Hl) as (o & os & o' & W & E).
  destruct (fits_app _ _ _ _ (ds_fits _ _ D)) as (F1 & F2 & F3).
  destruct (UnmarshalParameters_ok (d_inSize d) (pl_params p).*2 END_OF_LIST (out_types p ++ [END_OF_LIST])
    os o (zip_with member (pl_handles p) (V_UINT32 <$> c_handles (command s)))
    (Z.of_nat (length (pl_handles p))) 0 _ _ _ _ s W F2) as (u & b & C & Hu & H);
    [apply D|done|by eapply members_end|done|done|].
  exists u, b. split; [done|]. split; [done|]. unfold unmarshal_in.
  rewrite (bind_Some (gets command) _ s _ s eq_refl), E, (bind_Some (of_option (Some _)) _ s _ s eq_refl).
  cbn [k_types k_offsets k_offset k_in k_has].
  destruct H as [(rc & n & Hrc & Hn & E')|(vs & Hv & Hm & E')]; [left|right].
  - exists rc, n. by rewrite E'.
  - exists vs. eexists. split; [done|]. split; [done|]. split; [|exact E'].
    unfold after_in, in_count. cbn [k_types k_offsets k_in k_has]. rewrite length_fmap, Nat2Z.inj_add. done.
Qed.

Lemma unmarshal_in_reads d p s bs vs :
  described d p → length (c_handles (command s)) = Z.to_nat MAX_HANDLE_NUM →
  Forall3 decodes (pl_params p).*2 bs vs → params (command s) = mkU (concat bs) (blen (concat bs)) →
  blen (concat bs) < 2 ^ 31 → ∃ k,
  after_in p (c_handles (command s)) vs k ∧ unmarshal_in d s = Some (inr k, with_params (mkU [] 0) s).
Proof.
  intros D Hl H3 Hs Hn. destruct (copy_handles d p s D Hl) as (o & os & o' & W & E).
  destruct (fits_app _ _ _ _ (ds_fits _ _ D)) as (F1 & F2 & F3). pose proof (blen_nonneg (concat bs)).
  eexists. split; cycle 1.
  - unfold unmarshal_in.
    rewrite (bind_Some (gets command) _ s _ s eq_refl), E, (bind_Some (of_option (Some _)) _ s _ s eq_refl).
    cbn [k_types k_offsets k_offset k_in k_has].
    rewrite (UnmarshalParameters_reads _ _ _ _ bs vs _ _ _ _ _ _ _ _ _ s [] (blen (concat bs)) H3 W F2);
      [by rewrite Z.sub_diag|apply D|done|by eapply members_end|done|by rewrite app_nil_r|lia].
  - unfold after_in, in_count. cbn [k_types k_offsets k_in k_has]. rewrite length_fmap, Nat2Z.inj_add. done.
Qed.

(** ** The response *)

(** An output structure with a member for everything the response has. *)
Definition returns_all p (out : list field) : Prop :=
  (pl_outHandle p ≠ [] → ∃ h, load_member 0 out = Some (V_UINT32 h)) ∧
  Forall (returns out) (pl_outs p).

(** The response in [s'] has the handle and the octets [bs] of the parameters. *)
Definition answered p (out : list field) (bs : list bytes) s s' : Prop :=
  Forall2 (encoded out) (pl_outs p) bs ∧
  response s' = bwrite (response s) (c_responseBuffer (command s)) (concat bs) ∧
  c_responseBuffer (command s') = c_responseBuffer (command s) + blen (concat bs) ∧
  c_parameterSize (command s') = blen (concat bs) ∧
  c_handleNum (command s') = Z.of_nat (length (pl_outHandle p)) ∧
  (pl_outHandle p ≠ [] → ∃ h, load_member 0 out = Some (V_UINT32 h) ∧ c_handles (command s') !! 0%nat = Some h) ∧
  g_inFailureMode s' = false.

(** The room for a response. *)
Definition can_answer s : Prop :=
  length (c_handles (command s)) = Z.to_nat MAX_HANDLE_NUM ∧
  0 ≤ c_responseBuffer (command s) ≤ RESPONSE_PREFIX ∧ MAX_RESPONSE_SIZE ≤ blen (response s).

Lemma small_encodings (l : list (Z * Z)) bs :
  Forall2 (λ q b, blen b ≤ out_max q.2) l bs →
  Forall (λ t, response_type t = true ∧ RESPONSE_PARAMETER_FIRST_TYPE ≤ type_of t ∧ out_max t < 32768) l.*2 →
  Forall (λ b, blen b < 32768) bs.
Proof.
  induction 1 as [|q b l bs Hq _ IH]; intros F; [constructor|].
  apply Forall_cons_1 in F as [(_ & _ & F) F']. constructor; [lia|by apply IH].
Qed.

Definition counted s : DState S :=
  mkD (handles_counted 0 (command s)) (response s) (s_actionIoAllocation s) (g_inFailureMode s) (tpm s).
Definition with_out_handle (h : Z) s : DState S :=
  mkD (handles_counted 1 (handle_stored 0 h (command s))) (response s) (s_actionIoAllocation s)
    (g_inFailureMode s) (tpm s).

Definition concluded (r : option (Z * DState S)) : option (Z * DState S) :=
  match r with
  | Some (m, s) => Some (if m <? 0 then TPM_RC_FAILURE else TPM_RC_SUCCESS, s)
  | None => None
  end.

Lemma MarshalResponse_plain t ts offsets out max s :
  RESPONSE_PARAMETER_FIRST_TYPE ≤ type_of t →
  MarshalResponse (t :: ts) offsets out max s
  = concluded (MarshalParameters (t :: ts) offsets 0 out max (counted s)).
Proof.
  intros Ht. unfold MarshalResponse, bind at 1 2 3, gets, set_command, modify.
  by rewrite (proj2 (Z.ltb_ge _ _) Ht).
Qed.

Lemma MarshalResponse_handle t ts o os out max s h :
  type_of t = 0 → load_member 0 out = Some (V_UINT32 h) →
  MarshalResponse (t :: ts) (o :: os) out max s
  = concluded (MarshalParameters ts os o out (max - sizeof_UINT32) (with_out_handle h (counted s))).
Proof.
  intros Ht Hh. unfold MarshalResponse. rewrite Ht. change (0 <? RESPONSE_PARAMETER_FIRST_TYPE) with true.
  cbn iota. rewrite Hh. done.
Qed.

Lemma MarshalResponse_ok d p out s :
  described d p → returns_all p out → can_answer s → g_inFailureMode s = false →
  c_parameterSize (command s) = 0 → ∃ bs s',
  answered p out bs s s' ∧ tpm s' = tpm s ∧ s_actionIoAllocation s' = s_actionIoAllocation s ∧
  MarshalResponse (out_types p ++ [END_OF_LIST]) (pl_left p) out (d_outSize d) s = Some (TPM_RC_SUCCESS, s').
Proof.
  intros D [Hh Ho] (Hl & Hb & Hr) Hg Hz. destruct (ds_walks _ _ D) as (_ & _ & W).
  destruct (returns_encoded _ _ Ho) as (bs & H1 & H2 & H3).
  pose proof (ds_total _ _ D) as Ht. pose proof (ds_room _ _ D) as Hrm. destruct (ds_sizes _ _ D) as (Hs & _ & _ & Hs').
  assert (Hz16 : 0 ≤ in_allocation d) by (apply Z.land_nonneg; right; done).
  change sizeof_s_actionIoBuffer with 6144 in Hs'. pose proof (blen_nonneg (concat bs)).
  pose proof (ds_outs _ _ D) as F. assert (Hlt := small_encodings _ _ H2 F).
  assert (Hrt : Forall (λ t, response_type t = true) (pl_outs p).*2)
    by (eapply Forall_impl; [|exact F]; cbn; tauto).
  unfold out_types, handle_size in *. exists bs.
  destruct (ds_outHandle _ _ D) as [E0|(t & E0 & Et)]; rewrite E0 in *; cbn [app length] in *.
  - exists (pushed (concat bs) (counted s)). split; [split; [done|]; cbn; rewrite E0; repeat split; done || lia|].
    split; [done|]. split; [done|].
    assert (M := MarshalParameters_ok out (pl_outs p).*2 END_OF_LIST [] (pl_left p) 0 (pl_outs p) bs (d_outSize d)
      (counted s) W Hrt eq_refl H1 Hlt ltac:(lia) Hg (proj1 Hb) ltac:(cbn; lia)).
    destruct (pl_outs p).*2 as [|t ts]; cbn [app] in *; rewrite MarshalResponse_plain, M by
      (discriminate || (apply Forall_cons_1 in F as [F _]; tauto)); cbn [concluded];
      by rewrite (proj2 (Z.ltb_ge _ _)) by lia.
  - destruct (Hh ltac:(discriminate)) as (h & Eh). destruct W as (o & os & -> & W).
    exists (pushed (concat bs) (with_out_handle h (counted s))). split; [|split; [done|split; [done|]]].
    + split; [done|]. cbn. rewrite E0. repeat split; try (done || lia).
      intros _. exists h. split; [done|]. apply list_lookup_insert_eq. rewrite Hl. change (Z.to_nat MAX_HANDLE_NUM) with 3%nat. lia.
    + rewrite (MarshalResponse_handle _ _ _ _ _ _ _ h Et Eh). change sizeof_UINT32 with 4.
      rewrite (MarshalParameters_ok out (pl_outs p).*2 END_OF_LIST [] os o (pl_outs p) bs (d_outSize d - 4)
        (with_out_handle h (counted s)) W Hrt eq_refl H1 Hlt ltac:(lia) Hg (proj1 Hb) ltac:(cbn; lia)).
      cbn [concluded]. by rewrite (proj2 (Z.ltb_ge _ _)) by lia.
Qed.

(** ** The whole dispatcher *)

Section action.
Context (action : command_action → option (list field) → bool → S → outcome S).

(** The action of a command on the handles [hs] and the parameters [vs]. *)
Definition perform d p (hs : list Z) (vs : list value) (st : S) : outcome S :=
  action (d_command d) (if 0 <? in_count p then Some (in_members p hs vs) else None) (hasOut p) st.

(** What is left after [unmarshal_in]. *)
Definition dispatch_rest (d : COMMAND_DESCRIPTOR_t) (r : Z + cursor) : M (DState S) Z :=
  match r with
  | inl result => ret result
  | inr k =>
      let! c := gets command in
      if negb (c_parameterSize c =? 0) then ret TPM_RC_SIZE
      else
        match k_types k with
        | _ :: types =>
            match types with
            | first :: _ =>
                let! '(result, commandOut) :=
                  call_action action (d_command d) (if 0 <? k_has k then Some (k_in k) else None)
                    (negb (first =? 0xFF)) in
                if negb (result =? TPM_RC_SUCCESS) then ret result
                else MarshalResponse types (k_offsets k) commandOut (d_outSize d)
            | [] => undef
            end
        | [] => undef
        end
  end.

Lemma dispatch_body_eq d s :
  dispatch_body action d s
  = match unmarshal_in d s with Some (r, s') => dispatch_rest d r s' | None => None end.
Proof.
  unfold dispatch_body, unmarshal_in, bind, gets, of_option. by destruct (CopyHandles _ _ _ _ _ _ _).
Qed.

Lemma CommandDispatcher_eq d p s :
  descriptor (c_index (command s)) = Some d → described d p →
  CommandDispatcher action s
  = match dispatch_body action d (allocated (in_allocation d + d_outSize d) s) with
    | Some (r, s') => if s_actionIoAllocation s' <=? sizeof_s_actionIoBuffer then Some (r, s') else None
    | None => None
    end.
Proof.
  intros Hd D. pose proof (buffers_ok d p s D) as B. revert B.
  unfold CommandDispatcher, bind, gets, of_option. rewrite Hd.
  destruct (MemoryIoBufferAllocationReset s) as [[? s1]|]; [|done].
  destruct (MemoryGetInBuffer (d_inSize d) s1) as [[? s2]|]; [|done]. intros ->.
  destruct (dispatch_body action d _) as [[r s3]|]; [|done].
  unfold MemoryIoBufferZero, bind, gets. by destruct (_ <=? _).
Qed.

Lemma first_out d p :
  described d p → ∃ first rest,
    out_types p ++ [END_OF_LIST] = first :: rest ∧ negb (first =? 0xFF) = hasOut p.
Proof.
  intros D. unfold hasOut. destruct (out_types p) as [|t ts] eqn:E; [by exists END_OF_LIST, []|].
  exists t. eexists. split; [done|]. apply negb_true_iff, Z.eqb_neq. intros ->.
  pose proof (ds_outs _ _ D) as F. unfold out_types in E.
  destruct (ds_outHandle _ _ D) as [E0|(t & E0 & Et)]; rewrite E0 in E; cbn in E.
  - rewrite E in F. apply Forall_cons_1 in F as [[F _] _]. discriminate.
  - injection E as -> _. discriminate.
Qed.

(** An action that succeeds has stored what the response needs. *)
Definition returns_output : Prop :=
  ∀ d p cin st, d ∈ s_CommandDataArray → described d p →
    a_result (action (d_command d) cin (hasOut p) st) = TPM_RC_SUCCESS →
    a_failed (action (d_command d) cin (hasOut p) st) = false ∧
    returns_all p (a_out (action (d_command d) cin (hasOut p) st)).

(** The action was performed on [hs] and [vs], and [s'] has what it returned. *)
Definition performed d p (hs : list Z) (vs : list value) s (result : Z) s' : Prop :=
  let o := perform d p hs vs (tpm s) in
  tpm s' = a_tpm o ∧
  (a_result o ≠ TPM_RC_SUCCESS → result = a_result o ∧ response s' = response s) ∧
  (a_result o = TPM_RC_SUCCESS → result = TPM_RC_SUCCESS ∧ ∃ bs, answered p (a_out o) bs s s').

Lemma dispatch_performed d p s u k vs :
  d ∈ s_CommandDataArray → described d p → returns_output → can_answer s → g_inFailureMode s = false → u_size u = 0 →
  after_in p (c_handles (command s)) vs k → ∃ result s',
  dispatch_rest d (inr k) (with_params u s) = Some (result, s') ∧
  s_actionIoAllocation s' = s_actionIoAllocation s ∧
  performed d p (c_handles (command s)) vs s result s'.
Proof.
  intros Hd D Ha Hc Hg Hu (Kt & Ko & Ki & Kh). destruct (first_out d p D) as (first & rest & Ef & Eh).
  unfold dispatch_rest, bind at 1, gets. cbn [with_params command c_parameterSize]. rewrite Hu.
  change (negb (0 =? 0)) with false. cbn iota. rewrite Kt, Ef, Kh, Ki, Ko, Eh.
  unfold bind, call_action. fold (perform d p (c_handles (command s)) vs (tpm (with_params u s))).
  change (tpm (with_params u s)) with (tpm s). unfold performed.
  pose proof (Ha d p (if 0 <? in_count p then Some (in_members p (c_handles (command s)) vs) else None) (tpm s) Hd D) as Hr.
  fold (perform d p (c_handles (command s)) vs (tpm s)) in Hr.
  destruct (perform d p (c_handles (command s)) vs (tpm s)) as [res out st' fl]. cbn [a_result a_out a_tpm a_failed] in *.
  destruct (Z.eqb_spec res TPM_RC_SUCCESS) as [->|Hne]; cbn [negb].
  - destruct (Hr eq_refl) as [-> Hout]. rewrite orb_false_r, <- Ef.
    destruct (MarshalResponse_ok d p out (mkD (command (with_params u s)) (response s) (s_actionIoAllocation s)
      (g_inFailureMode s) st') D Hout Hc Hg Hu) as (bs & s' & A & Et & El & E).
    exists TPM_RC_SUCCESS, s'. split; [exact E|]. split; [exact El|]. split; [done|]. split; [done|].
    intros _. split; [done|]. by exists bs.
  - eexists res, _. split; [reflexivity|]. done.
Qed.
End action.
End run.
