(* ===== verification/DispatchProps.v ===== *)
(** * Properties of the dispatch of commands

    The octets after the header of a command come from outside the TPM.  The
    theorems say what reaches the action of a command, what the response code of
    a malformed command says, and that the response an action returns fits. *)

From S2P Require Import Prelude TpmTypes Memory WireTypes Unmarshal Marshal WireCodec CTypes CommandIO DispatchArrays DispatchData DispatchWf Dispatch DispatchProof DispatchRun.
Local Open Scope Z_scope.

Section dispatch.
Context {S : Type} (action : command_action → option (list field) → bool → S → outcome S).
Implicit Types (s : DState S).

(** C8. Whatever the octets of the parameters are, [CommandDispatcher] returns
    without leaving the input and output structures, the action buffer or the
    response, for every command of the table and for all actions that return
    what their response needs.  Either the first parameter that its function of
    Unmarshal.c refuses, after those before it have been unmarshaled one after the
    other, is number [n], and the response code is the code of that function with
    that number; or octets are left over after the last one, and it is
    [TPM_RC_SIZE]; in both cases the state of the TPM and the response are as
    before.  Or the octets, all of them, were unmarshaled one after the other to
    values of the types of the parameters, the action was performed on exactly the
    handles and these values, and its response code, or the encoding of its
    output, is what is returned. *)
Theorem command_dispatch d s :
  descriptor (c_index (command s)) = Some d → returns_output action →
  can_answer s → g_inFailureMode s = false → input (params (command s)) →
  ∃ p result s', described d p ∧ CommandDispatcher action s = Some (result, s') ∧
  ((∃ rc n, result = rc + (TPM_RC_P + TPM_RC_1 * n) ∧ unmarshal_code rc = true ∧
      malformed (pl_params p).*2 (params (command s)) n rc (params (command s')) ∧ untouched s s') ∨
   (result = TPM_RC_SIZE ∧ untouched s s' ∧ 0 < c_parameterSize (command s') ∧
    ∃ vs, unmarshaled (pl_params p).*2 (params (command s)) vs (params (command s'))) ∨
   (∃ vs b, Forall2 (λ t v, member_wf t v = true) (pl_params p).*2 vs ∧
      unmarshaled (pl_params p).*2 (params (command s)) vs
        (mkU (drop (length b) (c_parameterBuffer (command s))) 0) ∧
      consumed (params (command s)) (mkU (drop (length b) (c_parameterBuffer (command s))) 0) b ∧
      performed action d p (c_handles (command s)) vs s result s')).
Proof.
  intros Hd Ha Hc Hg Hs. destruct (command_described _ _ Hd) as (p & D). exists p.
  rewrite (CommandDispatcher_eq action d p s Hd D), dispatch_body_eq.
  destruct (ds_sizes _ _ D) as (_ & _ & _ & Hz). set (s0 := allocated _ s).
  destruct (unmarshal_in_ok d p s0 D (proj1 Hc) Hs) as (u & b & C & Hu & [(rc & n & Hrc & Hn & E)|(vs & k & Hv & Hm & K & E)]);
    rewrite E.
  - eexists _, (with_params u s0). split; [done|]. cbn [dispatch_rest ret with_params s_actionIoAllocation s0 allocated].
    rewrite (proj2 (Z.leb_le _ _)) by lia. split; [done|]. left. exists rc, n.
    split; [done|]. split; [done|]. by destruct u.
  - destruct (Z.eq_dec (u_size u) 0) as [H0|H0].
    + destruct (dispatch_performed action d p s0 u k vs (descriptor_elem _ _ Hd) D Ha Hc Hg H0 K) as (result & s' & E' & El & Hp).
      exists result, s'. split; [done|]. rewrite E', El. cbn [s_actionIoAllocation s0 allocated].
      rewrite (proj2 (Z.leb_le _ _)) by lia. split; [done|]. right. right. exists vs, b. split; [done|].
      assert (u = mkU (drop (length b) (c_parameterBuffer (command s))) 0) as Eu.
      { destruct C as (Cb & _). cbn [params u_buffer] in Cb. change (command s0) with (command s) in Cb.
        rewrite Cb, drop_app_length. destruct u. cbn in *. by subst. }
      rewrite <- Eu. done.
    + eexists _, (with_params u s0). split; [done|]. destruct Hu as (_ & Hu & _).
      unfold dispatch_rest, bind, gets. cbn [with_params command c_parameterSize].
      rewrite (proj2 (Z.eqb_neq _ _) H0). cbn [negb ret s_actionIoAllocation with_params s0 allocated]. unfold ret.
      cbn [s_actionIoAllocation]. rewrite (proj2 (Z.leb_le _ _)) by lia. split; [done|]. right. left.
      split; [done|]. split; [done|]. split; [cbn; lia|]. exists vs. by destruct u.
Qed.

(** C16. Nothing well formed is turned away: octets that encode values of the
    types of the parameters, one after the other, reach the action as these
    values, each in the member of the input structure that is its own. *)
Theorem dispatch_complete d p s bs vs :
  descriptor (c_index (command s)) = Some d → plan_of d = Some p → returns_output action →
  can_answer s → g_inFailureMode s = false →
  Forall3 decodes (pl_params p).*2 bs vs →
  params (command s) = mkU (concat bs) (blen (concat bs)) → blen (concat bs) < 2 ^ 31 →
  ∃ result s', CommandDispatcher action s = Some (result, s') ∧
    performed action d p (c_handles (command s)) vs s result s'.
Proof.
  intros Hd Hp Ha Hc Hg H3 Hs Hn. destruct (command_described _ _ Hd) as (p' & D).
  assert (p' = p) as -> by (pose proof (ds_plan _ _ D); congruence).
  rewrite (CommandDispatcher_eq action d p s Hd D), dispatch_body_eq.
  destruct (ds_sizes _ _ D) as (_ & _ & _ & Hz). set (s0 := allocated _ s).
  destruct (unmarshal_in_reads d p s0 bs vs D (proj1 Hc) H3 Hs Hn) as (k & K & E). rewrite E.
  destruct (dispatch_performed action d p s0 (mkU [] 0) k vs (descriptor_elem _ _ Hd) D Ha Hc Hg eq_refl K) as (result & s' & E' & El & P).
  exists result, s'. rewrite E', El. cbn [s_actionIoAllocation s0 allocated].
  by rewrite (proj2 (Z.leb_le _ _)) by lia.
Qed.

(** C28. The handle area: for every command, [ParseHandleBuffer] stores at most
    the [MAX_HANDLE_NUM] handles there is room for.  If the functions of
    Unmarshal.c for the handles, run one after the other on the octets, refuse
    the [n]-th, the response code is the code of that function with [n] as the
    number of the handle; otherwise the handles stored are those the octets
    hold, as many as the command has and each of its type, and the octets after
    them are left for the parameters. *)
Theorem handle_area d s :
  descriptor (c_index (command s)) = Some d →
  length (c_handles (command s)) = Z.to_nat MAX_HANDLE_NUM → input (params (command s)) →
  ∃ p result s', described d p ∧ ParseHandleBuffer s = Some (result, s') ∧
  ((∃ rc n, result = rc + TPM_RC_H + n * TPM_RC_1 ∧ unmarshal_code rc = true ∧
      malformed (pl_handles p).*2 (params (command s)) n rc (params (command s')) ∧ untouched s s') ∨
   (result = TPM_RC_SUCCESS ∧ untouched s s' ∧ input (params (command s')) ∧
    c_handleNum (command s') = Z.of_nat (length (pl_handles p)) ∧
    let hs := take (length (pl_handles p)) (c_handles (command s')) in
    unmarshaled (pl_handles p).*2 (params (command s)) (V_UINT32 <$> hs) (params (command s')) ∧
    Forall2 (λ t h, member_wf t (V_UINT32 h) = true) (pl_handles p).*2 hs)).
Proof.
  intros Hd Hl Hs. destruct (command_described _ _ Hd) as (p & D). exists p.
  destruct (ParseHandleBuffer_ok d p s Hd D Hl Hs) as
    [(rc & n & s' & E & Hrc & Hn & U)|(hs & u & b & E & Hw & Hm & C & Hu)].
  - eexists _, s'. split; [done|]. split; [exact E|]. left. by exists rc, n.
  - exists TPM_RC_SUCCESS. eexists. split; [done|]. split; [exact E|]. right. split; [done|]. split; [done|].
    split; [by destruct u|]. pose proof (Forall2_length Hw) as HL. rewrite length_fmap in HL.
    cbn [with_handles command c_handleNum c_handles]. rewrite <- HL. split; [done|].
    cbv zeta. rewrite take_app_length' by done. by destruct u.
Qed.
End dispatch.

(** ** The tables *)

Definition out_type (t : Z) : ctype :=
  match marshalArray !! Z.to_nat (type_of t) with Some e => source_of e | None => scalar 1 end.

(** The places the dispatcher stores to and loads from: offset and size. *)
Definition in_places (p : plan) : list (Z * Z) :=
  (λ q, (q.1, sizeof (member_type q.2))) <$> (pl_handles p ++ pl_params p).
Definition out_places (p : plan) : list (Z * Z) :=
  ((λ _, (0, sizeof c_TPM_HANDLE)) <$> pl_outHandle p) ++ ((λ q, (q.1, sizeof (out_type q.2))) <$> pl_outs p).

(** [0] for an action without the structure. *)
Definition size_of (l : members) : Z := if (length l =? 0)%nat then 0 else sizeof (struct l).

(** The same offsets, and no size beyond that of the member. *)
Definition within (l m : list (Z * Z)) : bool :=
  bool_decide (l.*1 = m.*1) && forallb (λ x, x.1.2 <=? x.2.2) (zip l m).

Definition structure_ok (d : COMMAND_DESCRIPTOR_t) (p : plan) : bool :=
  let a := d_command d in
  bool_decide (in_places p = (layout 0 (action_in a)).*2) && (d_inSize d =? size_of (action_in a)) &&
  within (out_places p) (layout 0 (action_out a)).*2 && (d_outSize d =? size_of (action_out a)) &&
  (length (pl_params p) <=? 15)%nat.

Lemma structures_ok :
  forallb (λ d, match plan_of d with Some p => structure_ok d p | None => false end) s_CommandDataArray = true.
Proof. vm_compute. reflexivity. Qed.

Lemma forallb_elem {A} (f : A → bool) l x : forallb f l = true → x ∈ l → f x = true.
Proof. rewrite forallb_forall. intros H Hx. apply H. by apply list_elem_of_In. Qed.

Lemma command_structure d p : d ∈ s_CommandDataArray → plan_of d = Some p → structure_ok d p = true.
Proof.
  intros Hd Hp. pose proof (forallb_elem _ _ d structures_ok Hd) as F. cbn beta in F. by rewrite Hp in F.
Qed.

(** C29. The descriptors and the structures of the actions agree: for every
    command the handles and parameters are stored in the members of the input
    structure, all of them, in their order, at their offsets and with their
    sizes, the output is taken from the members of the output structure, all of
    them and never past one, and the sizes in the descriptor are those of the
    structures. *)
Theorem descriptors_match_structures :
  Forall (λ d, ∃ p, described d p ∧
      in_places p = (layout 0 (action_in (d_command d))).*2 ∧
      d_inSize d = size_of (action_in (d_command d)) ∧
      (out_places p).*1 = ((layout 0 (action_out (d_command d))).*2).*1 ∧
      Forall (λ x, x.1.2 ≤ x.2.2) (zip (out_places p) (layout 0 (action_out (d_command d))).*2) ∧
      d_outSize d = size_of (action_out (d_command d)))
    s_CommandDataArray.
Proof.
  apply Forall_forall. intros d Hd. apply list_elem_of_In in Hd.
  destruct (desc_described d (forallb_elem _ _ d descriptors_ok Hd)) as (p & D). exists p. split; [done|].
  pose proof (command_structure d p Hd (ds_plan _ _ D)) as H. unfold structure_ok, within in H.
  rewrite !andb_true_iff, !bool_decide_eq_true, !Z.eqb_eq in H. destruct H as ((((H1 & H2) & H3 & H4) & H5) & _).
  repeat split; try done. apply forallb_Forall_1 in H4. eapply Forall_impl; [|exact H4]. cbn. intros x. apply Z.leb_le.
Qed.

(** The response codes of Unmarshal.c with a number up to 15 are told apart. *)
Definition names_parameter (rc n : Z) : bool :=
  let code := rc + (TPM_RC_P + TPM_RC_1 * n) in
  (Z.land (Z.shiftr code 8) 0xF =? n) && Z.testbit code 6 && (Z.land code 0xBF =? rc).

Lemma names_all : forallb (λ rc, forallb (names_parameter rc) (seqZ 1 15))
  (filter (λ rc, unmarshal_code rc = true) (seqZ 0 0x100)) = true.
Proof. vm_compute. reflexivity. Qed.

Lemma unmarshal_code_range rc : unmarshal_code rc = true → 0 ≤ rc < 0x100.
Proof.
  unfold unmarshal_code. intros H. repeat (apply one_of_inv in H as [->|H]; [done|]). done.
Qed.

(** The response code of a malformed parameter says which one it is and what
    is wrong with it: from the code alone, bit 6 tells that it is a parameter,
    bits 8 to 11 its number, and the rest is the code [Unmarshal.c] returned; no
    command has more parameters than can be numbered. *)
Theorem response_code_names d p rc n :
  d ∈ s_CommandDataArray → plan_of d = Some p → unmarshal_code rc = true →
  1 ≤ n ≤ Z.of_nat (length (pl_params p)) →
  let code := rc + (TPM_RC_P + TPM_RC_1 * n) in
  Z.testbit code 6 = true ∧ Z.land (Z.shiftr code 8) 0xF = n ∧ Z.land code 0xBF = rc.
Proof.
  intros Hd Hp Hrc Hn. pose proof (command_structure d p Hd Hp) as H. unfold structure_ok in H.
  rewrite !andb_true_iff, Nat.leb_le in H. destruct H as [_ H].
  pose proof (unmarshal_code_range rc Hrc). pose proof (forallb_elem _ _ rc names_all) as F.
  rewrite list_elem_of_filter, elem_of_seqZ in F. specialize (F ltac:(split; [done|lia])).
  pose proof (forallb_elem _ _ n F) as G. rewrite elem_of_seqZ in G. specialize (G ltac:(lia)).
  unfold names_parameter in G.
  rewrite !andb_true_iff, !Z.eqb_eq in G. cbn zeta. tauto.
Qed.

(** ** Witnesses *)

(** [TPM2_GetRandom] with four octets; the other actions fail. *)
Definition w_action (a : command_action) (_ : option (list field)) (_ : bool) (st : Z) : outcome Z :=
  match a with
  | TPM2_GetRandom => mkOutcome TPM_RC_SUCCESS [mkField 0 66 (V_TPM2B (mkTPM2B 4 [1;2;3;4]))] (st + 1) false
  | _ => mkOutcome TPM_RC_FAILURE [] st false
  end.

Definition w_plan : plan :=
  mkPlan [] [(0, UINT16_P_UNMARSHAL)] [] [(0, TPM2B_DIGEST_P_MARSHAL)]
    [UINT16_P_UNMARSHAL + 256 * END_OF_LIST; TPM2B_DIGEST_P_MARSHAL + 256 * END_OF_LIST].

Lemma w_returns : returns_output w_action.
Proof.
  intros d p cin st Hd D. assert (H : match d_command d with
      TPM2_GetRandom => bool_decide (p = w_plan) | _ => true end = true).
  { pose proof (ds_plan _ _ D) as Hp.
    assert (T : forallb (λ d, match plan_of d with None => false | Some p => match d_command d with
      TPM2_GetRandom => bool_decide (plan_of d = Some w_plan) | _ => true end end) s_CommandDataArray = true)
      by (vm_compute; reflexivity).
    pose proof (forallb_elem _ _ d T Hd) as F. cbn beta in F. rewrite Hp in F.
    destruct (d_command d); try done. apply bool_decide_eq_true in F. injection F as ->. by apply bool_decide_eq_true. }
  destruct (d_command d); try discriminate. intros _. split; [done|]. apply bool_decide_eq_true in H. rewrite H.
  split; [done|]. repeat constructor. by eexists.
Qed.

(** The command asks for [n] octets. *)
Definition w_state (octets : bytes) : DState Z :=
  mkD (mkCOMMAND 84 0 [0; 0; 0] (blen octets) octets 10) (bfill 0 4096) 0 false 7.

Lemma w_ready octets : can_answer (w_state octets).
Proof. split; [done|]. split; [done|]. done. Qed.

Lemma command_dispatch_witness : ∃ p result s',
  described _GetRandomData p ∧ CommandDispatcher w_action (w_state [0; 4]) = Some (result, s') ∧
  ((∃ rc n, result = rc + (TPM_RC_P + TPM_RC_1 * n) ∧ unmarshal_code rc = true ∧
      malformed (pl_params p).*2 (params (command (w_state [0; 4]))) n rc (params (command s')) ∧
      untouched (w_state [0; 4]) s') ∨
   (result = TPM_RC_SIZE ∧ untouched (w_state [0; 4]) s' ∧ 0 < c_parameterSize (command s') ∧
    ∃ vs, unmarshaled (pl_params p).*2 (params (command (w_state [0; 4]))) vs (params (command s'))) ∨
   (∃ vs b, Forall2 (λ t v, member_wf t v = true) (pl_params p).*2 vs ∧
      unmarshaled (pl_params p).*2 (params (command (w_state [0; 4]))) vs
        (mkU (drop (length b) (c_parameterBuffer (command (w_state [0; 4])))) 0) ∧
      consumed (params (command (w_state [0; 4])))
        (mkU (drop (length b) (c_parameterBuffer (command (w_state [0; 4])))) 0) b ∧
      performed w_action _GetRandomData p (c_handles (command (w_state [0; 4]))) vs (w_state [0; 4]) result s')).
Proof.
  apply (command_dispatch w_action _GetRandomData (w_state [0; 4])).
  - vm_compute. reflexivity.
  - exact w_returns.
  - apply w_ready.
  - reflexivity.
  - repeat split; try done. repeat constructor; unfold is_byte; lia.
Defined.

Lemma w_decodes : decodes UINT16_P_UNMARSHAL [0; 4] (V_UINT16 4).
Proof.
  eexists. split; [reflexivity|]. cbn [call_unmarshal]. unfold unmarshal_as.
  apply (reads_bind _ _ [0; 4] [] 4); [by apply (reads_UINT16 4)|apply reads_ret].
Qed.

Lemma dispatch_complete_witness : ∃ result s',
  CommandDispatcher w_action (w_state [0; 4]) = Some (result, s') ∧
  performed w_action _GetRandomData w_plan [0; 0; 0] [V_UINT16 4] (w_state [0; 4]) result s'.
Proof.
  apply (dispatch_complete w_action _GetRandomData w_plan (w_state [0; 4]) [[0; 4]] [V_UINT16 4]).
  - vm_compute. reflexivity.
  - vm_compute. reflexivity.
  - exact w_returns.
  - apply w_ready.
  - reflexivity.
  - constructor; [apply w_decodes|constructor].
  - reflexivity.
  - reflexivity.
Defined.

(** The handles of [TPM2_NV_Increment]: the owner and an index. *)
Definition w_handles : DState Z :=
  mkD (mkCOMMAND 19 0 [0; 0; 0] 8 [0x40; 0; 0; 1; 1; 0; 0; 2] 10) (bfill 0 4096) 0 false 7.

Lemma handle_area_witness : ∃ p result s',
  described _NV_IncrementData p ∧ ParseHandleBuffer w_handles = Some (result, s') ∧
  ((∃ rc n, result = rc + TPM_RC_H + n * TPM_RC_1 ∧ unmarshal_code rc = true ∧
      malformed (pl_handles p).*2 (params (command w_handles)) n rc (params (command s')) ∧
      untouched w_handles s') ∨
   (result = TPM_RC_SUCCESS ∧ untouched w_handles s' ∧ input (params (command s')) ∧
    c_handleNum (command s') = Z.of_nat (length (pl_handles p)) ∧
    let hs := take (length (pl_handles p)) (c_handles (command s')) in
    unmarshaled (pl_handles p).*2 (params (command w_handles)) (V_UINT32 <$> hs) (params (command s')) ∧
    Forall2 (λ t h, member_wf t (V_UINT32 h) = true) (pl_handles p).*2 hs)).
Proof.
  apply (handle_area _NV_IncrementData w_handles).
  - vm_compute. reflexivity.
  - reflexivity.
  - repeat split; try done. repeat constructor; unfold is_byte; lia.
Defined.

(** A parameter of [TPM2_GetRandom] that is cut off. *)
Lemma response_code_names_witness :
  let code := TPM_RC_INSUFFICIENT + (TPM_RC_P + TPM_RC_1 * 1) in
  Z.testbit code 6 = true ∧ Z.land (Z.shiftr code 8) 0xF = 1 ∧ Z.land code 0xBF = TPM_RC_INSUFFICIENT.
Proof.
  apply (response_code_names _GetRandomData w_plan).
  - apply (descriptor_elem 84). vm_compute. reflexivity.
  - vm_compute. reflexivity.
  - vm_compute. reflexivity.
  - split; [reflexivity|]. discriminate.
Defined.
