(* ===== verification/CommandAttributes.v ===== *)
(** * The attributes of the commands

    CommandAttributeData.h and CommandCodeAttributes.c: the array with the
    attributes a client can ask for, the array the TPM itself consults, the
    search for the index of a command code, and the functions that answer
    questions about a command.  [COMPRESSED_LISTS] is set: the arrays hold the
    implemented commands only, in the order of their codes. *)

From S2P Require Import Prelude TpmTypes Memory WireTypes CTypes CommandIO DispatchArrays DispatchData.
Local Open Scope Z_scope.

Definition TPMA_CC_commandIndex_SHIFT : Z := 0.
Definition TPMA_CC_commandIndex : Z := Z.shiftl 0xffff 0.
Definition TPMA_CC_cHandles_SHIFT : Z := 25.
Definition TPMA_CC_cHandles : Z := Z.shiftl 0x7 25.
Definition TPMA_CC_rHandle : Z := Z.shiftl 1 28.
Definition TPMA_CC_V : Z := Z.shiftl 1 29.
Definition CC_VEND : Z := 0x20000000.
Definition UNIMPLEMENTED_COMMAND_INDEX : Z := u16 (Z.lnot 0).
Definition LIBRARY_COMMAND_ARRAY_SIZE : Z := 116.
Definition VENDOR_COMMAND_ARRAY_SIZE : Z := 4.
Definition COMMAND_COUNT : Z := LIBRARY_COMMAND_ARRAY_SIZE + VENDOR_COMMAND_ARRAY_SIZE.

Definition TPMA_CC_INITIALIZER (commandindex bits_at_16 nv extensive flushed
    chandles rhandle v bits_at_30 : Z) : Z :=
  u32 (Z.shiftl commandindex 0 + Z.shiftl nv 22 + Z.shiftl extensive 23 +
       Z.shiftl flushed 24 + Z.shiftl chandles 25 + Z.shiftl rhandle 28 + Z.shiftl v 29).

Definition ENCRYPT_2 : Z := Z.shiftl 1 0.
Definition ENCRYPT_4 : Z := Z.shiftl 1 1.
Definition DECRYPT_2 : Z := Z.shiftl 1 2.
Definition DECRYPT_4 : Z := Z.shiftl 1 3.
Definition HANDLE_1_USER : Z := Z.shiftl 1 4.
Definition HANDLE_1_ADMIN : Z := Z.shiftl 1 5.
Definition HANDLE_1_DUP : Z := Z.shiftl 1 6.
Definition HANDLE_2_USER : Z := Z.shiftl 1 7.
Definition PP_COMMAND : Z := Z.shiftl 1 8.
Definition IS_IMPLEMENTED : Z := Z.shiftl 1 9.
Definition NO_SESSIONS : Z := Z.shiftl 1 10.
Definition NV_COMMAND : Z := Z.shiftl 1 11.
Definition PP_REQUIRED : Z := Z.shiftl 1 12.
Definition R_HANDLE : Z := Z.shiftl 1 13.
Definition ALLOW_TRIAL : Z := Z.shiftl 1 14.

(** The code, the number of handles and other attributes of each command; an
    entry with the value 0 ends the array. *)
Definition s_ccAttr_1 : list Z := [
  TPMA_CC_INITIALIZER 0x011f 0 1 0 0 2 0 0 0;  (* NV_UndefineSpaceSpecial *)
  TPMA_CC_INITIALIZER 0x0120 0 1 0 0 2 0 0 0;  (* EvictControl *)
  TPMA_CC_INITIALIZER 0x0121 0 1 1 0 1 0 0 0;  (* HierarchyControl *)
  TPMA_CC_INITIALIZER 0x0122 0 1 0 0 2 0 0 0;  (* NV_UndefineSpace *)
  TPMA_CC_INITIALIZER 0x0124 0 1 1 0 1 0 0 0;  (* ChangeEPS *)
  TPMA_CC_INITIALIZER 0x0125 0 1 1 0 1 0 0 0;  (* ChangePPS *)
  TPMA_CC_INITIALIZER 0x0126 0 1 1 0 1 0 0 0;  (* Clear *)
  TPMA_CC_INITIALIZER 0x0127 0 1 0 0 1 0 0 0;  (* ClearControl *)
  TPMA_CC_INITIALIZER 0x0128 0 1 0 0 1 0 0 0;  (* ClockSet *)
  TPMA_CC_INITIALIZER 0x0129 0 1 0 0 1 0 0 0;  (* HierarchyChangeAuth *)
  TPMA_CC_INITIALIZER 0x012a 0 1 0 0 1 0 0 0;  (* NV_DefineSpace *)
  TPMA_CC_INITIALIZER 0x012b 0 1 0 0 1 0 0 0;  (* PCR_Allocate *)
  TPMA_CC_INITIALIZER 0x012c 0 1 0 0 1 0 0 0;  (* PCR_SetAuthPolicy *)
  TPMA_CC_INITIALIZER 0x012d 0 1 0 0 1 0 0 0;  (* PP_Commands *)
  TPMA_CC_INITIALIZER 0x012e 0 1 0 0 1 0 0 0;  (* SetPrimaryPolicy *)
  TPMA_CC_INITIALIZER 0x0130 0 0 0 0 1 0 0 0;  (* ClockRateAdjust *)
  TPMA_CC_INITIALIZER 0x0131 0 0 0 0 1 1 0 0;  (* CreatePrimary *)
  TPMA_CC_INITIALIZER 0x0132 0 1 0 0 1 0 0 0;  (* NV_GlobalWriteLock *)
  TPMA_CC_INITIALIZER 0x0133 0 1 0 0 2 0 0 0;  (* GetCommandAuditDigest *)
  TPMA_CC_INITIALIZER 0x0134 0 1 0 0 2 0 0 0;  (* NV_Increment *)
  TPMA_CC_INITIALIZER 0x0135 0 1 0 0 2 0 0 0;  (* NV_SetBits *)
  TPMA_CC_INITIALIZER 0x0136 0 1 0 0 2 0 0 0;  (* NV_Extend *)
  TPMA_CC_INITIALIZER 0x0137 0 1 0 0 2 0 0 0;  (* NV_Write *)
  TPMA_CC_INITIALIZER 0x0138 0 1 0 0 2 0 0 0;  (* NV_WriteLock *)
  TPMA_CC_INITIALIZER 0x0139 0 1 0 0 1 0 0 0;  (* DictionaryAttackLockReset *)
  TPMA_CC_INITIALIZER 0x013a 0 1 0 0 1 0 0 0;  (* DictionaryAttackParameters *)
  TPMA_CC_INITIALIZER 0x013b 0 1 0 0 1 0 0 0;  (* NV_ChangeAuth *)
  TPMA_CC_INITIALIZER 0x013c 0 1 0 0 1 0 0 0;  (* PCR_Event *)
  TPMA_CC_INITIALIZER 0x013d 0 1 0 0 1 0 0 0;  (* PCR_Reset *)
  TPMA_CC_INITIALIZER 0x013e 0 0 0 1 1 0 0 0].  (* SequenceComplete *)
Definition s_ccAttr_2 : list Z := [
  TPMA_CC_INITIALIZER 0x013f 0 1 0 0 1 0 0 0;  (* SetAlgorithmSet *)
  TPMA_CC_INITIALIZER 0x0140 0 1 0 0 1 0 0 0;  (* SetCommandCodeAuditStatus *)
  TPMA_CC_INITIALIZER 0x0142 0 1 0 0 0 0 0 0;  (* IncrementalSelfTest *)
  TPMA_CC_INITIALIZER 0x0143 0 1 0 0 0 0 0 0;  (* SelfTest *)
  TPMA_CC_INITIALIZER 0x0144 0 1 0 0 0 0 0 0;  (* Startup *)
  TPMA_CC_INITIALIZER 0x0145 0 1 0 0 0 0 0 0;  (* Shutdown *)
  TPMA_CC_INITIALIZER 0x0146 0 1 0 0 0 0 0 0;  (* StirRandom *)
  TPMA_CC_INITIALIZER 0x0147 0 0 0 0 2 0 0 0;  (* ActivateCredential *)
  TPMA_CC_INITIALIZER 0x0148 0 0 0 0 2 0 0 0;  (* Certify *)
  TPMA_CC_INITIALIZER 0x0149 0 0 0 0 3 0 0 0;  (* PolicyNV *)
  TPMA_CC_INITIALIZER 0x014a 0 0 0 0 2 0 0 0;  (* CertifyCreation *)
  TPMA_CC_INITIALIZER 0x014b 0 0 0 0 2 0 0 0;  (* Duplicate *)
  TPMA_CC_INITIALIZER 0x014c 0 0 0 0 2 0 0 0;  (* GetTime *)
  TPMA_CC_INITIALIZER 0x014d 0 0 0 0 3 0 0 0;  (* GetSessionAuditDigest *)
  TPMA_CC_INITIALIZER 0x014e 0 0 0 0 2 0 0 0;  (* NV_Read *)
  TPMA_CC_INITIALIZER 0x014f 0 1 0 0 2 0 0 0;  (* NV_ReadLock *)
  TPMA_CC_INITIALIZER 0x0150 0 0 0 0 2 0 0 0;  (* ObjectChangeAuth *)
  TPMA_CC_INITIALIZER 0x0151 0 0 0 0 2 0 0 0;  (* PolicySecret *)
  TPMA_CC_INITIALIZER 0x0152 0 0 0 0 2 0 0 0;  (* Rewrap *)
  TPMA_CC_INITIALIZER 0x0153 0 0 0 0 1 0 0 0;  (* Create *)
  TPMA_CC_INITIALIZER 0x0154 0 0 0 0 1 0 0 0;  (* ECDH_ZGen *)
  TPMA_CC_INITIALIZER 0x0155 0 0 0 0 1 0 0 0;  (* MAC *)
  TPMA_CC_INITIALIZER 0x0156 0 0 0 0 1 0 0 0;  (* Import *)
  TPMA_CC_INITIALIZER 0x0157 0 0 0 0 1 1 0 0;  (* Load *)
  TPMA_CC_INITIALIZER 0x0158 0 0 0 0 1 0 0 0;  (* Quote *)
  TPMA_CC_INITIALIZER 0x0159 0 0 0 0 1 0 0 0;  (* RSA_Decrypt *)
  TPMA_CC_INITIALIZER 0x015b 0 0 0 0 1 1 0 0;  (* MAC_Start *)
  TPMA_CC_INITIALIZER 0x015c 0 0 0 0 1 0 0 0;  (* SequenceUpdate *)
  TPMA_CC_INITIALIZER 0x015d 0 0 0 0 1 0 0 0;  (* Sign *)
  TPMA_CC_INITIALIZER 0x015e 0 0 0 0 1 0 0 0].  (* Unseal *)
Definition s_ccAttr_3 : list Z := [
  TPMA_CC_INITIALIZER 0x0160 0 0 0 0 2 0 0 0;  (* PolicySigned *)
  TPMA_CC_INITIALIZER 0x0161 0 0 0 0 0 1 0 0;  (* ContextLoad *)
  TPMA_CC_INITIALIZER 0x0162 0 0 0 0 1 0 0 0;  (* ContextSave *)
  TPMA_CC_INITIALIZER 0x0163 0 0 0 0 1 0 0 0;  (* ECDH_KeyGen *)
  TPMA_CC_INITIALIZER 0x0164 0 0 0 0 1 0 0 0;  (* EncryptDecrypt *)
  TPMA_CC_INITIALIZER 0x0165 0 0 0 0 0 0 0 0;  (* FlushContext *)
  TPMA_CC_INITIALIZER 0x0167 0 0 0 0 0 1 0 0;  (* LoadExternal *)
  TPMA_CC_INITIALIZER 0x0168 0 0 0 0 1 0 0 0;  (* MakeCredential *)
  TPMA_CC_INITIALIZER 0x0169 0 0 0 0 1 0 0 0;  (* NV_ReadPublic *)
  TPMA_CC_INITIALIZER 0x016a 0 0 0 0 1 0 0 0;  (* PolicyAuthorize *)
  TPMA_CC_INITIALIZER 0x016b 0 0 0 0 1 0 0 0;  (* PolicyAuthValue *)
  TPMA_CC_INITIALIZER 0x016c 0 0 0 0 1 0 0 0;  (* PolicyCommandCode *)
  TPMA_CC_INITIALIZER 0x016d 0 0 0 0 1 0 0 0;  (* PolicyCounterTimer *)
  TPMA_CC_INITIALIZER 0x016e 0 0 0 0 1 0 0 0;  (* PolicyCpHash *)
  TPMA_CC_INITIALIZER 0x016f 0 0 0 0 1 0 0 0;  (* PolicyLocality *)
  TPMA_CC_INITIALIZER 0x0170 0 0 0 0 1 0 0 0;  (* PolicyNameHash *)
  TPMA_CC_INITIALIZER 0x0171 0 0 0 0 1 0 0 0;  (* PolicyOR *)
  TPMA_CC_INITIALIZER 0x0172 0 0 0 0 1 0 0 0;  (* PolicyTicket *)
  TPMA_CC_INITIALIZER 0x0173 0 0 0 0 1 0 0 0;  (* ReadPublic *)
  TPMA_CC_INITIALIZER 0x0174 0 0 0 0 1 0 0 0;  (* RSA_Encrypt *)
  TPMA_CC_INITIALIZER 0x0176 0 0 0 0 2 1 0 0;  (* StartAuthSession *)
  TPMA_CC_INITIALIZER 0x0177 0 0 0 0 1 0 0 0;  (* VerifySignature *)
  TPMA_CC_INITIALIZER 0x0178 0 0 0 0 0 0 0 0;  (* ECC_Parameters *)
  TPMA_CC_INITIALIZER 0x017a 0 0 0 0 0 0 0 0;  (* GetCapability *)
  TPMA_CC_INITIALIZER 0x017b 0 0 0 0 0 0 0 0;  (* GetRandom *)
  TPMA_CC_INITIALIZER 0x017c 0 0 0 0 0 0 0 0;  (* GetTestResult *)
  TPMA_CC_INITIALIZER 0x017d 0 0 0 0 0 0 0 0;  (* Hash *)
  TPMA_CC_INITIALIZER 0x017e 0 0 0 0 0 0 0 0;  (* PCR_Read *)
  TPMA_CC_INITIALIZER 0x017f 0 0 0 0 1 0 0 0;  (* PolicyPCR *)
  TPMA_CC_INITIALIZER 0x0180 0 0 0 0 1 0 0 0].  (* PolicyRestart *)
Definition s_ccAttr_4 : list Z := [
  TPMA_CC_INITIALIZER 0x0181 0 0 0 0 0 0 0 0;  (* ReadClock *)
  TPMA_CC_INITIALIZER 0x0182 0 1 0 0 1 0 0 0;  (* PCR_Extend *)
  TPMA_CC_INITIALIZER 0x0183 0 0 0 0 1 0 0 0;  (* PCR_SetAuthValue *)
  TPMA_CC_INITIALIZER 0x0184 0 0 0 0 3 0 0 0;  (* NV_Certify *)
  TPMA_CC_INITIALIZER 0x0185 0 1 0 1 2 0 0 0;  (* EventSequenceComplete *)
  TPMA_CC_INITIALIZER 0x0186 0 0 0 0 0 1 0 0;  (* HashSequenceStart *)
  TPMA_CC_INITIALIZER 0x0187 0 0 0 0 1 0 0 0;  (* PolicyPhysicalPresence *)
  TPMA_CC_INITIALIZER 0x0188 0 0 0 0 1 0 0 0;  (* PolicyDuplicationSelect *)
  TPMA_CC_INITIALIZER 0x0189 0 0 0 0 1 0 0 0;  (* PolicyGetDigest *)
  TPMA_CC_INITIALIZER 0x018a 0 0 0 0 0 0 0 0;  (* TestParms *)
  TPMA_CC_INITIALIZER 0x018b 0 0 0 0 1 0 0 0;  (* Commit *)
  TPMA_CC_INITIALIZER 0x018c 0 0 0 0 1 0 0 0;  (* PolicyPassword *)
  TPMA_CC_INITIALIZER 0x018d 0 0 0 0 1 0 0 0;  (* ZGen_2Phase *)
  TPMA_CC_INITIALIZER 0x018e 0 0 0 0 0 0 0 0;  (* EC_Ephemeral *)
  TPMA_CC_INITIALIZER 0x018f 0 0 0 0 1 0 0 0;  (* PolicyNvWritten *)
  TPMA_CC_INITIALIZER 0x0190 0 0 0 0 1 0 0 0;  (* PolicyTemplate *)
  TPMA_CC_INITIALIZER 0x0191 0 0 0 0 1 1 0 0;  (* CreateLoaded *)
  TPMA_CC_INITIALIZER 0x0192 0 0 0 0 3 0 0 0;  (* PolicyAuthorizeNV *)
  TPMA_CC_INITIALIZER 0x0193 0 0 0 0 1 0 0 0;  (* EncryptDecrypt2 *)
  TPMA_CC_INITIALIZER 0x0197 0 0 0 0 2 0 0 0;  (* CertifyX509 *)
  TPMA_CC_INITIALIZER 0x0199 0 0 0 0 1 0 0 0;  (* ECC_Encrypt *)
  TPMA_CC_INITIALIZER 0x019A 0 0 0 0 1 0 0 0;  (* ECC_Decrypt *)
  TPMA_CC_INITIALIZER 0x019B 0 0 0 0 1 0 0 0;  (* PolicyCapability *)
  TPMA_CC_INITIALIZER 0x019C 0 0 0 0 1 0 0 0;  (* PolicyParameters *)
  TPMA_CC_INITIALIZER 0x019D 0 1 0 0 1 0 0 0;  (* NV_DefineSpace2 *)
  TPMA_CC_INITIALIZER 0x019E 0 0 0 0 1 0 0 0;  (* NV_ReadPublic2 *)
  TPMA_CC_INITIALIZER 0x0000 0 0 0 0 0 0 1 0;  (* Vendor_TCG_Test *)
  TPMA_CC_INITIALIZER 0x0211 0 1 0 0 0 0 1 0;  (* NTC2_PreConfig *)
  TPMA_CC_INITIALIZER 0x0212 0 1 0 0 0 0 1 0;  (* NTC2_LockPreConfig *)
  TPMA_CC_INITIALIZER 0x0213 0 1 0 0 0 0 1 0;  (* NTC2_GetConfig *)
  0].
Definition s_ccAttr : list Z := s_ccAttr_1 ++ s_ccAttr_2 ++ s_ccAttr_3 ++ s_ccAttr_4.

(** What the TPM checks before and after the action of a command. *)
Definition s_commandAttributes_1 : list Z := [
  IS_IMPLEMENTED + HANDLE_1_ADMIN + HANDLE_2_USER + PP_COMMAND;  (* NV_UndefineSpaceSpecial *)
  IS_IMPLEMENTED + HANDLE_1_USER + PP_COMMAND;  (* EvictControl *)
  IS_IMPLEMENTED + HANDLE_1_USER + PP_COMMAND;  (* HierarchyControl *)
  IS_IMPLEMENTED + HANDLE_1_USER + PP_COMMAND;  (* NV_UndefineSpace *)
  IS_IMPLEMENTED + HANDLE_1_USER + PP_COMMAND;  (* ChangeEPS *)
  IS_IMPLEMENTED + HANDLE_1_USER + PP_COMMAND;  (* ChangePPS *)
  IS_IMPLEMENTED + HANDLE_1_USER + PP_COMMAND;  (* Clear *)
  IS_IMPLEMENTED + HANDLE_1_USER + PP_COMMAND;  (* ClearControl *)
  IS_IMPLEMENTED + HANDLE_1_USER + PP_COMMAND;  (* ClockSet *)
  IS_IMPLEMENTED + DECRYPT_2 + HANDLE_1_USER + PP_COMMAND;  (* HierarchyChangeAuth *)
  IS_IMPLEMENTED + DECRYPT_2 + HANDLE_1_USER + PP_COMMAND;  (* NV_DefineSpace *)
  IS_IMPLEMENTED + HANDLE_1_USER + PP_COMMAND;  (* PCR_Allocate *)
  IS_IMPLEMENTED + DECRYPT_2 + HANDLE_1_USER + PP_COMMAND;  (* PCR_SetAuthPolicy *)
  IS_IMPLEMENTED + HANDLE_1_USER + PP_REQUIRED;  (* PP_Commands *)
  IS_IMPLEMENTED + DECRYPT_2 + HANDLE_1_USER + PP_COMMAND;  (* SetPrimaryPolicy *)
  IS_IMPLEMENTED + HANDLE_1_USER + PP_COMMAND;  (* ClockRateAdjust *)
  IS_IMPLEMENTED + DECRYPT_2 + HANDLE_1_USER + PP_COMMAND + ENCRYPT_2 + R_HANDLE;  (* CreatePrimary *)
  IS_IMPLEMENTED + HANDLE_1_USER + PP_COMMAND;  (* NV_GlobalWriteLock *)
  IS_IMPLEMENTED + DECRYPT_2 + HANDLE_1_USER + HANDLE_2_USER + ENCRYPT_2;  (* GetCommandAuditDigest *)
  IS_IMPLEMENTED + HANDLE_1_USER;  (* NV_Increment *)
  IS_IMPLEMENTED + HANDLE_1_USER;  (* NV_SetBits *)
  IS_IMPLEMENTED + DECRYPT_2 + HANDLE_1_USER;  (* NV_Extend *)
  IS_IMPLEMENTED + DECRYPT_2 + HANDLE_1_USER;  (* NV_Write *)
  IS_IMPLEMENTED + HANDLE_1_USER;  (* NV_WriteLock *)
  IS_IMPLEMENTED + HANDLE_1_USER;  (* DictionaryAttackLockReset *)
  IS_IMPLEMENTED + HANDLE_1_USER;  (* DictionaryAttackParameters *)
  IS_IMPLEMENTED + DECRYPT_2 + HANDLE_1_ADMIN;  (* NV_ChangeAuth *)
  IS_IMPLEMENTED + DECRYPT_2 + HANDLE_1_USER;  (* PCR_Event *)
  IS_IMPLEMENTED + HANDLE_1_USER;  (* PCR_Reset *)
  IS_IMPLEMENTED + DECRYPT_2 + HANDLE_1_USER + ENCRYPT_2].  (* SequenceComplete *)
Definition s_commandAttributes_2 : list Z := [
  IS_IMPLEMENTED + HANDLE_1_USER;  (* SetAlgorithmSet *)
  IS_IMPLEMENTED + HANDLE_1_USER + PP_COMMAND;  (* SetCommandCodeAuditStatus *)
  IS_IMPLEMENTED;  (* IncrementalSelfTest *)
  IS_IMPLEMENTED;  (* SelfTest *)
  IS_IMPLEMENTED + NO_SESSIONS;  (* Startup *)
  IS_IMPLEMENTED;  (* Shutdown *)
  IS_IMPLEMENTED + DECRYPT_2;  (* StirRandom *)
  IS_IMPLEMENTED + DECRYPT_2 + HANDLE_1_ADMIN + HANDLE_2_USER + ENCRYPT_2;  (* ActivateCredential *)
  IS_IMPLEMENTED + DECRYPT_2 + HANDLE_1_ADMIN + HANDLE_2_USER + ENCRYPT_2;  (* Certify *)
  IS_IMPLEMENTED + DECRYPT_2 + HANDLE_1_USER + ALLOW_TRIAL;  (* PolicyNV *)
  IS_IMPLEMENTED + DECRYPT_2 + HANDLE_1_USER + ENCRYPT_2;  (* CertifyCreation *)
  IS_IMPLEMENTED + DECRYPT_2 + HANDLE_1_DUP + ENCRYPT_2;  (* Duplicate *)
  IS_IMPLEMENTED + DECRYPT_2 + HANDLE_1_USER + HANDLE_2_USER + ENCRYPT_2;  (* GetTime *)
  IS_IMPLEMENTED + DECRYPT_2 + HANDLE_1_USER + HANDLE_2_USER + ENCRYPT_2;  (* GetSessionAuditDigest *)
  IS_IMPLEMENTED + HANDLE_1_USER + ENCRYPT_2;  (* NV_Read *)
  IS_IMPLEMENTED + HANDLE_1_USER;  (* NV_ReadLock *)
  IS_IMPLEMENTED + DECRYPT_2 + HANDLE_1_ADMIN + ENCRYPT_2;  (* ObjectChangeAuth *)
  IS_IMPLEMENTED + DECRYPT_2 + HANDLE_1_USER + ALLOW_TRIAL + ENCRYPT_2;  (* PolicySecret *)
  IS_IMPLEMENTED + DECRYPT_2 + HANDLE_1_USER + ENCRYPT_2;  (* Rewrap *)
  IS_IMPLEMENTED + DECRYPT_2 + HANDLE_1_USER + ENCRYPT_2;  (* Create *)
  IS_IMPLEMENTED + DECRYPT_2 + HANDLE_1_USER + ENCRYPT_2;  (* ECDH_ZGen *)
  IS_IMPLEMENTED + DECRYPT_2 + HANDLE_1_USER + ENCRYPT_2;  (* MAC *)
  IS_IMPLEMENTED + DECRYPT_2 + HANDLE_1_USER + ENCRYPT_2;  (* Import *)
  IS_IMPLEMENTED + DECRYPT_2 + HANDLE_1_USER + ENCRYPT_2 + R_HANDLE;  (* Load *)
  IS_IMPLEMENTED + DECRYPT_2 + HANDLE_1_USER + ENCRYPT_2;  (* Quote *)
  IS_IMPLEMENTED + DECRYPT_2 + HANDLE_1_USER + ENCRYPT_2;  (* RSA_Decrypt *)
  IS_IMPLEMENTED + DECRYPT_2 + HANDLE_1_USER + R_HANDLE;  (* MAC_Start *)
  IS_IMPLEMENTED + DECRYPT_2 + HANDLE_1_USER;  (* SequenceUpdate *)
  IS_IMPLEMENTED + DECRYPT_2 + HANDLE_1_USER;  (* Sign *)
  IS_IMPLEMENTED + HANDLE_1_USER + ENCRYPT_2].  (* Unseal *)
Definition s_commandAttributes_3 : list Z := [
  IS_IMPLEMENTED + DECRYPT_2 + ALLOW_TRIAL + ENCRYPT_2;  (* PolicySigned *)
  IS_IMPLEMENTED + NO_SESSIONS + R_HANDLE;  (* ContextLoad *)
  IS_IMPLEMENTED + NO_SESSIONS;  (* ContextSave *)
  IS_IMPLEMENTED + ENCRYPT_2;  (* ECDH_KeyGen *)
  IS_IMPLEMENTED + HANDLE_1_USER + ENCRYPT_2;  (* EncryptDecrypt *)
  IS_IMPLEMENTED + NO_SESSIONS;  (* FlushContext *)
  IS_IMPLEMENTED + DECRYPT_2 + ENCRYPT_2 + R_HANDLE;  (* LoadExternal *)
  IS_IMPLEMENTED + DECRYPT_2 + ENCRYPT_2;  (* MakeCredential *)
  IS_IMPLEMENTED + ENCRYPT_2;  (* NV_ReadPublic *)
  IS_IMPLEMENTED + DECRYPT_2 + ALLOW_TRIAL;  (* PolicyAuthorize *)
  IS_IMPLEMENTED + ALLOW_TRIAL;  (* PolicyAuthValue *)
  IS_IMPLEMENTED + ALLOW_TRIAL;  (* PolicyCommandCode *)
  IS_IMPLEMENTED + DECRYPT_2 + ALLOW_TRIAL;  (* PolicyCounterTimer *)
  IS_IMPLEMENTED + DECRYPT_2 + ALLOW_TRIAL;  (* PolicyCpHash *)
  IS_IMPLEMENTED + ALLOW_TRIAL;  (* PolicyLocality *)
  IS_IMPLEMENTED + DECRYPT_2 + ALLOW_TRIAL;  (* PolicyNameHash *)
  IS_IMPLEMENTED + ALLOW_TRIAL;  (* PolicyOR *)
  IS_IMPLEMENTED + DECRYPT_2 + ALLOW_TRIAL;  (* PolicyTicket *)
  IS_IMPLEMENTED + ENCRYPT_2;  (* ReadPublic *)
  IS_IMPLEMENTED + DECRYPT_2 + ENCRYPT_2;  (* RSA_Encrypt *)
  IS_IMPLEMENTED + DECRYPT_2 + ENCRYPT_2 + R_HANDLE;  (* StartAuthSession *)
  IS_IMPLEMENTED + DECRYPT_2;  (* VerifySignature *)
  IS_IMPLEMENTED;  (* ECC_Parameters *)
  IS_IMPLEMENTED;  (* GetCapability *)
  IS_IMPLEMENTED + ENCRYPT_2;  (* GetRandom *)
  IS_IMPLEMENTED + ENCRYPT_2;  (* GetTestResult *)
  IS_IMPLEMENTED + DECRYPT_2 + ENCRYPT_2;  (* Hash *)
  IS_IMPLEMENTED;  (* PCR_Read *)
  IS_IMPLEMENTED + DECRYPT_2 + ALLOW_TRIAL;  (* PolicyPCR *)
  IS_IMPLEMENTED + ALLOW_TRIAL].  (* PolicyRestart *)
Definition s_commandAttributes_4 : list Z := [
  IS_IMPLEMENTED;  (* ReadClock *)
  IS_IMPLEMENTED + HANDLE_1_USER;  (* PCR_Extend *)
  IS_IMPLEMENTED + DECRYPT_2 + HANDLE_1_USER;  (* PCR_SetAuthValue *)
  IS_IMPLEMENTED + DECRYPT_2 + HANDLE_1_USER + HANDLE_2_USER + ENCRYPT_2;  (* NV_Certify *)
  IS_IMPLEMENTED + DECRYPT_2 + HANDLE_1_USER + HANDLE_2_USER;  (* EventSequenceComplete *)
  IS_IMPLEMENTED + DECRYPT_2 + R_HANDLE;  (* HashSequenceStart *)
  IS_IMPLEMENTED + ALLOW_TRIAL;  (* PolicyPhysicalPresence *)
  IS_IMPLEMENTED + DECRYPT_2 + ALLOW_TRIAL;  (* PolicyDuplicationSelect *)
  IS_IMPLEMENTED + ALLOW_TRIAL + ENCRYPT_2;  (* PolicyGetDigest *)
  IS_IMPLEMENTED;  (* TestParms *)
  IS_IMPLEMENTED + DECRYPT_2 + HANDLE_1_USER + ENCRYPT_2;  (* Commit *)
  IS_IMPLEMENTED + ALLOW_TRIAL;  (* PolicyPassword *)
  IS_IMPLEMENTED + DECRYPT_2 + HANDLE_1_USER + ENCRYPT_2;  (* ZGen_2Phase *)
  IS_IMPLEMENTED + ENCRYPT_2;  (* EC_Ephemeral *)
  IS_IMPLEMENTED + ALLOW_TRIAL;  (* PolicyNvWritten *)
  IS_IMPLEMENTED + DECRYPT_2 + ALLOW_TRIAL;  (* PolicyTemplate *)
  IS_IMPLEMENTED + DECRYPT_2 + HANDLE_1_USER + PP_COMMAND + ENCRYPT_2 + R_HANDLE;  (* CreateLoaded *)
  IS_IMPLEMENTED + HANDLE_1_USER + ALLOW_TRIAL;  (* PolicyAuthorizeNV *)
  IS_IMPLEMENTED + DECRYPT_2 + HANDLE_1_USER + ENCRYPT_2;  (* EncryptDecrypt2 *)
  IS_IMPLEMENTED + DECRYPT_2 + HANDLE_1_ADMIN + HANDLE_2_USER + ENCRYPT_2;  (* CertifyX509 *)
  IS_IMPLEMENTED + DECRYPT_2 + ENCRYPT_2;  (* ECC_Encrypt *)
  IS_IMPLEMENTED + DECRYPT_2 + HANDLE_1_USER + ENCRYPT_2;  (* ECC_Decrypt *)
  IS_IMPLEMENTED + DECRYPT_2 + ALLOW_TRIAL;  (* PolicyCapability *)
  IS_IMPLEMENTED + DECRYPT_2 + ALLOW_TRIAL;  (* PolicyParameters *)
  IS_IMPLEMENTED + DECRYPT_2 + HANDLE_1_USER + PP_COMMAND;  (* NV_DefineSpace2 *)
  IS_IMPLEMENTED + ENCRYPT_2;  (* NV_ReadPublic2 *)
  IS_IMPLEMENTED + DECRYPT_2 + ENCRYPT_2;  (* Vendor_TCG_Test *)
  IS_IMPLEMENTED + NO_SESSIONS;  (* NTC2_PreConfig *)
  IS_IMPLEMENTED + NO_SESSIONS;  (* NTC2_LockPreConfig *)
  IS_IMPLEMENTED + NO_SESSIONS].  (* NTC2_GetConfig *)
Definition s_commandAttributes : list Z := s_commandAttributes_1 ++ s_commandAttributes_2 ++ s_commandAttributes_3 ++ s_commandAttributes_4.

(** ** Access to the attributes *)

(** [GET_ATTRIBUTE(a, TPMA_CC, commandIndex)] and [IS_ATTRIBUTE(a, TPMA_CC, V)]. *)
Definition commandIndex_of (a : Z) : Z :=
  Z.shiftr (Z.land a TPMA_CC_commandIndex) TPMA_CC_commandIndex_SHIFT.
Definition is_vendor (a : Z) : bool := negb (Z.land a TPMA_CC_V =? 0).

(** [None]: the index is outside the array. *)
Definition ccAttr (i : Z) : option Z := if i <? 0 then None else s_ccAttr !! Z.to_nat i.
Definition commandAttributes (i : Z) : option Z :=
  if i <? 0 then None else s_commandAttributes !! Z.to_nat i.

Definition has (attributes mask : Z) : bool := negb (Z.land attributes mask =? 0).

(** ** Looking up a command *)

(** The loop [while(min <= max)] of the two binary searches, and what follows
    it; [fuel] bounds the number of turns. *)
Fixpoint search_loop (fuel : nat) (searchIndex min max commandIndex diff : Z) : option Z :=
  match fuel with
  | O => None
  | S fuel =>
      if min <=? max then
        let commandIndex := (min + max + 1) / 2 in
        match ccAttr commandIndex with
        | None => None
        | Some a =>
            let diff := commandIndex_of a - searchIndex in
            if diff =? 0 then Some commandIndex
            else if diff >? 0
            then search_loop fuel searchIndex min (u16 (commandIndex - 1)) commandIndex diff
            else search_loop fuel searchIndex (u16 (commandIndex + 1)) max commandIndex diff
        end
      else if diff >? 0 then Some commandIndex
      else Some (u16 (commandIndex + 1))
  end.

(** Every turn leaves a shorter interval. *)
Definition search (searchIndex min max : Z) : option Z :=
  search_loop (S (Z.to_nat (max - min + 1))) searchIndex min max UNIMPLEMENTED_COMMAND_INDEX 1.

Definition GetClosestCommandIndex (commandCode : Z) : option Z :=
  let vendor := negb (Z.land commandCode CC_VEND =? 0) in
  let searchIndex := u16 commandCode in
  if negb (Z.land commandCode (u32 (Z.lnot CC_VEND)) =? searchIndex)
  then Some UNIMPLEMENTED_COMMAND_INDEX
  else if vendor then
    match ccAttr LIBRARY_COMMAND_ARRAY_SIZE, ccAttr (COMMAND_COUNT - 1) with
    | Some first, Some last =>
        if commandIndex_of first >=? searchIndex then Some LIBRARY_COMMAND_ARRAY_SIZE
        else if commandIndex_of last <? searchIndex then Some UNIMPLEMENTED_COMMAND_INDEX
        else search searchIndex LIBRARY_COMMAND_ARRAY_SIZE (COMMAND_COUNT - 1)
    | _, _ => None
    end
  else
    match ccAttr (LIBRARY_COMMAND_ARRAY_SIZE - 1), ccAttr 0 with
    | Some last, Some first =>
        if commandIndex_of last <? searchIndex then Some LIBRARY_COMMAND_ARRAY_SIZE
        else if commandIndex_of first >=? searchIndex then Some 0
        else search searchIndex 0 (LIBRARY_COMMAND_ARRAY_SIZE - 1)
    | _, _ => None
    end.

(** The [pAssert] before the second search compares constants. *)
Lemma search_pAssert :
  LIBRARY_COMMAND_ARRAY_SIZE - 1 = Z.of_nat (length s_ccAttr) - VENDOR_COMMAND_ARRAY_SIZE - 2.
Proof. reflexivity. Qed.

Definition CommandCodeToCommandIndex (commandCode : Z) : option Z :=
  let searchIndex := u16 commandCode in
  let vendor := negb (Z.land commandCode CC_VEND =? 0) in
  match GetClosestCommandIndex commandCode with
  | None => None
  | Some commandIndex =>
      if commandIndex =? UNIMPLEMENTED_COMMAND_INDEX then Some commandIndex
      else
        match ccAttr commandIndex with
        | None => None
        | Some a =>
            if negb (commandIndex_of a =? searchIndex) || negb (eqb (is_vendor a) vendor)
            then Some UNIMPLEMENTED_COMMAND_INDEX
            else Some commandIndex
        end
  end.

Definition GetNextCommandIndex (commandIndex : Z) : Z :=
  let commandIndex := u16 (commandIndex + 1) in
  if commandIndex <? COMMAND_COUNT then commandIndex else UNIMPLEMENTED_COMMAND_INDEX.

Definition GetCommandCode (commandIndex : Z) : option Z :=
  a ← ccAttr commandIndex;
  Some (u32 (commandIndex_of a + if is_vendor a then CC_VEND else 0)).

(** ** Properties of a command *)

Inductive AUTH_ROLE := AUTH_NONE | AUTH_USER | AUTH_ADMIN | AUTH_DUP.

Definition CommandAuthRole (commandIndex handleIndex : Z) : option AUTH_ROLE :=
  if 0 =? handleIndex then
    properties ← commandAttributes commandIndex;
    Some (if has properties HANDLE_1_USER then AUTH_USER
          else if has properties HANDLE_1_ADMIN then AUTH_ADMIN
          else if has properties HANDLE_1_DUP then AUTH_DUP
          else AUTH_NONE)
  else if 1 =? handleIndex then
    properties ← commandAttributes commandIndex;
    Some (if has properties HANDLE_2_USER then AUTH_USER else AUTH_NONE)
  else Some AUTH_NONE.

Definition EncryptSize (commandIndex : Z) : option Z :=
  properties ← commandAttributes commandIndex;
  Some (if has properties ENCRYPT_2 then 2 else if has properties ENCRYPT_4 then 4 else 0).

Definition DecryptSize (commandIndex : Z) : option Z :=
  properties ← commandAttributes commandIndex;
  Some (if has properties DECRYPT_2 then 2 else if has properties DECRYPT_4 then 4 else 0).

Definition IsSessionAllowed (commandIndex : Z) : option bool :=
  properties ← commandAttributes commandIndex; Some (negb (has properties NO_SESSIONS)).

Definition IsHandleInResponse (commandIndex : Z) : option bool :=
  properties ← commandAttributes commandIndex; Some (has properties R_HANDLE).

(** The cases of the [switch]; [AC_Send] is not implemented in this build. *)
Definition IsWriteOperation (commandIndex : Z) : option bool :=
  a ← ccAttr commandIndex;
  Some (negb (is_vendor a) &&
        one_of (commandIndex_of a) (TPM_CC <$> [TPM2_NV_Write; TPM2_NV_Increment; TPM2_NV_SetBits;
          TPM2_NV_Extend; TPM2_NV_WriteLock])).

Definition IsReadOperation (commandIndex : Z) : option bool :=
  a ← ccAttr commandIndex;
  Some (negb (is_vendor a) &&
        one_of (commandIndex_of a) (TPM_CC <$> [TPM2_NV_Read; TPM2_PolicyNV; TPM2_NV_Certify;
          TPM2_NV_ReadLock])).

Definition IsVendorCommand (commandIndex : Z) : option bool :=
  a ← ccAttr commandIndex; Some (is_vendor a).

(** ** Listing the commands *)

(** The loop of [CommandCapGetCCList]: [commandList] holds the attributes stored so
    far; the structure has room for [MAX_CAP_CC]. *)
Fixpoint CapGetCCList_loop (fuel : nat) (commandIndex count : Z) (commandList : list Z)
  : option (list Z * bool) :=
  match fuel with
  | O => None
  | S fuel =>
      if commandIndex =? UNIMPLEMENTED_COMMAND_INDEX then Some (commandList, false)
      else if Z.of_nat (length commandList) <? count then
        if Z.of_nat (length commandList) >=? MAX_CAP_CC then None
        else
          a ← ccAttr commandIndex;
          CapGetCCList_loop fuel (GetNextCommandIndex commandIndex) count (commandList ++ [a])
      else Some (commandList, true)
  end.

(** The list and [more]. *)
Definition CommandCapGetCCList (commandCode count : Z) : option (list Z * bool) :=
  commandIndex ← GetClosestCommandIndex commandCode;
  CapGetCCList_loop (S (Z.to_nat COMMAND_COUNT)) commandIndex count [].

Definition CommandCapGetOneCC (commandCode : Z) : option (option Z) :=
  commandIndex ← CommandCodeToCommandIndex commandCode;
  if commandIndex =? UNIMPLEMENTED_COMMAND_INDEX then Some None
  else a ← ccAttr commandIndex; Some (Some a).
