(* ===== verification/CommandProps.v ===== *)
(** * Properties of the command tables

    The binary searches of [GetClosestCommandIndex] against a plain walk over
    the codes of the commands, the list of commands a client can ask for, and
    the agreement of the three tables that describe a command. *)

From Stdlib Require Import Sorted.
From S2P Require Import Prelude TpmTypes Memory WireTypes Unmarshal Marshal CTypes CommandIO DispatchArrays.
From S2P Require Import DispatchData Dispatch DispatchProof CommandAttributes.
Local Open Scope Z_scope.

(** ** The reference *)

(** The codes of the implemented commands, by index. *)
Definition command_codes : list Z :=
  (λ a, commandIndex_of a + if is_vendor a then CC_VEND else 0) <$> take (Z.to_nat COMMAND_COUNT) s_ccAttr.

(** The index of the first code that is not below [c], counting from [i]. *)
Fixpoint closest (c i : Z) (codes : list Z) : Z :=
  match codes with
  | [] => UNIMPLEMENTED_COMMAND_INDEX
  | x :: codes => if c <=? x then i else closest c (i + 1) codes
  end.

Lemma closest_found c codes : ∀ i (n : nat) x,
  codes !! n = Some x → c ≤ x → (∀ m y, (m < n)%nat → codes !! m = Some y → y < c) →
  closest c i codes = i + Z.of_nat n.
Proof.
  induction codes as [|y codes IH]; intros i n x Hx Hc Hb; [done|]. cbn [closest].
  destruct n as [|n].
  - injection Hx as ->. rewrite (proj2 (Z.leb_le _ _) Hc). lia.
  - rewrite (proj2 (Z.leb_gt _ _)) by (by apply (Hb 0%nat); [lia|]).
    rewrite (IH (i + 1) n x); [lia|done|done|]. intros m z Hm. apply (Hb (S m)). lia.
Qed.

Lemma closest_none c codes : ∀ i,
  (∀ m y, codes !! m = Some y → y < c) → closest c i codes = UNIMPLEMENTED_COMMAND_INDEX.
Proof.
  induction codes as [|y codes IH]; intros i H; [done|]. cbn [closest].
  rewrite (proj2 (Z.leb_gt _ _)) by (by apply (H 0%nat)). apply IH. intros m. apply (H (S m)).
Qed.

(** ** The binary search *)

(** The low half of the code at an index. *)
Definition low (i : Z) : Z := match ccAttr i with Some a => commandIndex_of a | None => 0 end.

Lemma increasing_from lo hi :
  forallb (λ i, low i <? low (i + 1)) (seqZ lo (hi - lo)) = true →
  ∀ i j, lo ≤ i < j → j ≤ hi → low i < low j.
Proof.
  intros H i j Hij Hj. assert (Hstep : ∀ k, lo ≤ k < hi → low k < low (k + 1)).
  { intros k Hk. rewrite forallb_forall in H. apply Z.ltb_lt, H, list_elem_of_In, elem_of_seqZ. lia. }
  replace j with (i + 1 + Z.of_nat (Z.to_nat (j - i - 1))) in * by lia.
  induction (Z.to_nat (j - i - 1)) as [|n IH].
  - rewrite Z.add_0_r. apply Hstep. lia.
  - specialize (IH ltac:(lia) ltac:(lia)). pose proof (Hstep (i + 1 + Z.of_nat n) ltac:(lia)).
    replace (i + 1 + Z.of_nat (S n)) with (i + 1 + Z.of_nat n + 1) by lia. lia.
Qed.

Section search.
Context (s lo hi : Z).
Hypothesis Hinc : ∀ i j, lo ≤ i < j → j ≤ hi → low i < low j.
Hypothesis Hdef : ∀ i, lo ≤ i ≤ hi → is_Some (ccAttr i).
Hypothesis Hlo : 0 ≤ lo ∧ low lo < s.
Hypothesis Hhi : hi < 65535.

Lemma low_attr i : lo ≤ i ≤ hi → ∃ a, ccAttr i = Some a ∧ low i = commandIndex_of a.
Proof. intros Hi. unfold low. destruct (Hdef i Hi) as [a ->]. by exists a. Qed.

(** [r] splits the interval: what is below is smaller than [s], the rest is not. *)
Definition splits (r : Z) : Prop :=
  lo < r ≤ hi + 1 ∧ (∀ i, lo ≤ i < r → low i < s) ∧ (∀ i, r ≤ i ≤ hi → s ≤ low i).

Lemma search_done min max ci diff :
  lo ≤ max → max < min → min ≤ max + 1 → max ≤ hi →
  (∀ i, lo ≤ i < min → low i < s) → (∀ i, max < i ≤ hi → s < low i) →
  (max < min → diff > 0 ∧ ci = min ∨ diff ≤ 0 ∧ ci + 1 = min) →
  ∃ r, (if diff >? 0 then Some ci else Some (u16 (ci + 1))) = Some r ∧ splits r.
Proof.
  intros Hlm Hgt H3 H2 Hb Ha Hd.
  assert (Hmin : lo < min) by lia. destruct (Hd Hgt) as [[Hp ->]|[Hn Hc]].
  - destruct (Z.gtb_spec diff 0); [|lia]. exists min. split; [done|]. split; [lia|]. split; [done|].
    intros i Hi. pose proof (Ha i ltac:(lia)). lia.
  - destruct (Z.gtb_spec diff 0); [lia|]. exists min. rewrite Hc, (wrap_small 16) by (change (2 ^ 16) with 65536; lia).
    split; [done|]. split; [lia|]. split; [done|]. intros i Hi. pose proof (Ha i ltac:(lia)). lia.
Qed.

Lemma search_loop_S fuel min max ci diff :
  search_loop (S fuel) s min max ci diff
  = if min <=? max then
      let ci := (min + max + 1) / 2 in
      match ccAttr ci with
      | None => None
      | Some a =>
          if commandIndex_of a - s =? 0 then Some ci
          else if commandIndex_of a - s >? 0
          then search_loop fuel s min (u16 (ci - 1)) ci (commandIndex_of a - s)
          else search_loop fuel s (u16 (ci + 1)) max ci (commandIndex_of a - s)
      end
    else if diff >? 0 then Some ci else Some (u16 (ci + 1)).
Proof. done. Qed.

(** A turn halves the interval. *)
Lemma search_loop_ok fuel : ∀ min max ci diff,
  lo ≤ min → max ≤ hi → min ≤ max + 1 → max - min + 1 < 2 ^ Z.of_nat fuel →
  (∀ i, lo ≤ i < min → low i < s) → (∀ i, max < i ≤ hi → s < low i) → lo ≤ max →
  (max < min → diff > 0 ∧ ci = min ∨ diff ≤ 0 ∧ ci + 1 = min) →
  ∃ r, search_loop (S fuel) s min max ci diff = Some r ∧ splits r.
Proof.
  induction fuel as [|fuel IH]; intros min max ci diff H1 H2 H3 Hf Hb Ha Hlm Hd; rewrite search_loop_S;
    (destruct (Z.leb_spec min max) as [Hle|Hgt]; [|by apply (search_done min max)]).
  - change (2 ^ Z.of_nat 0) with 1 in Hf. lia.
  - rewrite Nat2Z.inj_succ, Z.pow_succ_r in Hf by lia. cbn zeta.
    set (m := (min + max + 1) / 2).
    assert (Hm : min ≤ m ≤ max ∧ m - min < 2 ^ Z.of_nat fuel ∧ max - m < 2 ^ Z.of_nat fuel)
      by (unfold m; Z.to_euclidean_division_equations; lia).
    destruct (low_attr m ltac:(lia)) as (a & -> & El). rewrite <- El.
    destruct (Z.eqb_spec (low m - s) 0) as [E0|E0].
    + exists m. split; [done|]. assert (low m = s) by lia. destruct (Z.eq_dec m lo) as [->|]; [lia|].
      split; [lia|]. split.
      * intros i Hi. pose proof (Hinc i m ltac:(lia) ltac:(lia)). lia.
      * intros i Hi. destruct (Z.eq_dec i m) as [->|]; [lia|]. pose proof (Hinc m i ltac:(lia) ltac:(lia)). lia.
    + destruct (Z.gtb_spec (low m - s) 0) as [Hg|Hl].
      * assert (lo < m) by (destruct (Z.eq_dec m lo) as [->|]; lia).
        rewrite (wrap_small 16) by (change (2 ^ 16) with 65536; lia). apply IH; [lia..|done| |lia|lia].
        intros i Hi. destruct (Z.eq_dec i m) as [->|]; [lia|]. pose proof (Hinc m i ltac:(lia) ltac:(lia)). lia.
      * rewrite (wrap_small 16) by (change (2 ^ 16) with 65536; lia). apply IH; [lia..| |done|lia|lia].
        intros i Hi. destruct (Z.eq_dec i m) as [->|]; [lia|]. pose proof (Hinc i m ltac:(lia) ltac:(lia)). lia.
Qed.

(** [k] turns are enough for an interval of less than [2^k]. *)
Lemma search_turns k :
  lo ≤ hi → hi - lo + 1 < 2 ^ Z.of_nat k →
  ∃ r, search_loop (S k) s lo hi UNIMPLEMENTED_COMMAND_INDEX 1 = Some r ∧ splits r.
Proof. intros Hle Hk. apply search_loop_ok; try lia; intros i Hi; lia. Qed.

Lemma search_ok : lo ≤ hi → ∃ r, search s lo hi = Some r ∧ splits r.
Proof.
  intros Hle. apply search_turns; [done|]. rewrite Z2Nat.id by lia. apply Z.pow_gt_lin_r; lia.
Qed.
End search.

(** ** The parts of a code *)

Lemma land_VEND c : Z.land c CC_VEND = if Z.testbit c 29 then CC_VEND else 0.
Proof.
  change CC_VEND with (2 ^ 29). apply Z.bits_inj'. intros i Hi. rewrite Z.land_spec, Z.pow2_bits_eqb by lia.
  destruct (Z.eqb_spec 29 i) as [<-|Hne].
  - destruct (Z.testbit c 29) eqn:E; [|by rewrite Z.bits_0]. by rewrite Z.pow2_bits_true.
  - rewrite andb_false_r. destruct (Z.testbit c 29); [|by rewrite Z.bits_0]. by rewrite Z.pow2_bits_false.
Qed.

Definition vendor_part (c : Z) : Z := if Z.testbit c 29 then CC_VEND else 0.

Lemma land_rest c : 0 ≤ c < 2 ^ 32 → Z.land c (u32 (Z.lnot CC_VEND)) = c - vendor_part c.
Proof.
  intros Hc. unfold vendor_part. rewrite <- land_VEND.
  assert (E : c - Z.land c CC_VEND = Z.ldiff c CC_VEND).
  { rewrite Z.sub_nocarry_ldiff; apply Z.bits_inj'; intros i Hi;
      rewrite ?Z.ldiff_spec, ?Z.land_spec, ?Z.ldiff_spec, ?Z.bits_0; destruct (Z.testbit c i), (Z.testbit CC_VEND i); done. }
  rewrite E. apply Z.bits_inj'. intros i Hi. rewrite Z.land_spec, Z.ldiff_spec, wrap_testbit by lia.
  rewrite Z.lnot_spec by lia. destruct (Z.ltb_spec i 32); [done|].
  rewrite (Z.bits_above_log2 c i); [done|lia|]. destruct (Z.eq_dec c 0) as [->|]; [cbn; lia|].
  apply Z.log2_lt_pow2; [lia|]. apply Z.lt_le_trans with (2 ^ 32); [lia|]. apply Z.pow_le_mono_r; lia.
Qed.

(** The codes and their low halves. *)
Lemma codes_checked :
  forallb (λ i, bool_decide (command_codes !! Z.to_nat i = Some (low i + if i <? LIBRARY_COMMAND_ARRAY_SIZE then 0 else CC_VEND)) &&
                bool_decide (is_Some (ccAttr i)) && (0 <=? low i) && (low i <? 65536)) (seqZ 0 COMMAND_COUNT) = true.
Proof. vm_compute. reflexivity. Qed.

Lemma codes_at i :
  0 ≤ i < COMMAND_COUNT →
  command_codes !! Z.to_nat i = Some (low i + if i <? LIBRARY_COMMAND_ARRAY_SIZE then 0 else CC_VEND) ∧
  is_Some (ccAttr i) ∧ 0 ≤ low i < 65536.
Proof.
  intros Hi. pose proof codes_checked as H. rewrite forallb_forall in H.
  specialize (H i ltac:(apply list_elem_of_In, elem_of_seqZ; lia)).
  rewrite !andb_true_iff, !bool_decide_eq_true, Z.leb_le, Z.ltb_lt in H. tauto.
Qed.

Lemma codes_length : length command_codes = Z.to_nat COMMAND_COUNT.
Proof. reflexivity. Qed.

Lemma library_increasing i j : 0 ≤ i < j → j ≤ LIBRARY_COMMAND_ARRAY_SIZE - 1 → low i < low j.
Proof. apply increasing_from. vm_compute. reflexivity. Qed.
Lemma vendor_increasing i j : LIBRARY_COMMAND_ARRAY_SIZE ≤ i < j → j ≤ COMMAND_COUNT - 1 → low i < low j.
Proof. apply increasing_from. vm_compute. reflexivity. Qed.

(** ** The index found *)

(** [r] is the first index with a code that is not below [c]. *)
Lemma closest_at c r :
  0 ≤ r < COMMAND_COUNT → c ≤ low r + (if r <? LIBRARY_COMMAND_ARRAY_SIZE then 0 else CC_VEND) →
  (∀ i, 0 ≤ i < r → low i + (if i <? LIBRARY_COMMAND_ARRAY_SIZE then 0 else CC_VEND) < c) →
  closest c 0 command_codes = r.
Proof.
  intros Hr Hc Hb. destruct (codes_at r Hr) as (Er & _).
  rewrite (closest_found c command_codes 0 (Z.to_nat r) _ Er Hc); [lia|]. intros m y Hm Hy.
  destruct (codes_at (Z.of_nat m) ltac:(lia)) as (Em & _). rewrite Nat2Z.id, Hy in Em. injection Em as ->.
  apply Hb. lia.
Qed.

Lemma closest_beyond c :
  (∀ i, 0 ≤ i < COMMAND_COUNT → low i + (if i <? LIBRARY_COMMAND_ARRAY_SIZE then 0 else CC_VEND) < c) →
  closest c 0 command_codes = UNIMPLEMENTED_COMMAND_INDEX.
Proof.
  intros Hb. apply closest_none. intros m y Hy. pose proof (lookup_lt_Some _ _ _ Hy) as Hm. rewrite codes_length in Hm.
  destruct (codes_at (Z.of_nat m) ltac:(lia)) as (Em & _). rewrite Nat2Z.id, Hy in Em. injection Em as ->. apply Hb. lia.
Qed.

Lemma attr_low i : 0 ≤ i < COMMAND_COUNT → ∃ a, ccAttr i = Some a ∧ commandIndex_of a = low i.
Proof. intros Hi. unfold low. destruct (codes_at i Hi) as (_ & [a ->] & _). by exists a. Qed.

Ltac closed_range := split; [discriminate|reflexivity].

Lemma GetClosest_vendor s :
  0 ≤ s < 65536 →
  match ccAttr LIBRARY_COMMAND_ARRAY_SIZE, ccAttr (COMMAND_COUNT - 1) with
  | Some first, Some last =>
      if commandIndex_of first >=? s then Some LIBRARY_COMMAND_ARRAY_SIZE
      else if commandIndex_of last <? s then Some UNIMPLEMENTED_COMMAND_INDEX
      else search s LIBRARY_COMMAND_ARRAY_SIZE (COMMAND_COUNT - 1)
  | _, _ => None
  end = Some (closest (s + CC_VEND) 0 command_codes).
Proof.
  intros Hs. change LIBRARY_COMMAND_ARRAY_SIZE with 116 in *. change COMMAND_COUNT with 120 in *.
  destruct (attr_low 116) as (a & -> & Ea); [closed_range|]. destruct (attr_low (120 - 1)) as (b & -> & Eb); [closed_range|].
  rewrite Ea, Eb.
  assert (Hlib : ∀ i, 0 ≤ i < 116 → low i + (if i <? 116 then 0 else CC_VEND) < s + CC_VEND).
  { intros i Hi. destruct (codes_at i ltac:(change COMMAND_COUNT with 120; lia)) as (_ & _ & ?).
    rewrite (proj2 (Z.ltb_lt i 116)) by lia. change CC_VEND with 536870912. lia. }
  assert (Hven : ∀ i, 116 ≤ i → low i + (if i <? 116 then 0 else CC_VEND) = low i + CC_VEND)
    by (intros i Hi; by rewrite (proj2 (Z.ltb_ge i 116)) by lia).
  destruct (Z.geb_spec (low 116) s) as [H1|H1].
  - f_equal. symmetry. apply closest_at; [closed_range|rewrite Hven by lia; lia|exact Hlib].
  - destruct (Z.ltb_spec (low (120 - 1)) s) as [H2|H2].
    + f_equal. symmetry. apply closest_beyond. intros i Hi. change COMMAND_COUNT with 120 in Hi.
      destruct (Z.lt_ge_cases i 116); [apply Hlib; lia|]. change LIBRARY_COMMAND_ARRAY_SIZE with 116. rewrite Hven by lia.
      destruct (Z.eq_dec i 119) as [->|]; [change (120 - 1) with 119 in H2; lia|].
      pose proof (vendor_increasing i 119 ltac:(change LIBRARY_COMMAND_ARRAY_SIZE with 116; lia) ltac:(discriminate)).
      change (120 - 1) with 119 in H2. lia.
    + destruct (search_ok s 116 (120 - 1)) as (r & -> & (Hr & Hlt & Hge)); [exact vendor_increasing| |lia|lia|lia|].
      * intros i Hi. apply codes_at. change COMMAND_COUNT with 120. lia.
      * assert (r ≤ 119) by (destruct (Z.eq_dec r 120) as [->|]; [pose proof (Hlt 119 ltac:(lia)); change (120 - 1) with 119 in H2; lia|lia]).
        f_equal. symmetry. apply closest_at; [change COMMAND_COUNT with 120; lia| |].
        -- change LIBRARY_COMMAND_ARRAY_SIZE with 116. rewrite Hven by lia. pose proof (Hge r ltac:(lia)). lia.
        -- intros i Hi. change LIBRARY_COMMAND_ARRAY_SIZE with 116. destruct (Z.lt_ge_cases i 116); [apply Hlib; lia|].
           rewrite Hven by lia. pose proof (Hlt i ltac:(lia)). lia.
Qed.

Lemma GetClosest_library s :
  0 ≤ s < 65536 →
  match ccAttr (LIBRARY_COMMAND_ARRAY_SIZE - 1), ccAttr 0 with
  | Some last, Some first =>
      if commandIndex_of last <? s then Some LIBRARY_COMMAND_ARRAY_SIZE
      else if commandIndex_of first >=? s then Some 0
      else search s 0 (LIBRARY_COMMAND_ARRAY_SIZE - 1)
  | _, _ => None
  end = Some (closest s 0 command_codes).
Proof.
  intros Hs. change LIBRARY_COMMAND_ARRAY_SIZE with 116 in *.
  destruct (attr_low 0) as (a & -> & Ea); [closed_range|]. destruct (attr_low (116 - 1)) as (b & -> & Eb); [closed_range|].
  rewrite Ea, Eb.
  assert (Hlib : ∀ i, i < 116 → low i + (if i <? 116 then 0 else CC_VEND) = low i)
    by (intros i Hi; rewrite (proj2 (Z.ltb_lt i 116)) by lia; lia).
  destruct (Z.ltb_spec (low (116 - 1)) s) as [H2|H2]; change (116 - 1) with 115 in *.
  - f_equal. symmetry. destruct (codes_at 116 ltac:(closed_range)) as (_ & _ & ?).
    apply closest_at; [closed_range| |]; change LIBRARY_COMMAND_ARRAY_SIZE with 116.
    + change (116 <? 116) with false. cbn iota. change CC_VEND with 536870912. lia.
    + intros i Hi. rewrite Hlib by lia. destruct (Z.eq_dec i 115) as [->|]; [lia|].
      pose proof (library_increasing i 115 ltac:(lia) ltac:(discriminate)). lia.
  - destruct (Z.geb_spec (low 0) s) as [H1|H1].
    + f_equal. symmetry. apply closest_at; [closed_range| |intros i Hi; lia].
      change LIBRARY_COMMAND_ARRAY_SIZE with 116. rewrite Hlib by lia. lia.
    + destruct (search_ok s 0 115) as (r & -> & (Hr & Hlt & Hge)); [exact library_increasing| |lia|lia|lia|].
      * intros i Hi. apply codes_at. change COMMAND_COUNT with 120. lia.
      * assert (r ≤ 115) by (destruct (Z.eq_dec r 116) as [->|]; [pose proof (Hlt 115 ltac:(lia)); lia|lia]).
        f_equal. symmetry. apply closest_at; [change COMMAND_COUNT with 120; lia| |]; change LIBRARY_COMMAND_ARRAY_SIZE with 116.
        -- rewrite Hlib by lia. apply Hge. lia.
        -- intros i Hi. rewrite Hlib by lia. apply Hlt. lia.
Qed.

(** The code is that of a command or vendor command, without other bits. *)
Definition clean (c : Z) : bool := Z.land c (u32 (Z.lnot CC_VEND)) <? 65536.

Lemma GetClosest_ok c :
  0 ≤ c < 2 ^ 32 →
  GetClosestCommandIndex c
  = Some (if clean c then closest c 0 command_codes else UNIMPLEMENTED_COMMAND_INDEX).
Proof.
  intros Hc. unfold GetClosestCommandIndex, clean. rewrite land_VEND, (land_rest c Hc). unfold vendor_part.
  assert (H0 : 0 ≤ c - (if Z.testbit c 29 then CC_VEND else 0)).
  { pose proof (land_rest c Hc) as E. unfold vendor_part in E. rewrite <- E. apply Z.land_nonneg. lia. }
  destruct (Z.ltb_spec (c - (if Z.testbit c 29 then CC_VEND else 0)) 65536) as [Hl|Hl].
  - assert (Es : u16 c = c - (if Z.testbit c 29 then CC_VEND else 0)).
    { unfold wrap. destruct (Z.testbit c 29); change CC_VEND with (8192 * 65536) in *; change (2 ^ 16) with 65536.
      - replace c with (c - 8192 * 65536 + 8192 * 65536) at 1 by lia. rewrite Z.mod_add by lia. apply Z.mod_small. lia.
      - rewrite Z.sub_0_r. apply Z.mod_small. lia. }
    rewrite Es, Z.eqb_refl. cbn [negb]. destruct (Z.testbit c 29).
    + change (negb (CC_VEND =? 0)) with true. cbn iota. rewrite GetClosest_vendor by lia. do 2 f_equal. lia.
    + change (negb (0 =? 0)) with false. cbn iota. rewrite GetClosest_library by lia. do 2 f_equal. lia.
  - rewrite (proj2 (Z.eqb_neq _ _)); [done|]. unfold wrap. change (2 ^ 16) with 65536.
    pose proof (Z.mod_pos_bound c 65536 ltac:(lia)). lia.
Qed.

(** * Properties of the command tables *)

(** ** The list of commands *)

Definition code_of (a : Z) : Z := commandIndex_of a + if is_vendor a then CC_VEND else 0.

(** The attributes of the implemented commands, and those from a code on. *)
Definition implemented : list Z := take (Z.to_nat COMMAND_COUNT) s_ccAttr.
Definition listed (c : Z) : list Z := filter (λ a, c ≤ code_of a) implemented.

Lemma filter_all {A} (P : A → Prop) `{!∀ x, Decision (P x)} l : Forall P l → filter P l = l.
Proof.
  induction 1 as [|x l Hx _ IH]; [done|]. by rewrite filter_cons_True, IH.
Qed.

Lemma closest_filter c l : StronglySorted (λ a b, code_of a < code_of b) l → ∀ i,
  (closest c i (code_of <$> l) = UNIMPLEMENTED_COMMAND_INDEX ∧ filter (λ a, c ≤ code_of a) l = []) ∨
  (∃ n, closest c i (code_of <$> l) = i + Z.of_nat n ∧ (n < length l)%nat ∧
     filter (λ a, c ≤ code_of a) l = drop n l).
Proof.
  induction 1 as [|a l Hl IH Ha]; intros i; [by left|]. cbn [fmap list_fmap closest].
  destruct (Z.leb_spec c (code_of a)) as [Hc|Hc].
  - right. exists 0%nat. split; [lia|]. split; [cbn; lia|]. apply filter_all.
    constructor; [done|]. eapply Forall_impl; [|exact Ha]. cbn. lia.
  - rewrite filter_cons_False by lia. destruct (IH (i + 1)) as [[E F]|(n & E & Hn & F)]; rewrite E, F; [by left|].
    right. exists (S n). split; [lia|]. split; [cbn; lia|]. done.
Qed.

Lemma implemented_sorted : StronglySorted (λ a b, code_of a < code_of b) implemented.
Proof.
  apply Sorted_StronglySorted; [intros ?????; lia|].
  assert (H : ∀ l, forallb (λ i, match l !! i, l !! S i with Some a, Some b => code_of a <? code_of b | _, _ => true end)
      (seq 0 (length l)) = true → Sorted (λ a b, code_of a < code_of b) l).
  { induction l as [|a l IH]; intros H; [constructor|]. cbn [length seq forallb] in H. apply andb_true_iff in H as [H0 H].
    constructor.
    - apply IH. rewrite <- seq_shift, forallb_forall in H. rewrite forallb_forall. intros i Hi.
      apply (H (S i)). by apply in_map.
    - destruct l as [|b l]; constructor. by apply Z.ltb_lt. }
  apply H. vm_compute. reflexivity.
Qed.

Lemma implemented_attr n a : implemented !! n = Some a → ccAttr (Z.of_nat n) = Some a.
Proof.
  intros H. unfold ccAttr. rewrite (proj2 (Z.ltb_ge _ _)), Nat2Z.id by lia.
  unfold implemented in H. apply lookup_take_Some in H as [H _]. done.
Qed.

Lemma implemented_length : length implemented = Z.to_nat COMMAND_COUNT.
Proof. reflexivity. Qed.

(** The loop of [CommandCapGetCCList] from the index [n] on. *)
Lemma CapGetCCList_loop_ok count fuel : ∀ (n : nat) acc,
  (n < length implemented)%nat → (length implemented - n < fuel)%nat → (length acc ≤ n)%nat →
  CapGetCCList_loop fuel (Z.of_nat n) count acc
  = Some (acc ++ take (Z.to_nat count - length acc) (drop n implemented),
          Z.to_nat count - length acc <? length (drop n implemented))%nat.
Proof.
  pose proof implemented_length as HL. change (Z.to_nat COMMAND_COUNT) with 120%nat in HL.
  induction fuel as [|fuel IH]; intros n acc Hn Hf Ha; [lia|]. cbn [CapGetCCList_loop].
  change UNIMPLEMENTED_COMMAND_INDEX with 65535 at 1. rewrite (proj2 (Z.eqb_neq _ 65535)) by lia.
  destruct (lookup_lt_is_Some_2 implemented n Hn) as [a Hx]. pose proof (drop_S _ _ _ Hx) as Ed.
  destruct (Z.ltb_spec (Z.of_nat (length acc)) count) as [Hc|Hc].
  - change MAX_CAP_CC with 254. rewrite (geb_false _ 254) by lia. rewrite (implemented_attr n a Hx). cbn [mbind option_bind].
    unfold GetNextCommandIndex. rewrite (wrap_small 16) by (change (2 ^ 16) with 65536; lia).
    change COMMAND_COUNT with 120. rewrite Ed.
    replace (Z.to_nat count - length acc)%nat with (S (Z.to_nat count - length (acc ++ [a])))%nat
      by (rewrite length_app; cbn; lia). cbn [take length].
    destruct (Z.ltb_spec (Z.of_nat n + 1) 120) as [H1|H1].
    + replace (Z.of_nat n + 1) with (Z.of_nat (S n)) by lia. rewrite IH by (rewrite ?length_app; cbn; lia).
      rewrite <- app_assoc. done.
    + rewrite (drop_ge implemented (S n)) by lia. destruct fuel as [|fuel]; [lia|]. cbn [CapGetCCList_loop].
      rewrite Z.eqb_refl, take_nil. cbn [length]. by rewrite (proj2 (Nat.ltb_ge _ _)) by lia.
  - replace (Z.to_nat count - length acc)%nat with 0%nat by lia. cbn [take]. rewrite app_nil_r, length_drop.
    by rewrite (proj2 (Nat.ltb_lt _ _)) by lia.
Qed.

(** ** The search *)

(** The binary searches of [GetClosestCommandIndex] find what a walk over
    the codes of the commands finds: for a code without bits other than the
    vendor bit and the low half, the index of the first command, in the order of
    the codes, whose code is not below it, and [UNIMPLEMENTED_COMMAND_INDEX] if
    there is none or the code has other bits. *)
Theorem closest_command_index c :
  0 ≤ c < 2 ^ 32 →
  GetClosestCommandIndex c
  = Some (if clean c then closest c 0 (code_of <$> implemented) else UNIMPLEMENTED_COMMAND_INDEX).
Proof. exact (GetClosest_ok c). Qed.

Lemma closest_command_index_witness :
  GetClosestCommandIndex 0x123
  = Some (if clean 0x123 then closest 0x123 0 (code_of <$> implemented) else UNIMPLEMENTED_COMMAND_INDEX).
Proof. apply (closest_command_index 0x123). split; [discriminate|reflexivity]. Defined.

(** C33. The binary searches end: whenever [GetClosestCommandIndex] enters one of
    its loops, that is for a code above the first of the commands it searches, the loop is
    left in its eighth turn (its fourth, for the vendor commands) at the latest,
    with an index of the array, and without an index that has wrapped around. *)
Theorem command_search_ends s :
  (low 0 < s → ∃ r, search_loop 8 s 0 (LIBRARY_COMMAND_ARRAY_SIZE - 1) UNIMPLEMENTED_COMMAND_INDEX 1 = Some r ∧
     0 < r ≤ LIBRARY_COMMAND_ARRAY_SIZE) ∧
  (low LIBRARY_COMMAND_ARRAY_SIZE < s →
     ∃ r, search_loop 4 s LIBRARY_COMMAND_ARRAY_SIZE (COMMAND_COUNT - 1) UNIMPLEMENTED_COMMAND_INDEX 1 = Some r ∧
     LIBRARY_COMMAND_ARRAY_SIZE < r ≤ COMMAND_COUNT).
Proof.
  split; intros Hs.
  - destruct (search_turns s 0 (LIBRARY_COMMAND_ARRAY_SIZE - 1) library_increasing) with (k := 7%nat)
      as (r & E & H & _); [|lia|done|done|done|].
    + intros i Hi. apply codes_at. change COMMAND_COUNT with 120. change LIBRARY_COMMAND_ARRAY_SIZE with 116 in Hi. lia.
    + exists r. split; [done|lia].
  - destruct (search_turns s LIBRARY_COMMAND_ARRAY_SIZE (COMMAND_COUNT - 1) vendor_increasing) with (k := 3%nat)
      as (r & E & H & _); [|done|done|done|done|].
    + intros i Hi. apply codes_at. change COMMAND_COUNT with 120 in *. change LIBRARY_COMMAND_ARRAY_SIZE with 116 in Hi. lia.
    + exists r. split; [done|lia].
Qed.

(** ** Lookup and listing *)

(** A code without other bits is its low half and its vendor bit. *)
Lemma same_parts c c' :
  0 ≤ c < 2 ^ 32 → 0 ≤ c' < 2 ^ 32 → clean c = true → clean c' = true → u16 c = u16 c' →
  negb (Z.land c CC_VEND =? 0) = negb (Z.land c' CC_VEND =? 0) → c = c'.
Proof.
  intros Hc Hc' Hk Hk' E16 Ev. rewrite !land_VEND in Ev. unfold clean in *. rewrite land_rest in Hk, Hk' by done.
  apply Z.ltb_lt in Hk, Hk'. assert (Eb : Z.testbit c 29 = Z.testbit c' 29)
    by (destruct (Z.testbit c 29), (Z.testbit c' 29); done).
  assert (H : ∀ c, 0 ≤ c < 2 ^ 32 → c - vendor_part c < 65536 → c = u16 c + vendor_part c).
  { clear. intros c Hc Hk. pose proof (land_rest c Hc) as E.
    assert (0 ≤ c - vendor_part c) by (rewrite <- E; apply Z.land_nonneg; lia).
    unfold wrap. change (2 ^ 16) with 65536. unfold vendor_part in *. change CC_VEND with (8192 * 65536) in *.
    destruct (Z.testbit c 29); [|rewrite Z.mod_small; lia].
    replace c with (c - 8192 * 65536 + 8192 * 65536) at 2 by lia. rewrite Z.mod_add, Z.mod_small; lia. }
  rewrite (H c Hc Hk), (H c' Hc' Hk'), E16. unfold vendor_part. by rewrite Eb.
Qed.

Lemma code_at n a :
  implemented !! n = Some a →
  GetCommandCode (Z.of_nat n) = Some (code_of a) ∧ 0 ≤ code_of a < 2 ^ 32 ∧ clean (code_of a) = true ∧
  commandIndex_of a = u16 (code_of a) ∧ is_vendor a = negb (Z.land (code_of a) CC_VEND =? 0).
Proof.
  intros Ha. unfold GetCommandCode. rewrite (implemented_attr n a Ha). cbn [mbind option_bind].
  assert (T : forallb (λ a, (u32 (code_of a) =? code_of a) && (0 <=? code_of a) && (code_of a <? 2 ^ 32) &&
      clean (code_of a) && (commandIndex_of a =? u16 (code_of a)) &&
      eqb (is_vendor a) (negb (Z.land (code_of a) CC_VEND =? 0))) implemented = true) by (vm_compute; reflexivity).
  rewrite forallb_forall in T. specialize (T a ltac:(apply list_elem_of_In; by eapply list_elem_of_lookup_2)).
  rewrite !andb_true_iff, !Z.eqb_eq, Z.leb_le, Z.ltb_lt, eqb_true_iff in T.
  destruct T as (((((T1 & T2) & T3) & T4) & T5) & T6). change (commandIndex_of a + _) with (code_of a). by rewrite T1.
Qed.

Lemma sorted_lookup {A} (R : A → A → Prop) l : StronglySorted R l → ∀ (m n : nat) a b,
  (m < n)%nat → l !! m = Some a → l !! n = Some b → R a b.
Proof.
  induction 1 as [|x l Hl IH Hx]; intros m n a b Hmn Ha Hb; [done|].
  destruct n as [|n]; [lia|]. destruct m as [|m].
  - injection Ha as <-. rewrite Forall_forall in Hx. apply Hx, list_elem_of_In. by eapply list_elem_of_lookup_2.
  - apply (IH m n); [lia|done|done].
Qed.

(** The closest command of a code that is a command is that command. *)
Lemma closest_self n a :
  implemented !! n = Some a → closest (code_of a) 0 (code_of <$> implemented) = Z.of_nat n.
Proof.
  intros Ha. rewrite (closest_found _ _ 0 n (code_of a)); [done|by rewrite list_lookup_fmap, Ha|lia|].
  intros m y Hm Hy. rewrite list_lookup_fmap in Hy. destruct (implemented !! m) as [b|] eqn:Hb; [|done].
  injection Hy as <-. exact (sorted_lookup _ _ implemented_sorted m n b a Hm Hb Ha).
Qed.

(** C34. A command code is looked up exactly: [CommandCodeToCommandIndex] returns
    the index of the command with this code, from which [GetCommandCode] gives
    the code back, and [UNIMPLEMENTED_COMMAND_INDEX] for all the other 32-bit
    values. *)
Theorem command_lookup c :
  0 ≤ c < 2 ^ 32 → ∃ i, CommandCodeToCommandIndex c = Some i ∧
  (i = UNIMPLEMENTED_COMMAND_INDEX ∧ (∀ j, 0 ≤ j < COMMAND_COUNT → GetCommandCode j ≠ Some c) ∨
   0 ≤ i < COMMAND_COUNT ∧ GetCommandCode i = Some c).
Proof.
  intros Hc. pose proof implemented_length as HL.
  assert (Hnone : (∀ n a, implemented !! n = Some a → code_of a ≠ c) → ∀ j, 0 ≤ j < COMMAND_COUNT → GetCommandCode j ≠ Some c).
  { intros H j Hj. destruct (lookup_lt_is_Some_2 implemented (Z.to_nat j)) as [a Ha]; [lia|].
    destruct (code_at _ _ Ha) as (E & _). rewrite Z2Nat.id in E by lia. rewrite E. intros [= Ec]. by eapply H. }
  unfold CommandCodeToCommandIndex. rewrite (GetClosest_ok c Hc).
  change command_codes with (code_of <$> implemented).
  destruct (clean c) eqn:Ecl.
  - destruct (closest_filter c implemented implemented_sorted 0) as [[E F]|(n & E & Hn & F)]; rewrite E.
    + rewrite Z.eqb_refl. eexists. split; [done|]. left. split; [done|]. apply Hnone. intros n a Ha <-.
      rewrite (closest_self n a Ha) in E. apply lookup_lt_Some in Ha. rewrite HL in Ha.
      change UNIMPLEMENTED_COMMAND_INDEX with 65535 in E. change (Z.to_nat COMMAND_COUNT) with 120%nat in Ha. lia.
    + rewrite Z.add_0_l in *. destruct (lookup_lt_is_Some_2 implemented n Hn) as [a Ha].
      rewrite HL in Hn. change (Z.to_nat COMMAND_COUNT) with 120%nat in Hn.
      rewrite (proj2 (Z.eqb_neq (Z.of_nat n) _)) by (change UNIMPLEMENTED_COMMAND_INDEX with 65535; lia).
      rewrite (implemented_attr n a Ha). destruct (code_at n a Ha) as (Eg & Hr & Hk & E16 & Ev).
      destruct (Z.eq_dec (code_of a) c) as [<-|Hne].
      * rewrite E16, Z.eqb_refl, Ev, eqb_reflx. eexists. split; [done|]. right. split; [|done].
        change COMMAND_COUNT with 120. lia.
      * assert (negb (commandIndex_of a =? u16 c) || negb (eqb (is_vendor a) (negb (Z.land c CC_VEND =? 0))) = true) as ->.
        { destruct (negb _ || _) eqn:Eb; [done|]. exfalso. apply Hne.
          apply orb_false_iff in Eb as [E1 E2]. rewrite negb_false_iff in E1, E2. apply Z.eqb_eq in E1. apply eqb_prop in E2.
          apply (same_parts (code_of a) c); [done|done|done|done|congruence|congruence]. }
        eexists. split; [done|]. left. split; [done|]. apply Hnone. intros m b Hb <-.
        rewrite (closest_self m b Hb) in E. assert (m = n) as -> by lia. congruence.
  - rewrite Z.eqb_refl. eexists. split; [done|]. left. split; [done|]. apply Hnone. intros n a Ha <-.
    destruct (code_at n a Ha) as (_ & _ & Hk & _). congruence.
Qed.

(** [CommandCapGetCCList] lists the commands from a code on: the attributes
    of the first [count] implemented commands whose code is not below it, in the
    order of the codes, and [more] exactly when there are further ones; it
    returns for every code and count and never stores past the list. *)
Theorem command_listing c count :
  0 ≤ c < 2 ^ 32 → clean c = true → 0 ≤ count →
  CommandCapGetCCList c count
  = Some (take (Z.to_nat count) (listed c), bool_decide (count < Z.of_nat (length (listed c)))).
Proof.
  intros Hc Hk Hn. unfold CommandCapGetCCList. rewrite (GetClosest_ok c Hc), Hk. cbn [mbind option_bind].
  change command_codes with (code_of <$> implemented). unfold listed.
  destruct (closest_filter c implemented implemented_sorted 0) as [[E F]|(n & E & Hlt & F)]; rewrite E, F.
  - change (Z.to_nat COMMAND_COUNT) with 120%nat. cbn [CapGetCCList_loop]. rewrite Z.eqb_refl, take_nil.
    rewrite bool_decide_eq_false_2; [done|]. cbn. lia.
  - rewrite Z.add_0_l, CapGetCCList_loop_ok by (rewrite ?implemented_length in *; cbn [length]; lia).
    cbn [length app]. rewrite Nat.sub_0_r. do 2 f_equal. destruct (Nat.ltb_spec (Z.to_nat count) (length (drop n implemented)));
      [rewrite bool_decide_eq_true_2|rewrite bool_decide_eq_false_2]; (done || lia).
Qed.

(** ** The three tables *)

(** A parameter that starts with a 16-bit size, which is what can be encrypted. *)
Definition sized_parameter (t : Z) : bool :=
  (TPM2B_DATA_P_UNMARSHAL <=? type_of t) && (type_of t <=? TPM2B_TIMEOUT_P_UNMARSHAL) ||
  (type_of t =? TPM2B_PUBLIC_P_UNMARSHAL).
Definition sized_response (t : Z) : bool :=
  (TPM2B_ATTEST_P_MARSHAL <=? type_of t) && (type_of t <=? TPM2B_TIMEOUT_P_MARSHAL).

Definition first_is (f : Z → bool) (l : list Z) : bool :=
  match l with t :: _ => f t | [] => false end.

#[export] Instance AUTH_ROLE_eq_dec : EqDecision AUTH_ROLE.
Proof. solve_decision. Defined.

(** The entries at one index of [s_ccAttr], [s_commandAttributes] and
    [s_CommandDataArray]. *)
Definition entries_agree (i : Z) (d : COMMAND_DESCRIPTOR_t) (p : plan) : bool :=
  match ccAttr i, commandAttributes i with
  | Some a, Some m =>
      bool_decide (GetCommandCode i = Some (TPM_CC (d_command d))) && has m IS_IMPLEMENTED &&
      (Z.shiftr (Z.land a TPMA_CC_cHandles) TPMA_CC_cHandles_SHIFT =? Z.of_nat (length (pl_handles p))) &&
      eqb (has a TPMA_CC_rHandle) (negb (length (pl_outHandle p) =? 0)%nat) &&
      bool_decide (IsHandleInResponse i = Some (negb (length (pl_outHandle p) =? 0)%nat)) &&
      bool_decide (DecryptSize i = Some (if first_is sized_parameter (pl_params p).*2 then 2 else 0)) &&
      bool_decide (EncryptSize i = Some (if first_is sized_response (pl_outs p).*2 then 2 else 0)) &&
      forallb (λ n, bool_decide (CommandAuthRole i n = Some AUTH_NONE) || (n <? Z.of_nat (length (pl_handles p))))
        (seqZ 0 MAX_HANDLE_NUM) &&
      (bool_decide (IsSessionAllowed i = Some true) ||
       bool_decide (CommandAuthRole i 0 = Some AUTH_NONE) && bool_decide (CommandAuthRole i 1 = Some AUTH_NONE) &&
       bool_decide (DecryptSize i = Some 0) && bool_decide (EncryptSize i = Some 0))
  | _, _ => false
  end.

Lemma tables_checked :
  forallb (λ i, match descriptor i with
                | Some d => match plan_of d with Some p => entries_agree i d p | None => false end
                | None => false
                end) (seqZ 0 COMMAND_COUNT) = true.
Proof. vm_compute. reflexivity. Qed.

(** C35. The three tables describe the same commands: at every index, the code in
    [s_ccAttr] is that of the action in [s_CommandDataArray]; the number of
    handles and the handle of the response that a client is told are those the
    dispatcher parses and returns; a first parameter is encrypted or decrypted
    only if it is a sized buffer, and always if it is; only handles the command
    has need an authorization; and a command that allows no sessions needs no
    authorization and encrypts nothing. *)
Theorem command_tables_agree i :
  0 ≤ i < COMMAND_COUNT → ∃ d p a m,
  descriptor i = Some d ∧ described d p ∧ ccAttr i = Some a ∧ commandAttributes i = Some m ∧
  GetCommandCode i = Some (TPM_CC (d_command d)) ∧ has m IS_IMPLEMENTED = true ∧
  Z.shiftr (Z.land a TPMA_CC_cHandles) TPMA_CC_cHandles_SHIFT = Z.of_nat (length (pl_handles p)) ∧
  has a TPMA_CC_rHandle = negb (length (pl_outHandle p) =? 0)%nat ∧
  IsHandleInResponse i = Some (negb (length (pl_outHandle p) =? 0)%nat) ∧
  DecryptSize i = Some (if first_is sized_parameter (pl_params p).*2 then 2 else 0) ∧
  EncryptSize i = Some (if first_is sized_response (pl_outs p).*2 then 2 else 0) ∧
  (∀ n, 0 ≤ n < MAX_HANDLE_NUM → CommandAuthRole i n ≠ Some AUTH_NONE → n < Z.of_nat (length (pl_handles p))) ∧
  (IsSessionAllowed i ≠ Some true →
     CommandAuthRole i 0 = Some AUTH_NONE ∧ CommandAuthRole i 1 = Some AUTH_NONE ∧
     DecryptSize i = Some 0 ∧ EncryptSize i = Some 0).
Proof.
  intros Hi. pose proof tables_checked as T. rewrite forallb_forall in T.
  specialize (T i ltac:(apply list_elem_of_In, elem_of_seqZ; lia)). cbn beta in T.
  destruct (descriptor i) as [d|] eqn:Ed; [|done]. destruct (command_described i d Ed) as (p & D).
  rewrite (ds_plan _ _ D) in T. unfold entries_agree in T.
  destruct (ccAttr i) as [a|] eqn:Ea; [|done]. destruct (commandAttributes i) as [m|] eqn:Em; [|done].
  rewrite !andb_true_iff, !bool_decide_eq_true, Z.eqb_eq, eqb_true_iff, forallb_forall in T.
  destruct T as ((((((((T1 & T2) & T3) & T4) & T5) & T6) & T7) & T8) & T9).
  exists d, p, a, m. repeat (split; [done|]). split.
  - intros n Hn Hr. specialize (T8 n ltac:(apply list_elem_of_In, elem_of_seqZ; lia)).
    apply orb_true_iff in T8 as [T8|T8]; [by apply bool_decide_eq_true in T8|by apply Z.ltb_lt].
  - intros Hs. apply orb_true_iff in T9 as [T9|T9]; [by apply bool_decide_eq_true in T9|].
    rewrite !andb_true_iff, !bool_decide_eq_true in T9. tauto.
Qed.

(** ** Witnesses *)

Lemma command_lookup_witness : ∃ i, CommandCodeToCommandIndex 0x144 = Some i ∧
  (i = UNIMPLEMENTED_COMMAND_INDEX ∧ (∀ j, 0 ≤ j < COMMAND_COUNT → GetCommandCode j ≠ Some 0x144) ∨
   0 ≤ i < COMMAND_COUNT ∧ GetCommandCode i = Some 0x144).
Proof. apply (command_lookup 0x144). split; [discriminate|reflexivity]. Defined.

Lemma command_listing_witness :
  CommandCapGetCCList 0x20000000 3
  = Some (take 3 (listed 0x20000000), bool_decide (3 < Z.of_nat (length (listed 0x20000000)))).
Proof.
  apply (command_listing 0x20000000 3); [split; [discriminate|reflexivity]|reflexivity|discriminate].
Defined.

Lemma command_tables_agree_witness : ∃ d p a m,
  descriptor 84 = Some d ∧ described d p ∧ ccAttr 84 = Some a ∧ commandAttributes 84 = Some m ∧
  GetCommandCode 84 = Some (TPM_CC (d_command d)) ∧ has m IS_IMPLEMENTED = true ∧
  Z.shiftr (Z.land a TPMA_CC_cHandles) TPMA_CC_cHandles_SHIFT = Z.of_nat (length (pl_handles p)) ∧
  has a TPMA_CC_rHandle = negb (length (pl_outHandle p) =? 0)%nat ∧
  IsHandleInResponse 84 = Some (negb (length (pl_outHandle p) =? 0)%nat) ∧
  DecryptSize 84 = Some (if first_is sized_parameter (pl_params p).*2 then 2 else 0) ∧
  EncryptSize 84 = Some (if first_is sized_response (pl_outs p).*2 then 2 else 0) ∧
  (∀ n, 0 ≤ n < MAX_HANDLE_NUM → CommandAuthRole 84 n ≠ Some AUTH_NONE → n < Z.of_nat (length (pl_handles p))) ∧
  (IsSessionAllowed 84 ≠ Some true →
     CommandAuthRole 84 0 = Some AUTH_NONE ∧ CommandAuthRole 84 1 = Some AUTH_NONE ∧
     DecryptSize 84 = Some 0 ∧ EncryptSize 84 = Some 0).
Proof. apply (command_tables_agree 84). split; [discriminate|reflexivity]. Defined.
