(* ===== verification/TpmState.v ===== *)
(** * The state of the TPM

    The globals that the processing of a command reaches, put together from the
    states of the components: time, dictionary attack logic and NV memory
    ([Time.v]), sessions ([Session.v]), registers ([Pcr.v]), and the
    hierarchies, object slots, audit state and session area that Hierarchy.c,
    Object.c, CommandAudit.c and SessionProcess.c keep.  A global that two of
    the component states hold (the time, the epoch, the PCR counter, failure
    mode) has one home, and the others get it when they are called. *)

From S2P Require Import Prelude TpmTypes Memory Struct Cbc NVMem NVReserved Clock NvList NvRam NvIndex WireTypes.
From S2P Require Import Pcr Session Time.
Local Open Scope Z_scope.

(** ** Objects (Global.h, lines 152-262) *)

Record OBJECT_ATTRIBUTES := mkObjAttr {
  publicOnly : bool;
  epsHierarchy : bool;
  ppsHierarchy : bool;
  spsHierarchy : bool;
  evict : bool;
  primary : bool;
  temporary : bool;
  stClear : bool;
  hmacSeq : bool;
  hashSeq : bool;
  eventSeq : bool;
  ticketSafe : bool;
  firstBlock : bool;
  isParent : bool;
  occupied : bool;
  derivation : bool;
  external : bool
}.

Definition no_attributes : OBJECT_ATTRIBUTES :=
  mkObjAttr false false false false false false false false false false false false false false
    false false false.

(** An [OBJECT].  A sequence object ([HASH_OBJECT]) lies in the same octets: its
    [type], [nameAlg], [objectAttributes] and [auth] are those of the public
    area, [auth] in the place of [authPolicy]; what it has hashed so far is
    [o_state], one context for each open algorithm. *)
Record OBJECT := mkObject {
  o_attributes : OBJECT_ATTRIBUTES;
  o_publicArea : TPMT_PUBLIC;
  o_sensitive : TPMT_SENSITIVE;
  o_qualifiedName : TPM2B;
  o_evictHandle : Z;
  o_name : TPM2B;
  o_hierarchy : Z;
  o_state : list (Z * bytes) }.

(** ** Hierarchies (Global.h: [PERSISTENT_DATA], [STATE_CLEAR_DATA],
    [STATE_RESET_DATA]) *)

(** The members of [gp] that belong to the hierarchies. *)
Record HierPersistent := mkHierP {
  disableClear : bool;
  EPSeed : TPM2B;
  SPSeed : TPM2B;
  PPSeed : TPM2B;
  ownerAuth : TPM2B;
  endorsementAuth : TPM2B;
  lockoutAuth : TPM2B;
  ownerAlg : Z;
  ownerPolicy : TPM2B;
  endorsementAlg : Z;
  endorsementPolicy : TPM2B;
  lockoutAlg : Z;
  lockoutPolicy : TPM2B;
  phProof : TPM2B;
  shProof : TPM2B;
  ehProof : TPM2B
}.

(** [h_nv] is the copy of [h_gp] in NV memory; [gc.shEnable] and
    [gc.phEnableNV] are in the state of the NV component. *)
Record HierState := mkHier {
  h_gp : HierPersistent;
  h_nv : HierPersistent;
  platformAuth : TPM2B;
  platformPolicy : TPM2B;
  platformAlg : Z;
  ehEnable : bool;
  g_phEnable : bool;
  nullProof : TPM2B;
  nullSeed : TPM2B
}.

(** ** Command audit; [nv_audit] is the copy in NV of the first three. *)
Record AuditState := mkAudit {
  auditCommands : bytes;
  auditHashAlg : Z;
  auditCounter : Z;
  nv_audit : bytes * Z * Z;
  commandAuditDigest : TPM2B;
  g_exclusiveAuditSession : Z
}.

(** ** The session area of a command (Global.h, lines 1228-1257) *)
Record SessionArea := mkArea {
  s_sessionHandles : list Z;
  s_attributes : list Z;
  s_associatedHandles : list Z;
  s_nonceCaller : list TPM2B;
  s_inputAuthValues : list TPM2B;
  s_encryptSessionIndex : Z;
  s_decryptSessionIndex : Z;
  s_auditSessionIndex : Z
}.

Section tpm.
Context `{TimeLayout} `{CryptEnv}.

Record Tpm := mkTpm {
  t_time : TimeState;
  t_sess : SessState;
  t_pcr : PcrState;
  t_hier : HierState;
  s_objects : list OBJECT;
  t_audit : AuditState;
  ppList : bytes;
  t_area : SessionArea;
  s_physicalPresence : bool;
  g_DRTMHandle : Z
}.

(** ** Access *)

Definition set_s_sessionHandles (x : list Z) (s : SessionArea) : SessionArea :=
  mkArea x (s_attributes s) (s_associatedHandles s) (s_nonceCaller s) (s_inputAuthValues s)
    (s_encryptSessionIndex s) (s_decryptSessionIndex s) (s_auditSessionIndex s).
Definition set_s_attributes (x : list Z) (s : SessionArea) : SessionArea :=
  mkArea (s_sessionHandles s) x (s_associatedHandles s) (s_nonceCaller s) (s_inputAuthValues s)
    (s_encryptSessionIndex s) (s_decryptSessionIndex s) (s_auditSessionIndex s).
Definition set_s_associatedHandles (x : list Z) (s : SessionArea) : SessionArea :=
  mkArea (s_sessionHandles s) (s_attributes s) x (s_nonceCaller s) (s_inputAuthValues s)
    (s_encryptSessionIndex s) (s_decryptSessionIndex s) (s_auditSessionIndex s).
Definition set_s_nonceCaller (x : list TPM2B) (s : SessionArea) : SessionArea :=
  mkArea (s_sessionHandles s) (s_attributes s) (s_associatedHandles s) x (s_inputAuthValues s)
    (s_encryptSessionIndex s) (s_decryptSessionIndex s) (s_auditSessionIndex s).
Definition set_s_inputAuthValues (x : list TPM2B) (s : SessionArea) : SessionArea :=
  mkArea (s_sessionHandles s) (s_attributes s) (s_associatedHandles s) (s_nonceCaller s) x
    (s_encryptSessionIndex s) (s_decryptSessionIndex s) (s_auditSessionIndex s).
Definition set_s_encryptSessionIndex (x : Z) (s : SessionArea) : SessionArea :=
  mkArea (s_sessionHandles s) (s_attributes s) (s_associatedHandles s) (s_nonceCaller s)
    (s_inputAuthValues s) x (s_decryptSessionIndex s) (s_auditSessionIndex s).
Definition set_s_decryptSessionIndex (x : Z) (s : SessionArea) : SessionArea :=
  mkArea (s_sessionHandles s) (s_attributes s) (s_associatedHandles s) (s_nonceCaller s)
    (s_inputAuthValues s) (s_encryptSessionIndex s) x (s_auditSessionIndex s).
Definition set_s_auditSessionIndex (x : Z) (s : SessionArea) : SessionArea :=
  mkArea (s_sessionHandles s) (s_attributes s) (s_associatedHandles s) (s_nonceCaller s)
    (s_inputAuthValues s) (s_encryptSessionIndex s) (s_decryptSessionIndex s) x.

Definition set_h_gp (x : HierPersistent) (s : HierState) : HierState :=
  mkHier x (h_nv s) (platformAuth s) (platformPolicy s) (platformAlg s) (ehEnable s) (g_phEnable
    s) (nullProof s) (nullSeed s).
Definition set_h_nv (x : HierPersistent) (s : HierState) : HierState :=
  mkHier (h_gp s) x (platformAuth s) (platformPolicy s) (platformAlg s) (ehEnable s) (g_phEnable
    s) (nullProof s) (nullSeed s).
Definition set_platformAuth (x : TPM2B) (s : HierState) : HierState :=
  mkHier (h_gp s) (h_nv s) x (platformPolicy s) (platformAlg s) (ehEnable s) (g_phEnable s)
    (nullProof s) (nullSeed s).
Definition set_platformPolicy (x : TPM2B) (s : HierState) : HierState :=
  mkHier (h_gp s) (h_nv s) (platformAuth s) x (platformAlg s) (ehEnable s) (g_phEnable s)
    (nullProof s) (nullSeed s).
Definition set_platformAlg (x : Z) (s : HierState) : HierState :=
  mkHier (h_gp s) (h_nv s) (platformAuth s) (platformPolicy s) x (ehEnable s) (g_phEnable s)
    (nullProof s) (nullSeed s).
Definition set_ehEnable (x : bool) (s : HierState) : HierState :=
  mkHier (h_gp s) (h_nv s) (platformAuth s) (platformPolicy s) (platformAlg s) x (g_phEnable s)
    (nullProof s) (nullSeed s).
Definition set_g_phEnable (x : bool) (s : HierState) : HierState :=
  mkHier (h_gp s) (h_nv s) (platformAuth s) (platformPolicy s) (platformAlg s) (ehEnable s) x
    (nullProof s) (nullSeed s).
Definition set_nullProof (x : TPM2B) (s : HierState) : HierState :=
  mkHier (h_gp s) (h_nv s) (platformAuth s) (platformPolicy s) (platformAlg s) (ehEnable s)
    (g_phEnable s) x (nullSeed s).
Definition set_nullSeed (x : TPM2B) (s : HierState) : HierState :=
  mkHier (h_gp s) (h_nv s) (platformAuth s) (platformPolicy s) (platformAlg s) (ehEnable s)
    (g_phEnable s) (nullProof s) x.

Definition set_auditCommands (x : bytes) (s : AuditState) : AuditState :=
  mkAudit x (auditHashAlg s) (auditCounter s) (nv_audit s) (commandAuditDigest s)
    (g_exclusiveAuditSession s).
Definition set_auditHashAlg (x : Z) (s : AuditState) : AuditState :=
  mkAudit (auditCommands s) x (auditCounter s) (nv_audit s) (commandAuditDigest s)
    (g_exclusiveAuditSession s).
Definition set_auditCounter (x : Z) (s : AuditState) : AuditState :=
  mkAudit (auditCommands s) (auditHashAlg s) x (nv_audit s) (commandAuditDigest s)
    (g_exclusiveAuditSession s).
Definition set_nv_audit (x : bytes * Z * Z) (s : AuditState) : AuditState :=
  mkAudit (auditCommands s) (auditHashAlg s) (auditCounter s) x (commandAuditDigest s)
    (g_exclusiveAuditSession s).
Definition set_commandAuditDigest (x : TPM2B) (s : AuditState) : AuditState :=
  mkAudit (auditCommands s) (auditHashAlg s) (auditCounter s) (nv_audit s) x
    (g_exclusiveAuditSession s).
Definition set_g_exclusiveAuditSession (x : Z) (s : AuditState) : AuditState :=
  mkAudit (auditCommands s) (auditHashAlg s) (auditCounter s) (nv_audit s) (commandAuditDigest
    s) x.

Definition set_t_time (x : TimeState) (t : Tpm) : Tpm :=
  mkTpm x (t_sess t) (t_pcr t) (t_hier t) (s_objects t) (t_audit t) (ppList t) (t_area t)
    (s_physicalPresence t) (g_DRTMHandle t).
Definition set_t_sess (x : SessState) (t : Tpm) : Tpm :=
  mkTpm (t_time t) x (t_pcr t) (t_hier t) (s_objects t) (t_audit t) (ppList t) (t_area t)
    (s_physicalPresence t) (g_DRTMHandle t).
Definition set_t_pcr (x : PcrState) (t : Tpm) : Tpm :=
  mkTpm (t_time t) (t_sess t) x (t_hier t) (s_objects t) (t_audit t) (ppList t) (t_area t)
    (s_physicalPresence t) (g_DRTMHandle t).
Definition set_t_hier (x : HierState) (t : Tpm) : Tpm :=
  mkTpm (t_time t) (t_sess t) (t_pcr t) x (s_objects t) (t_audit t) (ppList t) (t_area t)
    (s_physicalPresence t) (g_DRTMHandle t).
Definition set_s_objects (x : list OBJECT) (t : Tpm) : Tpm :=
  mkTpm (t_time t) (t_sess t) (t_pcr t) (t_hier t) x (t_audit t) (ppList t) (t_area t)
    (s_physicalPresence t) (g_DRTMHandle t).
Definition set_t_audit (x : AuditState) (t : Tpm) : Tpm :=
  mkTpm (t_time t) (t_sess t) (t_pcr t) (t_hier t) (s_objects t) x (ppList t) (t_area t)
    (s_physicalPresence t) (g_DRTMHandle t).
Definition set_ppList (x : bytes) (t : Tpm) : Tpm :=
  mkTpm (t_time t) (t_sess t) (t_pcr t) (t_hier t) (s_objects t) (t_audit t) x (t_area t)
    (s_physicalPresence t) (g_DRTMHandle t).
Definition set_t_area (x : SessionArea) (t : Tpm) : Tpm :=
  mkTpm (t_time t) (t_sess t) (t_pcr t) (t_hier t) (s_objects t) (t_audit t) (ppList t) x
    (s_physicalPresence t) (g_DRTMHandle t).
Definition set_s_physicalPresence (x : bool) (t : Tpm) : Tpm :=
  mkTpm (t_time t) (t_sess t) (t_pcr t) (t_hier t) (s_objects t) (t_audit t) (ppList t) (t_area
    t) x (g_DRTMHandle t).
Definition set_g_DRTMHandle (x : Z) (t : Tpm) : Tpm :=
  mkTpm (t_time t) (t_sess t) (t_pcr t) (t_hier t) (s_objects t) (t_audit t) (ppList t) (t_area
    t) (s_physicalPresence t) x.

Definition set_attributes (a : OBJECT_ATTRIBUTES) (o : OBJECT) : OBJECT :=
  mkObject a (o_publicArea o) (o_sensitive o) (o_qualifiedName o) (o_evictHandle o) (o_name o)
    (o_hierarchy o) (o_state o).

Definition nv_of (t : Tpm) : NvState := Time.nv (t_time t).
Definition failed (t : Tpm) : bool := g_inFailureMode (nv_of t).

#[global] Instance Tpm_fail : FailState Tpm :=
  {| set_failure := λ t, set_t_time (set_failure (t_time t)) t |}.

Definition fail_if_set (b : bool) (t : Tpm) : Tpm := if b then set_failure t else t.

(** Calls of the components. *)
Definition on_time {A} (m : M TimeState A) : M Tpm A := λ t,
  match m (t_time t) with Some (a, x) => Some (a, set_t_time x t) | None => None end.

Definition on_nv {A} (m : M NvState A) : M Tpm A := on_time (Time.on_nv m).

(** The sessions see the time, the epoch, the PCR counter and failure mode. *)
Definition sess_view (t : Tpm) : SessState :=
  let s := t_sess t in
  Session.mkSess (Session.contextArray s) (Session.contextCounter s) (Pcr.pcrCounter (t_pcr t))
    (Session.s_sessions s) (Session.s_oldestSavedSession s) (Session.s_freeSessionSlots s)
    (Time.g_time (t_time t)) (fget timeEpoch (Time.gp (t_time t))) (Session.rand s) (failed t).

Definition on_sess {A} (m : M SessState A) : M Tpm A := λ t,
  match m (sess_view t) with
  | Some (a, s) => Some (a, fail_if_set (Session.s_inFailureMode s) (set_t_sess s t))
  | None => None
  end.

(** Queries of the registers. *)
Definition on_pcr {A} (m : M PcrState A) : M Tpm A := λ t,
  match m (Pcr.set_p_failed (failed t) (t_pcr t)) with
  | Some (a, p) => Some (a, fail_if_set (Pcr.p_failed p) (set_t_pcr p t))
  | None => None
  end.

(** [if(g_NvStatus != TPM_RC_SUCCESS) return g_NvStatus;]
    ([RETURN_IF_NV_IS_NOT_AVAILABLE]). *)
Definition if_nv_available (k : M Tpm Z) : M Tpm Z :=
  let! status := gets (λ t, g_NvStatus (nv_of t)) in
  if status =? TPM_RC_SUCCESS then k else ret status.
End tpm.
