(* ===== verification/Hierarchy.v ===== *)
(** * Hierarchies (src/Hierarchy.c)

    The enables, authorization values, policies, seeds and proofs of the
    hierarchies, and the handles that limit a hierarchy to a firmware image or
    to a security version number.  [FW_LIMITED_SUPPORT] and
    [SVN_LIMITED_SUPPORT] are set in this build. *)

From S2P Require Import Prelude TpmTypes Memory Struct Kdf NVReserved WireTypes.
From S2P Require Import Pcr Session Time TpmState.
Local Open Scope Z_scope.

(** ** Constants (TpmTypes.h, Global.c, TpmCalculatedAttributes.h) *)

Definition TPM_RC_FW_LIMITED : Z := RC_FMT1 + 0x028.
Definition TPM_RC_SVN_LIMITED : Z := RC_FMT1 + 0x029.
Definition TPM_RH_FW_OWNER : Z := 0x40000140.
Definition TPM_RH_FW_ENDORSEMENT : Z := 0x40000141.
Definition TPM_RH_FW_PLATFORM : Z := 0x40000142.
Definition TPM_RH_SVN_OWNER_BASE : Z := 0x40010000.
Definition TPM_RH_SVN_ENDORSEMENT_BASE : Z := 0x40020000.
Definition TPM_RH_SVN_PLATFORM_BASE : Z := 0x40030000.
Definition TPM_RH_SVN_NULL_BASE : Z := 0x40040000.
Definition PRIMARY_SEED_SIZE : Z := 64.
Definition CONTEXT_INTEGRITY_HASH_ALG : Z := TPM_ALG_SHA512.

(** The octets of the strings H_PROOF_SECRET, H_SEED_SECRET, H_FW_SECRET and
    H_SVN_SECRET, with their terminators. *)
Definition HIERARCHY_PROOF_SECRET_LABEL : bytes :=
  [0x48; 0x5F; 0x50; 0x52; 0x4F; 0x4F; 0x46; 0x5F; 0x53; 0x45; 0x43; 0x52; 0x45; 0x54; 0].
Definition HIERARCHY_SEED_SECRET_LABEL : bytes :=
  [0x48; 0x5F; 0x53; 0x45; 0x45; 0x44; 0x5F; 0x53; 0x45; 0x43; 0x52; 0x45; 0x54; 0].
Definition HIERARCHY_FW_SECRET_LABEL : bytes :=
  [0x48; 0x5F; 0x46; 0x57; 0x5F; 0x53; 0x45; 0x43; 0x52; 0x45; 0x54; 0].
Definition HIERARCHY_SVN_SECRET_LABEL : bytes :=
  [0x48; 0x5F; 0x53; 0x56; 0x4E; 0x5F; 0x53; 0x45; 0x43; 0x52; 0x45; 0x54; 0].

(** ** The firmware (VendorInfo.c)

    [currentSvn] and [currentHash] keep their initial values: only the simulator
    interface (TPMCmdp.c) calls the functions that set them. *)
Definition currentSvn : Z := 10.
Definition currentHash : Z := 0x00120000.
Definition plat__GetTpmFirmwareSvn : Z := currentSvn.

(** [secret_buf[i] = ((uint8_t * )&value)[i % sizeof(value)]] for all of the
    buffer. *)
Definition repeat_octets (value : Z) (width size : nat) : bytes :=
  (λ i, List.nth (i mod width) (le_bytes width value) 0) <$> seq 0 size.

Definition plat__GetTpmFirmwareSvnSecret (svn secret_buf_size : Z) : option bytes :=
  if currentSvn <? svn then None else Some (repeat_octets svn 2 (Z.to_nat secret_buf_size)).

Definition plat__GetTpmFirmwareSecret (secret_buf_size : Z) : option bytes :=
  Some (repeat_octets currentHash 4 (Z.to_nat secret_buf_size)).

(** ** Handles *)

Inductive HIERARCHY_MODIFIER := HM_NONE | HM_FW_LIMITED | HM_SVN_LIMITED (min_svn : Z).

Definition DecomposeHandle (handle : Z) : Z * HIERARCHY_MODIFIER :=
  if handle =? TPM_RH_FW_OWNER then (TPM_RH_OWNER, HM_FW_LIMITED)
  else if handle =? TPM_RH_FW_ENDORSEMENT then (TPM_RH_ENDORSEMENT, HM_FW_LIMITED)
  else if handle =? TPM_RH_FW_PLATFORM then (TPM_RH_PLATFORM, HM_FW_LIMITED)
  else if handle =? TPM_RH_FW_NULL then (TPM_RH_NULL, HM_FW_LIMITED)
  else
    let base := Z.land handle 0xFFFF0000 in
    let limited := HM_SVN_LIMITED (Z.land handle 0x0000FFFF) in
    if base =? TPM_RH_SVN_OWNER_BASE then (TPM_RH_OWNER, limited)
    else if base =? TPM_RH_SVN_ENDORSEMENT_BASE then (TPM_RH_ENDORSEMENT, limited)
    else if base =? TPM_RH_SVN_PLATFORM_BASE then (TPM_RH_PLATFORM, limited)
    else if base =? TPM_RH_SVN_NULL_BASE then (TPM_RH_NULL, limited)
    else (handle, HM_NONE).

Definition HierarchyNormalizeHandle (handle : Z) : Z := (DecomposeHandle handle).1.

Definition HierarchyIsFirmwareLimited (handle : Z) : bool :=
  match (DecomposeHandle handle).2 with HM_FW_LIMITED => true | _ => false end.

Definition HierarchyIsSvnLimited (handle : Z) : bool :=
  match (DecomposeHandle handle).2 with HM_SVN_LIMITED _ => true | _ => false end.

Section hierarchy.
Context `{TimeLayout} `{CryptEnv}.

(** [CryptRandomGenerate(size, buffer)]. *)
Definition random (size : Z) : M Tpm bytes :=
  let! s := gets t_sess in
  let '(b, r) := CryptRandomGenerate (rand s) size in
  modify (set_t_sess (set_rand r s)) ;; ret b.

(** [x.t.size = sizeof(x.t.buffer); CryptRandomGenerate(x.t.size, x.t.buffer);] *)
Definition random2B (x : TPM2B) : M Tpm TPM2B :=
  let! b := random (blen (buffer2B x)) in ret (mkTPM2B (blen (buffer2B x)) b).

(** ** Installation and startup *)

(** Every member is written to NV after the values have been set. *)
Definition HierarchyPreInstall_Init : M Tpm unit :=
  let! p := gets (λ t, h_gp (t_hier t)) in
  let! eps := random2B (EPSeed p) in
  let! sps := random2B (SPSeed p) in
  let! pps := random2B (PPSeed p) in
  let! ph := random2B (phProof p) in
  let! sh := random2B (shProof p) in
  let! eh := random2B (ehProof p) in
  let p := mkHierP false eps sps pps
             (set_size (ownerAuth p) 0) (set_size (endorsementAuth p) 0) (set_size (lockoutAuth p) 0)
             TPM_ALG_NULL (set_size (ownerPolicy p) 0) TPM_ALG_NULL (set_size (endorsementPolicy p) 0)
             TPM_ALG_NULL (set_size (lockoutPolicy p) 0) ph sh eh in
  modify (λ t, set_t_hier (set_h_nv p (set_h_gp p (t_hier t))) t).

Definition set_enables (shEnable phEnableNV : bool) (s : NvState) : NvState :=
  mkNvState (plat s) (s_evictNvEnd s) (s_indexOrderlyRam s) (s_maxCounter s) (s_cachedNvIndex s)
    (s_cachedNvRef s) (s_cachedNvRamRef s) (g_NvStatus s) (g_updateNV s) (g_clearOrderly s)
    (g_inFailureMode s) shEnable phEnableNV (g_prevOrderlyState s).

Definition HierarchyStartup (type : STARTUP_TYPE) : M Tpm bool :=
  modify (λ t, set_t_hier (set_g_phEnable true (t_hier t)) t) ;;
  (if bool_decide (type ≠ SU_RESUME) then
     modify (λ t, let h := t_hier t in
       set_t_hier (set_ehEnable true (set_platformAlg TPM_ALG_NULL
         (set_platformPolicy (set_size (platformPolicy h) 0)
           (set_platformAuth (set_size (platformAuth h) 0) h)))) t) ;;
     on_nv (modify (set_enables true true))
   else ret tt) ;;
  (if bool_decide (type ≠ SU_RESTART) && bool_decide (type ≠ SU_RESUME) then
     let! h := gets t_hier in
     let! proof := random2B (nullProof h) in
     let! seed := random2B (nullSeed h) in
     modify (λ t, set_t_hier (set_nullSeed seed (set_nullProof proof (t_hier t))) t)
   else ret tt) ;;
  ret true.

(** ** Secrets: the response code, or the secret. *)

Definition GetAdditionalSecret (modifier : HIERARCHY_MODIFIER) (size : Z)
  : Z + option (bytes * bytes) :=
  match modifier with
  | HM_FW_LIMITED =>
      match plat__GetTpmFirmwareSecret size with
      | None => inl TPM_RC_FW_LIMITED
      | Some s => inr (Some (s, HIERARCHY_FW_SECRET_LABEL))
      end
  | HM_SVN_LIMITED min_svn =>
      match plat__GetTpmFirmwareSvnSecret min_svn size with
      | None => inl TPM_RC_SVN_LIMITED
      | Some s => inr (Some (s, HIERARCHY_SVN_SECRET_LABEL))
      end
  | HM_NONE => inr None
  end.

Section secrets.
Context `{HashLib}.

(** [additional_secret] is a [TPM2B_SEED], whose buffer has
    [PRIMARY_SEED_SIZE] octets. *)
Definition MixAdditionalSecret (modifier : HIERARCHY_MODIFIER)
    (base_secret_label : bytes) (base_secret : TPM2B) : Z + bytes :=
  match GetAdditionalSecret modifier PRIMARY_SEED_SIZE with
  | inl result => inl result
  | inr None => inr (contents base_secret)
  | inr (Some (secret, label)) =>
      inr (CryptKDFa CONTEXT_INTEGRITY_HASH_ALG (contents base_secret) base_secret_label secret label
             (size2B base_secret * 8))
  end.

Definition HierarchyGetProof (hierarchy : Z) (t : Tpm) : Z + bytes :=
  let '(base, modifier) := DecomposeHandle hierarchy in
  let h := t_hier t in
  let base_proof :=
    if base =? TPM_RH_PLATFORM then phProof (h_gp h)
    else if base =? TPM_RH_ENDORSEMENT then ehProof (h_gp h)
    else if base =? TPM_RH_OWNER then shProof (h_gp h)
    else nullProof h in
  MixAdditionalSecret modifier HIERARCHY_PROOF_SECRET_LABEL base_proof.

Definition HierarchyGetPrimarySeed (hierarchy : Z) (t : Tpm) : Z + bytes :=
  let '(base, modifier) := DecomposeHandle hierarchy in
  let h := t_hier t in
  let base_seed :=
    if base =? TPM_RH_PLATFORM then PPSeed (h_gp h)
    else if base =? TPM_RH_OWNER then SPSeed (h_gp h)
    else if base =? TPM_RH_ENDORSEMENT then EPSeed (h_gp h)
    else nullSeed h in
  MixAdditionalSecret modifier HIERARCHY_SEED_SECRET_LABEL base_seed.

End secrets.

(** ** Enables *)

Definition ValidateHierarchy (hierarchy : Z) (t : Tpm) : Z :=
  let '(base, modifier) := DecomposeHandle hierarchy in
  let limited :=
    match modifier with HM_SVN_LIMITED min_svn => plat__GetTpmFirmwareSvn <? min_svn | _ => false end in
  let enabled (b : bool) := if b then TPM_RC_SUCCESS else TPM_RC_HIERARCHY in
  if limited then TPM_RC_SVN_LIMITED
  else if base =? TPM_RH_PLATFORM then enabled (g_phEnable (t_hier t))
  else if base =? TPM_RH_OWNER then enabled (gc_shEnable (nv_of t))
  else if base =? TPM_RH_ENDORSEMENT then enabled (ehEnable (t_hier t))
  else if base =? TPM_RH_NULL then enabled true
  else TPM_RC_VALUE.

Definition HierarchyIsEnabled (hierarchy : Z) (t : Tpm) : bool :=
  ValidateHierarchy hierarchy t =? TPM_RC_SUCCESS.
End hierarchy.
