(* ===== verification/ObjectStore.v ===== *)
(** * Object slots (src/Object.c)

    The slots of the loaded objects and the operations on them.  A pointer to an
    object is the index of its slot; reading or writing a slot outside the
    array has no result.  [ObjectLoad] and the HMAC sequences work on keys with
    the asymmetric and symmetric algorithms and are not part of this file. *)

From S2P Require Import Prelude TpmTypes Memory Struct Cbc NVMem NVReserved Clock NvList NvRam NvIndex NvCap WireTypes.
From S2P Require Import Pcr Session Time TpmState Hierarchy CommandAttributes.
Local Open Scope Z_scope.

(** ** Constants (TpmTypes.h, TpmProfile_Misc.h) *)

Definition MAX_LOADED_OBJECTS : Z := 3.
Definition TPM_RC_OBJECT_MEMORY : Z := RC_WARN + 0x002.
Definition TPM_CC_EvictControl : Z := 0x120.
Definition TPMA_OBJECT_fixedTPM : Z := Z.shiftl 1 1.
Definition TPMA_OBJECT_stClear : Z := Z.shiftl 1 2.
Definition TPMA_OBJECT_userWithAuth : Z := Z.shiftl 1 6.
Definition TPMA_OBJECT_adminWithPolicy : Z := Z.shiftl 1 7.
Definition TPMA_OBJECT_noDA : Z := Z.shiftl 1 10.
Definition TPMA_OBJECT_restricted : Z := Z.shiftl 1 16.
Definition TPMA_OBJECT_decrypt : Z := Z.shiftl 1 17.
Definition TPMA_OBJECT_sign : Z := Z.shiftl 1 18.

Definition set_occupied (b : bool) (a : OBJECT_ATTRIBUTES) : OBJECT_ATTRIBUTES :=
  mkObjAttr (publicOnly a) (epsHierarchy a) (ppsHierarchy a) (spsHierarchy a) (evict a) (primary a)
    (temporary a) (stClear a) (hmacSeq a) (hashSeq a) (eventSeq a) (ticketSafe a) (firstBlock a)
    (isParent a) b (derivation a) (external a).

Definition set_hierarchy (h : Z) (o : OBJECT) : OBJECT :=
  mkObject (o_attributes o) (o_publicArea o) (o_sensitive o) (o_qualifiedName o) (o_evictHandle o)
    (o_name o) h (o_state o).

Definition occupy (b : bool) (o : OBJECT) : OBJECT :=
  set_attributes (set_occupied b (o_attributes o)) o.

Definition ObjectIsSequence (object : OBJECT) : bool :=
  hmacSeq (o_attributes object) || hashSeq (o_attributes object) || eventSeq (o_attributes object).

(** The octets of an [OBJECT] in NV, as the structure the compiler makes of
    them; the evict attribute and the handle are where the NV code sets them. *)
Class ObjectImage `{NvLayout} := {
  OBJECT_of : bytes → OBJECT;
  OBJECT_of_evict o : evict (o_attributes (OBJECT_of (set_evict o))) = true;
}.

Section objects.
Context `{TimeLayout} `{CryptEnv}.

Definition object_get (i : Z) : M Tpm OBJECT :=
  let! l := gets s_objects in of_option (if i <? 0 then None else l !! Z.to_nat i).
Definition object_set (i : Z) (o : OBJECT) : M Tpm unit :=
  let! l := gets s_objects in
  if (0 <=? i) && (i <? Z.of_nat (length l)) then modify (set_s_objects (<[Z.to_nat i := o]> l))
  else undef.

(** ** Occupation of the slots *)

Definition ObjectFlush (object : Z) : M Tpm unit :=
  let! o := object_get object in object_set object (occupy false o).

Definition ObjectSetInUse (object : Z) : M Tpm unit :=
  let! o := object_get object in object_set object (occupy true o).

Definition slots : list Z := seqZ 0 MAX_LOADED_OBJECTS.

Definition ObjectStartup : M Tpm bool := for_each slots ObjectFlush ;; ret true.

Definition ObjectCleanupEvict : M Tpm unit :=
  for_each slots (λ i,
    let! o := object_get i in if evict (o_attributes o) then ObjectFlush i else ret tt).

Definition IsObjectPresent (handle : Z) : M Tpm bool :=
  let slotIndex := u32 (handle - TRANSIENT_FIRST) in
  if MAX_LOADED_OBJECTS <=? slotIndex then ret false
  else let! o := object_get slotIndex in ret (occupied (o_attributes o)).

(** [None] is [NULL]. *)
Definition HandleToObject (handle : Z) : M Tpm (option Z) :=
  if HandleGetType handle =? TPM_HT_PERMANENT then ret None
  else
    let index := u32 (handle - TRANSIENT_FIRST) in
    pAssert (index <? MAX_LOADED_OBJECTS) ;;
    let! o := object_get index in
    pAssert (occupied (o_attributes o)) ;;
    ret (Some index).

(** [*HandleToObject(handle)]. *)
Definition object_of (handle : Z) : M Tpm OBJECT :=
  let! p := HandleToObject handle in
  match p with Some i => object_get i | None => undef end.

Definition GetHierarchy (handle : Z) : M Tpm Z :=
  let! o := object_of handle in ret (o_hierarchy o).
Definition ObjectGetPublicAttributes (handle : Z) : M Tpm Z :=
  let! o := object_of handle in ret (TPMT_PUBLIC_objectAttributes (o_publicArea o)).
Definition ObjectGetProperties (handle : Z) : M Tpm OBJECT_ATTRIBUTES :=
  let! o := object_of handle in ret (o_attributes o).

(** [qualifiedName] is what the out parameter has on entry. *)
Definition GetQualifiedName (handle : Z) (qualifiedName : TPM2B) : M Tpm TPM2B :=
  let type := HandleGetType handle in
  if type =? TPM_HT_PERMANENT then ret (mkTPM2B 4 (Uint32ToByteArray handle))
  else if type =? TPM_HT_TRANSIENT then
    let! o := object_of handle in
    ret (if TPMT_PUBLIC_nameAlg (o_publicArea o) =? TPM_ALG_NULL then mkTPM2B 0 [] else o_qualifiedName o)
  else modify set_failure ;; ret qualifiedName.

(** ** Allocation *)

Fixpoint FindEmptyObjectSlot_loop (slots : list Z) : M Tpm (option Z) :=
  match slots with
  | [] => ret None
  | i :: slots =>
      let! o := object_get i in
      if occupied (o_attributes o) then FindEmptyObjectSlot_loop slots
      else object_set i (set_hierarchy TPM_RH_NULL (set_attributes no_attributes o)) ;; ret (Some i)
  end.

(** The slot; its handle is [i + TRANSIENT_FIRST]. *)
Definition FindEmptyObjectSlot : M Tpm (option Z) := FindEmptyObjectSlot_loop slots.

Definition ObjectAllocateSlot : M Tpm (option Z) :=
  let! p := FindEmptyObjectSlot in
  match p with Some i => ObjectSetInUse i ;; ret (Some i) | None => ret None end.

Definition FlushObject (handle : Z) : M Tpm unit :=
  let index := u32 (handle - TRANSIENT_FIRST) in
  pAssert (index <? MAX_LOADED_OBJECTS) ;;
  let! o := object_get index in object_set index (set_attributes no_attributes o).

(** ** Names *)

Section names.
Context `{HashLib}.

(** [qualifiedName] is the out parameter on entry; for a hash without an
    implementation nothing but the algorithm is stored. *)
Definition ComputeQualifiedName (parentHandle nameAlg : Z) (name : TPM2B) : M Tpm TPM2B :=
  if parentHandle =? TPM_RH_UNASSIGNED then ret name
  else
    let! parentName := GetQualifiedName parentHandle (mkTPM2B 0 []) in
    let digest := Hash nameAlg (contents parentName ++ contents name) in
    ret (mkTPM2B (u16 (blen digest + 2)) (Uint16ToByteArray nameAlg ++ digest)).

(** ** The attributes of a loaded object *)

(** The attributes that depend on the parent: [NULL] for a hierarchy. *)
Definition inherited (object : OBJECT) (parentHandle : Z) (parent : option OBJECT)
  : OBJECT_ATTRIBUTES * Z :=
  let a := o_attributes object in
  let clear := IS_ATTRIBUTE (TPMT_PUBLIC_objectAttributes (o_publicArea object)) TPMA_OBJECT_stClear in
  match parent with
  | None =>
      let base := HierarchyNormalizeHandle parentHandle in
      let e := base =? TPM_RH_ENDORSEMENT in
      let o := base =? TPM_RH_OWNER in
      let p := base =? TPM_RH_PLATFORM in
      let other := negb (e || o || p) in
      (mkObjAttr (publicOnly a) (epsHierarchy a || e) (ppsHierarchy a || p) (spsHierarchy a || o)
         (evict a) (negb other) (temporary a || other) clear (hmacSeq a) (hashSeq a) (eventSeq a)
         (ticketSafe a) (firstBlock a) (isParent a) (occupied a) (derivation a) (external a),
       parentHandle)
  | Some parent =>
      let b := o_attributes parent in
      (mkObjAttr (publicOnly a) (epsHierarchy b) (ppsHierarchy b) (spsHierarchy b) (evict a) (primary a)
         (temporary b || external a) (clear || stClear b) (hmacSeq a) (hashSeq a) (eventSeq a)
         (ticketSafe a) (firstBlock a) (isParent a) (occupied a) (derivation a) (external a),
       o_hierarchy parent)
  end.

(** Whether the object is a parent, and of which kind. *)
Definition parenthood (object : OBJECT) (a : OBJECT_ATTRIBUTES) : OBJECT_ATTRIBUTES :=
  let p := o_publicArea object in
  let attr := TPMT_PUBLIC_objectAttributes p in
  let parent := IS_ATTRIBUTE attr TPMA_OBJECT_restricted && negb (publicOnly a)
                && IS_ATTRIBUTE attr TPMA_OBJECT_decrypt
                && negb (TPMT_PUBLIC_nameAlg p =? TPM_ALG_NULL) in
  let keyedhash := TPMT_PUBLIC_type p =? TPM_ALG_KEYEDHASH in
  mkObjAttr (publicOnly a) (epsHierarchy a) (ppsHierarchy a) (spsHierarchy a) (evict a) (primary a)
    (temporary a) (stClear a) (hmacSeq a) (hashSeq a) (eventSeq a) (ticketSafe a) (firstBlock a)
    (isParent a || parent && negb keyedhash) (occupied a) (derivation a || parent && keyedhash)
    (external a).

Definition ObjectSetLoadedAttributes (object parentHandle : Z) : M Tpm unit :=
  let! p := HandleToObject parentHandle in
  let! parent := match p with Some i => let! o := object_get i in ret (Some o) | None => ret None end in
  let! o := object_get object in
  let '(a, hierarchy) := inherited o parentHandle parent in
  let store a qn :=
    object_set object (mkObject (set_occupied true a) (o_publicArea o) (o_sensitive o) qn
      (o_evictHandle o) (o_name o) hierarchy (o_state o)) in
  if external a then store a (o_name o)
  else
    let! qn := ComputeQualifiedName parentHandle (TPMT_PUBLIC_nameAlg (o_publicArea o)) (o_name o) in
    store (parenthood o a) qn.
End names.

(** ** Sequence objects *)

Definition sequence_public (p : TPMT_PUBLIC) (auth : TPM2B) : TPMT_PUBLIC :=
  mkTPMT_PUBLIC TPM_ALG_NULL TPM_ALG_NULL TPMA_OBJECT_noDA auth (TPMT_PUBLIC_parameters p)
    (TPMT_PUBLIC_unique p).

(** The attributes of a sequence in a slot that was just cleared. *)
Definition sequence_attributes (hash event : bool) : OBJECT_ATTRIBUTES :=
  mkObjAttr false false false false false false true false false hash event false false false true
    false false.

Definition AllocateSequenceSlot (auth : option TPM2B) : M Tpm (option Z) :=
  let! p := ObjectAllocateSlot in
  match p with
  | None => ret None
  | Some i =>
      let! o := object_get i in
      let pub := o_publicArea o in
      let a := match auth with Some a => a | None => set_size (TPMT_PUBLIC_authPolicy pub) 0 end in
      object_set i (mkObject (sequence_attributes false false) (sequence_public pub a) (o_sensitive o)
        (o_qualifiedName o) (o_evictHandle o) (o_name o) (o_hierarchy o) (o_state o)) ;;
      ret (Some i)
  end.

(** Starts the contexts of the algorithms; the handle is the result. *)
Definition start_sequence (event : bool) (algs : list Z) (auth : option TPM2B) : M Tpm (Z * Z) :=
  let! p := AllocateSequenceSlot auth in
  match p with
  | None => ret (TPM_RC_OBJECT_MEMORY, 0)
  | Some i =>
      let! o := object_get i in
      object_set i (mkObject (sequence_attributes (negb event) event) (o_publicArea o) (o_sensitive o)
        (o_qualifiedName o) (o_evictHandle o) (o_name o) (o_hierarchy o) ((λ a, (a, [])) <$> algs)) ;;
      ret (TPM_RC_SUCCESS, i + TRANSIENT_FIRST)
  end.

Definition ObjectCreateHashSequence (hashAlg : Z) (auth : option TPM2B) : M Tpm (Z * Z) :=
  start_sequence false [hashAlg] auth.
Definition ObjectCreateEventSequence (auth : option TPM2B) : M Tpm (Z * Z) :=
  start_sequence true hash_algs auth.

Definition ObjectTerminateEvent : M Tpm unit :=
  let! h := gets g_DRTMHandle in
  let! o := object_of h in
  (if eventSeq (o_attributes o) then FlushObject h else ret tt) ;;
  modify (set_g_DRTMHandle TPM_RH_UNASSIGNED).

(** ** Hierarchies and persistent objects *)

Definition in_hierarchy (hierarchy : Z) (a : OBJECT_ATTRIBUTES) : option bool :=
  if hierarchy =? TPM_RH_PLATFORM then Some (ppsHierarchy a)
  else if hierarchy =? TPM_RH_OWNER then Some (spsHierarchy a)
  else if hierarchy =? TPM_RH_ENDORSEMENT then Some (epsHierarchy a)
  else None.

Definition ObjectFlushHierarchy (hierarchy : Z) : M Tpm unit :=
  for_each slots (λ i,
    let! o := object_get i in
    if occupied (o_attributes o) then
      match in_hierarchy hierarchy (o_attributes o) with
      | Some true => ObjectFlush i
      | Some false => ret tt
      | None => modify set_failure
      end
    else ret tt).

(** The result is the response code and the new value of [*handle]. *)
Definition ObjectLoadEvict `{!ObjectImage} (handle commandIndex : Z) : M Tpm (Z * Z) :=
  let! h := gets t_hier in
  let! sh := gets (λ t, gc_shEnable (nv_of t)) in
  let enabled := if PLATFORM_PERSISTENT <=? handle then g_phEnable h else sh in
  if negb enabled then ret (TPM_RC_HANDLE, handle)
  else
    let! p := ObjectAllocateSlot in
    match p with
    | None => ret (TPM_RC_OBJECT_MEMORY, handle)
    | Some i =>
        let newHandle := i + TRANSIENT_FIRST in
        let! '(result, image) := on_nv (NvGetEvictObject handle []) in
        if negb (result =? TPM_RC_SUCCESS) then
          (* the object in the slot is marked as an evict object all the same *)
          let! o := object_get i in
          let a := o_attributes o in
          object_set i (set_attributes (mkObjAttr (publicOnly a) (epsHierarchy a) (ppsHierarchy a)
            (spsHierarchy a) true (primary a) (temporary a) (stClear a) (hmacSeq a) (hashSeq a)
            (eventSeq a) (ticketSafe a) (firstBlock a) (isParent a) (occupied a) (derivation a)
            (external a)) o) ;;
          ret (result, newHandle)
        else
          let o := OBJECT_of image in
          object_set i o ;;
          let! code := of_option (GetCommandCode commandIndex) in
          ret (if (HierarchyNormalizeHandle (o_hierarchy o) =? TPM_RH_ENDORSEMENT) && negb (ehEnable h)
                  && negb (code =? TPM_CC_EvictControl)
               then TPM_RC_HANDLE else result, newHandle)
    end.

(** ** Queries *)

Definition ObjectIsStorage (handle : Z) : M Tpm bool :=
  let! p := HandleToObject handle in
  match p with
  | None => ret false
  | Some i =>
      let! o := object_get i in
      let pub := o_publicArea o in
      let attr := TPMT_PUBLIC_objectAttributes pub in
      ret (IS_ATTRIBUTE attr TPMA_OBJECT_restricted && IS_ATTRIBUTE attr TPMA_OBJECT_decrypt
           && negb (IS_ATTRIBUTE attr TPMA_OBJECT_sign)
           && ((TPMT_PUBLIC_type pub =? TPM_ALG_RSA) || (TPMT_PUBLIC_type pub =? TPM_ALG_ECC)))
  end.

(** The list and whether there are more handles. *)
Fixpoint ObjectCapGetLoaded_loop (slots : list Z) (count : Z) (acc : list Z) : M Tpm (list Z * bool) :=
  match slots with
  | [] => ret (acc, false)
  | i :: slots =>
      let! o := object_get i in
      if occupied (o_attributes o) then
        pAssert (negb (evict (o_attributes o))) ;;
        if Z.of_nat (length acc) <? count
        then ObjectCapGetLoaded_loop slots count (acc ++ [i + TRANSIENT_FIRST])
        else ret (acc, true)
      else ObjectCapGetLoaded_loop slots count acc
  end.

(** The slots from [handle] on. *)
Definition slots_from (handle : Z) : list Z :=
  filter (λ i, u32 (handle - TRANSIENT_FIRST) ≤ i) slots.

Definition ObjectCapGetLoaded (handle count : Z) : M Tpm (list Z * bool) :=
  pAssert (HandleGetType handle =? TPM_HT_TRANSIENT) ;;
  ObjectCapGetLoaded_loop (slots_from handle) (Z.min count MAX_CAP_HANDLES) [].

Fixpoint ObjectCapGetOneLoaded_loop (slots : list Z) : M Tpm bool :=
  match slots with
  | [] => ret false
  | i :: slots =>
      let! o := object_get i in
      if occupied (o_attributes o) then pAssert (negb (evict (o_attributes o))) ;; ret true
      else ObjectCapGetOneLoaded_loop slots
  end.

Definition ObjectCapGetOneLoaded (handle : Z) : M Tpm bool :=
  pAssert (HandleGetType handle =? TPM_HT_TRANSIENT) ;;
  ObjectCapGetOneLoaded_loop (slots_from handle).

Fixpoint ObjectCapGetTransientAvail_loop (slots : list Z) (num : Z) : M Tpm Z :=
  match slots with
  | [] => ret num
  | i :: slots =>
      let! o := object_get i in
      ObjectCapGetTransientAvail_loop slots (if occupied (o_attributes o) then num else num + 1)
  end.
Definition ObjectCapGetTransientAvail : M Tpm Z := ObjectCapGetTransientAvail_loop slots 0.
End objects.
