(* ===== verification/Entity.v ===== *)
(** * Entities (src/Entity.c)

    The properties of what a handle refers to, whatever its type: whether it is
    there, its authorization value and policy, its Name and its hierarchy.  An
    authorization value is copied to a buffer of the size of the largest digest
    ([sizeof_TPMU_HA]); its octets past the size are never read, and start out
    as zero here. *)

From S2P Require Import Prelude TpmTypes Memory Struct Cbc NVMem NVReserved Clock NvList NvRam NvIndex NvCmd WireTypes.
From S2P Require Import Pcr Session Time TpmState Hierarchy ObjectStore CommandAttributes.
Local Open Scope Z_scope.

Definition TPM_ALG_ERROR : Z := 0x0000.
Definition TPM_RC_REFERENCE_H0 : Z := RC_WARN + 0x010.

(** [g_rcIndex] (Global.c): the number of a handle, session or parameter. *)
Definition g_rcIndex (i : Z) : Z := (i + 1) * TPM_RC_1.

Section entity.
Context `{TimeLayout} `{CryptEnv} `{HashLib}.

(** ** Index data of a command's NV index *)

(** [NvGetIndexInfo(handle, NULL)], dereferenced. *)
Definition nv_index (handle : Z) : M Tpm bytes :=
  let! r := on_nv (NvGetIndexInfo handle) in
  match r with
  | Some _ => gets (λ t, s_cachedNvIndex (nv_of t))
  | None => undef
  end.

Definition index_authValue (idx : bytes) : TPM2B :=
  mkTPM2B (auth_size (bread idx offsetof_authValue 66)) (bread idx (offsetof_authValue + 2) 64).

(** ** Load status *)

Definition permanent_status (handle : Z) (t : Tpm) : Z :=
  if (handle =? TPM_RS_PW) || (handle =? TPM_RH_LOCKOUT) then TPM_RC_SUCCESS
  else if (TPM_RH_AUTH_00 <=? handle) && (handle <=? TPM_RH_AUTH_FF) then TPM_RC_VALUE
  else ValidateHierarchy handle t.

(** A session of the type [policy] in the handle. *)
Definition session_status (handle : Z) (policy : bool) : M Tpm Z :=
  let! loaded := on_sess (SessionIsLoaded handle) in
  if loaded then
    let! i := on_sess (SessionGet handle) in
    let! sl := on_sess (slot_get i) in
    ret (if Bool.eqb (isPolicy (attributes (session sl))) policy then TPM_RC_SUCCESS else TPM_RC_HANDLE)
  else ret TPM_RC_REFERENCE_H0.

Section status.
Context `{!ObjectImage}.

(** The response code for one handle and what the handle is replaced by. *)
Definition handle_status (index handle : Z) : M Tpm (Z * Z) :=
  let type := HandleGetType handle in
  let same m := let! rc := m in ret (rc, handle) in
  if type =? TPM_HT_PERMANENT then same (gets (permanent_status handle))
  else if type =? TPM_HT_TRANSIENT then
    same (let! present := IsObjectPresent handle in
          ret (if present then TPM_RC_SUCCESS else TPM_RC_REFERENCE_H0))
  else if type =? TPM_HT_PERSISTENT then ObjectLoadEvict handle index
  else if type =? TPM_HT_HMAC_SESSION then same (session_status handle false)
  else if type =? TPM_HT_POLICY_SESSION then same (session_status handle true)
  else if type =? TPM_HT_NV_INDEX then same (on_nv (NvIndexIsAccessible handle))
  else if type =? TPM_HT_PCR then same (ret TPM_RC_SUCCESS)
  else if (type =? TPM_HT_EXTERNAL_NV) || (type =? TPM_HT_PERMANENT_NV) then same (ret TPM_RC_VALUE)
  else same (modify set_failure ;; ret TPM_RC_SUCCESS).

(** [handles] are those of the command, from number [i] on. *)
Fixpoint EntityGetLoadStatus_loop (index i : Z) (handles : list Z) : M Tpm (Z * list Z) :=
  match handles with
  | [] => ret (TPM_RC_SUCCESS, [])
  | h :: handles =>
      let! '(result, h) := handle_status index h in
      if negb (result =? TPM_RC_SUCCESS) then
        ret (if result =? TPM_RC_REFERENCE_H0 then result + i
             else RcSafeAddToResult result (TPM_RC_H + g_rcIndex i), h :: handles)
      else
        let! '(result, handles) := EntityGetLoadStatus_loop index (i + 1) handles in
        ret (result, h :: handles)
  end.

(** [command->index] and the [command->handleNum] handles of the command. *)
Definition EntityGetLoadStatus (index : Z) (handles : list Z) : M Tpm (Z * list Z) :=
  EntityGetLoadStatus_loop index 0 handles.
End status.

(** ** Authorization values and policies *)

(** [pAuth]: [NULL] where the handle is none that has a value. *)
Definition auth_pointer (handle : Z) : M Tpm (option TPM2B) :=
  let type := HandleGetType handle in
  if type =? TPM_HT_PERMANENT then
    let! h := gets t_hier in
    let base := HierarchyNormalizeHandle handle in
    if base =? TPM_RH_OWNER then ret (Some (ownerAuth (h_gp h)))
    else if base =? TPM_RH_ENDORSEMENT then ret (Some (endorsementAuth (h_gp h)))
    else if base =? TPM_RH_PLATFORM then ret (Some (platformAuth h))
    else if base =? TPM_RH_LOCKOUT then ret (Some (lockoutAuth (h_gp h)))
    else if base =? TPM_RH_NULL then ret None
    else modify set_failure ;; ret None
  else if type =? TPM_HT_TRANSIENT then
    let! o := object_of handle in
    if ObjectIsSequence o then ret (Some (TPMT_PUBLIC_authPolicy (o_publicArea o)))
    else
      pAssert (negb (publicOnly (o_attributes o))) ;;
      ret (Some (TPMT_SENSITIVE_authValue (o_sensitive o)))
  else if type =? TPM_HT_NV_INDEX then
    let! idx := nv_index handle in ret (Some (index_authValue idx))
  else if type =? TPM_HT_PCR then on_pcr (PCRGetAuthValue handle)
  else modify set_failure ;; ret None.

(** The size that is returned is that of the result. *)
Definition EntityGetAuthValue (handle : Z) : M Tpm TPM2B :=
  let! pAuth := auth_pointer handle in
  let! '(_, auth) := MemoryCopy2B (mkTPM2B 0 (bfill 0 sizeof_TPMU_HA)) pAuth sizeof_TPMU_HA in
  ret (MemoryRemoveTrailingZeros auth).

Definition EntityGetAuthPolicy (handle : Z) : M Tpm (Z * TPM2B) :=
  let type := HandleGetType handle in
  let none := mkTPM2B 0 [] in
  if type =? TPM_HT_PERMANENT then
    let! h := gets t_hier in
    let base := HierarchyNormalizeHandle handle in
    if base =? TPM_RH_OWNER then ret (ownerAlg (h_gp h), ownerPolicy (h_gp h))
    else if base =? TPM_RH_ENDORSEMENT then ret (endorsementAlg (h_gp h), endorsementPolicy (h_gp h))
    else if base =? TPM_RH_PLATFORM then ret (platformAlg h, platformPolicy h)
    else if base =? TPM_RH_LOCKOUT then ret (lockoutAlg (h_gp h), lockoutPolicy (h_gp h))
    else ret (TPM_ALG_ERROR, none)
  else if type =? TPM_HT_TRANSIENT then
    let! o := object_of handle in
    ret (TPMT_PUBLIC_nameAlg (o_publicArea o), TPMT_PUBLIC_authPolicy (o_publicArea o))
  else if type =? TPM_HT_NV_INDEX then
    let! idx := nv_index handle in
    ret (pub_nameAlg idx, mkTPM2B (pub_authPolicy_size idx) (pub_authPolicy idx))
  else if type =? TPM_HT_PCR then on_pcr (PCRGetAuthPolicy handle)
  else modify set_failure ;; ret (TPM_ALG_NULL, none).

(** ** Names and hierarchies *)

Definition NvGetNameByIndexHandle (handle : Z) : M Tpm bytes :=
  let! idx := nv_index handle in of_option (NvGetIndexName idx).

Definition EntityGetName (handle : Z) : M Tpm TPM2B :=
  let type := HandleGetType handle in
  if type =? TPM_HT_TRANSIENT then
    let! o := object_of handle in
    ret (if TPMT_PUBLIC_nameAlg (o_publicArea o) =? TPM_ALG_NULL then mkTPM2B 0 [] else o_name o)
  else if type =? TPM_HT_NV_INDEX then
    let! name := NvGetNameByIndexHandle handle in ret (mkTPM2B (blen name) name)
  else ret (mkTPM2B 4 (Uint32ToByteArray handle)).

Definition EntityGetHierarchy (handle : Z) : M Tpm Z :=
  let type := HandleGetType handle in
  if type =? TPM_HT_PERMANENT then
    ret (if HierarchyIsFirmwareLimited handle || HierarchyIsSvnLimited handle
            || (handle =? TPM_RH_PLATFORM) || (handle =? TPM_RH_ENDORSEMENT) || (handle =? TPM_RH_NULL)
         then handle else TPM_RH_OWNER)
  else if type =? TPM_HT_NV_INDEX then
    let! idx := nv_index handle in
    ret (if IS_ATTRIBUTE (pub_attributes idx) TPMA_NV_PLATFORMCREATE then TPM_RH_PLATFORM
         else TPM_RH_OWNER)
  else if type =? TPM_HT_TRANSIENT then
    let! o := object_of handle in
    let a := o_attributes o in
    ret (if ppsHierarchy a then TPM_RH_PLATFORM
         else if epsHierarchy a then TPM_RH_ENDORSEMENT
         else if spsHierarchy a then TPM_RH_OWNER
         else TPM_RH_NULL)
  else if type =? TPM_HT_PCR then ret TPM_RH_OWNER
  else modify set_failure ;; ret TPM_RH_NULL.
End entity.
