(* ===== verification/Sym.v ===== *)
(** * Symmetric modes (src/CryptSym.c)

    The modes of operation of the block ciphers: AES is the one of Aes.v,
    Camellia the one of Camellia.v.  The output may lie over the input; each iteration reads its block before it writes it.
    The loops take one unit of fuel for each octet of data, and an iteration
    consumes at least one. *)

From S2P Require Import Prelude TpmTypes Memory Cbc Aes AesProof Camellia Kdf WireTypes.
Local Open Scope Z_scope.

Definition TPM_RC_KEY_SIZE : Z := RC_FMT1 + 0x007.

(** ** Block sizes *)

(** The key sizes, a negative number, and the block size for each key size. *)
Definition aesKeyBlockSizes : list Z := [128; 0; 256; -1; 16; 0; 16].
Definition camelliaKeyBlockSizes : list Z := [128; 0; 256; -1; 16; 0; 16].

(** The entries after the negative one. *)
Fixpoint block_sizes (sizes : list Z) : list Z :=
  match sizes with
  | [] => []
  | s :: sizes => if s <? 0 then sizes else block_sizes sizes
  end.

(** The index of the key size among the entries before the negative one. *)
Fixpoint find_key_size (keySizeInBits : Z) (sizes : list Z) (i : nat) : option nat :=
  match sizes with
  | [] => None
  | s :: sizes =>
      if s <? 0 then None else if s =? keySizeInBits then Some i else find_key_size keySizeInBits sizes (S i)
  end.

Definition key_block_sizes (symmetricAlg : Z) : option (list Z) :=
  if symmetricAlg =? TPM_ALG_AES then Some aesKeyBlockSizes
  else if symmetricAlg =? TPM_ALG_CAMELLIA then Some camelliaKeyBlockSizes
  else None.

Definition CryptGetSymmetricBlockSize (symmetricAlg keySizeInBits : Z) : Z :=
  match key_block_sizes symmetricAlg with
  | None => 0
  | Some sizes =>
      match find_key_size keySizeInBits sizes 0 with
      | None => 0
      | Some i => List.nth i (block_sizes sizes) 0
      end
  end.

(** ** The block functions *)

(** [ENCRYPT(&keySchedule, in, out)] after the schedule of [key] is made; the
    schedule starts out as zero. *)
Definition ENCRYPT (algorithm : Z) (key : bytes) (keySizeInBits : Z) (b : bytes) : bytes :=
  if algorithm =? TPM_ALG_AES then AES_encrypt b (enc_key key keySizeInBits zero_key)
  else Camellia_encrypt b (camellia_key key keySizeInBits).

Definition DECRYPT (algorithm : Z) (key : bytes) (keySizeInBits : Z) (b : bytes) : bytes :=
  if algorithm =? TPM_ALG_AES then AES_decrypt b (dec_key key keySizeInBits zero_key)
  else Camellia_decrypt b (camellia_key key keySizeInBits).

(** ** The loops over the data

    [step] is one iteration: the octets of a block (fewer at the end) and the
    initialisation vector give the octets of the output and the new vector. *)
Section loop.
Context (blockSize : nat) (step : bytes → bytes → bytes * bytes).

Fixpoint mode_loop (fuel : nat) (data iv : bytes) : bytes * bytes :=
  match fuel with
  | O => ([], iv)
  | S fuel =>
      match data with
      | [] => ([], iv)
      | _ =>
          let '(out, iv) := step (take blockSize data) iv in
          let '(rest, iv) := mode_loop fuel (drop blockSize data) iv in
          (out ++ rest, iv)
      end
  end.
End loop.

(** [for(i = blockSize - 1; i >= 0; i--) if((iv[i] += 1) != 0) break;], on the
    octets from the last to the first. *)
Fixpoint increment (rev_iv : bytes) : bytes :=
  match rev_iv with
  | [] => []
  | b :: rest => if u8 (b + 1) =? 0 then 0 :: increment rest else u8 (b + 1) :: rest
  end.

Section modes.
Context (E D : bytes → bytes) (blockSize : nat).

Definition ctr_step (chunk iv : bytes) : bytes * bytes :=
  (xor_into chunk (E iv), rev (increment (rev iv))).
Definition ofb_step (chunk iv : bytes) : bytes * bytes :=
  let iv := E iv in (xor_into chunk iv, iv).
Definition cbc_encrypt_step (chunk iv : bytes) : bytes * bytes :=
  let iv := E (xor_into iv chunk) in (iv, iv).
Definition cbc_decrypt_step (chunk iv : bytes) : bytes * bytes :=
  (xor_into (D chunk) iv, chunk).
(** What the vector lacks of a block is filled with zeros after the last
    iteration. *)
Definition cfb_encrypt_step (chunk iv : bytes) : bytes * bytes :=
  let out := xor_into chunk (E iv) in (out, out ++ replicate (blockSize - length chunk) 0).
Definition cfb_decrypt_step (chunk iv : bytes) : bytes * bytes :=
  (xor_into chunk (E iv), chunk ++ replicate (blockSize - length chunk) 0).
Definition ecb_step (f : bytes → bytes) (chunk iv : bytes) : bytes * bytes := (f chunk, iv).
End modes.

(** ** Encryption and decryption

    The response code, or the output and what is left in [ivInOut] ([None] for
    [NULL]).  The vector that is used without one is zero. *)

Definition MAX_SYM_BLOCK_SIZE : Z := 16.

Definition with_iv (mode : Z) (ivInOut : option bytes) (loop : bytes → bytes * bytes)
  : bytes * option bytes :=
  match ivInOut with
  | Some iv =>
      if mode =? TPM_ALG_ECB then ((loop (bfill 0 MAX_SYM_BLOCK_SIZE)).1, ivInOut)
      else let '(out, iv) := loop iv in (out, Some iv)
  | None => ((loop (bfill 0 MAX_SYM_BLOCK_SIZE)).1, None)
  end.

Definition CryptSymmetricEncrypt (algorithm keySizeInBits : Z) (key : bytes) (ivInOut : option bytes)
    (mode : Z) (dIn : bytes) : Z + (bytes * option bytes) :=
  let blockSize := CryptGetSymmetricBlockSize algorithm keySizeInBits in
  let E := ENCRYPT algorithm key keySizeInBits in
  let bs := Z.to_nat blockSize in
  let run step := inr (with_iv mode ivInOut (mode_loop bs step (length dIn) dIn)) in
  if blen dIn =? 0 then inr (dIn, ivInOut)
  else if blockSize =? 0 then inl TPM_RC_FAILURE
  else if mode =? TPM_ALG_CTR then run (ctr_step E)
  else if mode =? TPM_ALG_OFB then run (ofb_step E)
  else if mode =? TPM_ALG_CBC then
    if negb (blen dIn mod blockSize =? 0) then inl TPM_RC_SIZE else run (cbc_encrypt_step E)
  else if mode =? TPM_ALG_CFB then run (cfb_encrypt_step E bs)
  else if mode =? TPM_ALG_ECB then
    if negb (blen dIn mod blockSize =? 0) then inl TPM_RC_SIZE else run (ecb_step E)
  else inl TPM_RC_FAILURE.

Definition CryptSymmetricDecrypt (algorithm keySizeInBits : Z) (key : bytes) (ivInOut : option bytes)
    (mode : Z) (dIn : bytes) : Z + (bytes * option bytes) :=
  let blockSize := CryptGetSymmetricBlockSize algorithm keySizeInBits in
  let E := ENCRYPT algorithm key keySizeInBits in
  let D := DECRYPT algorithm key keySizeInBits in
  let bs := Z.to_nat blockSize in
  let run step := inr (with_iv mode ivInOut (mode_loop bs step (length dIn) dIn)) in
  if blen dIn =? 0 then inr (dIn, ivInOut)
  else if blockSize =? 0 then inl TPM_RC_FAILURE
  else if ((mode =? TPM_ALG_CBC) || (mode =? TPM_ALG_ECB)) && negb (blen dIn mod blockSize =? 0)
  then inl TPM_RC_SIZE
  else if mode =? TPM_ALG_CBC then run (cbc_decrypt_step D)
  else if mode =? TPM_ALG_CFB then run (cfb_decrypt_step E bs)
  else if mode =? TPM_ALG_CTR then run (ctr_step E)
  else if mode =? TPM_ALG_ECB then run (ecb_step D)
  else if mode =? TPM_ALG_OFB then run (ofb_step E)
  else inl TPM_RC_FAILURE.

(** [symDef->keyBits.sym] and the size of the key. *)
Definition CryptSymKeyValidate (keyBits keySize : Z) : Z :=
  if negb (keySize =? BITS_TO_BYTES keyBits) then TPM_RC_KEY_SIZE else TPM_RC_SUCCESS.

(** ** Parameter encryption (CryptUtil.c)

    The key and the vector come from [CryptKDFa]; [nonceNewer] is that of the
    caller for a command and that of the TPM for a response.  The response code
    of the cipher is not looked at. *)
Definition parm_sym (cipher : Z → Z → bytes → option bytes → Z → bytes → Z + (bytes * option bytes))
    `{HashLib} (symAlg hash keySizeInBits : Z) (key nonceNewer nonceOlder data : bytes) : bytes :=
  let keySize := (keySizeInBits + 7) / 8 in
  let size := CryptGetSymmetricBlockSize symAlg keySizeInBits in
  if 0 <? size then
    let symParmString :=
      CryptKDFa hash key CFB_KEY nonceNewer nonceOlder (keySizeInBits + size * 8) in
    match cipher symAlg keySizeInBits symParmString (Some (bread symParmString keySize size))
            TPM_ALG_CFB data with
    | inr (out, _) => out
    | inl _ => data
    end
  else data.

Definition ParmDecryptSym `{HashLib} (symAlg hash keySizeInBits : Z)
    (key nonceCaller nonceTpm data : bytes) : bytes :=
  parm_sym CryptSymmetricDecrypt symAlg hash keySizeInBits key nonceCaller nonceTpm data.

Definition ParmEncryptSym `{HashLib} (symAlg hash keySizeInBits : Z)
    (key nonceCaller nonceTpm data : bytes) : bytes :=
  parm_sym CryptSymmetricEncrypt symAlg hash keySizeInBits key nonceTpm nonceCaller data.

(** ** Round trip *)

(** What relates an encryption step and a decryption step on chunks that
    satisfy [P]. *)
Definition inverse_steps (P : bytes → Prop) (enc dec : bytes → bytes → bytes * bytes) : Prop :=
  ∀ chunk iv, P chunk → Forall is_byte chunk → (0 < length chunk ≤ 16)%nat → is_block iv →
    length (enc chunk iv).1 = length chunk ∧ is_block (enc chunk iv).2 ∧
    dec (enc chunk iv).1 iv = (chunk, (enc chunk iv).2).

Lemma mode_loop_nil bs step fuel iv : mode_loop bs step fuel [] iv = ([], iv).
Proof. by destruct fuel. Qed.

Lemma mode_loop_cons bs step fuel data iv : data ≠ [] →
  mode_loop bs step (S fuel) data iv =
  let '(out, iv) := step (take bs data) iv in
  let '(rest, iv) := mode_loop bs step fuel (drop bs data) iv in (out ++ rest, iv).
Proof. by destruct data. Qed.

Lemma mode_loop_roundtrip (P : bytes → Prop) enc dec :
  inverse_steps P enc dec →
  ∀ fuel data iv,
    (length data ≤ fuel)%nat → Forall is_byte data → is_block iv →
    (∀ k, (k < length data)%nat → (k mod 16 = 0)%nat → P (take 16 (drop k data))) →
    let r := mode_loop 16 enc fuel data iv in
    length r.1 = length data ∧ mode_loop 16 dec fuel r.1 iv = (data, r.2).
Proof.
  intros Hinv. induction fuel as [|fuel IH]; intros data iv Hl Hb Hiv HP.
  { destruct data; [done|cbn in Hl; lia]. }
  destruct data as [|x data']; [by rewrite mode_loop_nil|]. set (data := x :: data') in *.
  assert (Hpos : (0 < length (take 16 data) ≤ 16)%nat) by (rewrite length_take; unfold data; cbn [length]; lia).
  destruct (Hinv (take 16 data) iv) as (L1 & B1 & D1); try done.
  { apply (HP 0%nat); [cbn; lia|done]. }
  { by apply Forall_take. }
  cbv zeta. rewrite (mode_loop_cons 16 enc) by done. destruct (enc (take 16 data) iv) as [out iv'] eqn:Ee. cbn [fst snd] in *.
  destruct (IH (drop 16 data) iv') as (L2 & D2); try done.
  { rewrite length_drop. unfold data in Hl |- *. cbn [length] in *. lia. }
  { by apply Forall_drop. }
  { intros k Hk Hm. rewrite length_drop in Hk. rewrite drop_drop.
    apply HP; [lia|]. rewrite Nat.Div0.add_mod, Hm. done. }
  destruct (mode_loop 16 enc fuel (drop 16 data) iv') as [rest iv''] eqn:El. cbn [fst snd] in *.
  assert (Ltot : length (out ++ rest) = length data).
  { rewrite length_app, L1, L2, <- length_app. by rewrite take_drop. }
  split; [done|].
  assert (Et : take 16 (out ++ rest) = out ∧ drop 16 (out ++ rest) = rest).
  { destruct (decide (16 ≤ length data)%nat) as [Hf|Hf].
    - assert (length out = 16%nat) by (rewrite L1, length_take; lia).
      split; [by apply take_app_length'|by apply drop_app_length'].
    - assert (rest = []) as -> by (apply length_zero_iff_nil; rewrite L2, length_drop; lia).
      rewrite app_nil_r, take_ge, drop_ge by (rewrite L1, length_take; lia). done. }
  destruct Et as [Et1 Et2].
  rewrite (mode_loop_cons 16 dec) by (intros E0; by rewrite E0 in Ltot). rewrite Et1, Et2, D1, D2.
  by rewrite take_drop.
Qed.

Lemma xor_into_byte a b : Forall is_byte a → Forall is_byte b → Forall is_byte (xor_into a b).
Proof.
  intros Ha. revert b. induction Ha as [|x a Hx Ha IH]; intros b Hb; [by destruct b|].
  destruct Hb as [|y b Hy Hb]; cbn; constructor; auto. by apply lxor_byte_range.
Qed.

Lemma increment_block iv : is_block iv → is_block (rev (increment (rev iv))).
Proof.
  intros [Hl Hb].
  assert (G : ∀ l, Forall is_byte l → length (increment l) = length l ∧ Forall is_byte (increment l)).
  { induction 1 as [|b l Hx Hl' [IH1 IH2]]; [done|]. cbn [increment].
    assert (is_byte (u8 (b + 1))) by (apply (wrap_range 8); lia).
    case_match; cbn [length]; (split; [lia|]); constructor; auto. unfold is_byte. lia. }
  destruct (G (rev iv)) as [G1 G2]; [by apply Forall_rev|].
  split; [rewrite length_rev, G1, length_rev; done|by apply Forall_rev].
Qed.

Section steps.
Context (E D : bytes → bytes).
Context (E_block : ∀ b, is_block b → is_block (E b)) (D_E : ∀ b, is_block b → D (E b) = b).

Lemma ctr_inverse : inverse_steps (λ _, True) (ctr_step E) (ctr_step E).
Proof.
  intros chunk iv _ Hb Hl Hiv. unfold ctr_step. cbn [fst snd].
  rewrite length_xor_into, xor_into_involutive. split_and!; [done| |done]. by apply increment_block.
Qed.

Lemma ofb_inverse : inverse_steps (λ _, True) (ofb_step E) (ofb_step E).
Proof.
  intros chunk iv _ Hb Hl Hiv. unfold ofb_step. cbn [fst snd].
  rewrite length_xor_into, xor_into_involutive. split_and!; [done| |done]. by apply E_block.
Qed.

Lemma cbc_inverse : inverse_steps (λ c, length c = 16%nat) (cbc_encrypt_step E) (cbc_decrypt_step D).
Proof.
  intros chunk iv Hc Hb _ Hiv. unfold cbc_encrypt_step, cbc_decrypt_step. cbn [fst snd].
  assert (Hx : is_block (xor_into iv chunk)).
  { split; [rewrite length_xor_into; apply Hiv|]. apply xor_into_byte; [apply Hiv|done]. }
  pose proof (E_block _ Hx) as He. split_and!; [rewrite Hc; apply He|done|].
  rewrite D_E by done. f_equal.
  assert (G : ∀ a b : bytes, length a = length b → xor_into (xor_into a b) a = b).
  { induction a as [|x a IH]; intros [|y b] Hab; try done. cbn. rewrite IH by (by injection Hab).
    f_equal. rewrite (Z.lxor_comm x), Z.lxor_assoc, Z.lxor_nilpotent. apply Z.lxor_0_r. }
  apply G. rewrite Hc. apply Hiv.
Qed.

Lemma cfb_inverse : inverse_steps (λ _, True) (cfb_encrypt_step E 16) (cfb_decrypt_step E 16).
Proof.
  intros chunk iv _ Hb Hl Hiv. unfold cfb_encrypt_step, cfb_decrypt_step. cbn [fst snd].
  rewrite length_xor_into, xor_into_involutive. split_and!; [done| |done].
  split; [rewrite length_app, length_xor_into, length_replicate; lia|].
  apply Forall_app_2; [apply xor_into_byte; [done|apply E_block, Hiv]|].
  apply Forall_replicate. unfold is_byte. lia.
Qed.

Lemma ecb_inverse : inverse_steps (λ c, length c = 16%nat) (ecb_step E) (ecb_step D).
Proof.
  intros chunk iv Hc Hb _ Hiv. unfold ecb_step. cbn [fst snd].
  assert (Hk : is_block chunk) by done. rewrite D_E by done.
  split_and!; [rewrite Hc; by apply E_block|done|done].
Qed.
End steps.

(** The block size of a supported cipher. *)
Lemma block_size_cases alg bits :
  CryptGetSymmetricBlockSize alg bits = 0 ∨
  CryptGetSymmetricBlockSize alg bits = 16 ∧ key_bits bits.
Proof.
  assert (G : ∀ i, find_key_size bits [128; 0; 256; -1; 16; 0; 16] 0 = Some i →
            nth i [16; 0; 16] 0 = 0 ∨ nth i [16; 0; 16] 0 = 16 ∧ key_bits bits).
  { intros i. cbn [find_key_size]. unfold key_bits.
    destruct (Z.eqb_spec 128 bits), (Z.eqb_spec 0 bits), (Z.eqb_spec 256 bits); cbn; intros [= <-]; auto. }
  unfold CryptGetSymmetricBlockSize, key_block_sizes, aesKeyBlockSizes, camelliaKeyBlockSizes.
  repeat case_match; try (by left); simplify_eq; by apply G.
Qed.

Lemma ENCRYPT_block alg key bits b :
  key_bits bits → Forall is_byte key → is_block b → is_block (ENCRYPT alg key bits b).
Proof.
  intros. unfold ENCRYPT. case_match; [|by apply Camellia_block].
  apply (schedules key bits zero_key); auto using zero_key_ok.
Qed.

Lemma DECRYPT_ENCRYPT alg key bits b :
  key_bits bits → Forall is_byte key → is_block b →
  DECRYPT alg key bits (ENCRYPT alg key bits b) = b.
Proof.
  intros. unfold ENCRYPT, DECRYPT. case_match; [|by apply Camellia_decrypt_encrypt].
  apply (schedules key bits zero_key); auto using zero_key_ok.
Qed.

(** Chunks at multiples of the block size are whole if the size of the data is. *)
Lemma whole_chunks (data : bytes) k :
  blen data mod 16 = 0 → (k < length data)%nat → (k mod 16 = 0)%nat →
  length (take 16 (drop k data)) = 16%nat.
Proof.
  unfold blen. intros Hd Hk Hm. rewrite length_take, length_drop.
  assert (Hd' : (length data mod 16 = 0)%nat) by (apply Nat2Z.inj; rewrite Nat2Z.inj_mod; done).
  pose proof (Nat.div_mod_eq k 16). pose proof (Nat.div_mod_eq (length data) 16). lia.
Qed.

(** Running a pair of inverse steps under [with_iv]. *)
Lemma with_iv_roundtrip (P : bytes → Prop) enc dec mode ivo data :
  inverse_steps P enc dec → Forall is_byte data → (∀ iv, ivo = Some iv → is_block iv) →
  (∀ k, (k < length data)%nat → (k mod 16 = 0)%nat → P (take 16 (drop k data))) →
  let r := with_iv mode ivo (mode_loop 16 enc (length data) data) in
  length r.1 = length data ∧
  with_iv mode ivo (mode_loop 16 dec (length r.1) r.1) = (data, r.2).
Proof.
  intros Hs Hb Hiv HP.
  assert (Hz : is_block (bfill 0 MAX_SYM_BLOCK_SIZE)).
  { split; [done|]. apply Forall_replicate. unfold is_byte. lia. }
  pose proof (λ iv Hiv, mode_loop_roundtrip P enc dec Hs (length data) data iv ltac:(lia) Hb Hiv HP) as R.
  unfold with_iv. destruct ivo as [iv|].
  - specialize (Hiv iv eq_refl). case_match.
    + destruct (R _ Hz) as [L1 L2]. cbn [fst snd]. split; [done|]. rewrite L1, L2. done.
    + destruct (R _ Hiv) as [L1 L2]. destruct (mode_loop 16 enc _ data iv) as [o v]. cbn [fst snd] in *.
      split; [done|]. rewrite L1, L2. done.
  - destruct (R _ Hz) as [L1 L2]. cbn [fst snd]. split; [done|]. rewrite L1, L2. done.
Qed.
