(* ===== verification/CryptProps.v ===== *)
(** * Properties of HMAC, key derivation and the symmetric modes *)

From S2P Require Import Prelude TpmTypes Memory Cbc Aes AesProof Kdf WireTypes Sym.
Local Open Scope Z_scope.

(** ** HMAC as RFC 2104 defines it

    [H] is a hash function with input blocks of [B] octets: a key longer than a
    block is hashed, the key is filled up with zeros to [B] octets, and
    [H (K xor opad, H (K xor ipad, text))] is the result. *)
Definition rfc2104 (H : bytes → bytes) (B : nat) (K text : bytes) : bytes :=
  let K1 := if decide (B < length K)%nat then H K else K in
  let K0 := K1 ++ replicate (B - length K1) 0 in
  H (map (λ b, Z.lxor b 0x5c) K0 ++ H (map (λ b, Z.lxor b 0x36) K0 ++ text)).

(** The block size of each hash function (FIPS 180-4). *)
Definition hash_blocks : list (Z * nat) :=
  [(TPM_ALG_SHA1, 64%nat); (TPM_ALG_SHA256, 64%nat); (TPM_ALG_SHA384, 128%nat); (TPM_ALG_SHA512, 128%nat)].

Section props.
Context `{HashLib}.

Lemma updates_app pieces state :
  fold_left (λ st d, CryptDigestUpdate d st) pieces state = CryptDigestUpdate (concat pieces) state.
Proof.
  revert state. induction pieces as [|d ds IH]; intros [alg k data]; cbn.
  - unfold CryptDigestUpdate. cbn. by rewrite app_nil_r.
  - rewrite IH. unfold CryptDigestUpdate. cbn. by rewrite <- app_assoc.
Qed.

(** The key of the code is that of the RFC. *)
Lemma key_block_rfc hashAlg B key :
  (hashAlg, B) ∈ hash_blocks →
  CryptHashGetDigestSize hashAlg ≠ 0 ∧
  key_block hashAlg key =
    (let K1 := if decide (B < length key)%nat then Hash hashAlg key else key in
     K1 ++ replicate (B - length K1) 0).
Proof.
  intros Hin. assert (CryptHashGetBlockSize hashAlg = Z.of_nat B ∧ CryptHashGetDigestSize hashAlg ≠ 0) as [EB Ed].
  { unfold hash_blocks in Hin. rewrite !elem_of_cons, elem_of_nil in Hin. naive_solver. }
  split; [done|]. unfold key_block, hmac_key. rewrite EB.
  assert (take (Z.to_nat (CryptHashGetDigestSize hashAlg)) (Hash hashAlg key) = Hash hashAlg key) as ->.
  { apply take_ge. pose proof (Hash_size hashAlg key) as E. unfold blen in E. lia. }
  unfold blen, bfill.
  destruct (Z.ltb_spec (Z.of_nat B) (Z.of_nat (length key))), (decide (B < length key)%nat); try lia; cbn zeta;
    do 2 f_equal; lia.
Qed.

(** C27. HMAC is that of RFC 2104 for each of the four hash functions and its
    block size, a key of any length and data given in any pieces: a key longer
    than a block is hashed and one that fills a block is not, although the code
    keeps one block and turns the inner pad into the outer one in place. *)
Theorem hmac_is_rfc2104 hashAlg B key pieces :
  (hashAlg, B) ∈ hash_blocks →
  CryptHmacEnd (fold_left (λ st d, CryptDigestUpdate d st) pieces (CryptHmacStart hashAlg key))
  = rfc2104 (Hash hashAlg) B key (concat pieces).
Proof.
  intros Hin. destruct (key_block_rfc hashAlg B key Hin) as [Hd Hk].
  rewrite updates_app. unfold rfc2104. cbv zeta in *. rewrite <- Hk. by apply Hmac_rfc2104.
Qed.

(** A mode whose steps are inverse: the octets, their number and the vector. *)
Lemma run_roundtrip (P : bytes → Prop) enc dec mode ivInOut data :
  blen data ≠ 0 → Forall is_byte data → (∀ iv, ivInOut = Some iv → is_block iv) →
  inverse_steps P enc dec →
  (∀ k, (k < length data)%nat → (k mod 16 = 0)%nat → P (take 16 (drop k data))) →
  ∃ out iv', with_iv mode ivInOut (mode_loop 16 enc (length data) data) = (out, iv') ∧
    length out = length data ∧ blen out = blen data ∧
    with_iv mode ivInOut (mode_loop 16 dec (length out) out) = (data, iv').
Proof.
  intros E0 Hb Hiv Hi HP.
  destruct (with_iv_roundtrip P enc dec mode ivInOut data Hi Hb Hiv HP) as [L1 L2].
  destruct (with_iv mode ivInOut _) as [out iv'] eqn:Eo. cbn [fst snd] in *.
  exists out, iv'. split_and!; try done. unfold blen. by rewrite L1.
Qed.

Ltac mode_case R :=
  destruct R as (o & v & E1 & E2 & E3 & E4); [by eauto using whole_chunks|];
  repeat match goal with Hw : blen _ mod 16 = 0 |- _ => rewrite ?Hw; revert Hw end;
  rewrite E1, ?E3; intros; eexists _, _; (split; [done|]); (split; [done|]);
  rewrite ?E3, (proj2 (Z.eqb_neq _ _) ltac:(eassumption));
  repeat match goal with Hw : blen _ mod 16 = 0 |- _ => rewrite Hw; clear Hw end;
  cbn [Z.eqb negb]; by rewrite E4.

(** C12. Every mode of AES and of Camellia (counter, output feedback, block
    chaining, cipher feedback and code book) encrypts data of any size it allows
    to data of the same size, decryption of that gives the data back, and both
    leave the same initialisation vector, so that a message may be processed in
    pieces. *)
Theorem symmetric_roundtrip algorithm keySizeInBits key ivInOut mode data :
  CryptGetSymmetricBlockSize algorithm keySizeInBits ≠ 0 →
  mode ∈ [TPM_ALG_CTR; TPM_ALG_OFB; TPM_ALG_CBC; TPM_ALG_CFB; TPM_ALG_ECB] →
  (mode = TPM_ALG_CBC ∨ mode = TPM_ALG_ECB → blen data mod 16 = 0) →
  Forall is_byte key → Forall is_byte data → (∀ iv, ivInOut = Some iv → is_block iv) →
  ∃ out iv', CryptSymmetricEncrypt algorithm keySizeInBits key ivInOut mode data = inr (out, iv') ∧
    length out = length data ∧
    CryptSymmetricDecrypt algorithm keySizeInBits key ivInOut mode out = inr (data, iv').
Proof.
  intros Hs Hm Hw Hk Hb Hiv. destruct (block_size_cases algorithm keySizeInBits) as [|[Es Hbits]]; [done|].
  unfold CryptSymmetricEncrypt, CryptSymmetricDecrypt. rewrite Es. cbn [Z.eqb Pos.eqb].
  change (Z.to_nat 16) with 16%nat.
  destruct (Z.eqb_spec (blen data) 0) as [E0|E0].
  { eexists _, _. split; [done|]. split; [done|]. by rewrite E0. }
  set (E := ENCRYPT algorithm key keySizeInBits). set (D := DECRYPT algorithm key keySizeInBits).
  assert (HE : ∀ b, is_block b → is_block (E b)) by (intros; by apply ENCRYPT_block).
  assert (HD : ∀ b, is_block b → D (E b) = b) by (intros; by apply DECRYPT_ENCRYPT).
  pose proof (λ P enc dec, run_roundtrip P enc dec mode ivInOut data E0 Hb Hiv) as R.
  rewrite !elem_of_cons, elem_of_nil in Hm. destruct Hm as [ -> | [ -> | [ -> | [ -> | [ -> | [] ] ] ] ] ];
    cbn [Z.eqb Pos.eqb negb orb andb].
  - mode_case (R _ _ _ (ctr_inverse E)).
  - mode_case (R _ _ _ (ofb_inverse E HE)).
  - specialize (Hw ltac:(by left)). mode_case (R _ _ _ (cbc_inverse E D HE HD)).
  - mode_case (R _ _ _ (cfb_inverse E HE)).
  - specialize (Hw ltac:(by right)). mode_case (R _ _ _ (ecb_inverse E D HE HD)).
Qed.
End props.

(** ** Concrete inputs *)

#[local] Instance demo_hash : HashLib.
Proof.
  refine {| Hash alg d := bfill (fold_left Z.add d 1 mod 256) (CryptHashGetDigestSize alg) |}.
  - intros alg d. apply blen_bfill, digest_size_range.
  - intros alg d. apply Forall_replicate. apply Z.mod_pos_bound. lia.
Defined.

Definition w_key : bytes := seqZ 1 16.
Definition w_iv : bytes := seqZ 100 16.
Definition w_text : bytes := seqZ 40 20.

Lemma hmac_is_rfc2104_witness :
  CryptHmacEnd (CryptDigestUpdate [5] (CryptDigestUpdate [4] (CryptHmacStart TPM_ALG_SHA256 (bfill 9 64))))
  = rfc2104 (Hash TPM_ALG_SHA256) 64 (bfill 9 64) [4; 5].
Proof.
  exact (hmac_is_rfc2104 TPM_ALG_SHA256 64 (bfill 9 64) [[4]; [5]]
    (list_elem_of_further _ _ _ (list_elem_of_here _ _))).
Defined.

Lemma symmetric_roundtrip_witness :
  ∃ out iv', CryptSymmetricEncrypt TPM_ALG_CAMELLIA 128 w_key (Some w_iv) TPM_ALG_CFB w_text = inr (out, iv') ∧
    length out = 20%nat ∧
    CryptSymmetricDecrypt TPM_ALG_CAMELLIA 128 w_key (Some w_iv) TPM_ALG_CFB out = inr (w_text, iv').
Proof.
  apply (symmetric_roundtrip TPM_ALG_CAMELLIA 128 w_key (Some w_iv) TPM_ALG_CFB w_text).
  - done.
  - rewrite !elem_of_cons. tauto.
  - intros [|]; done.
  - by apply all_octets.
  - by apply all_octets.
  - intros iv [= <-]. split; [done|by apply all_octets].
Defined.
