(* ===== verification/SessionAuth.v ===== *)
(** * Authorization of a command (src/SessionProcess.c, lines 75-1125 and 1283-1500)

    The checks that the sessions of a command authorize its handles: password,
    HMAC and policy.  A [SESSION *] is the index of a slot.  The state is that
    of the TPM with the [COMMAND] structure of the command being processed. *)

From S2P Require Import Prelude TpmTypes Memory Struct Cbc NVMem NVReserved Clock NvList NvRam NvIndex NvCmd WireTypes Unmarshal Marshal.
From S2P Require Import Pcr Kdf Sym Session Time TpmState Hierarchy CommandAttributes Dispatch.
From S2P Require Import ObjectStore Entity.
Local Open Scope Z_scope.

(** ** Constants *)

Definition MAX_SESSION_NUM : Z := 3.
Definition UNDEFINED_INDEX : Z := 0xFFFF.
Definition TPM_RC_S : Z := 0x800.
Definition TPM_RC_POLICY_FAIL : Z := RC_FMT1 + 0x01D.
Definition TPM_RC_EXPIRED : Z := RC_FMT1 + 0x023.
Definition TPM_RC_POLICY_CC : Z := RC_FMT1 + 0x024.
Definition TPM_RC_PCR_CHANGED : Z := RC_VER1 + 0x028.
Definition TPM_CC_CreatePrimary : Z := 0x131.
Definition TPM_CC_PolicySecret : Z := 0x151.
Definition TPM_CC_Create : Z := 0x153.
Definition TPM_CC_CreateLoaded : Z := 0x191.

(** ** State *)

(** [COMMAND]: what the dispatcher uses of it is [c_base].  There is one digest
    of the command and one of the response for each hash. *)
Record Command := mkCommand {
  c_tag : Z;
  c_code : Z;
  c_authSize : Z;
  c_sessionNum : Z;
  c_cpHash : list TPM2B;
  c_rpHash : list TPM2B;
  c_base : COMMAND }.

Definition set_cpHash (l : list TPM2B) (c : Command) : Command :=
  mkCommand (c_tag c) (c_code c) (c_authSize c) (c_sessionNum c) l (c_rpHash c) (c_base c).
Definition set_rpHash (l : list TPM2B) (c : Command) : Command :=
  mkCommand (c_tag c) (c_code c) (c_authSize c) (c_sessionNum c) (c_cpHash c) l (c_base c).

Definition c_handleNum (c : Command) : Z := Dispatch.c_handleNum (c_base c).
Definition c_handles (c : Command) : list Z := Dispatch.c_handles (c_base c).
Definition c_index (c : Command) : Z := Dispatch.c_index (c_base c).
Definition c_parameterSize (c : Command) : Z := Dispatch.c_parameterSize (c_base c).
Definition c_parameterBuffer (c : Command) : bytes := Dispatch.c_parameterBuffer (c_base c).

(** [GetCpHashPointer], [GetRpHashPointer]: which of the digests; none is
    [NULL], and dereferencing it has no result. *)
Definition hash_slot (hashAlg : Z) : option nat :=
  if hashAlg =? TPM_ALG_SHA1 then Some 0%nat
  else if hashAlg =? TPM_ALG_SHA256 then Some 1%nat
  else if hashAlg =? TPM_ALG_SHA384 then Some 2%nat
  else if hashAlg =? TPM_ALG_SHA512 then Some 3%nat
  else None.

(** The attributes of a session with [includeAuth] as given. *)
Definition with_includeAuth (b : bool) (a : SESSION_ATTRIBUTES) : SESSION_ATTRIBUTES :=
  mkAttr (isPolicy a) (isAudit a) (isBound a) (isCpHashDefined a) (isNameHashDefined a)
    (isParametersHashDefined a) (isTemplateHashDefined a) (isAuthValueNeeded a) (isPasswordNeeded a)
    (isPPRequired a) (isTrialPolicy a) (isDaBound a) (isLockoutBound a) b (checkNvWritten a)
    (nvWrittenState a).

Section auth.
Context `{TimeLayout} `{CryptEnv} `{HashLib}.

(** [p_response] is the response being built, [p_allocation] the allocation in
    the action buffers. *)
Record PState := mkP {
  p_tpm : Tpm; p_command : Command; p_response : bytes; p_allocation : Z }.

Definition set_tpm (t : Tpm) (p : PState) : PState := mkP t (p_command p) (p_response p) (p_allocation p).
Definition set_cmd (c : Command) (p : PState) : PState := mkP (p_tpm p) c (p_response p) (p_allocation p).

#[global] Instance PState_fail : FailState PState :=
  {| set_failure := λ p, set_tpm (set_failure (p_tpm p)) p |}.

Definition on_tpm {A} (m : M Tpm A) : M PState A := λ p,
  match m (p_tpm p) with Some (a, t) => Some (a, set_tpm t p) | None => None end.

(** ** Access to the session area and to sessions *)

Definition area {A} (f : SessionArea → A) : M Tpm A := gets (λ t, f (t_area t)).
(** [f[i]] *)
Definition area_at {A} (f : SessionArea → list A) (i : Z) : M Tpm A :=
  let! l := area f in of_option (if i <? 0 then None else l !! Z.to_nat i).
Definition area_set (f : SessionArea → SessionArea) : M Tpm unit :=
  modify (λ t, set_t_area (f (t_area t)) t).
(** [f[i] = x] *)
Definition area_put {A} (f : SessionArea → list A) (set : list A → SessionArea → SessionArea) (i : Z) (x : A)
  : M Tpm unit :=
  let! l := area f in
  if (0 <=? i) && (i <? Z.of_nat (length l)) then area_set (set (<[Z.to_nat i := x]> l)) else undef.

(** [SessionGet(handle)], and what the pointer designates. *)
Definition session_ptr (handle : Z) : M Tpm Z := on_sess (SessionGet handle).
Definition session_get (p : Z) : M Tpm SESSION :=
  on_sess (let! sl := slot_get p in ret (session sl)).
Definition session_put (p : Z) (s : SESSION) : M Tpm unit :=
  on_sess (let! sl := slot_get p in slot_set p (mkSlot (Session.occupied sl) s)).
Definition session_at (handle : Z) : M Tpm SESSION :=
  let! p := session_ptr handle in session_get p.
Definition set_includeAuth (p : Z) (b : bool) : M Tpm unit :=
  let! s := session_get p in session_put p (with_attributes (with_includeAuth b (attributes s)) s).

(** [NvGetIndexInfo(handle, &locator)], dereferenced. *)
Definition nv_index_ref (handle : Z) : M Tpm (bytes * Z) :=
  let! r := on_nv (NvGetIndexInfo handle) in
  match r with
  | Some locator => let! idx := gets (λ t, s_cachedNvIndex (nv_of t)) in ret (idx, locator)
  | None => undef
  end.

(** ** Physical presence, audit and locality (PP.c, CommandAudit.c, PPPlat.c) *)

Definition PhysicalPresenceIsRequired (commandIndex : Z) : M Tpm bool :=
  let! l := gets ppList in TestBit commandIndex l (blen l).
Definition CommandAuditIsRequired (commandIndex : Z) : M Tpm bool :=
  let! l := gets (λ t, auditCommands (t_audit t)) in TestBit commandIndex l (blen l).
Definition plat__PhysicalPresenceAsserted : M Tpm bool := gets s_physicalPresence.
Definition plat__LocalityGet : M Tpm Z := gets (λ t, p_locality (t_pcr t)).

(** ** Dictionary attack protection *)

Definition IsDAExempted (handle : Z) : M Tpm bool :=
  if HandleGetType handle =? TPM_HT_TRANSIENT then
    let! attributes := ObjectGetPublicAttributes handle in ret (IS_ATTRIBUTE attributes TPMA_OBJECT_noDA)
  else on_time (Time.IsDAExempted (λ _, false) handle).

Definition IncrementLockout (sessionIndex : Z) : M Tpm Z :=
  let! handle := area_at s_associatedHandles sessionIndex in
  let! sessionHandle := area_at s_sessionHandles sessionIndex in
  if sessionHandle =? TPM_RS_PW then
    let! exempted := IsDAExempted handle in
    if exempted then ret TPM_RC_BAD_AUTH else on_time (count_failure handle)
  else
    let! session := session_at sessionHandle in
    let a := attributes session in
    let handle := if isLockoutBound a then TPM_RH_LOCKOUT else handle in
    if isDaBound a then on_time (count_failure handle)
    else
      let! exempted := IsDAExempted handle in
      if exempted || negb (includeAuth a) then ret TPM_RC_BAD_AUTH else on_time (count_failure handle).

(** ** What an entity allows *)

Definition IsSessionBindEntity (associatedHandle : Z) (session : SESSION) : M Tpm bool :=
  if isBound (attributes session) then
    let! name := EntityGetName associatedHandle in
    let! auth := EntityGetAuthValue associatedHandle in
    MemoryEqual2B (bound_entity name auth) (u1 session)
  else ret false.

Definition IsPolicySessionRequired (commandIndex sessionIndex : Z) : M Tpm bool :=
  let! role := of_option (CommandAuthRole commandIndex sessionIndex) in
  let! handle := area_at s_associatedHandles sessionIndex in
  let type := HandleGetType handle in
  match role with
  | AUTH_DUP => ret true
  | AUTH_ADMIN =>
      if type =? TPM_HT_TRANSIENT then
        let! o := object_of handle in
        ret (IS_ATTRIBUTE (TPMT_PUBLIC_objectAttributes (o_publicArea o)) TPMA_OBJECT_adminWithPolicy)
      else ret true
  | _ =>
      if type =? TPM_HT_PCR then
        let! available := on_pcr (PCRPolicyIsAvailable handle) in
        if available : bool then
          let! '(policyAlg, _) := on_pcr (PCRGetAuthPolicy handle) in
          ret (negb (policyAlg =? TPM_ALG_NULL))
        else ret false
      else ret false
  end.

Definition IsNvPinFailIndex (attributes : Z) : bool := GET_TPM_NT attributes =? TPM_NT_PIN_FAIL.
Definition IsNvPinPassIndex (attributes : Z) : bool := GET_TPM_NT attributes =? TPM_NT_PIN_PASS.
(** [NV_PIN]: the members of [PIN_DATA] in the 64 bits of [intVal]. *)
Definition pinLimit (intVal : Z) : Z := u32 intVal.
Definition pinCount (intVal : Z) : Z := Z.shiftr intVal 32.
Definition with_pinCount (count intVal : Z) : Z := Z.shiftl count 32 + pinLimit intVal.

Definition IsAuthValueAvailable (handle commandIndex sessionIndex : Z) : M Tpm bool :=
  let type := HandleGetType handle in
  if type =? TPM_HT_PERMANENT then
    ret ((handle =? TPM_RH_OWNER) || (handle =? TPM_RH_ENDORSEMENT) || (handle =? TPM_RH_PLATFORM)
         || (handle =? TPM_RH_LOCKOUT) || (handle =? TPM_RH_NULL))
  else if type =? TPM_HT_TRANSIENT then
    let! o := object_of handle in
    let attr := TPMT_PUBLIC_objectAttributes (o_publicArea o) in
    if ObjectIsSequence o then ret true
    else if publicOnly (o_attributes o) then ret false
    else if IS_ATTRIBUTE attr TPMA_OBJECT_userWithAuth then ret true
    else
      let! role := of_option (CommandAuthRole commandIndex sessionIndex) in
      ret (match role with AUTH_ADMIN => negb (IS_ATTRIBUTE attr TPMA_OBJECT_adminWithPolicy) | _ => false end)
  else if type =? TPM_HT_NV_INDEX then
    let! '(idx, locator) := nv_index_ref handle in
    let nvAttributes := pub_attributes idx in
    let! write := of_option (IsWriteOperation commandIndex) in
    if write : bool then ret (IS_ATTRIBUTE nvAttributes TPMA_NV_AUTHWRITE)
    else if IsNvPinFailIndex nvAttributes || IsNvPinPassIndex nvAttributes then
      if IS_ATTRIBUTE nvAttributes TPMA_NV_WRITTEN then
        let! pin := on_nv (NvGetUINT64Data idx locator) in
        ret (pinCount pin <? pinLimit pin)
      else ret false
    else ret (IS_ATTRIBUTE nvAttributes TPMA_NV_AUTHREAD)
  else ret (type =? TPM_HT_PCR).

Definition IsAuthPolicyAvailable (handle commandIndex sessionIndex : Z) : M Tpm bool :=
  let type := HandleGetType handle in
  if type =? TPM_HT_PERMANENT then
    let! h := gets t_hier in
    ret (if handle =? TPM_RH_OWNER then negb (size2B (ownerPolicy (h_gp h)) =? 0)
         else if handle =? TPM_RH_ENDORSEMENT then negb (size2B (endorsementPolicy (h_gp h)) =? 0)
         else if handle =? TPM_RH_PLATFORM then negb (size2B (platformPolicy h) =? 0)
         else if handle =? TPM_RH_LOCKOUT then negb (size2B (lockoutPolicy (h_gp h)) =? 0)
         else false)
  else if type =? TPM_HT_TRANSIENT then
    let! o := object_of handle in
    ret (negb (publicOnly (o_attributes o)) && negb (ObjectIsSequence o))
  else if type =? TPM_HT_NV_INDEX then
    let! idx := nv_index handle in
    let nvAttributes := pub_attributes idx in
    if pub_authPolicy_size idx =? 0 then ret false
    else
      let! required := IsPolicySessionRequired commandIndex sessionIndex in
      if required then ret true
      else
        let! write := of_option (IsWriteOperation commandIndex) in
        ret (IS_ATTRIBUTE nvAttributes (if write : bool then TPMA_NV_POLICYWRITE else TPMA_NV_POLICYREAD))
  else if type =? TPM_HT_PCR then on_pcr (PCRPolicyIsAvailable handle)
  else ret false.

(** ** Digests of the command *)

(** The Names of the handles of a command, one after the other. *)
Fixpoint handle_names (handles : list Z) : M Tpm bytes :=
  match handles with
  | [] => ret []
  | h :: handles =>
      let! name := EntityGetName h in
      let! names := handle_names handles in
      ret (contents name ++ names)
  end.

Definition used_handles (c : Command) : list Z := take (Z.to_nat (c_handleNum c)) (c_handles c).

(** [command->parameterSize] octets at [command->parameterBuffer]. *)
Definition parameters (c : Command) : option bytes :=
  if inb (c_parameterBuffer c) 0 (c_parameterSize c)
  then Some (bread (c_parameterBuffer c) 0 (c_parameterSize c)) else None.

(** What the digest of a command is of. *)
Definition cp_input (c : Command) (names params : bytes) : bytes :=
  Uint32ToByteArray (c_code c) ++ names ++ params.

Definition digest2B (hashAlg : Z) (data : bytes) : TPM2B :=
  mkTPM2B (CryptHashGetDigestSize hashAlg) (Hash hashAlg data).

Definition ComputeCpHash (hashAlg : Z) : M PState TPM2B :=
  let! slot := of_option (hash_slot hashAlg) in
  let! c := gets p_command in
  let! cpHash := of_option (c_cpHash c !! slot) in
  if size2B cpHash =? 0 then
    let! names := on_tpm (handle_names (used_handles c)) in
    let! params := of_option (parameters c) in
    let cpHash := digest2B hashAlg (cp_input c names params) in
    modify (λ p, set_cmd (set_cpHash (<[slot := cpHash]> (c_cpHash (p_command p))) (p_command p)) p) ;;
    ret cpHash
  else ret cpHash.

(** [pSize] may become negative; the comparison in [UINT16_Unmarshal] is
    unsigned, and octets past the command are then read (no result). *)
Definition CompareTemplateHash (session : SESSION) : M PState bool :=
  let! c := gets p_command in
  if negb (c_code c =? TPM_CC_Create) && negb (c_code c =? TPM_CC_CreatePrimary)
     && negb (c_code c =? TPM_CC_CreateLoaded) then ret false
  else
    let! '(r, u) := of_option (UINT16_Unmarshal (mkU (c_parameterBuffer c) (c_parameterSize c))) in
    match r with
    | inl _ => ret false
    | inr size =>
        let! '(r, u) := of_option (UINT16_Unmarshal
          (mkU (drop (Z.to_nat size) (u_buffer u)) (u_size u - size))) in
        match r with
        | inl _ => ret false
        | inr size =>
            if u_size u <? size then ret false
            else
              let! template := of_option
                (if inb (u_buffer u) 0 size then Some (bread (u_buffer u) 0 size) else None) in
              MemoryEqual2B (u1 session) (digest2B (authHashAlg session) template)
        end
    end.

Definition CompareNameHash (session : SESSION) : M PState bool :=
  let! c := gets p_command in
  let! names := on_tpm (handle_names (used_handles c)) in
  let nameHash := digest2B (authHashAlg session) names in
  of_option (MemoryEqual (buffer2B (u1 session)) (buffer2B nameHash) (size2B nameHash)).

Definition CompareParametersHash (session : SESSION) : M PState bool :=
  let! c := gets p_command in
  let! params := of_option (parameters c) in
  MemoryEqual2B (u1 session)
    (digest2B (authHashAlg session) (Uint32ToByteArray (c_code c) ++ params)).

(** ** Password and HMAC *)

Definition CheckPWAuthSession (sessionIndex : Z) : M Tpm Z :=
  let! associatedHandle := area_at s_associatedHandles sessionIndex in
  let! input := area_at s_inputAuthValues sessionIndex in
  let input := MemoryRemoveTrailingZeros input in
  area_put s_inputAuthValues set_s_inputAuthValues sessionIndex input ;;
  let! authValue := EntityGetAuthValue associatedHandle in
  let! equal := MemoryEqual2B input authValue in
  if equal : bool then ret TPM_RC_SUCCESS else IncrementLockout sessionIndex.

(** The nonces of the decrypt and of the encrypt session that are included with
    the first session; empty where none is. *)
Definition extra_nonces (sessionIndex associatedHandle : Z) : M Tpm (bytes * bytes) :=
  if (sessionIndex =? 0) && negb (associatedHandle =? TPM_RH_UNASSIGNED) then
    let! d := area s_decryptSessionIndex in
    let! e := area s_encryptSessionIndex in
    let! nonceDecrypt :=
      (if negb (d =? UNDEFINED_INDEX) && negb (d =? sessionIndex) then
         let! h := area_at s_sessionHandles d in
         let! s := session_at h in ret (contents (nonceTPM s))
       else ret []) in
    let! nonceEncrypt :=
      (if negb (e =? UNDEFINED_INDEX) && negb (e =? sessionIndex) && negb (e =? d) then
         let! h := area_at s_sessionHandles e in
         let! s := session_at h in ret (contents (nonceTPM s))
       else ret []) in
    ret (nonceDecrypt, nonceEncrypt)
  else ret ([], []).

Definition sizeof_KEY : Z := 64 * 2.

(** The HMAC key of a session: its key, and the authorization value of the
    entity if it is to be included. *)
Definition hmac_session_key (session : SESSION) (associatedHandle : Z) : M Tpm TPM2B :=
  let! '(_, key) := MemoryCopy2B (mkTPM2B 0 (bfill 0 sizeof_KEY)) (Some (sessionKey session)) sizeof_KEY in
  if includeAuth (attributes session) then
    let! authValue := EntityGetAuthValue associatedHandle in MemoryConcat2B key authValue sizeof_KEY
  else ret key.

(** What the HMAC of a session is over. *)
Definition command_hmac_input (cpHash nonceCaller nonceTPM nonceDecrypt nonceEncrypt : bytes) (attr : Z)
  : bytes :=
  cpHash ++ nonceCaller ++ nonceTPM ++ nonceDecrypt ++ nonceEncrypt ++ [u8 attr].

Definition ComputeCommandHMAC (sessionIndex : Z) : M PState TPM2B :=
  let! associatedHandle := on_tpm (area_at s_associatedHandles sessionIndex) in
  let! '(nonceDecrypt, nonceEncrypt) := on_tpm (extra_nonces sessionIndex associatedHandle) in
  let! sessionHandle := on_tpm (area_at s_sessionHandles sessionIndex) in
  let! session := on_tpm (session_at sessionHandle) in
  let! key := on_tpm (hmac_session_key session associatedHandle) in
  let! input := on_tpm (area_at s_inputAuthValues sessionIndex) in
  if (size2B key =? 0) && (size2B input =? 0) then ret (mkTPM2B 0 [])
  else
    let! cpHash := ComputeCpHash (authHashAlg session) in
    let! nonceCaller := on_tpm (area_at s_nonceCaller sessionIndex) in
    let! attr := on_tpm (area_at s_attributes sessionIndex) in
    ret (mkTPM2B (CryptHashGetDigestSize (authHashAlg session))
           (Hmac (authHashAlg session) (contents key)
              (command_hmac_input (contents cpHash) (contents nonceCaller) (contents (nonceTPM session))
                 nonceDecrypt nonceEncrypt attr))).

Definition CheckSessionHMAC (sessionIndex : Z) : M PState Z :=
  let! hmac := ComputeCommandHMAC sessionIndex in
  let! input := on_tpm (area_at s_inputAuthValues sessionIndex) in
  let! equal := MemoryEqual2B input hmac in
  if equal : bool then ret TPM_RC_SUCCESS else on_tpm (IncrementLockout sessionIndex).

(** ** Policy *)

(** The locality of a policy against that of the command. *)
Definition locality_ok (sessionLocality locality : Z) : bool :=
  if sessionLocality =? 0 then true
  else if locality <? 5 then
    negb (Z.land sessionLocality (Z.shiftl 1 locality) =? 0) && (sessionLocality <=? 31)
  else if 31 <? locality then sessionLocality =? locality
  else false.

(** The digest a policy restricts the command by. *)
Definition policy_digest_ok (session : SESSION) : M PState bool :=
  if size2B (u1 session) =? 0 then ret true
  else if isCpHashDefined (attributes session) then
    let! cpHash := ComputeCpHash (authHashAlg session) in MemoryEqual2B (u1 session) cpHash
  else if isNameHashDefined (attributes session) then CompareNameHash session
  else if isParametersHashDefined (attributes session) then CompareParametersHash session
  else if isTemplateHashDefined (attributes session) then CompareTemplateHash session
  else ret false.

Definition nv_written_ok (session : SESSION) (associatedHandle : Z) : M Tpm bool :=
  if checkNvWritten (attributes session) then
    if negb (HandleGetType associatedHandle =? TPM_HT_NV_INDEX) then ret false
    else
      let! '(idx, _) := nv_index_ref associatedHandle in
      ret (Bool.eqb (IS_ATTRIBUTE (pub_attributes idx) TPMA_NV_WRITTEN) (nvWrittenState (attributes session)))
  else ret true.

(** The command code of a policy: it has to be there for the ADMIN and DUP roles. *)
Definition policy_code_result (session : SESSION) (code : Z) (role : AUTH_ROLE) : Z :=
  if negb (commandCode session =? 0) then
    if negb (commandCode session =? code) then TPM_RC_POLICY_CC else TPM_RC_SUCCESS
  else match role with AUTH_ADMIN | AUTH_DUP => TPM_RC_POLICY_FAIL | _ => TPM_RC_SUCCESS end.

(** The lifetime of a policy; the clock does not advance without NV. *)
Definition policy_time_result (session : SESSION) (t : Tpm) : Z :=
  if timeout session =? 0 then TPM_RC_SUCCESS
  else
    let status := g_NvStatus (nv_of t) in
    if negb (status =? TPM_RC_SUCCESS) then status
    else if (timeout session <? Session.g_time (sess_view t))
            || negb (epoch session =? Session.g_timeEpoch (sess_view t)) then TPM_RC_EXPIRED
    else TPM_RC_SUCCESS.

Definition CheckPolicyAuthSession (sessionIndex : Z) : M PState Z :=
  let! sessionHandle := on_tpm (area_at s_sessionHandles sessionIndex) in
  let! session := on_tpm (session_at sessionHandle) in
  let! c := gets p_command in
  let a := attributes session in
  if (c_code c =? TPM_CC_PolicySecret) && negb (isPasswordNeeded a) && negb (isAuthValueNeeded a)
  then ret TPM_RC_MODE
  else
    let! current := on_tpm (on_sess (SessionPCRValueIsCurrent session)) in
    if negb current then ret TPM_RC_PCR_CHANGED
    else
      let! associatedHandle := on_tpm (area_at s_associatedHandles sessionIndex) in
      let! '(policyAlg, authPolicy) := on_tpm (EntityGetAuthPolicy associatedHandle) in
      let! equal := MemoryEqual2B (u2 session) authPolicy in
      if negb equal then ret TPM_RC_POLICY_FAIL
      else if negb (policyAlg =? authHashAlg session) then ret TPM_RC_POLICY_FAIL
      else
        let! result := on_tpm (gets (policy_time_result session)) in
        if negb (result =? TPM_RC_SUCCESS) then ret result
        else
          let! role := of_option (CommandAuthRole (c_index c) sessionIndex) in
          let result := policy_code_result session (c_code c) role in
          if negb (result =? TPM_RC_SUCCESS) then ret result
          else
            let! locality := on_tpm plat__LocalityGet in
            if negb (locality_ok (u8 (commandLocality session)) locality) then ret TPM_RC_LOCALITY
            else
              let! pp := on_tpm plat__PhysicalPresenceAsserted in
              if isPPRequired a && negb pp then ret TPM_RC_PP
              else
                let! ok := policy_digest_ok session in
                if negb ok then ret TPM_RC_POLICY_FAIL
                else
                  let! written := on_tpm (nv_written_ok session associatedHandle) in
                  ret (if written : bool then TPM_RC_SUCCESS else TPM_RC_POLICY_FAIL).

(** ** The authorization of one handle *)

(** The count of a PIN index after the check of its authorization value. *)
Definition update_pin (associatedHandle result : Z) : M Tpm unit :=
  let! '(idx, locator) := nv_index_ref associatedHandle in
  let nvAttributes := pub_attributes idx in
  let written := IS_ATTRIBUTE nvAttributes TPMA_NV_WRITTEN in
  if IsNvPinFailIndex nvAttributes && written then
    let! pin := on_nv (NvGetUINT64Data idx locator) in
    let count := if negb (result =? TPM_RC_SUCCESS) then u32 (pinCount pin + 1) else 0 in
    let! _ := on_nv (NvWriteUINT64Data (with_pinCount count pin)) in ret tt
  else if IsNvPinPassIndex nvAttributes && written && (result =? TPM_RC_SUCCESS) then
    let! pin := on_nv (NvGetUINT64Data idx locator) in
    let! _ := on_nv (NvWriteUINT64Data (with_pinCount (u32 (pinCount pin + 1)) pin)) in ret tt
  else ret tt.

(** Sets [includeAuth] in the session and returns [authUsed]. *)
Definition auth_used (sessionHandle associatedHandle : Z) : M Tpm bool :=
  if sessionHandle =? TPM_RS_PW then ret true
  else
    let! p := session_ptr sessionHandle in
    let! session := session_get p in
    let! include :=
      (if HandleGetType sessionHandle =? TPM_HT_POLICY_SESSION
       then ret (isAuthValueNeeded (attributes session) || isPasswordNeeded (attributes session))
       else let! bound := IsSessionBindEntity associatedHandle session in ret (negb bound)) in
    set_includeAuth p include ;;
    ret include.

(** [session->attributes.isPasswordNeeded], or a password session. *)
Definition password_session (sessionHandle : Z) : M Tpm bool :=
  if sessionHandle =? TPM_RS_PW then ret true
  else let! session := session_at sessionHandle in ret (isPasswordNeeded (attributes session)).

(** Whether the kind of authorization is allowed for the entity; a policy is
    checked here. *)
Definition check_kind (sessionIndex sessionHandle associatedHandle : Z) : M PState Z :=
  let! c := gets p_command in
  if negb (HandleGetType sessionHandle =? TPM_HT_POLICY_SESSION) then
    let! required := on_tpm (IsPolicySessionRequired (c_index c) sessionIndex) in
    if required : bool then ret TPM_RC_AUTH_TYPE
    else
      let! available := on_tpm (IsAuthValueAvailable associatedHandle (c_index c) sessionIndex) in
      ret (if available : bool then TPM_RC_SUCCESS else TPM_RC_AUTH_UNAVAILABLE)
  else
    let! available := on_tpm (IsAuthPolicyAvailable associatedHandle (c_index c) sessionIndex) in
    if negb available then ret TPM_RC_AUTH_UNAVAILABLE else CheckPolicyAuthSession sessionIndex.

Definition CheckAuthSession (sessionIndex : Z) : M PState Z :=
  let! sessionHandle := on_tpm (area_at s_sessionHandles sessionIndex) in
  let! associatedHandle := on_tpm (area_at s_associatedHandles sessionIndex) in
  pAssert (negb (sessionHandle =? TPM_RH_UNASSIGNED)) ;;
  let! c := gets p_command in
  let! pp_missing :=
    (if associatedHandle =? TPM_RH_PLATFORM then
       let! required := on_tpm (PhysicalPresenceIsRequired (c_index c)) in
       let! asserted := on_tpm plat__PhysicalPresenceAsserted in
       ret (required && negb asserted)
     else ret false) in
  if pp_missing : bool then ret TPM_RC_PP
  else
    let! authUsed := on_tpm (auth_used sessionHandle associatedHandle) in
    let! result :=
      (if authUsed : bool then
         let! exempted := on_tpm (IsDAExempted associatedHandle) in
         if exempted : bool then ret TPM_RC_SUCCESS
         else on_tpm (on_time (CheckLockedOut (associatedHandle =? TPM_RH_LOCKOUT)))
       else ret TPM_RC_SUCCESS) in
    if negb (result =? TPM_RC_SUCCESS) then ret result
    else
      let! result := check_kind sessionIndex sessionHandle associatedHandle in
      if negb (result =? TPM_RC_SUCCESS) then ret result
      else
        let! password := on_tpm (password_session sessionHandle) in
        let! result := (if password : bool then on_tpm (CheckPWAuthSession sessionIndex)
                        else CheckSessionHMAC sessionIndex) in
        (if (HandleGetType associatedHandle =? TPM_HT_NV_INDEX) && authUsed
         then on_tpm (update_pin associatedHandle result) else ret tt) ;;
        ret result.
End auth.
