(* ===== verification/SessionParse.v ===== *)
(** * The session area of a command (src/SessionProcess.c, lines 1126-1282 and 1500-1712)

    The area is unmarshaled into the arrays of the session area, the sessions
    are given to the handles they authorize, every authorization is checked, and
    the first parameter is decrypted where a session asks for it.  A value that
    fails to unmarshal is not stored; the arrays are only used after success. *)

From S2P Require Import Prelude TpmTypes Memory Struct Cbc NVMem NVReserved Clock NvList NvRam NvIndex NvCmd WireTypes Unmarshal Marshal.
From S2P Require Import Pcr Kdf Sym Session Time TpmState Hierarchy CommandAttributes Dispatch.
From S2P Require Import ObjectStore Entity SessionAuth.
Local Open Scope Z_scope.

(** ** Constants *)

Definition TPM_RC_REFERENCE_S0 : Z := RC_WARN + 0x018.
Definition TPM_RC_EXCLUSIVE : Z := RC_VER1 + 0x021.
Definition TPM_RC_AUTH_MISSING : Z := RC_VER1 + 0x025.
Definition TPM_RC_AUTH_CONTEXT : Z := RC_VER1 + 0x045.
Definition TPM_RC_NONCE : Z := RC_FMT1 + 0x00F.
Definition TPM_CC_GetCommandAuditDigest : Z := 0x133.
Definition TPMA_SESSION_continueSession : Z := Z.shiftl 1 0.
Definition TPMA_SESSION_auditExclusive : Z := Z.shiftl 1 1.
Definition TPMA_SESSION_auditReset : Z := Z.shiftl 1 2.
Definition TPMA_SESSION_decrypt : Z := Z.shiftl 1 5.
Definition TPMA_SESSION_encrypt : Z := Z.shiftl 1 6.
Definition TPMA_SESSION_audit : Z := Z.shiftl 1 7.

(** [TPM_RC_S + g_rcIndex[sessionIndex]]. *)
Definition error_index (sessionIndex : Z) : Z := TPM_RC_S + g_rcIndex sessionIndex.

Definition set_base (b : COMMAND) (c : Command) : Command :=
  mkCommand (c_tag c) (c_code c) (c_authSize c) (c_sessionNum c) (c_cpHash c) (c_rpHash c) b.
Definition set_authSize (n : Z) (c : Command) : Command :=
  mkCommand (c_tag c) (c_code c) n (c_sessionNum c) (c_cpHash c) (c_rpHash c) (c_base c).
Definition set_sessionNum (n : Z) (c : Command) : Command :=
  mkCommand (c_tag c) (c_code c) (c_authSize c) n (c_cpHash c) (c_rpHash c) (c_base c).
Definition set_parameters (buffer : bytes) (size : Z) (c : Command) : Command :=
  set_base (mkCOMMAND (c_index c) (c_handleNum c) (c_handles c) size buffer
              (c_responseBuffer (c_base c))) c.

Section parse.
Context `{TimeLayout} `{CryptEnv} `{HashLib}.

Definition on_command (f : Command → Command) : M PState unit := modify (λ p, set_cmd (f (p_command p)) p).

(** [f(target, &command->parameterBuffer, &command->authSize)]. *)
Definition on_auth {A} (f : Unm A) : M PState (Z + A) := λ p,
  let c := p_command p in
  match f (mkU (c_parameterBuffer c) (c_authSize c)) with
  | Some (r, u) =>
      Some (r, set_cmd (set_authSize (u_size u) (set_parameters (u_buffer u) (c_parameterSize c) c)) p)
  | None => None
  end.

(** ** [RetrieveSessionData] *)

(** The four members of a session in the area, stored at [i]. *)
Definition unmarshal_session (i : Z) : M PState Z :=
  on_tpm (area_put s_associatedHandles set_s_associatedHandles i TPM_RH_UNASSIGNED) ;;
  let! r := on_auth (TPMI_SH_AUTH_SESSION_Unmarshal true) in
  match r with
  | inl result => ret (result + TPM_RC_S + g_rcIndex i)
  | inr handle =>
    on_tpm (area_put s_sessionHandles set_s_sessionHandles i handle) ;;
    let! r := on_auth TPM2B_NONCE_Unmarshal in
    match r with
    | inl result => ret (result + TPM_RC_S + g_rcIndex i)
    | inr nonce =>
      on_tpm (area_put s_nonceCaller set_s_nonceCaller i nonce) ;;
      let! r := on_auth TPMA_SESSION_Unmarshal in
      match r with
      | inl result => ret (result + TPM_RC_S + g_rcIndex i)
      | inr attributes =>
        on_tpm (area_put s_attributes set_s_attributes i attributes) ;;
        let! r := on_auth TPM2B_AUTH_Unmarshal in
        match r with
        | inl result => ret (result + error_index i)
        | inr authValue =>
          on_tpm (area_put s_inputAuthValues set_s_inputAuthValues i authValue) ;;
          ret TPM_RC_SUCCESS
        end
      end
    end
  end.

(** [decrypt], [encrypt] and [audit]: a response code, or none and the index is
    recorded. *)
Definition claim_decrypt (i attr : Z) (session : SESSION) (commandIndex : Z) : M Tpm Z :=
  if IS_ATTRIBUTE attr TPMA_SESSION_decrypt then
    let! size := of_option (DecryptSize commandIndex) in
    let! d := area s_decryptSessionIndex in
    if size =? 0 then ret (TPM_RC_ATTRIBUTES + error_index i)
    else if negb (d =? UNDEFINED_INDEX) then ret (TPM_RC_ATTRIBUTES + error_index i)
    else if sd_algorithm (symmetric session) =? TPM_ALG_NULL then ret (TPM_RC_SYMMETRIC + error_index i)
    else area_set (set_s_decryptSessionIndex i) ;; ret TPM_RC_SUCCESS
  else ret TPM_RC_SUCCESS.

Definition claim_encrypt (i attr : Z) (session : SESSION) (commandIndex : Z) : M Tpm Z :=
  if IS_ATTRIBUTE attr TPMA_SESSION_encrypt then
    let! size := of_option (EncryptSize commandIndex) in
    let! e := area s_encryptSessionIndex in
    if size =? 0 then ret (TPM_RC_ATTRIBUTES + error_index i)
    else if negb (e =? UNDEFINED_INDEX) then ret (TPM_RC_ATTRIBUTES + error_index i)
    else if sd_algorithm (symmetric session) =? TPM_ALG_NULL then ret (TPM_RC_SYMMETRIC + error_index i)
    else area_set (set_s_encryptSessionIndex i) ;; ret TPM_RC_SUCCESS
  else ret TPM_RC_SUCCESS.

Definition claim_audit (i attr handle : Z) (session : SESSION) : M Tpm Z :=
  if IS_ATTRIBUTE attr TPMA_SESSION_audit then
    let! a := area s_auditSessionIndex in
    let! exclusive := gets (λ t, g_exclusiveAuditSession (t_audit t)) in
    if negb (a =? UNDEFINED_INDEX) then ret (TPM_RC_ATTRIBUTES + error_index i)
    else if HandleGetType handle =? TPM_HT_POLICY_SESSION then ret (TPM_RC_ATTRIBUTES + error_index i)
    else if negb (IS_ATTRIBUTE attr TPMA_SESSION_auditReset) && isAudit (attributes session)
            && IS_ATTRIBUTE attr TPMA_SESSION_auditExclusive && negb (exclusive =? handle)
    then ret TPM_RC_EXCLUSIVE
    else area_set (set_s_auditSessionIndex i) ;; ret TPM_RC_SUCCESS
  else ret TPM_RC_SUCCESS.

(** The checks of one unmarshaled session. *)
Definition check_session (i commandIndex : Z) : M Tpm Z :=
  let! handle := area_at s_sessionHandles i in
  let! attr := area_at s_attributes i in
  if handle =? TPM_RS_PW then
    let! nonce := area_at s_nonceCaller i in
    if IS_ATTRIBUTE attr TPMA_SESSION_encrypt || IS_ATTRIBUTE attr TPMA_SESSION_decrypt
       || IS_ATTRIBUTE attr TPMA_SESSION_audit || IS_ATTRIBUTE attr TPMA_SESSION_auditExclusive
       || IS_ATTRIBUTE attr TPMA_SESSION_auditReset
    then ret (TPM_RC_ATTRIBUTES + error_index i)
    else if negb (size2B nonce =? 0) then ret (TPM_RC_NONCE + error_index i)
    else ret TPM_RC_SUCCESS
  else
    let! loaded := on_sess (SessionIsLoaded handle) in
    if negb loaded then ret (TPM_RC_REFERENCE_S0 + i)
    else
      let sessionType := HandleGetType handle in
      let! session := session_at handle in
      let policy := isPolicy (attributes session) in
      if (policy && (sessionType =? TPM_HT_HMAC_SESSION))
         || (negb policy && (sessionType =? TPM_HT_POLICY_SESSION))
      then ret (TPM_RC_HANDLE + error_index i)
      else
        let! handles := area s_sessionHandles in
        if existsb (Z.eqb handle) (take (Z.to_nat i) handles) then ret (TPM_RC_HANDLE + error_index i)
        else
          let! result := claim_decrypt i attr session commandIndex in
          if negb (result =? TPM_RC_SUCCESS) then ret result
          else
            let! result := claim_encrypt i attr session commandIndex in
            if negb (result =? TPM_RC_SUCCESS) then ret result
            else
              let! result := claim_audit i attr handle session in
              if negb (result =? TPM_RC_SUCCESS) then ret result
              else
                area_put s_associatedHandles set_s_associatedHandles i TPM_RH_UNASSIGNED ;;
                ret TPM_RC_SUCCESS.

(** [for(sessionIndex = 0; command->authSize > 0; sessionIndex++)]; [fuel] is
    one more than what is left of [MAX_SESSION_NUM]. *)
Fixpoint retrieve_loop (fuel : nat) (sessionIndex : Z) : M PState Z :=
  match fuel with
  | O => undef
  | S fuel =>
      let! c := gets p_command in
      if 0 <? c_authSize c then
        if sessionIndex =? MAX_SESSION_NUM then ret (TPM_RC_SIZE + error_index sessionIndex)
        else
          let! result := unmarshal_session sessionIndex in
          if negb (result =? TPM_RC_SUCCESS) then ret result
          else
            let! result := on_tpm (check_session sessionIndex (c_index c)) in
            if negb (result =? TPM_RC_SUCCESS) then ret result
            else retrieve_loop fuel (sessionIndex + 1)
      else on_command (set_sessionNum sessionIndex) ;; ret TPM_RC_SUCCESS
  end.

Definition RetrieveSessionData : M PState Z :=
  on_tpm (area_set (λ a, set_s_auditSessionIndex UNDEFINED_INDEX
    (set_s_encryptSessionIndex UNDEFINED_INDEX (set_s_decryptSessionIndex UNDEFINED_INDEX a)))) ;;
  retrieve_loop 4 0.

(** ** Audit of commands *)

Definition CheckCommandAudit : M PState Z :=
  let! c := gets p_command in
  let! a := on_tpm (gets t_audit) in
  let! code := of_option (GetCommandCode (c_index c)) in
  let! status := on_tpm (gets (λ t, g_NvStatus (nv_of t))) in
  if ((size2B (commandAuditDigest a) =? 0) || (code =? TPM_CC_GetCommandAuditDigest))
     && negb (status =? TPM_RC_SUCCESS)
  then ret status
  else
    let! _ := ComputeCpHash (auditHashAlg a) in ret TPM_RC_SUCCESS.

Definition check_audit : M PState Z :=
  let! c := gets p_command in
  let! audited := on_tpm (CommandAuditIsRequired (c_index c)) in
  if audited : bool then CheckCommandAudit else ret TPM_RC_SUCCESS.

(** ** [ParseSessionBuffer] *)

(** [for(i = 0; i < command->handleNum; i++)]: the handles that need
    authorization get the session of their number; [sessionNum - 1] wraps. *)
Fixpoint associate (handles : list Z) (i commandIndex sessionNum : Z) : M Tpm Z :=
  match handles with
  | [] => ret TPM_RC_SUCCESS
  | h :: handles =>
      let! role := of_option (CommandAuthRole commandIndex i) in
      match role with
      | AUTH_NONE => associate handles (i + 1) commandIndex sessionNum
      | _ =>
          if u32 (sessionNum - 1) <? i then ret TPM_RC_AUTH_MISSING
          else
            area_put s_associatedHandles set_s_associatedHandles i (HierarchyNormalizeHandle h) ;;
            associate handles (i + 1) commandIndex sessionNum
      end
  end.

(** A password session, or what has to hold of another before its
    authorization is looked at. *)
Definition consistent (i : Z) : M PState Z :=
  let! handle := on_tpm (area_at s_sessionHandles i) in
  let! attr := on_tpm (area_at s_attributes i) in
  if handle =? TPM_RS_PW then
    let! associated := on_tpm (area_at s_associatedHandles i) in
    if associated =? TPM_RH_UNASSIGNED then ret (TPM_RC_HANDLE + error_index i)
    else if IS_ATTRIBUTE attr TPMA_SESSION_audit || IS_ATTRIBUTE attr TPMA_SESSION_encrypt
            || IS_ATTRIBUTE attr TPMA_SESSION_decrypt
    then ret (TPM_RC_ATTRIBUTES + error_index i)
    else ret TPM_RC_SUCCESS
  else
    let! session := on_tpm (session_at handle) in
    let a := attributes session in
    if isTrialPolicy a then ret (TPM_RC_ATTRIBUTES + error_index i)
    else
      let! result := (if isDaBound a then on_tpm (on_time (CheckLockedOut (isLockoutBound a)))
                      else ret TPM_RC_SUCCESS) in
      if negb (result =? TPM_RC_SUCCESS) then ret result
      else
        (if IS_ATTRIBUTE attr TPMA_SESSION_audit
         then let! _ := ComputeCpHash (authHashAlg session) in ret tt else ret tt) ;;
        ret TPM_RC_SUCCESS.

(** A session that authorizes no handle. *)
Definition check_other_session (i : Z) : M PState Z :=
  let! handle := on_tpm (area_at s_sessionHandles i) in
  let! attr := on_tpm (area_at s_attributes i) in
  if negb (IS_ATTRIBUTE attr TPMA_SESSION_audit) && negb (IS_ATTRIBUTE attr TPMA_SESSION_encrypt)
     && negb (IS_ATTRIBUTE attr TPMA_SESSION_decrypt)
  then ret (TPM_RC_ATTRIBUTES + error_index i)
  else
    let! p := on_tpm (session_ptr handle) in
    on_tpm (set_includeAuth p false) ;;
    let! result := CheckSessionHMAC i in
    ret (if negb (result =? TPM_RC_SUCCESS) then RcSafeAddToResult result (error_index i)
         else TPM_RC_SUCCESS).

Definition check_one (i : Z) : M PState Z :=
  let! result := consistent i in
  if negb (result =? TPM_RC_SUCCESS) then ret result
  else
    let! associated := on_tpm (area_at s_associatedHandles i) in
    if negb (associated =? TPM_RH_UNASSIGNED) then
      let! result := CheckAuthSession i in
      ret (if negb (result =? TPM_RC_SUCCESS) then RcSafeAddToResult result (error_index i)
           else TPM_RC_SUCCESS)
    else check_other_session i.

(** The sessions from number [i] on. *)
Fixpoint check_sessions (n : nat) (i : Z) : M PState Z :=
  match n with
  | O => ret TPM_RC_SUCCESS
  | S n =>
      let! result := check_one i in
      if negb (result =? TPM_RC_SUCCESS) then ret result else check_sessions n (i + 1)
  end.

(** ** Decryption of the first parameter (CryptUtil.c) *)

(** The key: that of the session and what comes with it. *)
Definition parameter_key (session : SESSION) (extraKey : TPM2B) : M PState TPM2B :=
  let! '(_, key) := MemoryCopy2B (mkTPM2B 0 (bfill 0 sizeof_KEY)) (Some (sessionKey session)) sizeof_KEY in
  MemoryConcat2B key extraKey sizeof_KEY.

Definition CryptParameterDecryption (handle : Z) (nonceCaller : TPM2B) (leadingSizeInByte : Z)
    (extraKey : TPM2B) : M PState Z :=
  let! c := gets p_command in
  let! session := on_tpm (session_at handle) in
  if c_parameterSize c <? leadingSizeInByte then ret TPM_RC_INSUFFICIENT
  else if negb (leadingSizeInByte =? 2) then modify set_failure ;; ret TPM_RC_FAILURE
  else
    let! '(r, u) := of_option (UINT16_Unmarshal (mkU (c_parameterBuffer c) (c_parameterSize c))) in
    match r with
    | inl _ => ret TPM_RC_INSUFFICIENT
    | inr cipherSize =>
        if u_size u <? cipherSize then ret TPM_RC_SIZE
        else
          let! key := parameter_key session extraKey in
          let! data := buffer_read (u_buffer u) 0 cipherSize in
          let hash := authHashAlg session in
          let sym := symmetric session in
          let! data :=
            (if sd_algorithm sym =? TPM_ALG_XOR
             then CryptXORObfuscation hash (contents key) (contents nonceCaller)
                    (contents (nonceTPM session)) data
             else ret (ParmDecryptSym (sd_algorithm sym) hash (sd_keyBits sym) (contents key)
                         (contents nonceCaller) (contents (nonceTPM session)) data)) in
          on_command (set_parameters (bwrite (c_parameterBuffer c) 2 data) (c_parameterSize c)) ;;
          ret TPM_RC_SUCCESS
    end.

Definition decrypt_parameter : M PState Z :=
  let! d := on_tpm (area s_decryptSessionIndex) in
  if negb (d =? UNDEFINED_INDEX) then
    let! associated := on_tpm (area_at s_associatedHandles d) in
    let! extraKey := (if negb (associated =? TPM_RH_UNASSIGNED)
                      then on_tpm (EntityGetAuthValue associated) else ret (mkTPM2B 0 [])) in
    let! c := gets p_command in
    let! size := of_option (DecryptSize (c_index c)) in
    let! handle := on_tpm (area_at s_sessionHandles d) in
    let! nonce := on_tpm (area_at s_nonceCaller d) in
    let! result := CryptParameterDecryption handle nonce size extraKey in
    ret (if negb (result =? TPM_RC_SUCCESS) then RcSafeAddToResult result (error_index d)
         else TPM_RC_SUCCESS)
  else ret TPM_RC_SUCCESS.

Definition ParseSessionBuffer : M PState Z :=
  let! c := gets p_command in
  let! allowed := of_option (IsSessionAllowed (c_index c)) in
  if negb allowed then ret TPM_RC_AUTH_CONTEXT
  else
    on_command (set_sessionNum 0) ;;
    let! result := RetrieveSessionData in
    if negb (result =? TPM_RC_SUCCESS) then ret result
    else
      let! c := gets p_command in
      pAssert (c_handleNum c <=? MAX_SESSION_NUM) ;;
      let! result := on_tpm (associate (used_handles c) 0 (c_index c) (c_sessionNum c)) in
      if negb (result =? TPM_RC_SUCCESS) then ret result
      else
        let! result := check_sessions (Z.to_nat (c_sessionNum c)) 0 in
        if negb (result =? TPM_RC_SUCCESS) then ret result
        else
          let! result := check_audit in
          if negb (result =? TPM_RC_SUCCESS) then ret result
          else decrypt_parameter.

(** ** Commands without sessions *)

Fixpoint no_authorization (handles : list Z) (i commandIndex : Z) : option bool :=
  match handles with
  | [] => Some true
  | _ :: handles =>
      match CommandAuthRole commandIndex i with
      | Some AUTH_NONE => no_authorization handles (i + 1) commandIndex
      | Some _ => Some false
      | None => None
      end
  end.

Definition CheckAuthNoSession : M PState Z :=
  let! c := gets p_command in
  let! none := of_option (no_authorization (used_handles c) 0 (c_index c)) in
  if negb none then ret TPM_RC_AUTH_MISSING
  else
    let! result := check_audit in
    if negb (result =? TPM_RC_SUCCESS) then ret result
    else on_command (set_sessionNum 0) ;; ret TPM_RC_SUCCESS.

(** [for(i = 0; i < MAX_SESSION_NUM; i++)] over [s_associatedHandles]. *)
Definition SessionRemoveAssociationToHandle (handle : Z) : M Tpm unit :=
  area_set (λ a, set_s_associatedHandles
    ((λ h, if h =? HierarchyNormalizeHandle handle then TPM_RH_NULL else h) <$> s_associatedHandles a) a).
End parse.
