(* ===== verification/AuthFrame.v ===== *)
(** * What the session checks leave alone

    A function [keeps] a view [X] of the state if [X] is the same
    afterwards; the checks keep the hierarchies, the objects, the session table
    (but for the [includeAuth] bits, in which they leave a note for the HMAC) and
    the session area, so that a conclusion drawn deep inside a check is one
    about the state in which the command came in. *)

From S2P Require Import Prelude TpmTypes Memory Struct Cbc NVMem NVReserved Clock NvList NvRam NvIndex NvCmd WireTypes Unmarshal Marshal.
From S2P Require Import Pcr Kdf Sym Session Time TpmState Hierarchy CommandAttributes DispatchData Dispatch.
From S2P Require Import ObjectStore Entity SessionAuth SessionParse.
Local Open Scope Z_scope.

(** ** What a computation keeps *)

(** Every run is a step of [R]. *)
Definition keeps {S A} (R : relation S) (m : M S A) : Prop := ∀ s a s', m s = Some (a, s') → R s s'.

(** The view [X] is the same. *)
Definition view {S T} (X : S → T) : relation S := λ s s', X s' = X s.
#[export] Instance view_preorder {S T} (X : S → T) : PreOrder (view X).
Proof. split; unfold view; [done|]. intros x y z -> ->. done. Qed.

Create HintDb keeps.

Section closure.
Context {S : Type} (R : relation S) `{!PreOrder R}.

Lemma keeps_ret {A} (a : A) : keeps R (ret a).
Proof. by intros s b s' [= <- <-]. Qed.
Lemma keeps_undef {A} : keeps R (@undef S A).
Proof. done. Qed.
Lemma keeps_gets {A} (f : S → A) : keeps R (gets f).
Proof. by intros s b s' [= <- <-]. Qed.
Lemma keeps_of_option {A} (o : option A) : keeps R (of_option o).
Proof. intros s b s'. unfold of_option. by destruct o; intros [= <- <-]. Qed.
Lemma keeps_modify (f : S → S) : (∀ s, R s (f s)) → keeps R (modify f).
Proof. intros Hf s b s' [= <- <-]. apply Hf. Qed.
Lemma keeps_bind {A B} (m : M S A) (k : A → M S B) : keeps R m → (∀ a, keeps R (k a)) → keeps R (bind m k).
Proof.
  intros Hm Hk s b s' E. apply bind_inv in E as (a & s1 & E1 & E2).
  etransitivity; [by eapply Hm|by eapply Hk].
Qed.
Lemma keeps_pAssert `{FailState S} (c : bool) : (∀ s, R s (set_failure s)) → keeps R (pAssert c).
Proof. intros Hf. destruct c; [apply keeps_ret|by apply keeps_modify]. Qed.
End closure.
#[export] Hint Resolve keeps_ret keeps_undef keeps_gets keeps_of_option keeps_modify keeps_pAssert : keeps.
#[export] Hint Extern 1 (PreOrder _) => apply _ : keeps.

(** Walk through the statements of a computation. *)
Ltac keeps :=
  lazymatch goal with
  | |- keeps _ (bind _ _) => apply keeps_bind; [try apply _|keeps|intros; keeps]
  | |- keeps _ (match ?x with _ => _ end) => destruct x; keeps
  | |- keeps _ (if ?x then _ else _) => destruct x; keeps
  | |- keeps _ (let _ := _ in _) => cbv zeta; keeps
  | |- keeps _ _ => solve [eauto with keeps]
  | |- _ => idtac
  end.

(** ** Octets *)

(** Equal as octets. *)
Definition same_octets (a b : bytes) : Prop := u8 <$> a = u8 <$> b.

Lemma MemoryEqual_loop_same n : ∀ b1 b2 e,
  MemoryEqual_loop b1 b2 n e = Some 0 → same_octets (take n b1) (take n b2) ∧ u8 e = 0 ∨ n = 0%nat.
Proof.
  induction n as [|n IH]; intros b1 b2 e; [by right|]. destruct b1 as [|x b1], b2 as [|y b2]; cbn; try done.
  intros E. left. unfold same_octets. cbn.
  assert (u8 (Z.lor e (Z.lxor x y)) = 0 ∧ same_octets (take n b1) (take n b2)) as [Z1 Z2].
  { destruct (IH _ _ _ E) as [[H1 H2]| ->].
    - split; [|done]. unfold wrap in *. by rewrite Z.mod_mod in H2 by done.
    - cbn in E. injection E as E. split; [by rewrite <- E|done]. }
  rewrite wrap_lor, wrap_lxor in Z1 by lia. apply Z.lor_eq_0_iff in Z1 as [Ze Zx].
  apply Z.lxor_eq in Zx. split; [|done]. f_equal; [done|exact Z2].
Qed.

Lemma MemoryEqual2B_same {S} `{FailState S} a b (s s' : S) :
  MemoryEqual2B a b s = Some (true, s') → s' = s ∧ same_octets (contents a) (contents b).
Proof.
  unfold MemoryEqual2B. destruct (Z.eqb_spec (size2B a) (size2B b)) as [Es|]; [|intros [= ]]. cbn [negb].
  unfold of_option, MemoryEqual. destruct (MemoryEqual_loop _ _ _ _) as [e|] eqn:E; [|done]. cbn.
  destruct (Z.eqb_spec e 0) as [->|]; [|done]. intros [= <-]. split; [done|].
  apply MemoryEqual_loop_same in E as [[E _]|E]; unfold contents, bread; rewrite <- Es, !drop_0; [done|by rewrite E].
Qed.

(** A copy of a 2B has the same value with the trailing zeros removed. *)
Lemma trim_zeros_ext n : ∀ b1 b2, (∀ i, (i < n)%nat → List.nth i b1 0 = List.nth i b2 0) →
  trim_zeros n b1 = trim_zeros n b2.
Proof.
  induction n as [|n IH]; intros b1 b2 E; [done|]. cbn. rewrite E by lia.
  destruct (_ =? 0); [|done]. apply IH. intros; apply E. lia.
Qed.

Lemma copy_trimmed {S} `{FailState S} size src (s s' : S) n b :
  MemoryCopy2B (mkTPM2B 0 (bfill 0 size)) (Some src) size s = Some ((n, b), s') →
  contents (MemoryRemoveTrailingZeros b) = contents (MemoryRemoveTrailingZeros src) ∧ contents b = contents src.
Proof.
  unfold MemoryCopy2B. intros E.
  apply bind_inv in E as ([] & s1 & _ & E). apply bind_inv in E as (d & s2 & E2 & E).
  unfold buffer_read in E2. destruct (inb _ _ _) eqn:I; [|done]. injection E2 as <- <-.
  apply bind_inv in E as (c & s3 & E3 & E). unfold buffer_write in E3. cbn [buffer2B] in E3.
  destruct (inb (bfill 0 size) 0 (blen (bread (buffer2B src) 0 (size2B src)))) eqn:I2; [|done]. injection E3 as <- <-. injection E as <- <- <-.
  apply inb_true in I, I2. cbn [buffer2B] in *.
  set (m := bfill 0 size) in *. set (d := bread (buffer2B src) 0 (size2B src)) in *.
  assert (blen d = size2B src) as Ld by (apply blen_bread; lia).
  assert (∀ k, (k ≤ Z.to_nat (size2B src))%nat →
    take k (bwrite m 0 d) = take k (buffer2B src)) as T.
  { intros k K. unfold bwrite. cbn [Z.to_nat]. rewrite take_0. cbn [app].
    rewrite take_app_le by (unfold blen in Ld; lia). unfold d, bread. cbn [Z.to_nat]. rewrite drop_0, take_take.
    f_equal. lia. }
  split.
  - unfold contents, MemoryRemoveTrailingZeros, bread. cbn [size2B buffer2B Z.to_nat]. rewrite !drop_0, !Nat2Z.id.
    rewrite (trim_zeros_ext _ (bwrite m 0 d) (buffer2B src)); [apply T, trim_zeros_le|].
    intros i Hi. pose proof (T (Datatypes.S i) ltac:(lia)) as Ti.
    assert (∀ l : bytes, List.nth i (take (Datatypes.S i) l) 0 = List.nth i l 0) as N
      by (intros l; rewrite List.nth_firstn; by rewrite (proj2 (Nat.ltb_lt _ _)) by lia).
    by rewrite <- N, Ti, N.
  - unfold contents, bread. cbn [size2B buffer2B Z.to_nat]. rewrite !drop_0. by apply T.
Qed.

(** ** What the checks keep *)

Definition erase (sl : SESSION_SLOT) : SESSION_SLOT :=
  mkSlot (Session.occupied sl)
    (with_attributes (with_includeAuth false (attributes (session sl))) (session sl)).

Section frame.
Context `{TimeLayout} `{CryptEnv} `{HashLib}.

(** The session table, with and without the [includeAuth] bits. *)
Definition sess_full (s : SessState) : list Z * list SESSION_SLOT := (Session.contextArray s, Session.s_sessions s).
Definition sess_core (s : SessState) : list Z * list SESSION_SLOT :=
  (Session.contextArray s, erase <$> Session.s_sessions s).

(** What the registers have for authorizations. *)
Definition pcr_auth (s : PcrState) : TPM2B * Z * TPM2B := (pcrAuth s, pcrPolicyAlg s, pcrPolicy s).

(** A view that does not depend on time and NV memory, on the values of the
    registers, and on the session state but for a part [kept] of it. *)
Class Stable {T} (X : Tpm → T) := {
  keptU : Type;
  kept : SessState → keptU;
  kept_failure s : view kept s (set_failure s);
  kept_view t : kept (sess_view t) = kept (t_sess t);
  st_time t x : X (set_t_time x t) = X t;
  st_pcr t x : pcr_auth x = pcr_auth (t_pcr t) → X (set_t_pcr x t) = X t;
  st_sess t s : kept s = kept (t_sess t) → X (set_t_sess s t) = X t
}.
#[global] Arguments kept {_} X {_} _.

(** It does not depend on the [includeAuth] bits either. *)
Class Erasing {T} (X : Tpm → T) `{!Stable X} : Prop :=
  kept_core s s' : sess_core s = sess_core s' → kept X s = kept X s'.

Section stable.
Context {T : Type} (X : Tpm → T) `{!Stable X}.

Lemma st_failure t : view X t (set_failure t).
Proof. apply st_time. Qed.
Lemma st_fail_if b t : X (fail_if_set b t) = X t.
Proof. destruct b; [apply st_failure|done]. Qed.

Lemma keeps_on_time {A} (m : M TimeState A) : keeps (view X) (on_time m).
Proof. intros t a t'. unfold on_time. destruct (m (t_time t)) as [[b x]|]; [|done]. intros [= <- <-]. apply st_time. Qed.
Lemma keeps_on_nv {A} (m : M NvState A) : keeps (view X) (on_nv m).
Proof. apply keeps_on_time. Qed.
Lemma keeps_on_pcr {A} (m : M PcrState A) : keeps (view pcr_auth) m → keeps (view X) (on_pcr m).
Proof.
  intros Hm t a t'. unfold on_pcr. destruct (m _) as [[b x]|] eqn:E; [|done]. intros [= <- <-].
  unfold view. rewrite st_fail_if, st_pcr; [done|]. by apply Hm in E.
Qed.
Lemma keeps_on_sess {A} (m : M SessState A) : keeps (view (kept X)) m → keeps (view X) (on_sess m).
Proof.
  intros Hm t a t'. unfold on_sess. destruct (m _) as [[b x]|] eqn:E; [|done]. intros [= <- <-].
  unfold view. rewrite st_fail_if, st_sess; [done|]. apply Hm in E. by rewrite E, kept_view.
Qed.
End stable.
End frame.
#[export] Hint Resolve keeps_on_time keeps_on_nv keeps_on_pcr keeps_on_sess kept_failure st_failure : keeps.
#[export] Hint Extern 1 (Stable _) => apply _ : keeps.
#[export] Hint Extern 1 (Erasing _) => apply _ : keeps.

(** The queries of the registers. *)
Lemma keeps_pcr_queries h :
  keeps (view pcr_auth) (PCRPolicyIsAvailable h) ∧ keeps (view pcr_auth) (PCRGetAuthValue h) ∧
  keeps (view pcr_auth) (PCRGetAuthPolicy h).
Proof.
  assert (∀ s : PcrState, view pcr_auth s (set_failure s)) by done.
  split_and!; unfold PCRPolicyIsAvailable, PCRGetAuthValue, PCRGetAuthPolicy, PCRBelongsPolicyGroup,
    PCRBelongsAuthGroup; keeps.
Qed.
Lemma keeps_PCRPolicyIsAvailable h : keeps (view pcr_auth) (PCRPolicyIsAvailable h).
Proof. apply keeps_pcr_queries. Qed.
Lemma keeps_PCRGetAuthValue h : keeps (view pcr_auth) (PCRGetAuthValue h).
Proof. apply keeps_pcr_queries. Qed.
Lemma keeps_PCRGetAuthPolicy h : keeps (view pcr_auth) (PCRGetAuthPolicy h).
Proof. apply keeps_pcr_queries. Qed.
#[export] Hint Resolve keeps_PCRPolicyIsAvailable keeps_PCRGetAuthValue keeps_PCRGetAuthPolicy : keeps.

Section frame2.
Context `{TimeLayout} `{CryptEnv} `{HashLib}.
Context {T : Type} (X : Tpm → T) `{!Stable X}.

Lemma keeps_SessionGet h : keeps (view (kept X)) (SessionGet h).
Proof. unfold SessionGet, ca_get. keeps. Qed.
Lemma keeps_SessionIsLoaded h : keeps (view (kept X)) (SessionIsLoaded h).
Proof. unfold SessionIsLoaded, ca_get. keeps. Qed.
Lemma keeps_PCRValueIsCurrent s : keeps (view (kept X)) (SessionPCRValueIsCurrent s).
Proof. unfold SessionPCRValueIsCurrent. keeps. Qed.
Lemma keeps_slot_get i : keeps (view (kept X)) (slot_get i).
Proof. unfold slot_get. keeps. Qed.
Hint Resolve keeps_SessionGet keeps_SessionIsLoaded keeps_PCRValueIsCurrent keeps_slot_get : keeps.

Lemma keeps_area {A} (f : SessionArea → A) : keeps (view X) (area f).
Proof. unfold area. keeps. Qed.
Hint Resolve keeps_area : keeps.
Lemma keeps_area_at {A} (f : SessionArea → list A) i : keeps (view X) (area_at f i).
Proof. unfold area_at. keeps. Qed.
Lemma keeps_session_ptr h : keeps (view X) (session_ptr h).
Proof. unfold session_ptr. keeps. Qed.
Lemma keeps_session_get i : keeps (view X) (session_get i).
Proof. unfold session_get. eapply (keeps_on_sess X). keeps. Qed.
Hint Resolve keeps_area_at keeps_session_ptr keeps_session_get : keeps.
Lemma keeps_session_at h : keeps (view X) (session_at h).
Proof. unfold session_at. keeps. Qed.
Lemma keeps_object_get i : keeps (view X) (object_get i).
Proof. unfold object_get. keeps. Qed.
Hint Resolve keeps_session_at keeps_object_get : keeps.
Lemma keeps_object_of h : keeps (view X) (object_of h).
Proof. unfold object_of, HandleToObject. keeps. Qed.
Lemma keeps_nv_index h : keeps (view X) (nv_index h).
Proof. unfold nv_index. keeps. Qed.
Lemma keeps_nv_index_ref h : keeps (view X) (nv_index_ref h).
Proof. unfold nv_index_ref. keeps. Qed.
Hint Resolve keeps_object_of keeps_nv_index keeps_nv_index_ref : keeps.

Lemma keeps_MemoryCopy2B a b n : keeps (view X) (MemoryCopy2B a b n).
Proof. unfold MemoryCopy2B, buffer_read, buffer_write. keeps. Qed.
Lemma keeps_MemoryConcat2B a b n : keeps (view X) (MemoryConcat2B a b n).
Proof. unfold MemoryConcat2B, buffer_read, buffer_write. keeps. Qed.
Lemma keeps_MemoryEqual2B a b : keeps (view X) (MemoryEqual2B a b).
Proof. unfold MemoryEqual2B. keeps. Qed.
Lemma keeps_TestBit i l n : keeps (view X) (TestBit i l n).
Proof. unfold TestBit. keeps. Qed.
Hint Resolve keeps_MemoryCopy2B keeps_MemoryConcat2B keeps_MemoryEqual2B keeps_TestBit : keeps.

Lemma keeps_EntityGetAuthValue h : keeps (view X) (EntityGetAuthValue h).
Proof. unfold EntityGetAuthValue, auth_pointer. keeps. Qed.
Lemma keeps_EntityGetAuthPolicy h : keeps (view X) (EntityGetAuthPolicy h).
Proof. unfold EntityGetAuthPolicy. keeps. Qed.
Lemma keeps_EntityGetName h : keeps (view X) (EntityGetName h).
Proof. unfold EntityGetName, NvGetNameByIndexHandle. keeps. Qed.
Hint Resolve keeps_EntityGetAuthValue keeps_EntityGetAuthPolicy keeps_EntityGetName : keeps.
Lemma keeps_handle_names l : keeps (view X) (handle_names l).
Proof. induction l; cbn [handle_names]; keeps. Qed.
Hint Resolve keeps_handle_names : keeps.

Lemma keeps_IsDAExempted h : keeps (view X) (SessionAuth.IsDAExempted h).
Proof. unfold SessionAuth.IsDAExempted, ObjectGetPublicAttributes. keeps. Qed.
Hint Resolve keeps_IsDAExempted : keeps.
Lemma keeps_IncrementLockout i : keeps (view X) (SessionAuth.IncrementLockout i).
Proof. unfold SessionAuth.IncrementLockout. keeps. Qed.
Lemma keeps_IsSessionBindEntity h s : keeps (view X) (IsSessionBindEntity h s).
Proof. unfold IsSessionBindEntity. keeps. Qed.
Lemma keeps_IsPolicySessionRequired c i : keeps (view X) (IsPolicySessionRequired c i).
Proof. unfold IsPolicySessionRequired. keeps. Qed.
Hint Resolve keeps_IncrementLockout keeps_IsSessionBindEntity keeps_IsPolicySessionRequired : keeps.
Lemma keeps_IsAuthValueAvailable h c i : keeps (view X) (IsAuthValueAvailable h c i).
Proof. unfold IsAuthValueAvailable. keeps. Qed.
Lemma keeps_IsAuthPolicyAvailable h c i : keeps (view X) (IsAuthPolicyAvailable h c i).
Proof. unfold IsAuthPolicyAvailable. keeps. Qed.
Lemma keeps_PPIsRequired c : keeps (view X) (PhysicalPresenceIsRequired c).
Proof. unfold PhysicalPresenceIsRequired. keeps. Qed.
Lemma keeps_extra_nonces i h : keeps (view X) (extra_nonces i h).
Proof. unfold extra_nonces. keeps. Qed.
Lemma keeps_hmac_session_key s h : keeps (view X) (hmac_session_key s h).
Proof. unfold hmac_session_key. keeps. Qed.
Lemma keeps_nv_written_ok s h : keeps (view X) (nv_written_ok s h).
Proof. unfold nv_written_ok. keeps. Qed.
Lemma keeps_update_pin h r : keeps (view X) (update_pin h r).
Proof. unfold update_pin. keeps. Qed.
Lemma keeps_password_session h : keeps (view X) (password_session h).
Proof. unfold password_session. keeps. Qed.

(** The note in [includeAuth] is the one change of the session table. *)
Lemma erase_includeAuth b sl s : session sl = s →
  erase (mkSlot (Session.occupied sl) (with_attributes (with_includeAuth b (attributes s)) s)) = erase sl.
Proof. by intros <-. Qed.

Lemma session_get_spec p t s t' : session_get p t = Some (s, t') →
  ∃ sl, Session.s_sessions (t_sess t) !! Z.to_nat p = Some sl ∧ session sl = s ∧
    Session.s_sessions (t_sess t') = Session.s_sessions (t_sess t).
Proof.
  unfold session_get, on_sess, slot_get. munfold. cbn [sess_view Session.s_sessions].
  destruct (_ !! _) as [sl|] eqn:L; [|done]. intros [= <- <-]. exists sl. split_and!; [done|done|].
  cbn [Session.s_inFailureMode sess_view]. by destruct (failed t).
Qed.

Lemma session_put_core `{!Erasing X} p s t t' sl :
  session_put p s t = Some (tt, t') → Session.s_sessions (t_sess t) !! Z.to_nat p = Some sl →
  erase (mkSlot (Session.occupied sl) s) = erase sl → X t' = X t.
Proof.
  unfold session_put, on_sess, slot_get, slot_set. munfold. cbn [sess_view Session.s_sessions].
  intros E L Er. rewrite L in E. destruct (_ <? _); [|done]. injection E as <-.
  rewrite (st_fail_if X), (st_sess (X := X)); [done|]. apply kept_core. unfold sess_core. cbn. f_equal.
  rewrite list_fmap_insert, Er. apply list_insert_id. by rewrite list_lookup_fmap, L.
Qed.

Lemma keeps_set_includeAuth `{!Erasing X} p b : keeps (view X) (set_includeAuth p b).
Proof.
  intros t [] t' E. unfold set_includeAuth in E. apply bind_inv in E as (s & t1 & E1 & E2).
  destruct (session_get_spec _ _ _ _ E1) as (sl & L & Hs & L').
  unfold view. rewrite <- (keeps_session_get _ _ _ _ E1). rewrite <- L' in L.
  eapply session_put_core; [exact E2|exact L|]. by apply erase_includeAuth.
Qed.
Hint Resolve keeps_set_includeAuth : keeps.

Lemma keeps_auth_used `{!Erasing X} h a : keeps (view X) (auth_used h a).
Proof. unfold auth_used. keeps. Qed.
End frame2.
#[export] Hint Resolve keeps_SessionGet keeps_SessionIsLoaded keeps_PCRValueIsCurrent keeps_slot_get
  keeps_area keeps_area_at keeps_session_ptr keeps_session_get keeps_session_at keeps_object_get
  keeps_object_of keeps_nv_index keeps_nv_index_ref keeps_MemoryCopy2B keeps_MemoryConcat2B
  keeps_MemoryEqual2B keeps_TestBit keeps_EntityGetAuthValue keeps_EntityGetAuthPolicy
  keeps_EntityGetName keeps_handle_names keeps_IsDAExempted keeps_IncrementLockout
  keeps_IsSessionBindEntity keeps_IsPolicySessionRequired keeps_IsAuthValueAvailable
  keeps_IsAuthPolicyAvailable keeps_PPIsRequired keeps_extra_nonces keeps_hmac_session_key
  keeps_nv_written_ok keeps_update_pin keeps_password_session keeps_set_includeAuth keeps_auth_used : keeps.

(** ** Secrets, policies and names of the entities

    Of the hierarchies, the loaded objects and the registers; those of NV indices
    are not described. *)

Section entities.
Context `{TimeLayout} `{CryptEnv} `{HashLib}.

Definition object_at (t : Tpm) (h : Z) : option OBJECT := s_objects t !! Z.to_nat (u32 (h - TRANSIENT_FIRST)).

(** The groups of a register. *)
Definition auth_group (h : Z) : Z := authValuesGroup (platPcr__GetPcrInitializationAttributes (u32 (h - PCR_FIRST))).
Definition policy_group (h : Z) : Z := policyAuthGroup (platPcr__GetPcrInitializationAttributes (u32 (h - PCR_FIRST))).

Definition no_value : TPM2B := mkTPM2B 0 [].

(** A register has the value of its group, an empty one if it is in none. *)
Definition stored_auth (t : Tpm) (h : Z) : option TPM2B :=
  if HandleGetType h =? TPM_HT_PERMANENT then
    let base := HierarchyNormalizeHandle h in
    if base =? TPM_RH_OWNER then Some (ownerAuth (h_gp (t_hier t)))
    else if base =? TPM_RH_ENDORSEMENT then Some (endorsementAuth (h_gp (t_hier t)))
    else if base =? TPM_RH_PLATFORM then Some (platformAuth (t_hier t))
    else if base =? TPM_RH_LOCKOUT then Some (lockoutAuth (h_gp (t_hier t)))
    else if base =? TPM_RH_NULL then Some no_value
    else None
  else if HandleGetType h =? TPM_HT_TRANSIENT then
    (λ o, if ObjectIsSequence o then TPMT_PUBLIC_authPolicy (o_publicArea o)
          else TPMT_SENSITIVE_authValue (o_sensitive o)) <$> object_at t h
  else if HandleGetType h =? TPM_HT_PCR then
    Some (if (1 <=? auth_group h) && (auth_group h <=? NUM_AUTHVALUE_PCR_GROUP) then pcrAuth (t_pcr t) else no_value)
  else None.

(** The authorization value, without trailing zeros. *)
Definition secret (t : Tpm) (h : Z) : option bytes :=
  (λ a, contents (MemoryRemoveTrailingZeros a)) <$> stored_auth t h.

Definition stored_policy (t : Tpm) (h : Z) : option (Z * TPM2B) :=
  if HandleGetType h =? TPM_HT_PERMANENT then
    let base := HierarchyNormalizeHandle h in
    let g := h_gp (t_hier t) in
    if base =? TPM_RH_OWNER then Some (ownerAlg g, ownerPolicy g)
    else if base =? TPM_RH_ENDORSEMENT then Some (endorsementAlg g, endorsementPolicy g)
    else if base =? TPM_RH_PLATFORM then Some (platformAlg (t_hier t), platformPolicy (t_hier t))
    else if base =? TPM_RH_LOCKOUT then Some (lockoutAlg g, lockoutPolicy g)
    else None
  else if HandleGetType h =? TPM_HT_TRANSIENT then
    (λ o, (TPMT_PUBLIC_nameAlg (o_publicArea o), TPMT_PUBLIC_authPolicy (o_publicArea o))) <$> object_at t h
  else if HandleGetType h =? TPM_HT_PCR then
    Some (if (1 <=? policy_group h) && (policy_group h <=? NUM_POLICY_PCR_GROUP) then (pcrPolicyAlg (t_pcr t), pcrPolicy (t_pcr t))
          else (TPM_ALG_NULL, no_value))
  else None.

Definition entity_name (t : Tpm) (h : Z) : option TPM2B :=
  if HandleGetType h =? TPM_HT_TRANSIENT then
    (λ o, if TPMT_PUBLIC_nameAlg (o_publicArea o) =? TPM_ALG_NULL then no_value else o_name o)
      <$> object_at t h
  else if HandleGetType h =? TPM_HT_NV_INDEX then None
  else Some (mkTPM2B 4 (Uint32ToByteArray h)).

Definition name_of (t : Tpm) (h : Z) : option bytes := contents <$> entity_name t h.

Fixpoint names_of (t : Tpm) (l : list Z) : option bytes :=
  match l with
  | [] => Some []
  | h :: l => match name_of t h, names_of t l with Some n, Some ns => Some (n ++ ns) | _, _ => None end
  end.

(** The session of a handle. *)
Definition session_of (t : Tpm) (h : Z) : option SESSION :=
  match Session.contextArray (t_sess t) !! Z.to_nat (Z.land h HR_HANDLE_MASK) with
  | Some e => session <$> Session.s_sessions (t_sess t) !! Z.to_nat (u16 (e - 1))
  | None => None
  end.

#[global] Program Instance stable_objects : Stable s_objects := {| kept := sess_core |}.
Solve Obligations with done.
#[global] Instance erasing_objects : Erasing s_objects.
Proof. by intros s s'. Qed.

Lemma object_of_at h t o t' : (HandleGetType h =? TPM_HT_TRANSIENT) = true →
  object_of h t = Some (o, t') → object_at t h = Some o.
Proof.
  intros Ht E. unfold object_of in E. apply bind_inv in E as (p & t1 & E1 & E2).
  assert (keeps (view s_objects) (HandleToObject h)) as K by (unfold HandleToObject; keeps).
  apply K in E1 as V.
  unfold HandleToObject in E1. apply Z.eqb_eq in Ht. rewrite Ht in E1.
  change (TPM_HT_TRANSIENT =? TPM_HT_PERMANENT) with false in E1. cbv zeta iota in E1.
  apply bind_inv in E1 as ([] & t2 & _ & E1). apply bind_inv in E1 as (o1 & t3 & _ & E1).
  apply bind_inv in E1 as ([] & t4 & _ & E1). injection E1 as <- <-.
  unfold object_get in E2. munfold. rewrite V in E2. pose proof (wrap_range 32 (h - TRANSIENT_FIRST) ltac:(lia)).
  rewrite (proj2 (Z.ltb_ge _ 0)) in E2 by lia.
  unfold object_at. by destruct (s_objects t !! _); [injection E2 as <- _|].
Qed.

(** The branches of a chain of conditions, both in the code and in its description. *)
Ltac same_branch E :=
  repeat match goal with
  | |- (if ?b then _ else _) = _ → _ => destruct b; [by injection E as <- _; intros [= <-]|]
  end.

Lemma groups_pos h : 0 ≤ auth_group h ∧ 0 ≤ policy_group h.
Proof.
  unfold auth_group, policy_group, platPcr__GetPcrInitializationAttributes. cbv zeta.
  destruct (List.nth_in_or_default (Z.to_nat (if platPcr__NumberOfPcrs <=? u32 (h - PCR_FIRST) then 0
    else u32 (h - PCR_FIRST))) s_initAttributes static_pcr) as [I| ->]; [|done].
  revert I. generalize (List.nth (Z.to_nat (if platPcr__NumberOfPcrs <=? u32 (h - PCR_FIRST) then 0
    else u32 (h - PCR_FIRST))) s_initAttributes static_pcr). apply List.Forall_forall.
  by repeat constructor.
Qed.

Lemma in_group (g n : Z) : 0 ≤ g →
  (negb (g =? 0) && (g - 1 <? n)) = ((1 <=? g) && (g <=? n)).
Proof.
  intros G. destruct (Z.eqb_spec g 0), (Z.ltb_spec (g - 1) n), (Z.leb_spec 1 g), (Z.leb_spec g n); cbn; lia.
Qed.

Lemma PCRBelongsAuthGroup_in h s b g s' : PCRBelongsAuthGroup h s = Some ((b, g), s') →
  pcr_auth s' = pcr_auth s ∧ b = (1 <=? auth_group h) && (auth_group h <=? NUM_AUTHVALUE_PCR_GROUP).
Proof.
  unfold PCRBelongsAuthGroup. fold (auth_group h). cbv zeta. munfold. rewrite <- in_group by apply groups_pos.
  destruct (_ =? 0), (_ <? _); cbn [negb andb]; by intros [= <- _ <-].
Qed.

Lemma PCRBelongsPolicyGroup_in h s b g s' : PCRBelongsPolicyGroup h s = Some ((b, g), s') →
  pcr_auth s' = pcr_auth s ∧ b = (1 <=? policy_group h) && (policy_group h <=? NUM_POLICY_PCR_GROUP).
Proof.
  unfold PCRBelongsPolicyGroup. fold (policy_group h). cbv zeta. munfold. rewrite <- in_group by apply groups_pos.
  destruct (_ =? 0), (_ <? _); cbn [negb andb]; by intros [= <- _ <-].
Qed.

Lemma on_pcr_inv {A} (m : M PcrState A) t a t' : on_pcr m t = Some (a, t') →
  ∃ s, m (Pcr.set_p_failed (failed t) (t_pcr t)) = Some (a, s).
Proof. unfold on_pcr. destruct (m _) as [[b s]|]; [|done]. intros [= <- _]. eauto. Qed.

Lemma auth_pointer_stored h t pa t' b :
  auth_pointer h t = Some (pa, t') → stored_auth t h = Some b → default no_value pa = b.
Proof.
  unfold auth_pointer, stored_auth. intros E. destruct (HandleGetType h =? TPM_HT_PERMANENT).
  - apply bind_inv in E as (hi & t1 & [= <- <-] & E). cbv zeta in *. by same_branch E.
  - destruct (HandleGetType h =? TPM_HT_TRANSIENT) eqn:Ht.
    + apply bind_inv in E as (o & t2 & Eo & E). rewrite (object_of_at _ _ _ _ Ht Eo). cbn.
      destruct (ObjectIsSequence o); [by injection E as <- _; intros [= <-]|].
      apply bind_inv in E as ([] & t3 & _ & E). injection E as <- _. by intros [= <-].
    + destruct (HandleGetType h =? TPM_HT_NV_INDEX) eqn:Hn.
      { apply Z.eqb_eq in Hn as ->. done. }
      destruct (HandleGetType h =? TPM_HT_PCR); [|done]. apply on_pcr_inv in E as (s & E).
      unfold PCRGetAuthValue in E. apply bind_inv in E as ([g n] & s1 & E1 & E).
      apply PCRBelongsAuthGroup_in in E1 as [V Hg]. cbv zeta in *. intros Hb. injection Hb as <-. rewrite <- Hg.
      destruct g; [|by injection E as <- _]. apply bind_inv in E as (a & s2 & [= <- <-] & E). injection E as <- _. by injection V.
Qed.

Lemma EntityGetAuthValue_secret h t v t' a :
  EntityGetAuthValue h t = Some (v, t') → secret t h = Some a → contents v = a.
Proof.
  unfold EntityGetAuthValue, secret. intros E S. apply bind_inv in E as (pa & t1 & E1 & E).
  destruct (stored_auth t h) as [b|] eqn:Hb; [|done]. cbn in S. injection S as <-.
  apply (auth_pointer_stored _ _ _ _ _ E1) in Hb as <-.
  apply bind_inv in E as ([n c] & t2 & E2 & E). injection E as <- _.
  destruct pa; [by apply copy_trimmed in E2 as [-> _]|]. by injection E2 as _ <- _.
Qed.

Lemma EntityGetAuthPolicy_policy h t r t' p :
  EntityGetAuthPolicy h t = Some (r, t') → stored_policy t h = Some p → r = p.
Proof.
  unfold EntityGetAuthPolicy, stored_policy. intros E. destruct (HandleGetType h =? TPM_HT_PERMANENT).
  - apply bind_inv in E as (hi & t1 & [= <- <-] & E). cbv zeta in *. by same_branch E.
  - destruct (HandleGetType h =? TPM_HT_TRANSIENT) eqn:Ht.
    + apply bind_inv in E as (o & t2 & Eo & E). rewrite (object_of_at _ _ _ _ Ht Eo). cbn.
      injection E as <- _. by intros [= <-].
    + destruct (HandleGetType h =? TPM_HT_NV_INDEX) eqn:Hn.
      { apply Z.eqb_eq in Hn as ->. done. }
      destruct (HandleGetType h =? TPM_HT_PCR); [|done]. apply on_pcr_inv in E as (s & E).
      unfold PCRGetAuthPolicy in E. apply bind_inv in E as ([g n] & s1 & E1 & E).
      apply PCRBelongsPolicyGroup_in in E1 as [V Hg]. cbv zeta in *. intros Hb. injection Hb as <-. rewrite <- Hg.
      destruct g; [|by injection E as <- _]. apply bind_inv in E as (a & s2 & [= <- <-] & E).
      apply bind_inv in E as (a & s2 & [= <- <-] & E). injection E as <- _. injection V as _ V1 V2. by rewrite V1, V2.
Qed.

Lemma EntityGetName_entity h t r t' n : EntityGetName h t = Some (r, t') → entity_name t h = Some n → r = n.
Proof.
  unfold EntityGetName, entity_name. intros E.
  destruct (HandleGetType h =? TPM_HT_TRANSIENT) eqn:Ht.
  - apply bind_inv in E as (o & t2 & Eo & E). rewrite (object_of_at _ _ _ _ Ht Eo). cbn.
    injection E as <- _. by intros [= <-].
  - destruct (HandleGetType h =? TPM_HT_NV_INDEX); [done|]. injection E as <- _. by intros [= <-].
Qed.
Lemma EntityGetName_name h t r t' n : EntityGetName h t = Some (r, t') → name_of t h = Some n → contents r = n.
Proof.
  unfold name_of. intros E. destruct (entity_name t h) as [m|] eqn:N; [|done]. intros [= <-].
  by rewrite (EntityGetName_entity _ _ _ _ _ E N).
Qed.

(** ** The entity a session is bound to *)

(** The Name, padded with zeros, and the value at the end of it, put together. *)
Definition bind_value (name auth : bytes) : bytes :=
  let n := Z.to_nat sizeof_TPMU_NAME in
  zip_with Z.lxor (name ++ replicate (n - length name) 0) (replicate (n - length auth) 0 ++ auth).

Lemma bound_entity_value name auth :
  size2B name = blen (contents name) → size2B name ≤ sizeof_TPMU_NAME →
  size2B auth = blen (contents auth) → size2B auth ≤ sizeof_TPMU_NAME →
  contents (bound_entity name auth) = bind_value (contents name) (contents auth).
Proof.
  intros N Nl A Al. unfold bound_entity, contents at 1. cbn [size2B buffer2B]. unfold MemorySet, bwrite.
  assert (0 ≤ size2B name ∧ 0 ≤ size2B auth) as [N0 A0] by (rewrite N, A; unfold blen; lia).
  assert (take (Z.to_nat (size2B name)) (buffer2B name) = contents name) as -> by (unfold contents, bread; by rewrite drop_0).
  unfold bind_value. set (n := Z.to_nat sizeof_TPMU_NAME).
  assert (Z.to_nat (sizeof_TPMU_NAME - size2B auth) = (n - length (contents auth))%nat) as -> by (unfold blen in A; lia).
  set (z := bfill (u8 0) (sizeof_TPMU_NAME - size2B name)).
  assert (z = replicate (n - length (contents name)) 0) as Ez.
  { unfold z, bfill. change (u8 0) with 0. f_equal. unfold blen in N. lia. }
  rewrite app_assoc. set (l := contents name ++ z). set (r := drop _ _).
  assert (length l = n) as Ll by (unfold l; rewrite length_app, Ez, length_replicate; unfold blen in N; lia).
  assert (∀ au i l r, (i + length au ≤ length l)%nat → take (length l) (xor_at (l ++ r) i au) = xor_at l i au) as T.
  { clear. induction au as [|a au IH]; intros i l r L; cbn; [by rewrite take_app_le, firstn_all by lia|].
    cbn in L. rewrite alter_app_l by lia. rewrite <- (length_alter (λ b, Z.lxor b a) l i) at 1.
    apply IH. rewrite length_alter. lia. }
  unfold bread. cbn [Z.to_nat]. rewrite drop_0. fold n. rewrite <- Ll at 1.
  rewrite T by (rewrite Ll; unfold blen in A; lia). rewrite xor_at_zip by (rewrite Ll; unfold blen in A; lia).
  unfold l. by rewrite Ez.
Qed.

(** The entity [h] is the one the session was bound to when it was started: the
    value kept in the session is that of the Name and the secret of the entity. *)
Definition bound_to (t : Tpm) (h : Z) (s : SESSION) : Prop :=
  isBound (attributes s) = true ∧
  ∀ name a, entity_name t h = Some name → size2B name = blen (contents name) → size2B name ≤ sizeof_TPMU_NAME →
    secret t h = Some a → same_octets (bind_value (contents name) a) (contents (u1 s)).

Lemma EntityGetAuthValue_size h t v t' :
  EntityGetAuthValue h t = Some (v, t') → size2B v = blen (contents v) ∧ size2B v ≤ sizeof_TPMU_NAME.
Proof.
  unfold EntityGetAuthValue. intros E. apply bind_inv in E as (pa & t1 & _ & E).
  apply bind_inv in E as ([n c] & t2 & E2 & E). injection E as <- _.
  assert (0 ≤ size2B c ≤ sizeof_TPMU_HA ∧ blen (buffer2B c) = sizeof_TPMU_HA) as [Sc Lc].
  { unfold MemoryCopy2B in E2. destruct pa as [src|]; [|injection E2 as _ <- _; by vm_compute].
    apply bind_inv in E2 as ([] & t3 & _ & E2). apply bind_inv in E2 as (d & t4 & Ed & E2).
    unfold buffer_read in Ed. destruct (inb _ _ _) eqn:I; [|done]. injection Ed as <- <-.
    apply bind_inv in E2 as (b & t5 & Eb & E2). unfold buffer_write in Eb. cbn [buffer2B] in Eb.
    destruct (inb (bfill 0 sizeof_TPMU_HA) 0 _) eqn:I2; [|done]. injection Eb as <- <-. injection E2 as _ <- _.
    apply inb_true in I, I2. rewrite blen_bread in I2 by lia. rewrite blen_bfill in I2 by done. cbn.
    split; [lia|]. rewrite blen_bwrite by (rewrite ?blen_bread, ?blen_bfill; lia || done). by rewrite blen_bfill. }
  pose proof (trim_zeros_le (Z.to_nat (size2B c)) (buffer2B c)) as T.
  unfold MemoryRemoveTrailingZeros, contents. cbn [size2B buffer2B]. rewrite blen_bread by lia.
  assert (sizeof_TPMU_HA ≤ sizeof_TPMU_NAME) by done. lia.
Qed.

(** What a secret depends on. *)
Definition ent (t : Tpm) := (t_hier t, s_objects t, pcr_auth (t_pcr t)).
#[global] Program Instance stable_ent : Stable ent := {| kept := sess_core |}.
Solve Obligations with try done.
Next Obligation. intros t x E. unfold ent. cbn. by rewrite E. Qed.

Lemma secret_ent t t' h : ent t' = ent t → secret t' h = secret t h.
Proof.
  intros E. injection E as Eh Eo E1 _ _. unfold secret, stored_auth, object_at. by rewrite Eh, Eo, E1.
Qed.

Lemma IsSessionBindEntity_sound h s t t' : IsSessionBindEntity h s t = Some (true, t') → bound_to t h s.
Proof.
  unfold IsSessionBindEntity, bound_to. destruct (isBound _); [|done]. intros E. split; [done|].
  intros name a Hn Ns Nl Ha. apply bind_inv in E as (n & t1 & E1 & E). apply bind_inv in E as (v & t2 & E2 & E).
  apply MemoryEqual2B_same in E as [_ E]. rewrite (EntityGetName_entity _ _ _ _ _ E1 Hn) in E.
  apply (keeps_EntityGetName ent) in E1. rewrite <- (secret_ent _ _ _ E1) in Ha.
  destruct (EntityGetAuthValue_size _ _ _ _ E2) as [Vs Vl].
  rewrite bound_entity_value, (EntityGetAuthValue_secret _ _ _ _ _ E2 Ha) in E by done. exact E.
Qed.

(** The slot of a session. *)
Lemma session_ptr_inv h t q t' : session_ptr h t = Some (q, t') →
  sess_full (t_sess t') = sess_full (t_sess t) ∧
  ∃ e, Session.contextArray (t_sess t) !! Z.to_nat (Z.land h HR_HANDLE_MASK) = Some e ∧ q = u16 (e - 1).
Proof.
  unfold session_ptr, on_sess. destruct (SessionGet h (sess_view t)) as [[q' s1]|] eqn:G; [|done]. intros [= -> <-].
  assert (∀ s : SessState, view sess_full s (set_failure s)) as F by done.
  assert (keeps (view sess_full) (SessionGet h)) as K by (unfold SessionGet, ca_get; keeps).
  split.
  { apply K in G. transitivity (sess_full s1); [by destruct (Session.s_inFailureMode s1)|exact G]. }
  unfold SessionGet, ca_get in G.
  apply bind_inv in G as ([] & sa & A1 & G). apply bind_inv in G as ([] & sb & A2 & G).
  apply bind_inv in G as (e & sc & Ge & G). apply bind_inv in G as ([] & sd & A3 & G). injection G as <- _.
  assert (∀ b (s : SessState) s2, pAssert b s = Some (tt, s2) → Session.contextArray s2 = Session.contextArray s) as PA
    by (intros [] s s2 [= <-]; done).
  munfold. rewrite (PA _ _ _ A2), (PA _ _ _ A1) in Ge. cbn [sess_view Session.contextArray] in Ge.
  destruct (_ !! _) as [e'|]; [|done]. injection Ge as -> _. by exists e.
Qed.

Lemma session_at_of h t s t' : session_at h t = Some (s, t') → session_of t h = Some s.
Proof.
  unfold session_at. intros E. apply bind_inv in E as (p & t1 & E1 & E2).
  destruct (session_ptr_inv _ _ _ _ E1) as (V & e & He & ->). injection V as _ V.
  destruct (session_get_spec _ _ _ _ E2) as (sl & L & <- & _). unfold session_of. rewrite He, <- V.
  by rewrite L.
Qed.
End entities.
