(* ===== verification/AuthProof.v ===== *)
(** * Lemmas on the authorization of a command

    What a session check that succeeds says: the password or the HMAC of the
    session is right for the secret of the entity, and the policy of the entity
    is that of the session. *)

From S2P Require Import Prelude TpmTypes Memory Struct Cbc NVMem NVReserved Clock NvList NvRam NvIndex NvCmd WireTypes Unmarshal Marshal.
From S2P Require Import Pcr Kdf Sym Session Time TpmState Hierarchy CommandAttributes DispatchData Dispatch.
From S2P Require Import ObjectStore Entity SessionAuth SessionParse.
From S2P Require Import AuthFrame.
Local Open Scope Z_scope.

(** ** The session checks as a whole *)

Section checks.
Context `{TimeLayout} `{CryptEnv} `{HashLib}.
Implicit Types (p q : PState) (t : Tpm).

(** What the checks of the sessions from number [k] on are about: a password is
    trimmed in the session area when it is checked, so the values before it are
    left out. *)
Definition core_by {U} (Y : SessState → U) (k : nat) (t : Tpm) :=
  ((t_hier t, pcr_auth (t_pcr t)), s_objects t, s_physicalPresence t, Y (t_sess t),
   set_s_inputAuthValues (drop k (s_inputAuthValues (t_area t))) (t_area t)).

Definition core_from : nat → Tpm → _ := core_by sess_core.
#[global] Program Instance core_stable k : Stable (core_from k) := {| kept := sess_core |}.
Solve Obligations with try done.
Next Obligation. intros k t x E. unfold core_from, core_by. cbn. by rewrite E. Qed.
Next Obligation. intros k t s E. unfold core_from, core_by. cbn. by rewrite E. Qed.
#[global] Instance core_erasing k : Erasing (core_from k).
Proof. by intros s s'. Qed.

(** With the [includeAuth] bits. *)
Definition full_from : nat → Tpm → _ := core_by sess_full.
#[global] Program Instance full_stable k : Stable (full_from k) := {| kept := sess_full |}.
Solve Obligations with try done.
Next Obligation. intros k t x E. unfold full_from, core_by. cbn. by rewrite E. Qed.
Next Obligation. intros k t s E. unfold full_from, core_by. cbn. by rewrite E. Qed.

(** The command without the digests that are kept with it. *)
Definition cmd_core (c : Command) := (c_tag c, c_code c, c_sessionNum c, c_base c).

(** The cpHash of the command with an algorithm. *)
Definition cp_of (t : Tpm) (c : Command) (alg : Z) : option bytes :=
  match names_of t (used_handles c), parameters c with
  | Some names, Some params => Some (Hash alg (cp_input c names params))
  | _, _ => None
  end.

(** The digests kept with the command are those of the command. *)
Definition cache_ok (t : Tpm) (c : Command) : Prop :=
  ∀ alg slot h d, hash_slot alg = Some slot → c_cpHash c !! slot = Some h → cp_of t c alg = Some d →
    size2B h = 0 ∨ contents h = d.

Record same_by {T} (X : Tpm → T) p q : Prop := {
  sb_view : X (p_tpm q) = X (p_tpm p);
  sb_objects : s_objects (p_tpm q) = s_objects (p_tpm p);
  sb_cmd : cmd_core (p_command q) = cmd_core (p_command p);
  sb_cache : cache_ok (p_tpm p) (p_command p) → cache_ok (p_tpm q) (p_command q)
}.
#[global] Instance same_by_preorder {T} (X : Tpm → T) : PreOrder (same_by X).
Proof. split; [by split|]. intros x y z [A1 B1 C1 D1] [A2 B2 C2 D2]. split; [congruence..|auto]. Qed.

Lemma names_of_objects t t' l : s_objects t' = s_objects t → names_of t' l = names_of t l.
Proof.
  intros E. induction l as [|h l IH]; [done|]. cbn. unfold name_of, entity_name, object_at. by rewrite E, IH.
Qed.

Lemma cp_of_core t t' c c' alg :
  s_objects t' = s_objects t → cmd_core c' = cmd_core c → cp_of t' c' alg = cp_of t c alg.
Proof.
  intros Eo Ec. injection Ec as Et Ecc Es Eb. unfold cp_of, used_handles, parameters, cp_input.
  unfold c_handleNum, c_handles, c_parameterBuffer, c_parameterSize. by rewrite (names_of_objects _ _ _ Eo), Eb, Ecc.
Qed.

Lemma same_tpm {T} (X : Tpm → T) p t :
  X t = X (p_tpm p) → s_objects t = s_objects (p_tpm p) → same_by X p (set_tpm t p).
Proof.
  intros E Eo. split; [done..|]. intros C alg slot h d Hs Hc Hd. apply (C alg slot h d Hs Hc).
  rewrite <- Hd. symmetry. by apply cp_of_core.
Qed.

Lemma keeps_on_tpm {T A} (X : Tpm → T) (m : M Tpm A) :
  keeps (view X) m → keeps (view s_objects) m → keeps (same_by X) (on_tpm m).
Proof.
  intros Hm Ho p a p'. unfold on_tpm. destruct (m (p_tpm p)) as [[b t]|] eqn:E; [|done]. intros [= <- <-].
  apply same_tpm; [by eapply Hm|by eapply Ho].
Qed.

Lemma same_failure {T} (X : Tpm → T) `{!Stable X} p : same_by X p (set_failure p).
Proof. apply same_tpm; [apply (st_failure X)|done]. Qed.

Lemma keeps_weaken {S A} (R R' : relation S) (m : M S A) : (∀ s s', R s s' → R' s s') → keeps R m → keeps R' m.
Proof. intros W K s a s' E. by eapply W, K. Qed.
End checks.
#[export] Hint Resolve keeps_on_tpm same_failure : keeps.

Section computations.
Context `{TimeLayout} `{CryptEnv} `{HashLib}.
Context {T : Type} (X : Tpm → T) `{!Stable X}.
Implicit Types (p q : PState) (t : Tpm).

Lemma contents_digest2B alg d : contents (digest2B alg d) = Hash alg d.
Proof. unfold contents, digest2B. cbn. apply bread_all. symmetry. apply Hash_size. Qed.

Lemma handle_names_of l : ∀ t r t' ns,
  handle_names l t = Some (r, t') → names_of t l = Some ns → r = ns.
Proof.
  induction l as [|h l IH]; intros t r t' ns E N; cbn in *; [by injection E as <- _; injection N as <-|].
  apply bind_inv in E as (n & t1 & E1 & E). apply bind_inv in E as (ms & t2 & E2 & E). injection E as <- _.
  destruct (name_of t h) as [n'|] eqn:Hn; [|done]. destruct (names_of t l) as [ns'|] eqn:Hl; [|done].
  injection N as <-. rewrite (EntityGetName_name _ _ _ _ _ E1 Hn). f_equal.
  eapply IH; [exact E2|]. rewrite <- Hl. apply names_of_objects.
  by apply (keeps_EntityGetName s_objects) in E1.
Qed.

Lemma ComputeCpHash_spec alg p cp p' : ComputeCpHash alg p = Some (cp, p') →
  same_by X p p' ∧
  (cache_ok (p_tpm p) (p_command p) → ∀ d, cp_of (p_tpm p) (p_command p) alg = Some d → contents cp = d).
Proof.
  unfold ComputeCpHash. intros E. apply bind_inv in E as (slot & p1 & E1 & E).
  unfold of_option in E1. destruct (hash_slot alg) as [slot'|] eqn:Hs; [|done]. injection E1 as -> <-.
  apply bind_inv in E as (c & p1 & E1 & E). injection E1 as <- <-.
  apply bind_inv in E as (h & p1 & E1 & E). unfold of_option in E1.
  destruct (c_cpHash (p_command p) !! slot) as [h'|] eqn:Hh; [|done]. injection E1 as -> <-.
  destruct (Z.eqb_spec (size2B h) 0) as [Z0|Z0].
  - apply bind_inv in E as (names & p1 & E1 & E). apply bind_inv in E as (params & p2 & E2 & E).
    assert (p2 = p1) as -> by (unfold of_option in E2; destruct (parameters _); [by injection E2|done]).
    apply bind_inv in E as ([] & p3 & E3 & E). injection E3 as <-. injection E as <- <-.
    unfold on_tpm in E1. destruct (handle_names _ _) as [[r t1]|] eqn:Hn; [|done]. injection E1 as <- <-.
    assert (X t1 = X (p_tpm p)) as Ct by (by eapply (keeps_handle_names X)).
    assert (s_objects t1 = s_objects (p_tpm p)) as Co by (by eapply (keeps_handle_names s_objects)).
    assert (∀ d, cp_of (p_tpm p) (p_command p) alg = Some d →
      Hash alg (cp_input (p_command p) r params) = d) as V.
    { intros d. unfold cp_of. destruct (names_of _ _) as [ns|] eqn:Hns; [|done].
      unfold of_option in E2. destruct (parameters _); [|done]. injection E2 as <-.
      rewrite (handle_names_of _ _ _ _ _ Hn Hns). by intros [= <-]. }
    split; [|intros _ d Hd; rewrite contents_digest2B; by apply V].
    split; [done..|]. cbn [p_tpm p_command set_cmd set_tpm].
    intros C alg' slot' h' d Hs' Hc' Hd. rewrite (cp_of_core (p_tpm p) _ (p_command p)) in Hd by done.
    cbn [c_cpHash set_cpHash] in Hc'. destruct (decide (slot' = slot)) as [->|Ne].
    + rewrite list_lookup_insert_eq in Hc' by (by eapply lookup_lt_Some). injection Hc' as <-. right.
      assert (alg' = alg) as -> by (unfold hash_slot in *; repeat case_match; zbool; congruence).
      rewrite contents_digest2B. by apply V.
    + rewrite list_lookup_insert_ne in Hc' by done. by apply (C alg' slot').
  - injection E as <- <-. split; [done|]. intros C d Hd. by destruct (C alg slot h d Hs Hh Hd).
Qed.

Lemma keeps_ComputeCpHash alg : keeps (same_by X) (ComputeCpHash alg).
Proof. intros p a p' E. by apply ComputeCpHash_spec in E as []. Qed.
Hint Resolve keeps_ComputeCpHash : keeps.

Lemma keepsP_MemoryEqual2B a b : keeps (same_by X) (MemoryEqual2B a b).
Proof. unfold MemoryEqual2B. keeps. Qed.
Hint Resolve keepsP_MemoryEqual2B : keeps.
Lemma keeps_CompareTemplateHash s : keeps (same_by X) (CompareTemplateHash s).
Proof. unfold CompareTemplateHash. keeps. Qed.
Lemma keeps_CompareNameHash s : keeps (same_by X) (CompareNameHash s).
Proof. unfold CompareNameHash. keeps. Qed.
Lemma keeps_CompareParametersHash s : keeps (same_by X) (CompareParametersHash s).
Proof. unfold CompareParametersHash. keeps. Qed.
Hint Resolve keeps_CompareTemplateHash keeps_CompareNameHash keeps_CompareParametersHash : keeps.
Lemma keeps_policy_digest_ok s : keeps (same_by X) (policy_digest_ok s).
Proof. unfold policy_digest_ok. keeps. Qed.
Hint Resolve keeps_policy_digest_ok : keeps.
Lemma keeps_CheckPolicyAuthSession i : keeps (same_by X) (CheckPolicyAuthSession i).
Proof. unfold CheckPolicyAuthSession, plat__LocalityGet, plat__PhysicalPresenceAsserted. keeps. Qed.
Hint Resolve keeps_CheckPolicyAuthSession : keeps.
Lemma keeps_check_kind i a b : keeps (same_by X) (check_kind i a b).
Proof. unfold check_kind. keeps. Qed.
Lemma keeps_ComputeCommandHMAC i : keeps (same_by X) (ComputeCommandHMAC i).
Proof. unfold ComputeCommandHMAC. keeps. Qed.
Hint Resolve keeps_ComputeCommandHMAC : keeps.
Lemma keeps_CheckSessionHMAC i : keeps (same_by X) (CheckSessionHMAC i).
Proof. unfold CheckSessionHMAC. keeps. Qed.
End computations.
#[export] Hint Resolve keeps_ComputeCpHash keepsP_MemoryEqual2B keeps_policy_digest_ok keeps_CheckPolicyAuthSession
  keeps_check_kind keeps_ComputeCommandHMAC keeps_CheckSessionHMAC : keeps.

(** ** What a successful check says *)

Section proofs.
Context `{TimeLayout} `{CryptEnv} `{HashLib}.
Implicit Types (p q : PState) (t : Tpm).

(** The password of session [i] is the secret of the entity [h]. *)
Definition password_given (t : Tpm) (i : nat) (h : Z) : Prop :=
  ∃ input, s_inputAuthValues (t_area t) !! i = Some input ∧
    ∀ a, secret t h = Some a → same_octets (contents (MemoryRemoveTrailingZeros input)) a.

(** A password with a session that takes one. *)
Definition password_proof (t : Tpm) (i : nat) (sh h : Z) : Prop :=
  password_given t i h ∧
  (sh = TPM_RS_PW ∨ ∃ session, session_of t sh = Some session ∧ isPasswordNeeded (attributes session) = true).

(** [value] is the HMAC of the command over session [i], with the key of the
    session and, if [include] is set, the secret of the entity [h]; [dn] and [en]
    are the nonces of the sessions that encrypt parameters.  With an empty key
    the value may be empty. *)
Definition hmac_value (t : Tpm) (c : Command) (i : nat) (session : SESSION) (h : Z) (include : bool)
    (value : bytes) : Prop :=
  let is_key key := ∀ a, (if include then secret t h = Some a else a = []) → key = contents (sessionKey session) ++ a in
  ∃ key, is_key key ∧
    ((value = [] ∧ key = []) ∨
     ∃ nonce attr cp dn en,
       s_nonceCaller (t_area t) !! i = Some nonce ∧
       s_attributes (t_area t) !! i = Some attr ∧
       (i ≠ 0%nat → dn = [] ∧ en = []) ∧
       (∀ d, cp_of t c (authHashAlg session) = Some d → cp = d) ∧
       same_octets value
         (Hmac (authHashAlg session) key
            (command_hmac_input cp (contents nonce) (contents (nonceTPM session)) dn en attr))).

(** The secret of the entity [h] is left out for a policy that does not ask for
    it, and for a session that was bound to this entity. *)
Definition left_out (t : Tpm) (sh h : Z) (session : SESSION) : Prop :=
  if HandleGetType sh =? TPM_HT_POLICY_SESSION then isAuthValueNeeded (attributes session) = false
  else bound_to t h session.

(** Session [i] gives such an HMAC for the entity [h]. *)
Definition hmac_given (t : Tpm) (c : Command) (i : nat) (sh h : Z) : Prop :=
  ∃ session input (include : bool),
    session_of t sh = Some session ∧
    s_inputAuthValues (t_area t) !! i = Some input ∧
    (include = false → left_out t sh h session) ∧
    hmac_value t c i session h include (contents input).

(** The policy of the entity [h] is that of the session: the digest, the
    command and its cpHash, and physical presence. *)
Definition policy_given (t : Tpm) (c : Command) (role : AUTH_ROLE) (sh h : Z) : Prop :=
  ∃ session, session_of t sh = Some session ∧
    (∀ alg policy, stored_policy t h = Some (alg, policy) →
       same_octets (contents (u2 session)) (contents policy) ∧ alg = authHashAlg session) ∧
    (commandCode session = 0 ∨ commandCode session = c_code c) ∧
    (role = AUTH_ADMIN ∨ role = AUTH_DUP → commandCode session ≠ 0) ∧
    (isPPRequired (attributes session) = true → s_physicalPresence t = true) ∧
    (size2B (u1 session) ≠ 0 → isCpHashDefined (attributes session) = true →
       ∀ d, cp_of t c (authHashAlg session) = Some d → same_octets (contents (u1 session)) d).

(** The entity may be authorized with its value, without a policy: never in the
    role DUP, in the role ADMIN only for an object with [adminWithPolicy] clear,
    in the role USER for an object with its sensitive part and [userWithAuth] set,
    a register without a policy, and a hierarchy. *)
Definition value_allowed (t : Tpm) (role : AUTH_ROLE) (h : Z) : Prop :=
  role ≠ AUTH_DUP ∧
  (role = AUTH_ADMIN → HandleGetType h = TPM_HT_TRANSIENT) ∧
  (HandleGetType h = TPM_HT_PERMANENT →
     h ∈ [TPM_RH_OWNER; TPM_RH_ENDORSEMENT; TPM_RH_PLATFORM; TPM_RH_LOCKOUT; TPM_RH_NULL]) ∧
  (HandleGetType h = TPM_HT_PCR → ∀ alg policy, stored_policy t h = Some (alg, policy) → alg = TPM_ALG_NULL) ∧
  (HandleGetType h = TPM_HT_TRANSIENT → ∀ o, object_at t h = Some o →
     let attr := TPMT_PUBLIC_objectAttributes (o_publicArea o) in
     (role = AUTH_ADMIN → IS_ATTRIBUTE attr TPMA_OBJECT_adminWithPolicy = false) ∧
     (ObjectIsSequence o = false →
        publicOnly (o_attributes o) = false ∧
        (IS_ATTRIBUTE attr TPMA_OBJECT_userWithAuth = true ∨ role = AUTH_ADMIN))).

(** Session [i] authorizes the use of [h] by the command [c]. *)
Definition authorized (t : Tpm) (c : Command) (role : AUTH_ROLE) (i : nat) (h : Z) : Prop :=
  ∃ sh, s_sessionHandles (t_area t) !! i = Some sh ∧
    (HandleGetType sh = TPM_HT_POLICY_SESSION → policy_given t c role sh h) ∧
    (HandleGetType sh ≠ TPM_HT_POLICY_SESSION → value_allowed t role h) ∧
    (password_proof t i sh h ∨ hmac_given t c i sh h).

Lemma area_at_inv {A} (f : SessionArea → list A) i t x t' :
  area_at f i t = Some (x, t') → t' = t ∧ 0 ≤ i ∧ f (t_area t) !! Z.to_nat i = Some x.
Proof.
  unfold area_at, area. munfold. destruct (Z.ltb_spec i 0); [done|].
  destruct (_ !! _); [|done]. intros [= <- <-]. done.
Qed.

Lemma count_failure_fails h s r s' : count_failure h s = Some (r, s') → r ≠ TPM_RC_SUCCESS.
Proof.
  unfold count_failure. intros E. apply bind_inv in E as ([] & s1 & _ & E).
  apply bind_inv in E as ([] & s2 & _ & E). by injection E as <- _.
Qed.

Lemma IncrementLockout_fails i t r t' : SessionAuth.IncrementLockout i t = Some (r, t') → r ≠ TPM_RC_SUCCESS.
Proof.
  assert (∀ h t r t', on_time (count_failure h) t = Some (r, t') → r ≠ TPM_RC_SUCCESS) as F.
  { intros h t0 r0 t0'. unfold on_time. destruct (count_failure h (t_time t0)) as [[b x]|] eqn:E; [|done].
    intros [= <- _]. by eapply count_failure_fails. }
  unfold SessionAuth.IncrementLockout. intros E.
  apply bind_inv in E as (h & t1 & _ & E). apply bind_inv in E as (sh & t2 & _ & E).
  destruct (sh =? TPM_RS_PW).
  - apply bind_inv in E as (ex & t3 & _ & E). destruct ex; [by injection E as <- _|eauto].
  - apply bind_inv in E as (ss & t3 & _ & E). cbv zeta in E. destruct (isDaBound _); [eauto|].
    apply bind_inv in E as (ex & t4 & _ & E). destruct (ex || _); [by injection E as <- _|eauto].
Qed.

Lemma CheckPWAuthSession_sound i t t' h :
  CheckPWAuthSession i t = Some (TPM_RC_SUCCESS, t') →
  s_associatedHandles (t_area t) !! Z.to_nat i = Some h → password_given t (Z.to_nat i) h.
Proof.
  unfold CheckPWAuthSession. intros E Ha. apply bind_inv in E as (ah & t1 & E1 & E).
  apply area_at_inv in E1 as (-> & _ & E1). rewrite Ha in E1. injection E1 as <-.
  apply bind_inv in E as (input & t1 & E1 & E). apply area_at_inv in E1 as (-> & Hi & E1). cbv zeta in E.
  exists input. split; [done|]. intros a Hs.
  apply bind_inv in E as ([] & t1 & Ep & E). apply bind_inv in E as (v & t2 & Ev & E).
  apply bind_inv in E as (eq & t3 & Ee & E).
  destruct eq; [|by apply IncrementLockout_fails in E].
  apply MemoryEqual2B_same in Ee as [_ Ee]. erewrite <- EntityGetAuthValue_secret; [exact Ee|exact Ev|].
  rewrite <- Hs. apply secret_ent; unfold area_put, area, area_set in Ep; munfold;
    destruct (_ && _); by inversion Ep.
Qed.

Lemma concat_contents {S} `{FailState S} a b n (s s' : S) r :
  MemoryConcat2B a b n s = Some (r, s') → blen (buffer2B a) < 65536 → contents r = contents a ++ contents b.
Proof.
  unfold MemoryConcat2B. intros E L. apply bind_inv in E as ([] & s1 & _ & E).
  apply bind_inv in E as (d & s2 & E2 & E). unfold buffer_read in E2.
  destruct (inb _ _ _) eqn:I; [|done]. injection E2 as <- <-.
  apply bind_inv in E as (c & s3 & E3 & E). unfold buffer_write in E3.
  destruct (inb (buffer2B a) (size2B a) (blen (bread (buffer2B b) 0 (size2B b)))) eqn:I2; [|done].
  injection E3 as <- <-. injection E as <- _. apply inb_true in I, I2.
  rewrite blen_bread in I2 by lia. unfold contents. cbn [size2B buffer2B].
  rewrite wrap_small by lia. rewrite bread_split by lia. f_equal.
  - apply bread_bwrite_before; rewrite ?blen_bread; lia.
  - rewrite Z.add_0_l. apply bread_bwrite_same; [lia| |]; rewrite ?blen_bread; lia.
Qed.

Lemma blen_Hmac alg key d : blen (Hmac alg key d) = CryptHashGetDigestSize alg.
Proof.
  unfold Hmac, CryptHmacEnd. cbn [CryptDigestUpdate hm_alg].
  assert (hm_alg (CryptHmacStart alg key) = alg) as -> by (unfold CryptHmacStart; by destruct (_ =? 0)).
  destruct (Z.eqb_spec alg TPM_ALG_NULL) as [->|_]; [done|apply Hash_size].
Qed.

Lemma same_octets_nil l : same_octets l [] → l = [].
Proof. destruct l; [done|]. intros E. discriminate E. Qed.

Lemma contents_empty b : size2B b = 0 → contents b = [].
Proof. intros E. unfold contents. rewrite E. apply bread_0. Qed.

(** The key of a session with the secret of the entity. *)
Lemma hmac_session_key_contents ss h t key t' a :
  hmac_session_key ss h t = Some (key, t') →
  (if includeAuth (attributes ss) then secret t h = Some a else a = []) →
  contents key = contents (sessionKey ss) ++ a.
Proof.
  unfold hmac_session_key. intros E Ha. apply bind_inv in E as ([n k] & t1 & E1 & E).
  pose proof (keeps_MemoryCopy2B ent _ _ _ _ _ _ E1) as V.
  assert (blen (buffer2B k) < 65536) as L.
  { unfold MemoryCopy2B in E1. apply bind_inv in E1 as ([] & ? & _ & E1).
    apply bind_inv in E1 as (d & ? & _ & E1). apply bind_inv in E1 as (b & ? & Eb & E1).
    injection E1 as _ <- _. unfold buffer_write in Eb. cbn [buffer2B] in *.
    destruct (inb (bfill 0 sizeof_KEY) 0 (blen d)) eqn:I; [|done]. injection Eb as <- _. apply inb_true in I.
    rewrite blen_bwrite by lia. by rewrite blen_bfill. }
  apply copy_trimmed in E1 as [_ Ek]. destruct (includeAuth _).
  - apply bind_inv in E as (v & t2 & Ev & E). apply concat_contents in E; [|done].
    rewrite E, Ek. f_equal. eapply EntityGetAuthValue_secret; [exact Ev|].
    rewrite <- Ha. by apply secret_ent.
  - injection E as <- _. by rewrite Ek, Ha, app_nil_r.
Qed.

Lemma extra_nonces_first i h t dn en t' : extra_nonces i h t = Some ((dn, en), t') → i ≠ 0 → dn = [] ∧ en = [].
Proof.
  unfold extra_nonces. intros E Hi. rewrite (proj2 (Z.eqb_neq i 0) Hi) in E. cbn in E. by injection E as <- <- _.
Qed.

Lemma on_tpm_inv {A} (m : M Tpm A) p a p' : on_tpm m p = Some (a, p') →
  ∃ t, m (p_tpm p) = Some (a, t) ∧ p' = set_tpm t p.
Proof. unfold on_tpm. destruct (m (p_tpm p)) as [[b t]|]; [|done]. intros [= <- <-]. eauto. Qed.

Lemma on_area_inv {A} (f : SessionArea → list A) i p x p' :
  on_tpm (area_at f i) p = Some (x, p') → p' = p ∧ 0 ≤ i ∧ f (t_area (p_tpm p)) !! Z.to_nat i = Some x.
Proof.
  intros E. apply on_tpm_inv in E as (t & E & ->). apply area_at_inv in E as (-> & Hi & E). by destruct p.
Qed.

(** The state at an intermediate point of a check. *)
Lemma full_area t t' : full_from 0 t' = full_from 0 t → t_area t' = t_area t.
Proof.
  intros E. apply (f_equal snd) in E. unfold full_from, core_by in E. cbn [snd] in E.
  revert E. destruct (t_area t), (t_area t'). cbn. rewrite ?drop_0. unfold set_s_inputAuthValues. cbn. congruence.
Qed.
Lemma full_session t t' h : full_from 0 t' = full_from 0 t → session_of t' h = session_of t h.
Proof.
  intros E. apply (f_equal (λ x, x.1.2)) in E. cbn in E. injection E as Ec Es.
  unfold session_of. by rewrite Ec, Es.
Qed.
Lemma full_ent t t' : full_from 0 t' = full_from 0 t → ent t' = ent t.
Proof. intros E. apply (f_equal (λ x, (x.1.1.1.1.1, x.1.1.1.2, x.1.1.1.1.2))) in E. exact E. Qed.
Lemma full_secret t t' h : full_from 0 t' = full_from 0 t → secret t' h = secret t h.
Proof. intros E. by apply secret_ent, full_ent. Qed.

(** Take the next statement of [E], which runs in a state that [W] relates to
    the first one; [a] is its value, and [W] then relates the state after it. *)
Ltac step_tpm E W a Ea :=
  let q := fresh "q" in let W' := fresh "W" in
  apply bind_inv in E as (a & q & Ea & E);
  assert (same_by (full_from 0) _ q) as W'
    by (etransitivity; [exact W|]; eapply keeps_on_tpm; [| |exact Ea]; keeps);
  apply on_tpm_inv in Ea as (? & Ea & _); clear W; rename W' into W.
Ltac step_area E W a Ea :=
  apply bind_inv in E as (a & ? & Ea & E); apply on_area_inv in Ea as (-> & _ & Ea);
  try rewrite (full_area _ _ (sb_view _ _ _ W)) in Ea.

Lemma ComputeCommandHMAC_sound i p hmac p' h sh session :
  ComputeCommandHMAC i p = Some (hmac, p') →
  let t := p_tpm p in
  s_associatedHandles (t_area t) !! Z.to_nat i = Some h →
  s_sessionHandles (t_area t) !! Z.to_nat i = Some sh →
  session_of t sh = Some session → cache_ok t (p_command p) →
  ∃ input, s_inputAuthValues (t_area t) !! Z.to_nat i = Some input ∧
    (same_octets (contents input) (contents hmac) →
     hmac_value t (p_command p) (Z.to_nat i) session h (includeAuth (attributes session)) (contents input)).
Proof.
  intros E t Ha Hsh Hs C. unfold ComputeCommandHMAC in E.
  assert (same_by (full_from 0) p p) as W by done.
  step_area E W ah E1. fold t in E1. rewrite Ha in E1. injection E1 as <-.
  step_tpm E W nn En. destruct nn as [dn en].
  step_area E W sh' E1. fold t in E1. rewrite Hsh in E1. injection E1 as <-.
  pose proof W as W1. step_tpm E W ss E2. apply session_at_of in E2.
  rewrite (full_session _ _ _ (sb_view _ _ _ W1)) in E2. fold t in E2. rewrite Hs in E2. injection E2 as <-.
  pose proof W as W2. step_tpm E W key Ek.
  assert (∀ a, (if includeAuth (attributes session) then secret t h = Some a else a = []) →
    contents key = contents (sessionKey session) ++ a) as K.
  { intros a Ka. eapply hmac_session_key_contents; [exact Ek|].
    by rewrite (full_secret _ _ _ (sb_view _ _ _ W2)). }
  step_area E W input Ei. fold t in Ei.
  exists input. split; [done|]. intros Ee. exists (contents key). split; [exact K|].
  destruct ((size2B key =? 0) && (size2B input =? 0)) eqn:Z0.
  { apply andb_true_iff in Z0 as [Zk%Z.eqb_eq Zi%Z.eqb_eq]. left. by rewrite !contents_empty. }
  right. apply bind_inv in E as (cp & q4 & Ec & E). apply (ComputeCpHash_spec (full_from 0)) in Ec as [W4 Cp].
  assert (same_by (full_from 0) p q4) as W' by (by etransitivity).
  step_area E W' nonce E3. step_area E W' attr E4. injection E as <- _.
  exists nonce, attr, (contents cp), dn, en. split_and!; [done|done| | |].
  - intros Ni. eapply extra_nonces_first; [exact En|lia].
  - intros d Hd. apply Cp; [by apply (sb_cache _ _ _ W)|].
    rewrite <- Hd. apply cp_of_core; [apply (sb_objects _ _ _ W)|apply (sb_cmd _ _ _ W)].
  - unfold contents in Ee at 2. cbn [size2B buffer2B] in Ee.
    by rewrite bread_all in Ee by (by rewrite blen_Hmac).
Qed.

Lemma CheckSessionHMAC_sound i p p' h sh session :
  CheckSessionHMAC i p = Some (TPM_RC_SUCCESS, p') →
  let t := p_tpm p in
  s_associatedHandles (t_area t) !! Z.to_nat i = Some h →
  s_sessionHandles (t_area t) !! Z.to_nat i = Some sh →
  session_of t sh = Some session → cache_ok t (p_command p) →
  ∃ input, s_inputAuthValues (t_area t) !! Z.to_nat i = Some input ∧
    hmac_value t (p_command p) (Z.to_nat i) session h (includeAuth (attributes session)) (contents input).
Proof.
  intros E t Ha Hsh Hs C. unfold CheckSessionHMAC in E.
  apply bind_inv in E as (hmac & p1 & Ec & E).
  pose proof (keeps_ComputeCommandHMAC (full_from 0) _ _ _ _ Ec) as W.
  apply (ComputeCommandHMAC_sound i p hmac p1 h sh session) in Ec as (input & Hi & V); [|done..].
  exists input. split; [done|]. apply V.
  step_area E W input' Ei. rewrite Hi in Ei. injection Ei as <-. apply bind_inv in E as (eq & p3 & Ee & E).
  destruct eq; [by apply MemoryEqual2B_same in Ee as [_ Ee]|].
  apply on_tpm_inv in E as (? & E & _). by apply IncrementLockout_fails in E.
Qed.

(** A code that is not success ends the check. *)
Lemma guard_inv {S} (b : bool) rc (k : M S Z) s s' :
  rc ≠ TPM_RC_SUCCESS → (if b then ret rc else k) s = Some (TPM_RC_SUCCESS, s') →
  b = false ∧ k s = Some (TPM_RC_SUCCESS, s').
Proof. intros N. destruct b; [|done]. intros [= E _]. by destruct N. Qed.
Lemma guard_code {S} r (k : M S Z) s s' :
  (if negb (r =? TPM_RC_SUCCESS) then ret r else k) s = Some (TPM_RC_SUCCESS, s') →
  r = TPM_RC_SUCCESS ∧ k s = Some (TPM_RC_SUCCESS, s').
Proof. destruct (Z.eqb_spec r TPM_RC_SUCCESS); [done|]. intros [= ->]. done. Qed.

Lemma policy_core t t' h : ent t' = ent t → stored_policy t' h = stored_policy t h.
Proof.
  intros E. injection E as Eh Eo _ E1 E2. unfold stored_policy, object_at. by rewrite Eh, Eo, E1, E2.
Qed.
Lemma full_policy t t' h : full_from 0 t' = full_from 0 t → stored_policy t' h = stored_policy t h.
Proof. intros E. by apply policy_core, full_ent. Qed.

Lemma policy_code_sound session code role :
  policy_code_result session code role = TPM_RC_SUCCESS →
  (commandCode session = 0 ∨ commandCode session = code) ∧
  (role = AUTH_ADMIN ∨ role = AUTH_DUP → commandCode session ≠ 0).
Proof.
  unfold policy_code_result. destruct (Z.eqb_spec (commandCode session) 0) as [->|N]; cbn [negb].
  - destruct role; intros [=]; split; auto; intros [?|?]; done.
  - destruct (Z.eqb_spec (commandCode session) code); [|done]. auto.
Qed.

Lemma policy_digest_sound session p p' :
  policy_digest_ok session p = Some (true, p') → cache_ok (p_tpm p) (p_command p) →
  size2B (u1 session) ≠ 0 → isCpHashDefined (attributes session) = true →
  ∀ d, cp_of (p_tpm p) (p_command p) (authHashAlg session) = Some d → same_octets (contents (u1 session)) d.
Proof.
  unfold policy_digest_ok. intros E C N D d Hd. rewrite (proj2 (Z.eqb_neq _ _) N), D in E.
  apply bind_inv in E as (cp & q & Ec & E). apply (ComputeCpHash_spec s_objects) in Ec as [_ Cp].
  apply MemoryEqual2B_same in E as [_ E]. by rewrite (Cp C d Hd) in E.
Qed.

Lemma CheckPolicyAuthSession_sound i p p' h sh session role :
  CheckPolicyAuthSession i p = Some (TPM_RC_SUCCESS, p') →
  let t := p_tpm p in
  s_associatedHandles (t_area t) !! Z.to_nat i = Some h →
  s_sessionHandles (t_area t) !! Z.to_nat i = Some sh →
  session_of t sh = Some session → cache_ok t (p_command p) →
  CommandAuthRole (c_index (p_command p)) i = Some role →
  policy_given t (p_command p) role sh h.
Proof.
  intros E t Ha Hsh Hs C Hr. exists session. split; [done|]. unfold CheckPolicyAuthSession in E.
  assert (same_by (full_from 0) p p) as W by done.
  step_area E W sh' E1. fold t in E1. rewrite Hsh in E1. injection E1 as <-.
  step_tpm E W ss E2. apply session_at_of in E2. fold t in E2.
  rewrite Hs in E2. injection E2 as <-. pose proof (sb_cmd _ _ _ W) as Ecq.
  apply bind_inv in E as (c & ? & Ec & E). injection Ec as <- <-. cbv zeta in E.
  apply guard_inv in E as [_ E]; [|done]. step_tpm E W cur E3. apply guard_inv in E as [_ E]; [|done].
  step_area E W ah E4. fold t in E4. rewrite Ha in E4. injection E4 as <-.
  pose proof W as W2. step_tpm E W pol E5. destruct pol as [alg pol].
  apply bind_inv in E as (eq & q3 & Ee & E). apply guard_inv in E as [Eq E]; [|done].
  apply negb_false_iff in Eq as ->. apply MemoryEqual2B_same in Ee as [-> Ee].
  apply guard_inv in E as [Ea E]; [|done]. apply negb_false_iff, Z.eqb_eq in Ea.
  step_tpm E W r E6. apply guard_code in E as [_ E].
  apply bind_inv in E as (role' & ? & E7 & E).
  destruct (CommandAuthRole (c_index (p_command q)) i) as [role''|] eqn:Er; [|done]. injection E7 as -> <-.
  injection Ecq as _ Ecode _ Ebase. unfold c_index in Er, Hr. rewrite Ebase, Hr in Er. injection Er as ->.
  apply guard_code in E as [Pc E]. rewrite Ecode in Pc. step_tpm E W loc E8. apply guard_inv in E as [_ E]; [|done].
  pose proof W as W3. step_tpm E W pp E9. injection E9 as E9 _. apply guard_inv in E as [Epp E]; [|done].
  apply bind_inv in E as (ok & q5 & E10 & E). apply guard_inv in E as [Eok _]; [|done].
  apply negb_false_iff in Eok as ->.
  split_and!.
  - intros alg' pol' Hp. rewrite <- (full_policy _ _ _ (sb_view _ _ _ W2)) in Hp.
    apply (EntityGetAuthPolicy_policy _ _ _ _ _ E5) in Hp. by injection Hp as <- <-.
  - by apply (policy_code_sound _ _ _ Pc).
  - by apply (policy_code_sound _ _ _ Pc).
  - intros PP. rewrite PP in Epp. apply negb_false_iff in Epp. rewrite Epp in E9.
    pose proof (sb_view _ _ _ W3) as V. apply (f_equal (λ x, x.1.1.2)) in V. cbn in V. by transitivity (s_physicalPresence (p_tpm q3)).
  - intros N D d Hd. eapply (policy_digest_sound session _ _ E10); [by apply (sb_cache _ _ _ W)|done|done|].
    rewrite <- Hd. apply cp_of_core; [apply (sb_objects _ _ _ W)|apply (sb_cmd _ _ _ W)].
Qed.

(** ** The authorization of one handle *)

(** What [auth_used] leaves in the session. *)
Lemma set_includeAuth_of sh e b t t' :
  Session.contextArray (t_sess t) !! Z.to_nat (Z.land sh HR_HANDLE_MASK) = Some e →
  set_includeAuth (u16 (e - 1)) b t = Some (tt, t') →
  ∃ s', session_of t' sh = Some s' ∧ includeAuth (attributes s') = b.
Proof.
  intros He E. unfold set_includeAuth in E. apply bind_inv in E as (s & t2 & G & E).
  destruct (session_get_spec _ _ _ _ G) as (sl & L & Hs & L2).
  pose proof (keeps_session_get (full_from 0) _ _ _ _ G) as Vc2. apply (f_equal (λ x, x.1.2.1)) in Vc2. cbn in Vc2.
  revert E. unfold session_put, on_sess, slot_get, slot_set. munfold. cbn [sess_view Session.s_sessions].
  rewrite L2, L. destruct (_ <? _); [|done]. intros [= <-].
  exists (with_attributes (with_includeAuth b (attributes s)) s). split; [|done]. unfold session_of.
  assert (∀ b0 x, t_sess (fail_if_set b0 x) = t_sess x) as F by (by intros []).
  rewrite F. cbn. rewrite Vc2, He, L2. by rewrite list_lookup_insert_eq by (by eapply lookup_lt_Some).
Qed.

Lemma auth_used_spec sh h t used t' : auth_used sh h t = Some (used, t') → sh ≠ TPM_RS_PW →
  ∃ s s', session_of t sh = Some s ∧ session_of t' sh = Some s' ∧ includeAuth (attributes s') = used ∧
    (used = false → left_out t sh h s).
Proof.
  unfold auth_used, left_out. intros E N. rewrite (proj2 (Z.eqb_neq _ _) N) in E.
  apply bind_inv in E as (q & t1 & E1 & E). apply bind_inv in E as (s & t2 & E2 & E).
  apply bind_inv in E as (include & t3 & E3 & E). apply bind_inv in E as ([] & t4 & E4 & E). injection E as <- <-.
  assert (session_of t sh = Some s) as Hs.
  { apply (session_at_of sh t s t2). unfold session_at. by rewrite (bind_Some _ _ _ _ _ E1). }
  destruct (session_ptr_inv _ _ _ _ E1) as (V & e & He & ->).
  assert (view (full_from 0) t1 t3) as V3.
  { etransitivity; [exact (keeps_session_get (full_from 0) _ _ _ _ E2)|]. revert E3.
    assert (keeps (view (full_from 0)) (if HandleGetType sh =? TPM_HT_POLICY_SESSION
      then ret (isAuthValueNeeded (attributes s) || isPasswordNeeded (attributes s))
      else let! bound := IsSessionBindEntity h s in ret (negb bound))) as K by keeps. apply K. }
  injection V as V _. pose proof (f_equal (λ x, x.1.2.1) V3) as V4. cbn in V4. rewrite <- V, <- V4 in He.
  destruct (set_includeAuth_of sh e include t3 t4 He E4) as (s' & Hs' & Hi).
  exists s, s'. split_and!; [done..|]. intros ->. destruct (_ =? _).
  - injection E3 as E3 _. by apply orb_false_iff in E3 as [-> _].
  - apply bind_inv in E3 as (b & t5 & E3 & E5). injection E5 as E5 _. apply negb_false_iff in E5 as ->.
    apply IsSessionBindEntity_sound in E3.
    assert (ent t2 = ent t) as Et.
    { apply (keeps_session_ptr ent) in E1. apply (keeps_session_get ent) in E2. by transitivity (ent t1). }
    destruct E3 as [B V5]. split; [done|]. intros name a Hn. rewrite <- (secret_ent _ _ _ Et). apply V5.
    rewrite <- Hn. unfold entity_name, object_at. injection Et as _ -> _. done.
Qed.

(** Two sessions that differ in [includeAuth] only. *)
Definition same_session (s s' : SESSION) : Prop :=
  s' = with_attributes (with_includeAuth (includeAuth (attributes s')) (attributes s)) s.

Lemma erase_same sl sl' : erase sl' = erase sl → same_session (session sl) (session sl').
Proof.
  destruct sl as [o [a ? ? ? ? ? ? ? ? ? ? ? ?]], sl' as [o' [a' ? ? ? ? ? ? ? ? ? ? ? ?]].
  destruct a, a'. unfold erase, same_session. cbn. intros E. injection E. intros. by subst.
Qed.

Lemma session_of_core t t' h s' : sess_core (t_sess t') = sess_core (t_sess t) →
  session_of t' h = Some s' → ∃ s, session_of t h = Some s ∧ same_session s s'.
Proof.
  intros E. injection E as Ec Es. unfold session_of. rewrite Ec.
  destruct (Session.contextArray (t_sess t) !! _) as [e|]; [|done].
  destruct (Session.s_sessions (t_sess t') !! _) as [sl'|] eqn:L'; [|done]. intros [= <-].
  assert ((erase <$> Session.s_sessions (t_sess t')) !! Z.to_nat (u16 (e - 1)) = Some (erase sl')) as M
    by (by rewrite list_lookup_fmap, L').
  rewrite Es, list_lookup_fmap in M. destruct (Session.s_sessions (t_sess t) !! _) as [sl|]; [|done].
  exists (session sl). split; [done|]. apply erase_same. symmetry. exact (inj Some _ _ M).
Qed.

(** The parts of a state that a proof for session [i] is about. *)
Lemma core_area {T} (f : SessionArea → T) k t t' :
  (∀ x a, f (set_s_inputAuthValues x a) = f a) →
  core_from k t' = core_from k t → f (t_area t') = f (t_area t).
Proof. intros F E. apply (f_equal (λ x, f x.2)) in E. cbn in E. by rewrite !F in E. Qed.
Lemma core_input k i t t' : core_from k t' = core_from k t → (k ≤ i)%nat →
  s_inputAuthValues (t_area t') !! i = s_inputAuthValues (t_area t) !! i.
Proof.
  intros E L. apply (f_equal (λ x, s_inputAuthValues x.2 !! (i - k)%nat)) in E. cbn in E.
  rewrite !lookup_drop in E. by replace (k + (i - k))%nat with i in E by lia.
Qed.

Lemma same_session_fields s s' : same_session s s' →
  authHashAlg s' = authHashAlg s ∧ sessionKey s' = sessionKey s ∧ nonceTPM s' = nonceTPM s ∧
  commandCode s' = commandCode s ∧ u1 s' = u1 s ∧ u2 s' = u2 s ∧
  isBound (attributes s') = isBound (attributes s) ∧
  isAuthValueNeeded (attributes s') = isAuthValueNeeded (attributes s) ∧
  isPasswordNeeded (attributes s') = isPasswordNeeded (attributes s) ∧
  isPPRequired (attributes s') = isPPRequired (attributes s) ∧
  isCpHashDefined (attributes s') = isCpHashDefined (attributes s).
Proof. intros ->. done. Qed.

Section transport.
Context (k : nat) (t t' : Tpm) (c c' : Command) (E : core_from k t' = core_from k t) (Ec : cmd_core c' = cmd_core c).

Lemma core_state : t_hier t' = t_hier t ∧ s_objects t' = s_objects t ∧
  s_physicalPresence t' = s_physicalPresence t ∧ sess_core (t_sess t') = sess_core (t_sess t).
Proof.
  split_and!; [by apply (f_equal (λ x, x.1.1.1.1.1)) in E|by apply (f_equal (λ x, x.1.1.1.2)) in E
     |by apply (f_equal (λ x, x.1.1.2)) in E|by apply (f_equal (λ x, x.1.2)) in E].
Qed.
Lemma core_cp alg : cp_of t' c' alg = cp_of t c alg.
Proof. apply cp_of_core; [apply core_state|done]. Qed.
Lemma core_ent : ent t' = ent t.
Proof. apply (f_equal (λ x, (x.1.1.1.1.1, x.1.1.1.2, x.1.1.1.1.2))) in E. exact E. Qed.
Lemma core_secret h : secret t' h = secret t h.
Proof. by apply secret_ent, core_ent. Qed.

Lemma left_out_core sh h s s' :
  u1 s' = u1 s → isBound (attributes s') = isBound (attributes s) →
  isAuthValueNeeded (attributes s') = isAuthValueNeeded (attributes s) →
  left_out t' sh h s' → left_out t sh h s.
Proof.
  intros Eu Eb Ea. unfold left_out, bound_to. rewrite Eu, Eb, Ea, core_secret.
  assert (entity_name t' h = entity_name t h) as ->; [|exact (λ x, x)].
  unfold entity_name, object_at. rewrite (proj1 (proj2 core_state)). reflexivity.
Qed.

Lemma value_allowed_core role h : value_allowed t' role h → value_allowed t role h.
Proof.
  unfold value_allowed. rewrite (policy_core _ _ h core_ent). unfold object_at.
  rewrite (proj1 (proj2 core_state)). exact (λ x, x).
Qed.

Lemma policy_given_core role sh h : policy_given t' c' role sh h → policy_given t c role sh h.
Proof.
  intros (s' & Hs' & P1 & P2 & P3 & P4 & P5). destruct core_state as (Eh & Eo & Epp & Es).
  destruct (session_of_core _ _ _ _ Es Hs') as (s & Hs & (F1 & F2 & F3 & F4 & F5 & F6 & F7 & F8 & F9 & F10 & F11)%same_session_fields).
  assert (c_code c' = c_code c) as Ecc by (by injection Ec).
  exists s. rewrite F1, F4, F5, F6, F10, F11, ?Ecc in *. rewrite (policy_core t t' h core_ent) in P1.
  rewrite <- Epp. split_and!; try done. intros. by apply P5; rewrite ?core_cp.
Qed.

Lemma password_proof_core i sh h : (k ≤ i)%nat → password_proof t' i sh h → password_proof t i sh h.
Proof.
  intros Hk [(input & Hi & Pw) Kind]. rewrite (core_input k i t t') in Hi by done. split.
  - exists input. split; [done|]. intros a. rewrite <- core_secret. apply Pw.
  - destruct Kind as [->|(s' & Hs' & Need)]; [by left|right].
    destruct (session_of_core _ _ _ _ (proj2 (proj2 (proj2 core_state))) Hs') as (s & Hs & (F1 & F2 & F3 & F4 & F5 & F6 & F7 & F8 & F9 & F10 & F11)%same_session_fields).
    exists s. by rewrite <- F9.
Qed.

Lemma hmac_given_core i sh h : (k ≤ i)%nat → hmac_given t' c' i sh h → hmac_given t c i sh h.
Proof.
  intros Hk (s' & input & include & Hs' & Hi & Inc & key & Key & Val).
  rewrite (core_input k i t t') in Hi by done.
  destruct (session_of_core _ _ _ _ (proj2 (proj2 (proj2 core_state))) Hs') as (s & Hs & (F1 & F2 & F3 & F4 & F5 & F6 & F7 & F8 & F9 & F10 & F11)%same_session_fields).
  exists s, input, include. split_and!; [done|done| |].
  { intros I0. by apply (left_out_core sh h s s' F5 F7 F8), Inc. }
  exists key. split.
  - intros a Ha. rewrite <- F2. apply Key. by rewrite core_secret.
  - destruct Val as [V|(nonce & attr & cp & dn & en & V1 & V2 & V3 & V4 & V5)]; [by left|right].
    exists nonce, attr, cp, dn, en. rewrite F1, F3 in V5.
    rewrite (core_area s_nonceCaller k t t') in V1 by done. rewrite (core_area s_attributes k t t') in V2 by done.
    split_and!; [exact V1|exact V2|exact V3| |exact V5]. intros d Hd. apply V4. by rewrite F1, core_cp.
Qed.

Lemma authorized_core role i h : (k ≤ i)%nat → authorized t' c' role i h → authorized t c role i h.
Proof.
  intros Hk (sh & Hsh & Pol & Val & Prf). exists sh.
  split; [by rewrite <- (core_area s_sessionHandles k t t') by done|]. split_and!.
  - intros Hp. by apply policy_given_core, Pol.
  - intros Hp. by apply value_allowed_core, Val.
  - destruct Prf as [Prf|Prf]; [left; by apply password_proof_core|right; by apply hmac_given_core].
Qed.
End transport.

Lemma full_core t t' : full_from 0 t' = full_from 0 t → core_from 0 t' = core_from 0 t.
Proof.
  intros E. unfold core_from, core_by.
  assert (sess_full (t_sess t') = sess_full (t_sess t)) as Es by (by apply (f_equal (λ x, x.1.2)) in E).
  assert (sess_core (t_sess t') = sess_core (t_sess t)) as Es' by (injection Es as E1 E2; unfold sess_core; by rewrite E1, E2).
  unfold full_from, core_by in E. apply (f_equal (λ x, (x.1.1, sess_core (t_sess t), x.2))) in E. cbn in E.
  by rewrite Es'.
Qed.

Lemma full_cp p q alg : same_by (full_from 0) p q →
  cp_of (p_tpm q) (p_command q) alg = cp_of (p_tpm p) (p_command p) alg.
Proof. intros W. apply cp_of_core; [apply (sb_objects _ _ _ W)|apply (sb_cmd _ _ _ W)]. Qed.

(** What the two checks of the kind say. *)
Definition available_facts t role h : Prop :=
  (HandleGetType h = TPM_HT_PERMANENT →
     h ∈ [TPM_RH_OWNER; TPM_RH_ENDORSEMENT; TPM_RH_PLATFORM; TPM_RH_LOCKOUT; TPM_RH_NULL]) ∧
  (HandleGetType h = TPM_HT_TRANSIENT → ∀ o, object_at t h = Some o → ObjectIsSequence o = false →
     publicOnly (o_attributes o) = false ∧
     (IS_ATTRIBUTE (TPMT_PUBLIC_objectAttributes (o_publicArea o)) TPMA_OBJECT_userWithAuth = true ∨
      role = AUTH_ADMIN)).

Lemma no_pcr_policy h t t' alg policy :
  HandleGetType h = TPM_HT_PCR →
  (let! available := on_pcr (PCRPolicyIsAvailable h) in
   if available : bool then
     let! '(policyAlg, _) := on_pcr (PCRGetAuthPolicy h) in ret (negb (policyAlg =? TPM_ALG_NULL))
   else ret false) t = Some (false, t') →
  stored_policy t h = Some (alg, policy) → alg = TPM_ALG_NULL.
Proof.
  intros Hp E Hs. apply bind_inv in E as (av & t1 & E1 & E). destruct av.
  - apply bind_inv in E as ([alg' pol'] & t2 & E2 & E). injection E as E _. apply negb_false_iff, Z.eqb_eq in E.
    assert (ent t1 = ent t) as Et by (revert E1; assert (keeps (view ent) (on_pcr (PCRPolicyIsAvailable h))) as K by keeps; apply K).
    rewrite <- (policy_core _ _ _ Et) in Hs.
    assert (EntityGetAuthPolicy h t1 = Some ((alg', pol'), t2)) as E3 by (unfold EntityGetAuthPolicy; by rewrite Hp).
    apply (EntityGetAuthPolicy_policy _ _ _ _ _ E3) in Hs. by injection Hs as <- _.
  - apply on_pcr_inv in E1 as (s & E1). apply bind_inv in E1 as ([b g] & s1 & E1 & E2). injection E2 as -> _.
    apply PCRBelongsPolicyGroup_in in E1 as [_ E1]. unfold stored_policy in Hs. rewrite Hp in Hs. cbn in Hs.
    rewrite <- E1 in Hs. by injection Hs as <- _.
Qed.

Lemma value_required c i t t' role h :
  IsPolicySessionRequired c i t = Some (false, t') → CommandAuthRole c i = Some role →
  s_associatedHandles (t_area t) !! Z.to_nat i = Some h → available_facts t role h → value_allowed t role h.
Proof.
  intros E Hr Ha [V1 V2]. unfold IsPolicySessionRequired in E. rewrite Hr in E.
  apply bind_inv in E as (r & ? & Er & E). injection Er as <- <-.
  apply bind_inv in E as (ah & ? & E1 & E). apply area_at_inv in E1 as (-> & _ & E1).
  rewrite Ha in E1. injection E1 as <-. cbv zeta in E.
  assert (role = AUTH_ADMIN → HandleGetType h = TPM_HT_TRANSIENT ∧ ∀ o, object_at t h = Some o →
    IS_ATTRIBUTE (TPMT_PUBLIC_objectAttributes (o_publicArea o)) TPMA_OBJECT_adminWithPolicy = false) as Ad.
  { intros ->. destruct (HandleGetType h =? TPM_HT_TRANSIENT) eqn:Ht; [|done].
    apply bind_inv in E as (o & t2 & Eo & E). injection E as E _. split; [by apply Z.eqb_eq|].
    rewrite (object_of_at _ _ _ _ Ht Eo). by intros o' [= <-]. }
  split_and!; [by intros ->|intros R; by apply Ad|done| |].
  - intros Hp alg policy Hs. rewrite Hp in E.
    destruct role; [by apply (no_pcr_policy h t t' alg policy)..|destruct (Ad eq_refl) as [Ad' _]; by rewrite Hp in Ad'|done].
  - intros Ht o Ho. split; [intros R; by apply Ad|by apply V2].
Qed.

Lemma value_available h c i t t' role :
  IsAuthValueAvailable h c i t = Some (true, t') → CommandAuthRole c i = Some role → available_facts t role h.
Proof.
  intros E Hr. unfold IsAuthValueAvailable in E. cbv zeta in E. split.
  - intros Hp. rewrite Hp, Z.eqb_refl in E. injection E as E _. zbool.
    destruct E as [[[[-> | ->] | ->] | ->] | ->]; repeat (apply list_elem_of_here || apply list_elem_of_further).
  - intros Ht o Ho Hs. rewrite Ht in E. cbn in E.
    apply bind_inv in E as (o' & t2 & Eo & E). rewrite (object_of_at h t o' t2) in Ho; [|by rewrite Ht|done].
    injection Ho as ->. rewrite Hs in E. destruct (publicOnly _); [done|]. split; [done|].
    destruct (IS_ATTRIBUTE _ TPMA_OBJECT_userWithAuth); [by left|right].
    apply bind_inv in E as (r & ? & Er & E). rewrite Hr in Er. injection Er as <- <-. by destruct role.
Qed.

Section one_check.
Context (i sh h : Z) (p : PState) (role : AUTH_ROLE).
Hypothesis Ha : s_associatedHandles (t_area (p_tpm p)) !! Z.to_nat i = Some h.
Hypothesis Hsh : s_sessionHandles (t_area (p_tpm p)) !! Z.to_nat i = Some sh.
Hypothesis C : cache_ok (p_tpm p) (p_command p).

Lemma check_kind_sound p' session :
  CommandAuthRole (c_index (p_command p)) i = Some role →
  check_kind i sh h p = Some (TPM_RC_SUCCESS, p') → HandleGetType sh = TPM_HT_POLICY_SESSION →
  session_of (p_tpm p) sh = Some session → policy_given (p_tpm p) (p_command p) role sh h.
Proof.
  intros Hr E Hp Hs. unfold check_kind in E. apply bind_inv in E as (c & ? & Ec & E). injection Ec as <- <-.
  rewrite Hp in E. cbn [negb Z.eqb] in E.
  apply bind_inv in E as (av & q & Ea & E). apply guard_inv in E as [_ E]; [|done].
  assert (same_by (full_from 0) p q) as W by (eapply keeps_on_tpm; [| |exact Ea]; keeps).
  apply (policy_given_core 0 _ (p_tpm q) _ (p_command q));
    [by apply full_core, (sb_view _ _ _ W)|apply (sb_cmd _ _ _ W)|].
  pose proof (full_area _ _ (sb_view _ _ _ W)) as A.
  eapply (CheckPolicyAuthSession_sound i q p' h sh session);
    [exact E|by rewrite A|by rewrite A| | |].
  - by rewrite (full_session _ _ _ (sb_view _ _ _ W)).
  - by apply (sb_cache _ _ _ W).
  - pose proof (sb_cmd _ _ _ W) as Ec. injection Ec as _ _ _ Eb. unfold c_index in *. by rewrite Eb.
Qed.

Lemma check_kind_value p' :
  CommandAuthRole (c_index (p_command p)) i = Some role →
  check_kind i sh h p = Some (TPM_RC_SUCCESS, p') → HandleGetType sh ≠ TPM_HT_POLICY_SESSION →
  value_allowed (p_tpm p) role h.
Proof.
  intros Hr E Hp. unfold check_kind in E. apply bind_inv in E as (c & ? & Ec & E). injection Ec as <- <-.
  rewrite (proj2 (Z.eqb_neq _ _) Hp) in E. cbn [negb] in E.
  apply bind_inv in E as (rq & q & E1 & E). apply guard_inv in E as [-> E]; [|done].
  assert (same_by (full_from 0) p q) as W by (eapply keeps_on_tpm; [| |exact E1]; keeps).
  apply bind_inv in E as (av & q2 & E2 & E). injection E as E _. destruct av; [|done].
  apply on_tpm_inv in E1 as (t1 & E1 & _). apply on_tpm_inv in E2 as (t2 & E2 & _).
  apply (value_required _ _ _ _ _ _ E1 Hr Ha).
  eapply (value_available _ _ _ _ _ _ E2) in Hr as V.
  destruct V as [V1 V2]. split; [done|]. intros Ht o Ho. apply V2; [done|].
  unfold object_at in *. by rewrite (sb_objects _ _ _ W).
Qed.

Lemma check_value_sound used pw q p' :
  on_tpm (password_session sh) p = Some (pw, q) →
  (if pw : bool then on_tpm (CheckPWAuthSession i) else CheckSessionHMAC i) q = Some (TPM_RC_SUCCESS, p') →
  (sh ≠ TPM_RS_PW → ∃ s, session_of (p_tpm p) sh = Some s ∧ includeAuth (attributes s) = used ∧
    (used = false → left_out (p_tpm p) sh h s)) →
  password_proof (p_tpm p) (Z.to_nat i) sh h ∨ hmac_given (p_tpm p) (p_command p) (Z.to_nat i) sh h.
Proof.
  intros E1 E2 Hs.
  assert (same_by (full_from 0) p q) as W by (eapply keeps_on_tpm; [| |exact E1]; keeps).
  pose proof (full_area _ _ (sb_view _ _ _ W)) as A. pose proof (full_core _ _ (sb_view _ _ _ W)) as Co.
  apply on_tpm_inv in E1 as (t1 & E1 & _). unfold password_session in E1.
  destruct pw.
  - left. apply on_tpm_inv in E2 as (t2 & E2 & _).
    apply CheckPWAuthSession_sound with (h := h) in E2; [|by rewrite A]. split.
    + destruct E2 as (input & Hi & V). exists input. rewrite <- A. split; [done|].
      intros a. rewrite <- (full_secret _ _ _ (sb_view _ _ _ W)). apply V.
    + destruct (Z.eqb_spec sh TPM_RS_PW) as [->|N]; [by left|right].
      apply bind_inv in E1 as (s & t3 & E3 & E1). apply session_at_of in E3. exists s. by injection E1 as -> _.
  - right. destruct (Z.eqb_spec sh TPM_RS_PW) as [->|N]; [done|].
    destruct (Hs N) as (s & Hss & Hu & Inc).
    apply (hmac_given_core 0 _ (p_tpm q) _ (p_command q)); [done|apply (sb_cmd _ _ _ W)|lia|].
    assert (session_of (p_tpm q) sh = Some s) as Hq by (by rewrite (full_session _ _ _ (sb_view _ _ _ W))).
    destruct (CheckSessionHMAC_sound i q p' h sh s E2) as (input & Hi & V);
      [by rewrite A|by rewrite A|exact Hq|by apply (sb_cache _ _ _ W)|].
    exists s, input, used. rewrite Hu in V. split_and!; [exact Hq|exact Hi| |exact V].
    intros U. by apply (left_out_core 0 (p_tpm q) (p_tpm p) (eq_sym Co) sh h s s), Inc.
Qed.
End one_check.

(** The part of a check after [auth_used], in a state whose [includeAuth] bit is
    that of the session. *)
Definition check_rest (i sh h : Z) (used : bool) : M PState Z :=
  let! result :=
    (if used then
       let! exempted := on_tpm (SessionAuth.IsDAExempted h) in
       if exempted : bool then ret TPM_RC_SUCCESS
       else on_tpm (on_time (CheckLockedOut (h =? TPM_RH_LOCKOUT)))
     else ret TPM_RC_SUCCESS) in
  if negb (result =? TPM_RC_SUCCESS) then ret result
  else
    let! result := check_kind i sh h in
    if negb (result =? TPM_RC_SUCCESS) then ret result
    else
      let! password := on_tpm (password_session sh) in
      let! result := (if password : bool then on_tpm (CheckPWAuthSession i) else CheckSessionHMAC i) in
      (if (HandleGetType h =? TPM_HT_NV_INDEX) && used then on_tpm (update_pin h result) else ret tt) ;;
      ret result.

Lemma check_rest_sound i sh h used p p' role :
  check_rest i sh h used p = Some (TPM_RC_SUCCESS, p') →
  let t := p_tpm p in
  s_associatedHandles (t_area t) !! Z.to_nat i = Some h →
  s_sessionHandles (t_area t) !! Z.to_nat i = Some sh →
  cache_ok t (p_command p) →
  CommandAuthRole (c_index (p_command p)) i = Some role →
  (sh ≠ TPM_RS_PW → ∃ s, session_of t sh = Some s ∧ includeAuth (attributes s) = used ∧
    (used = false → left_out t sh h s)) →
  authorized t (p_command p) role (Z.to_nat i) h.
Proof.
  intros E t Ha Hsh C Hr Hs. exists sh. split; [done|]. unfold check_rest in E.
  apply bind_inv in E as (r & q1 & E1 & E). apply guard_code in E as [-> E].
  assert (same_by (full_from 0) p q1) as W1.
  { revert E1. assert (keeps (same_by (full_from 0)) (if used then
       let! exempted := on_tpm (SessionAuth.IsDAExempted h) in
       if exempted : bool then ret TPM_RC_SUCCESS
       else on_tpm (on_time (CheckLockedOut (h =? TPM_RH_LOCKOUT)))
     else ret TPM_RC_SUCCESS)) as K by keeps. apply K. }
  pose proof (full_area _ _ (sb_view _ _ _ W1)) as A1.
  assert (∀ sh, session_of (p_tpm q1) sh = session_of t sh) as S1
    by (intros; apply (full_session _ _ _ (sb_view _ _ _ W1))).
  pose proof (sb_cmd _ _ _ W1) as Ec1. pose proof (full_core _ _ (sb_view _ _ _ W1)) as Co1.
  assert (CommandAuthRole (c_index (p_command q1)) i = Some role) as Hr1
    by (injection Ec1 as _ _ _ Eb; unfold c_index in *; by rewrite Eb).
  pose proof (sb_cache _ _ _ W1 C) as C1.
  apply bind_inv in E as (r & q2 & E2 & E). apply guard_code in E as [-> E].
  assert (same_by (full_from 0) q1 q2) as W2 by (eapply keeps_check_kind; [apply _|exact E2]).
  apply bind_inv in E as (pw & q3 & E3 & E).
  apply bind_inv in E as (r & q4 & E4 & E). apply bind_inv in E as ([] & q5 & _ & E). injection E as -> _.
  split_and!.
  - intros Hp. destruct (decide (sh = TPM_RS_PW)) as [->|N]; [done|]. destruct (Hs N) as (s & Hss & _).
    apply (policy_given_core 0 _ (p_tpm q1) _ (p_command q1)); [done|done|].
    eapply (check_kind_sound i sh h q1 role);
      [by rewrite A1|by rewrite A1|exact C1|exact Hr1|exact E2|exact Hp|by rewrite S1].
  - intros Hp. apply (value_allowed_core 0 _ _ Co1).
    eapply (check_kind_value i sh h q1 role); [by rewrite A1|exact Hr1|exact E2|exact Hp].
  - pose proof (full_area _ _ (sb_view _ _ _ W2)) as A2.
    assert (password_proof (p_tpm q2) (Z.to_nat i) sh h ∨ hmac_given (p_tpm q2) (p_command q2) (Z.to_nat i) sh h) as Pr.
    { eapply (check_value_sound i sh h q2); [| | |exact E3|exact E4|].
      - by rewrite A2, A1.
      - by rewrite A2, A1.
      - by apply (sb_cache _ _ _ W2).
      - intros N. destruct (Hs N) as (s & Hss & Hi & Lo). exists s.
        rewrite (full_session _ _ _ (sb_view _ _ _ W2)), S1. split_and!; [done..|]. intros U.
        pose proof (full_core _ _ (sb_view _ _ _ W2)) as Co2.
        apply (left_out_core 0 _ _ (eq_sym Co2) sh h s s); [done..|].
        apply (left_out_core 0 _ _ (eq_sym Co1) sh h s s); [done..|]. by apply Lo. }
    pose proof (full_core _ _ (sb_view _ _ _ W2)) as Co2. pose proof (sb_cmd _ _ _ W2) as Ec2.
    destruct Pr as [Pr|Pr]; [left|right].
    + apply (password_proof_core 0 _ _ Co1); [lia|]. by apply (password_proof_core 0 _ _ Co2); [lia|].
    + apply (hmac_given_core 0 _ _ _ _ Co1 Ec1); [lia|]. by apply (hmac_given_core 0 _ _ _ _ Co2 Ec2); [lia|].
Qed.

(** A check that succeeds proves the authorization of its handle. *)
Lemma CheckAuthSession_sound i p p' h role :
  CheckAuthSession i p = Some (TPM_RC_SUCCESS, p') →
  s_associatedHandles (t_area (p_tpm p)) !! Z.to_nat i = Some h →
  cache_ok (p_tpm p) (p_command p) →
  CommandAuthRole (c_index (p_command p)) i = Some role →
  authorized (p_tpm p) (p_command p) role (Z.to_nat i) h.
Proof.
  intros E Ha C Hr. unfold CheckAuthSession in E.
  apply bind_inv in E as (sh & ? & E1 & E). apply on_area_inv in E1 as (-> & _ & Hsh).
  apply bind_inv in E as (ah & ? & E1 & E). apply on_area_inv in E1 as (-> & _ & E1).
  rewrite Ha in E1. injection E1 as <-.
  apply bind_inv in E as ([] & q1 & E1 & E).
  assert (same_by (full_from 0) p q1) as W1.
  { revert E1. apply keeps_pAssert; [apply _|]. intros. by apply same_failure, _. }
  apply bind_inv in E as (c & ? & Ec & E). injection Ec as <- <-.
  apply bind_inv in E as (pp & q2 & E2 & E). destruct pp; [done|].
  assert (same_by (full_from 0) q1 q2) as W2.
  { revert E2. assert (keeps (same_by (full_from 0)) (if h =? TPM_RH_PLATFORM then
       let! required := on_tpm (PhysicalPresenceIsRequired (c_index (p_command q1))) in
       let! asserted := on_tpm plat__PhysicalPresenceAsserted in ret (required && negb asserted)
     else ret false)) as K by (unfold plat__PhysicalPresenceAsserted; keeps). apply K. }
  assert (same_by (full_from 0) p q2) as W by (by etransitivity). clear W1 W2 E1 E2.
  pose proof (full_area _ _ (sb_view _ _ _ W)) as A.
  apply bind_inv in E as (used & q3 & E3 & E). change (check_rest i sh h used q3 = Some (TPM_RC_SUCCESS, p')) in E.
  assert (same_by (core_from 0) q2 q3) as W3 by (eapply keeps_on_tpm; [| |exact E3]; keeps).
  apply on_tpm_inv in E3 as (t3 & E3 & Hq3).
  assert (core_from 0 (p_tpm q3) = core_from 0 (p_tpm p)) as Co
    by (rewrite (sb_view _ _ _ W3); apply full_core, (sb_view _ _ _ W)).
  assert (cmd_core (p_command q3) = cmd_core (p_command p)) as Ec
    by (rewrite (sb_cmd _ _ _ W3); apply (sb_cmd _ _ _ W)).
  apply (authorized_core 0 _ _ _ _ Co Ec); [lia|].
  eapply check_rest_sound; [exact E| | | | |].
  - by rewrite (core_area s_associatedHandles 0 _ _ (λ _ _, eq_refl) Co).
  - by rewrite (core_area s_sessionHandles 0 _ _ (λ _ _, eq_refl) Co).
  - by apply (sb_cache _ _ _ W3), (sb_cache _ _ _ W).
  - injection Ec as _ _ _ Eb. unfold c_index in *. by rewrite Eb.
  - intros N. destruct (auth_used_spec _ _ _ _ _ E3 N) as (s & s' & Hs & Hs' & Hi & Inc). exists s'.
    rewrite Hq3. split; [exact Hs'|]. split; [done|]. intros U.
    pose proof (keeps_auth_used (core_from 0) _ _ _ _ _ E3) as V. apply (f_equal (λ x, x.1.2)) in V.
    destruct (session_of_core _ _ _ _ V Hs') as (s2 & Hs2 & (F1 & F2 & F3 & F4 & F5 & F6 & F7 & F8 & _)%same_session_fields).
    rewrite Hs in Hs2. injection Hs2 as <-.
    apply (left_out_core 0 _ (p_tpm q2) (eq_sym (keeps_auth_used (core_from 0) _ _ _ _ _ E3)) sh h s' s); [done..|].
    by apply Inc.
Qed.
End proofs.
