(* ===== verification/SessionResponse.v ===== *)
(** * The session area of a response (src/SessionProcess.c, lines 1713-2185)

    New nonces, encryption of the first parameter, audit, and the response
    sessions.  While the response is built [command->parameterBuffer] designates
    the parameters of the response, the last [parameterSize] octets before
    [responseBuffer]. *)

From S2P Require Import Prelude TpmTypes Memory Struct Cbc NVMem NVReserved Clock NvList NvRam NvIndex NvCmd WireTypes Unmarshal Marshal.
From S2P Require Import Pcr Kdf Sym Session Time TpmState Hierarchy CommandAttributes Dispatch.
From S2P Require Import ObjectStore Entity SessionAuth SessionParse.
Local Open Scope Z_scope.

Definition set_responseBuffer (ptr : Z) (c : Command) : Command :=
  set_base (mkCOMMAND (c_index c) (c_handleNum c) (c_handles c) (c_parameterSize c)
              (c_parameterBuffer c) ptr) c.

(** The attributes of an audit session. *)
Definition audit_attributes (a : SESSION_ATTRIBUTES) : SESSION_ATTRIBUTES :=
  mkAttr (isPolicy a) true false (isCpHashDefined a) (isNameHashDefined a)
    (isParametersHashDefined a) (isTemplateHashDefined a) (isAuthValueNeeded a) (isPasswordNeeded a)
    (isPPRequired a) (isTrialPolicy a) (isDaBound a) (isLockoutBound a) (includeAuth a)
    (checkNvWritten a) (nvWrittenState a).

Section response.
Context `{TimeLayout} `{CryptEnv} `{HashLib}.

(** A marshal function called with [&command->responseBuffer] and no size. *)
Definition on_response (m : Mar) : M PState Z := λ p,
  let c := p_command p in
  match m (mkM (p_response p) (Some (c_responseBuffer (c_base c))) None (failed (p_tpm p))) with
  | Some (n, o) =>
      match o_ptr o with
      | Some ptr => Some (n, mkP (fail_if_set (o_failed o) (p_tpm p)) (set_responseBuffer ptr c) (o_mem o)
                               (p_allocation p))
      | None => None
      end
  | None => None
  end.

(** Where the parameters of the response start, and their octets. *)
Definition response_start (c : Command) : Z := c_responseBuffer (c_base c) - c_parameterSize c.
Definition response_parameters (p : PState) : option bytes :=
  let c := p_command p in
  if inb (p_response p) (response_start c) (c_parameterSize c)
  then Some (bread (p_response p) (response_start c) (c_parameterSize c)) else None.

(** ** Digests *)

(** What the digest of a response is of: the response code is success. *)
Definition rp_input (c : Command) (params : bytes) : bytes :=
  Uint32ToByteArray TPM_RC_SUCCESS ++ Uint32ToByteArray (c_code c) ++ params.

Definition ComputeRpHash (hashAlg : Z) : M PState TPM2B :=
  let! slot := of_option (hash_slot hashAlg) in
  let! c := gets p_command in
  let! rpHash := of_option (c_rpHash c !! slot) in
  if size2B rpHash =? 0 then
    let! o := gets response_parameters in
    let! params := of_option o in
    let rpHash := digest2B hashAlg (rp_input c params) in
    on_command (set_rpHash (<[slot := rpHash]> (c_rpHash c))) ;;
    ret rpHash
  else ret rpHash.

Definition GetCpHash (hashAlg : Z) : M PState TPM2B :=
  let! slot := of_option (hash_slot hashAlg) in
  let! c := gets p_command in
  let! cpHash := of_option (c_cpHash c !! slot) in
  pAssert (negb (size2B cpHash =? 0)) ;;
  ret cpHash.

(** ** Audit *)

Definition InitAuditSession (session : SESSION) : SESSION :=
  let size := CryptHashGetDigestSize (authHashAlg session) in
  with_u2 (mkTPM2B size (MemorySet (buffer2B (u2 session)) 0 0 size))
    (with_attributes (audit_attributes (attributes session)) session).

(** The size of the digest is set before its octets are added. *)
Definition UpdateAuditDigest (hashAlg : Z) (digest : TPM2B) : M PState TPM2B :=
  let! cpHash := GetCpHash hashAlg in
  let! rpHash := ComputeRpHash hashAlg in
  let size := CryptHashGetDigestSize hashAlg in
  let! old := buffer_read (buffer2B digest) 0 size in
  let! buffer := buffer_write (buffer2B digest) 0
                   (Hash hashAlg (old ++ contents cpHash ++ contents rpHash)) in
  ret (mkTPM2B size buffer).

Definition Audit (auditSession : Z) : M PState unit :=
  let! s := on_tpm (session_get auditSession) in
  let! digest := UpdateAuditDigest (authHashAlg s) (u2 s) in
  on_tpm (session_put auditSession (with_u2 digest s)).

Definition on_audit (f : AuditState → AuditState) : M PState unit :=
  on_tpm (modify (λ t, set_t_audit (f (t_audit t)) t)).

(** [NV_SYNC_PERSISTENT(auditCounter)] *)
Definition sync_auditCounter : M PState unit :=
  on_audit (λ a, set_nv_audit ((nv_audit a).1, auditCounter a) a) ;;
  on_tpm (on_nv (SET_NV_UPDATE UT_NV)).

Definition CommandAudit : M PState unit :=
  let! a := on_tpm (gets t_audit) in
  let digest := commandAuditDigest a in
  if size2B digest =? 1 then on_audit (set_commandAuditDigest (set_size digest 0))
  else
    (if size2B digest =? 0 then
       let size := CryptHashGetDigestSize (auditHashAlg a) in
       on_audit (set_commandAuditDigest (mkTPM2B size (MemorySet (buffer2B digest) 0 0 size))) ;;
       on_audit (set_auditCounter (u64 (auditCounter a + 1))) ;;
       sync_auditCounter
     else ret tt) ;;
    let! a := on_tpm (gets t_audit) in
    let! digest := UpdateAuditDigest (auditHashAlg a) (commandAuditDigest a) in
    on_audit (set_commandAuditDigest digest).

(** One session of [UpdateAuditSessionStatus]; the result is the audit session
    found so far. *)
Definition audit_one (i auditSession : Z) : M PState Z :=
  let! handle := on_tpm (area_at s_sessionHandles i) in
  if handle =? TPM_RS_PW then ret auditSession
  else
    let! p := on_tpm (session_ptr handle) in
    let! attr := on_tpm (area_at s_attributes i) in
    if IS_ATTRIBUTE attr TPMA_SESSION_audit then
      let! s := on_tpm (session_get p) in
      (if negb (isAudit (attributes s)) || IS_ATTRIBUTE attr TPMA_SESSION_auditReset then
         on_tpm (session_put p (InitAuditSession s)) ;;
         on_audit (set_g_exclusiveAuditSession handle)
       else
         on_audit (λ a, if negb (g_exclusiveAuditSession a =? handle)
                        then set_g_exclusiveAuditSession TPM_RH_UNASSIGNED a else a)) ;;
      let! a := on_tpm (gets t_audit) in
      on_tpm (area_put s_attributes set_s_attributes i
        (if g_exclusiveAuditSession a =? handle then SET_ATTRIBUTE attr TPMA_SESSION_auditExclusive
         else CLEAR_ATTRIBUTE attr TPMA_SESSION_auditExclusive)) ;;
      Audit p ;;
      ret handle
    else ret auditSession.

Fixpoint audit_sessions (n : nat) (i auditSession : Z) : M PState Z :=
  match n with
  | O => ret auditSession
  | S n => let! auditSession := audit_one i auditSession in audit_sessions n (i + 1) auditSession
  end.

Definition UpdateAuditSessionStatus : M PState unit :=
  let! c := gets p_command in
  let! auditSession := audit_sessions (Z.to_nat (c_sessionNum c)) 0 TPM_RH_UNASSIGNED in
  let! allowed := of_option (IsSessionAllowed (c_index c)) in
  if (auditSession =? TPM_RH_UNASSIGNED) && allowed
  then on_audit (set_g_exclusiveAuditSession TPM_RH_UNASSIGNED) else ret tt.

(** ** The authorization of a response session *)

(** What the HMAC of a response is over. *)
Definition response_hmac_input (rpHash nonceTPM nonceCaller : bytes) (attr : Z) : bytes :=
  rpHash ++ nonceTPM ++ nonceCaller ++ [u8 attr].

Definition ComputeResponseHMAC (sessionIndex : Z) (session : SESSION) : M PState TPM2B :=
  let! rpHash := ComputeRpHash (authHashAlg session) in
  let! associatedHandle := on_tpm (area_at s_associatedHandles sessionIndex) in
  let! key := on_tpm (hmac_session_key session associatedHandle) in
  let! input := on_tpm (area_at s_inputAuthValues sessionIndex) in
  if (size2B key =? 0) && (size2B input =? 0) then ret (mkTPM2B 0 [])
  else
    let! nonceCaller := on_tpm (area_at s_nonceCaller sessionIndex) in
    let! attr := on_tpm (area_at s_attributes sessionIndex) in
    ret (mkTPM2B (CryptHashGetDigestSize (authHashAlg session))
           (Hmac (authHashAlg session) (contents key)
              (response_hmac_input (contents rpHash) (contents (nonceTPM session)) (contents nonceCaller) attr))).

Definition UpdateInternalSession (p i : Z) : M Tpm unit :=
  let! handle := area_at s_sessionHandles i in
  let! attr := area_at s_attributes i in
  if (HandleGetType handle =? TPM_HT_POLICY_SESSION) && IS_ATTRIBUTE attr TPMA_SESSION_continueSession then
    let! s := session_get p in
    let! s := on_sess (SessionSetStartTime (SessionResetPolicyData s)) in
    session_put p s
  else ret tt.

(** The nonce and the authorization. *)
Definition BuildSingleResponseAuth (sessionIndex : Z) : M PState (TPM2B * TPM2B) :=
  let! handle := on_tpm (area_at s_sessionHandles sessionIndex) in
  let! p := on_tpm (session_ptr handle) in
  let! session := on_tpm (session_get p) in
  let! auth :=
    (if (HandleGetType handle =? TPM_HT_POLICY_SESSION) && isPasswordNeeded (attributes session)
     then ret (mkTPM2B 0 []) else ComputeResponseHMAC sessionIndex session) in
  on_tpm (UpdateInternalSession p sessionIndex) ;;
  let! session := on_tpm (session_get p) in
  ret (nonceTPM session, auth).

(** ** Nonces *)

Definition roll_nonce (i : Z) : M Tpm unit :=
  let! handle := area_at s_sessionHandles i in
  if negb (handle =? TPM_RS_PW) then
    let! p := session_ptr handle in
    let! s := session_get p in
    let n := nonceTPM s in
    let! r := random (size2B n) in
    let! buffer := buffer_write (buffer2B n) 0 r in
    session_put p (with_nonceTPM (mkTPM2B (size2B n) buffer) s)
  else ret tt.

Definition UpdateAllNonceTPM : M PState unit :=
  let! c := gets p_command in on_tpm (for_each (seqZ 0 (c_sessionNum c)) roll_nonce).

(** ** Encryption of the first parameter (CryptUtil.c) *)

(** In place, in the response. *)
Definition CryptParameterEncryption (handle : Z) (nonceCaller : TPM2B) (leadingSizeInByte : Z)
    (extraKey : TPM2B) : M PState unit :=
  let! c := gets p_command in
  let! session := on_tpm (session_at handle) in
  if c_parameterSize c <? leadingSizeInByte then modify set_failure
  else if negb (leadingSizeInByte =? 2) then modify set_failure
  else
    let start := response_start c in
    let! response := gets p_response in
    let! '(r, u) := of_option (if start <? 0 then None else
      UINT16_Unmarshal (mkU (drop (Z.to_nat start) response) (c_parameterSize c))) in
    match r with
    | inl _ => modify set_failure
    | inr cipherSize =>
        if u_size u <? cipherSize then modify set_failure
        else
          let! key := parameter_key session extraKey in
          let! data := buffer_read (u_buffer u) 0 cipherSize in
          let hash := authHashAlg session in
          let sym := symmetric session in
          let! data :=
            (if sd_algorithm sym =? TPM_ALG_XOR
             then CryptXORObfuscation hash (contents key) (contents (nonceTPM session))
                    (contents nonceCaller) data
             else ret (ParmEncryptSym (sd_algorithm sym) hash (sd_keyBits sym) (contents key)
                         (contents nonceCaller) (contents (nonceTPM session)) data)) in
          modify (λ p, mkP (p_tpm p) (p_command p) (bwrite (p_response p) (start + 2) data) (p_allocation p))
    end.

(** The result is whether the TPM is in failure mode after that. *)
Definition encrypt_parameter : M PState bool :=
  let! e := on_tpm (area s_encryptSessionIndex) in
  if negb (e =? UNDEFINED_INDEX) then
    let! associated := on_tpm (area_at s_associatedHandles e) in
    let! extraKey := (if negb (associated =? TPM_RH_UNASSIGNED)
                      then on_tpm (EntityGetAuthValue associated) else ret (mkTPM2B 0 [])) in
    let! c := gets p_command in
    let! size := of_option (EncryptSize (c_index c)) in
    let! handle := on_tpm (area_at s_sessionHandles e) in
    let! nonce := on_tpm (area_at s_nonceCaller e) in
    CryptParameterEncryption handle nonce size extraKey ;;
    on_tpm (gets failed)
  else ret false.

(** ** [BuildResponseSession] *)

Definition add_authSize (n : Z) : M PState unit := on_command (λ c, set_authSize (c_authSize c + n) c).

(** One session of the response. *)
Definition respond_session (i : Z) : M PState unit :=
  let! handle := on_tpm (area_at s_sessionHandles i) in
  let! '(nonce, responseAuth) :=
    (if handle =? TPM_RS_PW then
       let! attr := on_tpm (area_at s_attributes i) in
       on_tpm (area_put s_attributes set_s_attributes i
                 (SET_ATTRIBUTE attr TPMA_SESSION_continueSession)) ;;
       ret (mkTPM2B 0 [], mkTPM2B 0 [])
     else BuildSingleResponseAuth i) in
  let! attr := on_tpm (area_at s_attributes i) in
  let! n := on_response (TPM2B_NONCE_Marshal nonce) in
  add_authSize n ;;
  let! n := on_response (TPMA_SESSION_Marshal attr) in
  add_authSize n ;;
  let! n := on_response (TPM2B_DIGEST_Marshal responseAuth) in
  add_authSize n ;;
  if negb (IS_ATTRIBUTE attr TPMA_SESSION_continueSession)
  then on_tpm (on_sess (SessionFlush handle)) else ret tt.

Definition BuildResponseSession : M PState Z :=
  let! c := gets p_command in
  pAssert (c_authSize c =? 0) ;;
  let sessions := c_tag c =? TPM_ST_SESSIONS in
  let! failure := (if sessions then UpdateAllNonceTPM ;; encrypt_parameter else ret false) in
  if failure then ret TPM_RC_FAILURE
  else
    UpdateAuditSessionStatus ;;
    let! audited := on_tpm (CommandAuditIsRequired (c_index c)) in
    (if audited : bool then CommandAudit else ret tt) ;;
    (if sessions then
       pAssert (0 <? c_sessionNum c) ;;
       for_each (seqZ 0 (c_sessionNum c)) respond_session
     else ret tt) ;;
    ret TPM_RC_SUCCESS.
End response.
