(* ===== verification/ExecCommand.v ===== *)
(** * Execution of a command (src/ExecCommand.c, src/Response.c, src/TpmFail.c)

    [ExecuteCommand] from the octets of a request to those of the response: the
    header, the handles, the sessions, the action and the response, with the
    work before and after every command, and what the TPM answers once it is in
    failure mode.  The action of a command is an argument of the model, as it is
    of the dispatcher. *)

From S2P Require Import Prelude TpmTypes Memory Struct Cbc NVMem NVReserved Clock NvList NvRam NvIndex NvCmd.
From S2P Require Import WireTypes Unmarshal Marshal Pcr Kdf Sym Session Time TpmState Hierarchy.
From S2P Require Import CommandAttributes DispatchData Dispatch ObjectStore Entity SessionAuth SessionParse.
From S2P Require Import SessionResponse.
Local Open Scope Z_scope.

(** ** Constants *)

Definition TPM_PT_MANUFACTURER : Z := 0x105.
Definition TPM_PT_VENDOR_STRING_1 : Z := 0x106.
Definition TPM_PT_VENDOR_STRING_2 : Z := 0x107.
Definition TPM_PT_VENDOR_STRING_3 : Z := 0x108.
Definition TPM_PT_VENDOR_STRING_4 : Z := 0x109.
Definition TPM_PT_VENDOR_TPM_TYPE : Z := 0x10A.
Definition TPM_PT_FIRMWARE_VERSION_1 : Z := 0x10B.
Definition TPM_PT_FIRMWARE_VERSION_2 : Z := 0x10C.
Definition TPM_CC_GetTestResult : Z := 0x17C.
Definition TPM_CC_GetCapability : Z := 0x17A.
Definition FATAL_ERROR_NV_UNRECOVERABLE : Z := 8.

(** ** The vendor (VendorInfo.c) *)

(** [StringToUint32] of the four octets. *)
Definition StringToUint32 (s : bytes) : Z := ByteArrayToUint32 s.
Definition plat__GetManufacturerCapabilityCode : Z := StringToUint32 [0x49; 0x42; 0x4D; 0x20].
Definition plat__GetVendorCapabilityCode (index : Z) : Z :=
  if index =? 1 then StringToUint32 [0x53; 0x57; 0x20; 0x20]
  else if index =? 2 then StringToUint32 [0x20; 0x54; 0x50; 0x4D]
  else 0.
Definition plat__GetTpmFirmwareVersionHigh : Z := 0x20240125.
Definition plat__GetTpmFirmwareVersionLow : Z := 0x00120000.
Definition plat__GetTpmType : Z := 1.

(** ** Marshaling *)

(** [None] is [FALSE]: [*size] has become negative.  The octets read are those
    of the request; [buffer] is what remains of it and [size] what the caller
    says remains. *)
Definition Unmarshal32 (buffer : bytes) (size : Z) : option (option (Z * bytes * Z)) :=
  if size - 4 <? 0 then Some None
  else if inb buffer 0 4 then Some (Some (ByteArrayToUint32 buffer, drop 4 buffer, size - 4)) else None.
Definition Unmarshal16 (buffer : bytes) (size : Z) : option (option (Z * bytes * Z)) :=
  if size - 2 <? 0 then Some None
  else if inb buffer 0 2 then Some (Some (ByteArrayToUint16 buffer, drop 2 buffer, size - 2)) else None.

Record HEADER := mkHeader { tag : Z; size : Z; code : Z }.

(** Where the failure was noted ([s_failFunction], [s_failLine],
    [s_failCode]). *)
Record FailInfo := mkFail { s_failFunction : Z; s_failLine : Z; s_failCode : Z }.

(** The header of a response of [n] octets of parameters. *)
Definition fail_header (n responseCode : Z) : bytes :=
  Uint16ToByteArray TPM_ST_NO_SESSIONS ++ Uint32ToByteArray (n + 10) ++ Uint32ToByteArray responseCode.

Definition FailureModeReturn : bytes := fail_header 0 TPM_RC_FAILURE.

Definition success_response (parameters : bytes) : bytes :=
  fail_header (blen parameters) TPM_RC_SUCCESS ++ parameters.

Definition test_result (f : FailInfo) : bytes :=
  Uint16ToByteArray (3 * 4) ++ Uint32ToByteArray (s_failFunction f) ++ Uint32ToByteArray (s_failLine f)
  ++ Uint32ToByteArray (s_failCode f)
  ++ Uint32ToByteArray (if s_failCode f =? FATAL_ERROR_NV_UNRECOVERABLE then TPM_RC_NV_UNINITIALIZED
                        else TPM_RC_FAILURE).

(** The value of a property. *)
Definition vendor_property (pt : Z) : Z :=
  if pt =? TPM_PT_MANUFACTURER then plat__GetManufacturerCapabilityCode
  else if pt =? TPM_PT_VENDOR_STRING_1 then plat__GetVendorCapabilityCode 1
  else if pt =? TPM_PT_VENDOR_STRING_2 then plat__GetVendorCapabilityCode 2
  else if pt =? TPM_PT_VENDOR_STRING_3 then plat__GetVendorCapabilityCode 3
  else if pt =? TPM_PT_VENDOR_STRING_4 then plat__GetVendorCapabilityCode 4
  else if pt =? TPM_PT_VENDOR_TPM_TYPE then plat__GetTpmType
  else if pt =? TPM_PT_FIRMWARE_VERSION_1 then plat__GetTpmFirmwareVersionHigh
  else plat__GetTpmFirmwareVersionLow.

(** With a count of 0 the property itself is marshaled as its value. *)
Definition capability_result (capability pt count : Z) : bytes :=
  let count := if 0 <? count then 1 else if TPM_PT_FIRMWARE_VERSION_2 <? pt then 0 else count in
  let pt := if pt <? TPM_PT_MANUFACTURER then TPM_PT_MANUFACTURER else pt in
  [if pt <? TPM_PT_FIRMWARE_VERSION_2 then 1 else 0]
  ++ Uint32ToByteArray capability ++ Uint32ToByteArray count ++ Uint32ToByteArray pt
  ++ Uint32ToByteArray (if 0 <? count then vendor_property pt else pt).

(** ** [TpmFailureMode] *)

Definition fail_header_of (request : bytes) (inRequestSize : Z) : option (option (HEADER * bytes * Z)) :=
  match Unmarshal16 request inRequestSize with
  | None => None
  | Some None => Some None
  | Some (Some (t, b, n)) =>
      match Unmarshal32 b n with
      | None => None
      | Some None => Some None
      | Some (Some (s, b, n)) =>
          match Unmarshal32 b n with
          | None => None
          | Some None => Some None
          | Some (Some (c, b, n)) => Some (Some (mkHeader t s c, b, n))
          end
      end
  end.

(** The response; [None] is a read outside the request. *)
Definition TpmFailureMode (f : FailInfo) (inRequest : bytes) (inRequestSize : Z) : option bytes :=
  if inRequestSize =? 0 then Some FailureModeReturn
  else
    match fail_header_of inRequest inRequestSize with
    | None => None
    | Some None => Some FailureModeReturn
    | Some (Some (h, b, n)) =>
        if negb (tag h =? TPM_ST_NO_SESSIONS) || (size h <? 10) then Some FailureModeReturn
        else if code h =? TPM_CC_GetTestResult then
          if negb (size h =? 10) then Some FailureModeReturn
          else Some (success_response (test_result f))
        else if code h =? TPM_CC_GetCapability then
          if negb (size h =? 10 + 3 * 4) then Some FailureModeReturn
          else
            match Unmarshal32 b n with
            | None => None
            | Some None => Some FailureModeReturn
            | Some (Some (capability, b, n)) =>
                if negb (capability =? TPM_CAP_TPM_PROPERTIES) then Some FailureModeReturn
                else
                  match Unmarshal32 b n with
                  | None => None
                  | Some None => Some FailureModeReturn
                  | Some (Some (pt, b, n)) =>
                      match Unmarshal32 b n with
                      | None => None
                      | Some None => Some FailureModeReturn
                      | Some (Some (count, _, _)) =>
                          Some (success_response (capability_result capability pt count))
                      end
                  end
            end
        else Some FailureModeReturn
    end.

(** * Execution of a command (src/ExecCommand.c, src/Response.c) *)

Definition INT32_MAX : Z := 2147483647.
Definition MAX_COMMAND_SIZE : Z := 3968.
Definition STD_RESPONSE_HEADER : Z := 10.
Definition TPM_RC_INITIALIZE : Z := RC_VER1 + 0x000.
Definition TPM_RC_COMMAND_SIZE : Z := RC_VER1 + 0x042.
Definition TPM_RC_COMMAND_CODE : Z := RC_VER1 + 0x043.
Definition TPM_CC_Startup : Z := 0x144.

(** The local [command], before it is assigned: no member is read before that. *)
Definition no_command : Command :=
  mkCommand 0 0 0 0 (replicate 4 (mkTPM2B 0 [])) (replicate 4 (mkTPM2B 0 []))
    (mkCOMMAND 0 0 (replicate 3 0) 0 [] 0).

Definition set_tag (x : Z) (c : Command) : Command :=
  mkCommand x (c_code c) (c_authSize c) (c_sessionNum c) (c_cpHash c) (c_rpHash c) (c_base c).
Definition set_code (x : Z) (c : Command) : Command :=
  mkCommand (c_tag c) x (c_authSize c) (c_sessionNum c) (c_cpHash c) (c_rpHash c) (c_base c).
Definition set_index (x : Z) (c : Command) : Command :=
  set_base (mkCOMMAND x (c_handleNum c) (c_handles c) (c_parameterSize c) (c_parameterBuffer c)
              (c_responseBuffer (c_base c))) c.
Definition set_handles (l : list Z) (c : Command) : Command :=
  set_base (mkCOMMAND (c_index c) (c_handleNum c) l (c_parameterSize c) (c_parameterBuffer c)
              (c_responseBuffer (c_base c))) c.

(** The sizes of the digests are set to 0. *)
Definition ClearCpRpHashes (c : Command) : Command :=
  set_cpHash ((λ d, set_size d 0) <$> c_cpHash c) (set_rpHash ((λ d, set_size d 0) <$> c_rpHash c) c).

(** [if(result != TPM_RC_SUCCESS) goto Cleanup;] *)
Definition succeed {S} (m : M S Z) (k : M S Z) : M S Z :=
  let! result := m in if negb (result =? TPM_RC_SUCCESS) then ret result else k.
Notation "m ;? k" := (succeed m k) (at level 100, k at level 200, right associativity) : tpm_scope.

Section exec.
Context `{TimeLayout} `{CryptEnv} `{HashLib} `{!ObjectImage} `{BlockCipher}.
Context (FILE_BACKED_NV : bool).
Context (action : command_action → option (list field) → bool → Tpm → outcome Tpm).

(** [f(target, &command.parameterBuffer, &command.parameterSize)], and what is
    done with the value. *)
Definition on_params {A} (f : Unm A) (k : A → M PState Z) : M PState Z := λ p,
  let c := p_command p in
  match f (mkU (c_parameterBuffer c) (c_parameterSize c)) with
  | Some (r, u) =>
      let p := set_cmd (set_parameters (u_buffer u) (u_size u) c) p in
      match r with inl result => Some (result, p) | inr a => k a p end
  | None => None
  end.

(** A call of the dispatcher. *)
Definition on_dispatch {A} (m : M (DState Tpm) A) : M PState A := λ p,
  match m (mkD (c_base (p_command p)) (p_response p) (p_allocation p) (failed (p_tpm p)) (p_tpm p)) with
  | Some (a, d) =>
      Some (a, mkP (fail_if_set (Dispatch.g_inFailureMode d) (tpm d)) (set_base (command d) (p_command p))
                 (response d) (s_actionIoAllocation d))
  | None => None
  end.

(** ** Parsing *)

(** The tag, the size and the command code; the index of the command is left in
    the command structure. *)
Definition parse_header (requestSize : Z) : M PState Z :=
  on_params TPMI_ST_COMMAND_TAG_Unmarshal (λ tag, on_command (set_tag tag) ;;
  on_params UINT32_Unmarshal (λ commandSize,
    if negb (commandSize =? requestSize) || (MAX_COMMAND_SIZE <? commandSize) then ret TPM_RC_COMMAND_SIZE
    else on_params TPM_CC_Unmarshal (λ code, on_command (set_code code) ;;
      let! index := of_option (CommandCodeToCommandIndex code) in
      on_command (set_index index) ;;
      if index =? UNIMPLEMENTED_COMMAND_INDEX then ret TPM_RC_COMMAND_CODE
      else
        let! started := on_tpm (on_time (gets Time.g_initialized)) in
        ret (if (negb started && negb (code =? TPM_CC_Startup)) || (started && (code =? TPM_CC_Startup))
             then TPM_RC_INITIALIZE else TPM_RC_SUCCESS)))).

(** The entities of the handles; an evict object's handle is replaced. *)
Definition load_entities : M PState Z :=
  let! c := gets p_command in
  let! '(result, handles) := on_tpm (EntityGetLoadStatus (c_index c) (used_handles c)) in
  on_command (λ c, set_handles (handles ++ drop (length handles) (c_handles c)) c) ;;
  ret result.

(** [(UINT32 * )&command.authSize] is an [INT32]. *)
Definition int32 (x : Z) : Z := (x + 2147483648) mod 4294967296 - 2147483648.

Definition parse_sessions : M PState Z :=
  let! c := gets p_command in
  if c_tag c =? TPM_ST_SESSIONS then
    on_params UINT32_Unmarshal (λ size,
      let authSize := int32 size in
      let! c := gets p_command in
      if (authSize <? 9) || (c_parameterSize c <? authSize) then ret TPM_RC_SIZE
      else
        on_command (λ c, set_authSize authSize
          (set_parameters (c_parameterBuffer c) (c_parameterSize c - authSize) c)) ;;
        ParseSessionBuffer)
  else on_command (set_authSize 0) ;; CheckAuthNoSession.

(** ** The response *)

(** Room for the header, the size of the parameters and the handle. *)
Definition place_response : M PState unit :=
  let! c := gets p_command in
  let! handle := of_option (IsHandleInResponse (c_index c)) in
  on_command (set_responseBuffer
    (STD_RESPONSE_HEADER + (if c_tag c =? TPM_ST_SESSIONS then 4 else 0) + (if handle : bool then 4 else 0))).

(** The octets of the header; [c_handleNum] is that of the response. *)
Definition response_header (c : Command) (result : Z) : Z * bytes :=
  if negb (result =? TPM_RC_SUCCESS) then
    (10, Uint16ToByteArray TPM_ST_NO_SESSIONS ++ Uint32ToByteArray 10 ++ Uint32ToByteArray result)
  else
    let sessions := c_tag c =? TPM_ST_SESSIONS in
    let size := u32 (STD_RESPONSE_HEADER + c_handleNum c * 4 + c_parameterSize c
                     + (if sessions then c_authSize c + 4 else 0)) in
    (size,
     Uint16ToByteArray (c_tag c) ++ Uint32ToByteArray size ++ Uint32ToByteArray result
     ++ (if 0 <? c_handleNum c then Uint32ToByteArray (List.nth 0 (c_handles c) 0) else [])
     ++ (if sessions then Uint32ToByteArray (c_parameterSize c) else [])).

Definition BuildResponseHeader (result : Z) : M PState unit :=
  let! c := gets p_command in
  let '(size, header) := response_header c result in
  let! response := gets p_response in
  let! response := buffer_write response 0 header in
  modify (λ p, mkP (p_tpm p) (set_parameters (c_parameterBuffer c) size c) response (p_allocation p)).

(** ** [ExecuteCommand] *)

(** Everything between [ObjectTerminateEvent] and [Cleanup]. *)
Definition run_command (requestSize : Z) : M PState Z :=
  parse_header requestSize ;?
  (on_tpm (on_nv NvIndexCacheInit) ;;
   on_dispatch ParseHandleBuffer) ;?
  load_entities ;?
  (on_command ClearCpRpHashes ;;
   parse_sessions) ;?
  (place_response ;;
   on_dispatch (CommandDispatcher action)) ;?
  BuildResponseSession.

Definition cleanup (maxResponse result : Z) : M PState unit :=
  on_tpm (on_time clear_orderly) ;;
  on_tpm ObjectCleanupEvict ;;
  BuildResponseHeader result ;;
  on_tpm (on_time (commit_nv FILE_BACKED_NV)) ;;
  let! c := gets p_command in
  pAssert (u32 (c_parameterSize c) <=? maxResponse).

(** Before the request is looked at. *)
Definition prologue (cycles : Z) : M Tpm unit :=
  on_nv (NvCheckState FILE_BACKED_NV) ;;
  on_time (TimeUpdateToCurrent cycles) ;;
  let! h := gets g_DRTMHandle in
  if negb (h =? TPM_RH_UNASSIGNED) then ObjectTerminateEvent else ret tt.

Definition run_in {A} (p : Tpm → PState) (m : M PState A) : M Tpm (A * PState) := λ t,
  match m (p t) with Some (a, p) => Some ((a, p), p_tpm p) | None => None end.

(** [request] are the octets of the request, [response] the response buffer and
    [maxResponse] its size; the result is the buffer and the size of the
    response in it.  In failure mode the response is in a buffer of its own.
    A request of more than [INT32_MAX] octets leads to the use of a structure
    that is not initialised.  The octets after the response are not cleared:
    [*responseSize] is still [maxResponse]. *)
Definition ExecuteCommand (fail : FailInfo) (cycles : Z) (request response : bytes) : M Tpm (bytes * Z) :=
  let requestSize := blen request in
  let maxResponse := blen response in
  if INT32_MAX <? requestSize then undef
  else
    on_nv (modify (set_updateNV 0)) ;;
    on_nv (modify (set_clearOrderly false)) ;;
    let! f := gets failed in
    if f then
      let! r := of_option (TpmFailureMode fail request requestSize) in ret (r, blen r)
    else
      prologue cycles ;;
      let start t := mkP t (set_parameters request requestSize no_command) response 0 in
      let! '(_, p) := run_in start
        (let! result := run_command requestSize in cleanup maxResponse result) in
      ret (p_response p, u32 (c_parameterSize (p_command p))).
End exec.
