(* ===== verification/Demo.v ===== *)
(** * A TPM to run the model on

    Concrete instances of the interfaces (a checksum in place of the hash
    functions, a constant generator), and a
    TPM that has been started, with 010203 as the owner's authorization value,
    for the witnesses of the theorems on whole commands. *)

From S2P Require Import Prelude TpmTypes Memory Struct Cbc Aes AesProof NVMem NVReserved Clock NvList NvRam NvIndex NvCmd WireTypes Unmarshal Marshal.
From S2P Require Import Pcr Kdf Sym Session Time TimeProps TpmState Hierarchy CommandAttributes CTypes CommandIO DispatchArrays DispatchData Dispatch.
From S2P Require Import ObjectStore Entity SessionAuth SessionParse SessionResponse ExecCommand.
Local Open Scope Z_scope.

#[export] Instance demo_hash : HashLib.
Proof.
  refine {| Hash alg d := bfill (fold_left Z.add d 1 mod 256) (CryptHashGetDigestSize alg) |}.
  - intros alg d. apply blen_bfill, digest_size_range.
  - intros alg d. apply Forall_replicate. apply Z.mod_pos_bound. lia.
Defined.


#[export] Instance demo_crypt : CryptEnv.
Proof.
  refine {| drbg := unit; CryptRandomGenerate d n := (bfill 7 n, d) |}.
  intros d n Hn. cbn. split; [by apply blen_bfill|by apply Forall_replicate].
Defined.

#[export] Existing Instance nv_cipher.

(** ** The state *)

Definition demo_public : TPMT_PUBLIC :=
  mkTPMT_PUBLIC TPM_ALG_NULL TPM_ALG_NULL 0 (zero2B 64)
    (TPMU_PUBLIC_PARMS_keyedHashDetail (mkTPMS_KEYEDHASH_PARMS
       (mkTPMT_KEYEDHASH_SCHEME TPM_ALG_NULL TPMU_SCHEME_KEYEDHASH_none)))
    (TPMU_PUBLIC_ID_sym (zero2B 64)).
Definition demo_object : OBJECT :=
  mkObject no_attributes demo_public
    (mkTPMT_SENSITIVE TPM_ALG_NULL (zero2B 64) (zero2B 64) (TPMU_SENSITIVE_COMPOSITE_any (zero2B 64)))
    (zero2B 66) 0 (zero2B 66) 0 [].

#[export] Instance demo_image : ObjectImage.
Proof.
  refine {| OBJECT_of _ := set_attributes
    (mkObjAttr false false false false true false false false false false false false false false
       true false false) demo_object |}.
  done.
Defined.

Definition demo_hier : HierPersistent :=
  mkHierP false (zero2B 64) (zero2B 64) (zero2B 64) (mkTPM2B 3 ([1; 2; 3] ++ bfill 0 61)) (zero2B 64)
    (zero2B 64) TPM_ALG_NULL (zero2B 64) TPM_ALG_NULL (zero2B 64) TPM_ALG_NULL (zero2B 64)
    (zero2B 64) (zero2B 64) (zero2B 64).
Definition demo_pcr : PcrState :=
  mkPcr (bfill 7 3936) (bfill 0 2628) (zero2B 64) TPM_ALG_NULL (zero2B 64) [] []
    (TPM_ALG_NULL, zero2B 64) 5 false false true 0 TPM_RC_SUCCESS 0xFFFF false 0 false.
Definition demo_sess : SessState :=
  mkSess (replicate 64 0) 4 0 (replicate 3 (mkSlot false zero_session)) 65 3 100 5 tt false.
Definition demo_area : SessionArea :=
  mkArea [0; 0; 0] [0; 0; 0] [0; 0; 0] (replicate 3 (zero2B 64)) (replicate 3 (zero2B 64)) 0 0 0.

Definition demo_tpm : Tpm :=
  mkTpm (da_state 0 SU_NONE_VALUE (clock_at 5000)) demo_sess demo_pcr
    (mkHier demo_hier demo_hier (zero2B 64) (zero2B 64) TPM_ALG_NULL true true (zero2B 64) (zero2B 64))
    (replicate 3 demo_object)
    (mkAudit (bfill 0 16) TPM_ALG_SHA256 0 (bfill 0 16, TPM_ALG_SHA256, 0) (zero2B 64) TPM_RH_UNASSIGNED)
    (bfill 0 16) demo_area false TPM_RH_UNASSIGNED.
Definition demo_cycles : Z := 2 ^ 32 * 13 + 500000000.
Definition demo_fail : FailInfo := mkFail 0 0 0.

(** Four octets of [TPM2_GetRandom]; every other action succeeds without effect
    on the state. *)
Definition demo_action (a : command_action) (_ : option (list field)) (_ : bool) (t : Tpm) : outcome Tpm :=
  match a with
  | TPM2_GetRandom => mkOutcome TPM_RC_SUCCESS [mkField 0 66 (V_TPM2B (mkTPM2B 4 [1;2;3;4]))] t false
  | _ => mkOutcome TPM_RC_SUCCESS [] t false
  end.

Definition demo_response : bytes := bfill 0 100.
Definition demo_exec (request : bytes) : option ((bytes * Z) * Tpm) :=
  ExecuteCommand false demo_action demo_fail demo_cycles request demo_response demo_tpm.

(** [TPM2_GetRandom] without a session. *)
Definition get_random : bytes := [0x80; 1; 0; 0; 0; 12; 0; 0; 1; 0x7B; 0; 4].
(** [TPM2_ClockSet] to [t], with the password [pw] for the owner. *)
Definition clock_set (pw : bytes) (t : Z) : bytes :=
  let auth := [0x40; 0; 0; 9; 0; 0; 1; 0; blen pw] ++ pw in
  let body := [0; 0; 1; 0x28; 0x40; 0; 0; 1; 0; 0; 0; blen auth] ++ auth ++ [0; 0; 0; 0; 0; 0; 0; t] in
  [0x80; 2; 0; 0; 0; 6 + blen body] ++ body.
