(* ===== verification/AuthProps.v ===== *)
(** * No action without authorization

    The sessions of a command are checked before its action runs: a request
    whose outcome depends on the action has given, for every handle that needs
    it, a password, an HMAC or a policy that is right for the entity of the
    handle. *)

From S2P Require Import Prelude TpmTypes Memory Struct Cbc NVMem NVReserved Clock NvList NvRam NvIndex NvCmd WireTypes Unmarshal Marshal.
From S2P Require Import Pcr Kdf Sym Session Time TpmState Hierarchy CommandAttributes DispatchData Dispatch.
From S2P Require Import ObjectStore Entity SessionAuth SessionParse.
From S2P Require Import AuthFrame AuthProof SessionResponse ExecCommand Demo.
Local Open Scope Z_scope.

Section checks.
Context `{TimeLayout} `{CryptEnv} `{HashLib}.
Implicit Types (p q : PState) (t : Tpm).

(** ** The loop over the sessions *)

Lemma core_from_le a b t t' : (a ≤ b)%nat → core_from a t' = core_from a t → core_from b t' = core_from b t.
Proof.
  intros L E.
  assert (∀ t, core_from b t = (let x := core_from a t in
    (x.1, set_s_inputAuthValues (drop (b - a) (s_inputAuthValues x.2)) x.2))) as G.
  { intros u. unfold core_from, core_by. cbn. rewrite drop_drop. by replace (a + (b - a))%nat with b by lia. }
  by rewrite !G, E.
Qed.

Lemma same_core_le a b p q : (a ≤ b)%nat → same_by (core_from a) p q → same_by (core_from b) p q.
Proof. intros L [V O C D]. split; [|done..]. by apply (core_from_le a). Qed.

(** Only the value of the session itself is trimmed. *)
Lemma keeps_put_input i x :
  keeps (view (core_from (S (Z.to_nat i)))) (area_put s_inputAuthValues set_s_inputAuthValues i x) ∧
  keeps (view s_objects) (area_put s_inputAuthValues set_s_inputAuthValues i x).
Proof.
  split; intros t [] t' E; unfold area_put, area, area_set in E; munfold;
    destruct (_ && _); inversion E; [|done].
  unfold view, core_from, core_by. cbn. by rewrite drop_insert_lt by lia.
Qed.

Lemma keeps_CheckPWAuthSession i :
  keeps (view (core_from (S (Z.to_nat i)))) (CheckPWAuthSession i) ∧ keeps (view s_objects) (CheckPWAuthSession i).
Proof.
  split; unfold CheckPWAuthSession; apply keeps_bind; [apply _|keeps|intros ? | apply _|keeps|intros ?];
    (apply keeps_bind; [apply _|keeps|intros ?; cbv zeta]);
    (apply keeps_bind; [apply _|apply keeps_put_input|intros []; keeps]).
Qed.

Lemma keepsP_CheckPW i : keeps (same_by (core_from (S (Z.to_nat i)))) (on_tpm (CheckPWAuthSession i)).
Proof. apply keeps_on_tpm; apply keeps_CheckPWAuthSession. Qed.
Hint Resolve keepsP_CheckPW : keeps.

Lemma keeps_CheckAuthSession i : keeps (same_by (core_from (S (Z.to_nat i)))) (CheckAuthSession i).
Proof. unfold CheckAuthSession, plat__PhysicalPresenceAsserted. keeps. Qed.
Lemma keeps_consistent k i : keeps (same_by (core_from k)) (consistent i).
Proof. unfold consistent. keeps. Qed.
Lemma keeps_check_other_session k i : keeps (same_by (core_from k)) (check_other_session i).
Proof. unfold check_other_session. keeps. Qed.
Hint Resolve keeps_CheckAuthSession keeps_consistent keeps_check_other_session : keeps.
Lemma keeps_check_one i : keeps (same_by (core_from (S (Z.to_nat i)))) (check_one i).
Proof. unfold check_one. keeps. Qed.

(** Every session is checked in a state that is as before the loop. *)
Lemma check_sessions_each n : ∀ k p p' j,
  check_sessions n (Z.of_nat k) p = Some (TPM_RC_SUCCESS, p') → (j < n)%nat →
  ∃ q q', same_by (core_from (k + j)) p q ∧ check_one (Z.of_nat (k + j)) q = Some (TPM_RC_SUCCESS, q').
Proof.
  induction n as [|n IH]; intros k p p' j E L; [lia|]. cbn [check_sessions] in E.
  apply bind_inv in E as (r & p1 & E1 & E). apply guard_code in E as [-> E].
  destruct j as [|j]; [exists p, p1; rewrite Nat.add_0_r; by split|].
  replace (Z.of_nat k + 1) with (Z.of_nat (S k)) in E by lia.
  destruct (IH _ _ _ j E ltac:(lia)) as (q & q' & W & Eq). exists q, q'.
  replace (k + S j)%nat with (S k + j)%nat by lia. split; [|done]. etransitivity; [|exact W].
  apply (same_core_le (S k)); [lia|]. apply keeps_check_one in E1. by rewrite Nat2Z.id in E1.
Qed.

(** A number added to a code does not make it success. *)
Lemma RcSafeAddToResult_fails r k : r ≠ TPM_RC_SUCCESS → RcSafeAddToResult r (256 * k) ≠ TPM_RC_SUCCESS.
Proof.
  intros N. unfold RcSafeAddToResult. destruct (negb _ && _) eqn:B; [|done].
  apply andb_prop in B as [B _]. apply negb_true_iff, Z.eqb_neq in B. intros E. apply B.
  unfold wrap, TPM_RC_SUCCESS in E. change (2 ^ 32) with (256 * 16777216) in E. apply Z.mod_divide in E as [j E]; [|done].
  assert (r = (16777216 * j - k) * 2 ^ 8) as -> by lia.
  apply Z.bits_inj'. intros n Hn. rewrite Z.land_spec, Z.bits_0.
  destruct (Z.eq_dec n 7) as [->|]; [by rewrite Z.mul_pow2_bits_low by lia|].
  change RC_FMT1 with (2 ^ 7). rewrite Z.pow2_bits_false by lia. apply andb_false_r.
Qed.
Lemma error_index_256 i : error_index i = 256 * (i + 9).
Proof. unfold error_index, g_rcIndex, TPM_RC_S, TPM_RC_1. lia. Qed.

Lemma check_one_sound (i : nat) q q' h role :
  check_one (Z.of_nat i) q = Some (TPM_RC_SUCCESS, q') →
  s_associatedHandles (t_area (p_tpm q)) !! i = Some h → h ≠ TPM_RH_UNASSIGNED →
  cache_ok (p_tpm q) (p_command q) →
  CommandAuthRole (c_index (p_command q)) (Z.of_nat i) = Some role →
  authorized (p_tpm q) (p_command q) role i h.
Proof.
  intros E Ha U C Hr. unfold check_one in E.
  apply bind_inv in E as (r & q1 & E1 & E). apply guard_code in E as [-> E].
  apply (keeps_consistent 0) in E1 as W. pose proof (sb_view _ _ _ W) as V. pose proof (sb_cmd _ _ _ W) as Ec.
  apply bind_inv in E as (a & q2 & E2 & E). apply on_area_inv in E2 as (-> & _ & E2). rewrite Nat2Z.id in E2.
  pose proof (core_area s_associatedHandles 0 _ _ (λ _ _, eq_refl) V) as Ea. rewrite Ea, Ha in E2. injection E2 as <-.
  rewrite (proj2 (Z.eqb_neq _ _) U) in E. cbn [negb] in E.
  apply bind_inv in E as (r & q3 & E3 & E). injection E as E _.
  destruct (Z.eqb_spec r TPM_RC_SUCCESS) as [->|N]; [|rewrite error_index_256 in E; by apply RcSafeAddToResult_fails in E].
  apply (authorized_core 0 _ _ _ _ V Ec); [lia|].
  pose proof (CheckAuthSession_sound (Z.of_nat i) q1 q3 h role E3) as S. rewrite Nat2Z.id in S. apply S.
  - by rewrite Ea.
  - by apply (sb_cache _ _ _ W).
  - injection Ec as _ _ _ Eb. unfold c_index in *. by rewrite Eb.
Qed.

Lemma check_sessions_sound n p p' (i : nat) h role :
  check_sessions n 0 p = Some (TPM_RC_SUCCESS, p') → (i < n)%nat →
  s_associatedHandles (t_area (p_tpm p)) !! i = Some h → h ≠ TPM_RH_UNASSIGNED →
  cache_ok (p_tpm p) (p_command p) →
  CommandAuthRole (c_index (p_command p)) (Z.of_nat i) = Some role →
  authorized (p_tpm p) (p_command p) role i h.
Proof.
  intros E L Ha U C Hr. destruct (check_sessions_each n 0 p p' i E L) as (q & q' & W & E1).
  pose proof (sb_view _ _ _ W) as V. pose proof (sb_cmd _ _ _ W) as Ec. cbn [Nat.add] in *.
  apply (authorized_core i _ _ _ _ V Ec); [lia|]. apply (check_one_sound i q q'); [done| |done| |].
  - by rewrite (core_area s_associatedHandles i _ _ (λ _ _, eq_refl) V).
  - by apply (sb_cache _ _ _ W).
  - injection Ec as _ _ _ Eb. unfold c_index in *. by rewrite Eb.
Qed.
End checks.

(** ** The handles and their sessions *)

Section handles.
Context `{TimeLayout} `{CryptEnv} `{HashLib} `{!ObjectImage}.
Implicit Types (p q : PState) (t : Tpm).

Lemma normalize_assigned h : h ≠ TPM_RH_UNASSIGNED → HierarchyNormalizeHandle h ≠ TPM_RH_UNASSIGNED.
Proof.
  intros N. unfold HierarchyNormalizeHandle, DecomposeHandle.
  by repeat match goal with |- context [if ?b then _ else _] => destruct b end.
Qed.

Lemma FindEmptyObjectSlot_slot l : ∀ t i t', FindEmptyObjectSlot_loop l t = Some (Some i, t') → i ∈ l.
Proof.
  induction l as [|j l IH]; intros t i t' E; cbn in E; [done|].
  apply bind_inv in E as (o & t1 & _ & E). destruct (occupied _); [apply IH in E; by constructor|].
  apply bind_inv in E as ([] & t2 & _ & E). injection E as <- _. by constructor.
Qed.

Lemma ObjectLoadEvict_assigned h c t h' t' :
  ObjectLoadEvict h c t = Some ((TPM_RC_SUCCESS, h'), t') → h' ≠ TPM_RH_UNASSIGNED.
Proof.
  unfold ObjectLoadEvict. intros E. apply bind_inv in E as (hi & t1 & _ & E). apply bind_inv in E as (sh & t2 & _ & E).
  cbv zeta in E. destruct (negb _); [done|]. apply bind_inv in E as (s & t3 & E1 & E). destruct s as [i|]; [|done].
  assert (i ∈ slots) as I.
  { unfold ObjectAllocateSlot, FindEmptyObjectSlot in E1. apply bind_inv in E1 as ([j|] & t4 & E2 & E1); [|done].
    apply bind_inv in E1 as ([] & t5 & _ & E1). injection E1 as -> _. by apply FindEmptyObjectSlot_slot in E2. }
  assert (i + TRANSIENT_FIRST ≠ TPM_RH_UNASSIGNED) as N
    by (unfold slots in I; apply list_elem_of_fmap in I as (k & -> & _); unfold TRANSIENT_FIRST, TPM_RH_UNASSIGNED; lia).
  apply bind_inv in E as ([r im] & t4 & _ & E). destruct (negb (r =? _)).
  - apply bind_inv in E as (o & t5 & _ & E). apply bind_inv in E as ([] & t6 & _ & E). by injection E as _ <- _.
  - apply bind_inv in E as ([] & t5 & _ & E). apply bind_inv in E as (cc & t6 & _ & E). by injection E as _ <- _.
Qed.

Lemma handle_status_assigned c h t h' t' :
  handle_status c h t = Some ((TPM_RC_SUCCESS, h'), t') → h' ≠ TPM_RH_UNASSIGNED.
Proof.
  unfold handle_status. intros E. cbv zeta in E.
  destruct (HandleGetType h =? TPM_HT_PERMANENT) eqn:P.
  { apply bind_inv in E as (rc & t1 & E1 & E). injection E as -> <- _. injection E1 as E1 _. by intros ->. }
  assert (h ≠ TPM_RH_UNASSIGNED) as N by (by intros ->).
  assert (∀ m : M Tpm Z, (let! rc := m in ret (rc, h)) t = Some ((TPM_RC_SUCCESS, h'), t') → h' ≠ TPM_RH_UNASSIGNED) as K.
  { intros m Em. apply bind_inv in Em as (rc & t1 & _ & Em). by injection Em as _ <- _. }
  repeat match type of E with (if ?b then _ else _) _ = _ => destruct b; [by eauto using ObjectLoadEvict_assigned|] end.
  by apply K in E.
Qed.

Lemma load_status_assigned c l : ∀ i t l' t', 0 ≤ i →
  EntityGetLoadStatus_loop c i l t = Some ((TPM_RC_SUCCESS, l'), t') →
  length l' = length l ∧ Forall (λ h, h ≠ TPM_RH_UNASSIGNED) l'.
Proof.
  induction l as [|h l IH]; intros i t l' t' I E; cbn [EntityGetLoadStatus_loop] in E; [by injection E as <- _|].
  apply bind_inv in E as ([r h1] & t1 & E1 & E). destruct (Z.eqb_spec r TPM_RC_SUCCESS) as [->|N]; cbn [negb] in E.
  - apply bind_inv in E as ([r l1] & t2 & E2 & E). injection E as -> <- _.
    apply IH in E2 as [L A]; [|lia]. split; [by cbn; rewrite L|]. constructor; [by eapply handle_status_assigned|done].
  - injection E as E _ _. exfalso. destruct (Z.eqb_spec r TPM_RC_REFERENCE_H0) as [->|].
    + change TPM_RC_REFERENCE_H0 with 2320 in E. change TPM_RC_SUCCESS with 0 in E. lia.
    + replace (TPM_RC_H + g_rcIndex i) with (256 * (i + 1)) in E by (unfold g_rcIndex, TPM_RC_H, TPM_RC_1; lia).
      by apply RcSafeAddToResult_fails in E.
Qed.

Lemma take_replaced {A} n (l l' : list A) :
  length l' = length (take n l) → take n (l' ++ drop (length l') l) = l'.
Proof.
  intros L. rewrite length_take in L. destruct (decide (n ≤ length l)%nat).
  - rewrite take_app_le by lia. by rewrite take_ge by lia.
  - rewrite drop_ge by lia. rewrite app_nil_r. by rewrite take_ge by lia.
Qed.

(** No handle of the command is unassigned once the entities are loaded. *)
Lemma load_entities_assigned p p' :
  load_entities p = Some (TPM_RC_SUCCESS, p') →
  Forall (λ h, h ≠ TPM_RH_UNASSIGNED) (used_handles (p_command p')).
Proof.
  unfold load_entities. intros E. apply bind_inv in E as (c & ? & Ec & E). injection Ec as <- <-.
  apply bind_inv in E as ([r l] & p1 & E1 & E). apply on_tpm_inv in E1 as (t1 & E1 & ->).
  apply bind_inv in E as ([] & p2 & E2 & E). injection E2 as <-. injection E as -> <-.
  apply load_status_assigned in E1 as [L A]; [|done].
  unfold used_handles in *. cbn [p_command set_cmd set_handles set_base c_base c_handles c_handleNum set_tpm].
  unfold c_handles, c_handleNum in *. cbn. by rewrite take_replaced.
Qed.

(** Every handle that needs authorization has a session. *)
Lemma associate_sound l : ∀ k c n t t',
  associate l (Z.of_nat k) c n t = Some (TPM_RC_SUCCESS, t') →
  (∀ j, (j < k)%nat → s_associatedHandles (t_area t') !! j = s_associatedHandles (t_area t) !! j) ∧
  ∀ j h role, l !! j = Some h → CommandAuthRole c (Z.of_nat (k + j)) = Some role → role ≠ AUTH_NONE →
    Z.of_nat (k + j) ≤ u32 (n - 1) ∧
    s_associatedHandles (t_area t') !! (k + j)%nat = Some (HierarchyNormalizeHandle h).
Proof.
  induction l as [|h l IH]; intros k c n t t' E; cbn [associate] in E; [by injection E as <-; split|].
  replace (Z.of_nat k + 1) with (Z.of_nat (S k)) in E by lia.
  apply bind_inv in E as (role & t1 & Er & E). unfold of_option in Er.
  destruct (CommandAuthRole c (Z.of_nat k)) as [r|] eqn:R; [|done]. injection Er as -> <-.
  assert ((role = AUTH_NONE ∧ associate l (Z.of_nat (S k)) c n t = Some (TPM_RC_SUCCESS, t')) ∨
    (role ≠ AUTH_NONE ∧ Z.of_nat k ≤ u32 (n - 1) ∧ ∃ t1,
      area_put s_associatedHandles set_s_associatedHandles (Z.of_nat k) (HierarchyNormalizeHandle h) t = Some (tt, t1) ∧
      associate l (Z.of_nat (S k)) c n t1 = Some (TPM_RC_SUCCESS, t'))) as [[-> E1]|(Nr & Hn & t1 & Ep & E1)].
  { destruct role; [by left|right..].
    all: split; [done|]; apply guard_inv in E as [Hn E]; [|done]; split; [lia|].
    all: apply bind_inv in E as ([] & t1 & E1 & E); by exists t1. }
  - apply IH in E1 as [F S']. split; [intros; apply F; lia|]. intros [|j] h' role' Hj Hr N.
    + rewrite Nat.add_0_r in Hr. congruence.
    + replace (k + S j)%nat with (S k + j)%nat in * by lia. by apply (S' j h' role').
  - apply IH in E1 as [F S'].
    assert (s_associatedHandles (t_area t1) = <[k := HierarchyNormalizeHandle h]> (s_associatedHandles (t_area t)) ∧
      (k < length (s_associatedHandles (t_area t)))%nat) as [Ea Lk].
    { unfold area_put, area, area_set in Ep. munfold. destruct (_ && _) eqn:B; [|done]. injection Ep as <-.
      cbn. rewrite Nat2Z.id. zbool. split; [done|lia]. }
    split; [intros j Hj; rewrite F, Ea by lia; by rewrite list_lookup_insert_ne by lia|].
    intros [|j] h' role' Hj Hr N.
    + injection Hj as <-. rewrite Nat.add_0_r. split; [done|]. rewrite F, Ea by lia. by rewrite list_lookup_insert_eq.
    + replace (k + S j)%nat with (S k + j)%nat in * by lia. by apply (S' j h' role').
Qed.
End handles.

(** ** The session area *)

Section sessions.
Context `{TimeLayout} `{CryptEnv} `{HashLib} `{!ObjectImage}.
Implicit Types (p q : PState) (t : Tpm).

(** What reading the area keeps of the command. *)
Definition handle_part p := (c_cpHash (p_command p), c_index (p_command p), used_handles (p_command p)).

Lemma part_on_tpm {A} (m : M Tpm A) : keeps (view handle_part) (on_tpm m).
Proof. intros p a p' E. by apply on_tpm_inv in E as (t & _ & ->). Qed.
Lemma part_on_auth {A} (f : Unm A) : keeps (view handle_part) (on_auth f).
Proof. intros p a p'. unfold on_auth. destruct (f _) as [[r u]|]; [|done]. by intros [= <- <-]. Qed.
Lemma part_sessionNum n : keeps (view handle_part) (on_command (set_sessionNum n)).
Proof. by apply keeps_modify. Qed.
Hint Resolve part_on_tpm part_on_auth part_sessionNum : keeps.
Lemma part_retrieve fuel : ∀ i, keeps (view handle_part) (retrieve_loop fuel i).
Proof. induction fuel as [|fuel IH]; intros i; cbn [retrieve_loop]; unfold unmarshal_session; keeps. Qed.
Lemma part_RetrieveSessionData : keeps (view handle_part) RetrieveSessionData.
Proof. unfold RetrieveSessionData. pose proof part_retrieve. keeps. Qed.

Lemma retrieve_num fuel : ∀ i p p', retrieve_loop fuel i p = Some (TPM_RC_SUCCESS, p') →
  i ≤ c_sessionNum (p_command p') ∧ (0 < c_authSize (p_command p) → i < c_sessionNum (p_command p')).
Proof.
  induction fuel as [|fuel IH]; intros i p p' E; cbn [retrieve_loop] in E; [done|].
  apply bind_inv in E as (c & ? & Ec & E). injection Ec as <- <-.
  destruct (Z.ltb_spec 0 (c_authSize (p_command p))) as [A|A].
  - destruct (i =? MAX_SESSION_NUM) eqn:M.
    { injection E as E _. apply Z.eqb_eq in M as ->. done. }
    apply bind_inv in E as (r & p1 & E1 & E). apply guard_code in E as [-> E].
    apply bind_inv in E as (r & p2 & E2 & E). apply guard_code in E as [-> E]. apply IH in E as [L _]. lia.
  - apply bind_inv in E as ([] & p1 & E1 & E). injection E1 as <-. injection E as <-. cbn. lia.
Qed.

(** [ParseSessionBuffer] up to the checks. *)
Definition session_area : M PState Z :=
  let! c := gets p_command in
  let! allowed := of_option (IsSessionAllowed (c_index c)) in
  if negb allowed then ret TPM_RC_AUTH_CONTEXT
  else
    on_command (set_sessionNum 0) ;;
    RetrieveSessionData ;?
    (let! c := gets p_command in
     pAssert (c_handleNum c <=? MAX_SESSION_NUM) ;;
     on_tpm (associate (used_handles c) 0 (c_index c) (c_sessionNum c))).

Lemma ParseSessionBuffer_area p p' : ParseSessionBuffer p = Some (TPM_RC_SUCCESS, p') →
  ∃ q q', session_area p = Some (TPM_RC_SUCCESS, q) ∧
    check_sessions (Z.to_nat (c_sessionNum (p_command q))) 0 q = Some (TPM_RC_SUCCESS, q').
Proof.
  unfold ParseSessionBuffer. intros E. apply bind_inv in E as (c & ? & Ec & E). injection Ec as <- <-.
  apply bind_inv in E as (al & p1 & E1 & E). apply guard_inv in E as [Ha E]; [|done].
  apply bind_inv in E as ([] & p2 & E2 & E). apply bind_inv in E as (r & p3 & E3 & E).
  apply guard_code in E as [-> E]. apply bind_inv in E as (c & ? & Ec & E). injection Ec as <- <-.
  apply bind_inv in E as ([] & p4 & E4 & E). apply bind_inv in E as (r & p5 & E5 & E).
  apply guard_code in E as [-> E]. apply bind_inv in E as (r & p6 & E6 & E). apply guard_code in E as [-> _].
  exists p5, p6. split.
  - unfold session_area. erewrite bind_Some by done. erewrite bind_Some by exact E1. rewrite Ha. cbv iota.
    erewrite bind_Some by exact E2. unfold succeed. erewrite bind_Some by exact E3. rewrite Z.eqb_refl. cbn [negb].
    erewrite bind_Some by done. erewrite bind_Some by exact E4. exact E5.
  - apply on_tpm_inv in E5 as (t5 & _ & ->). cbn [p_command set_tpm].
    assert (p_command p4 = p_command p3) as -> by (by destruct (_ <=? _); injection E4 as <-). exact E6.
Qed.

(** A session area that is accepted gives every handle that needs it an
    authorization. *)
Lemma session_area_sound p q q' (i : nat) h role :
  0 < c_authSize (p_command p) →
  (∀ j d, c_cpHash (p_command p) !! j = Some d → size2B d = 0) →
  Forall (λ h, h ≠ TPM_RH_UNASSIGNED) (used_handles (p_command p)) →
  session_area p = Some (TPM_RC_SUCCESS, q) →
  check_sessions (Z.to_nat (c_sessionNum (p_command q))) 0 q = Some (TPM_RC_SUCCESS, q') →
  used_handles (p_command q) !! i = Some h →
  CommandAuthRole (c_index (p_command q)) (Z.of_nat i) = Some role → role ≠ AUTH_NONE →
  Z.of_nat i < c_sessionNum (p_command q) ∧
  authorized (p_tpm q) (p_command q) role i (HierarchyNormalizeHandle h).
Proof.
  intros A Z F E Ch Hi Hr Nr. unfold session_area in E. apply bind_inv in E as (c & ? & Ec & E). injection Ec as <- <-.
  apply bind_inv in E as (al & p1 & E1 & E). apply guard_inv in E as [_ E]; [|done].
  assert (p1 = p) as -> by (by destruct (IsSessionAllowed _); inversion E1).
  apply bind_inv in E as ([] & p2 & E2 & E). injection E2 as <-. unfold succeed in E.
  apply bind_inv in E as (r & p3 & E3 & E). apply guard_code in E as [-> E].
  pose proof (part_RetrieveSessionData _ _ _ E3) as V. injection V as V1 V2 V3.
  assert (0 < c_sessionNum (p_command p3)) as Sn.
  { unfold RetrieveSessionData in E3. apply bind_inv in E3 as ([] & p4 & E4 & E3). apply retrieve_num in E3 as [_ L].
    apply on_tpm_inv in E4 as (t4 & _ & ->). by apply L. }
  apply bind_inv in E as (c & ? & Ec & E). injection Ec as <- <-.
  apply bind_inv in E as ([] & p4 & E4 & E). assert (p_command p4 = p_command p3) as E4'
    by (by destruct (_ <=? _); injection E4 as <-).
  apply on_tpm_inv in E as (t5 & E5 & ->). cbn [p_command p_tpm set_tpm] in *. rewrite E4' in Hi, Hr, Ch |- *.
  apply (associate_sound _ 0) in E5 as [_ S]. destruct (S i h role Hi Hr Nr) as [Li As]. cbn [Nat.add] in *.
  assert (Z.of_nat i < c_sessionNum (p_command p3)) as Lt.
  { destruct (Z_lt_dec (c_sessionNum (p_command p3)) (2 ^ 32)) as [B|B].
    - rewrite wrap_small in Li by lia. lia.
    - pose proof (wrap_range 32 (c_sessionNum (p_command p3) - 1) ltac:(lia)). lia. }
  split; [done|]. rewrite <- E4'.
  change t5 with (p_tpm (set_tpm t5 p4)). change (p_command p4) with (p_command (set_tpm t5 p4)).
  eapply (check_sessions_sound _ (set_tpm t5 p4)); [exact Ch|lia|exact As| | |]; cbn [p_command set_tpm].
  - apply normalize_assigned. rewrite V3 in Hi. by eapply Forall_lookup_1 in F.
  - intros alg slot d x _ Hd _. left. eapply Z. rewrite <- V1. cbn in Hd. rewrite E4' in Hd. exact Hd.
  - rewrite E4'. exact Hr.
Qed.
End sessions.

(** ** The action *)

Section action.
Context `{TimeLayout} `{CryptEnv} `{HashLib} `{!ObjectImage} `{BlockCipher}.
Context (FILE_BACKED_NV : bool).
Abbreviation action := (command_action → option (list field) → bool → Tpm → outcome Tpm).
Implicit Types (p q : PState) (t : Tpm).

(** Whatever precedes the action. *)
Definition request_checked (requestSize : Z) : M PState Z :=
  parse_header requestSize ;?
  (on_tpm (on_nv NvIndexCacheInit) ;; on_dispatch ParseHandleBuffer) ;?
  load_entities ;?
  (on_command ClearCpRpHashes ;; parse_sessions).

(** The part of it up to the session checks: the header, the handles and the
    session area are read, and the handles have been given their sessions. *)
Definition request_parsed (requestSize : Z) : M PState Z :=
  parse_header requestSize ;?
  (on_tpm (on_nv NvIndexCacheInit) ;; on_dispatch ParseHandleBuffer) ;?
  load_entities ;?
  (on_command ClearCpRpHashes ;;
   let! c := gets p_command in
   if c_tag c =? TPM_ST_SESSIONS then
     on_params UINT32_Unmarshal (λ size,
       let authSize := int32 size in
       let! c := gets p_command in
       if (authSize <? 9) || (c_parameterSize c <? authSize) then ret TPM_RC_SIZE
       else
         on_command (λ c, set_authSize authSize
           (set_parameters (c_parameterBuffer c) (c_parameterSize c - authSize) c)) ;;
         session_area)
   else ret TPM_RC_SUCCESS).

Lemma succeed_inv {S} (m k : M S Z) s s' : succeed m k s = Some (TPM_RC_SUCCESS, s') →
  ∃ s1, m s = Some (TPM_RC_SUCCESS, s1) ∧ k s1 = Some (TPM_RC_SUCCESS, s').
Proof.
  unfold succeed. intros E. apply bind_inv in E as (r & s1 & E1 & E). apply guard_code in E as [-> E]. eauto.
Qed.
Lemma succeed_Some {S} (m k : M S Z) s s1 : m s = Some (TPM_RC_SUCCESS, s1) → succeed m k s = k s1.
Proof. intros E. unfold succeed. erewrite bind_Some by exact E. done. Qed.

(** An action only matters where the one before it succeeds. *)
Lemma succeed_ext {S} (m k k' : M S Z) s : succeed m k s ≠ succeed m k' s →
  ∃ s1, m s = Some (TPM_RC_SUCCESS, s1) ∧ k s1 ≠ k' s1.
Proof.
  unfold succeed, bind. destruct (m s) as [[r s1]|]; [|done].
  destruct (Z.eqb_spec r TPM_RC_SUCCESS) as [->|]; [|done]. cbn. eauto.
Qed.
Lemma bind_ext {S A B} (m : M S A) (k k' : A → M S B) s : bind m k s ≠ bind m k' s →
  ∃ a s1, m s = Some (a, s1) ∧ k a s1 ≠ k' a s1.
Proof. unfold bind. destruct (m s) as [[a s1]|]; [|done]. eauto. Qed.

Lemma bind_ne {S A B} (m m' : M S A) (k : A → M S B) s : bind m k s ≠ bind m' k s → m s ≠ m' s.
Proof. intros N E. apply N. unfold bind. by rewrite E. Qed.

Lemma run_command_checked (a1 a2 : action) n p : run_command a1 n p ≠ run_command a2 n p →
  ∃ q, request_checked n p = Some (TPM_RC_SUCCESS, q).
Proof.
  unfold run_command, request_checked. intros E.
  apply succeed_ext in E as (p1 & E1 & E). apply succeed_ext in E as (p2 & E2 & E).
  apply succeed_ext in E as (p3 & E3 & E). apply succeed_ext in E as (p4 & E4 & _).
  exists p4. rewrite (succeed_Some _ _ _ _ E1), (succeed_Some _ _ _ _ E2), (succeed_Some _ _ _ _ E3). exact E4.
Qed.

Lemma no_authorization_roles l : ∀ k c, no_authorization l (Z.of_nat k) c = Some true →
  ∀ j h role, l !! j = Some h → CommandAuthRole c (Z.of_nat (k + j)) = Some role → role = AUTH_NONE.
Proof.
  induction l as [|x l IH]; intros k c E [|j] h role Hj Hr; [done..| |]; cbn in E.
  all: destruct (CommandAuthRole c (Z.of_nat k)) as [[]|] eqn:R; try done.
  - rewrite Nat.add_0_r in Hr. congruence.
  - replace (Z.of_nat k + 1) with (Z.of_nat (S k)) in E by lia.
    eapply (IH (S k)); [exact E|exact Hj|]. by replace (S k + j)%nat with (k + S j)%nat by lia.
Qed.

Lemma UINT32_error u r u' : UINT32_Unmarshal u = Some (inl r, u') → r = TPM_RC_INSUFFICIENT.
Proof.
  unfold UINT32_Unmarshal, read_octets, uret, uerr. munfold. destruct (_ <? _); [by intros [= <- _]|].
  by destruct (inb _ _ _).
Qed.

(** A request that passes the checks has been parsed, and the authorizations it
    needs are there. *)
Lemma request_checked_sound n p p' : request_checked n p = Some (TPM_RC_SUCCESS, p') →
  ∃ q, request_parsed n p = Some (TPM_RC_SUCCESS, q) ∧
    ∀ (i : nat) h role, used_handles (p_command q) !! i = Some h →
      CommandAuthRole (c_index (p_command q)) (Z.of_nat i) = Some role → role ≠ AUTH_NONE →
      Z.of_nat i < c_sessionNum (p_command q) ∧
      authorized (p_tpm q) (p_command q) role i (HierarchyNormalizeHandle h).
Proof.
  unfold request_checked, request_parsed. intros E.
  apply succeed_inv in E as (p1 & E1 & E). apply succeed_inv in E as (p2 & E2 & E).
  apply succeed_inv in E as (p3 & E3 & E). apply bind_inv in E as ([] & p4 & E4 & E).
  rewrite (succeed_Some _ _ _ _ E1), (succeed_Some _ _ _ _ E2), (succeed_Some _ _ _ _ E3), (bind_Some _ _ _ _ _ E4).
  apply load_entities_assigned in E3. injection E4 as <-.
  set (p4 := set_cmd (ClearCpRpHashes (p_command p3)) p3) in *.
  assert (∀ j d, c_cpHash (p_command p4) !! j = Some d → size2B d = 0) as Z0.
  { intros j d. cbn. rewrite list_lookup_fmap. by destruct (_ !! j); intros [= <-]. }
  change (used_handles (p_command p3)) with (used_handles (p_command p4)) in E3. clearbody p4.
  unfold parse_sessions in E. apply bind_inv in E as (c & ? & Ec & E). injection Ec as <- <-.
  erewrite bind_Some by done. destruct (c_tag (p_command p4) =? TPM_ST_SESSIONS) eqn:Tg.
  - unfold on_params in *.
    destruct (UINT32_Unmarshal _) as [[[r|size] u]|] eqn:U; [by apply UINT32_error in U as ->|..|done].
    cbv zeta in *. apply bind_inv in E as (c & ? & Ec & E). injection Ec as <- <-. erewrite bind_Some by done.
    apply guard_inv in E as [G E]; [|done]. cbn [p_command set_cmd] in *. rewrite G. apply orb_false_elim in G as [G _].
    apply bind_inv in E as ([] & p5 & E5 & E). rewrite (bind_Some _ _ _ _ _ E5). injection E5 as <-.
    destruct (ParseSessionBuffer_area _ _ E) as (q & q' & Eq & Ch). exists q. split; [exact Eq|].
    intros i h role. eapply session_area_sound; [| | |exact Eq|exact Ch]; [cbn; lia|exact Z0|exact E3].
  - exists p4. split; [done|]. intros i h role Hi Hr Nr. destruct Nr.
    apply bind_inv in E as ([] & p5 & E5 & E). injection E5 as <-. unfold CheckAuthNoSession in E.
    apply bind_inv in E as (c & ? & Ec & E). injection Ec as <- <-.
    apply bind_inv in E as (none & p6 & E6 & E). apply guard_inv in E as [G _]; [|done].
    apply negb_false_iff in G as ->. unfold of_option in E6.
    destruct (no_authorization _ _ _) as [b|] eqn:N; [|done]. injection E6 as -> _.
    eapply (no_authorization_roles _ 0); [exact N|exact Hi|exact Hr].
Qed.

(** The state in which the prologue runs. *)
Definition flags_cleared t : option (unit * Tpm) :=
  (on_nv (modify (set_updateNV 0)) ;; on_nv (modify (set_clearOrderly false))) t.

End action.

(** ** A command with a password *)

(** An action that refuses every command. *)
Definition refuse_action (_ : command_action) (_ : option (list field)) (_ : bool) (t : Tpm) : outcome Tpm :=
  mkOutcome TPM_RC_VALUE [] t false.

Definition demo_request : bytes := clock_set [1; 2; 3] 9.
Definition demo_start (t : Tpm) : PState :=
  mkP t (set_parameters demo_request (blen demo_request) no_command) demo_response 0.

(** The handles of the command and the role of the first. *)
Definition first_handle (p : PState) : list Z * option AUTH_ROLE :=
  (used_handles (p_command p), CommandAuthRole (c_index (p_command p)) 0).
Definition after_parsing {A} (o : option (unit * Tpm)) (m : Tpm → option (Z * PState)) (g : PState → A) : option A :=
  o ≫= λ s, m s.2 ≫= λ x, Some (g x.2).
Lemma after_parsing_inv {A} o m (g : PState → A) t r p v :
  o = Some (tt, t) → m t = Some (r, p) → after_parsing o m g = Some v → g p = v.
Proof. unfold after_parsing. intros -> E. cbn. rewrite E. by intros [= ->]. Qed.

Definition outcome_size (r : option ((bytes * Z) * Tpm)) : Z := default 0 (r ≫= λ x, Some x.1.2).
Lemma sizes_differ r1 r2 : (outcome_size r1 =? outcome_size r2) = false → r1 ≠ r2.
Proof. intros D ->. by rewrite Z.eqb_refl in D. Qed.

Lemma demo_sizes :
  (outcome_size (ExecuteCommand false demo_action demo_fail demo_cycles demo_request demo_response demo_tpm)
   =? outcome_size (ExecuteCommand false refuse_action demo_fail demo_cycles demo_request demo_response demo_tpm))
  = false.
Proof. vm_compute. reflexivity. Qed.

Lemma demo_handles_owner :
  after_parsing (flags_cleared demo_tpm ≫= λ r, prologue false demo_cycles r.2)
    (λ t, request_parsed (blen demo_request) (demo_start t)) first_handle = Some ([TPM_RH_OWNER], Some AUTH_USER).
Proof. vm_compute. reflexivity. Qed.
Lemma demo_parsed t0 p :
  (flags_cleared demo_tpm ≫= λ r, prologue false demo_cycles r.2) = Some (tt, t0) →
  request_parsed (blen demo_request) (demo_start t0) = Some (TPM_RC_SUCCESS, p) →
  first_handle p = ([TPM_RH_OWNER], Some AUTH_USER).
Proof.
  intros E1 E2.
  exact (after_parsing_inv _ (λ t, request_parsed (blen demo_request) (demo_start t)) _ t0 _ p _ E1 E2 demo_handles_owner).
Qed.

