(* ===== verification/Ftpm.v ===== *)
(** * The entry of the firmware (src/ftpm.c, include/ftpm/mprv.h, src/mprv.S,
    src/ftpm-sbi-opensbi.c, src/TPMCmdp.c, src/RunCommand.c, src/LocalityPlat.c)

    A program runs a TPM command by an environment call with the address of a
    [tss_ftpm_context].  The context and the octets of the command are copied
    from the caller's memory with the caller's translation and privilege (MPRV),
    the command is executed, and the response and the context are copied back.

    The caller's memory is a map from addresses to octets; which addresses a
    load or a store may use, with the SUM bit of [mstatus] set or not, is up to
    the caller's page tables, the class [UserAccess].  A load or a store that
    faults makes the copy function return -1. *)

From stdpp Require Import gmap.
From S2P Require Import Prelude TpmTypes Memory Struct Cbc NVMem NVReserved Clock NvList NvRam NvIndex NvCmd WireTypes Unmarshal Marshal.
From S2P Require Import Pcr Kdf Sym Session Time TpmState Hierarchy CommandAttributes DispatchData Dispatch.
From S2P Require Import ObjectStore Entity SessionAuth SessionParse SessionResponse ExecCommand.
Local Open Scope Z_scope.

Definition MAX_BUFFER : Z := 81920.
Definition REGBYTES : Z := Z.shiftl 1 3.
Definition MPRV_BLOCK : Z := REGBYTES * 8.
Definition SBI_FTPM_RUN_COMMAND : Z := 2001.
Definition SBI_ENOTSUPP : Z := -2.

(** [struct tss_ftpm_context]; [sizeof] is 32, with padding after the members
    of type [uint32_t]. *)
Record tss_ftpm_context := mkCnx {
  commandBuffer : Z; written : Z; responseBuffer : Z; read : Z;
  cnx_pad1 : bytes; cnx_pad2 : bytes }.
Definition sizeof_tss_ftpm_context : Z := 32.

Definition cnx_of (b : bytes) : tss_ftpm_context :=
  mkCnx (le_val (bread b 0 8)) (le_val (bread b 8 4)) (le_val (bread b 16 8)) (le_val (bread b 24 4))
    (bread b 12 4) (bread b 28 4).
Definition cnx_octets (c : tss_ftpm_context) : bytes :=
  le_bytes 8 (commandBuffer c) ++ le_bytes 4 (written c) ++ cnx_pad1 c
  ++ le_bytes 8 (responseBuffer c) ++ le_bytes 4 (read c) ++ cnx_pad2 c.
Definition set_read (x : Z) (c : tss_ftpm_context) : tss_ftpm_context :=
  mkCnx (commandBuffer c) (written c) (responseBuffer c) x (cnx_pad1 c) (cnx_pad2 c).

(** ** Memory of the caller *)

Class UserAccess := {
  can_load : bool → Z → bool;
  can_store : bool → Z → bool
}.

(** Where the linker has put the buffers. *)
Class FtpmLayout := {
  InputBuffer_addr : Z; OutputBuffer_addr : Z; failResponse_addr : Z; local_cnx_addr : Z }.

Section copy.
Context `{UserAccess}.
Abbreviation user := (gmap Z Z).

Fixpoint load (sum : bool) (m : user) (addr : Z) (n : nat) : option bytes :=
  match n with
  | O => Some []
  | S n =>
      if can_load sum addr then
        match m !! addr, load sum m (u64 (addr + 1)) n with
        | Some x, Some l => Some (x :: l)
        | _, _ => None
        end
      else None
  end.

Fixpoint store (m : user) (addr : Z) (d : bytes) : user :=
  match d with [] => m | x :: d => store (<[addr := x]> m) (u64 (addr + 1)) d end.

Fixpoint storable (sum : bool) (addr : Z) (n : nat) : bool :=
  match n with O => true | S n => can_store sum addr && storable sum (u64 (addr + 1)) n end.

(** [copy1_to_sm], [copy_word_to_sm] and [copy_block_to_sm], for [n] = 1,
    [REGBYTES] and [MPRV_BLOCK]: the loads come before the stores.  [dst] is an
    offset in a buffer of the firmware. *)
Definition copy_unit_to_sm (sum : bool) (m : user) (n dst src : Z) (buf : bytes) : option (Z * bytes) :=
  match load sum m src (Z.to_nat n) with
  | Some d => if inb buf dst n then Some (0, bwrite buf dst d) else None
  | None => Some (-1, buf)
  end.

(** The stores of [d], a register at a time: those before the one that faults
    are made. *)
Fixpoint store_words (sum : bool) (fuel : nat) (m : user) (addr : Z) (d : bytes) : Z * user :=
  match fuel with
  | O => (0, m)
  | S fuel =>
      let w := take (Z.to_nat REGBYTES) d in
      if storable sum addr (length w) then
        store_words sum fuel (store m addr w) (u64 (addr + blen w)) (drop (Z.to_nat REGBYTES) d)
      else (-1, m)
  end.

(** [copy1_from_sm], [copy_word_from_sm] and [copy_block_from_sm]. *)
Definition copy_unit_from_sm (sum : bool) (buf : bytes) (n src dst : Z) (m : user) : option (Z * user) :=
  if inb buf src n then Some (store_words sum (Z.to_nat (Z.max 1 (n / REGBYTES))) m dst (bread buf src n))
  else None.

(** One of the loops of [copy_to_sm] and [copy_from_sm]: units of [n] octets
    while there are as many left.  [off] is the offset in the buffer of the
    firmware, [addr] the address in the caller's memory; the first component of
    the result is what the last unit returned. *)
Section loops.
Context {St : Type} (unit_copy : Z → Z → Z → St → option (Z * St)).

Fixpoint copy_while (fuel : nat) (n off addr len : Z) (s : St) : option (Z * Z * Z * Z * St) :=
  match fuel with
  | O => None
  | S fuel =>
      if n <=? len then
        match unit_copy n off addr s with
        | Some (res, s) =>
            if negb (res =? 0) then Some (res, off, addr, len, s)
            else copy_while fuel n (off + n) (u64 (addr + n)) (len - n) s
        | None => None
        end
      else Some (0, off, addr, len, s)
  end.

(** Blocks, then words, if both addresses are aligned; then octets. *)
Definition copy_sm (base addr len : Z) (s : St) : option (Z * St) :=
  let run n '(res, off, addr, len, s) :=
    if negb (res =? 0) then Some (res, off, addr, len, s)
    else copy_while (S (Z.to_nat len)) n off addr len s in
  let aligned := (base mod REGBYTES =? 0) && (addr mod REGBYTES =? 0) in
  match
    (r ← (if aligned then r ← run MPRV_BLOCK (0, 0, addr, len, s); run REGBYTES r
          else Some (0, 0, addr, len, s));
     run 1 r)
  with
  | Some (res, _, _, _, s) => Some (res, s)
  | None => None
  end.
End loops.

(** [dst_buf] is a buffer of the firmware at the address [base]. *)
Definition copy_to_sm (sum : bool) (m : user) (base : Z) (dst_buf : bytes) (src len : Z) : option (Z * bytes) :=
  copy_sm (copy_unit_to_sm sum m) base src len dst_buf.

Definition copy_from_sm (sum : bool) (m : user) (dst base : Z) (src_buf : bytes) (len : Z) : option (Z * user) :=
  copy_sm (copy_unit_from_sm sum src_buf) base dst len m.

(** The [unsigned long] -1 on an error. *)
Definition copy_result {A} (r : option (Z * A)) : option (Z * A) :=
  match r with Some (res, a) => Some (if res =? 0 then 0 else u64 (-1), a) | None => None end.
Definition copy_to_ftpm sum m base dst src len := copy_result (copy_to_sm sum m base dst src len).
Definition copy_from_ftpm sum m dst base src len := copy_result (copy_from_sm sum m dst base src len).
End copy.

(** ** The firmware *)

Section ftpm.
Context `{TimeLayout} `{CryptEnv} `{HashLib} `{!ObjectImage} `{BlockCipher}.
Context `{UserAccess} `{FtpmLayout}.
Context (FILE_BACKED_NV : bool) (fail : FailInfo).
Context (action : command_action → option (list field) → bool → Tpm → outcome Tpm).

Record Ftpm := mkFtpm {
  f_tpm : Tpm;
  InputBuffer : bytes;
  OutputBuffer : bytes;
  s_isPowerOn : bool;
  f_sum : bool;              (* mstatus.SUM *)
  f_user : gmap Z Z
}.

Definition set_f_tpm (x : Tpm) (f : Ftpm) : Ftpm :=
  mkFtpm x (InputBuffer f) (OutputBuffer f) (s_isPowerOn f) (f_sum f) (f_user f).
Definition set_InputBuffer (x : bytes) (f : Ftpm) : Ftpm :=
  mkFtpm (f_tpm f) x (OutputBuffer f) (s_isPowerOn f) (f_sum f) (f_user f).
Definition set_OutputBuffer (x : bytes) (f : Ftpm) : Ftpm :=
  mkFtpm (f_tpm f) (InputBuffer f) x (s_isPowerOn f) (f_sum f) (f_user f).
Definition set_f_sum (x : bool) (f : Ftpm) : Ftpm :=
  mkFtpm (f_tpm f) (InputBuffer f) (OutputBuffer f) (s_isPowerOn f) x (f_user f).
Definition set_f_user (x : gmap Z Z) (f : Ftpm) : Ftpm :=
  mkFtpm (f_tpm f) (InputBuffer f) (OutputBuffer f) (s_isPowerOn f) (f_sum f) x.

Definition plat__LocalitySet (locality : Z) : M Tpm unit :=
  let locality := if (4 <? locality) && (locality <? 32) then 0 else locality in
  modify (λ t, set_t_pcr (set_p_locality locality (t_pcr t)) t).

(** The buffer of the response and its size; a failure response is in a buffer
    of [TpmFailureMode], any other in the buffer that was passed. *)
Definition plat__RunCommand (cycles : Z) (request response : bytes) : M Tpm (bytes * Z) :=
  ExecuteCommand FILE_BACKED_NV action fail cycles request response.

(** The address, the buffer and the size of the response. *)
Definition rpc__Send_Command (cycles locality : Z) (request : bytes) : M Ftpm (Z * bytes * Z) := λ f,
  if negb (s_isPowerOn f) then Some ((OutputBuffer_addr, OutputBuffer f, 0), f)
  else
    match (plat__LocalitySet locality ;;
           let! failed := gets failed in
           let! r := plat__RunCommand cycles request (OutputBuffer f) in
           ret (failed, r)) (f_tpm f) with
    | Some ((failed, (buffer, size)), t) =>
        let f := set_f_tpm t f in
        if (failed : bool) then Some ((failResponse_addr, buffer, size), f)
        else Some ((OutputBuffer_addr, buffer, size), set_OutputBuffer buffer f)
    | None => None
    end.

(** What [copy_to_ftpm] and [copy_from_ftpm] return is not looked at. *)
Definition ftpm_cmd_handler (cycles : Z) (cnx : tss_ftpm_context) : M Ftpm tss_ftpm_context :=
  let length := written cnx in
  modify (set_f_sum true) ;;
  let! f := gets id in
  let! '(_, b) := of_option
    (copy_to_ftpm (f_sum f) (f_user f) InputBuffer_addr (InputBuffer f) (commandBuffer cnx) length) in
  modify (set_InputBuffer b) ;;
  if blen b <? length then undef
  else
    let! '(addr, buffer, size) := rpc__Send_Command cycles 0 (bread b 0 length) in
    let! f := gets id in
    let! '(_, m) := of_option (copy_from_ftpm (f_sum f) (f_user f) (responseBuffer cnx) addr buffer size) in
    modify (set_f_user m) ;;
    modify (set_f_sum false) ;;
    ret (set_read size cnx).

(** The octets of [local_cnx] are used only when all of them have been copied. *)
Definition sbi_ftpm_run_command (cycles cnx : Z) : M Ftpm Z :=
  let! f := gets id in
  let! '(r, local_cnx) := of_option
    (copy_to_ftpm (f_sum f) (f_user f) local_cnx_addr (bfill 0 sizeof_tss_ftpm_context) cnx
       sizeof_tss_ftpm_context) in
  if negb (r =? 0) then ret r
  else
    let! c := ftpm_cmd_handler cycles (cnx_of local_cnx) in
    let! f := gets id in
    let! '(r, m) := of_option
      (copy_from_ftpm (f_sum f) (f_user f) cnx local_cnx_addr (cnx_octets c) sizeof_tss_ftpm_context) in
    modify (set_f_user m) ;;
    ret r.

(** The result is an [int]. *)
Definition sbi_ecall_ftpm_handler (cycles funcid a0 : Z) : M Ftpm Z :=
  if funcid =? SBI_FTPM_RUN_COMMAND then
    let! r := sbi_ftpm_run_command cycles a0 in ret (int32 (u32 r))
  else ret SBI_ENOTSUPP.

(** ** Signals of the platform (TPMCmdp.c) *)

Definition rpc__Signal_PhysicalPresenceOn (f : Ftpm) : Ftpm :=
  if s_isPowerOn f then set_f_tpm (set_s_physicalPresence true (f_tpm f)) f else f.
Definition rpc__Signal_PhysicalPresenceOff (f : Ftpm) : Ftpm :=
  if s_isPowerOn f then set_f_tpm (set_s_physicalPresence false (f_tpm f)) f else f.
End ftpm.

(** ** The heap ([_sbrk]) *)
Definition sbrk (heap_end heap_ptr incr : Z) : option (Z * Z) :=
  if heap_end <? heap_ptr + incr then None else Some (heap_ptr, heap_ptr + incr).
