(* ===== verification/FtpmProps.v ===== *)
(** * The entry of the firmware: properties

    A command whose context and octets the caller can read is executed on
    exactly those octets, and exactly the response is written back where the
    caller can be written to, whatever the alignment of the buffers and the mix of
    blocks, words and octets the copies are made of.  Two further theorems say what happens outside that: a length
    over [MAX_BUFFER] leaves the input buffer, and a command buffer that cannot
    be read has the previous command executed again. *)

From stdpp Require Import gmap.
From S2P Require Import Prelude TpmTypes Memory Struct Cbc NVMem NVReserved Clock NvList NvRam NvIndex NvCmd WireTypes Unmarshal Marshal.
From S2P Require Import Pcr Kdf Sym Session Time TpmState Hierarchy CommandAttributes DispatchData Dispatch.
From S2P Require Import ObjectStore Entity SessionAuth SessionParse SessionResponse ExecCommand Ftpm Aes AesProof TimeProps Demo.
Local Open Scope Z_scope.

Lemma u64_add a b : u64 (u64 a + b) = u64 (a + b).
Proof. unfold wrap. by rewrite Z.add_mod_idemp_l. Qed.

Section copies.
Context `{UserAccess}.

(** ** Loads and stores *)

Lemma load_length sum m n : ∀ addr d, load sum m addr n = Some d → length d = n.
Proof.
  induction n as [|n IH]; intros addr d; cbn [load]; [by intros [= <-]|].
  destruct (can_load sum addr); [|done]. destruct (m !! addr); [|done].
  destruct (load sum m (u64 (addr + 1)) n) eqn:E; [|done]. intros [= <-]. cbn. by erewrite IH.
Qed.

Lemma load_prefix sum m n : ∀ addr d j, load sum m addr n = Some d → (j ≤ n)%nat →
  load sum m addr j = Some (take j d).
Proof.
  induction n as [|n IH]; intros addr d [|j]; cbn [load]; try by (intros; [done|lia]) || done.
  - lia.
  - destruct (can_load sum addr); [|done]. destruct (m !! addr); [|done].
    destruct (load sum m (u64 (addr + 1)) n) eqn:E; [|done]. intros [= <-] ?.
    by erewrite IH by (done || lia).
Qed.

Lemma load_suffix sum m k : ∀ n addr d, load sum m addr n = Some d → (k ≤ n)%nat → addr = u64 addr →
  load sum m (u64 (addr + Z.of_nat k)) (n - k) = Some (drop k d).
Proof.
  induction k as [|k IH]; intros [|n] addr d; try lia; intros L K U.
  - cbn in L. injection L as <-. by rewrite Z.add_0_r, <- U.
  - by rewrite Z.add_0_r, <- U, Nat.sub_0_r, drop_0.
  - cbn [load] in L. destruct (can_load sum addr); [|done]. destruct (m !! addr); [|done].
    destruct (load sum m (u64 (addr + 1)) n) eqn:E; [|done]. injection L as <-.
    apply (IH n) in E; [|lia|by unfold wrap; rewrite Z.mod_mod by done].
    rewrite u64_add in E. replace (addr + 1 + Z.of_nat k) with (addr + Z.of_nat (S k)) in E by lia.
    exact E.
Qed.

Lemma load_slice sum m addr n d k j : load sum m addr n = Some d → addr = u64 addr →
  (k + j ≤ n)%nat → load sum m (u64 (addr + Z.of_nat k)) j = Some (take j (drop k d)).
Proof. intros L U K. apply load_prefix with (n - k)%nat; [apply load_suffix; [done|lia|done]|lia]. Qed.

Lemma store_app d1 : ∀ m addr d2, addr = u64 addr →
  store m addr (d1 ++ d2) = store (store m addr d1) (u64 (addr + blen d1)) d2.
Proof.
  induction d1 as [|x d1 IH]; intros m addr d2 U.
  - cbn [app store blen length]. change (blen []) with 0. by rewrite Z.add_0_r, <- U.
  - cbn [app store]. rewrite IH by (unfold wrap; by rewrite Z.mod_mod by done).
    rewrite u64_add. do 2 f_equal. unfold blen. cbn [length]. lia.
Qed.

Lemma storable_slice sum k : ∀ n addr j, storable sum addr n = true → addr = u64 addr →
  (k + j ≤ n)%nat → storable sum (u64 (addr + Z.of_nat k)) j = true.
Proof.
  induction k as [|k IH]; intros n addr j S U K.
  - rewrite Z.add_0_r, <- U. clear U. revert n addr S K.
    induction j as [|j IHj]; intros [|n] addr S K; cbn in *; try done; try lia.
    apply andb_true_iff in S as [-> S]. cbn. apply IHj with n; [done|lia].
  - destruct n as [|n]; [lia|]. cbn [storable] in S. apply andb_true_iff in S as [_ S].
    apply IH with (j := j) in S; [|by unfold wrap; rewrite Z.mod_mod by done|lia].
    rewrite u64_add in S. by replace (addr + Z.of_nat (Datatypes.S k)) with (addr + 1 + Z.of_nat k) by lia.
Qed.

(** The octets outside the stored area are untouched. *)
Lemma store_frame d : ∀ m addr a,
  (∀ i, 0 ≤ i < blen d → a ≠ u64 (addr + i)) → addr = u64 addr → store m addr d !! a = m !! a.
Proof.
  induction d as [|x d IH]; intros m addr a N U; [done|]. cbn [store].
  assert (blen (x :: d) = 1 + blen d) as L by (unfold blen; cbn [length]; lia). pose proof (blen_nonneg d).
  rewrite IH.
  - apply lookup_insert_ne. specialize (N 0). rewrite Z.add_0_r, <- U in N. intros <-. apply N; [lia|done].
  - intros i I. rewrite u64_add, <- Z.add_assoc. apply N. lia.
  - unfold wrap. by rewrite Z.mod_mod by done.
Qed.

(** A block is stored a register at a time. *)
Lemma store_words_ok sum fuel : ∀ m addr d, addr = u64 addr → (length d ≤ 8 * fuel)%nat →
  storable sum addr (length d) = true → store_words sum fuel m addr d = (0, store m addr d).
Proof.
  induction fuel as [|fuel IH]; intros m addr d U L S.
  - destruct d; [done|cbn in L; lia].
  - cbn [store_words]. change (Z.to_nat REGBYTES) with 8%nat.
    rewrite <- (take_drop 8 d) in S at 1. rewrite length_app in S.
    pose proof (storable_slice sum 0 _ addr (length (take 8 d)) S U ltac:(lia)) as S1.
    rewrite Z.add_0_r, <- U in S1. rewrite S1.
    pose proof (storable_slice sum (length (take 8 d)) _ addr (length (drop 8 d)) S U ltac:(lia)) as S2.
    rewrite IH; [|by unfold wrap; rewrite Z.mod_mod by done|rewrite length_drop; lia|exact S2].
    by rewrite <- store_app, take_drop.
Qed.

(** ** The loops *)

Definition copy_size (n : Z) : Prop := n = 1 ∨ n = REGBYTES ∨ n = MPRV_BLOCK.
Lemma copy_size_pos n : copy_size n → 1 ≤ n ≤ 64.
Proof. unfold copy_size, MPRV_BLOCK, REGBYTES. change (Z.shiftl 1 3) with 8. lia. Qed.

(** If every unit up to [total] takes [P k] to [P (k + n)], so does the whole
    copy, from [P 0] to [P total]; where a unit may leave the buffer ([stuck]),
    so may the copy. *)
Section loops.
Context {St : Type} (unit_copy : Z → Z → Z → St → option (Z * St)) (addr0 total : Z).
Context (P : Z → St → Prop) (stuck : Prop).
Hypothesis addr_ok : addr0 = u64 addr0.
Hypothesis step : ∀ n k s, copy_size n → 0 ≤ k → k + n ≤ total → P k s →
  (stuck ∧ unit_copy n k (u64 (addr0 + k)) s = None) ∨
  ∃ s', unit_copy n k (u64 (addr0 + k)) s = Some (0, s') ∧ P (k + n) s'.

(** A loop of the copy ends with less than [n] octets to go. *)
Definition runs n (r : option (Z * Z * Z * Z * St)) : Prop :=
  (stuck ∧ r = None) ∨
  ∃ k s, r = Some (0, k, u64 (addr0 + k), total - k, s) ∧ 0 ≤ k ≤ total ∧ P k s ∧ total - k < n.

Lemma copy_while_ok n fuel : ∀ k s, copy_size n → 0 ≤ k ≤ total → total - k < Z.of_nat fuel → P k s →
  runs n (copy_while unit_copy fuel n k (u64 (addr0 + k)) (total - k) s).
Proof.
  induction fuel as [|fuel IH]; intros k s N K F HP; [lia|]. cbn [copy_while].
  pose proof (copy_size_pos n N).
  destruct (Z.leb_spec n (total - k)).
  - destruct (step n k s N) as [[St1 E]|(s' & E & HP')]; [lia|lia|done|rewrite E; by left|].
    rewrite E. cbn [negb Z.eqb].
    rewrite u64_add, <- Z.add_assoc. replace (total - k - n) with (total - (k + n)) by lia.
    apply IH; [done|lia|lia|done].
  - right. exists k, s. repeat split; done || lia.
Qed.

Lemma run_ok n k s : copy_size n → 0 ≤ k ≤ total → P k s →
  runs n (copy_while unit_copy (S (Z.to_nat (total - k))) n k (u64 (addr0 + k)) (total - k) s).
Proof. intros. apply copy_while_ok; done || lia. Qed.

Lemma copy_sm_ok base s : 0 ≤ total → P 0 s →
  (stuck ∧ copy_sm unit_copy base addr0 total s = None) ∨
  ∃ s', copy_sm unit_copy base addr0 total s = Some (0, s') ∧ P total s'.
Proof.
  intros T HP. unfold copy_sm. cbn [negb Z.eqb].
  assert (runs (total + 1)
    (if (base mod REGBYTES =? 0) && (addr0 mod REGBYTES =? 0) then
       r ← copy_while unit_copy (S (Z.to_nat total)) MPRV_BLOCK 0 addr0 total s;
       (let '(res, off, addr, len, s) := r in
        if negb (res =? 0) then Some (res, off, addr, len, s)
        else copy_while unit_copy (S (Z.to_nat len)) REGBYTES off addr len s)
     else Some (0, 0, addr0, total, s))) as [[St1 E]|(k & s1 & E & K & HP1 & _)].
  { case_match.
    - pose proof (run_ok MPRV_BLOCK 0 s) as R. rewrite Z.add_0_r, Z.sub_0_r, <- addr_ok in R.
      destruct R as [[St1 ->]|(k & s1 & -> & K & HP1 & _)]; [by unfold copy_size; auto|lia|done|by left|].
      cbn [mbind option_bind negb Z.eqb].
      destruct (run_ok REGBYTES k s1) as [[St2 E2]|(k2 & s2 & E2 & K2 & HP2 & _)];
        [by unfold copy_size; auto|lia|done|by left|].
      right. exists k2, s2. repeat split; try done; lia.
    - right. exists 0, s. rewrite Z.add_0_r, Z.sub_0_r, <- addr_ok. repeat split; done || lia. }
  - rewrite E. by left.
  - rewrite E. cbn [mbind option_bind negb Z.eqb].
    destruct (run_ok 1 k s1) as [[St2 E2]|(k2 & s2 & E2 & K2 & HP2 & L)];
      [by unfold copy_size; auto|lia|done|rewrite E2; by left|].
    right. rewrite E2. exists s2. split; [done|]. by replace total with k2 by lia.
Qed.
End loops.

(** Where a unit may also fail, with [Q], the copy either goes through or fails. *)
Section faults.
Context {St : Type} (unit_copy : Z → Z → Z → St → option (Z * St)) (addr0 total : Z).
Context (P : Z → St → Prop) (Q : St → Prop).
Hypothesis addr_ok : addr0 = u64 addr0.
Hypothesis step : ∀ n k s, copy_size n → 0 ≤ k → k + n ≤ total → P k s →
  (∃ s', unit_copy n k (u64 (addr0 + k)) s = Some (0, s') ∧ P (k + n) s') ∨
  (∃ s', unit_copy n k (u64 (addr0 + k)) s = Some (-1, s') ∧ Q s').

Definition ends n (r : option (Z * Z * Z * Z * St)) : Prop :=
  (∃ k s, r = Some (0, k, u64 (addr0 + k), total - k, s) ∧ 0 ≤ k ≤ total ∧ P k s ∧ total - k < n) ∨
  (∃ o a l s, r = Some (-1, o, a, l, s) ∧ Q s).

Lemma copy_while_ends n fuel : ∀ k s, copy_size n → 0 ≤ k ≤ total → total - k < Z.of_nat fuel → P k s →
  ends n (copy_while unit_copy fuel n k (u64 (addr0 + k)) (total - k) s).
Proof.
  induction fuel as [|fuel IH]; intros k s N K F HP; [lia|]. cbn [copy_while].
  pose proof (copy_size_pos n N). destruct (Z.leb_spec n (total - k)).
  - destruct (step n k s N) as [(s' & E & HP')|(s' & E & HQ)]; [lia|lia|done| |].
    + rewrite E. cbn [negb Z.eqb]. rewrite u64_add, <- Z.add_assoc.
      replace (total - k - n) with (total - (k + n)) by lia. apply IH; [done|lia|lia|done].
    + rewrite E. cbn [negb Z.eqb]. right. by eexists _, _, _, _.
  - left. exists k, s. repeat split; done || lia.
Qed.

Lemma run_ends n k s : copy_size n → 0 ≤ k ≤ total → P k s →
  ends n (copy_while unit_copy (S (Z.to_nat (total - k))) n k (u64 (addr0 + k)) (total - k) s).
Proof. intros. apply copy_while_ends; done || lia. Qed.

Lemma copy_sm_ends base s : 0 ≤ total → P 0 s →
  (∃ s', copy_sm unit_copy base addr0 total s = Some (0, s') ∧ P total s') ∨
  (∃ s', copy_sm unit_copy base addr0 total s = Some (-1, s') ∧ Q s').
Proof.
  intros T HP. unfold copy_sm. cbn [negb Z.eqb].
  assert (ends (total + 1)
    (if (base mod REGBYTES =? 0) && (addr0 mod REGBYTES =? 0) then
       r ← copy_while unit_copy (S (Z.to_nat total)) MPRV_BLOCK 0 addr0 total s;
       (let '(res, off, addr, len, s) := r in
        if negb (res =? 0) then Some (res, off, addr, len, s)
        else copy_while unit_copy (S (Z.to_nat len)) REGBYTES off addr len s)
     else Some (0, 0, addr0, total, s))) as [(k & s1 & E & K & HP1 & _)|(o & a & l & s1 & E & HQ)].
  { case_match.
    - pose proof (run_ends MPRV_BLOCK 0 s) as R. rewrite Z.add_0_r, Z.sub_0_r, <- addr_ok in R.
      destruct R as [(k & s1 & -> & K & HP1 & _)|(o & a & l & s1 & -> & HQ)]; [by unfold copy_size; auto|lia|done| |].
      + cbn [mbind option_bind negb Z.eqb].
        destruct (run_ends REGBYTES k s1) as [(k2 & s2 & E2 & K2 & HP2 & _)|E2];
          [by unfold copy_size; auto|lia|done| |by right].
        left. exists k2, s2. repeat split; try done; lia.
      + right. by eexists _, _, _, _.
    - left. exists 0, s. rewrite Z.add_0_r, Z.sub_0_r, <- addr_ok. repeat split; done || lia. }
  - rewrite E. cbn [mbind option_bind negb Z.eqb].
    destruct (run_ends 1 k s1) as [(k2 & s2 & E2 & K2 & HP2 & L)|(o & a & l & s2 & E2 & HQ)];
      [by unfold copy_size; auto|lia|done| |].
    + left. rewrite E2. exists s2. split; [done|]. by replace total with k2 by lia.
    + right. rewrite E2. by exists s2.
  - rewrite E. right. by exists s1.
Qed.
End faults.

(** Whatever the alignment, the octets that can be loaded arrive in the buffer. *)
Lemma copy_to_sm_ok sum m base buf src len d :
  load sum m src (Z.to_nat len) = Some d → src = u64 src → 0 ≤ len ≤ blen buf →
  copy_to_ftpm sum m base buf src len = Some (0, bwrite buf 0 d).
Proof.
  intros L U B. pose proof (load_length _ _ _ _ _ L) as Hd.
  unfold copy_to_ftpm, copy_to_sm.
  destruct (copy_sm_ok (copy_unit_to_sm sum m) src len (λ k b, b = bwrite buf 0 (take (Z.to_nat k) d)) False U)
    with (base := base) (s := buf) as [[[] _]|(b & -> & ->)]; [|lia|by rewrite bwrite_nil|].
  - intros n k b N K1 K2 ->. right. pose proof (copy_size_pos n N). unfold copy_unit_to_sm.
    pose proof (load_slice _ _ _ _ _ (Z.to_nat k) (Z.to_nat n) L U ltac:(lia)) as E.
    rewrite (Z2Nat.id k) in E by lia. rewrite E. clear E.
    assert (blen (take (Z.to_nat k) d) = k) as Lk by (unfold blen; rewrite length_take; lia).
    assert (blen (take (Z.to_nat n) (drop (Z.to_nat k) d)) = n) as Ln
      by (unfold blen; rewrite length_take, length_drop; lia).
    rewrite (proj2 (inb_true _ _ _)) by (rewrite blen_bwrite; lia).
    eexists; split; [done|]. change k with (0 + k) at 2.
    rewrite bwrite_bwrite_adjacent_eq by lia. f_equal.
    rewrite take_take_drop. f_equal. lia.
  - cbn. by rewrite take_ge by lia.
Qed.

(** More octets than the buffer has leave it. *)
Lemma copy_to_sm_overflow sum m base buf src len d :
  load sum m src (Z.to_nat len) = Some d → src = u64 src → blen buf < len →
  copy_to_ftpm sum m base buf src len = None.
Proof.
  intros L U B. pose proof (blen_nonneg buf). pose proof (load_length _ _ _ _ _ L) as Hd.
  unfold copy_to_ftpm, copy_to_sm.
  destruct (copy_sm_ok (copy_unit_to_sm sum m) src len (λ k b, blen b = blen buf ∧ k ≤ blen buf) True U)
    with (base := base) (s := buf) as [[_ ->]|(b & _ & _ & K)]; [|lia|done|done|lia].
  intros n k b N K1 K2 [Lb _]. pose proof (copy_size_pos n N). unfold copy_unit_to_sm.
  pose proof (load_slice _ _ _ _ _ (Z.to_nat k) (Z.to_nat n) L U ltac:(lia)) as E.
  rewrite (Z2Nat.id k) in E by lia. rewrite E.
  destruct (inb b k n) eqn:I; [|by left]. apply inb_true in I. right. eexists. split; [done|].
  assert (blen (take (Z.to_nat n) (drop (Z.to_nat k) d)) = n) as Ln
    by (unfold blen; rewrite length_take, length_drop; lia).
  rewrite blen_bwrite by lia. lia.
Qed.

(** Nothing is copied from an address that cannot be loaded. *)
Lemma copy_to_sm_fault sum m base buf src len :
  can_load sum src = false → 0 < len →
  copy_to_ftpm sum m base buf src len = Some (u64 (-1), buf).
Proof.
  intros C L. unfold copy_to_ftpm, copy_to_sm, copy_sm.
  assert (∀ n, copy_size n → copy_unit_to_sm sum m n 0 src buf = Some (-1, buf)) as F.
  { intros n N. pose proof (copy_size_pos n N). unfold copy_unit_to_sm.
    destruct (Z.to_nat n) eqn:E; [lia|]. cbn [load]. by rewrite C. }
  assert (∀ n, copy_size n → copy_while (copy_unit_to_sm sum m) (S (Z.to_nat len)) n 0 src len buf =
    if n <=? len then Some (-1, 0, src, len, buf) else Some (0, 0, src, len, buf)) as W.
  { intros n N. cbn [copy_while]. rewrite F by done. by case_match. }
  cbn [negb Z.eqb]. rewrite W by (unfold copy_size; auto).
  destruct (_ && _); [|cbn [mbind option_bind negb Z.eqb]; rewrite W by (unfold copy_size; auto);
    by rewrite (proj2 (Z.leb_le 1 len)) by lia].
  destruct (Z.leb_spec MPRV_BLOCK len); [done|]. cbn [mbind option_bind negb Z.eqb].
  rewrite W by (unfold copy_size; auto). destruct (Z.leb_spec REGBYTES len); [done|].
  cbn [mbind option_bind negb Z.eqb]. rewrite W by (unfold copy_size; auto).
  by rewrite (proj2 (Z.leb_le 1 len)) by lia.
Qed.

Lemma copy_from_sm_ok sum m base buf dst len :
  storable sum dst (Z.to_nat len) = true → dst = u64 dst → 0 ≤ len ≤ blen buf →
  copy_from_ftpm sum m dst base buf len = Some (0, store m dst (bread buf 0 len)).
Proof.
  intros L U B. unfold copy_from_ftpm, copy_from_sm.
  destruct (copy_sm_ok (copy_unit_from_sm sum buf) dst len (λ k u, u = store m dst (bread buf 0 k)) False U)
    with (base := base) (s := m) as [[[] _]|(b & -> & ->)]; [|lia|done|done].
  intros n k b N K1 K2 ->. right. pose proof (copy_size_pos n N). unfold copy_unit_from_sm.
  rewrite (proj2 (inb_true _ _ _)) by lia.
  assert (length (bread buf k n) = Z.to_nat n) as Ln by (pose proof (blen_bread buf k n); unfold blen in *; lia).
  rewrite store_words_ok.
  - eexists; split; [done|]. rewrite bread_split, store_app by (done || lia). by rewrite (blen_bread buf 0 k) by lia.
  - unfold wrap. by rewrite Z.mod_mod.
  - rewrite Ln. destruct N as [->|[->| ->]]; by apply Nat.leb_le.
  - rewrite Ln, <- (Z2Nat.id k) by lia. apply storable_slice with (Z.to_nat len); [done|done|lia].
Qed.

(** ** Stores that fault *)

Lemma storable_add sum j : ∀ addr k, addr = u64 addr →
  storable sum addr (j + k) = storable sum addr j && storable sum (u64 (addr + Z.of_nat j)) k.
Proof.
  induction j as [|j IH]; intros addr k U; cbn [storable Nat.add].
  - by rewrite Z.add_0_r, <- U.
  - rewrite IH by (unfold wrap; by rewrite Z.mod_mod by done). rewrite andb_assoc, u64_add. do 3 f_equal. lia.
Qed.

(** Nothing but the octets from [addr] on, [n] of them, differs. *)
Definition same_outside (addr n : Z) (m m' : gmap Z Z) : Prop :=
  ∀ a, (∀ i, 0 ≤ i < n → a ≠ u64 (addr + i)) → m' !! a = m !! a.

Lemma store_words_fault sum fuel : ∀ m addr d, addr = u64 addr → (length d ≤ 8 * fuel)%nat →
  storable sum addr (length d) = false →
  ∃ m', store_words sum fuel m addr d = (-1, m') ∧ same_outside addr (blen d) m m'.
Proof.
  induction fuel as [|fuel IH]; intros m addr d U L S; [destruct d; [done|cbn in L; lia]|].
  cbn [store_words]. change (Z.to_nat REGBYTES) with 8%nat.
  rewrite <- (take_drop 8 d) in S at 1. rewrite length_app, storable_add in S by done.
  destruct (storable sum addr (length (take 8 d))); [|by exists m]. cbn in S.
  destruct (IH (store m addr (take 8 d)) (u64 (addr + blen (take 8 d))) (drop 8 d)) as (m' & E & F);
    [by unfold wrap; rewrite Z.mod_mod by done|rewrite length_drop; lia|exact S|].
  exists m'. split; [exact E|]. intros a A.
  assert (blen d = blen (take 8 d) + blen (drop 8 d)) as Ld by (rewrite <- blen_app; by rewrite take_drop).
  pose proof (blen_nonneg (take 8 d)). pose proof (blen_nonneg (drop 8 d)).
  rewrite F; [apply store_frame; [|done]|]; intros i I.
  - apply A. lia.
  - rewrite u64_add, <- Z.add_assoc. apply A. lia.
Qed.

Lemma copy_from_sm_fault sum m base buf dst len :
  storable sum dst (Z.to_nat len) = false → dst = u64 dst → 0 ≤ len ≤ blen buf →
  ∃ m', copy_from_ftpm sum m dst base buf len = Some (u64 (-1), m') ∧ same_outside dst len m m'.
Proof.
  intros L U B. unfold copy_from_ftpm, copy_from_sm.
  destruct (copy_sm_ends (copy_unit_from_sm sum buf) dst len
    (λ k u, u = store m dst (bread buf 0 k) ∧ storable sum dst (Z.to_nat k) = true) (same_outside dst len m) U)
    with (base := base) (s := m) as [(m' & _ & _ & L')|(m' & -> & F)]; [|lia|done|congruence|by exists m'].
  intros n k b N K1 K2 [-> Sk]. pose proof (copy_size_pos n N). unfold copy_unit_from_sm.
  rewrite (proj2 (inb_true _ _ _)) by lia.
  assert (length (bread buf k n) = Z.to_nat n) as Ln by (pose proof (blen_bread buf k n); unfold blen in *; lia).
  assert (length (bread buf k n) ≤ 8 * Z.to_nat (Z.max 1 (n / REGBYTES)))%nat as Lf
    by (rewrite Ln; destruct N as [->|[->| ->]]; by apply Nat.leb_le).
  assert (u64 (dst + k) = u64 (u64 (dst + k))) as Uk by (unfold wrap; by rewrite Z.mod_mod).
  assert (Z.to_nat (k + n) = (Z.to_nat k + Z.to_nat n)%nat) as Ek by lia.
  destruct (storable sum (u64 (dst + k)) (length (bread buf k n))) eqn:S.
  - left. rewrite store_words_ok by done. eexists. split; [done|]. split.
    + rewrite bread_split, store_app by (done || lia). by rewrite (blen_bread buf 0 k) by lia.
    + rewrite Ek, storable_add, Sk by done. rewrite Z2Nat.id by lia. rewrite Ln in S. by rewrite S.
  - right. destruct (store_words_fault sum _ (store m dst (bread buf 0 k)) _ _ Uk Lf S) as (m' & -> & F).
    exists m'. split; [done|]. intros a A. rewrite F.
    + apply store_frame; [|done]. intros i I. apply A. rewrite blen_bread in I by lia. lia.
    + intros i I. rewrite blen_bread in I by lia. rewrite u64_add, <- Z.add_assoc. apply A. lia.
Qed.

(** The copy back, with and without a fault. *)
Lemma copy_from_sm_total sum m base buf dst len :
  dst = u64 dst → 0 ≤ len ≤ blen buf →
  ∃ m', copy_from_ftpm sum m dst base buf len
      = Some (if storable sum dst (Z.to_nat len) then 0 else u64 (-1), m') ∧
    same_outside dst len m m' ∧
    (storable sum dst (Z.to_nat len) = true → m' = store m dst (bread buf 0 len)).
Proof.
  intros U B. destruct (storable sum dst (Z.to_nat len)) eqn:S.
  - eexists. split; [by apply copy_from_sm_ok|]. split; [|done]. intros a A. apply store_frame; [|done].
    intros i I. apply A. by rewrite blen_bread in I by lia.
  - destruct (copy_from_sm_fault sum m base buf dst len S U B) as (m' & E & F). by exists m'.
Qed.
End copies.

Section firmware.
Context `{TimeLayout} `{CryptEnv} `{HashLib} `{!ObjectImage} `{BlockCipher}.
Context `{UserAccess} `{FtpmLayout}.
Context (FILE_BACKED_NV : bool) (fail : FailInfo).
Context (action : command_action → option (list field) → bool → Tpm → outcome Tpm).
Implicit Types f : Ftpm.

(** The command on locality 0, into the firmware's response buffer. *)
Definition executed cycles (req : bytes) f (out : bytes) (n : Z) (t : Tpm) : Prop :=
  (plat__LocalitySet 0 ;; ExecuteCommand FILE_BACKED_NV action fail cycles req (OutputBuffer f)) (f_tpm f)
  = Some ((out, n), t).

Lemma executed_at cycles req f r :
  plat__LocalitySet 0 (f_tpm f) = Some (tt, f_tpm f) →
  ExecuteCommand FILE_BACKED_NV action fail cycles req (OutputBuffer f) (f_tpm f) = Some r →
  executed cycles req f r.1.1 r.1.2 r.2.
Proof. intros L E. unfold executed. rewrite (bind_Some _ _ _ _ _ L), E. by destruct r as [[??]?]. Qed.

Lemma send_command cycles req f out n t :
  s_isPowerOn f = true → executed cycles req f out n t →
  ∃ addr f', rpc__Send_Command FILE_BACKED_NV fail action cycles 0 req f = Some ((addr, out, n), f') ∧
    f_tpm f' = t ∧ f_sum f' = f_sum f ∧ f_user f' = f_user f.
Proof.
  intros On E. unfold rpc__Send_Command. rewrite On. cbn [negb].
  unfold executed in E. apply bind_inv in E as ([] & t1 & E1 & E).
  erewrite bind_Some by exact E1. erewrite bind_Some by done.
  erewrite bind_Some by exact E. cbn.
  destruct (failed t1); eauto 10.
Qed.

(** What the handler does with what is in the input buffer after the copy. *)
Lemma handler_run cycles c f r b out n t :
  s_isPowerOn f = true → written c ≤ blen b →
  copy_to_ftpm true (f_user f) InputBuffer_addr (InputBuffer f) (commandBuffer c) (written c) = Some (r, b) →
  executed cycles (bread b 0 (written c)) f out n t → responseBuffer c = u64 (responseBuffer c) →
  0 ≤ n ≤ blen out →
  ∃ f', ftpm_cmd_handler FILE_BACKED_NV fail action cycles c f = Some (set_read n c, f') ∧
    f_tpm f' = t ∧ f_sum f' = false ∧
    same_outside (responseBuffer c) n (f_user f) (f_user f') ∧
    (storable true (responseBuffer c) (Z.to_nat n) = true →
     f_user f' = store (f_user f) (responseBuffer c) (bread out 0 n)).
Proof.
  intros On W C E U N. unfold ftpm_cmd_handler.
  erewrite bind_Some by done. erewrite bind_Some by done. cbn [id f_sum f_user set_f_sum InputBuffer].
  rewrite C. erewrite bind_Some by done. cbn beta iota.
  erewrite bind_Some by done. rewrite (proj2 (Z.ltb_ge _ _)) by lia.
  destruct (send_command cycles (bread b 0 (written c)) (set_InputBuffer b (set_f_sum true f)) out n t)
    as (addr & f1 & E1 & T1 & S1 & U1); [done|exact E|].
  erewrite bind_Some by exact E1. cbn beta iota. erewrite bind_Some by done.
  unfold id. rewrite S1, U1. cbn [f_sum f_user set_InputBuffer set_f_sum].
  destruct (copy_from_sm_total true (f_user f) addr out (responseBuffer c) n U N) as (m' & -> & F & D).
  erewrite bind_Some by done. cbn beta iota.
  do 2 erewrite bind_Some by done. eexists. split; [done|]. rewrite <- T1. by split_and!.
Qed.

Definition user_octets (m : gmap Z Z) : Prop := ∀ a x, m !! a = Some x → is_byte x.

Lemma load_octets sum m n : user_octets m → ∀ addr d, load sum m addr n = Some d → Forall is_byte d.
Proof.
  intros O. induction n as [|n IH]; intros addr d; cbn [load]; [intros [= <-]; constructor|].
  destruct (can_load sum addr); [|done]. destruct (m !! addr) eqn:E; [|done].
  destruct (load sum m (u64 (addr + 1)) n) eqn:L; [|done]. intros [= <-]. constructor; eauto.
Qed.

(** The members of a context are in range. *)
Lemma cnx_range b : Forall is_byte b →
  commandBuffer (cnx_of b) = u64 (commandBuffer (cnx_of b)) ∧
  responseBuffer (cnx_of b) = u64 (responseBuffer (cnx_of b)) ∧
  0 ≤ written (cnx_of b).
Proof.
  intros B. cbn [commandBuffer responseBuffer written cnx_of].
  pose proof (le_val_bread b 0 8 B ltac:(lia)). pose proof (le_val_bread b 16 8 B ltac:(lia)).
  pose proof (le_val_bread b 8 4 B ltac:(lia)).
  split; [|split; [|lia]]; symmetry; apply wrap_small; cbn in *; lia.
Qed.

Lemma cnx_octets_len b n : blen b = 32 → blen (cnx_octets (set_read n (cnx_of b))) = 32.
Proof.
  intros L. unfold cnx_octets, set_read, cnx_of. cbn [commandBuffer written responseBuffer read cnx_pad1 cnx_pad2].
  rewrite !blen_app, !blen_le_bytes, !blen_bread by lia. done.
Qed.

(** C5. A command is executed on exactly the octets the caller gave, and exactly
    its response goes back.  The TPM is on, the caller's context can be loaded with
    the SUM bit as it is and the command with SUM set, the command fits
    [MAX_BUFFER], and its execution returns ([ExecuteCommand] is a partial
    function: the theorem says nothing of a command on which it is undefined).  Then the
    environment call returns, the TPM has executed these octets on locality 0, and
    nothing of the caller's memory changes but the octets at [responseBuffer], as
    many as the response has, and the 32 octets of the context.  The call returns 0
    if the context can be stored (with SUM clear, as the handler leaves it) and -1
    if not.  If the response can be stored with SUM set its octets are those at
    [responseBuffer], and if the context can be stored [read] is the size of the
    response in it; if the response cannot be stored it is lost, and the call
    returns the same.  This holds for every alignment of the buffers, every length
    and every mix of blocks, words and octets in the copies. *)
Theorem ftpm_command cycles cnx f octets req out n t :
  s_isPowerOn f = true → blen (InputBuffer f) = MAX_BUFFER → user_octets (f_user f) →
  cnx = u64 cnx → load (f_sum f) (f_user f) cnx 32 = Some octets →
  let c := cnx_of octets in
  written c ≤ MAX_BUFFER →
  load true (f_user f) (commandBuffer c) (Z.to_nat (written c)) = Some req →
  executed cycles req f out n t → 0 ≤ n ≤ blen out →
  ∃ f' m,
    sbi_ecall_ftpm_handler FILE_BACKED_NV fail action cycles SBI_FTPM_RUN_COMMAND cnx f
      = Some (if storable false cnx 32 then 0 else -1, f') ∧
    f_tpm f' = t ∧ f_sum f' = false ∧
    same_outside (responseBuffer c) n (f_user f) m ∧ same_outside cnx 32 m (f_user f') ∧
    (storable true (responseBuffer c) (Z.to_nat n) = true →
     m = store (f_user f) (responseBuffer c) (bread out 0 n)) ∧
    (storable false cnx 32 = true → f_user f' = store m cnx (cnx_octets (set_read n c))).
Proof.
  intros On LI UO Uc Lc c W Lr E N.
  pose proof (load_octets _ _ _ UO _ _ Lc) as B. pose proof (load_length _ _ _ _ _ Lc) as Lo.
  destruct (cnx_range _ B) as (Rc & Rr & Rw). fold c in Rc, Rr, Rw.
  assert (blen octets = 32) as Lo' by (unfold blen; rewrite Lo; done).
  destruct (handler_run cycles c f 0 (bwrite (InputBuffer f) 0 req) out n t)
    as (f1 & E1 & T1 & Sm & F1 & D1); try done.
  { pose proof (load_length _ _ _ _ _ Lr). rewrite blen_bwrite by (unfold blen in *; lia). lia. }
  { apply copy_to_sm_ok; [done|done|lia]. }
  { pose proof (load_length _ _ _ _ _ Lr).
    rewrite bread_bwrite_same by (unfold blen in *; lia). done. }
  pose proof (cnx_octets_len octets n Lo') as Lx. fold c in Lx.
  destruct (copy_from_sm_total false (f_user f1) local_cnx_addr (cnx_octets (set_read n c)) cnx 32 Uc ltac:(lia))
    as (m2 & E2 & F2 & D2).
  exists (set_f_user m2 f1), (f_user f1).
  split; [|split_and!; try done; intros S; rewrite (D2 S), (bread_all _ 32) by done; done].
  unfold sbi_ecall_ftpm_handler, sbi_ftpm_run_command. rewrite Z.eqb_refl.
  rewrite (bind_Some _ _ _ (if storable false cnx 32 then 0 else u64 (-1)) (set_f_user m2 f1));
    [by destruct (storable false cnx 32)|].
  erewrite bind_Some by done.
  rewrite (copy_to_sm_ok _ _ _ _ _ _ octets) by done.
  erewrite bind_Some by done. cbn beta iota. cbn [negb Z.eqb].
  replace (bwrite (bfill 0 sizeof_tss_ftpm_context) 0 octets) with octets
    by (unfold bwrite; rewrite take_0, Lo, drop_ge by done; by rewrite app_nil_r).
  fold c. erewrite bind_Some by exact E1. erewrite bind_Some by done. unfold id. rewrite Sm.
  unfold sizeof_tss_ftpm_context. rewrite E2. erewrite bind_Some by done. cbn beta iota. by erewrite bind_Some by done.
Qed.

(** A length over [MAX_BUFFER] is not refused: the copy of the command leaves
    the input buffer of the firmware. *)
Theorem ftpm_overflow cycles c f d :
  blen (InputBuffer f) = MAX_BUFFER → commandBuffer c = u64 (commandBuffer c) → MAX_BUFFER < written c →
  load true (f_user f) (commandBuffer c) (Z.to_nat (written c)) = Some d →
  ftpm_cmd_handler FILE_BACKED_NV fail action cycles c f = None.
Proof.
  intros LI U W L. unfold ftpm_cmd_handler. do 2 erewrite bind_Some by done.
  cbn [id f_sum f_user set_f_sum InputBuffer]. by rewrite (copy_to_sm_overflow _ _ _ _ _ _ d) by (done || lia).
Qed.

(** A command buffer that cannot be loaded is not refused: the TPM executes the
    octets that are in the input buffer, those of the previous command. *)
Theorem ftpm_stale_command cycles c f out n t :
  s_isPowerOn f = true → can_load true (commandBuffer c) = false →
  0 < written c ≤ blen (InputBuffer f) →
  executed cycles (bread (InputBuffer f) 0 (written c)) f out n t → 0 ≤ n ≤ blen out →
  responseBuffer c = u64 (responseBuffer c) →
  ∃ f', ftpm_cmd_handler FILE_BACKED_NV fail action cycles c f = Some (set_read n c, f') ∧ f_tpm f' = t.
Proof.
  intros On C W E N U.
  destruct (handler_run cycles c f (u64 (-1)) (InputBuffer f) out n t) as (f' & E' & T' & _);
    [done|lia|apply copy_to_sm_fault; [done|lia]|done..|]. eauto.
Qed.
End firmware.

(** ** A command on a TPM that has been started *)

#[local] Instance demo_access : UserAccess := {| can_load _ a := 4096 <=? a; can_store _ a := 4096 <=? a |}.
#[local] Instance demo_layout : FtpmLayout :=
  {| InputBuffer_addr := 0x80000000; OutputBuffer_addr := 0x80020000;
     failResponse_addr := 0x80040001; local_cnx_addr := 0x80041008 |}.

(** The context at 0x1000, the command at 0x2000, room for the response at
    0x3001. *)
Definition demo_cnx (length : Z) : bytes :=
  le_bytes 8 0x2000 ++ le_bytes 4 length ++ bfill 0 4 ++ le_bytes 8 0x3001 ++ le_bytes 4 0 ++ bfill 0 4.
Definition demo_user : gmap Z Z := store (store ∅ 0x1000 (demo_cnx 12)) 0x2000 get_random.
Definition demo_ftpm : Ftpm :=
  mkFtpm demo_tpm (bfill 0 MAX_BUFFER) demo_response true false demo_user.

Lemma map_octets (m : gmap Z Z) : forallb (λ p, (0 <=? p.2) && (p.2 <? 256)) (map_to_list m) = true → user_octets m.
Proof.
  intros E a x L. apply elem_of_map_to_list, list_elem_of_In in L.
  eapply forallb_forall in E; [|exact L]. cbn in E. unfold is_byte. zbool. lia.
Qed.

Definition demo_run : option ((bytes * Z) * Tpm) :=
  ExecuteCommand false demo_action demo_fail demo_cycles get_random (OutputBuffer demo_ftpm) (f_tpm demo_ftpm).
Definition demo_out : (bytes * Z) * Tpm := default (([], 0), demo_tpm) demo_run.

Lemma demo_run_ok : demo_run = Some demo_out.
Proof.
  unfold demo_out. assert (bool_decide (is_Some demo_run) = true) as E by (vm_compute; reflexivity).
  apply bool_decide_eq_true in E as [r ->]. done.
Qed.
Lemma demo_out_ok :
  ExecuteCommand false demo_action demo_fail demo_cycles get_random (OutputBuffer demo_ftpm) (f_tpm demo_ftpm)
  = Some demo_out.
Proof. rewrite <- demo_run_ok. unfold demo_run. reflexivity. Qed.
Lemma demo_size : demo_out.1.2 = 16.
Proof. vm_compute. reflexivity. Qed.
Lemma demo_locality : plat__LocalitySet 0 (f_tpm demo_ftpm) = Some (tt, f_tpm demo_ftpm).
Proof. reflexivity. Qed.
Lemma demo_executed : executed false demo_fail demo_action demo_cycles get_random demo_ftpm
  demo_out.1.1 demo_out.1.2 demo_out.2.
Proof. exact (executed_at _ _ _ _ _ demo_ftpm _ demo_locality demo_out_ok). Qed.

Lemma ftpm_command_witness :
  ∃ f',
    sbi_ecall_ftpm_handler false demo_fail demo_action demo_cycles SBI_FTPM_RUN_COMMAND 0x1000 demo_ftpm
      = Some (0, f') ∧
    f_tpm f' = demo_out.2 ∧
    f_user f' = store (store demo_user 0x3001 [0x80; 1; 0; 0; 0; 16; 0; 0; 0; 0; 0; 4; 1; 2; 3; 4]) 0x1000
                  (cnx_octets (set_read 16 (cnx_of (demo_cnx 12)))).
Proof.
  destruct (ftpm_command false demo_fail demo_action demo_cycles 0x1000 demo_ftpm (demo_cnx 12) get_random
    demo_out.1.1 demo_out.1.2 demo_out.2) as (f' & m & E & T & _ & _ & _ & D1 & D2).
  - done.
  - by apply blen_bfill.
  - apply map_octets. vm_compute. reflexivity.
  - vm_compute. reflexivity.
  - vm_compute. reflexivity.
  - vm_compute. discriminate.
  - vm_compute. reflexivity.
  - exact demo_executed.
  - rewrite demo_size. split; [lia|]. vm_compute. discriminate.
  - exists f'. split; [exact E|]. split; [exact T|]. rewrite D2, D1; vm_compute; reflexivity.
Defined.
